(* ===== verification/_CoqProject ===== *)
-Q . S2P
Prelude.v
NalUtil.v
PesParse.v
PsDemux.v
PsMux.v
PsStream.v
PsRoundtrip.v
PsDemuxSpec.v
AuSplit.v
EsDemux.v
Receiver.v
ReceiverSpec.v
RtpSend.v
Pipeline.v
TcpMedia.v
DevicePs.v
RtpPusher.v
DevicePath.v
GoStrings.v
GoText.v
GoBase64.v
Sdp.v
SipMsg.v
GoCrypto.v
Digest.v
SecHeaders.v
Security.v
SecAuth.v
SecRuns.v
DeviceRegister.v
GbIds.v
CascadeRegister.v
Ptz.v
DeviceMgr.v
RegisterAuth.v
Registration.v
SecRegistration.v
PtzControl.v
PortManager.v
SessionMgr.v
FrameHub.v
Segment.v
Playback.v
Talkback.v
LiveOffers.v
DeviceInvite.v
DeviceDialogs.v
DialogRuns.v
SecDialogs.v
Xml.v
XmlStruct.v
ManscdpTypes.v
ManscdpCodec.v
DeviceManscdp.v
PlatformMessage.v
CatalogExchange.v
RecordExchange.v
Templates.v
PlatformControl.v
DeviceCommands.v
CommandExchange.v
Cascade.v
CascadeChannels.v
CascadeExchange.v
CascadeMedia.v
CascadeForward.v
CascadeSession.v
CascadeOffers.v
CascadeDialogs.v
