(* ===== verification/Prelude.v ===== *)
(** * A verified model of gb28181-go

    GB/T 28181 is the Chinese standard for networked video surveillance. The
    repository implements both of its roles in Go. A *device* (package [device])
    registers over SIP, answers INVITEs and pushes its video as RTP packets that
    carry an MPEG program stream. A *platform* (packages [platform],
    [platform/sip], [platform/cascade]) accepts registrations, invites channels,
    receives and demuxes the media and fans frames out to consumers; towards an
    upper platform it plays the device's part. [psmux], [nalutil], [manscdp],
    [backoff] are shared by the two.

    ** How the parts interact

    Signalling: the device's REGISTER exchange meets the platform's handler; an
    INVITE takes a port from the pool, offers a session description, is answered
    with another one and ends as an installed session whose receiver is fed by the
    network. Media: access units go through a PS muxer and an RTP packetizer to the
    network and through the receiver (framing, SSRC check, jitter buffer), the PS or
    ES demuxer and the splitter to the frame hub. The files follow this, and the
    theorems compose: those of a whole path are proved from those of its parts.

    ** Conventions

    A byte and a machine integer is a [Z], with its wrap-around written out ([u8],
    [u16], [u32], [u64], [s16], [s64]); a slice or string is a list of them. A panic of
    Go is [None] where it can happen at all, an error is a constructor of the result.
    Mutable structs are records that are passed along, and a field update is written
    [r <| f := v |>]. Goroutines and locks become atomic actions of a step relation
    (PortManager, FrameHub, SessionMgr). Loops of Go are structural recursion or run on
    fuel; every fuel is a function of the input length, and a theorem says that it is
    enough or the caller computes it from the input. Clock readings, nonces and the
    order in which Go ranges over a map are arguments. Logging and metrics are left out.
    Names are those of the source; a name that Rocq reserves or a type already uses
    gets an underscore or a prefix.

    ** Files

    - Prelude: integers, indexing and slicing with Go's bounds, record update.
    - NalUtil ([nalutil/nalutil.go]): NAL unit classes and parameter sets.
    - PesParse ([platform/psdemux_pes.go]): start codes, PES headers, stream maps.
    - PsDemux ([platform/psdemux.go], [psdemux_audio.go]): the PS demuxer.
      PsDemuxSpec: it is total, its loops end, its buffers are bounded.
    - PsMux ([psmux/mux.go]): the PS muxer. PsStream, PsRoundtrip: streams of units,
      and the round trip through the demuxer for any cut of the stream.
    - AuSplit ([platform/au_split.go]): one access unit per frame.
    - EsDemux ([platform/esdemux.go]): H.264 and H.265 payloads without PS.
    - Receiver ([platform/rtp.go]): packets to access units. ReceiverSpec: it never
      panics, isolates sources, tolerates reordering within its buffer.
    - RtpSend ([psmux/rtp.go]): packets of one burst. Pipeline: the media path of
      the cascade sender, from [WriteAU] to the receiver's callbacks.
    - TcpMedia ([platform/rtp.go], [readTCP]): both TCP framings against the readers.
    - DevicePs ([device/ps.go]), RtpPusher ([device/rtp_pusher.go]), DevicePath
      ([device/server.go]): the device's muxer, pusher and media loop, and its path
      to the platform over UDP and TCP.
    - GoStrings, GoText: the parts of [strings], [strconv] and [encoding/hex] in use.
      GoCrypto: MD5 and SHA-256, executable, with their published test vectors.
    - Sdp ([manscdp/codec.go], [platform/session.go], [device/server.go],
      [device/playback.go], [device/media_security.go]): SSRCs, offers and answers.
    - SipMsg ([device/sip.go], [device/sip_tcp.go]): messages and TCP framing.
    - Digest ([device/digest.go]): challenge, response, Authorization header.
    - DeviceRegister ([device/server.go]): the exchange, keepalive, refresh.
    - GbIds ([device/device_id.go], [platform/sip/gbpath.go], [validate.go] of both
      sides): identifiers and configuration checks.
    - CascadeRegister ([backoff/backoff.go], [platform/cascade/service.go]): backoff
      and the registration loop towards an upper platform.
    - Ptz, PtzControl ([platform/ptz.go], [device/ptz.go]): PTZ commands.
    - DeviceMgr ([platform/device.go], [platform/channel.go]): the registry.
    - RegisterAuth ([platform/sip/server.go], [authlimiter.go]): [handleRegister].
      Registration: the device's exchange run against it.
    - GoBase64: [encoding/base64]. SecHeaders, Security ([security35114/headers.go],
      [level.go], [crypto.go], [integrity.go], [media.go]): header and SDP codecs of
      GB35114, signatures, sealed keys, the packet cryptor. SecAuth
      ([authenticator.go], [platform.go]): the two authenticators and their exchange.
      SecRuns: overlapping calls of the platform. SecRegistration: the exchange inside
      the SIP registration.
    - PortManager ([platform/portmanager.go]), SessionMgr ([platform/session.go]):
      the port pool and the sessions that use it. FrameHub ([platform/framehub.go]).
    - Segment ([device/segment.go]), Playback ([device/playback.go]): recordings,
      their playback and download with pause, speed and seek.
    - Talkback ([device/talkback.go], [platform/sip/talk.go]): voice talk, both sides.
    - DeviceInvite ([device/server.go], [talkback.go], [broadcast.go]): what INVITE,
      BYE and a broadcast do to the one media slot of the device, as atomic steps
      interleaved with the media goroutines. DeviceDialogs: a live call step by step,
      retransmissions, early BYEs. DialogRuns: the invariant of the slot. SecDialogs: a
      live call under level C, from the offer to the keys on both sides.
    - Xml, XmlStruct: the part of [encoding/xml] in use, trees and their text first,
      then documents as values of Go's struct types. ManscdpTypes, ManscdpCodec
      ([manscdp]): the document types, [Decode] and [Encode]. Templates: documents that
      the code writes line by line.
    - DeviceManscdp ([device/manscdp.go], [infoquery.go]), DeviceCommands
      ([device/control.go], [config.go], [snapshot.go], [upgrade.go], [server.go]): what
      the device answers to a MESSAGE and what it does. PlatformMessage
      ([platform/sip/server.go], [subscribe.go], [playback.go]), PlatformControl
      ([platform/control.go], [catalog.go]): what the platform makes of a MESSAGE or
      NOTIFY and the commands it sends. CatalogExchange, RecordExchange and
      CommandExchange run the two sides against each other.
    - Cascade ([platform/cascade/service.go], [catalog.go], [records.go], [notify.go]):
      the upper platforms, the aggregated catalog and its channel IDs, the answers to
      queries, the forwarding of controls. CascadeChannels: the allocation of IDs, with
      two catalogs at once. CascadeExchange: an upper platform against the cascade.
    - CascadeMedia ([platform/cascade/media.go], [playback.go]): INVITEs of an upper
      platform, the table of forwards and the callbacks that turn frames into packets.
      CascadeForward: streams through any number of platforms. CascadeSession: the
      goroutine of a forward and the calls that close it, step by step. CascadeOffers:
      the offers of the platform as the cascade reads them. CascadeDialogs: sequences
      of INVITEs, BYEs and stops.
    - LiveOffers: the live offers of the platform as the device reads them, video and
      audio-only.

    ** What the theorems show

    - Media paths: what [WriteAU] or the device's media loop is given comes out at
      the receiver's callbacks, frame by frame ([media_path], [device_media_path]),
      from the round trips of the muxers ([session_roundtrip], [device_roundtrip]), of
      the framings ([tcp_as_udp]) and of the splitter ([split_recovers_frames]). A
      download sends the frames of its time range from the first keyframe on
      ([download_selects]), and they arrive ([download_delivers]); the parser of the
      recordings agrees with that of the demuxer ([parsers_agree]).
    - Robustness on any input: the demuxer and the receiver never panic, end, and
      stay under their caps ([demuxer_total], [demuxer_memory], [receive_safe]); packets
      of foreign sources change nothing ([ssrc_isolation]); reordering within the
      window is invisible ([reorder_tolerated]).
    - Signalling codecs: SIP messages round trip, alone and on a stream in any chunks
      ([sip_roundtrip], [sip_stream_roundtrip]); the device reads every offer as it
      was meant ([live_offer_understood], [fetch_offer_understood]).
    - Documents: what either side encodes, the other decodes as the same type and value
      ([message_roundtrip]); a catalog or a list of recordings that the platform asks
      for arrives complete ([catalog_exchanged], [records_exchanged]), a command calls
      the callback it means or is refused ([commands_executed]). The documents on which
      the platform panics are characterised ([message_panics]).
    - Sessions: the session manager refines the port pool, sessions never share a
      port, teardown is ordered, every call ends ([sessions_refine_pool],
      [session_ports_distinct], [teardown_ordered], [calls_terminate]). On the device
      there is one media session at most and a BYE gives everything back
      ([one_media_session]), a retransmitted INVITE gets the same answer and changes
      nothing ([retransmission_harmless]).
    - Cascade: an upper platform that asks for the catalog gets every visible camera
      under an ID that leads back to it ([cascade_catalog]), for recordings what the
      store lists ([cascade_records]), and its moves reach the camera ([cascade_ptz]). A
      stream passes any number of platforms frame by frame ([cascade_relay]); a forward
      gives back what it took in every interleaving of its goroutine and its closing
      ([forward_closed]); no two forwards serve one channel ([live_dialogs]); what the
      platform offers, the cascade below it reads ([cascade_offers]).
    - Talk: both sides read the other's description as it was meant
      ([talk_understood]), and the audio arrives in both directions ([talk_delivered]).
    - Registration: a device with the right password gets in and out
      ([device_registers], [device_leaves_registry]), nothing else does
      ([register_authorised]), guessing is contained ([brute_force_contained]); silence
      is noticed ([silence_detected]), refreshes come in time
      ([refresh_before_expiry], [upper_renewed_in_time]), retries back off
      ([failures_back_off]).
    - GB35114: device and platform agree on a key and its generation
      ([handshake_agrees]), over SIP too ([secure_registration]), requests and media of
      either side then pass the checks of the other ([notes_accepted]), and a live
      call ends with the keys of the device's goroutine and of the platform in
      agreement ([secured_call]). In every interleaving of calls the key ring of the platform
      implements the history of keys ([key_ring_refines]), and every key answers a
      signed challenge ([keys_authentic]).
    - Defects: theorems and examples that exhibit behaviour the code does not mean to
      have ([idle_connection_deaf], [refetch_shares_port], [answer_not_dialled],
      [huge_expiry_panics], [authenticator_bypassed], [short_expiry_spins],
      [seek_keeps_schedule], [keepalive_race], [stale_response_accepted], [unverified_platform_accepted],
      [bidirection_downgraded], [concurrent_retransmission], [early_bye_crashes],
      [late_accept_leaks], [long_frame_cut], [keystream_repeats], [catalogs_collide],
      [details_refused], [playback_orphaned], [refused_but_superseded] and others).

    ** Parameters

    Code outside the repository is a parameter: pion's RTP marshalling and gosip (the
    interfaces [GosipDigest] and [GosipRequest] of Registration, with instances), SM2,
    SM3, SM4 and X.509 (the classes [Gmsm] and [GmsmLaws] of Security, with an instance),
    [encoding/pem] and the parsing of dates, the connections and sockets, the database,
    the tables of the GB charsets and the formatting of floats ([Charsets], [FloatLaws]).
    Their laws are named hypotheses or classes, and every theorem that uses one has an
    instance.

    ** Not modelled

    - The sending of INVITEs by [platform/sip/server.go] and its transport on top of
      gosip, the refresh of its subscriptions, broadcast and playback dialogs.
    - Of [platform/cascade] the pump of a playback with its pacing and its MANSRTSP
      controls, the digest registration and the requests on top of gosip.
    - The subscriptions of the device.
    - Loading certificates and keys of GB35114 from files.
    - Sockets, TLS, DNS, metrics, logging and the command line: input and output only.
    - [Validate] of the platform's configuration, which needs [time.ParseDuration] and
      [net.ParseIP]. *)

From Stdlib Require Export ZArith Lia Bool.
From stdpp Require Export base option list gmap strings numbers.

#[global] Set Default Goal Selector "!".
Open Scope Z_scope.

(** ** Go values

    A Go [byte] is a [Z] between 0 and 255, a [[]byte] is a [list Z]; the
    conversions [uint16(x)], [byte(x)], [int16(x)] are written out. *)

Definition is_byte (b : Z) : Prop := 0 <= b < 256.
Definition bytes_ok (l : list Z) : Prop := Forall is_byte l.

Definition u8 (x : Z) : Z := x mod 2 ^ 8.
Definition u16 (x : Z) : Z := x mod 2 ^ 16.
Definition u32 (x : Z) : Z := x mod 2 ^ 32.
Definition u64 (x : Z) : Z := x mod 2 ^ 64.
Definition s16 (x : Z) : Z := (x + 2 ^ 15) mod 2 ^ 16 - 2 ^ 15.
Definition s64 (x : Z) : Z := (x + 2 ^ 63) mod 2 ^ 64 - 2 ^ 63.

(** Big-endian 16-bit fields: [int(hi)<<8 | int(lo)] and its inverse
    [byte(n>>8), byte(n)]. *)
Definition be16 (hi lo : Z) : Z := Z.lor (Z.shiftl hi 8) lo.
Definition put16 (n : Z) : list Z := [u8 (Z.shiftr n 8); u8 n].

(** ** Partial operations

    [None] is a Go run-time panic (an index or a slice bound out of range) or
    a loop that ran out of the fuel it was given; both are ruled out by the
    totality theorems of the components. *)

(** [s[i]] *)
Definition index {A} (s : list A) (i : nat) : option A := s !! i.

(** [s[i:j]] for a slice whose capacity is not relied on *)
Definition slice {A} (s : list A) (i j : nat) : option (list A) :=
  if (Nat.leb i j && Nat.leb j (length s))%bool
  then Some (take (j - i) (drop i s)) else None.

(** [s[i:]] *)
Definition slice_from {A} (s : list A) (i : nat) : option (list A) :=
  slice s i (length s).

(** ** Field update: [r <| f := v |>] is Go's assignment [r.f = v].

    A record type declares its eta-expansion once; the update of a field is
    then computed from it. *)
Class Eta (R : Type) := eta : R -> R.
Class Update {R T : Type} (proj : R -> T) := update : T -> R -> R.
Arguments update {R T} proj {_} _ _ /.

Ltac derive_update proj :=
  match type of proj with
  | ?R -> _ =>
      let e := constr:(@eta R _) in
      let e := eval hnf in e in
      match eval pattern proj in e with
      | ?ctx _ =>
          let f := eval cbv beta in (fun v => ctx (fun _ => v)) in
          exact f
      end
  end.

#[export] Hint Extern 1 (Update ?proj) => derive_update proj : typeclass_instances.

Declare Scope go_scope.
Delimit Scope go_scope with go.
Notation "r <| f := v |>" := (update f v r)
  (at level 1, left associativity, f at level 9, v at level 200,
   format "r  <| f  :=  v |>") : go_scope.
Open Scope go_scope.

(** ** Generic lemmas and automation *)

Create HintDb go discriminated.

(** Decide a goal about the boolean comparisons the code makes. *)
Ltac zbool :=
  repeat match goal with
  | H : context [Z.eqb ?a ?b] |- _ => destruct (Z.eqb_spec a b)
  | H : context [Z.leb ?a ?b] |- _ => destruct (Z.leb_spec a b)
  | H : context [Z.ltb ?a ?b] |- _ => destruct (Z.ltb_spec a b)
  | |- context [Z.eqb ?a ?b] => destruct (Z.eqb_spec a b)
  | |- context [Z.leb ?a ?b] => destruct (Z.leb_spec a b)
  | |- context [Z.ltb ?a ?b] => destruct (Z.ltb_spec a b)
  end.

Section lists.
Context {A : Type}.
Implicit Types (s l : list A) (i j n : nat).

Lemma index_lt s i : (i < length s)%nat -> exists x, index s i = Some x.
Proof. intros H. unfold index. by apply lookup_lt_is_Some in H. Qed.

Lemma slice_ok s i j :
  (i <= j)%nat -> (j <= length s)%nat -> slice s i j = Some (take (j - i) (drop i s)).
Proof.
  intros H1 H2. unfold slice.
  by rewrite (proj2 (Nat.leb_le _ _) H1), (proj2 (Nat.leb_le _ _) H2).
Qed.

Lemma slice_from_ok s i : (i <= length s)%nat -> slice_from s i = Some (drop i s).
Proof.
  intros H. unfold slice_from. rewrite slice_ok by lia.
  by rewrite take_ge by (rewrite length_drop; lia).
Qed.

Lemma slice_Some_inv s i j l :
  slice s i j = Some l -> (i <= j)%nat /\ (j <= length s)%nat /\ l = take (j - i) (drop i s).
Proof.
  unfold slice. destruct (Nat.leb_spec i j), (Nat.leb_spec j (length s)); simpl; naive_solver.
Qed.

Lemma slice_app_mid a l b :
  slice (a ++ l ++ b) (length a) (length a + length l) = Some l.
Proof.
  rewrite slice_ok by (rewrite ?length_app; lia).
  by rewrite drop_app_length, Nat.add_sub', take_app_length.
Qed.

Lemma slice_prefix l b n : n = length l -> slice (l ++ b) 0 n = Some l.
Proof. intros ->. apply (slice_app_mid [] l b). Qed.
End lists.

(** [a<<k | b] with [b] below bit [k] is a sum. *)
Lemma lor_shift_add a b k : 0 <= k -> 0 <= b < 2 ^ k -> Z.lor (a * 2 ^ k) b = a * 2 ^ k + b.
Proof.
  intros Hk Hb. destruct (Z.eqb_spec b 0) as [->|Hb0]; [rewrite Z.lor_0_r; lia|].
  assert (E : Z.land (a * 2 ^ k) b = 0).
  { apply Z.bits_inj'. intros n Hn. rewrite Z.land_spec, Z.bits_0.
    destruct (Z.ltb_spec n k).
    - by rewrite Z.mul_pow2_bits_low.
    - rewrite (Z.bits_above_log2 b); [apply andb_false_r|lia|].
      apply Z.log2_lt_pow2; [lia|]. assert (2 ^ k <= 2 ^ n) by (apply Z.pow_le_mono_r; lia). lia. }
  rewrite <- Z.lxor_lor by done. by rewrite <- Z.add_nocarry_lxor by done.
Qed.

Section bytes.
Lemma u8_range x : is_byte (u8 x).
Proof. unfold is_byte, u8. apply Z.mod_pos_bound. lia. Qed.

Lemma u8_small x : is_byte x -> u8 x = x.
Proof. intros H. apply Z.mod_small, H. Qed.

Lemma u16_small x : 0 <= x < 65536 -> u16 x = x.
Proof. intros H. by apply Z.mod_small. Qed.

Lemma s64_small x : - 2 ^ 63 <= x < 2 ^ 63 -> s64 x = x.
Proof. unfold s64. intros H. rewrite Z.mod_small by lia. lia. Qed.

Lemma u32_small x : 0 <= x < 4294967296 -> u32 x = x.
Proof. intros H. by apply Z.mod_small. Qed.

Lemma be16_add hi lo : is_byte lo -> be16 hi lo = hi * 256 + lo.
Proof.
  intros H. unfold be16. rewrite Z.shiftl_mul_pow2 by lia.
  rewrite lor_shift_add by (unfold is_byte in H; lia). lia.
Qed.

Lemma be16_put16 n : 0 <= n < 65536 ->
  be16 (u8 (Z.shiftr n 8)) (u8 n) = n.
Proof.
  intros H. rewrite be16_add by apply u8_range.
  unfold u8. rewrite Z.shiftr_div_pow2 by lia. change (2 ^ 8) with 256.
  rewrite (Z.mod_small (n / 256)) by
    (split; [apply Z.div_pos; lia | apply Z.div_lt_upper_bound; lia]).
  pose proof (Z.div_mod n 256). lia.
Qed.

Lemma be16_range hi lo : is_byte hi -> is_byte lo -> 0 <= be16 hi lo < 65536.
Proof. unfold is_byte. intros. rewrite be16_add by done. lia. Qed.

Lemma bytes_ok_app l k : bytes_ok (l ++ k) <-> bytes_ok l /\ bytes_ok k.
Proof. apply Forall_app. Qed.

Lemma bytes_ok_drop n l : bytes_ok l -> bytes_ok (drop n l).
Proof. apply Forall_drop. Qed.

Lemma bytes_ok_take n l : bytes_ok l -> bytes_ok (take n l).
Proof. apply Forall_take. Qed.

Lemma bytes_ok_lookup l (i : nat) (b : Z) : bytes_ok l -> l !! i = Some b -> is_byte b.
Proof. intros H Hi. eapply Forall_lookup_1 in H; eauto. Qed.

Lemma put16_ok n : bytes_ok (put16 n).
Proof. repeat constructor; apply u8_range. Qed.
End bytes.

#[export] Hint Resolve u8_range put16_ok bytes_ok_drop bytes_ok_take : go.

(** Discharge the in-bounds index accesses of a goal, using the length facts in
    context. *)
Ltac go_index :=
  repeat match goal with
  | |- context [index ?s ?i] =>
      let x := fresh "x" in let H := fresh "Hx" in
      destruct (index_lt s i) as [x H]; [simpl; lia|];
      rewrite !H; clear H; cbn [mbind option_bind]
  end.

Lemma land_ones_range x k : 0 <= k -> 0 <= Z.land x (Z.ones k) < 2 ^ k.
Proof. intros H. rewrite Z.land_ones by done. apply Z.mod_pos_bound. by apply Z.pow_pos_nonneg. Qed.

(** ** Finite checks over bytes, and field packing *)

Lemma forall_byte (P : Z -> bool) :
  forallb (fun n => P (Z.of_nat n)) (List.seq 0 256) = true ->
  forall b, is_byte b -> P b = true.
Proof.
  intros H b [H0 H1]. rewrite forallb_forall in H.
  specialize (H (Z.to_nat b)). rewrite Z2Nat.id in H by done. apply H.
  apply in_seq. lia.
Qed.
