(* ===== verification/NalUtil.v ===== *)
(** NALU classification ([nalutil/nalutil.go]): keyframe detection, parameter
    set extraction and comparison. A NALU is its bytes without a start code;
    a nil slice result is [None]. *)

From S2P Require Import Prelude.
Open Scope Z_scope.

Definition h264_type (b : Z) : Z := Z.land b 0x1F.
Definition h265_type (b : Z) : Z := Z.land (Z.shiftr b 1) 0x3F.

Definition IsKeyframeNALU (nalu : list Z) (isH265 : bool) : bool :=
  match nalu with
  | [] => false
  | b :: _ =>
      if isH265
      then (16 <=? h265_type b) && (h265_type b <=? 23)
      else h264_type b =? 5
  end.

Fixpoint IsIDR (au : list (list Z)) (isH265 : bool) : bool :=
  match au with
  | [] => false
  | nalu :: rest => if IsKeyframeNALU nalu isH265 then true else IsIDR rest isH265
  end.

(** The [for] loop threads the two results; later NALUs overwrite earlier ones. *)
Definition ExtractParamSetsH264 (au : list (list Z)) : option (list Z) * option (list Z) :=
  fold_left (fun '(sps, pps) nalu =>
    match nalu with
    | [] => (sps, pps)
    | b :: _ =>
        if h264_type b =? 7 then (Some nalu, pps)
        else if h264_type b =? 8 then (sps, Some nalu)
        else (sps, pps)
    end) au (None, None).

Definition ExtractParamSetsH265 (au : list (list Z))
  : option (list Z) * option (list Z) * option (list Z) :=
  fold_left (fun '(vps, sps, pps) nalu =>
    match nalu with
    | [] => (vps, sps, pps)
    | b :: _ =>
        if h265_type b =? 32 then (Some nalu, sps, pps)
        else if h265_type b =? 33 then (vps, Some nalu, pps)
        else if h265_type b =? 34 then (vps, sps, Some nalu)
        else (vps, sps, pps)
    end) au (None, None, None).

Definition isSome {A} (o : option A) : bool :=
  match o with Some _ => true | None => false end.

Definition HasCompleteParamSets (au : list (list Z)) (isH265 : bool) : bool :=
  if isH265 then
    let '(vps, sps, pps) := ExtractParamSetsH265 au in
    isSome vps && isSome sps && isSome pps
  else
    let '(sps, pps) := ExtractParamSetsH264 au in
    isSome sps && isSome pps.

(** The index loop over [a]; [b[i]] panics out of range. *)
Fixpoint equal_loop (a b : list Z) (i fuel : nat) : option bool :=
  match fuel with
  | O => Some true
  | S fuel' =>
      x ← index a i;
      y ← index b i;
      if negb (x =? y) then Some false else equal_loop a b (S i) fuel'
  end.

Definition EqualParamSets (a b : list Z) : option bool :=
  if negb (Nat.eqb (length a) (length b)) then Some false
  else equal_loop a b 0 (length a).

(** ** Specification and lemmas *)

(** The last NALU of the unit whose header has the given type. *)
Definition has_type (ty : Z -> Z) (t : Z) (nalu : list Z) : Prop :=
  match nalu with b :: _ => ty b = t | [] => False end.

#[export] Instance has_type_dec ty t nalu : Decision (has_type ty t nalu).
Proof. destruct nalu; simpl; apply _. Defined.

Definition last_of_type (ty : Z -> Z) (t : Z) (au : list (list Z)) : option (list Z) :=
  list.last (filter (has_type ty t) au).

Lemma IsIDR_existsb au h : IsIDR au h = existsb (fun n => IsKeyframeNALU n h) au.
Proof. induction au as [|n au IH]; simpl; [done|]. by destruct (IsKeyframeNALU n h). Qed.

Lemma IsIDR_app a b h : IsIDR (a ++ b) h = IsIDR a h || IsIDR b h.
Proof. rewrite !IsIDR_existsb. apply existsb_app. Qed.

Lemma last_of_type_snoc ty t au n :
  last_of_type ty t (au ++ [n]) =
  match n with
  | b :: _ => if ty b =? t then Some n else last_of_type ty t au
  | [] => last_of_type ty t au
  end.
Proof.
  unfold last_of_type. rewrite list.filter_app. destruct n as [|b n].
  - rewrite filter_cons_False by naive_solver. by rewrite list.filter_nil, app_nil_r.
  - destruct (Z.eqb_spec (ty b) t) as [E|E].
    + rewrite filter_cons_True by done. rewrite list.filter_nil. by rewrite last_snoc.
    + rewrite filter_cons_False by done. by rewrite list.filter_nil, app_nil_r.
Qed.

Lemma ExtractParamSetsH264_spec au :
  ExtractParamSetsH264 au = (last_of_type h264_type 7 au, last_of_type h264_type 8 au).
Proof.
  induction au as [|n au IH] using rev_ind; [done|].
  unfold ExtractParamSetsH264 in *. rewrite fold_left_app. simpl. rewrite IH.
  rewrite !last_of_type_snoc. destruct n as [|b n]; [done|]. by zbool; try lia.
Qed.

Lemma ExtractParamSetsH265_spec au :
  ExtractParamSetsH265 au =
  (last_of_type h265_type 32 au, last_of_type h265_type 33 au, last_of_type h265_type 34 au).
Proof.
  induction au as [|n au IH] using rev_ind; [done|].
  unfold ExtractParamSetsH265 in *. rewrite fold_left_app. simpl. rewrite IH.
  rewrite !last_of_type_snoc. destruct n as [|b n]; [done|]. by zbool; try lia.
Qed.

Lemma equal_loop_spec fuel a b i :
  length a = length b -> (i + fuel = length a)%nat ->
  equal_loop a b i fuel = Some (bool_decide (drop i a = drop i b)).
Proof.
  revert i. induction fuel as [|fuel IH]; intros i Hl Hi; simpl.
  - rewrite !drop_ge by lia. by rewrite bool_decide_eq_true_2.
  - destruct (index_lt a i) as [x Hx]; [lia|]. destruct (index_lt b i) as [y Hy]; [lia|].
    rewrite Hx, Hy. simpl. unfold index in *.
    rewrite (drop_S a x i), (drop_S b y i) by done.
    destruct (Z.eqb_spec x y) as [->|Hne]; simpl.
    + rewrite IH by lia. f_equal. apply bool_decide_ext. split; congruence.
    + rewrite bool_decide_eq_false_2; [done|]. congruence.
Qed.

Lemma isSome_last_of_type ty t au :
  isSome (last_of_type ty t au) = true <->
  exists b rest, In (b :: rest) au /\ ty b = t.
Proof.
  unfold last_of_type. destruct (list.last _) as [n|] eqn:E; simpl.
  - split; [|done]. intros _.
    apply last_Some_elem_of, list_elem_of_filter in E as [E1 E2].
    destruct n as [|b n]; [done|]. exists b, n. by rewrite <- list_elem_of_In.
  - split; [done|]. intros (b & rest & Hin & Ht). exfalso.
    apply last_None in E. apply list_elem_of_In in Hin.
    apply (not_elem_of_nil (b :: rest)). rewrite <- E. by apply list_elem_of_filter.
Qed.

(** ** Properties *)

(** parameter-set comparison is total (no index panic) and decides
    byte-for-byte equality of the two NAL units. *)
Theorem EqualParamSets_spec (a b : list Z) :
  EqualParamSets a b = Some (bool_decide (a = b)).
Proof.
  unfold EqualParamSets. destruct (Nat.eqb_spec (length a) (length b)) as [E|E]; simpl.
  - by rewrite equal_loop_spec.
  - rewrite bool_decide_eq_false_2; [done|]. intros ->. done.
Qed.

(** the IDR fast-start gate holds exactly when the access unit carries a
    NALU of every parameter-set type its codec needs. *)
Theorem HasCompleteParamSets_spec (au : list (list Z)) (isH265 : bool) :
  HasCompleteParamSets au isH265 = true <->
  forall t, In t (if isH265 then [32; 33; 34] else [7; 8]) ->
    exists b rest, In (b :: rest) au /\ (if isH265 then h265_type b else h264_type b) = t.
Proof.
  unfold HasCompleteParamSets. destruct isH265.
  - rewrite ExtractParamSetsH265_spec, !andb_true_iff, !isSome_last_of_type. simpl.
    split; [intros [[A B] C] t [<-|[<-|[<-|[]]]]; assumption | intros H; auto 6].
  - rewrite ExtractParamSetsH264_spec, andb_true_iff, !isSome_last_of_type. simpl.
    split; [intros [A B] t [<-|[<-|[]]]; assumption | intros H; auto 6].
Qed.
