(* ===== verification/PesParse.v ===== *)
(** The structural parsers of the MPEG-PS demuxer
    ([platform/psdemux_pes.go]): Annex-B start codes and NALU extraction, the
    PS start-code scanner, PES headers and the Program Stream Map.

    Offsets into a slice are [nat]; [None] is an index or slice panic (see
    Prelude), an error result is [inl]. *)

From S2P Require Import Prelude.
Open Scope Z_scope.

(** ** Constants ([psdemux.go]) *)

Definition startCodePack : Z := 0xBA.
Definition startCodeSystem : Z := 0xBB.
Definition startCodePSM : Z := 0xBC.
Definition startCodePadding : Z := 0xBE.
Definition startCodePrivate2 : Z := 0xBF.
Definition startCodeAudioMin : Z := 0xC0.
Definition startCodeAudioMax : Z := 0xDF.
Definition startCodeVideoMin : Z := 0xE0.
Definition startCodeVideoMax : Z := 0xEF.

Definition streamTypeH264 : Z := 0x1B.
Definition streamTypeH265 : Z := 0x24.
Definition streamTypeSVACV : Z := 0x80.
Definition streamTypeSVAC2 : Z := 0x81.
Definition streamTypeAAC : Z := 0x0F.
Definition streamTypeG711A : Z := 0x90.
Definition streamTypeG711U : Z := 0x91.
Definition streamTypeG722 : Z := 0x92.
Definition streamTypeG723 : Z := 0x93.
Definition streamTypeG729 : Z := 0x99.
Definition streamTypeSVACA : Z := 0x9B.

Inductive ps_error :=
  | ErrIncompletePSM
  | ErrIncompletePES
  | ErrInvalidPESStartCode
  | ErrIncompleteStartCode
  | ErrNoStartCode.

Definition is_audio_id (c : Z) : bool := (startCodeAudioMin <=? c) && (c <=? startCodeAudioMax).
Definition is_video_id (c : Z) : bool := (startCodeVideoMin <=? c) && (c <=? startCodeVideoMax).

(** ** Annex-B start codes *)

(** [findStartCodes] on the suffix of the data that starts at offset [i]. *)
Fixpoint findStartCodes_at (i : nat) (rest : list Z) : list nat :=
  match rest with
  | a :: ((b :: (c :: t3)) as t1) =>
      if (a =? 0) && (b =? 0) then
        if c =? 1 then i :: findStartCodes_at (i + 3) t3
        else match t3 with
             | d :: t4 =>
                 if (c =? 0) && (d =? 1)
                 then i :: findStartCodes_at (i + 4) t4
                 else findStartCodes_at (i + 1) t1
             | [] => findStartCodes_at (i + 1) t1
             end
      else findStartCodes_at (i + 1) t1
  | _ => []
  end.

Definition findStartCodes (data : list Z) : list nat := findStartCodes_at 0 data.

(** The loop over the positions: each NALU runs to the next start code. *)
Fixpoint extractNALUs_loop (data : list Z) (positions : list nat) : option (list (list Z)) :=
  match positions with
  | [] => Some []
  | pos :: ps =>
      let end_ := match ps with next :: _ => next | [] => length data end in
      naluData ← slice data pos end_;
      match naluData with
      | [] => extractNALUs_loop data ps
      | _ =>
          scLen ← (if Nat.ltb (pos + 3) (length data) then
                     d2 ← index data (pos + 2);
                     d3 ← index data (pos + 3);
                     Some (if (d2 =? 0) && (d3 =? 1) then 4%nat else 3%nat)
                   else Some 3%nat);
          naluRaw ← slice_from naluData scLen;
          rest ← extractNALUs_loop data ps;
          Some (match naluRaw with [] => rest | _ => naluRaw :: rest end)
      end
  end.

Definition extractNALUs (data : list Z) (naluType : string) : option (list (list Z)) :=
  if bool_decide (naluType = "svac"%string) then
    Some (match data with [] => [] | _ => [data] end)
  else match data with
       | [] => Some []
       | _ => extractNALUs_loop data (findStartCodes data)
       end.

(** ** PES packets *)

Fixpoint stripStartCodeLeadingZeros (data : list Z) : list Z :=
  match data with
  | a :: ((b :: c :: d :: _) as tl) =>
      if (a =? 0) && (b =? 0) && (c =? 0) && (d =? 1)
      then stripStartCodeLeadingZeros tl else data
  | _ => data
  end.

(** The scan [for i := 8; i+2 < bound; i++] for the first 00 00 01; [None] is
    [sc = -1]. [fuel] counts the iterations left. *)
Fixpoint header_scan (data : list Z) (i bound fuel : nat) : option (option nat) :=
  if Nat.ltb (i + 2) bound then
    match fuel with
    | O => None
    | S fuel' =>
        a ← index data i;
        b ← index data (i + 1);
        c ← index data (i + 2);
        if (a =? 0) && (b =? 0) && (c =? 1) then Some (Some i)
        else header_scan data (i + 1) bound fuel'
    end
  else Some None.

Definition abs_diff (a b : nat) : nat := Nat.max (a - b) (b - a).

(** The closure [clamp]. *)
Definition pes_clamp (limit v : nat) : nat :=
  if Nat.ltb v 9 then 9%nat else if Nat.ltb limit v then limit else v.

Definition pesPayloadStart (data : list Z) (totalLen : nat) : option nat :=
  b8 ← index data 8;
  b7 ← index data 7;
  let limit := Nat.min totalLen (length data) in
  let std := pes_clamp limit (9 + Z.to_nat b8) in
  let legacy := pes_clamp limit (8 + Z.to_nat b7) in
  let bound := Nat.min (Nat.max std legacy + 4) limit in
  sc ← header_scan data 8 bound bound;
  Some (match sc with
        | None => std
        | Some sc => if Nat.ltb (abs_diff sc legacy) (abs_diff sc std) then legacy else std
        end).

(** Returns (payload, total PES length). *)
Definition parseVideoPES (data0 : list Z) : option (ps_error + list Z * nat) :=
  let data := stripStartCodeLeadingZeros data0 in
  if Nat.ltb (length data) 9 then Some (inl ErrIncompletePES) else
  d0 ← index data 0; d1 ← index data 1; d2 ← index data 2;
  if negb ((d0 =? 0) && (d1 =? 0) && (d2 =? 1)) then Some (inl ErrInvalidPESStartCode) else
  streamID ← index data 3;
  if negb (is_video_id streamID) then Some (inl ErrIncompletePES) else
  d4 ← index data 4; d5 ← index data 5;
  let pesPacketLen := Z.to_nat (be16 d4 d5) in
  let totalLen := (6 + pesPacketLen)%nat in
  if (Nat.ltb 0 pesPacketLen && Nat.ltb (length data) totalLen)%bool
  then Some (inl ErrIncompletePES) else
  payloadOffset ← pesPayloadStart data totalLen;
  if (Nat.ltb totalLen payloadOffset || Nat.ltb (length data) payloadOffset)%bool
  then Some (inl ErrIncompletePES) else
  if Nat.ltb 0 pesPacketLen then
    payload ← slice data payloadOffset totalLen;
    Some (inr (payload, totalLen))
  else
    payload ← slice_from data payloadOffset;
    Some (inr (payload, length data)).

(** ** The PS start-code scanner *)

Definition is_ps_code (v : Z) : bool :=
  (v =? startCodePack) || (v =? startCodeSystem) || (v =? startCodePSM)
  || (v =? startCodePadding) || (v =? startCodePrivate2)
  || is_audio_id v || is_video_id v.

(** [findPSStartCode] on the suffix at offset [i]: the position of the
    3-byte prefix and the start-code value. *)
Fixpoint findPSStartCode_at (i : nat) (rest : list Z) : ps_error + nat * Z :=
  match rest with
  | [] => inl ErrNoStartCode
  | a :: t1 =>
      match t1 with
      | b :: c :: t3 =>
          if negb ((a =? 0) && (b =? 0)) then findPSStartCode_at (i + 1) t1
          else if c =? 0 then
            match t3 with
            | d :: t4 =>
                if negb (d =? 1) then findPSStartCode_at (i + 1) t1
                else match t4 with
                     | [] => inl ErrIncompleteStartCode
                     | v :: t5 =>
                         if is_ps_code v then inr ((i + 1)%nat, v)
                         else findPSStartCode_at (i + 5) t5
                     end
            | [] => findPSStartCode_at (i + 1) t1
            end
          else if negb (c =? 1) then findPSStartCode_at (i + 1) t1
          else match t3 with
               | [] => inl ErrIncompleteStartCode
               | v :: t4 =>
                   if is_ps_code v then inr (i, v)
                   else findPSStartCode_at (i + 4) t4
               end
      | _ => findPSStartCode_at (i + 1) t1
      end
  end.

Definition findPSStartCode (data : list Z) : ps_error + nat * Z := findPSStartCode_at 0 data.

(** ** The Program Stream Map *)

Definition parsePSM (data : list Z) : option (ps_error + nat) :=
  if Nat.ltb (length data) 9 then Some (inl ErrIncompletePSM) else
  d4 ← index data 4; d5 ← index data 5;
  let psmLen := Z.to_nat (be16 d4 d5) in
  if Nat.ltb psmLen 1 then Some (inl ErrIncompletePSM) else
  let totalLen := (6 + psmLen)%nat in
  if Nat.ltb (length data) totalLen then Some (inl ErrIncompletePSM) else
  Some (inr totalLen).

(** One elementary-stream entry: (stream_type, elementary_stream_id,
    es_info_length). *)
Definition psm_entry (psmData : list Z) (offset : nat) : option (Z * Z * nat) :=
  streamType ← index psmData offset;
  esID ← index psmData (offset + 1);
  h ← index psmData (offset + 2);
  l ← index psmData (offset + 3);
  Some (streamType, esID, Z.to_nat (be16 h l)).

(** The offset of the first entry, when the header fields fit. *)
Definition psm_first_entry (psmData : list Z) : option (option nat) :=
  if Nat.ltb (length psmData) 4 then Some None else
  h ← index psmData 2; l ← index psmData 3;
  let offset := (4 + Z.to_nat (be16 h l))%nat in
  if Nat.ltb (length psmData) (offset + 2) then Some None
  else Some (Some (offset + 2)%nat).

Fixpoint findVideoStreamType_loop (psmData : list Z) (offset fuel : nat) : option (option Z) :=
  if Nat.leb (offset + 4) (length psmData) then
    match fuel with
    | O => None
    | S fuel' =>
        '(streamType, esID, esInfoLen) ← psm_entry psmData offset;
        if is_video_id esID
           && ((streamType =? streamTypeH264) || (streamType =? streamTypeH265)
               || (streamType =? streamTypeSVACV))
        then Some (Some streamType)
        else findVideoStreamType_loop psmData (offset + (4 + esInfoLen)) fuel'
    end
  else Some None.

Definition findVideoStreamType (psmData : list Z) : option (option Z) :=
  start ← psm_first_entry psmData;
  match start with
  | None => Some None
  | Some offset => findVideoStreamType_loop psmData offset (length psmData)
  end.

(** ** Start codes and NALU extraction: lemmas *)

Definition sc_bytes (long : bool) : list Z := if long then [0; 0; 0; 1] else [0; 0; 1].

(** A sequence of NALUs, each with its 3- or 4-byte start code. *)
Definition annexb (l : list (bool * list Z)) : list Z :=
  concat (map (fun '(long, n) => sc_bytes long ++ n) l).

Fixpoint has_sc (l : list Z) : bool :=
  match l with
  | a :: ((b :: c :: _) as tl) => ((a =? 0) && (b =? 0) && (c =? 1)) || has_sc tl
  | _ => false
  end.

(** What an encoder's emulation prevention and rbsp trailing bits give: no
    00 00 01 inside the unit and a last byte that is not zero. *)
Definition clean (n : list Z) : Prop :=
  n <> [] /\ has_sc n = false /\ list.last n <> Some 0.

Lemma findStartCodes_at_range i rest p :
  In p (findStartCodes_at i rest) -> (i <= p /\ p + 3 <= i + length rest)%nat.
Proof.
  revert i. induction rest as [rest IH] using (induction_ltof1 _ (@length Z)).
  unfold ltof in IH. intros i.
  destruct rest as [|a [|b [|c t3]]]; simpl; try done.
  assert (R : forall j k, (j + length k <= i + S (S (S (length t3))))%nat -> (i <= j)%nat ->
     (length k < S (S (S (length t3))))%nat ->
     In p (findStartCodes_at j k) -> (i <= p /\ p + 3 <= i + S (S (S (length t3))))%nat).
  { intros j k H1 H2 H3 Hp. apply IH in Hp; [lia|simpl; lia]. }
  assert (R1 := R (i + 1)%nat (b :: c :: t3)). simpl in R1.
  destruct ((a =? 0) && (b =? 0)); [|apply R1; lia].
  destruct (c =? 1).
  - intros [<-|Hp]; [lia|]. apply (R (i + 3)%nat t3) in Hp; lia.
  - destruct t3 as [|d t4]; [apply R1; simpl; lia|]. simpl in *.
    destruct ((c =? 0) && (d =? 1)); [|apply R1; lia].
    intros [<-|Hp]; [lia|]. apply (R (i + 4)%nat t4) in Hp; lia.
Qed.

(** The end of the NALU at the head of [positions]. *)
Definition nalu_end (data : list Z) (ps : list nat) : nat :=
  match ps with next :: _ => next | [] => length data end.

Lemma nalu_end_range pre rest i :
  (length pre <= i)%nat ->
  let ps := findStartCodes_at i (drop (i - length pre) rest) in
  (i <= length (pre ++ rest))%nat ->
  (i <= nalu_end (pre ++ rest) ps <= length (pre ++ rest))%nat.
Proof.
  intros Hi ps Hle. unfold nalu_end. destruct ps as [|p ps'] eqn:E; [lia|].
  destruct (findStartCodes_at_range i (drop (i - length pre) rest) p) as [H1 H2].
  { subst ps. rewrite E. by left. }
  rewrite length_drop in H2. rewrite length_app in *. lia.
Qed.

Lemma extractNALUs_loop_step data pos ps (long : bool) n :
  (exists pre suf, data = pre ++ sc_bytes long ++ n ++ suf /\ pos = length pre) ->
  nalu_end data ps = (pos + length (sc_bytes long) + length n)%nat ->
  extractNALUs_loop data (pos :: ps) =
    rest ← extractNALUs_loop data ps; Some (match n with [] => rest | _ => n :: rest end).
Proof.
  intros (pre & suf & -> & ->) Hend. cbn [extractNALUs_loop].
  fold (nalu_end (pre ++ sc_bytes long ++ n ++ suf) ps). rewrite Hend.
  set (data := pre ++ sc_bytes long ++ n ++ suf).
  assert (Hs : slice data (length pre) (length pre + length (sc_bytes long) + length n)
               = Some (sc_bytes long ++ n)).
  { unfold data. rewrite (app_assoc (sc_bytes long) n suf), <- Nat.add_assoc, <- length_app.
    apply slice_app_mid. }
  rewrite Hs. simpl.
  assert (Hix : forall k, index data (length pre + k) = (sc_bytes long ++ n ++ suf) !! k).
  { intros k. unfold index, data. by rewrite lookup_app_r, Nat.add_sub' by lia. }
  rewrite !Hix. assert (Hlen : length data = (length pre + length (sc_bytes long) + length n + length suf)%nat)
    by (unfold data; rewrite !length_app; lia).
  assert (Hsf : slice_from (sc_bytes long ++ n) (length (sc_bytes long)) = Some n).
  { rewrite slice_from_ok by (rewrite length_app; lia). by rewrite drop_app_length. }
  rewrite Hlen. destruct long; simpl in *.
  - rewrite (proj2 (Nat.ltb_lt _ _)) by lia. simpl. rewrite Hsf. by destruct n.
  - destruct (Nat.ltb_spec (length pre + 3) (length pre + 3 + length n + length suf)) as [Hlt|Hge];
      simpl.
    + destruct (n ++ suf) as [|x l] eqn:E.
      { apply app_eq_nil in E as [-> ->]. simpl in Hlt. lia. }
      simpl. rewrite Hsf. by destruct n.
    + rewrite Hsf. by destruct n.
Qed.

Lemma findStartCodes_at_cons3 i a b c t3 :
  findStartCodes_at i (a :: b :: c :: t3) =
  if (a =? 0) && (b =? 0) then
    if c =? 1 then i :: findStartCodes_at (i + 3) t3
    else match t3 with
         | d :: t4 =>
             if (c =? 0) && (d =? 1) then i :: findStartCodes_at (i + 4) t4
             else findStartCodes_at (i + 1) (b :: c :: t3)
         | [] => findStartCodes_at (i + 1) (b :: c :: t3)
         end
  else findStartCodes_at (i + 1) (b :: c :: t3).
Proof. done. Qed.

(** Peeling one start code off a scan: the shape of the data at every position. *)
Lemma findStartCodes_at_cases i rest :
  (findStartCodes_at i rest = []) \/
  (exists k long t, rest = take k rest ++ sc_bytes long ++ t /\ (k <= length rest)%nat /\
     findStartCodes_at i rest =
       (i + k)%nat :: findStartCodes_at (i + k + length (sc_bytes long)) t).
Proof.
  revert i. induction rest as [rest IH] using (induction_ltof1 _ (@length Z)).
  unfold ltof in IH. intros i.
  destruct rest as [|a [|b [|c t3]]]; try by left.
  rewrite findStartCodes_at_cons3. cbn [length].
  assert (R : forall t, t = b :: c :: t3 ->
    findStartCodes_at (i + 1) t = [] \/
    exists k long u, a :: t = take k (a :: t) ++ sc_bytes long ++ u /\ (k <= S (length t))%nat /\
      findStartCodes_at (i + 1) t =
      (i + k)%nat :: findStartCodes_at (i + k + length (sc_bytes long)) u).
  { intros t ->. destruct (IH (b :: c :: t3) ltac:(simpl; lia) (i + 1)%nat)
      as [E | (k & long & u & E1 & E2 & E3)]; [by left|].
    right. exists (S k), long, u. split; [|split].
    - cbn [take app]. f_equal. exact E1.
    - lia.
    - rewrite E3. by replace (i + S k)%nat with (i + 1 + k)%nat by lia. }
  destruct (Z.eqb_spec a 0) as [->|]; cbn [andb]; [|by apply R].
  destruct (Z.eqb_spec b 0) as [->|]; cbn [andb]; [|by apply R].
  destruct (Z.eqb_spec c 1) as [->|].
  { right. exists 0%nat, false, t3. simpl. rewrite Nat.add_0_r. repeat split; lia. }
  destruct t3 as [|d t4]; [by apply R|].
  destruct (Z.eqb_spec c 0) as [->|]; cbn [andb]; [|by apply R].
  destruct (Z.eqb_spec d 1) as [->|]; cbn [andb]; [|by apply R].
  right. exists 0%nat, true, t4. simpl. rewrite Nat.add_0_r. repeat split; lia.
Qed.

Lemma extractNALUs_loop_total pre rest :
  exists l, extractNALUs_loop (pre ++ rest) (findStartCodes_at (length pre) rest) = Some l.
Proof.
  revert pre. induction rest as [rest IH] using (induction_ltof1 _ (@length Z)).
  unfold ltof in IH. intros pre.
  destruct (findStartCodes_at_cases (length pre) rest) as [->|(k & long & t & E1 & E2 & E3)].
  { by exists []. }
  rewrite E3. set (ps := findStartCodes_at _ t).
  set (pre' := (pre ++ take k rest) ++ sc_bytes long).
  assert (Hdata : pre ++ rest = pre' ++ t).
  { unfold pre'. rewrite E1 at 1. by rewrite <- !app_assoc. }
  assert (Hlp : length pre' = (length pre + k + length (sc_bytes long))%nat).
  { unfold pre'. rewrite !length_app, length_take. lia. }
  assert (Hend : (length pre' <= nalu_end (pre ++ rest) ps <= length (pre ++ rest))%nat).
  { rewrite Hdata. pose proof (nalu_end_range pre' t (length pre')) as H.
    rewrite Nat.sub_diag, drop_0 in H. unfold ps. rewrite <- Hlp.
    apply H; [lia|]. rewrite length_app. lia. }
  set (e := nalu_end (pre ++ rest) ps) in *.
  rewrite Hdata in Hend. rewrite length_app in Hend.
  rewrite (extractNALUs_loop_step _ _ _ long (take (e - length pre') t)).
  - destruct (IH t) with (pre := pre') as [l Hl].
    { rewrite E1, !length_app. destruct long; simpl; lia. }
    rewrite Hdata. unfold ps. rewrite <- Hlp, Hl. simpl. eauto.
  - exists (pre ++ take k rest), (drop (e - length pre') t). split.
    + rewrite take_drop. rewrite Hdata. unfold pre'. by rewrite <- !app_assoc.
    + rewrite length_app, length_take. lia.
  - fold e. rewrite length_take. lia.
Qed.

Lemma extractNALUs_Some data ty : exists l, extractNALUs data ty = Some l.
Proof.
  unfold extractNALUs. case_bool_decide; [by eauto|].
  destruct data as [|a data]; [by eauto|]. apply (extractNALUs_loop_total []).
Qed.

(** Scanning over a clean NALU reports nothing. *)
Lemma findStartCodes_at_clean i n rest :
  clean n -> findStartCodes_at i (n ++ rest) = findStartCodes_at (i + length n) rest.
Proof.
  intros (Hne & Hsc & Hlast). revert i Hne Hsc Hlast.
  induction n as [|a n IH]; intros i Hne Hsc Hlast; [done|].
  assert (Hstep : findStartCodes_at i ((a :: n) ++ rest) = findStartCodes_at (i + 1) (n ++ rest)).
  { destruct n as [|b n]; simpl in *.
    - destruct rest as [|b [|c t3]]; [done..|].
      destruct (Z.eqb_spec a 0) as [->|]; [congruence|done].
    - destruct n as [|c n]; simpl in *.
      + destruct rest as [|c t3]; [done|].
        destruct (Z.eqb_spec b 0) as [->|]; [congruence|]. by rewrite andb_false_r.
      + apply orb_false_iff in Hsc as [Hsc1 Hsc2].
        destruct ((a =? 0) && (b =? 0)) eqn:Eab; [|done]. simpl in Hsc1. rewrite Hsc1.
        destruct (n ++ rest) as [|d t4] eqn:E; [done|].
        destruct (Z.eqb_spec c 0) as [->|]; [|done].
        destruct (Z.eqb_spec d 1) as [->|]; [|done]. exfalso.
        destruct n as [|d n]; [done|]. simplify_eq/=.
        apply andb_true_iff in Eab as [_ Eb]. by rewrite Eb in Hsc2. }
  rewrite Hstep. destruct n as [|b n].
  - simpl. done.
  - rewrite IH; [f_equal; simpl; lia|done| |].
    + simpl in *. destruct n as [|c n]; [done|]. by apply orb_false_iff in Hsc as [_ ?].
    + by simpl in *.
Qed.

Lemma findStartCodes_at_sc i long rest :
  findStartCodes_at i (sc_bytes long ++ rest) =
  i :: findStartCodes_at (i + length (sc_bytes long)) rest.
Proof. by destruct long. Qed.

Lemma extractNALUs_loop_annexb pre l :
  Forall (fun '(_, n) => clean n) l ->
  extractNALUs_loop (pre ++ annexb l) (findStartCodes_at (length pre) (annexb l))
  = Some (map snd l).
Proof.
  intros Hl. revert pre. induction Hl as [|[long n] l Hn Hl IH]; intros pre; [done|].
  unfold annexb. cbn [map concat]. fold (annexb l). rewrite <- app_assoc.
  rewrite findStartCodes_at_sc, findStartCodes_at_clean by done.
  set (pre' := pre ++ sc_bytes long ++ n).
  assert (Hd : pre ++ sc_bytes long ++ n ++ annexb l = pre' ++ annexb l)
    by (unfold pre'; by rewrite <- !app_assoc).
  assert (Hlp : length pre' = (length pre + length (sc_bytes long) + length n)%nat)
    by (unfold pre'; rewrite !length_app; lia).
  rewrite <- Hlp. rewrite (extractNALUs_loop_step _ _ _ long n).
  - rewrite Hd, IH. simpl. destruct Hn as [Hne _]. by destruct n.
  - by exists pre, (annexb l).
  - rewrite <- Hlp, Hd. destruct l as [|[long' n'] l].
    + simpl. by rewrite app_nil_r.
    + unfold annexb. cbn [map concat]. rewrite <- (app_assoc (sc_bytes long')).
      by rewrite findStartCodes_at_sc.
Qed.

(** Junk that the scanner walks over may precede the first start code. *)
Lemma extractNALUs_annexb pre l ty :
  ty <> "svac"%string -> l <> [] -> Forall (fun '(_, n) => clean n) l ->
  findStartCodes_at 0 (pre ++ annexb l) = findStartCodes_at (length pre) (annexb l) ->
  extractNALUs (pre ++ annexb l) ty = Some (map snd l).
Proof.
  intros Hty Hne Hl Hscan. unfold extractNALUs. rewrite bool_decide_eq_false_2 by done.
  unfold findStartCodes. rewrite Hscan, extractNALUs_loop_annexb by done.
  destruct (pre ++ annexb l) eqn:E; [|done].
  apply app_eq_nil in E as [_ E]. destruct l as [|[[] n] l]; done.
Qed.

(** ** PES parsing: lemmas *)

Lemma header_scan_Some data i bound fuel :
  (bound <= length data)%nat -> (bound <= i + fuel)%nat ->
  exists o, header_scan data i bound fuel = Some o.
Proof.
  intros Hb. revert i. induction fuel as [|fuel IH]; intros i Hf; simpl;
    destruct (Nat.ltb_spec (i + 2) bound); eauto; try lia.
  destruct (index_lt data i) as [x ->]; [lia|].
  destruct (index_lt data (i + 1)) as [y ->]; [lia|].
  destruct (index_lt data (i + 2)) as [z ->]; [lia|]. simpl.
  destruct ((x =? 0) && (y =? 0) && (z =? 1)); [eauto|]. apply IH. lia.
Qed.

Lemma header_scan_bound data i bound fuel j :
  header_scan data i bound fuel = Some (Some j) -> (i <= j /\ j + 2 < bound)%nat.
Proof.
  revert i. induction fuel as [|fuel IH]; intros i; simpl;
    destruct (Nat.ltb_spec (i + 2) bound); try done; [].
  destruct (index data i) as [a|]; [|done]. destruct (index data (i + 1)) as [b|]; [|done].
  destruct (index data (i + 2)) as [c|]; [|done]. simpl.
  destruct ((a =? 0) && (b =? 0) && (c =? 1)).
  - intros [= <-]. lia.
  - intros E. apply IH in E. lia.
Qed.

Lemma strip_noop a b c rest :
  c <> 0 -> stripStartCodeLeadingZeros (a :: b :: c :: rest) = a :: b :: c :: rest.
Proof.
  intros Hc. simpl. destruct rest as [|d rest]; [done|].
  destruct (Z.eqb_spec c 0); [done|]. by rewrite andb_false_r.
Qed.

Lemma pes_clamp_le limit v : (9 <= v)%nat -> (pes_clamp limit v <= limit)%nat.
Proof.
  intros H. unfold pes_clamp. destruct (Nat.ltb_spec v 9); [lia|].
  destruct (Nat.ltb_spec limit v); lia.
Qed.

(** The payload start never leaves the packet. *)
Lemma pesPayloadStart_Some data totalLen :
  (9 <= length data)%nat -> (6 <= totalLen)%nat ->
  exists p, pesPayloadStart data totalLen = Some p /\
            (p <= totalLen)%nat /\ (p <= length data)%nat.
Proof.
  intros Hlen Htot. unfold pesPayloadStart.
  destruct (index_lt data 8) as [b8 ->]; [lia|].
  destruct (index_lt data 7) as [b7 ->]; [lia|]. cbn [mbind option_bind].
  cbv zeta. set (limit := Nat.min totalLen (length data)).
  set (std := pes_clamp limit (9 + Z.to_nat b8)).
  set (legacy := pes_clamp limit (8 + Z.to_nat b7)).
  set (bound := Nat.min (Nat.max std legacy + 4) limit).
  destruct (header_scan_Some data 8 bound bound) as [sc Hsc]; [unfold bound, limit; lia|lia|].
  rewrite Hsc. cbn [mbind option_bind].
  assert (Hstd : (std <= limit)%nat) by (apply pes_clamp_le; lia).
  eexists. split; [reflexivity|]. destruct sc as [sc|]; [|lia].
  apply header_scan_bound in Hsc.
  assert (Hleg : (legacy <= limit)%nat).
  { unfold legacy, pes_clamp. destruct (Nat.ltb_spec (8 + Z.to_nat b7) 9); [lia|].
    destruct (Nat.ltb_spec limit (8 + Z.to_nat b7)); lia. }
  destruct (Nat.ltb _ _); lia.
Qed.

Lemma length_ge_9 {A} (l : list A) :
  (9 <= length l)%nat -> exists a b c d e f g h i r, l = a :: b :: c :: d :: e :: f :: g :: h :: i :: r.
Proof.
  intros H. do 9 (destruct l as [|? l]; [simpl in H; lia|]). repeat eexists.
Qed.

Lemma parseVideoPES_Some data :
  exists r, parseVideoPES data = Some r /\
    match r with
    | inl _ => True
    | inr (payload, n) => (6 <= n)%nat /\ (n <= length (stripStartCodeLeadingZeros data))%nat /\
                          (length payload <= n)%nat
    end.
Proof.
  unfold parseVideoPES. set (d := stripStartCodeLeadingZeros data).
  destruct (Nat.ltb_spec (length d) 9) as [|Hlen]; [by eexists (inl _)|].
  destruct (index_lt d 0) as [x0 ->]; [lia|]. destruct (index_lt d 1) as [x1 ->]; [lia|].
  destruct (index_lt d 2) as [x2 ->]; [lia|]. destruct (index_lt d 3) as [x3 ->]; [lia|].
  destruct (index_lt d 4) as [x4 ->]; [lia|]. destruct (index_lt d 5) as [x5 ->]; [lia|].
  cbn [mbind option_bind]. destruct (negb _); [by eexists (inl _)|]. destruct (negb _); [by eexists (inl _)|].
  set (pl := Z.to_nat (be16 x4 x5)).
  destruct (Nat.ltb 0 pl && Nat.ltb (length d) (6 + pl))%bool eqn:E; [by eexists (inl _)|].
  destruct (pesPayloadStart_Some d (6 + pl)) as (p & -> & Hp1 & Hp2); [lia..|].
  cbn [mbind option_bind]. destruct (_ || _)%bool; [by eexists (inl _)|].
  destruct (Nat.ltb_spec 0 pl).
  - simpl in E. apply Nat.ltb_ge in E. rewrite slice_ok by lia. simpl. eexists; split; [done|]. simpl.
    rewrite length_take, length_drop. lia.
  - rewrite slice_from_ok by lia. simpl. eexists; split; [done|]. simpl. rewrite length_drop. lia.
Qed.

(** ** The start-code scanner: lemmas *)

Lemma findPSStartCode_at_inr i rest p v :
  findPSStartCode_at i rest = inr (p, v) ->
  exists k t, (p = i + k)%nat /\ (k <= length rest)%nat /\
    drop k rest = 0 :: 0 :: 1 :: v :: t /\ is_ps_code v = true.
Proof.
  revert i. induction rest as [rest IH] using (induction_ltof1 _ (@length Z)).
  unfold ltof in IH. intros i.
  destruct rest as [|a t1]; [done|]. cbn [findPSStartCode_at].
  assert (R : forall j k u, (length u < S (length t1))%nat -> (j = i + k)%nat ->
     drop k (a :: t1) = u -> (k <= S (length t1))%nat ->
     findPSStartCode_at j u = inr (p, v) ->
     exists k t, (p = i + k)%nat /\ (k <= length (a :: t1))%nat /\
     drop k (a :: t1) = 0 :: 0 :: 1 :: v :: t /\ is_ps_code v = true).
  { intros j k u Hu -> Hd Hk H. apply IH in H as (k' & t & -> & Hk' & Hd' & Hc); [|done].
    exists (k + k')%nat, t. split; [lia|]. split.
    - rewrite <- Hd, length_drop in Hk'. simpl in *. lia.
    - by rewrite <- drop_drop, Hd. }
  pose proof (R (i + 1)%nat 1%nat t1 ltac:(lia) eq_refl eq_refl ltac:(lia)) as R1.
  destruct t1 as [|b [|c t3]]; [done| apply R1 |].
  destruct (Z.eqb_spec a 0) as [->|]; [|apply R1].
  destruct (Z.eqb_spec b 0) as [->|]; [|apply R1]. cbn [andb negb].
  destruct (Z.eqb_spec c 0) as [->|].
  - destruct t3 as [|d t4]; [apply R1|].
    destruct (Z.eqb_spec d 1) as [->|]; [|apply R1]. cbn [negb].
    destruct t4 as [|w t5]; [done|]. destruct (is_ps_code w) eqn:E.
    + intros [= <- <-]. exists 1%nat, t5. simpl. repeat split; [lia|done].
    + apply (R (i + 5)%nat 5%nat t5); simpl; try lia; done.
  - destruct (Z.eqb_spec c 1) as [->|]; [|apply R1]. cbn [negb].
    destruct t3 as [|w t4]; [done|]. destruct (is_ps_code w) eqn:E.
    + intros [= <- <-]. exists 0%nat, t4. simpl. repeat split; [lia..|done].
    + apply (R (i + 4)%nat 4%nat t4); simpl; try lia; done.
Qed.

Lemma findPSStartCode_here v t :
  is_ps_code v = true -> findPSStartCode (0 :: 0 :: 1 :: v :: t) = inr (0%nat, v).
Proof. intros H. unfold findPSStartCode. simpl. by rewrite H. Qed.

(** ** The program stream map: lemmas *)

Lemma parsePSM_Some data :
  exists r, parsePSM data = Some r /\
    match r with inl _ => True | inr n => (7 <= n <= length data)%nat end.
Proof.
  unfold parsePSM. destruct (Nat.ltb_spec (length data) 9); [by eexists (inl _)|].
  destruct (index_lt data 4) as [x4 ->]; [lia|]. destruct (index_lt data 5) as [x5 ->]; [lia|].
  cbn [mbind option_bind]. set (pl := Z.to_nat (be16 x4 x5)).
  destruct (Nat.ltb_spec pl 1); [by eexists (inl _)|].
  destruct (Nat.ltb_spec (length data) (6 + pl)); [by eexists (inl _)|]. eexists; split; [done|]. simpl. lia.
Qed.

Lemma psm_entry_Some data offset :
  (offset + 4 <= length data)%nat -> exists st es l, psm_entry data offset = Some (st, es, l).
Proof.
  intros H. unfold psm_entry.
  destruct (index_lt data offset) as [x0 ->]; [lia|].
  destruct (index_lt data (offset + 1)) as [x1 ->]; [lia|].
  destruct (index_lt data (offset + 2)) as [x2 ->]; [lia|].
  destruct (index_lt data (offset + 3)) as [x3 ->]; [lia|]. simpl. eauto.
Qed.

Lemma psm_first_entry_Some data : exists o, psm_first_entry data = Some o.
Proof.
  unfold psm_first_entry. destruct (Nat.ltb_spec (length data) 4); [by eauto|].
  destruct (index_lt data 2) as [x0 ->]; [lia|]. destruct (index_lt data 3) as [x1 ->]; [lia|].
  simpl. destruct (Nat.ltb _ _); eauto.
Qed.

Lemma findVideoStreamType_loop_Some data offset fuel :
  (length data <= offset + fuel)%nat ->
  exists o, findVideoStreamType_loop data offset fuel = Some o.
Proof.
  revert offset. induction fuel as [|fuel IH]; intros offset Hf; simpl;
    destruct (Nat.leb_spec (offset + 4) (length data)); eauto; try lia.
  destruct (psm_entry_Some data offset) as (st & es & l & ->); [lia|]. simpl.
  destruct (is_video_id es && _); [eauto|]. apply IH. lia.
Qed.

Lemma findVideoStreamType_Some data : exists o, findVideoStreamType data = Some o.
Proof.
  unfold findVideoStreamType. destruct (psm_first_entry_Some data) as [o ->]. simpl.
  destruct o as [off|]; [|eauto]. apply findVideoStreamType_loop_Some. lia.
Qed.
