(* ===== verification/PsDemux.v ===== *)
(** The MPEG-PS demuxer ([platform/psdemux.go], [platform/psdemux_audio.go]):
    one access unit's PS bytes in, NALUs and audio frames out, with the
    residual buffers that carry incomplete structures between calls.

    The loop of [FeedAU] keeps an offset into [data]; here the offset is the
    suffix [data[offset:]]. Logging is not modelled, its one-shot latches are.
    PTS values are 33-bit and RTP timestamps 32-bit, far below the int64 range
    the code computes in, so tick arithmetic is on unbounded [Z]. *)

From S2P Require Import Prelude NalUtil PesParse.
Open Scope Z_scope.

Definition AudioCodecG711A : string := "g711a".
Definition AudioCodecG711U : string := "g711u".
Definition AudioCodecAAC : string := "aac".

Record AudioFrame := mkAudioFrame {
  Codec : string;
  Data : list Z;
  Config : option (list Z);
  PTSTicks : Z;
  Samples : Z;
}.

Definition audioStreamCodec (streamType : Z) : string :=
  if streamType =? streamTypeG711A then AudioCodecG711A
  else if streamType =? streamTypeG711U then AudioCodecG711U
  else if streamType =? streamTypeG722 then "g7221"
  else if streamType =? streamTypeG723 then "g7231"
  else if streamType =? streamTypeG729 then "g729"
  else if streamType =? streamTypeAAC then AudioCodecAAC
  else if (streamType =? streamTypeSVAC2) || (streamType =? streamTypeSVACA) then "svac"
  else "".

Record PSDemuxer := mkPSDemuxer {
  streamType : Z;
  naluType : string;
  buf : list Z;
  videoPesBuf : list Z;
  esBuf : list Z;
  currentPTS : Z;
  audioCodecs : gmap Z string;
  psmSeen : bool;
  psmAudioEntries : nat;
  audioResolved : gmap Z string;
  audioHint : string;
  guessScanned : Z;
  guessMulaw : Z;
  guessAlaw : Z;
  audioPesBuf : list Z;
  audioOut : list AudioFrame;
  audioContPTSTicks : Z;
  audioContSet : bool;
  ptsOffset : Z;
  ptsOffsetSet : bool;
  esResyncLogged : bool;
  pesOverflowLogged : bool;
}.

#[export] Instance eta_PSDemuxer : Eta PSDemuxer := fun d =>
  mkPSDemuxer (streamType d) (naluType d) (buf d) (videoPesBuf d) (esBuf d) (currentPTS d)
    (audioCodecs d) (psmSeen d) (psmAudioEntries d) (audioResolved d) (audioHint d)
    (guessScanned d) (guessMulaw d) (guessAlaw d) (audioPesBuf d) (audioOut d)
    (audioContPTSTicks d) (audioContSet d) (ptsOffset d) (ptsOffsetSet d)
    (esResyncLogged d) (pesOverflowLogged d).

Definition NewPSDemuxer : PSDemuxer :=
  mkPSDemuxer 0 "" [] [] [] 0 ∅ false 0 ∅ "" 0 0 0 [] [] 0 false 0 false false false.

Definition maxESBufBytes : Z := 8388608.
Definition maxPendingPESBytes : Z := 65541 + 4096.

Definition len (l : list Z) : Z := Z.of_nat (length l).

(** ** Audio helpers ([psdemux_audio.go]) *)

Definition SetAudioCodecHint (codec : string) (d : PSDemuxer) : PSDemuxer :=
  d <| audioHint := codec |>.

(** [int(h[3]&0x03)<<11 | int(h[4])<<3 | int(h[5])>>5] *)
Definition adts_frame_len (h3 h4 h5 : Z) : Z :=
  Z.lor (Z.lor (Z.shiftl (Z.land h3 0x03) 11) (Z.shiftl h4 3)) (Z.shiftr h5 5).

Definition hasADTSSync (data : list Z) : bool :=
  match data with
  | a :: b :: _ => (a =? 0xFF) && (Z.land b 0xF0 =? 0xF0)
  | _ => false
  end.

(** The quiet-cluster votes of one payload: (μ-law hits, A-law hits). *)
Fixpoint vote (payload : list Z) (mu al : Z) : Z * Z :=
  match payload with
  | [] => (mu, al)
  | b :: rest =>
      if (0xFD <=? b) || ((0x7D <=? b) && (b <=? 0x7F)) then vote rest (mu + 1) al
      else if ((0x54 <=? b) && (b <=? 0x56)) || ((0xD4 <=? b) && (b <=? 0xD6))
           then vote rest mu (al + 1)
           else vote rest mu al
  end.

Definition guessAudioCodec (payload : list Z) (d : PSDemuxer) : option (string * PSDemuxer) :=
  isAAC ← (if (Nat.leb 7 (length payload) && hasADTSSync payload)%bool then
             h3 ← index payload 3; h4 ← index payload 4; h5 ← index payload 5;
             let frameLen := adts_frame_len h3 h4 h5 in
             Some ((7 <=? frameLen) && (frameLen <=? 8192))
           else Some false);
  if (isAAC : bool) then Some (AudioCodecAAC, d) else
  if negb (bool_decide (audioHint d = ""%string)) then Some (audioHint d, d) else
  let '(mu, al) := vote payload (guessMulaw d) (guessAlaw d) in
  let d1 := d <| guessMulaw := mu |> <| guessAlaw := al |>
              <| guessScanned := guessScanned d + len payload |> in
  if guessScanned d1 <? 4096 then Some (""%string, d1)
  else if guessAlaw d1 <=? guessMulaw d1 then Some (AudioCodecG711U, d1)
  else Some (AudioCodecG711A, d1).

Definition resolveFallbackAudioCodec (streamID : Z) (payload : list Z) (d : PSDemuxer)
  : option (string * PSDemuxer) :=
  match audioResolved d !! streamID with
  | Some c => Some (c, d)
  | None =>
      '(codec, d1) ← guessAudioCodec payload d;
      if bool_decide (codec = ""%string) then Some (""%string, d1)
      else Some (codec, d1 <| audioResolved := <[streamID := codec]> (audioResolved d1) |>)
  end.

(** The 33-bit PTS of bytes 9-13, when flag 0x80 of byte 7 is set. *)
Definition parsePESPTS (data : list Z) : option (option Z) :=
  if Nat.ltb (length data) 14 then Some None else
  b7 ← index data 7;
  if Z.land b7 0x80 =? 0 then Some None else
  b0 ← index data 9; b1 ← index data 10; b2 ← index data 11;
  b3 ← index data 12; b4 ← index data 13;
  Some (Some (Z.lor (Z.lor (Z.lor (Z.lor
    (Z.shiftl (Z.land (Z.shiftr b0 1) 0x07) 30)
    (Z.shiftl b1 22))
    (Z.shiftl (Z.shiftr b2 1) 15))
    (Z.shiftl b3 7))
    (Z.shiftr b4 1))).

(** Returns (payload, PTS when present, total length). *)
Definition parseAudioPES (data0 : list Z) : option (ps_error + list Z * option Z * nat) :=
  let data := stripStartCodeLeadingZeros data0 in
  if Nat.ltb (length data) 9 then Some (inl ErrIncompletePES) else
  d0 ← index data 0; d1 ← index data 1; d2 ← index data 2;
  if negb ((d0 =? 0) && (d1 =? 0) && (d2 =? 1)) then Some (inl ErrIncompletePES) else
  streamID ← index data 3;
  if negb (is_audio_id streamID) then Some (inl ErrIncompletePES) else
  d4 ← index data 4; d5 ← index data 5;
  let pesLen := Z.to_nat (be16 d4 d5) in
  let totalLen := if Nat.eqb pesLen 0 then length data else (6 + pesLen)%nat in
  if (negb (Nat.eqb pesLen 0) && Nat.ltb (length data) totalLen)%bool
  then Some (inl ErrIncompletePES) else
  d8 ← index data 8;
  let payloadStart := (9 + Z.to_nat d8)%nat in
  if Nat.ltb totalLen payloadStart then Some (inl ErrIncompletePES) else
  pts ← parsePESPTS data;
  payload ← slice data payloadStart totalLen;
  Some (inr (payload, pts, totalLen)).

Fixpoint audioStreamTypes_loop (psmData : list Z) (offset fuel : nat) (out : gmap Z Z)
  : option (gmap Z Z) :=
  if Nat.leb (offset + 4) (length psmData) then
    match fuel with
    | O => None
    | S fuel' =>
        '(streamType, esID, esInfoLen) ← psm_entry psmData offset;
        audioStreamTypes_loop psmData (offset + (4 + esInfoLen)) fuel'
          (if is_audio_id esID then <[esID := streamType]> out else out)
    end
  else Some out.

Definition audioStreamTypes (psmData : list Z) : option (gmap Z Z) :=
  start ← psm_first_entry psmData;
  match start with
  | None => Some ∅
  | Some offset => audioStreamTypes_loop psmData offset (length psmData) ∅
  end.

Record adtsFrame := mkAdtsFrame { header : option (list Z); data : list Z }.

Definition adtsSampleRates : list Z :=
  [96000; 88200; 64000; 48000; 44100; 32000; 24000; 22050;
   16000; 12000; 11025; 8000; 7350; 0; 0; 0].

(** The loop of [splitADTS] on the suffix [payload[offset:]]. *)
Fixpoint splitADTS_loop (rest : list Z) (fuel : nat) : option (list adtsFrame) :=
  if Nat.leb 7 (length rest) then
    match fuel with
    | O => None
    | S fuel' =>
        if negb (hasADTSSync rest) then Some [] else
        hdr ← slice rest 0 7;
        h1 ← index hdr 1; h3 ← index hdr 3; h4 ← index hdr 4; h5 ← index hdr 5;
        let hdrLen := if Z.land h1 0x01 =? 0 then 9%nat else 7%nat in
        let frameLen := Z.to_nat (adts_frame_len h3 h4 h5) in
        if (Nat.ltb frameLen hdrLen || Nat.ltb (length rest) frameLen)%bool then Some [] else
        payload ← slice rest hdrLen frameLen;
        rest' ← slice_from rest frameLen;
        frames ← splitADTS_loop rest' fuel';
        Some (mkAdtsFrame (Some hdr) payload :: frames)
    end
  else Some [].

Definition splitADTS (payload : list Z) : option (list adtsFrame) :=
  if negb (hasADTSSync payload) then Some [mkAdtsFrame None payload]
  else splitADTS_loop payload (length payload).

Definition adtsToASC (header : option (list Z)) : option (option (list Z)) :=
  match header with
  | None => Some None
  | Some h =>
      if Nat.ltb (length h) 7 then Some None else
      h2 ← index h 2; h3 ← index h 3;
      let profile := Z.land (Z.shiftr h2 6) 0x03 in
      let freqIdx := Z.land (Z.shiftr h2 2) 0x0F in
      let channels := Z.lor (u8 (Z.shiftl (Z.land h2 0x01) 2)) (Z.shiftr h3 6) in
      if 16 <=? freqIdx then Some None else
      rate ← index adtsSampleRates (Z.to_nat freqIdx);
      if rate =? 0 then Some None else
      let audioObjectType := u8 (profile + 1) in
      Some (Some [Z.lor (u8 (Z.shiftl audioObjectType 3)) (Z.shiftr freqIdx 1);
                  Z.lor (u8 (Z.shiftl (Z.land freqIdx 0x01) 7)) (u8 (Z.shiftl channels 3))])
  end.

Definition adtsSampleRate (header : list Z) : option Z :=
  if Nat.ltb (length header) 7 then Some 0 else
  h2 ← index header 2;
  let freqIdx := Z.land (Z.shiftr h2 2) 0x0F in
  if Z.of_nat (length adtsSampleRates) <=? freqIdx then Some 0
  else index adtsSampleRates (Z.to_nat freqIdx).

(** ** Audio emission *)

Definition append_audio (f : AudioFrame) (d : PSDemuxer) : PSDemuxer :=
  d <| audioOut := audioOut d ++ [f] |>.

(** The AAC loop: each frame advances the timeline by 1024 samples. *)
Fixpoint emit_aac (frames : list adtsFrame) (pts : Z) (d : PSDemuxer) : option PSDemuxer :=
  match frames with
  | [] => Some d
  | frame :: rest =>
      config ← adtsToASC (header frame);
      let d1 := append_audio (mkAudioFrame AudioCodecAAC (data frame) config pts 1024) d in
      let pts' := pts + 1024 in
      emit_aac rest pts' (d1 <| audioContPTSTicks := pts' |> <| audioContSet := true |>)
  end.

(** The part of [emitAudio] after the codec is known. *)
Definition emitAudio_frames (codec : string) (payload : list Z) (pesPTS : option Z)
    (rtpTicks : Z) (d : PSDemuxer) : option PSDemuxer :=
  let '(pts, d2) :=
    match pesPTS with
    | Some p => let pts := p - ptsOffset d in (if pts <? 0 then rtpTicks else pts, d)
    | None =>
        if audioContSet d then (audioContPTSTicks d, d)
        else (rtpTicks, d <| audioContPTSTicks := rtpTicks |> <| audioContSet := true |>)
    end in
  if bool_decide (codec = AudioCodecG711A) || bool_decide (codec = AudioCodecG711U) then
    let d3 := append_audio (mkAudioFrame codec payload None pts (len payload)) d2 in
    Some (d3 <| audioContPTSTicks := pts + len payload |> <| audioContSet := true |>)
  else if bool_decide (codec = AudioCodecAAC) then
    frames ← splitADTS payload;
    emit_aac frames pts d2
  else Some d2.

Definition emitAudio (payload : list Z) (streamID : Z) (pesPTS : option Z) (rtpTicks : Z)
    (d : PSDemuxer) : option PSDemuxer :=
  let codec0 := default ""%string (audioCodecs d !! streamID) in
  '(codec, d1) ←
    (if bool_decide (codec0 = ""%string) && negb (psmSeen d && Nat.ltb 0 (psmAudioEntries d))
     then resolveFallbackAudioCodec streamID payload d
     else Some (codec0, d));
  if bool_decide (codec = ""%string) then Some d1 else
  if negb (ptsOffsetSet d1) then
    match pesPTS with
    | Some p =>
        emitAudio_frames codec payload pesPTS rtpTicks
          (d1 <| ptsOffset := p - rtpTicks |> <| ptsOffsetSet := true |>)
    | None => Some d1
    end
  else emitAudio_frames codec payload pesPTS rtpTicks d1.

Definition establishClockOffset (pesData : list Z) (rtpTicks : Z) (d : PSDemuxer)
  : option PSDemuxer :=
  if ptsOffsetSet d then Some d else
  pts ← parsePESPTS pesData;
  match pts with
  | None => Some d
  | Some p => Some (d <| ptsOffset := p - rtpTicks |> <| ptsOffsetSet := true |>)
  end.

Definition warnPESOverflow (d : PSDemuxer) : PSDemuxer :=
  if pesOverflowLogged d then d else d <| pesOverflowLogged := true |>.

(** ** FeedAU *)

(** One iteration either leaves the loop ([break feedLoop]) or continues with
    the data at the new offset. *)
Inductive step := Stop (d : PSDemuxer) | Continue (rest : list Z) (d : PSDemuxer).

Fixpoint skip_ff (l : list Z) : list Z :=
  match l with
  | b :: t => if b =? 0xFF then skip_ff t else l
  | [] => []
  end.

(** [case startCodePack], [pes] being [data[startCodePos:]]. *)
Definition feed_pack (pes : list Z) (d : PSDemuxer) : option step :=
  if Nat.ltb (length pes) 14 then Some (Stop (d <| buf := pes |>)) else
  b13 ← index pes 13;
  let rest := drop (14 + Z.to_nat (Z.land b13 0x07)) pes in
  Some (Continue (match rest with
                  | x :: _ => if Z.land x 0x07 =? 0x07 then skip_ff rest else rest
                  | [] => rest
                  end) d).

(** [case startCodeSystem] and [case startCodePadding, startCodePrivate2]. *)
Definition feed_skip (pes : list Z) (d : PSDemuxer) : option step :=
  if Nat.ltb (length pes) 6 then Some (Stop (d <| buf := pes |>)) else
  h ← index pes 4; l ← index pes 5;
  let headerLen := Z.to_nat (be16 h l) in
  if Nat.ltb (length pes) (6 + headerLen) then Some (Stop (d <| buf := pes |>))
  else Some (Continue (drop (6 + headerLen) pes) d).

Definition latch_video (found : option Z) (d : PSDemuxer) : PSDemuxer :=
  match found with
  | None => d
  | Some st =>
      let d1 := d <| streamType := st |> in
      if st =? streamTypeH264 then d1 <| naluType := "h264"%string |>
      else if st =? streamTypeH265 then d1 <| naluType := "h265"%string |>
      else if st =? streamTypeSVACV then d1 <| naluType := "svac"%string |>
      else d1
  end.

(** The body of [if psmEnd > 6]: the PSM's video type and audio entries. *)
Definition apply_psm (psmData : list Z) (d : PSDemuxer) : option PSDemuxer :=
  found ← findVideoStreamType psmData;
  let d1 := latch_video found d in
  entries ← audioStreamTypes psmData;
  Some (d1 <| psmSeen := true |> <| psmAudioEntries := size entries |>
           <| audioCodecs := (audioStreamCodec <$> entries) ∪ audioCodecs d1 |>).

Definition feed_psm (pes : list Z) (d : PSDemuxer) : option step :=
  r ← parsePSM pes;
  match r with
  | inl _ => Some (Stop (d <| buf := pes |>))
  | inr psmEnd =>
      d1 ← (if Nat.ltb 6 psmEnd then
              psmData ← slice pes 6 psmEnd;
              apply_psm psmData d
            else Some d);
      Some (Continue (drop psmEnd pes) d1)
  end.

Definition feed_audio (pes : list Z) (startCode : Z) (ptsTicks : Z) (d : PSDemuxer)
  : option step :=
  r ← parseAudioPES pes;
  let incomplete :=
    if maxPendingPESBytes <? len pes
    then Stop ((warnPESOverflow d) <| audioPesBuf := [] |>)
    else Stop (d <| audioPesBuf := pes |>) in
  match r with
  | inl _ => Some incomplete
  | inr (payload, pesPTS, pesEnd) =>
      if Nat.ltb (length pes) pesEnd then Some incomplete else
      d1 ← (match payload with
            | [] => Some d
            | _ => emitAudio payload startCode pesPTS ptsTicks d
            end);
      Some (Continue (drop pesEnd pes) d1)
  end.

Definition accumulate_es (payload : list Z) (d : PSDemuxer) : PSDemuxer :=
  let d1 := d <| esBuf := esBuf d ++ payload |> in
  if maxESBufBytes <? len (esBuf d1)
  then d1 <| esResyncLogged := true |> <| esBuf := [] |>
  else d1.

Definition feed_video (pes : list Z) (ptsTicks : Z) (d : PSDemuxer) : option step :=
  r ← parseVideoPES pes;
  let incomplete :=
    if maxPendingPESBytes <? len pes
    then Stop ((warnPESOverflow d) <| videoPesBuf := [] |>)
    else Stop (d <| videoPesBuf := pes |>) in
  match r with
  | inl _ => Some incomplete
  | inr (payload, pesEnd) =>
      if Nat.ltb (length pes) pesEnd then Some incomplete else
      d1 ← (match payload with
            | [] => Some d
            | _ =>
                d1 ← establishClockOffset pes ptsTicks (d <| currentPTS := ptsTicks |>);
                Some (accumulate_es payload d1)
            end);
      Some (Continue (drop pesEnd pes) d1)
  end.

(** The [switch startCode]. *)
Definition feedStep (pes : list Z) (startCode : Z) (ptsTicks : Z) (d : PSDemuxer)
  : option step :=
  if startCode =? startCodePack then feed_pack pes d
  else if startCode =? startCodeSystem then feed_skip pes d
  else if startCode =? startCodePSM then feed_psm pes d
  else if (startCode =? startCodePadding) || (startCode =? startCodePrivate2)
       then feed_skip pes d
  else if is_audio_id startCode then feed_audio pes startCode ptsTicks d
  else if is_video_id startCode then feed_video pes ptsTicks d
  else Some (Continue (drop 4 pes) d).

Fixpoint feedLoop (fuel : nat) (rest : list Z) (ptsTicks : Z) (d : PSDemuxer)
  : option PSDemuxer :=
  match rest with
  | [] => Some d
  | _ =>
      match findPSStartCode rest with
      | inl _ => Some (d <| buf := rest |>)
      | inr (startCodePos, startCode) =>
          match fuel with
          | O => None
          | S fuel' =>
              s ← feedStep (drop startCodePos rest) startCode ptsTicks d;
              match s with
              | Stop d' => Some d'
              | Continue rest' d' => feedLoop fuel' rest' ptsTicks d'
              end
          end
      end
  end.

Fixpoint maybeLatchCodecFromNALUs (nalus : list (list Z)) (d : PSDemuxer) : PSDemuxer :=
  if negb (bool_decide (naluType d = ""%string)) then d else
  match nalus with
  | [] => d
  | n :: rest =>
      match n with
      | [] => maybeLatchCodecFromNALUs rest d
      | b :: _ =>
          if negb (Z.land b 0x80 =? 0) then maybeLatchCodecFromNALUs rest d
          else if (b =? 0x67) || (b =? 0x68) then d <| naluType := "h264"%string |>
          else if (b =? 0x40) || (b =? 0x42) || (b =? 0x44) then d <| naluType := "h265"%string |>
          else maybeLatchCodecFromNALUs rest d
      end
  end.

(** The data [FeedAU] parses: the residual buffers in front of the payload. *)
Definition pending (d : PSDemuxer) : list Z := audioPesBuf d ++ videoPesBuf d ++ buf d.

Definition clear_pending (d : PSDemuxer) : PSDemuxer :=
  d <| buf := [] |> <| videoPesBuf := [] |> <| audioPesBuf := [] |>.

Definition FeedAU (auPayload : list Z) (ptsTicks : Z) (complete : bool) (d : PSDemuxer)
  : option (list (list Z) * PSDemuxer) :=
  match auPayload with
  | [] => Some ([], d)
  | _ =>
      let data := pending d ++ auPayload in
      d1 ← feedLoop (S (length data)) data ptsTicks (clear_pending d);
      if complete then
        match videoPesBuf d1 with
        | _ :: _ => Some ([], d1 <| videoPesBuf := [] |> <| esBuf := [] |>)
        | [] =>
            match esBuf d1 with
            | [] => Some ([], maybeLatchCodecFromNALUs [] d1)
            | _ =>
                nalus ← extractNALUs (esBuf d1) (naluType d1);
                Some (nalus, maybeLatchCodecFromNALUs nalus (d1 <| esBuf := [] |>))
            end
        end
      else Some ([], maybeLatchCodecFromNALUs [] d1)
  end.

Definition DropPartialVideo (d : PSDemuxer) : PSDemuxer :=
  d <| videoPesBuf := [] |> <| esBuf := [] |>.

Definition Flush (d : PSDemuxer) : option (list (list Z) * PSDemuxer) :=
  n1 ← (match esBuf d with [] => Some [] | _ => extractNALUs (esBuf d) (naluType d) end);
  n2 ← (match videoPesBuf d with
        | [] => Some []
        | _ =>
            payload ←
              (if Nat.leb 9 (length (videoPesBuf d)) then
                 b8 ← index (videoPesBuf d) 8;
                 let headerLen := (9 + Z.to_nat b8)%nat in
                 if Nat.leb headerLen (length (videoPesBuf d))
                 then slice_from (videoPesBuf d) headerLen
                 else Some (videoPesBuf d)
               else Some (videoPesBuf d));
            extractNALUs payload (naluType d)
        end);
  n3 ← (match buf d with [] => Some [] | _ => extractNALUs (buf d) (naluType d) end);
  Some (n1 ++ n2 ++ n3, d <| esBuf := [] |> <| videoPesBuf := [] |> <| buf := [] |>).

Definition DrainAudio (d : PSDemuxer) : list AudioFrame * PSDemuxer :=
  (audioOut d, d <| audioOut := [] |>).

Definition demux_Codec (d : PSDemuxer) : string := naluType d.

(** ** No panic, enough fuel: every operation is total *)

Lemma strip_prefix v t :
  stripStartCodeLeadingZeros (0 :: 0 :: 1 :: v :: t) = 0 :: 0 :: 1 :: v :: t.
Proof. by apply strip_noop. Qed.

Lemma parsePESPTS_Some pes : exists o, parsePESPTS pes = Some o.
Proof.
  unfold parsePESPTS. destruct (Nat.ltb_spec (length pes) 14); [by eauto|].
  go_index. destruct (_ =? _); eauto.
Qed.

Lemma parseAudioPES_Some data0 :
  exists r, parseAudioPES data0 = Some r /\
    match r with
    | inl _ => True
    | inr (_, _, n) => (9 <= n <= length (stripStartCodeLeadingZeros data0))%nat
    end.
Proof.
  unfold parseAudioPES. set (pes := stripStartCodeLeadingZeros data0).
  destruct (Nat.ltb_spec (length pes) 9); [by eexists (inl _)|].
  go_index. destruct (negb _); [by eexists (inl _)|]. destruct (negb _); [by eexists (inl _)|].
  set (pl := Z.to_nat (be16 _ _)). set (tot := if Nat.eqb pl 0 then _ else _).
  destruct (negb (Nat.eqb pl 0) && Nat.ltb (length pes) tot)%bool eqn:E; [by eexists (inl _)|].
  assert (Ht : (tot <= length pes)%nat).
  { unfold tot in *. destruct (Nat.eqb pl 0); [lia|]. simpl in E. by apply Nat.ltb_ge in E. }
  set (ps := (9 + Z.to_nat _)%nat).
  destruct (Nat.ltb_spec tot ps); [by eexists (inl _)|].
  destruct (parsePESPTS_Some pes) as [o ->]. cbn [mbind option_bind].
  rewrite slice_ok by lia. eexists. split; [reflexivity|]. unfold ps in *. lia.
Qed.

Lemma audioStreamTypes_loop_Some psm offset fuel out :
  (length psm <= offset + fuel)%nat ->
  exists o, audioStreamTypes_loop psm offset fuel out = Some o.
Proof.
  revert offset out. induction fuel as [|fuel IH]; intros offset out Hf; simpl;
    destruct (Nat.leb_spec (offset + 4) (length psm)); eauto; try lia.
  destruct (psm_entry_Some psm offset) as (st & es & l & ->); [lia|]. simpl. apply IH. lia.
Qed.

Lemma audioStreamTypes_Some psm : exists o, audioStreamTypes psm = Some o.
Proof.
  unfold audioStreamTypes. destruct (psm_first_entry_Some psm) as [o ->]. simpl.
  destruct o; [|eauto]. apply audioStreamTypes_loop_Some. lia.
Qed.

Lemma apply_psm_Some psm d : exists d', apply_psm psm d = Some d'.
Proof.
  unfold apply_psm. destruct (findVideoStreamType_Some psm) as [o ->]. cbn [mbind option_bind].
  destruct (audioStreamTypes_Some psm) as [e ->]. eauto.
Qed.

Lemma splitADTS_loop_Some rest fuel :
  (length rest <= fuel)%nat -> exists l, splitADTS_loop rest fuel = Some l.
Proof.
  revert rest. induction fuel as [|fuel IH]; intros rest Hf; cbn [splitADTS_loop];
    destruct (Nat.leb_spec 7 (length rest)) as [H7|H7]; eauto; [lia|].
  destruct (negb _); [eauto|]. rewrite slice_ok by lia. cbn [mbind option_bind].
  assert (Hl : length (take (7 - 0) (drop 0 rest)) = 7%nat) by (rewrite length_take, length_drop; lia).
  generalize dependent (take (7 - 0) (drop 0 rest)). intros hdr Hl. go_index.
  match goal with |- context [if ?c then 9%nat else 7%nat] =>
    set (hl := if c then 9%nat else 7%nat) end.
  assert (7 <= hl)%nat by (unfold hl; destruct (_ =? _); lia).
  set (fl := Z.to_nat _).
  destruct (Nat.ltb_spec fl hl); [simpl; eauto|].
  destruct (Nat.ltb_spec (length rest) fl); [simpl; eauto|]. cbn [orb].
  rewrite slice_ok, slice_from_ok by lia. cbn [mbind option_bind].
  destruct (IH (drop fl rest)) as [l ->]; [rewrite length_drop; lia|]. simpl. eauto.
Qed.

Lemma splitADTS_Some payload : exists l, splitADTS payload = Some l.
Proof.
  unfold splitADTS. destruct (negb _); [eauto|]. by apply splitADTS_loop_Some.
Qed.

Lemma adtsToASC_Some h : exists o, adtsToASC h = Some o.
Proof.
  destruct h as [h|]; [|simpl; eauto]. unfold adtsToASC.
  destruct (Nat.ltb_spec (length h) 7); [eauto|].
  destruct (index_lt h 2) as [h2 ->]; [lia|]. destruct (index_lt h 3) as [h3 ->]; [lia|].
  cbn [mbind option_bind].
  pose proof (land_ones_range (Z.shiftr h2 2) 4 ltac:(lia)) as Hr.
  change (Z.ones 4) with 0x0F in Hr. change (2 ^ 4) with 16 in Hr.
  set (fi := Z.land (Z.shiftr h2 2) 15) in *.
  destruct (Z.leb_spec 16 fi); [lia|].
  destruct (index_lt adtsSampleRates (Z.to_nat fi)) as [r ->].
  { change (length adtsSampleRates) with 16%nat. lia. }
  cbn [mbind option_bind]. destruct (r =? 0); eauto.
Qed.

Lemma emit_aac_Some frames pts d : exists d', emit_aac frames pts d = Some d'.
Proof.
  revert pts d. induction frames as [|f frames IH]; intros pts d; [simpl; eauto|]. cbn [emit_aac].
  destruct (adtsToASC_Some (header f)) as [c ->]. cbn [mbind option_bind]. apply IH.
Qed.

Lemma guessAudioCodec_Some payload d : exists c d', guessAudioCodec payload d = Some (c, d').
Proof.
  unfold guessAudioCodec. destruct (Nat.leb_spec 7 (length payload)).
  - assert (T : forall (b : bool), exists c d',
      (if b then Some (AudioCodecAAC, d) else
       if negb (bool_decide (audioHint d = ""%string)) then Some (audioHint d, d) else
       let '(mu, al) := vote payload (guessMulaw d) (guessAlaw d) in
       let d1 := d <| guessMulaw := mu |> <| guessAlaw := al |>
                   <| guessScanned := guessScanned d + len payload |> in
       if guessScanned d1 <? 4096 then Some (""%string, d1)
       else if guessAlaw d1 <=? guessMulaw d1 then Some (AudioCodecG711U, d1)
       else Some (AudioCodecG711A, d1)) = Some (c, d')).
    { intros []; [eauto|]. destruct (negb _); [eauto|]. destruct (vote _ _ _) as [mu al].
      cbv zeta. destruct (_ <? _); [eauto|]. destruct (_ <=? _); eauto. }
    destruct (hasADTSSync payload); cbn [andb].
    + go_index. apply T.
    + apply (T false).
  - cbn [andb mbind option_bind]. destruct (negb _); [eauto|].
    destruct (vote _ _ _) as [mu al]. cbv zeta.
    destruct (_ <? _); [eauto|]. destruct (_ <=? _); eauto.
Qed.

Lemma emitAudio_frames_Some codec payload pts rtp d :
  exists d', emitAudio_frames codec payload pts rtp d = Some d'.
Proof.
  unfold emitAudio_frames. destruct (match pts with Some _ => _ | None => _ end) as [p d2].
  destruct (_ || _); [eauto|]. case_match; [|eauto].
  destruct (splitADTS_Some payload) as [fr ->]. cbn [mbind option_bind]. apply emit_aac_Some.
Qed.

Lemma resolveFallbackAudioCodec_Some sid payload d :
  exists c d', resolveFallbackAudioCodec sid payload d = Some (c, d').
Proof.
  unfold resolveFallbackAudioCodec. destruct (audioResolved d !! sid); [eauto|].
  destruct (guessAudioCodec_Some payload d) as (c & d' & ->). cbn [mbind option_bind].
  case_match; eauto.
Qed.

Lemma emitAudio_Some payload sid pts rtp d : exists d', emitAudio payload sid pts rtp d = Some d'.
Proof.
  unfold emitAudio.
  match goal with |- context [if ?c then resolveFallbackAudioCodec _ _ _ else _] =>
    destruct c end.
  - destruct (resolveFallbackAudioCodec_Some sid payload d) as (c & d1 & ->).
    cbn [mbind option_bind]. case_match; [eauto|].
    destruct (negb _); [destruct pts; [|eauto]|]; apply emitAudio_frames_Some.
  - cbn [mbind option_bind]. case_match; [eauto|].
    destruct (negb _); [destruct pts; [|eauto]|]; apply emitAudio_frames_Some.
Qed.

Lemma establishClockOffset_Some pes rtp d : exists d', establishClockOffset pes rtp d = Some d'.
Proof.
  unfold establishClockOffset. destruct (ptsOffsetSet d); [eauto|].
  destruct (parsePESPTS_Some pes) as [o ->]. cbn [mbind option_bind]. destruct o; eauto.
Qed.

(** What one iteration promises: it consumes input unless it stops. *)
Definition progresses (pes : list Z) (s : option step) : Prop :=
  exists st, s = Some st /\
    match st with Stop _ => True | Continue rest _ => (length rest < length pes)%nat end.

Lemma skip_ff_length l : (length (skip_ff l) <= length l)%nat.
Proof. induction l as [|b l IH]; simpl; [done|]. destruct (b =? 255); simpl; lia. Qed.

Lemma feed_pack_progresses pes d : progresses pes (feed_pack pes d).
Proof.
  unfold progresses, feed_pack. destruct (Nat.ltb_spec (length pes) 14); [by eexists (Stop _)|].
  go_index. eexists. split; [reflexivity|]. simpl.
  set (k := S _). assert (Hd : (length (drop k pes) < length pes)%nat) by (rewrite length_drop; lia).
  destruct (drop k pes) as [|y l] eqn:E; [lia|].
  destruct (_ =? _); [|lia]. pose proof (skip_ff_length (y :: l)). lia.
Qed.

Lemma feed_skip_progresses pes d : progresses pes (feed_skip pes d).
Proof.
  unfold progresses, feed_skip. destruct (Nat.ltb_spec (length pes) 6); [by eexists (Stop _)|].
  go_index. destruct (Nat.ltb _ _); [by eexists (Stop _)|].
  eexists. split; [reflexivity|]. cbv iota. rewrite length_drop. lia.
Qed.

Lemma feed_psm_progresses pes d : progresses pes (feed_psm pes d).
Proof.
  unfold progresses, feed_psm. destruct (parsePSM_Some pes) as (r & -> & Hr). cbn [mbind option_bind].
  destruct r as [e|n]; [by eexists (Stop _)|].
  rewrite (proj2 (Nat.ltb_lt 6 n)) by lia. rewrite slice_ok by lia. cbn [mbind option_bind].
  destruct (apply_psm_Some (take (n - 6) (drop 6 pes)) d) as [d' ->]. cbn [mbind option_bind].
  eexists. split; [reflexivity|]. cbv iota. rewrite length_drop. lia.
Qed.

Lemma feed_audio_progresses v t pts c d :
  progresses (0 :: 0 :: 1 :: v :: t) (feed_audio (0 :: 0 :: 1 :: v :: t) c pts d).
Proof.
  unfold progresses, feed_audio. destruct (parseAudioPES_Some (0 :: 0 :: 1 :: v :: t)) as (r & -> & Hr).
  cbn [mbind option_bind]. rewrite strip_prefix in Hr. set (pes := 0 :: 0 :: 1 :: v :: t) in *.
  destruct r as [e|[[payload p] n]].
  - destruct (_ <? _); by eexists (Stop _).
  - rewrite (proj2 (Nat.ltb_ge _ _)) by lia.
    assert (He : exists d1, (match payload with [] => Some d | _ => emitAudio payload c p pts d end) = Some d1)
      by (destruct payload; [eauto|apply emitAudio_Some]).
    destruct He as [d1 ->]. cbn [mbind option_bind]. eexists. split; [reflexivity|].
    cbv iota. rewrite length_drop. simpl in *. lia.
Qed.

Lemma feed_video_progresses v t pts d :
  progresses (0 :: 0 :: 1 :: v :: t) (feed_video (0 :: 0 :: 1 :: v :: t) pts d).
Proof.
  unfold progresses, feed_video. destruct (parseVideoPES_Some (0 :: 0 :: 1 :: v :: t)) as (r & -> & Hr).
  cbn [mbind option_bind]. rewrite strip_prefix in Hr. set (pes := 0 :: 0 :: 1 :: v :: t) in *.
  destruct r as [e|[payload n]].
  - destruct (_ <? _); by eexists (Stop _).
  - rewrite (proj2 (Nat.ltb_ge _ _)) by lia.
    destruct (establishClockOffset_Some pes pts (d <| currentPTS := pts |>)) as [d1 Hd1].
    destruct payload as [|x payload]; [|rewrite Hd1]; cbn [mbind option_bind];
      (eexists; split; [reflexivity|]; cbv iota; rewrite length_drop; simpl in *; lia).
Qed.

Lemma feedStep_progresses v t c pts d :
  progresses (0 :: 0 :: 1 :: v :: t) (feedStep (0 :: 0 :: 1 :: v :: t) c pts d).
Proof.
  unfold feedStep.
  destruct (_ =? _); [apply feed_pack_progresses|]. destruct (_ =? _); [apply feed_skip_progresses|].
  destruct (_ =? _); [apply feed_psm_progresses|]. destruct (_ || _); [apply feed_skip_progresses|].
  destruct (is_audio_id c); [apply feed_audio_progresses|].
  destruct (is_video_id c); [apply feed_video_progresses|].
  eexists. split; [reflexivity|]. cbv iota. rewrite length_drop. simpl. lia.
Qed.

Lemma feedLoop_Some fuel rest pts d :
  (length rest <= fuel)%nat -> exists d', feedLoop fuel rest pts d = Some d'.
Proof.
  revert rest d. induction fuel as [|fuel IH]; intros rest d Hf; simpl;
    (destruct rest as [|b rest]; [by eauto|]); [simpl in Hf; lia|].
  destruct (findPSStartCode (b :: rest)) as [e|[p v]] eqn:E; [eauto|].
  apply findPSStartCode_at_inr in E as (k & t & -> & Hk & Hd & _). simpl Nat.add. rewrite Hd.
  destruct (feedStep_progresses v t v pts d) as ([d'|rest' d'] & -> & Hlt);
    cbn [mbind option_bind]; [eauto|].
  apply IH. rewrite <- Hd, length_drop in Hlt. simpl in *. lia.
Qed.

(** More fuel than needed changes nothing. *)
Lemma feedLoop_fuel fuel fuel' rest pts d r :
  feedLoop fuel rest pts d = Some r -> (fuel <= fuel')%nat -> feedLoop fuel' rest pts d = Some r.
Proof.
  revert fuel' rest d. induction fuel as [|fuel IH]; intros fuel' rest d H Hle.
  - destruct rest as [|b rest]; [by destruct fuel'|]. simpl in H.
    destruct fuel'; simpl; destruct (findPSStartCode (b :: rest)) as [e|[p v]]; done.
  - destruct fuel' as [|fuel']; [lia|]. destruct rest as [|b rest]; [done|]. simpl in *.
    destruct (findPSStartCode (b :: rest)) as [e|[p v]]; [done|].
    destruct (feedStep _ v pts d) as [[d'|rest' d']|]; cbn [mbind option_bind] in *; try done.
    apply IH; [done|lia].
Qed.

Lemma FeedAU_Some au pts complete d : exists r, FeedAU au pts complete d = Some r.
Proof.
  unfold FeedAU. destruct au as [|b au]; [eauto|].
  destruct (feedLoop_Some (S (length (pending d ++ b :: au))) (pending d ++ b :: au) pts
              (clear_pending d)) as [d1 ->]; [lia|]. cbn [mbind option_bind].
  destruct complete; [|eauto]. destruct (videoPesBuf d1); [|eauto].
  destruct (esBuf d1) as [|x es]; [eauto|].
  destruct (extractNALUs_Some (x :: es) (naluType d1)) as [l ->]. simpl. eauto.
Qed.
