(* ===== verification/PsMux.v ===== *)
(** The PS muxer ([psmux/mux.go]): pack header, system header, Program Stream
    Map, bounded video PES packets and audio PES packets for one access unit
    per call. The mutex that serialises the writers makes every method one
    atomic step on the [Muxer] record. *)

From S2P Require Import Prelude.
Open Scope Z_scope.

Module Mux.

Definition streamTypeH264 : Z := 0x1B.
Definition streamTypeH265 : Z := 0x24.
Definition streamTypeSVACV : Z := 0x80.
Definition streamTypeAAC : Z := 0x0F.
Definition streamTypeSVACA : Z := 0x9B.
Definition streamTypeG711A : Z := 0x90.
Definition streamTypeG711U : Z := 0x91.
Definition videoStreamID : Z := 0xE0.
Definition audioStreamID : Z := 0xC0.
Definition maxPESPayload : nat := Z.to_nat 60000.

Record Muxer := mkMuxer { videoType : Z; audioType : Z; psmDirty : bool }.

#[export] Instance eta_Muxer : Eta Muxer := fun m =>
  mkMuxer (videoType m) (audioType m) (psmDirty m).

Definition New : Muxer := mkMuxer 0 0 true.

Definition SetVideoCodec (codec : string) (m : Muxer) : Muxer :=
  m <| videoType :=
         if bool_decide (codec = "h265"%string) then streamTypeH265
         else if bool_decide (codec = "svac"%string) then streamTypeSVACV
         else streamTypeH264 |>
    <| psmDirty := true |>.

Definition SetAudioCodec (codec : string) (m : Muxer) : Muxer :=
  m <| audioType :=
         if bool_decide (codec = "g711a"%string) then streamTypeG711A
         else if bool_decide (codec = "g711u"%string) then streamTypeG711U
         else if bool_decide (codec = "svac"%string) then streamTypeSVACA
         else if bool_decide (codec = "aac"%string) then streamTypeAAC
         else 0 |>
    <| psmDirty := true |>.

Definition packHeader (pts : Z) : list Z :=
  let scr0 := Z.quot pts 300 in
  let scr := if scr0 <? 0 then 0 else scr0 in
  let b := Z.lor (Z.land (u8 (Z.shiftr scr 27)) 0x18) 0x44 in
  let rate := 70000 in
  [0x00; 0x00; 0x01; 0xBA; b;
   u8 (Z.shiftr scr 19); Z.lor (u8 (Z.shiftr scr 11)) 0x01; u8 (Z.shiftr scr 3);
   Z.lor (u8 (Z.shiftl (u8 (Z.land scr 0x7)) 5)) 0x04;
   0x01;
   u8 (Z.shiftr rate 14); u8 (Z.shiftr rate 6);
   Z.lor (u8 (Z.shiftl (u8 (Z.land rate 0x3F)) 2)) 0x03;
   0xF8].

(** [byte(len(body) - 2>>8)] parses as [len(body) - (2>>8)]. *)
Definition systemHeader (vt at_ : Z) : list Z :=
  let tail := [0x01; 0xB9; 0xE0; 0xE0; 0x80; 0xC0; 0x01]
              ++ [vt; videoStreamID; 0xE1; 0x00]
              ++ (if negb (at_ =? 0) then [at_; audioStreamID; 0xC0; 0x03] else []) in
  let n := Z.of_nat (length tail) + 2 in
  let body := [u8 (n - Z.shiftr 2 8); u8 (n - 2)] ++ tail in
  [0x00; 0x00; 0x01; 0xBB; u8 (Z.shiftr n 8); u8 n] ++ body.

Definition crc_bit (crc : Z) : Z :=
  if negb (Z.land crc 0x80000000 =? 0)
  then Z.lxor (u32 (Z.shiftl crc 1)) 0x04C11DB7
  else u32 (Z.shiftl crc 1).

Definition crc32MPEG (data : list Z) : Z :=
  fold_left (fun crc b => Nat.iter 8 crc_bit (Z.lxor crc (u32 (Z.shiftl b 24)))) data 0xFFFFFFFF.

Definition be32 (x : Z) : list Z :=
  [u8 (Z.shiftr x 24); u8 (Z.shiftr x 16); u8 (Z.shiftr x 8); u8 x].

Definition psm (vt at_ : Z) : list Z :=
  let esm := [vt; videoStreamID; 0x00; 0x00]
             ++ (if negb (at_ =? 0) then [at_; audioStreamID; 0x00; 0x00] else []) in
  let body0 := [0xE0; 0xFF; 0x00; 0x00] ++ put16 (Z.of_nat (length esm)) ++ esm in
  let body := body0 ++ be32 (crc32MPEG body0) in
  [0x00; 0x00; 0x01; 0xBC] ++ put16 (Z.of_nat (length body)) ++ body.

Definition encodePTS (pts : Z) : list Z :=
  let p := Z.land (u64 pts) 0x1FFFFFFFF in
  [Z.lor (Z.lor 0x21 (u8 (Z.shiftl (u8 (Z.land (Z.shiftr p 30) 0x07)) 1))) 1;
   u8 (Z.shiftr p 22);
   Z.lor (Z.land (u8 (Z.shiftr p 14)) 0xFE) 1;
   u8 (Z.shiftr p 7);
   Z.lor (Z.land (u8 (u64 (Z.shiftl p 1))) 0xFE) 1].

Definition videoPES (payload : list Z) (pts : Z) (withPTS : bool) : list Z :=
  let hdrLen := (3 + (if withPTS then 5 else 0))%nat in
  [0x00; 0x00; 0x01; videoStreamID]
  ++ put16 (u16 (Z.of_nat (hdrLen + length payload)))
  ++ (if withPTS then [0x80; 0x80; 0x05] ++ encodePTS pts else [0x80; 0x00; 0x00])
  ++ payload.

Definition audioPES (payload : list Z) (pts : Z) : list Z :=
  [0x00; 0x00; 0x01; audioStreamID]
  ++ put16 (u16 (Z.of_nat (8 + length payload)))
  ++ [0x80; 0x80; 0x05] ++ encodePTS pts ++ payload.

(** The PES loop of [WriteAU] on the suffix [annexB[off:]]. *)
Fixpoint writeAU_loop (fuel : nat) (rest : list Z) (pts : Z) (first : bool) : option (list Z) :=
  match fuel with
  | O => None
  | S fuel' =>
      let chunk := take maxPESPayload rest in
      let pes := if first then videoPES chunk pts true else videoPES chunk 0 false in
      match drop maxPESPayload rest with
      | [] => Some pes
      | rest' => out ← writeAU_loop fuel' rest' pts false; Some (pes ++ out)
      end
  end.

Definition WriteAU (annexB : list Z) (pts : Z) (isIDR : bool) (m : Muxer)
  : option (list Z * Muxer) :=
  let head := packHeader pts in
  let '(head, m) :=
    if isIDR then
      let head := head ++ systemHeader (videoType m) (audioType m) in
      if psmDirty m
      then (head ++ psm (videoType m) (audioType m), m <| psmDirty := false |>)
      else (head, m)
    else (head, m) in
  pes ← writeAU_loop (S (length annexB)) annexB pts true;
  Some (head ++ pes, m).

Definition WriteAudio (payload : list Z) (pts : Z) (m : Muxer) : list Z :=
  packHeader pts ++ audioPES payload pts.

Definition AppendAudioPES (ps payload : list Z) (pts : Z) (m : Muxer) : list Z :=
  ps ++ audioPES payload pts.

(** The states a muxer can reach through its methods. *)
Inductive Reachable : Muxer -> Prop :=
  | reach_New : Reachable New
  | reach_SetVideoCodec c m : Reachable m -> Reachable (SetVideoCodec c m)
  | reach_SetAudioCodec c m : Reachable m -> Reachable (SetAudioCodec c m)
  | reach_WriteAU annexB pts isIDR m ps m' :
      Reachable m -> WriteAU annexB pts isIDR m = Some (ps, m') -> Reachable m'.

Definition video_types : list Z := [0; streamTypeH264; streamTypeH265; streamTypeSVACV].
Definition audio_types : list Z := [0; streamTypeG711A; streamTypeG711U; streamTypeSVACA; streamTypeAAC].

(** ** Lemmas *)

Lemma maxPESPayload_Z : Z.of_nat maxPESPayload = 60000.
Proof. unfold maxPESPayload. by rewrite Z2Nat.id. Qed.

#[global] Opaque maxPESPayload.

(** The byte sequence of continuation packets that the loop emits. *)
Fixpoint chunks (n : nat) (rest : list Z) : list (list Z) :=
  match n with
  | O => []
  | S n' => match rest with [] => [] | _ => take maxPESPayload rest :: chunks n' (drop maxPESPayload rest) end
  end.

Lemma chunks_concat n rest : (length rest <= n)%nat -> concat (chunks n rest) = rest.
Proof.
  revert rest. induction n as [|n IH]; intros rest H.
  - by destruct rest; [|simpl in H; lia].
  - destruct rest as [|b rest]; [done|]. cbn [chunks concat].
    rewrite IH; [apply take_drop|]. rewrite length_drop. pose proof maxPESPayload_Z. simpl in *. lia.
Qed.

Lemma chunks_bound n rest c : In c (chunks n rest) -> (0 < length c <= maxPESPayload)%nat.
Proof.
  revert rest. induction n as [|n IH]; intros rest; [done|].
  destruct rest as [|b rest]; [done|]. cbn [chunks]. intros [<-|H]; [|by eapply IH].
  rewrite length_take. pose proof maxPESPayload_Z. cbn [length]. lia.
Qed.

Lemma writeAU_loop_spec fuel rest pts :
  (length rest < fuel)%nat ->
  writeAU_loop fuel rest pts true =
    Some (videoPES (take maxPESPayload rest) pts true ++
          concat (map (fun c => videoPES c 0 false)
                   (chunks (length rest) (drop maxPESPayload rest)))).
Proof.
  assert (L : forall fuel rest n, rest <> [] -> (length rest <= fuel)%nat -> (length rest <= n)%nat ->
     writeAU_loop fuel rest pts false =
     Some (concat (map (fun c => videoPES c 0 false) (chunks n rest)))).
  { clear. induction fuel as [|fuel IH]; intros rest n Hne Hf Hn.
    - by destruct rest; [|simpl in Hf; lia].
    - destruct n as [|n]; [by destruct rest; [|simpl in Hn; lia]|].
      destruct rest as [|b rest]; [done|]. cbn [writeAU_loop chunks map concat].
      assert (Hl : length (drop maxPESPayload (b :: rest)) = (S (length rest) - maxPESPayload)%nat)
        by (by rewrite length_drop).
      set (r := drop maxPESPayload (b :: rest)) in *. destruct r as [|x r'] eqn:E.
      + destruct n; simpl; by rewrite app_nil_r.
      + rewrite (IH _ n); [done|done| |]; rewrite Hl; pose proof maxPESPayload_Z; simpl in *; lia. }
  intros H. destruct fuel as [|fuel]; [lia|]. cbn [writeAU_loop].
  assert (Hl : length (drop maxPESPayload rest) = (length rest - maxPESPayload)%nat)
    by (by rewrite length_drop).
  destruct (drop maxPESPayload rest) as [|x r'] eqn:E.
  - destruct (length rest); simpl; by rewrite app_nil_r.
  - rewrite (L fuel _ (length rest)); [done|done| |]; rewrite Hl; lia.
Qed.

Definition write_head (pts : Z) (isIDR : bool) (m : Muxer) : list Z :=
  packHeader pts ++
  (if isIDR then systemHeader (videoType m) (audioType m) ++
                 (if psmDirty m then psm (videoType m) (audioType m) else [])
   else []).

Definition write_video (annexB : list Z) (pts : Z) : list Z :=
  videoPES (take maxPESPayload annexB) pts true ++
  concat (map (fun c => videoPES c 0 false) (chunks (length annexB) (drop maxPESPayload annexB))).

Lemma WriteAU_spec annexB pts isIDR m :
  WriteAU annexB pts isIDR m =
    Some (write_head pts isIDR m ++ write_video annexB pts,
          if isIDR then m <| psmDirty := false |> else m).
Proof.
  unfold WriteAU, write_head. rewrite writeAU_loop_spec by lia.
  destruct isIDR; [destruct (psmDirty m) eqn:E|]; simpl; rewrite ?app_nil_r, <- ?app_assoc; try done.
  do 2 f_equal. destruct m; simpl in *; by rewrite E.
Qed.

(** The stream types a muxer announces are the ones its setters choose. *)
Lemma Reachable_types m : Reachable m -> In (videoType m) video_types /\ In (audioType m) audio_types.
Proof.
  induction 1 as [|c m _ [IHv IHa]|c m _ [IHv IHa]|annexB pts idr m ps m' _ [IHv IHa] E].
  - split; left; done.
  - split; [|done]. simpl. do 2 (case_bool_decide; [tauto|]). tauto.
  - split; [done|]. simpl. do 4 (case_bool_decide; [tauto|]). tauto.
  - rewrite WriteAU_spec in E. injection E as _ <-. by destruct idr.
Qed.

(** The bytes of the 5-byte timestamp: the marker bits make bytes 0, 2 and 4 odd. *)
Lemma encodePTS_bytes pts :
  let p := pts mod 2 ^ 33 in
  exists b0 b1 b2 b3 b4, encodePTS pts = [b0; b1; b2; b3; b4] /\
    is_byte b0 /\ is_byte b1 /\ is_byte b2 /\ is_byte b3 /\ is_byte b4 /\
    b0 <> 0 /\ b2 <> 0 /\ b4 <> 0 /\
    Z.land (Z.shiftr b0 1) 0x07 = p / 2 ^ 30 /\ b1 = (p / 2 ^ 22) mod 256 /\
    Z.shiftr b2 1 = ((p / 2 ^ 14) mod 256) / 2 /\ b3 = (p / 2 ^ 7) mod 256 /\
    Z.shiftr b4 1 = p mod 128.
Proof.
  intros p. assert (Hp : Z.land (u64 pts) 0x1FFFFFFFF = p).
  { change 0x1FFFFFFFF with (Z.ones 33). rewrite Z.land_ones by lia. unfold u64, p.
    apply Z.mod_mod_divide. by exists (2 ^ 31). }
  assert (Hr : 0 <= p < 2 ^ 33) by (apply Z.mod_pos_bound; lia). clearbody p.
  unfold encodePTS. rewrite Hp. do 5 eexists. split; [reflexivity|].
  set (y2 := u8 (Z.shiftr p 14)). set (y4 := u8 (u64 (Z.shiftl p 1))).
  set (y0 := u8 (Z.land (Z.shiftr p 30) 7)).
  assert (H2 : is_byte y2) by apply u8_range. assert (H4 : is_byte y4) by apply u8_range.
  assert (E0 : Z.land (Z.shiftr p 30) 7 = p / 2 ^ 30).
  { rewrite Z.shiftr_div_pow2 by lia. change 7 with (Z.ones 3). rewrite Z.land_ones by lia.
    apply Z.mod_small. split; [apply Z.div_pos; lia|]. apply Z.div_lt_upper_bound; lia. }
  assert (R0 : 0 <= p / 2 ^ 30 < 8)
    by (split; [apply Z.div_pos; lia|apply Z.div_lt_upper_bound; lia]).
  assert (Y0 : y0 = p / 2 ^ 30) by (unfold y0; rewrite E0; apply u8_small; unfold is_byte; lia).
  assert (B : forall y, is_byte y -> (let b := Z.lor (Z.land y 254) 1 in
     (0 <=? b) && (b <? 256) && negb (b =? 0) && (Z.shiftr b 1 =? y / 2)) = true)
    by (apply forall_byte; vm_compute; reflexivity).
  assert (C : forall y, is_byte y -> (let b := Z.lor (Z.lor 0x21 (u8 (Z.shiftl y 1))) 1 in
     negb (y <? 8) || ((0 <=? b) && (b <? 256) && negb (b =? 0) && (Z.land (Z.shiftr b 1) 7 =? y))) = true)
    by (apply forall_byte; vm_compute; reflexivity).
  pose proof (B y2 H2) as B2. pose proof (B y4 H4) as B4.
  pose proof (C y0 ltac:(rewrite Y0; unfold is_byte; lia)) as C0. cbv zeta in B2, B4, C0.
  rewrite !andb_true_iff, negb_true_iff in B2, B4.
  rewrite orb_true_iff, !andb_true_iff, negb_true_iff in C0. unfold is_byte.
  destruct C0 as [C0|C0]; [apply Z.ltb_ge in C0; lia|].
  pose proof (u8_range (Z.shiftr p 22)) as U1. pose proof (u8_range (Z.shiftr p 7)) as U3.
  unfold is_byte in *. repeat split; try lia.
  - unfold u8. by rewrite Z.shiftr_div_pow2 by lia.
  - assert (E : y2 = (p / 2 ^ 14) mod 256) by (unfold y2, u8; by rewrite Z.shiftr_div_pow2 by lia).
    rewrite <- E. lia.
  - unfold u8. by rewrite Z.shiftr_div_pow2 by lia.
  - assert (E : y4 = (2 * p) mod 256).
    { unfold y4, u8, u64. rewrite Z.shiftl_mul_pow2 by lia. rewrite (Z.mod_small _ (2 ^ 64)) by lia.
      f_equal. lia. }
    assert (E' : y4 / 2 = p mod 128).
    { rewrite E. change 256 with (2 * 128). rewrite Z.mul_mod_distr_l by lia.
      rewrite Z.mul_comm. apply Z.div_mul. lia. }
    lia.
Qed.

Lemma length_encodePTS pts : length (encodePTS pts) = 5%nat.
Proof. done. Qed.

End Mux.
