(* ===== verification/PsStream.v ===== *)
(** MPEG-PS streams as sequences of units, and the demuxer's behaviour on
    them: feeding a well-formed stream in pieces of any size is feeding it at
    once. A unit comes with its effect on the demuxer state; the muxers'
    outputs are shown to be units in PsRoundtrip and DevicePs. *)

From S2P Require Import Prelude NalUtil PesParse PsDemux.
Open Scope Z_scope.

(** ** Definitions *)

(** No residual bytes are waiting. *)
Definition clean_state (d : PSDemuxer) : Prop :=
  buf d = [] /\ videoPesBuf d = [] /\ audioPesBuf d = [].

(** [rest] may follow a unit: the end of the data, or another start code. *)
Definition follows (rest : list Z) : Prop :=
  match rest with [] => True | b :: _ => b = 0 end.

(** The loop of [FeedAU] run to its end. *)
Definition feeds (rest : list Z) (pts : Z) (d r : PSDemuxer) : Prop :=
  exists fuel, feedLoop fuel rest pts d = Some r.

(** [u] is one PS unit whose effect is [f]: a complete unit is consumed, a
    strict prefix is kept as residual. *)
Variant ps_unit (u : list Z) (f : Z -> PSDemuxer -> PSDemuxer) : Prop :=
  PsUnit (v : Z)
    (unit_head : exists t, u = 0 :: 0 :: 1 :: v :: t)
    (unit_is_code : is_ps_code v = true)
    (unit_step : forall rest pts d, follows rest ->
       feedStep (u ++ rest) v pts d = Some (Continue rest (f pts d)))
    (unit_partial : forall p q pts d,
       u = p ++ q -> (4 <= length p)%nat -> q <> [] -> clean_state d ->
       exists d', feedStep p v pts d = Some (Stop d') /\ pending d' = p /\ clear_pending d' = d)
    (unit_clean : forall pts d, clean_state d -> clean_state (f pts d)).

Definition unit_list := list (list Z * (Z -> PSDemuxer -> PSDemuxer)).
Definition all_units (us : unit_list) : Prop := Forall (fun '(u, f) => ps_unit u f) us.
Definition bytes (us : unit_list) : list Z := concat (map fst us).
Definition effect (us : unit_list) (pts : Z) (d : PSDemuxer) : PSDemuxer :=
  fold_left (fun d '(_, f) => f pts d) us d.

(** What [FeedAU] does at an access-unit boundary with no PES pending. *)
Definition finish (d : PSDemuxer) : option (list (list Z) * PSDemuxer) :=
  match esBuf d with
  | [] => Some ([], maybeLatchCodecFromNALUs [] d)
  | _ => nalus ← extractNALUs (esBuf d) (naluType d);
         Some (nalus, maybeLatchCodecFromNALUs nalus (d <| esBuf := [] |>))
  end.

(** An access unit delivered in pieces: only the last one carries the marker. *)
Fixpoint FeedChunks (cs : list (list Z)) (pts : Z) (d : PSDemuxer)
  : option (list (list Z) * PSDemuxer) :=
  match cs with
  | [] => Some ([], d)
  | [c] => FeedAU c pts true d
  | c :: rest => '(_, d') ← FeedAU c pts false d; FeedChunks rest pts d'
  end.

(** A start code, a 16-bit length and that many bytes. *)
Definition framed (v : Z) (body : list Z) : list Z :=
  [0; 0; 1; v] ++ put16 (Z.of_nat (length body)) ++ body.

(** ** The loop *)

Lemma clean_pending d : clean_state d -> pending d = [].
Proof. intros (H1 & H2 & H3). unfold pending. by rewrite H1, H2, H3. Qed.

Lemma clean_clear d : clean_state d -> clear_pending d = d.
Proof. intros (H1 & H2 & H3). destruct d; simpl in *; subst. done. Qed.

Lemma clear_is_clean d : clean_state (clear_pending d).
Proof. by repeat split. Qed.

Lemma pending_nil_clean d : pending d = [] -> clean_state d.
Proof.
  unfold pending. intros H. apply app_eq_nil in H as [H1 H]. apply app_eq_nil in H as [H2 H3].
  by repeat split.
Qed.

Lemma feeds_det rest pts d r r' : feeds rest pts d r -> feeds rest pts d r' -> r = r'.
Proof.
  intros [n H] [m H'].
  apply (feedLoop_fuel _ (n + m)) in H; [|lia]. apply (feedLoop_fuel _ (n + m)) in H'; [|lia].
  congruence.
Qed.

Lemma feeds_loop rest pts d r :
  feeds rest pts d r -> feedLoop (S (length rest)) rest pts d = Some r.
Proof.
  intros H. destruct (feedLoop_Some (S (length rest)) rest pts d) as [r' Hr']; [lia|].
  rewrite Hr'. f_equal. eapply feeds_det; [|exact H]. by exists (S (length rest)).
Qed.

Lemma feeds_nil pts d : feeds [] pts d d.
Proof. by exists 0%nat. Qed.

Lemma feeds_unit u f rest pts d r :
  ps_unit u f -> follows rest -> feeds rest pts (f pts d) r -> feeds (u ++ rest) pts d r.
Proof.
  intros [v [t ->] Hv Hs _ _] Hf [n Hn]. exists (S n).
  cbn [app feedLoop]. rewrite findPSStartCode_here by done. rewrite drop_0.
  specialize (Hs rest pts d Hf). cbn [app] in Hs. rewrite Hs. done.
Qed.

Lemma findPSStartCode_short p :
  (length p < 4)%nat -> (forall n b, p !! n = Some b -> n = 2%nat \/ b = 0) ->
  exists e, findPSStartCode p = inl e.
Proof.
  intros Hl Hz. unfold findPSStartCode.
  destruct p as [|a [|b [|c [|? ?]]]]; simpl in *; try lia; eauto.
  assert (a = 0) as -> by (destruct (Hz 0%nat a eq_refl); [lia|done]).
  assert (b = 0) as -> by (destruct (Hz 1%nat b eq_refl); [lia|done]). simpl.
  destruct (c =? 0); [eauto|]. destruct (c =? 1); eauto.
Qed.

Lemma feeds_partial u f p q pts d :
  ps_unit u f -> u = p ++ q -> p <> [] -> q <> [] -> clean_state d ->
  exists d', feeds p pts d d' /\ pending d' = p /\ clear_pending d' = d.
Proof.
  intros [v [t Ht] Hv _ Hp _] Hu Hpn Hq Hc.
  destruct (Nat.ltb_spec (length p) 4) as [Hl|Hl].
  - destruct (findPSStartCode_short p Hl) as [e He].
    { intros n b Hn. assert (Hn' : u !! n = Some b) by (rewrite Hu; by apply lookup_app_l_Some).
      rewrite Ht in Hn'. destruct n as [|[|[|n]]]; simpl in Hn'; [right; congruence..|by left|].
      apply lookup_lt_Some in Hn. lia. }
    exists (d <| buf := p |>). split; [|split].
    + exists 0%nat. destruct p as [|b p]; [done|]. cbn [feedLoop]. by rewrite He.
    + destruct Hc as (_ & H2 & H3). unfold pending. simpl. by rewrite H2, H3.
    + by apply (clean_clear d).
  - destruct (Hp p q pts d Hu Hl Hq Hc) as (d' & Hd' & Hpend & Hclear).
    exists d'. split; [|done]. exists 1%nat.
    rewrite Ht in Hu. destruct p as [|b0 [|b1 [|b2 [|b3 p']]]]; simpl in Hl; try lia.
    simpl in Hu. injection Hu as <- <- <- <- _.
    cbn [feedLoop]. rewrite findPSStartCode_here by done. rewrite drop_0, Hd'. done.
Qed.

Lemma follows_bytes us : all_units us -> follows (bytes us).
Proof.
  intros H. destruct H as [|[u f] us [v [t ->] _ _ _ _] _]; done.
Qed.

Lemma feeds_units us rest pts d r :
  all_units us -> follows rest -> feeds rest pts (effect us pts d) r ->
  feeds (bytes us ++ rest) pts d r.
Proof.
  intros Hus Hf. revert d. induction Hus as [|[u f] us Hu Hus IH]; intros d Hr; [done|].
  unfold bytes. cbn [map concat fst]. rewrite <- app_assoc.
  eapply feeds_unit; [done| |by apply IH].
  assert (Hb := follows_bytes us Hus). fold (bytes us).
  by destruct (bytes us).
Qed.

Lemma effect_clean us pts d : all_units us -> clean_state d -> clean_state (effect us pts d).
Proof.
  intros Hus. revert d. induction Hus as [|[u f] us [] Hus IH]; intros d Hd; [done|].
  apply IH. auto.
Qed.

Lemma effect_app us1 us2 pts d : effect (us1 ++ us2) pts d = effect us2 pts (effect us1 pts d).
Proof. apply fold_left_app. Qed.

Lemma bytes_app us1 us2 : bytes (us1 ++ us2) = bytes us1 ++ bytes us2.
Proof. unfold bytes. by rewrite map_app, concat_app. Qed.

(** Units that produce no audio. *)
Definition silent (us : unit_list) : Prop :=
  Forall (fun '(_, f) => forall ts d, audioOut (f ts d) = audioOut d) us.

Lemma silent_effect us ts d : silent us -> audioOut (effect us ts d) = audioOut d.
Proof.
  intros H. revert d. induction H as [|[u f] us Hf _ IH]; intros d; [done|].
  unfold effect in *. cbn [fold_left]. by rewrite IH, Hf.
Qed.

(** Where a cut falls: after whole units, inside at most one. *)
Lemma split_units us a b :
  all_units us -> a ++ b = bytes us ->
  exists us1 us2 p, us = us1 ++ us2 /\ a = bytes us1 ++ p /\ p ++ b = bytes us2 /\
    (p = [] \/ exists u f us3 q, us2 = (u, f) :: us3 /\ u = p ++ q /\ q <> []).
Proof.
  intros Hus. revert a. induction Hus as [|[u f] us Hu Hus IH]; intros a Hab.
  - apply app_eq_nil in Hab as [-> ->]. exists [], [], []. auto.
  - unfold bytes in Hab. cbn [map concat fst] in Hab.
    destruct (Nat.ltb_spec (length a) (length u)) as [Hlt|Hge].
    + exists [], ((u, f) :: us), a. repeat split; [done|].
      right. exists u, f, us, (drop (length a) u). split; [done|].
      assert (Ha : a = take (length a) u).
      { apply (f_equal (take (length a))) in Hab. rewrite take_app_length in Hab.
        rewrite take_app_le in Hab by lia. done. }
      split; [rewrite Ha at 1; by rewrite take_drop|].
      intros E. apply (f_equal length) in E. rewrite length_drop in E. simpl in E. lia.
    + destruct (IH (drop (length u) a)) as (us1 & us2 & p & -> & E1 & E2 & E3).
      { apply (f_equal (drop (length u))) in Hab. rewrite drop_app_length in Hab.
        rewrite drop_app_le in Hab by lia. done. }
      exists ((u, f) :: us1), us2, p. repeat split; [|done..].
      unfold bytes. cbn [map concat fst]. fold (bytes us1). rewrite <- app_assoc, <- E1.
      apply (f_equal (take (length u))) in Hab. rewrite take_app_length in Hab.
      rewrite take_app_le in Hab by lia. rewrite <- Hab at 1. by rewrite take_drop.
Qed.

(** ** FeedAU on a piece of a stream *)

Lemma FeedAU_loop a pts complete d r :
  a <> [] -> feeds (pending d ++ a) pts (clear_pending d) r ->
  FeedAU a pts complete d =
    if complete then match videoPesBuf r with
                     | _ :: _ => Some ([], r <| videoPesBuf := [] |> <| esBuf := [] |>)
                     | [] => finish r
                     end
    else Some ([], r).
Proof.
  intros Ha Hr. apply feeds_loop in Hr. unfold FeedAU, finish. destruct a as [|b a]; [done|].
  rewrite Hr. cbn [mbind option_bind]. destruct complete; [done|].
  f_equal. f_equal. cbn [maybeLatchCodecFromNALUs]. by destruct (negb _).
Qed.

(** Mid-unit pieces are absorbed: the state stands for the units completed so
    far and the bytes of the one in flight. *)
Lemma FeedAU_partial us a b pts d :
  all_units us -> a <> [] -> pending d ++ a ++ b = bytes us ->
  exists us1 us2 d', us = us1 ++ us2 /\ FeedAU a pts false d = Some ([], d') /\
    pending d' ++ b = bytes us2 /\ clear_pending d' = effect us1 pts (clear_pending d).
Proof.
  intros Hus Ha Hab. rewrite app_assoc in Hab.
  destruct (split_units us _ _ Hus Hab) as (us1 & us2 & p & -> & E1 & E2 & E3).
  apply Forall_app in Hus as [Hus1 Hus2]. exists us1, us2.
  assert (Hc := effect_clean us1 pts _ Hus1 (clear_is_clean d)).
  assert (L : exists d', feeds (pending d ++ a) pts (clear_pending d) d' /\ pending d' = p /\
                         clear_pending d' = effect us1 pts (clear_pending d)).
  { destruct (decide (p = [])) as [Hp|Hp].
    - subst p. exists (effect us1 pts (clear_pending d)). rewrite E1. split; [|split].
      + eapply feeds_units; [done..|apply feeds_nil].
      + by apply clean_pending.
      + by apply clean_clear.
    - destruct E3 as [?|(u & f & us3 & q & -> & Hu & Hq)]; [done|].
      apply list.Forall_cons in Hus2 as [Hunit _]. cbn beta iota in Hunit.
      destruct (feeds_partial u f p q pts _ Hunit Hu Hp Hq Hc) as (d' & H1 & H2 & H3).
      exists d'. split; [|done]. rewrite E1. eapply feeds_units; [done| |done].
      destruct Hunit as [v [t Ht] _ _ _ _]. rewrite Ht in Hu. destruct p; [done|].
      by injection Hu as <- _. }
  destruct L as (d' & L1 & L2 & L3). exists d'. split; [done|]. split; [|by rewrite L2].
  by erewrite FeedAU_loop by done.
Qed.

Lemma FeedAU_final us a pts d :
  all_units us -> a <> [] -> pending d ++ a = bytes us ->
  FeedAU a pts true d = finish (effect us pts (clear_pending d)).
Proof.
  intros Hus Ha Hab.
  assert (Hc := effect_clean us pts _ Hus (clear_is_clean d)).
  rewrite (FeedAU_loop _ _ _ _ (effect us pts (clear_pending d))); [|done|].
  - destruct Hc as (_ & -> & _). done.
  - rewrite Hab, <- (app_nil_r (bytes us)). eapply feeds_units; [done..|apply feeds_nil].
Qed.

Lemma FeedChunks_spec us cs pts d :
  all_units us -> cs <> [] -> Forall (fun c => c <> []) cs ->
  pending d ++ concat cs = bytes us ->
  FeedChunks cs pts d = finish (effect us pts (clear_pending d)).
Proof.
  intros Hus Hne Hcs. revert us d Hus. induction Hcs as [|c cs Hc Hcs IH]; intros us d Hus Hb; [done|].
  destruct cs as [|c' cs].
  - simpl in *. rewrite app_nil_r in Hb. by apply FeedAU_final.
  - cbn [FeedChunks]. cbn [concat] in Hb.
    destruct (FeedAU_partial us c (concat (c' :: cs)) pts d) as (us1 & us2 & d' & -> & E1 & E2 & E3);
      [done..|].
    rewrite E1. cbn [mbind option_bind]. apply Forall_app in Hus as [_ Hus2].
    change (match cs with [] => FeedAU c' pts true d' | _ => _ end) with (FeedChunks (c' :: cs) pts d').
    rewrite (IH ltac:(done) us2 d') by done. by rewrite E3, effect_app.
Qed.

(** ** Length-framed units *)

Lemma framed_cons v body :
  framed v body = 0 :: 0 :: 1 :: v ::
    u8 (Z.shiftr (Z.of_nat (length body)) 8) :: u8 (Z.of_nat (length body)) :: body.
Proof. done. Qed.

Lemma framed_len (body : list Z) : Z.of_nat (length body) < 65536 ->
  Z.to_nat (be16 (u8 (Z.shiftr (Z.of_nat (length body)) 8)) (u8 (Z.of_nat (length body))))
  = length body.
Proof. intros H. rewrite be16_put16 by lia. lia. Qed.

Lemma framed_drop v body rest : drop (6 + length body) (framed v body ++ rest) = rest.
Proof.
  replace (6 + length body)%nat with (length (framed v body)) by done. apply drop_app_length.
Qed.

(** The prefixes of a framed unit: the header is cut, or the body is short. *)
Lemma framed_prefix v body p q :
  framed v body = p ++ q -> (4 <= length p)%nat -> q <> [] ->
  (exists p', p = 0 :: 0 :: 1 :: v :: p') /\
  ((length p < 6)%nat \/
   exists p', p = 0 :: 0 :: 1 :: v ::
     u8 (Z.shiftr (Z.of_nat (length body)) 8) :: u8 (Z.of_nat (length body)) :: p' /\
     (length p' < length body)%nat).
Proof.
  intros Hu Hl Hq. pose proof (f_equal length Hu) as Hlen. rewrite length_app in Hlen.
  assert (0 < length q)%nat by (destruct q; [done|simpl; lia]).
  rewrite framed_cons in Hu, Hlen. simpl in Hlen.
  destruct p as [|b0 [|b1 [|b2 [|b3 p]]]]; simpl in Hl; try lia.
  simpl in Hu. injection Hu as <- <- <- <- Hu. split; [by exists p|].
  destruct p as [|b4 [|b5 p]]; simpl; try (left; lia).
  simpl in Hu. injection Hu as <- <- Hu. right. exists p. split; [done|].
  simpl in Hlen. lia.
Qed.

Lemma pending_buf d p : clean_state d -> pending (d <| buf := p |>) = p /\ clear_pending (d <| buf := p |>) = d.
Proof.
  intros Hc. split; [|by apply (clean_clear d)].
  destruct Hc as (_ & H2 & H3). unfold pending. simpl. by rewrite H2, H3.
Qed.

Lemma pending_video d p :
  clean_state d -> pending (d <| videoPesBuf := p |>) = p /\ clear_pending (d <| videoPesBuf := p |>) = d.
Proof.
  intros Hc. split; [|by apply (clean_clear d)].
  destruct Hc as (H1 & H2 & H3). unfold pending. simpl. by rewrite H1, H3, app_nil_r.
Qed.

Lemma pending_audio d p :
  clean_state d -> pending (d <| audioPesBuf := p |>) = p /\ clear_pending (d <| audioPesBuf := p |>) = d.
Proof.
  intros Hc. split; [|by apply (clean_clear d)].
  destruct Hc as (H1 & H2 & H3). unfold pending. simpl. by rewrite H1, H2, app_nil_r.
Qed.

Section framed_units.
Context (v : Z) (body : list Z).
Hypothesis Hlen : Z.of_nat (length body) < 65536.

Lemma feed_skip_framed rest d : feed_skip (framed v body ++ rest) d = Some (Continue rest d).
Proof.
  unfold feed_skip. rewrite (proj2 (Nat.ltb_ge _ _)) by (rewrite length_app, framed_cons; simpl; lia).
  change (index (framed v body ++ rest) 4) with (Some (u8 (Z.shiftr (Z.of_nat (length body)) 8))).
  change (index (framed v body ++ rest) 5) with (Some (u8 (Z.of_nat (length body)))).
  cbn [mbind option_bind]. rewrite framed_len by done.
  rewrite (proj2 (Nat.ltb_ge _ _)) by (rewrite length_app, framed_cons; simpl; lia).
  by rewrite framed_drop.
Qed.

Lemma feed_skip_prefix p q d :
  framed v body = p ++ q -> (4 <= length p)%nat -> q <> [] ->
  feed_skip p d = Some (Stop (d <| buf := p |>)).
Proof.
  intros Hu Hl Hq. destruct (framed_prefix _ _ _ _ Hu Hl Hq) as [_ [Hs|(p' & -> & Hs)]];
    unfold feed_skip.
  - by rewrite (proj2 (Nat.ltb_lt _ _)).
  - rewrite (proj2 (Nat.ltb_ge _ 6)) by (simpl; lia).
    unfold index. cbn [lookup list_lookup mbind option_bind]. rewrite framed_len by done.
    by rewrite (proj2 (Nat.ltb_lt _ _)) by (simpl; lia).
Qed.

Lemma framed_skip_unit :
  v = startCodeSystem \/ v = startCodePadding \/ v = startCodePrivate2 ->
  ps_unit (framed v body) (fun _ d => d).
Proof.
  intros Hv. assert (E : forall pes pts d, feedStep pes v pts d = feed_skip pes d)
    by (intros; destruct Hv as [->|[->| ->]]; done).
  apply (PsUnit _ _ v).
  - by eexists.
  - by destruct Hv as [->|[->| ->]].
  - intros rest pts d _. rewrite E. apply feed_skip_framed.
  - intros p q pts d Hu Hl Hq Hc. rewrite E. exists (d <| buf := p |>).
    rewrite (feed_skip_prefix p q) by done. split; [done|]. by apply pending_buf.
  - done.
Qed.

Lemma parsePSM_framed rest :
  (3 <= length body)%nat -> parsePSM (framed v body ++ rest) = Some (inr (6 + length body)%nat).
Proof.
  intros H3. unfold parsePSM.
  rewrite (proj2 (Nat.ltb_ge _ _)) by (rewrite length_app, framed_cons; simpl; lia).
  change (index (framed v body ++ rest) 4) with (Some (u8 (Z.shiftr (Z.of_nat (length body)) 8))).
  change (index (framed v body ++ rest) 5) with (Some (u8 (Z.of_nat (length body)))).
  cbn [mbind option_bind]. rewrite framed_len by done.
  rewrite (proj2 (Nat.ltb_ge _ _)) by lia.
  by rewrite (proj2 (Nat.ltb_ge _ _)) by (rewrite length_app, framed_cons; simpl; lia).
Qed.

Lemma parsePSM_prefix p q :
  (3 <= length body)%nat -> framed v body = p ++ q -> (4 <= length p)%nat -> q <> [] ->
  parsePSM p = Some (inl ErrIncompletePSM).
Proof.
  intros H3 Hu Hl Hq. unfold parsePSM.
  destruct (Nat.ltb_spec (length p) 9) as [|H9]; [done|].
  destruct (framed_prefix _ _ _ _ Hu Hl Hq) as [_ [Hs|(p' & -> & Hs)]]; [lia|].
  unfold index. cbn [lookup list_lookup mbind option_bind]. rewrite framed_len by done.
  rewrite (proj2 (Nat.ltb_ge _ 1)) by lia. by rewrite (proj2 (Nat.ltb_lt _ _)) by (simpl; lia).
Qed.

(** The effect of a Program Stream Map. *)
Definition psm_effect (d : PSDemuxer) : PSDemuxer := default d (apply_psm body d).

Lemma framed_psm_unit :
  v = startCodePSM -> (3 <= length body)%nat -> ps_unit (framed v body) (fun _ => psm_effect).
Proof.
  intros Hv H3. assert (E : forall pes pts d, feedStep pes v pts d = feed_psm pes d)
    by (intros; by rewrite Hv).
  apply (PsUnit _ _ v).
  - by eexists.
  - by rewrite Hv.
  - intros rest pts d _. rewrite E. unfold feed_psm. rewrite parsePSM_framed by done. cbn [mbind option_bind].
    rewrite (proj2 (Nat.ltb_lt 6 _)) by lia.
    assert (Hsl : slice (framed v body ++ rest) 6 (6 + length body) = Some body).
    { rewrite framed_cons. apply (slice_app_mid [0; 0; 1; v; _; _] body rest). }
    rewrite Hsl. cbn [mbind option_bind]. unfold psm_effect.
    destruct (apply_psm_Some body d) as [d' ->]. cbn [mbind option_bind default].
    by rewrite framed_drop.
  - intros p q pts d Hu Hl Hq Hc. exists (d <| buf := p |>).
    rewrite E. unfold feed_psm. rewrite (parsePSM_prefix p q) by done. split; [done|]. by apply pending_buf.
  - intros pts d Hc. clear E. unfold psm_effect. destruct (apply_psm_Some body d) as [d' E].
    rewrite E. simpl. unfold apply_psm in E.
    destruct (findVideoStreamType body) as [o|]; [|done].
    cbn [mbind option_bind] in E. destruct (audioStreamTypes body); [|done].
    injection E as <-. unfold latch_video. destruct o as [st|]; [|done].
    by destruct (st =? streamTypeH264), (st =? streamTypeH265), (st =? streamTypeSVACV).
Qed.

(** *** PES packets *)

Hypothesis Hbody : (3 <= length body)%nat.

Lemma strip_framed rest : stripStartCodeLeadingZeros (framed v body ++ rest) = framed v body ++ rest.
Proof. rewrite framed_cons. apply strip_prefix. Qed.

Lemma parseVideoPES_framed rest off :
  is_video_id v = true ->
  pesPayloadStart (framed v body ++ rest) (6 + length body) = Some (6 + off)%nat ->
  (off <= length body)%nat ->
  parseVideoPES (framed v body ++ rest) = Some (inr (drop off body, (6 + length body)%nat)).
Proof.
  intros Hv Hoff Hle. unfold parseVideoPES. rewrite strip_framed.
  rewrite (proj2 (Nat.ltb_ge _ _)) by (rewrite length_app, framed_cons; simpl; lia).
  change (index (framed v body ++ rest) 0) with (Some 0).
  change (index (framed v body ++ rest) 1) with (Some 0).
  change (index (framed v body ++ rest) 2) with (Some 1).
  change (index (framed v body ++ rest) 3) with (Some v).
  change (index (framed v body ++ rest) 4) with (Some (u8 (Z.shiftr (Z.of_nat (length body)) 8))).
  change (index (framed v body ++ rest) 5) with (Some (u8 (Z.of_nat (length body)))).
  cbn [mbind option_bind]. rewrite Hv. cbn [negb]. cbn [Z.eqb andb Pos.eqb negb].
  rewrite framed_len by done. rewrite (proj2 (Nat.ltb_lt 0 _)) by lia. cbn [andb].
  assert (HL : (6 + length body <= length (framed v body ++ rest))%nat)
    by (rewrite length_app, framed_cons; simpl; lia).
  rewrite (proj2 (Nat.ltb_ge _ _)) by done. rewrite Hoff. cbn [mbind option_bind].
  rewrite (proj2 (Nat.ltb_ge _ _)) by lia. rewrite (proj2 (Nat.ltb_ge _ _)) by lia. cbn [orb].
  rewrite slice_ok by lia. cbn [mbind option_bind].
  replace (6 + length body - (6 + off))%nat with (length body - off)%nat by lia.
  rewrite framed_cons. cbn [Nat.add drop app].
  rewrite drop_app_le by done. rewrite <- (length_drop body off). by rewrite take_app_length.
Qed.

Lemma parseVideoPES_prefix p q :
  framed v body = p ++ q -> (4 <= length p)%nat -> q <> [] ->
  is_video_id v = true -> parseVideoPES p = Some (inl ErrIncompletePES).
Proof.
  intros Hu Hl Hq Hv. destruct (framed_prefix _ _ _ _ Hu Hl Hq) as [[p1 Hp1] Hcase].
  unfold parseVideoPES. assert (Hst : stripStartCodeLeadingZeros p = p).
  { rewrite Hp1. apply strip_prefix. }
  rewrite Hst. destruct (Nat.ltb_spec (length p) 9) as [|H9]; [done|].
  destruct Hcase as [Hs|(p' & -> & Hs)]; [lia|].
  unfold index. cbn [lookup list_lookup mbind option_bind Z.eqb Pos.eqb andb negb].
  rewrite Hv, framed_len by done. cbn [negb]. rewrite (proj2 (Nat.ltb_lt 0 _)) by lia. cbn [andb].
  by rewrite (proj2 (Nat.ltb_lt _ _)) by (simpl; lia).
Qed.

Lemma parseAudioPES_framed rest hdl pts :
  is_audio_id v = true -> body !! 2%nat = Some hdl -> (3 + Z.to_nat hdl <= length body)%nat ->
  parsePESPTS (framed v body ++ rest) = Some pts ->
  parseAudioPES (framed v body ++ rest) =
    Some (inr (drop (3 + Z.to_nat hdl) body, pts, (6 + length body)%nat)).
Proof.
  intros Hv Hh Hle Hpts. unfold parseAudioPES. rewrite strip_framed.
  rewrite (proj2 (Nat.ltb_ge _ _)) by (rewrite length_app, framed_cons; simpl; lia).
  change (index (framed v body ++ rest) 0) with (Some 0).
  change (index (framed v body ++ rest) 1) with (Some 0).
  change (index (framed v body ++ rest) 2) with (Some 1).
  change (index (framed v body ++ rest) 3) with (Some v).
  change (index (framed v body ++ rest) 4) with (Some (u8 (Z.shiftr (Z.of_nat (length body)) 8))).
  change (index (framed v body ++ rest) 5) with (Some (u8 (Z.of_nat (length body)))).
  change (index (framed v body ++ rest) 8) with ((body ++ rest) !! 2%nat).
  rewrite (lookup_app_l_Some _ _ _ _ Hh).
  cbn [mbind option_bind]. rewrite Hv. cbn [Z.eqb andb Pos.eqb negb].
  rewrite framed_len by done. destruct (Nat.eqb_spec (length body) 0); [lia|]. cbn [negb andb].
  assert (HL : (6 + length body <= length (framed v body ++ rest))%nat)
    by (rewrite length_app, framed_cons; simpl; lia).
  rewrite (proj2 (Nat.ltb_ge _ _)) by done. rewrite (proj2 (Nat.ltb_ge _ _)) by lia.
  rewrite Hpts. cbn [mbind option_bind]. rewrite slice_ok by lia. cbn [mbind option_bind].
  replace (6 + length body - (9 + Z.to_nat hdl))%nat with (length body - (3 + Z.to_nat hdl))%nat by lia.
  replace (9 + Z.to_nat hdl)%nat with (6 + (3 + Z.to_nat hdl))%nat by lia.
  rewrite framed_cons. cbn [drop app]. change (6 + (3 + Z.to_nat hdl))%nat with (S (S (S (S (S (S (3 + Z.to_nat hdl))))))).
  cbn [drop].
  rewrite drop_app_le by done. rewrite <- (length_drop body (3 + Z.to_nat hdl)).
  by rewrite take_app_length.
Qed.

Lemma parseAudioPES_prefix p q :
  framed v body = p ++ q -> (4 <= length p)%nat -> q <> [] ->
  is_audio_id v = true -> parseAudioPES p = Some (inl ErrIncompletePES).
Proof.
  intros Hu Hl Hq Hv. destruct (framed_prefix _ _ _ _ Hu Hl Hq) as [[p1 Hp1] Hcase].
  unfold parseAudioPES. assert (Hst : stripStartCodeLeadingZeros p = p).
  { rewrite Hp1. apply strip_prefix. }
  rewrite Hst. destruct (Nat.ltb_spec (length p) 9) as [|H9]; [done|].
  destruct Hcase as [Hs|(p' & -> & Hs)]; [lia|].
  unfold index. cbn [lookup list_lookup mbind option_bind Z.eqb Pos.eqb andb negb].
  rewrite Hv, framed_len by done. cbn [negb].
  destruct (Nat.eqb_spec (length body) 0) as [|_]; [lia|]. cbn [negb andb].
  rewrite (proj2 (Nat.ltb_lt _ _)); [done|]. simpl. lia.
Qed.
End framed_units.
