(* ===== verification/PsRoundtrip.v ===== *)
(** The muxer's packets are units for the demuxer, and what the muxer writes
    the demuxer reads back: the round trip of [psmux.Muxer] through
    [platform.PSDemuxer], for any cut of the stream into pieces. *)

From S2P Require Import Prelude NalUtil PesParse PsDemux PsMux PsStream.
Open Scope Z_scope.

Import Mux (Muxer, videoType, audioType, psmDirty, New, SetVideoCodec, SetAudioCodec,
            WriteAU, WriteAudio, AppendAudioPES, packHeader, systemHeader, psm, encodePTS,
            videoPES, audioPES, maxPESPayload).

(** ** Effects of the packets on the demuxer *)

(** What a payload with the packet's timestamp does. *)
Definition clock (p : option Z) (rtpTicks : Z) (d : PSDemuxer) : PSDemuxer :=
  match p with
  | Some p => if ptsOffsetSet d then d
              else d <| ptsOffset := p - rtpTicks |> <| ptsOffsetSet := true |>
  | None => d
  end.

Definition video_effect (payload : list Z) (p : option Z) (ts : Z) (d : PSDemuxer) : PSDemuxer :=
  match payload with
  | [] => d
  | _ => accumulate_es payload (clock p ts (d <| currentPTS := ts |>))
  end.

Definition audio_effect (payload : list Z) (sid p ts : Z) (d : PSDemuxer) : PSDemuxer :=
  match payload with
  | [] => d
  | _ => default d (emitAudio payload sid (Some p) ts d)
  end.

(** An Annex-B payload, as [WriteAU] expects it. *)
Definition starts_sc (payload : list Z) : Prop :=
  payload = [] \/ exists long t, payload = sc_bytes long ++ t.

(** ** The pack header *)

Lemma packHeader_unit pts : ps_unit (packHeader pts) (fun _ d => d).
Proof.
  apply (PsUnit _ _ startCodePack).
  - by eexists.
  - done.
  - intros rest pts' d Hf. change (feedStep ?p startCodePack pts' d) with (feed_pack p d).
    unfold feed_pack. rewrite (proj2 (Nat.ltb_ge _ _)) by (rewrite length_app; simpl; lia).
    change (index (packHeader pts ++ rest) 13) with (Some 0xF8). cbn [mbind option_bind].
    change (14 + Z.to_nat (Z.land 0xF8 0x07))%nat with (length (packHeader pts)).
    rewrite drop_app_length. destruct rest as [|b rest]; [done|]. simpl in Hf. by subst b.
  - intros p q pts' d Hu Hl Hq Hc. exists (d <| buf := p |>). split; [|by apply pending_buf].
    change (feedStep p startCodePack pts' d) with (feed_pack p d). unfold feed_pack.
    rewrite (proj2 (Nat.ltb_lt _ _)); [done|].
    apply (f_equal length) in Hu. rewrite length_app in Hu. change (length (packHeader pts)) with 14%nat in Hu.
    destruct q; [done|]. simpl in Hu. lia.
  - done.
Qed.

(** ** Video PES packets *)

Lemma effect_stop d p n :
  (length p < n)%nat -> Z.of_nat n <= maxPendingPESBytes ->
  (if maxPendingPESBytes <? len p then Stop ((warnPESOverflow d) <| videoPesBuf := [] |>)
   else Stop (d <| videoPesBuf := p |>)) = Stop (d <| videoPesBuf := p |>).
Proof. intros H1 H2. rewrite (proj2 (Z.ltb_ge _ _)); [done|]. unfold len. lia. Qed.

Lemma accumulate_clean payload d : clean_state d -> clean_state (accumulate_es payload d).
Proof. intros H. unfold accumulate_es. by destruct (_ <? _). Qed.

Lemma clock_clean p ts d : clean_state d -> clean_state (clock p ts d).
Proof. intros H. unfold clock. destruct p; [|done]. by destruct (ptsOffsetSet d). Qed.

(** Any framed video packet whose payload starts at offset [9 + k] of the
    packet and whose timestamp reads as [p]. *)
Lemma framed_video_unit body off p :
  (3 <= length body)%nat -> (off <= length body)%nat -> Z.of_nat (length body) < 65536 ->
  (forall rest, pesPayloadStart (framed 0xE0 body ++ rest) (6 + length body) = Some (6 + off)%nat) ->
  (drop off body <> [] -> forall rest, parsePESPTS (framed 0xE0 body ++ rest) = Some p) ->
  ps_unit (framed 0xE0 body) (video_effect (drop off body) p).
Proof.
  intros H3 Hoff Hl Hst Hp. apply (PsUnit _ _ 0xE0).
  - by eexists.
  - done.
  - intros rest ts d _. change (feedStep ?u 0xE0 ts d) with (feed_video u ts d). unfold feed_video.
    rewrite (parseVideoPES_framed 0xE0 body Hl H3 rest off) by done. cbn [mbind option_bind].
    rewrite (proj2 (Nat.ltb_ge _ _)) by (rewrite length_app, framed_cons; simpl; lia).
    rewrite framed_drop. unfold video_effect, establishClockOffset.
    destruct (drop off body) as [|x t] eqn:E; [done|].
    unfold clock. simpl ptsOffsetSet. destruct (ptsOffsetSet d); cbn [mbind option_bind].
    { destruct p; done. }
    rewrite Hp by done. cbn [mbind option_bind]. by destruct p.
  - intros p' q ts d Hu Hlp Hq Hc. exists (d <| videoPesBuf := p' |>).
    split; [|by apply pending_video]. change (feedStep p' 0xE0 ts d) with (feed_video p' ts d).
    unfold feed_video. rewrite (parseVideoPES_prefix 0xE0 body Hl H3 p' q) by done.
    cbn [mbind option_bind]. f_equal. apply (effect_stop _ _ (6 + length body)).
    + apply (f_equal length) in Hu. rewrite length_app, framed_cons in Hu. simpl in Hu.
      destruct q; [done|]. simpl in Hu. lia.
    + unfold maxPendingPESBytes. lia.
  - intros ts d Hc. unfold video_effect. destruct (drop off body); [done|].
    apply accumulate_clean. by apply clock_clean.
Qed.

Lemma header_scan_end u i bound fuel : (bound <= i + 2)%nat -> header_scan u i bound fuel = Some None.
Proof. intros H. destruct fuel; cbn [header_scan]; by rewrite (proj2 (Nat.ltb_ge _ _)) by lia. Qed.

(** The scan walks over a window in which no 00 00 01 starts. *)
Lemma header_scan_skips u i k bound fuel :
  (bound <= length u)%nat -> (bound <= i + fuel)%nat -> (k <= fuel)%nat ->
  (forall j a b c, (i <= j < i + k)%nat -> u !! j = Some a -> u !! (j + 1)%nat = Some b ->
     u !! (j + 2)%nat = Some c -> (a =? 0) && (b =? 0) && (c =? 1) = false) ->
  header_scan u i bound fuel = header_scan u (i + k) bound (fuel - k).
Proof.
  intros Hb. revert i fuel. induction k as [|k IH]; intros i fuel Hf Hk Hno.
  { by rewrite Nat.add_0_r, Nat.sub_0_r. }
  destruct fuel as [|fuel]; [lia|].
  destruct (Nat.lt_ge_cases (i + 2) bound) as [Hi|Hi]; [|by rewrite !header_scan_end by lia].
  destruct (lookup_lt_is_Some_2 u i) as [a Ha]; [lia|].
  destruct (lookup_lt_is_Some_2 u (i + 1)) as [b Eb]; [lia|].
  destruct (lookup_lt_is_Some_2 u (i + 2)) as [c Ec]; [lia|].
  cbn [header_scan]. rewrite (proj2 (Nat.ltb_lt _ _)) by done. unfold index.
  rewrite Ha, Eb, Ec. cbn [mbind option_bind]. rewrite (Hno i a b c) by (done || lia).
  rewrite (IH (i + 1)%nat) by (try lia; intros j a' b' c' Hj; apply Hno; lia).
  f_equal; lia.
Qed.

Lemma header_scan_hit u i bound fuel :
  (i + 2 < bound)%nat -> u !! i = Some 0 -> u !! (i + 1)%nat = Some 0 -> u !! (i + 2)%nat = Some 1 ->
  header_scan u i bound (S fuel) = Some (Some i).
Proof.
  intros Hi Ha Hb Hc. cbn [header_scan]. rewrite (proj2 (Nat.ltb_lt _ _)) by done.
  unfold index. by rewrite Ha, Hb, Hc.
Qed.

Lemma videoPES_cont_framed payload :
  (length payload <= maxPESPayload)%nat ->
  videoPES payload 0 false = framed 0xE0 ([0x80; 0x00; 0x00] ++ payload).
Proof.
  intros H. unfold videoPES, framed, Mux.videoStreamID. pose proof Mux.maxPESPayload_Z.
  rewrite length_app. cbn [Nat.add length]. by rewrite u16_small by lia.
Qed.

Lemma videoPES_first_framed payload pts :
  (length payload <= maxPESPayload)%nat ->
  videoPES payload pts true = framed 0xE0 ([0x80; 0x80; 0x05] ++ encodePTS pts ++ payload).
Proof.
  intros H. unfold videoPES, framed, Mux.videoStreamID. pose proof Mux.maxPESPayload_Z.
  rewrite !length_app, Mux.length_encodePTS. cbn [Nat.add length]. by rewrite u16_small by lia.
Qed.

(** A continuation packet: both readings of the header length give offset 9. *)
Lemma pesPayloadStart_cont fl payload rest :
  pesPayloadStart (framed 0xE0 ([fl; 0; 0] ++ payload) ++ rest) (6 + length ([fl; 0; 0] ++ payload))
  = Some (6 + 3)%nat.
Proof.
  set (u := framed _ _ ++ rest). unfold pesPayloadStart.
  change (index u 8) with (Some 0). change (index u 7) with (Some 0). cbn [mbind option_bind].
  assert (Hl : (9 <= Nat.min (6 + length ([fl; 0; 0]%Z ++ payload)) (length u))%nat).
  { unfold u. rewrite length_app, framed_cons. simpl. lia. }
  set (limit := Nat.min _ _) in *. cbv zeta.
  change (9 + Z.to_nat 0)%nat with 9%nat. change (8 + Z.to_nat 0)%nat with 8%nat.
  assert (C9 : pes_clamp limit 9 = 9%nat).
  { unfold pes_clamp. by rewrite !(proj2 (Nat.ltb_ge _ _)) by lia. }
  change (pes_clamp limit 8) with 9%nat. rewrite C9.
  destruct (header_scan_Some u 8 (Nat.min (Nat.max 9 9 + 4) limit)
              (Nat.min (Nat.max 9 9 + 4) limit)) as [sc ->].
  { unfold limit. lia. } { lia. }
  cbn [mbind option_bind]. destruct sc as [sc|]; [|done].
  by rewrite Nat.ltb_irrefl.
Qed.

(** The timestamp's marker bits keep the scan off the header. *)
Lemma header_scan_pts a0 a1 a2 a3 a4 a5 a6 a7 b0 b1 b2 b3 b4 t bound :
  (14 <= bound <= 14 + length t)%nat -> b0 <> 0 -> b2 <> 0 -> b4 <> 0 ->
  let u := [a0; a1; a2; a3; a4; a5; a6; a7; 5; b0; b1; b2; b3; b4] ++ t in
  header_scan u 8 bound bound = header_scan u 14 bound (bound - 6).
Proof.
  intros Hb N0 N2 N4 u. apply (header_scan_skips u 8 6); [unfold u; simpl; lia|lia..|].
  intros j a b c Hj Ha Eb Ec.
  assert (Hc : j = 8%nat \/ j = 9%nat \/ j = 10%nat \/ j = 11%nat \/ j = 12%nat \/ j = 13%nat) by lia.
  rewrite !andb_false_iff, !Z.eqb_neq.
  destruct Hc as [->|[->|[->|[->|[->| ->]]]]]; simpl in Ha, Eb; simplify_eq; auto; left; lia.
Qed.

(** The payload's own start code is at most one byte past offset 14. *)
Lemma header_scan_payload u payload rest bound fuel :
  (forall k, u !! (14 + k)%nat = (payload ++ rest) !! k) -> starts_sc payload ->
  (Nat.min (14 + length payload) 18 <= bound <= 14 + length payload)%nat -> (2 <= fuel)%nat ->
  exists sc, header_scan u 14 bound fuel = Some sc /\
    (sc = None \/ sc = Some 14%nat \/ (sc = Some 15%nat /\ (4 <= length payload)%nat)).
Proof.
  intros L Hsc Hb Hf. destruct Hsc as [->|(long & t & ->)].
  - exists None. split; [|by left]. apply header_scan_end. simpl in Hb. lia.
  - rewrite length_app in Hb |- *. destruct fuel as [|[|fuel]]; [lia..|].
    destruct long; simpl length in *.
    + exists (Some 15%nat). split; [|right; right; split; [done|lia]].
      assert (L0 : u !! 14%nat = Some 0) by apply (L 0%nat).
      assert (L1 : u !! 15%nat = Some 0) by apply (L 1%nat).
      assert (L2 : u !! 16%nat = Some 0) by apply (L 2%nat).
      assert (L3 : u !! 17%nat = Some 1) by apply (L 3%nat).
      cbn [header_scan Nat.add]. rewrite !(proj2 (Nat.ltb_lt _ _)) by lia. unfold index.
      by rewrite L0, L1, L2, L3.
    + exists (Some 14%nat). split; [|by right; left].
      apply header_scan_hit; [lia|apply (L 0%nat)|apply (L 1%nat)|apply (L 2%nat)].
Qed.

(** The first packet: the payload's start code confirms offset 14. *)
Lemma pesPayloadStart_first payload pts rest :
  starts_sc payload ->
  pesPayloadStart (framed 0xE0 ([0x80; 0x80; 0x05] ++ encodePTS pts ++ payload) ++ rest)
    (6 + length ([0x80; 0x80; 0x05] ++ encodePTS pts ++ payload))
  = Some (6 + 8)%nat.
Proof.
  intros Hsc. destruct (Mux.encodePTS_bytes pts) as (b0 & b1 & b2 & b3 & b4 & E & _ & _ & _ & _ & _ &
    N0 & N2 & N4 & _). rewrite E. clear E.
  set (n := (6 + length _)%nat). set (u := framed _ _ ++ rest). unfold pesPayloadStart.
  change (index u 8) with (Some 5). change (index u 7) with (Some 0x80). cbn [mbind option_bind].
  assert (Hl : Nat.min n (length u) = (14 + length payload)%nat).
  { change n with (14 + length payload)%nat. unfold u. rewrite length_app, framed_cons. simpl. lia. }
  rewrite Hl. cbv zeta. clear Hl. set (limit := (14 + length payload)%nat).
  change (9 + Z.to_nat 5)%nat with 14%nat. change (8 + Z.to_nat 0x80)%nat with 136%nat.
  assert (C1 : pes_clamp limit 14 = 14%nat).
  { unfold pes_clamp. by rewrite !(proj2 (Nat.ltb_ge _ _)) by (unfold limit; lia). }
  assert (C2 : pes_clamp limit 136 = Nat.min 136 limit).
  { unfold pes_clamp. rewrite (proj2 (Nat.ltb_ge 136 9)) by lia.
    destruct (Nat.ltb_spec limit 136); lia. }
  rewrite C1, C2. set (bound := Nat.min (_ + 4) limit).
  assert (Hbd : (Nat.min (14 + length payload) 18 <= bound <= 14 + length payload)%nat)
    by (unfold bound, limit; lia).
  assert (S14 : header_scan u 8 bound bound = header_scan u 14 bound (bound - 6)).
  { apply (header_scan_pts _ _ _ _ _ _ _ _ b0 b1 b2 b3 b4 (payload ++ rest)); [|done..].
    rewrite length_app. lia. }
  rewrite S14. destruct (header_scan_payload u payload rest bound (bound - 6)) as (sc & -> & Hc);
    [intros k; done|done|done|lia|].
  cbn [mbind option_bind]. destruct Hc as [->|[->|[-> H4]]]; [done|..];
    rewrite (proj2 (Nat.ltb_ge _ _)); try done; unfold abs_diff, limit; lia.
Qed.

(** ** Timestamps *)

Lemma pts_join p : 0 <= p < 2 ^ 33 ->
  Z.lor (Z.lor (Z.lor (Z.lor
    (Z.shiftl (p / 2 ^ 30) 30)
    (Z.shiftl ((p / 2 ^ 22) mod 256) 22))
    (Z.shiftl ((p / 2 ^ 14) mod 256 / 2) 15))
    (Z.shiftl ((p / 2 ^ 7) mod 256) 7))
    (p mod 128) = p.
Proof.
  intros Hp. rewrite !Z.shiftl_mul_pow2 by lia. change (2 ^ 33) with 8589934592 in Hp.
  change (2 ^ 30) with 1073741824. change (2 ^ 22) with 4194304. change (2 ^ 14) with 16384.
  change (2 ^ 15) with 32768. change (2 ^ 7) with 128.
  assert (R : forall a k b, 0 <= k -> 0 <= b < 2 ^ k -> Z.lor (a * 2 ^ k) b = a * 2 ^ k + b)
    by (intros; by apply lor_shift_add).
  pose proof (R (p / 1073741824) 30 ((p / 4194304) mod 256 * 4194304) ltac:(lia)) as R1.
  change (2 ^ 30) with 1073741824 in R1.
  rewrite R1 by (Z.to_euclidean_division_equations; lia). clear R1.
  pose proof (R (p / 4194304) 22 ((p / 16384) mod 256 / 2 * 32768) ltac:(lia)) as R1.
  change (2 ^ 22) with 4194304 in R1.
  replace (p / 1073741824 * 1073741824 + (p / 4194304) mod 256 * 4194304) with (p / 4194304 * 4194304)
    by (Z.to_euclidean_division_equations; lia).
  rewrite R1 by (Z.to_euclidean_division_equations; lia). clear R1.
  pose proof (R (p / 32768) 15 ((p / 128) mod 256 * 128) ltac:(lia)) as R1.
  change (2 ^ 15) with 32768 in R1.
  replace (p / 4194304 * 4194304 + (p / 16384) mod 256 / 2 * 32768) with (p / 32768 * 32768)
    by (Z.to_euclidean_division_equations; lia).
  rewrite R1 by (Z.to_euclidean_division_equations; lia). clear R1.
  pose proof (R (p / 128) 7 (p mod 128) ltac:(lia)) as R1. change (2 ^ 7) with 128 in R1.
  replace (p / 32768 * 32768 + (p / 128) mod 256 * 128) with (p / 128 * 128)
    by (Z.to_euclidean_division_equations; lia).
  rewrite R1 by (Z.to_euclidean_division_equations; lia).
  Z.to_euclidean_division_equations; lia.
Qed.

Lemma parsePESPTS_encodePTS a0 a1 a2 a3 a4 a5 a6 a8 pts t :
  parsePESPTS ([a0; a1; a2; a3; a4; a5; a6; 0x80; a8] ++ encodePTS pts ++ t)
  = Some (Some (pts mod 2 ^ 33)).
Proof.
  destruct (Mux.encodePTS_bytes pts) as (b0 & b1 & b2 & b3 & b4 & E & _ & _ & _ & _ & _ &
    _ & _ & _ & E0 & E1 & E2 & E3 & E4). rewrite E.
  unfold parsePESPTS. rewrite (proj2 (Nat.ltb_ge _ _)) by (simpl; lia).
  unfold index. cbn [lookup list_lookup app mbind option_bind].
  change (Z.land 0x80 0x80 =? 0) with false. cbv iota. rewrite E0, E1, E2, E3, E4.
  do 2 f_equal. apply pts_join. apply Z.mod_pos_bound. lia.
Qed.

(** ** Every packet of the muxer is a unit *)

Lemma videoPES_first_unit payload pts :
  (length payload <= maxPESPayload)%nat -> starts_sc payload ->
  ps_unit (videoPES payload pts true) (video_effect payload (Some (pts mod 2 ^ 33))).
Proof.
  intros Hl Hsc. rewrite videoPES_first_framed by done. pose proof Mux.maxPESPayload_Z.
  apply (framed_video_unit ([0x80; 0x80; 0x05] ++ encodePTS pts ++ payload) 8 (Some (pts mod 2 ^ 33)));
    rewrite ?length_app, ?Mux.length_encodePTS; [simpl; lia..| |].
  - intros rest. pose proof (pesPayloadStart_first payload pts rest Hsc) as E.
    rewrite !length_app, Mux.length_encodePTS in E. exact E.
  - intros _ rest. rewrite framed_cons. cbn [app]. rewrite <- app_assoc.
    apply parsePESPTS_encodePTS.
Qed.

Lemma videoPES_cont_unit payload :
  (length payload <= maxPESPayload)%nat ->
  ps_unit (videoPES payload 0 false) (video_effect payload None).
Proof.
  intros Hl. rewrite videoPES_cont_framed by done. pose proof Mux.maxPESPayload_Z.
  apply (framed_video_unit ([0x80; 0x00; 0x00] ++ payload) 3 None); [simpl; lia..| |].
  - intros rest. apply pesPayloadStart_cont.
  - intros _ rest. rewrite framed_cons. cbn [app]. unfold parsePESPTS.
    destruct (Nat.ltb _ _); [done|]. done.
Qed.

(** The audio side never touches the residual buffers or the elementary stream. *)
Definition same_pending (d d' : PSDemuxer) : Prop :=
  buf d' = buf d /\ videoPesBuf d' = videoPesBuf d /\ audioPesBuf d' = audioPesBuf d /\
  esBuf d' = esBuf d.

Lemma same_pending_clean d d' : same_pending d d' -> clean_state d -> clean_state d'.
Proof. intros (H1 & H2 & H3 & _) (C1 & C2 & C3). repeat split; congruence. Qed.

Lemma same_pending_trans d1 d2 d3 : same_pending d1 d2 -> same_pending d2 d3 -> same_pending d1 d3.
Proof. unfold same_pending. intuition congruence. Qed.

Lemma emit_aac_pending frames pts d d' : emit_aac frames pts d = Some d' -> same_pending d d'.
Proof.
  revert pts d. induction frames as [|f frames IH]; intros pts d E; cbn [emit_aac] in E; [by simplify_eq|].
  destruct (adtsToASC (header f)) as [c|]; [|done]. cbn [mbind option_bind] in E.
  by apply IH in E.
Qed.

Lemma emitAudio_frames_pending codec payload p ts d d' :
  emitAudio_frames codec payload p ts d = Some d' -> same_pending d d'.
Proof.
  intros E. unfold emitAudio_frames in E. destruct p as [q|]; [|destruct (audioContSet d)];
    (destruct (_ || _); [by simplify_eq|]; case_match; [|by simplify_eq];
     destruct (splitADTS payload); [|done]; cbn [mbind option_bind] in E;
     by apply emit_aac_pending in E).
Qed.

Lemma guessAudioCodec_pending payload d c d' :
  guessAudioCodec payload d = Some (c, d') -> same_pending d d'.
Proof.
  intros E. unfold guessAudioCodec in E.
  destruct (if (_ && _)%bool then _ else _) as [[]|]; cbn [mbind option_bind] in E; [by simplify_eq| |done].
  destruct (negb _); [by simplify_eq|]. destruct (vote _ _ _) as [mu al]. cbv zeta in E.
  destruct (_ <? _); [by simplify_eq|]. destruct (_ <=? _); by simplify_eq.
Qed.

Lemma resolveFallback_pending sid payload d c d' :
  resolveFallbackAudioCodec sid payload d = Some (c, d') -> same_pending d d'.
Proof.
  intros E. unfold resolveFallbackAudioCodec in E. destruct (audioResolved d !! sid); [by simplify_eq|].
  destruct (guessAudioCodec payload d) as [[c1 d1]|] eqn:Eg; [|done].
  apply guessAudioCodec_pending in Eg. cbn [mbind option_bind] in E. by case_match; simplify_eq.
Qed.

Lemma emitAudio_pending payload sid p ts d d' :
  emitAudio payload sid p ts d = Some d' -> same_pending d d'.
Proof.
  intros E. unfold emitAudio in E.
  set (r := if _ && _ then resolveFallbackAudioCodec sid payload d else _) in E.
  assert (Hr : forall c d1, r = Some (c, d1) -> same_pending d d1).
  { intros c d1 Er. unfold r in Er. destruct (_ && _); [by eapply resolveFallback_pending|].
    by simplify_eq. }
  destruct r as [[c d1]|]; [|done]. cbn [mbind option_bind] in E.
  apply (same_pending_trans _ d1); [by eapply Hr|]. case_match; [by simplify_eq|].
  destruct (negb _); [destruct p as [p|]; [|by simplify_eq]|]; by apply emitAudio_frames_pending in E.
Qed.

Lemma audioPES_framed payload pts :
  Z.of_nat (8 + length payload) < 65536 ->
  audioPES payload pts = framed 0xC0 ([0x80; 0x80; 0x05] ++ encodePTS pts ++ payload).
Proof.
  intros H. unfold audioPES, framed, Mux.audioStreamID.
  rewrite !length_app, Mux.length_encodePTS. cbn [Nat.add length]. by rewrite u16_small by lia.
Qed.

Lemma audioPES_unit payload pts :
  Z.of_nat (8 + length payload) < 65536 ->
  ps_unit (audioPES payload pts) (audio_effect payload 0xC0 (pts mod 2 ^ 33)).
Proof.
  intros Hl. rewrite audioPES_framed by done. set (body := [0x80; 0x80; 0x05] ++ _).
  assert (Hb : Z.of_nat (length body) < 65536) by done.
  assert (H3 : (3 <= length body)%nat) by (unfold body; simpl; lia).
  apply (PsUnit _ _ 0xC0).
  - by eexists.
  - done.
  - intros rest ts d _. change (feedStep ?u 0xC0 ts d) with (feed_audio u 0xC0 ts d). unfold feed_audio.
    rewrite (parseAudioPES_framed 0xC0 body Hb H3 rest 5 (Some (pts mod 2 ^ 33)));
      [|done|done|unfold body; simpl; lia|].
    2:{ rewrite framed_cons. unfold body. cbn [app]. rewrite <- app_assoc. apply parsePESPTS_encodePTS. }
    cbn [mbind option_bind]. change (drop (3 + Z.to_nat 5) body) with payload.
    rewrite (proj2 (Nat.ltb_ge _ _)) by (rewrite length_app, framed_cons; simpl; lia).
    rewrite framed_drop. unfold audio_effect. destruct payload as [|x payload]; [done|].
    by destruct (emitAudio_Some (x :: payload) 0xC0 (Some (pts mod 2 ^ 33)) ts d) as [d' ->].
  - intros p' q ts d Hu Hlp Hq Hc. exists (d <| audioPesBuf := p' |>).
    split; [|by apply pending_audio]. change (feedStep p' 0xC0 ts d) with (feed_audio p' 0xC0 ts d).
    unfold feed_audio. rewrite (parseAudioPES_prefix 0xC0 body Hb H3 p' q) by done.
    cbn [mbind option_bind]. rewrite (proj2 (Z.ltb_ge _ _)); [done|].
    apply (f_equal length) in Hu. rewrite length_app, framed_cons in Hu. simpl in Hu.
    unfold len, maxPendingPESBytes. lia.
  - intros ts d Hc. unfold audio_effect. destruct payload as [|x payload]; [done|].
    destruct (emitAudio_Some (x :: payload) 0xC0 (Some (pts mod 2 ^ 33)) ts d) as [d' E].
    rewrite E. simpl. apply emitAudio_pending in E. by eapply same_pending_clean.
Qed.

Lemma systemHeader_unit vt at_ : ps_unit (systemHeader vt at_) (fun _ d => d).
Proof.
  unfold systemHeader. destruct (negb (at_ =? 0)).
  - apply (framed_skip_unit startCodeSystem [_; _; _; _; _; _; _; _; _; _; _; _; _; _; _; _; _]); [done|by left].
  - apply (framed_skip_unit startCodeSystem [_; _; _; _; _; _; _; _; _; _; _; _; _]); [done|by left].
Qed.

Definition psm_body (vt at_ : Z) : list Z := drop 6 (psm vt at_).

Lemma psm_unit vt at_ : ps_unit (psm vt at_) (fun _ => psm_effect (psm_body vt at_)).
Proof.
  assert (E : psm vt at_ = framed startCodePSM (psm_body vt at_)).
  { unfold psm_body, psm. by destruct (negb (at_ =? 0)). }
  rewrite E at 1. apply framed_psm_unit; [|done|];
    unfold psm_body, psm; destruct (negb (at_ =? 0)); simpl; lia.
Qed.

(** ** What the map announces *)

Definition psm_codec (vt : Z) (nt : string) : string :=
  if vt =? streamTypeH264 then "h264"
  else if vt =? streamTypeH265 then "h265"
  else if vt =? streamTypeSVACV then "svac"
  else nt.

Lemma psm_parse_table vt at_ :
  In vt Mux.video_types -> In at_ Mux.audio_types ->
  findVideoStreamType (psm_body vt at_) = Some (if vt =? 0 then None else Some vt) /\
  exists entries, audioStreamTypes (psm_body vt at_) = Some entries /\
    (at_ <> 0 -> entries !! 0xC0 = Some at_).
Proof.
  intros Hv Ha.
  assert (T : forallb (fun vt => forallb (fun at_ =>
     bool_decide (findVideoStreamType (psm_body vt at_) = Some (if vt =? 0 then None else Some vt)) &&
     match audioStreamTypes (psm_body vt at_) with
     | Some entries => (at_ =? 0) || bool_decide (entries !! 0xC0 = Some at_)
     | None => false
     end) Mux.audio_types) Mux.video_types = true) by (vm_compute; reflexivity).
  rewrite forallb_forall in T. specialize (T vt Hv). rewrite forallb_forall in T. specialize (T at_ Ha).
  apply andb_true_iff in T as [T1 T2]. apply bool_decide_eq_true in T1. split; [done|].
  destruct (audioStreamTypes (psm_body vt at_)) as [entries|]; [|done].
  exists entries. split; [done|]. intros Hn. apply orb_true_iff in T2 as [T2|T2].
  - by apply Z.eqb_eq in T2.
  - by apply bool_decide_eq_true in T2.
Qed.

(** The parts of the demuxer that a Program Stream Map leaves alone. *)
Definition same_es (d d' : PSDemuxer) : Prop :=
  esBuf d' = esBuf d /\ ptsOffsetSet d' = ptsOffsetSet d /\ ptsOffset d' = ptsOffset d /\
  audioOut d' = audioOut d.

Lemma psm_effect_spec vt at_ d :
  In vt Mux.video_types -> In at_ Mux.audio_types ->
  let d' := psm_effect (psm_body vt at_) d in
  naluType d' = psm_codec vt (naluType d) /\ same_es d d' /\ psmSeen d' = true /\
  (at_ <> 0 -> audioCodecs d' !! 0xC0 = Some (audioStreamCodec at_)).
Proof.
  intros Hv Ha d'. destruct (psm_parse_table vt at_ Hv Ha) as (E1 & entries & E2 & E3).
  unfold d', psm_effect, apply_psm. rewrite E1, E2. cbn [mbind option_bind default].
  assert (L : at_ <> 0 -> ((audioStreamCodec <$> entries : gmap Z string) ∪ audioCodecs
     (latch_video (if vt =? 0 then None else Some vt) d)) !! 0xC0 = Some (audioStreamCodec at_)).
  { intros Hn. apply lookup_union_Some_l. by rewrite lookup_fmap, E3. }
  destruct Hv as [<-|[<-|[<-|[<-|[]]]]]; by repeat split.
Qed.

(** ** The elementary stream of one access unit *)

(** The demuxer between two access units of a stream it decodes. *)
Definition synced (d : PSDemuxer) : Prop := clean_state d /\ esBuf d = [].

Lemma accumulate_small payload d :
  len (esBuf d ++ payload) <= maxESBufBytes ->
  accumulate_es payload d = d <| esBuf := esBuf d ++ payload |>.
Proof. intros H. unfold accumulate_es. simpl. by rewrite (proj2 (Z.ltb_ge _ _)). Qed.

Definition cont_units (cs : list (list Z)) : unit_list :=
  map (fun c => (videoPES c 0 false, video_effect c None)) cs.

Lemma cont_effect cs ts d :
  Forall (fun c => c <> []) cs -> len (esBuf d ++ concat cs) <= maxESBufBytes ->
  let d' := effect (cont_units cs) ts d in
  esBuf d' = esBuf d ++ concat cs /\ naluType d' = naluType d /\
  ptsOffsetSet d' = ptsOffsetSet d /\ ptsOffset d' = ptsOffset d /\
  audioCodecs d' = audioCodecs d /\ audioOut d' = audioOut d.
Proof.
  intros Hne. revert d. induction Hne as [|c cs Hc _ IH]; intros d Hl; cbv zeta.
  - simpl. by rewrite app_nil_r.
  - cbn [concat] in Hl |- *. rewrite app_assoc in Hl |- *.
    set (d1 := d <| currentPTS := ts |> <| esBuf := esBuf d ++ c |>).
    assert (E : effect (cont_units (c :: cs)) ts d = effect (cont_units cs) ts d1).
    { unfold effect, cont_units. cbn [map fold_left]. f_equal. unfold video_effect.
      destruct c as [|x c]; [done|]. cbn [clock].
      rewrite accumulate_small; [done|]. simpl. revert Hl. unfold len. rewrite !length_app. lia. }
    rewrite E. destruct (IH d1) as (H1 & H2 & H3); [exact Hl|]. by rewrite H1, H2.
Qed.

Lemma first_effect payload p ts d :
  payload <> [] -> len (esBuf d ++ payload) <= maxESBufBytes ->
  let d' := video_effect payload (Some p) ts d in
  esBuf d' = esBuf d ++ payload /\ naluType d' = naluType d /\ ptsOffsetSet d' = true /\
  ptsOffset d' = (if ptsOffsetSet d then ptsOffset d else p - ts) /\
  audioCodecs d' = audioCodecs d /\ audioOut d' = audioOut d.
Proof.
  intros Hne Hl d'. unfold d', video_effect. destruct payload as [|x payload]; [done|].
  rewrite accumulate_small by (unfold clock; simpl; by destruct (ptsOffsetSet d)).
  unfold clock. simpl ptsOffsetSet. destruct (ptsOffsetSet d) eqn:E; simpl; repeat split; done.
Qed.

(** ** One access unit through the muxer and the demuxer *)

Definition write_units (annexB : list Z) (pts : Z) (isIDR : bool) (m : Muxer) : unit_list :=
  (packHeader pts, fun _ d => d) ::
  (if isIDR then
     (systemHeader (videoType m) (audioType m), fun _ d => d) ::
     (if psmDirty m
      then [(psm (videoType m) (audioType m),
             fun _ => psm_effect (psm_body (videoType m) (audioType m)))]
      else [])
   else []) ++
  (videoPES (take maxPESPayload annexB) pts true,
   video_effect (take maxPESPayload annexB) (Some (pts mod 2 ^ 33))) ::
  cont_units (Mux.chunks (length annexB) (drop maxPESPayload annexB)).

(** The codec in force once the access unit's headers are read. *)
Definition au_codec (isIDR : bool) (m : Muxer) (d : PSDemuxer) : string :=
  if isIDR && psmDirty m then psm_codec (videoType m) (naluType d) else naluType d.

(** The units the demuxer reports for [annexb l]. *)
Definition au_nalus (codec : string) (l : list (bool * list Z)) : list (list Z) :=
  if bool_decide (codec = "svac"%string)
  then match annexb l with [] => [] | _ => [annexb l] end
  else map snd l.

Lemma bytes_write_units annexB pts isIDR m :
  bytes (write_units annexB pts isIDR m) = Mux.write_head pts isIDR m ++ Mux.write_video annexB pts.
Proof.
  assert (C : forall cs, concat (map fst (cont_units cs)) = concat (map (fun c => videoPES c 0 false) cs)).
  { intros cs. unfold cont_units. by rewrite map_map. }
  unfold bytes, write_units, Mux.write_head, Mux.write_video. rewrite <- C.
  destruct isIDR; [destruct (psmDirty m)|]; rewrite <- ?app_assoc; reflexivity.
Qed.

Lemma starts_sc_take payload : starts_sc payload -> starts_sc (take maxPESPayload payload).
Proof.
  pose proof Mux.maxPESPayload_Z. intros [->|(long & t & ->)].
  - left. by rewrite take_nil.
  - right. exists long, (take (maxPESPayload - length (sc_bytes long)) t).
    rewrite take_app, take_ge; [done|]. destruct long; simpl; lia.
Qed.

Lemma starts_sc_annexb l : starts_sc (annexb l).
Proof.
  destruct l as [|[long n] l]; [by left|]. right. exists long, (n ++ annexb l).
  unfold annexb. cbn [map concat]. by rewrite <- app_assoc.
Qed.

Lemma write_units_ok annexB pts isIDR m : starts_sc annexB -> all_units (write_units annexB pts isIDR m).
Proof.
  intros Hsc. unfold all_units, write_units.
  constructor; [apply packHeader_unit|]. apply Forall_app. split.
  - destruct isIDR; [|constructor]. constructor; [apply systemHeader_unit|].
    destruct (psmDirty m); [|constructor]. constructor; [apply psm_unit|constructor].
  - constructor.
    + apply videoPES_first_unit; [rewrite length_take; lia|by apply starts_sc_take].
    + apply Forall_forall. intros [u f] Hin. apply in_map_iff in Hin as (c & [= <- <-] & Hc).
      apply videoPES_cont_unit. apply Mux.chunks_bound in Hc. lia.
Qed.

Lemma chunks_nonempty n l : Forall (fun c => c <> []) (Mux.chunks n l).
Proof.
  apply Forall_forall. intros c Hc. apply Mux.chunks_bound in Hc.
  by destruct c; [simpl in Hc; lia|].
Qed.

Lemma write_effect annexB pts isIDR m ts d :
  Mux.Reachable m -> annexB <> [] -> esBuf d = [] -> len annexB <= maxESBufBytes ->
  let d' := effect (write_units annexB pts isIDR m) ts d in
  esBuf d' = annexB /\ naluType d' = au_codec isIDR m d /\ ptsOffsetSet d' = true /\
  ptsOffset d' = (if ptsOffsetSet d then ptsOffset d else pts mod 2 ^ 33 - ts) /\
  audioOut d' = audioOut d /\
  (isIDR && psmDirty m = true -> audioType m <> 0 ->
   audioCodecs d' !! 0xC0 = Some (audioStreamCodec (audioType m))).
Proof.
  intros Hm Hne Hes Hl. destruct (Mux.Reachable_types m Hm) as [Hv Ha]. cbv zeta.
  set (pes := (videoPES (take maxPESPayload annexB) pts true,
   video_effect (take maxPESPayload annexB) (Some (pts mod 2 ^ 33))) ::
   cont_units (Mux.chunks (length annexB) (drop maxPESPayload annexB))).
  assert (P : forall d0, esBuf d0 = [] -> let d' := effect pes ts d0 in
    esBuf d' = annexB /\ naluType d' = naluType d0 /\ ptsOffsetSet d' = true /\
    ptsOffset d' = (if ptsOffsetSet d0 then ptsOffset d0 else pts mod 2 ^ 33 - ts) /\
    audioOut d' = audioOut d0 /\ audioCodecs d' = audioCodecs d0).
  { intros d0 H0. cbv zeta. unfold pes, effect. cbn [fold_left].
    set (d1 := video_effect _ _ ts d0).
    destruct (first_effect (take maxPESPayload annexB) (pts mod 2 ^ 33) ts d0)
      as (F1 & F2 & F3 & F4 & F6 & F5).
    { pose proof Mux.maxPESPayload_Z. destruct annexB; [done|].
      destruct maxPESPayload; [lia|done]. }
    { rewrite H0. unfold len in *. cbn [app]. rewrite length_take. lia. }
    fold d1 in F1, F2, F3, F4, F5, F6. rewrite H0 in F1. cbn [app] in F1.
    destruct (cont_effect (Mux.chunks (length annexB) (drop maxPESPayload annexB)) ts d1)
      as (C1 & C2 & C3 & C4 & C6 & C5); [apply chunks_nonempty| |].
    { rewrite F1, Mux.chunks_concat by (rewrite length_drop; lia). by rewrite take_drop. }
    unfold effect in C1, C2, C3, C4, C5, C6. rewrite C1, C2, C3, C4, C5, C6, F1, F2, F4, F5, F6.
    rewrite Mux.chunks_concat by (rewrite length_drop; lia). by rewrite take_drop. }
  unfold write_units, au_codec. fold pes. destruct isIDR; [destruct (psmDirty m)|].
  - destruct (psm_effect_spec (videoType m) (audioType m) d Hv Ha) as (S1 & (S2 & S3 & S4 & S5) & _ & S6).
    destruct (P _ (eq_trans S2 Hes)) as (P1 & P2 & P3 & P4 & P5 & P6).
    cbn [andb]. rewrite <- S1, <- S3, <- S4, <- S5. repeat (split; [done|]).
    intros _ Hn. rewrite <- (S6 Hn), <- P6. done.
  - destruct (P d Hes) as (P1 & P2 & P3 & P4 & P5 & _). by repeat (split; [done|]).
  - destruct (P d Hes) as (P1 & P2 & P3 & P4 & P5 & _). by repeat (split; [done|]).
Qed.

Lemma maybeLatch_frame nalus d :
  let d' := maybeLatchCodecFromNALUs nalus d in
  same_pending d d' /\ same_es d d' /\
  (if bool_decide (naluType d = ""%string)
   then In (naluType d') [""; "h264"; "h265"]%string else naluType d' = naluType d).
Proof.
  induction nalus as [|[|b n] nalus IH]; cbn [maybeLatchCodecFromNALUs];
    (case_bool_decide as E; cbn [negb]; [|by repeat split]); cbn [negb] in *.
  - repeat split. left. by rewrite E.
  - exact IH.
  - destruct (negb _); [exact IH|]. destruct (_ || _); [by repeat split; simpl; tauto|].
    destruct (_ || _); [by repeat split; simpl; tauto|]. exact IH.
Qed.

Lemma extractNALUs_au codec l :
  Forall (fun '(_, n) => clean n) l -> extractNALUs (annexb l) codec = Some (au_nalus codec l).
Proof.
  intros Hl. unfold au_nalus. case_bool_decide as E.
  - unfold extractNALUs. by rewrite bool_decide_eq_true_2.
  - destruct l as [|x l].
    + unfold extractNALUs. by rewrite bool_decide_eq_false_2.
    + by apply (extractNALUs_annexb []).
Qed.

(** A list of NALUs delivered by a demuxer in state [d]. *)
Lemma finish_au l d :
  Forall (fun '(_, n) => clean n) l -> clean_state d -> esBuf d = annexb l ->
  exists d', finish d = Some (au_nalus (naluType d) l, d') /\ synced d' /\
    ptsOffset d' = ptsOffset d /\ ptsOffsetSet d' = ptsOffsetSet d /\ audioOut d' = audioOut d /\
    (if bool_decide (naluType d = ""%string)
     then In (naluType d') [""; "h264"; "h265"]%string else naluType d' = naluType d).
Proof.
  intros Hl Hc Hes. unfold finish. rewrite Hes.
  set (d1 := match annexb l with [] => d | _ => d <| esBuf := [] |> end).
  exists (maybeLatchCodecFromNALUs (match annexb l with [] => [] | _ => au_nalus (naluType d) l end) d1).
  split.
  - pose proof (extractNALUs_au (naluType d) l Hl) as E. unfold d1.
    destruct (annexb l) as [|x t] eqn:Ea.
    + destruct l as [|[[] n] l]; [|done..]. unfold au_nalus. by case_bool_decide.
    + by rewrite E.
  - set (ns := match annexb l with [] => _ | _ => _ end).
    destruct (maybeLatch_frame ns d1) as (Hp & (H1 & H2 & H3 & H4) & Hn).
    assert (Hd1 : clean_state d1 /\ esBuf d1 = [] /\ ptsOffset d1 = ptsOffset d /\
       ptsOffsetSet d1 = ptsOffsetSet d /\ audioOut d1 = audioOut d /\ naluType d1 = naluType d).
    { unfold d1. destruct (annexb l); by repeat split; try apply Hc. }
    destruct Hd1 as (C & D1 & D2 & D3 & D4 & D5). rewrite D5 in Hn.
    repeat split; try (by eapply same_pending_clean); congruence.
Qed.

(** The elementary stream and the codec after the packets of one call, the
    empty access unit included. *)
Lemma write_effect_es l pts isIDR m ts d :
  Mux.Reachable m -> esBuf d = [] -> len (annexb l) <= maxESBufBytes ->
  let d1 := effect (write_units (annexb l) pts isIDR m) ts d in
  esBuf d1 = annexb l /\ naluType d1 = au_codec isIDR m d.
Proof.
  intros Hm Hes Hlen d1. destruct l as [|x l].
  - destruct (Mux.Reachable_types m Hm) as [Hv Ha]. unfold d1, au_codec.
    destruct (psm_effect_spec (videoType m) (audioType m) d Hv Ha) as (S1 & (S2 & _) & _).
    assert (Ht : take maxPESPayload (@nil Z) = []) by (by rewrite take_nil).
    unfold write_units. change (annexb []) with (@nil Z). rewrite Ht.
    destruct isIDR; [destruct (psmDirty m)|]; (split; [|done]); try done.
    exact (eq_trans S2 Hes).
  - assert (Hne' : annexb (x :: l) <> []) by (by destruct x as [[] n]).
    by destruct (write_effect (annexb (x :: l)) pts isIDR m ts d Hm Hne' Hes Hlen) as (W1 & W2 & _).
Qed.

Lemma WriteAU_FeedChunks m m' d l pts isIDR ts ps cs :
  Mux.Reachable m -> synced d -> Forall (fun '(_, n) => clean n) l ->
  len (annexb l) <= maxESBufBytes ->
  WriteAU (annexb l) pts isIDR m = Some (ps, m') ->
  cs <> [] -> Forall (fun c => c <> []) cs -> concat cs = ps ->
  exists d', FeedChunks cs ts d = Some (au_nalus (au_codec isIDR m d) l, d') /\ synced d' /\
    (l <> [] -> ptsOffset d' = if ptsOffsetSet d then ptsOffset d else pts mod 2 ^ 33 - ts) /\
    (if bool_decide (au_codec isIDR m d = ""%string)
     then In (naluType d') [""; "h264"; "h265"]%string else naluType d' = au_codec isIDR m d).
Proof.
  intros Hm [Hc Hes] Hl Hlen Hw Hne Hcs Hps.
  rewrite Mux.WriteAU_spec in Hw. injection Hw as <- _.
  pose proof (write_units_ok (annexb l) pts isIDR m (starts_sc_annexb l)) as Hu.
  rewrite (FeedChunks_spec (write_units (annexb l) pts isIDR m)); [|done..|].
  2:{ rewrite clean_pending, bytes_write_units by done. exact Hps. }
  rewrite clean_clear by done.
  set (d1 := effect _ ts d).
  assert (Hc1 : clean_state d1) by (by apply effect_clean).
  destruct (write_effect_es l pts isIDR m ts d Hm Hes Hlen) as [F1 F2]. fold d1 in F1, F2.
  assert (F3 : l <> [] -> ptsOffset d1 = if ptsOffsetSet d then ptsOffset d else pts mod 2 ^ 33 - ts).
  { intros Hl'. assert (Hne' : annexb l <> []) by (by destruct l as [|[[] n] l]).
    by destruct (write_effect (annexb l) pts isIDR m ts d Hm Hne' Hes Hlen) as (_ & _ & _ & W3 & _). }
  destruct (finish_au l d1 Hl Hc1 F1) as (d' & E1 & E2 & E3 & _ & _ & E4).
  exists d'. rewrite <- F2. split; [done|]. split; [done|]. split; [|done].
  intros Hl'. rewrite E3. by apply F3.
Qed.

(** ** A session: any number of access units, each cut anywhere *)

Record au := mkAU {
  au_units : list (bool * list Z);
  au_pts : Z;
  au_idr : bool;
  au_ts : Z;
  au_cuts : list nat;
}.

(** Cut [l] after [n] bytes, [n'] more, and so on; empty pieces are not sent. *)
Fixpoint pieces (cuts : list nat) (l : list Z) : list (list Z) :=
  match cuts with
  | [] => match l with [] => [] | _ => [l] end
  | n :: cuts' => match take n l with
                  | [] => pieces cuts' (drop n l)
                  | c => c :: pieces cuts' (drop n l)
                  end
  end.

Fixpoint session (aus : list au) (m : Muxer) (d : PSDemuxer)
  : option (list (list (list Z)) * PSDemuxer) :=
  match aus with
  | [] => Some ([], d)
  | a :: rest =>
      '(ps, m') ← WriteAU (annexb (au_units a)) (au_pts a) (au_idr a) m;
      '(nalus, d') ← FeedChunks (pieces (au_cuts a) ps) (au_ts a) d;
      '(out, d'') ← session rest m' d';
      Some (nalus :: out, d'')
  end.

Definition au_ok (a : au) : Prop :=
  Forall (fun '(_, n) => clean n) (au_units a) /\ len (annexb (au_units a)) <= maxESBufBytes.

Lemma concat_pieces cuts l : concat (pieces cuts l) = l.
Proof.
  revert l. induction cuts as [|n cuts IH]; intros l; cbn [pieces].
  - destruct l; [done|]. simpl. by rewrite app_nil_r.
  - destruct (take n l) as [|x t] eqn:E; [|cbn [concat]; rewrite <- E]; rewrite IH.
    + by rewrite <- (take_drop n l) at 2; rewrite E.
    + apply take_drop.
Qed.

Lemma pieces_nonempty cuts l : Forall (fun c => c <> []) (pieces cuts l).
Proof.
  revert l. induction cuts as [|n cuts IH]; intros l; cbn [pieces].
  - destruct l; by repeat constructor.
  - destruct (take n l); [|constructor]; done.
Qed.

Lemma session_spec aus m d :
  Mux.Reachable m -> psm_codec (videoType m) "" <> "svac"%string -> synced d ->
  naluType d <> "svac"%string -> Forall au_ok aus ->
  exists d', session aus m d = Some (map (fun a => map snd (au_units a)) aus, d') /\ synced d'.
Proof.
  intros Hm Hcod Hs Hn Haus. revert m d Hm Hcod Hs Hn.
  induction Haus as [|a aus [Ha1 Ha2] _ IH]; intros m d Hm Hcod Hs Hn; [by exists d|].
  cbn [session map]. destruct (WriteAU (annexb (au_units a)) (au_pts a) (au_idr a) m) as [[ps m']|] eqn:Ew;
    [|by rewrite Mux.WriteAU_spec in Ew]. cbn [mbind option_bind].
  assert (Hps : ps <> []).
  { pose proof Ew as Ew'. rewrite Mux.WriteAU_spec in Ew'. by injection Ew' as <- _. }
  destruct (WriteAU_FeedChunks m m' d (au_units a) (au_pts a) (au_idr a) (au_ts a) ps
    (pieces (au_cuts a) ps)) as (d' & E1 & E2 & _ & E4); try done.
  { intros E. apply Hps. by rewrite <- (concat_pieces (au_cuts a) ps), E. }
  { apply pieces_nonempty. } { apply concat_pieces. }
  rewrite E1. cbn [mbind option_bind].
  assert (Hc : au_codec (au_idr a) m d <> "svac"%string).
  { unfold au_codec. destruct (au_idr a && psmDirty m); [|done]. revert Hcod. unfold psm_codec.
    repeat (destruct (_ =? _); try done). }
  assert (Hm' : Mux.Reachable m') by (by eapply Mux.reach_WriteAU).
  assert (Hv : videoType m' = videoType m).
  { rewrite Mux.WriteAU_spec in Ew. injection Ew as _ <-. by destruct (au_idr a). }
  destruct (IH m' d') as (d'' & E5 & E6); [done|by rewrite Hv|done| |].
  { revert E4. case_bool_decide; [|by intros ->]. intros [<-|[<-|[<-|[]]]]; done. }
  rewrite E5. cbn [mbind option_bind]. exists d''. split; [|done]. do 3 f_equal.
  unfold au_nalus. by rewrite bool_decide_eq_false_2.
Qed.

(** ** Audio packets behind the video *)

Definition g711 (codec : string) : Prop := codec = AudioCodecG711A \/ codec = AudioCodecG711U.

Lemma audio_effect_g711 payload p ts d codec :
  payload <> [] -> g711 codec -> audioCodecs d !! 0xC0 = Some codec -> ptsOffsetSet d = true ->
  let t := p - ptsOffset d in
  let d' := audio_effect payload 0xC0 p ts d in
  audioOut d' = audioOut d ++ [mkAudioFrame codec payload None (if t <? 0 then ts else t) (len payload)] /\
  esBuf d' = esBuf d /\ naluType d' = naluType d.
Proof.
  intros Hp Hc Hl Ho t d'. unfold d', audio_effect. destruct payload as [|x payload]; [done|].
  unfold emitAudio. rewrite Hl. cbn [default].
  assert (codec <> ""%string) by (by destruct Hc as [->| ->]).
  rewrite !bool_decide_eq_false_2 by done. cbn [andb negb mbind option_bind].
  rewrite bool_decide_eq_false_2 by done. rewrite Ho. cbn [negb].
  unfold emitAudio_frames. fold t.
  destruct Hc as [->| ->]; cbn [default]; by destruct (t <? 0).
Qed.

Lemma WriteAU_audio_FeedChunks m m' d l pts ts ps payload apts codec cs :
  Mux.Reachable m -> psmDirty m = true -> audioStreamCodec (audioType m) = codec -> g711 codec ->
  synced d -> Forall (fun '(_, n) => clean n) l -> l <> [] -> len (annexb l) <= maxESBufBytes ->
  payload <> [] -> Z.of_nat (8 + length payload) < 65536 ->
  WriteAU (annexb l) pts true m = Some (ps, m') ->
  Forall (fun c => c <> []) cs -> concat cs = AppendAudioPES ps payload apts m' ->
  let off := if ptsOffsetSet d then ptsOffset d else pts mod 2 ^ 33 - ts in
  let t := apts mod 2 ^ 33 - off in
  exists d', FeedChunks cs ts d = Some (au_nalus (psm_codec (videoType m) (naluType d)) l, d') /\
    synced d' /\
    audioOut d' = audioOut d ++
      [mkAudioFrame codec payload None (if t <? 0 then ts else t) (len payload)].
Proof.
  intros Hm Hdirty Hcod Hg [Hc Hes] Hl Hnl Hlen Hpay Hpl Hw Hcs Hps off t.
  rewrite Mux.WriteAU_spec in Hw. injection Hw as <- _.
  set (us := write_units (annexb l) pts true m ++
    [(audioPES payload apts, audio_effect payload 0xC0 (apts mod 2 ^ 33))]).
  assert (Hu : all_units us).
  { apply Forall_app. split; [apply write_units_ok, starts_sc_annexb|].
    constructor; [by apply audioPES_unit|constructor]. }
  assert (Hb : bytes us = concat cs).
  { rewrite Hps. unfold us, AppendAudioPES. rewrite bytes_app, bytes_write_units.
    unfold bytes. simpl. by rewrite app_nil_r. }
  rewrite (FeedChunks_spec us); [|done| |done|].
  2:{ intros ->. simpl in Hps. symmetry in Hps. unfold AppendAudioPES in Hps.
      by apply app_eq_nil in Hps as [_ ?]. }
  2:{ rewrite clean_pending by done. by rewrite Hb. }
  rewrite clean_clear by done. unfold us. rewrite effect_app.
  set (d1 := effect (write_units (annexb l) pts true m) ts d).
  assert (Hc1 : clean_state d1) by (apply effect_clean; [apply write_units_ok, starts_sc_annexb|done]).
  assert (Hne : annexb l <> []) by (by destruct l as [|[[] n] l]).
  destruct (write_effect (annexb l) pts true m ts d Hm Hne Hes Hlen) as (W1 & W2 & W3 & W4 & W5 & W6).
  fold d1 in W1, W2, W3, W4, W5, W6. cbn [andb] in W6.
  assert (Ha : audioType m <> 0).
  { intros E. rewrite E in Hcod. subst codec. by destruct Hg. }
  specialize (W6 Hdirty Ha). rewrite Hcod in W6.
  destruct (audio_effect_g711 payload (apts mod 2 ^ 33) ts d1 codec Hpay Hg W6 W3) as (A1 & A2 & A3).
  cbn [effect fold_left]. set (d2 := audio_effect payload 192 (apts mod 2 ^ 33) ts d1).
  change (fold_left _ _ d1) with d2. fold d2 in A1, A2, A3.
  assert (Hc2 : clean_state d2).
  { unfold d2. by destruct (audioPES_unit payload apts Hpl) as [v _ _ _ _ K]; apply K. }
  destruct (finish_au l d2 Hl Hc2 (eq_trans A2 W1)) as (d' & E1 & E2 & _ & _ & E3 & _).
  exists d'. rewrite E1, A3, W2. unfold au_codec. rewrite Hdirty. split; [done|]. split; [done|].
  unfold t, off. by rewrite E3, A1, W5, W4.
Qed.

(** ** Properties *)

(** An access unit that the muxer writes is read back by the demuxer: for
    every reachable muxer state, every list of NALUs (with 3- or 4-byte start
    codes), and every cut of the PS bytes into non-empty pieces, the demuxer
    delivers exactly those NALUs with the last piece (one blob for SVAC),
    establishes the clock offset from the packet's 33-bit PTS, ends between two
    access units again, and knows the codec the map announced. *)
Theorem WriteAU_roundtrip m m' d l pts isIDR ts ps cs :
  Mux.Reachable m -> synced d -> Forall (fun '(_, n) => clean n) l ->
  len (annexb l) <= maxESBufBytes ->
  WriteAU (annexb l) pts isIDR m = Some (ps, m') ->
  cs <> [] -> Forall (fun c => c <> []) cs -> concat cs = ps ->
  exists d', FeedChunks cs ts d = Some (au_nalus (au_codec isIDR m d) l, d') /\ synced d' /\
    (l <> [] -> ptsOffset d' = if ptsOffsetSet d then ptsOffset d else pts mod 2 ^ 33 - ts) /\
    (if bool_decide (au_codec isIDR m d = ""%string)
     then In (naluType d') [""; "h264"; "h265"]%string else naluType d' = au_codec isIDR m d).
Proof. apply WriteAU_FeedChunks. Qed.

Lemma clean_dec n : n <> [] -> has_sc n = false -> negb (bool_decide (list.last n = Some 0)) = true -> clean n.
Proof. intros H1 H2 H3. by apply negb_true_iff, bool_decide_eq_false in H3. Qed.

Definition demo_au : list (bool * list Z) :=
  [(true, [0x67; 0x42; 0x1F]); (false, [0x68; 0xCE]); (true, [0x65; 0; 0; 3; 1])].

Lemma demo_clean : Forall (fun '(_, n) => clean n) demo_au.
Proof. repeat constructor; done. Defined.

Lemma WriteAU_roundtrip_witness : exists ps m' d',
  WriteAU (annexb demo_au) 9000 true (SetVideoCodec "h264" New) = Some (ps, m') /\
  FeedChunks (pieces [20; 1; 30]%nat ps) 3000 NewPSDemuxer = Some (map snd demo_au, d') /\ synced d'.
Proof.
  destruct (WriteAU (annexb demo_au) 9000 true (SetVideoCodec "h264" New)) as [[ps m']|] eqn:E;
    [|by rewrite Mux.WriteAU_spec in E].
  destruct (WriteAU_roundtrip (SetVideoCodec "h264" New) m' NewPSDemuxer demo_au 9000 true 3000 ps
    (pieces [20; 1; 30]%nat ps)) as (d' & H1 & H2 & _).
  - repeat constructor.
  - by repeat split.
  - exact demo_clean.
  - vm_compute. discriminate.
  - exact E.
  - intros Hp. pose proof (concat_pieces [20; 1; 30]%nat ps) as Hc. rewrite Hp in Hc. subst ps.
    rewrite Mux.WriteAU_spec in E. discriminate.
  - apply pieces_nonempty.
  - apply concat_pieces.
  - exists ps, m', d'. split; [done|]. split; [exact H1|exact H2].
Defined.

(** A whole session: access units written one after another by a muxer of an
    H.264 or H.265 (or unannounced) stream, each cut into pieces of any sizes
    and fed in order, are delivered one NALU list per access unit, exactly as
    they went in; no residual state leaks from one access unit into the next. *)
Theorem session_roundtrip aus m d :
  Mux.Reachable m -> psm_codec (videoType m) "" <> "svac"%string -> synced d ->
  naluType d <> "svac"%string -> Forall au_ok aus ->
  exists d', session aus m d = Some (map (fun a => map snd (au_units a)) aus, d') /\ synced d'.
Proof. apply session_spec. Qed.

Lemma session_roundtrip_witness : exists d',
  session [mkAU demo_au 0 true 0 [7]%nat; mkAU [(false, [0x41; 9])] 3600 false 3600 []]
    (SetVideoCodec "h264" New) NewPSDemuxer
  = Some ([map snd demo_au; [[0x41; 9]]], d') /\ synced d'.
Proof.
  apply (session_roundtrip [mkAU demo_au 0 true 0 [7]%nat; mkAU [(false, [0x41; 9])] 3600 false 3600 []]).
  - repeat constructor.
  - done.
  - by repeat split.
  - done.
  - repeat constructor; done.
Defined.

(** Audio multiplexed behind the video of an IDR access unit: the G.711
    payload comes out as one audio frame, on the codec the map announced, with
    its PTS moved onto the RTP timeline by the clock offset of the video (the
    RTP timestamp when the shifted PTS would be negative). *)
Theorem WriteAU_audio_roundtrip m m' d l pts ts ps payload apts codec cs :
  Mux.Reachable m -> psmDirty m = true -> audioStreamCodec (audioType m) = codec -> g711 codec ->
  synced d -> Forall (fun '(_, n) => clean n) l -> l <> [] -> len (annexb l) <= maxESBufBytes ->
  payload <> [] -> Z.of_nat (8 + length payload) < 65536 ->
  WriteAU (annexb l) pts true m = Some (ps, m') ->
  Forall (fun c => c <> []) cs -> concat cs = AppendAudioPES ps payload apts m' ->
  let off := if ptsOffsetSet d then ptsOffset d else pts mod 2 ^ 33 - ts in
  let t := apts mod 2 ^ 33 - off in
  exists d', FeedChunks cs ts d = Some (au_nalus (psm_codec (videoType m) (naluType d)) l, d') /\
    synced d' /\
    audioOut d' = audioOut d ++
      [mkAudioFrame codec payload None (if t <? 0 then ts else t) (len payload)].
Proof. apply WriteAU_audio_FeedChunks. Qed.

Lemma WriteAU_audio_roundtrip_witness : exists ps m' d',
  WriteAU (annexb demo_au) 9000 true (SetAudioCodec "g711a" (SetVideoCodec "h264" New)) = Some (ps, m') /\
  FeedChunks (pieces [33]%nat (AppendAudioPES ps [0xD5; 0x55] 9160 m')) 3000 NewPSDemuxer
    = Some (map snd demo_au, d') /\
  audioOut d' = [mkAudioFrame "g711a" [0xD5; 0x55] None 3160 2].
Proof.
  destruct (WriteAU (annexb demo_au) 9000 true (SetAudioCodec "g711a" (SetVideoCodec "h264" New)))
    as [[ps m']|] eqn:E; [|by rewrite Mux.WriteAU_spec in E].
  destruct (WriteAU_audio_roundtrip (SetAudioCodec "g711a" (SetVideoCodec "h264" New)) m' NewPSDemuxer
    demo_au 9000 3000 ps [0xD5; 0x55] 9160 "g711a" (pieces [33]%nat (AppendAudioPES ps [0xD5; 0x55] 9160 m')))
    as (d' & H1 & _ & H3).
  - repeat constructor.
  - reflexivity.
  - reflexivity.
  - by left.
  - by repeat split.
  - exact demo_clean.
  - discriminate.
  - vm_compute. discriminate.
  - discriminate.
  - reflexivity.
  - exact E.
  - apply pieces_nonempty.
  - apply concat_pieces.
  - exists ps, m', d'. split; [done|]. split; [exact H1|exact H3].
Defined.

(** The timestamp of a PES packet survives: what [parsePESPTS] reads from a
    packet of the muxer is the timestamp modulo 2^33, whatever its sign, size
    and payload. *)
Theorem PTS_roundtrip pts payload rest :
  parsePESPTS (videoPES payload pts true ++ rest) = Some (Some (pts mod 2 ^ 33)) /\
  parsePESPTS (audioPES payload pts ++ rest) = Some (Some (pts mod 2 ^ 33)).
Proof.
  split; [unfold videoPES|unfold audioPES]; cbn [app]; rewrite <- ?app_assoc; cbn [app];
    apply parsePESPTS_encodePTS.
Qed.

(** The map's trailing CRC_32 is read as an elementary-stream entry: for SVAC
    video with G.711 mu-law audio the CRC bytes name an audio stream that does
    not exist, and the demuxer counts two audio entries for one. *)
Theorem psm_crc_read_as_entry d :
  psmAudioEntries (psm_effect (psm_body Mux.streamTypeSVACV Mux.streamTypeG711U) d) = 2%nat.
Proof.
  unfold psm_effect, apply_psm.
  destruct (psm_parse_table Mux.streamTypeSVACV Mux.streamTypeG711U) as [-> _]; [simpl; tauto..|].
  assert (E : size <$> audioStreamTypes (psm_body Mux.streamTypeSVACV Mux.streamTypeG711U) = Some 2%nat)
    by (vm_compute; reflexivity).
  destruct (audioStreamTypes _) as [e|]; [|done]. cbn [mbind option_bind default].
  simpl in E. by injection E.
Qed.
