(* ===== verification/PsDemuxSpec.v ===== *)
(** What the PS demuxer promises on any input at all: it never panics, its loops
    end, its reassembly buffers stay under their caps and it never hands out
    more bytes than it was fed. *)

From S2P Require Import Prelude PesParse PsDemux PsStream PsRoundtrip.
Open Scope Z_scope.

(** ** Bytes held *)

(** What the caps of the code ([maxESBufBytes], [maxPendingPESBytes]) bound. *)
Definition capped (d : PSDemuxer) : Prop :=
  len (esBuf d) <= maxESBufBytes /\
  len (videoPesBuf d) <= maxPendingPESBytes /\
  len (audioPesBuf d) <= maxPendingPESBytes.

(** Every byte the demuxer keeps for later. *)
Definition held (d : PSDemuxer) : Z := len (pending d) + len (esBuf d).

Definition total (ns : list (list Z)) : Z := len (concat ns).

Lemma len_app l k : len (l ++ k) = len l + len k.
Proof. unfold len. rewrite length_app. lia. Qed.

Lemma len_nil : len [] = 0.
Proof. done. Qed.

Lemma len_nonneg l : 0 <= len l.
Proof. unfold len. lia. Qed.

Lemma len_drop n l : (n <= length l)%nat -> len (drop n l) = len l - Z.of_nat n.
Proof. intros H. unfold len. rewrite length_drop. lia. Qed.

(** The accounting of one loop iteration over [n] bytes. *)
Definition accounted (n : Z) (d : PSDemuxer) (s : option step) : Prop :=
  match s with
  | None => False
  | Some (Stop d') => held d' <= n + len (esBuf d) /\ capped d'
  | Some (Continue rest d') =>
      len rest + len (esBuf d') <= n + len (esBuf d) /\ clean_state d' /\ capped d'
  end.

Section step.
Context (d : PSDemuxer) (Hclean : clean_state d) (Hcap : capped d).

Lemma accounted_buf pes : accounted (len pes) d (Some (Stop (d <| buf := pes |>))).
Proof using Hclean Hcap.
  destruct Hclean as (H1 & H2 & H3). split; [|exact Hcap].
  unfold held, pending. simpl. rewrite H2, H3. simpl. lia.
Qed.

Lemma accounted_rest pes rest :
  (length rest <= length pes)%nat -> accounted (len pes) d (Some (Continue rest d)).
Proof using Hclean Hcap. intros H. split; [unfold len; lia|by split]. Qed.

Lemma same_pending_accounted d' n rest :
  same_pending d d' -> len rest <= n -> accounted n d (Some (Continue rest d')).
Proof using Hclean Hcap.
  intros S H. pose proof S as (H1 & H2 & H3 & H4). unfold accounted, capped. rewrite H4.
  split; [lia|]. split; [by eapply same_pending_clean|]. rewrite H2, H3. exact Hcap.
Qed.

Lemma feed_pack_accounted pes : accounted (len pes) d (feed_pack pes d).
Proof using Hclean Hcap.
  unfold feed_pack. destruct (Nat.ltb_spec (length pes) 14); [apply accounted_buf|].
  go_index. apply accounted_rest. set (k := (14 + _)%nat).
  assert (Hd : (length (drop k pes) <= length pes)%nat) by (rewrite length_drop; lia).
  destruct (drop k pes) as [|y l]; [done|].
  destruct (_ =? _); [pose proof (skip_ff_length (y :: l))|]; lia.
Qed.

Lemma feed_skip_accounted pes : accounted (len pes) d (feed_skip pes d).
Proof using Hclean Hcap.
  unfold feed_skip. destruct (Nat.ltb_spec (length pes) 6); [apply accounted_buf|]. go_index.
  destruct (Nat.ltb _ _); [apply accounted_buf|]. apply accounted_rest. rewrite length_drop. lia.
Qed.

Lemma apply_psm_pending psm d' : apply_psm psm d = Some d' -> same_pending d d'.
Proof using.
  unfold apply_psm. destruct (findVideoStreamType psm) as [found|]; [|done].
  destruct (audioStreamTypes psm) as [e|]; [|done]. cbn [mbind option_bind]. intros [= <-].
  unfold latch_video. destruct found as [st|]; [|done]. by repeat case_match.
Qed.

Lemma feed_psm_accounted pes : accounted (len pes) d (feed_psm pes d).
Proof using Hclean Hcap.
  unfold feed_psm. destruct (parsePSM_Some pes) as (r & -> & Hr). cbn [mbind option_bind].
  destruct r as [e|n]; [apply accounted_buf|].
  rewrite (proj2 (Nat.ltb_lt 6 n)) by lia. rewrite slice_ok by lia. cbn [mbind option_bind].
  destruct (apply_psm_Some (take (n - 6) (drop 6 pes)) d) as [d' E]. rewrite E. cbn [mbind option_bind].
  apply same_pending_accounted; [by eapply apply_psm_pending|]. rewrite len_drop by lia. lia.
Qed.

Lemma feed_audio_accounted v t c pts :
  let pes := 0 :: 0 :: 1 :: v :: t in accounted (len pes) d (feed_audio pes c pts d).
Proof using Hclean Hcap.
  intros pes. destruct (parseAudioPES_Some pes) as (r & E & Hr). unfold feed_audio. rewrite E.
  cbn [mbind option_bind]. unfold pes in Hr. rewrite strip_prefix in Hr. fold pes in Hr.
  destruct Hclean as (H1 & H2 & H3), Hcap as (C1 & C2 & C3).
  assert (W : same_pending d (warnPESOverflow d)) by (unfold warnPESOverflow; by destruct (pesOverflowLogged d)).
  destruct W as (W1 & W2 & _ & W4).
  destruct r as [e|[[payload p] n]].
  - destruct (Z.ltb_spec maxPendingPESBytes (len pes)) as [Hov|Hfit].
    + clear E Hr. clearbody pes. unfold accounted, held, pending, capped. simpl. rewrite W1, W2, W4, H1, H2.
      pose proof (len_nonneg pes). pose proof len_nil. split; [simpl in *; lia|]. by split_and!.
    + clear E Hr. clearbody pes. unfold accounted, held, pending, capped. simpl. rewrite H1, H2, !app_nil_r. split; [simpl in *; lia|].
      by split_and!.
  - rewrite (proj2 (Nat.ltb_ge _ _)) by lia.
    assert (He : exists d1, (match payload with [] => Some d | _ => emitAudio payload c p pts d end) = Some d1
                  /\ same_pending d d1).
    { destruct payload as [|x payload]; [by exists d|]. destruct (emitAudio_Some (x :: payload) c p pts d) as [d1 E1].
      exists d1. split; [done|]. by eapply emitAudio_pending. }
    destruct He as (d1 & -> & S). cbn [mbind option_bind].
    apply same_pending_accounted; [done|]. rewrite len_drop by lia. lia.
Qed.

Lemma accumulate_accounted payload d1 : same_pending d d1 ->
  let d2 := accumulate_es payload d1 in
  len (esBuf d2) <= len (esBuf d) + len payload /\ clean_state d2 /\ capped d2.
Proof using Hclean Hcap.
  intros S. pose proof (same_pending_clean _ _ S Hclean) as Hc. destruct S as (S1 & S2 & S3 & S4).
  destruct Hcap as (C1 & C2 & C3). unfold accumulate_es. simpl.
  pose proof (len_nonneg (esBuf d)) as Hn1. pose proof (len_nonneg payload) as Hn2.
  destruct (Z.ltb_spec maxESBufBytes (len (esBuf d1 ++ payload))) as [Hov|Hfit].
  - change (0 <= len (esBuf d) + len payload /\ clean_state d1 /\
      (0 <= maxESBufBytes /\ len (videoPesBuf d1) <= maxPendingPESBytes /\
       len (audioPesBuf d1) <= maxPendingPESBytes)).
    rewrite S2, S3. split_and!; try done. lia.
  - change (len (esBuf d1 ++ payload) <= len (esBuf d) + len payload /\ clean_state d1 /\
      (len (esBuf d1 ++ payload) <= maxESBufBytes /\ len (videoPesBuf d1) <= maxPendingPESBytes /\
       len (audioPesBuf d1) <= maxPendingPESBytes)).
    rewrite S2, S3. rewrite len_app, S4 at 1. by split_and!.
Qed.

Lemma feed_video_accounted v t pts :
  let pes := 0 :: 0 :: 1 :: v :: t in accounted (len pes) d (feed_video pes pts d).
Proof using Hclean Hcap.
  intros pes. destruct (parseVideoPES_Some pes) as (r & E & Hr). unfold feed_video. rewrite E.
  cbn [mbind option_bind]. unfold pes in Hr. rewrite strip_prefix in Hr. fold pes in Hr.
  pose proof Hclean as (H1 & H2 & H3). pose proof Hcap as (C1 & C2 & C3).
  assert (W : same_pending d (warnPESOverflow d)) by (unfold warnPESOverflow; by destruct (pesOverflowLogged d)).
  destruct W as (W1 & _ & W3 & W4).
  destruct r as [e|[payload n]].
  - destruct (Z.ltb_spec maxPendingPESBytes (len pes)) as [Hov|Hfit].
    + clear E Hr. clearbody pes. unfold accounted, held, pending, capped. simpl. rewrite W1, W3, W4, H1, H3.
      pose proof (len_nonneg pes). pose proof len_nil. split; [simpl in *; lia|]. by split_and!.
    + clear E Hr. clearbody pes. unfold accounted, held, pending, capped. simpl. rewrite H1, H3, app_nil_r. split; [simpl in *; lia|].
      by split_and!.
  - rewrite (proj2 (Nat.ltb_ge _ _)) by lia.
    destruct payload as [|x payload].
    + cbn [mbind option_bind]. apply accounted_rest. rewrite length_drop. lia.
    + destruct (establishClockOffset_Some pes pts (d <| currentPTS := pts |>)) as [d1 Hd1].
      assert (S : same_pending d d1).
      { unfold establishClockOffset in Hd1. case_match; [by simplify_eq|].
        destruct (parsePESPTS pes) as [o|]; [|done]. cbn [mbind option_bind] in Hd1.
        destruct o; by simplify_eq. }
      rewrite Hd1. cbn [mbind option_bind].
      destruct (accumulate_accounted (x :: payload) d1 S) as (A1 & A2 & A3).
      split; [|by split]. rewrite len_drop by lia. destruct Hr as (_ & _ & Hr).
      unfold len in *. lia.
Qed.

Lemma feedStep_accounted v t c pts :
  let pes := 0 :: 0 :: 1 :: v :: t in accounted (len pes) d (feedStep pes c pts d).
Proof using Hclean Hcap.
  intros pes. unfold feedStep.
  destruct (_ =? _); [apply feed_pack_accounted|]. destruct (_ =? _); [apply feed_skip_accounted|].
  destruct (_ =? _); [apply feed_psm_accounted|]. destruct (_ || _); [apply feed_skip_accounted|].
  destruct (is_audio_id c); [apply feed_audio_accounted|].
  destruct (is_video_id c); [apply feed_video_accounted|].
  apply accounted_rest. rewrite length_drop. lia.
Qed.
End step.

(** ** The loop and the whole call *)

Lemma feedLoop_accounted fuel rest pts d d' :
  clean_state d -> capped d -> feedLoop fuel rest pts d = Some d' ->
  held d' <= len rest + len (esBuf d) /\ capped d'.
Proof.
  revert rest d. induction fuel as [|fuel IH]; intros rest d Hc Hk H;
    (destruct rest as [|b rest];
      [simpl in H; simplify_eq; split; [|done]; destruct Hc as (H1 & H2 & H3);
       unfold held, pending; rewrite H1, H2, H3; simpl; lia|]); cbn [feedLoop] in H;
    (destruct (findPSStartCode (b :: rest)) as [e|[p v]] eqn:E;
      [injection H as <-; exact (accounted_buf d Hc Hk (b :: rest))|]); [done|].
  apply findPSStartCode_at_inr in E as (k & t & -> & Hk' & Hd & _). simpl Nat.add in H. rewrite Hd in H.
  pose proof (feedStep_accounted d Hc Hk v t v pts) as A. cbv zeta in A.
  assert (L : len (0 :: 0 :: 1 :: v :: t) <= len (b :: rest)).
  { rewrite <- Hd. rewrite len_drop by done. lia. }
  destruct (feedStep _ v pts d) as [[d1|rest1 d1]|]; [| |done]; cbn [mbind option_bind] in H.
  - injection H as <-. destruct A as [A1 A2]. split; [lia|done].
  - destruct A as (A1 & A2 & A3). destruct (IH rest1 d1 A2 A3 H) as [B1 B2]. split; [lia|done].
Qed.

Lemma extractNALUs_loop_total_len data ps l :
  extractNALUs_loop data ps = Some l ->
  total l <= match ps with [] => 0 | p :: _ => len data - Z.of_nat p end.
Proof.
  revert l. induction ps as [|p ps IH]; intros l H; cbn [extractNALUs_loop] in H; [by simplify_eq|].
  set (e := match ps with next :: _ => next | [] => length data end) in H.
  destruct (slice data p e) as [n|] eqn:Es; [|done]. cbn [mbind option_bind] in H.
  apply slice_Some_inv in Es as (P1 & P2 & En).
  assert (Ln : len n = Z.of_nat e - Z.of_nat p).
  { rewrite En. unfold len. rewrite length_take, length_drop. lia. }
  assert (R : forall l', extractNALUs_loop data ps = Some l' -> total l' <= len data - Z.of_nat e).
  { intros l' E'. specialize (IH l' E'). unfold e. destruct ps; [unfold len; lia|done]. }
  destruct n as [|x n]; [specialize (R l H); lia|].
  destruct (if Nat.ltb _ _ then _ else _) as [k|]; [|done]. cbn [mbind option_bind] in H.
  destruct (slice_from (x :: n) k) as [raw|] eqn:Er; [|done]. cbn [mbind option_bind] in H.
  destruct (extractNALUs_loop data ps) as [l'|]; [|done]. cbn [mbind option_bind] in H.
  specialize (R l' eq_refl). apply slice_Some_inv in Er as (_ & _ & Er).
  assert (Lr : len raw <= len (x :: n)) by (rewrite Er; unfold len; rewrite length_take, length_drop; lia).
  destruct raw as [|y raw]; injection H as <-; [lia|].
  unfold total in *. cbn [concat]. rewrite len_app. lia.
Qed.

Lemma extractNALUs_total data ty l : extractNALUs data ty = Some l -> total l <= len data.
Proof.
  unfold extractNALUs. case_bool_decide.
  - intros [= <-]. destruct data; [done|]. unfold total. simpl. rewrite app_nil_r. lia.
  - destruct data as [|b data]; [by intros [= <-]|]. intros E. apply extractNALUs_loop_total_len in E.
    destruct (findStartCodes _); [pose proof (len_nonneg (b :: data)); lia|lia].
Qed.

Lemma maybeLatch_held ns d : same_pending d (maybeLatchCodecFromNALUs ns d).
Proof.
  induction ns as [|n ns IH]; simpl; [by case_match|]. case_match; [done|]. case_match; [done|].
  by repeat case_match.
Qed.

Lemma same_pending_held d d' : same_pending d d' -> held d' = held d /\ (capped d -> capped d').
Proof. unfold held, pending, capped. intros (-> & -> & -> & ->). done. Qed.

Lemma clear_pending_capped d : capped d -> capped (clear_pending d).
Proof. intros (C1 & _ & _). by split_and!. Qed.

Lemma FeedAU_accounts au pts complete d ns d' :
  capped d -> FeedAU au pts complete d = Some (ns, d') ->
  capped d' /\ total ns + held d' <= held d + len au.
Proof.
  intros Hk H. unfold FeedAU in H. destruct au as [|b au].
  { injection H as <- <-. split; [done|]. change (0 + held d <= held d + 0). lia. }
  destruct (feedLoop _ _ pts (clear_pending d)) as [d1|] eqn:E; [|done]. cbn [mbind option_bind] in H.
  apply feedLoop_accounted in E as [E1 E2]; [|by repeat split|by apply clear_pending_capped].
  change (esBuf (clear_pending d)) with (esBuf d) in E1. rewrite len_app in E1.
  assert (E1' : held d1 <= held d + len (b :: au)) by (unfold held at 2; lia).
  assert (Z0 : total [] = 0) by done.
  assert (K : forall l d2, same_pending d1 d2 \/ (esBuf d2 = [] /\ pending d2 = pending d1 /\ capped d2) ->
     total l + held d2 <= held d1 -> capped (maybeLatchCodecFromNALUs l d2) /\
     total l + held (maybeLatchCodecFromNALUs l d2) <= held d + len (b :: au)).
  { intros l d2 S Hl. destruct (same_pending_held _ _ (maybeLatch_held l d2)) as [-> Hcap].
    split; [|lia]. apply Hcap. destruct S as [S|S]; [|apply S]. by apply (same_pending_held _ _ S). }
  destruct complete.
  - destruct (videoPesBuf d1) as [|x v] eqn:Ev.
    + destruct (esBuf d1) as [|y es] eqn:Ee.
      * injection H as <- <-. apply (K []); [by left|lia].
      * destruct (extractNALUs (y :: es) (naluType d1)) as [l|] eqn:El; [|done]. cbn [mbind option_bind] in H.
        injection H as <- <-. apply extractNALUs_total in El. apply K.
        -- right. split; [done|]. split; [done|]. destruct E2 as (C1 & C2 & C3). by split_and!.
        -- change (total l + (len (pending d1) + 0) <= len (pending d1) + len (esBuf d1)). rewrite Ee. lia.
    + injection H as <- <-. destruct E2 as (C1 & C2 & C3). split; [by split_and!|].
      change (0 + (len (audioPesBuf d1 ++ buf d1) + 0) <= held d + len (b :: au)).
      assert (Hh : held d1 = len (audioPesBuf d1) + len (videoPesBuf d1) + len (buf d1) + len (esBuf d1)).
      { unfold held, pending. rewrite !len_app. lia. }
      pose proof (len_nonneg (esBuf d1)). pose proof (len_nonneg (videoPesBuf d1)). rewrite len_app. lia.
  - injection H as <- <-. apply (K []); [by left|lia].
Qed.

Lemma Flush_Some d : exists r, Flush d = Some r.
Proof.
  unfold Flush.
  assert (E : forall l ty, exists r, (match l with [] => Some [] | _ => extractNALUs l ty end) = Some r).
  { intros l ty. destruct l; [eauto|apply extractNALUs_Some]. }
  assert (P : forall p, exists q, (if Nat.leb 9 (length p) then
                 b8 ← index p 8;
                 if Nat.leb (9 + Z.to_nat b8) (length p) then slice_from p (9 + Z.to_nat b8) else Some p
               else Some p) = Some q).
  { intros p. destruct (Nat.leb_spec 9 (length p)); [|eauto]. destruct (index_lt p 8) as [b8 ->]; [lia|].
    cbn [mbind option_bind]. destruct (Nat.leb_spec (9 + Z.to_nat b8) (length p)); [|eauto].
    rewrite slice_from_ok by lia. eauto. }
  destruct (P (videoPesBuf d)) as [q ->].
  destruct (E (esBuf d) (naluType d)) as [n1 ->], (E (buf d) (naluType d)) as [n3 ->]. cbn [mbind option_bind].
  destruct (videoPesBuf d) as [|x v]; cbn [mbind option_bind]; [eauto|].
  destruct (extractNALUs_Some q (naluType d)) as [n2 ->]. cbn [mbind option_bind]. eauto.
Qed.

(** C34: No input makes the demuxer panic or loop: for any bytes, in any number of
    calls, with any residual state, [FeedAU] and [Flush] return (the fuel of the
    parse loop, one more than the bytes to parse, is never used up). *)
Theorem demuxer_total au pts complete d :
  (exists ns d', FeedAU au pts complete d = Some (ns, d')) /\ (exists ns d', Flush d = Some (ns, d')).
Proof.
  split.
  - destruct (FeedAU_Some au pts complete d) as [[ns d'] E]. eauto.
  - destruct (Flush_Some d) as [[ns d'] E]. eauto.
Qed.

(** C33: Reassembly is capped and nothing is amplified: whatever bytes arrive, the
    elementary stream buffer stays within [maxESBufBytes] and each pending PES
    within [maxPendingPESBytes], and the NALUs handed out together with
    everything still held never exceed what was held before plus what was fed. *)
Theorem demuxer_memory au pts complete d ns d' :
  capped d -> FeedAU au pts complete d = Some (ns, d') ->
  capped d' /\ total ns + held d' <= held d + len au.
Proof. apply FeedAU_accounts. Qed.

Lemma demuxer_memory_witness : exists ns d',
  FeedAU [0; 0; 1; 0xE0; 0; 9; 0x80; 0; 0; 0; 0; 0; 1; 0x65; 7] 90 true NewPSDemuxer = Some (ns, d') /\
  total ns + held d' <= 15.
Proof.
  destruct (FeedAU_Some [0; 0; 1; 0xE0; 0; 9; 0x80; 0; 0; 0; 0; 0; 1; 0x65; 7] 90 true NewPSDemuxer)
    as ((ns & d') & E).
  exists ns, d'. split; [exact E|].
  apply (demuxer_memory [0; 0; 1; 0xE0; 0; 9; 0x80; 0; 0; 0; 0; 0; 1; 0x65; 7] 90 true NewPSDemuxer ns d').
  - by split_and!.
  - exact E.
Defined.

(** ** The buffer that has no cap *)

Fixpoint feed_n (n : nat) (au : list Z) (pts : Z) (d : PSDemuxer) : option PSDemuxer :=
  match n with
  | O => Some d
  | S n' => '(_, d') ← FeedAU au pts true d; feed_n n' au pts d'
  end.

(** The residual [buf] is not capped: on payloads in which no start code can
    begin (no zero byte) every access unit is appended to it, so after [n] of
    them it holds [n] access units, without bound. *)
Theorem junk_grows_buf n au pts :
  au <> [] -> Forall (fun b => b <> 0) au ->
  exists d, feed_n n au pts NewPSDemuxer = Some d /\ len (buf d) = Z.of_nat n * len au.
Proof.
  intros Hne Hz.
  assert (K : forall m, Forall (fun b => b <> 0) m -> findPSStartCode m = inl ErrNoStartCode).
  { intros m. unfold findPSStartCode. generalize 0%nat. induction m as [|b m IH]; intros i Hm; [done|].
    apply list.Forall_cons in Hm as [Hb Hm]. cbn [findPSStartCode_at].
    rewrite (proj2 (Z.eqb_neq b 0) Hb). cbn [andb negb]. by destruct m as [|c [|e m]]; rewrite IH. }
  assert (L : forall d, esBuf d = [] -> videoPesBuf d = [] -> audioPesBuf d = [] -> naluType d = ""%string ->
     Forall (fun b => b <> 0) (buf d) ->
     exists d', feed_n n au pts d = Some d' /\ len (buf d') = len (buf d) + Z.of_nat n * len au).
  { induction n as [|n IH]; intros d H1 H2 H3 H4 H5; [exists d; split; [done|lia]|].
    cbn [feed_n]. unfold FeedAU. destruct au as [|b au']; [done|].
    unfold pending. rewrite H2, H3. cbn [app]. set (data := buf d ++ b :: au').
    assert (Hd : Forall (fun b => b <> 0) data) by (by apply Forall_app).
    assert (E : feedLoop (S (length data)) data pts (clear_pending d) = Some ((clear_pending d) <| buf := data |>)).
    { destruct data as [|x data'] eqn:Ed; [by destruct (buf d)|]. cbn [feedLoop]. by rewrite K. }
    rewrite E. cbn [mbind option_bind]. set (d1 := (clear_pending d) <| buf := data |>).
    change (videoPesBuf d1) with (@nil Z). change (esBuf d1) with (esBuf d). rewrite H1. cbn [mbind option_bind].
    assert (Em : maybeLatchCodecFromNALUs [] d1 = d1) by (simpl; by case_match). rewrite Em.
    destruct (IH d1) as (d' & E1 & E2); [done..|]. exists d'. split; [done|]. rewrite E2.
    change (buf d1) with data. unfold data. rewrite len_app. lia. }
  destruct (L NewPSDemuxer) as (d & E1 & E2); [done..|]. exists d. split; [done|]. rewrite E2.
  change (len (buf NewPSDemuxer)) with 0. lia.
Qed.

Lemma junk_grows_buf_witness :
  exists d, feed_n 1000 [0xFF; 0xAA] 0 NewPSDemuxer = Some d /\ len (buf d) = 2000.
Proof. apply (junk_grows_buf 1000 [0xFF; 0xAA] 0); [done|]. by repeat constructor. Defined.
