(* ===== verification/AuSplit.v ===== *)
(** Splitting a demuxed NALU list into one access unit per frame
    ([platform/au_split.go]). *)

From S2P Require Import Prelude NalUtil.
Open Scope Z_scope.

Definition nalu_t := list Z.

Definition isVCLNALU (nalu : nalu_t) (isH265 : bool) : option bool :=
  b ← index nalu 0;
  Some (if isH265 then h265_type b <=? 31
        else (1 <=? h264_type b) && (h264_type b <=? 5)).

Definition startsNewFrame (nalu : nalu_t) (isH265 : bool) : option bool :=
  let hdrLen := if isH265 then 2%nat else 1%nat in
  if Nat.leb (length nalu) hdrLen then Some true else
  rbsp0 ← slice_from nalu hdrLen;
  escaped ← (if Nat.leb 4 (length rbsp0) then
               r0 ← index rbsp0 0; r1 ← index rbsp0 1; r2 ← index rbsp0 2;
               Some ((r0 =? 0) && (r1 =? 0) && (r2 =? 3))
             else Some false);
  rbsp ← (if (escaped : bool) then slice_from rbsp0 3 else Some rbsp0);
  b ← index rbsp 0;
  Some (negb (Z.land b 0x80 =? 0)).

(** The variables of the loop. *)
Record split_state := mkSplit {
  sp_out : list (list nalu_t);
  sp_cur : list nalu_t;
  sp_trailing : list nalu_t;
  sp_seenVCL : bool;
}.

#[export] Instance eta_split_state : Eta split_state := fun s =>
  mkSplit (sp_out s) (sp_cur s) (sp_trailing s) (sp_seenVCL s).

Definition is_nil {A} (l : list A) : bool := match l with [] => true | _ => false end.

Definition split_nalu (isH265 : bool) (s : split_state) (nalu : nalu_t) : option split_state :=
  match nalu with
  | [] => Some s
  | _ =>
      vcl ← isVCLNALU nalu isH265;
      new ← (if vcl && sp_seenVCL s then startsNewFrame nalu isH265 else Some false);
      let s1 := if (new : bool) && negb (is_nil (sp_cur s))
                then s <| sp_out := sp_out s ++ [sp_cur s] |> <| sp_cur := [] |> else s in
      Some (if (vcl : bool) then
              let cur := if is_nil (sp_cur s1) then sp_trailing s1 else sp_cur s1 in
              s1 <| sp_cur := cur ++ [nalu] |> <| sp_trailing := [] |> <| sp_seenVCL := true |>
            else if sp_seenVCL s1 then s1 <| sp_trailing := sp_trailing s1 ++ [nalu] |>
            else s1 <| sp_cur := sp_cur s1 ++ [nalu] |>)
  end.

Fixpoint split_loop (isH265 : bool) (nalus : list nalu_t) (s : split_state) : option split_state :=
  match nalus with
  | [] => Some s
  | n :: rest => s' ← split_nalu isH265 s n; split_loop isH265 rest s'
  end.

(** The two [if]s behind the loop. *)
Definition split_end (s : split_state) : list (list nalu_t) :=
  let cur := sp_cur s ++ sp_trailing s in
  match cur with [] => sp_out s | _ => sp_out s ++ [cur] end.

Definition splitAUsByFrame (nalus : list nalu_t) (isH265 : bool) : option (list (list nalu_t)) :=
  match nalus with
  | [] => Some []
  | [_] => Some [nalus]
  | _ => s ← split_loop isH265 nalus (mkSplit [] [] [] false); Some (split_end s)
  end.

(** ** Specification *)

(** Boolean readings of the two classifiers, for non-empty NALUs. *)
Definition vcl (h : bool) (n : nalu_t) : bool := bool_decide (isVCLNALU n h = Some true).
Definition starts (h : bool) (n : nalu_t) : bool := bool_decide (startsNewFrame n h = Some true).

(** One frame as a bitstream has it: parameter sets and SEI, the slice that
    opens the picture, and its other slices. *)
Record frame := mkFrame { f_pre : list nalu_t; f_first : nalu_t; f_rest : list nalu_t }.

Definition frame_flat (f : frame) : list nalu_t := f_pre f ++ f_first f :: f_rest f.

Definition non_vcl (h : bool) (n : nalu_t) : Prop := n <> [] /\ vcl h n = false.

Definition frame_ok (h : bool) (f : frame) : Prop :=
  Forall (non_vcl h) (f_pre f) /\
  (f_first f <> [] /\ vcl h (f_first f) = true) /\
  Forall (fun n => n <> [] /\ vcl h n = true /\ starts h n = false) (f_rest f).

(** An access unit that holds slices of one picture at most. *)
Definition one_frame (h : bool) (au : list nalu_t) : Prop :=
  match filter (fun n => vcl h n = true) au with
  | [] => True
  | _ :: slices => Forall (fun n => starts h n = false) slices
  end.

(** ** Lemmas *)

Lemma isVCLNALU_Some n h : n <> [] -> isVCLNALU n h = Some (vcl h n).
Proof.
  intros Hn. unfold vcl, isVCLNALU. destruct n as [|b n]; [done|]. simpl.
  set (v := if h then _ else _). destruct v; by case_bool_decide.
Qed.

Lemma startsNewFrame_Some n h : startsNewFrame n h = Some (starts h n).
Proof.
  assert (H : exists b, startsNewFrame n h = Some b).
  { unfold startsNewFrame. set (k := if h then 2%nat else 1%nat).
    destruct (Nat.leb_spec (length n) k); [by eauto|].
    rewrite slice_from_ok by lia. cbn [mbind option_bind].
    assert (Hl : (0 < length (drop k n))%nat) by (rewrite length_drop; lia).
    set (r := drop k n) in *. clearbody r.
    destruct (Nat.leb_spec 4 (length r)); cbn [mbind option_bind].
    - go_index. set (e := _ && _). destruct e; cbn [mbind option_bind].
      + rewrite slice_from_ok by lia. cbn [mbind option_bind].
        destruct (index_lt (drop 3 r) 0) as [b ->]; [rewrite length_drop; lia|]. simpl. eauto.
      + go_index. eauto.
    - destruct (index_lt r 0) as [b ->]; [lia|]. simpl. eauto. }
  destruct H as [b E]. unfold starts. rewrite E. by destruct b; case_bool_decide.
Qed.

Lemma split_nalu_Some h s n : exists s', split_nalu h s n = Some s'.
Proof.
  unfold split_nalu. destruct n as [|b n]; [eauto|].
  rewrite isVCLNALU_Some by done. cbn [mbind option_bind].
  destruct (_ && sp_seenVCL s); [rewrite startsNewFrame_Some|]; cbn [mbind option_bind]; eauto.
Qed.

Lemma split_loop_Some h ns s : exists s', split_loop h ns s = Some s'.
Proof.
  revert s. induction ns as [|n ns IH]; intros s; [simpl; eauto|]. cbn [split_loop].
  destruct (split_nalu_Some h s n) as [s' ->]. apply IH.
Qed.

Lemma splitAUsByFrame_Some ns h : exists aus, splitAUsByFrame ns h = Some aus.
Proof.
  unfold splitAUsByFrame. destruct ns as [|a [|b ns]]; [eauto..|].
  destruct (split_loop_Some h (a :: b :: ns) (mkSplit [] [] [] false)) as [s ->]. simpl. eauto.
Qed.

Lemma split_loop_app h a b s :
  split_loop h (a ++ b) s = s' ← split_loop h a s; split_loop h b s'.
Proof.
  revert s. induction a as [|n a IH]; intros s; [done|]. cbn [app split_loop].
  destruct (split_nalu h s n) as [s'|]; [apply IH|done].
Qed.

(** The step, by kind of NALU. *)
Lemma split_leading h s n :
  non_vcl h n -> sp_seenVCL s = false ->
  split_nalu h s n = Some (s <| sp_cur := sp_cur s ++ [n] |>).
Proof.
  intros [Hn Hv] Hs. unfold split_nalu. destruct n as [|b n]; [done|].
  rewrite isVCLNALU_Some, Hv by done. cbn [mbind option_bind andb]. by rewrite Hs.
Qed.

Lemma split_trailing h s n :
  non_vcl h n -> sp_seenVCL s = true ->
  split_nalu h s n = Some (s <| sp_trailing := sp_trailing s ++ [n] |>).
Proof.
  intros [Hn Hv] Hs. unfold split_nalu. destruct n as [|b n]; [done|].
  rewrite isVCLNALU_Some, Hv by done. cbn [mbind option_bind andb]. by rewrite Hs.
Qed.

Lemma split_slice h s n :
  n <> [] -> vcl h n = true ->
  split_nalu h s n = Some
    (if sp_seenVCL s && starts h n && negb (is_nil (sp_cur s))
     then mkSplit (sp_out s ++ [sp_cur s]) (sp_trailing s ++ [n]) [] true
     else mkSplit (sp_out s)
            ((if is_nil (sp_cur s) then sp_trailing s else sp_cur s) ++ [n]) [] true).
Proof.
  intros Hn Hv. unfold split_nalu. destruct n as [|b n]; [done|].
  rewrite isVCLNALU_Some, Hv by done. cbn [mbind option_bind andb].
  destruct (sp_seenVCL s) eqn:Es; cbn [andb].
  - rewrite startsNewFrame_Some. cbn [mbind option_bind].
    destruct (starts h (b :: n) && negb (is_nil (sp_cur s))); simpl; [done|].
    destruct s; simpl in *. by destruct (is_nil sp_cur0).
  - cbn [mbind option_bind]. destruct s; simpl in *. by destruct (is_nil sp_cur0).
Qed.

Lemma split_leadings h ns s :
  Forall (non_vcl h) ns -> sp_seenVCL s = false ->
  split_loop h ns s = Some (s <| sp_cur := sp_cur s ++ ns |>).
Proof.
  intros H. revert s. induction H as [|n ns Hn _ IH]; intros s Hs; cbn [split_loop].
  - destruct s; simpl. by rewrite app_nil_r.
  - rewrite split_leading by done. cbn [mbind option_bind]. rewrite IH by done. simpl.
    by rewrite <- app_assoc.
Qed.

Lemma split_trailings h ns s :
  Forall (non_vcl h) ns -> sp_seenVCL s = true ->
  split_loop h ns s = Some (s <| sp_trailing := sp_trailing s ++ ns |>).
Proof.
  intros H. revert s. induction H as [|n ns Hn _ IH]; intros s Hs; cbn [split_loop].
  - destruct s; simpl. by rewrite app_nil_r.
  - rewrite split_trailing by done. cbn [mbind option_bind]. rewrite IH by done. simpl.
    by rewrite <- app_assoc.
Qed.

Lemma split_slices h ns out cur :
  Forall (fun n => n <> [] /\ vcl h n = true /\ starts h n = false) ns -> cur <> [] ->
  split_loop h ns (mkSplit out cur [] true) = Some (mkSplit out (cur ++ ns) [] true).
Proof.
  intros H. revert cur. induction H as [|n ns (Hn & Hv & Hs) _ IH]; intros cur Hc; cbn [split_loop].
  - by rewrite app_nil_r.
  - rewrite split_slice by done. simpl. rewrite Hs. cbn [andb mbind option_bind].
    destruct cur as [|c cur]; [done|]. cbn [is_nil]. rewrite IH by done. by rewrite <- app_assoc.
Qed.

(** A complete frame closes the one before it. *)
Lemma split_next_frame h out cur f :
  frame_ok h f -> starts h (f_first f) = true -> cur <> [] ->
  split_loop h (frame_flat f) (mkSplit out cur [] true) =
  Some (mkSplit (out ++ [cur]) (frame_flat f) [] true).
Proof.
  intros (Hp & (Hn & Hv) & Hr) Hs Hc. unfold frame_flat. rewrite split_loop_app.
  rewrite split_trailings by done. cbn [mbind option_bind split_loop].
  rewrite split_slice by done. simpl. rewrite Hs. destruct cur as [|c cur]; [done|].
  cbn [is_nil negb andb mbind option_bind].
  rewrite split_slices; [by rewrite <- app_assoc|done|by destruct (f_pre f)].
Qed.

Lemma split_frames_loop h fs out cur :
  Forall (fun f => frame_ok h f /\ starts h (f_first f) = true) fs -> cur <> [] ->
  split_loop h (concat (map frame_flat fs)) (mkSplit out cur [] true) =
  Some (mkSplit (out ++ removelast (cur :: map frame_flat fs))
                (List.last (map frame_flat fs) cur) [] true).
Proof.
  intros H. revert out cur. induction H as [|f fs [Hf Hs] _ IH]; intros out cur Hc.
  - simpl. by rewrite app_nil_r.
  - cbn [map concat]. rewrite split_loop_app, split_next_frame by done. cbn [mbind option_bind].
    assert (Hne : frame_flat f <> []) by (unfold frame_flat; by destruct (f_pre f)).
    rewrite IH by done. rewrite <- app_assoc. do 2 f_equal.
    destruct (map frame_flat fs) as [|x l] eqn:E; [done|].
    clear. revert x. induction l as [|y l IHl]; intros x; [done|]. exact (IHl y).
Qed.

Lemma frame_flat_nonempty f : frame_flat f <> [].
Proof. unfold frame_flat. by destruct (f_pre f). Qed.

Lemma last_flat_nonempty f fs : List.last (map frame_flat fs) (frame_flat f) <> [].
Proof.
  induction fs as [|g fs IH]; [apply frame_flat_nonempty|]. cbn [map List.last].
  destruct (map frame_flat fs) eqn:E; [apply frame_flat_nonempty|]. exact IH.
Qed.

(** The loop on a whole sequence of frames, the first of which may continue a
    picture whose beginning was lost. *)
Lemma split_loop_frames h f fs tl :
  frame_ok h f -> Forall (fun f => frame_ok h f /\ starts h (f_first f) = true) fs ->
  Forall (non_vcl h) tl ->
  split_loop h (concat (map frame_flat (f :: fs)) ++ tl) (mkSplit [] [] [] false) =
    Some (mkSplit (removelast (map frame_flat (f :: fs)))
            (List.last (map frame_flat fs) (frame_flat f)) tl true).
Proof.
  intros (Hp & (Hn & Hv) & Hr) Hfs Htl. cbn [map concat]. rewrite <- app_assoc.
  unfold frame_flat at 1. rewrite <- app_assoc.
  rewrite split_loop_app, split_leadings by done. cbn [mbind option_bind app split_loop].
  rewrite split_slice by done. simpl sp_seenVCL. cbn [andb mbind option_bind]. simpl.
  rewrite split_loop_app.
  assert (E : (if is_nil (f_pre f) then [] else f_pre f) = f_pre f) by (by destruct (f_pre f)).
  rewrite E. rewrite split_slices; [|done|by destruct (f_pre f)]. cbn [mbind option_bind].
  rewrite split_loop_app. rewrite <- app_assoc. cbn [app]. fold (frame_flat f).
  rewrite split_frames_loop; [|done|apply frame_flat_nonempty].
  cbn [mbind option_bind]. by rewrite split_trailings by done.
Qed.

(** One NALU alone is what the loop would make of it. *)
Lemma splitAUsByFrame_loop h ns s :
  split_loop h ns (mkSplit [] [] [] false) = Some s -> Forall (fun n => n <> []) ns ->
  splitAUsByFrame ns h = Some (split_end s).
Proof.
  intros L Hne. unfold splitAUsByFrame. destruct ns as [|a [|b rest]].
  - by injection L as <-.
  - apply list.Forall_cons in Hne as [Ha _]. cbn [split_loop] in L.
    destruct (split_nalu h (mkSplit [] [] [] false) a) as [s'|] eqn:Es; [|done].
    injection L as ->. destruct (vcl h a) eqn:Ev.
    + rewrite split_slice in Es by done. by injection Es as <-.
    + rewrite split_leading in Es by done. by injection Es as <-.
  - by rewrite L.
Qed.

(** The split recovers the frames; what follows the last slice stays with it. *)
Lemma split_recovers h f fs tl :
  frame_ok h f -> Forall (fun f => frame_ok h f /\ starts h (f_first f) = true) fs ->
  Forall (non_vcl h) tl ->
  splitAUsByFrame (concat (map frame_flat (f :: fs)) ++ tl) h =
  Some (removelast (map frame_flat (f :: fs)) ++
        [List.last (map frame_flat fs) (frame_flat f) ++ tl]).
Proof.
  intros Hf Hfs Htl. rewrite (splitAUsByFrame_loop _ _ _ (split_loop_frames h f fs tl Hf Hfs Htl)).
  - unfold split_end. simpl. pose proof (last_flat_nonempty f fs).
    by destruct (List.last (map frame_flat fs) (frame_flat f)).
  - assert (F : forall g, frame_ok h g -> Forall (fun n => n <> []) (frame_flat g)).
    { intros g (Hp & (Hn & _) & Hr). apply Forall_app. split.
      - eapply list.Forall_impl; [done|]. by intros n [? _].
      - constructor; [done|]. eapply list.Forall_impl; [done|]. by intros n (? & _). }
    apply Forall_app. split; [|eapply list.Forall_impl; [done|]; by intros n [? _]].
    apply Forall_concat, Forall_map. constructor; [by apply F|].
    eapply list.Forall_impl; [done|]. intros g [Hg _]. by apply F.
Qed.

(** ** Any input *)

Lemma filter_vcl_app h a b :
  filter (fun n => vcl h n = true) (a ++ b) =
  filter (fun n => vcl h n = true) a ++ filter (fun n => vcl h n = true) b.
Proof. apply list.filter_app. Qed.

Lemma one_frame_snoc h au n :
  one_frame h au -> (vcl h n = true -> filter (fun n => vcl h n = true) au = [] \/ starts h n = false) ->
  one_frame h (au ++ [n]).
Proof.
  unfold one_frame. rewrite filter_vcl_app. intros H1 H2.
  destruct (vcl h n) eqn:E.
  - rewrite (filter_cons_True _ n []) by done. rewrite list.filter_nil.
    destruct (filter _ au) as [|v vs]; [constructor|]. cbn [app]. apply Forall_app. split; [done|].
    by destruct (H2 eq_refl); [|constructor].
  - rewrite (filter_cons_False _ n []) by (by rewrite E). by rewrite list.filter_nil, app_nil_r.
Qed.

Lemma filter_non_vcl h l : Forall (fun n => vcl h n = false) l -> filter (fun n => vcl h n = true) l = [].
Proof.
  induction 1 as [|n l Hn _ IH]; [done|]. by rewrite filter_cons_False by (by rewrite Hn).
Qed.

(** The loop invariant. *)
Definition split_inv (h : bool) (done_ : list nalu_t) (s : split_state) : Prop :=
  Forall (fun au => au <> [] /\ one_frame h au) (sp_out s) /\ one_frame h (sp_cur s) /\
  Forall (fun n => vcl h n = false) (sp_trailing s) /\
  (sp_seenVCL s = false ->
     sp_trailing s = [] /\ Forall (fun n => vcl h n = false) (sp_cur s)) /\
  (sp_seenVCL s = true -> sp_cur s <> []) /\
  sublist (concat (sp_out s) ++ sp_cur s ++ sp_trailing s) done_.

Lemma split_inv_step h done_ s n s' :
  split_inv h done_ s -> split_nalu h s n = Some s' -> split_inv h (done_ ++ [n]) s'.
Proof.
  intros (I1 & I2 & I3 & I4 & I5 & I6) E. destruct n as [|b n'].
  { simpl in E. injection E as <-. repeat split; try done; try by apply I4.
    by apply sublist_inserts_r. }
  set (n := b :: n') in *. assert (Hn : n <> []) by done. clearbody n. clear b n'.
  destruct (vcl h n) eqn:Ev.
  - rewrite split_slice in E by done. injection E as <-.
    destruct (sp_seenVCL s && starts h n && negb (is_nil (sp_cur s))) eqn:Ec.
    + rewrite !andb_true_iff in Ec. destruct Ec as [[Hs Hst] Hc].
      unfold split_inv. simpl. repeat split; try done.
      * apply Forall_app. split; [done|]. constructor; [|done]. split; [by apply I5|done].
      * apply one_frame_snoc; [unfold one_frame; by rewrite filter_non_vcl|].
        intros _. left. by apply filter_non_vcl.
      * intros _. by destruct (sp_trailing s).
      * rewrite concat_app. simpl. rewrite !app_nil_r, !app_assoc.
        apply sublist_app; [by rewrite <- app_assoc|done].
    + unfold split_inv. simpl. repeat split; try done.
      * destruct (sp_seenVCL s) eqn:Es.
        { specialize (I5 eq_refl). destruct (sp_cur s) as [|c cur] eqn:Ecur; [done|]. cbn [is_nil] in *.
          apply one_frame_snoc; [done|]. intros _. right.
          rewrite andb_true_r in Ec. exact Ec. }
        { destruct (I4 eq_refl) as [T1 T2]. rewrite T1.
          replace (if is_nil (sp_cur s) then [] else sp_cur s) with (sp_cur s) by (by destruct (sp_cur s)).
          apply one_frame_snoc; [done|]. intros _. left. by apply filter_non_vcl. }
      * intros _. by destruct (if is_nil (sp_cur s) then _ else _).
      * rewrite app_nil_r, app_assoc. apply sublist_app; [|done].
        etransitivity; [|exact I6]. apply sublist_app; [done|].
        destruct (is_nil (sp_cur s)) eqn:Ei; [destruct (sp_cur s); done|by apply sublist_inserts_r].
  - destruct (sp_seenVCL s) eqn:Es.
    + rewrite split_trailing in E by done. injection E as <-. unfold split_inv. simpl. rewrite Es.
      repeat split; try done; [by apply Forall_app; split; [|constructor]|].
      rewrite !app_assoc. apply sublist_app; [by rewrite <- app_assoc|done].
    + rewrite split_leading in E by done. injection E as <-. destruct (I4 eq_refl) as [T1 T2].
      unfold split_inv. simpl. rewrite Es, T1. repeat split; try done.
      * apply one_frame_snoc; [done|]. by rewrite Ev.
      * by apply Forall_app; split; [|constructor].
      * rewrite T1, app_nil_r in I6. rewrite app_nil_r, app_assoc. by apply sublist_app.
Qed.

Lemma split_inv_loop h ns done_ s s' :
  split_inv h done_ s -> split_loop h ns s = Some s' -> split_inv h (done_ ++ ns) s'.
Proof.
  revert done_ s. induction ns as [|n ns IH]; intros done_ s H E; cbn [split_loop] in E.
  - injection E as <-. by rewrite app_nil_r.
  - destruct (split_nalu h s n) as [s1|] eqn:E1; [|done]. cbn [mbind option_bind] in E.
    change (n :: ns) with ([n] ++ ns). rewrite app_assoc.
    eapply IH; [by eapply split_inv_step|done].
Qed.

Lemma split_sound h ns aus :
  splitAUsByFrame ns h = Some aus -> Forall (fun n => n <> []) ns ->
  Forall (fun au => au <> [] /\ one_frame h au) aus /\ sublist (concat aus) ns.
Proof.
  intros E Hne. destruct (split_loop_Some h ns (mkSplit [] [] [] false)) as [s Hs].
  pose proof (splitAUsByFrame_loop h ns s Hs Hne) as E'. rewrite E in E'. injection E' as ->.
  assert (I0 : split_inv h [] (mkSplit [] [] [] false)) by (by repeat split).
  pose proof (split_inv_loop h ns [] _ s I0 Hs) as (I1 & I2 & I3 & I4 & I5 & I6). cbn [app] in I6.
  unfold split_end. destruct (sp_cur s ++ sp_trailing s) as [|x l] eqn:El.
  - split; [done|]. by rewrite app_nil_r in I6.
  - rewrite <- El in *. split.
    + apply Forall_app. split; [done|]. constructor; [|done]. split; [by rewrite El|].
      unfold one_frame in *. rewrite filter_vcl_app, (filter_non_vcl _ _ I3), app_nil_r. exact I2.
    + rewrite concat_app. simpl. by rewrite app_nil_r.
Qed.

(** ** Properties *)

(** C31: Frame recovery: a NALU list that concatenates whole frames (each a run of
    parameter sets or SEI, a slice that opens the picture and its other slices)
    splits into exactly those frames, in order; non-VCL NALUs travel with the
    frame that follows them and a trailing run stays with the last frame. The
    first frame may have lost its opening slice. *)
Theorem split_recovers_frames h f fs tl :
  frame_ok h f -> Forall (fun f => frame_ok h f /\ starts h (f_first f) = true) fs ->
  Forall (non_vcl h) tl ->
  splitAUsByFrame (concat (map frame_flat (f :: fs)) ++ tl) h =
  Some (removelast (map frame_flat (f :: fs)) ++
        [List.last (map frame_flat fs) (frame_flat f) ++ tl]).
Proof. apply split_recovers. Qed.

Lemma split_recovers_frames_witness :
  splitAUsByFrame [[0x67]; [0x65; 0x88]; [0x65; 0x08]; [0x06]; [0x41; 0x9A]; [0x0C]] false =
  Some [[[0x67]; [0x65; 0x88]; [0x65; 0x08]]; [[0x06]; [0x41; 0x9A]; [0x0C]]].
Proof.
  apply (split_recovers_frames false (mkFrame [[0x67]] [0x65; 0x88] [[0x65; 0x08]])
           [mkFrame [[0x06]] [0x41; 0x9A] []] [[0x0C]]);
    repeat constructor; done.
Defined.

(** One frame per access unit, for any list of NALUs at all: every access
    unit the split returns is non-empty and contains slices of one picture at
    most (no slice after its first opens a new picture), nothing is invented
    and the order is kept. *)
Theorem split_one_frame_per_au h ns :
  Forall (fun n => n <> []) ns ->
  exists aus, splitAUsByFrame ns h = Some aus /\
    Forall (fun au => au <> [] /\ one_frame h au) aus /\ sublist (concat aus) ns.
Proof.
  intros H. destruct (splitAUsByFrame_Some ns h) as [aus E]. exists aus. split; [done|].
  by apply (split_sound h ns).
Qed.

Lemma split_one_frame_per_au_witness : exists aus,
  splitAUsByFrame [[0x65; 0x88]; [0x06]; [0x65; 0x08]] false = Some aus /\
  Forall (fun au => au <> [] /\ one_frame false au) aus /\
  sublist (concat aus) [[0x65; 0x88]; [0x06]; [0x65; 0x08]].
Proof. apply split_one_frame_per_au. repeat constructor; done. Defined.

(** A NALU between two slices of the same picture is lost: the slice that
    follows clears the pending list without attaching it. *)
Theorem split_drops_inner_nalu h a sei b :
  a <> [] -> vcl h a = true -> non_vcl h sei ->
  b <> [] -> vcl h b = true -> starts h b = false ->
  splitAUsByFrame [a; sei; b] h = Some [[a; b]].
Proof.
  intros Ha Hva Hs Hb Hvb Hst. cbn [splitAUsByFrame split_loop].
  rewrite split_slice by done. cbn [mbind option_bind sp_seenVCL andb sp_out sp_cur is_nil sp_trailing app].
  rewrite split_trailing by done. simpl. rewrite split_slice by done. simpl. by rewrite Hst.
Qed.
