(* ===== verification/EsDemux.v ===== *)
(** RTP payloads of bare H.264/H.265 elementary streams
    ([platform/esdemux.go]): single NAL units, aggregation packets and
    fragmentation units. The error texts become constructors. *)

From S2P Require Import Prelude NalUtil.
Open Scope Z_scope.

Inductive es_error :=
  | ErrForbiddenZero
  | ErrUnsupportedH264 (t : Z)
  | ErrUnsupportedH265 (t : Z)
  | ErrAggTruncated
  | ErrAggOverrun (size : nat)
  | ErrFUHeader
  | ErrFUBothSE
  | ErrFUNoStart
  | ErrShortH265.

Record ESDemuxer := mkESDemuxer {
  h265 : bool;
  nalus : list (list Z);
  fu : list Z;
  inFU : bool;
}.

#[export] Instance eta_ESDemuxer : Eta ESDemuxer := fun d =>
  mkESDemuxer (h265 d) (nalus d) (fu d) (inFU d).

Definition NewESDemuxer : ESDemuxer := mkESDemuxer false [] [] false.

Definition es_Codec (d : ESDemuxer) : string := if h265 d then "h265" else "h264".

Definition TakeAU (d : ESDemuxer) : list (list Z) * ESDemuxer := (nalus d, d <| nalus := [] |>).

Definition DropPartial (d : ESDemuxer) : ESDemuxer :=
  d <| fu := [] |> <| inFU := false |> <| nalus := [] |>.

Definition looksLikeESPacket (p : list Z) : bool :=
  match p with
  | [] => false
  | p0 :: rest =>
      if negb (Z.land p0 0x80 =? 0) then false
      else if (p0 =? 0) && match rest with p1 :: _ => p1 =? 0 | [] => false end then false
      else
        let h264t := h264_type p0 in
        if ((1 <=? h264t) && (h264t <=? 23)) || (h264t =? 24) || (h264t =? 28) then true
        else let h265t := h265_type p0 in (32 <=? h265t) && (h265t <=? 49)
  end.

(** A method that may fail after having changed the receiver: the new state
    comes back with the error too. *)
Definition es_result := (option es_error * ESDemuxer)%type.

Definition add_nalu (n : list Z) (d : ESDemuxer) : ESDemuxer := d <| nalus := nalus d ++ [n] |>.

(** The [u16 size | NALU] entries shared by STAP-A and AP, from offset [off]. *)
Fixpoint feed_agg (p : list Z) (off fuel : nat) (d : ESDemuxer) : option es_result :=
  if Nat.ltb off (length p) then
    match fuel with
    | O => None
    | S fuel' =>
        if Nat.ltb (length p) (off + 2) then Some (Some ErrAggTruncated, d) else
        hi ← index p off;
        lo ← index p (off + 1);
        let size := Z.to_nat (be16 hi lo) in
        let off := (off + 2)%nat in
        if (Nat.leb size 0 || Nat.ltb (length p) (off + size))%bool
        then Some (Some (ErrAggOverrun size), d) else
        n ← slice p off (off + size);
        feed_agg p (off + size) fuel' (add_nalu n d)
    end
  else Some (None, d).

Definition feedSTAPA (p : list Z) (d : ESDemuxer) : option es_result := feed_agg p 1 (length p) d.

(** The fragment switch shared by FU-A and FU: [hdr] is the reconstructed NAL
    header, [body] the fragment. *)
Definition feed_fragment (fuHdr : Z) (hdr body : list Z) (d : ESDemuxer) : es_result :=
  let start := negb (Z.land fuHdr 0x80 =? 0) in
  let end_ := negb (Z.land fuHdr 0x40 =? 0) in
  let finish d := if end_ && inFU d
                  then d <| nalus := nalus d ++ [fu d] |> <| fu := [] |> <| inFU := false |> else d in
  if start then
    if end_ then (Some ErrFUBothSE, d)
    else (None, finish (d <| fu := hdr ++ body |> <| inFU := true |>))
  else if inFU d then (None, finish (d <| fu := fu d ++ body |>))
  else (Some ErrFUNoStart, d).

Definition feedFUA (p : list Z) (d : ESDemuxer) : option es_result :=
  if Nat.ltb (length p) 2 then Some (Some ErrFUHeader, d) else
  p0 ← index p 0;
  fuHdr ← index p 1;
  body ← slice_from p 2;
  Some (feed_fragment fuHdr [Z.lor (Z.land p0 0xE0) (Z.land fuHdr 0x1F)] body d).

Definition tryLatchH265 (p : list Z) (d : ESDemuxer) : option (bool * ESDemuxer) :=
  p0 ← index p 0;
  let t := h265_type p0 in
  Some (if (32 <=? t) && (t <=? 49) then (true, d <| h265 := true |>) else (false, d)).

Definition feedH265 (p : list Z) (d : ESDemuxer) : option es_result :=
  if Nat.ltb (length p) 2 then Some (Some ErrShortH265, d) else
  p0 ← index p 0;
  let t := h265_type p0 in
  if t <? 48 then Some (None, add_nalu p d)
  else if t =? 48 then feed_agg p 2 (length p) d
  else if t =? 49 then
    if Nat.ltb (length p) 3 then Some (Some ErrFUHeader, d) else
    p1 ← index p 1;
    fuHdr ← index p 2;
    body ← slice_from p 3;
    let type6 := Z.land fuHdr 0x3F in
    Some (feed_fragment fuHdr [Z.lor (Z.land p0 0x81) (u8 (Z.shiftl type6 1)); p1] body d)
  else Some (Some (ErrUnsupportedH265 t), d).

Definition FeedPacket (p : list Z) (d : ESDemuxer) : option es_result :=
  match p with
  | [] => Some (None, d)
  | p0 :: _ =>
      if negb (Z.land p0 0x80 =? 0) then Some (Some ErrForbiddenZero, d) else
      if negb (h265 d) then
        let t := h264_type p0 in
        if (1 <=? t) && (t <=? 23) then Some (None, add_nalu p d)
        else if t =? 24 then feedSTAPA p d
        else if t =? 28 then feedFUA p d
        else
          '(latched, d1) ← tryLatchH265 p d;
          if negb latched then Some (Some (ErrUnsupportedH264 t), d1) else feedH265 p d1
      else feedH265 p d
  end.

(** ** A sender's packets *)

Fixpoint feedAll (ps : list (list Z)) (d : ESDemuxer) : option ESDemuxer :=
  match ps with
  | [] => Some d
  | p :: rest => '(_, d') ← FeedPacket p d; feedAll rest d'
  end.

(** How a packetizer may send NALUs: alone, several in one aggregation packet (under
    a payload header of the sender's choice), or one NALU (its header and the pieces
    of its payload) in fragments. *)
Inductive packing :=
  | Single (n : list Z)
  | Aggregate (hdr : list Z) (ns : list (list Z))
  | Fragments (hdr first : list Z) (middle : list (list Z)) (last_ : list Z).

Definition packed (p : packing) : list (list Z) :=
  match p with
  | Single n => [n]
  | Aggregate _ ns => ns
  | Fragments hdr first middle last_ => [hdr ++ first ++ concat middle ++ last_]
  end.

(** Each NALU of an aggregate behind its 16-bit size. *)
Definition agg (ns : list (list Z)) : list Z :=
  concat (map (fun n => put16 (Z.of_nat (length n)) ++ n) ns).

Definition fu_bits (s e : bool) : Z := Z.lor (if s then 0x80 else 0) (if e then 0x40 else 0).

(** RFC 6184 5.8 (FU-A) and RFC 7798 4.4.3 (FU): payload header, FU header, fragment. *)
Definition frag_packet (isH265 : bool) (hdr : list Z) (s e : bool) (frag : list Z) : list Z :=
  match isH265, hdr with
  | false, [h] => [Z.lor (Z.land h 0xE0) 28; Z.lor (fu_bits s e) (Z.land h 0x1F)] ++ frag
  | true, [h0; h1] =>
      [Z.lor (Z.land h0 0x81) (Z.shiftl 49 1); h1; Z.lor (fu_bits s e) (h265_type h0)] ++ frag
  | _, _ => []
  end.

Definition packets (isH265 : bool) (p : packing) : list (list Z) :=
  match p with
  | Single n => [n]
  | Aggregate hdr ns => [hdr ++ agg ns]
  | Fragments hdr first middle last_ =>
      frag_packet isH265 hdr true false first ::
      map (frag_packet isH265 hdr false false) middle ++ [frag_packet isH265 hdr false true last_]
  end.

Definition agg_ok (n : list Z) : Prop := n <> [] /\ Z.of_nat (length n) < 65536.

(** What the RFCs ask of a packetizer: no forbidden bit, the type of the packet in the
    header, and any NRI (RFC 6184 5.7: that of the NALUs) or layer and temporal ID
    (RFC 7798 4.4.2) beside it. *)

Definition packing_ok (isH265 : bool) (p : packing) : Prop :=
  match p with
  | Single n =>
      match isH265, n with
      | false, b :: _ => is_byte b /\ b < 128 /\ 1 <= h264_type b <= 23
      | true, b :: _ :: _ => is_byte b /\ b < 128 /\ h265_type b < 48
      | _, _ => False
      end
  | Aggregate hdr ns =>
      Forall agg_ok ns /\
      match isH265, hdr with
      | false, [h] => is_byte h /\ h < 128 /\ h264_type h = 24
      | true, [h0; _] => is_byte h0 /\ h0 < 128 /\ h265_type h0 = 48
      | _, _ => False
      end
  | Fragments hdr _ _ _ =>
      match isH265, hdr with
      | false, [h] => is_byte h /\ h < 128
      | true, [h0; _] => is_byte h0 /\ h0 < 128
      | _, _ => False
      end
  end.

(** ** Lemmas *)

Lemma feed_agg_Some p off fuel d :
  (length p <= off + fuel)%nat -> exists r, feed_agg p off fuel d = Some r.
Proof.
  revert off d. induction fuel as [|fuel IH]; intros off d Hf; cbn [feed_agg];
    destruct (Nat.ltb_spec off (length p)); eauto; try lia.
  destruct (Nat.ltb_spec (length p) (off + 2)); [eauto|].
  destruct (index_lt p off) as [hi ->]; [lia|]. destruct (index_lt p (off + 1)) as [lo ->]; [lia|].
  cbn [mbind option_bind]. set (size := Z.to_nat _).
  destruct (Nat.leb_spec size 0); [simpl; eauto|].
  destruct (Nat.ltb_spec (length p) (off + 2 + size)); [simpl; eauto|]. cbn [orb].
  rewrite slice_ok by lia. cbn [mbind option_bind]. apply IH. lia.
Qed.

Lemma feedH265_Some p d : exists r, feedH265 p d = Some r.
Proof.
  unfold feedH265. destruct (Nat.ltb_spec (length p) 2); [eauto|].
  destruct (index_lt p 0) as [p0 ->]; [lia|]. cbn [mbind option_bind].
  destruct (_ <? 48); [eauto|]. destruct (_ =? 48); [apply feed_agg_Some; lia|].
  destruct (_ =? 49); [|eauto]. destruct (Nat.ltb_spec (length p) 3); [eauto|].
  destruct (index_lt p 1) as [p1 ->]; [lia|]. destruct (index_lt p 2) as [p2 ->]; [lia|].
  cbn [mbind option_bind]. rewrite slice_from_ok by lia. simpl. eauto.
Qed.

Lemma FeedPacket_Some p d : exists r, FeedPacket p d = Some r.
Proof.
  unfold FeedPacket. destruct p as [|p0 p]; [eauto|]. destruct (negb _); [eauto|].
  destruct (negb (h265 d)); [|apply feedH265_Some].
  destruct (_ && _); [eauto|]. destruct (_ =? 24); [apply feed_agg_Some; lia|].
  destruct (_ =? 28).
  - unfold feedFUA. destruct (Nat.ltb_spec (length (p0 :: p)) 2); [eauto|].
    destruct (index_lt (p0 :: p) 0) as [x ->]; [lia|]. destruct (index_lt (p0 :: p) 1) as [y ->]; [lia|].
    cbn [mbind option_bind]. rewrite slice_from_ok by lia. simpl. eauto.
  - unfold tryLatchH265. cbn [index lookup list_lookup mbind option_bind].
    destruct (_ && _); simpl; [apply feedH265_Some|eauto].
Qed.

(** The aggregation entries are read back one by one. *)
Lemma feed_agg_agg pre ns fuel d :
  Forall agg_ok ns -> (length (agg ns) <= fuel)%nat ->
  feed_agg (pre ++ agg ns) (length pre) fuel d = Some (None, d <| nalus := nalus d ++ ns |>).
Proof.
  intros H. revert pre fuel d. induction H as [|n ns [Hn Hl] _ IH]; intros pre fuel d Hf.
  - unfold agg. simpl. rewrite app_nil_r.
    destruct fuel; cbn [feed_agg]; rewrite (proj2 (Nat.ltb_ge _ _)) by lia;
      destruct d; simpl; by rewrite app_nil_r.
  - assert (Hn0 : (0 < length n)%nat) by (destruct n; [done|simpl; lia]).
    change (agg (n :: ns)) with ((put16 (Z.of_nat (length n)) ++ n) ++ agg ns) in Hf |- *.
    rewrite !length_app in Hf. simpl in Hf.
    set (hi := u8 (Z.shiftr (Z.of_nat (length n)) 8)) in *. set (lo := u8 (Z.of_nat (length n))) in *.
    assert (E : pre ++ (put16 (Z.of_nat (length n)) ++ n) ++ agg ns = (pre ++ [hi; lo] ++ n) ++ agg ns)
      by (by rewrite <- !app_assoc).
    destruct fuel as [|fuel]; [lia|]. cbn [feed_agg].
    set (p := pre ++ (put16 (Z.of_nat (length n)) ++ n) ++ agg ns).
    assert (Hp : length p = (length pre + 2 + length n + length (agg ns))%nat).
    { unfold p. rewrite !length_app. simpl. lia. }
    rewrite (proj2 (Nat.ltb_lt _ _)) by lia. rewrite (proj2 (Nat.ltb_ge _ _)) by lia.
    assert (H0 : index p (length pre) = Some hi).
    { unfold index, p. rewrite lookup_app_r, Nat.sub_diag by lia. done. }
    assert (H1 : index p (length pre + 1) = Some lo).
    { unfold index, p. rewrite lookup_app_r, Nat.add_sub' by lia. done. }
    rewrite H0, H1. cbn [mbind option_bind].
    assert (Hs : Z.to_nat (be16 hi lo) = length n) by (unfold hi, lo; rewrite be16_put16 by lia; lia).
    rewrite Hs. rewrite (proj2 (Nat.leb_gt _ _)) by lia. rewrite (proj2 (Nat.ltb_ge _ _)) by lia.
    cbn [orb].
    assert (Hsl : slice p (length pre + 2) (length pre + 2 + length n) = Some n).
    { unfold p. replace (length pre + 2)%nat with (length (pre ++ [hi; lo])) by (by rewrite length_app).
      replace (pre ++ (put16 (Z.of_nat (length n)) ++ n) ++ agg ns) with ((pre ++ [hi; lo]) ++ n ++ agg ns)
        by (by rewrite <- !app_assoc). apply slice_app_mid. }
    rewrite Hsl. cbn [mbind option_bind]. unfold p. rewrite E.
    replace (length pre + 2 + length n)%nat with (length (pre ++ [hi; lo] ++ n))
      by (rewrite !length_app; simpl; lia).
    rewrite IH by lia. unfold add_nalu. simpl. by rewrite <- app_assoc.
Qed.

Lemma feedAll_app a b d : feedAll (a ++ b) d = d' ← feedAll a d; feedAll b d'.
Proof.
  revert d. induction a as [|p a IH]; intros d; [done|]. cbn [app feedAll].
  destruct (FeedPacket p d) as [[e d']|]; [apply IH|done].
Qed.

Lemma top_bit_clear b : is_byte b -> b < 128 -> Z.land b 0x80 = 0.
Proof.
  intros Hb Hlt.
  pose proof (forall_byte (fun b => negb (b <? 128) || (Z.land b 0x80 =? 0)) ltac:(vm_compute; reflexivity) b Hb) as F.
  apply orb_true_iff in F as [F|F]; [apply negb_true_iff, Z.ltb_ge in F; lia|by apply Z.eqb_eq].
Qed.

(** The header fields of fragments, checked over all bytes. *)
Lemma fua_bytes h (s e : bool) : is_byte h -> h < 128 ->
  let b0 := Z.lor (Z.land h 0xE0) 28 in let b1 := Z.lor (fu_bits s e) (Z.land h 0x1F) in
  Z.land b0 0x80 = 0 /\ h264_type b0 = 28 /\ Z.lor (Z.land b0 0xE0) (Z.land b1 0x1F) = h /\
  negb (Z.land b1 0x80 =? 0) = s /\ negb (Z.land b1 0x40 =? 0) = e.
Proof.
  intros Hb Hh b0 b1.
  pose proof (forall_byte (fun h => negb (h <? 128) ||
    (let b0 := Z.lor (Z.land h 0xE0) 28 in let b1 := Z.lor (fu_bits s e) (Z.land h 0x1F) in
     (Z.land b0 0x80 =? 0) && (h264_type b0 =? 28) && (Z.lor (Z.land b0 0xE0) (Z.land b1 0x1F) =? h)
     && eqb (negb (Z.land b1 0x80 =? 0)) s && eqb (negb (Z.land b1 0x40 =? 0)) e))) as F.
  specialize (F ltac:(destruct s, e; vm_compute; reflexivity) h Hb). cbv beta zeta in F.
  fold b0 b1 in F. rewrite orb_true_iff, !andb_true_iff, !Z.eqb_eq, !eqb_true_iff in F.
  destruct F as [F|F]; [apply negb_true_iff, Z.ltb_ge in F; lia|]. tauto.
Qed.

Lemma fu_bytes h (s e : bool) : is_byte h -> h < 128 ->
  let b0 := Z.lor (Z.land h 0x81) (Z.shiftl 49 1) in let b2 := Z.lor (fu_bits s e) (h265_type h) in
  Z.land b0 0x80 = 0 /\ h265_type b0 = 49 /\
  Z.lor (Z.land b0 0x81) (u8 (Z.shiftl (Z.land b2 0x3F) 1)) = h /\
  negb (Z.land b2 0x80 =? 0) = s /\ negb (Z.land b2 0x40 =? 0) = e.
Proof.
  intros Hb Hh b0 b2.
  pose proof (forall_byte (fun h => negb (h <? 128) ||
    (let b0 := Z.lor (Z.land h 0x81) (Z.shiftl 49 1) in let b2 := Z.lor (fu_bits s e) (h265_type h) in
     (Z.land b0 0x80 =? 0) && (h265_type b0 =? 49) &&
     (Z.lor (Z.land b0 0x81) (u8 (Z.shiftl (Z.land b2 0x3F) 1)) =? h)
     && eqb (negb (Z.land b2 0x80 =? 0)) s && eqb (negb (Z.land b2 0x40 =? 0)) e))) as F.
  specialize (F ltac:(destruct s, e; vm_compute; reflexivity) h Hb). cbv beta zeta in F.
  fold b0 b2 in F. rewrite orb_true_iff, !andb_true_iff, !Z.eqb_eq, !eqb_true_iff in F.
  destruct F as [F|F]; [apply negb_true_iff, Z.ltb_ge in F; lia|]. tauto.
Qed.

(** One fragment, for either codec. *)
Lemma FeedPacket_frag isH265 hdr first middle last_ s e frag d :
  packing_ok isH265 (Fragments hdr first middle last_) -> h265 d = isH265 ->
  exists fuHdr, FeedPacket (frag_packet isH265 hdr s e frag) d = Some (feed_fragment fuHdr hdr frag d) /\
    negb (Z.land fuHdr 0x80 =? 0) = s /\ negb (Z.land fuHdr 0x40 =? 0) = e.
Proof.
  intros Hok Hd. destruct isH265.
  - destruct hdr as [|h0 [|h1 [|? ?]]]; try done. destruct Hok as [Hb Hh].
    destruct (fu_bytes h0 s e Hb Hh) as (F1 & F2 & F3 & F4 & F5).
    eexists. split; [|split; [exact F4|exact F5]].
    unfold FeedPacket, frag_packet. cbn [app]. rewrite F1, Hd. cbn [Z.eqb negb].
    unfold feedH265. cbn [length Nat.ltb Nat.leb]. unfold index. cbn [lookup list_lookup mbind option_bind].
    rewrite F2. cbn [Z.ltb Z.compare Pos.compare Pos.compare_cont Z.eqb Pos.eqb].
    rewrite slice_from_ok by (simpl; lia). cbn [mbind option_bind drop]. by rewrite F3.
  - destruct hdr as [|h0 [|? ?]]; try done. destruct Hok as [Hb Hh].
    destruct (fua_bytes h0 s e Hb Hh) as (F1 & F2 & F3 & F4 & F5).
    eexists. split; [|split; [exact F4|exact F5]].
    unfold FeedPacket, frag_packet. cbn [app]. rewrite F1, Hd. cbn [Z.eqb negb]. rewrite F2.
    change ((1 <=? 28) && (28 <=? 23)) with false. change (28 =? 24) with false. change (28 =? 28) with true.
    cbv iota. unfold feedFUA. cbn [length Nat.ltb Nat.leb]. unfold index.
    cbn [lookup list_lookup mbind option_bind].
    rewrite slice_from_ok by (simpl; lia). cbn [mbind option_bind drop]. by rewrite F3.
Qed.

Lemma feedAll_middle isH265 hdr first middle last_ ms d :
  packing_ok isH265 (Fragments hdr first middle last_) -> h265 d = isH265 -> inFU d = true ->
  feedAll (map (frag_packet isH265 hdr false false) ms) d = Some (d <| fu := fu d ++ concat ms |>).
Proof.
  intros Hok. revert d. induction ms as [|m ms IH]; intros d Hd Hi; cbn [map feedAll].
  - destruct d; simpl. by rewrite app_nil_r.
  - destruct (FeedPacket_frag isH265 hdr first middle last_ false false m d Hok Hd) as (fh & -> & F1 & F2).
    unfold feed_fragment. rewrite F1, F2, Hi. cbn [andb mbind option_bind].
    rewrite IH by done. simpl. by rewrite <- app_assoc.
Qed.

Definition deliver (ns : list (list Z)) (d : ESDemuxer) : ESDemuxer :=
  d <| nalus := nalus d ++ ns |> <| fu := [] |> <| inFU := false |>.

Lemma feedAll_packets isH265 p d :
  packing_ok isH265 p -> h265 d = isH265 -> fu d = [] -> inFU d = false ->
  feedAll (packets isH265 p) d = Some (deliver (packed p) d).
Proof.
  intros Hok Hd Hfu Hin. destruct p as [n|hdr ns|hdr first middle last_].
  - assert (E : FeedPacket n d = Some (None, add_nalu n d)).
    { unfold FeedPacket. destruct isH265, n as [|b n]; simpl in Hok; try done.
      - destruct n as [|b1 n]; [done|]. destruct Hok as (Hb & Hlt & Ht).
        rewrite top_bit_clear, Hd by done. cbn [negb Z.eqb]. unfold feedH265. cbn [length Nat.ltb Nat.leb].
        unfold index. cbn [lookup list_lookup mbind option_bind]. by rewrite (proj2 (Z.ltb_lt _ _)).
      - destruct Hok as (Hb & Hlt & Ht).
        rewrite top_bit_clear, Hd by done. cbn [negb Z.eqb].
        by rewrite (proj2 (Z.leb_le 1 _)), (proj2 (Z.leb_le _ 23)) by lia. }
    cbn [packets feedAll]. rewrite E. cbn [mbind option_bind]. destruct d; simpl in *. by subst.
  - assert (E : FeedPacket (hdr ++ agg ns) d = Some (None, d <| nalus := nalus d ++ ns |>)).
    { destruct Hok as [Ha Hok].
      destruct isH265, hdr as [|b [|b1 [|? ?]]]; try done; destruct Hok as (Hb & Hlt & Ht);
        unfold FeedPacket; cbn [app]; rewrite Hd, top_bit_clear by done; cbn [negb Z.eqb].
      - unfold feedH265. cbn [length Nat.ltb Nat.leb]. unfold index. cbn [lookup list_lookup mbind option_bind].
        rewrite Ht. change (48 <? 48) with false. change (48 =? 48) with true. cbv iota.
        apply (feed_agg_agg [b; b1]); [done|simpl; lia].
      - rewrite Ht. change ((1 <=? 24) && (24 <=? 23)) with false. change (24 =? 24) with true. cbv iota.
        apply (feed_agg_agg [b]); [done|simpl; lia]. }
    cbn [packets feedAll]. rewrite E. cbn [mbind option_bind]. destruct d; simpl in *. by subst.
  - cbn [packets packed feedAll].
    destruct (FeedPacket_frag isH265 hdr first middle last_ true false first d Hok Hd) as (fh & -> & F1 & F2).
    unfold feed_fragment. rewrite F1, F2. cbn [andb mbind option_bind]. rewrite feedAll_app.
    rewrite (feedAll_middle isH265 hdr first middle last_) by done. cbn [mbind option_bind feedAll].
    set (d1 := d <| fu := _ |> <| inFU := true |> <| fu := _ |>).
    destruct (FeedPacket_frag isH265 hdr first middle last_ false true last_ d1 Hok Hd) as (fh' & -> & G1 & G2).
    unfold feed_fragment. rewrite G1, G2. unfold d1. simpl. unfold deliver.
    destruct d; simpl in *. by rewrite <- !app_assoc.
Qed.

Lemma feedAll_plan isH265 ps d :
  Forall (packing_ok isH265) ps -> h265 d = isH265 -> fu d = [] -> inFU d = false ->
  feedAll (concat (map (packets isH265) ps)) d = Some (deliver (concat (map packed ps)) d).
Proof.
  intros H. revert d. induction H as [|p ps Hp _ IH]; intros d Hd Hfu Hin.
  - cbn. unfold deliver. destruct d; simpl in *. subst. by rewrite app_nil_r.
  - cbn [map concat]. rewrite feedAll_app, feedAll_packets by done. cbn [mbind option_bind].
    rewrite IH by done. unfold deliver. simpl. by rewrite <- app_assoc.
Qed.

(** NALUs already collected are never touched. *)
Definition grows (d d' : ESDemuxer) : Prop := exists more, nalus d' = nalus d ++ more.

Lemma grows_same d d' : nalus d' = nalus d -> grows d d'.
Proof. exists []. by rewrite app_nil_r. Qed.

#[local] Hint Resolve grows_same : go.

Lemma feed_agg_grows p off fuel d e d' : feed_agg p off fuel d = Some (e, d') -> grows d d'.
Proof.
  revert off d. induction fuel as [|fuel IH]; intros off d E; cbn [feed_agg] in E.
  - destruct (Nat.ltb _ _); simplify_eq; auto with go.
  - destruct (Nat.ltb _ _); [|simplify_eq; auto with go].
    destruct (Nat.ltb _ _); [simplify_eq; auto with go|].
    destruct (index p off); [|done]. destruct (index p (off + 1)); [|done]. cbn [mbind option_bind] in E.
    destruct (_ || _)%bool; [simplify_eq; auto with go|].
    destruct (slice _ _ _) as [n|]; [|done]. cbn [mbind option_bind] in E.
    apply IH in E as [more E]. exists ([n] ++ more). rewrite E. simpl. by rewrite <- app_assoc.
Qed.

Lemma feed_fragment_grows fh hdr body d : grows d (feed_fragment fh hdr body d).2.
Proof.
  unfold feed_fragment. destruct (inFU d) eqn:Ei;
    destruct (negb (Z.land fh 0x80 =? 0)), (negb (Z.land fh 0x40 =? 0)); simpl; rewrite ?Ei; simpl;
    auto with go; by eexists.
Qed.

Lemma feedH265_grows p d e d' : feedH265 p d = Some (e, d') -> grows d d'.
Proof.
  intros E. unfold feedH265 in E. destruct (Nat.ltb _ _); [simplify_eq; auto with go|].
  destruct (index p 0); [|done]. cbn [mbind option_bind] in E.
  destruct (_ <? 48); [simplify_eq; by eexists|]. destruct (_ =? 48); [by eapply feed_agg_grows|].
  destruct (_ =? 49); [|simplify_eq; auto with go].
  destruct (Nat.ltb _ _); [simplify_eq; auto with go|].
  destruct (index p 1); [|done]. destruct (index p 2) as [fh|]; [|done].
  destruct (slice_from p 3) as [body|]; [|done]. cbn [mbind option_bind] in E. injection E as E.
  pose proof (feed_fragment_grows fh [Z.lor (Z.land z 129) (u8 (Z.shiftl (Z.land fh 63) 1)); z0] body d) as G.
  by rewrite E in G.
Qed.

Lemma FeedPacket_grows p d e d' : FeedPacket p d = Some (e, d') -> grows d d'.
Proof.
  intros E. unfold FeedPacket in E. destruct p as [|p0 p]; [simplify_eq; auto with go|].
  destruct (negb _); [simplify_eq; auto with go|].
  destruct (negb (h265 d)); [|by eapply feedH265_grows].
  destruct (_ && _); [simplify_eq; by eexists|]. destruct (_ =? 24); [by eapply feed_agg_grows|].
  destruct (_ =? 28).
  - unfold feedFUA in E. destruct (Nat.ltb _ _); [simplify_eq; auto with go|].
    cbn [index lookup list_lookup mbind option_bind] in E. destruct (p !! 0%nat) as [fh|]; [|done].
    cbn [mbind option_bind] in E.
    destruct (slice_from _ _) as [body|]; [|done]. cbn [mbind option_bind] in E. injection E as E.
    pose proof (feed_fragment_grows fh [Z.lor (Z.land p0 224) (Z.land fh 31)] body d) as G.
    by rewrite E in G.
  - unfold tryLatchH265 in E. cbn [index lookup list_lookup mbind option_bind] in E.
    destruct (_ && _); cbn in E; [apply feedH265_grows in E; exact E|simplify_eq; auto with go].
Qed.

(** ** Properties *)

(** C32: Depacketization inverts packetization: whatever mix of single, aggregated
    and fragmented packets a conforming sender uses (RFC 6184 / RFC 7798: any fragment
    sizes, any importance in the header of an aggregate), the NALUs collected until the marker are the sender's
    NALUs in order, for a demuxer on the sender's codec with no fragment
    pending; and [TakeAU] hands them over exactly once. *)
Theorem es_roundtrip isH265 ps d :
  Forall (packing_ok isH265) ps -> h265 d = isH265 -> fu d = [] -> inFU d = false -> nalus d = [] ->
  exists d', feedAll (concat (map (packets isH265) ps)) d = Some d' /\
    TakeAU d' = (concat (map packed ps), d).
Proof.
  intros H Hd Hfu Hin Hn. exists (deliver (concat (map packed ps)) d).
  split; [by apply feedAll_plan|]. unfold TakeAU, deliver. destruct d; simpl in *. by subst.
Qed.

Lemma es_roundtrip_witness : exists d',
  feedAll (concat (map (packets false)
    [Aggregate [0x78] [[0x67; 1]; [0x68; 2]]; Fragments [0x65] [7; 8] [[9]; []] [10]; Single [0x41; 3]]))
    NewESDemuxer = Some d' /\
  TakeAU d' = ([[0x67; 1]; [0x68; 2]; [0x65; 7; 8; 9; 10]; [0x41; 3]], NewESDemuxer).
Proof.
  apply (es_roundtrip false [Aggregate [0x78] [[0x67; 1]; [0x68; 2]]; Fragments [0x65] [7; 8] [[9]; []] [10];
    Single [0x41; 3]]); repeat constructor; done.
Defined.

(** No payload makes the depacketizer panic or loop: on any bytes at all
    [FeedPacket] returns, and an error or a fragment leaves the NALUs collected
    so far in place as a prefix. *)
Theorem FeedPacket_total p d :
  exists e d' more, FeedPacket p d = Some (e, d') /\ nalus d' = nalus d ++ more.
Proof.
  destruct (FeedPacket_Some p d) as [[e d'] E]. exists e, d'.
  destruct (FeedPacket_grows p d e d' E) as [more Hm]. by exists more.
Qed.

(** An H.265 FU (type 49) or SPS (type 33) that opens a session is not
    recognised: its first byte reads as an H.264 type 1-23, and the fragment is
    stored as a NALU. *)
Theorem h265_fu_not_latched h0 h1 first :
  is_byte h0 -> h0 < 128 ->
  FeedPacket (frag_packet true [h0; h1] true false first) NewESDemuxer =
  Some (None, add_nalu (frag_packet true [h0; h1] true false first) NewESDemuxer).
Proof.
  intros Hb Hh. unfold FeedPacket, frag_packet. cbn [app h265 NewESDemuxer negb].
  pose proof (forall_byte (fun h => negb (h <? 128) ||
    (let b0 := Z.lor (Z.land h 0x81) (Z.shiftl 49 1) in
     (Z.land b0 0x80 =? 0) && ((1 <=? h264_type b0) && (h264_type b0 <=? 23))))
    ltac:(vm_compute; reflexivity) h0 Hb) as F.
  cbv beta zeta in F. apply orb_true_iff in F as [F|F]; [apply negb_true_iff, Z.ltb_ge in F; lia|].
  apply andb_true_iff in F as [F1 F2]. by rewrite F1, F2.
Qed.
