(* ===== verification/Receiver.v ===== *)
(** The RTP receiver ([platform/rtp.go]): SSRC isolation, the jitter buffer,
    payload classification, media security hooks and the emission of access
    units to the hub and the callbacks.

    The state is the [Receiver] struct under [jitterBufferMu]; the calls made to
    the hub and the callbacks are recorded in [out], in order. Wall-clock
    readings (the stall and keyframe watchdogs) and logging are not modelled.
    [None] is a panic or exhausted fuel, as everywhere. *)

From S2P Require Import Prelude NalUtil PesParse PsDemux AuSplit EsDemux.
Open Scope Z_scope.

(** The fields of pion's [rtp.Packet] that the receiver reads; [AUSig] is
    [Header.GetExtension(RTPExtAUSignature)], empty when absent. *)
Record Packet := mkPacket {
  SSRC : Z;
  SequenceNumber : Z;
  Timestamp : Z;
  Marker : bool;
  PayloadType : Z;
  Payload : list Z;
  AUSig : list Z;
}.

#[export] Instance eta_Packet : Eta Packet := fun p =>
  mkPacket (SSRC p) (SequenceNumber p) (Timestamp p) (Marker p) (PayloadType p) (Payload p) (AUSig p).

(** [RTPCryptor.Crypt] and [auVerifierFn] ([true] is a nil error). *)
Definition cryptor := list Z -> Z -> Z -> list Z.
Definition verifier := list Z -> Z -> Z -> list Z -> bool.

(** What the receiver calls. *)
Inductive event :=
  | HubBroadcast (ptsTicks : Z) (au : list (list Z)) (isIDR : bool)
  | AUCallback (au : list (list Z)) (ptsTicks : Z) (isIDR : bool)
  | NALUCallback (nalu : list Z) (ptsTicks : Z) (isIDR : bool)
  | AudioCallback (frame : AudioFrame)
  | AUVerifyFailed.

Inductive classification_t := ClassNone | ClassPS | ClassES | ClassBareAudio.

Record Receiver := mkReceiver {
  hub : bool;
  onAU : bool;
  onNALU : bool;
  onAudio : bool;
  onAUVerifyFailed : bool;
  jitterBuffer : gmap Z Packet;
  lastSeq : Z;
  baseSeq : Z;
  baseSeqSet : bool;
  maxJitterPackets : nat;
  packetsDroppedU : Z;
  payloadDecryptor : option (option cryptor);
  auVerifier : option (option verifier);
  auVerifyFailed : Z;
  demuxer : PSDemuxer;
  es : option ESDemuxer;
  esLatch : bool;
  classified : bool;
  expectDecryptor : bool;
  audioOnlyHint : bool;
  bareAudio : bool;
  rtpPacketsReceived : Z;
  rtpPacketsDropped : Z;
  auEmitted : Z;
  ptsClock : Z;
  audioEmitted : Z;
  classification : classification_t;
  ssrcLatched : bool;
  expectedSSRC : Z;
  foreignDrops : Z;
  foreignLogged : bool;
  out : list event;
}.

#[export] Instance eta_Receiver : Eta Receiver := fun r =>
  mkReceiver (hub r) (onAU r) (onNALU r) (onAudio r) (onAUVerifyFailed r) (jitterBuffer r)
    (lastSeq r) (baseSeq r) (baseSeqSet r) (maxJitterPackets r) (packetsDroppedU r)
    (payloadDecryptor r) (auVerifier r) (auVerifyFailed r) (demuxer r) (es r) (esLatch r)
    (classified r) (expectDecryptor r) (audioOnlyHint r) (bareAudio r) (rtpPacketsReceived r)
    (rtpPacketsDropped r) (auEmitted r) (ptsClock r) (audioEmitted r) (classification r)
    (ssrcLatched r) (expectedSSRC r) (foreignDrops r) (foreignLogged r) (out r).

(** [NewReceiver]; the callbacks are set by the caller before [Start]. *)
Definition NewReceiver (withHub withAU withNALU withAudio withFailHook : bool) : Receiver :=
  mkReceiver withHub withAU withNALU withAudio withFailHook ∅ 0 0 false 32 0 None None 0
    NewPSDemuxer None false false false false false 0 0 0 0 0 ClassNone false 0 0 false [].

Definition emit (e : event) (r : Receiver) : Receiver := r <| out := out r ++ [e] |>.

Definition SetAudioOnly (v : bool) (r : Receiver) : Receiver := r <| audioOnlyHint := v |>.

Definition SetExpectPayloadDecryptor (expect : bool) (r : Receiver) : Receiver :=
  r <| expectDecryptor := expect |>.

(** The stored pointer is never nil, whatever [fn] is. *)
Definition SetAUVerifier (fn : option verifier) (r : Receiver) : Receiver :=
  r <| auVerifier := Some fn |>.

Definition looksLikePSPacket (p : list Z) : bool :=
  match p with
  | a :: b :: c :: d :: _ => (a =? 0) && (b =? 0) && (c =? 1) && (0xB9 <=? d)
  | _ => false
  end.

Definition recv_Codec (r : Receiver) : string :=
  match es r with
  | Some e => if esLatch r then es_Codec e else demux_Codec (demuxer r)
  | None => demux_Codec (demuxer r)
  end.

(** ** Emission *)

Definition emitBareAudio (pkt : Packet) (r : Receiver) : Receiver :=
  let codec := if PayloadType pkt =? 0 then "g711u"%string else "g711a"%string in
  let frame := mkAudioFrame codec (Payload pkt) None (Timestamp pkt) (len (Payload pkt)) in
  let r1 := r <| audioEmitted := audioEmitted r + 1 |> in
  if onAudio r1 then emit (AudioCallback frame) r1 else r1.

(** The calls for one access unit: the hub, then the AU callback or, without
    one, the NALU callback. *)
Definition fan_out (au : list (list Z)) (ptsTicks : Z) (isIDR : bool) (r : Receiver) : Receiver :=
  let r2 := if hub r then emit (HubBroadcast ptsTicks au isIDR) r else r in
  if onAU r2 then emit (AUCallback au ptsTicks isIDR) r2
  else if onNALU r2 then fold_left (fun r n => emit (NALUCallback n ptsTicks isIDR) r) au r2
  else r2.

Definition emitAULocked (au : list (list Z)) (ptsTicks : Z) (r : Receiver) : Receiver :=
  let r1 := r <| auEmitted := auEmitted r + 1 |> in
  fan_out au ptsTicks (IsIDR au (bool_decide (recv_Codec r1 = "h265"%string))) r1.

Definition dispatchAudioLocked (r : Receiver) : Receiver :=
  let '(frames, d) := DrainAudio (demuxer r) in
  let r1 := r <| demuxer := d |> <| audioEmitted := audioEmitted r + Z.of_nat (length frames) |> in
  if onAudio r1 then fold_left (fun r f => emit (AudioCallback f) r) frames r1 else r1.

(** ** The jitter buffer *)

(** One comparison of the scan over the map. *)
Definition next_step (baseSeq : Z) (best : option Z) (seq : Z) : option Z :=
  if s16 (u16 (seq - baseSeq)) <=? 0 then best else
  match best with
  | None => Some seq
  | Some b => if s16 (u16 (seq - b)) <? 0 then Some seq else best
  end.

(** The map is ranged over in an unspecified order; [keys] is that order. *)
Definition nextBufferedSeq (baseSeq : Z) (keys : list Z) : option Z :=
  fold_left (next_step baseSeq) keys None.

Definition nextBufferedSeqLocked (r : Receiver) : option Z * Receiver :=
  match nextBufferedSeq (baseSeq r) (map fst (map_to_list (jitterBuffer r))) with
  | Some next => (Some next, r)
  | None => (None, r <| jitterBuffer := ∅ |>)
  end.

(** The first loop of [drainContiguousRunLocked], after [n] packets. *)
Fixpoint collect (jb : gmap Z Packet) (base : Z) (n fuel : nat)
  : option (list Packet * gmap Z Packet) :=
  let targetSeq := u16 (base + Z.of_nat n) in
  match jb !! targetSeq with
  | None => Some ([], jb)
  | Some pkt =>
      match fuel with
      | O => None
      | S fuel' =>
          '(pkts, jb') ← collect (delete targetSeq jb) base (S n) fuel';
          Some (pkt :: pkts, jb')
      end
  end.

(** [fuel] counts the recursive calls. *)
Fixpoint drainContiguousRunLocked (fuel : nat) (r : Receiver) : option (list Packet * Receiver) :=
  match fuel with
  | O => None
  | S fuel' =>
      '(packets, jb) ← collect (jitterBuffer r) (baseSeq r) 0 (size (jitterBuffer r));
      let r1 := r <| jitterBuffer := jb |> in
      match packets with
      | [] =>
          let '(next, r2) := nextBufferedSeqLocked r1 in
          match next with
          | None => Some ([], r2)
          | Some next =>
              drainContiguousRunLocked fuel'
                (r2 <| packetsDroppedU := packetsDroppedU r2 + 1 |>
                    <| demuxer := DropPartialVideo (demuxer r2) |>
                    <| es := DropPartial <$> es r2 |>
                    <| baseSeq := next |>)
          end
      | _ => Some (packets, r1)
      end
  end.

(** ** One run of packets *)

Definition last_packet (packets : list Packet) : option Packet := index packets (length packets - 1).

(** The signature check: [Some true] passes. A nil function stored by
    [SetAUVerifier] panics when called. *)
Definition check_sig (v : option verifier) (au : list Z) (pkt : Packet) : option bool :=
  match AUSig pkt with
  | [] => Some false
  | sig => f ← v; Some (f au (SSRC pkt) (Timestamp pkt) sig)
  end.

Definition verify_failed (r : Receiver) : Receiver :=
  let r1 := r <| auVerifyFailed := auVerifyFailed r + 1 |> in
  if onAUVerifyFailed r1 then emit AUVerifyFailed r1 else r1.

Definition classify (payload : list Z) (r : Receiver) : Receiver :=
  match payload with
  | [] => r
  | _ =>
      if classified r then r else
      let r1 := r <| classified := true |> in
      if audioOnlyHint r1 && negb (looksLikePSPacket payload)
      then r1 <| bareAudio := true |> <| classification := ClassBareAudio |>
      else if looksLikeESPacket payload
      then r1 <| es := Some NewESDemuxer |> <| esLatch := true |> <| classification := ClassES |>
      else r1 <| classification := ClassPS |>
  end.

Fixpoint run_bare (packets : list Packet) (r : Receiver) : option Receiver :=
  match packets with
  | [] => Some r
  | pkt :: rest =>
      match Payload pkt with
      | [] => run_bare rest r
      | payload =>
          match auVerifier r with
          | Some v =>
              ok ← check_sig v payload pkt;
              run_bare rest (if (ok : bool) then emitBareAudio pkt r else verify_failed r)
          | None => run_bare rest (emitBareAudio pkt r)
          end
      end
  end.

Fixpoint feed_es (packets : list Packet) (e : ESDemuxer) : option ESDemuxer :=
  match packets with
  | [] => Some e
  | pkt :: rest => '(_, e') ← FeedPacket (Payload pkt) e; feed_es rest e'
  end.

Definition payloads (packets : list Packet) : list Z := concat (map Payload packets).

Definition emit_all (subAUs : list (list (list Z))) (ptsTicks : Z) (r : Receiver) : Receiver :=
  fold_left (fun r au => emitAULocked au ptsTicks r) subAUs r.

(** [r.es] is dereferenced; nil panics. *)
Definition run_es (packets : list Packet) (r : Receiver) : option Receiver :=
  lastPkt ← last_packet packets;
  e0 ← es r;
  e1 ← feed_es packets e0;
  let r1 := r <| es := Some e1 |> in
  if negb (Marker lastPkt) then Some r1 else
  ok ← (match auVerifier r1 with
        | Some v => check_sig v (payloads packets) lastPkt
        | None => Some true
        end);
  if negb ok then Some ((verify_failed r1) <| es := Some (DropPartial e1) |>) else
  let '(nalus, e2) := TakeAU e1 in
  let r2 := r1 <| es := Some e2 |> in
  match nalus with
  | [] => Some r2
  | _ =>
      let r3 := r2 <| ptsClock := Timestamp lastPkt |> in
      subAUs ← splitAUsByFrame nalus (bool_decide (es_Codec e2 = "h265"%string));
      Some (emit_all subAUs (Timestamp lastPkt) r3)
  end.

Definition run_ps (packets : list Packet) (r : Receiver) : option Receiver :=
  lastPkt ← last_packet packets;
  match payloads packets with
  | [] => Some r
  | auPayload =>
      let ptsTicks := Timestamp lastPkt in
      let r1 := r <| ptsClock := ptsTicks |> in
      ok ← (match auVerifier r1 with
            | Some v => if Marker lastPkt then check_sig v auPayload lastPkt else Some true
            | None => Some true
            end);
      if negb ok then Some (verify_failed r1) else
      '(nalus, d) ← FeedAU auPayload ptsTicks (Marker lastPkt) (demuxer r1);
      let r2 := r1 <| demuxer := d |> in
      match nalus with
      | [] => Some (dispatchAudioLocked r2)
      | _ =>
          subAUs ← splitAUsByFrame nalus (bool_decide (demux_Codec d = "h265"%string));
          Some (dispatchAudioLocked (emit_all subAUs ptsTicks r2))
      end
  end.

Definition processRunLocked (packets : list Packet) (r : Receiver) : option Receiver :=
  first ← index packets 0;
  let r1 := r <| baseSeq := u16 (baseSeq r + Z.of_nat (length packets)) |> in
  let r2 := classify (Payload first) r1 in
  if bareAudio r2 then run_bare packets r2
  else if esLatch r2 then run_es packets r2
  else run_ps packets r2.

(** The slices [packets[start : i+1]] that end on a marker or on the last packet. *)
Fixpoint split_runs (cur packets : list Packet) : list (list Packet) :=
  match packets with
  | [] => []
  | pkt :: rest =>
      if Marker pkt || is_nil rest
      then (cur ++ [pkt]) :: split_runs [] rest
      else split_runs (cur ++ [pkt]) rest
  end.

Fixpoint process_runs (runs : list (list Packet)) (r : Receiver) : option Receiver :=
  match runs with
  | [] => Some r
  | run :: rest => r' ← processRunLocked run r; process_runs rest r'
  end.

Fixpoint emit_loop (fuel : nat) (r : Receiver) : option Receiver :=
  '(packets, r1) ← drainContiguousRunLocked 2 r;
  match packets with
  | [] => Some r1
  | _ =>
      match fuel with
      | O => None
      | S fuel' => r2 ← process_runs (split_runs [] packets) r1; emit_loop fuel' r2
      end
  end.

Definition emitAccessUnitsLocked (r : Receiver) : option Receiver :=
  emit_loop (size (jitterBuffer r)) r.

(** ** Entry points *)

Definition feedJitterBuffer (pkt : Packet) (r0 : Receiver) : option Receiver :=
  if ssrcLatched r0 && negb (SSRC pkt =? expectedSSRC r0) then
    Some (r0 <| foreignDrops := foreignDrops r0 + 1 |> <| foreignLogged := true |>
             <| rtpPacketsDropped := rtpPacketsDropped r0 + 1 |>)
  else
    let r1 := if ssrcLatched r0 then r0
              else r0 <| expectedSSRC := SSRC pkt |> <| ssrcLatched := true |> in
    let seq := SequenceNumber pkt in
    let r2 := if baseSeqSet r1 then r1
              else r1 <| baseSeq := seq |> <| baseSeqSet := true |> <| lastSeq := seq |> in
    let r3 := if s16 (u16 (seq - lastSeq r2)) <? -1000 then r2 <| baseSeq := seq |> else r2 in
    r4 ← (if Nat.leb (maxJitterPackets r3) (size (jitterBuffer r3))
          then emitAccessUnitsLocked r3 else Some r3);
    let r5 := r4 <| jitterBuffer := <[seq := pkt]> (jitterBuffer r4) |> <| lastSeq := seq |> in
    if expectDecryptor r5 && match payloadDecryptor r5 with None => true | Some _ => false end
    then Some r5
    else if Marker pkt then emitAccessUnitsLocked r5 else Some r5.

(** The part of [readLoop] behind [Unmarshal], for one datagram that parsed. *)
Definition receive (pkt : Packet) (r : Receiver) : option Receiver :=
  let r1 := r <| rtpPacketsReceived := rtpPacketsReceived r + 1 |> in
  payload ← (match payloadDecryptor r1 with
             | None => Some (Payload pkt)
             | Some c => f ← c; Some (f (Payload pkt) (SSRC pkt) (SequenceNumber pkt))
             end);
  feedJitterBuffer (pkt <| Payload := payload |>) r1.

(** A datagram: [unmarshal] is pion's [rtp.Packet.Unmarshal]. The callback of the first
    packet ([OnFirstRTP]), which no state of the receiver depends on, is left out. *)
Definition readLoop_step (unmarshal : list Z -> option Packet) (datagram : list Z) (r : Receiver)
  : option Receiver :=
  match datagram with
  | [] => Some r
  | _ =>
      match unmarshal datagram with
      | None => Some (r <| rtpPacketsReceived := rtpPacketsReceived r + 1 |>
                        <| rtpPacketsDropped := rtpPacketsDropped r + 1 |>)
      | Some pkt => receive pkt r
      end
  end.

Fixpoint readAll (unmarshal : list Z -> option Packet) (dgrams : list (list Z)) (r : Receiver)
  : option Receiver :=
  match dgrams with
  | [] => Some r
  | d :: rest => r' ← readLoop_step unmarshal d r; readAll unmarshal rest r'
  end.

Definition crypt_packet (c : cryptor) (pkt : Packet) : Packet :=
  match Payload pkt with
  | [] => pkt
  | _ => pkt <| Payload := c (Payload pkt) (SSRC pkt) (SequenceNumber pkt) |>
  end.

Definition SetPayloadDecryptor (c : option cryptor) (r0 : Receiver) : option Receiver :=
  let r := r0 <| payloadDecryptor := Some c |> in
  match c with
  | None => Some r
  | Some c =>
      let held := expectDecryptor r in
      let r1 := r <| expectDecryptor := false |> in
      if negb held && negb (classified r1) && bool_decide (size (jitterBuffer r1) = 0%nat)
      then Some r1
      else emitAccessUnitsLocked
             (r1 <| jitterBuffer := crypt_packet c <$> jitterBuffer r1 |>
                 <| classified := false |> <| esLatch := false |> <| bareAudio := false |>
                 <| es := None |> <| demuxer := NewPSDemuxer |>)
  end.

Definition flushJitterBuffer (r : Receiver) : option Receiver :=
  r1 ← (if bool_decide (size (jitterBuffer r) = 0%nat) then Some r else emitAccessUnitsLocked r);
  '(nalus, d) ← Flush (demuxer r1);
  let r2 := r1 <| demuxer := d |> in
  match nalus with
  | [] => Some r2
  | _ =>
      let isH265 := bool_decide (demux_Codec d = "h265"%string) in
      subAUs ← splitAUsByFrame nalus isH265;
      Some (dispatchAudioLocked 
              (fold_left (fun r au => fan_out au (ptsClock r2) (IsIDR au isH265) r) subAUs r2))
  end.

Fixpoint receiveAll (pkts : list Packet) (r : Receiver) : option Receiver :=
  match pkts with
  | [] => Some r
  | p :: rest => r' ← receive p r; receiveAll rest r'
  end.
