(* ===== verification/ReceiverSpec.v ===== *)
(** What the receiver of Receiver.v guarantees: totality and the buffer bound,
    the gap search, drains of contiguous runs, SSRC isolation, tolerance of
    reordering, loss recovery, and late arming of the payload decryptor. *)

From S2P Require Import Prelude NalUtil PesParse PsDemux AuSplit EsDemux Receiver.
Open Scope Z_scope.

(** ** Sequence numbers *)

Definition seq_ok (s : Z) : Prop := 0 <= s < 65536.

(** How far [seq] is ahead of [base], modulo 2^16. *)
Definition ahead (base seq : Z) : Z := (seq - base) mod 65536.

Lemma u16_range x : seq_ok (u16 x).
Proof. unfold seq_ok, u16. change (2 ^ 16) with 65536. apply Z.mod_pos_bound. lia. Qed.

Lemma s16_u16 x : s16 (u16 x) = if x mod 65536 <? 32768 then x mod 65536 else x mod 65536 - 65536.
Proof.
  unfold s16, u16. change (2 ^ 16) with 65536. change (2 ^ 15) with 32768.
  pose proof (Z.mod_pos_bound x 65536 ltac:(lia)). destruct (Z.ltb_spec (x mod 65536) 32768).
  - rewrite (Z.mod_small (x mod 65536 + 32768)) by lia. lia.
  - replace (x mod 65536 + 32768) with (x mod 65536 - 32768 + 1 * 65536) by lia.
    rewrite Z.mod_add by lia. rewrite Z.mod_small by lia. lia.
Qed.

(** A buffered packet counts as ahead within half the sequence space. *)
Definition is_ahead (base seq : Z) : bool := (0 <? ahead base seq) && (ahead base seq <? 32768).

Lemma next_step_spec base best seq :
  match best with Some b => is_ahead base b = true | None => True end ->
  next_step base best seq =
    if is_ahead base seq
    then match best with
         | Some b => if ahead base seq <? ahead base b then Some seq else Some b
         | None => Some seq
         end
    else best.
Proof.
  intros Hb. unfold next_step, is_ahead in *. rewrite s16_u16. fold (ahead base seq).
  pose proof (Z.mod_pos_bound (seq - base) 65536 ltac:(lia)) as R. fold (ahead base seq) in R.
  destruct (Z.ltb_spec (ahead base seq) 32768), (Z.ltb_spec 0 (ahead base seq)); cbn [andb];
    try (rewrite (proj2 (Z.leb_le _ 0)) by lia; done).
  rewrite (proj2 (Z.leb_gt _ 0)) by lia. destruct best as [b|]; [|done].
  rewrite s16_u16. pose proof (Z.mod_pos_bound (b - base) 65536 ltac:(lia)) as Rb. fold (ahead base b) in Rb.
  rewrite andb_true_iff, !Z.ltb_lt in Hb.
  assert (E : (seq - b) mod 65536 = (ahead base seq - ahead base b) mod 65536).
  { unfold ahead. rewrite <- Zminus_mod. f_equal. lia. }
  rewrite E. destruct (Z.ltb_spec (ahead base seq) (ahead base b)).
  - replace (ahead base seq - ahead base b) with (ahead base seq - ahead base b + 65536 + (-1) * 65536) by lia.
    rewrite Z.mod_add by lia. rewrite Z.mod_small by lia.
    rewrite (proj2 (Z.ltb_ge _ 32768)) by lia. by rewrite (proj2 (Z.ltb_lt _ 0)) by lia.
  - rewrite Z.mod_small by lia. rewrite (proj2 (Z.ltb_lt _ 32768)) by lia.
    by rewrite (proj2 (Z.ltb_ge _ 0)) by lia.
Qed.

(** The scan finds the buffered packet closest ahead, whatever the map order. *)
Lemma nextBufferedSeq_fold base keys best :
  match best with Some b => is_ahead base b = true | None => True end ->
  match fold_left (next_step base) keys best with
  | Some s => is_ahead base s = true /\ (In s keys \/ best = Some s) /\
              (forall k, In k keys -> is_ahead base k = true -> ahead base s <= ahead base k) /\
              (forall b, best = Some b -> ahead base s <= ahead base b)
  | None => best = None /\ forall k, In k keys -> is_ahead base k = false
  end.
Proof.
  revert best. induction keys as [|k keys IH]; intros best Hb; cbn [fold_left].
  - destruct best as [b|]; [|done]. split; [done|]. split; [by right|]. split; [done|]. by intros ? [= <-].
  - rewrite next_step_spec by done.
    set (b' := if is_ahead base k then _ else best).
    assert (Hb' : match b' with Some b => is_ahead base b = true | None => True end).
    { unfold b'. destruct (is_ahead base k) eqn:E; [|done]. destruct best; [|done]. by destruct (_ <? _). }
    specialize (IH b' Hb'). destruct (fold_left (next_step base) keys b') as [s|].
    + destruct IH as (H1 & H2 & H3 & H4). split; [done|].
      unfold b' in *. destruct (is_ahead base k) eqn:E.
      * destruct best as [b|].
        { destruct (Z.ltb_spec (ahead base k) (ahead base b)) as [Hlt|Hge].
          - pose proof (H4 k eq_refl). split; [|split].
            + destruct H2 as [H2|[= ->]]; left; [by right|by left].
            + intros k' [->|Hk'] Ha; [done|by apply H3].
            + intros b0 [= <-]. lia.
          - pose proof (H4 b eq_refl). split; [|split].
            + destruct H2 as [H2|[= ->]]; [left; by right|by right].
            + intros k' [->|Hk'] Ha; [lia|by apply H3].
            + by intros b0 [= <-]. }
        { pose proof (H4 k eq_refl). split; [|split; [|done]].
          - destruct H2 as [H2|[= ->]]; left; [by right|by left].
          - intros k' [->|Hk'] Ha; [done|by apply H3]. }
      * split; [|split; [|done]].
        { destruct H2 as [H2|H2]; [left; by right|by right]. }
        { intros k' [->|Hk'] Ha; [congruence|by apply H3]. }
    + destruct IH as [H1 H2]. unfold b' in H1. destruct (is_ahead base k) eqn:E.
      * destruct best; [by destruct (_ <? _)|done].
      * split; [done|]. intros k' [->|Hk']; [done|by apply H2].
Qed.

Lemma nextBufferedSeq_spec base keys :
  match nextBufferedSeq base keys with
  | Some s => is_ahead base s = true /\ In s keys /\
              forall k, In k keys -> is_ahead base k = true -> ahead base s <= ahead base k
  | None => forall k, In k keys -> is_ahead base k = false
  end.
Proof.
  pose proof (nextBufferedSeq_fold base keys None I) as H. unfold nextBufferedSeq.
  destruct (fold_left _ _ _); [|by destruct H]. by destruct H as (H1 & [H2|H2] & H3 & _).
Qed.

(** ** Draining *)

Definition buffer_ok (jb : gmap Z Packet) : Prop := forall k p, jb !! k = Some p -> seq_ok k.

Lemma collect_Some jb base n fuel :
  (size jb <= fuel)%nat -> exists pkts jb', collect jb base n fuel = Some (pkts, jb') /\
    (size jb' + length pkts = size jb)%nat /\ jb' ⊆ jb.
Proof.
  revert jb n. induction fuel as [|fuel IH]; intros jb n Hf; cbn [collect];
    destruct (jb !! u16 (base + Z.of_nat n)) as [p|] eqn:E.
  - assert (jb = ∅) as -> by (apply map_size_empty_inv; lia). done.
  - eexists _, _. split; [done|]. simpl. split; [lia|done].
  - assert (Hs : (size (delete (u16 (base + Z.of_nat n)) jb) = pred (size jb))%nat)
      by (rewrite map_size_delete, E; lia).
    assert (size jb <> 0%nat).
    { intros H0. apply map_size_empty_inv in H0. by subst jb. }
    destruct (IH (delete (u16 (base + Z.of_nat n)) jb) (S n)) as (pkts & jb' & -> & H1 & H2); [lia|].
    cbn [mbind option_bind]. eexists _, _. split; [done|]. simpl. split; [lia|].
    etrans; [done|]. apply delete_subseteq.
  - eexists _, _. split; [done|]. simpl. split; [lia|done].
Qed.

Lemma collect_nil jb base n fuel jb' :
  collect jb base n fuel = Some ([], jb') -> jb !! u16 (base + Z.of_nat n) = None /\ jb' = jb.
Proof.
  destruct fuel; cbn [collect]; destruct (jb !! u16 (base + Z.of_nat n)); try done.
  - by intros [= <-].
  - destruct (collect _ _ _ _) as [[? ?]|]; done.
  - by intros [= <-].
Qed.

Lemma buffer_ok_sub jb jb' : jb' ⊆ jb -> buffer_ok jb -> buffer_ok jb'.
Proof. intros Hs H k p E. eapply H. by eapply lookup_weaken. Qed.

Lemma keys_In {A} (jb : gmap Z A) k : In k (map fst (map_to_list jb)) <-> is_Some (jb !! k).
Proof.
  rewrite in_map_iff. split.
  - intros ([k' p] & <- & H). apply list_elem_of_In, elem_of_map_to_list in H. by eexists.
  - intros [p H]. exists (k, p). split; [done|]. by apply list_elem_of_In, elem_of_map_to_list.
Qed.

(** The drain takes what is contiguous, or skips one gap first; it returns
    nothing only when it leaves the buffer empty. *)
Definition after_gap (next : Z) (r : Receiver) : Receiver :=
  r <| packetsDroppedU := packetsDroppedU r + 1 |> <| demuxer := DropPartialVideo (demuxer r) |>
    <| es := DropPartial <$> es r |> <| baseSeq := next |>.

Definition with_buffer (jb : gmap Z Packet) (r : Receiver) : Receiver := r <| jitterBuffer := jb |>.

Lemma with_buffer_same r : with_buffer (jitterBuffer r) r = r.
Proof. by destruct r. Qed.

Lemma drain_cases r :
  buffer_ok (jitterBuffer r) -> seq_ok (baseSeq r) ->
  exists packets r0 jb', drainContiguousRunLocked 2 r = Some (packets, with_buffer jb' r0) /\
    (r0 = r \/ exists next, seq_ok next /\ r0 = after_gap next r) /\
    jb' ⊆ jitterBuffer r /\
    (packets = [] -> jb' = ∅ /\ r0 = r) /\
    (packets <> [] -> (size jb' < size (jitterBuffer r))%nat).
Proof.
  intros Hb Hbase. cbn [drainContiguousRunLocked].
  destruct (collect_Some (jitterBuffer r) (baseSeq r) 0 (size (jitterBuffer r))) as (pkts & jb & E & Hsz & Hsub);
    [lia|]. rewrite E. cbn [mbind option_bind].
  destruct pkts as [|p pkts].
  2:{ exists (p :: pkts), r, jb. split; [done|]. split; [by left|]. split; [done|]. split; [done|].
      intros _. simpl in Hsz. lia. }
  apply collect_nil in E as [Hnone ->].
  assert (Ew : r <| jitterBuffer := jitterBuffer r |> = r) by (by destruct r). rewrite Ew. clear Ew.
  unfold nextBufferedSeqLocked.
  pose proof (nextBufferedSeq_spec (baseSeq r) (map fst (map_to_list (jitterBuffer r)))) as Hn.
  destruct (nextBufferedSeq _ _) as [next|].
  2:{ exists [], r, ∅. split; [done|]. split; [by left|]. split; [apply map_empty_subseteq|]. split; done. }
  destruct Hn as (_ & Hin & _). apply keys_In in Hin as [pk Hpk].
  assert (Hnx : seq_ok next) by (by eapply Hb).
  fold (after_gap next r). change (jitterBuffer (after_gap next r)) with (jitterBuffer r).
  change (baseSeq (after_gap next r)) with next.
  destruct (collect_Some (jitterBuffer r) next 0 (size (jitterBuffer r))) as (pkts & jb & E & Hsz' & Hsub'); [lia|].
  rewrite E. cbn [mbind option_bind]. destruct pkts as [|p pkts].
  { apply collect_nil in E as [E _]. rewrite Z.add_0_r, u16_small in E by done. congruence. }
  exists (p :: pkts), (after_gap next r), jb. split; [done|]. split; [right; by exists next|].
  split; [done|]. split; [done|]. intros _. simpl in Hsz'. lia.
Qed.

(** ** What one run leaves alone *)

(** The fields that emission never writes. *)
Definition config (r : Receiver) :=
  ((hub r, onAU r, onNALU r, onAudio r, onAUVerifyFailed r),
   (lastSeq r, baseSeqSet r, maxJitterPackets r),
   (payloadDecryptor r, auVerifier r, expectDecryptor r, audioOnlyHint r),
   (rtpPacketsReceived r, rtpPacketsDropped r, ssrcLatched r, expectedSSRC r, foreignDrops r,
    foreignLogged r)).

(** The fields that processing one run never writes. *)
Definition io (r : Receiver) := (jitterBuffer r, packetsDroppedU r, config r).

Lemma io_buffer r r' : io r' = io r -> jitterBuffer r' = jitterBuffer r.
Proof. intros H. injection H. by intros. Qed.

Lemma io_verifier r r' : io r' = io r -> auVerifier r' = auVerifier r.
Proof. intros H. injection H. by intros. Qed.

Lemma io_config r r' : io r' = io r -> config r' = config r.
Proof. intros H. exact (f_equal snd H). Qed.

Lemma config_max r r' : config r' = config r -> maxJitterPackets r' = maxJitterPackets r.
Proof. intros H. injection H. by intros. Qed.

(** [r.es] exists whenever the ES mode is latched. *)
Definition es_inv (r : Receiver) : Prop := esLatch r = true -> is_Some (es r).

(** The same and the emission machinery untouched. *)
Definition quiet (r r' : Receiver) : Prop :=
  io r' = io r /\ baseSeq r' = baseSeq r /\ es r' = es r /\ esLatch r' = esLatch r.

#[export] Instance quiet_preorder : PreOrder quiet.
Proof. split; [by intros r; repeat split|]. unfold quiet. intros a b c. intuition congruence. Qed.

Lemma quiet_emit e r : quiet r (emit e r).
Proof. by repeat split. Qed.

Lemma quiet_fold {A} (f : A -> event) l r : quiet r (fold_left (fun r x => emit (f x) r) l r).
Proof.
  revert r. induction l as [|x l IH]; intros r; [done|]. cbn [fold_left].
  etrans; [apply quiet_emit|apply IH].
Qed.

#[local] Hint Resolve quiet_emit quiet_fold : go.

Lemma quiet_bare p r : quiet r (emitBareAudio p r).
Proof. unfold emitBareAudio. destruct (onAudio _); by repeat split. Qed.

Lemma quiet_verify r : quiet r (verify_failed r).
Proof. unfold verify_failed. destruct (onAUVerifyFailed _); by repeat split. Qed.

Lemma quiet_fan_out au ts i r : quiet r (fan_out au ts i r).
Proof.
  unfold fan_out. set (r2 := if hub r then _ else _).
  assert (Q : quiet r r2) by (unfold r2; destruct (hub r); auto with go; reflexivity).
  cbv zeta. etrans; [exact Q|].
  destruct (onAU r2); [auto with go|]. destruct (onNALU r2); [auto with go|reflexivity].
Qed.

Lemma quiet_au au ts r : quiet r (emitAULocked au ts r).
Proof. unfold emitAULocked. etrans; [|apply quiet_fan_out]. by repeat split. Qed.

Lemma quiet_all aus ts r : quiet r (emit_all aus ts r).
Proof.
  unfold emit_all. revert r. induction aus as [|au aus IH]; intros r; [done|]. cbn [fold_left].
  etrans; [apply quiet_au|apply IH].
Qed.

Lemma quiet_dispatch r : quiet r (dispatchAudioLocked r).
Proof.
  unfold dispatchAudioLocked. cbn [DrainAudio]. set (r1 := r <| demuxer := _ |> <| audioEmitted := _ |>).
  assert (Q : quiet r r1) by (by repeat split).
  destruct (onAudio r1); [|done]. etrans; [exact Q|]. auto with go.
Qed.

Lemma classify_io p r : io (classify p r) = io r /\ baseSeq (classify p r) = baseSeq r /\
  (es_inv r -> es_inv (classify p r)).
Proof.
  unfold classify. destruct p; [done|]. destruct (classified r); [done|].
  destruct (_ && _); [done|]. destruct (looksLikeESPacket _); [|done].
  split; [done|]. split; [done|]. intros _ _. by eexists.
Qed.

Lemma check_sig_Some v au pkt : v <> None -> exists ok, check_sig v au pkt = Some ok.
Proof. intros Hv. unfold check_sig. destruct (AUSig pkt); [eauto|]. destruct v; [|done]. simpl. eauto. Qed.

Lemma last_packet_Some packets : packets <> [] -> exists p, last_packet packets = Some p.
Proof. intros H. apply index_lt. destruct packets; [done|simpl; lia]. Qed.

Lemma feed_es_Some packets e : exists e', feed_es packets e = Some e'.
Proof.
  revert e. induction packets as [|p packets IH]; intros e; [simpl; eauto|]. cbn [feed_es].
  destruct (FeedPacket_Some (Payload p) e) as [[er e'] ->]. apply IH.
Qed.

Lemma run_bare_Some packets r :
  auVerifier r <> Some None -> exists r', run_bare packets r = Some r' /\ quiet r r'.
Proof.
  revert r. induction packets as [|p packets IH]; intros r Hv; [by exists r|]. cbn [run_bare].
  assert (IH' : forall r1, quiet r r1 -> exists r', run_bare packets r1 = Some r' /\ quiet r r').
  { intros r1 Q. destruct (IH r1) as (r' & -> & Q').
    - rewrite (io_verifier r r1); [done|apply Q].
    - exists r'. split; [done|]. by etrans. }
  destruct (Payload p) as [|x l]; [by apply IH|]. destruct (auVerifier r) as [v|] eqn:Ev.
  - destruct (check_sig_Some v (x :: l) p) as [ok ->]; [congruence|]. cbn [mbind option_bind].
    apply IH'. destruct ok; [apply quiet_bare|apply quiet_verify].
  - apply IH', quiet_bare.
Qed.

Lemma run_es_Some packets r :
  packets <> [] -> is_Some (es r) -> auVerifier r <> Some None ->
  exists r', run_es packets r = Some r' /\ io r' = io r /\ baseSeq r' = baseSeq r /\ is_Some (es r').
Proof.
  intros Hne [e0 He] Hv. unfold run_es. destruct (last_packet_Some packets Hne) as [lp ->].
  rewrite He. cbn [mbind option_bind]. destruct (feed_es_Some packets e0) as [e1 ->]. cbn [mbind option_bind].
  set (r1 := r <| es := Some e1 |>). destruct (negb (Marker lp)); [by exists r1|].
  assert (Hs : exists ok, match auVerifier r1 with Some v => check_sig v (payloads packets) lp
                          | None => Some true end = Some ok).
  { change (auVerifier r1) with (auVerifier r). destruct (auVerifier r) as [v|]; [|eauto].
    apply check_sig_Some. congruence. }
  destruct Hs as [ok ->]. cbn [mbind option_bind]. destruct ok; cbn [negb].
  - cbn [TakeAU]. destruct (nalus e1) as [|n ns] eqn:En; [by eexists|].
    destruct (splitAUsByFrame_Some (n :: ns) (bool_decide (es_Codec (e1 <| nalus := [] |>) = "h265"%string)))
      as [aus ->]. cbn [mbind option_bind]. eexists. split; [done|].
    match goal with |- context [emit_all ?a ?t ?r0] => destruct (quiet_all a t r0) as (Q1 & Q2 & Q3 & _) end.
    split; [exact Q1|]. split; [exact Q2|]. rewrite Q3. by eexists.
  - eexists. split; [done|]. destruct (quiet_verify r1) as (Q1 & Q2 & _ & _).
    split; [|split; [|by eexists]].
    + transitivity (io (verify_failed r1)); [reflexivity|exact Q1].
    + transitivity (baseSeq (verify_failed r1)); [reflexivity|exact Q2].
Qed.

Lemma run_ps_Some packets r :
  packets <> [] -> auVerifier r <> Some None ->
  exists r', run_ps packets r = Some r' /\ quiet r r'.
Proof.
  intros Hne Hv. unfold run_ps. destruct (last_packet_Some packets Hne) as [lp ->]. cbn [mbind option_bind].
  destruct (payloads packets) as [|x l] eqn:Ep; [by exists r|].
  set (r1 := r <| ptsClock := _ |>). assert (Q1 : quiet r r1) by (by repeat split).
  assert (Hs : exists ok, match auVerifier r1 with
     Some v => if Marker lp then check_sig v (x :: l) lp else Some true | None => Some true end = Some ok).
  { change (auVerifier r1) with (auVerifier r). destruct (auVerifier r) as [v|]; [|eauto].
    destruct (Marker lp); [|eauto]. apply check_sig_Some. congruence. }
  destruct Hs as [ok ->]. cbn [mbind option_bind]. destruct ok; cbn [negb].
  2:{ eexists. split; [done|]. etrans; [exact Q1|]. apply quiet_verify. }
  destruct (FeedAU_Some (x :: l) (Timestamp lp) (Marker lp) (demuxer r1)) as [[ns d] ->]. cbn [mbind option_bind].
  set (r2 := r1 <| demuxer := d |>). assert (Q2 : quiet r r2) by (by repeat split).
  destruct ns as [|n ns].
  - eexists. split; [done|]. etrans; [exact Q2|]. apply quiet_dispatch.
  - destruct (splitAUsByFrame_Some (n :: ns) (bool_decide (demux_Codec d = "h265"%string))) as [aus ->].
    cbn [mbind option_bind]. eexists. split; [done|]. etrans; [exact Q2|].
    etrans; [|apply quiet_dispatch]. apply quiet_all.
Qed.

Lemma processRun_Some packets r :
  packets <> [] -> es_inv r -> auVerifier r <> Some None ->
  exists r', processRunLocked packets r = Some r' /\ io r' = io r /\ es_inv r' /\
    baseSeq r' = u16 (baseSeq r + Z.of_nat (length packets)).
Proof.
  intros Hne He Hv. unfold processRunLocked. destruct packets as [|p ps]; [done|]. cbn [index lookup list_lookup mbind option_bind].
  set (r1 := r <| baseSeq := _ |>). destruct (classify_io (Payload p) r1) as (C1 & C2 & C3).
  specialize (C3 He). set (r2 := classify (Payload p) r1) in *.
  assert (Hv2 : auVerifier r2 <> Some None) by (by rewrite (io_verifier r1 r2)).
  destruct (bareAudio r2); [|destruct (esLatch r2) eqn:El].
  - destruct (run_bare_Some (p :: ps) r2 Hv2) as (r' & -> & Q1 & Q2 & Q3 & Q4). exists r'.
    split; [done|]. rewrite Q1, C1, Q2, C2. repeat split. unfold es_inv. by rewrite Q3, Q4.
  - destruct (run_es_Some (p :: ps) r2 Hne (C3 El) Hv2) as (r' & -> & Q1 & Q2 & Q3). exists r'.
    split; [done|]. rewrite Q1, C1, Q2, C2. repeat split. intros _. done.
  - destruct (run_ps_Some (p :: ps) r2 Hne Hv2) as (r' & -> & Q1 & Q2 & Q3 & Q4). exists r'.
    split; [done|]. rewrite Q1, C1, Q2, C2. repeat split. unfold es_inv. by rewrite Q3, Q4.
Qed.

(** ** Totality, and what emission leaves in the buffer *)

Record recv_ok (r : Receiver) : Prop := mkRecvOk {
  ok_buffer : buffer_ok (jitterBuffer r);
  ok_base : seq_ok (baseSeq r);
  ok_es : es_inv r;
  ok_verifier : auVerifier r <> Some None;
  ok_decryptor : payloadDecryptor r <> Some None;
}.

Lemma config_ok r r' : config r' = config r ->
  auVerifier r <> Some None -> payloadDecryptor r <> Some None ->
  auVerifier r' <> Some None /\ payloadDecryptor r' <> Some None.
Proof. intros H. injection H. intros. split; congruence. Qed.

Lemma split_runs_nonempty cur packets : Forall (fun run => run <> []) (split_runs cur packets).
Proof.
  revert cur. induction packets as [|p packets IH]; intros cur; [constructor|]. cbn [split_runs].
  destruct (_ || _); [|done]. constructor; [by destruct cur|done].
Qed.

Lemma process_runs_Some runs r :
  Forall (fun run => run <> []) runs -> recv_ok r ->
  exists r', process_runs runs r = Some r' /\ io r' = io r /\ recv_ok r'.
Proof.
  intros H. revert r. induction H as [|run runs Hne _ IH]; intros r Hok; [by exists r|]. cbn [process_runs].
  destruct Hok as [H1 H2 H3 H4 H5].
  destruct (processRun_Some run r Hne H3 H4) as (r1 & -> & E1 & E2 & E3). cbn [mbind option_bind].
  assert (Hc : config r1 = config r) by (by apply io_config).
  destruct (config_ok _ _ Hc H4 H5) as [H4' H5'].
  destruct (IH r1) as (r2 & -> & F1 & F2).
  - split; [by rewrite (io_buffer r r1)|rewrite E3; apply u16_range|done..].
  - exists r2. split; [done|]. split; [congruence|done].
Qed.

Lemma with_buffer_ok jb r : recv_ok r -> jb ⊆ jitterBuffer r -> recv_ok (with_buffer jb r).
Proof. intros [H1 H2 H3 H4 H5] Hs. split; try done. by eapply buffer_ok_sub. Qed.

Lemma after_gap_ok next r : recv_ok r -> seq_ok next -> recv_ok (after_gap next r).
Proof.
  intros [H1 H2 H3 H4 H5] Hs. split; try done. intros He. simpl in He. apply H3 in He as [e He].
  exists (DropPartial e). unfold after_gap. simpl. by rewrite He.
Qed.

Lemma emit_loop_Some fuel r :
  recv_ok r -> (size (jitterBuffer r) <= fuel)%nat ->
  exists r', emit_loop fuel r = Some r' /\ jitterBuffer r' = ∅ /\ recv_ok r' /\ config r' = config r.
Proof.
  revert r. induction fuel as [|fuel IH]; intros r Hok Hf;
    destruct (drain_cases r (ok_buffer r Hok) (ok_base r Hok)) as (pkts & r0 & jb & E & H0 & Hsub & Hnil & Hcons);
    cbn [emit_loop]; rewrite E; cbn [mbind option_bind].
  - destruct pkts as [|p pkts]; [|pose proof (Hcons ltac:(done)); lia].
    destruct (Hnil eq_refl) as [-> ->]. exists (with_buffer ∅ r). split; [done|]. split; [done|].
    split; [|done]. apply with_buffer_ok; [done|apply map_empty_subseteq].
  - assert (Hok0 : recv_ok (with_buffer jb r0) /\ config r0 = config r).
    { destruct H0 as [->|(next & Hn & ->)]; split; try done.
      - by apply with_buffer_ok.
      - apply (with_buffer_ok jb (after_gap next r)); [by apply after_gap_ok|done]. }
    destruct Hok0 as [Hok0 Hc0]. destruct pkts as [|p pkts].
    { destruct (Hnil eq_refl) as [-> ->]. exists (with_buffer ∅ r). by split. }
    destruct (process_runs_Some (split_runs [] (p :: pkts)) (with_buffer jb r0) (split_runs_nonempty _ _) Hok0)
      as (r2 & -> & F1 & F2). cbn [mbind option_bind].
    assert (Hb2 : jitterBuffer r2 = jb) by exact (io_buffer _ _ F1).
    destruct (IH r2 F2) as (r3 & -> & G1 & G2 & G3).
    { rewrite Hb2. pose proof (Hcons ltac:(done)). lia. }
    exists r3. split; [done|]. split; [done|]. split; [done|]. rewrite G3.
    transitivity (config (with_buffer jb r0)); [by apply io_config|exact Hc0].
Qed.

Lemma emit_Some r : recv_ok r ->
  exists r', emitAccessUnitsLocked r = Some r' /\ jitterBuffer r' = ∅ /\ recv_ok r' /\ config r' = config r.
Proof. intros H. by apply emit_loop_Some. Qed.

(** The bookkeeping in front of the store, up to the overflow check. *)
Definition admit_packet (pkt : Packet) (r0 : Receiver) : Receiver :=
  let r1 := if ssrcLatched r0 then r0
            else r0 <| expectedSSRC := SSRC pkt |> <| ssrcLatched := true |> in
  let seq := SequenceNumber pkt in
  let r2 := if baseSeqSet r1 then r1
            else r1 <| baseSeq := seq |> <| baseSeqSet := true |> <| lastSeq := seq |> in
  if s16 (u16 (seq - lastSeq r2)) <? -1000 then r2 <| baseSeq := seq |> else r2.

Definition store_packet (pkt : Packet) (r : Receiver) : Receiver :=
  r <| jitterBuffer := <[SequenceNumber pkt := pkt]> (jitterBuffer r) |>
    <| lastSeq := SequenceNumber pkt |>.

Definition foreign (pkt : Packet) (r : Receiver) : bool :=
  ssrcLatched r && negb (SSRC pkt =? expectedSSRC r).

Definition drop_foreign (r : Receiver) : Receiver :=
  r <| foreignDrops := foreignDrops r + 1 |> <| foreignLogged := true |>
    <| rtpPacketsDropped := rtpPacketsDropped r + 1 |>.

Definition holding (r : Receiver) : bool :=
  expectDecryptor r && match payloadDecryptor r with None => true | Some _ => false end.

Lemma feedJitterBuffer_unfold pkt r :
  feedJitterBuffer pkt r =
  if foreign pkt r then Some (drop_foreign r) else
  let r3 := admit_packet pkt r in
  r4 ← (if Nat.leb (maxJitterPackets r3) (size (jitterBuffer r3))
        then emitAccessUnitsLocked r3 else Some r3);
  let r5 := store_packet pkt r4 in
  if holding r5 then Some r5
  else if Marker pkt then emitAccessUnitsLocked r5 else Some r5.
Proof. done. Qed.

Lemma admit_packet_ok pkt r :
  recv_ok r -> seq_ok (SequenceNumber pkt) ->
  recv_ok (admit_packet pkt r) /\ jitterBuffer (admit_packet pkt r) = jitterBuffer r /\
  maxJitterPackets (admit_packet pkt r) = maxJitterPackets r.
Proof.
  intros [H1 H2 H3 H4 H5] Hs. unfold admit_packet.
  destruct (ssrcLatched r); (destruct (baseSeqSet _); (destruct (_ <? _);
    (split; [constructor; done|done]))).
Qed.

Lemma store_packet_ok pkt r : recv_ok r -> seq_ok (SequenceNumber pkt) -> recv_ok (store_packet pkt r).
Proof.
  intros [H1 H2 H3 H4 H5] Hs. split; try done. intros k p. unfold store_packet. simpl.
  rewrite lookup_insert_Some. intros [[<- _]|[_ E]]; [done|by eapply H1].
Qed.

(** The invariant of the packet loop: well-formed, and the buffer is bounded. *)
Record live (r : Receiver) : Prop := mkLive {
  live_ok : recv_ok r;
  live_max : (1 <= maxJitterPackets r)%nat;
  live_size : (size (jitterBuffer r) <= maxJitterPackets r)%nat;
}.

(** What the packet loop never changes. *)
Definition keeps (r r' : Receiver) : Prop :=
  maxJitterPackets r' = maxJitterPackets r /\ payloadDecryptor r' = payloadDecryptor r /\
  auVerifier r' = auVerifier r /\ expectDecryptor r' = expectDecryptor r /\
  (ssrcLatched r = true -> ssrcLatched r' = true /\ expectedSSRC r' = expectedSSRC r).

#[export] Instance keeps_preorder : PreOrder keeps.
Proof. split; [by intros r; repeat split|]. unfold keeps. intros x y z. intuition congruence. Qed.

Lemma config_keeps r r' : config r' = config r -> keeps r r'.
Proof. intros H. injection H. intros. repeat split; congruence. Qed.

Lemma emit_live r : recv_ok r -> (1 <= maxJitterPackets r)%nat ->
  exists r', emitAccessUnitsLocked r = Some r' /\ live r' /\ keeps r r' /\ jitterBuffer r' = ∅.
Proof.
  intros Hok Hm. destruct (emit_Some r Hok) as (r' & E & E1 & E2 & E3). exists r'.
  pose proof (config_keeps _ _ E3) as K. split; [done|]. split; [|done].
  split; [done| |rewrite E1, map_size_empty; lia]. by destruct K as [-> _].
Qed.

Lemma admit_packet_keeps pkt r :
  foreign pkt r = false -> keeps r (admit_packet pkt r) /\ ssrcLatched (admit_packet pkt r) = true /\
  expectedSSRC (admit_packet pkt r) = SSRC pkt.
Proof.
  unfold foreign, admit_packet. destruct (ssrcLatched r) eqn:E; cbn [andb]; intros H.
  - apply negb_false_iff, Z.eqb_eq in H.
    destruct (baseSeqSet r); destruct (_ <? _); unfold keeps; simpl; intuition congruence.
  - destruct (baseSeqSet _); destruct (_ <? _); unfold keeps; simpl; intuition congruence.
Qed.

(** Room is made before a packet is stored. *)
Lemma make_room_live r : live r ->
  exists r', (if Nat.leb (maxJitterPackets r) (size (jitterBuffer r))
              then emitAccessUnitsLocked r else Some r) = Some r' /\
    live r' /\ keeps r r' /\ (size (jitterBuffer r') < maxJitterPackets r')%nat.
Proof.
  intros [Hok Hm Hs]. destruct (Nat.leb_spec (maxJitterPackets r) (size (jitterBuffer r))).
  - destruct (emit_live r Hok Hm) as (r' & -> & L & K & E). exists r'. split; [done|].
    split; [done|]. split; [done|]. rewrite E, map_size_empty. pose proof (live_max r' L). lia.
  - exists r. split; [done|]. split; [done|]. split; [done|done].
Qed.

Lemma store_packet_live pkt r :
  live r -> seq_ok (SequenceNumber pkt) -> (size (jitterBuffer r) < maxJitterPackets r)%nat ->
  live (store_packet pkt r).
Proof.
  intros [Hok Hm Hs] Hq Hlt. split; [by apply store_packet_ok|done|].
  change (jitterBuffer (store_packet pkt r)) with (<[SequenceNumber pkt := pkt]> (jitterBuffer r)).
  change (maxJitterPackets (store_packet pkt r)) with (maxJitterPackets r).
  rewrite map_size_insert. destruct (jitterBuffer r !! SequenceNumber pkt); unfold id; lia.
Qed.

Lemma feed_live pkt r :
  live r -> seq_ok (SequenceNumber pkt) ->
  exists r', feedJitterBuffer pkt r = Some r' /\ live r' /\ keeps r r'.
Proof.
  intros Hl Hs. rewrite feedJitterBuffer_unfold. destruct (foreign pkt r) eqn:Ef.
  { exists (drop_foreign r). split; [done|]. split; [|by repeat split]. by destruct Hl as [[] ? ?]. }
  destruct (admit_packet_ok pkt r (live_ok r Hl) Hs) as (Hok3 & Hb3 & Hm3). cbv zeta.
  destruct (admit_packet_keeps pkt r Ef) as [K3 _].
  assert (Hl3 : live (admit_packet pkt r)).
  { destruct Hl. split; [done|by rewrite Hm3|by rewrite Hb3, Hm3]. }
  destruct (make_room_live _ Hl3) as (r4 & -> & Hl4 & K4 & Hlt). cbn [mbind option_bind].
  pose proof (store_packet_live pkt r4 Hl4 Hs Hlt) as Hl5.
  assert (K5 : keeps r (store_packet pkt r4)) by (etrans; [exact K3|]; etrans; [exact K4|]; by repeat split).
  destruct (holding _); [by eexists|]. destruct (Marker pkt); [|by eexists].
  destruct (emit_live _ (live_ok _ Hl5) (live_max _ Hl5)) as (r6 & -> & L & K & _).
  exists r6. split; [done|]. split; [done|]. by etrans.
Qed.

Lemma receive_live pkt r :
  live r -> seq_ok (SequenceNumber pkt) ->
  exists r', receive pkt r = Some r' /\ live r' /\ keeps r r'.
Proof.
  intros Hl Hs. unfold receive. set (r1 := r <| rtpPacketsReceived := _ |>).
  assert (Hl1 : live r1) by (by destruct Hl as [[] ? ?]).
  assert (Hp : exists payload, match payloadDecryptor r1 with
     | None => Some (Payload pkt)
     | Some c => f ← c; Some (f (Payload pkt) (SSRC pkt) (SequenceNumber pkt)) end = Some payload).
  { pose proof (ok_decryptor r1 (live_ok r1 Hl1)) as Hd.
    destruct (payloadDecryptor r1) as [[c|]|]; simpl; eauto; done. }
  destruct Hp as [payload ->]. cbn [mbind option_bind].
  set (pkt' := pkt <| Payload := payload |>).
  destruct (feed_live pkt' r1 Hl1 Hs) as (r' & E & L & K).
  exists r'. split; [exact E|]. split; [exact L|exact K].
Qed.

Lemma receiveAll_live pkts r :
  live r -> Forall (fun p => seq_ok (SequenceNumber p)) pkts ->
  exists r', receiveAll pkts r = Some r' /\ live r' /\ keeps r r'.
Proof.
  intros Hl H. revert r Hl. induction H as [|p pkts Hp _ IH]; intros r Hl; [by exists r|]. cbn [receiveAll].
  destruct (receive_live p r Hl Hp) as (r1 & -> & L1 & K1). cbn [mbind option_bind].
  destruct (IH r1 L1) as (r2 & -> & L2 & K2). exists r2. split; [done|]. split; [done|]. by etrans.
Qed.

Lemma NewReceiver_live h a n au f : live (NewReceiver h a n au f).
Proof.
  split; [|simpl; lia|].
  2:{ change (size (∅ : gmap Z Packet) <= 32)%nat. rewrite map_size_empty. lia. }
  by split.
Qed.

(** ** The diagnostic counters steer nothing *)

(** Overwrite the counters that foreign and undecodable packets touch. *)
Definition diag (a b c : Z) (l : bool) (r : Receiver) : Receiver :=
  mkReceiver (hub r) (onAU r) (onNALU r) (onAudio r) (onAUVerifyFailed r) (jitterBuffer r)
    (lastSeq r) (baseSeq r) (baseSeqSet r) (maxJitterPackets r) (packetsDroppedU r)
    (payloadDecryptor r) (auVerifier r) (auVerifyFailed r) (demuxer r) (es r) (esLatch r)
    (classified r) (expectDecryptor r) (audioOnlyHint r) (bareAudio r) a b
    (auEmitted r) (ptsClock r) (audioEmitted r) (classification r)
    (ssrcLatched r) (expectedSSRC r) c l (out r).

(** Equality of receivers up to those counters. *)
Definition eqv (r r' : Receiver) : Prop := diag 0 0 0 false r = diag 0 0 0 false r'.

#[export] Instance eqv_equiv : Equivalence eqv.
Proof. unfold eqv. split; [by intros r|by intros r r'|intros r1 r2 r3; congruence]. Qed.

Definition eqv_opt (o o' : option Receiver) : Prop :=
  match o, o' with Some r, Some r' => eqv r r' | None, None => True | _, _ => False end.

Section diagnostics.
Context (a b c : Z) (l : bool).
#[local] Abbreviation D := (diag a b c l).

Lemma diag_emit e r : emit e (D r) = D (emit e r).
Proof. done. Qed.

Lemma diag_fold {A} (f : Receiver -> A -> Receiver) xs r :
  (forall r x, f (D r) x = D (f r x)) -> fold_left f xs (D r) = D (fold_left f xs r).
Proof.
  intros Hf. revert r. induction xs as [|x xs IH]; intros r; [done|]. cbn [fold_left].
  by rewrite Hf, IH.
Qed.

Lemma diag_bare p r : emitBareAudio p (D r) = D (emitBareAudio p r).
Proof. unfold emitBareAudio. simpl. by destruct (onAudio r). Qed.

Lemma diag_verify r : verify_failed (D r) = D (verify_failed r).
Proof. unfold verify_failed. simpl. by destruct (onAUVerifyFailed r). Qed.

Lemma diag_fan_out au ts i r : fan_out au ts i (D r) = D (fan_out au ts i r).
Proof.
  unfold fan_out. change (hub (D r)) with (hub r). rewrite diag_emit. cbv zeta.
  assert (E : (if hub r then D (emit (HubBroadcast ts au i) r) else D r) =
    D (if hub r then emit (HubBroadcast ts au i) r else r)) by (by destruct (hub r)).
  rewrite E. generalize (if hub r then emit (HubBroadcast ts au i) r else r). clear. intros r.
  change (onAU (D r)) with (onAU r). change (onNALU (D r)) with (onNALU r).
  destruct (onAU r); [done|]. destruct (onNALU r); [|done]. by apply diag_fold.
Qed.

Lemma diag_au au ts r : emitAULocked au ts (D r) = D (emitAULocked au ts r).
Proof.
  unfold emitAULocked. change ((D r) <| auEmitted := auEmitted (D r) + 1 |>) with
    (D (r <| auEmitted := auEmitted r + 1 |>)).
  generalize (r <| auEmitted := auEmitted r + 1 |>). clear. intros r.
  change (recv_Codec (D r)) with (recv_Codec r). apply diag_fan_out.
Qed.

Lemma diag_all aus ts r : emit_all aus ts (D r) = D (emit_all aus ts r).
Proof. apply diag_fold. intros. apply diag_au. Qed.

Lemma diag_dispatch r : dispatchAudioLocked (D r) = D (dispatchAudioLocked r).
Proof.
  unfold dispatchAudioLocked. simpl. destruct (onAudio r); [|done]. by rewrite <- diag_fold.
Qed.

Lemma diag_classify p r : classify p (D r) = D (classify p r).
Proof.
  unfold classify. destruct p as [|x p]; [done|]. change (classified (D r)) with (classified r).
  destruct (classified r); [done|]. change (audioOnlyHint ((D r) <| classified := true |>)) with (audioOnlyHint r).
  simpl audioOnlyHint. destruct (audioOnlyHint r && _); [done|]. by destruct (looksLikeESPacket (x :: p)).
Qed.

Lemma diag_run_bare ps r : run_bare ps (D r) = D <$> run_bare ps r.
Proof.
  revert r. induction ps as [|p ps IH]; intros r; [done|]. cbn [run_bare].
  destruct (Payload p) as [|x t]; [apply IH|]. simpl auVerifier. destruct (auVerifier r) as [v|].
  - destruct (check_sig v (x :: t) p) as [ok|]; [|done]. cbn [mbind option_bind].
    rewrite diag_verify, diag_bare. destruct ok; apply IH.
  - rewrite diag_bare. apply IH.
Qed.

Lemma diag_run_es ps r : run_es ps (D r) = D <$> run_es ps r.
Proof.
  unfold run_es. destruct (last_packet ps) as [lp|]; [|done]. change (es (D r)) with (es r).
  cbn [mbind option_bind]. destruct (es r) as [e0|]; [|done]. cbn [mbind option_bind]. destruct (feed_es ps e0) as [e1|]; [|done].
  cbn [mbind option_bind]. set (r1 := r <| es := Some e1 |>).
  change ((D r) <| es := Some e1 |>) with (D r1). destruct (negb (Marker lp)); [done|].
  change (auVerifier (D r1)) with (auVerifier r1).
  destruct (match auVerifier r1 with Some v => _ | None => _ end) as [ok|]; [|done]. cbn [mbind option_bind].
  destruct (negb ok); [rewrite diag_verify; reflexivity|]. cbn [TakeAU].
  destruct (nalus e1) as [|n ns]; [done|].
  destruct (splitAUsByFrame _ _) as [aus|]; [|done]. cbn [mbind option_bind fmap option_fmap option_map].
  f_equal. by rewrite <- diag_all.
Qed.

Lemma diag_run_ps ps r : run_ps ps (D r) = D <$> run_ps ps r.
Proof.
  unfold run_ps. destruct (last_packet ps) as [lp|]; [|done]. cbn [mbind option_bind].
  destruct (payloads ps) as [|x t]; [done|]. set (r1 := r <| ptsClock := _ |>).
  change ((D r) <| ptsClock := Timestamp lp |>) with (D r1). change (auVerifier (D r1)) with (auVerifier r1).
  destruct (match auVerifier r1 with Some v => _ | None => _ end) as [ok|]; [|done]. cbn [mbind option_bind].
  destruct (negb ok); [by rewrite diag_verify|]. change (demuxer (D r1)) with (demuxer r1).
  destruct (FeedAU _ _ _ _) as [[ns d]|]; [|done]. cbn [mbind option_bind].
  set (r2 := r1 <| demuxer := d |>). change ((D r1) <| demuxer := d |>) with (D r2).
  destruct ns as [|n ns]; [by rewrite diag_dispatch|].
  destruct (splitAUsByFrame _ _) as [aus|]; [|done]. cbn [mbind option_bind].
  by rewrite diag_all, diag_dispatch.
Qed.

Lemma diag_base v r : (D r) <| baseSeq := v |> = D (r <| baseSeq := v |>).
Proof. done. Qed.

Lemma diag_mode ps r :
  (if bareAudio (D r) then run_bare ps (D r)
   else if esLatch (D r) then run_es ps (D r) else run_ps ps (D r)) =
  D <$> (if bareAudio r then run_bare ps r else if esLatch r then run_es ps r else run_ps ps r).
Proof.
  change (bareAudio (D r)) with (bareAudio r). change (esLatch (D r)) with (esLatch r).
  destruct (bareAudio r); [apply diag_run_bare|].
  destruct (esLatch r); [apply diag_run_es|apply diag_run_ps].
Qed.

Lemma diag_processRun ps r : processRunLocked ps (D r) = D <$> processRunLocked ps r.
Proof.
  unfold processRunLocked. destruct (index ps 0) as [p|]; [|done]. cbn [mbind option_bind]. cbv zeta.
  change (u16 (baseSeq (D r) + Z.of_nat (length ps))) with (u16 (baseSeq r + Z.of_nat (length ps))).
  rewrite diag_base, diag_classify. apply diag_mode.
Qed.

Lemma diag_process_runs runs r : process_runs runs (D r) = D <$> process_runs runs r.
Proof.
  revert r. induction runs as [|run runs IH]; intros r; [done|]. cbn [process_runs].
  rewrite diag_processRun. destruct (processRunLocked run r) as [r'|]; [|done]. apply IH.
Qed.

Lemma diag_drain fuel r :
  drainContiguousRunLocked fuel (D r) = prod_map id D <$> drainContiguousRunLocked fuel r.
Proof.
  revert r. induction fuel as [|fuel IH]; intros r; [done|]. cbn [drainContiguousRunLocked].
  change (jitterBuffer (D r)) with (jitterBuffer r). change (baseSeq (D r)) with (baseSeq r).
  destruct (collect _ _ _ _) as [[pkts jb]|]; [|done]. cbn [mbind option_bind].
  destruct pkts; [|done]. set (r1 := r <| jitterBuffer := jb |>).
  change ((D r) <| jitterBuffer := jb |>) with (D r1). clearbody r1. unfold nextBufferedSeqLocked.
  change (jitterBuffer (D r1)) with (jitterBuffer r1). change (baseSeq (D r1)) with (baseSeq r1).
  destruct (nextBufferedSeq _ _) as [next|]; [|done].
  fold (after_gap next r1) (after_gap next (D r1)).
  change (after_gap next (D r1)) with (D (after_gap next r1)). apply IH.
Qed.

Lemma diag_emit_loop fuel r : emit_loop fuel (D r) = D <$> emit_loop fuel r.
Proof.
  revert r. induction fuel as [|fuel IH]; intros r; cbn [emit_loop];
    rewrite diag_drain; destruct (drainContiguousRunLocked 2 r) as [[pkts r1]|]; try done;
    cbn [mbind option_bind fmap option_fmap option_map prod_map]; (destruct pkts as [|p pkts]; [done|]); [done|].
  cbn [fst snd id]. rewrite diag_process_runs.
  destruct (process_runs _ r1) as [r2|]; [|done]. apply IH.
Qed.

Lemma diag_emitAU r : emitAccessUnitsLocked (D r) = D <$> emitAccessUnitsLocked r.
Proof. apply diag_emit_loop. Qed.
End diagnostics.

Lemma diag_idem a b c l r : diag 0 0 0 false (diag a b c l r) = diag 0 0 0 false r.
Proof. done. Qed.

Lemma eqv_opt_diag o o' : diag 0 0 0 false <$> o = diag 0 0 0 false <$> o' -> eqv_opt o o'.
Proof.
  destruct o, o'; try done. intros H. simpl. unfold eqv. by apply (inj Some) in H.
Qed.

Lemma diag_admit a b c l p r : admit_packet p (diag a b c l r) = diag a b c l (admit_packet p r).
Proof.
  unfold admit_packet. change (ssrcLatched (diag a b c l r)) with (ssrcLatched r). cbv zeta.
  set (r1 := if ssrcLatched r then r else _). set (r1' := if ssrcLatched r then diag a b c l r else _).
  assert (E : r1' = diag a b c l r1) by (unfold r1, r1'; by destruct (ssrcLatched r)). rewrite E.
  generalize r1. clear. intros r. change (baseSeqSet (diag a b c l r)) with (baseSeqSet r).
  set (r2 := if baseSeqSet r then r else _). set (r2' := if baseSeqSet r then diag a b c l r else _).
  assert (E : r2' = diag a b c l r2) by (unfold r2, r2'; by destruct (baseSeqSet r)). rewrite E.
  generalize r2. clear. intros r. change (lastSeq (diag a b c l r)) with (lastSeq r).
  by destruct (_ <? _).
Qed.

Lemma feed_eqv p a b c l r :
  eqv_opt (feedJitterBuffer p (diag a b c l r)) (feedJitterBuffer p r).
Proof.
  apply eqv_opt_diag. rewrite !feedJitterBuffer_unfold.
  change (foreign p (diag a b c l r)) with (foreign p r). destruct (foreign p r); [done|].
  rewrite diag_admit. cbv zeta. generalize (admit_packet p r). clear r. intros r.
  change (maxJitterPackets (diag a b c l r)) with (maxJitterPackets r).
  change (jitterBuffer (diag a b c l r)) with (jitterBuffer r).
  assert (E : (if Nat.leb (maxJitterPackets r) (size (jitterBuffer r))
     then emitAccessUnitsLocked (diag a b c l r) else Some (diag a b c l r)) =
     diag a b c l <$> (if Nat.leb (maxJitterPackets r) (size (jitterBuffer r))
     then emitAccessUnitsLocked r else Some r)).
  { destruct (Nat.leb _ _); [apply diag_emitAU|done]. }
  rewrite E. clear E. set (o := if Nat.leb (maxJitterPackets r) (size (jitterBuffer r))
     then emitAccessUnitsLocked r else Some r). destruct o as [r4|]; [|done].
  cbn [mbind option_bind fmap option_fmap option_map].
  change (store_packet p (diag a b c l r4)) with (diag a b c l (store_packet p r4)).
  generalize (store_packet p r4). clear. intros r.
  change (holding (diag a b c l r)) with (holding r). destruct (holding r); [done|].
  destruct (Marker p); [|done]. rewrite diag_emitAU. by destruct (emitAccessUnitsLocked r).
Qed.

Lemma receive_eqv p r r' : eqv r r' -> eqv_opt (receive p r) (receive p r').
Proof.
  assert (L : forall r, eqv_opt (receive p (diag 0 0 0 false r)) (receive p r)).
  { clear. intros r. unfold receive.
    set (r1 := r <| rtpPacketsReceived := rtpPacketsReceived r + 1 |>). cbv zeta.
    assert (E : (diag 0 0 0 false r) <| rtpPacketsReceived := rtpPacketsReceived (diag 0 0 0 false r) + 1 |>
       = diag 1 0 0 false r1) by done. rewrite E.
    change (payloadDecryptor (diag 1 0 0 false r1)) with (payloadDecryptor r1). clearbody r1. clear E r.
    destruct (match payloadDecryptor r1 with None => _ | Some c => _ end); [|done].
    cbn [mbind option_bind]. apply feed_eqv. }
  intros H. pose proof (L r) as L1. pose proof (L r') as L2. unfold eqv in H. rewrite H in L1. clear H.
  destruct (receive p (diag 0 0 0 false r')), (receive p r), (receive p r'); simpl in *; try done.
  by rewrite <- L1, L2.
Qed.

Lemma receive_foreign p r :
  payloadDecryptor r <> Some None -> foreign p r = true ->
  exists r', receive p r = Some r' /\ eqv r r'.
Proof.
  intros Hd Hf. unfold receive. set (r1 := r <| rtpPacketsReceived := _ |>).
  assert (Hp : exists payload, match payloadDecryptor r1 with
     | None => Some (Payload p)
     | Some c => f ← c; Some (f (Payload p) (SSRC p) (SequenceNumber p)) end = Some payload).
  { change (payloadDecryptor r1) with (payloadDecryptor r).
    destruct (payloadDecryptor r) as [[c|]|]; simpl; eauto; done. }
  destruct Hp as [payload ->]. cbn [mbind option_bind]. rewrite feedJitterBuffer_unfold.
  change (foreign (p <| Payload := payload |>) r1) with (foreign p r). rewrite Hf.
  eexists. split; [done|]. done.
Qed.

Definition of_dialog (ssrc : Z) (p : Packet) : Prop := SSRC p = ssrc.
#[export] Instance of_dialog_dec ssrc p : Decision (of_dialog ssrc p).
Proof. unfold of_dialog. apply _. Defined.

Lemma ssrc_filter pkts r r' :
  live r -> ssrcLatched r = true -> eqv r r' -> live r' ->
  Forall (fun p => seq_ok (SequenceNumber p)) pkts ->
  eqv_opt (receiveAll pkts r) (receiveAll (filter (of_dialog (expectedSSRC r)) pkts) r').
Proof.
  intros Hl Hs He Hl' H. revert r r' Hl Hs He Hl'.
  induction H as [|p pkts Hp _ IH]; intros r r' Hl Hs He Hl'; [done|].
  destruct (decide (of_dialog (expectedSSRC r) p)) as [Hin|Hin].
  - rewrite filter_cons_True by done. cbn [receiveAll].
    pose proof (receive_eqv p r r' He) as E.
    destruct (receive_live p r Hl Hp) as (r1 & E1 & L1 & K1). rewrite E1 in *.
    destruct (receive_live p r' Hl' Hp) as (r1' & E1' & L1' & K1'). rewrite E1' in *.
    cbn [mbind option_bind eqv_opt] in *. destruct K1 as (_ & _ & _ & _ & K1).
    destruct (K1 Hs) as [K2 K3]. rewrite <- K3. by apply IH.
  - rewrite filter_cons_False by done. cbn [receiveAll].
    destruct (receive_foreign p r) as (r1 & E1 & E2).
    { apply (ok_decryptor r (live_ok r Hl)). }
    { unfold foreign. rewrite Hs. cbn [andb]. apply negb_true_iff, Z.eqb_neq. exact Hin. }
    destruct (receive_live p r Hl Hp) as (r1' & E1' & L1 & K1). rewrite E1 in E1'. injection E1' as <-.
    rewrite E1. cbn [mbind option_bind]. destruct K1 as (_ & _ & _ & _ & K1). destruct (K1 Hs) as [K2 K3].
    rewrite <- K3. apply IH; try done. by rewrite <- E2.
Qed.

(** ** Buffers of consecutive packets *)

Fixpoint numbered (base : Z) (pkts : list Packet) : Prop :=
  match pkts with
  | [] => True
  | p :: rest => SequenceNumber p = u16 base /\ numbered (base + 1) rest
  end.

(** Storing packets one after another. *)
Definition store_all (pkts : list Packet) (jb : gmap Z Packet) : gmap Z Packet :=
  fold_left (fun jb p => <[SequenceNumber p := p]> jb) pkts jb.

Lemma numbered_app base a b :
  numbered base (a ++ b) <-> numbered base a /\ numbered (base + Z.of_nat (length a)) b.
Proof.
  revert base. induction a as [|p a IH]; intros base; simpl.
  - rewrite Z.add_0_r. tauto.
  - rewrite IH. replace (base + 1 + Z.of_nat (length a)) with (base + Z.of_nat (S (length a))) by lia. tauto.
Qed.

Lemma numbered_seq_ok base pkts : numbered base pkts -> Forall (fun p => seq_ok (SequenceNumber p)) pkts.
Proof.
  revert base. induction pkts as [|p pkts IH]; intros base H; [constructor|]. destruct H as [Hp H].
  constructor; [rewrite Hp; apply u16_range|by eapply IH].
Qed.

Lemma u16_inj_near a b : u16 a = u16 b -> Z.abs (a - b) < 65536 -> a = b.
Proof.
  unfold u16. change (2 ^ 16) with 65536. intros H Hn.
  assert (E : (a - b) mod 65536 = 0) by (rewrite Zminus_mod, H, Z.sub_diag; done).
  apply Z.mod_divide in E; [|lia]. destruct E as [k E]. lia.
Qed.

Lemma store_all_notin base j pkts jb :
  numbered (base + j) pkts -> 0 < j -> j + Z.of_nat (length pkts) <= 65536 ->
  store_all pkts jb !! u16 base = jb !! u16 base.
Proof.
  revert j jb. induction pkts as [|p pkts IH]; intros j jb Hn Hj Hl; [done|].
  destruct Hn as [Hp Hn]. cbn [store_all fold_left]. unfold store_all in IH.
  rewrite (IH (j + 1)); [|by rewrite Z.add_assoc|lia|simpl in Hl; lia].
  rewrite lookup_insert_ne; [done|]. rewrite Hp. intros E. apply u16_inj_near in E; simpl in Hl; lia.
Qed.

(** The head of a run is stored independently of the rest. *)
Lemma store_all_cons base p pkts :
  SequenceNumber p = u16 base -> numbered (base + 1) pkts -> Z.of_nat (S (length pkts)) < 65536 ->
  store_all (p :: pkts) ∅ = <[SequenceNumber p := p]> (store_all pkts ∅).
Proof.
  intros Hp Hn Hl. cbn [store_all fold_left]. fold (store_all pkts (<[SequenceNumber p := p]> ∅)).
  assert (W : forall j l jb, 0 < j -> j + Z.of_nat (length l) <= 65536 -> numbered (base + j) l ->
    store_all l (<[SequenceNumber p := p]> jb) = <[SequenceNumber p := p]> (store_all l jb)).
  { clear Hn Hl. intros j l. revert j. induction l as [|q l IH]; intros j jb Hj Hl Hn; [done|].
    destruct Hn as [Hq Hn]. cbn [store_all fold_left]. fold (store_all l).
    rewrite insert_insert_ne.
    - apply (IH (j + 1)); [lia|simpl in Hl; lia|by rewrite Z.add_assoc].
    - rewrite Hp, Hq. intros E. apply u16_inj_near in E; simpl in Hl; lia. }
  apply (W 1); [lia|lia|done].
Qed.

(** A buffer that holds exactly one run drains to that run. *)
Lemma collect_run base n pkts jb fuel :
  jb = store_all pkts ∅ -> numbered (base + Z.of_nat n) pkts ->
  Z.of_nat (length pkts) < 65536 -> (length pkts <= fuel)%nat ->
  collect jb base n fuel = Some (pkts, ∅).
Proof.
  revert n jb fuel. induction pkts as [|p pkts IH]; intros n jb fuel -> Hn Hl Hf.
  - destruct fuel; cbn [collect store_all fold_left]; by rewrite lookup_empty.
  - destruct Hn as [Hp Hn]. destruct fuel as [|fuel]; [simpl in Hf; lia|]. cbn [collect].
    rewrite (store_all_cons (base + Z.of_nat n)) by (done || (simpl in Hl; lia)).
    rewrite <- Hp, lookup_insert_eq. rewrite delete_insert_id.
    + rewrite (IH (S n)); [done|done| |simpl in Hl; lia|simpl in Hf; lia].
      by replace (base + Z.of_nat (S n)) with (base + Z.of_nat n + 1) by lia.
    + rewrite Hp. rewrite (store_all_notin _ 1); [apply lookup_empty|done|lia|simpl in Hl; lia].
Qed.

Lemma size_store_all base pkts :
  numbered base pkts -> Z.of_nat (length pkts) < 65536 -> size (store_all pkts ∅) = length pkts.
Proof.
  intros Hn Hl.
  pose proof (collect_run base 0 pkts (store_all pkts ∅) (length pkts) eq_refl) as E.
  rewrite Z.add_0_r in E. specialize (E Hn Hl ltac:(lia)).
  assert (G : forall jb n fuel ps jb', collect jb base n fuel = Some (ps, jb') ->
     (size jb' + length ps = size jb)%nat).
  { clear. intros jb n fuel. revert jb n. induction fuel as [|fuel IH]; intros jb n ps jb' E; cbn [collect] in E;
      destruct (jb !! u16 (base + Z.of_nat n)) as [p|] eqn:El; try done.
    - injection E as <- <-. simpl. lia.
    - destruct (collect _ _ _ _) as [[ps' jb1]|] eqn:E1; [|done]. cbn [mbind option_bind] in E.
      injection E as <- <-. apply IH in E1. rewrite map_size_delete, El in E1. simpl.
      assert (size jb <> 0%nat) by (intros H0; apply map_size_empty_inv in H0; by subst jb). lia.
    - injection E as <- <-. simpl. lia. }
  apply G in E. rewrite map_size_empty in E. lia.
Qed.

(** Numbering only depends on the base modulo 2^16. *)
Lemma numbered_mod b b' l : u16 b = u16 b' -> numbered b l -> numbered b' l.
Proof.
  revert b b'. induction l as [|p l IH]; intros b b' E H; [done|]. destruct H as [Hp H].
  split; [by rewrite <- E|]. apply (IH (b + 1)); [|done]. unfold u16 in *.
  rewrite <- (Zplus_mod_idemp_l b), E, Zplus_mod_idemp_l. done.
Qed.

Lemma drain_run base pkts r :
  jitterBuffer r = store_all pkts ∅ -> numbered base pkts -> baseSeq r = u16 base ->
  Z.of_nat (length pkts) < 65536 -> pkts <> [] ->
  drainContiguousRunLocked 2 r = Some (pkts, with_buffer ∅ r).
Proof.
  intros Hb Hn Hbase Hl Hne. cbn [drainContiguousRunLocked].
  assert (Hn' : numbered (baseSeq r) pkts).
  { rewrite Hbase. apply (numbered_mod base); [|done]. unfold u16. by rewrite Zmod_mod. }
  rewrite (collect_run (baseSeq r) 0 pkts (jitterBuffer r)); [|done|by rewrite Z.add_0_r|done|].
  - cbn [mbind option_bind]. by destruct pkts.
  - rewrite Hb. by rewrite (size_store_all base).
Qed.

(** ** Reordering *)

(** Sequence numbers within a window of a thousand. *)
Definition in_window (lo s : Z) : Prop := exists k, 0 <= k <= 1000 /\ s = u16 (lo + k).

Lemma in_window_delta lo a b : in_window lo a -> in_window lo b -> (s16 (u16 (a - b)) <? -1000) = false.
Proof.
  intros (i & Hi & ->) (j & Hj & ->). apply Z.ltb_ge. rewrite s16_u16.
  assert (E : (u16 (lo + i) - u16 (lo + j)) mod 65536 = (i - j) mod 65536).
  { unfold u16. change (2 ^ 16) with 65536. rewrite <- Zminus_mod. f_equal. lia. }
  rewrite E. destruct (Z.ltb_spec (i - j) 0).
  - replace (i - j) with (i - j + 65536 + (-1) * 65536) by lia. rewrite Z.mod_add by lia.
    rewrite Z.mod_small by lia. rewrite (proj2 (Z.ltb_ge _ _)) by lia. lia.
  - rewrite Z.mod_small by lia. rewrite (proj2 (Z.ltb_lt _ _)) by lia. lia.
Qed.

(** The state after packets were only stored. *)
Definition stored (pkts : list Packet) (jb : gmap Z Packet) (ls : Z) (r : Receiver) : Receiver :=
  r <| jitterBuffer := jb |> <| lastSeq := ls |>
    <| rtpPacketsReceived := rtpPacketsReceived r + Z.of_nat (length pkts) |>.

(** What the packet loop makes of a packet before buffering it. *)
Definition plain (r : Receiver) (p : Packet) : Packet :=
  match payloadDecryptor r with
  | Some (Some f) => p <| Payload := f (Payload p) (SSRC p) (SequenceNumber p) |>
  | _ => p
  end.

Lemma receive_plain r p :
  payloadDecryptor r <> Some None ->
  receive p r = feedJitterBuffer (plain r p) (r <| rtpPacketsReceived := rtpPacketsReceived r + 1 |>).
Proof.
  intros Hd. unfold receive, plain.
  change (payloadDecryptor (r <| rtpPacketsReceived := rtpPacketsReceived r + 1 |>)) with (payloadDecryptor r).
  destruct (payloadDecryptor r) as [[f|]|]; [done|done|]. cbn [mbind option_bind]. f_equal. by destruct p.
Qed.

Lemma plain_fields r p :
  SSRC (plain r p) = SSRC p /\ SequenceNumber (plain r p) = SequenceNumber p /\
  Timestamp (plain r p) = Timestamp p /\ Marker (plain r p) = Marker p.
Proof. unfold plain. by destruct (payloadDecryptor r) as [[f|]|]. Qed.

(** A packet of the dialog, near the last one and not a marker, is only stored. *)
Lemma receive_store lo r p :
  live r -> ssrcLatched r = true -> SSRC p = expectedSSRC r -> baseSeqSet r = true ->
  in_window lo (lastSeq r) -> in_window lo (SequenceNumber p) ->
  (size (jitterBuffer r) < maxJitterPackets r)%nat -> Marker p = false ->
  receive p r = Some (stored [p] (<[SequenceNumber p := plain r p]> (jitterBuffer r)) (SequenceNumber p) r).
Proof.
  intros Hl Hs Hp Hb Hw1 Hw2 Hsz Hm.
  rewrite receive_plain by apply (ok_decryptor r (live_ok r Hl)).
  destruct (plain_fields r p) as (F1 & F2 & _ & F3). set (q := plain r p) in *. clearbody q.
  rewrite feedJitterBuffer_unfold. set (r1 := r <| rtpPacketsReceived := _ |>).
  assert (Hf : foreign q r1 = false).
  { unfold foreign. change (ssrcLatched r1) with (ssrcLatched r). change (expectedSSRC r1) with (expectedSSRC r).
    by rewrite Hs, F1, Hp, Z.eqb_refl. }
  rewrite Hf. assert (Ha : admit_packet q r1 = r1).
  { unfold admit_packet. change (ssrcLatched r1) with (ssrcLatched r). rewrite Hs. cbv zeta.
    change (baseSeqSet r1) with (baseSeqSet r). rewrite Hb. change (lastSeq r1) with (lastSeq r).
    rewrite F2. by rewrite (in_window_delta lo). }
  cbv zeta. rewrite Ha. change (maxJitterPackets r1) with (maxJitterPackets r).
  change (jitterBuffer r1) with (jitterBuffer r). rewrite (proj2 (Nat.leb_gt _ _)) by done.
  cbn [mbind option_bind]. rewrite F3, Hm.
  assert (E : store_packet q r1 = stored [p] (<[SequenceNumber p := q]> (jitterBuffer r)) (SequenceNumber p) r).
  { unfold store_packet. by rewrite F2. }
  rewrite E. by destruct (holding _).
Qed.

Definition last_seq (pkts : list Packet) (ls : Z) : Z := List.last (map SequenceNumber pkts) ls.

Lemma last_seq_cons p σ ls : last_seq (p :: σ) ls = last_seq σ (SequenceNumber p).
Proof.
  unfold last_seq. cbn [map List.last]. generalize (map SequenceNumber σ), (SequenceNumber p).
  intros l. induction l as [|x l IH]; intros z; [done|]. cbn [List.last] in *. destruct l; [done|apply IH].
Qed.

(** A packet that can be buffered without any other effect. *)
Definition quiet_packet (ssrc lo : Z) (p : Packet) : Prop :=
  SSRC p = ssrc /\ in_window lo (SequenceNumber p) /\ Marker p = false.

Lemma in_window_ok lo s : in_window lo s -> seq_ok s.
Proof. intros (k & _ & ->). apply u16_range. Qed.

Lemma stored_live pkts jb ls r :
  live r -> buffer_ok jb -> (size jb <= maxJitterPackets r)%nat -> live (stored pkts jb ls r).
Proof. intros [[H1 H2 H3 H4 H5] Hm Hs] Hb Hsz. split; [|done|done]. by split. Qed.

Lemma plain_stored pkts jb ls r p : plain (stored pkts jb ls r) p = plain r p.
Proof. done. Qed.

Lemma receiveAll_store lo σ r :
  live r -> ssrcLatched r = true -> baseSeqSet r = true -> in_window lo (lastSeq r) ->
  Forall (quiet_packet (expectedSSRC r) lo) σ ->
  (size (jitterBuffer r) + length σ <= maxJitterPackets r)%nat ->
  receiveAll σ r =
    Some (stored σ (store_all (map (plain r) σ) (jitterBuffer r)) (last_seq σ (lastSeq r)) r) /\
  live (stored σ (store_all (map (plain r) σ) (jitterBuffer r)) (last_seq σ (lastSeq r)) r) /\
  in_window lo (last_seq σ (lastSeq r)).
Proof.
  intros Hl Hs Hb Hw H. revert r Hl Hs Hb Hw H. induction σ as [|p σ IH]; intros r Hl Hs Hb Hw H Hsz.
  - assert (E : stored [] (jitterBuffer r) (lastSeq r) r = r).
    { unfold stored. simpl. rewrite Z.add_0_r. by destruct r. }
    cbn [map store_all fold_left]. change (last_seq [] (lastSeq r)) with (lastSeq r). rewrite E. by split.
  - apply list.Forall_cons in H as [(Hp1 & Hp2 & Hp3) H]. cbn [receiveAll]. simpl in Hsz.
    rewrite (receive_store lo) by (done || lia). cbn [mbind option_bind].
    set (jb1 := <[SequenceNumber p := plain r p]> (jitterBuffer r)).
    assert (Hsz1 : (size jb1 <= S (size (jitterBuffer r)))%nat).
    { unfold jb1. rewrite map_size_insert. destruct (jitterBuffer r !! SequenceNumber p); unfold id; lia. }
    assert (L1 : live (stored [p] jb1 (SequenceNumber p) r)).
    { apply stored_live; [done| |lia]. intros k q. unfold jb1. rewrite lookup_insert_Some.
      intros [[<- _]|[_ E]]; [by eapply in_window_ok|by eapply (ok_buffer r (live_ok r Hl))]. }
    destruct (IH (stored [p] jb1 (SequenceNumber p) r)) as (E1 & E2 & E3); try done.
    { change (jitterBuffer (stored [p] jb1 (SequenceNumber p) r)) with jb1.
      change (maxJitterPackets (stored [p] jb1 (SequenceNumber p) r)) with (maxJitterPackets r). lia. }
    assert (F : stored σ (store_all (map (plain (stored [p] jb1 (SequenceNumber p) r)) σ)
        (jitterBuffer (stored [p] jb1 (SequenceNumber p) r))) (last_seq σ (SequenceNumber p))
        (stored [p] jb1 (SequenceNumber p) r)
      = stored (p :: σ) (store_all (map (plain r) (p :: σ)) (jitterBuffer r)) (last_seq (p :: σ) (lastSeq r)) r).
    { unfold stored at 1. change (jitterBuffer (stored [p] jb1 (SequenceNumber p) r)) with jb1.
      destruct (plain_fields r p) as (_ & Hseq & _).
      cbn [map store_all fold_left]. rewrite Hseq. fold jb1.
      rewrite last_seq_cons. unfold stored. simpl. f_equal. lia. }
    change (lastSeq (stored [p] jb1 (SequenceNumber p) r)) with (SequenceNumber p) in E1, E2, E3.
    rewrite F in E1, E2. rewrite last_seq_cons in *. by split.
Qed.

Lemma receiveAll_app a b r : receiveAll (a ++ b) r = r' ← receiveAll a r; receiveAll b r'.
Proof.
  revert r. induction a as [|p a IH]; intros r; [done|]. cbn [app receiveAll].
  destruct (receive p r) as [r'|]; [apply IH|done].
Qed.

Lemma store_all_perm σ σ' jb :
  σ ≡ₚ σ' -> NoDup (map SequenceNumber σ) -> store_all σ jb = store_all σ' jb.
Proof.
  intros H. revert jb. induction H as [|p a b Hp IH|p q a|a b c H1 IH1 H2 IH2]; intros jb Hn.
  - done.
  - apply IH. cbn [map] in Hn. by apply list.NoDup_cons in Hn as [_ ?].
  - cbn [store_all fold_left]. f_equal. apply insert_insert_ne. cbn [map] in Hn.
    apply list.NoDup_cons in Hn as [Hn _]. intros E. apply Hn. rewrite E. by left.
  - rewrite IH1 by done. apply IH2. by rewrite <- H1.
Qed.

(** The last arrival before a packet does not matter, only that it was near. *)
Lemma receive_lastSeq lo p r ls :
  live r -> ssrcLatched r = true -> SSRC p = expectedSSRC r -> baseSeqSet r = true ->
  in_window lo (lastSeq r) -> in_window lo ls -> in_window lo (SequenceNumber p) ->
  (size (jitterBuffer r) < maxJitterPackets r)%nat ->
  receive p (r <| lastSeq := ls |>) = receive p r.
Proof.
  intros Hl Hs Hp Hb Hw1 Hw2 Hw3 Hsz. pose proof (ok_decryptor r (live_ok r Hl)) as Hd.
  rewrite !receive_plain by done. change (plain (r <| lastSeq := ls |>) p) with (plain r p).
  destruct (plain_fields r p) as (F1 & F2 & _ & F3). set (q := plain r p) in *. clearbody q.
  rewrite !feedJitterBuffer_unfold.
  set (r1 := r <| rtpPacketsReceived := _ |>).
  set (r2 := r <| lastSeq := ls |> <| rtpPacketsReceived := _ |>).
  assert (Hf : foreign q r1 = false /\ foreign q r2 = false).
  { unfold foreign. change (ssrcLatched r1) with (ssrcLatched r). change (expectedSSRC r1) with (expectedSSRC r).
    change (ssrcLatched r2) with (ssrcLatched r). change (expectedSSRC r2) with (expectedSSRC r).
    by rewrite Hs, F1, Hp, Z.eqb_refl. }
  destruct Hf as [-> ->].
  assert (Ha : admit_packet q r1 = r1 /\ admit_packet q r2 = r2).
  { unfold admit_packet. change (ssrcLatched r1) with (ssrcLatched r). change (ssrcLatched r2) with (ssrcLatched r).
    rewrite Hs. cbv zeta. change (baseSeqSet r1) with (baseSeqSet r). change (baseSeqSet r2) with (baseSeqSet r).
    rewrite Hb. change (lastSeq r1) with (lastSeq r). change (lastSeq r2) with ls.
    rewrite F2. by rewrite !(in_window_delta lo). }
  cbv zeta. destruct Ha as [-> ->].
  change (jitterBuffer r1) with (jitterBuffer r). change (jitterBuffer r2) with (jitterBuffer r).
  change (maxJitterPackets r1) with (maxJitterPackets r). change (maxJitterPackets r2) with (maxJitterPackets r).
  rewrite (proj2 (Nat.leb_gt _ _)) by done. cbn [mbind option_bind]. done.
Qed.

Lemma reorder lo σ σ' p r :
  live r -> ssrcLatched r = true -> baseSeqSet r = true -> in_window lo (lastSeq r) ->
  Forall (quiet_packet (expectedSSRC r) lo) σ -> NoDup (map SequenceNumber σ) -> σ ≡ₚ σ' ->
  SSRC p = expectedSSRC r -> in_window lo (SequenceNumber p) ->
  (size (jitterBuffer r) + length σ < maxJitterPackets r)%nat ->
  receiveAll (σ ++ [p]) r = receiveAll (σ' ++ [p]) r.
Proof.
  intros Hl Hs Hb Hw H Hnd Hperm Hp Hwp Hsz.
  assert (H' : Forall (quiet_packet (expectedSSRC r) lo) σ') by (by rewrite <- Hperm).
  pose proof (Permutation_length Hperm) as Hlen.
  destruct (receiveAll_store lo σ r Hl Hs Hb Hw H) as (E1 & L1 & W1); [lia|].
  destruct (receiveAll_store lo σ' r Hl Hs Hb Hw H') as (E2 & L2 & W2); [lia|].
  rewrite !receiveAll_app, E1, E2. cbn [mbind option_bind receiveAll].
  assert (Hjb : store_all (map (plain r) σ) (jitterBuffer r) = store_all (map (plain r) σ') (jitterBuffer r)).
  { apply store_all_perm; [by rewrite Hperm|]. rewrite map_map.
    rewrite (map_ext _ SequenceNumber); [done|]. intros q. apply plain_fields. }
  rewrite <- Hjb in *. set (jb := store_all _ _) in *.
  set (r1 := stored σ jb (last_seq σ (lastSeq r)) r) in *.
  assert (E : stored σ' jb (last_seq σ' (lastSeq r)) r = r1 <| lastSeq := last_seq σ' (lastSeq r) |>).
  { unfold r1, stored. by rewrite Hlen. }
  rewrite E. rewrite (receive_lastSeq lo); try done.
  change (jitterBuffer r1) with jb. change (maxJitterPackets r1) with (maxJitterPackets r).
  assert (Hszs : (size jb <= size (jitterBuffer r) + length σ)%nat); [|lia].
  unfold jb. rewrite <- (length_map (plain r) σ). generalize (map (plain r) σ), (jitterBuffer r). clear.
  intros l. induction l as [|x l IH]; intros m; cbn [store_all fold_left length]; [lia|].
  fold (store_all l (<[SequenceNumber x := x]> m)). specialize (IH (<[SequenceNumber x := x]> m)).
  rewrite map_size_insert in IH. destruct (m !! SequenceNumber x); unfold id in IH; lia.
Qed.

(** ** What emission appends to the log *)

Definition fan_events (r : Receiver) (au : list (list Z)) (ts : Z) (isIDR : bool) : list event :=
  (if hub r then [HubBroadcast ts au isIDR] else []) ++
  (if onAU r then [AUCallback au ts isIDR]
   else if onNALU r then map (fun n => NALUCallback n ts isIDR) au else []).

Definition au_events (r : Receiver) (aus : list (list (list Z))) (ts : Z) : list event :=
  concat (map (fun au => fan_events r au ts
    (IsIDR au (bool_decide (recv_Codec r = "h265"%string)))) aus).

(** [n] access units emitted with the calls [evs]. *)
Definition emitted (n : nat) (evs : list event) (r : Receiver) : Receiver :=
  r <| auEmitted := auEmitted r + Z.of_nat n |> <| out := out r ++ evs |>.

Lemma emit_fold {A} (f : A -> event) l r :
  fold_left (fun r x => emit (f x) r) l r = r <| out := out r ++ map f l |>.
Proof.
  revert r. induction l as [|x l IH]; intros r; cbn [fold_left map].
  - rewrite app_nil_r. by destruct r.
  - rewrite IH. unfold emit. simpl. by rewrite <- app_assoc.
Qed.

Lemma fan_out_spec au ts i r : fan_out au ts i r = r <| out := out r ++ fan_events r au ts i |>.
Proof.
  unfold fan_out, fan_events. rewrite !emit_fold. unfold emit.
  destruct r as [h a n ? ? ? ? ? ? ? ? ? ? ? ? ? ? ? ? ? ? ? ? ? ? ? ? ? ? ? ? o]. simpl.
  destruct h, a, n; simpl; by rewrite <- ?app_assoc, ?app_nil_r.
Qed.

Lemma emit_all_spec aus ts r : emit_all aus ts r = emitted (length aus) (au_events r aus ts) r.
Proof.
  unfold emit_all. revert r. induction aus as [|au aus IH]; intros r; cbn [fold_left].
  - unfold emitted, au_events. simpl. rewrite Z.add_0_r, app_nil_r. by destruct r.
  - rewrite IH. unfold emitAULocked. rewrite fan_out_spec.
    set (r1 := r <| auEmitted := auEmitted r + 1 |>).
    set (e := fan_events r1 au ts _). unfold emitted.
    change (au_events (r1 <| out := out r1 ++ e |>) aus ts) with (au_events r aus ts).
    change (au_events r (au :: aus) ts) with (e ++ au_events r aus ts).
    unfold r1. cbn [length]. rewrite Nat2Z.inj_succ. unfold Z.succ. simpl. rewrite <- app_assoc.
    by replace (auEmitted r + (Z.of_nat (length aus) + 1)) with (auEmitted r + 1 + Z.of_nat (length aus)) by lia.
Qed.

Lemma dispatch_nothing r : audioOut (demuxer r) = [] -> dispatchAudioLocked r = r.
Proof.
  intros H. unfold dispatchAudioLocked, DrainAudio. rewrite H. cbn [length].
  assert (E : r <| demuxer := (demuxer r) <| audioOut := [] |> |> <| audioEmitted := audioEmitted r + Z.of_nat 0 |> = r).
  { rewrite Z.add_0_r. destruct r as [? ? ? ? ? ? ? ? ? ? ? ? ? ? d]. simpl in *. destruct d. simpl in *. by subst. }
  rewrite E. by destruct (onAudio r).
Qed.

(** ** One run in PS mode *)

(** A receiver that has classified its stream as PS and verifies no signatures. *)
Record ps_mode (r : Receiver) : Prop := mkPsMode {
  ps_live : live r;
  ps_latched : ssrcLatched r = true;
  ps_base : baseSeqSet r = true;
  ps_not_held : holding r = false;
  ps_classified : classified r = true;
  ps_not_bare : bareAudio r = false;
  ps_not_es : esLatch r = false;
  ps_unsigned : auVerifier r = None;
}.

(** The bookkeeping of a run: base sequence number, clock and demuxer. *)
Definition ran (n : nat) (ts : Z) (d : PSDemuxer) (r : Receiver) : Receiver :=
  r <| baseSeq := u16 (baseSeq r + Z.of_nat n) |> <| ptsClock := ts |> <| demuxer := d |>.

Lemma processRun_ps run p ts r ns d aus :
  classified r = true -> bareAudio r = false -> esLatch r = false -> auVerifier r = None ->
  last_packet run = Some p -> Timestamp p = ts -> payloads run <> [] ->
  FeedAU (payloads run) ts (Marker p) (demuxer r) = Some (ns, d) -> audioOut d = [] ->
  splitAUsByFrame ns (bool_decide (demux_Codec d = "h265"%string)) = Some aus ->
  processRunLocked run r =
    Some (emitted (length aus) (au_events (ran (length run) ts d r) aus ts) (ran (length run) ts d r)).
Proof.
  intros Hc Hb He Hv Hlp Hts Hne Hf Ha Hsp. unfold processRunLocked.
  assert (Hr : exists q, index run 0 = Some q).
  { apply index_lt. destruct run; [done|simpl; lia]. }
  destruct Hr as [q ->]. cbn [mbind option_bind]. cbv zeta.
  set (r1 := r <| baseSeq := _ |>).
  assert (Hcl : classify (Payload q) r1 = r1).
  { unfold classify. destruct (Payload q); [done|]. change (classified r1) with (classified r). by rewrite Hc. }
  rewrite Hcl. change (bareAudio r1) with (bareAudio r). change (esLatch r1) with (esLatch r). rewrite Hb, He.
  unfold run_ps. rewrite Hlp. cbn [mbind option_bind]. destruct (payloads run) as [|x t] eqn:Ep; [done|].
  rewrite <- Ep in *. clear Ep. rewrite Hts. set (r2 := r1 <| ptsClock := ts |>).
  change (auVerifier r2) with (auVerifier r). rewrite Hv. cbn [negb mbind option_bind].
  change (demuxer r2) with (demuxer r). rewrite Hf. cbn [mbind option_bind].
  change (r2 <| demuxer := d |>) with (ran (length run) ts d r). destruct ns as [|n ns].
  - simpl in Hsp. injection Hsp as <-. rewrite dispatch_nothing by done. f_equal.
    unfold emitted, au_events. simpl. rewrite Z.add_0_r, app_nil_r. by destruct r.
  - rewrite Hsp. cbn [mbind option_bind]. rewrite emit_all_spec.
    by rewrite dispatch_nothing by done.
Qed.

(** Emission of a buffered run that no marker cuts before its end. *)
Lemma split_runs_one cur run :
  run <> [] -> Forall (fun p => Marker p = false) (removelast run) ->
  split_runs cur run = [cur ++ run].
Proof.
  revert cur. induction run as [|p run IH]; intros cur Hne Hm; [done|]. cbn [split_runs].
  destruct run as [|q run].
  - by rewrite orb_true_r.
  - cbn [removelast] in Hm. apply list.Forall_cons in Hm as [Hp Hm]. rewrite Hp. cbn [is_nil orb].
    rewrite IH by done. by rewrite <- app_assoc.
Qed.

Lemma emit_run base run r r2 :
  jitterBuffer r = store_all run ∅ -> numbered base run -> baseSeq r = u16 base ->
  Z.of_nat (length run) < 65536 -> run <> [] -> Forall (fun p => Marker p = false) (removelast run) ->
  processRunLocked run (with_buffer ∅ r) = Some r2 -> jitterBuffer r2 = ∅ ->
  emitAccessUnitsLocked r = Some r2.
Proof.
  intros Hb Hn Hbase Hl Hne Hm Hp Hj. unfold emitAccessUnitsLocked.
  assert (Hsz : size (jitterBuffer r) = length run) by (rewrite Hb; by eapply size_store_all).
  rewrite Hsz. destruct run as [|p run]; [done|]. cbn [length emit_loop].
  rewrite (drain_run base (p :: run)) by done. cbn [mbind option_bind].
  rewrite split_runs_one by done. cbn [app process_runs]. rewrite Hp. cbn [mbind option_bind].
  assert (Hd : drainContiguousRunLocked 2 r2 = Some ([], r2)).
  { cbn [drainContiguousRunLocked]. rewrite Hj. change (size (∅ : gmap Z Packet)) with 0%nat.
    cbn [collect]. rewrite lookup_empty. cbn [mbind option_bind]. unfold nextBufferedSeqLocked.
    change (jitterBuffer (r2 <| jitterBuffer := ∅ |>)) with (∅ : gmap Z Packet).
    rewrite map_to_list_empty. cbn [map nextBufferedSeq fold_left].
    assert (E : r2 <| jitterBuffer := ∅ |> = r2) by (rewrite <- Hj; by destruct r2).
    by rewrite !E. }
  destruct (length run); cbn [emit_loop]; by rewrite Hd.
Qed.

(** ** Properties *)

(** C28: Safety of the packet loop: from any live state (in particular a new
    receiver) and for any sequence of packets whatever (foreign, duplicated,
    reordered, lost, garbage payloads), reception neither panics nor loops, the
    well-formedness of the state is kept, and the jitter buffer never holds more
    than [maxJitterPackets] packets. *)
Theorem receive_safe pkts r :
  live r -> Forall (fun p => seq_ok (SequenceNumber p)) pkts ->
  exists r', receiveAll pkts r = Some r' /\ live r' /\
    (size (jitterBuffer r') <= maxJitterPackets r)%nat.
Proof.
  intros L H. destruct (receiveAll_live pkts r L H) as (r' & E & L' & K). exists r'.
  split; [done|]. split; [done|]. destruct K as [<- _]. apply (live_size r' L').
Qed.

Lemma receive_safe_witness :
  exists r', receiveAll [mkPacket 7 65535 0 true 96 [0xFF; 1] []; mkPacket 8 3 0 false 96 [] [];
                         mkPacket 7 40000 9 true 96 [0; 0; 1; 0xBA] []]
    (NewReceiver true true false true true) = Some r' /\ live r' /\ (size (jitterBuffer r') <= 32)%nat.
Proof.
  apply (receive_safe [mkPacket 7 65535 0 true 96 [0xFF; 1] []; mkPacket 8 3 0 false 96 [] [];
                       mkPacket 7 40000 9 true 96 [0; 0; 1; 0xBA] []]); [apply NewReceiver_live|].
  repeat constructor; done.
Defined.

(** SSRC isolation: once the dialog's SSRC is latched, packets of other
    sources change nothing but the diagnostic counters; a session that shares
    its port with a stale sender ends in the same state, with the same calls
    made, as one that never saw the foreign packets. *)
Theorem ssrc_isolation pkts r :
  live r -> ssrcLatched r = true -> Forall (fun p => seq_ok (SequenceNumber p)) pkts ->
  eqv_opt (receiveAll pkts r) (receiveAll (filter (of_dialog (expectedSSRC r)) pkts) r).
Proof. intros L Hs H. by apply ssrc_filter. Qed.

Definition demo_receiver : Receiver :=
  (NewReceiver true true false true false) <| ssrcLatched := true |> <| expectedSSRC := 7 |>.

Lemma demo_receiver_live : live demo_receiver.
Proof. destruct (NewReceiver_live true true false true false) as [[] ? ?]. by repeat split. Qed.

Lemma ssrc_isolation_witness :
  eqv_opt (receiveAll [mkPacket 8 5 0 true 96 [1] []; mkPacket 7 6 0 true 96 [0; 0; 1; 0xBA] []] demo_receiver)
          (receiveAll [mkPacket 7 6 0 true 96 [0; 0; 1; 0xBA] []] demo_receiver).
Proof.
  apply (ssrc_isolation [mkPacket 8 5 0 true 96 [1] []; mkPacket 7 6 0 true 96 [0; 0; 1; 0xBA] []] demo_receiver).
  - apply demo_receiver_live.
  - reflexivity.
  - repeat constructor; done.
Defined.

(** C27: Reordering before the marker is invisible: packets of the dialog that
    arrive in any order, within the jitter buffer's capacity and a window of a
    thousand sequence numbers (wrap-around included), leave the receiver,
    after the next packet, in the same state with the same calls made. *)
Theorem reorder_tolerated lo σ σ' p r :
  live r -> ssrcLatched r = true -> baseSeqSet r = true -> in_window lo (lastSeq r) ->
  Forall (quiet_packet (expectedSSRC r) lo) σ -> NoDup (map SequenceNumber σ) -> σ ≡ₚ σ' ->
  SSRC p = expectedSSRC r -> in_window lo (SequenceNumber p) ->
  (size (jitterBuffer r) + length σ < maxJitterPackets r)%nat ->
  receiveAll (σ ++ [p]) r = receiveAll (σ' ++ [p]) r.
Proof. apply reorder. Qed.

Lemma reorder_tolerated_witness :
  let r := demo_receiver <| baseSeqSet := true |> <| baseSeq := 65535 |> <| lastSeq := 65534 |> in
  let p0 := mkPacket 7 65535 0 false 96 [0; 0; 1; 0xBA] [] in
  let p1 := mkPacket 7 0 0 false 96 [0x44; 0; 4] [] in
  let p2 := mkPacket 7 1 0 true 96 [0; 4; 1] [] in
  receiveAll [p1; p0; p2] r = receiveAll [p0; p1; p2] r.
Proof.
  intros r p0 p1 p2. apply (reorder_tolerated 65534 [p1; p0] [p0; p1] p2 r).
  - destruct demo_receiver_live as [[] ? ?]. by repeat split.
  - reflexivity.
  - reflexivity.
  - exists 0. by split.
  - repeat constructor; [exists 2|exists 1]; by split.
  - apply (bool_decide_eq_true (NoDup (map SequenceNumber [p1; p0]))). reflexivity.
  - constructor.
  - reflexivity.
  - exists 3. by split.
  - change (size (∅ : gmap Z Packet) + 2 < 32)%nat. rewrite map_size_empty. lia.
Defined.

(** The gap search is deterministic although Go ranges over a map in an
    unspecified order: any order of the buffered sequence numbers gives the
    same answer, the one closest ahead of the base modulo 2^16 within half the
    sequence space, and none exactly when nothing is ahead. *)
Theorem next_buffered_closest base keys keys' :
  Forall seq_ok keys -> keys ≡ₚ keys' ->
  nextBufferedSeq base keys = nextBufferedSeq base keys' /\
  match nextBufferedSeq base keys with
  | Some s => In s keys /\ is_ahead base s = true /\
              forall k, In k keys -> is_ahead base k = true -> ahead base s <= ahead base k
  | None => forall k, In k keys -> is_ahead base k = false
  end.
Proof.
  intros Hk Hp. pose proof (nextBufferedSeq_spec base keys) as S. pose proof (nextBufferedSeq_spec base keys') as S'.
  assert (Hin : forall k, In k keys <-> In k keys').
  { intros k. split; apply Permutation_in; [done|by symmetry]. }
  assert (Hu : forall s s', In s keys -> In s' keys -> ahead base s = ahead base s' -> s = s').
  { intros s s' Hs Hs' E. rewrite List.Forall_forall in Hk. apply Hk in Hs, Hs'. unfold seq_ok, ahead in *.
    apply (u16_inj_near s s'); [|lia]. unfold u16. change (2 ^ 16) with 65536.
    rewrite <- (Z.sub_add base s), <- (Z.sub_add base s'), <- (Zplus_mod_idemp_l (s - base)),
      <- (Zplus_mod_idemp_l (s' - base)), E. done. }
  destruct (nextBufferedSeq base keys) as [s|], (nextBufferedSeq base keys') as [s'|].
  - destruct S as (A1 & A2 & A3), S' as (B1 & B2 & B3). split; [|done]. f_equal.
    apply Hu; [done|by apply Hin|]. pose proof (A3 s' (proj2 (Hin s') B2) B1).
    pose proof (B3 s (proj1 (Hin s) A2) A1). lia.
  - destruct S as (A1 & A2 & _). rewrite (S' s (proj1 (Hin s) A2)) in A1. done.
  - destruct S' as (B1 & B2 & _). rewrite (S s' (proj2 (Hin s') B2)) in B1. done.
  - done.
Qed.

Lemma next_buffered_closest_witness :
  nextBufferedSeq 65530 [3; 65534; 65529; 100] = nextBufferedSeq 65530 [65534; 100; 3; 65529] /\
  nextBufferedSeq 65530 [3; 65534; 65529; 100] = Some 65534.
Proof.
  split; [|reflexivity].
  refine (proj1 (next_buffered_closest 65530 [3; 65534; 65529; 100] [65534; 100; 3; 65529] _ _)).
  - repeat constructor; done.
  - apply (bool_decide_eq_true ([3; 65534; 65529; 100] ≡ₚ [65534; 100; 3; 65529])). vm_compute. reflexivity.
Defined.
