(* ===== verification/RtpSend.v ===== *)
(** The RTP packetizer of the PS muxer ([psmux/rtp.go]): one PS burst becomes
    RTP packets of at most 1400 payload bytes, in the plain hand-rolled form or
    in the GB35114 secured form.

    The connection and pion's [Marshal] are parameters: [write dgram] tells
    whether the write succeeds, [marshal pkt] gives the bytes of a packet or an
    error. The datagrams that were written are returned in order. *)

From S2P Require Import Prelude PsDemux Receiver.
Open Scope Z_scope.

Definition RTPMTU : nat := Z.to_nat 1400.

(** [dst <> nil] is UDP; without it the connection is TCP media. *)
Record RTPPacketizer := mkRTPPacketizer {
  udp : bool;
  ssrc : Z;
  seq : Z;
  payloadTyp : Z;
  sent : Z;
  payloadCryptor : option cryptor;
  auSigner : option (list Z -> Z -> Z -> option (list Z));
}.

#[export] Instance eta_RTPPacketizer : Eta RTPPacketizer := fun p =>
  mkRTPPacketizer (udp p) (ssrc p) (seq p) (payloadTyp p) (sent p) (payloadCryptor p) (auSigner p).

Definition NewRTPPacketizer (ssrc initialSeq : Z) : RTPPacketizer :=
  mkRTPPacketizer true ssrc initialSeq 96 0 None None.

Definition NewRTPPacketizerTCP (ssrc initialSeq : Z) : RTPPacketizer :=
  mkRTPPacketizer false ssrc initialSeq 96 0 None None.

Definition SetSecurity (c : option cryptor) (s : option (list Z -> Z -> Z -> option (list Z)))
    (p : RTPPacketizer) : RTPPacketizer :=
  p <| payloadCryptor := c |> <| auSigner := s |>.

Inductive send_error := ErrSign | ErrMarshal | ErrWrite.

Record send_result := mkSendResult {
  written : list (list Z);
  send_err : option send_error;
  after : RTPPacketizer;
}.

Definition put32 (x : Z) : list Z :=
  [u8 (Z.shiftr x 24); u8 (Z.shiftr x 16); u8 (Z.shiftr x 8); u8 x].

(** The 12-byte header of [sendPlain]. *)
Definition plain_header (p : RTPPacketizer) (tsTicks : Z) (marker : bool) : list Z :=
  [0x80; if marker then Z.lor (payloadTyp p) 0x80 else payloadTyp p]
  ++ put16 (seq p) ++ put32 tsTicks ++ put32 (ssrc p).

(** RFC 4571 framing of TCP media. *)
Definition tcp_frame (pkt : list Z) : list Z := put16 (u16 (Z.of_nat (length pkt))) ++ pkt.

Definition on_wire (p : RTPPacketizer) (pkt : list Z) : list Z := if udp p then pkt else tcp_frame pkt.

Section sender.
Context (write : list Z -> bool).
Context (marshal : Packet -> option (list Z)).

(** The [for] loop of [sendPlain] on the suffix [ps[off:]]. *)
Fixpoint sendPlain_loop (fuel : nat) (rest : list Z) (tsTicks : Z) (p : RTPPacketizer)
  : option send_result :=
  match rest with
  | [] => Some (mkSendResult [] None p)
  | _ =>
      match fuel with
      | O => None
      | S fuel' =>
          let frag := take RTPMTU rest in
          let rest' := drop RTPMTU rest in
          let marker := match rest' with [] => true | _ => false end in
          let pkt := plain_header p tsTicks marker ++ frag in
          let p1 := p <| seq := u16 (seq p + 1) |> in
          let dgram := on_wire p1 pkt in
          if negb (write dgram) then Some (mkSendResult [] (Some ErrWrite) p1) else
          r ← sendPlain_loop fuel' rest' tsTicks (p1 <| sent := sent p1 + 1 |>);
          Some (mkSendResult (dgram :: written r) (send_err r) (after r))
      end
  end.

Definition sendPlain (ps : list Z) (tsTicks : Z) (p : RTPPacketizer) : option send_result :=
  sendPlain_loop (length ps) ps tsTicks p.

(** The packet [sendSecured] hands to pion; an empty signature is no extension. *)
Definition secured_packet (p : RTPPacketizer) (tsTicks : Z) (marker : bool) (sigDER frag : list Z) : Packet :=
  mkPacket (ssrc p) (seq p) (u32 tsTicks) marker (payloadTyp p)
    (match payloadCryptor p with Some c => c frag (ssrc p) (seq p) | None => frag end)
    (if marker then sigDER else []).

Fixpoint sendSecured_loop (fuel : nat) (rest : list Z) (tsTicks : Z) (sigDER : list Z)
    (p : RTPPacketizer) : option send_result :=
  match rest with
  | [] => Some (mkSendResult [] None p)
  | _ =>
      match fuel with
      | O => None
      | S fuel' =>
          let frag := take RTPMTU rest in
          let rest' := drop RTPMTU rest in
          let marker := match rest' with [] => true | _ => false end in
          match marshal (secured_packet p tsTicks marker sigDER frag) with
          | None => Some (mkSendResult [] (Some ErrMarshal) p)
          | Some pkt =>
              let dgram := on_wire p pkt in
              if negb (write dgram) then Some (mkSendResult [] (Some ErrWrite) p) else
              r ← sendSecured_loop fuel' rest' tsTicks sigDER
                    (p <| seq := u16 (seq p + 1) |> <| sent := sent p + 1 |>);
              Some (mkSendResult (dgram :: written r) (send_err r) (after r))
          end
      end
  end.

Definition sendSecured (ps : list Z) (tsTicks : Z) (p : RTPPacketizer) : option send_result :=
  match auSigner p with
  | None => sendSecured_loop (length ps) ps tsTicks [] p
  | Some sign =>
      match sign ps (ssrc p) (u32 tsTicks) with
      | None => Some (mkSendResult [] (Some ErrSign) p)
      | Some sigDER => sendSecured_loop (length ps) ps tsTicks sigDER p
      end
  end.

Definition Send (ps : list Z) (tsTicks : Z) (p : RTPPacketizer) : option send_result :=
  match payloadCryptor p, auSigner p with
  | None, None => sendPlain ps tsTicks p
  | _, _ => sendSecured ps tsTicks p
  end.
End sender.

(** ** What is on the wire *)

Lemma RTPMTU_Z : Z.of_nat RTPMTU = 1400.
Proof. unfold RTPMTU. by rewrite Z2Nat.id. Qed.

#[global] Opaque RTPMTU.

(** The fragments of a burst. *)
Fixpoint fragments (fuel : nat) (rest : list Z) : list (list Z) :=
  match fuel with
  | O => []
  | S fuel' => match rest with
               | [] => []
               | _ => take RTPMTU rest :: fragments fuel' (drop RTPMTU rest)
               end
  end.

(** The packets of a burst as the receiver would see them after unmarshalling:
    consecutive sequence numbers, one timestamp, the marker (and with it the
    signature) on the last fragment. *)
Fixpoint burst (frags : list (list Z)) (tsTicks : Z) (sigDER : list Z) (p : RTPPacketizer) : list Packet :=
  match frags with
  | [] => []
  | f :: rest =>
      secured_packet p tsTicks (match rest with [] => true | _ => false end) sigDER f ::
      burst rest tsTicks sigDER (p <| seq := u16 (seq p + 1) |> <| sent := sent p + 1 |>)
  end.

Lemma fragments_concat fuel rest : (length rest <= fuel)%nat -> concat (fragments fuel rest) = rest.
Proof.
  revert rest. induction fuel as [|fuel IH]; intros rest H.
  - by destruct rest; [|simpl in H; lia].
  - destruct rest as [|b rest]; [done|]. cbn [fragments concat].
    rewrite IH; [apply take_drop|]. rewrite length_drop. pose proof RTPMTU_Z. simpl in *. lia.
Qed.

Lemma fragments_nonempty fuel rest : Forall (fun f => f <> []) (fragments fuel rest).
Proof.
  revert rest. induction fuel as [|fuel IH]; intros rest; [constructor|].
  destruct rest as [|b rest]; [constructor|]. cbn [fragments]. constructor; [|done].
  pose proof RTPMTU_Z. destruct RTPMTU; [lia|done].
Qed.

Lemma fragments_nil fuel rest : (length rest <= fuel)%nat -> fragments fuel rest = [] -> rest = [].
Proof. destruct fuel, rest; simpl; try done; lia. Qed.

(** Fragments after the first cut, with the fuel that is left. *)
Lemma fragments_fuel fuel fuel' rest :
  (length rest <= fuel)%nat -> (length rest <= fuel')%nat -> fragments fuel rest = fragments fuel' rest.
Proof.
  revert fuel' rest. induction fuel as [|fuel IH]; intros fuel' rest H H'.
  - destruct rest; [by destruct fuel'|simpl in H; lia].
  - destruct rest as [|b rest]; [by destruct fuel'|]. destruct fuel' as [|fuel']; [simpl in H'; lia|].
    cbn [fragments]. f_equal. apply IH; rewrite length_drop; pose proof RTPMTU_Z; simpl in *; lia.
Qed.

Lemma burst_length frags ts sg p : length (burst frags ts sg p) = length frags.
Proof. revert p. induction frags as [|f frags IH]; intros p; simpl; [done|]. by rewrite IH. Qed.

(** The bytes of a packet that [sendPlain] writes. *)
Definition plain_bytes (q : Packet) : list Z :=
  [0x80; if Marker q then Z.lor (PayloadType q) 0x80 else PayloadType q]
  ++ put16 (SequenceNumber q) ++ put32 (Timestamp q) ++ put32 (SSRC q) ++ Payload q.

Lemma put32_u32 x : put32 (u32 x) = put32 x.
Proof.
  assert (L : forall k, 0 <= k <= 24 -> u8 (Z.shiftr (u32 x) k) = u8 (Z.shiftr x k)).
  { intros k Hk. unfold u8, u32. apply Z.bits_inj'. intros n Hn.
    destruct (Z.ltb_spec n 8).
    - rewrite !Z.mod_pow2_bits_low by lia. rewrite !Z.shiftr_spec by lia.
      apply Z.mod_pow2_bits_low. lia.
    - by rewrite !Z.mod_pow2_bits_high by lia. }
  pose proof (L 0 ltac:(lia)) as L0. rewrite !Z.shiftr_0_r in L0.
  unfold put32. rewrite !L by lia. by rewrite L0.
Qed.

(** The packetizer after [n] packets. *)
Definition advanced (n : nat) (p : RTPPacketizer) : RTPPacketizer :=
  p <| seq := u16 (seq p + Z.of_nat n) |> <| sent := sent p + Z.of_nat n |>.

Definition seq16 (p : RTPPacketizer) : Prop := 0 <= seq p < 65536.

Lemma advanced_0 p : seq16 p -> advanced 0 p = p.
Proof. intros H. unfold advanced. simpl. rewrite !Z.add_0_r, u16_small by done. by destruct p. Qed.

Lemma advanced_S n p : advanced n (advanced 1 p) = advanced (S n) p.
Proof.
  assert (E1 : u16 (u16 (seq p + Z.of_nat 1) + Z.of_nat n) = u16 (seq p + Z.of_nat (S n))).
  { unfold u16. rewrite Zplus_mod_idemp_l. f_equal. lia. }
  assert (E2 : sent p + Z.of_nat 1 + Z.of_nat n = sent p + Z.of_nat (S n)) by lia.
  unfold advanced. rewrite <- E1, <- E2. done.
Qed.

Lemma advanced_seq16 n p : seq16 (advanced n p).
Proof. unfold seq16, advanced, u16. simpl. apply Z.mod_pos_bound. lia. Qed.

(** The marker test of the loop is the last-fragment test of [burst]. *)
Lemma marker_fragments fuel rest : (length rest <= fuel)%nat ->
  match rest with [] => true | _ => false end =
  match fragments fuel rest with [] => true | _ => false end.
Proof.
  intros H. destruct (fragments fuel rest) eqn:E.
  - by rewrite (fragments_nil fuel rest H E).
  - destruct rest; [|done]. by destruct fuel.
Qed.

(** Everything written when no write fails. *)
Lemma sendPlain_loop_spec write fuel rest ts p :
  (forall d, write d = true) -> payloadCryptor p = None -> seq16 p -> (length rest <= fuel)%nat ->
  let pkts := burst (fragments fuel rest) ts [] p in
  sendPlain_loop write fuel rest ts p =
    Some (mkSendResult (map (fun q => on_wire p (plain_bytes q)) pkts) None (advanced (length pkts) p)).
Proof.
  intros Hw. revert rest p. induction fuel as [|fuel IH]; intros rest p Hc Hs Hf pkts.
  - destruct rest; [|simpl in Hf; lia]. unfold pkts. simpl. by rewrite advanced_0.
  - destruct rest as [|b rest]; [unfold pkts; simpl; by rewrite advanced_0|].
    unfold pkts. cbn [sendPlain_loop fragments burst]. rewrite Hw. cbn [negb].
    set (r' := drop RTPMTU (b :: rest)).
    assert (Hr : (length r' <= fuel)%nat).
    { unfold r'. rewrite length_drop. pose proof RTPMTU_Z. simpl in *. lia. }
    change (p <| seq := u16 (seq p + 1) |> <| sent := sent (p <| seq := u16 (seq p + 1) |>) + 1 |>)
      with (advanced 1 p).
    change (p <| seq := u16 (seq p + 1) |> <| sent := sent p + 1 |>) with (advanced 1 p).
    rewrite (IH r' (advanced 1 p)) by (done || apply advanced_seq16). cbn [mbind option_bind map length].
    rewrite advanced_S. rewrite (marker_fragments fuel r' Hr). do 3 f_equal.
    unfold secured_packet, plain_bytes. rewrite Hc. cbn [SSRC SequenceNumber Timestamp Marker PayloadType Payload].
    rewrite put32_u32. unfold plain_header. by rewrite <- !app_assoc.
Qed.

Lemma sendSecured_loop_spec write marshal fuel rest ts sg p :
  (forall d, write d = true) -> seq16 p -> (length rest <= fuel)%nat ->
  let pkts := burst (fragments fuel rest) ts sg p in
  (forall q, In q pkts -> is_Some (marshal q)) ->
  sendSecured_loop write marshal fuel rest ts sg p =
    Some (mkSendResult (map (fun q => on_wire p (default [] (marshal q))) pkts) None
            (advanced (length pkts) p)).
Proof.
  intros Hw. revert rest p. induction fuel as [|fuel IH]; intros rest p Hs Hf pkts Hm.
  - destruct rest; [|simpl in Hf; lia]. unfold pkts. simpl. by rewrite advanced_0.
  - destruct rest as [|b rest]; [unfold pkts; simpl; by rewrite advanced_0|].
    unfold pkts in *. cbn [sendSecured_loop fragments burst] in *.
    set (r' := drop RTPMTU (b :: rest)) in *.
    assert (Hr : (length r' <= fuel)%nat).
    { unfold r'. rewrite length_drop. pose proof RTPMTU_Z. simpl in *. lia. }
    change (p <| seq := u16 (seq p + 1) |> <| sent := sent p + 1 |>) with (advanced 1 p) in *.
    rewrite <- (marker_fragments fuel r' Hr) in *.
    destruct (Hm _ (or_introl eq_refl)) as [d Hd]. cbn [map]. rewrite Hd. cbn [default].
    rewrite Hw. cbn [negb].
    rewrite (IH r' (advanced 1 p)); [|apply advanced_seq16|done|].
    + cbn [mbind option_bind length]. by rewrite advanced_S.
    + intros q Hq. apply Hm. by right.
Qed.

(** ** A parser for the fixed header *)

(** RFC 3550's fixed header (version 2, no padding, extension or CSRC), as a
    concrete instance of what pion's [Unmarshal] does on such packets. *)
Definition be32 (a b c d : Z) : Z := be16 a b * 65536 + be16 c d.

Definition parse_rtp (l : list Z) : option Packet :=
  match l with
  | b0 :: b1 :: s1 :: s0 :: t3 :: t2 :: t1 :: t0 :: c3 :: c2 :: c1 :: c0 :: payload =>
      if b0 =? 0x80 then
        Some (mkPacket (be32 c3 c2 c1 c0) (be16 s1 s0) (be32 t3 t2 t1 t0)
                (negb (Z.land b1 0x80 =? 0)) (Z.land b1 0x7F) payload [])
      else None
  | _ => None
  end.

(** What the receiver relies on in pion: packets of this form are parsed so. *)
Definition parses_plain (unmarshal : list Z -> option Packet) : Prop :=
  forall q, 0 <= PayloadType q < 128 -> 0 <= SequenceNumber q < 65536 ->
    0 <= Timestamp q < 4294967296 -> 0 <= SSRC q < 4294967296 -> AUSig q = [] ->
    unmarshal (plain_bytes q) = Some q.

Lemma be32_put32 x : 0 <= x < 4294967296 ->
  be32 (u8 (Z.shiftr x 24)) (u8 (Z.shiftr x 16)) (u8 (Z.shiftr x 8)) (u8 x) = x.
Proof.
  intros H. unfold be32. rewrite !be16_add by apply u8_range. unfold u8.
  rewrite !Z.shiftr_div_pow2 by lia. change (2 ^ 24) with 16777216. change (2 ^ 16) with 65536.
  change (2 ^ 8) with 256. Z.to_euclidean_division_equations. lia.
Qed.

Lemma parse_rtp_plain : parses_plain parse_rtp.
Proof.
  intros [c s t m pt pl sg]. simpl. intros Hpt Hs Ht Hc ->.
  rewrite !be32_put32, be16_put16 by done.
  assert (B : forall y, is_byte y -> negb (y <? 128) ||
     ((Z.land (Z.lor y 0x80) 0x7F =? y) && negb (Z.land (Z.lor y 0x80) 0x80 =? 0) &&
      (Z.land y 0x7F =? y) && (Z.land y 0x80 =? 0)) = true)
    by (apply forall_byte; vm_compute; reflexivity).
  specialize (B pt ltac:(unfold is_byte; lia)). rewrite (proj2 (Z.ltb_lt pt 128)) in B by lia.
  cbn [negb orb] in B. rewrite !andb_true_iff, negb_true_iff, !Z.eqb_eq in B. destruct B as (((B1 & B2) & B3) & B4).
  destruct m; [by rewrite B1, B2|by rewrite B3, B4].
Qed.

(** ** What [Send] promises *)

(** The datagrams that go out before the first write that fails. *)
Fixpoint until_failure (write : list Z -> bool) (ds : list (list Z)) : list (list Z) :=
  match ds with
  | [] => []
  | d :: rest => if write d then d :: until_failure write rest else []
  end.

(** The bytes of one packet: hand-rolled without media security, pion's with it. *)
Definition encode (marshal : Packet -> option (list Z)) (p : RTPPacketizer) (q : Packet) : list Z :=
  match payloadCryptor p, auSigner p with
  | None, None => plain_bytes q
  | _, _ => default [] (marshal q)
  end.

(** The AU signature, empty without a signer. *)
Definition signature (p : RTPPacketizer) (ps : list Z) (ts : Z) : option (list Z) :=
  match auSigner p with None => Some [] | Some sign => sign ps (ssrc p) (u32 ts) end.

(** How a run of the loop ends: what is written, counted and reported. *)
Definition sends (write : list Z -> bool) (ds : list (list Z)) (p : RTPPacketizer)
    (o : option send_result) : Prop :=
  exists res, o = Some res /\ written res = until_failure write ds /\
    send_err res = (if forallb write ds then None else Some ErrWrite) /\
    sent (after res) = sent p + Z.of_nat (length (written res)) /\
    (forallb write ds = true -> after res = advanced (length ds) p).

Lemma sends_nil write p : seq16 p -> sends write [] p (Some (mkSendResult [] None p)).
Proof. intros H. eexists. split; [done|]. simpl. rewrite advanced_0 by done. split_and!; try done. lia. Qed.

Lemma sends_fail write d ds p p1 : write d = false -> sent p1 = sent p ->
  sends write (d :: ds) p (Some (mkSendResult [] (Some ErrWrite) p1)).
Proof. intros H E. eexists. split; [done|]. simpl. rewrite H, E. split_and!; try done. lia. Qed.

Lemma sends_cons write d ds p o : write d = true -> sends write ds (advanced 1 p) o ->
  sends write (d :: ds) p (r ← o; Some (mkSendResult (d :: written r) (send_err r) (after r))).
Proof.
  intros H (res & -> & E1 & E2 & E3 & E4). eexists. split; [done|]. simpl. rewrite H. cbn [andb].
  split; [by f_equal|]. split; [done|]. split; [rewrite E3; simpl; lia|].
  intros Ha. rewrite (E4 Ha). simpl. apply advanced_S.
Qed.

Lemma sendPlain_sends write fuel rest ts p :
  payloadCryptor p = None -> seq16 p -> (length rest <= fuel)%nat ->
  sends write (map (fun q => on_wire p (plain_bytes q)) (burst (fragments fuel rest) ts [] p)) p
    (sendPlain_loop write fuel rest ts p).
Proof.
  revert rest p. induction fuel as [|fuel IH]; intros rest p Hc Hs Hf.
  - destruct rest; [|simpl in Hf; lia]. by apply sends_nil.
  - destruct rest as [|b rest]; [by apply sends_nil|]. cbn [sendPlain_loop fragments burst map].
    set (r' := drop RTPMTU (b :: rest)).
    assert (Hr : (length r' <= fuel)%nat).
    { unfold r'. rewrite length_drop. pose proof RTPMTU_Z. simpl in *. lia. }
    set (mk := match r' with [] => true | _ => false end).
    assert (E : on_wire p (plain_bytes (secured_packet p ts
       (match fragments fuel r' with [] => true | _ => false end) [] (take RTPMTU (b :: rest)))) =
       on_wire (p <| seq := u16 (seq p + 1) |>) (plain_header p ts mk ++ take RTPMTU (b :: rest))).
    { unfold mk. rewrite (marker_fragments fuel r' Hr). unfold secured_packet, plain_bytes. rewrite Hc.
      cbn [SSRC SequenceNumber Timestamp Marker PayloadType Payload]. rewrite put32_u32.
      unfold plain_header. by rewrite <- !app_assoc. }
    rewrite E. destruct (write _) eqn:Hw; cbn [negb]; [|by apply sends_fail].
    apply sends_cons; [done|]. by apply (IH r' (advanced 1 p)); [|apply advanced_seq16|].
Qed.

Lemma sendSecured_sends write marshal fuel rest ts sg p :
  (forall q, is_Some (marshal q)) -> seq16 p -> (length rest <= fuel)%nat ->
  sends write (map (fun q => on_wire p (default [] (marshal q))) (burst (fragments fuel rest) ts sg p)) p
    (sendSecured_loop write marshal fuel rest ts sg p).
Proof.
  intros Hm. revert rest p. induction fuel as [|fuel IH]; intros rest p Hs Hf.
  - destruct rest; [|simpl in Hf; lia]. by apply sends_nil.
  - destruct rest as [|b rest]; [by apply sends_nil|]. cbn [sendSecured_loop fragments burst map].
    set (r' := drop RTPMTU (b :: rest)).
    assert (Hr : (length r' <= fuel)%nat).
    { unfold r'. rewrite length_drop. pose proof RTPMTU_Z. simpl in *. lia. }
    rewrite (marker_fragments fuel r' Hr).
    destruct (Hm (secured_packet p ts (match fragments fuel r' with [] => true | _ => false end) sg
      (take RTPMTU (b :: rest)))) as [d Hd]. rewrite Hd. cbn [default].
    destruct (write _) eqn:Hw; cbn [negb]; [|by apply sends_fail].
    apply sends_cons; [done|]. by apply (IH r' (advanced 1 p)); [apply advanced_seq16|].
Qed.

(** One packet of a burst: numbered, stamped, marked and cut as promised. *)
Definition well_cut (ps : list Z) (ts : Z) (sg : list Z) (p : RTPPacketizer) (frags : list (list Z))
    (pkts : list Packet) : Prop :=
  concat frags = ps /\ Forall (fun f => f <> [] /\ len f <= 1400) frags /\ length pkts = length frags /\
  forall i q f, pkts !! i = Some q -> frags !! i = Some f ->
    SequenceNumber q = u16 (seq p + Z.of_nat i) /\ Timestamp q = u32 ts /\ SSRC q = ssrc p /\
    PayloadType q = payloadTyp p /\ Marker q = Nat.eqb (S i) (length frags) /\
    AUSig q = (if Marker q then sg else []) /\
    Payload q = match payloadCryptor p with
                | Some c => c f (ssrc p) (SequenceNumber q) | None => f end.

Lemma fragments_short fuel rest : Forall (fun f => f <> [] /\ len f <= 1400) (fragments fuel rest).
Proof.
  revert rest. induction fuel as [|fuel IH]; intros rest; [constructor|].
  destruct rest as [|b rest]; [constructor|]. cbn [fragments]. constructor; [|apply IH].
  pose proof RTPMTU_Z. split; [by destruct RTPMTU; [lia|]|]. unfold len. rewrite length_take. lia.
Qed.

Lemma burst_lookup frags ts sg p i q f :
  seq16 p -> burst frags ts sg p !! i = Some q -> frags !! i = Some f ->
  q = secured_packet (advanced i p) ts (Nat.eqb (S i) (length frags)) sg f.
Proof.
  revert p i. induction frags as [|g frags IH]; intros p i Hs Hq Hf; [done|]. destruct i as [|i].
  - simpl in Hq, Hf. injection Hq as <-. injection Hf as <-. rewrite advanced_0 by done. by destruct frags.
  - cbn [burst] in Hq. change (p <| seq := u16 (seq p + 1) |> <| sent := sent p + 1 |>) with (advanced 1 p) in Hq.
    simpl in Hq, Hf. apply (IH (advanced 1 p)) in Hq; [|apply advanced_seq16|done]. by rewrite Hq, advanced_S.
Qed.

(** One PS burst becomes RTP packets that cover it: whatever the burst, with
    or without encryption and AU signing, the fragments concatenate to the
    burst and are 1 to 1400 bytes long; packet [i] carries fragment [i]
    (encrypted under its own sequence number), sequence number [seq + i] modulo
    2^16, the burst's timestamp, the marker exactly on the last packet and the
    signature exactly with the marker. The datagrams that go out are these
    packets up to the first failed write, which is reported and counted so. *)
Theorem Send_burst write marshal ps ts p sg :
  seq16 p -> (forall q, is_Some (marshal q)) -> signature p ps ts = Some sg ->
  let frags := fragments (length ps) ps in
  let pkts := burst frags ts sg p in
  well_cut ps ts sg p frags pkts /\
  sends write (map (fun q => on_wire p (encode marshal p q)) pkts) p (Send write marshal ps ts p).
Proof.
  intros Hs Hm Hsg frags pkts. split.
  - split; [by apply fragments_concat|]. split; [apply fragments_short|]. split; [apply burst_length|].
    intros i q f Hq Hf. by rewrite (burst_lookup frags ts sg p i q f Hs Hq Hf).
  - unfold Send, encode, signature in *. destruct (auSigner p) as [sign|] eqn:Ea.
    + assert (E : sends write (map (fun q => on_wire p (default [] (marshal q))) pkts) p (sendSecured write marshal ps ts p)).
      { unfold sendSecured. rewrite Ea, Hsg. by apply sendSecured_sends. }
      by destruct (payloadCryptor p).
    + injection Hsg as <-. destruct (payloadCryptor p) eqn:Ec.
      * unfold sendSecured. rewrite Ea. by apply sendSecured_sends.
      * by apply sendPlain_sends.
Qed.

Lemma Send_burst_witness :
  let p := NewRTPPacketizer 7 65535 in
  let pkts := burst (fragments (length (repeat 1 2000)) (repeat 1 2000)) 90 [] p in
  map SequenceNumber pkts = [65535; 0] /\ map Marker pkts = [false; true] /\
  sends (fun d => Nat.leb 1000 (length d)) (map (fun q => on_wire p (plain_bytes q)) pkts) p
    (Send (fun d => Nat.leb 1000 (length d)) (fun q => Some (plain_bytes q)) (repeat 1 2000) 90 p).
Proof.
  split; [vm_compute; reflexivity|]. split; [vm_compute; reflexivity|].
  apply (Send_burst (fun d => Nat.leb 1000 (length d)) (fun q => Some (plain_bytes q)) (repeat 1 2000) 90
    (NewRTPPacketizer 7 65535) []).
  - done.
  - by eexists.
  - done.
Defined.
