(* ===== verification/Pipeline.v ===== *)
(** The media path end to end: [psmux.Muxer.WriteAU], [psmux.RTPPacketizer.Send],
    [platform.Receiver] and [platform.PSDemuxer]. What one side writes, the hub
    and the callbacks of the other side are called with. *)

From S2P Require Import Prelude NalUtil PesParse PsDemux PsMux PsStream PsRoundtrip.
From S2P Require Import AuSplit EsDemux Receiver ReceiverSpec RtpSend.
Open Scope Z_scope.

Import Mux (Muxer, videoType, audioType, psmDirty, New, SetVideoCodec, WriteAU).

(** ** One burst, in order *)

(** The callbacks and what else of the configuration a burst leaves alone. *)
Definition sinks (r : Receiver) := (hub r, onAU r, onNALU r).
Definition same_setup (r r' : Receiver) : Prop := keeps r r' /\ sinks r' = sinks r.

#[export] Instance same_setup_preorder : PreOrder same_setup.
Proof.
  split; [by intros r; split|]. intros a b c [K1 S1] [K2 S2]. split; [by etrans|congruence].
Qed.

(** A packet of the access unit in flight, before its marker. *)
Definition inner (ts : Z) (p : Packet) : Prop :=
  Marker p = false /\ Timestamp p = ts /\ Payload p <> [].

(** The receiver in the middle of a burst: [cur] is buffered, from [base]. *)
Record mid (ts base : Z) (cur : list Packet) (r : Receiver) : Prop := mkMid {
  mid_ps : ps_mode r;
  mid_small : Z.of_nat (maxJitterPackets r) < 65536;
  mid_buffer : jitterBuffer r = store_all cur ∅;
  mid_numbered : numbered base cur;
  mid_base : baseSeq r = u16 base;
  mid_length : (length cur <= maxJitterPackets r)%nat;
  mid_inner : Forall (inner ts) cur;
  mid_last : lastSeq r = u16 (base + Z.of_nat (length cur) - 1);
  mid_audio : audioOut (demuxer r) = [];
}.

(** The demuxer's share: [b] is still to come, [us] is what is pending. *)
Definition flight (us : unit_list) (cur : list Packet) (b : list Z) (r : Receiver) : Prop :=
  all_units us /\ silent us /\ pending (demuxer r) ++ payloads cur ++ b = bytes us.

Lemma payloads_app a b : payloads (a ++ b) = payloads a ++ payloads b.
Proof. unfold payloads. by rewrite map_app, concat_app. Qed.

Lemma payloads_inner ts run : Forall (inner ts) run -> run <> [] -> payloads run <> [].
Proof.
  intros H Hne. destruct H as [|p run (_ & _ & Hp) _]; [done|]. unfold payloads. cbn [map concat].
  by destruct (Payload p).
Qed.

Lemma last_packet_snoc run p : last_packet (run ++ [p]) = Some p.
Proof.
  unfold last_packet, index. rewrite length_app. simpl.
  replace (length run + 1 - 1)%nat with (length run) by lia.
  by rewrite lookup_app_r, Nat.sub_diag by lia.
Qed.

Lemma ps_mode_ran n ts d r : ps_mode r -> jitterBuffer r = ∅ -> ps_mode (ran n ts d r).
Proof.
  intros [[[H1 H2 H3 H4 H5] Hm Hs] P2 P3 P4 P5 P6 P7 P8] Hj. split; try done.
  split; [|done|done]. split; try done. apply u16_range.
Qed.

Lemma ps_mode_with_empty r : ps_mode r -> ps_mode (with_buffer ∅ r).
Proof.
  intros [[[H1 H2 H3 H4 H5] Hm Hs] P2 P3 P4 P5 P6 P7 P8]. split; try done.
  split; [by split|done|]. change (size (∅ : gmap Z Packet) <= maxJitterPackets r)%nat.
  rewrite map_size_empty. lia.
Qed.

Lemma emitted_nothing r : emitted 0 [] r = r.
Proof. unfold emitted. rewrite Z.add_0_r, app_nil_r. by destruct r. Qed.

(** Overflow: the buffered run goes to the demuxer, which absorbs it. *)
Lemma make_room us ts base cur b r :
  mid ts base cur r -> flight us cur b r ->
  exists us' base' cur' r',
    (if Nat.leb (maxJitterPackets r) (size (jitterBuffer r))
     then emitAccessUnitsLocked r else Some r) = Some r' /\
    mid ts base' cur' r' /\ flight us' cur' b r' /\ (length cur' < maxJitterPackets r')%nat /\
    base' + Z.of_nat (length cur') = base + Z.of_nat (length cur) /\
    effect us' ts (clear_pending (demuxer r')) = effect us ts (clear_pending (demuxer r)) /\
    out r' = out r /\ same_setup r r'.
Proof.
  intros M (Hu & Hsil & Hb). pose proof M as M0. destruct M0 as [P Hsm Hj Hn Hbase Hl Hin Hls Ha].
  assert (Hsz : size (jitterBuffer r) = length cur) by (rewrite Hj; apply (size_store_all base); [done|lia]).
  rewrite Hsz. destruct (Nat.leb_spec (maxJitterPackets r) (length cur)) as [Hfull|Hroom].
  2:{ exists us, base, cur, r. split; [done|]. split; [exact M|]. split; [by split|]. split; [done|].
      split; [done|]. split; [done|]. split; [done|reflexivity]. }
  pose proof (live_max r (ps_live r P)) as Hmax.
  assert (Hne : cur <> []) by (destruct cur; [simpl in Hfull; lia|done]).
  destruct (FeedAU_partial us (payloads cur) b ts (demuxer r) Hu (payloads_inner ts cur Hin Hne) Hb)
    as (us1 & us2 & d' & -> & E1 & E2 & E3).
  apply Forall_app in Hu as [Hu1 Hu2]. apply Forall_app in Hsil as [Hs1 Hs2].
  assert (Ha' : audioOut d' = []).
  { change (audioOut d') with (audioOut (clear_pending d')). rewrite E3.
    rewrite silent_effect by done. exact Ha. }
  destruct (exists_last Hne) as (init & p & Ecur).
  assert (Hp : inner ts p /\ Forall (fun p => Marker p = false) (removelast cur)).
  { rewrite Ecur in Hin |- *. apply Forall_app in Hin as [Hi Hp]. apply list.Forall_cons in Hp as [Hp _].
    split; [done|]. rewrite removelast_last. eapply list.Forall_impl; [exact Hi|]. by intros q (? & _). }
  destruct Hp as [(Hpm & Hpt & _) Hrm].
  set (r2 := ran (length cur) ts d' (with_buffer ∅ r)).
  assert (Hpr : processRunLocked cur (with_buffer ∅ r) = Some r2).
  { destruct P as [L P2 P3 P4 P5 P6 P7 P8].
    rewrite (processRun_ps cur p ts (with_buffer ∅ r) [] d' []); try done.
    - by rewrite emitted_nothing.
    - rewrite Ecur. apply last_packet_snoc.
    - by eapply payloads_inner.
    - by rewrite Hpm. }
  rewrite (emit_run base cur r r2) by (done || lia).
  exists us2, (base + Z.of_nat (length cur)), [], r2. split; [done|].
  split; [|split; [by split|split; [|split; [|split; [|split]]]]].
  - split; try done.
    + apply ps_mode_ran; [by apply ps_mode_with_empty|done].
    + change (baseSeq r2) with (u16 (baseSeq r + Z.of_nat (length cur))). rewrite Hbase.
      unfold u16. by rewrite Zplus_mod_idemp_l.
    + simpl. lia.
    + change (lastSeq r2) with (lastSeq r). rewrite Hls. by rewrite Z.add_0_r.
  - change (maxJitterPackets r2) with (maxJitterPackets r). simpl. lia.
  - simpl. lia.
  - change (demuxer r2) with d'. rewrite E3. by rewrite effect_app.
  - done.
  - split; [by repeat split|done].
Qed.

(** Counting a packet changes nothing else. *)
Definition counted (r : Receiver) : Receiver := r <| rtpPacketsReceived := rtpPacketsReceived r + 1 |>.

Lemma mid_counted ts base cur r : mid ts base cur r -> mid ts base cur (counted r).
Proof.
  intros [[[[H1 H2 H3 H4 H5] Hm Hs] P2 P3 P4 P5 P6 P7 P8] ? ? ? ? ? ? ? ?].
  by split.
Qed.

(** The next packet in sequence is admitted as it is, after making room. *)
Lemma receive_next ts base cur r p :
  mid ts base cur r -> SSRC p = expectedSSRC r ->
  SequenceNumber p = u16 (base + Z.of_nat (length cur)) ->
  receive p r =
    (r4 ← (if Nat.leb (maxJitterPackets (counted r)) (size (jitterBuffer (counted r)))
           then emitAccessUnitsLocked (counted r) else Some (counted r));
     let r5 := store_packet (plain r p) r4 in
     if holding r5 then Some r5
     else if Marker p then emitAccessUnitsLocked r5 else Some r5).
Proof.
  intros M Hp Hseq. destruct M as [[L P2 P3 P4 P5 P6 P7 P8] Hsm Hj Hn Hbase Hl Hin Hls Ha].
  rewrite receive_plain by apply (ok_decryptor r (live_ok r L)).
  destruct (plain_fields r p) as (F1 & F2 & _ & F3). set (q := plain r p) in *. clearbody q.
  rewrite feedJitterBuffer_unfold. fold (counted r).
  assert (Hf : foreign q (counted r) = false).
  { unfold foreign. change (ssrcLatched (counted r)) with (ssrcLatched r).
    change (expectedSSRC (counted r)) with (expectedSSRC r). by rewrite P2, F1, Hp, Z.eqb_refl. }
  rewrite Hf. assert (Had : admit_packet q (counted r) = counted r).
  { unfold admit_packet. change (ssrcLatched (counted r)) with (ssrcLatched r). rewrite P2. cbv zeta.
    change (baseSeqSet (counted r)) with (baseSeqSet r). rewrite P3.
    change (lastSeq (counted r)) with (lastSeq r). rewrite Hls, F2, Hseq.
    rewrite (in_window_delta (base + Z.of_nat (length cur) - 1)); [done| |].
    - exists 1. split; [lia|]. f_equal. lia.
    - exists 0. split; [lia|]. f_equal. lia. }
  rewrite Had. cbv zeta. by rewrite F3.
Qed.

Lemma store_all_snoc cur q : store_all (cur ++ [q]) ∅ = <[SequenceNumber q := q]> (store_all cur ∅).
Proof. unfold store_all. by rewrite fold_left_app. Qed.

(** Storing the next packet of the run. *)
Lemma mid_store ts base cur r q :
  mid ts base cur r -> SequenceNumber q = u16 (base + Z.of_nat (length cur)) -> inner ts q ->
  (length cur < maxJitterPackets r)%nat -> mid ts base (cur ++ [q]) (store_packet q r).
Proof.
  intros M Hseq Hq Hlt. pose proof M as M0. destruct M0 as [P Hsm Hj Hn Hbase Hl Hin Hls Ha].
  assert (Hsz : size (jitterBuffer r) = length cur) by (rewrite Hj; apply (size_store_all base); [done|lia]).
  destruct P as [L P2 P3 P4 P5 P6 P7 P8]. split; try done.
  - split; try done. apply store_packet_live; [done|rewrite Hseq; apply u16_range|lia].
  - change (jitterBuffer (store_packet q r)) with (<[SequenceNumber q := q]> (jitterBuffer r)).
    by rewrite Hj, store_all_snoc.
  - apply numbered_app. split; [done|]. by split.
  - rewrite length_app. simpl. change (maxJitterPackets (store_packet q r)) with (maxJitterPackets r). lia.
  - apply Forall_app. split; [done|]. by constructor.
  - change (lastSeq (store_packet q r)) with (SequenceNumber q). rewrite Hseq, length_app. f_equal. simpl. lia.
Qed.

Lemma plain_setup r r' p : same_setup r r' -> plain r' p = plain r p.
Proof. intros [(_ & K & _) _]. unfold plain. by rewrite K. Qed.

Lemma holding_mid ts base cur r q : mid ts base cur r -> holding (store_packet q r) = false.
Proof. intros M. exact (ps_not_held r (mid_ps _ _ _ _ M)). Qed.

(** A packet before the marker. *)
Lemma arrive us ts base cur b r p :
  mid ts base cur r -> flight us cur (Payload (plain r p) ++ b) r -> SSRC p = expectedSSRC r ->
  SequenceNumber p = u16 (base + Z.of_nat (length cur)) -> inner ts (plain r p) ->
  exists us' base' cur' r',
    receive p r = Some r' /\ mid ts base' cur' r' /\ flight us' cur' b r' /\
    base' + Z.of_nat (length cur') = base + Z.of_nat (length cur) + 1 /\
    effect us' ts (clear_pending (demuxer r')) = effect us ts (clear_pending (demuxer r)) /\
    out r' = out r /\ same_setup r r'.
Proof.
  intros M F Hp Hseq Hin. rewrite (receive_next ts base cur) by done.
  destruct (make_room us ts base cur (Payload (plain r p) ++ b) (counted r)) as
    (us' & base' & cur' & r4 & -> & M4 & (U1 & U2 & U3) & Hlt & Hb & He & Ho & Hs);
    [by apply mid_counted|exact F|].
  cbn [mbind option_bind]. cbv zeta. rewrite (holding_mid _ _ _ _ _ M4).
  destruct (plain_fields r p) as (_ & F2 & _ & F4). rewrite <- F4, (proj1 Hin).
  exists us', base', (cur' ++ [plain r p]), (store_packet (plain r p) r4).
  split; [done|]. split; [|split; [|split; [|split; [|split]]]].
  - apply mid_store; [done| |done|done]. by rewrite F2, Hseq, Hb.
  - split; [done|]. split; [done|]. rewrite payloads_app, <- app_assoc.
    unfold payloads at 2. cbn [map concat]. rewrite app_nil_r. exact U3.
  - rewrite length_app. simpl. lia.
  - done.
  - exact Ho.
  - etrans; [|by repeat split]. etrans; [|exact Hs]. by repeat split.
Qed.

(** The calls depend on the receiver through its sinks and codec only. *)
Lemma au_events_setup r r' d aus ts :
  sinks r' = sinks r -> esLatch r = false -> esLatch r' = false -> demuxer r' = d ->
  au_events r' aus ts = au_events (r <| demuxer := d |>) aus ts.
Proof.
  intros Hsk He He' Hd.
  assert (Hh : hub r' = hub r /\ onAU r' = onAU r /\ onNALU r' = onNALU r) by (by injection Hsk).
  destruct Hh as (H1 & H2 & H3).
  assert (Hcod : recv_Codec r' = demux_Codec d).
  { unfold recv_Codec. rewrite He', Hd. by destruct (es r'). }
  assert (Hcod' : recv_Codec (r <| demuxer := d |>) = demux_Codec d).
  { unfold recv_Codec. change (es (r <| demuxer := d |>)) with (es r).
    change (esLatch (r <| demuxer := d |>)) with (esLatch r). rewrite He. by destruct (es r). }
  unfold au_events. rewrite Hcod, Hcod'. f_equal. apply map_ext. intros au. unfold fan_events.
  change (hub (r <| demuxer := d |>)) with (hub r). change (onAU (r <| demuxer := d |>)) with (onAU r).
  change (onNALU (r <| demuxer := d |>)) with (onNALU r). by rewrite H1, H2, H3.
Qed.

Lemma ps_mode_emitted n evs r : ps_mode r -> ps_mode (emitted n evs r).
Proof. intros [[[? ? ? ? ?] ? ?] ? ? ? ? ? ? ?]. by split. Qed.

Lemma ps_mode_store q r :
  ps_mode r -> seq_ok (SequenceNumber q) -> (size (jitterBuffer r) < maxJitterPackets r)%nat ->
  ps_mode (store_packet q r).
Proof. intros [L P2 P3 P4 P5 P6 P7 P8] Hq Hlt. split; try done. by apply store_packet_live. Qed.

(** The marker packet: the demuxer finishes and the frames go out. *)
Lemma arrive_marker us ts base cur r p ns d aus :
  mid ts base cur r -> flight us cur (Payload (plain r p)) r -> SSRC p = expectedSSRC r ->
  SequenceNumber p = u16 (base + Z.of_nat (length cur)) ->
  Marker p = true -> Timestamp p = ts -> Payload (plain r p) <> [] ->
  finish (effect us ts (clear_pending (demuxer r))) = Some (ns, d) -> audioOut d = [] ->
  splitAUsByFrame ns (bool_decide (demux_Codec d = "h265"%string)) = Some aus ->
  exists r', receive p r = Some r' /\ demuxer r' = d /\
    out r' = out r ++ au_events (r <| demuxer := d |>) aus ts /\
    mid ts (base + Z.of_nat (length cur) + 1) [] r' /\ same_setup r r'.
Proof.
  intros M F Hp Hseq Hm Hts Hpl Hfin Had Hsp. rewrite (receive_next ts base cur) by done.
  destruct (make_room us ts base cur (Payload (plain r p)) (counted r)) as
    (us' & base' & cur' & r4 & -> & M4 & (U1 & U2 & U3) & Hlt & Hb & He & Ho & Hs);
    [by apply mid_counted|exact F|].
  cbn [mbind option_bind]. cbv zeta. rewrite (holding_mid _ _ _ _ _ M4), Hm.
  destruct (plain_fields r p) as (_ & F2 & F3 & F4). set (q := plain r p) in *.
  pose proof M4 as M0. destruct M0 as [P Hsm Hj Hn Hbase Hl Hin Hls Ha].
  assert (Hsz : size (jitterBuffer r4) = length cur') by (rewrite Hj; apply (size_store_all base'); [done|lia]).
  assert (Hseq' : SequenceNumber q = u16 (base' + Z.of_nat (length cur'))) by (by rewrite F2, Hseq, Hb).
  assert (Hpay : payloads (cur' ++ [q]) <> []).
  { rewrite payloads_app. unfold payloads at 2. cbn [map concat]. rewrite app_nil_r.
    intros E. by apply app_eq_nil in E as [_ ?]. }
  assert (Hf : FeedAU (payloads (cur' ++ [q])) ts (Marker q) (demuxer r4) = Some (ns, d)).
  { rewrite F4, Hm. rewrite (FeedAU_final us') by (try done; rewrite payloads_app; unfold payloads at 2;
      cbn [map concat]; by rewrite app_nil_r). rewrite He. exact Hfin. }
  set (r5 := store_packet q r4).
  set (r6 := ran (length (cur' ++ [q])) ts d (with_buffer ∅ r5)).
  assert (Hpr : processRunLocked (cur' ++ [q]) (with_buffer ∅ r5) =
                Some (emitted (length aus) (au_events r6 aus ts) r6)).
  { destruct P as [L P2 P3 P4 P5 P6 P7 P8].
    apply (processRun_ps _ q ts (with_buffer ∅ r5) ns d aus); try done.
    - apply last_packet_snoc.
    - by rewrite F3. }
  rewrite (emit_run base' (cur' ++ [q]) r5 (emitted (length aus) (au_events r6 aus ts) r6)); try done.
  2:{ change (jitterBuffer r5) with (<[SequenceNumber q := q]> (jitterBuffer r4)). by rewrite Hj, store_all_snoc. }
  2:{ apply numbered_app. split; [done|]. by split. }
  2:{ rewrite length_app. simpl. lia. }
  2:{ by destruct cur'. }
  2:{ rewrite removelast_last. eapply list.Forall_impl; [exact Hin|]. by intros x (? & _). }
  eexists. split; [done|]. split; [done|].
  assert (Hset : same_setup r r4) by (etrans; [|exact Hs]; by repeat split).
  split; [|split].
  - change (out (emitted (length aus) (au_events r6 aus ts) r6)) with (out r4 ++ au_events r6 aus ts).
    rewrite Ho. f_equal. apply au_events_setup; try done; [apply Hset|apply (mid_ps _ _ _ _ M)|apply P].
  - split; try done.
    + apply ps_mode_emitted, ps_mode_ran; [|done]. apply ps_mode_with_empty, ps_mode_store; [done| |lia].
      rewrite Hseq'. apply u16_range.
    + change (baseSeq (emitted (length aus) (au_events r6 aus ts) r6)) with
        (u16 (baseSeq r4 + Z.of_nat (length (cur' ++ [q])))). rewrite Hbase, length_app.
      unfold u16. rewrite Zplus_mod_idemp_l. f_equal. simpl. lia.
    + simpl. lia.
    + change (lastSeq (emitted (length aus) (au_events r6 aus ts) r6)) with (SequenceNumber q).
      rewrite Hseq'. f_equal. simpl. lia.
  - etrans; [exact Hset|]. by repeat split.
Qed.

(** A whole burst, received in order: [init] and the marker packet [p]. *)
Lemma burst_in_order us ts init p base cur r ns d aus :
  mid ts base cur r ->
  numbered (base + Z.of_nat (length cur)) (init ++ [p]) ->
  Forall (fun q => SSRC q = expectedSSRC r) (init ++ [p]) ->
  Forall (inner ts) (map (plain r) init) ->
  Marker p = true -> Timestamp p = ts -> Payload (plain r p) <> [] ->
  flight us cur (payloads (map (plain r) (init ++ [p]))) r ->
  finish (effect us ts (clear_pending (demuxer r))) = Some (ns, d) -> audioOut d = [] ->
  splitAUsByFrame ns (bool_decide (demux_Codec d = "h265"%string)) = Some aus ->
  exists r', receiveAll (init ++ [p]) r = Some r' /\ demuxer r' = d /\
    out r' = out r ++ au_events (r <| demuxer := d |>) aus ts /\
    mid ts (base + Z.of_nat (length cur + length init) + 1) [] r' /\ same_setup r r'.
Proof.
  revert us base cur r. induction init as [|q init IH]; intros us base cur r M Hn Hc Hin Hm Hts Hpl Hfl Hfin Had Hsp.
  - cbn [app map receiveAll length] in *. apply list.Forall_cons in Hc as [Hc _]. destruct Hn as [Hn _].
    unfold payloads in Hfl. cbn [map concat] in Hfl. rewrite app_nil_r in Hfl.
    destruct (arrive_marker us ts base cur r p ns d aus) as (r' & -> & H1 & H2 & H3 & H4); try done.
    exists r'. cbn [mbind option_bind]. rewrite Nat.add_0_r. by repeat (split; [done|]).
  - cbn [app map receiveAll length] in *. apply list.Forall_cons in Hc as [Hc Hcs]. destruct Hn as [Hn Hns].
    apply list.Forall_cons in Hin as [Hq Hin].
    destruct (arrive us ts base cur (payloads (map (plain r) (init ++ [p]))) r q M Hfl Hc Hn Hq) as
      (us' & base' & cur' & r1 & -> & M1 & F1 & E1 & E2 & E3 & E4).
    cbn [mbind option_bind]. pose proof (plain_setup _ _ p E4) as Hpp.
    assert (Hpm : map (plain r1) (init ++ [p]) = map (plain r) (init ++ [p]))
      by (apply map_ext; intros x; by apply plain_setup).
    assert (Hpi : map (plain r1) init = map (plain r) init)
      by (apply map_ext; intros x; by apply plain_setup).
    assert (Hssrc : expectedSSRC r1 = expectedSSRC r).
    { destruct E4 as [(_ & _ & _ & _ & K) _]. by apply K, (ps_latched r (mid_ps _ _ _ _ M)). }
    destruct (IH us' base' cur' r1) as (r' & -> & H1 & H2 & H3 & H4); try done.
    + by rewrite E1.
    + by rewrite Hssrc.
    + by rewrite Hpi.
    + by rewrite Hpp.
    + by rewrite Hpm.
    + by rewrite E2.
    + exists r'. split; [done|]. split; [done|]. split; [|split].
      * rewrite H2, E3. f_equal. apply au_events_setup; try done; [apply E4|apply (mid_ps _ _ _ _ M)|].
        apply (mid_ps _ _ _ _ M1).
      * by replace (base + Z.of_nat (length cur + S (length init)) + 1) with
          (base' + Z.of_nat (length cur' + length init) + 1) by lia.
      * by etrans.
Qed.

(** ** The sender's burst *)

(** The receiver can undo what the packetizer does to payloads. *)
Definition keyed (p : RTPPacketizer) (r : Receiver) : Prop :=
  match payloadCryptor p, payloadDecryptor r with
  | None, None => True
  | Some c, Some (Some f) => forall x s q, f (c x s q) s q = x
  | _, _ => False
  end.

Lemma keyed_plain p r ts mk sg f : keyed p r -> Payload (plain r (secured_packet p ts mk sg f)) = f.
Proof.
  unfold keyed, plain, secured_packet. destruct (payloadCryptor p) as [c|], (payloadDecryptor r) as [[g|]|];
    try done. intros H. simpl. apply H.
Qed.

Lemma keyed_advanced n p r : keyed p r -> keyed (advanced n p) r.
Proof. done. Qed.

Lemma burst_numbered frags ts sg p : seq16 p -> numbered (seq p) (burst frags ts sg p).
Proof.
  revert p. induction frags as [|f frags IH]; intros p Hs; [done|]. cbn [burst]. split.
  - simpl. by rewrite u16_small.
  - apply (numbered_mod (seq (advanced 1 p))); [|apply (IH (advanced 1 p)), advanced_seq16].
    unfold advanced. simpl. unfold u16. by rewrite Zmod_mod.
Qed.

Lemma burst_ssrc frags ts sg p : Forall (fun q => SSRC q = ssrc p) (burst frags ts sg p).
Proof.
  revert p. induction frags as [|f frags IH]; intros p; [constructor|]. cbn [burst].
  constructor; [done|]. apply (IH (advanced 1 p)).
Qed.

Lemma burst_payloads frags ts sg p r : keyed p r ->
  payloads (map (plain r) (burst frags ts sg p)) = concat frags.
Proof.
  revert p. induction frags as [|f frags IH]; intros p Hk; [done|]. cbn [burst map concat].
  unfold payloads in *. cbn [map concat]. rewrite (keyed_plain p r) by done. f_equal.
  by apply (IH (advanced 1 p)).
Qed.

(** The burst is a run of inner packets closed by the marker packet. *)
Lemma burst_shape frags ts sg p r : frags <> [] -> Forall (fun f => f <> []) frags -> keyed p r ->
  exists init q, burst frags ts sg p = init ++ [q] /\ Forall (inner (u32 ts)) (map (plain r) init) /\
    Marker q = true /\ Timestamp q = u32 ts /\ Payload (plain r q) <> [] /\
    length frags = S (length init).
Proof.
  intros Hne H. revert p Hne. induction H as [|f frags Hf H IH]; intros p Hne Hk; [done|]. cbn [burst].
  destruct frags as [|g frags].
  - exists [], (secured_packet p ts true sg f). cbn [burst app map]. rewrite (keyed_plain p r) by done.
    by repeat split.
  - destruct (IH (advanced 1 p)) as (init & q & E & H1 & H2 & H3 & H4 & H5); [done|done|].
    change (p <| seq := u16 (seq p + 1) |> <| sent := sent p + 1 |>) with (advanced 1 p). rewrite E.
    exists (secured_packet p ts false sg f :: init), q. split; [done|].
    split; [|split; [done|split; [done|split; [done|simpl in *; lia]]]].
    cbn [map]. constructor; [|done]. destruct (plain_fields r (secured_packet p ts false sg f)) as (_ & _ & F3 & F4).
    unfold inner. rewrite F3, F4, (keyed_plain p r) by done. done.
Qed.

(** Between access units only the position modulo 2^16 matters. *)
Lemma mid_cong ts base base' r : u16 base = u16 base' -> mid ts base [] r -> mid ts base' [] r.
Proof.
  intros E [? ? ? ? Hb ? ? Hla ?]. split; try done; [by rewrite Hb|]. rewrite Hla. simpl. rewrite !Z.add_0_r.
  unfold u16 in *. by rewrite <- (Zminus_mod_idemp_l base), E, Zminus_mod_idemp_l.
Qed.

Lemma advanced_add n m p : u16 (seq (advanced n (advanced m p))) = u16 (seq (advanced (m + n) p)).
Proof. unfold advanced, u16. simpl. rewrite !Zmod_mod, Zplus_mod_idemp_l. f_equal. lia. Qed.

Lemma mid_ts ts ts' base r : mid ts base [] r -> mid ts' base [] r.
Proof. intros []. by split. Qed.

Lemma silent_cont cs : silent (cont_units cs).
Proof.
  apply Forall_map, Forall_true. intros c ts d. unfold video_effect, accumulate_es, clock.
  destruct c; [done|]. by destruct (_ <? _).
Qed.

Lemma silent_write annexB pts isIDR m : silent (write_units annexB pts isIDR m).
Proof.
  assert (P : forall body d, audioOut (psm_effect body d) = audioOut d).
  { intros body d. unfold psm_effect. destruct (apply_psm_Some body d) as [d' E]. rewrite E. simpl.
    unfold apply_psm in E. destruct (findVideoStreamType body) as [o|]; [|done]. cbn [mbind option_bind] in E.
    destruct (audioStreamTypes body); [|done]. injection E as <-. unfold latch_video.
    destruct o as [st|]; [|done]. by destruct (st =? streamTypeH264), (st =? streamTypeH265), (st =? streamTypeSVACV). }
  assert (V : forall payload p ts d, audioOut (video_effect payload p ts d) = audioOut d).
  { intros payload p ts d. unfold video_effect, accumulate_es, clock. destruct payload; [done|].
    destruct p; [destruct (ptsOffsetSet _)|]; by destruct (_ <? _). }
  unfold silent, write_units. constructor; [done|]. apply Forall_app. split.
  - destruct isIDR; [|constructor]. constructor; [done|]. destruct (psmDirty m); [|constructor].
    constructor; [|constructor]. intros ts d. apply P.
  - constructor; [intros; apply V|]. apply silent_cont.
Qed.

(** ** One access unit over the wire *)

(** A burst whose bytes are a list of units, whatever muxer wrote them. *)
Lemma units_over_wire us ts sg p r ns d aus :
  all_units us -> silent us -> bytes us <> [] ->
  seq16 p -> keyed p r -> expectedSSRC r = ssrc p -> mid 0 (seq p) [] r -> synced (demuxer r) ->
  finish (effect us (u32 ts) (demuxer r)) = Some (ns, d) -> clean_state d -> audioOut d = [] ->
  splitAUsByFrame ns (bool_decide (demux_Codec d = "h265"%string)) = Some aus ->
  let pkts := burst (fragments (length (bytes us)) (bytes us)) ts sg p in
  exists r', receiveAll pkts r = Some r' /\ demuxer r' = d /\
    mid 0 (seq (advanced (length pkts) p)) [] r' /\ same_setup r r' /\
    out r' = out r ++ au_events (r <| demuxer := d |>) aus (u32 ts).
Proof.
  intros Hu Hsil Hps Hs Hk Hssrc M [Hc Hes] Hfin Hcd Had Hsp pkts.
  assert (Hne : fragments (length (bytes us)) (bytes us) <> []).
  { intros E. apply fragments_nil in E; [done|lia]. }
  destruct (burst_shape _ ts sg p r Hne (fragments_nonempty _ _) Hk)
    as (init & q & E & Hin & Hmk & Hqt & Hqp & Hcount). fold pkts in E.
  destruct (burst_in_order us (u32 ts) init q (seq p) [] r ns d aus) as (r' & Er & R1 & R2 & R3 & R4); try done.
  - by apply (mid_ts 0).
  - rewrite Z.add_0_r, <- E. by apply burst_numbered.
  - rewrite <- E, Hssrc. apply burst_ssrc.
  - split; [done|]. split; [done|]. rewrite clean_pending by done. rewrite <- E.
    unfold pkts. by rewrite burst_payloads, fragments_concat by (done || lia).
  - by rewrite clean_clear.
  - exists r'. rewrite E. split; [done|]. split; [done|]. split; [|done].
    rewrite <- E. unfold pkts. rewrite burst_length, Hcount. eapply mid_cong; [|eapply mid_ts, R3].
    unfold advanced, u16. simpl. rewrite Zmod_mod. f_equal. lia.
Qed.

Lemma au_over_wire m m' l pts isIDR ps ts sg p r aus :
  Mux.Reachable m -> Forall (fun '(_, n) => clean n) l -> len (annexb l) <= maxESBufBytes ->
  WriteAU (annexb l) pts isIDR m = Some (ps, m') ->
  seq16 p -> keyed p r -> expectedSSRC r = ssrc p -> mid 0 (seq p) [] r -> synced (demuxer r) ->
  let codec := au_codec isIDR m (demuxer r) in
  (forall d', (codec = ""%string -> In (naluType d') [""; "h264"; "h265"]%string) ->
     (codec <> ""%string -> naluType d' = codec) ->
     splitAUsByFrame (au_nalus codec l) (bool_decide (demux_Codec d' = "h265"%string)) = Some aus) ->
  let pkts := burst (fragments (length ps) ps) ts sg p in
  exists r', receiveAll pkts r = Some r' /\ synced (demuxer r') /\
    mid 0 (seq (advanced (length pkts) p)) [] r' /\ same_setup r r' /\
    out r' = out r ++ au_events (r <| demuxer := demuxer r' |>) aus (u32 ts) /\
    (if bool_decide (codec = ""%string)
     then In (naluType (demuxer r')) [""; "h264"; "h265"]%string else naluType (demuxer r') = codec).
Proof.
  intros Hm Hl Hlen Hw Hs Hk Hssrc M Hsync codec Hsp. pose proof Hsync as [Hc Hes].
  set (us := write_units (annexb l) pts isIDR m).
  assert (Hps : ps = bytes us).
  { rewrite Mux.WriteAU_spec in Hw. injection Hw as <- _. unfold us. by rewrite bytes_write_units. }
  pose proof (write_units_ok (annexb l) pts isIDR m (starts_sc_annexb l)) as Hu. fold us in Hu.
  set (d1 := effect us (u32 ts) (demuxer r)). assert (Hc1 : clean_state d1) by (by apply effect_clean).
  assert (F : esBuf d1 = annexb l /\ naluType d1 = codec) by (by apply write_effect_es).
  destruct F as [F1 F2]. destruct (finish_au l d1 Hl Hc1 F1) as (d' & E1 & E2 & _ & _ & E5 & E6).
  rewrite F2 in *. rewrite Hps.
  destruct (units_over_wire us ts sg p r (au_nalus codec l) d' aus) as (r' & R1 & R2 & R3 & R4 & R5); try done.
  - apply silent_write.
  - apply E2.
  - rewrite E5. unfold d1. rewrite silent_effect by apply silent_write. apply (mid_audio _ _ _ _ M).
  - apply Hsp; intros Hcd; revert E6; case_bool_decide; done.
  - exists r'. rewrite R2. done.
Qed.

(** ** A session over the wire *)

Definition nals (a : au) : list (list Z) := map snd (au_units a).

(** An access unit of one frame, as an encoder makes it. *)
Definition one_frame_au (h : bool) (a : au) : Prop :=
  au_ok a /\ exists f tl, nals a = frame_flat f ++ tl /\ frame_ok h f /\ Forall (non_vcl h) tl.

Definition is_h265 (c : string) : bool := bool_decide (c = "h265"%string).

(** What the receiver is expected to call for [a]. *)
Definition expected (r : Receiver) (c : string) (a : au) : list event :=
  fan_events r (nals a) (u32 (au_ts a)) (IsIDR (nals a) (is_h265 c)).

(** Sender and receiver between two access units of a stream of codec [c];
    [aus] is what is still to be sent. The receiver knows the codec, or learns
    it from the map of the next access unit. *)
Record linked (c : string) (aus : list au) (m : Muxer) (p : RTPPacketizer) (r : Receiver) : Prop := mkLinked {
  lk_mux : Mux.Reachable m;
  lk_codec : c = "h264"%string \/ c = "h265"%string;
  lk_announced : psm_codec (videoType m) "" = c;
  lk_known : naluType (demuxer r) = c \/
    (psmDirty m = true /\ match aus with a :: _ => au_idr a = true | [] => True end);
  lk_seq : seq16 p;
  lk_keyed : keyed p r;
  lk_ssrc : expectedSSRC r = ssrc p;
  lk_mid : mid 0 (seq p) [] r;
  lk_synced : synced (demuxer r);
}.

(** The packets of the whole session, as the receiver sees them. *)
Fixpoint session_packets (aus : list au) (m : Muxer) (p : RTPPacketizer) : option (list Packet) :=
  match aus with
  | [] => Some []
  | a :: rest =>
      '(ps, m') ← WriteAU (annexb (au_units a)) (au_pts a) (au_idr a) m;
      let pkts := burst (fragments (length ps) ps) (au_ts a) [] p in
      more ← session_packets rest m' (advanced (length pkts) p);
      Some (pkts ++ more)
  end.

Lemma au_codec_linked c a aus m p r :
  linked c (a :: aus) m p r -> au_codec (au_idr a) m (demuxer r) = c.
Proof.
  intros L. destruct L as [_ Hc Ha Hk _ _ _ _ _]. unfold au_codec.
  assert (P : forall nt, psm_codec (videoType m) nt = c).
  { intros nt. unfold psm_codec in *. destruct (_ =? _); [done|]. destruct (_ =? _); [done|].
    destruct (_ =? _); [done|]. destruct Hc; congruence. }
  destruct Hk as [Hk|[Hd Hi]].
  - destruct (_ && _); [apply P|done].
  - rewrite Hi, Hd. apply P.
Qed.

Lemma session_over_wire c aus m p r :
  linked c aus m p r -> Forall (one_frame_au (is_h265 c)) aus ->
  exists pkts r', session_packets aus m p = Some pkts /\ receiveAll pkts r = Some r' /\
    out r' = out r ++ concat (map (expected r c) aus) /\ synced (demuxer r') /\
    mid 0 (seq (advanced (length pkts) p)) [] r' /\ same_setup r r'.
Proof.
  intros L H. revert m p r L. induction H as [|a aus [[Hcl Hlen] (f & tl & Hf & Hfo & Htl)] _ IH]; intros m p r L.
  - exists [], r. destruct L as [? ? ? ? Hs ? ? ? ?]. cbn [session_packets receiveAll length map concat].
    rewrite app_nil_r, advanced_0 by done. by repeat (split; [done|]).
  - pose proof (au_codec_linked _ _ _ _ _ _ L) as Hac. destruct L as [Hm Hc Ha Hk Hs Hke Hss M Hsy].
    cbn [session_packets]. destruct (WriteAU (annexb (au_units a)) (au_pts a) (au_idr a) m) as [[ps m']|] eqn:Ew;
      [|by rewrite Mux.WriteAU_spec in Ew]. cbn [mbind option_bind].
    set (pkts := burst (fragments (length ps) ps) (au_ts a) [] p).
    assert (Hnsv : au_nalus c (au_units a) = nals a).
    { unfold au_nalus. rewrite bool_decide_eq_false_2 by (destruct Hc; congruence). done. }
    assert (Hne : c <> ""%string) by (destruct Hc; congruence).
    destruct (au_over_wire m m' (au_units a) (au_pts a) (au_idr a) ps (au_ts a) [] p r [nals a]) as
      (r1 & E1 & R1 & R2 & R3 & R4 & R5); try done.
    { rewrite Hac, Hnsv. intros d' _ Hd. unfold demux_Codec. rewrite Hd by done. fold (is_h265 c).
      pose proof (split_recovers (is_h265 c) f [] tl Hfo ltac:(constructor) Htl) as S.
      cbn [map concat removelast List.last app] in S. rewrite app_nil_r in S. rewrite Hf. exact S. }
    fold pkts in E1, R2. rewrite Hac, bool_decide_eq_false_2 in R5 by done.
    assert (L1 : linked c aus m' (advanced (length pkts) p) r1).
    { split; try done.
      - by eapply Mux.reach_WriteAU.
      - rewrite Mux.WriteAU_spec in Ew. injection Ew as _ <-. by destruct (au_idr a).
      - by left.
      - apply advanced_seq16.
      - unfold keyed in *. destruct R3 as [(_ & -> & _) _]. done.
      - destruct R3 as [(_ & _ & _ & _ & K) _]. change (expectedSSRC r1 = ssrc p).
        rewrite <- Hss. by apply K, (ps_latched r (mid_ps _ _ _ _ M)). }
    destruct (IH m' (advanced (length pkts) p) r1 L1) as (more & r' & -> & E2 & G1 & G2 & G3 & G4).
    cbn [mbind option_bind]. exists (pkts ++ more), r'. split; [done|].
    rewrite receiveAll_app, E1. cbn [mbind option_bind]. split; [done|].
    assert (Hsk : forall a0, expected r1 c a0 = expected r c a0).
    { destruct R3 as [_ Hsk]. intros a0. unfold expected, fan_events.
      assert (Hh : hub r1 = hub r /\ onAU r1 = onAU r /\ onNALU r1 = onNALU r) by (by injection Hsk).
      by destruct Hh as (-> & -> & ->). }
    split; [|split; [done|split; [|by etrans]]].
    + rewrite G1, R4. cbn [map concat]. rewrite (map_ext _ _ Hsk), <- app_assoc. f_equal. f_equal.
      unfold au_events. cbn [map concat]. rewrite app_nil_r. unfold expected, is_h265.
      assert (Hcodec : recv_Codec (r <| demuxer := demuxer r1 |>) = c).
      { unfold recv_Codec. change (esLatch (r <| demuxer := demuxer r1 |>)) with (esLatch r).
        rewrite (ps_not_es r (mid_ps _ _ _ _ M)). change (es (r <| demuxer := demuxer r1 |>)) with (es r).
        change (demuxer (r <| demuxer := demuxer r1 |>)) with (demuxer r1). unfold demux_Codec. rewrite R5.
        by destruct (es r). }
      by rewrite Hcodec.
    + rewrite length_app. eapply mid_cong; [apply advanced_add|exact G3].
Qed.

(** ** A fresh receiver *)

(** The state [classify] leaves on a PS payload. *)
Definition preclass (r : Receiver) : Receiver := r <| classified := true |> <| classification := ClassPS |>.

(** The payload opens a PS stream for the classifier. *)
Definition ps_like (payload : list Z) : Prop :=
  looksLikePSPacket payload = true /\ looksLikeESPacket payload = false.

Lemma classify_preclass payload r :
  ps_like payload -> classified r = false -> classify payload r = classify payload (preclass r).
Proof.
  intros [H1 H2] Hc. unfold classify. destruct payload as [|x t]; [done|]. rewrite Hc, H1, H2.
  cbn [negb]. by rewrite andb_false_r.
Qed.

Lemma processRun_preclass q run r :
  ps_like (Payload q) -> classified r = false ->
  processRunLocked (q :: run) r = processRunLocked (q :: run) (preclass r).
Proof.
  intros Hq Hc. unfold processRunLocked. cbn [index lookup list_lookup mbind option_bind]. cbv zeta.
  set (r1 := r <| baseSeq := _ |>).
  change ((preclass r) <| baseSeq := u16 (baseSeq (preclass r) + Z.of_nat (length (q :: run))) |>)
    with (preclass r1).
  by rewrite (classify_preclass (Payload q) r1).
Qed.

Lemma split_runs_head cur p pkts : exists run rest, split_runs cur (p :: pkts) = (cur ++ p :: run) :: rest.
Proof.
  revert cur p. induction pkts as [|q pkts IH]; intros cur p; cbn [split_runs].
  - rewrite orb_true_r. by exists [], [].
  - destruct (Marker p) eqn:E; cbn [orb is_nil].
    + by eexists [], _.
    + destruct (IH (cur ++ [p]) q) as (run & rest & IHe). cbn [split_runs] in IHe. rewrite IHe.
      exists (q :: run), rest. by rewrite <- app_assoc.
Qed.

(** Emission from an unclassified receiver whose next packet is PS. *)
Lemma emit_preclass q r :
  recv_ok r -> classified r = false -> jitterBuffer r !! baseSeq r = Some q -> ps_like (Payload q) ->
  emitAccessUnitsLocked r = emitAccessUnitsLocked (preclass r).
Proof.
  intros Hok Hc Hq Hps. unfold emitAccessUnitsLocked. change (jitterBuffer (preclass r)) with (jitterBuffer r).
  assert (Hb : u16 (baseSeq r + Z.of_nat 0) = baseSeq r) by (rewrite Z.add_0_r; apply u16_small, Hok).
  destruct (size (jitterBuffer r)) as [|n] eqn:Hn.
  { apply map_size_empty_inv in Hn. by rewrite Hn in Hq. }
  assert (D : exists run jb, drainContiguousRunLocked 2 r = Some (q :: run, with_buffer jb r) /\
     drainContiguousRunLocked 2 (preclass r) = Some (q :: run, with_buffer jb (preclass r))).
  { cbn [drainContiguousRunLocked]. change (jitterBuffer (preclass r)) with (jitterBuffer r).
    change (baseSeq (preclass r)) with (baseSeq r). rewrite Hn. cbn [collect]. rewrite Hb, Hq.
    destruct (collect_Some (delete (baseSeq r) (jitterBuffer r)) (baseSeq r) 1 n) as (run & jb & -> & _).
    { rewrite map_size_delete, Hq. lia. }
    cbn [mbind option_bind]. by exists run, jb. }
  destruct D as (run & jb & D1 & D2). cbn [emit_loop]. rewrite D1, D2. cbn [mbind option_bind].
  destruct (split_runs_head [] q run) as (run' & rest & ->). cbn [app process_runs].
  change (with_buffer jb (preclass r)) with (preclass (with_buffer jb r)).
  by rewrite (processRun_preclass q run' (with_buffer jb r)).
Qed.

(** An unclassified receiver with a PS packet first in line. *)
Record opening (lo : Z) (r : Receiver) : Prop := mkOpening {
  op_live : live r;
  op_latched : ssrcLatched r = true;
  op_base : baseSeqSet r = true;
  op_new : classified r = false;
  op_not_held : holding r = false;
  op_head : exists q, jitterBuffer r !! baseSeq r = Some q /\ ps_like (Payload q);
  op_near : in_window lo (lastSeq r);
}.

Lemma preclass_live r : live r -> live (preclass r).
Proof. intros [[? ? ? ? ?] ? ?]. by split. Qed.

Lemma receive_preclass lo p r :
  opening lo r -> SSRC p = expectedSSRC r -> in_window lo (SequenceNumber p) -> SequenceNumber p <> baseSeq r ->
  receive p r = receive p (preclass r) \/
  exists r', receive p r = Some r' /\ receive p (preclass r) = Some (preclass r') /\ opening lo r' /\
    expectedSSRC r' = expectedSSRC r /\ baseSeq r' = baseSeq r /\ Marker p = false /\
    maxJitterPackets r' = maxJitterPackets r /\
    jitterBuffer r' = <[SequenceNumber p := plain r p]> (jitterBuffer r) /\
    (size (jitterBuffer r) < maxJitterPackets r)%nat.
Proof.
  intros [L H1 H2 H3 Hh (q0 & Hq0 & Hps) Hw] Hp Hwp Hne.
  pose proof (ok_decryptor r (live_ok r L)) as Hd.
  rewrite !receive_plain by done. change (plain (preclass r) p) with (plain r p).
  destruct (plain_fields r p) as (F1 & F2 & _ & F4). set (q := plain r p) in *.
  change ((preclass r) <| rtpPacketsReceived := rtpPacketsReceived (preclass r) + 1 |>) with (preclass (counted r)).
  fold (counted r). rewrite !feedJitterBuffer_unfold.
  change (foreign q (preclass (counted r))) with (foreign q (counted r)).
  assert (Hf : foreign q (counted r) = false).
  { unfold foreign. change (ssrcLatched (counted r)) with (ssrcLatched r).
    change (expectedSSRC (counted r)) with (expectedSSRC r). by rewrite H1, F1, Hp, Z.eqb_refl. }
  rewrite Hf.
  assert (Had : admit_packet q (counted r) = counted r /\
                admit_packet q (preclass (counted r)) = preclass (counted r)).
  { unfold admit_packet. change (ssrcLatched (preclass (counted r))) with (ssrcLatched r).
    change (ssrcLatched (counted r)) with (ssrcLatched r). rewrite H1. cbv zeta.
    change (baseSeqSet (preclass (counted r))) with (baseSeqSet r). change (baseSeqSet (counted r)) with (baseSeqSet r).
    rewrite H2. change (lastSeq (preclass (counted r))) with (lastSeq r).
    change (lastSeq (counted r)) with (lastSeq r). rewrite F2. by rewrite !(in_window_delta lo). }
  destruct Had as [-> ->]. cbv zeta.
  change (maxJitterPackets (preclass (counted r))) with (maxJitterPackets (counted r)).
  change (jitterBuffer (preclass (counted r))) with (jitterBuffer (counted r)).
  assert (Lc : live (counted r)) by (by destruct L as [[? ? ? ? ?] ? ?]).
  destruct (Nat.leb_spec (maxJitterPackets (counted r)) (size (jitterBuffer (counted r)))) as [Hfull|Hroom].
  { left. by rewrite (emit_preclass q0 (counted r) (live_ok _ Lc)). }
  cbn [mbind option_bind]. change (store_packet q (preclass (counted r))) with (preclass (store_packet q (counted r))).
  set (r5 := store_packet q (counted r)). change (holding (preclass r5)) with (holding r5).
  assert (L5 : live r5) by (apply store_packet_live; [done|rewrite F2; by eapply in_window_ok|done]).
  assert (Hq5 : jitterBuffer r5 !! baseSeq r5 = Some q0).
  { change (jitterBuffer r5) with (<[SequenceNumber q := q]> (jitterBuffer r)).
    change (baseSeq r5) with (baseSeq r). rewrite F2. by rewrite lookup_insert_ne. }
  assert (Op : opening lo r5).
  { split; try done; [by exists q0|]. change (lastSeq r5) with (SequenceNumber q). by rewrite F2. }
  change (holding r5) with (holding r). rewrite Hh. destruct (Marker q) eqn:Em.
  - left. by apply (emit_preclass q0 r5 (live_ok _ L5)).
  - right. exists r5. rewrite <- F4. repeat (split; [done|]). split; [|done].
    unfold r5, store_packet. simpl. by rewrite F2.
Qed.

(** The rest of the first burst, up to its marker. *)
Lemma receiveAll_preclass init p cur base r :
  opening base r -> jitterBuffer r = store_all cur ∅ -> numbered base cur -> baseSeq r = u16 base ->
  cur <> [] -> (length cur <= maxJitterPackets r)%nat -> (maxJitterPackets r <= 1000)%nat ->
  numbered (base + Z.of_nat (length cur)) (init ++ [p]) ->
  Forall (fun q => SSRC q = expectedSSRC r) (init ++ [p]) -> Marker p = true ->
  receiveAll (init ++ [p]) r = receiveAll (init ++ [p]) (preclass r).
Proof.
  revert cur r. induction init as [|q init IH]; intros cur r Op Hj Hn Hb Hne Hl Hmx Hns Hc Hm;
    cbn [app receiveAll]; apply list.Forall_cons in Hc as [Hc Hcs]; destruct Hns as [Hq Hns];
    assert (Hc0 : (0 < length cur)%nat) by (destruct cur; [done|simpl; lia]).
  - destruct (receive_preclass base p r Op Hc) as [->|(r' & _ & _ & _ & _ & _ & E & _)]; [| |done|congruence].
    + exists (Z.of_nat (length cur)). split; [lia|done].
    + rewrite Hq, Hb. intros E. apply u16_inj_near in E; lia.
  - destruct (receive_preclass base q r Op Hc) as [->|(r' & -> & -> & Op' & G1 & G2 & _ & G3 & G4 & G5)];
      [| |done|].
    + exists (Z.of_nat (length cur)). split; [lia|done].
    + rewrite Hq, Hb. intros E. apply u16_inj_near in E; lia.
    + cbn [mbind option_bind]. destruct (plain_fields r q) as (_ & F2 & _).
      rewrite Hj, (size_store_all base) in G5 by (done || lia).
      apply (IH (cur ++ [plain r q])).
      * done.
      * by rewrite G4, Hj, store_all_snoc, F2.
      * apply numbered_app. split; [done|]. split; [by rewrite F2|done].
      * by rewrite G2.
      * by destruct cur.
      * rewrite length_app, G3. simpl. lia.
      * by rewrite G3.
      * rewrite length_app. simpl. by replace (base + Z.of_nat (length cur + 1)) with
          (base + Z.of_nat (length cur) + 1) by lia.
      * by rewrite G1.
      * done.
Qed.

(** A receiver that has seen nothing yet. *)
Record fresh (r : Receiver) : Prop := mkFresh {
  fr_live : live r;
  fr_small : (maxJitterPackets r <= 1000)%nat;
  fr_ssrc : ssrcLatched r = false;
  fr_base : baseSeqSet r = false;
  fr_buffer : jitterBuffer r = ∅;
  fr_class : classified r = false;
  fr_bare : bareAudio r = false;
  fr_es : esLatch r = false;
  fr_unsigned : auVerifier r = None;
  fr_expect : expectDecryptor r = false;
  fr_demux : demuxer r = NewPSDemuxer;
}.

(** The same receiver as if it had been told the dialog's SSRC, where the
    sequence starts and that the stream is PS. *)
Definition primed (src base : Z) (r : Receiver) : Receiver :=
  r <| ssrcLatched := true |> <| expectedSSRC := src |>
    <| baseSeqSet := true |> <| baseSeq := u16 base |> <| lastSeq := u16 (base - 1) |>.

Definition first_stored (q : Packet) (r : Receiver) : Receiver :=
  (counted r) <| ssrcLatched := true |> <| expectedSSRC := SSRC q |> <| baseSeqSet := true |>
    <| baseSeq := SequenceNumber q |> <| jitterBuffer := {[SequenceNumber q := q]} |>
    <| lastSeq := SequenceNumber q |>.

Lemma receive_first p r base :
  fresh r -> SequenceNumber p = u16 base ->
  let q := plain r p in
  let r5 := first_stored q r in
  receive p r = (if Marker p then emitAccessUnitsLocked r5 else Some r5) /\
  receive p (preclass (primed (SSRC p) base r)) =
    (if Marker p then emitAccessUnitsLocked (preclass r5) else Some (preclass r5)).
Proof.
  intros [L Hmx Hs Hb Hj Hc Hba Hes Hv He Hd] Hseq q r5.
  pose proof (ok_decryptor r (live_ok r L)) as Hdec.
  rewrite !receive_plain by done. change (plain (preclass (primed (SSRC p) base r)) p) with q. fold q.
  destruct (plain_fields r p) as (F1 & F2 & _ & F4). fold q in F1, F2, F4. rewrite <- F4.
  pose proof (live_max r L) as Hm1.
  assert (D0 : (s16 (u16 (u16 base - u16 base)) <? -1000) = false) by (by rewrite Z.sub_diag).
  assert (D1 : (s16 (u16 (u16 base - u16 (base - 1))) <? -1000) = false).
  { apply (in_window_delta (base - 1)); [exists 1|exists 0]; (split; [lia|f_equal; lia]). }
  assert (Hh : forall x, expectDecryptor x = false -> holding x = false) by (intros x E; unfold holding; by rewrite E).
  split; rewrite feedJitterBuffer_unfold.
  - fold (counted r). assert (Hf : foreign q (counted r) = false).
    { unfold foreign. change (ssrcLatched (counted r)) with (ssrcLatched r). by rewrite Hs. }
    rewrite Hf. assert (Had : admit_packet q (counted r) =
      (counted r) <| expectedSSRC := SSRC q |> <| ssrcLatched := true |> <| baseSeq := SequenceNumber q |>
        <| baseSeqSet := true |> <| lastSeq := SequenceNumber q |>).
    { unfold admit_packet. change (ssrcLatched (counted r)) with (ssrcLatched r). rewrite Hs. cbv zeta.
      simpl. rewrite Hb. simpl. by rewrite F2, Hseq, D0. }
    rewrite Had. cbv zeta. simpl maxJitterPackets. simpl jitterBuffer. rewrite Hj, map_size_empty.
    rewrite (proj2 (Nat.leb_gt _ 0)) by lia. cbn [mbind option_bind]. rewrite Hh by done.
    assert (E : forall x, x = r5 -> (if Marker q then emitAccessUnitsLocked x else Some x) =
      (if Marker q then emitAccessUnitsLocked r5 else Some r5)) by (by intros x ->).
    apply E. unfold r5, first_stored, store_packet. simpl. by rewrite Hj, insert_empty.
  - set (r0 := preclass (primed (SSRC p) base r)). fold (counted r0).
    assert (Hf : foreign q (counted r0) = false).
    { unfold foreign. simpl. by rewrite F1, Z.eqb_refl. }
    rewrite Hf. assert (Had : admit_packet q (counted r0) = counted r0).
    { unfold admit_packet. simpl. by rewrite F2, Hseq, D1. }
    rewrite Had. cbv zeta. change (maxJitterPackets (counted r0)) with (maxJitterPackets r).
    change (jitterBuffer (counted r0)) with (jitterBuffer r). rewrite Hj, map_size_empty.
    rewrite (proj2 (Nat.leb_gt _ 0)) by lia. cbn [mbind option_bind]. rewrite Hh by done.
    assert (E : forall x, x = preclass r5 -> (if Marker q then emitAccessUnitsLocked x else Some x) =
      (if Marker q then emitAccessUnitsLocked (preclass r5) else Some (preclass r5))) by (by intros x ->).
    apply E. unfold r5, first_stored, store_packet, preclass. simpl. rewrite Hj, insert_empty.
    by rewrite F1, F2, Hseq.
Qed.

Lemma first_stored_opening q base r :
  fresh r -> SequenceNumber q = u16 base -> ps_like (Payload q) -> opening base (first_stored q r).
Proof.
  intros F Hseq Hps. destruct F as [[[H1 H2 H3 H4 H5] Hm Hsz] Hmx Hs Hb Hj Hc Hba Hes Hv He Hd].
  assert (Hq : seq_ok (SequenceNumber q)) by (rewrite Hseq; apply u16_range).
  split; try done.
  - split; [split|done|]; try done.
    + intros k x. unfold first_stored. simpl. rewrite lookup_singleton_Some. by intros [<- _].
    + change (size ({[SequenceNumber q := q]} : gmap Z Packet) <= maxJitterPackets r)%nat.
      rewrite map_size_singleton. lia.
  - unfold holding. change (expectDecryptor (first_stored q r)) with (expectDecryptor r). by rewrite He.
  - exists q. split; [|done]. apply lookup_singleton_eq.
  - exists 0. split; [lia|]. rewrite Z.add_0_r. exact Hseq.
Qed.

(** The first burst of a fresh receiver is received as by the primed one. *)
Lemma fresh_burst init p base src r :
  fresh r -> numbered base (init ++ [p]) -> Forall (fun q => SSRC q = src) (init ++ [p]) ->
  Marker p = true -> match init ++ [p] with q :: _ => ps_like (Payload (plain r q)) | [] => False end ->
  receiveAll (init ++ [p]) r = receiveAll (init ++ [p]) (preclass (primed src base r)).
Proof.
  intros F Hn Hc Hm Hps.
  assert (Em : forall q, SequenceNumber q = u16 base -> ps_like (Payload q) ->
    emitAccessUnitsLocked (first_stored q r) = emitAccessUnitsLocked (preclass (first_stored q r))).
  { intros q Hq Hp. pose proof (first_stored_opening q base r F Hq Hp) as O.
    apply (emit_preclass q); [apply (live_ok _ (op_live _ _ O))|apply O|apply lookup_singleton_eq|done]. }
  destruct init as [|x init]; cbn [app receiveAll] in *.
  - apply list.Forall_cons in Hc as [Hc _]. destruct Hn as [Hq _]. rewrite <- Hc.
    destruct (receive_first p r base F Hq) as [-> ->]. rewrite Hm.
    destruct (plain_fields r p) as (_ & F2 & _ & _). by rewrite (Em (plain r p)) by (by rewrite ?F2).
  - apply list.Forall_cons in Hc as [Hc Hcs]. destruct Hn as [Hq Hns]. subst src.
    destruct (receive_first x r base F Hq) as [-> ->].
    destruct (plain_fields r x) as (F1 & F2 & _ & _). destruct (Marker x).
    + by rewrite (Em (plain r x)) by (by rewrite ?F2).
    + cbn [mbind option_bind].
      assert (O : opening base (first_stored (plain r x) r)).
      { apply first_stored_opening; [done|by rewrite F2|done]. }
      apply (receiveAll_preclass init p [plain r x] base); try done.
      * split; [by rewrite F2|done].
      * change (baseSeq (first_stored (plain r x) r)) with (SequenceNumber (plain r x)). by rewrite F2.
      * change (maxJitterPackets (first_stored (plain r x) r)) with (maxJitterPackets r). simpl.
        apply (live_max r (fr_live r F)).
      * apply (fr_small r F).
      * simpl. change (expectedSSRC (first_stored (plain r x) r)) with (SSRC (plain r x)). by rewrite F1.
Qed.

Lemma primed_mid src base r : fresh r -> mid 0 base [] (preclass (primed src base r)).
Proof.
  intros [[[H1 H2 H3 H4 H5] Hm Hsz] Hmx Hs Hb Hj Hc Hba Hes Hv He Hd]. split; try done.
  - split; try done.
    + split; [|done|done]. split; try done. apply u16_range.
    + unfold holding. change (expectDecryptor (preclass (primed src base r))) with (expectDecryptor r). by rewrite He.
  - change (Z.of_nat (maxJitterPackets r) < 65536). lia.
  - simpl. lia.
  - simpl. by rewrite Z.add_0_r.
  - change (audioOut (demuxer r) = []). by rewrite Hd.
Qed.

Lemma take_ps_like annexB pts isIDR m ps m' :
  WriteAU annexB pts isIDR m = Some (ps, m') -> ps_like (take RTPMTU ps).
Proof.
  intros Hw. rewrite Mux.WriteAU_spec in Hw. injection Hw as <- _. pose proof RTPMTU_Z.
  destruct RTPMTU as [|[|[|[|n]]]]; try lia. unfold Mux.write_head, Mux.packHeader. by split.
Qed.

Lemma burst_head ps ts p r : ps <> [] -> keyed p r ->
  match burst (fragments (length ps) ps) ts [] p with
  | q :: _ => Payload (plain r q) = take RTPMTU ps | [] => False end.
Proof.
  intros Hne Hk. destruct ps as [|b ps]; [done|]. cbn [length fragments burst].
  by rewrite (keyed_plain p r).
Qed.

Lemma fresh_session c a aus m p r :
  fresh r -> Mux.Reachable m -> (c = "h264"%string \/ c = "h265"%string) ->
  psm_codec (videoType m) "" = c -> psmDirty m = true -> au_idr a = true -> seq16 p -> keyed p r ->
  Forall (one_frame_au (is_h265 c)) (a :: aus) ->
  exists pkts r', session_packets (a :: aus) m p = Some pkts /\ receiveAll pkts r = Some r' /\
    out r' = out r ++ concat (map (expected r c) (a :: aus)) /\ synced (demuxer r') /\
    mid 0 (seq (advanced (length pkts) p)) [] r'.
Proof.
  intros F Hm Hc Ha Hd Hi Hs Hk Haus.
  set (r0 := preclass (primed (ssrc p) (seq p) r)).
  assert (L : linked c (a :: aus) m p r0).
  { split; try done; [by right|by apply primed_mid|].
    change (synced (demuxer r)). rewrite (fr_demux r F). by repeat split. }
  destruct (session_over_wire c (a :: aus) m p r0 L Haus) as (pkts & r' & E1 & E2 & E3 & E4 & E5 & _).
  exists pkts, r'. split; [done|]. split; [|done]. rewrite <- E2.
  cbn [session_packets] in E1.
  destruct (WriteAU (annexb (au_units a)) (au_pts a) (au_idr a) m) as [[ps m']|] eqn:Ew; [|done].
  cbn [mbind option_bind] in E1.
  destruct (session_packets aus m' _) as [more|]; [|done]. cbn [mbind option_bind] in E1. injection E1 as <-.
  assert (Hps : ps <> []).
  { pose proof Ew as Ew'. rewrite Mux.WriteAU_spec in Ew'. by injection Ew' as <- _. }
  assert (Hne : fragments (length ps) ps <> []) by (intros E; apply Hps; apply (fragments_nil _ _ (le_n _) E)).
  destruct (burst_shape (fragments (length ps) ps) (au_ts a) [] p r Hne (fragments_nonempty _ _) Hk)
    as (init & q & E & _ & Hmk & _).
  rewrite !receiveAll_app. f_equal. rewrite E. apply fresh_burst; try done.
  - rewrite <- E. by apply burst_numbered.
  - rewrite <- E. apply burst_ssrc.
  - rewrite <- E. pose proof (burst_head ps (au_ts a) p r Hps Hk) as Hh.
    destruct (burst _ _ _ _); [done|]. rewrite Hh. by eapply take_ps_like.
Qed.

(** ** Datagrams *)

(** The whole path for a list of access units: multiplex, send, receive. *)
Fixpoint transmit (write : list Z -> bool) (marshal : Packet -> option (list Z))
    (unmarshal : list Z -> option Packet) (aus : list au)
    (m : Muxer) (p : RTPPacketizer) (r : Receiver) : option (Muxer * RTPPacketizer * Receiver) :=
  match aus with
  | [] => Some (m, p, r)
  | a :: rest =>
      '(ps, m') ← WriteAU (annexb (au_units a)) (au_pts a) (au_idr a) m;
      res ← Send write marshal ps (au_ts a) p;
      r' ← readAll unmarshal (written res) r;
      transmit write marshal unmarshal rest m' (after res) r'
  end.

(** What pion is relied on for: [Unmarshal] parses plain packets, and what
    [Marshal] makes of a packet in range [Unmarshal] turns back into it. *)
Definition in_range (q : Packet) : Prop :=
  0 <= PayloadType q < 128 /\ 0 <= SequenceNumber q < 65536 /\
  0 <= Timestamp q < 4294967296 /\ 0 <= SSRC q < 4294967296.

Definition pion_roundtrip (marshal : Packet -> option (list Z)) (unmarshal : list Z -> option Packet) : Prop :=
  forall q, in_range q -> AUSig q = [] ->
    exists l, marshal q = Some l /\ l <> [] /\ unmarshal l = Some q.

(** A packetizer of UDP media without AU signatures. *)
Definition plain_sender (p : RTPPacketizer) : Prop :=
  udp p = true /\ auSigner p = None /\ 0 <= payloadTyp p < 128 /\ 0 <= ssrc p < 4294967296 /\ seq16 p.

Lemma plain_sender_advanced n p : plain_sender p -> plain_sender (advanced n p).
Proof. intros (H1 & H2 & H3 & H4 & _). repeat (split; [done|]). apply advanced_seq16. Qed.

(** What a packet in pion's range needs of the sender. *)
Definition rtp_sender (p : RTPPacketizer) : Prop :=
  0 <= payloadTyp p < 128 /\ 0 <= ssrc p < 4294967296 /\ seq16 p.

Lemma burst_in_range frags ts p : rtp_sender p ->
  Forall (fun q => in_range q /\ AUSig q = []) (burst frags ts [] p).
Proof.
  revert p. induction frags as [|f frags IH]; intros p Hp; [constructor|]. cbn [burst].
  destruct Hp as (H3 & H4 & H5).
  constructor; [|apply (IH (advanced 1 p)); by repeat (split; [done|]); apply advanced_seq16]. split.
  - unfold in_range, secured_packet, u32. simpl. split; [done|]. split; [done|]. split; [|done].
    change 4294967296 with (2 ^ 32). apply Z.mod_pos_bound. lia.
  - simpl. by destruct frags.
Qed.

Lemma readAll_map unmarshal (enc : Packet -> list Z) pkts r :
  Forall (fun q => enc q <> [] /\ unmarshal (enc q) = Some q) pkts ->
  readAll unmarshal (map enc pkts) r = receiveAll pkts r.
Proof.
  intros H. revert r. induction H as [|q pkts [Hne Hq] _ IH]; intros r; [done|]. cbn [map readAll receiveAll].
  assert (E : readLoop_step unmarshal (enc q) r = receive q r).
  { unfold readLoop_step. rewrite Hq. by destruct (enc q). }
  rewrite E. destruct (receive q r) as [r'|]; [apply IH|done].
Qed.

(** What [Send] writes is what the receiver reads. *)
Lemma Send_read write marshal unmarshal ps ts p r :
  (forall d, write d = true) -> parses_plain unmarshal -> pion_roundtrip marshal unmarshal -> plain_sender p ->
  let pkts := burst (fragments (length ps) ps) ts [] p in
  exists res, Send write marshal ps ts p = Some res /\ send_err res = None /\
    after res = advanced (length pkts) p /\ readAll unmarshal (written res) r = receiveAll pkts r.
Proof.
  intros Hw Hparse Hpion Hp pkts. pose proof (burst_in_range (fragments (length ps) ps) ts p (proj2 (proj2 Hp))) as Hr.
  fold pkts in Hr. destruct Hp as (H1 & H2 & H3 & H4 & H5). unfold Send. rewrite H2.
  destruct (payloadCryptor p) eqn:Hc.
  - unfold sendSecured. rewrite H2.
    assert (Hm : forall q, In q pkts -> exists l, marshal q = Some l /\ l <> [] /\ unmarshal l = Some q).
    { intros q Hq. rewrite List.Forall_forall in Hr. destruct (Hr q Hq) as [Hq1 Hq2]. by apply Hpion. }
    rewrite sendSecured_loop_spec; [|done|done|lia|].
    2:{ intros q Hq. destruct (Hm q Hq) as (l & E & _). by exists l. }
    eexists. split; [done|]. split; [done|]. split; [done|]. cbn [written]. fold pkts. unfold on_wire. rewrite H1.
    apply readAll_map. rewrite List.Forall_forall. intros q Hq. destruct (Hm q Hq) as (l & -> & Hl1 & Hl2). done.
  - unfold sendPlain. rewrite sendPlain_loop_spec by (done || lia).
    eexists. split; [done|]. split; [done|]. split; [done|]. cbn [written]. fold pkts. unfold on_wire. rewrite H1.
    apply readAll_map. eapply list.Forall_impl; [exact Hr|]. intros q ((A1 & A2 & A3 & A4) & A5).
    split; [done|]. by apply Hparse.
Qed.

Lemma transmit_packets write marshal unmarshal aus m p r pkts r' :
  (forall d, write d = true) -> parses_plain unmarshal -> pion_roundtrip marshal unmarshal -> plain_sender p ->
  session_packets aus m p = Some pkts -> receiveAll pkts r = Some r' ->
  exists m', transmit write marshal unmarshal aus m p r = Some (m', advanced (length pkts) p, r').
Proof.
  intros Hw Hparse Hpion. revert m p r pkts. induction aus as [|a aus IH]; intros m p r pkts Hp Hs Hr.
  - cbn [session_packets] in Hs. injection Hs as <-. injection Hr as ->. exists m. cbn [transmit length].
    by rewrite advanced_0 by apply Hp.
  - cbn [session_packets transmit] in *.
    destruct (WriteAU (annexb (au_units a)) (au_pts a) (au_idr a) m) as [[ps m1]|]; [|done].
    cbn [mbind option_bind] in *.
    destruct (Send_read write marshal unmarshal ps (au_ts a) p r Hw Hparse Hpion Hp) as (res & -> & _ & Ha & Hread).
    cbn [mbind option_bind]. rewrite Hread, Ha. set (pk := burst _ _ _ _) in *.
    destruct (session_packets aus m1 (advanced (length pk) p)) as [more|] eqn:Em; [|done].
    cbn [mbind option_bind] in Hs. injection Hs as <-. rewrite receiveAll_app in Hr.
    destruct (receiveAll pk r) as [r1|]; [|done]. cbn [mbind option_bind] in *.
    destruct (IH m1 (advanced (length pk) p) r1 more) as (m' & ->); [by apply plain_sender_advanced|done|done|].
    exists m'. do 3 f_equal. rewrite length_app. unfold advanced, u16. simpl. f_equal.
    + rewrite Zplus_mod_idemp_l. f_equal. lia.
    + lia.
Qed.

(** C1: The media path end to end. For any H.264 or H.265 stream whose access
    units each carry one picture, multiplexed into PS, cut into RTP packets,
    sent plain or encrypted with a cipher the receiver holds the key of, and
    read by a receiver that has seen nothing yet: the hub and the callbacks are
    called exactly once per access unit, in order, with exactly the NALUs that
    went in, the RTP timestamp and the keyframe flag, and nothing else is
    called; the sender's sequence numbers advance by one per packet and nothing
    stays behind in the jitter buffer or the demuxer. *)
Theorem media_path write marshal unmarshal c a aus m p r :
  (forall d, write d = true) -> parses_plain unmarshal -> pion_roundtrip marshal unmarshal ->
  plain_sender p -> keyed p r -> fresh r ->
  Mux.Reachable m -> psmDirty m = true -> (c = "h264"%string \/ c = "h265"%string) ->
  psm_codec (videoType m) "" = c -> au_idr a = true -> Forall (one_frame_au (is_h265 c)) (a :: aus) ->
  exists n m' r', transmit write marshal unmarshal (a :: aus) m p r = Some (m', advanced n p, r') /\
    out r' = out r ++ concat (map (expected r c) (a :: aus)) /\
    jitterBuffer r' = ∅ /\ synced (demuxer r').
Proof.
  intros Hw Hparse Hpion Hp Hk F Hm Hd Hc Ha Hi Haus.
  destruct (fresh_session c a aus m p r F Hm Hc Ha Hd Hi (proj2 (proj2 (proj2 (proj2 Hp)))) Hk Haus)
    as (pkts & r' & E1 & E2 & E3 & E4 & E5).
  destruct (transmit_packets write marshal unmarshal (a :: aus) m p r pkts r' Hw Hparse Hpion Hp E1 E2) as (m' & E).
  exists (length pkts), m', r'. split; [done|]. split; [done|]. split; [exact (mid_buffer _ _ _ _ E5)|done].
Qed.

(** A concrete cipher, parser and stream. *)
Definition xor_cryptor : cryptor := fun x _ _ => map (Z.lxor 0x5A) x.

Lemma xor_cryptor_involutive x s q : xor_cryptor (xor_cryptor x s q) s q = x.
Proof.
  unfold xor_cryptor. rewrite map_map, <- (map_id x) at 1. rewrite map_id. etrans; [|apply map_id].
  apply map_ext. intros b. by rewrite <- Z.lxor_assoc, Z.lxor_nilpotent.
Qed.

Lemma pion_plain : pion_roundtrip (fun q => Some (plain_bytes q)) parse_rtp.
Proof.
  intros q (H1 & H2 & H3 & H4) Hs. exists (plain_bytes q). split; [done|]. split; [done|].
  by apply parse_rtp_plain.
Qed.

Definition demo_sender : RTPPacketizer := SetSecurity (Some xor_cryptor) None (NewRTPPacketizer 77 65535).
Definition demo_receiver : Receiver :=
  (NewReceiver true false true false false) <| payloadDecryptor := Some (Some xor_cryptor) |>.

Lemma demo_fresh : fresh demo_receiver.
Proof.
  split; try done; [|simpl; lia]. split; [split; try done|simpl; lia|].
  change (size (∅ : gmap Z Packet) <= 32)%nat. rewrite map_size_empty. lia.
Qed.

Definition demo_stream : list au :=
  [mkAU demo_au 0 true 900 []; mkAU [(false, [0x41; 0x80; 9])] 3600 false 4500 []].

Lemma demo_stream_ok : Forall (one_frame_au false) demo_stream.
Proof.
  repeat constructor; try done.
  - exists (mkFrame [[0x67; 0x42; 0x1F]; [0x68; 0xCE]] [0x65; 0; 0; 3; 1] []), [].
    split; [done|]. split; [|constructor]. split; [by repeat constructor|]. by split.
  - exists (mkFrame [] [0x41; 0x80; 9] []), [].
    split; [done|]. split; [|constructor]. split; [by repeat constructor|]. by split.
Qed.

Lemma media_path_witness : exists n m' r',
  transmit (fun _ => true) (fun q => Some (plain_bytes q)) parse_rtp demo_stream (SetVideoCodec "h264" New)
    demo_sender demo_receiver = Some (m', advanced n demo_sender, r') /\
  out r' = [HubBroadcast 900 (map snd demo_au) true;
            NALUCallback [0x67; 0x42; 0x1F] 900 true; NALUCallback [0x68; 0xCE] 900 true;
            NALUCallback [0x65; 0; 0; 3; 1] 900 true;
            HubBroadcast 4500 [[0x41; 0x80; 9]] false; NALUCallback [0x41; 0x80; 9] 4500 false] /\
  jitterBuffer r' = ∅ /\ synced (demuxer r').
Proof.
  apply (media_path (fun _ => true) (fun q => Some (plain_bytes q)) parse_rtp "h264").
  - done.
  - exact parse_rtp_plain.
  - exact pion_plain.
  - by repeat split.
  - exact xor_cryptor_involutive.
  - exact demo_fresh.
  - repeat constructor.
  - done.
  - by left.
  - done.
  - done.
  - exact demo_stream_ok.
Defined.
