(* ===== verification/TcpMedia.v ===== *)
(** TCP media: the receiver's framing reader ([Receiver.readTCP] and the TCP
    branch of [readLoop], [platform/rtp.go]) against the two framings the
    senders write: RFC 4571 ([psmux/rtp.go]) and '$' framing
    ([device/rtp_pusher.go]).

    The connection is the list of bytes that arrive before the peer closes it;
    [io.ReadFull] makes the segmentation of the stream irrelevant. *)

From S2P Require Import Prelude NalUtil PesParse PsDemux AuSplit EsDemux Receiver.
From S2P Require Import RtpSend.
Open Scope Z_scope.

(** ** The reader *)

Definition TCPMode := string.
Definition TCPModeAuto : TCPMode := "auto"%string.
Definition TCPModeRFC4571 : TCPMode := "rfc4571"%string.
Definition TCPMode0x24 : TCPMode := "0x24"%string.

Definition rtpReadBufSize : Z := 65535.

Inductive tcp_error := ErrEOF | ErrUnexpectedEOF | ErrInvalidLength.

(** [io.ReadFull] of [n] bytes, [0 < n]; what is left of a short read is gone. *)
Definition ReadFull (n : nat) (conn : list Z) : (tcp_error + list Z) * list Z :=
  if Nat.leb n (length conn) then (inr (take n conn), drop n conn)
  else (inl (match conn with [] => ErrEOF | _ => ErrUnexpectedEOF end), []).

(** The framing header, left in [buf]; the mode is set before the rest is read. *)
Definition readTCP_header (mode : TCPMode) (conn : list Z) : (tcp_error + list Z) * TCPMode * list Z :=
  if bool_decide (mode = TCPModeAuto) then
    match ReadFull 1 conn with
    | (inl e, conn1) => (inl e, mode, conn1)
    | (inr first, conn1) =>
        let (mode', more) := match first with
                             | b :: _ => if b =? 0x24 then (TCPMode0x24, 3%nat) else (TCPModeRFC4571, 1%nat)
                             | [] => (TCPModeRFC4571, 1%nat)
                             end in
        match ReadFull more conn1 with
        | (inl e, conn2) => (inl e, mode', conn2)
        | (inr rest, conn2) => (inr (first ++ rest), mode', conn2)
        end
    end
  else
    let (res, conn1) := ReadFull (if bool_decide (mode = TCPMode0x24) then 4 else 2) conn in
    (res, mode, conn1).

(** [None] would be an index out of range of the header. *)
Definition readTCP (mode : TCPMode) (conn : list Z)
  : option ((tcp_error + list Z) * TCPMode * list Z) :=
  match readTCP_header mode conn with
  | (inl e, mode1, conn1) => Some (inl e, mode1, conn1)
  | (inr header, mode1, conn1) =>
      let at_ := if bool_decide (mode1 = TCPMode0x24) then 2%nat else 0%nat in
      hi ← index header at_;
      lo ← index header (at_ + 1);
      let length := be16 hi lo in
      if (length =? 0) || (rtpReadBufSize <? length) then Some (inl ErrInvalidLength, mode1, conn1) else
      let (res, conn2) := ReadFull (Z.to_nat length) conn1 in
      Some (res, mode1, conn2)
  end.

(** [readLoop] on a TCP connection: every read error ends it, without a flush. *)
Fixpoint tcpLoop (unmarshal : list Z -> option Packet) (fuel : nat) (mode : TCPMode) (conn : list Z)
    (r : Receiver) : option (tcp_error * TCPMode * Receiver) :=
  match fuel with
  | O => None
  | S fuel' =>
      '(res, mode1, conn1) ← readTCP mode conn;
      match res with
      | inl e => Some (e, mode1, r)
      | inr packet => r1 ← readLoop_step unmarshal packet r; tcpLoop unmarshal fuel' mode1 conn1 r1
      end
  end.

(** ** The senders' framings *)

(** '$', channel 0, a 16-bit length ([writeRTPOverTCP]); [tcp_frame] is RFC 4571. *)
Definition dollar_frame (rtpPkt : list Z) : list Z :=
  [0x24; 0x00; u8 (Z.shiftr (len rtpPkt) 8); u8 (len rtpPkt)] ++ rtpPkt.

Definition framing (dollar : bool) : list Z -> list Z := if dollar then dollar_frame else tcp_frame.
Definition mode_of (dollar : bool) : TCPMode := if dollar then TCPMode0x24 else TCPModeRFC4571.

(** A packet whose length the 16-bit field can say. *)
Definition frameable (p : list Z) : Prop := 0 < len p < 65536.

(** Auto-detection tells an RFC 4571 length from '$' by its first byte. *)
Definition detectable (dollar : bool) (mode : TCPMode) (pkts : list (list Z)) : Prop :=
  mode = mode_of dollar \/
  mode = TCPModeAuto /\ (dollar = false -> match pkts with p :: _ => len p / 256 <> 0x24 | [] => True end).

Lemma ReadFull_app n l rest : length l = n -> ReadFull n (l ++ rest) = (inr l, rest).
Proof.
  intros <-. unfold ReadFull. rewrite (proj2 (Nat.leb_le _ _)) by (rewrite length_app; lia).
  by rewrite take_app_length, drop_app_length.
Qed.

Lemma ReadFull_1 a l : ReadFull 1 (a :: l) = (inr [a], l).
Proof. exact (ReadFull_app 1 [a] l eq_refl). Qed.

Lemma ReadFull_3 a b c l : ReadFull 3 (a :: b :: c :: l) = (inr [a; b; c], l).
Proof. exact (ReadFull_app 3 [a; b; c] l eq_refl). Qed.

Lemma readTCP_frame dollar mode p rest :
  frameable p -> detectable dollar mode [p] ->
  readTCP mode (framing dollar p ++ rest) = Some (inr p, mode_of dollar, rest).
Proof.
  intros Hp Hd. unfold frameable in Hp.
  set (h := (if dollar then [0x24; 0x00] else []) ++ put16 (len p)).
  assert (Ef : framing dollar p ++ rest = h ++ p ++ rest).
  { unfold h, framing, dollar_frame, tcp_frame. destruct dollar; [done|].
    rewrite u16_small by (unfold len in Hp; lia). by rewrite <- app_assoc. }
  assert (Eh : readTCP_header mode (h ++ p ++ rest) = (inr h, mode_of dollar, p ++ rest)).
  { unfold readTCP_header. destruct Hd as [->|[-> Hd]].
    - rewrite bool_decide_eq_false_2 by (by destruct dollar).
      destruct dollar; cbn [mode_of]; [rewrite bool_decide_eq_true_2 by done|rewrite bool_decide_eq_false_2 by done];
        by rewrite ReadFull_app.
    - rewrite bool_decide_eq_true_2 by done. unfold h, put16. destruct dollar; cbn [app].
      + by rewrite ReadFull_1, Z.eqb_refl, ReadFull_3.
      + rewrite ReadFull_1, (proj2 (Z.eqb_neq _ _)); [by rewrite ReadFull_1|].
        specialize (Hd eq_refl). unfold u8. rewrite Z.shiftr_div_pow2 by lia. change (2 ^ 8) with 256.
        rewrite Z.mod_small by (Z.to_euclidean_division_equations; lia). done. }
  rewrite Ef. unfold readTCP. rewrite Eh.
  assert (Ei : index h (if bool_decide (mode_of dollar = TCPMode0x24) then 2 else 0) = Some (u8 (Z.shiftr (len p) 8)) /\
    index h ((if bool_decide (mode_of dollar = TCPMode0x24) then 2 else 0) + 1) = Some (u8 (len p))).
  { unfold h, put16. by destruct dollar. }
  destruct Ei as [-> ->]. cbn [mbind option_bind]. rewrite be16_put16 by lia.
  rewrite (proj2 (Z.eqb_neq _ _)) by lia. rewrite (proj2 (Z.ltb_ge _ _)) by (unfold rtpReadBufSize; lia).
  cbn [orb]. rewrite ReadFull_app; [done|]. unfold len. by rewrite Nat2Z.id.
Qed.

Lemma detectable_known dollar pkts : detectable dollar (mode_of dollar) pkts.
Proof. by left. Qed.

Lemma readTCP_eof mode : exists mode', readTCP mode [] = Some (inl ErrEOF, mode', []).
Proof.
  exists mode. unfold readTCP, readTCP_header. destruct (bool_decide (mode = TCPModeAuto)); [done|].
  by destruct (bool_decide _).
Qed.

(** The receiver handles a framed stream as it handles the datagrams. *)
Lemma tcpLoop_frames unmarshal dollar pkts mode r r' fuel :
  Forall frameable pkts -> detectable dollar mode pkts -> (length pkts < fuel)%nat ->
  readAll unmarshal pkts r = Some r' ->
  exists mode', tcpLoop unmarshal fuel mode (concat (map (framing dollar) pkts)) r = Some (ErrEOF, mode', r').
Proof.
  intros Hp. revert mode r fuel. induction Hp as [|p pkts Hp _ IH]; intros mode r fuel Hd Hf Hr.
  - destruct fuel as [|fuel]; [simpl in Hf; lia|]. injection Hr as ->. cbn [map concat tcpLoop].
    destruct (readTCP_eof mode) as [mode' ->]. by exists mode'.
  - destruct fuel as [|fuel]; [simpl in Hf; lia|]. cbn [map concat tcpLoop readAll] in *.
    rewrite readTCP_frame by done. cbn [mbind option_bind].
    destruct (readLoop_step unmarshal p r) as [r1|]; [|done]. cbn [mbind option_bind] in *.
    apply (IH (mode_of dollar) r1 fuel); [apply detectable_known|simpl in Hf; lia|done].
Qed.

(** ** Properties *)

(** C29: Media over TCP is media over UDP: for both framings, with the mode
    configured or detected, and for packets of any sizes that fit the length
    field, the receiver reads off the byte stream exactly the packets that were
    framed, in order, handles each as it would a datagram, and ends with the
    peer's close. Detection needs a first packet outside 9216..9471 bytes. *)
Theorem tcp_as_udp unmarshal dollar pkts mode r r' fuel :
  Forall frameable pkts -> detectable dollar mode pkts -> (length pkts < fuel)%nat ->
  readAll unmarshal pkts r = Some r' ->
  exists mode', tcpLoop unmarshal fuel mode (concat (map (framing dollar) pkts)) r = Some (ErrEOF, mode', r').
Proof. apply tcpLoop_frames. Qed.

Definition demo_packets : list (list Z) :=
  [plain_bytes (mkPacket 7 1 90 true 96 [0; 0; 1; 0xBA] []); [1; 2; 3]].

Lemma tcp_as_udp_witness : exists r' mode',
  readAll parse_rtp demo_packets (NewReceiver true false true false false) = Some r' /\
  tcpLoop parse_rtp 10 TCPModeAuto (concat (map (framing true) demo_packets))
    (NewReceiver true false true false false) = Some (ErrEOF, mode', r').
Proof.
  destruct (readAll parse_rtp demo_packets (NewReceiver true false true false false)) as [r'|] eqn:E.
  - destruct (tcp_as_udp parse_rtp true demo_packets TCPModeAuto (NewReceiver true false true false false) r' 10)
      as [mode' H].
    + repeat constructor.
    + right. by split.
    + simpl. lia.
    + exact E.
    + exists r', mode'. split; [done|exact H].
  - exfalso. revert E. vm_compute. discriminate.
Defined.

(** The length 0x2400 of a first packet of 9216 bytes reads as '$', channel 0:
    auto-detection takes the RFC 4571 stream for a '$' stream. *)
Theorem auto_detect_ambiguous p rest : len p = 9216 ->
  readTCP_header TCPModeAuto (tcp_frame p ++ rest) =
  (inr ([0x24; 0x00] ++ take 2 p), TCPMode0x24, drop 2 p ++ rest).
Proof.
  intros H. unfold tcp_frame. unfold len in H. rewrite H.
  destruct p as [|a [|b p]]; [done..|]. change (put16 (u16 9216)) with [0x24; 0x00].
  unfold readTCP_header. cbn [app]. rewrite bool_decide_eq_true_2 by done.
  by rewrite ReadFull_1, Z.eqb_refl, ReadFull_3.
Qed.
