(* ===== verification/DevicePs.v ===== *)
(** The device's PS muxer ([device/ps.go]) and what the platform's demuxer makes
    of its output. The device lays its PES header out differently from the
    muxer of [psmux] (no '10' marker byte, a gap byte in front of the payload,
    a map under the system header's start code); the demuxer copes.

    A [time.Time] is [None] for the zero time, else its [UnixNano]. *)

From S2P Require Import Prelude PesParse PsDemux PsMux PsStream PsRoundtrip.
Open Scope Z_scope.

(** ** The muxer *)

(** [timeTo90kHz]: the product wraps at 64 bits. *)
Definition timeTo90kHz (t : option Z) : Z :=
  match t with
  | None => 0
  | Some nanos => u64 (u64 nanos * 9) / 100000
  end.

Definition BuildPsPackHeader (scr muxRate : Z) : list Z :=
  let base := scr / 300 in
  let ext := scr mod 300 in
  let rate := Z.land muxRate 0x3FFFFF in
  [0x00; 0x00; 0x01; 0xBA;
   Z.lor (Z.lor 0x44 (u8 (Z.shiftl (Z.land (Z.shiftr base 30) 0x07) 3))) (u8 (Z.land (Z.shiftr base 28) 0x03));
   u8 (Z.land (Z.shiftr base 20) 0xFF);
   Z.lor (Z.lor 0x04 (u8 (Z.shiftl (Z.land (Z.shiftr base 15) 0x1F) 3))) (u8 (Z.land (Z.shiftr base 13) 0x03));
   u8 (Z.land (Z.shiftr base 5) 0xFF);
   Z.lor (Z.lor 0x04 (u8 (Z.shiftl (Z.land base 0x1F) 3))) (u8 (Z.land (Z.shiftr ext 7) 0x03));
   Z.lor 0x01 (u8 (Z.shiftl (Z.land ext 0x7F) 1));
   u8 (Z.shiftr rate 14);
   u8 (Z.shiftr rate 6);
   Z.lor 0x03 (u8 (Z.shiftl (Z.land rate 0x3F) 2));
   0xF8].

Definition BuildProgramStreamMap : list Z :=
  [0x00; 0x00; 0x01; 0xBB; 0x00; 0x0B; 0x01; 0x00; 0x00; 0x00; 0x04;
   0x1B; 0xE0; 0x00; 0x00; 0x00; 0x00].

Definition encodePtsDts (value prefix : Z) : list Z :=
  [Z.lor (Z.lor (u8 (Z.shiftl prefix 4)) (u8 (Z.shiftl (Z.land (Z.shiftr value 30) 0x07) 1))) 0x01;
   u8 (Z.land (Z.shiftr value 22) 0xFF);
   Z.lor (u8 (Z.shiftl (Z.land (Z.shiftr value 15) 0x7F) 1)) 0x01;
   u8 (Z.land (Z.shiftr value 7) 0xFF);
   Z.lor (u8 (Z.shiftl (Z.land value 0x7F) 1)) 0x01].

(** [!t.IsZero()] *)
Definition has (t : option Z) : bool := match t with Some _ => true | None => false end.

Definition BuildPesPacket (streamID : Z) (payload : list Z) (pts dts : option Z) : list Z :=
  let optionalHeaderLen := (if has pts then 5 else 0) + (if has dts then 5 else 0) in
  let declared := u32 (3 + optionalHeaderLen + len payload) in
  let packetLen :=
    if (0 <? optionalHeaderLen) || (0 <? len payload)
    then (if declared <=? 65535 then declared else 0) else 0 in
  let ptsDtsFlags := match pts, dts with
                     | Some _, Some _ => 3 | Some _, None => 2 | None, Some _ => 1 | None, None => 0 end in
  [0x00; 0x00; 0x01; streamID] ++ put16 packetLen
  ++ [u8 (Z.shiftl ptsDtsFlags 6); optionalHeaderLen]
  ++ (if has pts then encodePtsDts (timeTo90kHz pts) (if has dts then 0x3 else 0x2) else [])
  ++ (if has dts then encodePtsDts (timeTo90kHz dts) 0x1 else [])
  ++ [0x00] ++ payload.

Definition maxPESChunkBytes : nat := Z.to_nat 65000.

(** The continuation packets of the loop, from [payload[start:]]. *)
Fixpoint cont_pes (fuel : nat) (rest : list Z) : option (list Z) :=
  match rest with
  | [] => Some []
  | _ =>
      match fuel with
      | O => None
      | S fuel' =>
          more ← cont_pes fuel' (drop maxPESChunkBytes rest);
          Some (BuildPesPacket 0xE0 (take maxPESChunkBytes rest) None None ++ more)
      end
  end.

(** The NAL units with a 4-byte start code on the first, 3 bytes on the others. *)
Definition start_coded (nalus : list (list Z)) : list (bool * list Z) :=
  match nalus with
  | [] => []
  | n :: rest => (true, n) :: map (fun n => (false, n)) rest
  end.

Definition MuxH264ToPS (nalus : list (list Z)) (isKeyFrame : bool) (pts dts : option Z) : option (list Z) :=
  let payload := annexb (start_coded nalus) in
  more ← cont_pes (length payload) (drop maxPESChunkBytes payload);
  Some (BuildPsPackHeader (u64 (timeTo90kHz pts * 300)) 10000
        ++ (if isKeyFrame then BuildProgramStreamMap else [])
        ++ BuildPesPacket 0xE0 (take maxPESChunkBytes payload) pts dts
        ++ more).

(** ** Its packets as units of the stream *)

Lemma maxPESChunkBytes_Z : Z.of_nat maxPESChunkBytes = 65000.
Proof. unfold maxPESChunkBytes. by rewrite Z2Nat.id. Qed.

#[global] Opaque maxPESChunkBytes.

Lemma dev_pack_unit scr rate : ps_unit (BuildPsPackHeader scr rate) (fun _ d => d).
Proof.
  apply (PsUnit _ _ startCodePack).
  - by eexists.
  - done.
  - intros rest pts' d Hf. change (feedStep ?p startCodePack pts' d) with (feed_pack p d).
    unfold feed_pack. rewrite (proj2 (Nat.ltb_ge _ _)) by (rewrite length_app; simpl; lia).
    change (index (BuildPsPackHeader scr rate ++ rest) 13) with (Some 0xF8). cbn [mbind option_bind].
    change (14 + Z.to_nat (Z.land 0xF8 0x07))%nat with (length (BuildPsPackHeader scr rate)).
    rewrite drop_app_length. destruct rest as [|b rest]; [done|]. simpl in Hf. by subst b.
  - intros p q pts' d Hu Hl Hq Hc. exists (d <| buf := p |>). split; [|by apply pending_buf].
    change (feedStep p startCodePack pts' d) with (feed_pack p d). unfold feed_pack.
    rewrite (proj2 (Nat.ltb_lt _ _)); [done|].
    apply (f_equal length) in Hu. rewrite length_app in Hu.
    change (length (BuildPsPackHeader scr rate)) with 14%nat in Hu.
    destruct q; [done|]. simpl in Hu. lia.
  - done.
Qed.

Lemma dev_psm_unit : ps_unit BuildProgramStreamMap (fun _ d => d).
Proof.
  change BuildProgramStreamMap with
    (framed startCodeSystem [0x01; 0x00; 0x00; 0x00; 0x04; 0x1B; 0xE0; 0x00; 0x00; 0x00; 0x00]).
  apply framed_skip_unit; [done|]. by left.
Qed.

(** A PES packet small enough for its length field, as a framed unit. *)
Lemma BuildPesPacket_framed payload pts dts :
  Z.of_nat (length payload) <= 65000 -> (pts <> None \/ dts <> None \/ payload <> []) ->
  exists fl T, length T = ((if has pts then 5 else 0) + (if has dts then 5 else 0))%nat /\
    BuildPesPacket 0xE0 payload pts dts =
      framed 0xE0 ([fl; Z.of_nat (length T)] ++ T ++ [0] ++ payload) /\
    T = (if has pts then encodePtsDts (timeTo90kHz pts) (if has dts then 0x3 else 0x2) else [])
        ++ (if has dts then encodePtsDts (timeTo90kHz dts) 0x1 else []).
Proof.
  intros Hl Hne. set (T := (if has pts then encodePtsDts (timeTo90kHz pts) (if has dts then 0x3 else 0x2) else [])
        ++ (if has dts then encodePtsDts (timeTo90kHz dts) 0x1 else [])).
  assert (HT : length T = ((if has pts then 5 else 0) + (if has dts then 5 else 0))%nat)
    by (unfold T; destruct pts, dts; done).
  exists (u8 (Z.shiftl (match pts, dts with
     | Some _, Some _ => 3 | Some _, None => 2 | None, Some _ => 1 | None, None => 0 end) 6)), T.
  split; [exact HT|]. split; [|done].
  unfold BuildPesPacket, framed.
  set (opt := (if has pts then 5 else 0) + (if has dts then 5 else 0)).
  assert (Ho : opt = Z.of_nat (length T)) by (rewrite HT; unfold opt; destruct pts, dts; done).
  assert (Hlen : (if (0 <? opt) || (0 <? len payload) then (if u32 (3 + opt + len payload) <=? 65535
     then u32 (3 + opt + len payload) else 0) else 0) = 3 + opt + len payload).
  { assert (Hr : 0 <= opt <= 10) by (unfold opt; destruct pts, dts; simpl; lia).
    assert (Hp : 0 <= len payload <= 65000) by (unfold len; lia).
    rewrite u32_small by lia. rewrite (proj2 (Z.leb_le _ _)) by lia.
    assert (Hg : (0 <? opt) || (0 <? len payload) = true).
    { apply orb_true_iff. rewrite !Z.ltb_lt. destruct Hne as [H|[H|H]].
      - left. unfold opt. destruct pts; [destruct dts; simpl; lia|done].
      - left. unfold opt. destruct dts; [destruct pts; simpl; lia|done].
      - right. destruct payload; [done|]. unfold len. simpl. lia. }
    by rewrite Hg. }
  rewrite Hlen, Ho. f_equal. rewrite !length_app. cbn [length Nat.add].
  replace (Z.of_nat (S (S (length T + S (length payload))))) with (3 + Z.of_nat (length T) + len payload)
    by (unfold len; lia).
  assert (E : T ++ [0] ++ payload = (if has pts then encodePtsDts (timeTo90kHz pts) (if has dts then 0x3 else 0x2) else [])
    ++ (if has dts then encodePtsDts (timeTo90kHz dts) 0x1 else []) ++ [0] ++ payload)
    by (unfold T; by rewrite <- app_assoc).
  by rewrite E.
Qed.

(** ** Where the demuxer finds the payload *)

(** The fields of a timestamp keep the scan for a start code off the header. *)
Definition stamp_ok (T : list Z) : Prop :=
  exists t0 t1 t2 t3 t4 T', T = [t0; t1; t2; t3; t4] ++ T' /\ 16 <= t0 /\ t2 <> 0 /\ t4 <> 0 /\
    (T' = [] \/ exists s0 s1 s2 s3 s4, T' = [s0; s1; s2; s3; s4] /\ s0 <> 0 /\ s2 <> 0 /\ s4 <> 0).

Lemma odd_nonzero a : Z.lor a 1 <> 0.
Proof. intros H. apply Z.lor_eq_0_iff in H as [_ H]. done. Qed.

Lemma encodePtsDts_shape v prefix : 1 <= prefix <= 3 ->
  exists t0 t1 t2 t3 t4, encodePtsDts v prefix = [t0; t1; t2; t3; t4] /\ 16 <= t0 /\ t0 <> 0 /\ t2 <> 0 /\ t4 <> 0.
Proof.
  intros Hp. unfold encodePtsDts. do 5 eexists. split; [reflexivity|].
  assert (Ht : 16 <= Z.lor (Z.lor (u8 (Z.shiftl prefix 4)) (u8 (Z.shiftl (Z.land (Z.shiftr v 30) 0x07) 1))) 0x01).
  { pose proof (land_ones_range (Z.shiftr v 30) 3 ltac:(lia)) as Hw. change (Z.ones 3) with 0x07 in Hw.
    set (w := Z.land (Z.shiftr v 30) 0x07) in *. clearbody w. change (2 ^ 3) with 8 in Hw.
    assert (Cw : w = 0 \/ w = 1 \/ w = 2 \/ w = 3 \/ w = 4 \/ w = 5 \/ w = 6 \/ w = 7) by lia.
    assert (Cp : prefix = 1 \/ prefix = 2 \/ prefix = 3) by lia. clear Hw Hp.
    destruct Cp as [->|[->| ->]]; repeat destruct Cw as [->|Cw]; subst; by vm_compute. }
  split; [exact Ht|]. split; [lia|]. split; apply odd_nonzero.
Qed.

Lemma stamp_fields pts dts : pts <> None \/ dts <> None ->
  stamp_ok ((if has pts then encodePtsDts (timeTo90kHz pts) (if has dts then 0x3 else 0x2) else [])
        ++ (if has dts then encodePtsDts (timeTo90kHz dts) 0x1 else [])).
Proof.
  intros H. unfold stamp_ok. destruct (encodePtsDts_shape (timeTo90kHz dts) 1) as (s0 & s1 & s2 & s3 & s4 & E & S0 & S1 & S2 & S3);
    [lia|].
  destruct pts as [p|]; cbn [has].
  - destruct (encodePtsDts_shape (timeTo90kHz (Some p)) (if has dts then 3 else 2)) as (t0 & t1 & t2 & t3 & t4 & Et & T0 & T1 & T2 & T3);
      [destruct dts; simpl; lia|]. rewrite Et. destruct dts as [q|]; cbn [has].
    + rewrite E. exists t0, t1, t2, t3, t4, [s0; s1; s2; s3; s4]. split_and!; try done.
      right. by exists s0, s1, s2, s3, s4.
    + exists t0, t1, t2, t3, t4, []. split_and!; try done. by left.
  - destruct dts as [q|]; [|by destruct H]. cbn [has]. rewrite E. exists s0, s1, s2, s3, s4, [].
    split_and!; try done. by left.
Qed.

(** The first start code behind a stamped header is the payload's own. *)
Lemma header_scan_dev u T x t rest bound :
  stamp_ok T -> drop 8 u = T ++ [0; 0; 0; 0; 1] ++ x :: t ++ rest ->
  (13 + length T <= bound <= length u)%nat ->
  header_scan u 8 bound bound = Some (Some (10 + length T))%nat.
Proof.
  intros (t0 & t1 & t2 & t3 & t4 & T' & -> & H0 & H2 & H4 & HT') Hu Hb.
  assert (L : forall j v, ([t0; t1; t2; t3; t4] ++ T' ++ [0; 0; 0; 0; 1]) !! j = Some v -> u !! (8 + j)%nat = Some v).
  { intros j v Hj. rewrite <- lookup_drop, Hu.
    apply (lookup_app_l_Some _ (x :: t ++ rest)) in Hj. rewrite <- !app_assoc in Hj. rewrite <- !app_assoc. exact Hj. }
  destruct HT' as [->|(s0 & s1 & s2 & s3 & s4 & -> & N0 & N2 & N4)]; cbn [app length Nat.add] in *.
  - pose proof (L 0%nat _ eq_refl) as E0. pose proof (L 2%nat _ eq_refl) as E2.
    pose proof (L 4%nat _ eq_refl) as E4. pose proof (L 5%nat _ eq_refl) as E5.
    pose proof (L 6%nat _ eq_refl) as E6. pose proof (L 7%nat _ eq_refl) as E7.
    pose proof (L 8%nat _ eq_refl) as E8. pose proof (L 9%nat _ eq_refl) as E9. cbn [Nat.add] in *.
    rewrite (header_scan_skips u 8 7) by first [lia|
      intros j a b c Hj Ha Eb Ec;
      assert (Hc : j = 8%nat \/ j = 9%nat \/ j = 10%nat \/ j = 11%nat \/ j = 12%nat \/ j = 13%nat \/ j = 14%nat) by lia;
      rewrite !andb_false_iff, !Z.eqb_neq;
      destruct Hc as [->|[->|[->|[->|[->|[->| ->]]]]]]; cbn [Nat.add] in *; simplify_eq; auto; lia].
    destruct (bound - 7)%nat eqn:Ef; [lia|]. apply header_scan_hit; [lia|done..].
  - pose proof (L 0%nat _ eq_refl) as E0. pose proof (L 2%nat _ eq_refl) as E2.
    pose proof (L 4%nat _ eq_refl) as E4. pose proof (L 5%nat _ eq_refl) as E5.
    pose proof (L 7%nat _ eq_refl) as E7. pose proof (L 9%nat _ eq_refl) as E9.
    pose proof (L 10%nat _ eq_refl) as E10. pose proof (L 11%nat _ eq_refl) as E11.
    pose proof (L 12%nat _ eq_refl) as E12. pose proof (L 13%nat _ eq_refl) as E13.
    pose proof (L 14%nat _ eq_refl) as E14. cbn [Nat.add] in *.
    rewrite (header_scan_skips u 8 12) by first [lia|
      intros j a b c Hj Ha Eb Ec;
      assert (Hc : j = 8%nat \/ j = 9%nat \/ j = 10%nat \/ j = 11%nat \/ j = 12%nat \/ j = 13%nat \/ j = 14%nat
        \/ j = 15%nat \/ j = 16%nat \/ j = 17%nat \/ j = 18%nat \/ j = 19%nat) by lia;
      rewrite !andb_false_iff, !Z.eqb_neq;
      destruct Hc as [->|[->|[->|[->|[->|[->|[->|[->|[->|[->|[->| ->]]]]]]]]]]]; cbn [Nat.add] in *; simplify_eq; auto; lia].
    destruct (bound - 12)%nat eqn:Ef; [lia|]. apply header_scan_hit; [lia|done..].
Qed.

(** A packet with timestamps: the payload is found at the gap byte. *)
Lemma pesPayloadStart_dev fl T x t rest :
  stamp_ok T ->
  let body := [fl; Z.of_nat (length T)] ++ T ++ [0] ++ [0; 0; 0; 1] ++ x :: t in
  pesPayloadStart (framed 0xE0 body ++ rest) (6 + length body) = Some (6 + (2 + length T))%nat.
Proof.
  intros HT body. pose proof HT as (t0 & t1 & t2 & t3 & t4 & T' & ET & H0 & _ & _ & HT').
  set (k := length T). assert (Hk : k = 5%nat \/ k = 10%nat).
  { unfold k. rewrite ET. destruct HT' as [->|(s0 & s1 & s2 & s3 & s4 & -> & _)]; [by left|by right]. }
  set (n := (6 + length body)%nat). set (u := framed 0xE0 body ++ rest).
  assert (Hn : n = (14 + k + length t)%nat).
  { unfold n, body. rewrite !length_app. fold k. simpl. lia. }
  assert (Hu : (n <= length u)%nat) by (unfold u; rewrite length_app, framed_cons; unfold n; simpl; lia).
  assert (E8 : index u 8 = Some t0) by (unfold u, body; rewrite ET, framed_cons; done).
  assert (Hsc : forall bound, (13 + k <= bound <= length u)%nat ->
    header_scan u 8 bound bound = Some (Some (10 + k))%nat).
  { intros bound Hb. apply (header_scan_dev u T x t rest); [done| |exact Hb].
    unfold u, body. rewrite framed_cons. cbn [app drop]. by rewrite <- !app_assoc. }
  unfold pesPayloadStart. rewrite E8.
  change (index u 7) with (Some (Z.of_nat k)). cbn [mbind option_bind].
  rewrite (Nat.min_l n (length u)) by done. cbv zeta. rewrite Nat2Z.id.
  assert (Cl : pes_clamp n (8 + k) = (8 + k)%nat).
  { unfold pes_clamp. rewrite !(proj2 (Nat.ltb_ge _ _)) by lia. done. }
  assert (Cs : (Nat.min 25 n <= pes_clamp n (9 + Z.to_nat t0) <= n)%nat).
  { unfold pes_clamp. rewrite (proj2 (Nat.ltb_ge _ 9)) by lia. destruct (Nat.ltb_spec n (9 + Z.to_nat t0)); lia. }
  rewrite Cl. set (std := pes_clamp n (9 + Z.to_nat t0)) in *.
  rewrite Hsc by lia. cbn [mbind option_bind]. unfold abs_diff.
  rewrite (proj2 (Nat.ltb_lt _ _)) by lia. done.
Qed.

(** ** The packets of an access unit *)

(** What no packet of this muxer touches: it shows the platform no timestamp,
    no codec and no audio. *)
Definition es_only (d d' : PSDemuxer) : Prop :=
  naluType d' = naluType d /\ ptsOffset d' = ptsOffset d /\ ptsOffsetSet d' = ptsOffsetSet d /\
  audioOut d' = audioOut d.

Lemma es_only_trans d1 d2 d3 : es_only d1 d2 -> es_only d2 d3 -> es_only d1 d3.
Proof. unfold es_only. intuition congruence. Qed.

(** Units that only append [es] to the elementary stream. *)
Definition appends (us : unit_list) (es : list Z) : Prop :=
  all_units us /\ silent us /\ forall ts d, len (esBuf d ++ es) <= maxESBufBytes ->
    esBuf (effect us ts d) = esBuf d ++ es /\ es_only d (effect us ts d).

Lemma appends_nil : appends [] [].
Proof. do 2 (split; [by apply Forall_nil|]). intros ts d _. simpl. by rewrite app_nil_r. Qed.

Lemma appends_skip u : ps_unit u (fun _ d => d) -> appends [(u, fun _ d => d)] [].
Proof. intros Hu. do 2 (split; [by constructor|]). intros ts d _. simpl. by rewrite app_nil_r. Qed.

Lemma appends_video u es : ps_unit u (video_effect es None) -> appends [(u, video_effect es None)] es.
Proof.
  intros Hu. split; [by constructor|]. split.
  { constructor; [|constructor]. intros ts d. unfold video_effect, accumulate_es. destruct es; [done|]. by destruct (_ <? _). }
  intros ts d Hl. unfold effect, video_effect. cbn [fold_left].
  destruct es as [|x es]; [by rewrite app_nil_r|]. cbn [clock]. by rewrite accumulate_small.
Qed.

Lemma appends_app us1 us2 es1 es2 : appends us1 es1 -> appends us2 es2 -> appends (us1 ++ us2) (es1 ++ es2).
Proof.
  intros (U1 & S1 & E1) (U2 & S2 & E2). do 2 (split; [by apply Forall_app|]). intros ts d. rewrite app_assoc. intros Hl.
  destruct (E1 ts d) as [F1 G1]. { revert Hl. unfold len. rewrite !length_app. lia. }
  rewrite <- F1 in Hl. destruct (E2 ts _ Hl) as [F2 G2]. rewrite effect_app.
  split; [by rewrite F2, F1|by eapply es_only_trans].
Qed.

Lemma take_chunk_small (l : list Z) : Z.of_nat (length (take maxPESChunkBytes l)) <= 65000.
Proof. rewrite length_take. pose proof maxPESChunkBytes_Z. lia. Qed.

(** A packet without timestamps: its gap byte is a zero header length. *)
Lemma plain_unit payload : payload <> [] -> Z.of_nat (length payload) <= 65000 ->
  ps_unit (BuildPesPacket 0xE0 payload None None) (video_effect payload None).
Proof.
  intros Hne Hl. destruct (BuildPesPacket_framed payload None None Hl) as (fl & T & HT & -> & ->); [by auto|].
  apply (framed_video_unit ([fl; 0; 0] ++ payload) 3 None); [simpl; lia..| |].
  - intros rest. apply pesPayloadStart_cont.
  - intros _ rest. rewrite framed_cons. cbn [app]. unfold parsePESPTS. by destruct (Nat.ltb _ _).
Qed.

(** The packet with timestamps: the gap byte joins the elementary stream. *)
Lemma stamped_unit x t pts dts : pts <> None \/ dts <> None ->
  let payload := [0; 0; 0; 1] ++ x :: t in Z.of_nat (length payload) <= 65000 ->
  ps_unit (BuildPesPacket 0xE0 payload pts dts) (video_effect (0 :: payload) None).
Proof.
  intros Hs payload Hl.
  destruct (BuildPesPacket_framed payload pts dts Hl) as (fl & T & HT & -> & ET); [tauto|].
  assert (Hok : stamp_ok T) by (rewrite ET; by apply stamp_fields).
  assert (Hk : (length T = 5 \/ length T = 10)%nat).
  { rewrite HT. destruct pts, dts; simpl; tauto. }
  set (body := [fl; Z.of_nat (length T)] ++ T ++ [0] ++ payload).
  assert (Hlb : length body = (3 + length T + length payload)%nat)
    by (unfold body; rewrite !length_app; simpl; lia).
  assert (Hd : drop (2 + length T) body = 0 :: payload).
  { exact (drop_app_length T ([0] ++ payload)). }
  rewrite <- Hd. apply (framed_video_unit body (2 + length T) None); [lia..| |].
  - intros rest. by apply pesPayloadStart_dev.
  - intros _ rest. unfold body. rewrite framed_cons. cbn [app]. unfold parsePESPTS.
    destruct (Nat.ltb _ _); [done|]. cbn. by destruct Hk as [-> | ->].
Qed.

Lemma cont_pes_units fuel rest : (length rest <= fuel)%nat ->
  exists us, cont_pes fuel rest = Some (bytes us) /\ appends us rest.
Proof.
  revert rest. induction fuel as [|fuel IH]; intros rest Hf.
  { destruct rest; [|simpl in Hf; lia]. exists []. split; [done|apply appends_nil]. }
  destruct rest as [|x rest]; [exists []; split; [done|apply appends_nil]|].
  set (r := x :: rest) in *. pose proof maxPESChunkBytes_Z.
  destruct (IH (drop maxPESChunkBytes r)) as (us & E & A).
  { rewrite length_drop. simpl in Hf |- *. lia. }
  exists ([(BuildPesPacket 0xE0 (take maxPESChunkBytes r) None None,
           video_effect (take maxPESChunkBytes r) None)] ++ us). split.
  - cbn [cont_pes]. unfold r at 1. cbv iota. fold r. rewrite E. cbn [mbind option_bind]. reflexivity.
  - rewrite <- (take_drop maxPESChunkBytes r) at 3. apply appends_app; [|done]. apply appends_video.
    apply plain_unit; [|apply take_chunk_small]. unfold r. destruct maxPESChunkBytes; [lia|done].
Qed.

(** The gap byte the demuxer reads as part of the elementary stream. *)
Definition gap (pts dts : option Z) : list Z := if has pts || has dts then [0] else [].

Lemma MuxH264ToPS_units n nalus isKeyFrame pts dts : n <> [] ->
  let payload := annexb (start_coded (n :: nalus)) in
  exists us, MuxH264ToPS (n :: nalus) isKeyFrame pts dts = Some (bytes us) /\
    appends us (gap pts dts ++ payload).
Proof.
  intros Hn payload. unfold MuxH264ToPS. fold payload.
  destruct (cont_pes_units (length payload) (drop maxPESChunkBytes payload)) as (us & -> & A);
    [rewrite length_drop; lia|]. cbn [mbind option_bind].
  set (head := (BuildPsPackHeader (u64 (timeTo90kHz pts * 300)) 10000, fun (_ : Z) (d : PSDemuxer) => d) ::
    (if isKeyFrame then [(BuildProgramStreamMap, fun (_ : Z) (d : PSDemuxer) => d)] else [])).
  set (first := take maxPESChunkBytes payload).
  set (pes := [(BuildPesPacket 0xE0 first pts dts, video_effect (gap pts dts ++ first) None)]).
  exists (head ++ pes ++ us). split.
  - unfold head, pes. rewrite !bytes_app. unfold bytes at 1 2. cbn [map fst concat].
    destruct isKeyFrame; simpl; by rewrite !app_nil_r.
  - rewrite <- (take_drop maxPESChunkBytes payload), (app_assoc (gap pts dts)).
    apply (appends_app head _ []  (_ ++ _)).
    { unfold head. change (@nil Z) with (@nil Z ++ []) at 1. apply (appends_app [_]).
      - apply appends_skip, dev_pack_unit.
      - destruct isKeyFrame; [apply appends_skip, dev_psm_unit|apply appends_nil]. }
    apply appends_app; [|done]. unfold pes. apply appends_video.
    pose proof (take_chunk_small payload) as Hs. fold first in Hs. pose proof maxPESChunkBytes_Z.
    assert (Hf : exists x t, first = [0; 0; 0; 1] ++ x :: t).
    { destruct n as [|x n]; [by destruct Hn|]. unfold first, payload. cbn [start_coded annexb map concat sc_bytes app].
      replace maxPESChunkBytes with (5 + (maxPESChunkBytes - 5))%nat by lia. by do 2 eexists. }
    destruct Hf as (x & t & Hf). unfold gap. destruct pts as [p|]; [|destruct dts as [q|]]; cbn [has orb app].
    + change (take maxPESChunkBytes payload) with first. rewrite Hf in Hs |- *. apply stamped_unit; [by left|done].
    + change (take maxPESChunkBytes payload) with first. rewrite Hf in Hs |- *. apply stamped_unit; [by right|done].
    + apply plain_unit; [|done]. fold first. by rewrite Hf.
Qed.

(** ** What the demuxer delivers *)

Lemma start_coded_snd nalus : map snd (start_coded nalus) = nalus.
Proof. destruct nalus as [|n rest]; [done|]. simpl. f_equal. rewrite map_map. apply map_id. Qed.

Lemma start_coded_clean nalus : Forall clean nalus -> Forall (fun '(_, n) => clean n) (start_coded nalus).
Proof.
  intros H. destruct H as [|n rest Hn Hr]; [constructor|]. constructor; [done|].
  induction Hr; [constructor|]. by constructor.
Qed.

(** The gap byte in front of the first start code does not reach a NAL unit. *)
Lemma extractNALUs_gap n nalus pts dts ty : Forall clean (n :: nalus) -> ty <> "svac"%string ->
  extractNALUs (gap pts dts ++ annexb (start_coded (n :: nalus))) ty = Some (n :: nalus).
Proof.
  intros Hc Ht. rewrite <- (start_coded_snd (n :: nalus)) at 2.
  apply extractNALUs_annexb; [done..|by apply start_coded_clean|].
  unfold gap. by destruct (has pts || has dts).
Qed.

Lemma finish_dev n nalus pts dts d :
  Forall clean (n :: nalus) -> clean_state d -> naluType d <> "svac"%string ->
  esBuf d = gap pts dts ++ annexb (start_coded (n :: nalus)) ->
  exists d', finish d = Some (n :: nalus, d') /\ synced d' /\ ptsOffset d' = ptsOffset d /\
    ptsOffsetSet d' = ptsOffsetSet d /\ audioOut d' = audioOut d /\
    (if bool_decide (naluType d = ""%string)
     then In (naluType d') [""; "h264"; "h265"]%string else naluType d' = naluType d).
Proof.
  intros Hl Hc Ht Hes. set (d1 := d <| esBuf := [] |>).
  exists (maybeLatchCodecFromNALUs (n :: nalus) d1).
  pose proof (extractNALUs_gap n nalus pts dts _ Hl Ht) as Ex. rewrite <- Hes in Ex. split.
  - unfold finish. rewrite Ex. destruct (esBuf d) eqn:E; [|done].
    exfalso. symmetry in Hes. by apply app_eq_nil in Hes as [_ Hes].
  - destruct (maybeLatch_frame (n :: nalus) d1) as (Hp & (H1 & H2 & H3 & H4) & Hn).
    assert (C : clean_state d1) by (by repeat split; apply Hc).
    repeat split; try (by eapply same_pending_clean); done.
Qed.

(** What the device's muxer writes the platform's demuxer delivers, for any
    cut of the bytes into pieces, whether or not timestamps are present and
    however many packets the access unit takes: exactly the NAL units that went
    in. The demuxer is between two access units again; its clock offset and
    audio are untouched, and a codec it knew already is kept. *)
Theorem device_roundtrip n nalus isKeyFrame pts dts ps ts d cs :
  Forall clean (n :: nalus) -> len (gap pts dts ++ annexb (start_coded (n :: nalus))) <= maxESBufBytes ->
  synced d -> naluType d <> "svac"%string ->
  MuxH264ToPS (n :: nalus) isKeyFrame pts dts = Some ps ->
  cs <> [] -> Forall (fun c => c <> []) cs -> concat cs = ps ->
  exists d', FeedChunks cs ts d = Some (n :: nalus, d') /\ synced d' /\
    ptsOffset d' = ptsOffset d /\ ptsOffsetSet d' = ptsOffsetSet d /\ audioOut d' = audioOut d /\
    (if bool_decide (naluType d = ""%string)
     then In (naluType d') [""; "h264"; "h265"]%string else naluType d' = naluType d).
Proof.
  intros Hn Hlen [Hc Hes] Ht Hm Hne Hcs Hps.
  destruct (MuxH264ToPS_units n nalus isKeyFrame pts dts) as (us & E & U & _ & A); [by inversion Hn as [|? ? []]|].
  rewrite E in Hm. injection Hm as <-.
  rewrite (FeedChunks_spec us); [|done..|by rewrite clean_pending].
  rewrite clean_clear by done. destruct (A ts d) as (F1 & F2 & F3 & F4 & F5); [by rewrite Hes|].
  rewrite Hes in F1. cbn [app] in F1. rewrite <- F2 in Ht |- *. rewrite <- F3, <- F4, <- F5.
  apply (finish_dev n nalus pts dts); [done|by apply effect_clean|done..].
Qed.

Lemma device_roundtrip_witness : exists ps d',
  MuxH264ToPS [[0x67; 0x42]; [0x65; 0; 0; 3; 1]] true (Some 1785000000000000000) (Some 1785000000000000000) = Some ps /\
  FeedChunks (pieces [20; 1; 30]%nat ps) 3000 NewPSDemuxer = Some ([[0x67; 0x42]; [0x65; 0; 0; 3; 1]], d') /\ synced d'.
Proof.
  destruct (MuxH264ToPS_units [0x67; 0x42] [[0x65; 0; 0; 3; 1]] true (Some 1785000000000000000)
    (Some 1785000000000000000)) as (us & E & _); [done|].
  destruct (device_roundtrip [0x67; 0x42] [[0x65; 0; 0; 3; 1]] true (Some 1785000000000000000)
    (Some 1785000000000000000) (bytes us) 3000 NewPSDemuxer (pieces [20; 1; 30]%nat (bytes us)))
    as (d' & H1 & H2 & _).
  - constructor; [|constructor; [|constructor]]; by repeat split.
  - vm_compute. discriminate.
  - by repeat split.
  - done.
  - exact E.
  - intros Hp. pose proof (concat_pieces [20; 1; 30]%nat (bytes us)) as Hc. rewrite Hp in Hc.
    rewrite <- Hc in E. unfold MuxH264ToPS in E. destruct (cont_pes _ _); discriminate.
  - apply pieces_nonempty.
  - apply concat_pieces.
  - exists (bytes us), d'. split; [exact E|]. split; [exact H1|exact H2].
Defined.

(** ** Timestamps *)

Lemma timeTo90kHz_small n : 0 <= n -> n * 9 < 2 ^ 64 -> timeTo90kHz (Some n) = n * 9 / 100000.
Proof.
  intros H0 H. unfold timeTo90kHz, u64. change (2 ^ 64) with 18446744073709551616 in *.
  rewrite (Z.mod_small n) by lia. by rewrite Z.mod_small by lia.
Qed.

(** The conversion to 90 kHz ticks is monotonic while nine times the
    nanoseconds fit in 64 bits, and not beyond: at 2034-12-13 the product wraps
    and the clock of the stream falls back to zero. *)
Theorem device_clock n m :
  0 <= n <= m -> m * 9 < 2 ^ 64 ->
  timeTo90kHz (Some n) <= timeTo90kHz (Some m) /\
  timeTo90kHz (Some 2049638230412172402) < timeTo90kHz (Some 2049638230412172401).
Proof.
  intros [H1 H2] H. split; [|by vm_compute]. rewrite !timeTo90kHz_small by lia.
  apply Z.div_le_mono; lia.
Qed.

Lemma device_clock_witness : timeTo90kHz (Some 1000) <= timeTo90kHz (Some 1785000000000000000) /\
  timeTo90kHz (Some 2049638230412172402) < timeTo90kHz (Some 2049638230412172401).
Proof. apply device_clock; [lia|]. vm_compute. reflexivity. Defined.
