(* ===== verification/RtpPusher.v ===== *)
(** The device's RTP sender ([device/rtp_pusher.go]): one PS access unit becomes
    RTP packets of at most 1400 payload bytes, on UDP or '$'-framed on TCP.

    The connection and pion's [Marshal] are parameters as in [RtpSend];
    [marshalExt] is the packet with the AU signature attached as a two-byte
    header extension ([SetExtension], then [Marshal]). *)

From S2P Require Import Prelude PsDemux Receiver RtpSend TcpMedia DevicePs.
Open Scope Z_scope.

(** The sender of an AU signature: [None] is its error, [Some None] a nil slice. *)
Definition AUSignerFunc := list Z -> Z -> Z -> option (option (list Z)).

Module Pusher.

Record RtpPusher := mkRtpPusher {
  tcpConn : bool;
  seqNum : Z;
  payloadEncryptor : option cryptor;
  auSigner : option AUSignerFunc;
  metrics : bool;
  psBytesOut : Z;
}.

#[global] Instance eta_RtpPusher : Eta RtpPusher := fun p =>
  mkRtpPusher (tcpConn p) (seqNum p) (payloadEncryptor p) (auSigner p) (metrics p) (psBytesOut p).

(** [nanos] is the clock's reading, whose low bits start the sequence. *)
Definition NewRtpPusher (nanos : Z) : RtpPusher := mkRtpPusher false (u16 (Z.land nanos 0xFFFF)) None None false 0.

Definition SetPayloadEncryptor (fn : option cryptor) (rp : RtpPusher) : RtpPusher := rp <| payloadEncryptor := fn |>.

Definition SetAUSigner (fn : option AUSignerFunc) (rp : RtpPusher) : RtpPusher := rp <| auSigner := fn |>.

Definition SetMetricsHooks (h : bool) (rp : RtpPusher) : RtpPusher := rp <| metrics := h |>.

Definition SetTCPConn (conn : bool) (rp : RtpPusher) : RtpPusher := rp <| tcpConn := conn |>.

(** The cryptor's own [Zero] wipes key material outside this state. *)
Definition ZeroSecurity (rp : RtpPusher) : RtpPusher :=
  rp <| payloadEncryptor := None |> <| auSigner := None |>.

Record push_result := mkPushResult {
  pushed : list (list Z);
  push_err : option send_error;
  pusher : RtpPusher;
}.

(** The packets handed to pion. *)
Definition BuildRtpPacket (payload : list Z) (marker : bool) (ssrc seqNum timestamp : Z) : Packet :=
  mkPacket ssrc seqNum timestamp marker 96 payload [].

Definition BuildRtpPacketWithExtension (payload : list Z) (marker : bool) (ssrc seqNum timestamp : Z)
    (ext : list Z) : Packet :=
  mkPacket ssrc seqNum timestamp marker 96 payload ext.

Definition writeRTPOverTCP (rtpPkt : list Z) : list Z := dollar_frame rtpPkt.

Section pusher.
Context (write : list Z -> bool).
Context (marshal marshalExt : Packet -> option (list Z)).

(** The fragment loop on the suffix [psData[offset:]]. *)
Fixpoint SendFrame_loop (fuel : nat) (rest : list Z) (fragmentIndex totalFragments timestamp ssrc : Z)
    (auSig : option (list Z)) (rp : RtpPusher) : option push_result :=
  match rest with
  | [] => Some (mkPushResult [] None rp)
  | _ =>
      match fuel with
      | O => None
      | S fuel' =>
          let fragment := take RTPMTU rest in
          let marker := fragmentIndex =? totalFragments - 1 in
          let fragment := match payloadEncryptor rp with
                          | Some c => c fragment ssrc (seqNum rp)
                          | None => fragment
                          end in
          let rtpBuf := match marker, auSig with
                        | true, Some sig =>
                            marshalExt (BuildRtpPacketWithExtension fragment marker ssrc (seqNum rp) timestamp sig)
                        | _, _ => marshal (BuildRtpPacket fragment marker ssrc (seqNum rp) timestamp)
                        end in
          match rtpBuf with
          | None => Some (mkPushResult [] (Some ErrMarshal) rp)
          | Some rtpBuf =>
              let dgram := if tcpConn rp then writeRTPOverTCP rtpBuf else rtpBuf in
              if negb (write dgram) then Some (mkPushResult [] (Some ErrWrite) rp) else
              r ← SendFrame_loop fuel' (drop RTPMTU rest) (fragmentIndex + 1) totalFragments timestamp ssrc auSig
                    (rp <| seqNum := u16 (seqNum rp + 1) |>);
              Some (mkPushResult (dgram :: pushed r) (push_err r) (pusher r))
          end
      end
  end.

Definition SendFrame (psData : list Z) (pts : option Z) (ssrc : Z) (rp : RtpPusher) : option push_result :=
  let timestamp := u32 (timeTo90kHz pts) in
  match match auSigner rp with
        | None => Some None
        | Some sign => sign psData ssrc timestamp
        end with
  | None => Some (mkPushResult [] (Some ErrSign) rp)
  | Some auSig =>
      let totalFragments := (len psData + 1400 - 1) / 1400 in
      r ← SendFrame_loop (length psData) psData 0 totalFragments timestamp ssrc auSig rp;
      match push_err r with
      | Some _ => Some r
      | None => Some (if metrics (pusher r)
                      then mkPushResult (pushed r) None
                             ((pusher r) <| psBytesOut := psBytesOut (pusher r) + len psData |>)
                      else r)
      end
  end.
End pusher.
End Pusher.

Import Pusher (RtpPusher, mkRtpPusher, tcpConn, seqNum, payloadEncryptor, metrics, psBytesOut,
               pushed, push_err, pusher, SendFrame, SendFrame_loop).

(** ** What is on the wire *)

(** The pusher as a packetizer for one dialog's SSRC. *)
Definition packetizer (ssrc : Z) (rp : RtpPusher) : RTPPacketizer :=
  mkRTPPacketizer (negb (tcpConn rp)) ssrc (seqNum rp) 96 0 (payloadEncryptor rp) None.

Definition pushed_n (n : nat) (rp : RtpPusher) : RtpPusher := rp <| seqNum := u16 (seqNum rp + Z.of_nat n) |>.

(** The bytes of one packet of a signed or unsigned frame. *)
Definition encode_ext (marshal marshalExt : Packet -> option (list Z)) (auSig : option (list Z)) (q : Packet)
  : option (list Z) :=
  match Marker q, auSig with true, Some _ => marshalExt q | _, _ => marshal q end.

Definition push_wire (rp : RtpPusher) (l : list Z) : list Z := if tcpConn rp then dollar_frame l else l.

(** The datagrams of a frame. *)
Definition datagrams (marshal marshalExt : Packet -> option (list Z)) (auSig : option (list Z)) (rp : RtpPusher)
    (pkts : list Packet) : list (list Z) :=
  map (fun q => push_wire rp (default [] (encode_ext marshal marshalExt auSig q))) pkts.

(** pion makes bytes of every packet of the frame. *)
Definition encodable (marshal marshalExt : Packet -> option (list Z)) (auSig : option (list Z))
    (pkts : list Packet) : Prop :=
  Forall (fun q => is_Some (encode_ext marshal marshalExt auSig q)) pkts.

Lemma pushed_n_S n rp : pushed_n n (pushed_n 1 rp) = pushed_n (S n) rp.
Proof.
  assert (E : u16 (u16 (seqNum rp + Z.of_nat 1) + Z.of_nat n) = u16 (seqNum rp + Z.of_nat (S n))).
  { unfold u16. rewrite Zplus_mod_idemp_l. f_equal. lia. }
  unfold pushed_n. by rewrite <- E.
Qed.

Lemma pushed_n_0 rp : 0 <= seqNum rp < 65536 -> pushed_n 0 rp = rp.
Proof. intros H. unfold pushed_n. rewrite Z.add_0_r, u16_small by done. by destruct rp. Qed.

(** Only [seq] of the packetizer matters to the packets. *)
Lemma burst_sent frags ts sg p n : burst frags ts sg (p <| sent := n |>) = burst frags ts sg p.
Proof.
  revert p n. induction frags as [|f frags IH]; intros p n; [done|]. cbn [burst]. f_equal.
  set (p' := p <| seq := u16 (seq p + 1) |>).
  exact (eq_trans (IH p' (n + 1)) (eq_sym (IH p' (sent p + 1)))).
Qed.

(** The marker test of the loop against the cut. *)
Lemma last_fragment rest idx total : rest <> [] -> total = idx + (len rest + 1400 - 1) / 1400 ->
  (idx =? total - 1) = match drop RTPMTU rest with [] => true | _ => false end /\
  total = idx + 1 + (len (drop RTPMTU rest) + 1400 - 1) / 1400.
Proof.
  intros Hne ->. pose proof RTPMTU_Z as Hm. set (r' := drop RTPMTU rest).
  assert (Hl : len r' = Z.max (len rest - 1400) 0) by (unfold r', len; rewrite length_drop; lia).
  assert (Hp : 0 < len rest) by (destruct rest; [done|unfold len; simpl; lia]).
  assert (He : (match r' with [] => true | _ => false end) = (len r' =? 0)).
  { by destruct r'. }
  rewrite He, Hl. split.
  - destruct (Z.eqb_spec (Z.max (len rest - 1400) 0) 0); [apply Z.eqb_eq|apply Z.eqb_neq];
      Z.to_euclidean_division_equations; lia.
  - destruct (Z.max_spec (len rest - 1400) 0) as [[? ->]|[? ->]]; Z.to_euclidean_division_equations; lia.
Qed.

Lemma SendFrame_loop_spec write marshal marshalExt fuel rest idx total ts ssrc auSig rp :
  0 <= seqNum rp < 65536 -> 0 <= ts < 4294967296 -> (length rest <= fuel)%nat ->
  total = idx + (len rest + 1400 - 1) / 1400 ->
  let pkts := burst (fragments fuel rest) ts (default [] auSig) (packetizer ssrc rp) in
  let ds := datagrams marshal marshalExt auSig rp pkts in
  encodable marshal marshalExt auSig pkts ->
  exists res, SendFrame_loop write marshal marshalExt fuel rest idx total ts ssrc auSig rp = Some res /\
    pushed res = until_failure write ds /\
    push_err res = (if forallb write ds then None else Some ErrWrite) /\
    pusher res = pushed_n (length (pushed res)) rp.
Proof.
  revert rest idx rp. induction fuel as [|fuel IH]; intros rest idx rp Hs Ht Hf Htot pkts ds Henc.
  - destruct rest; [|simpl in Hf; lia]. eexists. split; [done|]. simpl. by rewrite pushed_n_0.
  - destruct rest as [|b rest]; [eexists; split; [done|]; simpl; by rewrite pushed_n_0|].
    destruct (last_fragment (b :: rest) idx total) as [Em Etot]; [done|done|].
    unfold ds, pkts in *. cbn [SendFrame_loop fragments burst] in *. set (r' := drop RTPMTU (b :: rest)) in *.
    assert (Hr : (length r' <= fuel)%nat).
    { unfold r'. rewrite length_drop. pose proof RTPMTU_Z. simpl in *. lia. }
    rewrite (marker_fragments fuel r' Hr) in Em. rewrite Em.
    set (mk := match fragments fuel r' with [] => true | _ => false end) in *.
    set (q := secured_packet (packetizer ssrc rp) ts mk (default [] auSig) (take RTPMTU (b :: rest))) in *.
    set (p1 := packetizer ssrc (pushed_n 1 rp)).
    assert (Eb : burst (fragments fuel r') ts (default [] auSig)
       ((packetizer ssrc rp) <| seq := u16 (seq (packetizer ssrc rp) + 1) |> <| sent := sent (packetizer ssrc rp) + 1 |>)
       = burst (fragments fuel r') ts (default [] auSig) p1) by apply (burst_sent _ _ _ p1 1).
    rewrite Eb in *. unfold datagrams. cbn [map]. apply list.Forall_cons in Henc as [Hq Henc].
    destruct (IH r' (idx + 1) (pushed_n 1 rp)) as (res & E1 & E2 & E3 & E4);
      [apply Z.mod_pos_bound; lia|done..|]. fold p1 in E2, E3.
    assert (Eq : (match mk, auSig with
       | true, Some sig => marshalExt (Pusher.BuildRtpPacketWithExtension
           (match payloadEncryptor rp with Some c => c (take RTPMTU (b :: rest)) ssrc (seqNum rp)
            | None => take RTPMTU (b :: rest) end) mk ssrc (seqNum rp) ts sig)
       | _, _ => marshal (Pusher.BuildRtpPacket
           (match payloadEncryptor rp with Some c => c (take RTPMTU (b :: rest)) ssrc (seqNum rp)
            | None => take RTPMTU (b :: rest) end) mk ssrc (seqNum rp) ts) end) =
       encode_ext marshal marshalExt auSig q).
    { unfold encode_ext, q, secured_packet. cbn [Marker]. rewrite u32_small by done.
      destruct mk, auSig; reflexivity. }
    rewrite Eq. destruct Hq as [l Hl]. rewrite Hl. change (default [] (Some l)) with l.
    change (if tcpConn rp then Pusher.writeRTPOverTCP l else l) with (push_wire rp l).
    cbn [until_failure forallb]. destruct (write (push_wire rp l)) eqn:Hw; cbn [negb andb].
    + change (rp <| seqNum := u16 (seqNum rp + 1) |>) with (pushed_n 1 rp). rewrite E1. cbn [mbind option_bind].
      eexists. split; [done|]. cbn [pushed push_err pusher length]. split; [by f_equal|]. split; [done|].
      by rewrite E4, pushed_n_S.
    + eexists. split; [done|]. cbn [pushed push_err pusher length]. by rewrite pushed_n_0.
Qed.

(** The whole of [SendFrame], once the signer has answered. *)
Lemma SendFrame_run write marshal marshalExt psData pts ssrc rp auSig :
  0 <= seqNum rp < 65536 ->
  let ts := u32 (timeTo90kHz pts) in
  match Pusher.auSigner rp with None => Some None | Some sign => sign psData ssrc ts end = Some auSig ->
  let pkts := burst (fragments (length psData) psData) ts (default [] auSig) (packetizer ssrc rp) in
  let ds := datagrams marshal marshalExt auSig rp pkts in
  encodable marshal marshalExt auSig pkts ->
  exists res, SendFrame write marshal marshalExt psData pts ssrc rp = Some res /\
    pushed res = until_failure write ds /\
    push_err res = (if forallb write ds then None else Some ErrWrite) /\
    pusher res = (pushed_n (length (pushed res)) rp)
      <| psBytesOut := psBytesOut rp + (if forallb write ds && metrics rp then len psData else 0) |>.
Proof.
  intros Hs ts Hsig pkts ds Henc. assert (Ht : 0 <= ts < 4294967296).
  { unfold ts, u32. apply Z.mod_pos_bound. lia. }
  unfold SendFrame. fold ts. rewrite Hsig.
  destruct (SendFrame_loop_spec write marshal marshalExt (length psData) psData 0
    ((len psData + 1400 - 1) / 1400) ts ssrc auSig rp) as (res & E1 & E2 & E3 & E4); try done.
  fold pkts ds in E2, E3. rewrite E1. cbn [mbind option_bind].
  destruct res as [out err rp']. cbn [pushed push_err pusher] in *. subst out err rp'.
  destruct (forallb write ds); cbn [andb]; [destruct (metrics rp) eqn:Em|]; eexists; (split;
    [change (metrics (pushed_n (length (until_failure write ds)) rp)) with (metrics rp); rewrite ?Em; reflexivity|]);
    cbn [pushed push_err pusher]; rewrite ?Z.add_0_r; by split_and!.
Qed.

(** ** Properties *)

(** One PS access unit of the device becomes RTP packets that cover it,
    signed or not, encrypted or not, on UDP or TCP: the fragments concatenate
    to it and are 1 to 1400 bytes long, packet [i] has sequence number
    [seqNum + i] modulo 2^16, the marker is on the last packet only and the
    signature with it. What goes out are these packets up to the first failed
    write; the sequence number moves by exactly as many, and the byte counter
    counts access units sent whole. *)
Theorem SendFrame_burst write marshal marshalExt psData pts ssrc rp auSig :
  0 <= seqNum rp < 65536 ->
  let ts := u32 (timeTo90kHz pts) in
  match Pusher.auSigner rp with None => Some None | Some sign => sign psData ssrc ts end = Some auSig ->
  let frags := fragments (length psData) psData in
  let p := packetizer ssrc rp in
  let pkts := burst frags ts (default [] auSig) p in
  let ds := datagrams marshal marshalExt auSig rp pkts in
  encodable marshal marshalExt auSig pkts ->
  well_cut psData ts (default [] auSig) p frags pkts /\
  exists res, SendFrame write marshal marshalExt psData pts ssrc rp = Some res /\
    pushed res = until_failure write ds /\
    push_err res = (if forallb write ds then None else Some ErrWrite) /\
    seqNum (pusher res) = u16 (seqNum rp + Z.of_nat (length (pushed res))) /\
    psBytesOut (pusher res) =
      psBytesOut rp + (if forallb write ds && metrics rp then len psData else 0).
Proof.
  intros Hs ts Hsig frags p pkts ds Henc. split.
  - split; [by apply fragments_concat|]. split; [apply fragments_short|]. split; [apply burst_length|].
    intros i q f Hq Hf. rewrite (burst_lookup frags ts (default [] auSig) p i q f Hs Hq Hf).
    unfold secured_packet. cbn [Timestamp SSRC PayloadType SequenceNumber Marker AUSig Payload].
    assert (Et : u32 ts = ts) by (unfold ts, u32; by rewrite Zmod_mod). by repeat split.
  - destruct (SendFrame_run write marshal marshalExt psData pts ssrc rp auSig Hs Hsig Henc)
      as (res & E1 & E2 & E3 & E4). exists res. rewrite E4. by split_and!.
Qed.

Lemma SendFrame_burst_witness :
  let rp := mkRtpPusher true 65535 None None true 0 in
  let enc := fun q => Some (plain_bytes q) in
  exists res, SendFrame (fun _ => true) enc enc (repeat 1 2000) None 7 rp = Some res /\
    map len (pushed res) = [1416; 616] /\ seqNum (pusher res) = 1 /\ psBytesOut (pusher res) = 2000.
Proof.
  destruct (SendFrame_burst (fun _ => true) (fun q => Some (plain_bytes q)) (fun q => Some (plain_bytes q))
    (repeat 1 2000) None 7 (mkRtpPusher true 65535 None None true 0) None)
    as (_ & res & E1 & E2 & _ & E4 & E5).
  - done.
  - done.
  - apply Forall_forall. intros q _. unfold encode_ext. destruct (Marker q); by eexists.
  - exists res. split; [exact E1|]. rewrite E4, E5, E2. vm_compute. by split_and!.
Defined.
