(* ===== verification/DevicePath.v ===== *)
(** The device's live media end to end: the media goroutine of
    [device/server.go] (access units of the hub through [MuxH264ToPS] and
    [RtpPusher.SendFrame]) against the platform's receiver, on UDP and TCP. *)

From S2P Require Import Prelude NalUtil PesParse PsDemux PsStream PsRoundtrip.
From S2P Require Import AuSplit EsDemux Receiver ReceiverSpec RtpSend Pipeline.
From S2P Require Import DevicePs TcpMedia RtpPusher.
Open Scope Z_scope.

Import Pusher (RtpPusher, mkRtpPusher, tcpConn, seqNum, payloadEncryptor, metrics, psBytesOut,
               pushed, push_err, pusher, SendFrame, SendFrame_loop).

(** ** The media goroutine *)

(** An access unit of the hub; [Timestamp] is the zero time when [None]. *)
Record AccessUnit := mkAccessUnit {
  NALUs : list (list Z);
  KeyFrame : bool;
  TimestampAU : option Z;
}.

(** The loop over [liveSub.Channel]: a send error is logged, the loop goes on. *)
Fixpoint media_loop (write : list Z -> bool) (marshal marshalExt : Packet -> option (list Z))
    (aus : list AccessUnit) (ssrc : Z) (rp : RtpPusher) : option (list (list Z) * RtpPusher) :=
  match aus with
  | [] => Some ([], rp)
  | au :: rest =>
      psData ← MuxH264ToPS (NALUs au) (KeyFrame au) (TimestampAU au) (TimestampAU au);
      res ← SendFrame write marshal marshalExt psData (TimestampAU au) ssrc rp;
      '(more, rp') ← media_loop write marshal marshalExt rest ssrc (pusher res);
      Some (pushed res ++ more, rp')
  end.

(** The receiver on the other end of the connection, until it is closed. *)
Definition receive_stream (unmarshal : list Z -> option Packet) (tcp : bool) (dgrams : list (list Z))
    (r : Receiver) : option Receiver :=
  if tcp then
    '(_, _, r') ← tcpLoop unmarshal (S (length dgrams)) TCPModeAuto (concat dgrams) r;
    Some r'
  else readAll unmarshal dgrams r.

(** ** The codec of the stream *)

(** No parameter set of H.265 by its first byte. *)
Definition h264_nalu (n : list Z) : Prop :=
  match n with b :: _ => b <> 0x40 /\ b <> 0x42 /\ b <> 0x44 | [] => True end.

Definition h264_known (d : PSDemuxer) : Prop := naluType d = ""%string \/ naluType d = "h264"%string.

Lemma maybeLatch_h264 ns d : Forall h264_nalu ns -> h264_known d -> h264_known (maybeLatchCodecFromNALUs ns d).
Proof.
  intros H. induction H as [|n ns Hn _ IH]; intros Hd; cbn [maybeLatchCodecFromNALUs];
    case_bool_decide; cbn [negb]; try done.
  destruct n as [|b n]; [by apply IH|]. destruct (negb _); [by apply IH|].
  destruct (_ || _); [by right|]. destruct Hn as (N1 & N2 & N3).
  rewrite !(proj2 (Z.eqb_neq _ _)) by done. by apply IH.
Qed.

Lemma finish_latch d ns d' : finish d = Some (ns, d') -> Forall h264_nalu ns -> h264_known d -> h264_known d'.
Proof.
  unfold finish. destruct (esBuf d) as [|x t].
  - intros [= <- <-] _ Hd. by apply (maybeLatch_h264 []).
  - destruct (extractNALUs _ _) as [ns'|]; [|done]. cbn [mbind option_bind]. intros [= <- <-] Hn Hd.
    by apply maybeLatch_h264.
Qed.

(** ** One access unit over the wire *)

(** An access unit of one H.264 picture. *)
Definition device_au (au : AccessUnit) : Prop :=
  Forall clean (NALUs au) /\ Forall h264_nalu (NALUs au) /\
  len (gap (TimestampAU au) (TimestampAU au) ++ annexb (start_coded (NALUs au))) <= maxESBufBytes /\
  exists f tl, NALUs au = frame_flat f ++ tl /\ frame_ok false f /\ Forall (non_vcl false) tl.

Definition rtp_ts (au : AccessUnit) : Z := u32 (timeTo90kHz (TimestampAU au)).

(** What the receiver is expected to call. *)
Definition device_expected (r : Receiver) (au : AccessUnit) : list event :=
  fan_events r (NALUs au) (rtp_ts au) (IsIDR (NALUs au) false).

Lemma u32_idem x : u32 (u32 x) = u32 x.
Proof. unfold u32. by rewrite Zmod_mod. Qed.

Lemma device_au_over_wire au ps p r :
  device_au au -> MuxH264ToPS (NALUs au) (KeyFrame au) (TimestampAU au) (TimestampAU au) = Some ps ->
  seq16 p -> keyed p r -> expectedSSRC r = ssrc p -> mid 0 (seq p) [] r -> synced (demuxer r) ->
  h264_known (demuxer r) ->
  let pkts := burst (fragments (length ps) ps) (rtp_ts au) [] p in
  exists r', receiveAll pkts r = Some r' /\ synced (demuxer r') /\ h264_known (demuxer r') /\
    mid 0 (seq (advanced (length pkts) p)) [] r' /\ same_setup r r' /\
    out r' = out r ++ device_expected r au.
Proof.
  intros (Hcl & Hh & Hlen & f & tl & Hf & Hfo & Htl) Hm Hs Hk Hss M Hsy Hkn pkts.
  destruct (NALUs au) as [|n ns] eqn:En; [by destruct f as [[] ?]|].
  assert (Hn : n <> []) by (by inversion Hcl as [|? ? []]).
  destruct (MuxH264ToPS_units n ns (KeyFrame au) (TimestampAU au) (TimestampAU au) Hn) as (us & E & U & S & A).
  rewrite E in Hm. injection Hm as <-.
  destruct Hsy as [Hc Hes]. set (d1 := effect us (u32 (rtp_ts au)) (demuxer r)).
  destruct (A (u32 (rtp_ts au)) (demuxer r)) as (F1 & F2 & _ & _ & F5); [by rewrite Hes|].
  fold d1 in F1, F2, F5. rewrite Hes in F1. cbn [app] in F1.
  assert (Hnt : naluType d1 <> "svac"%string) by (rewrite F2; destruct Hkn as [-> | ->]; done).
  destruct (finish_dev n ns _ _ d1 Hcl (effect_clean _ _ _ U Hc) Hnt F1) as (d' & G1 & G2 & _ & _ & G5 & _).
  assert (Hk' : h264_known d').
  { eapply finish_latch; [exact G1|done|]. unfold h264_known. by rewrite F2. }
  assert (Hcd : bool_decide (demux_Codec d' = "h265"%string) = false).
  { apply bool_decide_eq_false_2. unfold demux_Codec. destruct Hk' as [-> | ->]; done. }
  destruct (units_over_wire us (rtp_ts au) [] p r (n :: ns) d' [n :: ns]) as (r' & E1 & E2 & E3 & E4 & E5); try done.
  - intros Eb. unfold MuxH264ToPS in E. destruct (cont_pes _ _); [|done]. cbn [mbind option_bind] in E.
    rewrite Eb in E. discriminate.
  - apply G2.
  - rewrite G5, F5. apply (mid_audio _ _ _ _ M).
  - rewrite Hcd, Hf. pose proof (split_recovers false f [] tl Hfo ltac:(constructor) Htl) as Sp.
    cbn [map concat removelast List.last app] in Sp. by rewrite app_nil_r in Sp.
  - exists r'. split; [done|]. rewrite E2. split; [done|]. split; [done|]. split; [done|]. split; [done|].
    rewrite E5. f_equal. unfold au_events, device_expected. cbn [map concat]. rewrite app_nil_r, En.
    unfold rtp_ts. rewrite u32_idem. f_equal. f_equal. apply bool_decide_eq_false_2.
    unfold recv_Codec. change (esLatch (r <| demuxer := d' |>)) with (esLatch r).
    rewrite (ps_not_es r (mid_ps _ _ _ _ M)). change (es (r <| demuxer := d' |>)) with (es r).
    apply bool_decide_eq_false in Hcd. by destruct (es r).
Qed.

(** ** A session over the wire *)

(** The packets of the session, as the receiver sees them. *)
Fixpoint device_packets (aus : list AccessUnit) (ssrc : Z) (rp : RtpPusher) : option (list Packet) :=
  match aus with
  | [] => Some []
  | au :: rest =>
      ps ← MuxH264ToPS (NALUs au) (KeyFrame au) (TimestampAU au) (TimestampAU au);
      let pkts := burst (fragments (length ps) ps) (rtp_ts au) [] (packetizer ssrc rp) in
      more ← device_packets rest ssrc (pushed_n (length pkts) rp);
      Some (pkts ++ more)
  end.

Lemma device_packets_bytes aus ssrc rp b :
  device_packets aus ssrc (rp <| psBytesOut := b |>) = device_packets aus ssrc rp.
Proof.
  revert rp. induction aus as [|au aus IH]; intros rp; [done|]. cbn [device_packets].
  destruct (MuxH264ToPS _ _ _ _) as [ps|]; [|done]. cbn [mbind option_bind].
  change (packetizer ssrc (rp <| psBytesOut := b |>)) with (packetizer ssrc rp).
  cbv zeta. set (n := length (burst _ _ _ _)). change (pushed_n n (rp <| psBytesOut := b |>)) with ((pushed_n n rp) <| psBytesOut := b |>).
  by rewrite IH.
Qed.

(** Device and platform between two access units. *)
Record dev_linked (ssrc : Z) (rp : RtpPusher) (r : Receiver) : Prop := mkDevLinked {
  dl_seq : 0 <= seqNum rp < 65536;
  dl_keyed : keyed (packetizer ssrc rp) r;
  dl_ssrc : expectedSSRC r = ssrc;
  dl_mid : mid 0 (seqNum rp) [] r;
  dl_synced : synced (demuxer r);
  dl_codec : h264_known (demuxer r);
}.

Lemma device_muxes au : device_au au ->
  exists ps, MuxH264ToPS (NALUs au) (KeyFrame au) (TimestampAU au) (TimestampAU au) = Some ps /\
    ps <> [] /\ ps_like (take RTPMTU ps).
Proof.
  intros (Hcl & _ & _ & f & tl & Hf & _).
  destruct (NALUs au) as [|n ns] eqn:En; [by destruct f as [[] ?]|].
  assert (Hn : n <> []) by (by inversion Hcl as [|? ? []]).
  destruct (MuxH264ToPS_units n ns (KeyFrame au) (TimestampAU au) (TimestampAU au) Hn) as (us & E & _).
  exists (bytes us). split; [done|]. unfold MuxH264ToPS in E. destruct (cont_pes _ _); [|done].
  cbn [mbind option_bind] in E. injection E as <-. split; [done|]. pose proof RTPMTU_Z.
  destruct RTPMTU as [|[|[|[|k]]]]; try lia. by split.
Qed.

Lemma pushed_n_add n m rp : u16 (seqNum (pushed_n n (pushed_n m rp))) = u16 (seqNum (pushed_n (m + n) rp)).
Proof. unfold pushed_n, u16. simpl. rewrite !Zmod_mod, Zplus_mod_idemp_l. f_equal. lia. Qed.

Lemma device_session ssrc aus rp r :
  dev_linked ssrc rp r -> Forall device_au aus ->
  exists pkts r', device_packets aus ssrc rp = Some pkts /\ receiveAll pkts r = Some r' /\
    out r' = out r ++ concat (map (device_expected r) aus) /\ synced (demuxer r') /\ jitterBuffer r' = ∅.
Proof.
  intros L H. revert rp r L. induction H as [|au aus Hau _ IH]; intros rp r L.
  - exists [], r. destruct L as [? ? ? M ? ?]. cbn [device_packets receiveAll map concat]. rewrite app_nil_r.
    do 3 (split; [done|]). split; [done|]. apply (mid_buffer _ _ _ _ M).
  - destruct L as [Hs Hk Hss M Hsy Hkn]. destruct (device_muxes au Hau) as (ps & Em & _).
    cbn [device_packets]. rewrite Em. cbn [mbind option_bind].
    set (pkts := burst (fragments (length ps) ps) (rtp_ts au) [] (packetizer ssrc rp)).
    destruct (device_au_over_wire au ps (packetizer ssrc rp) r Hau Em Hs Hk Hss M Hsy Hkn)
      as (r1 & E1 & R1 & R2 & R3 & R4 & R5). fold pkts in E1, R3.
    assert (L1 : dev_linked ssrc (pushed_n (length pkts) rp) r1).
    { split; try done.
      - unfold pushed_n. simpl. unfold u16. apply Z.mod_pos_bound. lia.
      - unfold keyed in *. destruct R4 as [(_ & -> & _) _]. exact Hk.
      - destruct R4 as [(_ & _ & _ & _ & K) _]. rewrite <- Hss. by apply K, (ps_latched r (mid_ps _ _ _ _ M)). }
    destruct (IH _ r1 L1) as (more & r' & -> & E2 & G1 & G2 & G3). cbn [mbind option_bind].
    exists (pkts ++ more), r'. split; [done|]. rewrite receiveAll_app, E1. cbn [mbind option_bind].
    split; [done|]. split; [|done]. rewrite G1, R5. cbn [map concat]. rewrite <- app_assoc. do 3 f_equal.
    apply map_ext. intros a0. destruct R4 as [_ Hsk]. unfold device_expected, fan_events.
    assert (Hh : hub r1 = hub r /\ onAU r1 = onAU r /\ onNALU r1 = onNALU r) by (by injection Hsk).
    by destruct Hh as (-> & -> & ->).
Qed.

(** The first access unit finds a receiver that has seen nothing yet. *)
Lemma device_fresh_session ssrc au aus rp r :
  fresh r -> 0 <= seqNum rp < 65536 -> keyed (packetizer ssrc rp) r -> Forall device_au (au :: aus) ->
  exists pkts r', device_packets (au :: aus) ssrc rp = Some pkts /\ receiveAll pkts r = Some r' /\
    out r' = out r ++ concat (map (device_expected r) (au :: aus)) /\ synced (demuxer r') /\ jitterBuffer r' = ∅.
Proof.
  intros F Hs Hk Haus. set (p := packetizer ssrc rp). set (r0 := preclass (primed ssrc (seqNum rp) r)).
  assert (L : dev_linked ssrc rp r0).
  { split; try done; [by apply primed_mid| |left]; change (demuxer r0) with (demuxer r); rewrite (fr_demux r F);
      by repeat split. }
  destruct (device_session ssrc (au :: aus) rp r0 L Haus) as (pkts & r' & E1 & E2 & E3).
  exists pkts, r'. split; [done|]. split; [|done]. rewrite <- E2.
  assert (Hau : device_au au) by (by inversion Haus). destruct (device_muxes au Hau) as (ps & Em & Hne & Hps).
  cbn [device_packets] in E1. rewrite Em in E1. cbn [mbind option_bind] in E1.
  destruct (device_packets aus ssrc _) as [more|]; [|done]. cbn [mbind option_bind] in E1. injection E1 as <-.
  assert (Hf : fragments (length ps) ps <> []) by (intros E; apply Hne; apply (fragments_nil _ _ (le_n _) E)).
  destruct (burst_shape (fragments (length ps) ps) (rtp_ts au) [] p r Hf (fragments_nonempty _ _) Hk)
    as (init & q & E & _ & Hmk & _). fold p.
  rewrite !receiveAll_app. f_equal. rewrite E. apply fresh_burst; try done.
  - rewrite <- E. by apply (burst_numbered _ _ _ p).
  - rewrite <- E. by apply (burst_ssrc _ _ _ p).
  - rewrite <- E. pose proof (burst_head ps (rtp_ts au) p r Hne Hk) as Hh.
    destruct (burst _ _ _ _); [done|]. by rewrite Hh.
Qed.

(** ** What the goroutine writes *)

(** pion's fixed header is 12 bytes; the cryptor is a stream cipher. *)
Definition sized (marshal : Packet -> option (list Z)) (c : option cryptor) : Prop :=
  (forall q l, AUSig q = [] -> marshal q = Some l -> len l = 12 + len (Payload q)) /\
  match c with Some c => forall x s q, len (c x s q) = len x | None => True end.

(** A live session without AU signatures. *)
Definition unsigned_device (ssrc : Z) (rp : RtpPusher) : Prop :=
  Pusher.auSigner rp = None /\ 0 <= ssrc < 4294967296 /\ 0 <= seqNum rp < 65536.

Lemma datagrams_unsigned marshal marshalExt rp pkts :
  datagrams marshal marshalExt None rp pkts = map (fun q => push_wire rp (default [] (marshal q))) pkts.
Proof. apply map_ext. intros q. unfold encode_ext. by destruct (Marker q). Qed.

Lemma until_failure_all (write : list Z -> bool) ds : (forall d, write d = true) ->
  until_failure write ds = ds /\ forallb write ds = true.
Proof. intros H. induction ds as [|d ds [IH1 IH2]]; [done|]. simpl. by rewrite H, IH1, IH2. Qed.

Lemma device_burst_in_range frags ts ssrc rp : unsigned_device ssrc rp ->
  Forall (fun q => in_range q /\ AUSig q = []) (burst frags ts [] (packetizer ssrc rp)).
Proof. intros (_ & Hss & Hs). by apply burst_in_range. Qed.

(** One access unit is sent whole. *)
Lemma device_sends write marshal marshalExt unmarshal ps pts ssrc rp :
  (forall d, write d = true) -> pion_roundtrip marshal unmarshal -> unsigned_device ssrc rp ->
  let pk := burst (fragments (length ps) ps) (u32 (timeTo90kHz pts)) [] (packetizer ssrc rp) in
  exists res b, SendFrame write marshal marshalExt ps pts ssrc rp = Some res /\ push_err res = None /\
    pushed res = map (fun q => push_wire rp (default [] (marshal q))) pk /\
    pusher res = (pushed_n (length pk) rp) <| psBytesOut := b |> /\
    Forall (fun q => in_range q /\ AUSig q = []) pk.
Proof.
  intros Hw Hpion Hd pk. pose proof (device_burst_in_range (fragments (length ps) ps) (u32 (timeTo90kHz pts)) ssrc rp Hd) as Hr.
  fold pk in Hr. destruct Hd as (Ha & Hss & Hs).
  destruct (SendFrame_run write marshal marshalExt ps pts ssrc rp None Hs) as (res & E1 & E2 & E3 & E4).
  { by rewrite Ha. }
  { change (encodable marshal marshalExt None pk). eapply list.Forall_impl; [exact Hr|].
    intros q [Hq1 Hq2]. destruct (Hpion q Hq1 Hq2) as (l & E & _). unfold encode_ext. destruct (Marker q); by exists l. }
  change (default [] None) with (@nil Z) in *. fold pk in E2, E3, E4. rewrite datagrams_unsigned in *.
  destruct (until_failure_all write (map (fun q => push_wire rp (default [] (marshal q))) pk) Hw) as [U1 U2].
  rewrite U1 in E2. rewrite U2 in E3, E4. rewrite E2, length_map in E4. eexists res, _. by split_and!.
Qed.

Lemma pushed_unsigned n b ssrc rp : unsigned_device ssrc rp -> unsigned_device ssrc ((pushed_n n rp) <| psBytesOut := b |>).
Proof. intros (Ha & Hss & Hs). split; [done|]. split; [done|]. apply Z.mod_pos_bound. lia. Qed.

Lemma media_loop_packets write marshal marshalExt unmarshal aus ssrc rp pkts :
  (forall d, write d = true) -> pion_roundtrip marshal unmarshal -> unsigned_device ssrc rp ->
  device_packets aus ssrc rp = Some pkts ->
  exists rp', media_loop write marshal marshalExt aus ssrc rp =
      Some (map (fun q => push_wire rp (default [] (marshal q))) pkts, rp') /\
    seqNum rp' = u16 (seqNum rp + Z.of_nat (length pkts)) /\
    Forall (fun q => in_range q /\ AUSig q = []) pkts.
Proof.
  intros Hw Hpion. revert rp pkts. induction aus as [|au aus IH]; intros rp pkts Hd Hp; cbn [device_packets] in Hp.
  - injection Hp as <-. exists rp. simpl. by rewrite Z.add_0_r, u16_small by apply Hd.
  - cbn [media_loop]. destruct (MuxH264ToPS _ _ _ _) as [ps|]; [|done]. cbn [mbind option_bind] in *.
    destruct (device_sends write marshal marshalExt unmarshal ps (TimestampAU au) ssrc rp Hw Hpion Hd)
      as (res & b & E1 & _ & E2 & E4 & Hr). fold (rtp_ts au) in E2, E4, Hr.
    set (pk := burst _ _ _ _) in *. destruct (device_packets aus ssrc _) as [more|] eqn:Em; [|done].
    cbn [mbind option_bind] in Hp. injection Hp as <-. rewrite E1. cbn [mbind option_bind].
    rewrite <- (device_packets_bytes _ _ _ b) in Em. rewrite E4. set (rp1 := (pushed_n (length pk) rp) <| psBytesOut := b |>) in *.
    destruct (IH rp1 more) as (rp' & -> & F1 & F2); [by apply pushed_unsigned|exact Em|].
    cbn [mbind option_bind]. exists rp'. split; [|split].
    + by rewrite E2, map_app.
    + rewrite F1, length_app. unfold rp1, pushed_n, u16. simpl. rewrite Zplus_mod_idemp_l. f_equal. lia.
    + by apply Forall_app.
Qed.

Lemma device_short marshal aus ssrc rp pkts :
  unsigned_device ssrc rp -> sized marshal (payloadEncryptor rp) -> device_packets aus ssrc rp = Some pkts ->
  Forall (fun q => len (Payload q) <= 1400) pkts.
Proof.
  intros Hd [_ Hc] Hp. revert rp pkts Hd Hc Hp.
  induction aus as [|au aus IH]; intros rp pkts Hd Hc Hp; cbn [device_packets] in Hp.
  - by injection Hp as <-.
  - destruct (MuxH264ToPS _ _ _ _) as [ps|]; [|done]. cbn [mbind option_bind] in *.
    destruct (device_packets aus ssrc _) as [more|] eqn:Em; [|done]. injection Hp as <-.
    apply Forall_app. split.
    + pose proof (fragments_short (length ps) ps) as Hf.
      assert (Ep : payloadCryptor (packetizer ssrc rp) = payloadEncryptor rp) by done.
      clear Em. generalize dependent (packetizer ssrc rp). intros p Ep. revert p Ep. induction Hf as [|f fs [_ Hf] _ IHf]; intros p Ep; [constructor|]. cbn [burst].
      constructor; [|by apply IHf]. unfold secured_packet. cbn [Payload]. rewrite Ep.
      destruct (payloadEncryptor rp); [by rewrite Hc|done].
    + refine (IH (pushed_n _ rp) more _ Hc Em). destruct Hd as (H1 & H2 & H3). split; [done|]. split; [done|].
      apply Z.mod_pos_bound. lia.
Qed.

(** The connection hands over the packets. *)
Lemma receive_stream_packets marshal unmarshal rp pkts r r' :
  pion_roundtrip marshal unmarshal -> Forall (fun q => in_range q /\ AUSig q = []) pkts ->
  (tcpConn rp = true -> Forall (fun q => len (Payload q) <= 1400) pkts /\
     forall q l, AUSig q = [] -> marshal q = Some l -> len l = 12 + len (Payload q)) ->
  receiveAll pkts r = Some r' ->
  receive_stream unmarshal (tcpConn rp) (map (fun q => push_wire rp (default [] (marshal q))) pkts) r = Some r'.
Proof.
  intros Hpion Hr Htcp Er. set (enc := fun q => default [] (marshal q)).
  assert (Hall : readAll unmarshal (map enc pkts) r = Some r').
  { rewrite (readAll_map unmarshal enc); [done|]. eapply list.Forall_impl; [exact Hr|].
    intros q [Hq1 Hq2]. destruct (Hpion q Hq1 Hq2) as (l & E & Hl1 & Hl2). unfold enc. by rewrite E. }
  unfold receive_stream, push_wire. destruct (tcpConn rp); [|done]. destruct Htcp as [Hs Hm]; [done|].
  assert (E : map (fun q => dollar_frame (default [] (marshal q))) pkts = map (framing true) (map enc pkts))
    by (by rewrite map_map).
  rewrite E. destruct (tcpLoop_frames unmarshal true (map enc pkts) TCPModeAuto r r' (S (length (map (framing true) (map enc pkts)))))
    as [mode' ->]; [|by right|rewrite !length_map; lia|done|done].
  apply Forall_map. rewrite List.Forall_forall in Hr, Hs |- *. intros q Hq. destruct (Hr q Hq) as [Hq1 Hq2].
  destruct (Hpion q Hq1 Hq2) as (l & El & Hl & _). unfold frameable, enc. rewrite El. simpl.
  pose proof (Hm q l Hq2 El) as Hlen. specialize (Hs q Hq). unfold len in *. lia.
Qed.

(** ** Property *)

(** C2: The device's live media reaches the platform, on UDP and on TCP. For any
    sequence of H.264 access units of one picture each that the media goroutine
    multiplexes and sends, plain or encrypted with a cipher the receiver holds
    the key of, a receiver that has seen nothing yet calls the hub and the
    callbacks exactly once per access unit, in order, with the NALUs that went
    in, the 32-bit RTP timestamp of the access unit's time and the keyframe
    flag; nothing stays behind in the jitter buffer or the demuxer, and the
    sequence number has moved by one per packet. *)
Theorem device_media_path write marshal marshalExt unmarshal au aus ssrc rp r :
  (forall d, write d = true) -> pion_roundtrip marshal unmarshal ->
  sized marshal (payloadEncryptor rp) -> unsigned_device ssrc rp ->
  keyed (packetizer ssrc rp) r -> fresh r -> Forall device_au (au :: aus) ->
  exists n dgrams rp' r', media_loop write marshal marshalExt (au :: aus) ssrc rp = Some (dgrams, rp') /\
    length dgrams = n /\ seqNum rp' = u16 (seqNum rp + Z.of_nat n) /\
    receive_stream unmarshal (tcpConn rp) dgrams r = Some r' /\
    out r' = out r ++ concat (map (device_expected r) (au :: aus)) /\
    jitterBuffer r' = ∅ /\ synced (demuxer r').
Proof.
  intros Hw Hpion Hsz Hd Hk F Haus. pose proof Hd as (_ & _ & Hs).
  destruct (device_fresh_session ssrc au aus rp r F Hs Hk Haus) as (pkts & r' & E1 & E2 & E3 & E4 & E5).
  destruct (media_loop_packets write marshal marshalExt unmarshal (au :: aus) ssrc rp pkts Hw Hpion Hd E1)
    as (rp' & F1 & F2 & F3).
  exists (length pkts), (map (fun q => push_wire rp (default [] (marshal q))) pkts), rp', r'.
  split; [done|]. split; [apply length_map|]. split; [done|]. split; [|done].
  apply (receive_stream_packets marshal unmarshal rp pkts r r'); [done..| |done].
  intros _. split; [|apply Hsz]. eapply device_short; [exact Hd|exact Hsz|exact E1].
Qed.

Definition demo_pusher : RtpPusher := mkRtpPusher true 65535 (Some xor_cryptor) None true 0.
Definition demo_aus : list AccessUnit :=
  [mkAccessUnit [[0x67; 0x42; 0x1F]; [0x68; 0xCE]; [0x65; 0x88; 7]] true (Some 1785000000000000000);
   mkAccessUnit [[0x41; 0x9A; 9]] false (Some 1785000000040000000)].

Lemma demo_aus_ok : Forall device_au demo_aus.
Proof.
  constructor; [|constructor; [|constructor]]; (split; [|split; [|split]]).
  1, 2, 5, 6: repeat constructor; done.
  1, 3: vm_compute; discriminate.
  - exists (mkFrame [[0x67; 0x42; 0x1F]; [0x68; 0xCE]] [0x65; 0x88; 7] []), [].
    split; [done|]. split; [|constructor]. split; [by repeat constructor|]. by split.
  - exists (mkFrame [] [0x41; 0x9A; 9] []), [].
    split; [done|]. split; [|constructor]. split; [by repeat constructor|]. by split.
Qed.

Lemma sized_plain c : (forall x s q, len (c x s q) = len x) -> sized (fun q => Some (plain_bytes q)) (Some c).
Proof.
  intros Hc. split; [|done]. intros q l _ [= <-]. unfold len, plain_bytes, put16, put32.
  rewrite !length_app. cbn [length]. lia.
Qed.

Lemma device_media_path_witness : exists n dgrams rp' r',
  media_loop (fun _ => true) (fun q => Some (plain_bytes q)) (fun _ => None) demo_aus 77 demo_pusher = Some (dgrams, rp') /\
  length dgrams = n /\ seqNum rp' = u16 (65535 + Z.of_nat n) /\
  receive_stream parse_rtp true dgrams demo_receiver = Some r' /\
  out r' = [HubBroadcast 1043260416 [[0x67; 0x42; 0x1F]; [0x68; 0xCE]; [0x65; 0x88; 7]] true;
            NALUCallback [0x67; 0x42; 0x1F] 1043260416 true; NALUCallback [0x68; 0xCE] 1043260416 true;
            NALUCallback [0x65; 0x88; 7] 1043260416 true;
            HubBroadcast 1043264016 [[0x41; 0x9A; 9]] false; NALUCallback [0x41; 0x9A; 9] 1043264016 false] /\
  jitterBuffer r' = ∅ /\ synced (demuxer r').
Proof.
  apply (device_media_path (fun _ => true) (fun q => Some (plain_bytes q)) (fun _ => None) parse_rtp
    (mkAccessUnit [[0x67; 0x42; 0x1F]; [0x68; 0xCE]; [0x65; 0x88; 7]] true (Some 1785000000000000000))
    [mkAccessUnit [[0x41; 0x9A; 9]] false (Some 1785000000040000000)] 77 demo_pusher demo_receiver).
  - done.
  - exact pion_plain.
  - apply sized_plain. intros x s q. unfold xor_cryptor, len. by rewrite length_map.
  - by repeat split.
  - exact xor_cryptor_involutive.
  - exact demo_fresh.
  - exact demo_aus_ok.
Defined.
