(* ===== verification/GoStrings.v ===== *)
(** The parts of Go's [strings], [strconv] and [encoding/hex] packages the
    program uses on text. A Go string is the list of its bytes; literals are
    written with [txt]. *)

From Stdlib Require Import Ascii.
From S2P Require Import Prelude.
Open Scope Z_scope.

Definition text := list Z.

(** A literal: the bytes of an ASCII (or UTF-8) string. *)
Definition txt (s : string) : text := map (fun a => Z.of_N (N_of_ascii a)) (String.list_ascii_of_string s).

(** ** [strings.TrimSpace]: Unicode white space, encoded in UTF-8 *)

Definition ascii_space (b : Z) : bool := ((9 <=? b) && (b <=? 13)) || (b =? 32).

(** The third byte of the white space U+2000..U+200A, U+2028, U+2029, U+202F. *)
Definition space_80 (b : Z) : bool :=
  ((0x80 <=? b) && (b <=? 0x8A)) || (b =? 0xA8) || (b =? 0xA9) || (b =? 0xAF).

Definition space3 (a b c : Z) : bool :=
  ((a =? 0xE1) && (b =? 0x9A) && (c =? 0x80)) ||
  ((a =? 0xE2) && (b =? 0x80) && space_80 c) ||
  ((a =? 0xE2) && (b =? 0x81) && (c =? 0x9F)) ||
  ((a =? 0xE3) && (b =? 0x80) && (c =? 0x80)).

Definition space2 (a b : Z) : bool := (a =? 0xC2) && ((b =? 0x85) || (b =? 0xA0)).

Fixpoint trim_left (s : text) : text :=
  match s with
  | [] => []
  | a :: s1 =>
      if ascii_space a then trim_left s1 else
      match s1 with
      | b :: s2 =>
          if space2 a b then trim_left s2 else
          match s2 with
          | c :: s3 => if space3 a b c then trim_left s3 else s
          | [] => s
          end
      | [] => s
      end
  end.

(** The same from the end, on the reversed bytes. *)
Fixpoint trim_right_rev (s : text) : text :=
  match s with
  | [] => []
  | c :: s1 =>
      if ascii_space c then trim_right_rev s1 else
      match s1 with
      | b :: s2 =>
          if space2 b c then trim_right_rev s2 else
          match s2 with
          | a :: s3 => if space3 a b c then trim_right_rev s3 else s
          | [] => s
          end
      | [] => s
      end
  end.

Definition TrimSpace (s : text) : text := rev (trim_right_rev (rev (trim_left s))).

(** Bytes that neither begin nor end white space. *)
Definition printable (b : Z) : bool := (0x21 <=? b) && (b <=? 0x7E).

Lemma not_space b : printable b = true -> ascii_space b = false /\
  (forall c, space2 b c = false) /\ (forall c d, space3 b c d = false) /\
  (forall a, space2 a b = false) /\ (forall a c, space3 a c b = false).
Proof.
  unfold printable. rewrite andb_true_iff, !Z.leb_le. intros [H1 H2].
  assert (E : forall k, 0x7E < k \/ k < 0x21 -> (b =? k) = false) by (intros k Hk; apply Z.eqb_neq; lia).
  unfold ascii_space, space2, space3, space_80. rewrite !E by lia.
  rewrite (proj2 (Z.leb_gt b 13)) by lia. rewrite (proj2 (Z.leb_gt 0x80 b)) by lia.
  rewrite !andb_false_r. split_and!; try done; intros; by rewrite ?andb_false_r.
Qed.

Lemma trim_left_id b s : printable b = true -> trim_left (b :: s) = b :: s.
Proof.
  intros H. destruct (not_space b H) as (H1 & H2 & H3 & _). cbn [trim_left]. rewrite H1.
  destruct s as [|c s]; [done|]. rewrite H2. destruct s as [|d s]; [done|]. by rewrite H3.
Qed.

Lemma trim_right_id b s : printable b = true -> trim_right_rev (b :: s) = b :: s.
Proof.
  intros H. destruct (not_space b H) as (H1 & _ & _ & H2 & H3). cbn [trim_right_rev]. rewrite H1.
  destruct s as [|c s]; [done|]. rewrite H2. destruct s as [|d s]; [done|]. by rewrite H3.
Qed.

(** Trimming text whose first and last bytes are printable changes nothing. *)
Lemma TrimSpace_id s : Forall (fun b => printable b = true) s -> TrimSpace s = s.
Proof.
  intros H. unfold TrimSpace.
  assert (L : trim_left s = s) by (destruct H; [done|by apply trim_left_id]). rewrite L.
  assert (R : trim_right_rev (rev s) = rev s).
  { apply Forall_rev in H. destruct H; [done|by apply trim_right_id]. }
  rewrite R. apply rev_involutive.
Qed.

Lemma trim_left_spaces pre s : Forall (fun b => ascii_space b = true) pre -> trim_left (pre ++ s) = trim_left s.
Proof. induction 1 as [|b pre Hb _ IH]; [done|]. cbn [app trim_left]. by rewrite Hb. Qed.

Lemma trim_right_spaces pre s :
  Forall (fun b => ascii_space b = true) pre -> trim_right_rev (pre ++ s) = trim_right_rev s.
Proof. induction 1 as [|b pre Hb _ IH]; [done|]. cbn [app trim_right_rev]. by rewrite Hb. Qed.

(** ASCII white space around printable text is removed. *)
Lemma TrimSpace_pad pre s post :
  Forall (fun b => ascii_space b = true) pre -> Forall (fun b => ascii_space b = true) post ->
  Forall (fun b => printable b = true) s -> s <> [] -> TrimSpace (pre ++ s ++ post) = s.
Proof.
  intros Hpre Hpost Hs Hne. unfold TrimSpace. rewrite trim_left_spaces by done.
  destruct s as [|b s]; [done|]. apply list.Forall_cons in Hs as Hs'. destruct Hs' as [Hb _].
  cbn [app]. rewrite trim_left_id by done. change (b :: s ++ post) with ((b :: s) ++ post).
  rewrite rev_app_distr, trim_right_spaces by (by apply Forall_rev).
  apply Forall_rev in Hs. destruct (rev (b :: s)) as [|c t] eqn:E.
  { apply (f_equal (@rev Z)) in E. rewrite rev_involutive in E. done. }
  apply list.Forall_cons in Hs as [Hc _]. rewrite trim_right_id by done.
  rewrite <- E. apply rev_involutive.
Qed.

(** ** [encoding/hex] *)

Definition hex_digit (n : Z) : Z := if n <? 10 then 0x30 + n else 0x57 + n.

(** [hex.EncodeToString] *)
Fixpoint hex_encode (l : list Z) : text :=
  match l with
  | [] => []
  | b :: rest => hex_digit (Z.shiftr b 4) :: hex_digit (Z.land b 0x0F) :: hex_encode rest
  end.

Definition from_hex (c : Z) : option Z :=
  if (0x30 <=? c) && (c <=? 0x39) then Some (c - 0x30)
  else if (0x61 <=? c) && (c <=? 0x66) then Some (c - 0x61 + 10)
  else if (0x41 <=? c) && (c <=? 0x46) then Some (c - 0x41 + 10)
  else None.

(** [hex.DecodeString]; [None] is its error. *)
Fixpoint hex_decode (s : text) : option (list Z) :=
  match s with
  | [] => Some []
  | [_] => None
  | h :: l :: rest =>
      a ← from_hex h; b ← from_hex l; r ← hex_decode rest;
      Some (Z.lor (Z.shiftl a 4) b :: r)
  end.

(** [strings.ToUpper] on ASCII text. *)
Definition upper (b : Z) : Z := if (0x61 <=? b) && (b <=? 0x7A) then b - 0x20 else b.
Definition lower (b : Z) : Z := if (0x41 <=? b) && (b <=? 0x5A) then b + 0x20 else b.
Definition ToUpper (s : text) : text := map upper s.
Definition ToLower (s : text) : text := map lower s.

(** One byte's digits, in either case, decode to it. *)
Lemma hex_byte b : is_byte b ->
  let h := hex_digit (Z.shiftr b 4) in let l := hex_digit (Z.land b 0x0F) in
  (a ← from_hex (upper h); c ← from_hex (upper l); Some (Z.lor (Z.shiftl a 4) c)) = Some b /\
  (a ← from_hex h; c ← from_hex l; Some (Z.lor (Z.shiftl a 4) c)) = Some b /\
  printable (upper h) = true /\ printable (upper l) = true.
Proof.
  intros Hb.
  assert (C : (let h := hex_digit (Z.shiftr b 4) in let l := hex_digit (Z.land b 0x0F) in
    bool_decide ((a ← from_hex (upper h); c ← from_hex (upper l); Some (Z.lor (Z.shiftl a 4) c)) = Some b) &&
    bool_decide ((a ← from_hex h; c ← from_hex l; Some (Z.lor (Z.shiftl a 4) c)) = Some b) &&
    printable (upper h) && printable (upper l)) = true).
  { revert b Hb. apply forall_byte. vm_compute. reflexivity. }
  cbv zeta in C. rewrite !andb_true_iff, !bool_decide_eq_true in C. destruct C as (((C1 & C2) & C3) & C4).
  by split_and!.
Qed.

Lemma hex_decode_upper l : bytes_ok l -> hex_decode (ToUpper (hex_encode l)) = Some l.
Proof.
  induction 1 as [|b l Hb _ IH]; [done|]. cbn [hex_encode ToUpper map hex_decode].
  destruct (hex_byte b Hb) as (H & _). cbv zeta in H.
  destruct (from_hex (upper (hex_digit (Z.shiftr b 4)))) as [a|]; [|done]. cbn [mbind option_bind] in *.
  destruct (from_hex (upper (hex_digit (Z.land b 0x0F)))) as [c|]; [|done]. cbn [mbind option_bind] in *.
  unfold ToUpper in IH. rewrite IH. cbn [mbind option_bind]. congruence.
Qed.

Lemma printable_hex l : bytes_ok l -> Forall (fun b => printable b = true) (ToUpper (hex_encode l)).
Proof.
  induction 1 as [|b l Hb _ IH]; [done|]. cbn [hex_encode ToUpper map].
  destruct (hex_byte b Hb) as (_ & _ & H1 & H2). by repeat constructor.
Qed.

(** ** [strconv.Atoi] *)

Definition is_digit (b : Z) : bool := (0x30 <=? b) && (b <=? 0x39).

Fixpoint digits_value (acc : Z) (s : text) : option Z :=
  match s with
  | [] => Some acc
  | b :: rest => if is_digit b then digits_value (acc * 10 + (b - 0x30)) rest else None
  end.

(** [None] is a syntax or range error. *)
Definition Atoi (s : text) : option Z :=
  let '(neg, digits) := match s with
                        | b :: rest => if b =? 0x2D then (true, rest)
                                       else if b =? 0x2B then (false, rest) else (false, s)
                        | [] => (false, []) end in
  match digits with
  | [] => None
  | _ =>
      n ← digits_value 0 digits;
      let v := if (neg : bool) then - n else n in
      if (- 2 ^ 63 <=? v) && (v <? 2 ^ 63) then Some v else None
  end.

(** Go compares strings byte by byte. *)
Fixpoint text_ltb (a b : text) : bool :=
  match a, b with
  | _, [] => false
  | [], _ :: _ => true
  | x :: a', y :: b' => if x =? y then text_ltb a' b' else x <? y
  end.
