(* ===== verification/GoText.v ===== *)
(** More of Go's [strings] and [strconv]: cutting and joining text, decimal
    numbers and the lemmas that make printed text parse again. Separators are
    non-empty, as everywhere in the program. *)

From S2P Require Import Prelude GoStrings.
Open Scope Z_scope.

(** ** Line ends *)

Definition CRLF : text := [0x0D; 0x0A].
Definition LF : text := [0x0A].

(** ** Prefixes and substrings *)

Fixpoint HasPrefix (s prefix : text) : bool :=
  match prefix, s with
  | [], _ => true
  | p :: ps, b :: bs => (p =? b) && HasPrefix bs ps
  | _ :: _, [] => false
  end.

Definition TrimPrefix (s prefix : text) : text :=
  if HasPrefix s prefix then drop (length prefix) s else s.

Fixpoint Contains (s sub : text) : bool :=
  HasPrefix s sub || match s with [] => false | _ :: s' => Contains s' sub end.

(** [strings.TrimRight(s, "\r\n")] *)
Definition crlf_byte (b : Z) : bool := (b =? 0x0D) || (b =? 0x0A).

Fixpoint drop_while (p : Z -> bool) (s : text) : text :=
  match s with b :: s' => if p b then drop_while p s' else s | [] => [] end.

Definition TrimRightCRLF (s : text) : text := rev (drop_while crlf_byte (rev s)).

(** ** [strings.Split] and [strings.Join] *)

(** First piece and the others; [skip] bytes of a separator are still to pass. *)
Fixpoint split_go (sep : text) (skip : nat) (s : text) : text * list text :=
  match s with
  | [] => ([], [])
  | b :: s' =>
      match skip with
      | S k => split_go sep k s'
      | O => if HasPrefix s sep
             then let (h, t) := split_go sep (pred (length sep)) s' in ([], h :: t)
             else let (h, t) := split_go sep 0 s' in (b :: h, t)
      end
  end.

Definition Split (s sep : text) : list text := let (h, t) := split_go sep 0 s in h :: t.

Fixpoint Join (l : list text) (sep : text) : text :=
  match l with
  | [] => []
  | [s] => s
  | s :: rest => s ++ sep ++ Join rest sep
  end.

(** [strings.SplitN(s, sep, 2)] for a one-byte separator: [None] is one part. *)
Fixpoint cut_at (c : Z) (s : text) : option (text * text) :=
  match s with
  | [] => None
  | b :: s' => if b =? c then Some ([], s') else '(h, t) ← cut_at c s'; Some (b :: h, t)
  end.

(** [strings.Fields] *)
Fixpoint fields_go (skip : nat) (s : text) : option text * list text :=
  (* the field in progress at the head of [s], and the ones behind it *)
  match s with
  | [] => (None, [])
  | a :: s' =>
      match skip with
      | S k => let (cur, rest) := fields_go k s' in
               (None, match cur with Some f => f :: rest | None => rest end)
      | O =>
          let width := if ascii_space a then 1%nat else
                       match s' with
                       | b :: s2 => if space2 a b then 2%nat else
                                    match s2 with
                                    | c :: _ => if space3 a b c then 3%nat else 0%nat
                                    | [] => 0%nat
                                    end
                       | [] => 0%nat
                       end in
          match width with
          | S k => let (cur, rest) := fields_go k s' in
                   (None, match cur with Some f => f :: rest | None => rest end)
          | O => let (cur, rest) := fields_go 0 s' in (Some (a :: default [] cur), rest)
          end
      end
  end.

Definition Fields (s : text) : list text :=
  let (cur, rest) := fields_go 0 s in match cur with Some f => f :: rest | None => rest end.

(** Lines, each closed by CRLF. *)
Definition lines_crlf (l : list text) : text := concat (map (fun s => s ++ CRLF) l).

(** ** Decimal numbers *)

(** The digits of [n], most significant first, on [fuel] positions at most. *)
Fixpoint dec_digits (fuel : nat) (n : Z) (acc : text) : text :=
  match fuel with
  | O => acc
  | S fuel' => if n <? 10 then (0x30 + n) :: acc else dec_digits fuel' (n / 10) ((0x30 + n mod 10) :: acc)
  end.

Definition dec (n : Z) : text := dec_digits 20 n [].

(** [strconv.Itoa] and [%d]; 20 digits hold every 64-bit integer. *)
Definition Itoa (n : Z) : text := if n <? 0 then 0x2D :: dec (- n) else dec n.

(** [%0<w>d] of a number that is not negative. *)
Definition pad0 (w : nat) (n : Z) : text := let d := dec n in repeat 0x30 (w - length d) ++ d.

(** [strconv.ParseUint(s, 10, 32)]; [None] is its error. *)
Definition ParseUint32 (s : text) : option Z :=
  match s with
  | [] => None
  | _ => n ← digits_value 0 s; if n <? 2 ^ 32 then Some n else None
  end.

(** ** Lemmas: prefixes *)

Lemma HasPrefix_app p s : HasPrefix (p ++ s) p = true.
Proof. induction p as [|b p IH]; [by destruct s|]. cbn [app HasPrefix]. by rewrite Z.eqb_refl. Qed.

Lemma TrimPrefix_app p s : TrimPrefix (p ++ s) p = s.
Proof. unfold TrimPrefix. by rewrite HasPrefix_app, drop_app_length. Qed.

Lemma HasPrefix_spec s p : HasPrefix s p = true -> exists t, s = p ++ t.
Proof.
  revert s. induction p as [|b p IH]; intros s H; [by exists s|]. destruct s as [|a s]; [done|].
  cbn [HasPrefix] in H. apply andb_true_iff in H as [E H]. apply Z.eqb_eq in E as <-.
  destruct (IH s H) as [t ->]. by exists t.
Qed.

Lemma HasPrefix_head a s b p : a <> b -> HasPrefix (a :: s) (b :: p) = false.
Proof. intros H. cbn [HasPrefix]. by rewrite (proj2 (Z.eqb_neq b a)) by congruence. Qed.

(** ** Lemmas: cutting what was joined *)

Lemma split_go_skip sep n pre s : length pre = n -> split_go sep n (pre ++ s) = split_go sep 0 s.
Proof. intros <-. induction pre as [|b pre IH]; [done|]. exact IH. Qed.

(** A piece in which the separator does not begin. *)
Lemma split_go_piece c sep a s : Forall (fun b => b <> c) a ->
  split_go (c :: sep) 0 (a ++ (c :: sep) ++ s) =
  (a, let (h, t) := split_go (c :: sep) 0 s in h :: t).
Proof.
  induction 1 as [|b a Hb _ IH].
  - cbn [app split_go]. pose proof (HasPrefix_app (c :: sep) s) as Hp. cbn [app] in Hp. rewrite Hp.
    cbn [length pred]. rewrite split_go_skip by done. by destruct (split_go (c :: sep) 0 s).
  - cbn [app split_go]. rewrite HasPrefix_head by done. cbn [app] in IH. rewrite IH.
    by destruct (split_go (c :: sep) 0 s).
Qed.

Lemma split_go_last c sep a : Forall (fun b => b <> c) a -> split_go (c :: sep) 0 a = (a, []).
Proof.
  induction 1 as [|b a Hb _ IH]; [done|]. cbn [split_go]. by rewrite HasPrefix_head, IH by done.
Qed.

Lemma Split_cons c sep a s : Forall (fun b => b <> c) a ->
  Split (a ++ (c :: sep) ++ s) (c :: sep) = a :: Split s (c :: sep).
Proof. intros H. unfold Split. rewrite split_go_piece by done. by destruct (split_go (c :: sep) 0 s). Qed.

Lemma Split_last c sep a : Forall (fun b => b <> c) a -> Split a (c :: sep) = [a].
Proof. intros H. unfold Split. by rewrite split_go_last. Qed.

Lemma Split_nil sep : Split [] sep = [[]].
Proof. done. Qed.

(** Joining is undone by splitting. *)
Lemma Split_Join c sep l : l <> [] -> Forall (Forall (fun b => b <> c)) l -> Split (Join l (c :: sep)) (c :: sep) = l.
Proof.
  intros Hne H. induction H as [|a l Ha H IH]; [done|]. destruct l as [|b l]; [by apply Split_last|].
  change (Join (a :: b :: l) (c :: sep)) with (a ++ (c :: sep) ++ Join (b :: l) (c :: sep)).
  by rewrite Split_cons, IH.
Qed.

(** And splitting by joining, for any text. *)
Lemma Join_Split_go sep skip s : sep <> [] -> (skip <= length s)%nat ->
  let (h, t) := split_go sep skip s in Join (h :: t) sep = drop skip s.
Proof.
  intros Hsep. revert skip. induction s as [|b s IH]; intros skip Hs.
  - by rewrite drop_nil.
  - destruct skip as [|k]; [|cbn [split_go drop]; apply IH; simpl in Hs; lia].
    cbn [split_go drop]. destruct (HasPrefix (b :: s) sep) eqn:E.
    + apply HasPrefix_spec in E as [t Et]. destruct sep as [|c sep]; [done|]. injection Et as <- ->.
      specialize (IH (length sep)). cbn [length pred]. destruct (split_go _ _ (sep ++ t)) as [h l].
      specialize (IH ltac:(rewrite length_app; lia)). rewrite drop_app_length in IH.
      change (Join ([] :: h :: l) (b :: sep)) with ((b :: sep) ++ Join (h :: l) (b :: sep)). by rewrite IH.
    + specialize (IH 0%nat). destruct (split_go sep 0 s) as [h l]. specialize (IH ltac:(lia)).
      rewrite drop_0 in IH. rewrite <- IH. by destruct l.
Qed.

Lemma Join_Split s sep : sep <> [] -> Join (Split s sep) sep = s.
Proof.
  intros H. unfold Split. pose proof (Join_Split_go sep 0 s H ltac:(lia)) as E.
  destruct (split_go sep 0 s). by rewrite drop_0 in E.
Qed.

Lemma cut_at_app c a s : Forall (fun b => b <> c) a -> cut_at c (a ++ c :: s) = Some (a, s).
Proof.
  induction 1 as [|b a Hb _ IH]; cbn [app cut_at]; [by rewrite Z.eqb_refl|].
  by rewrite (proj2 (Z.eqb_neq b c)), IH by done.
Qed.

Lemma cut_at_none c a : Forall (fun b => b <> c) a -> cut_at c a = None.
Proof.
  induction 1 as [|b a Hb _ IH]; [done|]. cbn [cut_at]. by rewrite (proj2 (Z.eqb_neq b c)), IH by done.
Qed.

(** ** Lemmas: fields *)

Definition word (s : text) : Prop := s <> [] /\ Forall (fun b => printable b = true) s.

Lemma fields_go_word s rest : Forall (fun b => printable b = true) s ->
  fields_go 0 (s ++ rest) =
  let (cur, l) := fields_go 0 rest in
  match s with [] => (cur, l) | _ => (Some (s ++ default [] cur), l) end.
Proof.
  induction 1 as [|b s Hb _ IH]; [cbn [app]; by destruct (fields_go 0 rest)|].
  destruct (not_space b Hb) as (H1 & H2 & H3 & _). cbn [app fields_go]. rewrite H1.
  assert (W : forall t : text, match t with
     | b0 :: s2 => if space2 b b0 then 2%nat else match s2 with c :: _ => if space3 b b0 c then 3%nat else 0%nat | [] => 0%nat end
     | [] => 0%nat end = 0%nat).
  { intros [|x [|y t]]; rewrite ?H2, ?H3; done. }
  rewrite W, IH. destruct (fields_go 0 rest) as [cur l]. by destruct s.
Qed.

Lemma Fields_cons w rest : word w -> Fields (w ++ 0x20 :: rest) = w :: Fields rest.
Proof.
  intros [Hne Hw]. unfold Fields. rewrite fields_go_word by done.
  change (fields_go 0 (0x20 :: rest)) with (let (cur, l) := fields_go 0 rest in
    (@None text, match cur with Some f => f :: l | None => l end)).
  destruct (fields_go 0 rest) as [cur l]. destruct w; [done|]. simpl. by rewrite app_nil_r.
Qed.

Lemma Fields_word w : word w -> Fields w = [w].
Proof.
  intros [Hne Hw]. unfold Fields. rewrite <- (app_nil_r w) at 1. rewrite fields_go_word by done.
  simpl. destruct w; [done|]. simpl. by rewrite app_nil_r.
Qed.

(** ** Lemmas: decimal numbers *)

Lemma digits_value_app acc a b : digits_value acc (a ++ b) = v ← digits_value acc a; digits_value v b.
Proof.
  revert acc. induction a as [|x a IH]; intros acc; [done|]. cbn [app digits_value].
  destruct (is_digit x); [apply IH|done].
Qed.

(** A list of decimal digits. *)
Definition digits (s : text) : Prop := Forall (fun b => is_digit b = true) s.

Lemma is_digit_of n : 0 <= n < 10 -> is_digit (0x30 + n) = true.
Proof. intros H. unfold is_digit. rewrite andb_true_iff, !Z.leb_le. lia. Qed.

Lemma digits_value_shift s acc : digits s ->
  exists v, 0 <= v < 10 ^ Z.of_nat (length s) /\
    forall a, digits_value a s = Some (a * 10 ^ Z.of_nat (length s) + v) /\ digits_value acc s <> None.
Proof.
  intros H. revert acc. induction H as [|b s Hb _ IH]; intros acc.
  - exists 0. split; [simpl; lia|]. intros a. split; [simpl; f_equal; lia|done].
  - destruct (IH (acc * 10 + (b - 48))) as (v & Hv & E).
    exists ((b - 0x30) * 10 ^ Z.of_nat (length s) + v).
    unfold is_digit in Hb. rewrite andb_true_iff, !Z.leb_le in Hb.
    assert (P : 10 ^ Z.of_nat (length (b :: s)) = 10 * 10 ^ Z.of_nat (length s)).
    { cbn [length]. rewrite Nat2Z.inj_succ, Z.pow_succ_r by lia. done. }
    split; [rewrite P; nia|]. intros a. cbn [digits_value]. unfold is_digit.
    rewrite (proj2 (andb_true_iff _ _)) by (rewrite !Z.leb_le; lia). destruct (E (a * 10 + (b - 48))) as [E1 E2].
    split; [|exact E2]. rewrite E1, P. f_equal. lia.
Qed.

Lemma dec_digits_spec fuel n acc : 0 <= n < 10 ^ Z.of_nat fuel ->
  exists d, dec_digits fuel n acc = d ++ acc /\ digits d /\ (length d <= fuel)%nat /\
    (0 < fuel -> d <> [])%nat /\ digits_value 0 d = Some n /\ (n < 10 \/ exists b t, d = b :: t /\ b <> 0x30) /\
    (0 < n -> 10 ^ (Z.of_nat (length d) - 1) <= n).
Proof.
  revert n acc. induction fuel as [|fuel IH]; intros n acc Hn.
  - exists []. change (10 ^ Z.of_nat 0) with 1 in Hn. split; [done|]. split; [constructor|]. split; [simpl; lia|].
    split; [lia|]. split; [simpl; f_equal; lia|]. split; [left; lia|lia].
  - cbn [dec_digits]. destruct (Z.ltb_spec n 10).
    + exists [0x30 + n]. split; [done|]. split; [constructor; [apply is_digit_of; lia|constructor]|].
      split; [simpl; lia|]. split; [done|]. split.
      { cbn [digits_value]. rewrite is_digit_of by lia. f_equal. lia. }
      split; [by left|]. intros Hp. change (1 <= n). lia.
    + assert (Hf : 10 ^ Z.of_nat (S fuel) = 10 * 10 ^ Z.of_nat fuel).
      { rewrite Nat2Z.inj_succ, Z.pow_succ_r by lia. done. }
      destruct (IH (n / 10) ((0x30 + n mod 10) :: acc)) as (d & E1 & E2 & E3 & E4 & E5 & E6 & E7).
      { split; [apply Z.div_pos; lia|]. apply Z.div_lt_upper_bound; lia. }
      assert (Hfu : (0 < fuel)%nat).
      { destruct fuel; [|lia]. change (10 ^ Z.of_nat 1) with 10 in Hn. lia. }
      exists (d ++ [0x30 + n mod 10]). split; [by rewrite E1, <- app_assoc|].
      pose proof (Z.mod_pos_bound n 10 ltac:(lia)) as Hm.
      split; [apply Forall_app; split; [done|constructor; [by apply is_digit_of|constructor]]|].
      split; [rewrite length_app; simpl; lia|]. split; [intros _; by destruct d|]. split; [|split].
      * rewrite digits_value_app, E5. cbn [mbind option_bind digits_value]. rewrite is_digit_of by done.
        f_equal. pose proof (Z.div_mod n 10 ltac:(lia)). lia.
      * right. destruct E6 as [E6|(b & t & -> & Hb)]; [|by exists b, (t ++ [0x30 + n mod 10])].
        destruct d as [|b t]; [by destruct (E4 Hfu)|]. exists b, (t ++ [0x30 + n mod 10]). split; [done|].
        intros ->. cbn [digits_value] in E5. change (is_digit 48) with true in E5. cbv iota in E5.
        assert (Hd : length (48 :: t) = 1%nat).
        { assert (0 < n / 10) by (apply Z.div_str_pos; lia). specialize (E7 ltac:(lia)).
          destruct t as [|x t]; [done|]. exfalso. cbn [length] in E7.
          assert (10 ^ 1 <= 10 ^ (Z.of_nat (S (S (length t))) - 1)) by (apply Z.pow_le_mono_r; lia). lia. }
        destruct t; [|done]. simpl in E5. injection E5 as E5.
        assert (0 < n / 10) by (apply Z.div_str_pos; lia). lia.
      * intros _. rewrite length_app. cbn [length]. assert (0 < n / 10) by (apply Z.div_str_pos; lia).
        specialize (E7 ltac:(lia)). replace (Z.of_nat (length d + 1) - 1) with (Z.succ (Z.of_nat (length d) - 1)) by lia.
        assert (0 <= Z.of_nat (length d) - 1) by (destruct d; [by destruct (E4 Hfu)|simpl; lia]).
        rewrite Z.pow_succ_r by lia. pose proof (Z.mul_div_le n 10 ltac:(lia)). nia.
Qed.

Lemma dec_spec n : 0 <= n < 10 ^ 20 ->
  digits (dec n) /\ dec n <> [] /\ digits_value 0 (dec n) = Some n /\ (length (dec n) <= 20)%nat /\
  (n < 10 \/ exists b t, dec n = b :: t /\ b <> 0x30) /\ (0 < n -> 10 ^ (Z.of_nat (length (dec n)) - 1) <= n).
Proof.
  intros H. unfold dec. destruct (dec_digits_spec 20 n [] H) as (d & -> & E2 & E3 & E4 & E5 & E6).
  rewrite app_nil_r. split; [done|]. split; [apply E4; lia|]. exact (conj E5 (conj E3 E6)).
Qed.

Lemma digit_printable b : is_digit b = true -> printable b = true.
Proof. unfold is_digit, printable. rewrite !andb_true_iff, !Z.leb_le. lia. Qed.

Lemma digits_word s : digits s -> s <> [] -> word s.
Proof. intros H Hne. split; [done|]. eapply list.Forall_impl; [exact H|]. apply digit_printable. Qed.

(** Text without a byte that is no digit. *)
Lemma digits_no c s : digits s -> is_digit c = false -> Forall (fun b => b <> c) s.
Proof. intros H Hc. eapply list.Forall_impl; [exact H|]. intros b Hb ->. congruence. Qed.

(** [Atoi] of what [Itoa] prints. *)
Lemma Atoi_digits s n : digits s -> s <> [] -> digits_value 0 s = Some n -> n < 2 ^ 63 -> 0 <= n -> Atoi s = Some n.
Proof.
  intros H Hne Hv Hn H0. destruct s as [|b s]; [done|]. unfold Atoi.
  assert (Hb : (b =? 0x2D) = false /\ (b =? 0x2B) = false).
  { apply list.Forall_cons in H as [H _]. unfold is_digit in H. rewrite andb_true_iff, !Z.leb_le in H.
    rewrite !Z.eqb_neq. lia. }
  destruct Hb as [-> ->]. rewrite Hv. cbn [mbind option_bind].
  rewrite (proj2 (Z.leb_le _ _)) by lia. by rewrite (proj2 (Z.ltb_lt _ _)) by lia.
Qed.

Lemma Atoi_Itoa n : - 2 ^ 63 <= n < 2 ^ 63 -> Atoi (Itoa n) = Some n.
Proof.
  intros H. unfold Itoa. destruct (Z.ltb_spec n 0).
  - destruct (dec_spec (- n)) as (D1 & D2 & D3 & _); [lia|]. unfold Atoi. rewrite Z.eqb_refl.
    destruct (dec (- n)) eqn:E; [done|]. rewrite D3. cbn [mbind option_bind]. rewrite Z.opp_involutive.
    rewrite (proj2 (Z.leb_le _ _)) by lia. by rewrite (proj2 (Z.ltb_lt _ _)) by lia.
  - destruct (dec_spec n) as (D1 & D2 & D3 & _); [lia|]. apply Atoi_digits; [done..|lia|lia].
Qed.

Lemma Itoa_nonneg n : 0 <= n -> Itoa n = dec n.
Proof. intros H. unfold Itoa. by rewrite (proj2 (Z.ltb_ge _ _)). Qed.

Lemma Itoa_printable n : - 2 ^ 63 <= n < 2 ^ 63 -> word (Itoa n).
Proof.
  intros H. unfold Itoa. destruct (Z.ltb_spec n 0).
  - destruct (dec_spec (- n)) as (D1 & D2 & _); [lia|]. destruct (digits_word _ D1 D2) as [_ W].
    split; [done|]. constructor; done.
  - destruct (dec_spec n) as (D1 & D2 & _); [lia|]. by apply digits_word.
Qed.

Lemma digits_value_zeros k s : digits_value 0 (repeat 0x30 k ++ s) = digits_value 0 s.
Proof. induction k as [|k IH]; [done|]. exact IH. Qed.

Lemma pad0_spec w n : 0 <= n < 10 ^ Z.of_nat w -> (0 < w <= 20)%nat ->
  digits (pad0 w n) /\ length (pad0 w n) = w /\ digits_value 0 (pad0 w n) = Some n.
Proof.
  intros Hn Hw. assert (Hp : 10 ^ Z.of_nat w <= 10 ^ 20) by (apply Z.pow_le_mono_r; lia).
  destruct (dec_spec n) as (D1 & D2 & D3 & D4 & _ & D6); [lia|]. unfold pad0.
  assert (Hl : (length (dec n) <= w)%nat).
  { destruct (Z.eq_dec n 0) as [->|]; [simpl; lia|]. specialize (D6 ltac:(lia)).
    assert (Z.of_nat (length (dec n)) - 1 < Z.of_nat w); [|lia].
    apply (Z.pow_lt_mono_r_iff 10); lia. }
  split; [apply Forall_app; split; [apply List.Forall_forall; by intros x ->%repeat_spec|done]|].
  split; [rewrite length_app, repeat_length; lia|]. by rewrite digits_value_zeros.
Qed.

(** ** Lemmas: text with printable ends *)

Definition starts_ok (s : text) : bool := match s with b :: _ => printable b | [] => false end.

Lemma starts_ok_rev_word w : word w -> starts_ok (rev w) = true.
Proof.
  intros [Hne Hw]. apply Forall_rev in Hw. destruct (rev w) as [|b r] eqn:E; [|by apply list.Forall_cons in Hw as [? _]].
  apply (f_equal (@rev Z)) in E. by rewrite rev_involutive in E.
Qed.

Lemma starts_ok_app a b : starts_ok a = true -> starts_ok (a ++ b) = true.
Proof. by destruct a. Qed.

Lemma TrimSpace_ends pre s post :
  Forall (fun b => ascii_space b = true) pre -> Forall (fun b => ascii_space b = true) post ->
  starts_ok s = true -> starts_ok (rev s) = true -> TrimSpace (pre ++ s ++ post) = s.
Proof.
  intros Hpre Hpost Hs Hr. unfold TrimSpace. rewrite trim_left_spaces by done.
  destruct s as [|b s]; [done|]. cbn [app]. rewrite trim_left_id by done.
  change (b :: s ++ post) with ((b :: s) ++ post). rewrite rev_app_distr, trim_right_spaces by (by apply Forall_rev).
  destruct (rev (b :: s)) as [|c t] eqn:E; [done|]. rewrite trim_right_id, <- E by done. apply rev_involutive.
Qed.

Lemma word_no c w : word w -> printable c = false -> Forall (fun b => b <> c) w.
Proof. intros [_ H] Hc. eapply list.Forall_impl; [exact H|]. intros b Hb ->. congruence. Qed.
