(* ===== verification/GoBase64.v ===== *)
(** Base64 as [encoding/base64] has it ([StdEncoding]): the standard alphabet with
    padding; decoding skips line breaks and ignores the bits behind the last byte. *)

From S2P Require Import Prelude GoStrings.
Open Scope Z_scope.

Definition b64_char (n : Z) : Z :=
  if n <? 26 then 0x41 + n else if n <? 52 then 0x61 + (n - 26) else if n <? 62 then 0x30 + (n - 52)
  else if n =? 62 then 0x2B else 0x2F.

Definition b64_value (c : Z) : option Z :=
  if (0x41 <=? c) && (c <=? 0x5A) then Some (c - 0x41)
  else if (0x61 <=? c) && (c <=? 0x7A) then Some (c - 0x61 + 26)
  else if (0x30 <=? c) && (c <=? 0x39) then Some (c - 0x30 + 52)
  else if c =? 0x2B then Some 62 else if c =? 0x2F then Some 63 else None.

Definition pad : Z := 0x3D.

Fixpoint EncodeToString (l : list Z) : text :=
  match l with
  | a :: b :: c :: rest =>
      b64_char (a / 4) :: b64_char (a mod 4 * 16 + b / 16) :: b64_char (b mod 16 * 4 + c / 64) :: b64_char (c mod 64)
      :: EncodeToString rest
  | [a; b] => [b64_char (a / 4); b64_char (a mod 4 * 16 + b / 16); b64_char (b mod 16 * 4); pad]
  | [a] => [b64_char (a / 4); b64_char (a mod 4 * 16); pad; pad]
  | [] => []
  end.

(** Quanta of four characters; padding only in the last one. *)
Fixpoint decode_quanta (s : text) : option (list Z) :=
  match s with
  | [] => Some []
  | w :: x :: y :: z :: rest =>
      w' ← b64_value w;
      x' ← b64_value x;
      let a := w' * 4 + x' / 16 in
      if y =? pad then
        if (z =? pad) && (match rest with [] => true | _ => false end) then Some [a] else None
      else
        y' ← b64_value y;
        let b := x' mod 16 * 16 + y' / 4 in
        if z =? pad then match rest with [] => Some [a; b] | _ => None end
        else
          z' ← b64_value z;
          more ← decode_quanta rest;
          Some (a :: b :: y' mod 4 * 64 + z' :: more)
  | _ => None
  end.

Definition line_break (c : Z) : bool := (c =? 0x0D) || (c =? 0x0A).

Definition DecodeString (s : text) : option (list Z) := decode_quanta (List.filter (fun c => negb (line_break c)) s).

(** ** Lemmas *)

Definition b64_byte (c : Z) : bool :=
  ((0x41 <=? c) && (c <=? 0x5A)) || ((0x61 <=? c) && (c <=? 0x7A)) || ((0x30 <=? c) && (c <=? 0x39))
  || (c =? 0x2B) || (c =? 0x2F) || (c =? 0x3D).

Lemma b64_char_facts n : 0 <= n < 64 ->
  b64_value (b64_char n) = Some n /\ (b64_char n =? pad) = false /\ b64_byte (b64_char n) = true.
Proof.
  intros H. unfold pad. assert (D : forallb (fun n => match b64_value (b64_char n) with Some m => m =? n | None => false end
    && negb (b64_char n =? 0x3D) && b64_byte (b64_char n)) (map Z.of_nat (seq 0 64)) = true) by reflexivity.
  rewrite forallb_forall in D. specialize (D n). rewrite !andb_true_iff, negb_true_iff in D.
  destruct D as [[D1 D2] D3]; [apply in_map_iff; exists (Z.to_nat n); rewrite in_seq; lia|].
  split; [|done]. destruct (b64_value _) as [m|]; [|done]. by apply Z.eqb_eq in D1 as ->.
Qed.

Ltac b64 n := destruct (b64_char_facts n) as (? & ? & ?); [unfold is_byte in *; Z.to_euclidean_division_equations; lia|].

Lemma triples (P : list Z -> Prop) :
  P [] -> (forall a, P [a]) -> (forall a b, P [a; b]) -> (forall a b c l, P l -> P (a :: b :: c :: l)) -> forall l, P l.
Proof.
  intros H0 H1 H2 H3 l. assert (G : P l /\ (forall a, P (a :: l)) /\ forall a b, P (a :: b :: l)); [|apply G].
  induction l as [|c l (IH0 & IH1 & IH2)]; [done|]. split; [done|]. split; [done|]. intros a b. by apply H3.
Qed.

(** What is encoded is decoded again. *)
Lemma decode_encode l : bytes_ok l -> decode_quanta (EncodeToString l) = Some l.
Proof.
  induction l as [|a|a b|a b c l IH] using triples; intros H; [done|..];
    repeat (apply list.Forall_cons in H as [? H]).
  - b64 (a / 4). b64 (a mod 4 * 16). cbn [EncodeToString decode_quanta].
    repeat match goal with E : b64_value _ = _ |- _ => rewrite E; clear E end. cbn [mbind option_bind].
    rewrite Z.eqb_refl. cbn [andb]. do 2 f_equal. unfold is_byte in *. Z.to_euclidean_division_equations; lia.
  - b64 (a / 4). b64 (a mod 4 * 16 + b / 16). b64 (b mod 16 * 4). cbn [EncodeToString decode_quanta].
    repeat match goal with E : b64_value _ = _ |- _ => rewrite E; clear E end. cbn [mbind option_bind].
    repeat match goal with E : (_ =? pad) = false |- _ => rewrite E; clear E end. rewrite Z.eqb_refl.
    unfold is_byte in *. do 2 f_equal; [|f_equal]; Z.to_euclidean_division_equations; lia.
  - b64 (a / 4). b64 (a mod 4 * 16 + b / 16). b64 (b mod 16 * 4 + c / 64). b64 (c mod 64). cbn [EncodeToString decode_quanta].
    repeat match goal with E : b64_value _ = _ |- _ => rewrite E; clear E end. cbn [mbind option_bind].
    repeat match goal with E : (_ =? pad) = false |- _ => rewrite E; clear E end. rewrite IH by done. cbn [mbind option_bind].
    unfold is_byte in *. do 2 f_equal; [|f_equal; [|f_equal]]; Z.to_euclidean_division_equations; lia.
Qed.

Lemma encode_bytes l : bytes_ok l -> Forall (fun c => b64_byte c = true) (EncodeToString l).
Proof.
  induction l as [|a|a b|a b c l IH] using triples; intros H; [by apply list.Forall_nil|..];
    repeat (apply list.Forall_cons in H as [? H]); cbn [EncodeToString].
  - b64 (a / 4). b64 (a mod 4 * 16). by repeat constructor.
  - b64 (a / 4). b64 (a mod 4 * 16 + b / 16). b64 (b mod 16 * 4). by repeat constructor.
  - b64 (a / 4). b64 (a mod 4 * 16 + b / 16). b64 (b mod 16 * 4 + c / 64). b64 (c mod 64).
    repeat (apply list.Forall_cons; split; [done|]). by apply IH.
Qed.

Lemma encode_ne l : l <> [] -> EncodeToString l <> [].
Proof. destruct l as [|a [|b [|c l]]]; done. Qed.

Lemma Decode_Encode l : bytes_ok l -> DecodeString (EncodeToString l) = Some l.
Proof.
  intros H. unfold DecodeString. transitivity (decode_quanta (EncodeToString l)); [|by apply decode_encode]. f_equal.
  pose proof (encode_bytes l H) as B. induction B as [|c s Hc _ IH]; [done|]. cbn [List.filter].
  destruct (line_break c) eqn:E; [|cbn [negb]; by rewrite IH].
  unfold line_break in E. apply orb_true_iff in E as [E|E]; apply Z.eqb_eq in E; by subst c.
Qed.

Example base64_vectors :
  map (fun s => EncodeToString (txt s)) ["f"; "fo"; "foo"; "foobar"]%string = map txt ["Zg=="; "Zm8="; "Zm9v"; "Zm9vYmFy"]%string.
Proof. reflexivity. Qed.
