(* ===== verification/Sdp.v ===== *)
(** Session descriptions: the SSRC scheme ([manscdp/codec.go]), the offers of the
    platform ([platform/session.go]), the device's reading of them and its
    answer ([device/server.go], [device/playback.go], [device/media_security.go]),
    and the platform's reading of the answer ([platform/session.go],
    [platform/sip/server.go]).

    Text is a list of bytes. [strings.ToLower] is modelled on ASCII, where the
    session names and attribute values of the standard lie. *)

From S2P Require Import Prelude GoStrings GoText.
Open Scope Z_scope.

(** ** The SSRC of a session *)

Definition zeros_to (w : nat) (s : text) : text := repeat 0x30 (w - length s) ++ s.

(** [%04d], the sign included in the width. *)
Definition fmt04d (n : Z) : text := if n <? 0 then 0x2D :: pad0 3 (- n) else pad0 4 n.

Definition buildSSRC (prefix serverID : text) (seq : Z) : text :=
  let domain := if Nat.leb 8 (length serverID) then take 5 (drop 3 serverID)
                else if Nat.ltb 3 (length serverID) then drop 3 serverID
                else txt "00000" in
  prefix ++ zeros_to 5 domain ++ fmt04d (Z.rem seq 10000).

Definition SSRC (playback : bool) (serverID : text) (seq : Z) : text :=
  buildSSRC (if playback then txt "1" else txt "0") serverID seq.

Definition SSRCDownload (serverID : text) (seq : Z) : text := buildSSRC (txt "2") serverID seq.

(** ** The platform's offers *)

Definition MediaUDP : text := txt "udp".
Definition MediaTCPPassive : text := txt "tcp-passive".
Definition MediaTCPActive : text := txt "tcp-active".

Definition buildLiveSDP (serverIP : text) (port : Z) (transport ssrc : text) (audioOnly : bool)
    (securityOffer : text) : text :=
  let media := if audioOnly then txt "audio" else txt "video" in
  let pt := if audioOnly then txt "8" else txt "96" in
  let rtpmap := if audioOnly then txt "8 PCMA/8000" else txt "96 PS/90000" in
  let '(mLine, setup) :=
    if bool_decide (transport = MediaTCPPassive) then
      (txt "m=" ++ media ++ txt " " ++ Itoa port ++ txt " TCP/RTP/AVP " ++ pt,
       [txt "a=setup:passive"; txt "a=connection:new"])
    else if bool_decide (transport = MediaTCPActive) then
      (txt "m=" ++ media ++ txt " 9 TCP/RTP/AVP " ++ pt, [txt "a=setup:active"; txt "a=connection:new"])
    else (txt "m=" ++ media ++ txt " " ++ Itoa port ++ txt " RTP/AVP " ++ pt, []) in
  let security := match securityOffer with [] => [] | _ => [txt "a=security:" ++ securityOffer] end in
  lines_crlf ([txt "v=0"; txt "o=- 0 0 IN IP4 " ++ serverIP; txt "s=Play"; txt "c=IN IP4 " ++ serverIP;
               txt "t=0 0"; mLine; txt "a=recvonly"; txt "a=rtpmap:" ++ rtpmap]
              ++ setup ++ [txt "y=" ++ ssrc] ++ security).

(** The offset between Unix and NTP seconds. *)
Definition ntpOffset : Z := 2208988800.

(** The offer [inviteFetch] writes; [start] and [end_] are Unix seconds. *)
Definition buildFetchSDP (serverIP sdpName : text) (start end_ port : Z) (ssrc securityOffer : text) : text :=
  let security := match securityOffer with [] => [] | _ => [txt "a=security:" ++ securityOffer] end in
  lines_crlf ([txt "v=0"; txt "o=- 0 0 IN IP4 " ++ serverIP; txt "s=" ++ sdpName; txt "c=IN IP4 " ++ serverIP;
               txt "t=" ++ Itoa (start + ntpOffset) ++ txt " " ++ Itoa (end_ + ntpOffset);
               txt "m=video " ++ Itoa port ++ txt " RTP/AVP 96"; txt "a=recvonly"; txt "a=rtpmap:96 PS/90000";
               txt "y=" ++ ssrc] ++ security).

(** ** The device's reading of an offer *)

Inductive sdpMediaTransport := mediaUDP | mediaTCPConnect | mediaTCPListen.

#[export] Instance sdpMediaTransport_eq_dec : EqDecision sdpMediaTransport.
Proof. solve_decision. Defined.

Inductive sdp_error := InvalidPort | InvalidSSRC | MissingSSRC | MissingMedia.

Definition normalizeSessionType (v : text) : text :=
  let l := ToLower v in
  if bool_decide (l = txt "playback") then txt "Playback"
  else if bool_decide (l = txt "download") then txt "Download" else txt "Play".

(** The variables of [parseSDP]. *)
Record sdp_vars := mkSdpVars {
  mediaIP : text;
  mediaPort : Z;
  ssrcVal : Z;
  ssrcFound : bool;
  mLineProto : text;
  setupVal : text;
  sessionType : text;
}.

#[export] Instance eta_sdp_vars : Eta sdp_vars := fun v =>
  mkSdpVars (mediaIP v) (mediaPort v) (ssrcVal v) (ssrcFound v) (mLineProto v) (setupVal v) (sessionType v).

(** The body of the loop. *)
Definition parseSDP_line (raw : text) (v : sdp_vars) : sdp_error + sdp_vars :=
  let line := TrimSpace raw in
  if HasPrefix line (txt "a=setup:") then inr (v <| setupVal := TrimPrefix line (txt "a=setup:") |>)
  else if HasPrefix line (txt "c=") then
    let parts := Fields line in
    inr (match parts !! 2%nat with Some ip => v <| mediaIP := ip |> | None => v end)
  else if HasPrefix line (txt "m=video ") then
    let parts := Fields line in
    match (match parts !! 1%nat with
           | Some p => match Atoi p with Some port => inr (v <| mediaPort := port |>) | None => inl InvalidPort end
           | None => inr v
           end) with
    | inl e => inl e
    | inr v1 => inr (match parts !! 2%nat with Some proto => v1 <| mLineProto := proto |> | None => v1 end)
    end
  else if HasPrefix line (txt "y=") then
    match ParseUint32 (TrimPrefix line (txt "y=")) with
    | Some n => inr (v <| ssrcVal := n |> <| ssrcFound := true |>)
    | None => inl InvalidSSRC
    end
  else if HasPrefix line (txt "s=") then
    inr (v <| sessionType := normalizeSessionType (TrimSpace (TrimPrefix line (txt "s="))) |>)
  else inr v.

Fixpoint parseSDP_lines (lines : list text) (v : sdp_vars) : sdp_error + sdp_vars :=
  match lines with
  | [] => inr v
  | l :: rest => match parseSDP_line l v with inl e => inl e | inr v' => parseSDP_lines rest v' end
  end.

(** [net.JoinHostPort] *)
Definition JoinHostPort (host port : text) : text :=
  if existsb (Z.eqb 0x3A) host then txt "[" ++ host ++ txt "]:" ++ port else host ++ txt ":" ++ port.

Definition parseSDP (body : text) : sdp_error + (text * Z * text * sdpMediaTransport) :=
  match parseSDP_lines (Split body LF) (mkSdpVars [] 0 0 false [] [] (txt "Play")) with
  | inl e => inl e
  | inr v =>
      if negb (ssrcFound v) then inl MissingSSRC else
      if bool_decide (mediaIP v = []) || (mediaPort v =? 0) then inl MissingMedia else
      let mt := if Contains (mLineProto v) (txt "TCP")
                then if bool_decide (setupVal v = txt "active") then mediaTCPListen else mediaTCPConnect
                else mediaUDP in
      inr (JoinHostPort (mediaIP v) (Itoa (mediaPort v)), ssrcVal v, sessionType v, mt)
  end.

Definition maxInt64 : Z := 2 ^ 63 - 1.

(** [parseSDPTimeRange]: the first [t=] line decides; [ParseInt] is [Atoi] on
    64-bit machines. The products wrap at 64 bits. *)
Fixpoint time_range_lines (lines : list text) : Z * Z :=
  match lines with
  | [] => (0, maxInt64)
  | raw :: rest =>
      let line := TrimSpace raw in
      if negb (HasPrefix line (txt "t=")) then time_range_lines rest else
      match Fields (TrimPrefix line (txt "t=")) with
      | f0 :: f1 :: _ =>
          match Atoi f0, Atoi f1 with
          | Some start, Some end_ =>
              if (start =? 0) && (end_ =? 0) then (0, maxInt64) else
              let start := if 3000000000 <? start then start - ntpOffset else start in
              let end_ := if 3000000000 <? end_ then end_ - ntpOffset else end_ in
              (s64 (start * 1000), s64 (end_ * 1000))
          | _, _ => (0, maxInt64)
          end
      | _ => (0, maxInt64)
      end
  end.

Definition parseSDPTimeRange (body : text) : Z * Z := time_range_lines (Split body LF).

(** [SDPSecurityAttributeValue]: the first non-empty [a=security:] value. *)
Fixpoint security_lines (lines : list text) : text :=
  match lines with
  | [] => []
  | raw :: rest =>
      let line := rev (drop_while (fun b => b =? 0x0D) (rev raw)) in
      if HasPrefix line (txt "a=security:")
      then match TrimSpace (TrimPrefix line (txt "a=security:")) with [] => security_lines rest | v => v end
      else security_lines rest
  end.

Definition SDPSecurityAttributeValue (sdp : text) : text := security_lines (Split sdp LF).

(** ** The device's answer *)

(** The format's lines, separated by LF; the last one is not closed. *)
Definition buildDeviceSDP (deviceID localIP : text) (mediaPort ssrc : Z)
    (transport sessionType setupRole : text) : text :=
  if bool_decide (transport = txt "tcp") then
    let setupRole := match setupRole with [] => txt "active" | _ => setupRole end in
    Join [txt "v=0"; txt "o=" ++ deviceID ++ txt " 0 0 IN IP4 " ++ localIP; txt "s=" ++ sessionType;
          txt "c=IN IP4 " ++ localIP; txt "t=0 0"; txt "m=video " ++ Itoa mediaPort ++ txt " TCP/RTP/AVP 96";
          txt "a=setup:" ++ setupRole; txt "a=connection:new"; txt "a=sendonly"; txt "a=rtpmap:96 PS/90000";
          txt "y=" ++ Itoa ssrc] LF
  else
    Join [txt "v=0"; txt "o=" ++ deviceID ++ txt " 0 0 IN IP4 " ++ localIP; txt "s=" ++ sessionType;
          txt "c=IN IP4 " ++ localIP; txt "t=0 0"; txt "m=video " ++ Itoa mediaPort ++ txt " RTP/AVP 96";
          txt "a=sendonly"; txt "a=rtpmap:96 PS/90000"; txt "y=" ++ Itoa ssrc] LF.

(** ** The platform's reading of an answer *)

Fixpoint sdpMediaAddress_lines (lines : list text) (host : text) (port : Z) : text * Z :=
  match lines with
  | [] => (host, port)
  | raw :: rest =>
      let line := TrimSpace raw in
      if HasPrefix line (txt "c=IN IP4 ")
      then sdpMediaAddress_lines rest (TrimSpace (TrimPrefix line (txt "c=IN IP4"))) port
      else if HasPrefix line (txt "m=video ") then
        let port' := match Fields line !! 1%nat with
                     | Some f => default port (Atoi f)
                     | None => port
                     end in
        sdpMediaAddress_lines rest host port'
      else sdpMediaAddress_lines rest host port
  end.

(** [None] is the false result. *)
Definition sdpMediaAddress (sdp : text) : option (text * Z) :=
  let (host, port) := sdpMediaAddress_lines (Split sdp CRLF) [] 0 in
  if bool_decide (host = []) || (port <=? 0) || (65535 <? port) then None else Some (host, u16 port).

(** [splitCRLF]: [cur] is [s[start:i]], reversed. *)
Fixpoint splitCRLF_go (cur s : text) : list text :=
  match s with
  | a :: ((b :: s2) as s1) =>
      if (a =? 0x0D) && (b =? 0x0A) then rev cur :: splitCRLF_go [] s2 else splitCRLF_go (a :: cur) s1
  | [a] => [rev (a :: cur)]
  | [] => match cur with [] => [] | _ => [rev cur] end
  end.

Definition splitCRLF (s : text) : list text := splitCRLF_go [] s.

Fixpoint sdpSSRC_lines (lines : list text) : text :=
  match lines with
  | [] => []
  | (a :: b :: ((_ :: _) as v)) :: rest => if (a =? 0x79) && (b =? 0x3D) then v else sdpSSRC_lines rest
  | _ :: rest => sdpSSRC_lines rest
  end.

Definition sdpSSRC (sdp : text) : text := sdpSSRC_lines (splitCRLF sdp).

Definition demo_offer : text :=
  buildLiveSDP (txt "10.0.0.1") 30000 MediaTCPPassive (SSRC false (txt "34020000002000000001") 7) false [].

Example demo_offer_read : parseSDP demo_offer = inr (txt "10.0.0.1:30000", 200000007, txt "Play", mediaTCPConnect).
Proof. vm_compute. reflexivity. Qed.

(** ** Lemmas: lines *)

(** A line of a description: visible bytes and blanks, none at its ends. *)
Definition visible (b : Z) : bool := (0x20 <=? b) && (b <=? 0x7E).

Definition line_ok (s : text) : Prop :=
  Forall (fun b => visible b = true) s /\ starts_ok s = true /\ starts_ok (rev s) = true.

Lemma printable_visible s : Forall (fun b => printable b = true) s -> Forall (fun b => visible b = true) s.
Proof.
  intros H. eapply list.Forall_impl; [exact H|]. intros b. unfold printable, visible.
  rewrite !andb_true_iff, !Z.leb_le. lia.
Qed.

(** A literal, words and literals between them make a line. *)
Lemma line_lit p : forallb visible p && starts_ok p && starts_ok (rev p) = true -> line_ok p.
Proof.
  rewrite !andb_true_iff. intros [[H1 H2] H3]. split; [|done]. apply List.Forall_forall. by apply forallb_forall.
Qed.

Lemma line_word p w : forallb visible p && starts_ok p = true -> word w -> line_ok (p ++ w).
Proof.
  rewrite !andb_true_iff. intros [H1 H2] Hw. split; [|split].
  - apply Forall_app. split; [apply List.Forall_forall; by apply forallb_forall|by apply printable_visible, Hw].
  - by apply starts_ok_app.
  - rewrite rev_app_distr. by apply starts_ok_app, starts_ok_rev_word.
Qed.

Lemma line_word_line p w q : forallb visible p && starts_ok p = true -> word w ->
  Forall (fun b => visible b = true) q -> starts_ok (rev q) = true -> line_ok (p ++ w ++ q).
Proof.
  rewrite !andb_true_iff. intros [H1 H2] Hw Hq1 Hq2. split; [|split].
  - apply Forall_app. split; [apply List.Forall_forall; by apply forallb_forall|].
    apply Forall_app. split; [by apply printable_visible, Hw|done].
  - by apply starts_ok_app.
  - rewrite !rev_app_distr. by do 2 apply starts_ok_app.
Qed.

Lemma visible_no c s : Forall (fun b => visible b = true) s -> visible c = false -> Forall (fun b => b <> c) s.
Proof. intros H Hc. eapply list.Forall_impl; [exact H|]. intros b Hb ->. congruence. Qed.

Lemma TrimSpace_line s : line_ok s -> TrimSpace s = s.
Proof. intros (_ & H1 & H2). rewrite <- (TrimSpace_ends [] s []) at 2 by (done || constructor). by rewrite app_nil_r. Qed.

Lemma TrimSpace_line_cr s : line_ok s -> TrimSpace (s ++ [0x0D]) = s.
Proof. intros (_ & H1 & H2). apply (TrimSpace_ends [] s [0x0D]); [constructor|constructor; [done|constructor]|done|done]. Qed.

(** The lines of a description closed by CRLF, split at LF and at CRLF. *)
Lemma Split_lines l : Forall line_ok l -> Split (lines_crlf l) LF = map (fun s => s ++ [0x0D]) l ++ [[]].
Proof.
  unfold lines_crlf, LF. induction 1 as [|s l Hs _ IH]; [done|]. cbn [map concat]. unfold CRLF at 1.
  replace ((s ++ [0x0D; 0x0A]) ++ concat (map (fun s => s ++ CRLF) l))
    with ((s ++ [0x0D]) ++ [0x0A] ++ concat (map (fun s => s ++ CRLF) l)) by by rewrite <- !app_assoc.
  rewrite Split_cons; [by rewrite IH|]. apply Forall_app. split; [by apply visible_no; [apply Hs|]|constructor; [done|constructor]].
Qed.

Lemma splitCRLF_line cur s rest : Forall (fun b => b <> 0x0D) s ->
  splitCRLF_go cur (s ++ CRLF ++ rest) = rev (rev s ++ cur) :: splitCRLF_go [] rest.
Proof.
  intros H. revert cur. induction H as [|a s Ha Hs IH]; intros cur; [done|]. cbn [app splitCRLF_go].
  destruct (s ++ CRLF ++ rest) as [|b t] eqn:E; [by destruct s|].
  rewrite (proj2 (Z.eqb_neq a 0x0D)) by done. cbn [andb]. rewrite IH. cbn [rev]. by rewrite <- app_assoc.
Qed.

Lemma splitCRLF_lines l : Forall line_ok l -> splitCRLF (lines_crlf l) = l.
Proof.
  unfold splitCRLF, lines_crlf. induction 1 as [|s l Hs _ IH]; [done|]. cbn [map concat].
  rewrite <- app_assoc, splitCRLF_line by (by apply visible_no; [apply Hs|]).
  rewrite IH, app_nil_r. by rewrite rev_involutive.
Qed.

(** ** Lemmas: the device's parser, line by line *)

Lemma Fields_conn ip : word ip -> Fields (txt "c=IN IP4 " ++ ip) = [txt "c=IN"; txt "IP4"; ip].
Proof.
  intros H. change (txt "c=IN IP4 " ++ ip) with (txt "c=IN" ++ 0x20 :: (txt "IP4" ++ 0x20 :: ip)).
  rewrite Fields_cons, Fields_cons, Fields_word; [done|done|..]; (split; [done|by repeat constructor]).
Qed.

Lemma Fields_media p rest : word p -> Fields (txt "m=video " ++ p ++ 0x20 :: rest) = txt "m=video" :: p :: Fields rest.
Proof.
  intros H. change (txt "m=video " ++ p ++ 0x20 :: rest) with (txt "m=video" ++ 0x20 :: (p ++ 0x20 :: rest)).
  rewrite Fields_cons, Fields_cons; [done|done|]. split; [done|by repeat constructor].
Qed.

(** A line the parser has no rule for. *)
Definition no_rule (s : text) : bool :=
  negb (HasPrefix s (txt "a=setup:") || HasPrefix s (txt "c=") || HasPrefix s (txt "m=video ")
        || HasPrefix s (txt "y=") || HasPrefix s (txt "s=")).

Lemma parse_no_rule s v : line_ok s -> no_rule s = true -> parseSDP_line (s ++ [0x0D]) v = inr v.
Proof.
  intros H N. unfold parseSDP_line. rewrite TrimSpace_line_cr by done. unfold no_rule in N.
  rewrite negb_true_iff, !orb_false_iff in N. destruct N as ((((-> & ->) & ->) & ->) & ->). done.
Qed.

Lemma parse_setup x v : word x ->
  parseSDP_line ((txt "a=setup:" ++ x) ++ [0x0D]) v = inr (v <| setupVal := x |>).
Proof. intros H. unfold parseSDP_line. by rewrite TrimSpace_line_cr, HasPrefix_app, TrimPrefix_app by (by apply line_word). Qed.

Lemma parse_conn ip v : word ip ->
  parseSDP_line ((txt "c=IN IP4 " ++ ip) ++ [0x0D]) v = inr (v <| mediaIP := ip |>).
Proof. intros H. unfold parseSDP_line. rewrite TrimSpace_line_cr, Fields_conn by (by apply line_word || done). done. Qed.

Lemma parse_media port proto pt v : - 2 ^ 63 <= port < 2 ^ 63 -> word proto -> word pt ->
  parseSDP_line ((txt "m=video " ++ Itoa port ++ txt " " ++ proto ++ txt " " ++ pt) ++ [0x0D]) v =
  inr (v <| mediaPort := port |> <| mLineProto := proto |>).
Proof.
  intros H Hp Ht. pose proof (Itoa_printable _ H) as Hw.
  assert (F : Fields (txt "m=video " ++ Itoa port ++ txt " " ++ proto ++ txt " " ++ pt) =
              [txt "m=video"; Itoa port; proto; pt]).
  { change (txt "m=video " ++ Itoa port ++ txt " " ++ proto ++ txt " " ++ pt)
      with (txt "m=video " ++ Itoa port ++ 0x20 :: (proto ++ 0x20 :: pt)).
    by rewrite Fields_media, Fields_cons, Fields_word by done. }
  unfold parseSDP_line. rewrite TrimSpace_line_cr.
  - rewrite F. cbn [lookup list_lookup]. by rewrite HasPrefix_app, Atoi_Itoa by done.
  - apply line_word_line; [done|done| |].
    + repeat (apply Forall_app; split); try (by apply printable_visible; apply Hp || apply Ht); by repeat constructor.
    + rewrite !rev_app_distr, <- !app_assoc. by apply starts_ok_app, starts_ok_rev_word.
Qed.

Lemma parse_ssrc x n v : word x -> ParseUint32 x = Some n ->
  parseSDP_line ((txt "y=" ++ x) ++ [0x0D]) v = inr (v <| ssrcVal := n |> <| ssrcFound := true |>).
Proof.
  intros H E. unfold parseSDP_line. rewrite TrimSpace_line_cr by (by apply line_word).
  by rewrite HasPrefix_app, TrimPrefix_app, E.
Qed.

Lemma parse_name x v : word x ->
  parseSDP_line ((txt "s=" ++ x) ++ [0x0D]) v = inr (v <| sessionType := normalizeSessionType x |>).
Proof.
  intros H. unfold parseSDP_line. rewrite TrimSpace_line_cr, HasPrefix_app, TrimPrefix_app by (by apply line_word).
  by rewrite TrimSpace_id by apply H.
Qed.

Lemma parse_lines_app l rest v v' : parseSDP_lines l v = inr v' ->
  parseSDP_lines (l ++ rest) v = parseSDP_lines rest v'.
Proof.
  revert v. induction l as [|s l IH]; intros v H; [by injection H as ->|].
  cbn [app parseSDP_lines] in *. destruct (parseSDP_line s v); [done|by apply IH].
Qed.

(** ** Lemmas: the SSRC *)

Definition ssrc_domain (serverID : text) : text :=
  zeros_to 5 (if Nat.leb 8 (length serverID) then take 5 (drop 3 serverID)
              else if Nat.ltb 3 (length serverID) then drop 3 serverID else txt "00000").

Lemma ssrc_domain_spec serverID : digits serverID ->
  digits (ssrc_domain serverID) /\ length (ssrc_domain serverID) = 5%nat.
Proof.
  intros H. unfold ssrc_domain, zeros_to, digits in *.
  assert (Z0 : forall k, Forall (fun b => is_digit b = true) (repeat 0x30 k)).
  { intros k. apply List.Forall_forall. by intros x ->%repeat_spec. }
  destruct (Nat.leb_spec 8 (length serverID)) as [Hl|Hl]; [|destruct (Nat.ltb_spec 3 (length serverID)) as [Hl2|Hl2]].
  - split; [apply Forall_app; split; [apply Z0|by apply Forall_take, Forall_drop]|].
    rewrite length_app, repeat_length, length_take, length_drop. lia.
  - split; [apply Forall_app; split; [apply Z0|by apply Forall_drop]|].
    rewrite length_app, repeat_length, length_drop. lia.
  - by split; [repeat constructor|].
Qed.

(** The ten digits and the number they are. *)
Lemma buildSSRC_spec p serverID seq : 0 <= p <= 2 -> digits serverID -> 0 <= seq ->
  let x := buildSSRC [0x30 + p] serverID seq in
  digits x /\ length x = 10%nat /\
  exists d, 0 <= d < 10 ^ 5 /\ digits_value 0 (ssrc_domain serverID) = Some d /\
    ParseUint32 x = Some (p * 10 ^ 9 + d * 10 ^ 4 + seq mod 10000).
Proof.
  intros Hp Hs Hq x. destruct (ssrc_domain_spec _ Hs) as [D1 D2].
  assert (Hm : 0 <= seq mod 10000 < 10 ^ Z.of_nat 4) by (change (10 ^ Z.of_nat 4) with 10000; apply Z.mod_pos_bound; lia).
  destruct (pad0_spec 4 (seq mod 10000) Hm) as (P1 & P2 & P3); [lia|].
  assert (E : x = (0x30 + p) :: ssrc_domain serverID ++ pad0 4 (seq mod 10000)).
  { unfold x, buildSSRC, fmt04d. rewrite Z.rem_mod_nonneg by lia.
    by rewrite (proj2 (Z.ltb_ge (seq mod 10000) 0)) by lia. }
  split; [|split].
  - rewrite E. constructor; [apply is_digit_of; lia|]. by apply Forall_app.
  - rewrite E. cbn [length]. rewrite length_app. lia.
  - destruct (digits_value_shift _ 0 D1) as (d & Hd & Ed). rewrite D2 in *. change (Z.of_nat 5) with 5 in *.
    destruct (digits_value_shift _ 0 P1) as (q & Hq2 & Eq). rewrite P2 in *. change (Z.of_nat 4) with 4 in *.
    destruct (Eq 0) as [Eq0 _]. rewrite P3 in Eq0. injection Eq0 as Eq0.
    exists d. split; [done|]. split; [destruct (Ed 0) as [-> _]; f_equal; lia|].
    unfold ParseUint32. rewrite E. cbn [digits_value]. rewrite is_digit_of, digits_value_app by lia.
    destruct (Ed (0 * 10 + (0x30 + p - 48))) as [-> _]. cbn [mbind option_bind].
    destruct (Eq ((0 * 10 + (0x30 + p - 48)) * 10 ^ 5 + d)) as [-> _]. cbn [mbind option_bind].
    rewrite (proj2 (Z.ltb_lt _ _)) by nia. f_equal. nia.
Qed.

Lemma buildSSRC_word p serverID seq : 0 <= p <= 2 -> digits serverID -> 0 <= seq -> word (buildSSRC [0x30 + p] serverID seq).
Proof.
  intros Hp Hs Hq. destruct (buildSSRC_spec p serverID seq Hp Hs Hq) as (H1 & H2 & _).
  apply digits_word; [done|]. by intros E; rewrite E in H2.
Qed.

(** The leading digit: live, playback and download. *)
Inductive session_kind := Live | Playback | Download.

#[export] Instance session_kind_eq_dec : EqDecision session_kind.
Proof. solve_decision. Defined.

Definition kind_digit (k : session_kind) : Z := match k with Live => 0 | Playback => 1 | Download => 2 end.

Definition session_ssrc (k : session_kind) (serverID : text) (seq : Z) : text :=
  match k with
  | Live => SSRC false serverID seq
  | Playback => SSRC true serverID seq
  | Download => SSRCDownload serverID seq
  end.

Lemma session_ssrc_eq k serverID seq : session_ssrc k serverID seq = buildSSRC [0x30 + kind_digit k] serverID seq.
Proof. by destruct k. Qed.

Lemma kind_digit_range k : 0 <= kind_digit k <= 2.
Proof. destruct k; simpl; lia. Qed.

(** the SSRC of a session is ten decimal digits, which the device reads as
    a 32-bit number; two sessions of one platform get different numbers when
    they are of different kinds (live, playback, download), and when their
    sequence numbers are less than 10000 apart. *)
Theorem ssrc_unique k k' serverID seq seq' :
  digits serverID -> 0 <= seq -> 0 <= seq' -> Z.abs (seq - seq') < 10000 -> (k, seq) <> (k', seq') ->
  exists n n', ParseUint32 (session_ssrc k serverID seq) = Some n /\
    ParseUint32 (session_ssrc k' serverID seq') = Some n' /\ n <> n' /\ 0 <= n < 2 ^ 32 /\
    length (session_ssrc k serverID seq) = 10%nat /\ digits (session_ssrc k serverID seq).
Proof.
  intros Hs Hq Hq' Ha Hne. rewrite !session_ssrc_eq.
  destruct (buildSSRC_spec _ serverID seq (kind_digit_range k) Hs Hq) as (H1 & H2 & d & Hd & Ed & E).
  destruct (buildSSRC_spec _ serverID seq' (kind_digit_range k') Hs Hq') as (_ & _ & d' & _ & Ed' & E').
  assert (d' = d) as -> by congruence.
  eexists _, _. split; [exact E|]. split; [exact E'|].
  pose proof (Z.mod_pos_bound seq 10000 ltac:(lia)). pose proof (Z.mod_pos_bound seq' 10000 ltac:(lia)).
  pose proof (kind_digit_range k). split; [|split; [nia|done]]. intros Heq. apply Hne.
  destruct (decide (k = k')) as [->|Hk].
  - f_equal. pose proof (Z.div_mod seq 10000 ltac:(lia)). pose proof (Z.div_mod seq' 10000 ltac:(lia)). nia.
  - destruct k, k'; try done; cbn [kind_digit] in Heq; nia.
Qed.

Lemma ssrc_unique_witness :
  exists n n', ParseUint32 (session_ssrc Live (txt "34020000002000000001") 10001) = Some n /\
    ParseUint32 (session_ssrc Live (txt "34020000002000000001") 2) = Some n' /\ n <> n' /\ 0 <= n < 2 ^ 32 /\
    length (session_ssrc Live (txt "34020000002000000001") 10001) = 10%nat /\
    digits (session_ssrc Live (txt "34020000002000000001") 10001).
Proof. apply ssrc_unique; [by repeat constructor|lia|lia|lia|done]. Defined.

(** ** The offers read by the device *)

(** A security offer: empty, or a line's worth of printable text. *)
Definition offer_ok (sec : text) : Prop := sec = [] \/ word sec.

Definition security_line (sec : text) : list text := match sec with [] => [] | _ => [txt "a=security:" ++ sec] end.

Lemma security_line_ok sec : offer_ok sec -> Forall line_ok (security_line sec).
Proof. intros [->|H]; [constructor|]. destruct sec; [by destruct H|]. constructor; [by apply line_word|constructor]. Qed.

Lemma parse_security sec v : offer_ok sec -> parseSDP_lines (map (fun s => s ++ [0x0D]) (security_line sec) ++ [[]]) v = inr v.
Proof.
  intros [->|H]; [done|]. destruct sec as [|b sec]; [by destruct H|]. cbn [security_line map app parseSDP_lines].
  by rewrite parse_no_rule by (done || by apply line_word).
Qed.

(** The value of the last line is found when no line before it is one. *)
Definition no_security (s : text) : bool := negb (HasPrefix s (txt "a=security:")).

Lemma drop_while_cr s : starts_ok (rev s) = true -> rev (drop_while (fun b => b =? 0x0D) (rev (s ++ [0x0D]))) = s.
Proof.
  intros H. rewrite rev_app_distr. cbn [rev app drop_while]. rewrite Z.eqb_refl.
  destruct (rev s) as [|b t] eqn:E; [done|]. cbn [drop_while]. unfold starts_ok, printable in H.
  rewrite andb_true_iff, !Z.leb_le in H. rewrite (proj2 (Z.eqb_neq b 0x0D)) by lia.
  rewrite <- E. apply rev_involutive.
Qed.

Lemma security_of_line sec : word sec ->
  security_lines (map (fun s => s ++ [0x0D]) (security_line sec) ++ [[]]) = sec.
Proof.
  intros Hs. replace (security_line sec) with [txt "a=security:" ++ sec] by (by destruct sec; [destruct Hs|]).
  cbn [map app security_lines]. rewrite drop_while_cr.
  - rewrite HasPrefix_app, TrimPrefix_app, TrimSpace_id by apply Hs. destruct sec; [by destruct Hs|done].
  - rewrite rev_app_distr. by apply starts_ok_app, starts_ok_rev_word.
Qed.

Lemma security_of_lines l sec : Forall line_ok l -> forallb no_security l = true -> offer_ok sec ->
  SDPSecurityAttributeValue (lines_crlf (l ++ security_line sec)) = sec.
Proof.
  intros Hl Hn Hs. unfold SDPSecurityAttributeValue.
  rewrite Split_lines by (apply Forall_app; split; [done|by apply security_line_ok]). rewrite map_app, <- app_assoc.
  induction Hl as [|s l Hsl _ IH].
  - cbn [map app]. destruct Hs as [->|Hs]; [done|]. apply security_of_line. done.
  - cbn [forallb] in Hn. apply andb_true_iff in Hn as [Hn1 Hn2]. cbn [map app security_lines].
    rewrite drop_while_cr by apply Hsl. unfold no_security in Hn1. apply negb_true_iff in Hn1. rewrite Hn1. by apply IH.
Qed.

(** The SSRC line is the first the platform finds in its own offer. *)
Definition no_ssrc (s : text) : bool := negb (HasPrefix s (txt "y=")).

Lemma ssrc_of_lines l x rest : Forall line_ok (l ++ (txt "y=" ++ x) :: rest) -> forallb no_ssrc l = true -> x <> [] ->
  sdpSSRC (lines_crlf (l ++ (txt "y=" ++ x) :: rest)) = x.
Proof.
  intros Hl Hn Hx. unfold sdpSSRC. rewrite splitCRLF_lines by done. clear Hl. induction l as [|s l IH].
  - by destruct x.
  - cbn [forallb] in Hn. apply andb_true_iff in Hn as [Hn1 Hn2]. cbn [app sdpSSRC_lines]. specialize (IH Hn2).
    destruct s as [|a [|b [|c s]]]; [done..|]. unfold no_ssrc in Hn1. cbn [txt] in Hn1.
    apply negb_true_iff in Hn1.
    change (((0x79 =? a) && ((0x3D =? b) && true)) = false) in Hn1. rewrite andb_true_r in Hn1.
    rewrite (Z.eqb_sym a), (Z.eqb_sym b). by rewrite Hn1.
Qed.

(** What an offer of each transport means to the device. *)
Definition offered_transport (transport : text) : sdpMediaTransport :=
  if bool_decide (transport = MediaTCPPassive) then mediaTCPConnect
  else if bool_decide (transport = MediaTCPActive) then mediaTCPListen else mediaUDP.

(** The discard port of the active offer. *)
Definition offered_port (transport : text) (port : Z) : Z :=
  if bool_decide (transport = MediaTCPActive) then 9 else port.

(** The media and setup lines of a live video offer. *)
Definition live_media (transport : text) (port : Z) : text * list text :=
  match offered_transport transport with
  | mediaUDP => (txt "m=video " ++ Itoa port ++ txt " " ++ txt "RTP/AVP" ++ txt " " ++ txt "96", [])
  | mediaTCPConnect => (txt "m=video " ++ Itoa port ++ txt " " ++ txt "TCP/RTP/AVP" ++ txt " " ++ txt "96",
                        [txt "a=setup:passive"; txt "a=connection:new"])
  | mediaTCPListen => (txt "m=video " ++ Itoa 9 ++ txt " " ++ txt "TCP/RTP/AVP" ++ txt " " ++ txt "96",
                       [txt "a=setup:active"; txt "a=connection:new"])
  end.

Definition live_head (ip transport : text) (port : Z) : list text :=
  [txt "v=0"; txt "o=- 0 0 IN IP4 " ++ ip; txt "s=Play"; txt "c=IN IP4 " ++ ip; txt "t=0 0";
   fst (live_media transport port); txt "a=recvonly"; txt "a=rtpmap:96 PS/90000"] ++ snd (live_media transport port).

Lemma buildLiveSDP_lines ip port transport ssrc sec :
  buildLiveSDP ip port transport ssrc false sec =
  lines_crlf (live_head ip transport port ++ (txt "y=" ++ ssrc) :: security_line sec).
Proof.
  unfold buildLiveSDP, live_head, live_media, offered_transport, security_line.
  destruct (bool_decide (transport = MediaTCPPassive)); [|destruct (bool_decide (transport = MediaTCPActive))];
    cbv zeta; f_equal; by rewrite <- ?app_assoc.
Qed.

Lemma media_line_ok port proto : - 2 ^ 63 <= port < 2 ^ 63 -> word proto ->
  line_ok (txt "m=video " ++ Itoa port ++ txt " " ++ proto ++ txt " " ++ txt "96").
Proof.
  intros H Hp. apply line_word_line; [done|by apply Itoa_printable| |].
  - apply Forall_app. split; [by repeat constructor|]. apply Forall_app.
    split; [by apply printable_visible, Hp|by repeat constructor].
  - by rewrite !rev_app_distr, <- !app_assoc.
Qed.

Lemma word_lit p : forallb printable p = true -> p <> [] -> word p.
Proof. intros H1 H2. split; [done|]. apply List.Forall_forall. by apply forallb_forall. Qed.

Lemma live_lines_ok ip port transport : word ip -> 0 < port < 65536 -> Forall line_ok (live_head ip transport port).
Proof.
  intros Hi Hp. unfold live_head, live_media.
  repeat first [apply Forall_app; split | apply list.Forall_cons; split | apply list.Forall_nil; exact I];
  destruct (offered_transport transport); cbn [fst snd];
  repeat first [by apply line_lit | by apply line_word | by apply media_line_ok; [lia|by apply word_lit]
               | constructor].
Qed.

(** The last decision of [parseSDP]. *)
Definition media_transport (v : sdp_vars) : sdpMediaTransport :=
  if Contains (mLineProto v) (txt "TCP")
  then if bool_decide (setupVal v = txt "active") then mediaTCPListen else mediaTCPConnect
  else mediaUDP.

(** Runs the parser over lines of literals and words. *)
Ltac parse_lines :=
  cbn [map app parseSDP_lines];
  repeat first
    [ rewrite parse_no_rule by (reflexivity || assumption || (by apply line_lit) || (by apply line_word))
    | rewrite parse_conn by done
    | rewrite parse_media by (lia || done)
    | rewrite parse_setup by done
    | rewrite parse_name by done ].

(** The device's variables after the media and setup lines. *)
Lemma parse_live_head ip port transport : word ip -> 0 < port < 65536 ->
  exists v, parseSDP_lines (map (fun s => s ++ [0x0D]) (live_head ip transport port))
              (mkSdpVars [] 0 0 false [] [] (txt "Play")) = inr v /\
    mediaIP v = ip /\ mediaPort v = offered_port transport port /\ sessionType v = txt "Play" /\
    media_transport v = offered_transport transport.
Proof.
  intros Hi Hp. unfold live_head, live_media, offered_port, offered_transport.
  assert (W : word (txt "RTP/AVP") /\ word (txt "TCP/RTP/AVP") /\ word (txt "96") /\ word (txt "passive") /\
              word (txt "active") /\ word (txt "Play")) by (repeat split; (done || by repeat constructor)).
  destruct W as (W1 & W2 & W3 & W4 & W5 & W6).
  change (txt "s=Play") with (txt "s=" ++ txt "Play").
  change (txt "a=setup:passive") with (txt "a=setup:" ++ txt "passive").
  change (txt "a=setup:active") with (txt "a=setup:" ++ txt "active").
  destruct (decide (transport = MediaTCPPassive)) as [->|Hn1];
    [|destruct (decide (transport = MediaTCPActive)) as [->|Hn2]].
  - rewrite bool_decide_eq_true_2 by done. cbn [fst snd].
    eexists. split; [parse_lines; reflexivity|done].
  - rewrite bool_decide_eq_false_2, bool_decide_eq_true_2 by done. cbn [fst snd].
    eexists. split; [parse_lines; reflexivity|done].
  - rewrite !bool_decide_eq_false_2 by done. cbn [fst snd].
    eexists. split; [parse_lines; reflexivity|done].
Qed.

(** The lines after the media: the SSRC and the security offer. *)
Lemma parse_offer l x n sec v : Forall line_ok l -> word x -> offer_ok sec -> ParseUint32 x = Some n ->
  parseSDP_lines (map (fun s => s ++ [0x0D]) l) (mkSdpVars [] 0 0 false [] [] (txt "Play")) = inr v ->
  mediaIP v <> [] -> mediaPort v <> 0 ->
  parseSDP (lines_crlf (l ++ (txt "y=" ++ x) :: security_line sec)) =
  inr (JoinHostPort (mediaIP v) (Itoa (mediaPort v)), n, sessionType v,
       media_transport v).
Proof.
  intros Hl Hx Hs Hn Hv Hi Hp. unfold parseSDP. rewrite Split_lines.
  2:{ apply Forall_app. split; [done|]. constructor; [by apply line_word|by apply security_line_ok]. }
  rewrite map_app, <- app_assoc, (parse_lines_app _ _ _ _ Hv). cbn [map app parseSDP_lines].
  rewrite (parse_ssrc x n) by done. rewrite parse_security by done. cbn [negb ssrcFound].
  destruct v as [vi vp vs vf vm vu vt]. cbn in Hi, Hp |- *.
  rewrite bool_decide_eq_false_2, (proj2 (Z.eqb_neq _ _)) by done. done.
Qed.

Lemma live_offer_read ip port transport serverID seq sec :
  word ip -> 0 < port < 65536 -> digits serverID -> 0 <= seq -> offer_ok sec ->
  let offer := buildLiveSDP ip port transport (SSRC false serverID seq) false sec in
  exists n, ParseUint32 (SSRC false serverID seq) = Some n /\
    parseSDP offer =
      inr (JoinHostPort ip (Itoa (offered_port transport port)), n, txt "Play", offered_transport transport) /\
    SDPSecurityAttributeValue offer = sec.
Proof.
  intros Hi Hp Hs Hq Hsec offer. unfold offer. rewrite buildLiveSDP_lines. unfold SSRC. change (txt "0") with [0x30 + 0].
  destruct (buildSSRC_spec 0 serverID seq ltac:(lia) Hs Hq) as (_ & _ & d & _ & _ & E).
  pose proof (buildSSRC_word 0 serverID seq ltac:(lia) Hs Hq) as W. set (x := buildSSRC _ _ _) in *. clearbody x.
  pose proof (live_lines_ok ip port transport Hi Hp) as Hl.
  destruct (parse_live_head ip port transport Hi Hp) as (v & Hv & V1 & V2 & V3 & V4).
  eexists. split; [exact E|]. split.
  - rewrite (parse_offer _ _ _ _ _ Hl W Hsec E Hv), V4, V3, V2, V1; [done|rewrite V1; apply Hi|].
    rewrite V2. unfold offered_port. destruct (bool_decide _); lia.
  - change ((txt "y=" ++ x) :: security_line sec) with ([txt "y=" ++ x] ++ security_line sec). rewrite app_assoc.
    apply security_of_lines; [|by unfold live_head, live_media; destruct (offered_transport transport)|done].
    apply Forall_app. split; [done|]. constructor; [by apply line_word|constructor].
Qed.

(** ** The playback offer *)

Definition fetch_head (ip name : text) (start end_ port : Z) : list text :=
  [txt "v=0"; txt "o=- 0 0 IN IP4 " ++ ip; txt "s=" ++ name; txt "c=IN IP4 " ++ ip;
   txt "t=" ++ Itoa (start + ntpOffset) ++ txt " " ++ Itoa (end_ + ntpOffset);
   txt "m=video " ++ Itoa port ++ txt " " ++ txt "RTP/AVP" ++ txt " " ++ txt "96"; txt "a=recvonly";
   txt "a=rtpmap:96 PS/90000"].

Lemma buildFetchSDP_lines ip name start end_ port ssrc sec :
  buildFetchSDP ip name start end_ port ssrc sec =
  lines_crlf (fetch_head ip name start end_ port ++ (txt "y=" ++ ssrc) :: security_line sec).
Proof. reflexivity. Qed.

Lemma time_line_ok a b : - 2 ^ 63 <= a < 2 ^ 63 -> - 2 ^ 63 <= b < 2 ^ 63 ->
  line_ok (txt "t=" ++ Itoa a ++ txt " " ++ Itoa b).
Proof.
  intros Ha Hb. pose proof (Itoa_printable _ Ha) as Wa. pose proof (Itoa_printable _ Hb) as Wb.
  apply line_word_line; [done|done| |].
  - apply Forall_app. split; [by repeat constructor|by apply printable_visible, Wb].
  - rewrite rev_app_distr. by apply starts_ok_app, starts_ok_rev_word.
Qed.

Lemma fetch_lines_ok ip name start end_ port : word ip -> word name -> 0 < port < 65536 ->
  0 <= start < 2 ^ 62 -> 0 <= end_ < 2 ^ 62 -> Forall line_ok (fetch_head ip name start end_ port).
Proof.
  intros Hi Hn Hp Hs He. unfold fetch_head, ntpOffset.
  repeat first [apply list.Forall_cons; split | apply list.Forall_nil; exact I];
  repeat first [by apply line_lit | by apply line_word | by apply media_line_ok; [lia|by apply word_lit]
               | by apply time_line_ok; lia].
Qed.

(** The time range is the [t=] line's; lines before it start otherwise. *)
Lemma time_range_of_lines a b rest : 3000000000 < a < 2 ^ 53 -> 3000000000 < b < 2 ^ 53 ->
  time_range_lines ((txt "t=" ++ Itoa a ++ txt " " ++ Itoa b ++ [0x0D]) :: rest) =
  ((a - ntpOffset) * 1000, (b - ntpOffset) * 1000).
Proof.
  intros Ha Hb. cbn [time_range_lines].
  replace (txt "t=" ++ Itoa a ++ txt " " ++ Itoa b ++ [0x0D]) with ((txt "t=" ++ Itoa a ++ txt " " ++ Itoa b) ++ [0x0D])
    by by rewrite <- !app_assoc.
  rewrite TrimSpace_line_cr, HasPrefix_app, TrimPrefix_app by (apply time_line_ok; lia). cbn [negb].
  change (Itoa a ++ txt " " ++ Itoa b) with (Itoa a ++ 0x20 :: Itoa b).
  rewrite Fields_cons, Fields_word, !Atoi_Itoa by (lia || apply Itoa_printable; lia).
  rewrite (proj2 (Z.eqb_neq a 0)), !(proj2 (Z.ltb_lt _ _)) by lia. cbn [andb]. unfold s64, ntpOffset.
  by rewrite !Z.mod_small, !Z.add_simpl_r by lia.
Qed.

Lemma time_range_skip s rest : line_ok s -> HasPrefix s (txt "t=") = false ->
  time_range_lines ((s ++ [0x0D]) :: rest) = time_range_lines rest.
Proof. intros H N. cbn [time_range_lines]. by rewrite TrimSpace_line_cr, N. Qed.

Lemma parse_fetch_head ip name start end_ port : word ip -> word name -> 0 < port < 65536 ->
  0 <= start < 2 ^ 62 -> 0 <= end_ < 2 ^ 62 ->
  exists v, parseSDP_lines (map (fun s => s ++ [0x0D]) (fetch_head ip name start end_ port))
              (mkSdpVars [] 0 0 false [] [] (txt "Play")) = inr v /\
    mediaIP v = ip /\ mediaPort v = port /\ sessionType v = normalizeSessionType name /\ media_transport v = mediaUDP.
Proof.
  intros Hi Hn Hp Hs He.
  assert (W1 : word (txt "RTP/AVP")) by by apply word_lit. assert (W2 : word (txt "96")) by by apply word_lit.
  assert (Wt : line_ok (txt "t=" ++ Itoa (start + ntpOffset) ++ txt " " ++ Itoa (end_ + ntpOffset)))
    by (apply time_line_ok; unfold ntpOffset; lia).
  eexists. split; [unfold fetch_head; parse_lines; reflexivity|done].
Qed.

(** the playback and download offers of the platform are understood by the
    device: it gets the address and port, the SSRC of the kind, the session
    type, and the requested range of Unix seconds in milliseconds (times after
    January 1995; earlier ones are taken for Unix seconds already). *)
Theorem fetch_offer_understood ip (download : bool) serverID seq start end_ port sec :
  word ip -> digits serverID -> 0 <= seq -> 0 < port < 65536 -> offer_ok sec ->
  791011200 < start < 2 ^ 52 -> 791011200 < end_ < 2 ^ 52 ->
  let name := if download then txt "Download" else txt "Playback" in
  let ssrc := if download then SSRCDownload serverID seq else SSRC true serverID seq in
  let offer := buildFetchSDP ip name start end_ port ssrc sec in
  exists n, ParseUint32 ssrc = Some n /\
    parseSDP offer = inr (JoinHostPort ip (Itoa port), n, name, mediaUDP) /\
    parseSDPTimeRange offer = (start * 1000, end_ * 1000) /\ SDPSecurityAttributeValue offer = sec.
Proof.
  intros Hi Hs Hq Hp Hsec Ht1 Ht2 name ssrc offer. unfold offer. rewrite buildFetchSDP_lines.
  assert (Wn : word name) by (by unfold name; destruct download; apply word_lit).
  assert (Ek : ssrc = buildSSRC [0x30 + (if download then 2 else 1)] serverID seq)
    by (by unfold ssrc; destruct download).
  destruct (buildSSRC_spec (if download then 2 else 1) serverID seq ltac:(by destruct download) Hs Hq)
    as (_ & _ & d & _ & _ & E).
  pose proof (buildSSRC_word (if download then 2 else 1) serverID seq ltac:(by destruct download) Hs Hq) as W.
  rewrite <- Ek in E, W. clear Ek. clearbody ssrc.
  pose proof (fetch_lines_ok ip name start end_ port Hi Wn Hp ltac:(lia) ltac:(lia)) as Hl.
  assert (Hall : Forall line_ok (fetch_head ip name start end_ port ++ (txt "y=" ++ ssrc) :: security_line sec)).
  { apply Forall_app. split; [done|]. constructor; [by apply line_word|by apply security_line_ok]. }
  destruct (parse_fetch_head ip name start end_ port Hi Wn Hp ltac:(lia) ltac:(lia)) as (v & Hv & V1 & V2 & V3 & V4).
  eexists. split; [exact E|]. split; [|split].
  - rewrite (parse_offer _ _ _ _ _ Hl W Hsec E Hv), V4, V3, V2, V1; [|rewrite V1; apply Hi|lia].
    unfold name. by destruct download.
  - unfold parseSDPTimeRange. rewrite Split_lines by done. unfold fetch_head. cbn [map app].
    rewrite !time_range_skip by (reflexivity || (by apply line_lit) || (by apply line_word)).
    rewrite <- !app_assoc, time_range_of_lines by (unfold ntpOffset; lia). by rewrite !Z.add_simpl_r.
  - change ((txt "y=" ++ ssrc) :: security_line sec) with ([txt "y=" ++ ssrc] ++ security_line sec). rewrite app_assoc.
    apply security_of_lines; [|done|done].
    apply Forall_app. split; [done|]. constructor; [by apply line_word|constructor].
Qed.

Lemma fetch_offer_understood_witness :
  let offer := buildFetchSDP (txt "10.0.0.1") (txt "Download") 1700000000 1700003600 30002
                 (SSRCDownload (txt "34020000002000000001") 9) [] in
  exists n, ParseUint32 (SSRCDownload (txt "34020000002000000001") 9) = Some n /\
    parseSDP offer = inr (JoinHostPort (txt "10.0.0.1") (Itoa 30002), n, txt "Download", mediaUDP) /\
    parseSDPTimeRange offer = (1700000000 * 1000, 1700003600 * 1000) /\ SDPSecurityAttributeValue offer = [].
Proof.
  apply (fetch_offer_understood (txt "10.0.0.1") true); [by apply word_lit|by repeat constructor|lia|lia|by left|lia|lia].
Defined.

(** ** The device's answer, read by the platform *)

Lemma trim_right_suffix n s : (length s <= n)%nat -> exists pre, s = pre ++ trim_right_rev s.
Proof.
  revert s. induction n as [|n IH]; intros s Hn; [by exists []; destruct s; simpl in *; [|lia]|].
  destruct s as [|c s1]; [by exists []|]. cbn [trim_right_rev]. cbn [length] in Hn.
  destruct (ascii_space c); [destruct (IH s1 ltac:(lia)) as [pre E]; exists (c :: pre); by rewrite E at 1|].
  destruct s1 as [|b s2]; [by exists []|]. cbn [length] in Hn.
  destruct (space2 b c); [destruct (IH s2 ltac:(lia)) as [pre E]; exists (c :: b :: pre); by rewrite E at 1|].
  destruct s2 as [|a s3]; [by exists []|]. cbn [length] in Hn.
  destruct (space3 a b c); [destruct (IH s3 ltac:(lia)) as [pre E]; exists (c :: b :: a :: pre); by rewrite E at 1|].
  by exists [].
Qed.

(** Text that starts with a printable byte has no prefix that starts with another. *)
Lemma TrimSpace_head b s c p : printable b = true -> (c =? b) = false -> HasPrefix (TrimSpace (b :: s)) (c :: p) = false.
Proof.
  intros Hb Hc. unfold TrimSpace. rewrite trim_left_id by done.
  destruct (trim_right_suffix _ (rev (b :: s)) (Nat.le_refl _)) as [pre E].
  apply (f_equal (@rev Z)) in E. rewrite rev_involutive, rev_app_distr in E.
  destruct (rev (trim_right_rev (rev (b :: s)))) as [|a t]; [done|]. injection E as -> _. cbn [HasPrefix]. by rewrite Hc.
Qed.

Lemma Join_no c l : Forall (Forall (fun b => b <> c)) l -> c <> 0x0A -> Forall (fun b => b <> c) (Join l LF).
Proof.
  intros H Hc. induction H as [|s l Hs Hl IH]; [constructor|]. destruct l as [|t l]; [done|].
  change (Join (s :: t :: l) LF) with (s ++ LF ++ Join (t :: l) LF). apply Forall_app. split; [done|].
  constructor; [congruence|done].
Qed.

(** the device's answer is separated by bare line feeds, and the platform
    splits it at CRLF: it finds no media address in it, whatever the transport,
    so the tcp-active session it belongs to cannot be dialled. *)
Theorem answer_not_dialled deviceID localIP mediaPort ssrc transport name setup :
  word deviceID -> word localIP -> 0 <= mediaPort < 65536 -> 0 <= ssrc < 2 ^ 32 -> word name -> offer_ok setup ->
  sdpMediaAddress (buildDeviceSDP deviceID localIP mediaPort ssrc transport name setup) = None.
Proof.
  intros Hd Hl Hp Hs Hn Hset.
  assert (Hset' : Forall (fun b => b <> 0x0D) setup) by (destruct Hset as [->|]; [constructor|by apply word_no]).
  pose proof (word_no 0x0D _ (Itoa_printable mediaPort ltac:(lia)) eq_refl) as Np.
  pose proof (word_no 0x0D _ (Itoa_printable ssrc ltac:(lia)) eq_refl) as Ns.
  pose proof (word_no 0x0D _ Hd eq_refl) as Nd. pose proof (word_no 0x0D _ Hl eq_refl) as Nl.
  pose proof (word_no 0x0D _ Hn eq_refl) as Nn.
  set (answer := buildDeviceSDP _ _ _ _ _ _ _).
  assert (H : Forall (fun b => b <> 0x0D) answer /\ exists rest, answer = txt "v=0" ++ rest).
  { unfold answer, buildDeviceSDP. destruct (bool_decide (transport = txt "tcp")).
    - split; [|by eexists]. apply Join_no; [|done].
      repeat (first [apply list.Forall_nil | apply list.Forall_cons; split]); repeat (apply Forall_app; split); try done;
        try (by repeat constructor). by destruct setup; [repeat constructor|].
    - split; [|by eexists]. apply Join_no; [|done].
      repeat (first [apply list.Forall_nil | apply list.Forall_cons; split]); repeat (apply Forall_app; split); try done;
        by repeat constructor. }
  destruct H as [N [rest E]]. unfold sdpMediaAddress, CRLF. rewrite Split_last by done. cbn [sdpMediaAddress_lines].
  assert (T1 : HasPrefix (TrimSpace answer) (txt "c=IN IP4 ") = false) by (rewrite E; by apply (TrimSpace_head 0x76 _ 0x63)).
  assert (T2 : HasPrefix (TrimSpace answer) (txt "m=video ") = false) by (rewrite E; by apply (TrimSpace_head 0x76 _ 0x6D)).
  by rewrite T1, T2.
Qed.

Lemma answer_not_dialled_witness :
  sdpMediaAddress (buildDeviceSDP (txt "34020000001320000001") (txt "10.0.0.2") 40000 7 (txt "tcp") (txt "Play")
                     (txt "passive")) = None.
Proof. apply answer_not_dialled; [by apply word_lit|by apply word_lit|lia|lia|by apply word_lit|right; by apply word_lit]. Defined.

(** The same answer closed with CRLF is dialled. *)
Example answer_crlf_dialled :
  sdpMediaAddress (lines_crlf (Split (buildDeviceSDP (txt "34020000001320000001") (txt "10.0.0.2") 40000 7 (txt "tcp")
                                        (txt "Play") (txt "passive")) LF)) = Some (txt "10.0.0.2", 40000).
Proof. vm_compute. reflexivity. Qed.
