(* ===== verification/SipMsg.v ===== *)
(** The device's SIP messages ([device/sip.go]) and their framing on a TCP
    connection ([readSIPStream], [device/sip_tcp.go]).

    Text is a list of bytes; [strings.ToLower] and [strings.EqualFold] are
    modelled on ASCII, where the header names lie. Go ranges over the map of
    extension headers in any order: [Serialize] gets the order it took. *)

From S2P Require Import Prelude GoStrings GoText.
Open Scope Z_scope.

(** ** Messages *)

Record SipMessage := mkSipMessage {
  Method : text;
  StatusCode : Z;
  RequestURI : text;
  From_ : text;
  To_ : text;
  CallID : text;
  CSeq : text;
  Contact : text;
  Via : text;
  Expires : text;
  MaxForwards : text;
  ContentType : text;
  ContentLength : Z;
  WWWAuthenticate : text;
  Authorization : text;
  UserAgent : text;
  Headers : gmap text text;
  Body : text;
}.

#[export] Instance eta_SipMessage : Eta SipMessage := fun m =>
  mkSipMessage (Method m) (StatusCode m) (RequestURI m) (From_ m) (To_ m) (CallID m) (CSeq m) (Contact m)
    (Via m) (Expires m) (MaxForwards m) (ContentType m) (ContentLength m) (WWWAuthenticate m) (Authorization m)
    (UserAgent m) (Headers m) (Body m).

Definition empty_message : SipMessage := mkSipMessage [] 0 [] [] [] [] [] [] [] [] [] [] 0 [] [] [] ∅ [].

Definition statusReason (code : Z) : text :=
  if code =? 100 then txt "Trying"
  else if code =? 200 then txt "OK"
  else if code =? 401 then txt "Unauthorized"
  else if code =? 403 then txt "Forbidden"
  else if code =? 404 then txt "Not Found"
  else if code =? 488 then txt "Not Acceptable Here"
  else if code =? 500 then txt "Server Internal Error"
  else if code =? 503 then txt "Service Unavailable"
  else txt "Unknown".

(** A header that is written when it is not empty. *)
Definition header (name value : text) : text :=
  match value with [] => [] | _ => name ++ txt ": " ++ value ++ CRLF end.

(** The Via value that is written: rport is asked for. *)
Definition via_rport (via : text) : text :=
  if Contains (ToLower via) (txt ";rport") then TrimRightCRLF via else TrimRightCRLF via ++ txt ";rport".

Definition start_line (m : SipMessage) : text :=
  match Method m with
  | _ :: _ => Method m ++ txt " " ++ RequestURI m ++ txt " SIP/2.0"
  | [] => if 0 <? StatusCode m then txt "SIP/2.0 " ++ Itoa (StatusCode m) ++ txt " " ++ statusReason (StatusCode m)
          else txt "SIP/2.0 500 Invalid Message"
  end.

Definition Serialize (m : SipMessage) (order : list (text * text)) : text :=
  start_line m ++ CRLF
  ++ match Via m with [] => [] | _ => txt "Via: " ++ via_rport (Via m) ++ CRLF end
  ++ header (txt "Max-Forwards") (MaxForwards m)
  ++ header (txt "From") (From_ m)
  ++ header (txt "To") (To_ m)
  ++ header (txt "Call-ID") (CallID m)
  ++ header (txt "CSeq") (CSeq m)
  ++ header (txt "Contact") (Contact m)
  ++ header (txt "Expires") (Expires m)
  ++ header (txt "WWW-Authenticate") (WWWAuthenticate m)
  ++ header (txt "Authorization") (Authorization m)
  ++ header (txt "User-Agent") (UserAgent m)
  ++ header (txt "Content-Type") (ContentType m)
  ++ concat (map (fun kv => fst kv ++ txt ": " ++ snd kv ++ CRLF) order)
  ++ txt "Content-Length: "
  ++ Itoa (if 0 <? ContentLength m then ContentLength m else Z.of_nat (length (Body m))) ++ CRLF
  ++ CRLF ++ Body m.

(** [ExtensionHeader]; when several names fold to the same, Go's map order
    decides. *)
Definition EqualFold (a b : text) : bool := bool_decide (ToLower a = ToLower b).

Fixpoint ExtensionHeader (order : list (text * text)) (name : text) : text :=
  match order with
  | [] => []
  | (k, v) :: rest => if EqualFold k name then v else ExtensionHeader rest name
  end.

(** ** Parsing *)

Inductive sip_error := InvalidStatusCode | InvalidRequestLine.

(** [strings.SplitN(s, " ", 3)] *)
Definition split3 (s : text) : list text :=
  match cut_at 0x20 s with
  | None => [s]
  | Some (a, r) => match cut_at 0x20 r with None => [a; r] | Some (b, c) => [a; b; c] end
  end.

Definition parse_start (line : text) (msg : SipMessage) : sip_error + SipMessage :=
  if HasPrefix line (txt "SIP/2.0") then
    match split3 line with
    | _ :: code :: _ => match Atoi code with
                        | Some n => inr (msg <| StatusCode := n |>)
                        | None => inl InvalidStatusCode
                        end
    | _ => inr msg
    end
  else
    match split3 line with
    | [method; uri; version] =>
        if bool_decide (version = txt "SIP/2.0") then inr (msg <| Method := method |> <| RequestURI := uri |>)
        else inl InvalidRequestLine
    | _ => inl InvalidRequestLine
    end.

(** The cases of the switch on the lower-case name. *)
Inductive field :=
  | HVia | HFrom | HTo | HCallID | HCSeq | HContact | HExpires | HMaxForwards | HContentType | HContentLength
  | HWWWAuthenticate | HAuthorization | HUserAgent | HOther.

Definition field_of (name : text) : field :=
  let l := ToLower name in
  if bool_decide (l = txt "via") then HVia
  else if bool_decide (l = txt "from") then HFrom
  else if bool_decide (l = txt "to") then HTo
  else if bool_decide (l = txt "call-id") || bool_decide (l = txt "callid") then HCallID
  else if bool_decide (l = txt "cseq") then HCSeq
  else if bool_decide (l = txt "contact") then HContact
  else if bool_decide (l = txt "expires") then HExpires
  else if bool_decide (l = txt "max-forwards") then HMaxForwards
  else if bool_decide (l = txt "content-type") then HContentType
  else if bool_decide (l = txt "content-length") then HContentLength
  else if bool_decide (l = txt "www-authenticate") then HWWWAuthenticate
  else if bool_decide (l = txt "authorization") then HAuthorization
  else if bool_decide (l = txt "user-agent") then HUserAgent
  else HOther.

Definition set_field (f : field) (name value : text) (msg : SipMessage) : SipMessage :=
  match f with
  | HVia => msg <| Via := value |>
  | HFrom => msg <| From_ := value |>
  | HTo => msg <| To_ := value |>
  | HCallID => msg <| CallID := value |>
  | HCSeq => msg <| CSeq := value |>
  | HContact => msg <| Contact := value |>
  | HExpires => msg <| Expires := value |>
  | HMaxForwards => msg <| MaxForwards := value |>
  | HContentType => msg <| ContentType := value |>
  | HContentLength => match Atoi value with Some n => msg <| ContentLength := n |> | None => msg end
  | HWWWAuthenticate => msg <| WWWAuthenticate := value |>
  | HAuthorization => msg <| Authorization := value |>
  | HUserAgent => msg <| UserAgent := value |>
  | HOther => msg <| Headers := <[name := value]> (Headers msg) |>
  end.

(** One header line; a line without a colon is skipped. *)
Definition parse_header (line : text) (msg : SipMessage) : SipMessage :=
  match cut_at 0x3A line with
  | None => msg
  | Some (n, v) => let name := TrimSpace n in set_field (field_of name) name (TrimSpace v) msg
  end.

(** The loop over the lines behind the start line, and the body. *)
Fixpoint parse_lines (lines : list text) (msg : SipMessage) : SipMessage :=
  match lines with
  | [] => msg
  | l :: rest =>
      let line := TrimSpace l in
      match line with
      | [] => match rest with [] => msg | _ => msg <| Body := Join rest CRLF |> end
      | _ => parse_lines rest (parse_header line msg)
      end
  end.

Definition Parse (data : text) : sip_error + SipMessage :=
  let msg := empty_message <| MaxForwards := txt "70" |> in
  match Split data CRLF with
  | [] => inr msg
  | l :: rest => match parse_start (TrimSpace l) msg with
                 | inl e => inl e
                 | inr msg1 => inr (parse_lines rest msg1)
                 end
  end.

(** ** Building *)

Section Building.
(** The user agent string and the tag of the process. *)
Context (userAgent dialogTag : text).

Definition BuildRegister (requestUri from to callId cseq contact authHeader : text) : SipMessage :=
  empty_message <| Method := txt "REGISTER" |> <| RequestURI := requestUri |> <| From_ := from |> <| To_ := to |>
    <| CallID := callId |> <| CSeq := cseq |> <| Contact := contact |> <| MaxForwards := txt "70" |>
    <| Expires := txt "3600" |> <| UserAgent := userAgent |> <| Authorization := authHeader |>.

Definition BuildBye (requestUri from to callId cseq contact : text) : SipMessage :=
  empty_message <| Method := txt "BYE" |> <| RequestURI := requestUri |> <| From_ := from |> <| To_ := to |>
    <| CallID := callId |> <| CSeq := cseq |> <| Contact := contact |> <| MaxForwards := txt "70" |>
    <| UserAgent := userAgent |>.

Definition BuildMediaStatusInfo (requestUri from to callId cseq contact : text) (download : bool) : SipMessage :=
  let status := if download then txt "Download Finished" else txt "Play Finished" in
  empty_message <| Method := txt "INFO" |> <| RequestURI := requestUri |> <| From_ := from |> <| To_ := to |>
    <| CallID := callId |> <| CSeq := cseq |> <| Contact := contact |> <| MaxForwards := txt "70" |>
    <| ContentType := txt "Application/MANSRTSP" |> <| UserAgent := userAgent |>
    <| Body := txt "MediaStatus: " ++ status ++ CRLF |>.

Definition tagged (to : text) : text :=
  if Contains to (txt "tag=") then to else to ++ txt ";tag=" ++ dialogTag.

Definition BuildStatusResponse (req : SipMessage) (code : Z) : SipMessage :=
  empty_message <| StatusCode := code |> <| Via := Via req |> <| From_ := From_ req |> <| To_ := tagged (To_ req) |>
    <| CallID := CallID req |> <| CSeq := CSeq req |> <| UserAgent := userAgent |>.

Definition Build200OK (req : SipMessage) (contentType body : text) : SipMessage :=
  (BuildStatusResponse req 200) <| ContentType := contentType |> <| Body := body |>.
End Building.

(** ** Framing on a TCP connection

    The connection is the events a reader will see: data, or [Idle] when the read
    deadline passes first. A deadline that has passed fails every later read until
    it is set again. *)

Inductive net_event := Data (l : text) | Idle.

Record conn := mkConn { buffered : text; events : list net_event; armed : bool }.

Inductive read_error := Timeout | EOF.

(** Fills the buffer until it holds a line feed; what was read is lost on an error. *)
Fixpoint read_line (buf : text) (evs : list net_event) : read_error * conn + text * conn :=
  match cut_at 0x0A buf with
  | Some (a, rest) => inr (a ++ LF, mkConn rest evs true)
  | None => match evs with
            | [] => inl (EOF, mkConn [] [] true)
            | Idle :: evs' => inl (Timeout, mkConn [] evs' false)
            | Data l :: evs' => read_line (buf ++ l) evs'
            end
  end.

(** [reader.ReadString('\n')] *)
Definition ReadString (c : conn) : read_error * conn + text * conn :=
  if armed c then read_line (buffered c) (events c) else
  match cut_at 0x0A (buffered c) with
  | Some (a, rest) => inr (a ++ LF, mkConn rest (events c) false)
  | None => inl (Timeout, mkConn [] (events c) false)
  end.

Fixpoint read_full (n : nat) (buf : text) (evs : list net_event) : option (text * conn) :=
  if Nat.leb n (length buf) then Some (take n buf, mkConn (drop n buf) evs true) else
  match evs with
  | Data l :: evs' => read_full n (buf ++ l) evs'
  | _ => None
  end.

(** [io.ReadFull]; on an error the connection is dropped. *)
Definition ReadFull (n : nat) (c : conn) : option (text * conn) :=
  if armed c then read_full n (buffered c) (events c)
  else if Nat.leb n (length (buffered c))
       then Some (take n (buffered c), mkConn (drop n (buffered c)) (events c) false) else None.

Inductive drop_reason := HeaderStalled | ConnError | HeaderTooLong | BodyTooLong | BodyError.

Inductive header_result := Dropped (r : drop_reason) | HeaderSection (headers : list text) (contentLength : Z) (c : conn).

(** [sipMessageLimit] *)
Definition defaultMaxSIPMessageSize : Z := Z.shiftl 1 20.

Definition sipMessageLimit (maxSIPMessageSize : Z) : Z :=
  if maxSIPMessageSize <? 0 then 0 else if maxSIPMessageSize =? 0 then defaultMaxSIPMessageSize else maxSIPMessageSize.

Definition content_length (line : text) (cl : Z) : Z :=
  if HasPrefix (ToLower line) (txt "content-length:") then
    match cut_at 0x3A line with Some (_, v) => default cl (Atoi (TrimSpace v)) | None => cl end
  else cl.

(** The loop [readHeaders]; [None] is a loop that has not ended within [fuel]
    passes. *)
Fixpoint read_headers (fuel : nat) (limit : Z) (c : conn) (headers : list text) (hb cl : Z) : option header_result :=
  match fuel with
  | O => None
  | S fuel' =>
      match ReadString c with
      | inl (Timeout, c') => match headers with
                             | [] => read_headers fuel' limit c' headers hb cl
                             | _ => Some (Dropped HeaderStalled)
                             end
      | inl (EOF, _) => Some (Dropped ConnError)
      | inr (l, c') =>
          let line := TrimRightCRLF l in
          let hb := hb + Z.of_nat (length line) + 2 in
          if (0 <? limit) && (limit <? hb) then Some (Dropped HeaderTooLong) else
          match line with
          | [] => Some (HeaderSection (headers ++ [line]) cl c')
          | _ => read_headers fuel' limit c' (headers ++ [line]) hb (content_length line cl)
          end
      end
  end.

(** One pass of the outer loop, up to [Parse]: the message's text. *)
Definition read_message (fuel : nat) (limit : Z) (c : conn) : option (drop_reason + text * conn) :=
  match read_headers fuel limit (mkConn (buffered c) (events c) true) [] 0 0 with
  | None => None
  | Some (Dropped r) => Some (inl r)
  | Some (HeaderSection hs cl c1) =>
      let fullMsg := Join hs CRLF ++ CRLF in
      if 0 <? cl then
        if (0 <? limit) && (limit <? cl) then Some (inl BodyTooLong) else
        match ReadFull (Z.to_nat cl) c1 with
        | None => Some (inl BodyError)
        | Some (body, c2) => Some (inr (fullMsg ++ body, c2))
        end
      else Some (inr (fullMsg, c1))
  end.

(** The messages dispatched, and why the connection was dropped ([None]: it has
    not been within the fuel). *)
Fixpoint readSIPStream (n fuel : nat) (limit : Z) (c : conn) : list SipMessage * option drop_reason :=
  match n with
  | O => ([], None)
  | S n' =>
      match read_message fuel limit c with
      | None => ([], None)
      | Some (inl r) => ([], Some r)
      | Some (inr (fullMsg, c')) =>
          let (ms, r) := readSIPStream n' fuel limit c' in
          match Parse fullMsg with inr m => (m :: ms, r) | inl _ => (ms, r) end
      end
  end.

(** ** Well-formed messages *)

(** No line end inside. *)
Definition clean (s : text) : Prop := Forall (fun b => b <> 0x0D) s /\ Forall (fun b => b <> 0x0A) s.

Definition value_ok (v : text) : Prop := v = [] \/ (starts_ok v = true /\ starts_ok (rev v) = true /\ clean v).

(** The name of an extension header. *)
Definition name_ok (k : text) : Prop :=
  starts_ok k = true /\ starts_ok (rev k) = true /\ clean k /\ Forall (fun b => b <> 0x3A) k.

Record message_ok (m : SipMessage) : Prop := {
  ok_start : (word (Method m) /\ word (RequestURI m) /\ HasPrefix (Method m) (txt "SIP/2.0") = false /\ StatusCode m = 0) \/
             (Method m = [] /\ RequestURI m = [] /\ 0 < StatusCode m < 2 ^ 31);
  ok_values : Forall value_ok [Via m; MaxForwards m; From_ m; To_ m; CallID m; CSeq m; Contact m; Expires m;
                               WWWAuthenticate m; Authorization m; UserAgent m; ContentType m];
  ok_headers : map_Forall (fun k v => name_ok k /\ field_of k = HOther /\ value_ok v) (Headers m);
  ok_length : ContentLength m = 0 \/ ContentLength m = Z.of_nat (length (Body m));
  ok_body : Z.of_nat (length (Body m)) < 2 ^ 31;
}.

Definition via_written (via : text) : text := match via with [] => [] | _ => via_rport via end.

(** The hops a parsed message has left: 70 when the header is not written. *)
Definition forwards_read (forwards : text) : text := match forwards with [] => txt "70" | _ => forwards end.

(** What a message becomes on the wire: rport in the Via, the hops of a message without
    Max-Forwards (a response has none), the body's length. *)
Definition normal (m : SipMessage) : SipMessage :=
  m <| Via := via_written (Via m) |> <| MaxForwards := forwards_read (MaxForwards m) |>
    <| ContentLength := Z.of_nat (length (Body m)) |>.

(** ** Lemmas: the lines of a message *)

Definition standard (m : SipMessage) : list (text * text) :=
  [(txt "Via", via_written (Via m)); (txt "Max-Forwards", MaxForwards m); (txt "From", From_ m); (txt "To", To_ m);
   (txt "Call-ID", CallID m); (txt "CSeq", CSeq m); (txt "Contact", Contact m); (txt "Expires", Expires m);
   (txt "WWW-Authenticate", WWWAuthenticate m); (txt "Authorization", Authorization m);
   (txt "User-Agent", UserAgent m); (txt "Content-Type", ContentType m)].

Definition header_line (kv : text * text) : text := fst kv ++ txt ": " ++ snd kv.

Definition has_value (kv : text * text) : bool := match snd kv with [] => false | _ => true end.

Definition header_pairs (m : SipMessage) (order : list (text * text)) : list (text * text) :=
  List.filter has_value (standard m) ++ order ++
  [(txt "Content-Length", Itoa (if 0 <? ContentLength m then ContentLength m else Z.of_nat (length (Body m))))].

Lemma lines_crlf_cons s l : lines_crlf (s :: l) = s ++ CRLF ++ lines_crlf l.
Proof. unfold lines_crlf. cbn [map concat]. by rewrite <- app_assoc. Qed.

Lemma lines_crlf_app a b : lines_crlf (a ++ b) = lines_crlf a ++ lines_crlf b.
Proof. unfold lines_crlf. by rewrite map_app, concat_app. Qed.

Lemma TrimRightCRLF_clean v : clean v -> TrimRightCRLF v = v.
Proof.
  intros [H1 H2]. unfold TrimRightCRLF. assert (D : drop_while crlf_byte (rev v) = rev v).
  { apply Forall_rev in H1, H2. destruct (rev v) as [|b t]; [done|]. apply list.Forall_cons in H1 as [H1 _], H2 as [H2 _].
    cbn [drop_while]. unfold crlf_byte. by rewrite (proj2 (Z.eqb_neq _ _) H1), (proj2 (Z.eqb_neq _ _) H2). }
  rewrite D. apply rev_involutive.
Qed.

Lemma clean_app a b : clean a -> clean b -> clean (a ++ b).
Proof. intros [A1 A2] [B1 B2]. split; by apply Forall_app. Qed.

Lemma clean_lit s : forallb (fun b => negb (crlf_byte b)) s = true -> clean s.
Proof.
  intros H. rewrite forallb_forall in H.
  split; apply List.Forall_forall; intros b Hb ->; by specialize (H _ Hb).
Qed.

Lemma clean_word w : word w -> clean w.
Proof.
  intros [_ H]. split; (eapply list.Forall_impl; [exact H|]; intros b Hb ->; done).
Qed.

Lemma via_rport_clean v : clean v -> v <> [] -> via_rport v <> [] /\
  (via_rport v = v \/ via_rport v = v ++ txt ";rport").
Proof.
  intros H Hne. unfold via_rport. rewrite TrimRightCRLF_clean by done. destruct (Contains _ _); [split; [done|by left]|].
  split; [by destruct v|by right].
Qed.

Lemma via_written_ok v : value_ok v -> value_ok (via_written v) /\ (v = [] <-> via_written v = []).
Proof.
  intros [->|(H1 & H2 & H3)]; [by split; [left|]|]. destruct v as [|b v]; [done|]. unfold via_written.
  destruct (via_rport_clean (b :: v) H3 ltac:(done)) as [N [E|E]].
  - split; [rewrite E; right; done|]. by split; intros.
  - split; [|by split; intros]. rewrite E. right. split; [by apply starts_ok_app|]. split.
    + by rewrite rev_app_distr.
    + apply clean_app; [done|by apply clean_lit].
Qed.

Lemma filter_has_value k v l : List.filter has_value ((k, v) :: l) =
  match v with [] => List.filter has_value l | _ => (k, v) :: List.filter has_value l end.
Proof. by destruct v. Qed.

Lemma lines_filter l : lines_crlf (map header_line (List.filter has_value l)) = concat (map (fun kv => header (fst kv) (snd kv)) l).
Proof.
  induction l as [|[k v] l IH]; [done|]. rewrite filter_has_value. cbn [map concat snd fst].
  destruct v as [|b v]; [exact IH|]. cbn [map]. rewrite lines_crlf_cons, IH. unfold header, header_line. cbn [fst snd].
  by rewrite <- !app_assoc.
Qed.

Lemma lines_pairs l : lines_crlf (map header_line l) = concat (map (fun kv => fst kv ++ txt ": " ++ snd kv ++ CRLF) l).
Proof.
  induction l as [|[k v] l IH]; [done|]. cbn [map concat]. rewrite lines_crlf_cons, IH. unfold header_line. cbn [fst snd].
  by rewrite <- !app_assoc.
Qed.

Lemma Serialize_lines m order : value_ok (Via m) ->
  Serialize m order = lines_crlf (start_line m :: map header_line (header_pairs m order)) ++ CRLF ++ Body m.
Proof.
  intros Hv. unfold header_pairs. rewrite lines_crlf_cons, !map_app, !lines_crlf_app, lines_filter, !lines_pairs.
  unfold Serialize, standard. cbn [map concat fst snd].
  assert (V : match Via m with [] => [] | _ :: _ => txt "Via: " ++ via_rport (Via m) ++ CRLF end =
              header (txt "Via") (via_written (Via m))).
  { destruct (via_written_ok _ Hv) as [_ E]. unfold header, via_written in *. destruct (Via m) as [|b v]; [done|].
    destruct (via_rport (b :: v)); [discriminate (proj2 E eq_refl)|done]. }
  rewrite V. by rewrite <- !app_assoc, !app_nil_l.
Qed.

(** ** Lemmas: parsing the lines *)

Lemma name_line_trim k v : name_ok k -> value_ok v ->
  TrimSpace (header_line (k, v)) = k ++ 0x3A :: match v with [] => [] | _ => 0x20 :: v end.
Proof.
  intros (K1 & K2 & K3 & K4) Hv. unfold header_line. cbn [fst snd]. destruct v as [|c v].
  - rewrite app_nil_r. change (k ++ txt ": ") with (k ++ ([0x3A] ++ [0x20])). rewrite app_assoc.
    apply (TrimSpace_ends [] (k ++ [0x3A]) [0x20]); [constructor|by repeat constructor|by apply starts_ok_app|].
    by rewrite rev_app_distr.
  - destruct Hv as [Hv|(V1 & V2 & V3)]; [done|].
    replace (k ++ txt ": " ++ c :: v) with ([] ++ (k ++ 0x3A :: 0x20 :: c :: v) ++ []) at 1 by by rewrite app_nil_r.
    apply TrimSpace_ends; [constructor|constructor|by apply starts_ok_app|].
    change (0x3A :: 0x20 :: c :: v) with ([0x3A; 0x20] ++ (c :: v)). rewrite !rev_app_distr.
    rewrite <- app_assoc. by apply starts_ok_app.
Qed.

Lemma parse_header_line k v msg : name_ok k -> value_ok v ->
  parse_header (TrimSpace (header_line (k, v))) msg = set_field (field_of k) k v msg.
Proof.
  intros Hk Hv. rewrite name_line_trim by done. destruct Hk as (K1 & K2 & K3 & K4).
  unfold parse_header. rewrite cut_at_app by done. cbv zeta.
  assert (T : TrimSpace k = k) by (rewrite <- (TrimSpace_ends [] k []) at 2 by (done || constructor); by rewrite app_nil_r).
  rewrite T. f_equal. destruct v as [|c v]; [done|]. destruct Hv as [Hv|(V1 & V2 & V3)]; [done|].
  change (0x20 :: c :: v) with ([0x20] ++ c :: v). rewrite <- (TrimSpace_ends [0x20] (c :: v) []) at 2;
    [by rewrite app_nil_r|by repeat constructor|constructor|done|done].
Qed.

Definition pair_ok (kv : text * text) : Prop := name_ok (fst kv) /\ value_ok (snd kv).

Definition set_pair (msg : SipMessage) (kv : text * text) : SipMessage :=
  set_field (field_of (fst kv)) (fst kv) (snd kv) msg.

Lemma parse_lines_pairs kvs body msg : Forall pair_ok kvs -> body <> [] ->
  parse_lines (map header_line kvs ++ [] :: body) msg = (fold_left set_pair kvs msg) <| Body := Join body CRLF |>.
Proof.
  intros H Hb. revert msg. induction H as [|[k v] kvs [Hk Hv] _ IH]; intros msg.
  - cbn [map app parse_lines]. change (TrimSpace []) with (@nil Z). cbv iota. by destruct body.
  - cbn [map app parse_lines fold_left]. pose proof (name_line_trim k v Hk Hv) as E.
    pose proof (parse_header_line k v msg Hk Hv) as P. destruct (TrimSpace (header_line (k, v))) as [|b t].
    + destruct Hk as (K1 & _). by destruct k.
    + rewrite P. apply IH.
Qed.

(** The lines of a message, split where they were joined. *)
Lemma Split_CRLF_lines ls rest : Forall clean ls -> Split (lines_crlf ls ++ CRLF ++ rest) CRLF = ls ++ [] :: Split rest CRLF.
Proof.
  assert (C : forall s t, clean s -> Split (s ++ CRLF ++ t) CRLF = s :: Split t CRLF)
    by (intros s t [Hs _]; by apply (Split_cons 0x0D [0x0A])).
  induction 1 as [|s ls Hs _ IH]; [by apply (C [])|]. by rewrite lines_crlf_cons, <- !app_assoc, C, IH.
Qed.

Lemma Split_ne s sep : Split s sep <> [].
Proof. unfold Split. by destruct (split_go sep 0 s). Qed.

Lemma header_line_clean k v : name_ok k -> value_ok v -> clean (header_line (k, v)).
Proof.
  intros (_ & _ & K & _) Hv. unfold header_line. cbn [fst snd]. apply clean_app; [done|].
  apply clean_app; [by apply clean_lit|]. destruct Hv as [->|(_ & _ & ?)]; [by split|done].
Qed.

(** ** Lemmas: the start line *)

Lemma HasPrefix_blank M r p : Forall (fun b => b <> 0x20) p -> HasPrefix (M ++ 0x20 :: r) p = HasPrefix M p.
Proof.
  revert p. induction M as [|a M IH]; intros p Hp.
  - destruct Hp as [|b p Hb Hp]; [done|]. cbn [app HasPrefix]. by rewrite (proj2 (Z.eqb_neq b 0x20)).
  - destruct Hp as [|b p Hb Hp]; [done|]. cbn [app HasPrefix]. by rewrite IH.
Qed.

Lemma word_no_blank w : word w -> Forall (fun b => b <> 0x20) w.
Proof. intros [_ H]. eapply list.Forall_impl; [exact H|]. intros b Hb ->. done. Qed.

Lemma starts_ok_word w : word w -> starts_ok w = true.
Proof. intros [Hne H]. destruct H; done. Qed.

Lemma split3_words a b c : word a -> word b -> split3 (a ++ 0x20 :: b ++ 0x20 :: c) = [a; b; c].
Proof. intros Ha Hb. unfold split3. by rewrite !cut_at_app by by apply word_no_blank. Qed.

Lemma start_line_ok m msg : message_ok m -> StatusCode msg = 0 -> Method msg = [] -> RequestURI msg = [] ->
  parse_start (TrimSpace (start_line m)) msg =
  inr (msg <| Method := Method m |> <| RequestURI := RequestURI m |> <| StatusCode := StatusCode m |>) /\
  clean (start_line m).
Proof.
  intros Hm E1 E2 E3. unfold start_line. destruct (ok_start m Hm) as [(W1 & W2 & P & S)|(M & U & S)].
  - destruct (Method m) as [|b me] eqn:Em; [by destruct W1|]. rewrite <- Em in *.
    set (L := Method m ++ txt " " ++ RequestURI m ++ txt " SIP/2.0").
    assert (T : TrimSpace L = L).
    { unfold L. rewrite <- (TrimSpace_ends [] (Method m ++ _) []) at 2 by
        (constructor || (by apply starts_ok_app, starts_ok_word) || by rewrite !rev_app_distr, <- !app_assoc).
      by rewrite app_nil_r. }
    split.
    + rewrite T. unfold parse_start.
      assert (N : HasPrefix L (txt "SIP/2.0") = false) by (etrans; [apply HasPrefix_blank; by repeat constructor|exact P]).
      rewrite N. change L with (Method m ++ 0x20 :: RequestURI m ++ 0x20 :: txt "SIP/2.0").
      rewrite split3_words by done. rewrite bool_decide_eq_true_2 by done. rewrite S. destruct msg. cbn in *. by subst.
    + unfold L. repeat apply clean_app; (by apply clean_lit) || by apply clean_word.
  - rewrite M. rewrite (proj2 (Z.ltb_lt _ _)) by lia.
    pose proof (Itoa_printable (StatusCode m) ltac:(lia)) as W.
    assert (R : starts_ok (rev (statusReason (StatusCode m))) = true /\ clean (statusReason (StatusCode m))).
    { unfold statusReason. repeat (destruct (_ =? _); [split; [done|by apply clean_lit]|]). split; [done|by apply clean_lit]. }
    destruct R as [R1 R2]. set (L := txt "SIP/2.0 " ++ _).
    assert (T : TrimSpace L = L).
    { unfold L. rewrite <- (TrimSpace_ends [] (txt "SIP/2.0 " ++ _) []) at 2; [by rewrite app_nil_r|constructor|constructor|done|].
      rewrite !rev_app_distr, <- !app_assoc. by apply starts_ok_app. }
    split.
    + rewrite T. unfold parse_start. change (HasPrefix L (txt "SIP/2.0")) with true. cbv iota.
      change L with (txt "SIP/2.0" ++ 0x20 :: Itoa (StatusCode m) ++ 0x20 :: statusReason (StatusCode m)).
      rewrite split3_words by (done || by split; [|repeat constructor]). rewrite Atoi_Itoa by lia. rewrite U. destruct msg. cbn in *. by subst.
    + unfold L. repeat apply clean_app; (by apply clean_lit) || (by apply clean_word) || done.
Qed.

(** ** Lemmas: the fields *)

Lemma name_lit k : starts_ok k && starts_ok (rev k) && forallb (fun b => negb (crlf_byte b) && negb (b =? 0x3A)) k = true ->
  name_ok k.
Proof.
  rewrite !andb_true_iff. intros [[H1 H2] H3]. rewrite forallb_forall in H3.
  split; [done|]. split; [done|]. split; [split|]; apply List.Forall_forall; intros b Hb ->; by specialize (H3 _ Hb).
Qed.

Lemma set_std k f v kvs msg : field_of k = f -> set_field f k [] msg = msg ->
  fold_left set_pair (List.filter has_value ((k, v) :: kvs)) msg =
  fold_left set_pair (List.filter has_value kvs) (set_field f k v msg).
Proof.
  intros Hf H. rewrite filter_has_value. destruct v as [|b v]; [by rewrite H|].
  cbn [fold_left]. unfold set_pair at 2. cbn [fst snd]. by rewrite Hf.
Qed.

Lemma set_forwards mf kvs msg : MaxForwards msg = txt "70" ->
  fold_left set_pair (List.filter has_value ((txt "Max-Forwards", mf) :: kvs)) msg =
  fold_left set_pair (List.filter has_value kvs) (msg <| MaxForwards := forwards_read mf |>).
Proof.
  intros H. rewrite filter_has_value. destruct mf as [|b mf].
  - cbn [fold_left forwards_read]. f_equal. destruct msg. cbn in *. by subst.
  - cbn [fold_left forwards_read]. unfold set_pair at 2. cbn [fst snd].
    by replace (field_of (txt "Max-Forwards")) with HMaxForwards by (vm_compute; reflexivity).
Qed.

(** The standard fields, on a message that has none of them yet. *)
Lemma standard_fields m me sc u h :
  fold_left set_pair (List.filter has_value (standard m))
    (mkSipMessage me sc u [] [] [] [] [] [] [] (txt "70") [] 0 [] [] [] h []) =
  mkSipMessage me sc u (From_ m) (To_ m) (CallID m) (CSeq m) (Contact m) (via_written (Via m)) (Expires m)
    (forwards_read (MaxForwards m)) (ContentType m) 0 (WWWAuthenticate m) (Authorization m) (UserAgent m) h [].
Proof.
  unfold standard.
  rewrite (set_std (txt "Via") HVia) by (vm_compute; reflexivity). cbn [set_field].
  rewrite set_forwards by done.
  rewrite (set_std (txt "From") HFrom) by (vm_compute; reflexivity).
  rewrite (set_std (txt "To") HTo) by (vm_compute; reflexivity).
  rewrite (set_std (txt "Call-ID") HCallID) by (vm_compute; reflexivity).
  rewrite (set_std (txt "CSeq") HCSeq) by (vm_compute; reflexivity).
  rewrite (set_std (txt "Contact") HContact) by (vm_compute; reflexivity).
  rewrite (set_std (txt "Expires") HExpires) by (vm_compute; reflexivity).
  rewrite (set_std (txt "WWW-Authenticate") HWWWAuthenticate) by (vm_compute; reflexivity).
  rewrite (set_std (txt "Authorization") HAuthorization) by (vm_compute; reflexivity).
  rewrite (set_std (txt "User-Agent") HUserAgent) by (vm_compute; reflexivity).
  rewrite (set_std (txt "Content-Type") HContentType) by (vm_compute; reflexivity).
  reflexivity.
Qed.

Lemma extension_fields order msg : Forall (fun kv => field_of (fst kv) = HOther) order ->
  fold_left set_pair order msg = msg <| Headers := fold_left (fun h kv => <[fst kv := snd kv]> h) order (Headers msg) |>.
Proof.
  intros H. revert msg. induction H as [|[k v] order Hk _ IH]; intros msg; [by destruct msg|].
  cbn [fold_left]. rewrite IH. unfold set_pair. cbn [fst snd] in *. rewrite Hk. by destruct msg.
Qed.

Lemma order_headers (h : gmap text text) order : order ≡ₚ map_to_list h ->
  fold_left (fun h kv => <[fst kv := snd kv]> h) order ∅ = h.
Proof.
  intros P. rewrite <- (list_to_map_to_list h). rewrite <- fold_left_rev_right.
  assert (E : forall l, foldr (fun kv (h : gmap text text) => <[fst kv := snd kv]> h) ∅ l = list_to_map l)
    by (intros l; induction l as [|[k v] l IH]; [done|]; cbn; by rewrite IH).
  rewrite E. assert (P2 : rev order ≡ₚ map_to_list h) by (etrans; [symmetry; apply Permutation_rev|exact P]).
  apply list_to_map_proper; [|done]. rewrite P2. apply NoDup_fst_map_to_list.
Qed.

(** ** Lemmas: the headers of a well-formed message *)

Lemma content_length_written m : message_ok m ->
  (if 0 <? ContentLength m then ContentLength m else Z.of_nat (length (Body m))) = Z.of_nat (length (Body m)) /\
  0 <= Z.of_nat (length (Body m)) < 2 ^ 31.
Proof.
  intros Hm. split; [|split; [lia|apply ok_body, Hm]].
  destruct (ok_length m Hm) as [E|E]; rewrite E; [done|]. by destruct (Z.ltb 0 (Z.of_nat (length (Body m)))).
Qed.

Lemma header_pairs_ok m order : message_ok m -> order ≡ₚ map_to_list (Headers m) ->
  Forall pair_ok (header_pairs m order) /\ Forall (fun kv => field_of (fst kv) = HOther) order.
Proof.
  intros Hm Ho. pose proof (ok_values m Hm) as Hv. destruct (content_length_written m Hm) as [Hn Hnr].
  assert (O : Forall (fun kv => pair_ok kv /\ field_of (fst kv) = HOther) order).
  { apply List.Forall_forall. intros [k v] Hin. apply (Permutation_in _ Ho), list_elem_of_In, elem_of_map_to_list in Hin.
    by destruct (ok_headers m Hm k v Hin) as (? & ? & ?). }
  split; [|eapply list.Forall_impl; [exact O|by intros ? []]].
  unfold header_pairs. apply Forall_app. split; [|apply Forall_app; split].
  - apply List.Forall_forall. intros kv Hin. apply filter_In in Hin as [Hin _].
    assert (N : Forall pair_ok (standard m)); [|by apply (proj1 (List.Forall_forall _ _) N)].
    unfold standard. repeat (apply list.Forall_cons in Hv as [? Hv]).
    repeat (apply list.Forall_cons; split); try apply list.Forall_nil; try exact I;
      (split; [by apply name_lit|cbn [snd]; try done]).
    by apply via_written_ok.
  - eapply list.Forall_impl; [exact O|by intros ? []].
  - constructor; [|constructor]. split; [by apply name_lit|]. cbn [snd]. rewrite Hn.
    pose proof (Itoa_printable (Z.of_nat (length (Body m))) ltac:(lia)) as W. right.
    split; [by apply starts_ok_word|]. split; [by apply starts_ok_rev_word|by apply clean_word].
Qed.

Lemma pairs_clean kvs : Forall pair_ok kvs -> Forall clean (map header_line kvs).
Proof.
  intros H. apply List.Forall_forall. intros l Hin. apply in_map_iff in Hin as ([k v] & <- & Hin).
  destruct (proj1 (List.Forall_forall _ _) H _ Hin). by apply header_line_clean.
Qed.

Lemma sip_roundtrip_lemma m order : message_ok m -> order ≡ₚ map_to_list (Headers m) ->
  Parse (Serialize m order) = inr (normal m).
Proof.
  intros Hm Ho. pose proof (ok_values m Hm) as Hv.
  assert (Hvia : value_ok (Via m)) by by apply list.Forall_cons in Hv as [? _].
  destruct (content_length_written m Hm) as [Hn Hnr]. destruct (header_pairs_ok m order Hm Ho) as [Hok Hother].
  set (msg0 := empty_message <| MaxForwards := txt "70" |>).
  destruct (start_line_ok m msg0 Hm) as [Hs Hc]; [done..|].
  unfold Parse. rewrite Serialize_lines by done. rewrite Split_CRLF_lines by (constructor; [done|by apply pairs_clean]).
  cbn [app]. fold msg0. rewrite Hs. rewrite parse_lines_pairs by (done || apply Split_ne).
  rewrite Join_Split by done. f_equal. unfold header_pairs. rewrite !fold_left_app.
  change (msg0 <| Method := Method m |> <| RequestURI := RequestURI m |> <| StatusCode := StatusCode m |>)
    with (mkSipMessage (Method m) (StatusCode m) (RequestURI m) [] [] [] [] [] [] [] (txt "70") [] 0 [] [] [] ∅ []).
  rewrite standard_fields. rewrite (extension_fields order) by done.
  cbn [Headers]. rewrite (order_headers (Headers m) order Ho). rewrite Hn. cbn [fold_left]. unfold set_pair. cbn [fst snd].
  replace (field_of (txt "Content-Length")) with HContentLength by (vm_compute; reflexivity). unfold set_field.
  rewrite Atoi_Itoa by lia. unfold normal. by destruct m.
Qed.

(** ** Theorems *)

(** SIP messages survive the wire: whatever order the extension headers are
    written in, parsing what [Serialize] writes gives back the message, with
    rport in its Via, 70 hops where it names none and the body's length as
    content length; the body may be any bytes. *)
Theorem sip_roundtrip m order : message_ok m -> order ≡ₚ map_to_list (Headers m) ->
  Parse (Serialize m order) = inr (normal m).
Proof. apply sip_roundtrip_lemma. Qed.

Definition demo_register : SipMessage :=
  (BuildRegister (txt "GB28181-Device") (txt "sip:34020000002000000001@3402000000") (txt "<sip:dev@3402000000>;tag=1")
    (txt "<sip:dev@3402000000>") (txt "1@10.0.0.2") (txt "1 REGISTER") (txt "<sip:dev@10.0.0.2:5060>") [])
  <| Via := txt "SIP/2.0/UDP 10.0.0.2:5060;branch=z9hG4bK1" |>
  <| Headers := {[txt "X-GB-Ver" := txt "3.0"]} |>.

Lemma value_lit v : starts_ok v && starts_ok (rev v) && forallb (fun b => negb (crlf_byte b)) v = true -> value_ok v.
Proof. rewrite !andb_true_iff. intros [[H1 H2] H3]. right. split; [done|]. split; [done|by apply clean_lit]. Qed.

Lemma demo_register_ok : message_ok demo_register.
Proof.
  constructor; unfold demo_register, BuildRegister.
  - left. cbn. split; [by split; [|repeat constructor]|]. split; [by split; [|repeat constructor]|done].
  - cbn [Via MaxForwards From_ To_ CallID CSeq Contact Expires WWWAuthenticate Authorization UserAgent ContentType].
    repeat (apply list.Forall_cons; split); try apply list.Forall_nil; try exact I; first [by left | by apply value_lit].
  - intros k v Hk. cbn in Hk. apply lookup_singleton_Some in Hk as [<- <-].
    split; [by apply name_lit|]. split; [vm_compute; reflexivity|by apply value_lit].
  - by left.
  - done.
Qed.



Lemma sip_roundtrip_witness :
  Parse (Serialize demo_register [(txt "X-GB-Ver", txt "3.0")]) = inr (normal demo_register).
Proof.
  apply sip_roundtrip; [exact demo_register_ok|]. 
  change (Headers demo_register) with ({[txt "X-GB-Ver" := txt "3.0"]} : gmap text text).
  rewrite map_to_list_singleton. reflexivity.
Defined.

(** ** Lemmas: reading a connection *)

Lemma cut_at_spec c s : match cut_at c s with
  | Some (a, r) => s = a ++ c :: r /\ Forall (fun b => b <> c) a
  | None => Forall (fun b => b <> c) s
  end.
Proof.
  induction s as [|b s IH]; cbn [cut_at]; [constructor|]. destruct (Z.eqb_spec b c) as [->|Hb]; [by split|].
  destruct (cut_at c s) as [[a r]|]; [|by constructor]. destruct IH as [-> IH]. split; [done|by constructor].
Qed.

(** The bytes that arrive before [tail]. *)
Definition ahead (c : conn) (bytes : text) (tail : list net_event) : Prop :=
  exists chunks, events c = map Data chunks ++ tail /\ buffered c ++ concat chunks = bytes /\ armed c = true.

Lemma read_line_ahead c a r tail : ahead c (a ++ 0x0A :: r) tail -> Forall (fun b => b <> 0x0A) a ->
  exists c', ReadString c = inr (a ++ LF, c') /\ ahead c' r tail.
Proof.
  intros (chunks & E1 & E2 & E3) Ha. unfold ReadString. rewrite E3, E1. destruct c as [buf evs ar]. cbn in *. clear E1 E3 evs ar.
  revert buf E2. induction chunks as [|l chunks IH]; intros buf E2.
  - cbn [map app concat] in *. rewrite app_nil_r in E2. subst buf.
    assert (C : cut_at 0x0A (a ++ 0x0A :: r) = Some (a, r)) by by apply cut_at_app.
    exists (mkConn r tail true). split; [destruct tail as [|[]]; cbn [read_line]; by rewrite C|]. exists []. cbn. by rewrite app_nil_r.
  - cbn [map app read_line concat] in *. pose proof (cut_at_spec 0x0A buf) as C. destruct (cut_at 0x0A buf) as [[a' r']|].
    + destruct C as [-> Ha']. assert (E : Some (a', r' ++ l ++ concat chunks) = Some (a, r)).
      { rewrite <- (cut_at_app 0x0A a r) by done. rewrite <- E2, <- app_assoc. cbn [app]. symmetry. by apply cut_at_app. }
      injection E as -> <-. eexists. split; [done|]. exists (l :: chunks). done.
    + apply IH. by rewrite <- app_assoc.
Qed.

(** No line feed ahead: what comes next decides. *)
Lemma read_line_end c bytes tail : ahead c bytes tail -> Forall (fun b => b <> 0x0A) bytes ->
  ReadString c = match tail with
                 | [] => inl (EOF, mkConn [] [] true)
                 | Idle :: rest => inl (Timeout, mkConn [] rest false)
                 | Data l :: rest => read_line (bytes ++ l) rest
                 end.
Proof.
  intros (chunks & E1 & E2 & E3) Hb. unfold ReadString. rewrite E3, E1. destruct c as [buf evs ar]. cbn in *. clear E1 E3 evs ar.
  revert buf E2. induction chunks as [|l chunks IH]; intros buf E2.
  - cbn [map app concat] in *. rewrite app_nil_r in E2. subst buf.
    destruct tail as [|[l|] rest]; cbn [read_line]; by rewrite (cut_at_none 0x0A bytes) by done.
  - cbn [map app read_line concat] in *. rewrite (cut_at_none 0x0A buf).
    + apply IH. by rewrite <- app_assoc.
    + rewrite <- E2 in Hb. by apply Forall_app in Hb as [Hb _].
Qed.

Lemma read_full_ahead c a r tail : ahead c (a ++ r) tail ->
  exists c', ReadFull (length a) c = Some (a, c') /\ ahead c' r tail.
Proof.
  intros (chunks & E1 & E2 & E3). unfold ReadFull. rewrite E3, E1. destruct c as [buf evs ar]. cbn in *. clear E1 E3 evs ar.
  revert buf E2. induction chunks as [|l chunks IH]; intros buf E2.
  - cbn [map app concat] in *. rewrite app_nil_r in E2. subst buf. exists (mkConn r tail true).
    assert (F : read_full (length a) (a ++ r) tail = Some (a, mkConn r tail true)).
    { destruct tail as [|ev t]; cbn [read_full]; rewrite (proj2 (Nat.leb_le _ _)) by (rewrite length_app; lia);
        by rewrite take_app_length, drop_app_length. }
    split; [exact F|]. exists []. cbn. by rewrite app_nil_r.
  - cbn [map app read_full concat] in *. destruct (Nat.leb_spec (length a) (length buf)) as [Hl|Hl].
    + exists (mkConn (drop (length a) buf) (Data l :: map Data chunks ++ tail) true). split.
      * do 2 f_equal. rewrite <- (take_app_le buf (l ++ concat chunks)) by done. by rewrite E2, take_app_length.
      * exists (l :: chunks). split; [done|]. split; [|done]. cbn [buffered concat].
        rewrite <- drop_app_le by done. by rewrite E2, drop_app_length.
    + apply IH. by rewrite <- app_assoc.
Qed.

(** ** Lemmas: one message on a connection *)

Lemma TrimRightCRLF_line l : clean l -> TrimRightCRLF ((l ++ [0x0D]) ++ LF) = l.
Proof.
  intros H. rewrite <- (TrimRightCRLF_clean l H) at 2. unfold TrimRightCRLF. by rewrite !rev_app_distr.
Qed.

Definition header_bytes (ls : list text) : Z := Z.of_nat (length (lines_crlf ls)).

Lemma header_bytes_cons l ls : header_bytes (l :: ls) = Z.of_nat (length l) + 2 + header_bytes ls.
Proof. unfold header_bytes. rewrite lines_crlf_cons, !length_app. simpl. lia. Qed.

Lemma header_bytes_nonneg ls : 0 <= header_bytes ls.
Proof. unfold header_bytes. lia. Qed.

Lemma read_headers_section limit tail rest ls : Forall (fun l => clean l /\ l <> []) ls ->
  forall fuel c acc hb cl, ahead c (lines_crlf ls ++ CRLF ++ rest) tail -> (length ls < fuel)%nat ->
  (0 < limit -> hb + header_bytes ls + 2 <= limit) ->
  exists c', read_headers fuel limit c acc hb cl =
    Some (HeaderSection (acc ++ ls ++ [[]]) (fold_left (fun cl l => content_length l cl) ls cl) c') /\ ahead c' rest tail.
Proof.
  induction 1 as [|l ls [Hc Hne] _ IH]; intros fuel c acc hb cl Ha Hf Hl; (destruct fuel as [|fuel]; [simpl in Hf; lia|]).
  - change (lines_crlf [] ++ CRLF ++ rest) with ([0x0D] ++ 0x0A :: rest) in Ha.
    destruct (read_line_ahead c [0x0D] rest tail Ha) as (c' & E & Ha'); [by constructor|].
    exists c'. split; [|done]. cbn [read_headers]. rewrite E. change (TrimRightCRLF ([0x0D] ++ LF)) with (@nil Z).
    cbv zeta. cbn [length]. rewrite (proj2 (andb_false_iff _ _)); [done|].
    destruct (Z.ltb_spec 0 limit) as [Hp|]; [right|by left]. apply Z.ltb_ge. specialize (Hl Hp).
    change (header_bytes []) with 0 in Hl. lia.
  - rewrite lines_crlf_cons, <- !app_assoc in Ha.
    change (l ++ CRLF ++ lines_crlf ls ++ CRLF ++ rest) with (l ++ [0x0D] ++ 0x0A :: (lines_crlf ls ++ CRLF ++ rest)) in Ha.
    rewrite app_assoc in Ha. destruct (read_line_ahead c _ _ tail Ha) as (c1 & E & Ha1).
    { apply Forall_app. split; [apply Hc|by constructor]. }
    pose proof (header_bytes_cons l ls) as Hb. pose proof (header_bytes_nonneg ls).
    destruct (IH fuel c1 (acc ++ [l]) (hb + Z.of_nat (length l) + 2) (content_length l cl) Ha1) as (c' & E' & Ha').
    { simpl in Hf. lia. }
    { intros Hp. specialize (Hl Hp). lia. }
    exists c'. split; [|done]. cbn [read_headers]. rewrite E, TrimRightCRLF_line by done. cbv zeta.
    rewrite (proj2 (andb_false_iff _ _)).
    2:{ destruct (Z.ltb_spec 0 limit) as [Hp|]; [right|by left]. apply Z.ltb_ge. specialize (Hl Hp). lia. }
    destruct l as [|b l]; [done|]. rewrite E'. by rewrite <- app_assoc.
Qed.

Lemma Join_lines ls : Join (ls ++ [[]]) CRLF ++ CRLF = lines_crlf ls ++ CRLF.
Proof.
  f_equal. induction ls as [|l ls IH]; [done|]. rewrite lines_crlf_cons. cbn [app].
  destruct (ls ++ [[]]) as [|x t] eqn:E; [by destruct ls|]. change (Join (l :: x :: t) CRLF) with (l ++ CRLF ++ Join (x :: t) CRLF).
  by rewrite IH.
Qed.

Lemma content_length_line n cl : 0 <= n < 2 ^ 31 -> content_length (header_line (txt "Content-Length", Itoa n)) cl = n.
Proof.
  intros H. pose proof (Itoa_printable n ltac:(lia)) as W. unfold content_length, header_line. cbn [fst snd].
  change (txt "Content-Length" ++ txt ": " ++ Itoa n) with (txt "Content-Length" ++ 0x3A :: 0x20 :: Itoa n).
  assert (P : HasPrefix (ToLower (txt "Content-Length" ++ 0x3A :: 0x20 :: Itoa n)) (txt "content-length:") = true) by reflexivity.
  destruct (name_lit (txt "Content-Length") eq_refl) as (_ & _ & _ & Hname). rewrite P, cut_at_app by done.
  change (0x20 :: Itoa n) with ([0x20] ++ Itoa n). rewrite <- (app_nil_r (Itoa n)).
  rewrite (TrimSpace_ends [0x20] (Itoa n) []);
    [by rewrite Atoi_Itoa by lia|by repeat constructor|constructor|by apply starts_ok_word|by apply starts_ok_rev_word].
Qed.

Definition message_lines (m : SipMessage) (order : list (text * text)) : list text :=
  start_line m :: map header_line (header_pairs m order).

Lemma message_lines_ok m order : message_ok m -> order ≡ₚ map_to_list (Headers m) ->
  Forall (fun l => clean l /\ l <> []) (message_lines m order) /\
  message_lines m order = (start_line m :: map header_line (List.filter has_value (standard m) ++ order)) ++
                          [header_line (txt "Content-Length", Itoa (Z.of_nat (length (Body m))))].
Proof.
  intros Hm Ho. destruct (header_pairs_ok m order Hm Ho) as [Hok _]. destruct (content_length_written m Hm) as [Hn _].
  destruct (start_line_ok m empty_message Hm) as [_ Hc]; [done..|]. split.
  - constructor.
    + split; [done|]. unfold start_line. destruct (Method m); [|done]. by destruct (0 <? StatusCode m).
    + apply List.Forall_forall. intros l Hin. pose proof (proj1 (List.Forall_forall _ _) (pairs_clean _ Hok) l Hin). split; [done|].
      apply in_map_iff in Hin as ([k v] & <- & Hin). destruct (proj1 (List.Forall_forall _ _) Hok _ Hin) as [(K & _) _].
      unfold header_line. cbn [fst snd] in *. by destruct k.
  - unfold message_lines, header_pairs. rewrite Hn, app_assoc, map_app. done.
Qed.

(** The bounds under which a message passes: the configured limit, or none. *)
Definition fits (limit : Z) (m : SipMessage) (order : list (text * text)) : Prop :=
  0 < limit -> Z.of_nat (length (Serialize m order)) <= limit.

Lemma read_message_ok limit tail m order rest c fuel : message_ok m -> order ≡ₚ map_to_list (Headers m) ->
  fits limit m order -> (length (message_lines m order) < fuel)%nat ->
  ahead (mkConn (buffered c) (events c) true) (Serialize m order ++ rest) tail ->
  exists c', read_message fuel limit c = Some (inr (Serialize m order, c')) /\ ahead c' rest tail.
Proof.
  intros Hm Ho Hfit Hfuel Ha.
  destruct (message_lines_ok m order Hm Ho) as [Hl En]. destruct (content_length_written m Hm) as [_ Hn].
  assert (ES : Serialize m order = lines_crlf (message_lines m order) ++ CRLF ++ Body m).
  { apply Serialize_lines. pose proof (ok_values m Hm) as Hv. by apply list.Forall_cons in Hv as [? _]. }
  assert (EL : header_bytes (message_lines m order) + 2 + Z.of_nat (length (Body m)) = Z.of_nat (length (Serialize m order))).
  { rewrite ES, !length_app. unfold header_bytes. simpl. lia. }
  rewrite ES, <- !app_assoc in Ha.
  destruct (read_headers_section limit tail (Body m ++ rest) (message_lines m order) Hl fuel _ [] 0 0 Ha Hfuel) as (c1 & E1 & Ha1).
  { intros Hp. specialize (Hfit Hp). lia. }
  unfold read_message. rewrite E1. cbn [app].
  assert (EC : fold_left (fun cl l => content_length l cl) (message_lines m order) 0 = Z.of_nat (length (Body m))).
  { rewrite En, fold_left_app. cbn [fold_left]. by apply content_length_line. }
  rewrite EC, Join_lines. destruct (Z.ltb_spec 0 (Z.of_nat (length (Body m)))) as [Hp|Hp].
  - rewrite (proj2 (andb_false_iff _ _)).
    2:{ destruct (Z.ltb_spec 0 limit) as [Hp2|]; [right|by left]. apply Z.ltb_ge. specialize (Hfit Hp2).
        pose proof (header_bytes_nonneg (message_lines m order)). lia. }
    rewrite Nat2Z.id. destruct (read_full_ahead c1 _ _ _ Ha1) as (c2 & -> & Ha2). exists c2. split; [|done].
    rewrite ES. by rewrite <- app_assoc.
  - exists c1. destruct (Body m); [|simpl in Hp; lia]. rewrite ES, app_nil_r. by split.
Qed.

(** ** A connection of messages *)

Definition wire (ms : list (SipMessage * list (text * text))) : text :=
  concat (map (fun mo => Serialize (fst mo) (snd mo)) ms).

(** Messages the stream can carry: well formed, within the limit, with fewer
    lines than the fuel. *)
Definition stream_ok (fuel : nat) (limit : Z) (mo : SipMessage * list (text * text)) : Prop :=
  message_ok (fst mo) /\ snd mo ≡ₚ map_to_list (Headers (fst mo)) /\ fits limit (fst mo) (snd mo) /\
  (length (message_lines (fst mo) (snd mo)) < fuel)%nat.

Lemma stream_reads fuel limit tail ms : Forall (stream_ok fuel limit) ms -> forall c rest n,
  ahead (mkConn (buffered c) (events c) true) (wire ms ++ rest) tail ->
  exists c', ahead (mkConn (buffered c') (events c') true) rest tail /\
    readSIPStream (length ms + n) fuel limit c =
    (let (l, r) := readSIPStream n fuel limit c' in (map (fun mo => normal (fst mo)) ms ++ l, r)).
Proof.
  induction 1 as [|[m order] ms (Hm & Ho & Hfit & Hfuel) _ IH]; intros c rest n Ha.
  - exists c. split; [done|]. cbn [length plus map app]. by destruct (readSIPStream n fuel limit c).
  - unfold wire in Ha. cbn [map concat fst snd] in *. rewrite <- app_assoc in Ha.
    destruct (read_message_ok limit tail m order _ c fuel Hm Ho Hfit Hfuel Ha) as (c1 & E & Ha1).
    destruct (IH c1 rest n) as (c' & Ha' & E').
    { destruct Ha1 as (ch & A1 & A2 & A3). exists ch. done. }
    exists c'. split; [done|]. cbn [length plus readSIPStream]. rewrite E, E', (sip_roundtrip_lemma m order Hm Ho).
    by destruct (readSIPStream n fuel limit c').
Qed.

Lemma chunks_ahead chunks tail : ahead (mkConn [] (map Data chunks ++ tail) true) (concat chunks) tail.
Proof. by exists chunks. Qed.

(** A connection on which nothing arrives for a second between two messages
    is never read again: the loop keeps failing on the deadline it does not set
    anew, so that the messages before the pause are dispatched and every later
    one is lost, however long the loop runs. *)
Theorem idle_connection_deaf fuel limit ms chunks later n :
  Forall (stream_ok fuel limit) ms -> concat chunks = wire ms ->
  readSIPStream (length ms + n) fuel limit (mkConn [] (map Data chunks ++ Idle :: later) true) =
  (map (fun mo => normal (fst mo)) ms, None) /\
  forall passes, read_headers passes limit (mkConn [] (Idle :: later) true) [] 0 0 = None.
Proof.
  intros Hms Hc.
  assert (Stuck : forall f evs, read_headers f limit (mkConn [] evs false) [] 0 0 = None)
    by (induction f as [|f IH]; intros evs; [done|]; cbn [read_headers]; apply IH).
  assert (Deaf : forall f c, ahead c [] (Idle :: later) -> read_headers f limit c [] 0 0 = None).
  { intros [|f] c Ha; [done|]. cbn [read_headers]. rewrite (read_line_end _ _ _ Ha) by constructor. apply Stuck. }
  split.
  - destruct (stream_reads fuel limit (Idle :: later) ms Hms (mkConn [] (map Data chunks ++ Idle :: later) true) [] n) as (c' & Ha & E).
    { rewrite app_nil_r, <- Hc. apply chunks_ahead. }
    rewrite E. destruct n as [|n]; cbn [readSIPStream]; [by rewrite app_nil_r|].
    unfold read_message. rewrite Deaf by done. by rewrite app_nil_r.
  - intros passes. apply Deaf. by exists [].
Qed.





Lemma idle_connection_deaf_witness :
  readSIPStream 5 20 1048576 (mkConn [] [Idle; Data (Serialize demo_register [(txt "X-GB-Ver", txt "3.0")])] true) = ([], None).
Proof.
  exact (proj1 (idle_connection_deaf 20 1048576 [] [] [Data (Serialize demo_register [(txt "X-GB-Ver", txt "3.0")])] 5
                  (List.Forall_nil _) eq_refl)).
Defined.
