(* ===== verification/GoCrypto.v ===== *)
(** The hash functions of Go's standard library that the program calls:
    [crypto/md5] (RFC 1321) and [crypto/sha256] (FIPS 180-4) on lists of bytes,
    with [encoding/hex]. Words are 32-bit integers as [Z]. *)

From S2P Require Import Prelude GoStrings.
Open Scope Z_scope.

Definition add32 (a b : Z) : Z := u32 (a + b).
Definition not32 (a : Z) : Z := Z.lxor a 0xFFFFFFFF.
Definition rotl32 (x n : Z) : Z := u32 (Z.lor (Z.shiftl x n) (Z.shiftr x (32 - n))).
Definition rotr32 (x n : Z) : Z := rotl32 x (32 - n).

(** The [n] bytes of a word, least significant first. *)
Fixpoint le_bytes (n : nat) (x : Z) : list Z :=
  match n with O => [] | S m => u8 x :: le_bytes m (Z.shiftr x 8) end.

Definition of_le (l : list Z) : Z := fold_right (fun b a => b + 256 * a) 0 l.

(** Groups of [n]; the fuel is the length of the list. *)
Fixpoint groups (fuel n : nat) (l : list Z) : list (list Z) :=
  match fuel, l with
  | S f, _ :: _ => take n l :: groups f n (drop n l)
  | _, _ => []
  end.

(** The message with the bit 1, zeros and its length in bits. *)
Definition padded (len8 : list Z) (msg : list Z) : list Z :=
  msg ++ 0x80 :: repeat 0 (Z.to_nat ((55 - Z.of_nat (length msg)) mod 64)) ++ len8.

Definition word_at (ws : list Z) (i : Z) : Z := List.nth (Z.to_nat i) ws 0.

(** ** MD5 *)

Definition md5_K : list Z :=
   [0xd76aa478; 0xe8c7b756; 0x242070db; 0xc1bdceee; 0xf57c0faf; 0x4787c62a; 0xa8304613; 0xfd469501;
    0x698098d8; 0x8b44f7af; 0xffff5bb1; 0x895cd7be; 0x6b901122; 0xfd987193; 0xa679438e; 0x49b40821;
    0xf61e2562; 0xc040b340; 0x265e5a51; 0xe9b6c7aa; 0xd62f105d; 0x02441453; 0xd8a1e681; 0xe7d3fbc8;
    0x21e1cde6; 0xc33707d6; 0xf4d50d87; 0x455a14ed; 0xa9e3e905; 0xfcefa3f8; 0x676f02d9; 0x8d2a4c8a;
    0xfffa3942; 0x8771f681; 0x6d9d6122; 0xfde5380c; 0xa4beea44; 0x4bdecfa9; 0xf6bb4b60; 0xbebfbc70;
    0x289b7ec6; 0xeaa127fa; 0xd4ef3085; 0x04881d05; 0xd9d4d039; 0xe6db99e5; 0x1fa27cf8; 0xc4ac5665;
    0xf4292244; 0x432aff97; 0xab9423a7; 0xfc93a039; 0x655b59c3; 0x8f0ccc92; 0xffeff47d; 0x85845dd1;
    0x6fa87e4f; 0xfe2ce6e0; 0xa3014314; 0x4e0811a1; 0xf7537e82; 0xbd3af235; 0x2ad7d2bb; 0xeb86d391].

Definition md5_S (i : Z) : Z :=
  word_at (if i <? 16 then [7; 12; 17; 22] else if i <? 32 then [5; 9; 14; 20]
           else if i <? 48 then [4; 11; 16; 23] else [6; 10; 15; 21]) (i mod 4).

Definition md5_round (ws : list Z) (st : Z * Z * Z * Z) (i : Z) : Z * Z * Z * Z :=
  let '(a, b, c, d) := st in
  let '(f, g) := if i <? 16 then (Z.lor (Z.land b c) (Z.land (not32 b) d), i)
                 else if i <? 32 then (Z.lor (Z.land d b) (Z.land (not32 d) c), (5 * i + 1) mod 16)
                 else if i <? 48 then (Z.lxor (Z.lxor b c) d, (3 * i + 5) mod 16)
                 else (Z.lxor c (Z.lor b (not32 d)), (7 * i) mod 16) in
  let t := add32 (add32 f a) (add32 (word_at md5_K i) (word_at ws g)) in
  (d, add32 b (rotl32 t (md5_S i)), b, c).

Definition rounds64 : list Z := map Z.of_nat (seq 0 64).

Definition md5_block (st : Z * Z * Z * Z) (block : list Z) : Z * Z * Z * Z :=
  let ws := map of_le (groups 16 4 block) in
  let '(a, b, c, d) := st in
  let '(a', b', c', d') := fold_left (md5_round ws) rounds64 st in
  (add32 a a', add32 b b', add32 c c', add32 d d').

Definition md5_Sum (msg : list Z) : list Z :=
  let p := padded (le_bytes 8 (u64 (8 * Z.of_nat (length msg)))) msg in
  let '(a, b, c, d) := fold_left md5_block (groups (length p) 64 p) (0x67452301, 0xefcdab89, 0x98badcfe, 0x10325476) in
  le_bytes 4 a ++ le_bytes 4 b ++ le_bytes 4 c ++ le_bytes 4 d.

(** ** SHA-256 *)

(** The constants are the first 32 bits behind the point of the roots of the
    first primes: cube roots for the rounds, square roots for the start. *)
Definition primes (bound : nat) : list Z :=
  List.filter (fun p => forallb (fun d => negb (p mod d =? 0)) (map Z.of_nat (seq 2 (Z.to_nat p - 2)))) (map Z.of_nat (seq 2 bound)).

(** The integer cube root of a number below 2^111, bit by bit. *)
Definition cube_root (n : Z) : Z :=
  fold_left (fun r k => let c := r + 2 ^ Z.of_nat k in if c * c * c <=? n then c else r) (rev (seq 0 37)) 0.

Definition sha256_K : list Z := Eval vm_compute in map (fun p => u32 (cube_root (p * 2 ^ 96))) (primes 310).

Definition sha256_H : list Z := Eval vm_compute in map (fun p => u32 (Z.sqrt (p * 2 ^ 64))) (primes 18).

(** The schedule of 64 words, newest first while it is built. *)
Definition sha256_extend (rev_ws : list Z) : list Z :=
  let w k := List.nth k rev_ws 0 in
  let s0 := let x := w 14%nat in Z.lxor (Z.lxor (rotr32 x 7) (rotr32 x 18)) (Z.shiftr x 3) in
  let s1 := let x := w 1%nat in Z.lxor (Z.lxor (rotr32 x 17) (rotr32 x 19)) (Z.shiftr x 10) in
  add32 (add32 (w 15%nat) s0) (add32 (w 6%nat) s1) :: rev_ws.

Definition sha256_round (ws : list Z) (st : list Z) (i : Z) : list Z :=
  match st with
  | [a; b; c; d; e; f; g; h] =>
      let s1 := Z.lxor (Z.lxor (rotr32 e 6) (rotr32 e 11)) (rotr32 e 25) in
      let ch := Z.lxor (Z.land e f) (Z.land (not32 e) g) in
      let t1 := add32 (add32 h s1) (add32 ch (add32 (word_at sha256_K i) (word_at ws i))) in
      let s0 := Z.lxor (Z.lxor (rotr32 a 2) (rotr32 a 13)) (rotr32 a 22) in
      let maj := Z.lxor (Z.lxor (Z.land a b) (Z.land a c)) (Z.land b c) in
      [add32 t1 (add32 s0 maj); a; b; c; add32 d t1; e; f; g]
  | _ => st
  end.

Definition sha256_block (st : list Z) (block : list Z) : list Z :=
  let ws := rev (Nat.iter 48 sha256_extend (rev (map (fun g => of_le (rev g)) (groups 16 4 block)))) in
  map (fun p => add32 (fst p) (snd p)) (combine st (fold_left (sha256_round ws) rounds64 st)).

Definition sha256_Sum256 (msg : list Z) : list Z :=
  let p := padded (rev (le_bytes 8 (u64 (8 * Z.of_nat (length msg))))) msg in
  concat (map (fun x => rev (le_bytes 4 x)) (fold_left sha256_block (groups (length p) 64 p) sha256_H)).

(** The test vectors of RFC 1321 and FIPS 180-4, and a message of two blocks. *)
Example md5_vectors :
  hex_encode (md5_Sum []) = txt "d41d8cd98f00b204e9800998ecf8427e" /\
  hex_encode (md5_Sum (txt "abc")) = txt "900150983cd24fb0d6963f7d28e17f72" /\
  hex_encode (md5_Sum (txt "ABCDEFGHIJKLMNOPQRSTUVWXYZabcdefghijklmnopqrstuvwxyz0123456789"))
    = txt "d174ab98d277d9f5a5611c2c9f419d9f".
Proof. vm_compute. repeat split. Qed.

Example sha256_vectors :
  hex_encode (sha256_Sum256 (txt "abc")) = txt "ba7816bf8f01cfea414140de5dae2223b00361a396177a9cb410ff61f20015ad" /\
  hex_encode (sha256_Sum256 (txt "abcdbcdecdefdefgefghfghighijhijkijkljklmklmnlmnomnopnopq"))
    = txt "248d6a61d20638b8e5c026930c3e6039a33ce45964ff2167f6ecedd419db06c1".
Proof. vm_compute. repeat split. Qed.

(** ** Lemmas *)

Lemma le_bytes_ok n : forall x, bytes_ok (le_bytes n x).
Proof. induction n as [|n IH]; intros x; [apply list.Forall_nil; exact I|]. apply list.Forall_cons. split; [apply u8_range|apply IH]. Qed.

Lemma md5_Sum_ok msg : bytes_ok (md5_Sum msg).
Proof.
  unfold md5_Sum. destruct (fold_left md5_block _ _) as [[[a b] c] d].
  rewrite !bytes_ok_app. repeat split; apply le_bytes_ok.
Qed.

Lemma concat_be_ok l : bytes_ok (concat (map (fun x => rev (le_bytes 4 x)) l)).
Proof.
  induction l as [|x l IH]; [apply list.Forall_nil; exact I|]. cbn [map concat]. rewrite bytes_ok_app.
  split; [|exact IH]. apply Forall_rev, le_bytes_ok.
Qed.

Lemma sha256_Sum256_ok msg : bytes_ok (sha256_Sum256 msg).
Proof. apply concat_be_ok. Qed.

Lemma sha256_round_length ws st i : length (sha256_round ws st i) = length st.
Proof. unfold sha256_round. by repeat (destruct st as [|? st]; try done). Qed.

Lemma sha256_block_length st block : length (sha256_block st block) = length st.
Proof.
  unfold sha256_block. cbv zeta. rewrite length_map, length_combine.
  assert (H : forall idx st', length (fold_left (sha256_round (rev (Nat.iter 48 sha256_extend
    (rev (map (fun g => of_le (rev g)) (groups 16 4 block)))))) idx st') = length st').
  { intros idx. induction idx as [|i idx IH]; intros st'; [done|]. cbn [fold_left]. by rewrite IH, sha256_round_length. }
  rewrite H. lia.
Qed.

Lemma sha256_Sum256_ne msg : sha256_Sum256 msg <> [].
Proof.
  unfold sha256_Sum256. cbv zeta. set (gs := groups _ _ _).
  assert (H : forall gs st, length (fold_left sha256_block gs st) = length st).
  { intros l. induction l as [|g l IH]; intros st; [done|]. cbn [fold_left]. by rewrite IH, sha256_block_length. }
  specialize (H gs sha256_H). destruct (fold_left sha256_block gs sha256_H) as [|x l]; [done|]. done.
Qed.

Lemma hex_encode_ne l : l <> [] -> hex_encode l <> [].
Proof. by destruct l. Qed.
