(* ===== verification/Digest.v ===== *)
(** Digest authentication at the device ([device/digest.go] and [ComputeDigest]
    of [device/sip.go]): reading a challenge, computing the response and writing
    the Authorization header.

    The regular expression of [ParseChallenge] is the scanner [find_params]; it
    only looks at ASCII characters, so that it works on bytes. *)

From S2P Require Import Prelude GoStrings GoText GoCrypto.
Open Scope Z_scope.

(** ** Scanning parameters *)

(** A byte of the class of letters, digits and the underscore, and one that is
    neither a quote nor a comma. *)
Definition word_byte (b : Z) : bool :=
  is_digit b || ((0x41 <=? b) && (b <=? 0x5A)) || ((0x61 <=? b) && (b <=? 0x7A)) || (b =? 0x5F).
Definition value_byte (b : Z) : bool := negb (b =? 0x22) && negb (b =? 0x2C).

(** The longest prefix of bytes with [p], and the rest. *)
Fixpoint span (p : Z -> bool) (s : text) : text * text :=
  match s with
  | b :: rest => if p b then let (w, r) := span p rest in (b :: w, r) else ([], s)
  | [] => ([], [])
  end.

Definition drop_quote (s : text) : text :=
  match s with b :: rest => if b =? 0x22 then rest else s | [] => [] end.

(** The expression at the start of the text: a word, an equals sign, perhaps a
    quote, value bytes, perhaps a quote. Both groups and the rest. The
    greedy word cannot be shortened, since a word byte is no equals sign, and the
    quote cannot be given back, since it is no value byte. *)
Definition match_param (s : text) : option (text * text * text) :=
  match span word_byte s with
  | ((_ :: _) as k, e :: r1) =>
      if e =? 0x3D then
        match span value_byte (drop_quote r1) with
        | ((_ :: _) as v, r2) => Some (k, v, drop_quote r2)
        | _ => None
        end
      else None
  | _ => None
  end.

(** [FindAllStringSubmatch]; the length of the text is fuel enough. *)
Fixpoint find_params_go (fuel : nat) (s : text) : list (text * text) :=
  match fuel, s with
  | S f, _ :: rest => match match_param s with
                      | Some (k, v, r) => (k, v) :: find_params_go f r
                      | None => find_params_go f rest
                      end
  | _, _ => []
  end.

Definition find_params (s : text) : list (text * text) := find_params_go (length s) s.

(** ** Challenges *)

Record DigestAuth := mkDigestAuth {
  Realm : text;
  Nonce : text;
  Algorithm : text;
  Qop : text;
  Opaque_ : text;
  Stale : text;
}.

#[export] Instance eta_DigestAuth : Eta DigestAuth := fun a =>
  mkDigestAuth (Realm a) (Nonce a) (Algorithm a) (Qop a) (Opaque_ a) (Stale a).

Inductive digest_error := NotDigest | MissingParameters.

(** One match of the loop: the switch on the lower-case key. *)
Definition set_param (a : DigestAuth) (kv : text * text) : DigestAuth :=
  let key := ToLower (fst kv) in
  let value := snd kv in
  if bool_decide (key = txt "realm") then a <| Realm := value |>
  else if bool_decide (key = txt "nonce") then a <| Nonce := value |>
  else if bool_decide (key = txt "algorithm") then a <| Algorithm := value |>
  else if bool_decide (key = txt "qop") then a <| Qop := value |>
  else if bool_decide (key = txt "opaque") then a <| Opaque_ := value |>
  else if bool_decide (key = txt "stale") then a <| Stale := value |>
  else a.

Definition ParseChallenge (wwwAuthHeader : text) : digest_error + DigestAuth :=
  let h := TrimSpace wwwAuthHeader in
  if negb (HasPrefix (ToLower h) (txt "digest ")) then inl NotDigest else
  let result := fold_left set_param (find_params (TrimSpace (drop 7 h))) (mkDigestAuth [] [] [] [] [] []) in
  match Realm result, Nonce result with
  | _ :: _, _ :: _ => inr result
  | _, _ => inl MissingParameters
  end.

(** ** Responses *)

Definition ComputeDigest (algorithm : text) (inputs : list text) : text :=
  let algorithm := match algorithm with [] => txt "MD5" | _ => algorithm end in
  let data := Join inputs [0x3A] in
  let up := ToUpper algorithm in
  if bool_decide (up = txt "MD5") then hex_encode (md5_Sum data)
  else if bool_decide (up = txt "SHA-256") || bool_decide (up = txt "SHA256") then hex_encode (sha256_Sum256 data)
  else hex_encode (md5_Sum data).

Definition ComputeResponse (username realm password nonce uri method algorithm qop nc cnonce : text) : text :=
  let algorithm := match algorithm with [] => txt "MD5" | _ => algorithm end in
  let ha1 := ComputeDigest algorithm [username; realm; password] in
  let ha2 := ComputeDigest algorithm [method; uri] in
  if bool_decide (qop = txt "auth") then ComputeDigest algorithm [ha1; nonce; nc; cnonce; qop; ha2]
  else ComputeDigest algorithm [ha1; nonce; ha2].

(** [%016x] of a time, which is not negative. *)
Definition hex16 (n : Z) : text := hex_encode (rev (le_bytes 8 n)).

Definition generateCnonce (now : Z) : text := hex16 now.

Definition quote : text := [0x22].

Definition BuildAuthorizationHeader (now : Z) (authChallenge : DigestAuth) (username password uri method : text) : text :=
  let nc := txt "00000001" in
  let cnonce := generateCnonce now in
  let response := ComputeResponse username (Realm authChallenge) password (Nonce authChallenge) uri method
                    (Algorithm authChallenge) (Qop authChallenge) nc cnonce in
  txt "Digest username=" ++ quote ++ username
  ++ quote ++ txt ", realm=" ++ quote ++ Realm authChallenge
  ++ quote ++ txt ", nonce=" ++ quote ++ Nonce authChallenge
  ++ quote ++ txt ", uri=" ++ quote ++ uri
  ++ quote ++ txt ", response=" ++ quote ++ response ++ quote
  ++ match Algorithm authChallenge with [] => [] | a => txt ", algorithm=" ++ a end
  ++ match Qop authChallenge with
     | [] => []
     | q => txt ", qop=" ++ q ++ txt ", nc=" ++ nc ++ txt ", cnonce=" ++ quote ++ cnonce ++ quote
     end
  ++ match Opaque_ authChallenge with [] => [] | o => txt ", opaque=" ++ quote ++ o ++ quote end.

(** ** Lemmas: the scanner *)

Definition quotable (v : text) : Prop := v <> [] /\ Forall (fun b => value_byte b = true) v.
Definition key (k : text) : Prop := k <> [] /\ Forall (fun b => word_byte b = true) k.

(** The rest does not go on with a byte of [p]. *)
Definition ends (p : Z -> bool) (s : text) : Prop := match s with [] => True | b :: _ => p b = false end.

Lemma span_app p w r : Forall (fun b => p b = true) w -> ends p r -> span p (w ++ r) = (w, r).
Proof.
  induction 1 as [|b w Hb _ IH]; intros Hr; cbn [app].
  - destruct r as [|c r]; [done|]. cbn [span]. cbn in Hr. by rewrite Hr.
  - cbn [span]. by rewrite Hb, IH.
Qed.

Lemma span_shorter p s : let (w, r) := span p s in length s = (length w + length r)%nat.
Proof. induction s as [|b s IH]; [done|]. cbn [span]. destruct (p b); [|done]. destruct (span p s). cbn [length]. lia. Qed.

Lemma drop_quote_shorter s : (length (drop_quote s) <= length s)%nat.
Proof. destruct s as [|b s]; [done|]. cbn [drop_quote]. destruct (b =? 0x22); cbn [length]; lia. Qed.

Lemma match_param_shorter s k v r : match_param s = Some (k, v, r) -> (length r < length s)%nat.
Proof.
  unfold match_param. pose proof (span_shorter word_byte s) as L1. destruct (span word_byte s) as [[|b w] [|e r1]]; try done.
  destruct (e =? 0x3D); [|done]. pose proof (span_shorter value_byte (drop_quote r1)) as L2.
  destruct (span value_byte (drop_quote r1)) as [[|c x] r2]; [done|]. intros [= <- <- <-].
  pose proof (drop_quote_shorter r1). pose proof (drop_quote_shorter r2). cbn [length] in *. lia.
Qed.

Lemma find_params_fuel f1 : forall f2 s, (length s <= f1)%nat -> (length s <= f2)%nat ->
  find_params_go f1 s = find_params_go f2 s.
Proof.
  induction f1 as [|f1 IH]; intros [|f2] [|b s] H1 H2; cbn [length] in *; try lia; try done.
  cbn [find_params_go]. destruct (match_param (b :: s)) as [[[k v] r]|] eqn:E.
  - apply match_param_shorter in E. cbn [length] in E. f_equal. apply IH; lia.
  - apply IH; lia.
Qed.

Lemma find_params_match s k v r : match_param s = Some (k, v, r) -> find_params s = (k, v) :: find_params r.
Proof.
  intros H. pose proof (match_param_shorter _ _ _ _ H) as L. unfold find_params.
  destruct s as [|b s]; [done|]. cbn [length find_params_go]. rewrite H. f_equal. apply find_params_fuel; cbn [length] in *; lia.
Qed.

Lemma find_params_skip b s : match_param (b :: s) = None -> find_params (b :: s) = find_params s.
Proof. intros H. unfold find_params. cbn [length find_params_go]. by rewrite H. Qed.

Lemma find_params_sep b s : word_byte b = false -> find_params (b :: s) = find_params s.
Proof. intros H. apply find_params_skip. unfold match_param. cbn [span]. by rewrite H. Qed.

(** ** Lemmas: rendered parameters *)

Inductive param := Quoted (k v : text) | Bare (k v : text).

Definition pair_of (p : param) : text * text := match p with Quoted k v | Bare k v => (k, v) end.
Definition render (p : param) : text :=
  match p with Quoted k v => k ++ [0x3D] ++ quote ++ v ++ quote | Bare k v => k ++ [0x3D] ++ v end.
Definition param_ok (p : param) : Prop :=
  match p with
  | Quoted k v => key k /\ quotable v
  | Bare k v => key k /\ quotable v
  end.

Definition render_all (ps : list param) : text := Join (map render ps) (txt ", ").

Lemma quotable_head v : quotable v -> exists b r, v = b :: r /\ (b =? 0x22) = false.
Proof.
  intros [Hne Hv]. destruct v as [|b r]; [done|]. exists b, r. split; [done|]. apply list.Forall_cons in Hv as [Hb _].
  unfold value_byte in Hb. by destruct (b =? 0x22).
Qed.

(** What may follow a parameter: nothing or a comma. *)
Lemma match_render p rest : param_ok p -> match rest with [] => True | c :: _ => c = 0x2C end ->
  match_param (render p ++ rest) = Some (pair_of p, rest).
Proof.
  intros Hp Hr. assert (Hd : drop_quote rest = rest) by (destruct rest as [|c r]; [done|]; by subst c).
  assert (He : ends value_byte rest) by (destruct rest as [|c r]; [done|]; by subst c).
  destruct p as [k v|k v]; destruct Hp as [[Hk1 Hk] [Hv1 Hv]]; unfold match_param; cbn [render pair_of].
  - rewrite <- !app_assoc, span_app by done. destruct k as [|b k]; [done|]. cbn [app].
    rewrite Z.eqb_refl. cbn [quote app drop_quote]. rewrite Z.eqb_refl, span_app by done.
    by destruct v as [|c v].
  - rewrite <- !app_assoc, span_app by done. destruct k as [|b k]; [done|]. cbn [app].
    rewrite Z.eqb_refl. destruct (quotable_head v (conj Hv1 Hv)) as (c & r & -> & Hc). cbn [app drop_quote]. rewrite Hc.
    change (c :: r ++ rest) with ((c :: r) ++ rest). rewrite span_app by done. by rewrite Hd.
Qed.

Lemma find_render p rest : param_ok p -> match rest with [] => True | c :: _ => c = 0x2C end ->
  find_params (render p ++ rest) = pair_of p :: find_params rest.
Proof.
  intros Hp Hr. pose proof (match_render p rest Hp Hr) as M. destruct (pair_of p) as [k v].
  by apply find_params_match.
Qed.

Lemma find_render_all ps : Forall param_ok ps -> find_params (render_all ps) = map pair_of ps.
Proof.
  unfold render_all. induction 1 as [|p ps Hp Hps IH]; [done|]. destruct ps as [|q ps].
  - cbn [map Join]. rewrite <- (app_nil_r (render p)). by rewrite find_render.
  - cbn [map] in *. cbn [Join]. rewrite find_render by done. f_equal.
    change (txt ", ") with [0x2C; 0x20]. cbn [app]. rewrite !find_params_sep by reflexivity. exact IH.
Qed.

Lemma hex_char n : 0 <= n < 16 -> value_byte (hex_digit n) = true.
Proof.
  intros H. unfold value_byte, hex_digit. destruct (Z.ltb_spec n 10);
    rewrite !(proj2 (Z.eqb_neq _ _)) by lia; reflexivity.
Qed.

Lemma hex_values l : bytes_ok l -> Forall (fun b => value_byte b = true) (hex_encode l).
Proof.
  induction 1 as [|b l Hb _ IH]; [apply list.Forall_nil; exact I|]. cbn [hex_encode].
  assert (0 <= Z.shiftr b 4 < 16) by (rewrite Z.shiftr_div_pow2 by lia; unfold is_byte in Hb; Z.to_euclidean_division_equations; lia).
  pose proof (land_ones_range b 4 ltac:(lia)) as L. change (Z.ones 4) with 15 in L. change (2 ^ 4) with 16 in L.
  apply list.Forall_cons. split; [by apply hex_char|]. apply list.Forall_cons. split; [by apply hex_char|exact IH].
Qed.

(** A text between two printable bytes is its own trimmed form. *)
Lemma TrimSpace_printable_ends s : starts_ok s = true -> starts_ok (rev s) = true -> TrimSpace s = s.
Proof.
  intros H1 H2. pose proof (TrimSpace_ends [] s []) as T. cbn [app] in T. rewrite app_nil_r in T.
  apply T; by try apply list.Forall_nil.
Qed.

Lemma find_params_word w s : key w -> find_params (w ++ 0x20 :: s) = find_params s.
Proof.
  intros [_ Hw]. induction Hw as [|b w Hb Hw IH]; cbn [app]; [by apply find_params_sep|].
  rewrite find_params_skip; [exact IH|]. unfold match_param.
  change (b :: w ++ 0x20 :: s) with ((b :: w) ++ 0x20 :: s).
  rewrite span_app by (done || by apply list.Forall_cons). reflexivity.
Qed.

(** ** Lemmas: the Authorization header as parameters *)

Definition response_to (now : Z) (a : DigestAuth) (username password uri method : text) : text :=
  ComputeResponse username (Realm a) password (Nonce a) uri method (Algorithm a) (Qop a) (txt "00000001") (generateCnonce now).

Definition authorization_params (now : Z) (a : DigestAuth) (username password uri method : text) : list param :=
  [Quoted (txt "username") username; Quoted (txt "realm") (Realm a); Quoted (txt "nonce") (Nonce a);
   Quoted (txt "uri") uri; Quoted (txt "response") (response_to now a username password uri method)]
  ++ match Algorithm a with [] => [] | x => [Bare (txt "algorithm") x] end
  ++ match Qop a with
     | [] => []
     | q => [Bare (txt "qop") q; Bare (txt "nc") (txt "00000001"); Quoted (txt "cnonce") (generateCnonce now)]
     end
  ++ match Opaque_ a with [] => [] | o => [Quoted (txt "opaque") o] end.

Lemma BuildAuthorizationHeader_params now a username password uri method :
  BuildAuthorizationHeader now a username password uri method
  = txt "Digest " ++ render_all (authorization_params now a username password uri method).
Proof.
  unfold BuildAuthorizationHeader, authorization_params, render_all. cbv zeta.
  change (ComputeResponse _ _ _ _ _ _ _ _ _ _) with (response_to now a username password uri method).
  destruct (Algorithm a) as [|x al]; [|set (al' := x :: al)];
    (destruct (Qop a) as [|q qop]; [|set (qop' := q :: qop)]);
    (destruct (Opaque_ a) as [|o op]; [|set (op' := o :: op)]);
    cbn [app map]; cbn [Join render]; rewrite <- ?app_assoc; rewrite ?app_nil_r; reflexivity.
Qed.

Lemma response_quotable now a username password uri method : quotable (response_to now a username password uri method).
Proof.
  assert (H : forall alg l, quotable (ComputeDigest alg l)).
  { intros alg l. unfold ComputeDigest. cbv zeta. set (d := Join l _).
    assert (M : quotable (hex_encode (md5_Sum d))).
    { split; [|apply hex_values, md5_Sum_ok]. unfold md5_Sum. destruct (fold_left md5_block _ _) as [[[x y] z] w]. done. }
    destruct (bool_decide _); [exact M|]. destruct (_ || _); [|exact M].
    split; [|apply hex_values, sha256_Sum256_ok]. apply hex_encode_ne, sha256_Sum256_ne. }
  unfold response_to, ComputeResponse. cbv zeta. destruct (bool_decide _); apply H.
Qed.

Definition optional (v : text) : Prop := v = [] \/ quotable v.

Lemma key_lit s : negb (bool_decide (s = [])) && forallb word_byte s = true -> key s.
Proof.
  rewrite andb_true_iff, negb_true_iff, bool_decide_eq_false, forallb_forall. intros [H1 H2]. split; [done|].
  apply List.Forall_forall. exact H2.
Qed.

Lemma quotable_lit s : negb (bool_decide (s = [])) && forallb value_byte s = true -> quotable s.
Proof.
  rewrite andb_true_iff, negb_true_iff, bool_decide_eq_false, forallb_forall. intros [H1 H2]. split; [done|].
  apply List.Forall_forall. exact H2.
Qed.

Lemma hex16_quotable n : quotable (hex16 n).
Proof. split; [done|]. apply hex_values. apply Forall_rev, le_bytes_ok. Qed.

Lemma authorization_params_ok now a username password uri method :
  quotable username -> quotable (Realm a) -> quotable (Nonce a) -> quotable uri ->
  optional (Algorithm a) -> optional (Qop a) -> optional (Opaque_ a) ->
  Forall param_ok (authorization_params now a username password uri method).
Proof.
  intros Hu Hr Hn Huri Ha Hq Ho. unfold authorization_params.
  apply Forall_app_2; [|apply Forall_app_2; [|apply Forall_app_2]].
  - repeat (apply list.Forall_cons; split); [..|by apply list.Forall_nil]; (split; [by apply key_lit|]); try done.
    apply response_quotable.
  - destruct Ha as [->|Ha]; [by apply list.Forall_nil|]. destruct (Algorithm a); [by apply list.Forall_nil|].
    apply list.Forall_cons. split; [|by apply list.Forall_nil]. split; [by apply key_lit|done].
  - destruct Hq as [->|Hq]; [by apply list.Forall_nil|]. destruct (Qop a); [by apply list.Forall_nil|].
    repeat (apply list.Forall_cons; split); [..|by apply list.Forall_nil]; (split; [by apply key_lit|]);
      [done|by apply quotable_lit|apply hex16_quotable].
  - destruct Ho as [->|Ho]; [by apply list.Forall_nil|]. destruct (Opaque_ a); [by apply list.Forall_nil|].
    apply list.Forall_cons. split; [|by apply list.Forall_nil]. split; [by apply key_lit|done].
Qed.

Lemma authorization_scanned now a username password uri method :
  Forall param_ok (authorization_params now a username password uri method) ->
  find_params (BuildAuthorizationHeader now a username password uri method)
  = map pair_of (authorization_params now a username password uri method).
Proof.
  intros H. rewrite BuildAuthorizationHeader_params. change (txt "Digest ") with (txt "Digest" ++ [0x20]).
  rewrite <- app_assoc. cbn [app]. rewrite find_params_word by (by apply key_lit). by apply find_render_all.
Qed.

(** A challenge is read as its parameters, in whatever order they stand. *)
Lemma ParseChallenge_render ps : Forall param_ok ps -> starts_ok (render_all ps) = true -> starts_ok (rev (render_all ps)) = true ->
  ParseChallenge (txt "Digest " ++ render_all ps) =
  let r := fold_left set_param (map pair_of ps) (mkDigestAuth [] [] [] [] [] []) in
  match Realm r, Nonce r with _ :: _, _ :: _ => inr r | _, _ => inl MissingParameters end.
Proof.
  intros Hps H1 H2. unfold ParseChallenge. rewrite TrimSpace_printable_ends.
  - change (ToLower (txt "Digest " ++ render_all ps)) with (txt "digest " ++ ToLower (render_all ps)).
    rewrite HasPrefix_app. cbn [negb]. change (drop 7 (txt "Digest " ++ render_all ps)) with (render_all ps).
    rewrite TrimSpace_printable_ends by done. by rewrite find_render_all.
  - done.
  - rewrite rev_app_distr. destruct (rev (render_all ps)) as [|c t]; [done|]. exact H2.
Qed.

(** ** Theorems *)

(** The Authorization header that the device writes for a challenge reads
    back, parameter by parameter, as its user name, the realm and nonce of the
    challenge, the URI, the response to the challenge and the challenge's
    algorithm, qop (with nonce count and client nonce) and opaque value. *)
Theorem authorization_read_back now a username password uri method :
  quotable username -> quotable (Realm a) -> quotable (Nonce a) -> quotable uri ->
  optional (Algorithm a) -> optional (Qop a) -> optional (Opaque_ a) ->
  find_params (BuildAuthorizationHeader now a username password uri method) =
  [(txt "username", username); (txt "realm", Realm a); (txt "nonce", Nonce a); (txt "uri", uri);
   (txt "response", ComputeResponse username (Realm a) password (Nonce a) uri method (Algorithm a) (Qop a)
                      (txt "00000001") (generateCnonce now))]
  ++ (if bool_decide (Algorithm a = []) then [] else [(txt "algorithm", Algorithm a)])
  ++ (if bool_decide (Qop a = []) then [] else [(txt "qop", Qop a); (txt "nc", txt "00000001"); (txt "cnonce", generateCnonce now)])
  ++ (if bool_decide (Opaque_ a = []) then [] else [(txt "opaque", Opaque_ a)]).
Proof.
  intros. rewrite authorization_scanned by (by apply authorization_params_ok). unfold authorization_params, response_to.
  rewrite !map_app. destruct (Algorithm a), (Qop a), (Opaque_ a); reflexivity.
Qed.

(** The example of RFC 2617, section 3.5. *)
Example rfc2617_response :
  ComputeResponse (txt "Mufasa") (txt "testrealm@host.com") (txt "Circle Of Life")
    (txt "dcd98b7102dd2f0e8b11d0f600bfb0c093") (txt "/dir/index.html") (txt "GET") [] (txt "auth")
    (txt "00000001") (txt "0a4f113b") = txt "6629fae49393a05397450978507c4ef1".
Proof. vm_compute. reflexivity. Qed.

(** A comma inside the quotes ends the value. *)
Example realm_cut_at_comma :
  ParseChallenge (txt "Digest realm=" ++ quote ++ txt "Acme, Inc" ++ quote ++ txt ", nonce=" ++ quote ++ txt "n1" ++ quote)
  = inr (mkDigestAuth (txt "Acme") (txt "n1") [] [] [] []).
Proof. vm_compute. reflexivity. Qed.

Lemma authorization_read_back_witness :
  find_params (BuildAuthorizationHeader 1700000000000000000 (mkDigestAuth (txt "3402000000") (txt "af01") (txt "SHA-256") (txt "auth") [] [])
                 (txt "34020000001320000001") (txt "pw") (txt "sip:3402000000") (txt "REGISTER"))
  !! 5%nat = Some (txt "algorithm", txt "SHA-256").
Proof.
  rewrite (authorization_read_back 1700000000000000000 (mkDigestAuth (txt "3402000000") (txt "af01") (txt "SHA-256") (txt "auth") [] [])
             (txt "34020000001320000001") (txt "pw") (txt "sip:3402000000") (txt "REGISTER")); try (by apply quotable_lit); try (by right; apply quotable_lit).
  - reflexivity.
  - by left.
Defined.
