(* ===== verification/SecHeaders.v ===== *)
(** The headers of GB35114 registration ([security35114/headers.go]): the scanner
    of their parameters, the four builders and parsers, and the Note header
    ([security35114/integrity.go], [ParseNoteHeader]).

    The regular expression of [parseParams] is the scanner [scan_params]; it only
    looks at ASCII characters, so that it works on bytes. *)

From S2P Require Import Prelude GoStrings GoText GoBase64 GoCrypto Digest.
Open Scope Z_scope.

(** ** Modes *)

(** [Mode] is a string type of Go; the empty one stands for none. *)
Definition Mode : Type := text.
Definition ModeUnidirection : Mode := txt "Unidirection".
Definition ModeBidirection : Mode := txt "Bidirection".

Definition CapabilityAlgorithm : text := txt "A:SM2;H:SM3;S:SM4/OFB/PKCS5;SI:SM3-SM2".

(** ** Parameters *)

Definition not_quote (b : Z) : bool := negb (b =? 0x22).

(** The expression at the start of the text: a word and an equals sign, then a
    quoted value, or a value without quotes and commas. Both groups and the rest. *)
Definition match_either (s : text) : option (text * text * text) :=
  match span word_byte s with
  | ((_ :: _) as k, e :: q :: r) =>
      if e =? 0x3D then
        if q =? 0x22 then match span not_quote r with (v, _ :: rest) => Some (k, v, rest) | _ => None end
        else match span value_byte (q :: r) with ((_ :: _) as v, rest) => Some (k, v, rest) | _ => None end
      else None
  | _ => None
  end.

(** [FindAllStringSubmatch]; the length of the text is fuel enough. *)
Fixpoint scan_go (fuel : nat) (s : text) : list (text * text) :=
  match fuel, s with
  | S f, _ :: rest => match match_either s with
                      | Some (k, v, r) => (k, v) :: scan_go f r
                      | None => scan_go f rest
                      end
  | _, _ => []
  end.

Definition scan_params (s : text) : list (text * text) := scan_go (length s) s.

Definition parseParams (s : text) : gmap text text :=
  fold_left (fun m kv => <[ToLower (fst kv) := snd kv]> m) (scan_params s) ∅.

(** [params[name]]; an absent parameter reads as the empty string. *)
Definition value (name : string) (m : gmap text text) : text := default [] (m !! txt name).

Definition splitScheme (header : text) : text * text :=
  let h := TrimSpace header in
  match cut_at 0x20 h with Some (scheme, rest) => (scheme, TrimSpace rest) | None => (h, []) end.

(** ** Headers *)

Record Challenge := mkChallenge { ch_Mode : Mode; ch_Algorithm : text; ch_Random1 : text }.

Record SecurityInfo := mkSecurityInfo {
  si_Mode : Mode;
  si_Algorithm : text;
  si_Random1 : text;
  si_Random2 : text;
  si_DeviceID : text;
  si_ServerID : text;
  si_CryptKey : text;
  si_Sign2 : text;
  si_VKEKVer : Z;
}.

Record CapabilityAnnouncement := mkAnnouncement { ann_Algorithm : text; ann_KeyVersion : text; ann_DeviceCertPEM : list Z }.

Record AuthAuthorization := mkAuthAuthorization {
  aa_Mode : Mode;
  aa_Random1 : text;
  aa_Random2 : text;
  aa_ServerID : text;
  aa_DeviceID : text;
  aa_Sign1 : text;
  aa_Algorithm : text;
}.

Inductive header_error := WrongScheme | MissingField | NotBase64 | BadVKEKVer.

(** A parameter with its name in front: [sep name="value"]. *)
Definition field (sep name : string) (v : text) : text := txt sep ++ txt name ++ [0x3D] ++ quote ++ v ++ quote.

Definition BuildCapabilityAuthorization (keyVersion : text) (certPEM : list Z) : text :=
  txt "Capability" ++ field " " "algorithm" CapabilityAlgorithm ++ field ", " "keyversion" keyVersion
  ++ match certPEM with [] => [] | _ => field ", " "cnonce" (txt "devicecert:" ++ EncodeToString certPEM) end.

Definition BuildChallenge (mode : Mode) (random1 : text) : text :=
  mode ++ field " " "algorithm" (txt "A:SM2;H:SM3") ++ field ", " "random1" random1.

Definition ParseCapabilityAuthorization (authorization : text) : header_error + CapabilityAnnouncement :=
  let (scheme, rest) := splitScheme authorization in
  if negb (bool_decide (scheme = txt "Capability")) then inl WrongScheme else
  let params := parseParams rest in
  match value "algorithm" params with
  | [] => inl MissingField
  | alg =>
      let cnonce := value "cnonce" params in
      if HasPrefix cnonce (txt "devicecert:") then
        match DecodeString (TrimPrefix cnonce (txt "devicecert:")) with
        | None => inl NotBase64
        | Some der => inr (mkAnnouncement alg (value "keyversion" params) der)
        end
      else inr (mkAnnouncement alg (value "keyversion" params) [])
  end.

(** The scheme of a header as a mode. *)
Definition mode_of (scheme : text) : option Mode :=
  if bool_decide (scheme = txt "Unidirection") then Some ModeUnidirection
  else if bool_decide (scheme = txt "Bidirection") then Some ModeBidirection else None.

Definition ParseChallenge (wwwAuthenticate : text) : header_error + Challenge :=
  let (scheme, rest) := splitScheme wwwAuthenticate in
  match mode_of scheme with
  | None => inl WrongScheme
  | Some mode =>
      let params := parseParams rest in
      match value "random1" params with
      | [] => inl MissingField
      | r => inr (mkChallenge mode (value "algorithm" params) r)
      end
  end.

Definition BuildAuthAuthorization (ch : Challenge) (random2 serverID deviceID sign1 : text) : text :=
  let mode := match ch_Mode ch with [] => ModeUnidirection | m => m end in
  mode ++ field " " "random1" (ch_Random1 ch) ++ field ", " "random2" random2 ++ field ", " "serverid" serverID
  ++ (if bool_decide (mode = ModeBidirection) then field ", " "deviceid" deviceID else [])
  ++ field ", " "sign1" sign1 ++ field ", " "algorithm" CapabilityAlgorithm.

Definition is_empty (s : text) : bool := match s with [] => true | _ => false end.

Definition ParseAuthAuthorization (authorization : text) : header_error + AuthAuthorization :=
  let (scheme, rest) := splitScheme authorization in
  match mode_of scheme with
  | None => inl WrongScheme
  | Some mode =>
      let params := parseParams rest in
      let aa := mkAuthAuthorization mode (value "random1" params) (value "random2" params) (value "serverid" params)
                  (value "deviceid" params) (value "sign1" params) (value "algorithm" params) in
      if is_empty (aa_Random1 aa) || is_empty (aa_Random2 aa) || is_empty (aa_ServerID aa) || is_empty (aa_Sign1 aa) then inl MissingField
      else if bool_decide (mode = ModeBidirection) && is_empty (aa_DeviceID aa) then inl MissingField
      else inr aa
  end.

Definition parse_vkekver (v : text) : option Z :=
  match v with
  | [] => Some 0
  | _ => match Atoi v with Some n => if n <? 0 then None else Some n | None => None end
  end.

Definition ParseSecurityInfo (header : text) : header_error + SecurityInfo :=
  let (scheme, rest) := splitScheme header in
  match mode_of scheme with
  | None => inl WrongScheme
  | Some mode =>
      let params := parseParams rest in
      match parse_vkekver (value "vkekver" params) with
      | None => inl BadVKEKVer
      | Some ver =>
          let si := mkSecurityInfo mode (value "algorithm" params) (value "random1" params) (value "random2" params)
                      (value "deviceid" params) (value "serverid" params) (value "cryptkey" params) (value "sign2" params) ver in
          if is_empty (si_CryptKey si) then inl MissingField
          else if bool_decide (mode = ModeBidirection) &&
                  (is_empty (si_Random1 si) || is_empty (si_Random2 si) || is_empty (si_DeviceID si) || is_empty (si_ServerID si)
                   || is_empty (si_Sign2 si)) then inl MissingField
          else inr si
      end
  end.

Definition securityInfoVKEKVer (ver : Z) : text := if ver <=? 0 then [] else field ", " "vkekver" (Itoa ver).

Definition BuildSecurityInfo (si : SecurityInfo) : text :=
  if bool_decide (si_Mode si = ModeUnidirection) then
    txt "Unidirection" ++ field " " "cryptkey" (si_CryptKey si) ++ field ", " "algorithm" (si_Algorithm si)
    ++ securityInfoVKEKVer (si_VKEKVer si)
  else
    txt "Bidirection" ++ field " " "algorithm" (si_Algorithm si) ++ field "," "random1" (si_Random1 si)
    ++ field "," "random2" (si_Random2 si) ++ field "," "deviceid" (si_DeviceID si) ++ field "," "serverid" (si_ServerID si)
    ++ field "," "cryptkey" (si_CryptKey si) ++ field "," "sign2" (si_Sign2 si) ++ securityInfoVKEKVer (si_VKEKVer si).

(** [ParseNoteHeader]: nonce and algorithm. *)
Definition ParseNoteHeader (note : text) : header_error + text * text :=
  let (scheme, rest) := splitScheme note in
  if negb (bool_decide (scheme = txt "Digest")) then inl WrongScheme else
  let params := parseParams rest in
  let nonce := value "nonce" params in
  let algorithm := value "algorithm" params in
  if is_empty nonce || is_empty algorithm then inl MissingField else inr (nonce, algorithm).

(** ** Lemmas: the scanner *)

(** A value that may be quoted: it has no quotation mark. *)
Definition plain (v : text) : Prop := Forall (fun b => not_quote b = true) v.

Definition fields (l : list (string * string * text)) : text := concat (map (fun f => field f.1.1 f.1.2 f.2) l).

Definition field_ok (f : string * string * text) : Prop :=
  forallb (fun b => negb (word_byte b)) (txt f.1.1) = true /\ key (txt f.1.2) /\ plain f.2.

Lemma match_either_shorter s k v r : match_either s = Some (k, v, r) -> (length r < length s)%nat.
Proof.
  unfold match_either. pose proof (span_shorter word_byte s) as L1. destruct (span word_byte s) as [[|b w] [|e [|q r1]]]; try done.
  destruct (e =? 0x3D); [|done]. destruct (q =? 0x22).
  - pose proof (span_shorter not_quote r1) as L2. destruct (span not_quote r1) as [v' [|c rest]]; [done|].
    intros [= <- <- <-]. cbn [length] in *. lia.
  - pose proof (span_shorter value_byte (q :: r1)) as L2. destruct (span value_byte (q :: r1)) as [[|c v'] rest]; [done|].
    intros [= <- <- <-]. cbn [length] in *. lia.
Qed.

Lemma scan_fuel f1 : forall f2 s, (length s <= f1)%nat -> (length s <= f2)%nat -> scan_go f1 s = scan_go f2 s.
Proof.
  induction f1 as [|f1 IH]; intros [|f2] [|b s] H1 H2; cbn [length] in *; try lia; try done.
  cbn [scan_go]. destruct (match_either (b :: s)) as [[[k v] r]|] eqn:E; [|apply IH; lia].
  apply match_either_shorter in E. cbn [length] in E. f_equal. apply IH; lia.
Qed.

Lemma scan_match s k v r : match_either s = Some (k, v, r) -> scan_params s = (k, v) :: scan_params r.
Proof.
  intros H. pose proof (match_either_shorter _ _ _ _ H) as L. unfold scan_params. destruct s as [|b s]; [done|].
  cbn [length scan_go]. rewrite H. f_equal. apply scan_fuel; cbn [length] in *; lia.
Qed.

Lemma scan_sep sep s : forallb (fun b => negb (word_byte b)) sep = true -> scan_params (sep ++ s) = scan_params s.
Proof.
  induction sep as [|b sep IH]; [done|]. cbn [forallb app]. rewrite andb_true_iff, negb_true_iff. intros [Hb H].
  rewrite <- IH by done. unfold scan_params at 1. cbn [length scan_go]. unfold match_either. cbn [span]. by rewrite Hb.
Qed.

Lemma scan_name k v rest : key k -> plain v -> scan_params (k ++ [0x3D] ++ quote ++ v ++ quote ++ rest) = (k, v) :: scan_params rest.
Proof.
  intros [Hk1 Hk] Hv. apply scan_match. unfold match_either. rewrite span_app by done. destruct k as [|b k]; [done|].
  cbn [app quote]. rewrite !Z.eqb_refl. by rewrite span_app.
Qed.

Lemma scan_fields l rest : Forall field_ok l -> scan_params (fields l ++ rest) = map (fun f => (txt f.1.2, f.2)) l ++ scan_params rest.
Proof.
  unfold fields. induction 1 as [|[[sep name] v] l (H1 & H2 & H3) _ IH]; [done|]. cbn [map concat fst snd app] in *.
  unfold field at 1. rewrite <- !app_assoc, scan_sep, scan_name by done. by rewrite IH.
Qed.

(** ** Lemmas: headers *)

(** The last value of a parameter. *)
Definition last_value (k : text) (l : list (text * text)) : text :=
  fold_left (fun acc kv => if bool_decide (ToLower (fst kv) = k) then snd kv else acc) l [].

Lemma value_params name l : value name (fold_left (fun m kv => <[ToLower (fst kv) := snd kv]> m) l ∅) = last_value (txt name) l.
Proof.
  unfold value, last_value. enough (G : forall (m : gmap text text) acc, default [] (m !! txt name) = acc ->
    default [] (fold_left (fun m kv => <[ToLower (fst kv) := snd kv]> m) l m !! txt name) =
    fold_left (fun acc kv => if bool_decide (ToLower (fst kv) = txt name) then snd kv else acc) l acc) by (by apply G; rewrite lookup_empty).
  induction l as [|[k v] l IH]; intros m acc H; [done|]. cbn [fold_left fst snd]. apply IH.
  case_bool_decide as E; [rewrite E, lookup_insert_eq; done|by rewrite lookup_insert_ne].
Qed.

Lemma word_printable w : Forall (fun b => word_byte b = true) w -> Forall (fun b => printable b = true) w.
Proof. apply Forall_impl. intros b. unfold word_byte, is_digit, printable. lia. Qed.

Lemma word_starts w s : key w -> starts_ok (w ++ s) = true.
Proof.
  intros [Hne Hw]. apply starts_ok_app. apply word_printable in Hw. destruct w; [done|]. by apply list.Forall_cons in Hw as [? _].
Qed.

Lemma fields_end pre l tail : starts_ok (rev tail) = true \/ tail = [] -> starts_ok (rev (pre ++ quote ++ fields l ++ tail)) = true.
Proof.
  intros Ht. rewrite rev_app_distr. apply starts_ok_app. destruct Ht as [Ht| ->]; [by rewrite app_assoc, rev_app_distr; apply starts_ok_app|].
  rewrite app_nil_r. induction l as [|[[sep n] v] l IH] using rev_ind; [done|]. unfold fields. rewrite map_app, concat_app. cbn [map concat fst snd].
  unfold field. rewrite app_nil_r, !app_assoc, rev_app_distr. done.
Qed.

(** A header in its parts. *)
Lemma header_parts scheme name v l tail : scheme ++ fields ((" ", name, v) :: l)%string ++ tail =
  scheme ++ 0x20 :: txt name ++ [0x3D] ++ quote ++ v ++ quote ++ fields l ++ tail.
Proof. unfold fields. cbn [map concat fst snd]. unfold field. rewrite <- !app_assoc. done. Qed.

Lemma header_trimmed scheme name v l tail : key scheme -> starts_ok (rev tail) = true \/ tail = [] ->
  TrimSpace (scheme ++ fields ((" ", name, v) :: l)%string ++ tail) = scheme ++ fields ((" ", name, v) :: l)%string ++ tail.
Proof.
  intros Hs Ht. apply TrimSpace_printable_ends; [by apply word_starts|]. rewrite header_parts.
  replace (scheme ++ 0x20 :: txt name ++ [0x3D] ++ quote ++ v ++ quote ++ fields l ++ tail)
    with ((scheme ++ 0x20 :: txt name ++ [0x3D] ++ quote ++ v) ++ quote ++ fields l ++ tail) by by rewrite <- !app_assoc, <- app_comm_cons, <- !app_assoc.
  by apply fields_end.
Qed.

Lemma splitScheme_fields scheme name v l tail : key scheme -> key (txt name) -> starts_ok (rev tail) = true \/ tail = [] ->
  splitScheme (scheme ++ fields ((" ", name, v) :: l)%string ++ tail)
  = (scheme, txt name ++ [0x3D] ++ quote ++ v ++ quote ++ fields l ++ tail).
Proof.
  intros Hs Hn Ht. unfold splitScheme. rewrite header_trimmed, header_parts by done.
  rewrite cut_at_app by (destruct Hs as [_ Hs]; apply word_printable in Hs; eapply Forall_impl; [|exact Hs]; cbn; by intros b Hb ->).
  rewrite TrimSpace_printable_ends; [done|by apply word_starts|].
  replace (txt name ++ [0x3D] ++ quote ++ v ++ quote ++ fields l ++ tail)
    with ((txt name ++ [0x3D] ++ quote ++ v) ++ quote ++ fields l ++ tail) by by rewrite <- !app_assoc.
  by apply fields_end.
Qed.

(** A header of fields is read back. *)
Lemma header_read scheme name v l tail : key scheme -> key (txt name) -> plain v -> Forall field_ok l ->
  starts_ok (rev tail) = true \/ tail = [] ->
  exists rest, splitScheme (scheme ++ fields ((" ", name, v) :: l)%string ++ tail) = (scheme, rest) /\
    forall n, value n (parseParams rest) = last_value (txt n) ((txt name, v) :: map (fun f => (txt f.1.2, f.2)) l ++ scan_params tail).
Proof.
  intros Hs Hn Hv Hl Ht. eexists. split; [by apply splitScheme_fields|]. intros n. unfold parseParams.
  rewrite scan_name, scan_fields by done. apply value_params.
Qed.

(** Decide the equalities between closed names. *)
Ltac eval_names :=
  repeat match goal with
  | |- context [bool_decide (ToLower ?a = ?b)] =>
      let r := eval vm_compute in (bool_decide (ToLower a = b)) in change (bool_decide (ToLower a = b)) with r
  end.

Ltac read_values := unfold last_value; change (scan_params []) with (@nil (text * text)); cbn [fold_left fst snd map app]; eval_names; cbv iota.

Lemma plain_lit s : forallb not_quote s = true -> plain s.
Proof. rewrite forallb_forall. intros H. by apply List.Forall_forall. Qed.

Lemma plain_b64 l : bytes_ok l -> plain (EncodeToString l).
Proof.
  intros H. eapply Forall_impl; [|by apply encode_bytes]. intros b. unfold b64_byte, not_quote. lia.
Qed.

Lemma plain_app a b : plain a -> plain b -> plain (a ++ b).
Proof. apply Forall_app_2. Qed.

Lemma plain_Itoa n : 0 <= n < 2 ^ 63 -> plain (Itoa n).
Proof.
  intros H. rewrite Itoa_nonneg by lia. destruct (dec_spec n ltac:(lia)) as (D & _). eapply Forall_impl; [|exact D].
  intros b. unfold is_digit, not_quote. lia.
Qed.

#[export] Hint Resolve plain_b64 plain_app plain_Itoa : go.

Ltac fields_ok := repeat (apply list.Forall_cons; split; [split; [reflexivity|split; [by apply key_lit|eauto with go]]|]);
  try (apply list.Forall_nil; exact I).

Lemma is_empty_false s : s <> [] -> is_empty s = false.
Proof. by destruct s. Qed.

(** ** Lemmas: what is built is read back *)

Definition known_mode (m : Mode) : Prop := m = ModeUnidirection \/ m = ModeBidirection.

Lemma mode_of_known m : known_mode m -> key m /\ mode_of m = Some m.
Proof. intros [-> | ->]; (split; [by apply key_lit|reflexivity]). Qed.

(** Open a header of the form [scheme name="value" ...]. *)
Ltac open_header sch n0 v0 l0 tl :=
  let rest := fresh "rest" in let Hsp := fresh "Hsp" in let Hval := fresh "Hval" in
  destruct (header_read sch n0 v0 l0 tl) as (rest & Hsp & Hval);
  [try by apply key_lit|try by apply key_lit|eauto with go|fields_ok|try (by right); by left|].

Lemma challenge_read mode r1 : known_mode mode -> r1 <> [] -> plain r1 ->
  ParseChallenge (BuildChallenge mode r1) = inr (mkChallenge mode (txt "A:SM2;H:SM3") r1).
Proof.
  intros Hm Hne Hp. destruct (mode_of_known mode Hm) as [Hk Hm'].
  assert (plain (txt "A:SM2;H:SM3")) by by apply plain_lit.
  open_header mode "algorithm"%string (txt "A:SM2;H:SM3") [(", ", "random1", r1)]%string (@nil Z); [done|].
  assert (E : BuildChallenge mode r1 = mode ++ fields [(" ", "algorithm", txt "A:SM2;H:SM3"); (", ", "random1", r1)]%string ++ []).
  { unfold BuildChallenge, fields. cbn [map concat fst snd]. by rewrite !app_nil_r. }
  unfold ParseChallenge. rewrite E, Hsp, Hm'. cbv zeta. rewrite !Hval. read_values. by destruct r1.
Qed.

Lemma capability_read kv pem : plain kv -> bytes_ok pem ->
  ParseCapabilityAuthorization (BuildCapabilityAuthorization kv pem) = inr (mkAnnouncement CapabilityAlgorithm kv pem).
Proof.
  intros Hkv Hpem. assert (Ha : plain CapabilityAlgorithm) by by apply plain_lit.
  set (cert := match pem with [] => [] | _ => [(", "%string, "cnonce"%string, txt "devicecert:" ++ EncodeToString pem)] end).
  assert (Hc : Forall field_ok cert).
  { unfold cert. destruct pem as [|b pem']; [by apply list.Forall_nil|].
    apply list.Forall_cons. split; [|by apply list.Forall_nil]. split; [reflexivity|]. split; [by apply key_lit|].
    apply plain_app; [by apply plain_lit|by apply plain_b64]. }
  destruct (header_read (txt "Capability") "algorithm"%string CapabilityAlgorithm ((", ", "keyversion", kv)%string :: cert) [])
    as (rest & Hsp & Hval); [by apply key_lit|by apply key_lit|done| |by right|].
  { apply list.Forall_cons. split; [|done]. split; [reflexivity|]. by split; [apply key_lit|]. }
  assert (E : BuildCapabilityAuthorization kv pem =
    txt "Capability" ++ fields ((" ", "algorithm", CapabilityAlgorithm) :: (", ", "keyversion", kv) :: cert)%string ++ []).
  { unfold BuildCapabilityAuthorization, fields, cert. destruct pem; cbn [map concat fst snd]; by rewrite ?app_nil_r. }
  unfold ParseCapabilityAuthorization. rewrite E, Hsp. cbv zeta. rewrite !Hval. clear E Hsp Hval. unfold cert.
  destruct pem as [|b pem']; read_values; [reflexivity|].
  rewrite HasPrefix_app, TrimPrefix_app, Decode_Encode by done. reflexivity.
Qed.

Lemma authorization_read ch r2 sid did sign1 :
  known_mode (ch_Mode ch) -> plain (ch_Random1 ch) -> plain r2 -> plain sid -> plain did -> plain sign1 ->
  ch_Random1 ch <> [] -> r2 <> [] -> sid <> [] -> did <> [] -> sign1 <> [] ->
  ParseAuthAuthorization (BuildAuthAuthorization ch r2 sid did sign1) =
  inr (mkAuthAuthorization (ch_Mode ch) (ch_Random1 ch) r2 sid (if bool_decide (ch_Mode ch = ModeBidirection) then did else [])
         sign1 CapabilityAlgorithm).
Proof.
  destruct ch as [mode alg r1]. cbn [ch_Mode ch_Random1]. intros Hm P1 P2 P3 P4 P5 N1 N2 N3 N4 N5.
  destruct (mode_of_known mode Hm) as [Hk Hm']. assert (Ha : plain CapabilityAlgorithm) by by apply plain_lit.
  set (dev := if bool_decide (mode = ModeBidirection) then [(", ", "deviceid", did)]%string else []).
  assert (Hd : Forall field_ok dev) by (unfold dev; destruct (bool_decide _); fields_ok).
  destruct (header_read mode "random1"%string r1 ((", ", "random2", r2)%string :: (", ", "serverid", sid)%string ::
    dev ++ [(", ", "sign1", sign1); (", ", "algorithm", CapabilityAlgorithm)]%string) []) as (rest & Hsp & Hval);
    [done|by apply key_lit|done| |by right|].
  { do 2 (apply list.Forall_cons; split; [split; [reflexivity|by split; [apply key_lit|]]|]). apply Forall_app_2; [done|]. fields_ok. }
  assert (E : BuildAuthAuthorization (mkChallenge mode alg r1) r2 sid did sign1 =
    mode ++ fields ((" ", "random1", r1)%string :: (", ", "random2", r2)%string :: (", ", "serverid", sid)%string ::
    dev ++ [(", ", "sign1", sign1); (", ", "algorithm", CapabilityAlgorithm)]%string) ++ []).
  { unfold BuildAuthAuthorization, fields, dev. destruct Hm as [-> | ->]; cbn -[field txt CapabilityAlgorithm]; rewrite ?app_nil_r; done. }
  unfold ParseAuthAuthorization. rewrite E, Hsp, Hm'. cbv zeta. rewrite !Hval. clear E Hsp Hval. unfold dev.
  destruct Hm as [-> | ->]; read_values; cbn [aa_Random1 aa_Random2 aa_ServerID aa_DeviceID aa_Sign1];
    rewrite !is_empty_false by done; reflexivity.
Qed.

Lemma vkekver_read ver : 0 < ver < 2 ^ 63 -> parse_vkekver (Itoa ver) = Some ver.
Proof.
  intros H. unfold parse_vkekver. rewrite Atoi_Itoa by lia. destruct (Itoa_printable ver ltac:(lia)) as [Hne _].
  destruct (Itoa ver); [done|]. by rewrite (proj2 (Z.ltb_ge _ _)) by lia.
Qed.

Lemma security_info_uni alg ck ver : plain alg -> plain ck -> ck <> [] -> 0 < ver < 2 ^ 63 ->
  ParseSecurityInfo (BuildSecurityInfo (mkSecurityInfo ModeUnidirection alg [] [] [] [] ck [] ver)) =
  inr (mkSecurityInfo ModeUnidirection alg [] [] [] [] ck [] ver).
Proof.
  intros P1 P2 N1 Hv. pose proof (plain_Itoa ver ltac:(lia)) as Pv.
  open_header (txt "Unidirection") "cryptkey"%string ck [(", ", "algorithm", alg); (", ", "vkekver", Itoa ver)]%string (@nil Z).
  assert (E : BuildSecurityInfo (mkSecurityInfo ModeUnidirection alg [] [] [] [] ck [] ver) =
    txt "Unidirection" ++ fields [(" ", "cryptkey", ck); (", ", "algorithm", alg); (", ", "vkekver", Itoa ver)]%string ++ []).
  { unfold BuildSecurityInfo, securityInfoVKEKVer, fields. cbn [si_Mode si_CryptKey si_Algorithm si_VKEKVer].
    rewrite bool_decide_eq_true_2 by done. rewrite (proj2 (Z.leb_gt _ _)) by lia. cbn [map concat fst snd]. by rewrite !app_nil_r. }
  unfold ParseSecurityInfo. rewrite E, Hsp. change (mode_of (txt "Unidirection")) with (Some ModeUnidirection). cbv zeta.
  rewrite !Hval. read_values. rewrite vkekver_read by done. cbn [si_CryptKey]. rewrite is_empty_false by done. reflexivity.
Qed.

Lemma security_info_bi alg r1 r2 did sid ck s2 ver :
  Forall plain [alg; r1; r2; did; sid; ck; s2] -> Forall (fun t => t <> []) [r1; r2; did; sid; ck; s2] -> 0 < ver < 2 ^ 63 ->
  ParseSecurityInfo (BuildSecurityInfo (mkSecurityInfo ModeBidirection alg r1 r2 did sid ck s2 ver)) =
  inr (mkSecurityInfo ModeBidirection alg r1 r2 did sid ck s2 ver).
Proof.
  intros P N Hv. rewrite !list.Forall_cons in P. rewrite !list.Forall_cons in N. destruct P as (P1 & P2 & P3 & P4 & P5 & P6 & P7 & _). destruct N as (N1 & N2 & N3 & N4 & N5 & N6 & _).
  pose proof (plain_Itoa ver ltac:(lia)) as Pv.
  open_header (txt "Bidirection") "algorithm"%string alg [(",", "random1", r1); (",", "random2", r2); (",", "deviceid", did);
    (",", "serverid", sid); (",", "cryptkey", ck); (",", "sign2", s2); (", ", "vkekver", Itoa ver)]%string (@nil Z).
  assert (E : BuildSecurityInfo (mkSecurityInfo ModeBidirection alg r1 r2 did sid ck s2 ver) =
    txt "Bidirection" ++ fields [(" ", "algorithm", alg); (",", "random1", r1); (",", "random2", r2); (",", "deviceid", did);
    (",", "serverid", sid); (",", "cryptkey", ck); (",", "sign2", s2); (", ", "vkekver", Itoa ver)]%string ++ []).
  { unfold BuildSecurityInfo, securityInfoVKEKVer, fields. cbn [si_Mode si_CryptKey si_Algorithm si_VKEKVer].
    rewrite bool_decide_eq_false_2 by done. rewrite (proj2 (Z.leb_gt _ _)) by lia. cbn [map concat fst snd]. by rewrite !app_nil_r. }
  unfold ParseSecurityInfo. rewrite E, Hsp. change (mode_of (txt "Bidirection")) with (Some ModeBidirection). cbv zeta.
  rewrite !Hval. read_values. rewrite vkekver_read by done. cbn [si_CryptKey si_Random1 si_Random2 si_DeviceID si_ServerID si_Sign2].
  rewrite !is_empty_false by done. reflexivity.
Qed.

Lemma note_read nonce : plain nonce -> nonce <> [] ->
  ParseNoteHeader (txt "Digest" ++ field " " "nonce" nonce ++ txt ",algorithm=SM3") = inr (nonce, txt "SM3").
Proof.
  intros P N. destruct (header_read (txt "Digest") "nonce"%string nonce [] (txt ",algorithm=SM3")) as (rest & Hsp & Hval);
    [by apply key_lit|by apply key_lit|done|by apply list.Forall_nil|by left|].
  assert (E : txt "Digest" ++ field " " "nonce" nonce ++ txt ",algorithm=SM3" = txt "Digest" ++ fields [(" ", "nonce", nonce)]%string ++ txt ",algorithm=SM3").
  { unfold fields. cbn [map concat fst snd]. by rewrite app_nil_r. }
  unfold ParseNoteHeader. rewrite E, Hsp. rewrite bool_decide_eq_true_2 by done. cbv zeta. rewrite !Hval.
  change (scan_params (txt ",algorithm=SM3")) with [(txt "algorithm", txt "SM3")]. read_values. by rewrite is_empty_false.
Qed.
