(* ===== verification/Security.v ===== *)
(** GB35114 cryptography above the ciphers ([security35114/level.go], [crypto.go],
    [integrity.go], [media.go]): levels, signed payloads, the key envelopes, the
    Note header, the packet cryptor and the [a=security] attribute.

    SM2, SM3, SM4 and X.509 are gmsm's: the class [Gmsm] has what the code calls
    and [GmsmLaws] what is relied on. The entropy of a call is an argument, and a
    reader that yields [None] has failed. [encoding/pem] and the layout of the Date
    header are arguments too. *)

From S2P Require Import Prelude GoStrings GoText GoBase64 GoCrypto Digest SecHeaders.
Open Scope Z_scope.

(** ** Levels *)

Inductive Level := LevelA | LevelB | LevelC.

#[export] Instance Level_eq_dec : EqDecision Level.
Proof. solve_decision. Defined.

Definition ParseLevel (s : text) : option Level :=
  if bool_decide (s = []) || bool_decide (s = txt "A") || bool_decide (s = txt "a") then Some LevelA
  else if bool_decide (s = txt "B") || bool_decide (s = txt "b") then Some LevelB
  else if bool_decide (s = txt "C") || bool_decide (s = txt "c") then Some LevelC
  else None.

Definition level_order (l : Level) : Z := match l with LevelA => 0 | LevelB => 1 | LevelC => 2 end.
Definition AtLeast (l want : Level) : bool := level_order want <=? level_order l.
Definition level_text (l : Level) : text := match l with LevelA => txt "A" | LevelB => txt "B" | LevelC => txt "C" end.

(** ** gmsm *)

Class Gmsm := {
  PrivateKey : Type;
  PublicKey : Type;
  Certificate : Type;
  Public : PrivateKey -> PublicKey;
  (** The SM2 key of a certificate; [None] for a key of another kind. *)
  CertKey : Certificate -> option PublicKey;
  sm2_SignASN1 : Z -> PrivateKey -> list Z -> option (list Z);
  sm2_VerifyASN1WithSM2 : PublicKey -> list Z -> list Z -> bool;
  sm2_EncryptASN1 : Z -> PublicKey -> list Z -> option (list Z);
  sm2_Decrypt : PrivateKey -> list Z -> option (list Z);
  sm3_Sum : list Z -> list Z;
  (** One block under a key of one block. *)
  sm4_Encrypt : list Z -> list Z -> list Z;
  sm4_Decrypt : list Z -> list Z -> list Z;
  smx509_ParseCertificate : list Z -> option Certificate;
}.

Definition BlockSize : nat := 16.

Class GmsmLaws `{Gmsm} : Prop := {
  sm2_signs e k m : exists sig, sm2_SignASN1 e k m = Some sig /\ bytes_ok sig /\ sig <> [] /\
    sm2_VerifyASN1WithSM2 (Public k) m sig = true;
  sm2_encrypts e k m : bytes_ok m -> exists c, sm2_EncryptASN1 e (Public k) m = Some c /\ bytes_ok c /\ c <> [] /\ sm2_Decrypt k c = Some m;
  sm3_bytes m : bytes_ok (sm3_Sum m) /\ length (sm3_Sum m) = 32%nat;
  sm4_block k b : bytes_ok k -> bytes_ok b -> length k = BlockSize -> length b = BlockSize ->
    sm4_Decrypt k (sm4_Encrypt k b) = b /\ bytes_ok (sm4_Encrypt k b) /\ length (sm4_Encrypt k b) = BlockSize;
}.

Inductive RandomEncoding := ConcatWireStrings | ConcatRawBytes.
Inductive Sign2Order := Sign2R1R2 | Sign2R2R1.
Inductive VKEKEncoding := VKEKRaw | VKEKBase64String.

Section Security.

Context `{Gmsm}.

(** ** Signatures and the VKEK envelope *)

Record Identity := mkIdentity { id_Certificate : Certificate; id_PrivateKey : PrivateKey; id_CertPEM : list Z }.

Definition decodeB64 (s : text) : list Z := match DecodeString s with Some b => b | None => s end.

Definition SignAuthPayload (random1 random2 serverID : text) (enc : RandomEncoding) : list Z :=
  match enc with
  | ConcatRawBytes => decodeB64 random2 ++ decodeB64 random1 ++ serverID
  | ConcatWireStrings => random2 ++ random1 ++ serverID
  end.

Definition Sign2Payload (random1 random2 deviceID cryptKey : text) (order : Sign2Order) (enc : RandomEncoding) : list Z :=
  let (r1, r2) := match enc with ConcatRawBytes => (decodeB64 random1, decodeB64 random2) | ConcatWireStrings => (random1, random2) end in
  match order with
  | Sign2R2R1 => r2 ++ r1 ++ deviceID ++ cryptKey
  | Sign2R1R2 => r1 ++ r2 ++ deviceID ++ cryptKey
  end.

Definition SignMessage (e : Z) (priv : PrivateKey) (payload : list Z) : option text :=
  sig ← sm2_SignASN1 e priv payload; Some (EncodeToString sig).

(** [true] is a nil error. *)
Definition VerifyMessage (cert : Certificate) (payload : list Z) (sigB64 : text) : bool :=
  match CertKey cert with
  | None => false
  | Some pub => match DecodeString sigB64 with
                | None => false
                | Some sig => sm2_VerifyASN1WithSM2 pub payload sig
                end
  end.

Definition EncryptVKEK (e : Z) (pub : PublicKey) (vkek : list Z) : option text :=
  der ← sm2_EncryptASN1 e pub vkek; Some (EncodeToString der).

Definition DecryptVKEK (priv : PrivateKey) (cryptKey : text) : option (list Z) :=
  der ← DecodeString cryptKey; sm2_Decrypt priv der.

(** [pem.Decode] gives the type of the first block and its bytes. *)
Definition ParseCertificatePEM (pem_Decode : list Z -> option (text * list Z)) (pemBytes : list Z) : option Certificate :=
  match pem_Decode pemBytes with
  | None => None
  | Some (type_, bytes) => if Contains type_ (txt "CERTIFICATE") then smx509_ParseCertificate bytes else None
  end.

(** ** The Note header *)

Definition DigestPayload (method from to callID date : text) (vkek : list Z) (body : text) (enc : VKEKEncoding) : list Z :=
  sm3_Sum (method ++ from ++ to ++ callID ++ date
           ++ (match enc with VKEKBase64String => EncodeToString vkek | VKEKRaw => vkek end) ++ body).

Definition BuildNoteHeader (method from to callID date : text) (vkek : list Z) (body : text) (enc : VKEKEncoding) : text :=
  let nonce := EncodeToString (DigestPayload method from to callID date vkek body enc) in
  txt "Digest" ++ field " " "nonce" nonce ++ txt ",algorithm=SM3".

(** [strings.EqualFold] with "SM3". A letter of the name folds to ASCII letters
    only, but for the long s, U+017F. *)
Definition equal_fold_SM3 (s : text) : bool :=
  bool_decide (ToUpper s = txt "SM3") ||
  match s with a :: b :: rest => (a =? 0xC5) && (b =? 0xBF) && bool_decide (ToUpper rest = txt "M3") | _ => false end.

Inductive note_error := NoteHeader (e : header_error) | NoteAlgorithm | NonceNotBase64 | DigestMismatch.

(** [None] is a nil error. *)
Definition VerifyNoteHeader (note method from to callID date : text) (vkek : list Z) (body : text) (enc : VKEKEncoding) :
    option note_error :=
  match ParseNoteHeader note with
  | inl e => Some (NoteHeader e)
  | inr (nonce, algorithm) =>
      if negb (equal_fold_SM3 algorithm) then Some NoteAlgorithm else
      match DecodeString nonce with
      | None => Some NonceNotBase64
      | Some want => if bool_decide (DigestPayload method from to callID date vkek body enc = want) then None else Some DigestMismatch
      end
  end.

(** ** The VEK envelope *)

Definition VEKLen : nat := 16.

(** [io.ReadFull] into a buffer of the length; what the reader yields, if it
    does not fail. *)
Definition read_full (n : nat) (reader : option (list Z)) : option (list Z) :=
  match reader with Some l => if Nat.eqb (length l) n then Some l else None | None => None end.

Definition GenerateVEK (reader : option (list Z)) : option (list Z) := read_full VEKLen reader.

Definition sm3Tag (key : list Z) : list Z := take BlockSize (sm3_Sum key).

Definition SealVEK (vkek vek : list Z) : option text :=
  if negb (Nat.eqb (length vkek) BlockSize) then None
  else if negb (Nat.eqb (length vek) VEKLen) then None
  else let plain := vek ++ sm3Tag vek in
       Some (EncodeToString (sm4_Encrypt vkek (take BlockSize plain) ++ sm4_Encrypt vkek (drop BlockSize plain))).

Definition OpenVEK (vkek : list Z) (envelope : text) : option (list Z) :=
  if negb (Nat.eqb (length vkek) BlockSize) then None else
  match DecodeString envelope with
  | None => None
  | Some raw =>
      if negb (Nat.eqb (length raw) (2 * VEKLen)) then None else
      let p1 := sm4_Decrypt vkek (take VEKLen raw) in
      let p2 := sm4_Decrypt vkek (drop VEKLen raw) in
      if bool_decide (p2 = sm3Tag p1) then Some p1 else None
  end.

(** ** The packet cryptor *)

Definition be_bytes (n : nat) (x : Z) : list Z := rev (le_bytes n x).

Definition PacketIV (vek : list Z) (ssrc seq : Z) : list Z :=
  take BlockSize (sm3_Sum (vek ++ be_bytes 4 ssrc ++ be_bytes 2 seq)).

(** [cipher.NewOFB]: the blocks of the key stream are the iterated encryptions of
    the IV. *)
Fixpoint ofb (fuel : nat) (block : list Z -> list Z) (iv payload : list Z) : list Z :=
  match fuel, payload with
  | S f, _ :: _ => let k := block iv in
                   zip_with Z.lxor (take BlockSize payload) k ++ ofb f block k (drop BlockSize payload)
  | _, _ => []
  end.

(** [pc_vek] is [None] after [Zero]; the key schedule stays. *)
Record PacketCryptor := mkPacketCryptor { pc_vek : option (list Z); pc_block : list Z }.

Definition NewPacketCryptor (vek : list Z) : option PacketCryptor :=
  if negb (Nat.eqb (length vek) VEKLen) then None else Some (mkPacketCryptor (Some vek) vek).

Definition Crypt (c : option PacketCryptor) (payload : list Z) (ssrc seq : Z) : list Z :=
  match c, payload with
  | None, _ | _, [] => payload
  | Some c, _ => match pc_vek c with
                 | None => []
                 | Some vek => ofb (length payload) (sm4_Encrypt (pc_block c)) (PacketIV vek ssrc seq) payload
                 end
  end.

Definition Zero (c : PacketCryptor) : PacketCryptor := mkPacketCryptor None (pc_block c).

(** ** Access unit signatures *)

Definition AUSignPayload (au : list Z) (ssrc timestamp : Z) : list Z := au ++ be_bytes 4 ssrc ++ be_bytes 4 timestamp.

Definition SignAU (e : Z) (priv : PrivateKey) (au : list Z) (ssrc timestamp : Z) : option (list Z) :=
  sm2_SignASN1 e priv (AUSignPayload au ssrc timestamp).

Definition VerifyAU (cert : Certificate) (au : list Z) (ssrc timestamp : Z) (sigDER : list Z) : bool :=
  match CertKey cert with
  | None => false
  | Some pub => sm2_VerifyASN1WithSM2 pub (AUSignPayload au ssrc timestamp) sigDER
  end.

End Security.

(** ** The session description attribute *)

Definition SDPSecurityOffer (level : Level) : text := txt "GB35114-" ++ level_text level.

Definition SDPSecurityAnswer (level : Level) (vekEnvelope : text) (vkekVer : Z) : text :=
  if AtLeast level LevelC && negb (is_empty vekEnvelope) then
    txt "GB35114-" ++ level_text level ++ txt ",vek=" ++ vekEnvelope
    ++ (if 0 <? vkekVer then txt ",vkekver=" ++ Itoa vkekVer else [])
  else txt "GB35114-" ++ level_text level.

Record SDPSecurity := mkSDPSecurity { sec_Level : Level; sec_VEKEnvelope : text; sec_VKEKVer : Z }.

#[export] Instance eta_SDPSecurity : Eta SDPSecurity := fun s => mkSDPSecurity (sec_Level s) (sec_VEKEnvelope s) (sec_VKEKVer s).

(** [strings.Cut] at one byte. *)
Definition Cut (s : text) (c : Z) : text * text := match cut_at c s with Some p => p | None => (s, []) end.

(** The loop over the parameters; the length of the rest is fuel enough. *)
Fixpoint sdp_params (fuel : nat) (param : text) (out : SDPSecurity) : option SDPSecurity :=
  match param with
  | [] => Some out
  | _ =>
      match fuel with
      | O => None
      | S f =>
          let (kv, rest) := Cut param 0x2C in
          let (k, v) := Cut (TrimSpace kv) 0x3D in
          if bool_decide (k = txt "vek") then
            match v with [] => None | _ => sdp_params f rest (out <| sec_VEKEnvelope := v |>) end
          else if bool_decide (k = txt "vkekver") then
            match Atoi v with
            | Some n => if n <? 0 then None else sdp_params f rest (out <| sec_VKEKVer := n |>)
            | None => None
            end
          else None
      end
  end.

Definition ParseSDPSecurity (value : text) : option SDPSecurity :=
  let value := TrimSpace value in
  let (token, param) := Cut value 0x2C in
  let token := TrimSpace token in
  if negb (HasPrefix token (txt "GB35114-")) then None else
  match ParseLevel (TrimPrefix token (txt "GB35114-")) with
  | None => None
  | Some lvl => sdp_params (length param) param (mkSDPSecurity lvl [] 0)
  end.

(** ** Lemmas *)

Section Facts.

Context `{GmsmLaws}.

Lemma sm3Tag_ok vek : bytes_ok (sm3Tag vek) /\ length (sm3Tag vek) = BlockSize.
Proof.
  destruct (sm3_bytes vek) as [B L]. unfold sm3Tag. split; [by apply Forall_take|]. rewrite length_take, L. reflexivity.
Qed.

(** An envelope opens under the key it was sealed with. *)
Lemma open_seal vkek vek envelope : bytes_ok vkek -> bytes_ok vek -> SealVEK vkek vek = Some envelope -> OpenVEK vkek envelope = Some vek.
Proof.
  intros Bk Bv. unfold SealVEK. destruct (Nat.eqb_spec (length vkek) BlockSize) as [Lk|]; [|done].
  destruct (Nat.eqb_spec (length vek) VEKLen) as [Lv|]; [|done]. cbn [negb]. intros [= <-].
  destruct (sm3Tag_ok vek) as [Bt Lt]. rewrite take_app_length', drop_app_length' by done.
  destruct (sm4_block vkek vek Bk Bv Lk Lv) as (D1 & B1 & L1). destruct (sm4_block vkek (sm3Tag vek) Bk Bt Lk Lt) as (D2 & B2 & L2).
  unfold OpenVEK. rewrite Lk, Nat.eqb_refl. cbn [negb]. rewrite Decode_Encode by by apply Forall_app_2.
  rewrite length_app, L1, L2. cbn [Nat.eqb Nat.add BlockSize VEKLen Nat.mul negb]. rewrite take_app_length', drop_app_length' by done.
  rewrite D1, D2. by rewrite bool_decide_eq_true_2.
Qed.

Lemma seal_total vkek vek : bytes_ok vkek -> bytes_ok vek -> length vkek = BlockSize -> length vek = VEKLen ->
  exists envelope, SealVEK vkek vek = Some envelope /\ envelope <> [] /\ Forall (fun c => b64_byte c = true) envelope.
Proof.
  intros Bk Bv Lk Lv. unfold SealVEK. rewrite Lk, Lv, !Nat.eqb_refl. cbn [negb].
  destruct (sm3Tag_ok vek) as [Bt Lt]. rewrite take_app_length', drop_app_length' by done.
  destruct (sm4_block vkek vek Bk Bv Lk Lv) as (_ & B1 & L1). destruct (sm4_block vkek (sm3Tag vek) Bk Bt Lk Lt) as (_ & B2 & _).
  eexists. split; [reflexivity|]. split; [|by apply encode_bytes, Forall_app_2].
  apply encode_ne. by destruct (sm4_Encrypt vkek vek).
Qed.

(** A key that an envelope opens to carries its own tag. *)
Lemma open_checked vkek envelope vek : OpenVEK vkek envelope = Some vek ->
  exists raw, DecodeString envelope = Some raw /\ sm4_Decrypt vkek (drop VEKLen raw) = sm3Tag vek /\ vek = sm4_Decrypt vkek (take VEKLen raw).
Proof.
  unfold OpenVEK. destruct (negb (Nat.eqb (length vkek) BlockSize)); [done|]. destruct (DecodeString envelope) as [raw|]; [|done].
  destruct (negb (Nat.eqb (length raw) (2 * VEKLen))); [done|]. cbv zeta. case_bool_decide as E; [|done]. intros [= <-]. by exists raw.
Qed.

Lemma lxor_zip a : forall k, (length a <= length k)%nat -> zip_with Z.lxor (zip_with Z.lxor a k) k = a.
Proof.
  induction a as [|x a IH]; intros [|y k] Hl; cbn [length] in *; try lia; try done. cbn [zip_with].
  rewrite IH by lia. by rewrite Z.lxor_assoc, Z.lxor_nilpotent, Z.lxor_0_r.
Qed.

Lemma zip_xor (a b k : list Z) : length a = length b -> (length a <= length k)%nat ->
  zip_with Z.lxor (zip_with Z.lxor a k) (zip_with Z.lxor b k) = zip_with Z.lxor a b.
Proof.
  revert b k. induction a as [|x a IH]; intros [|y b] [|z k] E L; try done; cbn [length] in *; try lia.
  cbn [zip_with]. rewrite IH by lia. f_equal.
  by rewrite (Z.lxor_comm y z), Z.lxor_assoc, <- (Z.lxor_assoc z z), Z.lxor_nilpotent, Z.lxor_0_l.
Qed.

Section Ofb.

Context (block : list Z -> list Z) (good : list Z -> Prop).
Context (good_block : forall b, good b -> good (block b)) (good_length : forall b, good b -> length (block b) = BlockSize).

Lemma ofb_length fuel : forall iv p, good iv -> (length p <= fuel)%nat -> length (ofb fuel block iv p) = length p.
Proof.
  induction fuel as [|fuel IH]; intros iv [|x p] Hg Hl; cbn [length] in *; try lia; try done.
  cbn [ofb]. rewrite length_app, length_zip_with, length_take, good_length by done.
  rewrite IH by (auto || (rewrite length_drop; cbn [length]; unfold BlockSize; lia)).
  rewrite length_drop. cbn [length]. lia.
Qed.

Lemma ofb_involutive fuel : forall iv p, good iv -> (length p <= fuel)%nat -> ofb fuel block iv (ofb fuel block iv p) = p.
Proof.
  induction fuel as [|fuel IH]; intros iv p Hg Hl; [by destruct p; [|cbn [length] in Hl; lia]|].
  destruct p as [|x p]; [done|]. set (q := x :: p) in *. set (k := block iv).
  assert (Lk : length k = BlockSize) by by apply good_length.
  assert (Hd : (length (drop BlockSize q) <= fuel)%nat) by (rewrite length_drop; assert (length q = S (length p)) by done; unfold BlockSize; lia).
  set (head := zip_with Z.lxor (take BlockSize q) k). set (tail := ofb fuel block k (drop BlockSize q)).
  assert (E : ofb (S fuel) block iv q = head ++ tail) by done. rewrite E.
  assert (Lh : length head = Nat.min BlockSize (length q)) by (unfold head; rewrite length_zip_with, length_take, Lk; lia).
  assert (Hne : exists y r, head ++ tail = y :: r) by (destruct head; [unfold q in Lh; done|by eexists _, _]).
  destruct Hne as (y & r & Ey). assert (E2 : ofb (S fuel) block iv (head ++ tail) =
    zip_with Z.lxor (take BlockSize (head ++ tail)) k ++ ofb fuel block k (drop BlockSize (head ++ tail))) by by rewrite Ey.
  rewrite E2. destruct (decide (BlockSize <= length q)%nat) as [Hb|Hb].
  - rewrite take_app_length', drop_app_length' by lia. unfold head, tail. rewrite lxor_zip by (rewrite length_take; lia).
    rewrite IH by (done || by apply good_block). apply take_drop.
  - assert (Et : tail = []) by (unfold tail; rewrite drop_ge by lia; by destruct fuel). rewrite Et, app_nil_r.
    rewrite take_ge, drop_ge by lia. unfold head. rewrite lxor_zip by (rewrite length_take; lia). rewrite take_ge by lia.
    destruct fuel; by rewrite app_nil_r.
Qed.

Lemma ofb_reuse fuel : forall iv p q, good iv -> length p = length q -> (length p <= fuel)%nat ->
  zip_with Z.lxor (ofb fuel block iv p) (ofb fuel block iv q) = zip_with Z.lxor p q.
Proof.
  induction fuel as [|fuel IH]; intros iv p q Hg Hl Hf; [destruct p; [by destruct q|cbn [length] in Hf; lia]|].
  destruct p as [|x p], q as [|y q]; try done. set (p0 := x :: p) in *. set (q0 := y :: q) in *.
  change (zip_with Z.lxor (zip_with Z.lxor (take BlockSize p0) (block iv) ++ ofb fuel block (block iv) (drop BlockSize p0))
    (zip_with Z.lxor (take BlockSize q0) (block iv) ++ ofb fuel block (block iv) (drop BlockSize q0)) = zip_with Z.lxor p0 q0).
  assert (Lk : length (block iv) = BlockSize) by by apply good_length.
  rewrite zip_with_app by (rewrite !length_zip_with, !length_take; lia).
  rewrite zip_xor by (rewrite !length_take; lia).
  rewrite IH; [|auto|rewrite !length_drop; lia|rewrite length_drop; assert (length p0 = S (length p)) by done; unfold BlockSize; lia].
  rewrite <- zip_with_app by (rewrite !length_take; lia). by rewrite !take_drop.
Qed.

End Ofb.

Definition good_key (b : list Z) : Prop := bytes_ok b /\ length b = BlockSize.

Lemma be_bytes_ok n x : bytes_ok (be_bytes n x).
Proof. apply Forall_rev, le_bytes_ok. Qed.

Lemma PacketIV_good vek ssrc seq : good_key (PacketIV vek ssrc seq).
Proof. unfold PacketIV. destruct (sm3_bytes (vek ++ be_bytes 4 ssrc ++ be_bytes 2 seq)) as [B L]. split; [by apply Forall_take|]. by rewrite length_take, L. Qed.

(** The two sides of a session with one VEK. *)
Lemma crypt_crypt vek c payload ssrc seq : good_key vek -> NewPacketCryptor vek = Some c ->
  Crypt (Some c) (Crypt (Some c) payload ssrc seq) ssrc seq = payload /\ length (Crypt (Some c) payload ssrc seq) = length payload.
Proof.
  intros [Bv Lv]. unfold NewPacketCryptor. rewrite Lv, Nat.eqb_refl. cbn [negb]. intros [= <-]. unfold Crypt.
  destruct payload as [|x p]; [done|]. cbn [pc_vek pc_block]. set (q := x :: p).
  assert (G1 : forall b, good_key b -> good_key (sm4_Encrypt vek b)) by (intros b [B L]; by destruct (sm4_block vek b Bv B Lv L) as (_ & ? & ?)).
  assert (G2 : forall b, good_key b -> length (sm4_Encrypt vek b) = BlockSize) by (intros b Hb; by apply G1).
  assert (Ln : length (ofb (length q) (sm4_Encrypt vek) (PacketIV vek ssrc seq) q) = length q)
    by (eapply ofb_length; [exact G1|exact G2|apply PacketIV_good|done]).
  split; [|done]. destruct (ofb (length q) (sm4_Encrypt vek) (PacketIV vek ssrc seq) q) as [|y r] eqn:E; [by unfold q in Ln|].
  rewrite <- E, E, Ln, <- E. eapply ofb_involutive; [exact G1|exact G2|apply PacketIV_good|done].
Qed.

(** C18: The keystream of level C repeats: sequence numbers have 16 bits and the IV
    depends on nothing else that changes within a session, so that the payloads of
    packets that are 65536 apart are enciphered with the same bytes; whoever sees
    both knows the exclusive or of what was sent. *)
Theorem keystream_repeats vek c p q ssrc seq : good_key vek -> NewPacketCryptor vek = Some c -> length p = length q ->
  zip_with Z.lxor (Crypt (Some c) p ssrc (u16 seq)) (Crypt (Some c) q ssrc (u16 (seq + 65536))) = zip_with Z.lxor p q.
Proof.
  intros [Bv Lv]. unfold NewPacketCryptor. rewrite Lv, Nat.eqb_refl. cbn [negb]. intros [= <-] E.
  replace (u16 (seq + 65536)) with (u16 seq) by (unfold u16; rewrite <- Zplus_mod_idemp_r, Z_mod_same_full, Z.add_0_r; done).
  unfold Crypt. destruct p as [|x p], q as [|y q]; try done. cbn [pc_vek pc_block]. rewrite <- E.
  eapply ofb_reuse; [| |apply PacketIV_good|done|done]; intros b [B L]; by destruct (sm4_block vek b Bv B Lv L) as (_ & ? & ?).
Qed.

Lemma message_verified e priv cert payload : CertKey cert = Some (Public priv) ->
  exists sig, SignMessage e priv payload = Some sig /\ VerifyMessage cert payload sig = true /\ plain sig /\ sig <> [].
Proof.
  intros Hc. destruct (sm2_signs e priv payload) as (sig & E & B & N & V). unfold SignMessage. rewrite E.
  eexists. split; [reflexivity|]. unfold VerifyMessage. rewrite Hc, Decode_Encode by done. split; [done|].
  split; [by apply plain_b64|by apply encode_ne].
Qed.

Lemma vkek_opened e priv vkek : bytes_ok vkek -> exists ck, EncryptVKEK e (Public priv) vkek = Some ck /\ DecryptVKEK priv ck = Some vkek /\ plain ck /\ ck <> [].
Proof.
  intros Hb. destruct (sm2_encrypts e priv vkek Hb) as (c & E & B & N & D). unfold EncryptVKEK. rewrite E. eexists. split; [reflexivity|].
  unfold DecryptVKEK. rewrite Decode_Encode by done. split; [done|]. split; [by apply plain_b64|by apply encode_ne].
Qed.

(** A Note header verifies under its key and for its own message. *)
Lemma note_verifies method from to callID date vkek body enc :
  VerifyNoteHeader (BuildNoteHeader method from to callID date vkek body enc) method from to callID date vkek body enc = None.
Proof.
  unfold VerifyNoteHeader, BuildNoteHeader. cbv zeta. set (d := DigestPayload _ _ _ _ _ _ _ _).
  assert (B : bytes_ok d /\ length d = 32%nat) by apply sm3_bytes. destruct B as [B L].
  rewrite note_read; [|by apply plain_b64|apply encode_ne; by destruct d]. change (equal_fold_SM3 (txt "SM3")) with true.
  cbn [negb]. rewrite Decode_Encode by done. by rewrite bool_decide_eq_true_2.
Qed.

End Facts.

(** ** Lemmas: the attribute *)

Definition level_value (l : Level) : text := txt "GB35114-" ++ level_text l.

Lemma no_byte c s : forallb (fun b => negb (b =? c)) s = true -> Forall (fun b => b <> c) s.
Proof. rewrite forallb_forall. intros F. apply List.Forall_forall. intros b Hb. apply F in Hb. by apply negb_true_iff, Z.eqb_neq in Hb. Qed.

Lemma Cut_none s c : Forall (fun b => b <> c) s -> Cut s c = (s, []).
Proof. intros F. unfold Cut. by rewrite cut_at_none. Qed.

Lemma Cut_app a s c : Forall (fun b => b <> c) a -> Cut (a ++ c :: s) c = (a, s).
Proof. intros F. unfold Cut. by rewrite cut_at_app. Qed.

Lemma sdp_offer_read level : ParseSDPSecurity (SDPSecurityOffer level) = Some (mkSDPSecurity level [] 0).
Proof. by destruct level. Qed.

Lemma b64_printable s : Forall (fun c => b64_byte c = true) s -> Forall (fun b => printable b = true) s /\ Forall (fun b => b <> 0x2C) s.
Proof. intros F. split; (eapply Forall_impl; [|exact F]); intros b; unfold b64_byte, printable; lia. Qed.

(** One turn of the loop on a parameter whose name and value are known. *)
Lemma sdp_param kv k v rest f out : Forall (fun b => b <> 0x2C) kv -> Forall (fun b => printable b = true) kv ->
  Cut kv 0x3D = (k, v) -> v <> [] -> kv <> [] ->
  sdp_params (S f) (kv ++ match rest with [] => [] | _ => 0x2C :: rest end) out =
  if bool_decide (k = txt "vek") then sdp_params f rest (out <| sec_VEKEnvelope := v |>)
  else if bool_decide (k = txt "vkekver") then
    match Atoi v with Some n => if n <? 0 then None else sdp_params f rest (out <| sec_VKEKVer := n |>) | None => None end
  else None.
Proof.
  intros Hc Hp Hk Hv Hne. set (p := kv ++ _). assert (E : Cut p 0x2C = (kv, rest)).
  { unfold p. destruct rest; [rewrite app_nil_r; by apply Cut_none|by apply Cut_app]. }
  assert (Np : exists b l, p = b :: l) by (unfold p; destruct kv; [done|by eexists _, _]). destruct Np as (b & l & Ep).
  cbn [sdp_params]. rewrite Ep at 1. rewrite E, TrimSpace_id, Hk by done. destruct (bool_decide _); [|done]. by destruct v.
Qed.

Lemma sdp_answer_read envelope ver : envelope <> [] -> Forall (fun c => b64_byte c = true) envelope -> 0 <= ver < 2 ^ 63 ->
  ParseSDPSecurity (SDPSecurityAnswer LevelC envelope ver) = Some (mkSDPSecurity LevelC envelope ver).
Proof.
  intros Ne F Hv. destruct (b64_printable _ F) as [Pe Ce]. unfold SDPSecurityAnswer. rewrite is_empty_false by done.
  change (AtLeast LevelC LevelC && negb false) with true. cbn [level_text].
  set (vs := if 0 <? ver then txt "vkekver=" ++ Itoa ver else []).
  assert (Hvs : Forall (fun b => printable b = true) vs /\ Forall (fun b => b <> 0x2C) vs /\
                match vs with [] => ver = 0 | _ => vs = txt "vkekver=" ++ Itoa ver /\ Itoa ver <> [] end).
  { unfold vs. destruct (Z.ltb_spec 0 ver); [|split; [by apply list.Forall_nil|split; [by apply list.Forall_nil|lia]]].
    rewrite Itoa_nonneg by lia. destruct (dec_spec ver ltac:(lia)) as (D & N & _). split; [|split; [|done]].
    - apply Forall_app_2; [by repeat constructor|]. eapply Forall_impl; [|exact D]. intros b. apply digit_printable.
    - apply Forall_app_2; [by apply no_byte|by apply digits_no]. }
  destruct Hvs as (Pv & Cv & Hvs).
  set (param := (txt "vek=" ++ envelope) ++ match vs with [] => [] | _ => 0x2C :: vs end).
  assert (E : txt "GB35114-" ++ txt "C" ++ txt ",vek=" ++ envelope ++ (if 0 <? ver then txt ",vkekver=" ++ Itoa ver else [])
              = txt "GB35114-C" ++ 0x2C :: param).
  { unfold param. change (txt "GB35114-" ++ txt "C" ++ txt ",vek=" ++ envelope ++ (if 0 <? ver then txt ",vkekver=" ++ Itoa ver else []))
      with (txt "GB35114-C" ++ 0x2C :: txt "vek=" ++ envelope ++ (if 0 <? ver then 0x2C :: txt "vkekver=" ++ Itoa ver else [])).
    unfold vs. rewrite <- app_assoc. by destruct (0 <? ver). }
  unfold ParseSDPSecurity. rewrite E. rewrite TrimSpace_id.
  2:{ apply Forall_app_2; [by repeat constructor|]. apply list.Forall_cons. split; [done|]. unfold param.
      repeat apply Forall_app_2; [by repeat constructor|done|]. destruct vs; [by apply list.Forall_nil|by apply list.Forall_cons]. }
  rewrite Cut_app by by apply no_byte. change (TrimSpace (txt "GB35114-C")) with (txt "GB35114-C").
  change (HasPrefix (txt "GB35114-C") (txt "GB35114-")) with true.
  change (ParseLevel (TrimPrefix (txt "GB35114-C") (txt "GB35114-"))) with (Some LevelC). cbn [negb].
  assert (L : exists f, length param = S (S f)) by (unfold param; rewrite !length_app; by eexists). destruct L as [f ->].
  unfold param. rewrite (sdp_param _ (txt "vek") envelope); [|by apply Forall_app_2; [apply no_byte|]|by apply Forall_app_2; [repeat constructor|]| |done|done].
  2:{ apply (Cut_app (txt "vek")). by apply no_byte. }
  rewrite bool_decide_eq_true_2 by done. destruct vs as [|v0 vs'] eqn:Evs; [subst ver; reflexivity|]. destruct Hvs as [Hvs Ni].
  rewrite <- (app_nil_r (v0 :: vs')). rewrite (sdp_param (v0 :: vs') (txt "vkekver") (Itoa ver) []); [|done|done| |done|done].
  2:{ rewrite Hvs. apply (Cut_app (txt "vkekver")). by apply no_byte. }
  rewrite bool_decide_eq_false_2 by done. rewrite bool_decide_eq_true_2 by done. rewrite Atoi_Itoa by lia.
  rewrite (proj2 (Z.ltb_ge _ _)) by lia. by destruct f.
Qed.

(** ** An instance

    Keys are numbers, a hash is the end of what is hashed, a signature the hash of
    key and message, a block is encrypted by adding the key bitwise: enough to run
    the protocols, and to show that the laws can hold. *)

Definition short_hash (m : list Z) : list Z := take 32 (map u8 (rev m) ++ repeat 0 32).

#[export] Instance plain_gmsm : Gmsm := {|
  PrivateKey := Z; PublicKey := Z; Certificate := Z;
  Public := fun k => k;
  CertKey := fun c => Some c;
  sm2_SignASN1 := fun e k m => Some (short_hash (k :: m));
  sm2_VerifyASN1WithSM2 := fun k m sig => bool_decide (sig = short_hash (k :: m));
  sm2_EncryptASN1 := fun e k m => Some (u8 k :: m);
  sm2_Decrypt := fun k c => match c with b :: m => if b =? u8 k then Some m else None | [] => None end;
  sm3_Sum := short_hash;
  sm4_Encrypt := fun k b => zip_with Z.lxor b k;
  sm4_Decrypt := fun k b => zip_with Z.lxor b k;
  smx509_ParseCertificate := fun b => match b with c :: _ => Some c | [] => None end;
|}.

Lemma lxor_byte a b : is_byte a -> is_byte b -> is_byte (Z.lxor a b).
Proof.
  unfold is_byte. intros Ha Hb. assert (N : 0 <= Z.lxor a b) by (apply Z.lxor_nonneg; lia). split; [done|].
  destruct (decide (Z.lxor a b = 0)) as [->|Hne]; [lia|]. change 256 with (2 ^ 8). apply Z.log2_lt_pow2; [lia|].
  eapply Z.le_lt_trans; [by apply Z.log2_lxor; lia|].
  assert (L : forall x, 0 <= x < 256 -> Z.log2 x < 8).
  { intros x Hx. destruct (decide (x = 0)) as [->|]; [done|]. apply Z.log2_lt_pow2; lia. }
  pose proof (L a Ha). pose proof (L b Hb). lia.
Qed.

Lemma short_hash_ok m : bytes_ok (short_hash m) /\ length (short_hash m) = 32%nat.
Proof.
  unfold short_hash. split; [|rewrite length_take, length_app, length_map, repeat_length; lia].
  apply Forall_take, Forall_app_2; [|by repeat constructor]. apply List.Forall_map, List.Forall_forall. intros b _. apply u8_range.
Qed.

#[export] Instance plain_gmsm_laws : GmsmLaws.
Proof.
  split.
  - intros e k m. exists (short_hash (k :: m)). destruct (short_hash_ok (k :: m)) as [B L].
    split; [done|]. split; [done|]. split; [by destruct (short_hash (k :: m))|]. cbn. by apply bool_decide_eq_true_2.
  - intros e k m B. exists (u8 k :: m). split; [done|]. split; [apply list.Forall_cons; split; [apply u8_range|done]|].
    split; [done|]. cbn. by rewrite Z.eqb_refl.
  - apply short_hash_ok.
  - cbn. intros k b Bk Bb Lk Lb. split; [apply lxor_zip; lia|]. split; [|rewrite length_zip_with; lia].
    clear Lk Lb. revert b Bb. induction Bk as [|x k Hx _ IH]; intros [|y b] Bb; cbn [zip_with]; try apply list.Forall_nil; try exact I.
    apply list.Forall_cons in Bb as [Hy Bb]. apply list.Forall_cons. split; [by apply lxor_byte|by apply IH].
Qed.

Lemma keystream_repeats_witness : exists c, NewPacketCryptor (repeat 5 16) = Some c /\
  zip_with Z.lxor (Crypt (Some c) [1; 2; 3] 7 (u16 65530)) (Crypt (Some c) [9; 8; 7] 7 (u16 (65530 + 65536))) = [8; 10; 4].
Proof.
  exists (mkPacketCryptor (Some (repeat 5 16)) (repeat 5 16)). split; [done|].
  rewrite (keystream_repeats (repeat 5 16) _ [1; 2; 3] [9; 8; 7] 7 65530); [done|split; [by repeat constructor|done]|done|done].
Defined.
