(* ===== verification/SecAuth.v ===== *)
(** The GB35114 state machines: the device's [Authenticator]
    ([security35114/authenticator.go]) and the platform's [Platform]
    ([security35114/platform.go]).

    Every operation is a function on the state. [VerifyRegister] gives its lock up
    between its checks and its update, so that it is two: [verify_check] and
    [verify_commit]. Entropy, the clock and the wording of dates are arguments, as
    in [Security]. *)

From S2P Require Import Prelude GoStrings GoText GoBase64 GoCrypto Digest SecHeaders Security Sdp.
Open Scope Z_scope.

Inductive sec_error :=
  | Header (e : header_error)
  | Entropy
  | Signing
  | Sealing
  | NotChallenged
  | CryptKeyRejected
  | NoPlatformCert
  | HandshakeMismatch
  | Sign2Rejected
  | ErrNoChallenge
  | ErrChallengeMismatch
  | ModeMismatch
  | ErrServerIDMismatch
  | DeviceIDMismatch
  | ErrDeviceCert
  | Sign1Rejected
  | ErrNoSession
  | NoteBeforeHandshake
  | NoteDateMalformed
  | NoteStale
  | NoteRejected (e : note_error)
  | BadOffer
  | EnvelopeRejected.

Section Device.

Context `{Gmsm}.

(** ** The device *)

Record Options := mkOptions {
  Device : Identity;
  PlatformCert : option Certificate;
  o_DeviceID : text;
  o_ServerID : text;
  KeyVersion : text;
  IncludeDeviceCert : bool;
  o_RandomEncoding : RandomEncoding;
  o_Sign2Order : Sign2Order;
}.

(** An empty [a_mode] is none. *)
Record Authenticator := mkAuthenticator {
  a_mode : Mode;
  a_random1 : text;
  a_random2 : text;
  a_vkek : option (list Z);
  a_vkekVer : Z;
  handshakeVer : Z;
}.

#[export] Instance eta_Authenticator : Eta Authenticator := fun a =>
  mkAuthenticator (a_mode a) (a_random1 a) (a_random2 a) (a_vkek a) (a_vkekVer a) (handshakeVer a).

(** [New]: a missing identity or ID is an error. *)
Definition New (device : option Identity) (platformCert : option Certificate) (deviceID serverID keyVersion : text)
    (includeCert : bool) (enc : RandomEncoding) (order : Sign2Order) (now_date : text) : option (Options * Authenticator) :=
  match device with
  | None => None
  | Some d =>
      if is_empty deviceID || is_empty serverID then None
      else Some (mkOptions d platformCert deviceID serverID (match keyVersion with [] => now_date | v => v end) includeCert enc order,
                 mkAuthenticator [] [] [] None 0 0)
  end.

Context (opts : Options).

Definition newRandom (reader : option (list Z)) : option text :=
  buf ← read_full 16 reader; Some (EncodeToString buf).

Definition InitialAuthorization : text :=
  if IncludeDeviceCert opts then BuildCapabilityAuthorization (KeyVersion opts) (id_CertPEM (Device opts))
  else BuildCapabilityAuthorization (KeyVersion opts) [].

Definition AuthorizeWithChallenge (reader : option (list Z)) (e : Z) (wwwAuthenticate : text) (a : Authenticator) :
    (sec_error + text) * Authenticator :=
  match ParseChallenge wwwAuthenticate with
  | inl err => (inl (Header err), a)
  | inr ch =>
      match newRandom reader with
      | None => (inl Entropy, a)
      | Some random2 =>
          let payload := SignAuthPayload (ch_Random1 ch) random2 (o_ServerID opts) (o_RandomEncoding opts) in
          match SignMessage e (id_PrivateKey (Device opts)) payload with
          | None => (inl Signing, a)
          | Some sign1 =>
              (inr (BuildAuthAuthorization ch random2 (o_ServerID opts) (o_DeviceID opts) sign1),
               a <| a_mode := ch_Mode ch |> <| a_random1 := ch_Random1 ch |> <| a_random2 := random2 |>)
          end
      end
  end.

Definition VerifyOK (securityInfo : text) (a : Authenticator) : option sec_error * Authenticator :=
  if is_empty (a_mode a) then (Some NotChallenged, a) else
  match ParseSecurityInfo securityInfo with
  | inl err => (Some (Header err), a)
  | inr si =>
      match DecryptVKEK (id_PrivateKey (Device opts)) (si_CryptKey si) with
      | None => (Some CryptKeyRejected, a)
      | Some vkek =>
          let refused :=
            if bool_decide (si_Mode si = ModeBidirection) then
              match PlatformCert opts with
              | None => Some NoPlatformCert
              | Some cert =>
                  if negb (bool_decide (si_Random1 si = a_random1 a)) || negb (bool_decide (si_Random2 si = a_random2 a))
                     || negb (bool_decide (si_DeviceID si = o_DeviceID opts)) || negb (bool_decide (si_ServerID si = o_ServerID opts))
                  then Some HandshakeMismatch
                  else if VerifyMessage cert (Sign2Payload (si_Random1 si) (si_Random2 si) (si_DeviceID si) (si_CryptKey si)
                                                (o_Sign2Order opts) (o_RandomEncoding opts)) (si_Sign2 si)
                       then None else Some Sign2Rejected
              end
            else None in
          match refused with
          | Some err => (Some err, a)
          | None => (None, a <| a_vkekVer := a_vkekVer a + 1 |> <| a_vkek := Some vkek |> <| handshakeVer := si_VKEKVer si |>)
          end
      end
  end.

(** Date and Note of an outgoing request; empty before the handshake. *)
Definition DecorateOutgoing (date : text) (method from to callID body : text) (a : Authenticator) : text * text :=
  match a_vkek a with
  | None => ([], [])
  | Some vkek => if bool_decide (method = txt "REGISTER") then ([], [])
                 else (date, BuildNoteHeader method from to callID date vkek body VKEKRaw)
  end.

(** Five minutes, in nanoseconds. *)
Definition NoteFreshnessWindow : Z := 300 * 1000000000.

(** [parse_date] is [time.Parse] on the Date layout; [now] the clock. *)
Definition VerifyIncomingNote (parse_date : text -> option Z) (now : Z) (method from to callID date note body : text)
    (a : Authenticator) : option sec_error :=
  match note with
  | [] => None
  | _ =>
      match a_vkek a with
      | None => Some NoteBeforeHandshake
      | Some vkek =>
          match parse_date date with
          | None => Some NoteDateMalformed
          | Some stamp =>
              let skew := now - stamp in
              if (NoteFreshnessWindow <? skew) || (skew <? - NoteFreshnessWindow) then Some NoteStale
              else match VerifyNoteHeader note method from to callID date vkek body VKEKRaw with
                   | Some err => Some (NoteRejected err)
                   | None => None
                   end
          end
      end
  end.

Definition vkekVersion (a : Authenticator) : Z := if 0 <? handshakeVer a then handshakeVer a else a_vkekVer a.

(** The value of the answer and the encryptor; an empty value is a plain session. *)
Definition AnswerMediaSecurity (reader : option (list Z)) (offerValue : text) (a : Authenticator) :
    sec_error + text * option PacketCryptor :=
  match ParseSDPSecurity offerValue with
  | None => inl BadOffer
  | Some sec =>
      if negb (AtLeast (sec_Level sec) LevelB) then inr ([], None)
      else if negb (AtLeast (sec_Level sec) LevelC) then inr (SDPSecurityAnswer LevelB [] 0, None)
      else match a_vkek a with
           | None => inl NotChallenged
           | Some vkek =>
               match GenerateVEK reader with
               | None => inl Entropy
               | Some vek =>
                   match SealVEK vkek vek, NewPacketCryptor vek with
                   | Some envelope, Some c => inr (SDPSecurityAnswer LevelC envelope (vkekVersion a), Some c)
                   | _, _ => inl Sealing
                   end
               end
           end
  end.

Definition VerifyMediaSignature (au : list Z) (ssrc timestamp : Z) (sigDER : list Z) : bool :=
  match PlatformCert opts with None => false | Some cert => VerifyAU cert au ssrc timestamp sigDER end.

(** The decryptor, and whether signatures are verified with [VerifyMediaSignature]. *)
Definition OpenMediaSecurity (offerValue : text) (a : Authenticator) : sec_error + option PacketCryptor * bool :=
  match ParseSDPSecurity offerValue with
  | None => inl BadOffer
  | Some sec =>
      if negb (AtLeast (sec_Level sec) LevelB) then inr (None, false)
      else if negb (AtLeast (sec_Level sec) LevelC) || is_empty (sec_VEKEnvelope sec) then inr (None, true)
      else match a_vkek a with
           | None => inl NotChallenged
           | Some vkek => match OpenVEK vkek (sec_VEKEnvelope sec) with
                          | None => inl EnvelopeRejected
                          | Some vek => match NewPacketCryptor vek with Some c => inr (Some c, true) | None => inl Sealing end
                          end
           end
  end.

Definition DeviceSignAU (e : Z) (au : list Z) (ssrc timestamp : Z) : option (list Z) :=
  SignAU e (id_PrivateKey (Device opts)) au ssrc timestamp.

End Device.

Section Platform.

Context `{Gmsm}.

(** ** The platform *)

Record PlatformConfig := mkPlatformConfig {
  p_ServerID : text;
  p_Identity : option Identity;
  DeviceCerts : gmap text Certificate;
  p_Mode : Mode;
  p_RandomEncoding : RandomEncoding;
  p_Sign2Order : Sign2Order;
  p_VKEKEncoding : VKEKEncoding;
  VKEKLen : Z;
  p_Level : Level;
}.

#[export] Instance eta_PlatformConfig : Eta PlatformConfig := fun c =>
  mkPlatformConfig (p_ServerID c) (p_Identity c) (DeviceCerts c) (p_Mode c) (p_RandomEncoding c) (p_Sign2Order c)
    (p_VKEKEncoding c) (VKEKLen c) (p_Level c).

(** [vkekPrev] has the superseded keys with their generations, newest first. *)
Record platformSession := mkSession {
  s_mode : Mode;
  s_random1 : text;
  announcedCert : option Certificate;
  s_vkek : option (list Z);
  s_vkekVer : Z;
  vkekPrev : list (Z * list Z);
  lastAuth : text;
  lastSecurityInfo : text;
}.

#[export] Instance eta_platformSession : Eta platformSession := fun s =>
  mkSession (s_mode s) (s_random1 s) (announcedCert s) (s_vkek s) (s_vkekVer s) (vkekPrev s) (lastAuth s) (lastSecurityInfo s).

Definition empty_session : platformSession := mkSession [] [] None None 0 [] [] [].

(** [Platform] is its sessions by device. [NewPlatform]: the configuration with its
    defaults. The level is a string. *)
Definition NewPlatform (cfg : PlatformConfig) (level : text) : option (PlatformConfig * gmap text platformSession) :=
  if is_empty (p_ServerID cfg) then None else
  let mode := if is_empty (p_Mode cfg) then Some (match p_Identity cfg with Some _ => ModeBidirection | None => ModeUnidirection end)
              else if bool_decide (p_Mode cfg = ModeBidirection) then match p_Identity cfg with Some _ => Some ModeBidirection | None => None end
              else if bool_decide (p_Mode cfg = ModeUnidirection) then Some ModeUnidirection else None in
  match mode, ParseLevel level with
  | Some m, Some l => Some (cfg <| p_Mode := m |> <| VKEKLen := if VKEKLen cfg <=? 0 then 16 else VKEKLen cfg |> <| p_Level := l |>, ∅)
  | _, _ => None
  end.

Context (cfg : PlatformConfig) (pem_Decode : list Z -> option (text * list Z)).

Definition resolveCert (deviceID : text) (s : platformSession) : option Certificate :=
  match DeviceCerts cfg !! deviceID with Some cert => Some cert | None => announcedCert s end.

(** A certificate that a Capability announcement carries. *)
Definition announce (cert : option Certificate) (s : platformSession) : platformSession :=
  match cert with Some c => s <| announcedCert := Some c |> | None => s end.

(** [Challenge]: the value of WWW-Authenticate; [None] when the reader fails. *)
Definition PlatformChallenge (reader : option (list Z)) (deviceID capabilityAuthorization : text) (p : gmap text platformSession) : option text * gmap text platformSession :=
  match newRandom reader with
  | None => (None, p)
  | Some random1 =>
      let s := default empty_session (p !! deviceID) in
      let s := s <| s_mode := p_Mode cfg |> <| s_random1 := random1 |> <| lastAuth := [] |> <| lastSecurityInfo := [] |> in
      let cert := if is_empty capabilityAuthorization then None else
                  match ParseCapabilityAuthorization capabilityAuthorization with
                  | inr ann => match ann_DeviceCertPEM ann with [] => None | pem => ParseCertificatePEM pem_Decode pem end
                  | inl _ => None
                  end in
      (Some (BuildChallenge (p_Mode cfg) random1), <[deviceID := announce cert s]> p)
  end.

(** What the checks of [VerifyRegister] end with: an error, the answer of a
    retransmission, or a new key with its SecurityInfo but for the generation. *)
Inductive verdict :=
  | Refused (err : sec_error)
  | Retransmission (securityInfo : text)
  | Accepted (vkek : list Z) (si : SecurityInfo).

Definition verify_check (reader : option (list Z)) (e1 e2 : Z) (deviceID authorization : text) (p : gmap text platformSession) : verdict :=
  match ParseAuthAuthorization authorization with
  | inl err => Refused (Header err)
  | inr aa =>
      match p !! deviceID with
      | None => Refused ErrNoChallenge
      | Some s =>
          if bool_decide (authorization = lastAuth s) then Retransmission (lastSecurityInfo s)
          else if negb (bool_decide (aa_Random1 aa = s_random1 s)) then Refused ErrChallengeMismatch
          else if negb (bool_decide (aa_Mode aa = s_mode s)) then Refused ModeMismatch
          else if negb (bool_decide (aa_ServerID aa = p_ServerID cfg)) then Refused ErrServerIDMismatch
          else if negb (is_empty (aa_DeviceID aa)) && negb (bool_decide (aa_DeviceID aa = deviceID)) then Refused DeviceIDMismatch
          else
            match resolveCert deviceID s with
            | None => Refused ErrDeviceCert
            | Some cert =>
                match CertKey cert with
                | None => Refused ErrDeviceCert
                | Some pub =>
                    if negb (VerifyMessage cert (SignAuthPayload (aa_Random1 aa) (aa_Random2 aa) (aa_ServerID aa) (p_RandomEncoding cfg)) (aa_Sign1 aa))
                    then Refused Sign1Rejected
                    else
                      match read_full (Z.to_nat (VKEKLen cfg)) reader with
                      | None => Refused Entropy
                      | Some vkek =>
                          match EncryptVKEK e1 pub vkek with
                          | None => Refused Sealing
                          | Some cryptKey =>
                              if bool_decide (aa_Mode aa = ModeBidirection) then
                                match p_Identity cfg with
                                | None => Refused Signing
                                | Some id =>
                                    match SignMessage e2 (id_PrivateKey id) (Sign2Payload (aa_Random1 aa) (aa_Random2 aa) deviceID cryptKey
                                                                               (p_Sign2Order cfg) (p_RandomEncoding cfg)) with
                                    | None => Refused Signing
                                    | Some sign2 => Accepted vkek (mkSecurityInfo (aa_Mode aa) CapabilityAlgorithm (aa_Random1 aa) (aa_Random2 aa)
                                                                     deviceID (p_ServerID cfg) cryptKey sign2 0)
                                    end
                                end
                              else Accepted vkek (mkSecurityInfo (aa_Mode aa) CapabilityAlgorithm [] [] [] [] cryptKey [] 0)
                          end
                      end
                end
            end
      end
  end.

Definition with_ver (si : SecurityInfo) (ver : Z) : SecurityInfo :=
  mkSecurityInfo (si_Mode si) (si_Algorithm si) (si_Random1 si) (si_Random2 si) (si_DeviceID si) (si_ServerID si)
    (si_CryptKey si) (si_Sign2 si) ver.

(** The update; the session is the one the checks found, as it is now. *)
Definition verify_commit (deviceID authorization : text) (vkek : list Z) (si : SecurityInfo) (p : gmap text platformSession) : text * gmap text platformSession :=
  let s := default empty_session (p !! deviceID) in
  let prev := match s_vkek s with Some old => take 2 ((s_vkekVer s, old) :: vkekPrev s) | None => vkekPrev s end in
  let ver := s_vkekVer s + 1 in
  let securityInfo := BuildSecurityInfo (with_ver si ver) in
  (securityInfo, <[deviceID := s <| vkekPrev := prev |> <| s_vkekVer := ver |> <| s_vkek := Some vkek |>
                                 <| lastAuth := authorization |> <| lastSecurityInfo := securityInfo |>]> p).

(** [VerifyRegister], when no other call comes in between. *)
Definition PlatformVerifyRegister (reader : option (list Z)) (e1 e2 : Z) (deviceID authorization : text) (p : gmap text platformSession) :
    (sec_error + text) * gmap text platformSession :=
  match verify_check reader e1 e2 deviceID authorization p with
  | Refused err => (inl err, p)
  | Retransmission si => (inr si, p)
  | Accepted vkek si => let (out, p') := verify_commit deviceID authorization vkek si p in (inr out, p')
  end.

Definition VKEK (deviceID : text) (p : gmap text platformSession) : option (list Z) :=
  match p !! deviceID with Some s => s_vkek s | None => None end.

Definition VerifyNote (deviceID note method from to callID date body : text) (p : gmap text platformSession) : option sec_error :=
  match note with
  | [] => None
  | _ => match VKEK deviceID p with
         | None => Some ErrNoSession
         | Some vkek => match VerifyNoteHeader note method from to callID date vkek body (p_VKEKEncoding cfg) with
                        | Some err => Some (NoteRejected err)
                        | None => None
                        end
         end
  end.

Definition DecorateDownstream (date : text) (deviceID method from to callID body : text) (p : gmap text platformSession) : text * text :=
  match VKEK deviceID p with
  | None => ([], [])
  | Some vkek => if bool_decide (method = txt "REGISTER") then ([], [])
                 else (date, BuildNoteHeader method from to callID date vkek body (p_VKEKEncoding cfg))
  end.

Definition MediaSDPOffer : text := if AtLeast (p_Level cfg) LevelB then SDPSecurityOffer (p_Level cfg) else [].

Fixpoint find_key (ver : Z) (l : list (Z * list Z)) : option (list Z) :=
  match l with
  | [] => None
  | (v, key) :: rest => if v =? ver then Some key else find_key ver rest
  end.

Definition vkekForVersionLocked (s : platformSession) (ver : Z) : option (list Z) :=
  match s_vkek s with
  | None => None
  | Some key => if (ver <=? 0) || (ver =? s_vkekVer s) then Some key else find_key ver (vkekPrev s)
  end.

Definition NewMediaDecryptor (deviceID envelope : text) (vkekVer : Z) (p : gmap text platformSession) : sec_error + PacketCryptor :=
  match p !! deviceID with
  | None => inl ErrNoSession
  | Some s => match vkekForVersionLocked s vkekVer with
              | None => inl ErrNoSession
              | Some vkek => match OpenVEK vkek envelope with
                             | None => inl EnvelopeRejected
                             | Some vek => match NewPacketCryptor vek with Some c => inr c | None => inl Sealing end
                             end
              end
  end.

Definition VerifyAUSignature (deviceID : text) (au : list Z) (ssrc timestamp : Z) (sigDER : list Z) (p : gmap text platformSession) : bool :=
  match p !! deviceID with
  | None => false
  | Some s => match resolveCert deviceID s with None => false | Some cert => VerifyAU cert au ssrc timestamp sigDER end
  end.

(** [NewMediaEncryptor]: the offer's value, the encryptor and whether access
    units are signed. *)
Definition NewMediaEncryptor (reader : option (list Z)) (deviceID : text) (p : gmap text platformSession) : sec_error + text * option PacketCryptor * bool :=
  if negb (AtLeast (p_Level cfg) LevelB) then inr ([], None, false)
  else if negb (AtLeast (p_Level cfg) LevelC) then inr (SDPSecurityOffer LevelB, None, true)
  else match p !! deviceID with
       | None => inl ErrNoSession
       | Some s =>
           match s_vkek s with
           | None => inl ErrNoSession
           | Some vkek =>
               match GenerateVEK reader with
               | None => inl Entropy
               | Some vek => match SealVEK vkek vek, NewPacketCryptor vek with
                             | Some envelope, Some c => inr (SDPSecurityAnswer LevelC envelope (s_vkekVer s), Some c, true)
                             | _, _ => inl Sealing
                             end
               end
           end
       end.

(** The signer that [NewMediaEncryptor] returns; the outer option is the nil
    dereference of a missing identity. *)
Definition PlatformSignAU (e : Z) (au : list Z) (ssrc timestamp : Z) : option (option (list Z)) :=
  match p_Identity cfg with None => None | Some id => Some (SignAU e (id_PrivateKey id) au ssrc timestamp) end.

Definition sdpsAttributeValue (sdp : text) : text := security_lines (Split sdp LF).

(** [ArmMediaSecurity]: the decryptor, and whether signatures are verified with
    [VerifyAUSignature]. *)
Definition ArmMediaSecurity (deviceID answerSDP : text) (p : gmap text platformSession) : sec_error + option PacketCryptor * bool :=
  match sdpsAttributeValue answerSDP with
  | [] => inr (None, false)
  | v =>
      match ParseSDPSecurity v with
      | None => inl BadOffer
      | Some sec =>
          if negb (AtLeast (sec_Level sec) LevelB) then inr (None, false)
          else if negb (AtLeast (sec_Level sec) LevelC) || is_empty (sec_VEKEnvelope sec) then inr (None, true)
          else match NewMediaDecryptor deviceID (sec_VEKEnvelope sec) (sec_VKEKVer sec) p with
               | inl err => inl err
               | inr c => inr (Some c, true)
               end
      end
  end.

End Platform.

(** ** Lemmas: the exchange of one device with one platform *)

Section Handshake.

Context `{GmsmLaws}.
Context (opts : Options) (cfg : PlatformConfig) (pem_Decode : list Z -> option (text * list Z)).

(** The certificate under which the platform knows the device. *)
Definition provisioned (cert : Certificate) : Prop :=
  DeviceCerts cfg !! o_DeviceID opts = Some cert \/
  DeviceCerts cfg !! o_DeviceID opts = None /\ IncludeDeviceCert opts = true /\ bytes_ok (id_CertPEM (Device opts)) /\
  id_CertPEM (Device opts) <> [] /\ ParseCertificatePEM pem_Decode (id_CertPEM (Device opts)) = Some cert.

(** Both sides are set up for each other. *)
Record set_up : Prop := {
  server_same : p_ServerID cfg = o_ServerID opts;
  server_ok : plain (o_ServerID opts) /\ o_ServerID opts <> [];
  device_ok : plain (o_DeviceID opts) /\ o_DeviceID opts <> [];
  version_ok : plain (KeyVersion opts);
  mode_ok : known_mode (p_Mode cfg);
  encoding_same : p_RandomEncoding cfg = o_RandomEncoding opts;
  order_same : p_Sign2Order cfg = o_Sign2Order opts;
  length_ok : VKEKLen cfg = 16;
  device_cert : exists cert, provisioned cert /\ CertKey cert = Some (Public (id_PrivateKey (Device opts)));
  platform_cert : p_Mode cfg = ModeBidirection -> exists id cert, p_Identity cfg = Some id /\ PlatformCert opts = Some cert /\
    CertKey cert = Some (Public (id_PrivateKey id));
}.

Definition generation (deviceID : text) (p : gmap text platformSession) : Z := match p !! deviceID with Some s => s_vkekVer s | None => 0 end.

(** The four messages of the handshake; [None] when a step fails. *)
Definition handshake (r1 r2 rk : list Z) (e1 e2 e3 : Z) (p : gmap text platformSession) (a : Authenticator) : option (gmap text platformSession * Authenticator) :=
  match PlatformChallenge cfg pem_Decode (Some r1) (o_DeviceID opts) (InitialAuthorization opts) p with
  | (None, _) => None
  | (Some www, p) =>
      match AuthorizeWithChallenge opts (Some r2) e1 www a with
      | (inl _, _) => None
      | (inr authorization, a) =>
          match PlatformVerifyRegister cfg (Some rk) e2 e3 (o_DeviceID opts) authorization p with
          | (inl _, _) => None
          | (inr si, p) => match VerifyOK opts si a with (None, a) => Some (p, a) | (Some _, _) => None end
          end
      end
  end.

Definition drawn (n : nat) (l : list Z) : Prop := bytes_ok l /\ length l = n.

Lemma newRandom_drawn l : drawn 16 l -> newRandom (Some l) = Some (EncodeToString l) /\ plain (EncodeToString l) /\ EncodeToString l <> [].
Proof.
  intros [B L]. unfold newRandom, read_full. rewrite L. cbn [Nat.eqb mbind option_bind]. split; [done|]. split; [by apply plain_b64|].
  apply encode_ne. by destruct l.
Qed.

Lemma announce_keeps c s : s_vkekVer (announce c s) = s_vkekVer s /\ s_mode (announce c s) = s_mode s /\
  s_random1 (announce c s) = s_random1 s /\ lastAuth (announce c s) = lastAuth s /\ s_vkek (announce c s) = s_vkek s /\
  vkekPrev (announce c s) = vkekPrev s.
Proof. by destruct c. Qed.

(** What the platform stores when it challenges the device. *)
Lemma challenged r1 p : set_up -> drawn 16 r1 ->
  exists s cert, PlatformChallenge cfg pem_Decode (Some r1) (o_DeviceID opts) (InitialAuthorization opts) p =
    (Some (BuildChallenge (p_Mode cfg) (EncodeToString r1)), <[o_DeviceID opts := s]> p) /\
    s_mode s = p_Mode cfg /\ s_random1 s = EncodeToString r1 /\ lastAuth s = [] /\ s_vkekVer s = generation (o_DeviceID opts) p /\
    resolveCert cfg (o_DeviceID opts) s = Some cert /\ CertKey cert = Some (Public (id_PrivateKey (Device opts))).
Proof.
  intros U D. destruct (newRandom_drawn r1 D) as (E & _ & _). unfold PlatformChallenge. rewrite E.
  destruct (device_cert U) as (cert & P & K). eexists _, cert. split; [reflexivity|].
  match goal with |- context [announce ?x ?y] => set (c := x); set (s0 := y) end.
  destruct (announce_keeps c s0) as (-> & -> & -> & -> & _). do 3 (split; [done|]).
  split; [unfold s0, generation; cbn; by destruct (p !! _)|].
  split; [|done]. unfold resolveCert. destruct P as [-> | (-> & I & B & Ne & P)]; [done|].
  enough (c = Some cert) as -> by done. unfold c, InitialAuthorization. rewrite I.
  rewrite is_empty_false by done. rewrite capability_read by (done || apply U). cbn [ann_DeviceCertPEM].
  by destruct (id_CertPEM (Device opts)).
Qed.

Lemma BuildAuth_ne ch r2 sid did s1 : BuildAuthAuthorization ch r2 sid did s1 <> [].
Proof. unfold BuildAuthAuthorization. cbv zeta. destruct (ch_Mode ch); [done|]. done. Qed.

(** How the SecurityInfo of a mode reads. *)
Definition info_of (mode : Mode) (r1 r2 did sid ck s2 : text) (ver : Z) : SecurityInfo :=
  if bool_decide (mode = ModeBidirection) then mkSecurityInfo mode CapabilityAlgorithm r1 r2 did sid ck s2 ver
  else mkSecurityInfo mode CapabilityAlgorithm [] [] [] [] ck [] ver.

Lemma info_read mode r1 r2 did sid ck s2 ver : known_mode mode ->
  Forall plain [r1; r2; did; sid; ck; s2] -> Forall (fun t => t <> []) [r1; r2; did; sid; ck; s2] -> 0 < ver < 2 ^ 63 ->
  ParseSecurityInfo (BuildSecurityInfo (info_of mode r1 r2 did sid ck s2 ver)) = inr (info_of mode r1 r2 did sid ck s2 ver).
Proof.
  intros Hm P N Hv. assert (plain CapabilityAlgorithm) by by apply plain_lit. unfold info_of. destruct Hm as [-> | ->].
  - rewrite bool_decide_eq_false_2 by done. rewrite !list.Forall_cons in P. rewrite !list.Forall_cons in N.
    apply security_info_uni; [done|apply P|apply N|done].
  - rewrite bool_decide_eq_true_2 by done. apply security_info_bi; [by apply list.Forall_cons|done|done].
Qed.

(** The platform accepts the Authorization that answers its challenge. *)
Lemma register_verified r1 r2 rk e2 e3 p s cert sign1 :
  set_up -> drawn 16 r1 -> drawn 16 r2 -> drawn 16 rk ->
  s_mode s = p_Mode cfg -> s_random1 s = EncodeToString r1 -> lastAuth s = [] ->
  resolveCert cfg (o_DeviceID opts) s = Some cert -> CertKey cert = Some (Public (id_PrivateKey (Device opts))) ->
  VerifyMessage cert (SignAuthPayload (EncodeToString r1) (EncodeToString r2) (o_ServerID opts) (o_RandomEncoding opts)) sign1 = true ->
  plain sign1 -> sign1 <> [] ->
  let mode := p_Mode cfg in
  let authorization := BuildAuthAuthorization (mkChallenge mode (txt "A:SM2;H:SM3") (EncodeToString r1)) (EncodeToString r2)
                         (o_ServerID opts) (o_DeviceID opts) sign1 in
  exists ck s2, verify_check cfg (Some rk) e2 e3 (o_DeviceID opts) authorization (<[o_DeviceID opts := s]> p) =
    Accepted rk (info_of mode (EncodeToString r1) (EncodeToString r2) (o_DeviceID opts) (o_ServerID opts) ck s2 0) /\
    DecryptVKEK (id_PrivateKey (Device opts)) ck = Some rk /\ Forall plain [ck; s2] /\ Forall (fun t => t <> []) [ck; s2] /\
    (mode = ModeBidirection -> exists pc, PlatformCert opts = Some pc /\
       VerifyMessage pc (Sign2Payload (EncodeToString r1) (EncodeToString r2) (o_DeviceID opts) ck (o_Sign2Order opts) (o_RandomEncoding opts)) s2 = true).
Proof.
  intros U D1 D2 Dk S1 S2 S3 RC K V P1 N1 mode authorization.
  destruct (newRandom_drawn r1 D1) as (_ & Pr1 & Nr1). destruct (newRandom_drawn r2 D2) as (_ & Pr2 & Nr2).
  destruct (server_ok U) as [Ps Ns]. destruct (device_ok U) as [Pd Nd]. destruct Dk as [Bk Lk].
  destruct (vkek_opened e2 (id_PrivateKey (Device opts)) rk Bk) as (ck & Ec & Dc & Pc & Nc).
  unfold verify_check, authorization. rewrite authorization_read by (done || apply U). cbn [ch_Mode ch_Random1].
  rewrite lookup_insert_eq, S3. rewrite bool_decide_eq_false_2 by apply BuildAuth_ne.
  cbn [aa_Random1 aa_Mode aa_ServerID aa_DeviceID aa_Sign1 aa_Random2]. rewrite S1, S2, (server_same U).
  rewrite !bool_decide_eq_true_2 by done. cbn [negb].
  assert (Hd : negb (is_empty (if bool_decide (mode = ModeBidirection) then o_DeviceID opts else [])) &&
    negb (bool_decide ((if bool_decide (mode = ModeBidirection) then o_DeviceID opts else []) = o_DeviceID opts)) = false).
  { destruct (bool_decide (mode = ModeBidirection)); [|done]. rewrite (bool_decide_eq_true_2 (o_DeviceID opts = _)) by done. apply andb_false_r. }
  fold mode. rewrite Hd, RC, K, (encoding_same U), V. cbn [negb]. unfold read_full. rewrite (length_ok U), Lk. change (Nat.eqb 16 (Z.to_nat 16)) with true. cbv iota.
  rewrite Ec. unfold info_of. case_bool_decide as Hm.
  - destruct (platform_cert U Hm) as (id & pc & Ei & Ep & Kp). rewrite Ei, (order_same U).
    destruct (message_verified e3 (id_PrivateKey id) pc (Sign2Payload (EncodeToString r1) (EncodeToString r2) (o_DeviceID opts) ck
      (o_Sign2Order opts) (o_RandomEncoding opts)) Kp) as (s2 & Es & Vs & P2 & N2). rewrite Es.
    exists ck, s2. split; [done|]. split; [done|]. split; [by repeat (apply list.Forall_cons; split; [done|])|].
    split; [by repeat (apply list.Forall_cons; split; [done|])|]. intros _. by exists pc.
  - exists ck, [0x30]. split; [done|]. split; [done|]. split; [repeat (apply list.Forall_cons; split; [done|]); by repeat constructor|].
    split; [by repeat (apply list.Forall_cons; split; [done|])|done].
Qed.

(** The device accepts the SecurityInfo that answers its Authorization. *)
Lemma ok_verified mode r1 r2 ck s2 rk ver a :
  known_mode mode -> Forall plain [r1; r2; o_DeviceID opts; o_ServerID opts; ck; s2] ->
  Forall (fun t => t <> []) [r1; r2; o_DeviceID opts; o_ServerID opts; ck; s2] -> 0 < ver < 2 ^ 63 ->
  a_mode a = mode -> a_random1 a = r1 -> a_random2 a = r2 -> DecryptVKEK (id_PrivateKey (Device opts)) ck = Some rk ->
  (mode = ModeBidirection -> exists pc, PlatformCert opts = Some pc /\
     VerifyMessage pc (Sign2Payload r1 r2 (o_DeviceID opts) ck (o_Sign2Order opts) (o_RandomEncoding opts)) s2 = true) ->
  VerifyOK opts (BuildSecurityInfo (info_of mode r1 r2 (o_DeviceID opts) (o_ServerID opts) ck s2 ver)) a =
  (None, a <| a_vkekVer := a_vkekVer a + 1 |> <| a_vkek := Some rk |> <| handshakeVer := ver |>).
Proof.
  intros Hm P N Hv A1 A2 A3 D V. unfold VerifyOK. rewrite A1, is_empty_false by (destruct Hm as [-> | ->]; done).
  rewrite info_read by done. unfold info_of. case_bool_decide as Hb; cbn [si_CryptKey si_Mode]; rewrite D.
  - rewrite bool_decide_eq_true_2 by done. destruct (V Hb) as (pc & -> & Vs).
    cbn [si_Random1 si_Random2 si_DeviceID si_ServerID si_Sign2]. rewrite A2, A3, !bool_decide_eq_true_2 by done. cbn [negb orb].
    by rewrite Vs.
  - by rewrite bool_decide_eq_false_2.
Qed.

(** ** Theorems: the handshake *)

(** C9: A device and a platform that are set up for each other agree on a key:
    whatever either side stored before, the four messages of the handshake all
    succeed; afterwards both hold the key that the platform drew, under the same
    generation, which is the one after the device's last, and the sessions of
    other devices are as they were. *)
Theorem handshake_agrees r1 r2 rk e1 e2 e3 p a :
  set_up -> drawn 16 r1 -> drawn 16 r2 -> drawn 16 rk -> 0 <= generation (o_DeviceID opts) p < 2 ^ 62 ->
  exists p' a', handshake r1 r2 rk e1 e2 e3 p a = Some (p', a') /\
    a_vkek a' = Some rk /\ VKEK (o_DeviceID opts) p' = Some rk /\
    vkekVersion a' = generation (o_DeviceID opts) p' /\ generation (o_DeviceID opts) p' = generation (o_DeviceID opts) p + 1 /\
    forall other, other <> o_DeviceID opts -> p' !! other = p !! other.
Proof.
  intros U D1 D2 Dk G. destruct (challenged r1 p U D1) as (s & cert & Ec & S1 & S2 & S3 & S4 & RC & K).
  destruct (newRandom_drawn r1 D1) as (_ & Pr1 & Nr1). destruct (newRandom_drawn r2 D2) as (E2 & Pr2 & Nr2).
  set (pay := SignAuthPayload (EncodeToString r1) (EncodeToString r2) (o_ServerID opts) (o_RandomEncoding opts)).
  destruct (message_verified e1 (id_PrivateKey (Device opts)) cert pay K) as (sign1 & Es & V & P1 & N1).
  destruct (register_verified r1 r2 rk e2 e3 p s cert sign1 U D1 D2 Dk S1 S2 S3 RC K V P1 N1) as (ck & s2 & Ev & Dc & Pck & Nck & V2).
  destruct (server_ok U) as [Ps Ns]. destruct (device_ok U) as [Pd Nd].
  rewrite !list.Forall_cons in Pck. rewrite !list.Forall_cons in Nck. destruct Pck as (Pck & Ps2 & _). destruct Nck as (Nck & Ns2 & _).
  unfold handshake. rewrite Ec. unfold AuthorizeWithChallenge. rewrite challenge_read by (done || apply U). rewrite E2. cbn [ch_Random1 ch_Mode].
  fold pay. rewrite Es. unfold PlatformVerifyRegister. rewrite Ev. unfold verify_commit. rewrite lookup_insert_eq. cbn [default].
  set (ver := s_vkekVer s + 1). assert (Hw : forall m b, with_ver (info_of m (EncodeToString r1) (EncodeToString r2) (o_DeviceID opts) b ck s2 0) ver =
    info_of m (EncodeToString r1) (EncodeToString r2) (o_DeviceID opts) b ck s2 ver) by (intros m b; unfold info_of; by destruct (bool_decide _)).
  rewrite Hw. rewrite ok_verified with (rk := rk); try done; [..|by apply U| | |unfold ver; lia];
    try by repeat (apply list.Forall_cons; split; [done|]).
  eexists _, _. split; [reflexivity|]. split; [done|]. unfold VKEK, generation at 1 2. rewrite lookup_insert_eq.
  split; [done|]. split.
  { unfold vkekVersion. cbn. fold ver. by rewrite (proj2 (Z.ltb_lt _ _)) by (unfold ver; lia). }
  split; [cbn; unfold ver; lia|]. intros other Ho. by rewrite !lookup_insert_ne.
Qed.

(** ** Theorems: signed requests *)

(** Once both sides hold a key, the requests of either side pass the check of
    the other: every request but REGISTER that the device decorates verifies at
    the platform, and one that the platform decorates verifies at the device
    while its Date is less than five minutes off, provided that the platform uses
    the raw key. *)
Theorem notes_accepted parse_date now date stamp method from to callID body vkek p a :
  p_VKEKEncoding cfg = VKEKRaw -> a_vkek a = Some vkek -> VKEK (o_DeviceID opts) p = Some vkek -> method <> txt "REGISTER" ->
  parse_date date = Some stamp -> - NoteFreshnessWindow <= now - stamp <= NoteFreshnessWindow ->
  (let (d, note) := DecorateOutgoing date method from to callID body a in
   note <> [] /\ VerifyNote cfg (o_DeviceID opts) note method from to callID d body p = None) /\
  (let (d, note) := DecorateDownstream cfg date (o_DeviceID opts) method from to callID body p in
   note <> [] /\ VerifyIncomingNote parse_date now method from to callID d note body a = None).
Proof.
  intros E A V M D W. unfold DecorateOutgoing, DecorateDownstream, VerifyNote, VerifyIncomingNote. rewrite A, V, E.
  rewrite bool_decide_eq_false_2 by done. pose proof (note_verifies method from to callID date vkek body VKEKRaw) as N.
  assert (Ne : BuildNoteHeader method from to callID date vkek body VKEKRaw <> []) by done.
  destruct (BuildNoteHeader method from to callID date vkek body VKEKRaw) as [|b n]; [done|]. rewrite D, N.
  by rewrite !(proj2 (Z.ltb_ge _ _)) by lia.
Qed.

(** C35: A device that was challenged for mutual authentication accepts an answer
    without any proof by the platform: whoever knows its public key can send a
    Unidirection SecurityInfo with a key of their own choice, and the device takes
    the key. *)
Theorem bidirection_downgraded e vkek ver a :
  a_mode a = ModeBidirection -> bytes_ok vkek -> 0 < ver < 2 ^ 63 ->
  exists ck, EncryptVKEK e (Public (id_PrivateKey (Device opts))) vkek = Some ck /\
    let '(err, a') := VerifyOK opts (BuildSecurityInfo (mkSecurityInfo ModeUnidirection CapabilityAlgorithm [] [] [] [] ck [] ver)) a in
    err = None /\ a_vkek a' = Some vkek.
Proof.
  intros A B Hv. destruct (vkek_opened e (id_PrivateKey (Device opts)) vkek B) as (ck & E & D & P & N).
  exists ck. split; [done|]. unfold VerifyOK. rewrite A. cbn [is_empty ModeBidirection txt]. change (is_empty ModeBidirection) with false. cbv iota.
  rewrite security_info_uni by (done || by apply plain_lit). cbn [si_CryptKey si_Mode]. rewrite D.
  by rewrite bool_decide_eq_false_2.
Qed.

(** ** Theorems: media *)

(** The lines of an answer in front of its security attribute. *)
Definition answer_lines (l : list text) : Prop :=
  Forall (fun s => Forall (fun b => b <> 0x0A) s /\ no_security (rev (drop_while (fun b => b =? 0x0D) (rev s))) = true) l.

Lemma answer_attribute l v : answer_lines l -> word v -> sdpsAttributeValue (Join (l ++ [txt "a=security:" ++ v]) LF) = v.
Proof.
  intros Hl [Nv Pv]. unfold sdpsAttributeValue, LF. rewrite Split_Join; [|by destruct l|].
  - induction Hl as [|s l [_ Hs] _ IH]; cbn [app security_lines].
    + assert (D : rev (drop_while (fun b => b =? 0x0D) (rev (txt "a=security:" ++ v))) = txt "a=security:" ++ v).
      { assert (W : starts_ok (rev v) = true) by by apply starts_ok_rev_word. rewrite rev_app_distr.
        destruct (rev v) as [|b r] eqn:E; [done|]. cbn [app drop_while]. cbn in W. unfold printable in W.
        rewrite (proj2 (Z.eqb_neq b 0x0D)) by lia. rewrite app_comm_cons, <- E, rev_app_distr, !rev_involutive. done. }
      rewrite D, HasPrefix_app, TrimPrefix_app, TrimSpace_id by done. by destruct v.
    + unfold no_security in Hs. apply negb_true_iff in Hs. rewrite Hs. exact IH.
  - apply Forall_app_2; [eapply Forall_impl; [|exact Hl]; by intros s [? _]|]. apply list.Forall_cons. split; [|by apply list.Forall_nil].
    apply Forall_app_2; [by apply no_byte|]. eapply Forall_impl; [|exact Pv]. intros b. unfold printable. lia.
Qed.

(** The media keys of a level C session agree. *)
Lemma media_keys_agree vek vkek l a s p cert :
  drawn 16 vek -> good_key vkek -> a_vkek a = Some vkek -> 0 <= vkekVersion a < 2 ^ 63 ->
  p !! o_DeviceID opts = Some s -> vkekForVersionLocked s (vkekVersion a) = Some vkek ->
  resolveCert cfg (o_DeviceID opts) s = Some cert -> CertKey cert = Some (Public (id_PrivateKey (Device opts))) ->
  answer_lines l ->
  exists value encrypt decrypt, AnswerMediaSecurity (Some vek) (SDPSecurityOffer LevelC) a = inr (value, Some encrypt) /\
    ArmMediaSecurity (o_DeviceID opts) (Join (l ++ [txt "a=security:" ++ value]) LF) p = inr (Some decrypt, true) /\
    (forall payload ssrc seq, Crypt (Some decrypt) (Crypt (Some encrypt) payload ssrc seq) ssrc seq = payload) /\
    forall e au ssrc timestamp, exists sig, DeviceSignAU opts e au ssrc timestamp = Some sig /\
      VerifyAUSignature cfg (o_DeviceID opts) au ssrc timestamp sig p = true.
Proof.
  intros [Bv Lv] [Bk Lk] A Hver Hs K RC CK Hl. destruct (seal_total vkek vek Bk Bv Lk Lv) as (env & Es & Ne & Fe).
  assert (C : NewPacketCryptor vek = Some (mkPacketCryptor (Some vek) vek)) by (unfold NewPacketCryptor; by rewrite Lv).
  unfold AnswerMediaSecurity. rewrite sdp_offer_read. cbn [sec_Level AtLeast level_order Z.leb Z.compare Pos.compare Pos.compare_cont negb].
  rewrite A. unfold GenerateVEK, read_full. rewrite Lv. change (Nat.eqb 16 VEKLen) with true. cbv iota. rewrite Es, C.
  eexists _, _, _. split; [reflexivity|]. split; [|split].
  - unfold ArmMediaSecurity. rewrite answer_attribute; [|done|].
    2:{ unfold SDPSecurityAnswer. rewrite is_empty_false by done. cbn [AtLeast level_order Z.leb Z.compare Pos.compare Pos.compare_cont andb negb].
        split; [done|]. destruct (b64_printable _ Fe) as [Pe _]. repeat (apply Forall_app_2; [by repeat constructor|]).
        destruct (0 <? vkekVersion a); [|by apply list.Forall_nil].
        apply Forall_app_2; [by repeat constructor|]. apply (Itoa_printable (vkekVersion a)). lia. }
    pose proof (sdp_answer_read env (vkekVersion a) Ne Fe Hver) as R. destruct (SDPSecurityAnswer LevelC env (vkekVersion a)) as [|b v]; [done|].
    rewrite R.
    cbn [sec_Level sec_VEKEnvelope sec_VKEKVer AtLeast level_order Z.leb Z.compare Pos.compare Pos.compare_cont negb orb].
    rewrite is_empty_false by done. unfold NewMediaDecryptor. rewrite Hs, K, (open_seal vkek vek env Bk Bv Es), C. reflexivity.
  - intros payload ssrc seq. by apply (crypt_crypt vek).
  - intros e au ssrc timestamp. unfold DeviceSignAU, SignAU, VerifyAUSignature, VerifyAU. rewrite Hs, RC, CK.
    destruct (sm2_signs e (id_PrivateKey (Device opts)) (AUSignPayload au ssrc timestamp)) as (sig & E & _ & _ & V).
    by exists sig.
Qed.

End Handshake.

(** ** A device and a platform *)

Definition demo_device_id : text := txt "34020000001320000001".
Definition demo_server_id : text := txt "34020000002000000001".

Definition demo_opts : Options := mkOptions (mkIdentity (H := plain_gmsm) 7 7 []) (Some 9) demo_device_id demo_server_id (txt "1") false
  ConcatWireStrings Sign2R1R2.

Definition demo_cfg : PlatformConfig := mkPlatformConfig demo_server_id (Some (mkIdentity (H := plain_gmsm) 9 9 [])) {[ demo_device_id := 7 ]}
  ModeBidirection ConcatWireStrings Sign2R1R2 VKEKRaw 16 LevelC.

Definition no_pem (b : list Z) : option (text * list Z) := None.
Definition fresh_device : Authenticator := mkAuthenticator [] [] [] None 0 0.
Definition sixteen (b : Z) : list Z := repeat b 16.

Lemma demo_set_up : set_up demo_opts demo_cfg no_pem.
Proof.
  split; try done; try (split; [by apply plain_lit|done]); try (by apply plain_lit).
  - by right.
  - exists 7. split; [by left|done].
  - intros _. by eexists _, 9.
Qed.

Lemma sixteen_drawn b : is_byte b -> drawn 16 (sixteen b).
Proof. intros Hb. split; [|done]. apply List.Forall_forall. intros x Hx. by apply repeat_spec in Hx as ->. Qed.

Lemma handshake_agrees_witness : exists p' a',
  handshake demo_opts demo_cfg no_pem (sixteen 1) (sixteen 2) (sixteen 3) 0 0 0 ∅ fresh_device = Some (p', a') /\ a_vkek a' = Some (sixteen 3).
Proof.
  destruct (handshake_agrees demo_opts demo_cfg no_pem (sixteen 1) (sixteen 2) (sixteen 3) 0 0 0 ∅ fresh_device demo_set_up
    (sixteen_drawn 1 ltac:(done)) (sixteen_drawn 2 ltac:(done)) (sixteen_drawn 3 ltac:(done))) as (p' & a' & E & A & _).
  - vm_compute. done.
  - exists p', a'. by split.
Defined.

Definition demo_session : platformSession := mkSession ModeBidirection (txt "AA==") None (Some (sixteen 3)) 1 [] [] [].
Definition demo_keyed : Authenticator := mkAuthenticator ModeBidirection (txt "AA==") (txt "AQ==") (Some (sixteen 3)) 1 1.

Lemma notes_accepted_witness :
  (let (d, note) := DecorateOutgoing (txt "d") (txt "MESSAGE") [] [] [] [] demo_keyed in
   note <> [] /\ VerifyNote demo_cfg demo_device_id note (txt "MESSAGE") [] [] [] d [] {[ demo_device_id := demo_session ]} = None).
Proof.
  exact (proj1 (notes_accepted demo_opts demo_cfg (fun _ => Some 0) 0 (txt "d") 0 (txt "MESSAGE") [] [] [] [] (sixteen 3)
    {[ demo_device_id := demo_session ]} demo_keyed eq_refl eq_refl eq_refl ltac:(done) eq_refl ltac:(vm_compute; split; discriminate))).
Defined.

Lemma bidirection_downgraded_witness : exists ck,
  fst (VerifyOK demo_opts (BuildSecurityInfo (mkSecurityInfo ModeUnidirection CapabilityAlgorithm [] [] [] [] ck [] 1)) demo_keyed) = None.
Proof.
  destruct (bidirection_downgraded demo_opts 0 (sixteen 5) 1 demo_keyed eq_refl (proj1 (sixteen_drawn 5 ltac:(done))) ltac:(lia)) as (ck & _ & V).
  exists ck. destruct (VerifyOK _ _ _) as [err a']. exact (proj1 V).
Defined.
