(* ===== verification/SecRuns.v ===== *)
(** Runs of the GB35114 platform ([security35114/platform.go]): any number of
    devices and of calls, interleaved where [VerifyRegister] gives its lock up.

    The key ring of a session is shown to implement the history of its keys, and
    every key in it to stem from a signature that was verified. *)

From S2P Require Import Prelude GoStrings GoText GoBase64 GoCrypto Digest SecHeaders Security SecAuth.
Open Scope Z_scope.

Inductive label :=
  | LChallenge (reader : option (list Z)) (deviceID capability : text)
  | LCheck (reader : option (list Z)) (e1 e2 : Z) (deviceID authorization : text)
  | LCommit (i : nat).

(** A call of [VerifyRegister] between its checks and its update. *)
Record call := mkCall { c_device : text; c_auth : text; c_vkek : list Z; c_info : SecurityInfo }.

(** ** The abstract key ring *)

(** The keys of a device, newest first; generations count from 1. A key is
    available while no three newer ones exist. *)
Definition recent (keys : list (list Z)) (ver : Z) : option (list Z) :=
  let age := Z.of_nat (length keys) - ver in
  if ver <=? 0 then keys !! 0%nat else if (0 <=? age) && (age <? 3) then keys !! Z.to_nat age else None.

Section Runs.

Context `{Gmsm} (cfg : PlatformConfig) (pem_Decode : list Z -> option (text * list Z)).

Record world := mkWorld { store : gmap text platformSession; flight : list call; history : text -> list (list Z) }.

Definition step (l : label) (w : world) : world :=
  match l with
  | LChallenge reader d cap => mkWorld (snd (PlatformChallenge cfg pem_Decode reader d cap (store w))) (flight w) (history w)
  | LCheck reader e1 e2 d auth =>
      match verify_check cfg reader e1 e2 d auth (store w) with
      | Accepted vkek si => mkWorld (store w) (flight w ++ [mkCall d auth vkek si]) (history w)
      | _ => w
      end
  | LCommit i =>
      match flight w !! i with
      | None => w
      | Some c => mkWorld (snd (verify_commit (c_device c) (c_auth c) (c_vkek c) (c_info c) (store w))) (delete i (flight w))
                    (fun d => if bool_decide (d = c_device c) then c_vkek c :: history w d else history w d)
      end
  end.

Definition start : world := mkWorld ∅ [] (fun _ => []).
Definition run (ls : list label) : world := fold_left (fun w l => step l w) ls start.

Lemma run_snoc ls l : run (ls ++ [l]) = step l (run ls).
Proof. unfold run. by rewrite fold_left_app. Qed.

(** ** Lemmas: the ring *)

Fixpoint numbered (keys : list (list Z)) : list (Z * list Z) :=
  match keys with [] => [] | k :: rest => (Z.of_nat (length keys), k) :: numbered rest end.

(** The session holds the last three keys. *)
Definition ring (s : platformSession) (keys : list (list Z)) : Prop :=
  s_vkekVer s = Z.of_nat (length keys) /\ s_vkek s = head keys /\ vkekPrev s = take 2 (numbered (tail keys)).

Lemma ring_recent s keys ver : ring s keys -> vkekForVersionLocked s ver = recent keys ver.
Proof.
  intros (V & K & P). unfold vkekForVersionLocked, recent. rewrite V, K, P. destruct keys as [|k keys].
  { cbn [head hd_error length tail]. destruct (ver <=? 0); [done|]. destruct (_ && _); by rewrite ?lookup_nil. }
  cbn [head hd_error tail length]. rewrite Nat2Z.inj_succ. destruct (Z.leb_spec ver 0) as [|Hv]; [done|]. cbn [orb].
  destruct (Z.eqb_spec ver (Z.succ (Z.of_nat (length keys)))) as [->|Hne].
  { rewrite Z.sub_diag. done. }
  destruct keys as [|k1 [|k2 keys]]; cbn [numbered take find_key length] in *.
  - rewrite (proj2 (Z.leb_gt 0 _)) by lia. done.
  - change (Z.of_nat 1) with 1 in *. destruct (Z.eqb_spec 1 ver) as [<-|]; [done|].
    rewrite (proj2 (Z.leb_gt 0 _)) by lia. done.
  - rewrite !Nat2Z.inj_succ in *. set (n := Z.of_nat (length keys)) in *.
    destruct (Z.eqb_spec (Z.succ (Z.succ n)) ver) as [<-|].
    { replace (Z.succ (Z.succ (Z.succ n)) - Z.succ (Z.succ n)) with 1 by lia. done. }
    destruct (Z.eqb_spec (Z.succ n) ver) as [<-|].
    { replace (Z.succ (Z.succ (Z.succ n)) - Z.succ n) with 2 by lia. done. }
    destruct (Z.leb_spec 0 (Z.succ (Z.succ (Z.succ n)) - ver)); [|done]. rewrite (proj2 (Z.ltb_ge _ 3)) by lia. done.
Qed.

Lemma ring_commit s keys vkek ver auth si : ring s keys -> ver = s_vkekVer s + 1 ->
  ring (s <| vkekPrev := match s_vkek s with Some old => take 2 ((s_vkekVer s, old) :: vkekPrev s) | None => vkekPrev s end |>
          <| s_vkekVer := ver |> <| s_vkek := Some vkek |> <| lastAuth := auth |> <| lastSecurityInfo := si |>) (vkek :: keys).
Proof.
  intros (V & K & P) ->. split; [cbn; rewrite V; lia|]. split; [done|]. cbn [vkekPrev update eta eta_platformSession tail].
  rewrite V, K, P. destruct keys as [|k keys]; [done|]. cbn [head hd_error numbered take length tail].
  by destruct keys as [|k1 [|k2 keys]].
Qed.

Lemma ring_empty : ring empty_session [].
Proof. done. Qed.

Lemma ring_challenged s keys c : ring s keys -> ring (announce c s) keys.
Proof. unfold ring. destruct (announce_keeps c s) as (-> & _ & _ & _ & -> & ->). done. Qed.

Definition session_of (w : world) (d : text) : platformSession := default empty_session (store w !! d).

Lemma challenge_sessions reader d cap p :
  snd (PlatformChallenge cfg pem_Decode reader d cap p) = p \/
  exists random1 c, newRandom reader = Some random1 /\
    snd (PlatformChallenge cfg pem_Decode reader d cap p) =
    <[d := announce c ((default empty_session (p !! d)) <| s_mode := p_Mode cfg |> <| s_random1 := random1 |> <| lastAuth := [] |> <| lastSecurityInfo := [] |>)]> p /\
    (forall cert, c = Some cert -> exists ann, ParseCapabilityAuthorization cap = inr ann /\ ParseCertificatePEM pem_Decode (ann_DeviceCertPEM ann) = Some cert).
Proof.
  unfold PlatformChallenge. destruct (newRandom reader) as [r|]; [right|by left]. eexists r, _. split; [done|]. split; [reflexivity|].
  intros cert. destruct (is_empty cap); [done|]. destruct (ParseCapabilityAuthorization cap) as [|ann]; [done|].
  destruct (ann_DeviceCertPEM ann) eqn:E; [done|]. intros Hc. exists ann. by rewrite E.
Qed.

Lemma rings ls : forall d, ring (session_of (run ls) d) (history (run ls) d).
Proof.
  induction ls as [|l ls IH] using rev_ind; [intros d; apply ring_empty|]. intros d. rewrite run_snoc.
  unfold session_of in *. destruct l as [reader d0 cap|reader e1 e2 d0 auth|i]; cbn [step].
  - cbn [store history]. destruct (challenge_sessions reader d0 cap (store (run ls))) as [-> | (r & c & _ & -> & _)]; [apply IH|].
    destruct (decide (d0 = d)) as [->|Hne]; [|rewrite lookup_insert_ne by done; apply IH].
    rewrite lookup_insert_eq. cbn [default]. apply ring_challenged. exact (IH d).
  - destruct (verify_check _ _ _ _ _ _ _); apply IH.
  - destruct (flight (run ls) !! i) as [c|]; [|apply IH]. cbn [store history]. unfold verify_commit. cbn [snd].
    destruct (bool_decide (d = c_device c)) eqn:E.
    + apply bool_decide_eq_true in E as ->. rewrite lookup_insert_eq. cbn [default]. by apply ring_commit.
    + apply bool_decide_eq_false in E. rewrite lookup_insert_ne by congruence. apply IH.
Qed.

(** ** Theorem: the key ring *)

(** C8: In every run, whatever calls overlap, the session of a device implements
    the history of its keys: a generation up to two before the current one gives
    the key of that generation, no generation gives the current key, and every
    other one none. *)
Theorem key_ring_refines ls d ver :
  vkekForVersionLocked (session_of (run ls) d) ver = recent (history (run ls) d) ver.
Proof. apply ring_recent, rings. Qed.

(** ** Lemmas: where keys come from *)

Definition issued (ls : list label) (d random1 : text) : Prop :=
  exists reader cap, In (LChallenge reader d cap) ls /\ newRandom reader = Some random1.

(** A certificate that the platform takes for the device's. *)
Definition trusted (ls : list label) (d : text) (cert : Certificate) : Prop :=
  DeviceCerts cfg !! d = Some cert \/
  DeviceCerts cfg !! d = None /\ exists reader cap ann, In (LChallenge reader d cap) ls /\
    ParseCapabilityAuthorization cap = inr ann /\ ParseCertificatePEM pem_Decode (ann_DeviceCertPEM ann) = Some cert.

(** The key was sealed for a certificate of the device whose signature on a
    challenge for the device was verified. *)
Definition authentic (ls : list label) (d : text) (vkek : list Z) : Prop :=
  exists auth aa cert pub e ck, ParseAuthAuthorization auth = inr aa /\ issued ls d (aa_Random1 aa) /\ aa_ServerID aa = p_ServerID cfg /\
    trusted ls d cert /\ CertKey cert = Some pub /\
    VerifyMessage cert (SignAuthPayload (aa_Random1 aa) (aa_Random2 aa) (aa_ServerID aa) (p_RandomEncoding cfg)) (aa_Sign1 aa) = true /\
    EncryptVKEK e pub vkek = Some ck.

Lemma issued_more ls l d r : issued ls d r -> issued (ls ++ [l]) d r.
Proof. intros (x & c & I & E). exists x, c. split; [apply in_or_app; by left|done]. Qed.

Lemma trusted_more ls l d c : trusted ls d c -> trusted (ls ++ [l]) d c.
Proof.
  intros [T | (N & x & cap & ann & I & R)]; [by left|right]. split; [done|]. exists x, cap, ann. split; [apply in_or_app; by left|done].
Qed.

Lemma authentic_more ls l d k : authentic ls d k -> authentic (ls ++ [l]) d k.
Proof.
  intros (auth & aa & cert & pub & e & ck & P & I & S & T & R). exists auth, aa, cert, pub, e, ck.
  split; [done|]. split; [by apply issued_more|]. split; [done|]. by split; [apply trusted_more|].
Qed.

(** The stored challenges were issued, the announced certificates announced. *)
Definition sessions_ok (ls : list label) (p : gmap text platformSession) : Prop :=
  forall d s, p !! d = Some s -> issued ls d (s_random1 s) /\
    forall cert, announcedCert s = Some cert -> exists reader cap ann, In (LChallenge reader d cap) ls /\
      ParseCapabilityAuthorization cap = inr ann /\ ParseCertificatePEM pem_Decode (ann_DeviceCertPEM ann) = Some cert.

Lemma sessions_ok_more ls l p : sessions_ok ls p -> sessions_ok (ls ++ [l]) p.
Proof.
  intros S d s Hs. destruct (S d s Hs) as [I A]. split; [by apply issued_more|]. intros cert Hc.
  destruct (A cert Hc) as (x & cap & ann & Hin & R). exists x, cap, ann. split; [apply in_or_app; by left|done].
Qed.

Lemma challenge_sessions_ok ls reader d cap p : sessions_ok ls p ->
  sessions_ok (ls ++ [LChallenge reader d cap]) (snd (PlatformChallenge cfg pem_Decode reader d cap p)).
Proof.
  intros S. pose proof (sessions_ok_more ls (LChallenge reader d cap) p S) as S'.
  destruct (challenge_sessions reader d cap p) as [-> | (r & c & Er & -> & Hc)]; [done|]. intros d0 s.
  destruct (decide (d = d0)) as [<-|Hne]; [|rewrite lookup_insert_ne by done; apply S']. rewrite lookup_insert_eq. intros [= <-].
  assert (In (LChallenge reader d cap) (ls ++ [LChallenge reader d cap])) by (apply in_or_app; right; by left).
  split; [exists reader, cap; by destruct c|]. intros cert. destruct c as [c|]; cbn.
  - intros [= <-]. destruct (Hc c eq_refl) as (ann & R). exists reader, cap, ann. done.
  - intros Ha. destruct (p !! d) as [s|] eqn:E; [|done]. by apply (S' d s).
Qed.

Lemma check_authentic ls reader e1 e2 d auth p vkek si : sessions_ok ls p ->
  verify_check cfg reader e1 e2 d auth p = Accepted vkek si -> authentic ls d vkek.
Proof.
  intros S. unfold verify_check. destruct (ParseAuthAuthorization auth) as [|aa] eqn:P; [done|].
  destruct (p !! d) as [s|] eqn:E; [|done]. destruct (S d s E) as [I A]. case_bool_decide; [done|].
  case_bool_decide as Er; [|done]. cbn [negb]. case_bool_decide; [|done]. cbn [negb]. case_bool_decide as Es; [|done]. cbn [negb].
  destruct (_ && _); [done|]. destruct (resolveCert cfg d s) as [cert|] eqn:R; [|done]. destruct (CertKey cert) as [pub|] eqn:K; [|done].
  destruct (VerifyMessage _ _ _) eqn:V; [|done]. cbn [negb]. destruct (read_full _ _) as [k|]; [|done].
  destruct (EncryptVKEK e1 pub k) as [ck|] eqn:C; [|done].
  assert (T : trusted ls d cert).
  { unfold resolveCert in R. unfold trusted. destruct (DeviceCerts cfg !! d) as [x|]; [left; congruence|right]. split; [done|]. by apply A. }
  assert (G : authentic ls d k) by (rewrite <- Er in I; exists auth, aa, cert, pub, e1, ck; by split_and!).
  destruct (bool_decide _); [|by intros [= <- _]]. destruct (p_Identity cfg); [|done].
  destruct (SignMessage _ _ _); [|done]. by intros [= <- _].
Qed.

Definition world_ok (ls : list label) (w : world) : Prop :=
  sessions_ok ls (store w) /\ Forall (fun c => authentic ls (c_device c) (c_vkek c) /\ is_Some (store w !! c_device c)) (flight w) /\
  forall d, Forall (authentic ls d) (history w d).

Lemma sessions_ok_store ls p p' : sessions_ok ls p ->
  (forall d s', p' !! d = Some s' -> exists s, p !! d = Some s /\ s_random1 s' = s_random1 s /\ announcedCert s' = announcedCert s) ->
  sessions_ok ls p'.
Proof. intros S Hp d s' Hs. destruct (Hp d s' Hs) as (s & E & -> & ->). by apply S. Qed.

Lemma store_challenged reader d cap p d0 : is_Some (p !! d0) -> is_Some (snd (PlatformChallenge cfg pem_Decode reader d cap p) !! d0).
Proof.
  intros [s Hs]. destruct (challenge_sessions reader d cap p) as [-> | (r & c & _ & -> & _)]; [done|].
  destruct (decide (d = d0)) as [->|]; [rewrite lookup_insert_eq; done|by rewrite lookup_insert_ne, Hs].
Qed.

Lemma run_ok ls : world_ok ls (run ls).
Proof.
  induction ls as [|l ls (S & F & Hh)] using rev_ind.
  { split; [intros d s Hs; cbn in Hs; by rewrite lookup_empty in Hs|]. split; [by apply list.Forall_nil|]. intros d. by apply list.Forall_nil. }
  rewrite run_snoc. assert (Hh' : forall d, Forall (authentic (ls ++ [l]) d) (history (run ls) d)).
  { intros d. eapply Forall_impl; [|apply Hh]. intros k. apply authentic_more. }
  assert (F' : Forall (fun c => authentic (ls ++ [l]) (c_device c) (c_vkek c) /\ is_Some (store (run ls) !! c_device c)) (flight (run ls))).
  { eapply Forall_impl; [|apply F]. intros c [A B]. split; [by apply authentic_more|done]. }
  destruct l as [reader d cap|reader e1 e2 d auth|i]; cbn [step].
  - split; [by apply challenge_sessions_ok|]. split; [|done]. cbn [flight store]. eapply Forall_impl; [|exact F'].
    intros c [A B]. split; [done|by apply store_challenged].
  - pose proof (sessions_ok_more ls (LCheck reader e1 e2 d auth) _ S) as S'.
    destruct (verify_check cfg reader e1 e2 d auth (store (run ls))) as [|si|k si] eqn:E; [by split_and!|by split_and!|].
    split; [done|]. split; [|done]. cbn [flight store]. apply Forall_app_2; [done|]. apply list.Forall_cons. split; [|by apply list.Forall_nil].
    cbn [c_device c_vkek]. split; [by apply authentic_more, (check_authentic ls reader e1 e2 d auth (store (run ls)) k si)|].
    unfold verify_check in E. destruct (ParseAuthAuthorization auth); [done|]. by destruct (store (run ls) !! d).
  - pose proof (sessions_ok_more ls (LCommit i) _ S) as S'. destruct (flight (run ls) !! i) as [c|] eqn:E; [|by split_and!].
    pose proof (Forall_lookup_1 _ _ _ _ F' E) as [Ac [s Hs]]. unfold verify_commit. rewrite Hs. cbn [default].
    split; [|split]; cbn [store flight history snd].
    + eapply sessions_ok_store; [exact S'|]. intros d s'. destruct (decide (c_device c = d)) as [<-|Hne].
      * rewrite lookup_insert_eq. intros [= <-]. by exists s.
      * rewrite lookup_insert_ne by done. intros Hd. by exists s'.
    + apply Forall_delete. eapply Forall_impl; [|exact F']. intros c0 [A [s0 B]]. split; [done|].
      destruct (decide (c_device c = c_device c0)) as [->|]; [rewrite lookup_insert_eq; done|by rewrite lookup_insert_ne, B].
    + intros d. destruct (bool_decide (d = c_device c)) eqn:Ed; [|done]. apply bool_decide_eq_true in Ed as ->.
      apply list.Forall_cons. by split.
Qed.

(** ** Theorem: authenticity *)

(** C11: In every run, whatever calls overlap, every key that the platform ever
    holds for a device was sealed for a certificate that it trusts as the
    device's, after a signature under that certificate over a challenge that the
    platform had issued for this device, and over its own ID, was verified. *)
Theorem keys_authentic ls d k ver :
  vkekForVersionLocked (session_of (run ls) d) ver = Some k -> authentic ls d k.
Proof.
  rewrite (ring_recent _ _ ver (rings ls d)). destruct (run_ok ls) as (_ & _ & Hh). specialize (Hh d). unfold recent.
  destruct (ver <=? 0); [intros E; exact (Forall_lookup_1 _ _ _ _ Hh E)|].
  destruct (_ && _); [intros E; exact (Forall_lookup_1 _ _ _ _ Hh E)|done].
Qed.

End Runs.

(** ** Examples *)

Definition demo_challenge : label := LChallenge (Some (sixteen 1)) demo_device_id (BuildCapabilityAuthorization (txt "1") []).

Definition demo_authorization : text :=
  match AuthorizeWithChallenge demo_opts (Some (sixteen 2)) 0 (BuildChallenge ModeBidirection (EncodeToString (sixteen 1))) fresh_device with
  | (inr h, _) => h
  | _ => []
  end.

Definition demo_run : list label := [demo_challenge; LCheck (Some (sixteen 3)) 0 0 demo_device_id demo_authorization; LCommit 0].

Lemma keys_authentic_witness : authentic demo_cfg no_pem demo_run demo_device_id (sixteen 3).
Proof. apply (keys_authentic demo_cfg no_pem demo_run demo_device_id (sixteen 3) 1). vm_compute. reflexivity. Defined.

(** A retransmitted REGISTER that is checked before the first one has stored its
    key gets a key of its own: the two answers differ, and a device that takes the
    first one signs with a key that the platform has already replaced. *)
Example concurrent_retransmission :
  let check k := LCheck (Some (sixteen k)) 0 0 demo_device_id demo_authorization in
  let w := run demo_cfg no_pem [demo_challenge; check 3; check 4; LCommit 0; LCommit 0] in
  let first := run demo_cfg no_pem [demo_challenge; check 3; check 4; LCommit 0] in
  let challenged := snd (AuthorizeWithChallenge demo_opts (Some (sixteen 2)) 0 (BuildChallenge ModeBidirection (EncodeToString (sixteen 1))) fresh_device) in
  match VerifyOK demo_opts (lastSecurityInfo (session_of first demo_device_id)) challenged with
  | (None, a) => let (d, note) := DecorateOutgoing (txt "d") (txt "MESSAGE") [] [] [] [] a in
                 VerifyNote demo_cfg demo_device_id note (txt "MESSAGE") [] [] [] d [] (store w) = Some (NoteRejected DigestMismatch)
  | _ => False
  end.
Proof. vm_compute. reflexivity. Qed.

(** Anyone can replace the certificate that a device announced: the next access
    unit that the device signs is rejected, before anything was authenticated. *)
Example announced_certificate_replaced :
  let cfg := demo_cfg <| DeviceCerts := ∅ |> in
  let pem b := Some (txt "CERTIFICATE", b) in
  let announce c := LChallenge (Some (sixteen 1)) demo_device_id (BuildCapabilityAuthorization (txt "1") [c]) in
  let sig := match DeviceSignAU demo_opts 0 [1; 2; 3] 5 6 with Some s => s | None => [] end in
  let p ls := store (run cfg pem ls) in
  VerifyAUSignature cfg demo_device_id [1; 2; 3] 5 6 sig (p [announce 7]) = true /\
  VerifyAUSignature cfg demo_device_id [1; 2; 3] 5 6 sig (p [announce 7; announce 66]) = false.
Proof. vm_compute. by split. Qed.
