(* ===== verification/DeviceRegister.v ===== *)
(** Registration of the device ([device/server.go]): the REGISTER exchange and
    its counterpart for leaving, the routing of responses, the keepalive with its
    silence detector and the refresh loop.

    The exchange runs against a transport and a source of responses, both state
    passing: [W] is whatever the two act on. The clock readings and the local
    address of one attempt are an [attempt]. Two callees of Go's library are
    parameters: [time.Parse] and the order in which it ranges over a map.
    Metrics and logging are left out; the keepalive MESSAGE itself is not
    modelled, only whether its sending failed. *)

From S2P Require Import Prelude GoStrings GoText SipMsg GoCrypto Digest.
Open Scope Z_scope.

(** ** State *)

Record device_config := mkDeviceConfig {
  DeviceID : text;
  SIPDomain : text;
  Password : text;
  LocalSIPPort : Z;
  Transport : text;
  ProtocolVersion : text;
  RegisterIntervalSecs : Z;
  HeartbeatIntervalSecs : Z;
  HeartbeatTimeoutCount : Z;
}.

(** [RegisterAuthenticator] of the device, whose state is part of [W]; [None] is an
    error, and [DecorateOutgoing] is absent when the authenticator is no
    [OutgoingSigner]. *)
Record RegisterAuthenticator {W : Type} := mkRegisterAuthenticator {
  InitialAuthorization : W -> text;
  AuthorizeWithChallenge : text -> W -> option text * W;
  VerifyOK : text -> W -> bool * W;
  DecorateOutgoing : option (SipMessage -> W -> text * text);
}.
Arguments RegisterAuthenticator W : clear implicits.
Arguments mkRegisterAuthenticator {W} _ _ _ _.

(** [regRespCh] and [inviteRespCh] hold at most four responses, [reRegisterCh]
    one signal. A contact of 0 stands for none. *)
Record device_state := mkDeviceState {
  regRespCh : list SipMessage;
  inviteRespCh : list SipMessage;
  reRegisterCh : bool;
  keepaliveFailures : Z;
  lastPlatformContact : Z;
  negotiatedExpires : Z;
  platformProtoVer : text;
  platformDate : Z;
}.

#[export] Instance eta_device_state : Eta device_state := fun s =>
  mkDeviceState (regRespCh s) (inviteRespCh s) (reRegisterCh s) (keepaliveFailures s) (lastPlatformContact s)
    (negotiatedExpires s) (platformProtoVer s) (platformDate s).

Definition initial_state : device_state := mkDeviceState [] [] false 0 0 0 [] 0.

(** ** Durations *)

Definition second : Z := 1000000000.

Definition platformSilent (since heartbeat timeoutCount : Z) : bool :=
  let heartbeat := if heartbeat <=? 0 then second else heartbeat in
  if timeoutCount <? 1 then false else s64 (heartbeat * timeoutCount) <=? since.

(** [strings.Index(s, sub)], with what follows it. *)
Fixpoint after (sub s : text) : option text :=
  if HasPrefix s sub then Some (TrimPrefix s sub)
  else match s with [] => None | _ :: rest => after sub rest end.

Definition negotiatedExpiresSecs (expiresHeader contact : text) : Z :=
  match Atoi (TrimSpace expiresHeader) with
  | Some v => if 60 <=? v then v else 0
  | None =>
      match after (txt "expires=") contact with
      | None => 0
      | Some rest => match Atoi (fst (span is_digit rest)) with
                     | Some v => if v <? 60 then 0 else v
                     | None => 0
                     end
      end
  end.

(** The refresh interval, in nanoseconds. *)
Definition refreshInterval (cfg : device_config) (st : device_state) : Z :=
  let base := if 60 <=? negotiatedExpires st then negotiatedExpires st else RegisterIntervalSecs cfg in
  let base := if base <? 2 then 2 else base in
  s64 (Z.quot base 2 * second).

(** ** Routing of responses *)

(** A send on a channel of capacity [n] with a default case. *)
Definition offer {A} (n : nat) (x : A) (q : list A) : list A := if decide (length q < n)%nat then q ++ [x] else q.

Definition signalReRegister (st : device_state) : device_state := st <| reRegisterCh := true |>.

Definition s32 (x : Z) : Z := (x + 2 ^ 31) mod 2 ^ 32 - 2 ^ 31.

Definition handleResponse (now : Z) (msg : SipMessage) (st : device_state) : device_state :=
  let st := st <| lastPlatformContact := now |> in
  if Contains (CSeq msg) (txt "REGISTER") then st <| regRespCh := offer 4 msg (regRespCh st) |>
  else if Contains (CSeq msg) (txt "INVITE") then st <| inviteRespCh := offer 4 msg (inviteRespCh st) |>
  else if StatusCode msg =? 200 then st <| keepaliveFailures := 0 |>
  else if existsb (Z.eqb (StatusCode msg)) [401; 403; 404; 407] then
    signalReRegister (st <| keepaliveFailures := s32 (keepaliveFailures st + 1) |>)
  else st.

(** ** The keepalive tick *)

(** The silence detector. *)
Definition check_silence (cfg : device_config) (now : Z) (st : device_state) : device_state :=
  if (0 <? lastPlatformContact st) &&
     platformSilent (s64 (now - lastPlatformContact st)) (s64 (HeartbeatIntervalSecs cfg * second)) (HeartbeatTimeoutCount cfg)
  then signalReRegister st <| lastPlatformContact := now |>
  else st.

(** One tick: [sent] tells whether [sendKeepalive] succeeded. *)
Definition keepalive_tick (cfg : device_config) (now : Z) (sent : bool) (st : device_state) : device_state :=
  let st := check_silence cfg now st in
  if sent then st else
  let failures := s32 (keepaliveFailures st + 1) in
  let st := st <| keepaliveFailures := failures |> in
  if s32 (HeartbeatTimeoutCount cfg) <=? failures then signalReRegister st <| keepaliveFailures := 0 |> else st.

(** ** The REGISTER exchange *)

(** The local address and the clock readings of one attempt: the Call-ID in
    seconds, both branches and the client nonce, the Date check and the contact. *)
Record attempt := mkAttempt {
  localIPAddr : text;
  unix_now : Z;
  via_nano : Z;
  via2_nano : Z;
  cnonce_nano : Z;
  contact_nano : Z;
}.

Inductive register_error :=
  | SendingRegister
  | ReadingResponse
  | Authentication
  | ParsingChallenge (e : digest_error)
  | SendingAuthenticated
  | ReadingOK
  | VerifyingOK
  | UnexpectedAfterAuth (code : Z)
  | UnexpectedResponse (code : Z).

Definition XGBVerHeaderName : text := txt "X-GB-Ver".

Section Exchange.

Context {W : Type} (cfg : device_config) (authenticator : option (RegisterAuthenticator W)) (userAgent : text).
Context (time_Parse : text -> text -> option Z) (range : gmap text text -> list (text * text)).
Context (write : SipMessage -> W -> bool * W).

(** [regResponseSource]: the next response, unless the wait times out. *)
Definition source : Type := device_state -> W -> option SipMessage * device_state * W.

Definition viaTransportLabel : text :=
  if bool_decide (Transport cfg = txt "tls") then txt "TLS"
  else if bool_decide (Transport cfg = txt "tcp") || bool_decide (Transport cfg = txt "tcp-out") then txt "TCP"
  else txt "UDP".

Definition sendToPlatform (msg : SipMessage) (w : W) : bool * W :=
  let msg := match authenticator with
             | Some a => match DecorateOutgoing a with
                         | Some sign => match sign msg w with
                                        | ((_ :: _) as date, note) =>
                                            msg <| Headers := <[txt "Note" := note]> (<[txt "Date" := date]> (Headers msg)) |>
                                        | _ => msg
                                        end
                         | None => msg
                         end
             | None => msg
             end in
  write msg w.

Definition ParseSIPDate (value : text) : option Z :=
  let v := TrimSpace value in
  match time_Parse (txt "Mon, 02 Jan 2006 15:04:05 MST") v with
  | Some t => Some t
  | None => match time_Parse (txt "Monday, 02-Jan-06 15:04:05 MST") v with
            | Some t => Some t
            | None => time_Parse (txt "Mon Jan _2 15:04:05 2006") v
            end
  end.

Definition notePlatformProtocolVersion (resp : SipMessage) (st : device_state) : device_state :=
  match ExtensionHeader (range (Headers resp)) XGBVerHeaderName with
  | [] => st
  | ver => st <| platformProtoVer := ver |>
  end.

Definition notePlatformDate (resp : SipMessage) (st : device_state) : device_state :=
  match ExtensionHeader (range (Headers resp)) (txt "Date") with
  | [] => st
  | raw => match ParseSIPDate raw with Some unix => st <| platformDate := unix |> | None => st end
  end.

Definition noteNegotiatedExpires (now : Z) (resp : SipMessage) (st : device_state) : device_state :=
  st <| lastPlatformContact := now |> <| negotiatedExpires := negotiatedExpiresSecs (Expires resp) (Contact resp) |>.

Definition request_uri : text := txt "sip:" ++ SIPDomain cfg ++ txt "@" ++ SIPDomain cfg.
Definition from_value : text := txt "<sip:" ++ DeviceID cfg ++ txt "@" ++ SIPDomain cfg ++ txt ">".

(** One REGISTER of the exchange. *)
Definition register_msg (a : attempt) (cseq auth : text) (branch : Z) (leaving : bool) : SipMessage :=
  let contact := txt "<sip:" ++ DeviceID cfg ++ txt "@" ++ localIPAddr a ++ txt ":" ++ Itoa (LocalSIPPort cfg) ++ txt ">" in
  let callID := Itoa (unix_now a) ++ txt "@" ++ localIPAddr a in
  let msg := BuildRegister userAgent request_uri from_value from_value callID cseq contact auth in
  let msg := if leaving then msg <| Expires := txt "0" |> else msg in
  let msg := msg <| Via := txt "SIP/2.0/" ++ viaTransportLabel ++ txt " " ++ localIPAddr a ++ txt ":" ++ Itoa (LocalSIPPort cfg)
                           ++ txt ";branch=z9hG4bK" ++ hex16 branch |> in
  match ProtocolVersion cfg with
  | [] => msg
  | v => msg <| Headers := <[XGBVerHeaderName := v]> (Headers msg) |>
  end.

Definition initialAuth (w : W) : text := match authenticator with Some a => InitialAuthorization a w | None => [] end.

Definition authorize (a : attempt) (wwwAuthenticate : text) (w : W) : (register_error + text) * W :=
  match authenticator with
  | Some r => match AuthorizeWithChallenge r wwwAuthenticate w with
              | (Some h, w) => (inr h, w)
              | (None, w) => (inl Authentication, w)
              end
  | None => match ParseChallenge wwwAuthenticate with
            | inl e => (inl (ParsingChallenge e), w)
            | inr auth => (inr (BuildAuthorizationHeader (cnonce_nano a) auth (DeviceID cfg) (Password cfg) request_uri (txt "REGISTER")), w)
            end
  end.

Definition noted (resp : SipMessage) (st : device_state) : device_state :=
  notePlatformDate resp (notePlatformProtocolVersion resp st).

(** [runRegisterLifecycleInner]; [None] is success. *)
Definition runRegisterLifecycleInner (next : source) (a : attempt) (st : device_state) (w : W) :
    option register_error * device_state * W :=
  let (sent, w) := sendToPlatform (register_msg a (txt "1 REGISTER") (initialAuth w) (via_nano a) false) w in
  if negb sent then (Some SendingRegister, st, w) else
  match next st w with
  | (None, st, w) => (Some ReadingResponse, st, w)
  | (Some resp, st, w) =>
      let st := noted resp st in
      if StatusCode resp =? 401 then
        match authorize a (WWWAuthenticate resp) w with
        | (inl e, w) => (Some e, st, w)
        | (inr authHeader, w) =>
            let (sent, w) := sendToPlatform (register_msg a (txt "2 REGISTER") authHeader (via2_nano a) false) w in
            if negb sent then (Some SendingAuthenticated, st, w) else
            match next st w with
            | (None, st, w) => (Some ReadingOK, st, w)
            | (Some resp, st, w) =>
                let st := noted resp st in
                if StatusCode resp =? 200 then
                  let (ok, w) := match authenticator with
                                 | Some r => VerifyOK r (ExtensionHeader (range (Headers resp)) (txt "SecurityInfo")) w
                                 | None => (true, w)
                                 end in
                  if ok then (None, noteNegotiatedExpires (contact_nano a) resp st, w) else (Some VerifyingOK, st, w)
                else (Some (UnexpectedAfterAuth (StatusCode resp)), st, w)
            end
        end
      else if StatusCode resp =? 200 then (None, noteNegotiatedExpires (contact_nano a) resp st, w)
      else (Some (UnexpectedResponse (StatusCode resp)), st, w)
  end.

(** Leaving: the same exchange with Expires 0; it notes nothing. *)
Definition runDeregisterLifecycle (next : source) (a : attempt) (st : device_state) (w : W) :
    option register_error * device_state * W :=
  let (sent, w) := sendToPlatform (register_msg a (txt "1 REGISTER") (initialAuth w) (via_nano a) true) w in
  if negb sent then (Some SendingRegister, st, w) else
  match next st w with
  | (None, st, w) => (Some ReadingResponse, st, w)
  | (Some resp, st, w) =>
      if StatusCode resp =? 200 then (None, st, w)
      else if negb (StatusCode resp =? 401) then (Some (UnexpectedResponse (StatusCode resp)), st, w)
      else
        match authorize a (WWWAuthenticate resp) w with
        | (inl e, w) => (Some e, st, w)
        | (inr authHeader, w) =>
            let (sent, w) := sendToPlatform (register_msg a (txt "2 REGISTER") authHeader (via2_nano a) true) w in
            if negb sent then (Some SendingAuthenticated, st, w) else
            match next st w with
            | (None, st, w) => (Some ReadingOK, st, w)
            | (Some resp, st, w) =>
                if StatusCode resp =? 200 then (None, st, w) else (Some (UnexpectedAfterAuth (StatusCode resp)), st, w)
            end
        end
  end.

(** [channelResponseSource]: the oldest response in [regRespCh]; while it is
    empty, the receive loop goes on handling what arrives. [arrivals] are the
    responses that arrive in time. *)
Fixpoint await (now : Z) (arrivals : list SipMessage) (st : device_state) : option SipMessage * device_state * list SipMessage :=
  match regRespCh st with
  | resp :: rest => (Some resp, st <| regRespCh := rest |>, arrivals)
  | [] => match arrivals with
          | [] => (None, st, [])
          | m :: more => let st' := handleResponse now m st in
                         match regRespCh st' with
                         | resp :: rest => (Some resp, st' <| regRespCh := rest |>, more)
                         | [] => await now more st'
                         end
          end
  end.

Definition channelResponseSource (now : Z) (arrivals : W -> list SipMessage * W) (put : list SipMessage -> W -> W) : source :=
  fun st w =>
    let (arr, w) := arrivals w in
    let '(resp, st, arr) := await now arr st in (resp, st, put arr w).

(** One round of the refresh loop, with its interval; [triggered] by the signal
    or by the ticker. [None] is the panic of [ticker.Reset] on an interval that
    is not positive. *)
Definition refresh_round (next : source) (a : attempt) (triggered : bool) (currentInterval : Z) (st : device_state) (w : W) :
    option (Z * device_state * W) :=
  let st := if triggered then st <| reRegisterCh := false |> else st in
  let '(err, st, w) := runRegisterLifecycleInner next a st w in
  match err with
  | Some _ => Some (currentInterval, st, w)
  | None => let next_ := refreshInterval cfg st in
            if next_ =? currentInterval then Some (currentInterval, st, w)
            else if next_ <=? 0 then None
            else Some (next_, st, w)
  end.

End Exchange.

(** ** Lemmas *)

Lemma s32_small x : - 2 ^ 31 <= x < 2 ^ 31 -> s32 x = x.
Proof. unfold s32. intros H. rewrite Z.mod_small by lia. lia. Qed.

(** The configuration of a running keepalive loop. *)
Record heartbeat_ok (cfg : device_config) : Prop := {
  interval_pos : 0 < HeartbeatIntervalSecs cfg;
  count_pos : 1 <= HeartbeatTimeoutCount cfg < 2 ^ 31;
  silence_fits : HeartbeatIntervalSecs cfg * second * HeartbeatTimeoutCount cfg < 2 ^ 62;
}.

(** The silence after which the platform counts as gone. *)
Definition tolerated (cfg : device_config) : Z := HeartbeatIntervalSecs cfg * second * HeartbeatTimeoutCount cfg.

Lemma silent_iff cfg since : heartbeat_ok cfg ->
  platformSilent since (s64 (HeartbeatIntervalSecs cfg * second)) (HeartbeatTimeoutCount cfg) = (tolerated cfg <=? since).
Proof.
  intros [H1 H2 H3]. unfold platformSilent, tolerated, second in *. cbv zeta.
  assert (0 < HeartbeatIntervalSecs cfg * 1000000000) by lia.
  assert (HeartbeatIntervalSecs cfg * 1000000000 <= HeartbeatIntervalSecs cfg * 1000000000 * HeartbeatTimeoutCount cfg) by nia.
  rewrite (s64_small (HeartbeatIntervalSecs cfg * 1000000000)) by lia. rewrite (proj2 (Z.leb_gt (HeartbeatIntervalSecs cfg * 1000000000) 0)) by lia. rewrite (proj2 (Z.ltb_ge _ _)) by lia.
  rewrite s64_small by lia. done.
Qed.

Lemma check_silence_spec cfg now st : heartbeat_ok cfg -> 0 < lastPlatformContact st -> 0 <= now - lastPlatformContact st < 2 ^ 63 ->
  check_silence cfg now st =
  if tolerated cfg <=? now - lastPlatformContact st then signalReRegister st <| lastPlatformContact := now |> else st.
Proof.
  intros Hc Hl Hn. unfold check_silence. rewrite (proj2 (Z.ltb_lt _ _)) by done. cbn [andb].
  rewrite s64_small by lia. by rewrite silent_iff.
Qed.

Lemma check_silence_quiet cfg now st : heartbeat_ok cfg -> 0 < lastPlatformContact st ->
  0 <= now - lastPlatformContact st < tolerated cfg -> check_silence cfg now st = st.
Proof.
  intros Hc Hl Hn. pose proof (silence_fits _ Hc). rewrite check_silence_spec by (done || unfold tolerated in *; lia).
  by rewrite (proj2 (Z.leb_gt _ _)) by lia.
Qed.

Lemma tick_signal_kept cfg now sent st : reRegisterCh st = true -> reRegisterCh (keepalive_tick cfg now sent st) = true.
Proof.
  intros H. unfold keepalive_tick, check_silence, signalReRegister. destruct (_ && _), sent; try done; cbv zeta;
    (destruct (_ <=? _); done).
Qed.

(** A tick before the tolerated silence keeps the contact. *)
Lemma tick_contact cfg now sent st : heartbeat_ok cfg -> 0 < lastPlatformContact st ->
  0 <= now - lastPlatformContact st < 2 ^ 63 ->
  if tolerated cfg <=? now - lastPlatformContact st then reRegisterCh (keepalive_tick cfg now sent st) = true
  else lastPlatformContact (keepalive_tick cfg now sent st) = lastPlatformContact st.
Proof.
  intros Hc Hl Hn. unfold keepalive_tick. rewrite check_silence_spec by done.
  destruct (tolerated cfg <=? _), sent; try done; cbv zeta; destruct (_ <=? s32 _); done.
Qed.

(** Ticks, each with its time and whether the keepalive could be sent. *)
Definition ticks (cfg : device_config) (l : list (Z * bool)) (st : device_state) : device_state :=
  fold_left (fun st t => keepalive_tick cfg (fst t) (snd t) st) l st.

Lemma ticks_signal_kept cfg l : forall st, reRegisterCh st = true -> reRegisterCh (ticks cfg l st) = true.
Proof. induction l as [|t l IH]; intros st H; [done|]. apply IH. by apply tick_signal_kept. Qed.

(** ** Theorems: the keepalive *)

(** C26: A platform that falls silent is noticed: once a tick finds that nothing
    was heard for the tolerated number of heartbeat intervals, re-registration
    has been signalled, whatever the ticks before it did and whether or not the
    keepalives could be sent. *)
Theorem silence_detected cfg l st c :
  heartbeat_ok cfg -> lastPlatformContact st = c -> 0 < c ->
  Forall (fun t => c <= fst t < c + 2 ^ 63) l ->
  Exists (fun t => c + tolerated cfg <= fst t) l ->
  reRegisterCh (ticks cfg l st) = true.
Proof.
  intros Hc. revert st. induction l as [|[t sent] l IH]; intros st Hl Hpos Ht Hex; [by apply Exists_nil in Hex|].
  apply list.Forall_cons in Ht as [Ht1 Ht]. cbn [fst] in Ht1. unfold ticks. cbn [fold_left fst snd].
  pose proof (tick_contact cfg t sent st Hc ltac:(lia) ltac:(lia)) as T.
  destruct (Z.leb_spec (tolerated cfg) (t - lastPlatformContact st)) as [H|H]; [by apply ticks_signal_kept|].
  apply IH; [congruence|done|done|]. apply Exists_cons in Hex as [Hex|Hex]; [cbn [fst] in Hex; lia|done].
Qed.

(** A platform that is heard in time is left alone: while every keepalive can
    be sent and the platform was heard within the tolerated silence, no tick
    changes the state. *)
Theorem no_false_alarm cfg l st :
  heartbeat_ok cfg -> 0 < lastPlatformContact st ->
  Forall (fun t => snd t = true /\ 0 <= fst t - lastPlatformContact st < tolerated cfg) l ->
  ticks cfg l st = st.
Proof.
  intros Hc Hl. induction 1 as [|[t sent] l [Hs Ht] _ IH]; [done|]. cbn [fst snd] in *. subst sent.
  unfold ticks. cbn [fold_left fst snd]. unfold keepalive_tick. by rewrite check_silence_quiet.
Qed.

(** Keepalives that cannot be sent lead to a new registration: as many failed
    sends in a row as the configuration tolerates signal it and start the count
    again; one send fewer signals nothing. *)
Theorem failed_sends_reregister cfg l st :
  heartbeat_ok cfg -> 0 < lastPlatformContact st -> keepaliveFailures st = 0 -> reRegisterCh st = false ->
  Forall (fun t => snd t = false /\ 0 <= fst t - lastPlatformContact st < tolerated cfg) l ->
  Z.of_nat (length l) <= HeartbeatTimeoutCount cfg ->
  reRegisterCh (ticks cfg l st) = (Z.of_nat (length l) =? HeartbeatTimeoutCount cfg) /\
  keepaliveFailures (ticks cfg l st) = if Z.of_nat (length l) =? HeartbeatTimeoutCount cfg then 0 else Z.of_nat (length l).
Proof.
  intros Hc Hl H0 Hr Ht Hlen.
  enough (G : forall l st f, 0 <= f -> 0 < lastPlatformContact st -> keepaliveFailures st = f -> reRegisterCh st = false ->
    Forall (fun t => snd t = false /\ 0 <= fst t - lastPlatformContact st < tolerated cfg) l ->
    f < HeartbeatTimeoutCount cfg -> f + Z.of_nat (length l) <= HeartbeatTimeoutCount cfg ->
    reRegisterCh (ticks cfg l st) = (f + Z.of_nat (length l) =? HeartbeatTimeoutCount cfg) /\
    keepaliveFailures (ticks cfg l st) = if f + Z.of_nat (length l) =? HeartbeatTimeoutCount cfg then 0 else f + Z.of_nat (length l))
    by (apply (G l st 0); pose proof (count_pos _ Hc); done || lia).
  clear - Hc. pose proof (count_pos _ Hc).
  induction l as [|[t sent] l IH]; intros st f Hf Hl Hk Hr Ht Hlt Hlen.
  - cbn [length Z.of_nat]. rewrite Z.add_0_r, (proj2 (Z.eqb_neq _ _)) by lia. by split.
  - apply list.Forall_cons in Ht as [[Hs Ht1] Ht]. cbn [fst snd length] in *. subst sent.
    assert (E : ticks cfg ((t, false) :: l) st = ticks cfg l (if HeartbeatTimeoutCount cfg <=? f + 1
              then signalReRegister (st <| keepaliveFailures := f + 1 |>) <| keepaliveFailures := 0 |>
              else st <| keepaliveFailures := f + 1 |>)).
    { unfold ticks. cbn [fold_left fst snd]. f_equal. unfold keepalive_tick.
      rewrite check_silence_quiet by done. rewrite Hk. rewrite !s32_small by lia. done. }
    rewrite E. destruct (Z.leb_spec (HeartbeatTimeoutCount cfg) (f + 1)) as [Hge|Hlt2].
    + destruct l; [|cbn [length] in Hlen; lia]. cbn [length] in *. rewrite (proj2 (Z.eqb_eq _ _)) by lia. by split.
    + rewrite Nat2Z.inj_succ. replace (f + Z.succ (Z.of_nat (length l))) with (f + 1 + Z.of_nat (length l)) by lia.
      apply IH; done || lia.
Qed.

(** ** Theorems: the refresh *)

Lemma negotiated_header n contact : 60 <= n < 2 ^ 63 -> negotiatedExpiresSecs (Itoa n) contact = n.
Proof.
  intros Hn. unfold negotiatedExpiresSecs. destruct (Itoa_printable n ltac:(lia)) as [_ Hw].
  rewrite TrimSpace_id by done. rewrite Atoi_Itoa by lia. by rewrite (proj2 (Z.leb_le _ _)) by lia.
Qed.

(** The registration is refreshed in time: after a 200 OK that grants [n]
    seconds, at least 60 and less than 2^33, the refresh interval is positive and
    two of them fit into the granted time. *)
Theorem refresh_before_expiry cfg now resp st n :
  Expires resp = Itoa n -> 60 <= n < 2 ^ 33 ->
  let interval := refreshInterval cfg (noteNegotiatedExpires now resp st) in
  interval = n / 2 * second /\ 0 < interval /\ 2 * interval <= n * second.
Proof.
  intros He Hn. cbv zeta. unfold refreshInterval, noteNegotiatedExpires. cbn [negotiatedExpires update]. rewrite He.
  cbn -[Z.mul second negotiatedExpiresSecs Z.quot s64]. rewrite negotiated_header by lia.
  rewrite (proj2 (Z.leb_le 60 n)) by lia. rewrite (proj2 (Z.ltb_ge n 2)) by lia.
  rewrite Z.quot_div_nonneg by lia. unfold second.
  pose proof (Z.div_mod n 2 ltac:(lia)). pose proof (Z.mod_pos_bound n 2 ltac:(lia)).
  rewrite s64_small by lia. lia.
Qed.

(** A platform that answers every REGISTER with one response. *)
Definition demo_config : device_config :=
  mkDeviceConfig (txt "34020000001320000001") (txt "3402000000") (txt "pw") 5060 (txt "udp") [] 3600 60 3.
Definition demo_attempt : attempt := mkAttempt (txt "192.168.1.9") 1700000000 1 2 3 4.
Definition response (code : Z) (expires : text) : SipMessage :=
  empty_message <| StatusCode := code |> <| CSeq := txt "1 REGISTER" |> <| Expires := expires |>.
Definition always (m : SipMessage) : @source unit := fun st w => (Some m, st, w).

(** A platform can stop the device: a 200 OK that grants 20000000000 seconds
    makes the interval overflow to a negative one, and the refresh loop panics. *)
Theorem huge_expiry_panics now st :
  refreshInterval demo_config (noteNegotiatedExpires now (response 200 (txt "20000000000")) st) = - 8446744073709551616 /\
  forall w, refresh_round demo_config None [] (fun _ _ => None) (fun _ => []) (fun _ w => (true, w))
    (always (response 200 (txt "20000000000"))) demo_attempt false (1800 * second) st w = None.
Proof. split; [vm_compute; reflexivity|]. intros w. vm_compute. reflexivity. Qed.

(** ** Concrete exchanges *)

(** An answer to an attempt that was given up is taken for the answer to the next
    one: the first wait times out, the 200 arrives late, and the second attempt
    succeeds though nothing answers it. *)
Example stale_response_accepted :
  let run := runRegisterLifecycleInner demo_config None [] (fun _ _ => None) (fun _ => []) (fun _ w => (true, w))
               (channelResponseSource 9 (fun w : list SipMessage => (w, [])) (fun l _ => l)) in
  let '(err1, st1, w1) := run demo_attempt initial_state [] in
  let st2 := handleResponse 8 (response 200 (txt "3600")) st1 in
  let '(err2, st3, _) := run demo_attempt st2 w1 in
  err1 = Some ReadingResponse /\ err2 = None /\ negotiatedExpires st3 = 3600.
Proof. vm_compute. repeat split. Qed.

(** A platform that skips the challenge is never verified. *)
Example unverified_platform_accepted :
  let fails_closed := mkRegisterAuthenticator (fun _ : unit => txt "Capability") (fun _ w => (None, w)) (fun _ w => (false, w)) None in
  fst (fst (runRegisterLifecycleInner demo_config (Some fails_closed) [] (fun _ _ => None) (fun _ => []) (fun _ w => (true, w))
              (always (response 200 (txt "3600"))) demo_attempt initial_state tt)) = None.
Proof. vm_compute. reflexivity. Qed.

(** A provisional response ends the attempt. *)
Example trying_fails :
  fst (fst (runRegisterLifecycleInner demo_config None [] (fun _ _ => None) (fun _ => []) (fun _ w => (true, w))
              (always (response 100 [])) demo_attempt initial_state tt)) = Some (UnexpectedResponse 100).
Proof. vm_compute. reflexivity. Qed.

(** ** Witnesses *)

Lemma demo_heartbeat : heartbeat_ok demo_config.
Proof. split; vm_compute; intuition discriminate. Qed.

Definition heard : device_state := initial_state <| lastPlatformContact := 7 |>.

Lemma silence_detected_witness :
  reRegisterCh (ticks demo_config [(60 * second, true); (120 * second, false); (180 * second + 7, true)] heard) = true.
Proof.
  apply (silence_detected demo_config _ heard 7 demo_heartbeat); [reflexivity|lia| |].
  - repeat (apply list.Forall_cons; split); [..|apply list.Forall_nil; exact I]; vm_compute; split; congruence.
  - do 2 apply Exists_cons_tl. apply Exists_cons_hd. vm_compute. congruence.
Defined.

Lemma no_false_alarm_witness : ticks demo_config [(60 * second, true); (120 * second, true)] heard = heard.
Proof.
  apply (no_false_alarm demo_config _ heard demo_heartbeat); [reflexivity|].
  repeat (apply list.Forall_cons; split); [..|apply list.Forall_nil; exact I]; vm_compute; intuition congruence.
Defined.

Lemma failed_sends_reregister_witness :
  reRegisterCh (ticks demo_config [(60 * second, false); (120 * second, false); (180 * second, false)] heard) = true.
Proof.
  destruct (failed_sends_reregister demo_config [(60 * second, false); (120 * second, false); (180 * second, false)] heard demo_heartbeat)
    as [H _]; [reflexivity|reflexivity|reflexivity| |vm_compute; congruence|exact H].
  repeat (apply list.Forall_cons; split); [..|apply list.Forall_nil; exact I]; vm_compute; intuition congruence.
Defined.

Lemma refresh_before_expiry_witness :
  refreshInterval demo_config (noteNegotiatedExpires 9 (response 200 (txt "3600")) initial_state) = 1800 * second.
Proof.
  destruct (refresh_before_expiry demo_config 9 (response 200 (txt "3600")) initial_state 3600) as [H _];
    [vm_compute; reflexivity|lia|exact H].
Defined.
