(* ===== verification/GbIds.v ===== *)
(** Identifiers and the checks of the configuration: device IDs
    ([device/device_id.go]), platform ID lists ([platform/sip/gbpath.go]), the
    port range ([platform/sip/validate.go]) and the device's configuration
    ([device/validate.go]).

    The loops of Go over the runes of a string accept ASCII digits only, so that
    they can be modelled on bytes. [Sscanf] with a decimal verb reads digits here. *)

From S2P Require Import Prelude GoStrings GoText.
Open Scope Z_scope.

Definition allDigits (s : text) : bool := forallb is_digit s.

(** ** Device IDs *)

Record DeviceIDParts := mkDeviceIDParts {
  RegionCode : text;
  IndustryType : Z;
  DeviceType : Z;
  Serial : Z;
}.

Inductive id_error := BadLength (n : nat) | NotDigits | OutOfRange.

Definition FormatDeviceID (centerCode : text) (industry devType serial : Z) : id_error + text :=
  if negb (Nat.eqb (length centerCode) 8) then inl (BadLength (length centerCode))
  else if negb (allDigits centerCode) then inl NotDigits
  else inr (centerCode ++ pad0 2 industry ++ pad0 3 devType ++ pad0 7 serial).

(** [Sscanf(s, %d, &x)] for an unsigned [x] of [bits] bits. *)
Definition scan_uint (bits : Z) (s : text) : option Z :=
  match digits_value 0 s with Some n => if n <? 2 ^ bits then Some n else None | None => None end.

Definition ParseDeviceID (id : text) : id_error + DeviceIDParts :=
  if negb (Nat.eqb (length id) 20) then inl (BadLength (length id))
  else if negb (allDigits id) then inl NotDigits
  else
    match scan_uint 8 (take 2 (drop 8 id)), scan_uint 16 (take 3 (drop 10 id)), scan_uint 32 (take 7 (drop 13 id)) with
    | Some i, Some t, Some s => inr (mkDeviceIDParts (take 8 id) i t s)
    | _, _, _ => inl OutOfRange
    end.

(** ** Platform ID lists *)

Definition validPlatformID (id : text) : bool :=
  if negb (Nat.eqb (length id) 20) then false
  else if negb (allDigits id) then false
  else bool_decide (take 3 (drop 10 id) = txt "200").

(** The loop over the parts: the first invalid one is the error. *)
Fixpoint check_parts (parts : list text) : text + list text :=
  match parts with
  | [] => inr []
  | p :: rest => if validPlatformID p then
                   match check_parts rest with inl e => inl e | inr ids => inr (p :: ids) end
                 else inl p
  end.

Definition ParsePlatformIDList (v : text) : text + list text :=
  match TrimSpace v with
  | [] => inr []
  | v => check_parts (Split v [0x2D])
  end.

Definition FormatPlatformIDList (ids : list text) : text := Join ids [0x2D].

(** ** The port range *)

(** [true] is no error. *)
Definition validatePortRange (v : text) : bool :=
  match cut_at 0x2D v with
  | None => false
  | Some (lo, hi) =>
      match Atoi lo, Atoi hi with
      | Some loPort, Some hiPort => (1 <=? loPort) && (hiPort <=? 65535) && (loPort <=? hiPort)
      | _, _ => false
      end
  end.

(** ** The device's configuration *)

Record Config := mkConfig {
  Enabled : bool;
  Transport : text;
  LocalSIPPort : Z;
  TLSCAFile : text;
  TLSCertFile : text;
  TLSKeyFile : text;
  TLSInsecureSkipVerify : bool;
  PlatformSIPAddress : text;
  PlatformSIPPort : Z;
  DeviceID : text;
  ChannelID : text;
  SIPDomain : text;
  RegisterIntervalSecs : Z;
  HeartbeatIntervalSecs : Z;
  HeartbeatTimeoutCount : Z;
}.

Definition validateGBID (id : text) : bool := Nat.eqb (length id) 20 && allDigits id.

Definition given (s : text) : bool := match s with [] => false | _ => true end.

(** The field that the error names; [None] is no error. *)
Definition Validate (c : Config) : option text :=
  let transport := ToLower (Transport c) in
  let tr s := bool_decide (transport = txt s) in
  if negb (tr EmptyString || tr "udp"%string || tr "tcp"%string || tr "tcp-out"%string || tr "tls"%string || tr "tls-listen"%string)
  then Some (txt "Transport")
  else if (LocalSIPPort c <? 0) || (65535 <? LocalSIPPort c) then Some (txt "LocalSIPPort")
  else if negb (tr "tls"%string) && negb (tr "tls-listen"%string) && (given (TLSCAFile c) || given (TLSCertFile c) || given (TLSKeyFile c))
  then Some (txt "TLS files")
  else if tr "tls-listen"%string && (negb (given (TLSCertFile c)) || negb (given (TLSKeyFile c))) then Some (txt "tls_cert_file")
  else if negb (Enabled c) then None
  else if negb (given (PlatformSIPAddress c)) then Some (txt "PlatformSIPAddress")
  else if (PlatformSIPPort c <? 1) || (65535 <? PlatformSIPPort c) then Some (txt "PlatformSIPPort")
  else if negb (validateGBID (DeviceID c)) then Some (txt "DeviceID")
  else if negb (validateGBID (ChannelID c)) then Some (txt "ChannelID")
  else if negb (given (SIPDomain c)) then Some (txt "SIPDomain")
  else if RegisterIntervalSecs c <=? 0 then Some (txt "RegisterIntervalSecs")
  else if HeartbeatIntervalSecs c <=? 0 then Some (txt "HeartbeatIntervalSecs")
  else if HeartbeatTimeoutCount c <=? 0 then Some (txt "HeartbeatTimeoutCount")
  else if tr "tls"%string && negb (given (TLSCAFile c)) && negb (TLSInsecureSkipVerify c) then Some (txt "TLSCAFile")
  else None.

(** ** Lemmas *)

Lemma allDigits_iff s : allDigits s = true <-> digits s.
Proof. unfold allDigits. rewrite forallb_forall. symmetry. apply List.Forall_forall. Qed.

Lemma take_app_exact {A} n (a b : list A) : length a = n -> take n (a ++ b) = a.
Proof. intros <-. apply take_app_length. Qed.

Lemma drop_app_exact {A} n (a b : list A) : length a = n -> drop n (a ++ b) = b.
Proof. intros <-. apply drop_app_length. Qed.

Lemma scan_pad0 bits w n : 0 <= n < 10 ^ Z.of_nat w -> n < 2 ^ bits -> (0 < w <= 20)%nat -> scan_uint bits (pad0 w n) = Some n.
Proof.
  intros Hn Hb Hw. unfold scan_uint. destruct (pad0_spec w n Hn Hw) as (_ & _ & E). rewrite E.
  by rewrite (proj2 (Z.ltb_lt _ _)) by done.
Qed.

(** The four parts of 20 characters. *)
Lemma id_parts (id : text) : length id = 20%nat ->
  id = take 8 id ++ take 2 (drop 8 id) ++ take 3 (drop 10 id) ++ take 7 (drop 13 id).
Proof.
  intros Hl. rewrite (take_ge (drop 13 id)) by (rewrite length_drop; lia).
  change (drop 13 id) with (drop (10 + 3) id). rewrite <- drop_drop, take_drop.
  change (drop 10 id) with (drop (8 + 2) id). by rewrite <- drop_drop, !take_drop.
Qed.

(** Digits are determined by their value and their number. *)
Lemma digits_value_inj a : forall b n, digits a -> digits b -> length a = length b ->
  digits_value 0 a = Some n -> digits_value 0 b = Some n -> a = b.
Proof.
  induction a as [|x a IH] using rev_ind; intros b n Ha Hb Hl Ea Eb; [by destruct b|].
  destruct b as [|y b _] using rev_ind; [rewrite length_app in Hl; cbn in Hl; lia|].
  rewrite !length_app in Hl. cbn [length] in Hl. unfold digits in *. rewrite !list.Forall_app in *.
  destruct Ha as [Ha Hx], Hb as [Hb Hy]. apply list.Forall_cons in Hx as [Hx _], Hy as [Hy _].
  rewrite digits_value_app in Ea, Eb. destruct (digits_value 0 a) as [va|] eqn:Va; [|done].
  destruct (digits_value 0 b) as [vb|] eqn:Vb; [|done]. cbn [mbind option_bind digits_value] in Ea, Eb.
  rewrite Hx in Ea. rewrite Hy in Eb. injection Ea as Ea. injection Eb as Eb.
  unfold is_digit in Hx, Hy. rewrite andb_true_iff, !Z.leb_le in Hx, Hy.
  assert (va = vb /\ x = y) as [-> ->] by lia. f_equal. apply (IH b vb); done || lia.
Qed.

Lemma digits_scan bits w s : digits s -> length s = w -> (0 < w <= 20)%nat -> 10 ^ Z.of_nat w <= 2 ^ bits ->
  exists n, scan_uint bits s = Some n /\ 0 <= n < 10 ^ Z.of_nat w /\ pad0 w n = s.
Proof.
  intros Hd Hl Hw Hb. destruct (digits_value_shift s 0 Hd) as (v & Hv & E). destruct (E 0) as [E0 _].
  rewrite Z.mul_0_l, Z.add_0_l in E0. rewrite Hl in Hv. exists v. unfold scan_uint. rewrite E0, (proj2 (Z.ltb_lt _ _)) by lia.
  split; [done|]. split; [done|]. destruct (pad0_spec w v Hv Hw) as (P1 & P2 & P3).
  apply (digits_value_inj _ _ v); done || lia.
Qed.

Lemma validPlatformID_iff id : validPlatformID id = true <->
  length id = 20%nat /\ digits id /\ take 3 (drop 10 id) = txt "200".
Proof.
  unfold validPlatformID. destruct (Nat.eqb_spec (length id) 20); cbn [negb]; [|split; [done|by intros [? _]]].
  destruct (allDigits id) eqn:E; cbn [negb].
  - rewrite bool_decide_eq_true. apply allDigits_iff in E. by split; [|intros (_ & _ & ?)].
  - split; [done|]. intros (_ & H & _). apply allDigits_iff in H. congruence.
Qed.

Lemma check_parts_ok ids : Forall (fun p => validPlatformID p = true) ids -> check_parts ids = inr ids.
Proof. induction 1 as [|p ids Hp _ IH]; [done|]. cbn [check_parts]. by rewrite Hp, IH. Qed.

Lemma check_parts_inv parts ids : check_parts parts = inr ids -> ids = parts /\ Forall (fun p => validPlatformID p = true) parts.
Proof.
  revert ids. induction parts as [|p parts IH]; intros ids; cbn [check_parts]; [by intros [= <-]|].
  destruct (validPlatformID p) eqn:E; [|done]. destruct (check_parts parts) as [e|l]; [done|]. intros [= <-].
  destruct (IH l eq_refl) as [-> H]. split; [done|]. by apply list.Forall_cons.
Qed.

(** The joined text starts and ends with a digit. *)
Lemma join_ends ids : ids <> [] -> Forall (fun p => validPlatformID p = true) ids ->
  starts_ok (Join ids [0x2D]) = true /\ starts_ok (rev (Join ids [0x2D])) = true.
Proof.
  intros Hne H. assert (W : forall p, validPlatformID p = true -> starts_ok p = true /\ starts_ok (rev p) = true /\ word p).
  { intros p (Hl & Hd & _)%validPlatformID_iff. assert (Hw : word p) by (apply digits_word; [done|by intros ->]).
    split_and!; [|by apply starts_ok_rev_word|done]. destruct Hw as [Hp Hw]. destruct p as [|b p]; [done|]. by apply list.Forall_cons in Hw as [? _]. }
  induction H as [|p ids Hp H IH]; [done|]. destruct (W p Hp) as (W1 & W2 & _). destruct ids as [|q ids]; [done|].
  destruct IH as [I1 I2]; [done|]. cbn [Join]. split; [by apply starts_ok_app|]. rewrite !rev_app_distr.
  apply starts_ok_app. by apply starts_ok_app.
Qed.

(** ** Theorems *)

(** Device IDs round trip: parts in their ranges format to a 20-digit ID that
    parses to the same parts, and every text of 20 digits parses to parts that
    format to it. *)
Theorem device_id_roundtrip :
  (forall c i t s, length c = 8%nat -> digits c -> 0 <= i < 100 -> 0 <= t < 1000 -> 0 <= s < 10000000 ->
     exists id, FormatDeviceID c i t s = inr id /\ length id = 20%nat /\ digits id /\
       ParseDeviceID id = inr (mkDeviceIDParts c i t s)) /\
  (forall id, length id = 20%nat -> digits id ->
     exists p, ParseDeviceID id = inr p /\
       FormatDeviceID (RegionCode p) (IndustryType p) (DeviceType p) (Serial p) = inr id).
Proof.
  split.
  - intros c i t s Hc Hd Hi Ht Hs.
    destruct (pad0_spec 2 i) as (D1 & L1 & _); [done|lia|]. destruct (pad0_spec 3 t) as (D2 & L2 & _); [done|lia|].
    destruct (pad0_spec 7 s) as (D3 & L3 & _); [done|lia|].
    exists (c ++ pad0 2 i ++ pad0 3 t ++ pad0 7 s). unfold FormatDeviceID. rewrite Hc. cbn [Nat.eqb negb].
    rewrite (proj2 (allDigits_iff c) Hd). split; [done|].
    assert (Hlen : length (c ++ pad0 2 i ++ pad0 3 t ++ pad0 7 s) = 20%nat) by (rewrite !length_app; lia).
    assert (Hdig : digits (c ++ pad0 2 i ++ pad0 3 t ++ pad0 7 s)) by (unfold digits in *; by rewrite !list.Forall_app).
    split; [done|]. split; [done|]. unfold ParseDeviceID. rewrite Hlen. cbn [Nat.eqb negb].
    rewrite (proj2 (allDigits_iff _) Hdig). cbn [negb].
    change 13%nat with (8 + 5)%nat. change 10%nat with (8 + 2)%nat. rewrite <- !drop_drop.
    rewrite (drop_app_exact 8), (take_app_exact 8) by done.
    rewrite (drop_app_exact 2), (take_app_exact 2) by done.
    rewrite (app_assoc (pad0 2 i)), (drop_app_exact 5) by (rewrite length_app; lia).
    rewrite (take_app_exact 3) by done. rewrite (take_ge (pad0 7 s)) by lia.
    by rewrite !scan_pad0 by (done || lia).
  - intros id Hl Hd. unfold ParseDeviceID. rewrite Hl. cbn [Nat.eqb negb]. rewrite (proj2 (allDigits_iff id) Hd). cbn [negb].
    assert (D : forall n m, digits (take n (drop m id))) by (intros; by apply Forall_take, Forall_drop).
    destruct (digits_scan 8 2 (take 2 (drop 8 id))) as (i & -> & _ & Pi); [apply D|rewrite length_take, length_drop; lia|lia|done|].
    destruct (digits_scan 16 3 (take 3 (drop 10 id))) as (t & -> & _ & Pt); [apply D|rewrite length_take, length_drop; lia|lia|done|].
    destruct (digits_scan 32 7 (take 7 (drop 13 id))) as (s & -> & _ & Ps); [apply D|rewrite length_take, length_drop; lia|lia|done|].
    eexists. split; [done|]. cbn [RegionCode IndustryType DeviceType Serial]. unfold FormatDeviceID.
    rewrite length_take, Hl. cbn [Nat.min Nat.eqb negb]. rewrite (proj2 (allDigits_iff (take 8 id)) (D 8%nat 0%nat)). cbn [negb].
    rewrite Pi, Pt, Ps. f_equal. symmetry. by apply id_parts.
Qed.

(** A device type outside its three digits makes an ID of 21 characters,
    which the program's own parser refuses. *)
Theorem oversized_type_unparsable :
  exists id, FormatDeviceID (txt "34020000") 0 1000 1 = inr id /\ ParseDeviceID id = inl (BadLength 21).
Proof. eexists. split; [reflexivity|]. vm_compute. reflexivity. Qed.

(** Platform ID lists round trip: a list of valid IDs is read back from its
    formatted form, and what is read from any text are valid IDs whose formatted
    form is the text without the white space around it. *)
Theorem platform_ids_roundtrip :
  (forall ids, Forall (fun p => validPlatformID p = true) ids -> ParsePlatformIDList (FormatPlatformIDList ids) = inr ids) /\
  (forall v ids, ParsePlatformIDList v = inr ids ->
     FormatPlatformIDList ids = TrimSpace v /\ Forall (fun p => validPlatformID p = true) ids).
Proof.
  unfold ParsePlatformIDList, FormatPlatformIDList. split.
  - intros ids H. destruct ids as [|p ids]; [done|].
    destruct (join_ends (p :: ids) ltac:(done) H) as [E1 E2].
    pose proof (TrimSpace_ends [] (Join (p :: ids) [0x2D]) []) as T. cbn [app] in T. rewrite app_nil_r in T.
    rewrite T by (done || by apply list.Forall_nil).
    destruct (Join (p :: ids) [0x2D]) as [|b r] eqn:EJ; [done|]. rewrite <- EJ.
    rewrite Split_Join; [by apply check_parts_ok|done|]. eapply list.Forall_impl; [exact H|].
    intros q (_ & Hq & _)%validPlatformID_iff. by apply digits_no.
  - intros v ids. destruct (TrimSpace v) as [|b r]; [by intros [= <-]|]. intros H.
    apply check_parts_inv in H as [-> H]. split; [|done]. by apply Join_Split.
Qed.

(** A device configuration that passes the checks can run: the transport is
    one of the five, the ports fit 16 bits, both IDs are identifiers that parse,
    and the intervals and the failure count of the loops are positive. *)
Theorem validated_config_runs c : Validate c = None -> Enabled c = true ->
  In (ToLower (Transport c)) [[]; txt "udp"; txt "tcp"; txt "tcp-out"; txt "tls"; txt "tls-listen"] /\
  0 <= LocalSIPPort c <= 65535 /\ 1 <= PlatformSIPPort c <= 65535 /\
  (exists p, ParseDeviceID (DeviceID c) = inr p) /\ (exists p, ParseDeviceID (ChannelID c) = inr p) /\
  0 < RegisterIntervalSecs c /\ 0 < HeartbeatIntervalSecs c /\ 0 < HeartbeatTimeoutCount c.
Proof.
  assert (P : forall id, validateGBID id = true -> exists p, ParseDeviceID id = inr p).
  { intros id [Hl Hd]%andb_true_iff. apply Nat.eqb_eq in Hl. apply allDigits_iff in Hd.
    destruct (proj2 device_id_roundtrip id Hl Hd) as (p & Hp & _). by exists p. }
  unfold Validate. intros H He. rewrite He in H. cbn [negb] in H.
  repeat match type of H with
         | (if ?b then _ else _) = None => destruct b eqn:?; [discriminate H|]
         end.
  rewrite ?negb_false_iff, ?orb_false_iff, ?Z.ltb_ge, ?Z.leb_gt in *.
  split; [|split; [lia|split; [lia|split; [by apply P|split; [by apply P|lia]]]]].
  rewrite !orb_true_iff, !bool_decide_eq_true in *. change (txt EmptyString) with (@nil Z) in *. cbn [In].
  clear - Heqb. intuition congruence.
Qed.

(** ** Witnesses *)

Lemma validated_config_runs_witness :
  let c := mkConfig true (txt "UDP") 5060 [] [] [] false (txt "10.0.0.1") 5060 (txt "34020000001320000001")
             (txt "34020000001310000001") (txt "3402000000") 3600 60 3 in
  exists p, ParseDeviceID (DeviceID c) = inr p.
Proof.
  intros c. destruct (validated_config_runs c) as (_ & _ & _ & H & _); [vm_compute; reflexivity|reflexivity|exact H].
Defined.
