(* ===== verification/CascadeRegister.v ===== *)
(** Registration with an upper platform: the exponential backoff
    ([backoff/backoff.go]) and the loop that registers, keeps alive and registers
    again ([registerLoop], [platform/cascade/service.go]).

    Durations are 64-bit nanoseconds. The loop is a machine that is told, at each
    of its requests, whether it succeeded; cancellation ends a run anywhere. *)

From S2P Require Import Prelude.
Open Scope Z_scope.

(** ** The backoff *)

Definition DefaultBase : Z := 1000000000.

Record Backoff := mkBackoff { base : Z; max_wait : Z; next_wait : Z }.

Definition New (b ceiling : Z) : Backoff :=
  let b := if b <=? 0 then DefaultBase else b in
  let ceiling := if ceiling <? b then b else ceiling in
  mkBackoff b ceiling b.

Definition Next (b : Backoff) : Z * Backoff :=
  let doubled := s64 (next_wait b * 2) in
  (next_wait b, mkBackoff (base b) (max_wait b) (if max_wait b <? doubled then max_wait b else doubled)).

Definition Reset_ (b : Backoff) : Backoff := mkBackoff (base b) (max_wait b) (base b).

(** The first [n] waits. *)
Fixpoint waits (n : nat) (b : Backoff) : list Z :=
  match n with O => [] | S m => let (w, b') := Next b in w :: waits m b' end.

(** ** The loop *)

Definition second : Z := 1000000000.

(** What the loop reads of its configuration: [RegisterExpires], the parsed
    [HeartbeatInterval] and the bounds of the backoff. *)
Record upper_config := mkUpperConfig {
  RegisterExpires : Z;
  HeartbeatInterval : option Z;
  retryBase : Z;
  retryMax : Z;
}.

Inductive action := SendRegister (expires : Z) (ok : bool) | SendKeepalive (ok : bool) | SetOnline (v : bool) | Sleep (d : Z).

(** Before [sendRegister], or asleep before the keepalive of iteration [i]. *)
Inductive place := Registering | Keepalive (i : Z).

Record loop_state := mkLoop { retry : Backoff; at_ : place }.

Section Loop.

Context (cfg : upper_config).

Definition expires : Z := if RegisterExpires cfg <=? 0 then 3600 else RegisterExpires cfg.

Definition hb : Z :=
  match HeartbeatInterval cfg with Some d => if 0 <? d then d else 60 * second | None => 60 * second end.

Definition reRegister : Z := s64 (s64 (Z.quot (s64 (expires * 8)) 10 * second) - hb).

(** The test of the keepalive loop, and the sleep that starts its body. *)
Definition iterate (i : Z) : list action * place :=
  if i <? reRegister then ([Sleep hb], Keepalive i) else ([], Registering).

Definition loop_step (ok : bool) (st : loop_state) : list action * loop_state :=
  match at_ st with
  | Registering =>
      if ok then let (acts, p) := iterate 0 in
                 (SendRegister expires true :: SetOnline true :: acts, mkLoop (Reset_ (retry st)) p)
      else let (wait, b) := Next (retry st) in
           ([SendRegister expires false; SetOnline false; Sleep wait], mkLoop b Registering)
  | Keepalive i =>
      if ok then let (acts, p) := iterate (s64 (i + hb)) in (SendKeepalive true :: acts, mkLoop (retry st) p)
      else ([SendKeepalive false; SetOnline false], mkLoop (retry st) Registering)
  end.

Fixpoint registerLoop (outcomes : list bool) (st : loop_state) : list action * loop_state :=
  match outcomes with
  | [] => ([], st)
  | ok :: rest => let (acts, st1) := loop_step ok st in
                  let (acts', st2) := registerLoop rest st1 in (acts ++ acts', st2)
  end.

Definition start : loop_state := mkLoop (New (retryBase cfg) (retryMax cfg)) Registering.

End Loop.

(** The waits of a run, and their sum. *)
Definition sleeps (acts : list action) : list Z := flat_map (fun a => match a with Sleep d => [d] | _ => [] end) acts.
Definition asleep (acts : list action) : Z := fold_right Z.add 0 (sleeps acts).

(** ** Lemmas *)

(** After [n] waits; the ceiling leaves room for doubling. *)
Definition after_waits (b : Backoff) (n : nat) : Prop := next_wait b = Z.min (base b * 2 ^ Z.of_nat n) (max_wait b).

Lemma Next_after b n : 0 < base b <= max_wait b -> max_wait b < 2 ^ 62 -> after_waits b n ->
  fst (Next b) = Z.min (base b * 2 ^ Z.of_nat n) (max_wait b) /\ after_waits (snd (Next b)) (S n) /\
  base (snd (Next b)) = base b /\ max_wait (snd (Next b)) = max_wait b.
Proof.
  intros Hb Hm Ha. unfold after_waits in *. unfold Next. cbn [fst snd base max_wait next_wait].
  split; [done|]. split; [|done]. rewrite Ha, Nat2Z.inj_succ, Z.pow_succ_r by lia.
  assert (0 < 2 ^ Z.of_nat n) by (apply Z.pow_pos_nonneg; lia).
  assert (0 < base b * 2 ^ Z.of_nat n) by lia.
  rewrite s64_small by lia. destruct (Z.ltb_spec (max_wait b) (Z.min (base b * 2 ^ Z.of_nat n) (max_wait b) * 2)); lia.
Qed.

Lemma New_ok b c : let r := New b c in 0 < base r <= max_wait r /\ next_wait r = base r.
Proof.
  unfold New. cbv zeta. set (B := if b <=? 0 then DefaultBase else b).
  assert (HB : 0 < B) by (unfold B, DefaultBase; destruct (Z.leb_spec b 0); lia).
  cbn [base max_wait next_wait]. split; [|done]. destruct (Z.ltb_spec c B); lia.
Qed.

(** ** Theorems *)

(** While registration fails the waits double from the base up to the ceiling:
    the [k]-th failure in a row is followed by a wait of base times 2^k, or of the
    ceiling where that is less, and the upper stays offline. *)
Theorem failures_back_off cfg n :
  max_wait (New (retryBase cfg) (retryMax cfg)) < 2 ^ 62 ->
  let b := New (retryBase cfg) (retryMax cfg) in
  let (acts, st) := registerLoop cfg (repeat false n) (start cfg) in
  sleeps acts = map (fun k => Z.min (base b * 2 ^ Z.of_nat k) (max_wait b)) (seq 0 n) /\
  at_ st = Registering /\ forall v, In (SetOnline v) acts -> v = false.
Proof.
  intros Hm. cbv zeta. destruct (New_ok (retryBase cfg) (retryMax cfg)) as [Hb Hn].
  set (b0 := New _ _) in *.
  enough (G : forall n k b, base b = base b0 -> max_wait b = max_wait b0 -> after_waits b k ->
    let (acts, st) := registerLoop cfg (repeat false n) (mkLoop b Registering) in
    sleeps acts = map (fun k => Z.min (base b0 * 2 ^ Z.of_nat k) (max_wait b0)) (seq k n) /\
    at_ st = Registering /\ forall v, In (SetOnline v) acts -> v = false).
  { apply (G n 0%nat b0); [done|done|]. unfold after_waits. change (2 ^ Z.of_nat 0) with 1. lia. }
  clear n. induction n as [|n IH]; intros k b E1 E2 Ha; [done|]. cbn [repeat registerLoop loop_step at_ retry].
  destruct (Next_after b k) as (N1 & N2 & N3 & N4); [by rewrite E1, E2|by rewrite E2|done|].
  destruct (Next b) as [w b'] eqn:En. cbn [fst snd] in *.
  specialize (IH (S k) b' ltac:(congruence) ltac:(congruence) N2).
  destruct (registerLoop cfg (repeat false n) (mkLoop b' Registering)) as [acts st]. destruct IH as (I1 & I2 & I3).
  split; [|split; [done|]].
  - cbn [app sleeps flat_map seq map]. fold (sleeps acts). rewrite I1, N1, E1, E2. done.
  - intros v. cbn [app In]. intros [|[[= <-]|[|H]]]; [done|done|done|by apply I3].
Qed.

(** Four fifths of the granted time, in nanoseconds. *)
Definition refresh_window (cfg : upper_config) : Z := Z.quot (expires cfg * 8) 10 * second.

Lemma expires_pos cfg : 0 < expires cfg.
Proof. unfold expires. destruct (Z.leb_spec (RegisterExpires cfg) 0); lia. Qed.

Lemma hb_pos cfg : 0 < hb cfg.
Proof. unfold hb, second. destruct (HeartbeatInterval cfg) as [d|]; [|lia]. destruct (Z.ltb_spec 0 d); lia. Qed.

Lemma reRegister_eq cfg : expires cfg < 2 ^ 32 -> hb cfg < 2 ^ 62 -> reRegister cfg = refresh_window cfg - hb cfg.
Proof.
  intros He Hh. pose proof (expires_pos cfg). pose proof (hb_pos cfg). unfold reRegister, refresh_window, second in *.
  rewrite (s64_small (expires cfg * 8)) by lia.
  assert (0 <= Z.quot (expires cfg * 8) 10 <= expires cfg).
  { rewrite Z.quot_div_nonneg by lia. split; [apply Z.div_pos; lia|]. apply Z.div_le_upper_bound; lia. }
  rewrite (s64_small (Z.quot (expires cfg * 8) 10 * 1000000000)) by lia. rewrite s64_small by lia. done.
Qed.

Lemma registerLoop_app cfg a b st :
  registerLoop cfg (a ++ b) st =
  let (x, st1) := registerLoop cfg a st in let (y, st2) := registerLoop cfg b st1 in (x ++ y, st2).
Proof.
  revert st. induction a as [|ok a IH]; intros st; cbn [app registerLoop]; [by destruct (registerLoop cfg b st)|].
  destruct (loop_step cfg ok st) as [x st1]. rewrite IH. destruct (registerLoop cfg a st1) as [y st2].
  destruct (registerLoop cfg b st2) as [z st3]. by rewrite app_assoc.
Qed.

Lemma asleep_app a b : asleep (a ++ b) = asleep a + asleep b.
Proof.
  unfold asleep, sleeps. rewrite flat_map_app. induction (flat_map _ a) as [|x l IH]; [done|]. cbn [app fold_right]. lia.
Qed.

(** From the keepalive of iteration [i], all keepalives answered, to the next REGISTER. *)
Lemma keepalives_until cfg r : 0 < reRegister cfg < 2 ^ 62 -> hb cfg < 2 ^ 62 -> forall f i, 0 <= i < reRegister cfg ->
  reRegister cfg - i <= Z.of_nat f * hb cfg ->
  exists k, let (acts, st) := registerLoop cfg (repeat true k) (mkLoop r (Keepalive i)) in
    (1 <= k)%nat /\ st = mkLoop r Registering /\ (forall v, ~ In (SetOnline v) acts) /\
    reRegister cfg <= i + hb cfg + asleep acts < reRegister cfg + hb cfg.
Proof.
  intros HR Hh. pose proof (hb_pos cfg) as Hp. induction f as [|f IH]; intros i Hi Hf; [lia|].
  assert (E : s64 (i + hb cfg) = i + hb cfg) by (apply s64_small; lia).
  destruct (Z.ltb_spec (i + hb cfg) (reRegister cfg)) as [H|H].
  - destruct (IH (i + hb cfg) ltac:(lia) ltac:(lia)) as (k & IHk). exists (S k).
    change (repeat true (S k)) with (true :: repeat true k). cbn [registerLoop loop_step at_ retry]. rewrite E. unfold iterate.
    rewrite (proj2 (Z.ltb_lt _ _)) by done.
    destruct (registerLoop cfg (repeat true k) (mkLoop r (Keepalive (i + hb cfg)))) as [acts st].
    destruct IHk as (K1 & K2 & K3 & K4). split; [lia|]. split; [done|]. split.
    + intros v. cbn [app In]. intros [|[|Hin]]; [done|done|by apply (K3 v)].
    + cbn [app]. change (asleep (SendKeepalive true :: Sleep (hb cfg) :: acts)) with (hb cfg + asleep acts). lia.
  - exists 1%nat. cbn [repeat registerLoop loop_step at_ retry]. rewrite E. unfold iterate. rewrite (proj2 (Z.ltb_ge _ _)) by done.
    split; [lia|]. split; [done|]. split; [by intros v [|[]]|]. change (asleep ([SendKeepalive true] ++ [])) with 0. lia.
Qed.

(** A registration with an upper is renewed in time: while the upper answers,
    the loop sends its keepalives and comes to the next REGISTER after sleeping
    less than four fifths of the granted time and at least that minus one
    heartbeat, without going offline in between. *)
Theorem upper_renewed_in_time cfg r :
  expires cfg < 2 ^ 32 -> hb cfg < refresh_window cfg ->
  exists k, let (acts, st) := registerLoop cfg (true :: repeat true k) (mkLoop r Registering) in
    (1 <= k)%nat /\ at_ st = Registering /\ (forall v, In (SetOnline v) acts -> v = true) /\
    refresh_window cfg - hb cfg <= asleep acts < refresh_window cfg.
Proof.
  intros He Hw. pose proof (hb_pos cfg) as Hp. pose proof (expires_pos cfg).
  assert (Hb : refresh_window cfg < 2 ^ 62).
  { unfold refresh_window, second. rewrite Z.quot_div_nonneg by lia.
    assert (expires cfg * 8 / 10 <= expires cfg) by (apply Z.div_le_upper_bound; lia). lia. }
  pose proof (reRegister_eq cfg He ltac:(lia)) as HR.
  destruct (keepalives_until cfg (Reset_ r) ltac:(lia) ltac:(lia) (Z.to_nat (reRegister cfg)) 0 ltac:(lia) ltac:(nia)) as (k & K).
  exists k. cbn [registerLoop loop_step at_ retry]. unfold iterate. rewrite (proj2 (Z.ltb_lt _ _)) by lia.
  destruct (registerLoop cfg (repeat true k) (mkLoop (Reset_ r) (Keepalive 0))) as [acts st].
  destruct K as (K1 & -> & K3 & K4). split; [done|]. split; [done|]. split.
  - intros v. cbn [app In]. intros [|[[= <-]|[|Hin]]]; [done|done|done|by apply K3 in Hin].
  - cbn [app]. change (asleep (SendRegister (expires cfg) true :: SetOnline true :: Sleep (hb cfg) :: acts)) with (hb cfg + asleep acts). lia.
Qed.

(** A short expiry turns the loop into a busy one: when four fifths of the
    granted time are no more than a heartbeat, the loop sends one REGISTER after
    the other without ever sleeping, for as long as the upper accepts them. *)
Theorem short_expiry_spins cfg r n :
  expires cfg < 2 ^ 32 -> hb cfg < 2 ^ 62 -> refresh_window cfg <= hb cfg ->
  fst (registerLoop cfg (repeat true n) (mkLoop r Registering)) =
  concat (repeat [SendRegister (expires cfg) true; SetOnline true] n).
Proof.
  intros He Hh Hw. pose proof (reRegister_eq cfg He Hh) as HR.
  revert r. induction n as [|n IH]; intros r; [done|]. cbn [repeat registerLoop loop_step at_ retry]. unfold iterate.
  rewrite (proj2 (Z.ltb_ge _ _)) by lia. specialize (IH (Reset_ r)).
  destruct (registerLoop cfg (repeat true n) _) as [acts st]. cbn [fst] in IH. by rewrite IH.
Qed.

(** ** Witnesses *)

(** The defaults: an hour, a minute, one second to five minutes. *)
Definition default_upper : upper_config := mkUpperConfig 0 None DefaultBase (300 * second).

Lemma failures_back_off_witness :
  sleeps (fst (registerLoop default_upper (repeat false 10) (start default_upper))) =
  map (fun n => n * second) [1; 2; 4; 8; 16; 32; 64; 128; 256; 300].
Proof.
  pose proof (failures_back_off default_upper 10 ltac:(reflexivity)) as H. cbv zeta in H.
  destruct (registerLoop default_upper (repeat false 10) (start default_upper)) as [acts st]. destruct H as (H & _ & _).
  cbn [fst]. rewrite H. vm_compute. reflexivity.
Defined.

Lemma upper_renewed_in_time_witness :
  exists k, let (acts, st) := registerLoop default_upper (true :: repeat true k) (mkLoop (New 1 1) Registering) in
    at_ st = Registering /\ asleep acts < 2880 * second.
Proof.
  destruct (upper_renewed_in_time default_upper (New 1 1)) as (k & H); [reflexivity|reflexivity|]. exists k.
  destruct (registerLoop default_upper (true :: repeat true k) (mkLoop (New 1 1) Registering)) as [acts st].
  destruct H as (_ & H1 & _ & H2). split; [exact H1|]. change (2880 * second) with (refresh_window default_upper). apply H2.
Defined.

(** An expiry of a minute, with the default heartbeat. *)
Lemma short_expiry_spins_witness :
  sleeps (fst (registerLoop (mkUpperConfig 60 None 1 1) (repeat true 1000) (mkLoop (New 1 1) Registering))) = [].
Proof.
  rewrite (short_expiry_spins (mkUpperConfig 60 None 1 1) (New 1 1) 1000); [reflexivity|reflexivity|reflexivity|vm_compute; congruence].
Defined.
