(* ===== verification/Ptz.v ===== *)
(** PTZ instructions: the platform-side builders ([platform/ptz.go]) and the
    device-side decoder ([device/ptz.go]) of the 8-byte GB/T 28181 command. *)

From S2P Require Import Prelude GoStrings.
Open Scope Z_scope.

(** ** Platform side *)

Definition DirUp := "up"%string.
Definition DirDown := "down"%string.
Definition DirLeft := "left"%string.
Definition DirRight := "right"%string.
Definition DirUpLeft := "up-left"%string.
Definition DirUpRight := "up-right"%string.
Definition DirDownLeft := "down-left"%string.
Definition DirDownRight := "down-right"%string.
Definition DirZoomIn := "zoom-in"%string.
Definition DirZoomOut := "zoom-out"%string.
Definition DirStop := "stop"%string.

Definition ptzCommandCodes : gmap string Z := list_to_map
  [(DirStop, 0x00); (DirUp, 0x08); (DirDown, 0x04); (DirLeft, 0x02); (DirRight, 0x01);
   (DirUpLeft, 0x0A); (DirUpRight, 0x09); (DirDownLeft, 0x06); (DirDownRight, 0x05);
   (DirZoomIn, 0x10); (DirZoomOut, 0x20)].

(** The checksum byte after the seven others. *)
Definition checksum (cmd : list Z) : Z := fold_left (fun sum b => u8 (sum + b)) cmd 0.

Definition finishPTZCommand (cmd : list Z) : list Z := cmd ++ [checksum cmd].

Definition BuildPTZCommand (direction : string) (speed : Z) : option (list Z) :=
  bits ← ptzCommandCodes !! direction;
  let tilts := bool_decide (direction ∈ [DirUp; DirDown]) in
  let pans := bool_decide (direction ∈ [DirLeft; DirRight]) in
  let both := bool_decide (direction ∈ [DirUpLeft; DirUpRight; DirDownLeft; DirDownRight]) in
  let zooms := bool_decide (direction ∈ [DirZoomIn; DirZoomOut]) in
  Some (finishPTZCommand
    [0xA5; 0x0F; 0x01; bits;
     if pans || both then speed else 0;
     if tilts || both then speed else 0;
     if zooms then speed else 0]).

Definition ptzSetPreset : Z := 0x81.
Definition ptzCallPreset : Z := 0x82.
Definition ptzDeletePreset : Z := 0x83.
Definition ptzAddCruisePoint : Z := 0x84.
Definition ptzDelCruisePoint : Z := 0x85.
Definition ptzCruiseSpeed : Z := 0x86.
Definition ptzCruiseStayTime : Z := 0x87.
Definition ptzStartCruise : Z := 0x88.
Definition ptzAuxSwitchOn : Z := 0x8C.
Definition ptzAuxSwitchOff : Z := 0x8D.

Definition preset_code (action : string) : option Z :=
  if bool_decide (action = "set"%string) then Some ptzSetPreset
  else if bool_decide (action = "call"%string) then Some ptzCallPreset
  else if bool_decide (action = "delete"%string) then Some ptzDeletePreset
  else None.

Definition BuildPTZPresetCommand (action : string) (preset : Z) : option (list Z) :=
  if preset =? 0 then None else
  code ← preset_code action;
  Some (finishPTZCommand [0xA5; 0x0F; 0x01; code; 0x00; 0x00; preset]).

Definition cruise_code (action : string) : option Z :=
  if bool_decide (action = "add-point"%string) then Some ptzAddCruisePoint
  else if bool_decide (action = "del-point"%string) then Some ptzDelCruisePoint
  else if bool_decide (action = "speed"%string) then Some ptzCruiseSpeed
  else if bool_decide (action = "stay"%string) then Some ptzCruiseStayTime
  else if bool_decide (action = "start"%string) then Some ptzStartCruise
  else None.

Definition BuildPTZCruiseCommand (action : string) (cruise value : Z) : option (list Z) :=
  if cruise =? 0 then None else
  code ← cruise_code action;
  Some (finishPTZCommand [0xA5; 0x0F; 0x01; code; cruise; 0x00; value]).

Definition fiActionBits : gmap string Z := list_to_map
  [("iris-close", 0x08); ("iris-open", 0x04); ("focus-near", 0x02); ("focus-far", 0x01); ("stop", 0x00)]%string.

Definition BuildFICommand (action : string) (speed : Z) : option (list Z) :=
  bits ← fiActionBits !! action;
  let iris := bool_decide (action ∈ ["iris-close"; "iris-open"]%string) in
  let focus := bool_decide (action ∈ ["focus-near"; "focus-far"]%string) in
  Some (finishPTZCommand
    [0xA5; 0x0F; 0x01; Z.lor 0x40 bits; if focus then speed else 0; if iris then speed else 0; 0x00]).

Definition BuildAuxSwitchCommand (switchNo : Z) (on : bool) : option (list Z) :=
  if switchNo =? 0 then None else
  Some (finishPTZCommand
    [0xA5; 0x0F; 0x01; if on then ptzAuxSwitchOn else ptzAuxSwitchOff; switchNo; 0x00; 0x00]).

Definition ptzCmdString (cmd : list Z) : text := ToUpper (hex_encode cmd).

(** ** Device side *)

Inductive PtzKind :=
  | PtzMove | PtzPreset | PtzCruise | PtzLens | PtzAuxSwitch | PtzUnknown | PtzInvalid.

Inductive PtzPresetAction := PtzPresetSet | PtzPresetCall | PtzPresetDelete.
Inductive PtzCruiseAction :=
  | PtzCruiseAddPoint | PtzCruiseDelPoint | PtzCruiseSpeed | PtzCruiseStay | PtzCruiseStart.

Record PtzCommand := mkPtzCommand {
  Kind : PtzKind;
  Bits : Z;
  Raw : list Z;
  RawHex : text;
  PanSpeed : Z;
  TiltSpeed : Z;
  ZoomSpeed : Z;
  PresetAction : PtzPresetAction;
  Preset : Z;
  CruiseAction : PtzCruiseAction;
  CruiseGroup : Z;
  CruiseValue : Z;
  FocusSpeed : Z;
  IrisSpeed : Z;
  SwitchNumber : Z;
  On : bool;
  Code : Z;
  Data : list Z;
}.

#[export] Instance eta_PtzCommand : Eta PtzCommand := fun c =>
  mkPtzCommand (Kind c) (Bits c) (Raw c) (RawHex c) (PanSpeed c) (TiltSpeed c) (ZoomSpeed c)
    (PresetAction c) (Preset c) (CruiseAction c) (CruiseGroup c) (CruiseValue c) (FocusSpeed c)
    (IrisSpeed c) (SwitchNumber c) (On c) (Code c) (Data c).

(** The zero value with the input as received. *)
Definition invalid_command (s : text) : PtzCommand :=
  mkPtzCommand PtzInvalid 0 (repeat 0 8) s 0 0 0 PtzPresetSet 0 PtzCruiseAddPoint 0 0 0 0 0 false 0 [0; 0; 0].

Definition IsStop (c : PtzCommand) : bool :=
  match Kind c with PtzMove => Bits c =? 0 | _ => false end.

(** [PtzPresetAction(code - ptzCodePresetBase)] in the range that is tested. *)
Definition preset_action (n : Z) : PtzPresetAction :=
  if n =? 0 then PtzPresetSet else if n =? 1 then PtzPresetCall else PtzPresetDelete.

Definition cruise_action (n : Z) : PtzCruiseAction :=
  if n =? 0 then PtzCruiseAddPoint else if n =? 1 then PtzCruiseDelPoint
  else if n =? 2 then PtzCruiseSpeed else if n =? 3 then PtzCruiseStay else PtzCruiseStart.

(** The [switch] on the instruction code; [b4], [b5], [b6] are raw bytes 4 to 6. *)
Definition decode_code (code b4 b5 b6 : Z) (cmd : PtzCommand) : PtzCommand :=
  if code <=? 0x3F then
    cmd <| Kind := PtzMove |> <| Bits := code |> <| PanSpeed := b4 |> <| TiltSpeed := b5 |> <| ZoomSpeed := b6 |>
  else if Z.land code 0xF0 =? 0x40 then
    cmd <| Kind := PtzLens |> <| Bits := Z.land code 0x0F |> <| FocusSpeed := b4 |> <| IrisSpeed := b5 |>
  else if (0x81 <=? code) && (code <=? 0x83) then
    cmd <| Kind := PtzPreset |> <| PresetAction := preset_action (code - 0x81) |> <| Preset := b6 |>
  else if (0x84 <=? code) && (code <=? 0x88) then
    cmd <| Kind := PtzCruise |> <| CruiseAction := cruise_action (code - 0x84) |>
        <| CruiseGroup := b4 |> <| CruiseValue := b6 |>
  else if (code =? 0x8C) || (code =? 0x8D) then
    cmd <| Kind := PtzAuxSwitch |> <| SwitchNumber := b4 |> <| On := code =? 0x8C |>
  else
    cmd <| Kind := PtzUnknown |> <| Code := code |> <| Data := [b4; b5; b6] |>.

Definition DecodePTZCommand (a505Hex : text) : PtzCommand :=
  let trimmed := TrimSpace a505Hex in
  let cmd := invalid_command trimmed in
  match hex_decode trimmed with
  | Some [r0; r1; r2; r3; r4; r5; r6; r7] =>
      if negb (r0 =? 0xA5) then cmd
      else if negb (checksum [r0; r1; r2; r3; r4; r5; r6] =? r7) then cmd
      else decode_code r3 r4 r5 r6 (cmd <| Raw := [r0; r1; r2; r3; r4; r5; r6; r7] |>)
  | _ => cmd
  end.

(** ** Requests and what they mean *)

(** A call of one of the five builders. *)
Inductive ptz_request :=
  | ReqMove (direction : string) (speed : Z)
  | ReqPreset (action : string) (preset : Z)
  | ReqCruise (action : string) (cruise value : Z)
  | ReqLens (action : string) (speed : Z)
  | ReqAux (switchNo : Z) (on : bool).

Definition build (q : ptz_request) : option (list Z) :=
  match q with
  | ReqMove d s => BuildPTZCommand d s
  | ReqPreset a p => BuildPTZPresetCommand a p
  | ReqCruise a c v => BuildPTZCruiseCommand a c v
  | ReqLens a s => BuildFICommand a s
  | ReqAux n on => BuildAuxSwitchCommand n on
  end.

(** The parameters are Go bytes. *)
Definition request_ok (q : ptz_request) : Prop :=
  match q with
  | ReqMove _ s | ReqPreset _ s | ReqLens _ s | ReqAux s _ => is_byte s
  | ReqCruise _ c v => is_byte c /\ is_byte v
  end.

(** The direction bits of §A.4, from the axes the direction names. *)
Definition moves_up (d : string) : bool := bool_decide (d ∈ [DirUp; DirUpLeft; DirUpRight]).
Definition moves_down (d : string) : bool := bool_decide (d ∈ [DirDown; DirDownLeft; DirDownRight]).
Definition moves_left (d : string) : bool := bool_decide (d ∈ [DirLeft; DirUpLeft; DirDownLeft]).
Definition moves_right (d : string) : bool := bool_decide (d ∈ [DirRight; DirUpRight; DirDownRight]).
Definition zooms_in (d : string) : bool := bool_decide (d = DirZoomIn).
Definition zooms_out (d : string) : bool := bool_decide (d = DirZoomOut).

(** What a device is to understand, independent of the wire form. *)
Definition understood (q : ptz_request) (c : PtzCommand) : Prop :=
  match q with
  | ReqMove d s =>
      Kind c = PtzMove /\
      Z.testbit (Bits c) 3 = moves_up d /\ Z.testbit (Bits c) 2 = moves_down d /\
      Z.testbit (Bits c) 1 = moves_left d /\ Z.testbit (Bits c) 0 = moves_right d /\
      Z.testbit (Bits c) 4 = zooms_in d /\ Z.testbit (Bits c) 5 = zooms_out d /\
      PanSpeed c = (if moves_left d || moves_right d then s else 0) /\
      TiltSpeed c = (if moves_up d || moves_down d then s else 0) /\
      ZoomSpeed c = (if zooms_in d || zooms_out d then s else 0) /\
      IsStop c = bool_decide (d = DirStop)
  | ReqPreset a p =>
      Kind c = PtzPreset /\ Preset c = p /\
      a = match PresetAction c with
          | PtzPresetSet => "set" | PtzPresetCall => "call" | PtzPresetDelete => "delete" end%string
  | ReqCruise a g v =>
      Kind c = PtzCruise /\ CruiseGroup c = g /\ CruiseValue c = v /\
      a = match CruiseAction c with
          | PtzCruiseAddPoint => "add-point" | PtzCruiseDelPoint => "del-point"
          | PtzCruiseSpeed => "speed" | PtzCruiseStay => "stay" | PtzCruiseStart => "start" end%string
  | ReqLens a s =>
      Kind c = PtzLens /\
      Z.testbit (Bits c) 3 = bool_decide (a = "iris-close"%string) /\
      Z.testbit (Bits c) 2 = bool_decide (a = "iris-open"%string) /\
      Z.testbit (Bits c) 1 = bool_decide (a = "focus-near"%string) /\
      Z.testbit (Bits c) 0 = bool_decide (a = "focus-far"%string) /\
      IrisSpeed c = (if bool_decide (a ∈ ["iris-close"; "iris-open"]%string) then s else 0) /\
      FocusSpeed c = (if bool_decide (a ∈ ["focus-near"; "focus-far"]%string) then s else 0)
  | ReqAux n on => Kind c = PtzAuxSwitch /\ SwitchNumber c = n /\ On c = on
  end.

(** ** Lemmas *)

Lemma checksum_byte cmd : is_byte (checksum cmd).
Proof.
  unfold checksum. assert (H : is_byte 0) by (unfold is_byte; lia). revert H. generalize 0.
  induction cmd as [|b cmd IH]; intros acc H; [done|]. apply IH, u8_range.
Qed.

Lemma checksum_sum cmd acc : fold_left (fun sum b => u8 (sum + b)) cmd (u8 acc) = u8 (fold_left Z.add cmd acc).
Proof.
  revert acc. induction cmd as [|b cmd IH]; intros acc; [done|]. cbn [fold_left]. rewrite <- IH. f_equal.
  unfold u8. by rewrite Zplus_mod_idemp_l.
Qed.

(** A well-formed frame is decoded by its code, whatever the case and padding. *)
Lemma decode_frame pre post s c4 c5 c6 code :
  Forall (fun b => ascii_space b = true) pre -> Forall (fun b => ascii_space b = true) post ->
  Forall (fun b => printable b = true) s ->
  hex_decode s = Some (finishPTZCommand [0xA5; 0x0F; 0x01; code; c4; c5; c6]) ->
  DecodePTZCommand (pre ++ s ++ post) =
    decode_code code c4 c5 c6
      ((invalid_command s) <| Raw := finishPTZCommand [0xA5; 0x0F; 0x01; code; c4; c5; c6] |>).
Proof.
  intros Hpre Hpost Hs Hd. unfold DecodePTZCommand.
  rewrite TrimSpace_pad; [|done..|]. 2:{ intros ->. discriminate Hd. }
  cbv zeta. rewrite Hd. unfold finishPTZCommand. cbn [app]. by rewrite !Z.eqb_refl.
Qed.

(** The frame every builder makes. *)
Lemma build_frame q cmd : request_ok q -> build q = Some cmd ->
  exists code c4 c5 c6, cmd = finishPTZCommand [0xA5; 0x0F; 0x01; code; c4; c5; c6] /\
    bytes_ok [0xA5; 0x0F; 0x01; code; c4; c5; c6] /\
    forall c0, understood q (decode_code code c4 c5 c6 c0).
Proof.
  assert (B : forall code c4 c5 c6, is_byte code -> is_byte c4 -> is_byte c5 -> is_byte c6 ->
     bytes_ok [0xA5; 0x0F; 0x01; code; c4; c5; c6]) by (intros; do 7 (constructor; [first [assumption|unfold is_byte; lia]|]); constructor).
  assert (Z0 : is_byte 0) by (unfold is_byte; lia).
  destruct q as [d s|a p|a g v|a s|n on]; cbn [build request_ok]; intros Hok Hb.
  - unfold BuildPTZCommand in Hb. destruct (ptzCommandCodes !! d) as [bits|] eqn:E; [|done].
    cbn [mbind option_bind] in Hb. injection Hb as <-.
    apply elem_of_list_to_map_2, list_elem_of_In in E. cbn [In] in E.
    repeat match type of E with _ \/ _ => destruct E as [E|E] end; [..|done];
      injection E as <- <-; do 4 eexists; (split; [reflexivity|]);
      (split; [apply B; try done; unfold is_byte; lia|]); intros c0; split_and!; try reflexivity; done.
  - unfold BuildPTZPresetCommand in Hb. destruct (p =? 0); [done|].
    unfold preset_code in Hb. repeat case_bool_decide; try done; subst; injection Hb as <-;
      do 4 eexists; (split; [reflexivity|]); (split; [apply B; done|]); intros c0; by split_and!.
  - destruct Hok as [Hg Hv]. unfold BuildPTZCruiseCommand in Hb. destruct (g =? 0); [done|].
    unfold cruise_code in Hb. repeat case_bool_decide; try done; subst; injection Hb as <-;
      do 4 eexists; (split; [reflexivity|]); (split; [apply B; done|]); intros c0; by split_and!.
  - unfold BuildFICommand in Hb. destruct (fiActionBits !! a) as [bits|] eqn:E; [|done].
    cbn [mbind option_bind] in Hb. injection Hb as <-.
    apply elem_of_list_to_map_2, list_elem_of_In in E. cbn [In] in E.
    repeat match type of E with _ \/ _ => destruct E as [E|E] end; [..|done];
      injection E as <- <-; do 4 eexists; (split; [reflexivity|]);
      (split; [apply B; try done; unfold is_byte; simpl; lia|]); intros c0; split_and!; try reflexivity; done.
  - unfold BuildAuxSwitchCommand in Hb. destruct (n =? 0); [done|]. injection Hb as <-.
    destruct on; do 4 eexists; (split; [reflexivity|]); (split; [apply B; done|]); intros c0; by split_and!.
Qed.

Lemma decode_built q cmd pre post :
  request_ok q -> build q = Some cmd ->
  Forall (fun b => ascii_space b = true) pre -> Forall (fun b => ascii_space b = true) post ->
  let c := DecodePTZCommand (pre ++ ptzCmdString cmd ++ post) in
  understood q c /\ Raw c = cmd /\ RawHex c = ptzCmdString cmd /\ length cmd = 8%nat.
Proof.
  intros Hok Hb Hpre Hpost c. destruct (build_frame q cmd Hok Hb) as (code & c4 & c5 & c6 & -> & Hbytes & Hu).
  assert (Hall : bytes_ok (finishPTZCommand [0xA5; 0x0F; 0x01; code; c4; c5; c6])).
  { unfold finishPTZCommand. apply bytes_ok_app. split; [done|]. constructor; [apply checksum_byte|constructor]. }
  unfold c. rewrite (decode_frame pre post _ c4 c5 c6 code Hpre Hpost).
  - split; [apply Hu|]. unfold decode_code. repeat case_match; done.
  - by apply printable_hex.
  - by apply hex_decode_upper.
Qed.

(** The device understands every PTZ instruction as the platform meant it:
    whichever of the five builders made the command and whatever its byte
    parameters, the hex text that goes into [PTZCmd], with ASCII white space
    around it or not, is decoded into the kind of instruction, direction bits,
    speeds, preset or cruise numbers and switch state that were asked for, and
    the raw command is preserved. *)
Theorem ptz_roundtrip q cmd pre post :
  request_ok q -> build q = Some cmd ->
  Forall (fun b => ascii_space b = true) pre -> Forall (fun b => ascii_space b = true) post ->
  let c := DecodePTZCommand (pre ++ ptzCmdString cmd ++ post) in
  understood q c /\ Raw c = cmd /\ RawHex c = ptzCmdString cmd /\ length cmd = 8%nat.
Proof. apply decode_built. Qed.

Lemma ptz_roundtrip_witness :
  let c := DecodePTZCommand (txt " A50F010A202000FF " ) in
  Kind c = PtzMove /\ Bits c = 0x0A /\ PanSpeed c = 0x20 /\
  understood (ReqMove "up-left" 0x20) c /\
  Raw c = [0xA5; 0x0F; 0x01; 0x0A; 0x20; 0x20; 0x00; 0xFF].
Proof.
  destruct (ptz_roundtrip (ReqMove "up-left" 0x20) [0xA5; 0x0F; 0x01; 0x0A; 0x20; 0x20; 0x00; 0xFF]
    [0x20] [0x20]) as (H1 & H2 & _).
  - by split.
  - reflexivity.
  - by repeat constructor.
  - by repeat constructor.
  - split_and!; [reflexivity..|exact H1|exact H2].
Defined.

Lemma checksum_u8 cmd : checksum cmd = u8 (fold_left Z.add cmd 0).
Proof. unfold checksum. by rewrite <- (checksum_sum cmd 0). Qed.

(** A damaged instruction is never executed as another one: changing any one
    byte of a command a builder made, to any other byte value, makes the decoder
    reject it as structurally invalid. *)
Theorem ptz_corruption_detected q cmd i b :
  request_ok q -> build q = Some cmd -> is_byte b -> (i < 8)%nat -> cmd !! i <> Some b ->
  Kind (DecodePTZCommand (ptzCmdString (<[i := b]> cmd))) = PtzInvalid.
Proof.
  intros Hok Hb Hbyte Hi Hne. destruct (build_frame q cmd Hok Hb) as (code & c4 & c5 & c6 & -> & Hbytes & _).
  set (frame := [0xA5; 0x0F; 0x01; code; c4; c5; c6]) in *.
  assert (Hall : bytes_ok (<[i := b]> (finishPTZCommand frame))).
  { apply Forall_insert; [|done]. apply bytes_ok_app. split; [done|].
    constructor; [apply checksum_byte|constructor]. }
  unfold DecodePTZCommand. rewrite TrimSpace_id by (by apply printable_hex). cbv zeta.
  unfold ptzCmdString. rewrite hex_decode_upper by done. unfold finishPTZCommand in *.
  rewrite !checksum_u8 in *. unfold frame in *. clear Hall.
  unfold bytes_ok, is_byte in *. rewrite !list.Forall_cons in Hbytes. destruct Hbytes as (_ & _ & _ & B3 & B4 & B5 & B6 & _).
  assert (K : forall r0 r7 s7 c d, Kind d = PtzInvalid -> r0 <> 0xA5 \/ s7 <> r7 ->
     Kind (if negb (r0 =? 0xA5) then d else if negb (s7 =? r7) then d else c) = PtzInvalid).
  { intros r0 r7 s7 c d Hd H. destruct (Z.eqb_spec r0 0xA5); [|done].
    destruct (Z.eqb_spec s7 r7); [|done]. by destruct H. }
  unfold is_byte in Hbyte.
  destruct i as [|[|[|[|[|[|[|[|i]]]]]]]]; [..|lia]; cbn [app insert list_insert] in *; cbn in Hne;
    apply K; try done; [left; congruence|right..]; rewrite checksum_u8;
    match type of Hne with Some ?old <> Some b => assert (Hob : old <> b) by congruence end;
    clear Hne K Hi Hok Hb; unfold u8 in *; cbn [fold_left] in *; change (2 ^ 8) with 256 in *;
    intros E; [..|done]; Z.to_euclidean_division_equations; lia.
Qed.

Lemma ptz_corruption_detected_witness :
  Kind (DecodePTZCommand (txt "A50F0118202000FF")) = PtzInvalid.
Proof.
  apply (ptz_corruption_detected (ReqMove "up-left" 0x20) [0xA5; 0x0F; 0x01; 0x0A; 0x20; 0x20; 0x00; 0xFF] 3 0x18).
  - by split.
  - reflexivity.
  - by split.
  - lia.
  - discriminate.
Defined.
