(* ===== verification/DeviceMgr.v ===== *)
(** The registry of devices and channels ([platform/device.go],
    [platform/channel.go]): registration, keepalive, the heartbeat checker and
    the sorted listings.

    Times are nanoseconds since the epoch; [now] is the clock reading of the
    call. Back-references of channels to their device are not modelled, the
    device's ID stands for it. *)

From Stdlib Require Import Sorting.Sorted.
From stdpp Require Import sorting.
From S2P Require Import Prelude GoStrings.
Open Scope Z_scope.

(** ** Channels *)

Definition ChannelTypeAudioInput : Z := 136.

(** [id[10:13]] read as a number; 0 when too short or not numeric. *)
Definition ChannelTypeCode (id : text) : Z :=
  if Nat.ltb (length id) 13 then 0 else default 0 (Atoi (take 3 (drop 10 id))).

Definition IsAudioInputChannel (id : text) : bool := ChannelTypeCode id =? ChannelTypeAudioInput.

Record Channel := mkChannel {
  ch_DeviceID : text;
  ch_ID : text;
  ch_Name : text;
  Parental : Z;
  ch_Status : Z;
  PTZType : Z;
  PhotoelectricImagingType : Z;
  SubProbe : bool;
  TypeCode : Z;
  AudioOnly : bool;
}.

#[export] Instance eta_Channel : Eta Channel := fun c =>
  mkChannel (ch_DeviceID c) (ch_ID c) (ch_Name c) (Parental c) (ch_Status c) (PTZType c)
    (PhotoelectricImagingType c) (SubProbe c) (TypeCode c) (AudioOnly c).

(** ** Devices *)

Definition DeviceOffline : Z := 0.
Definition DeviceOnline : Z := 1.

Record Device := mkDevice {
  dev_ID : text;
  dev_Name : text;
  Manufacturer : text;
  Model : text;
  NetAddr : text;
  Transport : text;
  Status : Z;
  channels : gmap text Channel;
  lastKeepalive : Z;
}.

#[export] Instance eta_Device : Eta Device := fun d =>
  mkDevice (dev_ID d) (dev_Name d) (Manufacturer d) (Model d) (NetAddr d) (Transport d) (Status d)
    (channels d) (lastKeepalive d).

Record DeviceManager := mkDeviceManager {
  devices : gmap text Device;
  heartbeatTimeout : Z;
  checkInterval : Z;
}.

#[export] Instance eta_DeviceManager : Eta DeviceManager := fun m =>
  mkDeviceManager (devices m) (heartbeatTimeout m) (checkInterval m).

Definition DefaultHeartbeatInterval : Z := 60 * 1000000000.

Definition NewDeviceManager (heartbeatInterval : Z) : DeviceManager :=
  let i := if heartbeatInterval <=? 0 then DefaultHeartbeatInterval else heartbeatInterval in
  mkDeviceManager ∅ (s64 (3 * i)) (Z.quot i 2).

Definition put (id : text) (d : Device) (m : DeviceManager) : DeviceManager :=
  m <| devices := <[id := d]> (devices m) |>.

Definition Register (now : Z) (d : Device) (m : DeviceManager) : DeviceManager :=
  match devices m !! dev_ID d with
  | None => put (dev_ID d) (d <| Status := DeviceOnline |> <| lastKeepalive := now |>) m
  | Some dev =>
      put (dev_ID d)
        (dev <| Status := DeviceOnline |> <| lastKeepalive := now |>
             <| dev_Name := dev_Name d |> <| Manufacturer := Manufacturer d |> <| Model := Model d |>
             <| NetAddr := NetAddr d |> <| Transport := Transport d |>) m
  end.

Definition Unregister (deviceID : text) (m : DeviceManager) : DeviceManager :=
  m <| devices := delete deviceID (devices m) |>.

Definition Touch (now : Z) (deviceID : text) (m : DeviceManager) : DeviceManager :=
  match devices m !! deviceID with
  | Some d => put deviceID (d <| lastKeepalive := now |> <| Status := DeviceOnline |>) m
  | None => m
  end.

Definition MarkOffline (deviceID : text) (m : DeviceManager) : DeviceManager :=
  match devices m !! deviceID with
  | Some d => put deviceID (d <| Status := DeviceOffline |>) m
  | None => m
  end.

(** The test and the compare-and-swap of [checkHeartbeats] for one device. *)
Definition expired (now : Z) (m : DeviceManager) (d : Device) : bool :=
  lastKeepalive d + heartbeatTimeout m <? now.

Definition swap_offline (deviceID : text) (m : DeviceManager) : DeviceManager * list text :=
  match devices m !! deviceID with
  | Some d => if Status d =? DeviceOnline
              then (put deviceID (d <| Status := DeviceOffline |>) m, [deviceID]) else (m, [])
  | None => (m, [])
  end.

(** [sync.Map.Range] visits the devices in an unspecified order; [order] is
    that order. The second result is the calls of the offline callback. *)
Fixpoint checkHeartbeats (now : Z) (order : list text) (m : DeviceManager) : DeviceManager * list text :=
  match order with
  | [] => (m, [])
  | id :: rest =>
      let '(m1, calls) := match devices m !! id with
                          | Some d => if expired now m d then swap_offline id m else (m, [])
                          | None => (m, [])
                          end in
      let '(m2, calls') := checkHeartbeats now rest m1 in (m2, calls ++ calls')
  end.

Definition RegisterChannel (devID : text) (ch : Channel) (m : DeviceManager) : DeviceManager :=
  match devices m !! devID with
  | None => m
  | Some dev =>
      let tc := ChannelTypeCode (ch_ID ch) in
      let ch' := ch <| ch_DeviceID := devID |> <| TypeCode := tc |>
                    <| AudioOnly := tc =? ChannelTypeAudioInput |> in
      put devID (dev <| channels := <[ch_ID ch := ch']> (channels dev) |>) m
  end.

Definition UnregisterChannel (deviceID channelID : text) (m : DeviceManager) : DeviceManager :=
  match devices m !! deviceID with
  | None => m
  | Some dev => put deviceID (dev <| channels := delete channelID (channels dev) |>) m
  end.

(** ** Listings *)

(** [sort.Slice] by ID: no later element is smaller. *)
Definition id_le {A} (key : A -> text) (a b : A) : Prop := text_ltb (key b) (key a) = false.

#[export] Instance id_le_dec {A} (key : A -> text) : RelDecision (id_le key).
Proof. intros a b. unfold id_le. apply _. Defined.

Definition Channels (deviceID : text) (m : DeviceManager) : list Channel :=
  match devices m !! deviceID with
  | None => []
  | Some d => merge_sort (id_le ch_ID) (map snd (map_to_list (channels d)))
  end.

Definition FindChannel (deviceID channelID : text) (m : DeviceManager) : option Channel :=
  d ← devices m !! deviceID; channels d !! channelID.

Definition AllDevices (m : DeviceManager) : list Device :=
  merge_sort (id_le dev_ID) (map snd (map_to_list (devices m))).

(** ** Reachable registries *)

Inductive mstep : DeviceManager -> DeviceManager -> Prop :=
  | step_register m now d : channels d = ∅ -> mstep m (Register now d m)
  | step_unregister m id : mstep m (Unregister id m)
  | step_touch m now id : mstep m (Touch now id m)
  | step_offline m id : mstep m (MarkOffline id m)
  | step_check m now order : mstep m (fst (checkHeartbeats now order m))
  | step_channel m id ch : mstep m (RegisterChannel id ch m)
  | step_unchannel m id cid : mstep m (UnregisterChannel id cid m).

(** Every channel is filed under its own ID and device and carries the taxonomy
    of its ID; every device is filed under its own ID and is on- or offline. *)
Definition channel_ok (id cid : text) (c : Channel) : Prop :=
  ch_ID c = cid /\ ch_DeviceID c = id /\ TypeCode c = ChannelTypeCode cid /\
  AudioOnly c = IsAudioInputChannel cid.

Definition device_ok (id : text) (d : Device) : Prop :=
  dev_ID d = id /\ (Status d = DeviceOffline \/ Status d = DeviceOnline) /\
  map_Forall (channel_ok id) (channels d).

Definition registry_ok (m : DeviceManager) : Prop := map_Forall device_ok (devices m).

Lemma put_ok id d m : device_ok id d -> registry_ok m -> registry_ok (put id d m).
Proof. intros Hd Hm. by apply map_Forall_insert_2. Qed.

Lemma swap_offline_ok id m : registry_ok m -> registry_ok (fst (swap_offline id m)).
Proof.
  intros H. unfold swap_offline. destruct (devices m !! id) as [d|] eqn:E; [|done].
  destruct (_ =? _); [|done]. apply put_ok; [|done]. destruct (H id d E) as (H1 & H2 & H3).
  split; [done|]. split; [by left|done].
Qed.

Lemma checkHeartbeats_ok now order m : registry_ok m -> registry_ok (fst (checkHeartbeats now order m)).
Proof.
  revert m. induction order as [|id order IH]; intros m H; [done|]. cbn [checkHeartbeats].
  set (p := match devices m !! id with Some d => _ | None => _ end).
  assert (Hp : registry_ok (fst p)).
  { unfold p. destruct (devices m !! id) as [d|]; [|done]. destruct (expired _ _ _); [|done].
    by apply swap_offline_ok. }
  destruct p as [m1 calls]. specialize (IH m1 Hp). by destruct (checkHeartbeats now order m1).
Qed.

Lemma mstep_ok m m' : mstep m m' -> registry_ok m -> registry_ok m'.
Proof.
  intros S H. destruct S as [m now d Hd|m id|m now id|m id|m now order|m id ch|m id cid].
  - unfold Register. destruct (devices m !! dev_ID d) as [dev|] eqn:E.
    + apply put_ok; [|done]. destruct (H _ _ E) as (H1 & _ & H3). split; [done|]. split; [by right|done].
    + apply put_ok; [|done]. split; [done|]. split; [by right|]. simpl. rewrite Hd. apply map_Forall_empty.
  - by apply map_Forall_delete.
  - unfold Touch. destruct (devices m !! id) as [dev|] eqn:E; [|done]. apply put_ok; [|done].
    destruct (H _ _ E) as (H1 & _ & H3). split; [done|]. split; [by right|done].
  - unfold MarkOffline. destruct (devices m !! id) as [dev|] eqn:E; [|done]. apply put_ok; [|done].
    destruct (H _ _ E) as (H1 & _ & H3). split; [done|]. split; [by left|done].
  - by apply checkHeartbeats_ok.
  - unfold RegisterChannel. destruct (devices m !! id) as [dev|] eqn:E; [|done]. apply put_ok; [|done].
    destruct (H _ _ E) as (H1 & H2 & H3). split; [done|]. split; [done|]. by apply map_Forall_insert_2.
  - unfold UnregisterChannel. destruct (devices m !! id) as [dev|] eqn:E; [|done]. apply put_ok; [|done].
    destruct (H _ _ E) as (H1 & H2 & H3). split; [done|]. split; [done|]. by apply map_Forall_delete.
Qed.

(** ** The heartbeat checker *)

Lemma expired_timeout now m m' d : heartbeatTimeout m' = heartbeatTimeout m -> expired now m' d = expired now m d.
Proof. unfold expired. by intros ->. Qed.

(** The device after the checker looked at it, and whether the callback ran. *)
Definition times_out (now : Z) (m : DeviceManager) (d : Device) : bool :=
  (Status d =? DeviceOnline) && expired now m d.

Definition checked (now : Z) (m : DeviceManager) (d : Device) : Device :=
  if times_out now m d then d <| Status := DeviceOffline |> else d.

Definition expires (now : Z) (m : DeviceManager) (id : text) : bool :=
  match devices m !! id with Some d => times_out now m d | None => false end.

Lemma checkHeartbeats_spec now order m :
  let r := checkHeartbeats now order m in
  heartbeatTimeout (fst r) = heartbeatTimeout m /\
  (NoDup order ->
   (forall id, devices (fst r) !! id =
      match devices m !! id with
      | Some d => Some (if bool_decide (id ∈ order) then checked now m d else d)
      | None => None
      end) /\
   snd r = List.filter (expires now m) order).
Proof.
  revert m. induction order as [|i order IH]; intros m; cbn [checkHeartbeats].
  { split; [done|]. intros _. split; [|done]. intros id. simpl. by destruct (devices m !! id). }
  set (p := match devices m !! i with Some d => _ | None => _ end).
  assert (Hp : heartbeatTimeout (fst p) = heartbeatTimeout m /\
    (forall id, devices (fst p) !! id =
       if decide (id = i) then (match devices m !! i with Some d => Some (checked now m d) | None => None end)
       else devices m !! id) /\
    snd p = match devices m !! i with Some d => if times_out now m d then [i] else [] | None => [] end).
  { unfold p, swap_offline, checked, times_out. destruct (devices m !! i) as [d|] eqn:E; [|].
    - destruct (expired now m d) eqn:Ex; cbn [andb]; [destruct (Status d =? DeviceOnline) eqn:Es|].
      + split; [done|]. split; [|done]. intros id. unfold put. simpl. destruct (decide (id = i)) as [->|Hn].
        * apply lookup_insert_eq.
        * by apply lookup_insert_ne.
      + split; [done|]. split; [|done]. intros id. by destruct (decide (id = i)) as [->|].
      + rewrite andb_false_r. split; [done|]. split; [|done]. intros id.
        by destruct (decide (id = i)) as [->|].
    - split; [done|]. split; [|done]. intros id. by destruct (decide (id = i)) as [->|]. }
  destruct p as [m1 calls]. cbn [fst snd] in Hp. destruct Hp as (P1 & P2 & ->).
  specialize (IH m1). destruct (checkHeartbeats now order m1) as [m2 calls']. cbn [fst snd] in *.
  destruct IH as (I1 & I2). split; [congruence|]. intros Hnd. apply list.NoDup_cons in Hnd as [Hi Hnd].
  destruct (I2 Hnd) as [I3 I4]. split.
  - intros id. rewrite I3, P2. destruct (decide (id = i)) as [->|Hne].
    + destruct (devices m !! i) as [d|]; [|done].
      rewrite (bool_decide_eq_false_2 (i ∈ order)) by done.
      by rewrite bool_decide_eq_true_2 by apply list_elem_of_here.
    + destruct (devices m !! id) as [d|] eqn:E; [|done]. f_equal.
      assert (Hc : checked now m1 d = checked now m d).
      { unfold checked, times_out. by rewrite (expired_timeout now m m1 d P1). }
      rewrite Hc. destruct (decide (id ∈ order)) as [Hin|Hout].
      * by rewrite !bool_decide_eq_true_2 by (try apply elem_of_cons; tauto).
      * rewrite !bool_decide_eq_false_2 by (rewrite ?elem_of_cons; tauto). done.
  - rewrite I4. cbn [List.filter]. assert (F : List.filter (expires now m1) order = List.filter (expires now m) order).
    { apply filter_ext_in. intros j Hj. assert (j <> i) by (intros ->; apply Hi; by apply list_elem_of_In).
      unfold expires. rewrite P2. destruct (decide (j = i)) as [->|]; [done|].
      destruct (devices m !! j) as [d|]; [|done]. unfold times_out. by rewrite (expired_timeout now m m1 d P1). }
    rewrite F. unfold expires at 2. destruct (devices m !! i) as [d|]; [|done]. by destruct (times_out now m d).
Qed.

(** ** Ordering of IDs *)

Lemma text_ltb_irrefl a : text_ltb a a = false.
Proof. induction a as [|x a IH]; [done|]. simpl. by rewrite Z.eqb_refl. Qed.

Lemma text_ltb_trans a b c : text_ltb a b = true -> text_ltb b c = true -> text_ltb a c = true.
Proof.
  revert b c. induction a as [|x a IH]; intros [|y b] [|z c]; simpl; try done.
  destruct (Z.eqb_spec x y), (Z.eqb_spec y z), (Z.eqb_spec x z); subst; try lia; try done; try apply IH;
    rewrite !Z.ltb_lt; lia.
Qed.

Lemma text_ltb_total a b : text_ltb a b = true \/ a = b \/ text_ltb b a = true.
Proof.
  revert b. induction a as [|x a IH]; intros [|y b]; simpl; [tauto..|].
  destruct (Z.eqb_spec x y), (Z.eqb_spec y x); subst; try congruence.
  - destruct (IH b) as [?|[->|?]]; tauto.
  - rewrite !Z.ltb_lt. lia.
Qed.

Lemma text_le_trans a b c : text_ltb b a = false -> text_ltb c b = false -> text_ltb c a = false.
Proof.
  intros H1 H2. destruct (text_ltb c a) eqn:E; [|done].
  destruct (text_ltb_total b c) as [H|[->|H]]; [|congruence|congruence].
  by rewrite (text_ltb_trans b c a) in H1.
Qed.

#[export] Instance id_le_total {A} (key : A -> text) : Total (id_le key).
Proof.
  intros a b. unfold id_le. destruct (text_ltb (key b) (key a)) eqn:E; [|by left]. right.
  destruct (text_ltb (key a) (key b)) eqn:E2; [|done].
  pose proof (text_ltb_trans _ _ _ E E2) as H. by rewrite text_ltb_irrefl in H.
Qed.

#[export] Instance id_le_transitive {A} (key : A -> text) : Transitive (id_le key).
Proof. intros a b c. unfold id_le. apply text_le_trans. Qed.

(** ** What the registry promises *)

Lemma registry_reachable h m : rtc mstep (NewDeviceManager h) m -> registry_ok m.
Proof.
  assert (G : forall a b, rtc mstep a b -> registry_ok a -> registry_ok b).
  { induction 1 as [|a b c S _ IH]; [done|]. intros Ha. by apply IH, (mstep_ok a). }
  intros H. apply (G _ _ H). apply map_Forall_empty.
Qed.

(** Whatever sequence of registrations, unregistrations, keepalives, checker
    runs and catalog updates a registry goes through, every device stays filed
    under its own ID and is on- or offline, whether it has channels or not, and
    every channel is filed under its own ID and its device, with the type code
    of its ID and marked audio-only exactly when that code is the voice-input
    one. *)
Theorem registry_invariant h m id d :
  rtc mstep (NewDeviceManager h) m -> devices m !! id = Some d ->
  dev_ID d = id /\ (Status d = DeviceOffline \/ Status d = DeviceOnline) /\
  forall cid c, channels d !! cid = Some c ->
    ch_ID c = cid /\ ch_DeviceID c = id /\ TypeCode c = ChannelTypeCode cid /\ AudioOnly c = IsAudioInputChannel cid.
Proof.
  intros H Hd. destruct (registry_reachable h m H id d Hd) as (H1 & H2 & H3). split; [done|]. split; [done|].
  intros cid c Hc. exact (H3 cid c Hc).
Qed.

Definition demo_channel (id : text) : Channel := mkChannel [] id [] 0 0 1 0 false 0 false.
Definition demo_device (id : text) : Device :=
  mkDevice id [] [] [] [] [] 0 ∅ 0.

Lemma registry_invariant_witness :
  let m := RegisterChannel (txt "dev") (demo_channel (txt "34020000001360000001"))
             (Register 5 (demo_device (txt "dev")) (NewDeviceManager 0)) in
  exists d c, devices m !! txt "dev" = Some d /\ channels d !! txt "34020000001360000001" = Some c /\
    AudioOnly c = true.
Proof.
  intros m. destruct (devices m !! txt "dev") as [d|] eqn:Ed; [|by vm_compute in Ed].
  destruct (channels d !! txt "34020000001360000001") as [c|] eqn:Ec.
  - exists d, c. split; [done|]. split; [done|].
    destruct (registry_invariant 0 m (txt "dev") d) as (_ & _ & H).
    + eapply rtc_l; [by apply (step_register _ 5 (demo_device (txt "dev")))|].
      eapply rtc_l; [apply step_channel|]. apply rtc_refl.
    + exact Ed.
    + destruct (H _ c Ec) as (_ & _ & _ & ->). vm_compute. reflexivity.
  - vm_compute in Ed. injection Ed as <-. by vm_compute in Ec.
Defined.

(** The heartbeat checker, run over all devices in any order, takes offline
    exactly the devices that were online and whose last keepalive is older than
    the timeout, reports each of them exactly once, and touches nothing else:
    no other device, no channel, no keepalive time. *)
Theorem heartbeat_check now order m :
  NoDup order -> (forall id, is_Some (devices m !! id) -> id ∈ order) ->
  let '(m', calls) := checkHeartbeats now order m in
  (forall id, devices m' !! id = (checked now m <$> devices m !! id)) /\
  NoDup calls /\
  (forall id, id ∈ calls <-> exists d, devices m !! id = Some d /\ Status d = DeviceOnline /\
     lastKeepalive d + heartbeatTimeout m < now).
Proof.
  intros Hnd Hall. pose proof (checkHeartbeats_spec now order m) as H. cbv zeta in H.
  destruct (checkHeartbeats now order m) as [m' calls]. cbn [fst snd] in H.
  destruct H as (_ & H). destruct (H Hnd) as [H1 H2]. split; [|split].
  - intros id. rewrite H1. destruct (devices m !! id) as [d|] eqn:E; [|done].
    by rewrite bool_decide_eq_true_2 by (apply Hall; by rewrite E).
  - rewrite H2. apply NoDup_ListNoDup, List.NoDup_filter. by apply NoDup_ListNoDup.
  - intros id. rewrite H2, list_elem_of_In, filter_In, <- list_elem_of_In. unfold expires, times_out, expired.
    split.
    + intros [_ E]. destruct (devices m !! id) as [d|]; [|done]. exists d.
      apply andb_true_iff in E as [E1 E2]. apply Z.eqb_eq in E1. apply Z.ltb_lt in E2. done.
    + intros (d & E & E1 & E2). split; [apply Hall; by rewrite E|]. rewrite E, E1.
      by apply andb_true_iff, (conj eq_refl), Z.ltb_lt.
Qed.

Lemma heartbeat_check_witness :
  let m := Register 5 (demo_device (txt "dev")) (NewDeviceManager 10) in
  fst (checkHeartbeats 36 [txt "dev"] m) = fst (checkHeartbeats 36 [txt "dev"] m) /\
  snd (checkHeartbeats 36 [txt "dev"] m) = [txt "dev"] /\
  snd (checkHeartbeats 35 [txt "dev"] m) = [] /\
  NoDup (snd (checkHeartbeats 36 [txt "dev"] m)).
Proof.
  intros m. split; [done|]. split; [vm_compute; reflexivity|]. split; [vm_compute; reflexivity|].
  pose proof (heartbeat_check 36 [txt "dev"] m) as H.
  destruct (checkHeartbeats 36 [txt "dev"] m) as [m' calls].
  apply H.
  - apply list.NoDup_cons. split; [by apply not_elem_of_nil|apply NoDup_nil_2].
  - intros id [d Hd].
    assert (Em : devices m = <[txt "dev" := (demo_device (txt "dev")) <| Status := 1 |> <| lastKeepalive := 5 |>]> ∅)
      by (vm_compute; reflexivity).
    rewrite Em in Hd.
    apply lookup_insert_Some in Hd as [[<- _]|[_ Hd]]; [by apply list_elem_of_here|done].
Defined.

(** A periodic REGISTER refreshes a device in place: it is online with a fresh
    keepalive and carries the new address and metadata, its channel catalog is
    the one it had (a new device's catalog is the caller's), and no other
    device changes. *)
Theorem register_keeps_catalog now d m :
  exists dev, devices (Register now d m) !! dev_ID d = Some dev /\
    Status dev = DeviceOnline /\ lastKeepalive dev = now /\ NetAddr dev = NetAddr d /\
    Transport dev = Transport d /\
    channels dev = match devices m !! dev_ID d with Some old => channels old | None => channels d end /\
    forall id, id <> dev_ID d -> devices (Register now d m) !! id = devices m !! id.
Proof.
  unfold Register. destruct (devices m !! dev_ID d) as [old|] eqn:E;
    (eexists; split; [apply lookup_insert_eq|]; split_and!; try done; intros id Hne; by apply lookup_insert_ne).
Qed.

(** The channel listing is complete and ordered: it holds exactly the channels
    [FindChannel] finds, each once, with strictly increasing IDs. *)
Theorem Channels_listing h m id :
  rtc mstep (NewDeviceManager h) m ->
  (forall c, In c (Channels id m) <-> FindChannel id (ch_ID c) m = Some c) /\
  StronglySorted (fun a b => text_ltb (ch_ID a) (ch_ID b) = true) (Channels id m).
Proof.
  intros Hr. pose proof (registry_reachable h m Hr) as Hok. unfold Channels, FindChannel.
  destruct (devices m !! id) as [d|] eqn:E.
  2:{ split; [|constructor]. intros c. cbn. by split. }
  cbn [mbind option_bind]. destruct (Hok id d E) as (_ & _ & Hc).
  set (vals := map snd (map_to_list (channels d))).
  pose proof (merge_sort_Permutation (id_le ch_ID) vals) as Hp.
  assert (Hin : forall c, In c vals <-> channels d !! ch_ID c = Some c).
  { intros c. unfold vals. rewrite in_map_iff. split.
    - intros ((k & c') & <- & Hk). apply list_elem_of_In, elem_of_map_to_list in Hk. cbn [snd].
      by destruct (Hc k c' Hk) as (-> & _).
    - intros Hk. exists (ch_ID c, c). split; [done|]. by apply list_elem_of_In, elem_of_map_to_list. }
  split.
  - intros c. rewrite <- Hin. split; intros H; eapply Permutation_in; try exact H; [done|by symmetry].
  - pose proof (StronglySorted_merge_sort (id_le ch_ID) vals) as Hs.
    assert (Hnd : List.NoDup (map ch_ID (merge_sort (id_le ch_ID) vals))).
    { apply (Permutation_NoDup (l := map ch_ID vals)); [by apply Permutation_map, Permutation_sym|].
      unfold vals. rewrite map_map.
      assert (Ek : map (fun kc => ch_ID (snd kc)) (map_to_list (channels d)) = map fst (map_to_list (channels d))).
      { apply map_ext_in. intros [k c] Hk. apply list_elem_of_In, elem_of_map_to_list in Hk. cbn.
        by destruct (Hc k c Hk) as (-> & _). }
      rewrite Ek. apply NoDup_ListNoDup. apply NoDup_fst_map_to_list. }
    revert Hs Hnd. generalize (merge_sort (id_le ch_ID) vals). clear. intros l Hs.
    induction Hs as [|a l Hl IH Ha]; intros Hnd; [constructor|]. cbn [map] in Hnd. inversion Hnd as [|? ? Hn Hnd']; subst.
    constructor; [by apply IH|]. rewrite List.Forall_forall in *. intros b Hb. specialize (Ha b Hb).
    destruct (text_ltb_total (ch_ID a) (ch_ID b)) as [H|[H|H]]; [done| |].
    + destruct Hn. rewrite H. by apply in_map.
    + unfold id_le in Ha. congruence.
Qed.

Lemma Channels_listing_witness :
  let m := RegisterChannel (txt "dev") (demo_channel (txt "b")) (RegisterChannel (txt "dev") (demo_channel (txt "a"))
             (Register 5 (demo_device (txt "dev")) (NewDeviceManager 0))) in
  map ch_ID (Channels (txt "dev") m) = [txt "a"; txt "b"] /\
  StronglySorted (fun a b => text_ltb (ch_ID a) (ch_ID b) = true) (Channels (txt "dev") m).
Proof.
  intros m. split; [vm_compute; reflexivity|]. apply (Channels_listing 0).
  eapply rtc_l; [by apply (step_register _ 5 (demo_device (txt "dev")))|].
  eapply rtc_l; [apply step_channel|]. eapply rtc_l; [apply step_channel|]. apply rtc_refl.
Defined.

(** The checker's test and its compare-and-swap are separate steps: a
    keepalive that arrives between the two is lost. The device just heard from
    is taken offline, its callback runs, and it stays offline with a keepalive
    that has not expired until the next one comes. *)
Theorem keepalive_race now id d m :
  devices m !! id = Some d -> Status d = DeviceOnline -> expired now m d = true -> 0 <= heartbeatTimeout m ->
  let m1 := Touch now id m in
  exists d2, devices (fst (swap_offline id m1)) !! id = Some d2 /\ snd (swap_offline id m1) = [id] /\
    Status d2 = DeviceOffline /\ lastKeepalive d2 = now /\ expired now m1 d2 = false.
Proof.
  intros Hd Hs He Ht m1. unfold m1, Touch. rewrite Hd. unfold swap_offline, put. simpl.
  rewrite lookup_insert_eq. simpl. eexists. split; [apply lookup_insert_eq|]. split_and!; try done.
  unfold expired. simpl. apply Z.ltb_ge. lia.
Qed.

Lemma keepalive_race_witness :
  let m := Register 5 (demo_device (txt "dev")) (NewDeviceManager 10) in
  exists d2, devices (fst (swap_offline (txt "dev") (Touch 36 (txt "dev") m))) !! txt "dev" = Some d2 /\
    Status d2 = DeviceOffline /\ lastKeepalive d2 = 36.
Proof.
  intros m. destruct (keepalive_race 36 (txt "dev")
    ((demo_device (txt "dev")) <| Status := 1 |> <| lastKeepalive := 5 |>) m) as (d2 & H1 & _ & H2 & H3 & _).
  - vm_compute. reflexivity.
  - reflexivity.
  - reflexivity.
  - vm_compute. discriminate.
  - exists d2. split; [exact H1|]. by split.
Defined.
