(* ===== verification/RegisterAuth.v ===== *)
(** Registration at the platform: the access decision and what follows it
    ([platform/sip/server.go], [handleRegister]) and the lockout of sources that
    fail to authenticate ([platform/sip/authlimiter.go]).

    The digest computation belongs to gosip, the A-level verification to the
    configured authenticator; both are parameters. A REGISTER is what the handler
    reads of it. Times are nanoseconds; one handler call reads the clock once. *)

From S2P Require Import Prelude GoStrings GoText DeviceMgr.
Open Scope Z_scope.

(** ** The failure tracker *)

(** [lockedUntil]: [None] is the zero time. *)
Record authFailEntry := mkAuthFailEntry { fails : Z; lastFailure : Z; lockedUntil : option Z }.

Record authFailureTracker := mkTracker {
  entries : gmap text authFailEntry;
  max_fails : Z;
  window : Z;
  lockout : Z;
}.

#[export] Instance eta_tracker : Eta authFailureTracker := fun t =>
  mkTracker (entries t) (max_fails t) (window t) (lockout t).

Definition newAuthFailureTracker (limit window lockout : Z) : authFailureTracker := mkTracker ∅ limit window lockout.

(** The verdict, and the tracker without a lock that has been served. *)
Definition locked (now : Z) (key : text) (t : authFailureTracker) : bool * authFailureTracker :=
  if max_fails t <=? 0 then (false, t) else
  match entries t !! key with
  | None => (false, t)
  | Some e =>
      match lockedUntil e with
      | None => (false, t)
      | Some u => if now <? u then (true, t)
                  else if u <? now then (false, t <| entries := delete key (entries t) |>) else (false, t)
      end
  end.

Definition recordFailure (now : Z) (key : text) (t : authFailureTracker) : authFailureTracker :=
  if max_fails t <=? 0 then t else
  let e := match entries t !! key with
           | Some e => if window t <? now - lastFailure e then mkAuthFailEntry 0 0 None else e
           | None => mkAuthFailEntry 0 0 None
           end in
  let n := fails e + 1 in
  let e' := mkAuthFailEntry n now (if max_fails t <=? n then Some (now + lockout t) else lockedUntil e) in
  t <| entries := <[key := e']> (entries t) |>.

Definition recordSuccess (key : text) (t : authFailureTracker) : authFailureTracker :=
  t <| entries := delete key (entries t) |>.

(** ** Addresses and schemes *)

(** The part up to the last [c], and the part behind it. *)
Definition cut_last (c : Z) (s : text) : option (text * text) :=
  match cut_at c (rev s) with Some (b, a) => Some (rev a, rev b) | None => None end.

Definition has_byte (c : Z) (s : text) : bool := existsb (Z.eqb c) s.

(** The host of [net.SplitHostPort]; [None] is its error. *)
Definition split_host (hostport : text) : option text :=
  match cut_last 0x3A hostport with
  | None => None
  | Some (before, port) =>
      match before with
      | 0x5B :: rest =>
          (* a bracketed host: its bracket closes right before the last colon *)
          match cut_at 0x5D rest with
          | Some (host, []) => if has_byte 0x5B host || has_byte 0x5B port || has_byte 0x5D port then None else Some host
          | _ => None
          end
      | _ => if has_byte 0x3A before || has_byte 0x5B hostport || has_byte 0x5D hostport then None else Some before
      end
  end.

Definition hostOfAddr (addr : text) : text := match split_host addr with Some h => h | None => addr end.

(** The bytes before the first blank or tab, unless the text starts with it. *)
Fixpoint before_blank (s : text) : option text :=
  match s with
  | [] => None
  | b :: rest => if (b =? 0x20) || (b =? 0x09) then Some []
                 else match before_blank rest with Some w => Some (b :: w) | None => None end
  end.

Definition authScheme (authorization : text) : text :=
  match before_blank authorization with Some ((_ :: _) as scheme) => scheme | _ => authorization end.

(** ** The server *)

Record sip_config := mkSipConfig {
  Password : text;
  StrictAuth : bool;
  AllowedDeviceIDs : list text;
  Realm : text;
  ProtocolVersion : text;
}.

(** [RegisterAuthenticator]; [None] is an error. *)
Record RegisterAuthenticator := mkRegisterAuthenticator {
  Challenge : text -> text -> option text;
  VerifyRegister : text -> text -> option text;
}.

(** A REGISTER: the user of its From header, its source address, its first
    Authorization header, its Expires header and its transport. *)
Record register_request := mkRegisterRequest {
  rr_from : option text;
  rr_source : text;
  rr_authorization : option text;
  rr_expires : option Z;
  rr_transport : text;
}.

Inductive effect :=
  | Respond (status : Z) (reason : text) (headers : list (text * text))
  | ByeDevice (id : text)
  | TeardownDevice (id : text)
  | DbDelete (id : text)
  | DbUpsertDevice (id : text)
  | DbUpsertChannel (id : text)
  | EnsureCamera (id host : text)
  | AfterRegister (id : text).

Record reg_state := mkRegState { authFailures : authFailureTracker; deviceMgr : DeviceManager }.

Definition statusOK : Z := 200.
Definition statusBadRequest : Z := 400.
Definition statusUnauthorized : Z := 401.
Definition statusForbidden : Z := 403.

Definition isAllowedDevice (cfg : sip_config) (deviceID : text) : bool :=
  match AllowedDeviceIDs cfg with
  | [] => true
  | ids => existsb (fun id => bool_decide (id = deviceID)) ids
  end.

Definition appendXGBVer (headers : list (text * text)) (v : text) : list (text * text) :=
  match v with [] => headers | _ => headers ++ [(txt "X-GB-Ver", v)] end.

Definition challenge_value (cfg : sip_config) (nonce : text) : text :=
  let realm := match Realm cfg with [] => txt "gb28181" | r => r end in
  txt "Digest realm=" ++ [0x22] ++ realm ++ [0x22] ++ txt ", nonce=" ++ [0x22] ++ nonce ++ [0x22] ++ txt ", algorithm=MD5".

Definition send401Challenge (cfg : sip_config) (nonce : text) : effect :=
  Respond statusUnauthorized (txt "Unauthorized")
    (appendXGBVer [(txt "WWW-Authenticate", challenge_value cfg nonce)] (ProtocolVersion cfg)).

Section Server.

Context (cfg : sip_config) (authenticator : option RegisterAuthenticator).

(** gosip's [Authorization]: reading the header value, its user name, the
    response for a password and method, the response it carries. *)
Context {Authorization : Type} (AuthFromValue : text -> Authorization) (Username : Authorization -> text)
        (CalcResponse : Authorization -> text -> text -> text) (Response : Authorization -> text).

(** A database is configured; it holds channels other than the device's own. *)
Context (db : bool) (deviceHasCatalogChannels : text -> bool) (enroller : bool).

Definition validateDigest (auth : Authorization) (deviceID : text) : bool :=
  bool_decide (Username auth = deviceID) &&
  bool_decide (CalcResponse auth (Password cfg) (txt "REGISTER") = Response auth).

(** The A-level branch: an answer, or whether the device is authenticated, with
    its SecurityInfo. *)
Definition a_level (now : Z) (req : register_request) (deviceID : text) (t : authFailureTracker) :
    list effect * authFailureTracker + bool * text * authFailureTracker :=
  match authenticator with
  | None => inr (false, [], t)
  | Some a =>
      let authVal := match rr_authorization req with Some v => TrimSpace v | None => [] end in
      let scheme := authScheme authVal in
      if bool_decide (scheme = txt "Capability") then
        match Challenge a deviceID authVal with
        | None => inl ([Respond statusForbidden (txt "A-level challenge failed") []], t)
        | Some www => inl ([Respond statusUnauthorized (txt "Unauthorized")
                              (appendXGBVer [(txt "WWW-Authenticate", www)] (ProtocolVersion cfg))], t)
        end
      else if bool_decide (scheme = txt "Unidirection") || bool_decide (scheme = txt "Bidirection") then
        match VerifyRegister a deviceID authVal with
        | None => inl ([Respond statusForbidden (txt "A-level verification failed") []],
                       recordFailure now (hostOfAddr (rr_source req)) t)
        | Some si => inr (true, si, recordSuccess (hostOfAddr (rr_source req)) t)
        end
      else inr (false, [], t)
  end.

(** The digest branch and the check that some authentication is configured:
    [None] lets the REGISTER pass. *)
Definition digest_check (now : Z) (nonce : text) (req : register_request) (deviceID : text) (authed : bool)
    (t : authFailureTracker) : option (list effect) * authFailureTracker :=
  let key := hostOfAddr (rr_source req) in
  if authed then (None, t) else
  match Password cfg with
  | _ :: _ =>
      match rr_authorization req with
      | None => (Some [send401Challenge cfg nonce], t)
      | Some v => if validateDigest (AuthFromValue v) deviceID then (None, recordSuccess key t)
                  else (Some [Respond statusForbidden (txt "Invalid credentials") []], recordFailure now key t)
      end
  | [] => match authenticator with
          | Some _ => (None, t)
          | None => if StrictAuth cfg then (Some [Respond statusForbidden (txt "No authentication configured") []], t)
                    else (None, t)
          end
  end.

(** What follows a REGISTER that is accepted. *)
Definition accept_register (now : Z) (req : register_request) (deviceID securityInfo : text) (m : DeviceManager) :
    list effect * DeviceManager :=
  let expires := match rr_expires req with Some h => if 0 <=? h then h else 3600 | None => 3600 end in
  let okHeaders := appendXGBVer ((txt "Expires", Itoa expires) ::
                     match securityInfo with [] => [] | _ => [(txt "SecurityInfo", securityInfo)] end) (ProtocolVersion cfg) in
  if expires =? 0 then
    (TeardownDevice deviceID :: (if db then [DbDelete deviceID] else []) ++ [Respond statusOK (txt "OK") okHeaders],
     Unregister deviceID m)
  else
    let addrChanged := match devices m !! deviceID with
                       | Some existing => negb (bool_decide (hostOfAddr (NetAddr existing) = hostOfAddr (rr_source req)))
                       | None => false
                       end in
    let m1 := Register now (mkDevice deviceID [] [] [] (rr_source req) (ToLower (rr_transport req)) DeviceOffline ∅ 0) m in
    let channelExists := match FindChannel deviceID deviceID m1 with Some _ => true | None => false end in
    let selfSuperseded := negb channelExists && (db && deviceHasCatalogChannels deviceID) in
    let first := negb channelExists && negb selfSuperseded in
    let m2 := if first then RegisterChannel deviceID (mkChannel deviceID deviceID [] 0 0 0 0 false 0 false) m1 else m1 in
    ((if addrChanged then [ByeDevice deviceID] else [])
     ++ (if db then DbUpsertDevice deviceID :: (if first then [DbUpsertChannel deviceID] else []) else [])
     ++ (if first && enroller then [EnsureCamera deviceID (hostOfAddr (rr_source req))] else [])
     ++ [Respond statusOK (txt "OK") okHeaders; AfterRegister deviceID], m2).

Definition handleRegister (now : Z) (nonce : text) (req : register_request) (st : reg_state) : list effect * reg_state :=
  match rr_from req with
  | None => ([Respond statusBadRequest (txt "Missing From header") []], st)
  | Some deviceID =>
      match deviceID with
      | [] => ([Respond statusBadRequest (txt "Missing device ID") []], st)
      | _ =>
          if negb (isAllowedDevice cfg deviceID) then ([Respond statusForbidden (txt "Device not allowed") []], st) else
          match a_level now req deviceID (authFailures st) with
          | inl (effs, t) => (effs, mkRegState t (deviceMgr st))
          | inr (authed, securityInfo, t0) =>
              let (isLocked, t1) := locked now (hostOfAddr (rr_source req)) t0 in
              if isLocked then ([Respond statusForbidden (txt "Too many auth failures") []], mkRegState t1 (deviceMgr st)) else
              let (refusal, t2) := digest_check now nonce req deviceID authed t1 in
              match refusal with
              | Some effs => (effs, mkRegState t2 (deviceMgr st))
              | None => let (effs, m) := accept_register now req deviceID securityInfo (deviceMgr st) in
                        (effs, mkRegState t2 m)
              end
          end
      end
  end.

End Server.

(** ** Lemmas: the tracker *)

Lemma locked_until now key t e u : 0 < max_fails t -> entries t !! key = Some e -> lockedUntil e = Some u -> now < u ->
  locked now key t = (true, t).
Proof.
  intros Hm E U Hn. unfold locked. rewrite (proj2 (Z.leb_gt _ _)) by done. rewrite E, U.
  by rewrite (proj2 (Z.ltb_lt _ _)).
Qed.

(** [n] failures in a row, the last at [now], fewer than the limit. *)
Definition failing (t : authFailureTracker) (key : text) (n now : Z) : Prop :=
  if n =? 0 then entries t !! key = None
  else entries t !! key = Some (mkAuthFailEntry n now (if max_fails t <=? n then Some (now + lockout t) else None)).

Lemma failing_not_locked t key n now now' : failing t key n now -> 0 <= n < max_fails t -> locked now' key t = (false, t).
Proof.
  unfold failing, locked. intros H Hn. rewrite (proj2 (Z.leb_gt _ _)) by lia.
  destruct (Z.eqb_spec n 0); rewrite H; [done|]. cbn [lockedUntil]. by rewrite (proj2 (Z.leb_gt _ _)) by lia.
Qed.

Lemma failing_record t key n now now' : failing t key n now -> 0 <= n < max_fails t -> now' - now <= window t ->
  failing (recordFailure now' key t) key (n + 1) now'.
Proof.
  unfold failing, recordFailure. intros H Hn Hw. rewrite (proj2 (Z.leb_gt _ _)) by lia.
  rewrite (proj2 (Z.eqb_neq (n + 1) 0)) by lia. cbn [entries max_fails lockout update eta eta_tracker].
  destruct (Z.eqb_spec n 0) as [->|]; rewrite H.
  - rewrite lookup_insert_eq. cbn [fails lockedUntil]. by destruct (max_fails t <=? 0 + 1).
  - cbn [lastFailure]. rewrite (proj2 (Z.ltb_ge _ _)) by lia. rewrite lookup_insert_eq. cbn [fails lockedUntil].
    rewrite (proj2 (Z.leb_gt (max_fails t) n)) by lia. done.
Qed.

Lemma record_config now key t : max_fails (recordFailure now key t) = max_fails t /\
  window (recordFailure now key t) = window t /\ lockout (recordFailure now key t) = lockout t.
Proof. unfold recordFailure. by destruct (max_fails t <=? 0). Qed.

Lemma last_of_cons {A} (x d : A) l : List.last (x :: l) d = List.last l x.
Proof. revert x d. induction l as [|y l IH]; intros x d; [done|]. cbn [List.last] in *. rewrite (IH y d). symmetry. apply IH. Qed.

(** ** Theorems *)

Section Theorems.

Context (cfg : sip_config) (authenticator : option RegisterAuthenticator).
Context {Authorization : Type} (AuthFromValue : text -> Authorization) (Username : Authorization -> text)
        (CalcResponse : Authorization -> text -> text -> text) (Response : Authorization -> text).
Context (db : bool) (deviceHasCatalogChannels : text -> bool) (enroller : bool).

Let handle := handleRegister cfg authenticator AuthFromValue Username CalcResponse Response db deviceHasCatalogChannels enroller.

Definition scheme_of (req : register_request) : text :=
  authScheme (match rr_authorization req with Some v => TrimSpace v | None => [] end).

Definition a_level_scheme (req : register_request) : bool :=
  bool_decide (scheme_of req = txt "Capability") || bool_decide (scheme_of req = txt "Unidirection")
  || bool_decide (scheme_of req = txt "Bidirection").

(** The authenticator accepted the A-level Authorization. *)
Definition a_level_verified (req : register_request) (deviceID : text) : Prop :=
  exists a si, authenticator = Some a /\
    (scheme_of req = txt "Unidirection" \/ scheme_of req = txt "Bidirection") /\
    VerifyRegister a deviceID (match rr_authorization req with Some v => TrimSpace v | None => [] end) = Some si.

(** The digest response is that of the configured password, and carries the
    device's own ID. *)
Definition digest_verified (req : register_request) (deviceID : text) : Prop :=
  exists v, rr_authorization req = Some v /\ Username (AuthFromValue v) = deviceID /\
    CalcResponse (AuthFromValue v) (Password cfg) (txt "REGISTER") = Response (AuthFromValue v).

(** One answer that is no 200. *)
Definition refusal (effs : list effect) : Prop := exists s r hs, effs = [Respond s r hs] /\ s <> statusOK.

Lemma refusal_intro s r hs : s <> statusOK -> refusal [Respond s r hs].
Proof. intros H. by exists s, r, hs. Qed.

Lemma a_level_cases now req deviceID t :
  match a_level cfg authenticator now req deviceID t with
  | inl (effs, _) => refusal effs
  | inr (true, _, _) => a_level_verified req deviceID
  | inr (false, _, t') => t' = t
  end.
Proof.
  unfold a_level, a_level_verified, scheme_of. destruct authenticator as [a|]; [|done]. cbv zeta.
  set (v := match rr_authorization req with Some v => TrimSpace v | None => [] end).
  destruct (bool_decide_reflect (authScheme v = txt "Capability")) as [_|_].
  - destruct (Challenge a deviceID v); by apply refusal_intro.
  - destruct (bool_decide_reflect (authScheme v = txt "Unidirection")) as [E1|_];
      [|destruct (bool_decide_reflect (authScheme v = txt "Bidirection")) as [E2|_]]; cbn [orb]; [| |done].
    + destruct (VerifyRegister a deviceID v) as [si|] eqn:V; [|by apply refusal_intro].
      exists a, si. split; [done|]. split; [by left|done].
    + destruct (VerifyRegister a deviceID v) as [si|] eqn:V; [|by apply refusal_intro].
      exists a, si. split; [done|]. split; [by right|done].
Qed.

Lemma digest_check_cases now nonce req deviceID t :
  match digest_check cfg authenticator AuthFromValue Username CalcResponse Response now nonce req deviceID false t with
  | (Some effs, _) => refusal effs
  | (None, _) => (Password cfg <> [] /\ digest_verified req deviceID) \/
                 (Password cfg = [] /\ (authenticator <> None \/ StrictAuth cfg = false))
  end.
Proof.
  unfold digest_check. destruct (Password cfg) as [|b p] eqn:Ep.
  - destruct authenticator; [right; split; [done|by left]|].
    destruct (StrictAuth cfg); [by apply refusal_intro|right; split; [done|by right]].
  - destruct (rr_authorization req) as [v|] eqn:Ev; [|by apply refusal_intro].
    destruct (validateDigest _ _ _ _ _ _) eqn:V; [|by apply refusal_intro].
    left. split; [done|]. unfold validateDigest in V. rewrite andb_true_iff, !bool_decide_eq_true in V. destruct V as [V1 V2].
    exists v. split; [done|]. split; [done|]. exact V2.
Qed.

(** C25: A REGISTER is let in only with what the configuration asks for: it
    changes the registry, or is answered 200, only if its device is on the
    allowlist and either the A-level authenticator verified it, or its source is
    not locked out and the digest response is that of the configured password
    for the device's own ID, or its source is not locked out, no password is
    configured and either an A-level authenticator is or strict_auth is off. *)
Theorem register_authorised now nonce req st :
  let (effs, st') := handle now nonce req st in
  (deviceMgr st' <> deviceMgr st \/ exists reason hs, In (Respond statusOK reason hs) effs) ->
  exists deviceID, rr_from req = Some deviceID /\ deviceID <> [] /\ isAllowedDevice cfg deviceID = true /\
    (a_level_verified req deviceID \/
     (fst (locked now (hostOfAddr (rr_source req)) (authFailures st)) = false /\
      ((Password cfg <> [] /\ digest_verified req deviceID) \/
       (Password cfg = [] /\ (authenticator <> None \/ StrictAuth cfg = false))))).
Proof.
  destruct (handle now nonce req st) as [effs st'] eqn:H. intros Hok.
  assert (Refused : refusal effs -> deviceMgr st' = deviceMgr st -> False).
  { intros (s & r & hs & -> & Hs) E. destruct Hok as [Hd|(reason & h & [E2|[]])]; [by apply Hd|congruence]. }
  unfold handle, handleRegister in H.
  destruct (rr_from req) as [deviceID|]; [|injection H as <- <-; exfalso; by apply Refused; [apply refusal_intro|]].
  destruct deviceID as [|b rest] eqn:Ed; [injection H as <- <-; exfalso; by apply Refused; [apply refusal_intro|]|].
  rewrite <- Ed in *. destruct (isAllowedDevice cfg deviceID) eqn:Ea; cbn [negb] in H;
    [|injection H as <- <-; exfalso; by apply Refused; [apply refusal_intro|]].
  exists deviceID. split; [done|]. split; [by rewrite Ed|]. split; [done|].
  pose proof (a_level_cases now req deviceID (authFailures st)) as A.
  destruct (a_level _ _ _ _ _ _) as [[e t]|[[authed si] t0]]; [injection H as <- <-; exfalso; by apply Refused|].
  destruct (locked now (hostOfAddr (rr_source req)) t0) as [isLocked t1] eqn:L.
  destruct isLocked; [injection H as <- <-; exfalso; by apply Refused; [apply refusal_intro|]|].
  destruct authed; [by left|]. subst t0. right. rewrite L. split; [done|].
  pose proof (digest_check_cases now nonce req deviceID t1) as D.
  destruct (digest_check _ _ _ _ _ _ _ _ _ _ _ _) as [[e|] t2]; [injection H as <- <-; exfalso; by apply Refused|done].
Qed.

(** A request that is to be checked by digest, and fails the check. *)
Definition wrong_digest (host : text) (req : register_request) : Prop :=
  hostOfAddr (rr_source req) = host /\ a_level_scheme req = false /\
  exists deviceID v, rr_from req = Some deviceID /\ deviceID <> [] /\ isAllowedDevice cfg deviceID = true /\
    rr_authorization req = Some v /\ validateDigest cfg Username CalcResponse Response (AuthFromValue v) deviceID = false.

(** Successive requests, each with its time and nonce. *)
Definition handle_all (reqs : list (Z * text * register_request)) (st : reg_state) : reg_state :=
  fold_left (fun st r => snd (handle (fst (fst r)) (snd (fst r)) (snd r) st)) reqs st.

(** The times of successive requests follow each other within the window. *)
Fixpoint within (w now : Z) (reqs : list (Z * text * register_request)) : Prop :=
  match reqs with
  | [] => True
  | (t, _, _) :: rest => t - now <= w /\ within w t rest
  end.

Lemma a_level_skipped now req deviceID t : a_level_scheme req = false ->
  a_level cfg authenticator now req deviceID t = inr (false, [], t).
Proof.
  unfold a_level_scheme, scheme_of, a_level. intros H. rewrite !orb_false_iff in H. destruct H as [[H1 H2] H3].
  destruct authenticator as [a|]; [|done]. cbv zeta. by rewrite H1, H2, H3.
Qed.

Lemma wrong_digest_handled host now nonce req st : Password cfg <> [] -> wrong_digest host req ->
  locked now host (authFailures st) = (false, authFailures st) ->
  snd (handle now nonce req st) = mkRegState (recordFailure now host (authFailures st)) (deviceMgr st).
Proof.
  intros Hp (Hh & Ha & deviceID & v & F & Hne & Hal & Hv & V) L. unfold handle, handleRegister.
  rewrite F. destruct deviceID as [|b d] eqn:Ed; [done|]. rewrite <- Ed in *. rewrite Hal. cbn [negb].
  rewrite a_level_skipped by done. rewrite Hh, L. unfold digest_check. rewrite Hv, V, Hh.
  by destruct (Password cfg).
Qed.

Lemma failures_counted host reqs : forall st n now, Password cfg <> [] ->
  Forall (fun r => wrong_digest host (snd r)) reqs -> within (window (authFailures st)) now reqs ->
  0 <= n -> n + Z.of_nat (length reqs) <= max_fails (authFailures st) ->
  failing (authFailures st) host n now ->
  let st' := handle_all reqs st in let last := List.last (map (fun r => fst (fst r)) reqs) now in
  failing (authFailures st') host (n + Z.of_nat (length reqs)) last /\
  max_fails (authFailures st') = max_fails (authFailures st) /\ lockout (authFailures st') = lockout (authFailures st) /\
  deviceMgr st' = deviceMgr st.
Proof.
  induction reqs as [|[[t nonce] req] reqs IH]; intros st n now Hp Hw Hin Hn Hm Hf.
  - cbn. rewrite Z.add_0_r. done.
  - apply list.Forall_cons in Hw as [Hw1 Hw]. destruct Hin as [Hin1 Hin]. cbn [length] in Hm.
    unfold handle_all. cbn [fold_left fst snd].
    rewrite (wrong_digest_handled host) by (done || by apply (failing_not_locked _ _ n now); [|lia]).
    destruct (record_config t host (authFailures st)) as (C1 & C2 & C3).
    set (st1 := mkRegState (recordFailure t host (authFailures st)) (deviceMgr st)).
    destruct (IH st1 (n + 1) t Hp Hw) as (I1 & I2 & I3 & I4).
    + cbn [authFailures st1]. by rewrite C2.
    + lia.
    + cbn [authFailures st1]. rewrite C1. lia.
    + by apply failing_record with now; [|lia|].
    + unfold handle_all in I1, I2, I3, I4. cbn [authFailures st1 deviceMgr] in *.
      rewrite I2, I3, I4, C1, C3. split; [|done].
      replace (n + Z.of_nat (length ((t, nonce, req) :: reqs))) with (n + 1 + Z.of_nat (length reqs)) by (cbn [length]; lia).
      cbn [map fst]. rewrite last_of_cons. exact I1.
Qed.

(** Guessing passwords is contained: after as many wrong digests from one
    host as the limit allows, each within the window of the one before, every
    further REGISTER from that host is refused for the whole lockout, the right
    password included, and changes nothing. *)
Theorem brute_force_contained host reqs st now nonce req :
  Password cfg <> [] -> 0 < max_fails (authFailures st) -> entries (authFailures st) !! host = None ->
  Forall (fun r => wrong_digest host (snd r)) reqs -> Z.of_nat (length reqs) = max_fails (authFailures st) ->
  within (window (authFailures st)) (match reqs with (t, _, _) :: _ => t | [] => now end) reqs ->
  let last := List.last (map (fun r => fst (fst r)) reqs) now in
  now < last + lockout (authFailures st) -> hostOfAddr (rr_source req) = host -> a_level_scheme req = false ->
  let st' := handle_all reqs st in
  deviceMgr st' = deviceMgr st /\ snd (handle now nonce req st') = st' /\ refusal (fst (handle now nonce req st')).
Proof.
  intros Hp Hmax He Hw Hlen Hin last Hnow Hh Ha st'.
  destruct reqs as [|[[t0 n0] r0] reqs]; [cbn in Hlen; lia|].
  assert (W : 0 <= window (authFailures st)) by (destruct Hin as [Hin _]; lia).
  destruct (failures_counted host ((t0, n0, r0) :: reqs) st 0 t0 Hp Hw Hin ltac:(lia) ltac:(lia)) as (F & C1 & C2 & C3);
    [unfold failing; by rewrite Z.eqb_refl|]. fold st' in F, C1, C2, C3. cbv zeta in F, C1, C2, C3.
  split; [exact C3|].
  assert (EL : List.last (map (fun r => fst (fst r)) ((t0, n0, r0) :: reqs)) t0 = last).
  { unfold last. cbn [map fst]. by rewrite !last_of_cons. }
  rewrite EL in F. unfold failing in F. fold st' in F.
  destruct (Z.eqb_spec (0 + Z.of_nat (length ((t0, n0, r0) :: reqs))) 0) as [E|_]; [cbn in E; lia|].
  rewrite (proj2 (Z.leb_le _ _)) in F by lia. rewrite C2 in F.
  assert (L : locked now host (authFailures st') = (true, authFailures st')).
  { eapply locked_until; [lia|exact F|done|done]. }
  unfold handle, handleRegister. destruct (rr_from req) as [deviceID|]; [|split; [done|by apply refusal_intro]].
  destruct deviceID as [|b d] eqn:Ed; [split; [done|by apply refusal_intro]|]. rewrite <- Ed in *.
  destruct (isAllowedDevice cfg deviceID); cbn [negb]; [|split; [done|by apply refusal_intro]].
  rewrite a_level_skipped by done. rewrite Hh, L. split; [by destruct st'|by apply refusal_intro].
Qed.

(** What a REGISTER that passes does to the registry. *)
Lemma accepted_registry now req deviceID si m : 
  let (effs, m') := accept_register cfg db deviceHasCatalogChannels enroller now req deviceID si m in
  (exists hs, In (Respond statusOK (txt "OK") hs) effs) /\
  if bool_decide (rr_expires req = Some 0) then devices m' = delete deviceID (devices m)
  else (exists d, devices m' !! deviceID = Some d /\ Status d = DeviceOnline /\ NetAddr d = rr_source req /\ lastKeepalive d = now) /\
       forall id, id <> deviceID -> devices m' !! id = devices m !! id.
Proof.
  unfold accept_register. set (ex := match rr_expires req with Some h => _ | None => 3600 end).
  assert (Ex : (ex =? 0) = bool_decide (rr_expires req = Some 0)).
  { unfold ex. destruct (rr_expires req) as [h|]; [|done]. destruct (Z.leb_spec 0 h); case_bool_decide; simplify_eq; lia || apply Z.eqb_neq; congruence || lia. }
  cbv zeta. rewrite Ex. case_bool_decide as E.
  - split; [|done]. eexists. right. apply in_app_iff. right. by left.
  - split; [eexists; rewrite !in_app_iff; do 3 right; left; reflexivity|].
    set (d0 := mkDevice _ _ _ _ _ _ _ _ _). set (m1 := Register now d0 m).
    assert (R : (exists d, devices m1 !! deviceID = Some d /\ Status d = DeviceOnline /\ NetAddr d = rr_source req /\ lastKeepalive d = now) /\
      forall id, id <> deviceID -> devices m1 !! id = devices m !! id).
    { unfold m1, Register. change (dev_ID d0) with deviceID. destruct (devices m !! deviceID) as [dev|]; cbn; (split; [eexists; rewrite lookup_insert_eq; by repeat split|]);
        intros id N; by rewrite lookup_insert_ne. }
    destruct (negb _ && negb _); [|exact R]. destruct R as [(d & D1 & D2 & D3 & D4) R]. unfold RegisterChannel. rewrite D1. cbn. split; [eexists; rewrite lookup_insert_eq; by repeat split|].
    intros id N. by rewrite lookup_insert_ne, R.
Qed.

(** With an A-level authenticator configured and no password, a REGISTER that names
    none of the A-level schemes (it carries no Authorization at all, or any other) passes
    unchecked for every allowed device whose source is not locked out, strict_auth or not:
    it is answered 200 and makes the device known and online under the sender's address,
    or, with Expires 0, takes the registration of the device away. Whichever authenticator
    is configured makes no difference: it is consulted only when the request asks for it. *)
Theorem authenticator_bypassed a deviceID now nonce req st :
  authenticator = Some a -> Password cfg = [] -> a_level_scheme req = false ->
  rr_from req = Some deviceID -> deviceID <> [] -> isAllowedDevice cfg deviceID = true ->
  fst (locked now (hostOfAddr (rr_source req)) (authFailures st)) = false ->
  let (effs, st') := handle now nonce req st in
  (exists hs, In (Respond statusOK (txt "OK") hs) effs) /\
  (if bool_decide (rr_expires req = Some 0) then devices (deviceMgr st') = delete deviceID (devices (deviceMgr st))
   else exists d, devices (deviceMgr st') !! deviceID = Some d /\ Status d = DeviceOnline /\ NetAddr d = rr_source req) /\
  forall b, handleRegister cfg (Some b) AuthFromValue Username CalcResponse Response db deviceHasCatalogChannels enroller now nonce req st = (effs, st').
Proof.
  intros Ha Hp Hs Hf Hne Hal Hl.
  assert (E : forall b, handleRegister cfg (Some b) AuthFromValue Username CalcResponse Response db deviceHasCatalogChannels enroller now nonce req st =
    let (effs, m) := accept_register cfg db deviceHasCatalogChannels enroller now req deviceID [] (deviceMgr st) in
    (effs, mkRegState (snd (locked now (hostOfAddr (rr_source req)) (authFailures st))) m)).
  { intros b. unfold handleRegister. rewrite Hf. destruct deviceID as [|x d]; [done|]. rewrite Hal. cbn [negb].
    assert (S : a_level cfg (Some b) now req (x :: d) (authFailures st) = inr (false, [], authFailures st)).
    { unfold a_level. unfold a_level_scheme, scheme_of in Hs. rewrite !orb_false_iff in Hs. destruct Hs as [[H1 H2] H3]. cbv zeta. by rewrite H1, H2, H3. }
    rewrite S. destruct (locked _ _ _) as [l t1]. cbn [fst snd] in Hl |- *. subst l. unfold digest_check. by rewrite Hp. }
  unfold handle. rewrite Ha, E. pose proof (accepted_registry now req deviceID [] (deviceMgr st)) as A.
  destruct (accept_register _ _ _ _ _ _ _ _ _) as [effs m']. destruct A as [A1 A2]. split; [done|]. split; [|by intros b; rewrite E].
  case_bool_decide; [done|]. destruct A2 as [(d & D1 & D2 & D3 & _) _]. by exists d.
Qed.

End Theorems.

(** ** Concrete registrations *)

(** A platform with a password, and digests that are the password followed by
    the method; the header value carries the user name, a comma and the digest. *)
Definition digest_config : sip_config := mkSipConfig (txt "pw") true [] (txt "r") [].
Definition demo_user (v : text) : text := match cut_at 0x2C v with Some (u, _) => u | None => [] end.
Definition demo_response (v : text) : text := match cut_at 0x2C v with Some (_, r) => r | None => [] end.
Definition demo_calc (_ password method : text) : text := password ++ method.
Definition demo_register (authorization : option text) : register_request :=
  mkRegisterRequest (Some (txt "34020000001320000001")) (txt "10.0.0.7:5060") authorization (Some 3600) (txt "UDP").
Definition empty_state (limit window lockout : Z) : reg_state :=
  mkRegState (newAuthFailureTracker limit window lockout) (mkDeviceManager ∅ 60 20).
Definition demo_handle (cfg : sip_config) (a : option RegisterAuthenticator) :=
  handleRegister cfg a (fun v => v) demo_user demo_calc demo_response false (fun _ => false) false.

Lemma register_authorised_witness :
  exists deviceID, deviceID <> [] /\
    digest_verified digest_config (fun v => v) demo_user demo_calc demo_response
      (demo_register (Some (txt "34020000001320000001,pwREGISTER"))) deviceID.
Proof.
  assert (H := register_authorised digest_config None (fun v => v) demo_user demo_calc demo_response false (fun _ => false)
                 false 5 (txt "n") (demo_register (Some (txt "34020000001320000001,pwREGISTER"))) (empty_state 5 100 100)).
  destruct (handleRegister _ _ _ _ _ _ _ _ _ _ _ _ _) as [effs st'] eqn:E.
  destruct H as (d & _ & Hd & _ & [(a & si & Ha & _)|(_ & [[_ Hv]|[Hp _]])]).
  - right. revert E. vm_compute. intros [= <- <-]. eexists _, _. left. reflexivity.
  - discriminate Ha.
  - exists d. split; [exact Hd|exact Hv].
  - discriminate Hp.
Defined.

(** Two wrong digests are enough here; the right password is then refused. *)
Lemma brute_force_contained_witness :
  let wrong t := (t, txt "n", demo_register (Some (txt "34020000001320000001,guess"))) in
  let st' := handle_all digest_config None (fun v => v) demo_user demo_calc demo_response false (fun _ => false) false
               [wrong 1; wrong 2] (empty_state 2 100 100) in
  refusal (fst (demo_handle digest_config None 50 (txt "n")
                  (demo_register (Some (txt "34020000001320000001,pwREGISTER"))) st')).
Proof.
  intros wrong st'.
  assert (W : wrong_digest digest_config (fun v => v) demo_user demo_calc demo_response (txt "10.0.0.7")
                (demo_register (Some (txt "34020000001320000001,guess")))).
  { split; [vm_compute; reflexivity|]. split; [vm_compute; reflexivity|].
    exists (txt "34020000001320000001"), (txt "34020000001320000001,guess").
    split; [reflexivity|]. split; [intros [=]|]. split; [reflexivity|]. split; [reflexivity|vm_compute; reflexivity]. }
  destruct (brute_force_contained digest_config None (fun v => v) demo_user demo_calc demo_response false (fun _ => false)
    false (txt "10.0.0.7") [wrong 1; wrong 2] (empty_state 2 100 100) 50 (txt "n")
    (demo_register (Some (txt "34020000001320000001,pwREGISTER")))) as (_ & _ & R).
  - intros [=].
  - reflexivity.
  - reflexivity.
  - apply list.Forall_cons. split; [exact W|]. apply list.Forall_cons. split; [exact W|]. apply list.Forall_nil. exact I.
  - reflexivity.
  - cbn. lia.
  - cbn. lia.
  - vm_compute. reflexivity.
  - vm_compute. reflexivity.
  - exact R.
Defined.

(** No password, strict_auth on, an authenticator that refuses everything, and a REGISTER
    without an Authorization. *)
Lemma authenticator_bypassed_witness :
  let cfg := mkSipConfig [] true [] (txt "r") [] in
  let refuse_all := mkRegisterAuthenticator (fun _ _ => None) (fun _ _ => None) in
  let (effs, st) := demo_handle cfg (Some refuse_all) 1 (txt "n") (demo_register None) (empty_state 5 100 100) in
  (exists hs, In (Respond statusOK (txt "OK") hs) effs) /\ is_Some (devices (deviceMgr st) !! txt "34020000001320000001").
Proof.
  intros cfg refuse_all.
  pose proof (authenticator_bypassed cfg (Some refuse_all) (fun v => v) demo_user demo_calc demo_response false (fun _ => false) false
    refuse_all (txt "34020000001320000001") 1 (txt "n") (demo_register None) (empty_state 5 100 100)
    eq_refl eq_refl eq_refl eq_refl ltac:(discriminate) eq_refl eq_refl) as B.
  unfold demo_handle. destruct (handleRegister _ _ _ _ _ _ _ _ _ _ _ _ _) as [effs st]. destruct B as (B1 & (d & B2 & _) & _). split; [exact B1|]. exists d. exact B2.
Defined.
