(* ===== verification/Registration.v ===== *)
(** The device registers with the platform: the exchange of [DeviceRegister] run
    against the handler of [RegisterAuth].

    What gosip does in between is an interface: [GosipDigest] states how its
    [Authorization] reads a header and computes a response (RFC 2617), and
    [GosipRequest] what it makes of a REGISTER. Both have an instance. *)

From S2P Require Import Prelude GoStrings GoText SipMsg DeviceMgr RegisterAuth GoCrypto Digest DeviceRegister.
Open Scope Z_scope.

(** ** Interfaces *)

(** The value of the first parameter of the name. *)
Fixpoint value_of (name : text) (ps : list (text * text)) : text :=
  match ps with
  | [] => []
  | (k, v) :: rest => if bool_decide (k = name) then v else value_of name rest
  end.

(** The response of RFC 2617, section 3.2.2.1, for MD5 without qop. *)
Definition rfc2617 (username realm password nonce method uri : text) : text :=
  let H l := hex_encode (md5_Sum (Join l (txt ":"))) in
  H [H [username; realm; password]; nonce; H [method; uri]].

Class GosipDigest {Authorization : Type} (AuthFromValue : text -> Authorization) (Username : Authorization -> text)
    (CalcResponse : Authorization -> text -> text -> text) (Response : Authorization -> text) : Prop := {
  gosip_username ps : Forall param_ok ps ->
    Username (AuthFromValue (txt "Digest " ++ render_all ps)) = value_of (txt "username") (map pair_of ps);
  gosip_response ps : Forall param_ok ps ->
    Response (AuthFromValue (txt "Digest " ++ render_all ps)) = value_of (txt "response") (map pair_of ps);
  gosip_calc ps password method : Forall param_ok ps ->
    value_of (txt "algorithm") (map pair_of ps) = txt "MD5" -> value_of (txt "qop") (map pair_of ps) = [] ->
    CalcResponse (AuthFromValue (txt "Digest " ++ render_all ps)) password method =
    let v name := value_of (txt name) (map pair_of ps) in
    rfc2617 (v "username") (v "realm") password (v "nonce") method (v "uri");
}.

Definition addr_text (s : text) : Prop := quotable s /\ Forall (fun b => b <> 0x40) s.

Class GosipRequest (received : SipMessage -> register_request) (source_addr : text) : Prop := {
  request_source m : rr_source (received m) = source_addr;
  request_from m id domain : addr_text id -> From_ m = txt "<sip:" ++ id ++ txt "@" ++ domain ++ txt ">" ->
    rr_from (received m) = Some id;
  request_authorization m : rr_authorization (received m) = match SipMsg.Authorization m with [] => None | v => Some v end;
  request_expires m n : Expires m = Itoa n -> 0 <= n < 2 ^ 32 -> rr_expires (received m) = Some n;
}.

(** ** The two together *)

(** The platform, and the responses on their way to the device. *)
Record world := mkWorld { platform : reg_state; inbox : list SipMessage }.

Section Together.

Context (pcfg : sip_config) (dcfg : device_config) (source_addr : text).
Context {Authorization : Type} (AuthFromValue : text -> Authorization) (Username : Authorization -> text)
        (CalcResponse : Authorization -> text -> text -> text) (Response : Authorization -> text)
        (received : SipMessage -> register_request).
Context (db : bool) (deviceHasCatalogChannels : text -> bool) (enroller : bool).
Context (userAgent : text) (time_Parse : text -> text -> option Z) (range : gmap text text -> list (text * text)).
(** The clock of the platform and the nonce of its challenges. *)
Context (now : Z) (nonce : text).

(** A response as the device parses it. *)
Definition answer (req : SipMessage) (e : effect) : list SipMessage :=
  match e with
  | Respond status _ headers =>
      [fold_left (fun m h => set_field (field_of (fst h)) (fst h) (snd h) m) headers
         (empty_message <| StatusCode := status |> <| CSeq := CSeq req |>)]
  | _ => []
  end.

Definition platform_write (m : SipMessage) (w : world) : bool * world :=
  let (effs, st) := handleRegister pcfg None AuthFromValue Username CalcResponse Response db deviceHasCatalogChannels enroller
                      now nonce (received m) (platform w) in
  (true, mkWorld st (inbox w ++ flat_map (answer m) effs)).

(** [socketResponseSource] *)
Definition socket_source : @source world := fun st w =>
  match inbox w with
  | m :: rest => (Some m, st, mkWorld (platform w) rest)
  | [] => (None, st, w)
  end.

Definition device_registers_with (a : attempt) (st : device_state) (p : reg_state) :=
  runRegisterLifecycleInner dcfg None userAgent time_Parse range platform_write socket_source a st (mkWorld p []).

Definition device_leaves (a : attempt) (st : device_state) (p : reg_state) :=
  runDeregisterLifecycle dcfg None userAgent platform_write socket_source a st (mkWorld p []).

(** ** Lemmas: the challenge *)

Definition realm_of : text := match RegisterAuth.Realm pcfg with [] => txt "gb28181" | r => r end.

Definition issued : DigestAuth := mkDigestAuth realm_of nonce (txt "MD5") [] [] [].

Lemma challenge_render : challenge_value pcfg nonce =
  txt "Digest " ++ render_all [Quoted (txt "realm") realm_of; Quoted (txt "nonce") nonce; Bare (txt "algorithm") (txt "MD5")].
Proof.
  unfold challenge_value, realm_of, render_all. set (r := match RegisterAuth.Realm pcfg with [] => _ | _ => _ end).
  cbn [map]. cbn [Join render]. unfold quote. rewrite <- ?app_assoc. reflexivity.
Qed.

Lemma challenge_parsed : quotable realm_of -> quotable nonce -> ParseChallenge (challenge_value pcfg nonce) = inr issued.
Proof.
  intros Hr Hn. rewrite challenge_render, ParseChallenge_render.
  - cbv zeta. destruct Hr as [Hr _], Hn as [Hn _]. cbn -[realm_of].
    unfold issued. by destruct realm_of, nonce.
  - repeat (apply list.Forall_cons; split); [..|by apply list.Forall_nil]; (split; [by apply key_lit|]); try done.
    by apply quotable_lit.
  - reflexivity.
  - unfold render_all. cbn [map Join]. rewrite !rev_app_distr. reflexivity.
Qed.

(** ** Lemmas: what the platform sees *)

Context `{!GosipDigest AuthFromValue Username CalcResponse Response} `{!GosipRequest received source_addr}.

(** The parties agree on the password and the device is welcome. *)
Record parties_ok : Prop := {
  same_password : RegisterAuth.Password pcfg = DeviceRegister.Password dcfg;
  password_set : DeviceRegister.Password dcfg <> [];
  device_allowed : isAllowedDevice pcfg (DeviceID dcfg) = true;
  id_ok : addr_text (DeviceID dcfg);
  domain_ok : quotable (SIPDomain dcfg);
  realm_ok : quotable realm_of;
  nonce_ok : quotable nonce;
}.

Definition authorization (a : attempt) : text :=
  BuildAuthorizationHeader (cnonce_nano a) issued (DeviceID dcfg) (DeviceRegister.Password dcfg) (request_uri dcfg) (txt "REGISTER").

Lemma uri_quotable : parties_ok -> quotable (request_uri dcfg).
Proof.
  intros P. destruct (domain_ok P) as [_ H]. split; [done|]. unfold request_uri.
  apply Forall_app_2; [repeat constructor|]. apply Forall_app_2; [done|]. apply Forall_app_2; [repeat constructor|done].
Qed.

Lemma authorization_valid a : parties_ok ->
  validateDigest pcfg Username CalcResponse Response (AuthFromValue (authorization a)) (DeviceID dcfg) = true.
Proof.
  intros P. unfold authorization. rewrite BuildAuthorizationHeader_params.
  set (ps := authorization_params _ _ _ _ _ _).
  assert (Hps : Forall param_ok ps).
  { apply authorization_params_ok; [apply (id_ok P)|apply (realm_ok P)|apply (nonce_ok P)|by apply uri_quotable| |by left|by left].
    right. by apply quotable_lit. }
  unfold validateDigest. rewrite gosip_username, gosip_calc, gosip_response by done.
  rewrite (same_password P). rewrite andb_true_iff, !bool_decide_eq_true. split; reflexivity.
Qed.

Lemma authorization_ne a : authorization a <> [].
Proof. unfold authorization. by rewrite BuildAuthorizationHeader_params. Qed.

Lemma register_msg_fields a cseq auth branch leaving :
  let m := register_msg dcfg userAgent a cseq auth branch leaving in
  From_ m = from_value dcfg /\ SipMsg.Authorization m = auth /\ Expires m = Itoa (if leaving then 0 else 3600) /\ CSeq m = cseq.
Proof. unfold register_msg. cbv zeta. by destruct (DeviceRegister.ProtocolVersion dcfg), leaving. Qed.

Lemma locked_again t key t' : locked now key t = (false, t') -> locked now key t' = (false, t').
Proof.
  unfold locked. intros H. destruct (max_fails t <=? 0) eqn:Em; [injection H as <-; by rewrite Em|].
  destruct (entries t !! key) as [e|] eqn:E; [|injection H as <-; by rewrite Em, E].
  destruct (lockedUntil e) as [u|] eqn:U; [|injection H as <-; by rewrite Em, E, U].
  destruct (now <? u) eqn:L1; [done|]. destruct (u <? now) eqn:L2; injection H as <-.
  - cbn [max_fails entries update eta eta_tracker]. rewrite Em. by rewrite lookup_delete_eq.
  - by rewrite Em, E, U, L1, L2.
Qed.

Lemma platform_challenges p t' a branch leaving : parties_ok ->
  locked now (hostOfAddr source_addr) (authFailures p) = (false, t') ->
  exists resp, platform_write (register_msg dcfg userAgent a (txt "1 REGISTER") [] branch leaving) (mkWorld p []) =
    (true, mkWorld (mkRegState t' (deviceMgr p)) [resp]) /\
    StatusCode resp = 401 /\ WWWAuthenticate resp = challenge_value pcfg nonce.
Proof.
  intros P L. destruct (register_msg_fields a (txt "1 REGISTER") [] branch leaving) as (F & A & _ & _).
  set (m := register_msg _ _ _ _ _ _ _) in *. unfold platform_write, handleRegister.
  rewrite (request_from m _ _ (id_ok P) F). pose proof (id_ok P) as [[Hne _] _].
  destruct (DeviceID dcfg) as [|b d] eqn:Ed; [done|]. rewrite <- Ed in *. rewrite (device_allowed P). cbn [negb a_level platform].
  rewrite request_source, L. unfold digest_check. rewrite request_authorization, A, (same_password P).
  pose proof (password_set P). destruct (DeviceRegister.Password dcfg); [done|].
  unfold send401Challenge, appendXGBVer. destruct (RegisterAuth.ProtocolVersion pcfg); eexists; split; reflexivity || by split.
Qed.

(** The extension headers of a 200. *)
Definition ok_extensions (si : text) : gmap text text :=
  let m := match si with [] => ∅ | _ => {[ txt "SecurityInfo" := si ]} end in
  match RegisterAuth.ProtocolVersion pcfg with [] => m | v => <[txt "X-GB-Ver" := v]> m end.

Lemma accepted_answer si p req expires m0 :
  rr_expires req = Some expires -> 0 <= expires ->
  exists resp, flat_map (answer m0) (fst (accept_register pcfg db deviceHasCatalogChannels enroller now req (DeviceID dcfg) si p)) = [resp] /\
    StatusCode resp = 200 /\ Expires resp = Itoa expires /\ Headers resp = ok_extensions si.
Proof.
  intros E H. unfold accept_register. rewrite E, (proj2 (Z.leb_le _ _)) by done. cbv zeta.
  unfold appendXGBVer, ok_extensions. destruct (Z.eqb_spec expires 0) as [->|Hne].
  - destruct db, si, (RegisterAuth.ProtocolVersion pcfg); eexists; split; reflexivity || by split_and!.
  - set (chan := match FindChannel _ _ _ with Some _ => true | None => false end).
    set (addr := match devices _ !! _ with Some _ => _ | None => false end).
    set (first := negb chan && _). cbn [fst].
    destruct addr, db, first, enroller, si, (RegisterAuth.ProtocolVersion pcfg); eexists; split; reflexivity || by split_and!.
Qed.

Lemma platform_accepts p t' a cseq branch leaving : parties_ok ->
  locked now (hostOfAddr source_addr) (authFailures p) = (false, t') ->
  let m := register_msg dcfg userAgent a cseq (authorization a) branch leaving in
  exists resp, platform_write m (mkWorld p []) =
    (true, mkWorld (mkRegState (recordSuccess (hostOfAddr source_addr) t')
       (snd (accept_register pcfg db deviceHasCatalogChannels enroller now (received m) (DeviceID dcfg) [] (deviceMgr p)))) [resp]) /\
    StatusCode resp = 200 /\ Expires resp = Itoa (if leaving then 0 else 3600) /\
    rr_expires (received m) = Some (if leaving then 0 else 3600) /\ rr_source (received m) = source_addr.
Proof.
  intros P L m. destruct (register_msg_fields a cseq (authorization a) branch leaving) as (F & A & E & _). fold m in F, A, E.
  assert (Hx : rr_expires (received m) = Some (if leaving then 0 else 3600)) by (apply request_expires; [done|by destruct leaving]).
  destruct (accepted_answer [] (deviceMgr p) (received m) _ m Hx ltac:(by destruct leaving)) as (resp & R1 & R2 & R3 & _).
  exists resp. split; [|by rewrite request_source].
  unfold platform_write, handleRegister. rewrite (request_from m _ _ (id_ok P) F). pose proof (id_ok P) as [[Hne _] _].
  destruct (DeviceID dcfg) as [|b d] eqn:Ed; [done|]. rewrite <- Ed in *. rewrite (device_allowed P). cbn [negb a_level platform].
  rewrite request_source, L. unfold digest_check. rewrite request_authorization, A, (same_password P), request_source.
  pose proof (password_set P). pose proof (authorization_ne a). pose proof (authorization_valid a P) as V.
  destruct (authorization a) as [|x y] eqn:Ea; [done|]. rewrite V.
  destruct (DeviceRegister.Password dcfg); [done|].
  destruct (accept_register _ _ _ _ _ _ _ _ _) as [effs m']. cbn [fst snd inbox app] in *. by rewrite R1.
Qed.

Lemma registered_device si p req : rr_expires req = Some 3600 -> rr_source req = source_addr ->
  exists d, devices (snd (accept_register pcfg db deviceHasCatalogChannels enroller now req (DeviceID dcfg) si p)) !! DeviceID dcfg = Some d /\
    Status d = DeviceOnline /\ NetAddr d = source_addr /\ lastKeepalive d = now.
Proof.
  intros E S. unfold accept_register. rewrite E. cbn [Z.leb Z.eqb Z.compare]. cbv zeta. cbn [snd].
  set (dev := mkDevice _ _ _ _ _ _ _ _ _). set (m1 := Register now dev p).
  assert (R : exists d, devices m1 !! DeviceID dcfg = Some d /\ Status d = DeviceOnline /\ NetAddr d = source_addr /\ lastKeepalive d = now).
  { unfold m1, Register. change (dev_ID dev) with (DeviceID dcfg). destruct (devices p !! DeviceID dcfg) as [d0|];
      eexists; (split; [apply lookup_insert_eq|]); cbn; by rewrite S. }
  destruct (negb _ && _); [|exact R]. destruct R as (d & Hd & H1 & H2 & H3).
  unfold RegisterChannel. rewrite Hd. eexists. split; [apply lookup_insert_eq|]. by cbn.
Qed.

Lemma exchange_answered leaving a p t' : parties_ok -> locked now (hostOfAddr source_addr) (authFailures p) = (false, t') ->
  exists resp1 resp2 m p',
    platform_write (register_msg dcfg userAgent a (txt "1 REGISTER") [] (via_nano a) leaving) (mkWorld p []) = (true, mkWorld (mkRegState t' (deviceMgr p)) [resp1]) /\
    StatusCode resp1 = 401 /\
    (forall w : world, authorize dcfg None a (WWWAuthenticate resp1) w = (inr (authorization a), w)) /\
    platform_write m (mkWorld (mkRegState t' (deviceMgr p)) []) = (true, mkWorld p' [resp2]) /\
    m = register_msg dcfg userAgent a (txt "2 REGISTER") (authorization a) (via2_nano a) leaving /\
    StatusCode resp2 = 200 /\ Expires resp2 = Itoa (if leaving then 0 else 3600) /\
    deviceMgr p' = snd (accept_register pcfg db deviceHasCatalogChannels enroller now (received m) (DeviceID dcfg) [] (deviceMgr p)) /\
    rr_expires (received m) = Some (if leaving then 0 else 3600) /\ rr_source (received m) = source_addr.
Proof.
  intros P L. destruct (platform_challenges p t' a (via_nano a) leaving P L) as (resp1 & W1 & C1 & Hw).
  destruct (platform_accepts (mkRegState t' (deviceMgr p)) t' a (txt "2 REGISTER") (via2_nano a) leaving P (locked_again _ _ _ L))
    as (resp2 & W2 & C2 & X2 & Rx & Rs).
  eexists resp1, resp2, _, _. split; [exact W1|]. split; [exact C1|]. split; [|by split_and!].
  intros w. unfold authorize. rewrite Hw, challenge_parsed by apply P. done.
Qed.

(** ** Theorems *)

(** C24: A device with the platform's password registers: one exchange of the
    device against the platform's handler, from a source that is not locked out,
    ends without error, the platform then has the device online under the
    address it came from, and the device has noted the granted 3600 seconds. *)
Theorem device_registers a st p : parties_ok -> fst (locked now (hostOfAddr source_addr) (authFailures p)) = false ->
  let '(err, st', w') := device_registers_with a st p in
  err = None /\ negotiatedExpires st' = 3600 /\ lastPlatformContact st' = contact_nano a /\ inbox w' = [] /\
  exists d, devices (deviceMgr (platform w')) !! DeviceID dcfg = Some d /\
    Status d = DeviceOnline /\ NetAddr d = source_addr /\ lastKeepalive d = now.
Proof.
  intros P L. destruct (locked now _ _) as [b t'] eqn:L'. cbn [fst] in L. subst b.
  destruct (exchange_answered false a p t' P L') as (resp1 & resp2 & m & p' & W1 & C1 & Az & W2 & -> & C2 & X2 & Hp' & Rx & Rs).
  unfold device_registers_with, runRegisterLifecycleInner, initialAuth, sendToPlatform. rewrite W1. cbn [negb socket_source inbox platform].
  rewrite C1. cbn [Z.eqb Pos.eqb]. rewrite Az, W2. cbn [negb socket_source inbox platform]. rewrite C2. cbn [Z.eqb Pos.eqb].
  split; [done|]. split; [|split; [done|split; [done|]]].
  - unfold noteNegotiatedExpires. cbn [negotiatedExpires update eta eta_device_state]. rewrite X2. by apply negotiated_header.
  - cbn [platform]. rewrite Hp'. by apply registered_device.
Qed.

(** A registered device leaves: the exchange with Expires 0 ends without
    error and the platform no longer has the device. *)
Theorem device_leaves_registry a st p : parties_ok -> fst (locked now (hostOfAddr source_addr) (authFailures p)) = false ->
  let '(err, _, w') := device_leaves a st p in
  err = None /\ devices (deviceMgr (platform w')) !! DeviceID dcfg = None.
Proof.
  intros P L. destruct (locked now _ _) as [b t'] eqn:L'. cbn [fst] in L. subst b.
  destruct (exchange_answered true a p t' P L') as (resp1 & resp2 & m & p' & W1 & C1 & Az & W2 & -> & C2 & X2 & Hp' & Rx & Rs).
  unfold device_leaves, runDeregisterLifecycle, initialAuth, sendToPlatform. rewrite W1. cbn [negb socket_source inbox platform].
  rewrite C1. cbn [Z.eqb Pos.eqb negb]. rewrite Az, W2. cbn [negb socket_source inbox platform]. rewrite C2. cbn [Z.eqb Pos.eqb].
  split; [done|]. cbn [platform]. rewrite Hp'. unfold accept_register. rewrite Rx. cbn -[Unregister]. apply lookup_delete_eq.
Qed.

End Together.

(** ** Instances and a concrete registration *)

(** A digest implementation that reads the header with the device's scanner. *)
Definition scan_username (l : list (text * text)) : text := value_of (txt "username") l.
Definition scan_response (l : list (text * text)) : text := value_of (txt "response") l.
Definition scan_calc (l : list (text * text)) (password method : text) : text :=
  let v name := value_of (txt name) l in
  rfc2617 (v "username"%string) (v "realm"%string) password (v "nonce"%string) method (v "uri"%string).

#[export] Instance scan_digest : GosipDigest find_params scan_username scan_calc scan_response.
Proof.
  assert (H : forall ps, Forall param_ok ps -> find_params (txt "Digest " ++ render_all ps) = map pair_of ps).
  { intros ps Hps. change (txt "Digest ") with (txt "Digest" ++ [0x20]). rewrite <- app_assoc. cbn [app].
    rewrite find_params_word by (by apply key_lit). by apply find_render_all. }
  split; intros; by rewrite H.
Qed.

Definition user_of (value : text) : option text :=
  match after (txt "<sip:") value with
  | Some rest => match cut_at 0x40 rest with Some (user, _) => Some user | None => None end
  | None => None
  end.

Definition plain_request (source_addr : text) (m : SipMessage) : register_request :=
  mkRegisterRequest (user_of (From_ m)) source_addr
    (match SipMsg.Authorization m with [] => None | v => Some v end) (Atoi (Expires m)) (txt "UDP").

Lemma after_app p s : p <> [] -> after p (p ++ s) = Some s.
Proof.
  intros H. destruct p as [|b p]; [done|]. pose proof (HasPrefix_app (b :: p) s) as E. pose proof (TrimPrefix_app (b :: p) s) as T.
  cbn [app] in *. cbn [after]. by rewrite E, T.
Qed.

#[export] Instance plain_request_laws source_addr : GosipRequest (plain_request source_addr) source_addr.
Proof.
  split; [done| |done|].
  - intros m id domain [_ Hid] F. unfold plain_request, user_of. cbn [rr_from]. rewrite F.
    change (txt "<sip:" ++ id ++ txt "@" ++ domain ++ txt ">") with (txt "<sip:" ++ (id ++ 0x40 :: domain ++ txt ">")).
    rewrite after_app by done. by rewrite cut_at_app.
  - intros m n E Hn. cbn [plain_request rr_expires]. rewrite E. apply Atoi_Itoa. lia.
Qed.

Definition demo_platform : sip_config := mkSipConfig (txt "pw") true [txt "34020000001320000001"] (txt "3402000000") (txt "3.0").

Lemma demo_parties : parties_ok demo_platform demo_config (txt "af01").
Proof.
  split; try reflexivity; try done; try (by apply quotable_lit).
  split; [by apply quotable_lit|]. by repeat constructor.
Qed.

Lemma device_registers_witness :
  fst (fst (device_registers_with demo_platform demo_config find_params scan_username scan_calc scan_response
    (plain_request (txt "10.0.0.7:5060")) false (fun _ => false) false [] (fun _ _ => None) (fun _ => []) 5 (txt "af01")
    demo_attempt initial_state (empty_state 5 100 100))) = None.
Proof.
  pose proof (device_registers demo_platform demo_config (txt "10.0.0.7:5060") find_params scan_username scan_calc scan_response
    (plain_request (txt "10.0.0.7:5060")) false (fun _ => false) false [] (fun _ _ => None) (fun _ => []) 5 (txt "af01")
    demo_attempt initial_state (empty_state 5 100 100) demo_parties) as H.
  destruct (device_registers_with _ _ _ _ _ _ _ _ _ _ _ _ _ _ _ _ _ _) as [[err st'] w'].
  destruct H as [H _]; [reflexivity|exact H].
Defined.

Lemma device_leaves_registry_witness :
  fst (fst (device_leaves demo_platform demo_config find_params scan_username scan_calc scan_response
    (plain_request (txt "10.0.0.7:5060")) false (fun _ => false) false [] 5 (txt "af01")
    demo_attempt initial_state (empty_state 5 100 100))) = None.
Proof.
  pose proof (device_leaves_registry demo_platform demo_config (txt "10.0.0.7:5060") find_params scan_username scan_calc scan_response
    (plain_request (txt "10.0.0.7:5060")) false (fun _ => false) false [] 5 (txt "af01")
    demo_attempt initial_state (empty_state 5 100 100) demo_parties) as H.
  destruct (device_leaves _ _ _ _ _ _ _ _ _ _ _ _ _ _ _ _) as [[err st'] w'].
  destruct H as [H _]; [reflexivity|exact H].
Defined.
