(* ===== verification/SecRegistration.v ===== *)
(** A GB35114 device registers with a GB35114 platform over SIP: the exchange of
    [DeviceRegister] with the [Authenticator] of [SecAuth], against the handler of
    [RegisterAuth] with its [Platform]. *)

From S2P Require Import Prelude GoStrings GoText GoBase64 SipMsg DeviceMgr RegisterAuth GoCrypto Digest DeviceRegister Registration.
From S2P Require Import SecHeaders Security SecAuth.
Open Scope Z_scope.

Section Together.

Context `{GmsmLaws}.

(** The platform's registry and sessions, the responses on their way, and the
    authenticator of the device. *)
Record sec_world := mkSecWorld {
  reg : reg_state;
  sec : gmap text platformSession;
  mail : list SipMessage;
  dev : Authenticator;
}.

Context (opts : Options) (gcfg : PlatformConfig) (pem_Decode : list Z -> option (text * list Z)).
Context (pcfg : sip_config) (dcfg : device_config) (source_addr : text).
Context {Authorization : Type} (AuthFromValue : text -> Authorization) (Username : Authorization -> text)
        (CalcResponse : Authorization -> text -> text -> text) (Response : Authorization -> text)
        (received : SipMessage -> register_request) `{!GosipRequest received source_addr}.
Context (db : bool) (deviceHasCatalogChannels : text -> bool) (enroller : bool).
Context (userAgent : text) (time_Parse : text -> text -> option Z) (range : gmap text text -> list (text * text)).
(** The platform's clock and nonce, what both sides draw, the Date of signed requests. *)
Context (now : Z) (nonce : text) (r1 r2 rk : list Z) (e1 e2 e3 : Z) (date : text).

(** ** The authenticators behind their interfaces *)

(** The [Platform] in its present state. *)
Definition platform_authenticator (p : gmap text platformSession) : RegisterAuth.RegisterAuthenticator :=
  RegisterAuth.mkRegisterAuthenticator
    (fun id cap => fst (PlatformChallenge gcfg pem_Decode (Some r1) id cap p))
    (fun id auth => match fst (PlatformVerifyRegister gcfg (Some rk) e2 e3 id auth p) with inr si => Some si | inl _ => None end).

(** The state of the [Platform] behind a REGISTER: [handleRegister] consults it
    for the three schemes, once the device is known to be allowed. *)
Definition sec_after (req : register_request) (p : gmap text platformSession) : gmap text platformSession :=
  match rr_from req with
  | Some ((_ :: _) as id) =>
      if negb (isAllowedDevice pcfg id) then p else
      let authVal := match rr_authorization req with Some v => TrimSpace v | None => [] end in
      if bool_decide (authScheme authVal = txt "Capability") then snd (PlatformChallenge gcfg pem_Decode (Some r1) id authVal p)
      else if bool_decide (authScheme authVal = txt "Unidirection") || bool_decide (authScheme authVal = txt "Bidirection")
           then snd (PlatformVerifyRegister gcfg (Some rk) e2 e3 id authVal p)
           else p
  | _ => p
  end.

Definition sec_write (m : SipMessage) (w : sec_world) : bool * sec_world :=
  let req := received m in
  let (effs, st) := handleRegister pcfg (Some (platform_authenticator (sec w))) AuthFromValue Username CalcResponse Response
                      db deviceHasCatalogChannels enroller now nonce req (reg w) in
  (true, mkSecWorld st (sec_after req (sec w)) (mail w ++ flat_map (answer m) effs) (dev w)).

Definition device_authenticator : DeviceRegister.RegisterAuthenticator sec_world :=
  DeviceRegister.mkRegisterAuthenticator
    (fun _ => SecAuth.InitialAuthorization opts)
    (fun www w => let (r, a) := SecAuth.AuthorizeWithChallenge opts (Some r2) e1 www (dev w) in
                  (match r with inr h => Some h | inl _ => None end, mkSecWorld (reg w) (sec w) (mail w) a))
    (fun si w => let (err, a) := SecAuth.VerifyOK opts si (dev w) in
                 (match err with None => true | Some _ => false end, mkSecWorld (reg w) (sec w) (mail w) a))
    (Some (fun msg w => SecAuth.DecorateOutgoing date (Method msg) (From_ msg) (To_ msg) (CallID msg) (Body msg) (dev w))).

Definition sec_source : @source sec_world := fun st w =>
  match mail w with
  | m :: rest => (Some m, st, mkSecWorld (reg w) (sec w) rest (dev w))
  | [] => (None, st, w)
  end.

Definition sec_registers (a : attempt) (st : device_state) (p : reg_state) (s : gmap text platformSession) (d : Authenticator) :=
  runRegisterLifecycleInner dcfg (Some device_authenticator) userAgent time_Parse range sec_write sec_source a st (mkSecWorld p s [] d).

(** ** Lemmas *)

Lemma scheme_of_header scheme name v l : key scheme -> let h := scheme ++ fields ((" ", name, v) :: l)%string ++ [] in
  TrimSpace h = h /\ authScheme h = scheme.
Proof.
  intros Hs h. split; [apply header_trimmed; [done|by right]|]. unfold h. rewrite header_parts.
  assert (B : forall w rest, Forall (fun b => word_byte b = true) w -> before_blank (w ++ 0x20 :: rest) = Some w).
  { intros w rest F. induction F as [|b w Hb _ IH]; [done|]. cbn [app before_blank].
    assert (E : (b =? 0x20) || (b =? 0x09) = false) by (unfold word_byte, is_digit in Hb; lia). by rewrite E, IH. }
  destruct Hs as [Hne Hw]. unfold authScheme. rewrite B by done. by destruct scheme.
Qed.

Lemma capability_shape kv pem : exists l, BuildCapabilityAuthorization kv pem =
  txt "Capability" ++ fields ((" ", "algorithm", CapabilityAlgorithm) :: l)%string ++ [].
Proof.
  exists ((", ", "keyversion", kv)%string :: match pem with [] => [] | _ => [(", "%string, "cnonce"%string, txt "devicecert:" ++ EncodeToString pem)] end).
  unfold BuildCapabilityAuthorization, fields. destruct pem; cbn [map concat fst snd]; by rewrite ?app_nil_r.
Qed.

Lemma authorization_shape ch r sid did s1 : known_mode (ch_Mode ch) -> exists l, BuildAuthAuthorization ch r sid did s1 =
  ch_Mode ch ++ fields ((" ", "random1", ch_Random1 ch) :: l)%string ++ [].
Proof.
  intros Hm. exists ((", ", "random2", r)%string :: (", ", "serverid", sid)%string ::
    (if bool_decide (ch_Mode ch = ModeBidirection) then [(", ", "deviceid", did)]%string else []) ++
    [(", ", "sign1", s1); (", ", "algorithm", CapabilityAlgorithm)]%string).
  unfold BuildAuthAuthorization, fields. destruct Hm as [-> | ->]; cbn -[SecHeaders.field txt CapabilityAlgorithm]; rewrite ?app_nil_r; done.
Qed.

(** The scheme of what the device sends, as the platform sees it. *)
Lemma initial_scheme : let h := SecAuth.InitialAuthorization opts in h <> [] /\ TrimSpace h = h /\ authScheme h = txt "Capability".
Proof.
  cbv zeta. unfold SecAuth.InitialAuthorization. destruct (IncludeDeviceCert opts);
    (destruct (capability_shape (KeyVersion opts) (id_CertPEM (Device opts))) as [l E] + destruct (capability_shape (KeyVersion opts) []) as [l E]);
    (split; [done|]); try (rewrite E; apply scheme_of_header; by apply key_lit).
  destruct (capability_shape (KeyVersion opts) []) as [l' E']. rewrite E'. apply scheme_of_header. by apply key_lit.
Qed.

(** How the parties know each other on the SIP side. *)
Record welcome : Prop := {
  same_id : o_DeviceID opts = DeviceID dcfg;
  sip_allowed : isAllowedDevice pcfg (DeviceID dcfg) = true;
  sip_id : addr_text (DeviceID dcfg);
  range_lists : forall (m : gmap text text) k v, In (k, v) (range m) <-> m !! k = Some v;
}.

Lemma extension_found si : welcome -> si <> [] -> ExtensionHeader (range (ok_extensions pcfg si)) (txt "SecurityInfo") = si.
Proof.
  intros W Hne. pose proof (range_lists W (ok_extensions pcfg si)) as R.
  assert (Hin : In (txt "SecurityInfo", si) (range (ok_extensions pcfg si))).
  { apply R. unfold ok_extensions. destruct si; [done|]. destruct (RegisterAuth.ProtocolVersion pcfg); [apply lookup_insert_eq|].
    rewrite lookup_insert_ne by done. apply lookup_insert_eq. }
  assert (Hu : forall k v, In (k, v) (range (ok_extensions pcfg si)) -> EqualFold k (txt "SecurityInfo") = true -> v = si).
  { intros k v Hk E. apply R in Hk. unfold ok_extensions in Hk. destruct si as [|b s]; [done|].
    assert (S : forall m : gmap text text, m = {[ txt "SecurityInfo" := b :: s ]} -> m !! k = Some v -> v = b :: s).
    { intros m -> Hm. apply lookup_singleton_Some in Hm as [_ <-]. done. }
    destruct (RegisterAuth.ProtocolVersion pcfg) as [|c ver]; [by eapply S|].
    apply lookup_insert_Some in Hk as [[<- _]|[_ Hk]]; [by vm_compute in E|by eapply S]. }
  clear R. induction (range (ok_extensions pcfg si)) as [|[k v] l IH]; [done|]. cbn [ExtensionHeader].
  destruct (EqualFold k (txt "SecurityInfo")) eqn:E; [by apply (Hu k v); [left|]|].
  destruct Hin as [[= -> ->]|Hin]; [by vm_compute in E|]. apply IH; [done|]. intros k' v' Hk'. apply Hu. by right.
Qed.

(** The first REGISTER is challenged. *)
Lemma sec_challenged a p s d www s' : welcome ->
  PlatformChallenge gcfg pem_Decode (Some r1) (DeviceID dcfg) (SecAuth.InitialAuthorization opts) s = (Some www, s') ->
  exists resp, sec_write (register_msg dcfg userAgent a (txt "1 REGISTER") (SecAuth.InitialAuthorization opts) (via_nano a) false) (mkSecWorld p s [] d) =
    (true, mkSecWorld p s' [resp] d) /\ StatusCode resp = 401 /\ WWWAuthenticate resp = www.
Proof.
  intros W E. destruct (register_msg_fields dcfg userAgent a (txt "1 REGISTER") (SecAuth.InitialAuthorization opts) (via_nano a) false) as (F & A & _ & _).
  destruct initial_scheme as (Ne & Tr & Sch). set (m := register_msg _ _ _ _ _ _ _) in *.
  unfold sec_write, handleRegister, sec_after. rewrite (request_from m _ _ (sip_id W) F). pose proof (sip_id W) as [[Hne _] _].
  destruct (DeviceID dcfg) as [|b id] eqn:Ed; [done|]. rewrite <- Ed in *. rewrite (sip_allowed W). cbn [negb].
  unfold a_level. rewrite request_authorization, A.
  destruct (SecAuth.InitialAuthorization opts) as [|b0 ia]; [done|].
  rewrite Tr, Sch. rewrite bool_decide_eq_true_2 by done. cbn [platform_authenticator RegisterAuth.Challenge sec reg].
  rewrite E. cbn [fst snd]. unfold appendXGBVer. destruct p. destruct (RegisterAuth.ProtocolVersion pcfg); eexists; split; reflexivity || by split.
Qed.

Lemma not_locked_after_success t key : fst (locked now key (recordSuccess key t)) = false /\
  snd (locked now key (recordSuccess key t)) = recordSuccess key t.
Proof.
  unfold locked, recordSuccess. cbn [max_fails entries update eta eta_tracker]. rewrite lookup_delete_eq.
  by destruct (max_fails t <=? 0).
Qed.

(** The second REGISTER is accepted. *)
Lemma sec_accepted a p s d auth si s' (mode : text) : welcome -> known_mode mode -> auth <> [] -> TrimSpace auth = auth -> authScheme auth = mode -> si <> [] ->
  PlatformVerifyRegister gcfg (Some rk) e2 e3 (DeviceID dcfg) auth s = (inr si, s') ->
  exists resp p', sec_write (register_msg dcfg userAgent a (txt "2 REGISTER") auth (via2_nano a) false) (mkSecWorld p s [] d) =
    (true, mkSecWorld p' s' [resp] d) /\ StatusCode resp = 200 /\ Expires resp = Itoa 3600 /\ Headers resp = ok_extensions pcfg si /\
    exists dv, devices (deviceMgr p') !! DeviceID dcfg = Some dv /\ Status dv = DeviceOnline /\ NetAddr dv = source_addr /\ lastKeepalive dv = now.
Proof.
  intros W Hm Ne Tr Sch Nsi E.
  destruct (register_msg_fields dcfg userAgent a (txt "2 REGISTER") auth (via2_nano a) false) as (F & A & X & _).
  set (m := register_msg _ _ _ _ _ _ _) in *.
  assert (Hx : rr_expires (received m) = Some 3600) by (apply request_expires; [done|lia]).
  destruct (accepted_answer pcfg dcfg db deviceHasCatalogChannels enroller now si (deviceMgr p) (received m) 3600 m Hx ltac:(lia))
    as (resp & R1 & R2 & R3 & R4).
  pose proof (registered_device pcfg dcfg source_addr db deviceHasCatalogChannels enroller now si (deviceMgr p) (received m) Hx (request_source m)) as Rd.
  unfold sec_write, handleRegister, sec_after. rewrite (request_from m _ _ (sip_id W) F). pose proof (sip_id W) as [[Hne _] _].
  destruct (DeviceID dcfg) as [|b id] eqn:Ed; [done|]. rewrite <- Ed in *. rewrite (sip_allowed W). cbn [negb].
  unfold a_level. rewrite request_authorization, A. destruct auth as [|b0 au]; [done|].
  rewrite Tr, Sch. rewrite bool_decide_eq_false_2 by (destruct Hm as [-> | ->]; done).
  assert (Hb : bool_decide (mode = txt "Unidirection") || bool_decide (mode = txt "Bidirection") = true) by (destruct Hm as [-> | ->]; done).
  rewrite Hb. cbn [RegisterAuth.VerifyRegister platform_authenticator sec reg]. rewrite E. cbn [fst snd].
  destruct (not_locked_after_success (authFailures p) (hostOfAddr (rr_source (received m)))) as [L1 L2].
  destruct (locked now _ _) as [lk t1]. cbn [fst snd] in L1, L2. subst lk t1. cbn [digest_check].
  destruct (accept_register _ _ _ _ _ _ _ _ _) as [effs m']. cbn [fst snd mail app] in *.
  eexists _, _. rewrite R1. split; [reflexivity|]. by split_and!.
Qed.

Lemma plain_register msg w : Method msg = txt "REGISTER" -> sendToPlatform (Some device_authenticator) sec_write msg w = sec_write msg w.
Proof.
  intros M. unfold sendToPlatform. cbn [DeviceRegister.DecorateOutgoing device_authenticator]. unfold SecAuth.DecorateOutgoing. rewrite M.
  destruct (a_vkek (dev w)); [|done]. by rewrite bool_decide_eq_true_2.
Qed.

(** What the device answers a challenge with. *)
Lemma authorized_shape www d auth d1 : SecAuth.AuthorizeWithChallenge opts (Some r2) e1 www d = (inr auth, d1) ->
  exists mode, known_mode mode /\ auth <> [] /\ TrimSpace auth = auth /\ authScheme auth = mode.
Proof.
  unfold SecAuth.AuthorizeWithChallenge. destruct (ParseChallenge www) as [|ch] eqn:P; [done|].
  destruct (newRandom (Some r2)); [|done]. destruct (SignMessage _ _ _) as [s1|]; [|done]. intros [= <- _].
  assert (Hm : known_mode (ch_Mode ch)).
  { unfold ParseChallenge in P. destruct (splitScheme www) as [sch rest]. unfold mode_of in P.
    destruct (bool_decide (sch = txt "Unidirection")); [|destruct (bool_decide (sch = txt "Bidirection")); [|done]];
      (destruct (value "random1" (parseParams rest)); [done|]; injection P as <-); [by left|by right]. }
  exists (ch_Mode ch). split; [done|]. split; [apply BuildAuth_ne|].
  destruct (authorization_shape ch t (o_ServerID opts) (o_DeviceID opts) s1 Hm) as [l ->].
  apply scheme_of_header. by apply mode_of_known.
Qed.

(** ** Theorem *)

(** C10: A GB35114 device registers: when the two sides are set up for each other,
    one exchange over SIP ends without error, even from a source that is locked
    out; the device is then online in the platform's registry, both sides hold the
    key that the platform drew, under one generation, and the device has noted the
    granted 3600 seconds. *)
Theorem secure_registration a st p s d :
  set_up opts gcfg pem_Decode -> welcome -> drawn 16 r1 -> drawn 16 r2 -> drawn 16 rk -> 0 <= generation (DeviceID dcfg) s < 2 ^ 62 ->
  let '(err, st', w') := sec_registers a st p s d in
  err = None /\ negotiatedExpires st' = 3600 /\ mail w' = [] /\
  a_vkek (dev w') = Some rk /\ VKEK (DeviceID dcfg) (sec w') = Some rk /\ vkekVersion (dev w') = generation (DeviceID dcfg) (sec w') /\
  exists dv, devices (deviceMgr (reg w')) !! DeviceID dcfg = Some dv /\ Status dv = DeviceOnline /\ NetAddr dv = source_addr.
Proof.
  intros U W D1 D2 Dk G. pose proof (same_id W) as Eid.
  destruct (handshake_agrees opts gcfg pem_Decode r1 r2 rk e1 e2 e3 s d U D1 D2 Dk) as (s' & d' & Hh & A & V & Ver & _); [by rewrite Eid|].
  unfold handshake in Hh. rewrite Eid in *.
  destruct (PlatformChallenge gcfg pem_Decode (Some r1) (DeviceID dcfg) (SecAuth.InitialAuthorization opts) s) as [[www|] s1] eqn:E1; [|done].
  destruct (SecAuth.AuthorizeWithChallenge opts (Some r2) e1 www d) as [[?|auth] d1] eqn:E2; [done|].
  destruct (PlatformVerifyRegister gcfg (Some rk) e2 e3 (DeviceID dcfg) auth s1) as [[?|si] s2] eqn:E3; [done|].
  destruct (SecAuth.VerifyOK opts si d1) as [[?|] d2] eqn:E4; [done|]. injection Hh as -> ->.
  destruct (authorized_shape _ _ _ _ E2) as (mode & Hm & Na & Tr & Sch).
  assert (Nsi : si <> []) by (intros ->; unfold SecAuth.VerifyOK in E4; by destruct (is_empty (a_mode d1))).
  destruct (sec_challenged a p s d www s1 W E1) as (resp1 & W1 & C1 & X1).
  destruct (sec_accepted a p s1 d1 auth si s' mode W Hm Na Tr Sch Nsi E3) as (resp2 & p' & W2 & C2 & X2 & H2 & Rd).
  unfold sec_registers, runRegisterLifecycleInner, initialAuth. cbn [DeviceRegister.InitialAuthorization device_authenticator].
  rewrite plain_register, W1 by (unfold register_msg; by destruct (DeviceRegister.ProtocolVersion dcfg)). cbn [negb sec_source mail reg sec dev].
  rewrite C1. cbn [Z.eqb Pos.eqb]. unfold authorize. cbn [DeviceRegister.AuthorizeWithChallenge device_authenticator dev reg sec mail].
  rewrite X1, E2. cbn [reg sec mail]. rewrite plain_register, W2 by (unfold register_msg; by destruct (DeviceRegister.ProtocolVersion dcfg)).
  cbn [negb sec_source mail reg sec dev]. rewrite C2. cbn [Z.eqb Pos.eqb DeviceRegister.VerifyOK device_authenticator dev reg sec mail].
  rewrite H2, extension_found, E4 by done. cbn [mail dev sec reg]. split; [done|]. split; [|split_and!; try done].
  - unfold noteNegotiatedExpires. cbn [negotiatedExpires update eta eta_device_state]. rewrite X2. by apply negotiated_header.
  - destruct Rd as (dv & R1 & R2 & R3 & _). by exists dv.
Qed.

End Together.

Lemma secure_registration_witness :
  fst (fst (sec_registers demo_opts demo_cfg no_pem demo_platform demo_config find_params scan_username scan_calc scan_response
    (plain_request (txt "10.0.0.7:5060")) false (fun _ => false) false [] (fun _ _ => None) map_to_list 5 (txt "af01")
    (sixteen 1) (sixteen 2) (sixteen 3) 0 0 0 (txt "d") demo_attempt initial_state (empty_state 5 100 100) ∅ fresh_device)) = None.
Proof.
  assert (W : welcome demo_opts demo_platform demo_config map_to_list).
  { split; [done|done|by apply demo_parties|]. intros m k v. rewrite <- list_elem_of_In. apply elem_of_map_to_list. }
  pose proof (secure_registration demo_opts demo_cfg no_pem demo_platform demo_config (txt "10.0.0.7:5060") find_params scan_username
    scan_calc scan_response (plain_request (txt "10.0.0.7:5060")) false (fun _ => false) false [] (fun _ _ => None) map_to_list 5
    (txt "af01") (sixteen 1) (sixteen 2) (sixteen 3) 0 0 0 (txt "d") demo_attempt initial_state (empty_state 5 100 100) ∅ fresh_device
    demo_set_up W (sixteen_drawn 1 ltac:(done)) (sixteen_drawn 2 ltac:(done)) (sixteen_drawn 3 ltac:(done))) as T.
  destruct (sec_registers _ _ _ _ _ _ _ _ _ _ _ _ _ _ _ _ _ _ _ _ _ _ _ _ _ _ _ _ _ _) as [[err st'] w'].
  destruct T as [E _]; [vm_compute; done|exact E].
Defined.
