(* ===== verification/PtzControl.v ===== *)
(** The platform's PTZ controller ([PTZController] of [platform/ptz.go]): which
    requests reach a device, with what body, and which are refused.

    [SendMessage] is the SIP server's, a parameter; what is handed to it is
    recorded in order. *)

From S2P Require Import Prelude GoStrings GoText Ptz DeviceMgr.
Open Scope Z_scope.

Inductive ptz_error :=
  | ErrChannelNotFound | ErrDeviceOffline | ErrPTZUnsupported | ErrZoomUnsupported
  | ErrBuild | ErrSend.

Record PTZController := mkPTZController {
  registry : DeviceManager;
  seq : Z;
  sent : list (text * text);
}.

#[export] Instance eta_PTZController : Eta PTZController := fun c =>
  mkPTZController (registry c) (seq c) (sent c).

Definition NewPTZController (m : DeviceManager) : PTZController := mkPTZController m 0 [].

(** The first device, by ID, that has the channel. *)
Fixpoint locate_in (ds : list Device) (channelID : text) (m : DeviceManager) : option (Channel * Device) :=
  match ds with
  | [] => None
  | d :: rest =>
      match FindChannel (dev_ID d) channelID m with
      | Some ch => Some (ch, d)
      | None => locate_in rest channelID m
      end
  end.

Definition locateChannel (channelID : text) (c : PTZController) : option (Channel * Device) :=
  locate_in (AllDevices (registry c)) channelID (registry c).

(** The [fmt.Sprintf] of [sendCommand]. *)
Definition newline : text := [0x0A].
Definition quote : text := [0x22].

Definition body_head (sn : Z) (channelID : text) : text :=
  txt "<?xml version=" ++ quote ++ txt "1.0" ++ quote ++ txt " encoding=" ++ quote ++ txt "GB2312" ++ quote
  ++ txt "?>" ++ newline ++ txt "<Control>" ++ newline
  ++ txt "<CmdType>DeviceControl</CmdType>" ++ newline
  ++ txt "<SN>" ++ Itoa sn ++ txt "</SN>" ++ newline
  ++ txt "<DeviceID>" ++ channelID ++ txt "</DeviceID>" ++ newline ++ txt "<PTZCmd>".
Definition body_tail : text := txt "</PTZCmd>" ++ newline ++ txt "</Control>".

Definition ptz_body (sn : Z) (channelID : text) (cmd : list Z) : text :=
  body_head sn channelID ++ ptzCmdString cmd ++ body_tail.

Section controller.
Context (SendMessage : text -> text -> bool).

Definition sendCommand (ch : Channel) (cmd : list Z) (c : PTZController) : option ptz_error * PTZController :=
  let sn := s64 (seq c + 1) in
  let body := ptz_body sn (ch_ID ch) cmd in
  let c1 := c <| seq := sn |> <| sent := sent c ++ [(ch_DeviceID ch, body)] |> in
  (if SendMessage (ch_DeviceID ch) body then None else Some ErrSend, c1).

(** The guards the senders share: the channel, its liveness and, except for the
    auxiliary switch, the PTZ capability. *)
Definition guarded (gated : bool) (channelID : text) (c : PTZController)
    (k : Channel -> option ptz_error * PTZController) : option ptz_error * PTZController :=
  match locateChannel channelID c with
  | None => (Some ErrChannelNotFound, c)
  | Some (ch, dev) =>
      if negb (Status dev =? DeviceOnline) then (Some ErrDeviceOffline, c)
      else if gated && (PTZType ch =? 0) then (Some ErrPTZUnsupported, c)
      else k ch
  end.

Definition send_built (built : option (list Z)) (c : PTZController) (ch : Channel)
  : option ptz_error * PTZController :=
  match built with
  | None => (Some ErrBuild, c)
  | Some cmd => sendCommand ch cmd c
  end.

Definition SendPTZ (channelID : text) (direction : string) (speed : Z) (c : PTZController) :=
  guarded true channelID c (fun ch =>
    if (bool_decide (direction = DirZoomIn) || bool_decide (direction = DirZoomOut)) && (PTZType ch =? 1)
    then (Some ErrZoomUnsupported, c)
    else send_built (BuildPTZCommand direction speed) c ch).

Definition SendPTZPreset (channelID : text) (action : string) (preset : Z) (c : PTZController) :=
  guarded true channelID c (send_built (BuildPTZPresetCommand action preset) c).

Definition SendPTZCruise (channelID : text) (action : string) (cruise value : Z) (c : PTZController) :=
  guarded true channelID c (fun ch =>
    if bool_decide (action = "stop"%string) then SendPTZ channelID DirStop 0 c
    else send_built (BuildPTZCruiseCommand action cruise value) c ch).

Definition SendFI (channelID : text) (action : string) (speed : Z) (c : PTZController) :=
  guarded true channelID c (send_built (BuildFICommand action speed) c).

Definition SendAuxSwitch (channelID : text) (switchNo : Z) (on : bool) (c : PTZController) :=
  guarded false channelID c (send_built (BuildAuxSwitchCommand switchNo on) c).

(** Any of the five senders. *)
Definition send_request (channelID : text) (q : ptz_request) (c : PTZController) : option ptz_error * PTZController :=
  match q with
  | ReqMove d s => SendPTZ channelID d s c
  | ReqPreset a p => SendPTZPreset channelID a p c
  | ReqCruise a g v => SendPTZCruise channelID a g v c
  | ReqLens a s => SendFI channelID a s c
  | ReqAux n on => SendAuxSwitch channelID n on c
  end.

(** What is really asked for: cruise stop is the plain stop. *)
Definition effective (q : ptz_request) : ptz_request :=
  match q with
  | ReqCruise a _ _ => if bool_decide (a = "stop"%string) then ReqMove DirStop 0 else q
  | _ => q
  end.

(** The channel may be sent the request. *)
Definition capable (q : ptz_request) (ch : Channel) : Prop :=
  match q with
  | ReqAux _ _ => True
  | ReqMove d _ => PTZType ch <> 0 /\ (d = DirZoomIn \/ d = DirZoomOut -> PTZType ch <> 1)
  | _ => PTZType ch <> 0
  end.

(** One message, numbered, to the device of the channel. *)
Definition sent_one (channelID : text) (q : ptz_request) (c c' : PTZController) (err : option ptz_error) : Prop :=
  exists ch dev cmd, locateChannel channelID c = Some (ch, dev) /\
    Status dev = DeviceOnline /\ capable q ch /\ build q = Some cmd /\
    seq c' = s64 (seq c + 1) /\ registry c' = registry c /\
    sent c' = sent c ++ [(ch_DeviceID ch, ptz_body (seq c') (ch_ID ch) cmd)] /\
    err = if SendMessage (ch_DeviceID ch) (ptz_body (seq c') (ch_ID ch) cmd) then None else Some ErrSend.

Lemma send_built_spec channelID q built ch dev c :
  locateChannel channelID c = Some (ch, dev) -> Status dev = DeviceOnline -> capable q ch -> build q = built ->
  let '(err, c') := send_built built c ch in
  (c' = c /\ err = Some ErrBuild /\ build q = None) \/ sent_one channelID q c c' err.
Proof.
  intros Hl Ho Hc Hb. unfold send_built. destruct built as [cmd|]; [|by left]. right.
  exists ch, dev, cmd. by split_and!.
Qed.

(** Why a request is refused, in the order of the code's guards. *)
Definition refused (channelID : text) (q : ptz_request) (c : PTZController) (e : ptz_error) : Prop :=
  match locateChannel channelID c with
  | None => e = ErrChannelNotFound
  | Some (ch, dev) =>
      (Status dev <> DeviceOnline /\ e = ErrDeviceOffline) \/
      (Status dev = DeviceOnline /\ PTZType ch = 0 /\ e = ErrPTZUnsupported /\ ~ capable q ch) \/
      (Status dev = DeviceOnline /\ PTZType ch = 1 /\ e = ErrZoomUnsupported /\ ~ capable q ch) \/
      (Status dev = DeviceOnline /\ capable q ch /\ e = ErrBuild /\ build q = None)
  end.

Lemma guarded_spec gated channelID q c k :
  (gated = true -> forall ch, PTZType ch = 0 -> ~ capable q ch) ->
  (forall ch dev, locateChannel channelID c = Some (ch, dev) -> Status dev = DeviceOnline ->
     (gated = true -> PTZType ch <> 0) ->
     (exists e, k ch = (Some e, c) /\ refused channelID q c e) \/
     sent_one channelID q c (snd (k ch)) (fst (k ch))) ->
  let r := guarded gated channelID c k in
  (exists e, r = (Some e, c) /\ refused channelID q c e) \/ sent_one channelID q c (snd r) (fst r).
Proof.
  intros Hg Hk r. unfold r, guarded. unfold refused in *. destruct (locateChannel channelID c) as [[ch dev]|] eqn:El.
  - destruct (Z.eqb_spec (Status dev) DeviceOnline) as [Ho|Ho]; cbn [negb].
    + destruct gated; cbn [andb].
      * destruct (Z.eqb_spec (PTZType ch) 0) as [Hp|Hp].
        -- left. eexists. split; [done|]. right. left. split_and!; try done. by apply Hg.
        -- by eapply Hk.
      * by eapply Hk.
    + left. eexists. split; [done|]. by left.
  - left. by eexists.
Qed.

Lemma effective_cases q : effective q = q \/
  (exists g v, q = ReqCruise "stop" g v /\ effective q = ReqMove DirStop 0).
Proof.
  destruct q as [| |a g v| |]; try (by left). simpl. case_bool_decide as E; [|by left].
  right. subst a. eauto.
Qed.

Lemma send_built_cases channelID q built ch dev c :
  locateChannel channelID c = Some (ch, dev) -> Status dev = DeviceOnline -> capable q ch -> build q = built ->
  let k := send_built built c in
  (exists e, k ch = (Some e, c) /\ refused channelID q c e) \/ sent_one channelID q c (snd (k ch)) (fst (k ch)).
Proof.
  intros Hl Ho Hc Hb. cbv zeta. pose proof (send_built_spec channelID q built ch dev c Hl Ho Hc Hb) as H.
  destruct (send_built built c ch) as [err c']. destruct H as [(-> & -> & Hn)|H]; [|by right].
  left. eexists. split; [done|]. unfold refused. rewrite Hl. right. right. right. by split_and!.
Qed.

Lemma SendPTZ_cases channelID d s c :
  let r := SendPTZ channelID d s c in
  (exists e, r = (Some e, c) /\ refused channelID (ReqMove d s) c e) \/
  sent_one channelID (ReqMove d s) c (snd r) (fst r).
Proof.
  unfold SendPTZ. apply guarded_spec; [by intros _ ch Hp [? _]|]. intros ch dev Hl Ho Hp.
  destruct ((bool_decide (d = DirZoomIn) || bool_decide (d = DirZoomOut)) && (PTZType ch =? 1)) eqn:Ez.
  - left. eexists. split; [done|]. unfold refused. rewrite Hl. right. right. left.
    apply andb_true_iff in Ez as [Ez E1]. apply Z.eqb_eq in E1. split_and!; try done.
    intros [_ Hn]. apply Hn; [|done]. apply orb_true_iff in Ez as [Ez|Ez]; apply bool_decide_eq_true in Ez; tauto.
  - apply (send_built_cases _ _ _ _ dev); try done. split; [by apply Hp|]. intros Hz E1.
    rewrite E1, andb_true_r in Ez. apply orb_false_iff in Ez as [E2 E3].
    apply bool_decide_eq_false in E2, E3. tauto.
Qed.

Lemma send_request_cases channelID q c :
  let r := send_request channelID q c in
  (exists e, r = (Some e, c) /\ refused channelID (effective q) c e) \/
  sent_one channelID (effective q) c (snd r) (fst r).
Proof.
  destruct q as [d s|a p|a g v|a s|n on]; cbn [send_request effective].
  - apply SendPTZ_cases.
  - apply guarded_spec; [by intros _ ch Hp ?|]. intros ch dev Hl Ho Hp.
    apply (send_built_cases _ _ _ _ dev); try done. by apply Hp.
  - case_bool_decide as E.
    + assert (C : forall ch dev, locateChannel channelID c = Some (ch, dev) -> Status dev = DeviceOnline ->
        (true = true -> PTZType ch <> 0) ->
        let k := fun _ : Channel => SendPTZ channelID DirStop 0 c in
        (exists e, k ch = (Some e, c) /\ refused channelID (ReqMove DirStop 0) c e) \/
        sent_one channelID (ReqMove DirStop 0) c (snd (k ch)) (fst (k ch))).
      { intros ch dev _ _ _. apply SendPTZ_cases. }
      unfold SendPTZCruise. rewrite bool_decide_eq_true_2 by done.
      apply guarded_spec; [by intros _ ch Hp [? _]|]. exact C.
    + unfold SendPTZCruise. rewrite bool_decide_eq_false_2 by done.
      apply guarded_spec; [by intros _ ch Hp ?|]. intros ch dev Hl Ho Hp.
      apply (send_built_cases _ _ _ _ dev); try done. by apply Hp.
  - apply guarded_spec; [by intros _ ch Hp ?|]. intros ch dev Hl Ho Hp.
    apply (send_built_cases _ _ _ _ dev); try done. by apply Hp.
  - apply guarded_spec; [done|]. intros ch dev Hl Ho Hp. by apply (send_built_cases _ _ _ _ dev).
Qed.
End controller.

(** Control reaches a device only when it may, and then means what was asked
    for. Whatever the request and the state of the registry: either nothing is
    sent, the controller is unchanged and the error is the one of the first
    guard that fails (unknown channel, device offline, no PTZ, no zoom, invalid
    parameter), or exactly one message goes to the channel's device, which is
    online and capable, under the next sequence number, and the device decodes
    the command in its body as the request (a cruise stop as the plain stop). *)
Theorem ptz_control SendMessage channelID q c :
  request_ok q ->
  let '(err, c') := send_request SendMessage channelID q c in
  (c' = c /\ exists e, err = Some e /\ refused channelID (effective q) c e) \/
  (sent_one SendMessage channelID (effective q) c c' err /\
   exists sn dst cid cmd, sent c' = sent c ++ [(dst, body_head sn cid ++ ptzCmdString cmd ++ body_tail)] /\
     understood (effective q) (DecodePTZCommand (ptzCmdString cmd))).
Proof.
  intros Hok. pose proof (send_request_cases SendMessage channelID q c) as H. cbv zeta in H.
  destruct (send_request SendMessage channelID q c) as [err c']. cbn [fst snd] in H.
  destruct H as [(e & [= -> ->] & He)|H]; [left; eauto|]. right. split; [done|].
  destruct H as (ch & dev & cmd & _ & _ & _ & Hb & _ & _ & Hs & _).
  exists (seq c'), (ch_DeviceID ch), (ch_ID ch), cmd. split; [exact Hs|].
  assert (Hok' : request_ok (effective q)).
  { destruct (effective_cases q) as [->|(g & v & _ & ->)]; [done|]. by split. }
  destruct (decode_built (effective q) cmd [] [] Hok' Hb) as (Hu & _); [constructor..|].
  by rewrite app_nil_r in Hu.
Qed.

Lemma ptz_control_witness :
  let ch := (demo_channel (txt "ch")) <| PTZType := 2 |> in
  let m := RegisterChannel (txt "dev") ch (Register 5 (demo_device (txt "dev")) (NewDeviceManager 0)) in
  let '(err, c') := send_request (fun _ _ => true) (txt "ch") (ReqMove "zoom-in" 9) (NewPTZController m) in
  err = None /\ length (sent c') = 1%nat.
Proof.
  intros ch m. pose proof (ptz_control (fun _ _ => true) (txt "ch") (ReqMove "zoom-in" 9) (NewPTZController m)) as H.
  assert (E : fst (send_request (fun _ _ => true) (txt "ch") (ReqMove "zoom-in" 9) (NewPTZController m)) = None)
    by (vm_compute; reflexivity).
  destruct (send_request _ _ _ _) as [err c']. cbn in E. subst err. split; [done|].
  destruct H as [(_ & e & ? & _)|(_ & sn & dst & cid & cmd & -> & _)]; [by split|done|done].
Defined.
