(* ===== verification/PortManager.v ===== *)
(** The RTP port pool ([platform/portmanager.go]).

    [Get] is two atomic actions, a non-blocking receive from the recycle
    channel and, when that finds nothing, a compare-and-swap on the counter; the
    step relation interleaves the actions of any number of callers. *)

From S2P Require Import Prelude.
Open Scope Z_scope.

Record PortManager := mkPortManager {
  start : Z;
  end_ : Z;
  recycle : list Z;
  next : Z;
}.

#[export] Instance eta_PortManager : Eta PortManager := fun p =>
  mkPortManager (start p) (end_ p) (recycle p) (next p).

(** [NewPortManager]; [None] is its panic. *)
Definition NewPortManager (start end_ : Z) : option PortManager :=
  if end_ <? start then None else Some (mkPortManager start end_ [] start).

Definition capacity (pm : PortManager) : Z := end_ pm - start pm + 1.

(** [case p := <-pm.recycle]; [None] is the default case. *)
Definition get_recycled (pm : PortManager) : option (Z * PortManager) :=
  match recycle pm with
  | p :: rest => Some (p, pm <| recycle := rest |>)
  | [] => None
  end.

(** One pass of the loop whose compare-and-swap succeeds; [None] is
    [ErrNoAvailablePorts]. *)
Definition get_bumped (pm : PortManager) : option (Z * PortManager) :=
  let cur := next pm in
  if end_ pm <? cur then None else Some (u16 cur, pm <| next := cur + 1 |>).

(** [Get] without interference. *)
Definition Get (pm : PortManager) : option Z * PortManager :=
  match get_recycled pm with
  | Some (p, pm') => (Some p, pm')
  | None => match get_bumped pm with
            | Some (p, pm') => (Some p, pm')
            | None => (None, pm)
            end
  end.

(** A full channel drops the port. *)
Definition Recycle (p : Z) (pm : PortManager) : PortManager :=
  if Z.of_nat (length (recycle pm)) <? capacity pm then pm <| recycle := recycle pm ++ [p] |> else pm.

(** ** Callers *)

(** The pool, the ports sessions hold and the callers between the two actions
    of [Get]. *)
Record world := mkWorld { pool : PortManager; held : list Z; bumping : nat }.

(** Clients give back only ports they hold. *)
Inductive wstep : world -> world -> Prop :=
  | take_recycled pm h b p pm' :
      get_recycled pm = Some (p, pm') -> wstep (mkWorld pm h b) (mkWorld pm' (p :: h) b)
  | miss pm h b :
      get_recycled pm = None -> wstep (mkWorld pm h b) (mkWorld pm h (S b))
  | take_bumped pm h b p pm' :
      get_bumped pm = Some (p, pm') -> wstep (mkWorld pm h (S b)) (mkWorld pm' (p :: h) b)
  | exhausted pm h b :
      get_bumped pm = None -> wstep (mkWorld pm h (S b)) (mkWorld pm h b)
  | give_back pm h1 p h2 b :
      wstep (mkWorld pm (h1 ++ p :: h2) b) (mkWorld (Recycle p pm) (h1 ++ h2) b).

(** ** The invariant: held and recycled ports are those handed out so far *)

Definition handed_out (pm : PortManager) : list Z := map Z.of_nat (List.seq (Z.to_nat (start pm)) (Z.to_nat (next pm - start pm))).

Definition pool_ok (w : world) : Prop :=
  let pm := pool w in
  0 <= start pm <= next pm /\ next pm <= end_ pm + 1 /\ end_ pm < 65536 /\
  (held w ++ recycle pm) ≡ₚ handed_out pm.

Lemma length_handed_out pm : length (handed_out pm) = Z.to_nat (next pm - start pm).
Proof. unfold handed_out. by rewrite length_map, length_seq. Qed.

Lemma handed_out_NoDup pm : List.NoDup (handed_out pm).
Proof. unfold handed_out. apply NoDup_map_NoDup_ForallPairs; [|apply seq_NoDup]. intros a b _ _. lia. Qed.

Lemma handed_out_range pm p : 0 <= start pm -> In p (handed_out pm) -> start pm <= p < next pm.
Proof. unfold handed_out. rewrite in_map_iff. intros H (n & <- & Hn). apply in_seq in Hn. lia. Qed.

Lemma handed_out_bump pm : 0 <= start pm <= next pm ->
  handed_out (pm <| next := next pm + 1 |>) = handed_out pm ++ [next pm].
Proof.
  intros H. unfold handed_out. simpl.
  replace (Z.to_nat (next pm + 1 - start pm)) with (Z.to_nat (next pm - start pm) + 1)%nat by lia.
  rewrite seq_app, map_app. simpl. do 2 f_equal. lia.
Qed.

Lemma wstep_ok w w' : wstep w w' -> pool_ok w -> pool_ok w'.
Proof.
  intros S (H1 & H2 & H3 & H4). destruct S as [pm h b p pm' E|pm h b E|pm h b p pm' E|pm h b E|pm h1 p h2 b];
    cbn [pool held] in *.
  - unfold get_recycled in E. destruct (recycle pm) as [|q rest] eqn:Er; [done|]. injection E as <- <-.
    unfold pool_ok. simpl. split_and!; try lia. etrans; [|exact H4]. apply Permutation_middle.
  - exact (conj H1 (conj H2 (conj H3 H4))).
  - unfold get_bumped in E. destruct (Z.ltb_spec (end_ pm) (next pm)); [done|]. injection E as <- <-.
    assert (Hu : u16 (next pm) = next pm) by (apply u16_small; lia). rewrite Hu.
    change (0 <= start pm <= next pm + 1 /\ next pm + 1 <= end_ pm + 1 /\ end_ pm < 65536 /\
      ((next pm :: h) ++ recycle pm) ≡ₚ handed_out (pm <| next := next pm + 1 |>)).
    rewrite handed_out_bump by done. split; [lia|]. split; [lia|]. split; [done|].
    simpl. rewrite H4. apply Permutation_cons_append.
  - exact (conj H1 (conj H2 (conj H3 H4))).
  - pose proof (Permutation_length H4) as Hl. rewrite length_handed_out, !length_app in Hl. simpl in Hl.
    unfold Recycle. rewrite (proj2 (Z.ltb_lt _ _)) by (unfold capacity; lia).
    unfold pool_ok. simpl. split_and!; try lia. rewrite <- H4.
    rewrite <- !app_assoc. apply Permutation_app_head. rewrite app_assoc. simpl.
    rewrite <- Permutation_cons_append. done.
Qed.

Lemma reachable_ok pm w : 0 <= start pm -> end_ pm < 65536 -> NewPortManager (start pm) (end_ pm) = Some pm ->
  rtc wstep (mkWorld pm [] 0) w -> pool_ok w.
Proof.
  intros Hs He Hn Hr.
  assert (G : forall a b, rtc wstep a b -> pool_ok a -> pool_ok b).
  { induction 1 as [|a b c S _ IH]; [done|]. intros Ha. by apply IH, (wstep_ok a). }
  apply (G _ _ Hr). unfold NewPortManager in Hn. destruct (Z.ltb_spec (end_ pm) (start pm)); [done|].
  injection Hn as Hn. assert (E : next pm = start pm /\ recycle pm = []) by (rewrite <- Hn; done).
  destruct E as [E1 E2]. split_and!; cbn [pool held]; try lia. rewrite E2. unfold handed_out.
  by rewrite E1, Z.sub_diag.
Qed.

(** The range never changes. *)
Lemma wstep_bounds w w' : rtc wstep w w' -> start (pool w') = start (pool w) /\ end_ (pool w') = end_ (pool w).
Proof.
  induction 1 as [|a b c S _ [IH1 IH2]]; [done|]. rewrite IH1, IH2. clear IH1 IH2.
  destruct S as [pm h b0 p pm2 E|pm h b0 E|pm h b0 p pm2 E|pm h b0 E|pm h1 p h2 b0]; try done.
  - unfold get_recycled in E. destruct (recycle pm); [done|]. by injection E as _ <-.
  - unfold get_bumped in E. destruct (_ <? _); [done|]. by injection E as _ <-.
  - cbn [pool]. unfold Recycle. by destruct (_ <? _).
Qed.

(** No two sessions ever hold the same port: under any interleaving of [Get]
    and [Recycle] by clients that give back only what they hold, the held and
    recycled ports are pairwise different and within the configured range, no
    recycled port is dropped, and together they are all the ports handed out
    so far; when [Get] reports exhaustion from the counter, every port of the
    range has been handed out. *)
Theorem ports_unique lo hi pm w :
  0 <= lo -> hi < 65536 -> NewPortManager lo hi = Some pm -> rtc wstep (mkWorld pm [] 0) w ->
  List.NoDup (held w ++ recycle (pool w)) /\
  Forall (fun p => lo <= p <= hi) (held w ++ recycle (pool w)) /\
  Z.of_nat (length (held w) + length (recycle (pool w))) = next (pool w) - lo /\
  (get_bumped (pool w) = None ->
     Z.of_nat (length (held w) + length (recycle (pool w))) = hi - lo + 1).
Proof.
  intros Hlo Hhi Hn Hr.
  assert (E : start pm = lo /\ end_ pm = hi).
  { unfold NewPortManager in Hn. destruct (hi <? lo); [done|]. by injection Hn as <-. }
  destruct E as [<- <-]. pose proof (reachable_ok pm w Hlo Hhi Hn Hr) as (H1 & H2 & H3 & H4).
  assert (K : start (pool w) = start pm /\ end_ (pool w) = end_ pm) by apply (wstep_bounds _ _ Hr).
  destruct K as [K1 K2]. pose proof (Permutation_length H4) as Hl.
  rewrite length_handed_out, length_app in Hl. rewrite K1, K2 in *.
  split; [|split; [|split]].
  - eapply Permutation_NoDup; [symmetry; exact H4|apply handed_out_NoDup].
  - apply List.Forall_forall. intros p Hp. apply (Permutation_in _ H4) in Hp.
    apply handed_out_range in Hp; lia.
  - lia.
  - unfold get_bumped. rewrite K2. destruct (Z.ltb_spec (end_ pm) (next (pool w))); [lia|done].
Qed.

Lemma ports_unique_witness : exists pm w,
  NewPortManager 30000 30001 = Some pm /\ rtc wstep (mkWorld pm [] 0) w /\
  held w = [30000; 30001] /\ List.NoDup (held w ++ recycle (pool w)).
Proof.
  set (pm := mkPortManager 30000 30001 [] 30000).
  set (w := mkWorld (mkPortManager 30000 30001 [] 30002) [30000; 30001] 0).
  assert (Hr : rtc wstep (mkWorld pm [] 0) w).
  { eapply rtc_l; [by apply miss|]. eapply rtc_l; [by eapply take_bumped|].
    eapply rtc_l; [by apply miss|]. eapply rtc_l; [by eapply take_bumped|].
    eapply rtc_l; [by apply (give_back _ [30001] 30000 [])|]. eapply rtc_l; [by eapply take_recycled|].
    apply rtc_refl. }
  exists pm, w. split; [done|]. split; [exact Hr|]. split; [done|].
  apply (ports_unique 30000 30001 pm w); [lia|lia|done|exact Hr].
Defined.

(** Undisturbed, [Get] fails exactly when nothing is recycled and the counter
    has passed the range, and a port that is recycled into an empty channel is
    the next one handed out. *)
Theorem Get_sequential pm :
  (fst (Get pm) = None <-> recycle pm = [] /\ end_ pm < next pm) /\
  (forall p, recycle pm = [] -> start pm <= end_ pm -> Get (Recycle p pm) = (Some p, pm)).
Proof.
  split.
  - unfold Get, get_recycled, get_bumped. destruct (recycle pm) as [|q r]; cbn.
    + destruct (Z.ltb_spec (end_ pm) (next pm)); cbn; [by split|]. split; [done|]. intros []. lia.
    + split; [done|]. by intros [].
  - intros p Hr Hle. unfold Get, get_recycled, Recycle. rewrite Hr. simpl.
    rewrite (proj2 (Z.ltb_lt _ _)) by (unfold capacity; lia). simpl. destruct pm. simpl in Hr. by subst.
Qed.

(** A port that is recycled twice is not noticed unless the channel happens to
    be full: two sessions are then given the same port. *)
Theorem double_recycle pm p :
  recycle pm = [] -> start pm < end_ pm ->
  let pm1 := Recycle p (Recycle p pm) in
  fst (Get pm1) = Some p /\ fst (Get (snd (Get pm1))) = Some p.
Proof.
  intros Hr Hlt pm1. unfold pm1, Recycle. rewrite Hr. simpl.
  rewrite (proj2 (Z.ltb_lt 0 _)) by (unfold capacity; lia). simpl.
  rewrite (proj2 (Z.ltb_lt 1 _)) by (unfold capacity; simpl; lia). by split.
Qed.

Lemma double_recycle_witness :
  fst (Get (Recycle 5 (Recycle 5 (mkPortManager 4 9 [] 6)))) = Some 5.
Proof. apply (double_recycle (mkPortManager 4 9 [] 6) 5); [done|]. simpl. lia. Defined.
