(* ===== verification/SessionMgr.v ===== *)
(** Media sessions of the platform ([platform/session.go]).

    Every call of the session manager is a thread, a list of atomic
    instructions: a critical section of [sm.mu], an action on the port pool, a
    system call, an atomic operation on the channel's status. [exec] runs one
    instruction and says what the thread does next and which goroutines it
    starts; [step] interleaves any number of calls. What the environment decides
    (a bind that fails, a device that never connects, which receivers have
    stalled, the order in which Go ranges over a map) is the instruction's
    outcome.

    A session object is known by a number ([sid]), which stands for its address.
    The [told] flag of a recycling, the list of overwritten sessions and the log
    are ghost state: the code keeps none of them. The SIP BYE senders are the
    ones the SIP server wires. *)

From S2P Require Import Prelude GoStrings GoText Sdp PortManager.
Open Scope Z_scope.

(** ** State *)

Inductive ChannelStatus := ChannelIdle | ChannelInviting | ChannelPlaying.

#[export] Instance ChannelStatus_eq_dec : EqDecision ChannelStatus.
Proof. solve_decision. Defined.

Record session := mkSession {
  sid : nat;
  channelID : text;
  deviceID : text;
  port : Z;
  ssrc_seq : Z;
  skind : session_kind;
}.

#[export] Instance session_eq_dec : EqDecision session.
Proof. solve_decision. Defined.

(** The arguments of a call that starts a session; [multicast] says that the
    address is a group. *)
Record request := mkRequest {
  rq_channel : text;
  rq_device : text;
  rq_kind : session_kind;
  rq_transport : text;
  rq_multicast : bool;
}.

Inductive event :=
  | EvBye (s : nat)
  | EvClosed (s : nat)
  | EvAttached (s : nat)
  | EvRecycled (s : nat) (told : bool).

Record SessionManager := mkSessionManager {
  portManager : PortManager;
  sessions : gmap text session;
  playbackSessions : gmap text session;
  statuses : gmap text ChannelStatus;
  closed : gset nat;
  ssrcSeq : Z;
  next_sid : nat;
  overwritten : list session;
  log : list event;
}.

#[export] Instance eta_SessionManager : Eta SessionManager := fun m =>
  mkSessionManager (portManager m) (sessions m) (playbackSessions m) (statuses m) (closed m) (ssrcSeq m)
    (next_sid m) (overwritten m) (log m).

Definition NewSessionManager (pm : PortManager) : SessionManager :=
  mkSessionManager pm ∅ ∅ ∅ ∅ 0 0 [] [].

Definition status_of (m : SessionManager) (ch : text) : ChannelStatus := default ChannelIdle (statuses m !! ch).

(** ** Instructions *)

Inductive instr :=
  (* the calls *)
  | CInvite (rq : request)
  | CInviteFetch (rq : request)
  | CBye (ch : text)
  | CByePlayback (ch : text)
  | CByeDevice (dev : text)
  | CRecycleStalled
  | CStopAll
  | CMarkPlaying (ch : text)
  | CConnectActiveTCP (ch : text)
  (* their parts *)
  | IGet (rq : request)
  | IBump (rq : request)
  | ISeq (rq : request) (p : Z)
  | IOpen (rq : request) (s : session)
  | IInstall (s : session)
  | ICas (s : session) (old new : ChannelStatus)
  | ISetIdle (s : session)
  | IBye (s : session)
  | IClose (s : session)
  | IRecycle (s : session) (told : bool)
  | IAccept (s : session)
  | IDial (s : session).

Inductive outcome :=
  | Ok
  | Failed
  | Order (keys : list text).

(** [teardown]; the status is stored last. *)
Definition teardown (s : session) (told resetStatus : bool) : list instr :=
  IClose s :: IRecycle s told :: (if resetStatus then [ISetIdle s] else []).

(** Takes the sessions under the keys out of a map, in the keys' order. *)
Fixpoint pull (keys : list text) (m : gmap text session) : list session * gmap text session :=
  match keys with
  | [] => ([], m)
  | k :: ks => match m !! k with
               | Some s => let (l, m') := pull ks (delete k m) in (s :: l, m')
               | None => pull ks m
               end
  end.

(** [m[k] = s]; the session it overwrites is kept apart. *)
Definition put (k : text) (s : session) (ml : gmap text session * list session) : gmap text session * list session :=
  (<[k := s]> (fst ml), option_list (fst ml !! k) ++ snd ml).

(** The union [StopAll] builds. *)
Definition stop_union (live playback : gmap text session) (lost : list session) :
    gmap text session * list session :=
  foldr (fun ks => put (txt "pb:" ++ fst ks) (snd ks)) (live, lost) (map_to_list playback).

(** The keys are those of the map's sessions that satisfy [P]. *)
Definition exactly (keys : list text) (P : session -> bool) (m : gmap text session) : bool :=
  bool_decide (list_to_set keys = dom (filter (fun ks => P (snd ks) = true) m)).

(** What an instruction makes of the state: the rest of its call, put before the
    thread's, and the goroutines it starts. [None]: the outcome is none the
    instruction can have. *)
Definition result : Type := option (SessionManager * list instr * list (list instr)).

(** The first critical section of [Invite], and what follows it. *)
Definition Invite (rq : request) (m : SessionManager) : result :=
  match sessions m !! rq_channel rq with
  | Some old => Some (m <| sessions := delete (rq_channel rq) (sessions m) |>,
                      IBye old :: teardown old true false ++ [IGet rq], [])
  | None => Some (m, [IGet rq], [])
  end.

(** [inviteFetch] leaves the old session in the map. *)
Definition inviteFetch (rq : request) (m : SessionManager) : result :=
  match playbackSessions m !! rq_channel rq with
  | Some old => Some (m, teardown old false false ++ [IGet rq], [])
  | None => Some (m, [IGet rq], [])
  end.

(** The two actions of [portManager.Get]; on failure the call returns its error. *)
Definition get_port (rq : request) (m : SessionManager) : result :=
  match get_recycled (portManager m) with
  | Some (p, pm) => Some (m <| portManager := pm |>, [ISeq rq p], [])
  | None => Some (m, [IBump rq], [])
  end.

Definition bump_port (rq : request) (m : SessionManager) : result :=
  match get_bumped (portManager m) with
  | Some (p, pm) => Some (m <| portManager := pm |>, [ISeq rq p], [])
  | None => Some (m, [], [])
  end.

(** [sm.ssrcSeq.Add(1)], and the session object; a download takes the number
    after the one its playback SSRC took. *)
Definition new_session (rq : request) (p : Z) (m : SessionManager) : result :=
  let n := ssrcSeq m + (if decide (rq_kind rq = Download) then 2 else 1) in
  let s := mkSession (next_sid m) (rq_channel rq) (rq_device rq) p n (rq_kind rq) in
  Some (m <| ssrcSeq := n |> <| next_sid := S (next_sid m) |>, [IOpen rq s], []).

(** The switch on the transport: listening, nothing yet, or a UDP socket; the
    multicast branch returns without touching the status. *)
Definition open_live (o : outcome) (rq : request) (s : session) (m : SessionManager) : result :=
  if bool_decide (rq_transport rq = MediaTCPPassive) then
    match o with
    | Ok => Some (m, [IInstall s; ICas s ChannelIdle ChannelInviting], [[IAccept s]])
    | _ => Some (m, [IRecycle s false], [])
    end
  else if bool_decide (rq_transport rq = MediaTCPActive) then
    Some (m, [IInstall s; ICas s ChannelIdle ChannelInviting], [])
  else
    match o with
    | Ok => Some (m, IInstall s :: (if rq_multicast rq then [] else [ICas s ChannelIdle ChannelInviting]), [])
    | _ => Some (m, [IRecycle s false], [])
    end.

Definition open_fetch (o : outcome) (s : session) (m : SessionManager) : result :=
  match o with
  | Ok => Some (m, [IInstall s], [])
  | _ => Some (m, [IRecycle s false], [])
  end.

Definition install (s : session) (m : SessionManager) : result :=
  if decide (skind s = Live) then
    let (ss, l) := put (channelID s) s (sessions m, overwritten m) in
    Some (m <| sessions := ss |> <| overwritten := l |>, [], [])
  else
    let (ss, l) := put (channelID s) s (playbackSessions m, overwritten m) in
    Some (m <| playbackSessions := ss |> <| overwritten := l |>, [], []).

(** [channel.Status.CompareAndSwap] *)
Definition compare_and_swap (s : session) (old new : ChannelStatus) (m : SessionManager) : result :=
  if decide (status_of m (channelID s) = old)
  then Some (m <| statuses := <[channelID s := new]> (statuses m) |>, [], [])
  else Some (m, [], []).

(** A connection is attached unless the session is closed. *)
Definition attach (s : session) (m : SessionManager) : result :=
  if decide (sid s ∈ closed m) then Some (m, [], [])
  else Some (m <| log := EvAttached (sid s) :: log m |>, [], []).

(** [acceptTCP], from the moment [Accept] returns. *)
Definition acceptTCP (o : outcome) (s : session) (m : SessionManager) : result :=
  match o with
  | Ok => attach s m
  | _ =>
      let m' := m <| closed := {[sid s]} ∪ closed m |> <| log := EvClosed (sid s) :: log m |> in
      match sessions m !! channelID s with
      | Some cur => if decide (cur = s)
                    then Some (m' <| sessions := delete (channelID s) (sessions m) |>,
                               [IBye s; IRecycle s true; ISetIdle s], [])
                    else Some (m', [], [])
      | None => Some (m', [], [])
      end
  end.

(** The lookup of [ConnectActiveTCP], and the dialling that follows. *)
Definition ConnectActiveTCP (ch : text) (m : SessionManager) : result :=
  match sessions m !! ch with Some s => Some (m, [IDial s], []) | None => Some (m, [], []) end.

Definition dial (o : outcome) (s : session) (m : SessionManager) : result :=
  match o with Ok => attach s m | _ => Some (m, [], []) end.

Definition Bye (ch : text) (m : SessionManager) : result :=
  match sessions m !! ch with
  | Some s => Some (m <| sessions := delete ch (sessions m) |>, IBye s :: teardown s true true, [])
  | None => Some (m, [], [])
  end.

Definition ByePlayback (ch : text) (m : SessionManager) : result :=
  match playbackSessions m !! ch with
  | Some s => Some (m <| playbackSessions := delete ch (playbackSessions m) |>, IBye s :: teardown s true false, [])
  | None => Some (m, [], [])
  end.

Definition ByeDevice (o : outcome) (dev : text) (m : SessionManager) : result :=
  match o with
  | Order keys =>
      if exactly keys (fun s => bool_decide (deviceID s = dev)) (sessions m) then
        let (l, rest) := pull keys (sessions m) in
        Some (m <| sessions := rest |>, flat_map (fun s => teardown s false true) l, [])
      else None
  | _ => None
  end.

(** The keys are those of the receivers found stalled. *)
Definition recycleStalled (o : outcome) (m : SessionManager) : result :=
  match o with
  | Order keys => let (l, rest) := pull keys (sessions m) in
                  Some (m <| sessions := rest |>, flat_map (fun s => IBye s :: teardown s true true) l, [])
  | _ => None
  end.

Definition StopAll (o : outcome) (m : SessionManager) : result :=
  match o with
  | Order keys =>
      let (all, lost) := stop_union (sessions m) (playbackSessions m) (overwritten m) in
      if exactly keys (fun _ => true) all then
        let (l, _) := pull keys all in
        Some (m <| sessions := ∅ |> <| playbackSessions := ∅ |> <| overwritten := lost |>,
              flat_map (fun s => teardown s false true) l, [])
      else None
  | _ => None
  end.

Definition MarkPlaying (ch : text) (m : SessionManager) : result :=
  match sessions m !! ch with
  | Some s => Some (m, [ICas s ChannelInviting ChannelPlaying], [])
  | None => Some (m, [], [])
  end.

Definition exec (o : outcome) (i : instr) (m : SessionManager) : result :=
  match i with
  | CInvite rq => Invite rq m
  | CInviteFetch rq => inviteFetch rq m
  | CBye ch => Bye ch m
  | CByePlayback ch => ByePlayback ch m
  | CByeDevice dev => ByeDevice o dev m
  | CRecycleStalled => recycleStalled o m
  | CStopAll => StopAll o m
  | CMarkPlaying ch => MarkPlaying ch m
  | CConnectActiveTCP ch => ConnectActiveTCP ch m
  | IGet rq => get_port rq m
  | IBump rq => bump_port rq m
  | ISeq rq p => new_session rq p m
  | IOpen rq s => if decide (rq_kind rq = Live) then open_live o rq s m else open_fetch o s m
  | IInstall s => install s m
  | ICas s old new => compare_and_swap s old new m
  | ISetIdle s => Some (m <| statuses := <[channelID s := ChannelIdle]> (statuses m) |>, [], [])
  | IBye s => Some (m <| log := EvBye (sid s) :: log m |>, [], [])
  | IClose s => Some (m <| closed := {[sid s]} ∪ closed m |> <| log := EvClosed (sid s) :: log m |>, [], [])
  | IRecycle s told =>
      Some (m <| portManager := Recycle (port s) (portManager m) |> <| log := EvRecycled (sid s) told :: log m |>, [], [])
  | IAccept s => acceptTCP o s m
  | IDial s => dial o s m
  end.

Ltac unfold_exec H :=
  cbn [exec] in H;
  unfold Invite, inviteFetch, get_port, bump_port, new_session, open_live, open_fetch, install, compare_and_swap,
    acceptTCP, ConnectActiveTCP, dial, attach, Bye, ByePlayback, ByeDevice, recycleStalled, StopAll, MarkPlaying in H.

Ltac unfold_exec_goal :=
  cbn [exec];
  unfold Invite, inviteFetch, get_port, bump_port, new_session, open_live, open_fetch, install, compare_and_swap,
    acceptTCP, ConnectActiveTCP, dial, attach, Bye, ByePlayback, ByeDevice, recycleStalled, StopAll, MarkPlaying.

(** The readers. *)
Definition SessionCount (m : SessionManager) : nat := size (sessions m).
Definition PlaybackActive (m : SessionManager) (ch : text) : bool := bool_decide (is_Some (playbackSessions m !! ch)).

(** ** Threads *)

Record world := mkSessWorld { mgr : SessionManager; threads : list (list instr) }.

(** The calls a client makes. *)
Definition is_call (i : instr) : bool :=
  match i with
  | CInvite rq => bool_decide (rq_kind rq = Live)
  | CInviteFetch rq => negb (bool_decide (rq_kind rq = Live))
  | CBye _ | CByePlayback _ | CByeDevice _ | CRecycleStalled | CStopAll | CMarkPlaying _ | CConnectActiveTCP _ => true
  | _ => false
  end.

(** [ok] restricts the instructions a schedule may run. *)
Inductive step (ok : instr -> SessionManager -> bool) : world -> world -> Prop :=
  | step_call m ts c : is_call c = true -> step ok (mkSessWorld m ts) (mkSessWorld m ([c] :: ts))
  | step_run m t1 i rest t2 o m' more spawned :
      ok i m = true -> exec o i m = Some (m', more, spawned) ->
      step ok (mkSessWorld m (t1 ++ (i :: rest) :: t2)) (mkSessWorld m' (t1 ++ (more ++ rest) :: t2 ++ spawned)).

Definition any_schedule (i : instr) (m : SessionManager) : bool := true.

(** No playback is fetched while the channel's map entry still holds one. *)
Definition no_refetch (i : instr) (m : SessionManager) : bool :=
  match i with CInviteFetch rq => bool_decide (playbackSessions m !! rq_channel rq = None) | _ => true end.

(** Runs instruction [n] of the thread list, for examples. *)
Definition run (n : nat) (o : outcome) (w : world) : option world :=
  match threads w !! n with
  | Some (i :: rest) =>
      '(m', more, spawned) ← exec o i (mgr w);
      Some (mkSessWorld m' (take n (threads w) ++ (more ++ rest) :: drop (S n) (threads w) ++ spawned))
  | _ => None
  end.

(** ** Ports and sessions in play

    A port between [Get] and [Recycle] is a token, with the number of its
    session once it has one. Sessions in the maps and overwritten ones have a
    token, and so do the instructions that will store or give back a port. *)

Definition token : Type := option nat * Z.

Definition tok (s : session) : token := (Some (sid s), port s).

Definition values (m : gmap text session) : list session := map snd (map_to_list m).

Definition kept (m : SessionManager) : list session :=
  values (sessions m) ++ values (playbackSessions m) ++ overwritten m.

Definition instr_tokens (i : instr) : list token :=
  match i with
  | ISeq _ p => [(None, p)]
  | IOpen _ s | IInstall s | IRecycle s _ => [tok s]
  | _ => []
  end.

Definition tokens_of (l : list instr) : list token := flat_map instr_tokens l.

Definition tokens (w : world) : list token := flat_map tokens_of (threads w) ++ map tok (kept (mgr w)).

(** Callers between the two actions of [Get]. *)
Definition is_bump (i : instr) : nat := match i with IBump _ => 1 | _ => 0 end.
Definition bumps_of (l : list instr) : nat := list_sum (map is_bump l).
Definition bumps (w : world) : nat := list_sum (map bumps_of (threads w)).

(** The sessions whose port was given back, latest first. *)
Definition recycled (l : list event) : list nat :=
  omap (fun e => match e with EvRecycled s _ => Some s | _ => None end) l.

(** What an instruction does to the pool, the tokens and the log. *)
Inductive effect : SessionManager -> list token -> nat -> SessionManager -> list token -> nat -> Prop :=
  | eff_keep m L b m' L' : portManager m' = portManager m -> L' ≡ₚ L -> next_sid m' = next_sid m ->
      recycled (log m') = recycled (log m) -> effect m L b m' L' b
  | eff_took m L b m' L' p pm : get_recycled (portManager m) = Some (p, pm) -> portManager m' = pm ->
      L' ≡ₚ (None, p) :: L -> next_sid m' = next_sid m -> recycled (log m') = recycled (log m) -> effect m L b m' L' b
  | eff_missed m L b L' : get_recycled (portManager m) = None -> L' ≡ₚ L -> effect m L b m L' (S b)
  | eff_bumped m L b m' L' p pm : get_bumped (portManager m) = Some (p, pm) -> portManager m' = pm ->
      L' ≡ₚ (None, p) :: L -> next_sid m' = next_sid m -> recycled (log m') = recycled (log m) -> effect m L (S b) m' L' b
  | eff_exhausted m L b L' : get_bumped (portManager m) = None -> L' ≡ₚ L -> effect m L (S b) m L' b
  | eff_named m L b m' L' p R : portManager m' = portManager m -> L ≡ₚ (None, p) :: R ->
      L' ≡ₚ (Some (next_sid m), p) :: R -> next_sid m' = S (next_sid m) ->
      recycled (log m') = recycled (log m) -> effect m L b m' L' b
  | eff_gave m L b m' L' n p : portManager m' = Recycle p (portManager m) -> L ≡ₚ (Some n, p) :: L' ->
      next_sid m' = next_sid m -> recycled (log m') = n :: recycled (log m) -> effect m L b m' L' b.

(** ** Lemmas: the maps *)

Lemma values_delete m k s : m !! k = Some s -> values m ≡ₚ s :: values (delete k m).
Proof. intros H. unfold values. by rewrite <- (map_to_list_delete m k s H). Qed.

Lemma values_insert_None m k s : m !! k = None -> values (<[k := s]> m) ≡ₚ s :: values m.
Proof. intros H. unfold values. by rewrite (map_to_list_insert m k s H). Qed.

Lemma pull_values ks m l m' : pull ks m = (l, m') -> l ++ values m' ≡ₚ values m.
Proof.
  revert m l m'. induction ks as [|k ks IH]; intros m l m' H; cbn [pull] in H; [by injection H as <- <-|].
  destruct (m !! k) as [s|] eqn:E; [|by apply IH].
  destruct (pull ks (delete k m)) as [l1 m1] eqn:E1. injection H as <- <-.
  rewrite (values_delete m k s E). cbn [app]. by rewrite (IH _ _ _ E1).
Qed.

Lemma pull_rest (ks : list text) (m : gmap text session) l m' k : pull ks m = (l, m') -> m' !! k = if decide (k ∈ ks) then None else m !! k.
Proof.
  revert m l m'. induction ks as [|j ks IH]; intros m l m' H; cbn [pull] in H; [injection H as <- <-; by rewrite decide_False by set_solver|].
  destruct (m !! j) as [s|] eqn:E.
  - destruct (pull ks (delete j m)) as [l1 m1] eqn:E1. injection H as <- <-. rewrite (IH _ _ _ E1).
    destruct (decide (k ∈ ks)); [by rewrite decide_True by set_solver|].
    destruct (decide (k = j)) as [->|]; [by rewrite lookup_delete_eq, decide_True by left|].
    by rewrite lookup_delete_ne, decide_False by (done || by apply not_elem_of_cons).
  - rewrite (IH _ _ _ H). destruct (decide (k ∈ ks)); [by rewrite decide_True by set_solver|].
    destruct (decide (k = j)) as [->|]; [by rewrite decide_True by left|].
    by rewrite decide_False by by apply not_elem_of_cons.
Qed.

Lemma pull_all ks m l m' : pull ks m = (l, m') -> exactly ks (fun _ => true) m = true -> m' = ∅ /\ l ≡ₚ values m.
Proof.
  intros H E. assert (Hm : m' = ∅).
  { apply map_empty. intros k. rewrite (pull_rest _ _ _ _ k H). destruct (decide (k ∈ ks)) as [|Hk]; [done|].
    destruct (m !! k) as [s|] eqn:Em; [|done]. destruct Hk. unfold exactly in E. apply bool_decide_eq_true in E.
    apply (elem_of_list_to_set (C := gset text)). rewrite E, elem_of_dom. exists s. by apply map_lookup_filter_Some. }
  split; [done|]. pose proof (pull_values _ _ _ _ H) as Hv. rewrite Hm, app_nil_r in Hv. exact Hv.
Qed.

Lemma put_values k s ml : values (fst (put k s ml)) ++ snd (put k s ml) ≡ₚ s :: values (fst ml) ++ snd ml.
Proof.
  unfold put. cbn [fst snd]. destruct (fst ml !! k) as [old|] eqn:E.
  - rewrite <- (insert_delete_eq (fst ml) k s), values_insert_None by apply lookup_delete_eq.
    rewrite (values_delete _ _ _ E). simpl. constructor. symmetry. apply Permutation_middle.
  - by rewrite values_insert_None by done.
Qed.

Lemma stop_union_values live playback lost :
  let u := stop_union live playback lost in
  values (fst u) ++ snd u ≡ₚ values live ++ values playback ++ lost.
Proof.
  cbv zeta. unfold stop_union. unfold values at 3. set (l := map_to_list playback). clearbody l.
  induction l as [|[k s] l IH]; [done|]. cbn [foldr map fst snd]. rewrite put_values, IH.
  cbn [app]. by rewrite Permutation_middle.
Qed.

(** ** Lemmas: one instruction *)

Lemma tokens_app a b : tokens_of (a ++ b) = tokens_of a ++ tokens_of b.
Proof. apply flat_map_app. Qed.

(** A teardown per session carries the session's token. *)
Lemma teardowns_tokens (f : session -> list instr) l : (forall s, tokens_of (f s) = [tok s]) -> tokens_of (flat_map f l) = map tok l.
Proof.
  intros H. induction l as [|s l IH]; [done|]. cbn [flat_map map]. by rewrite tokens_app, H, IH.
Qed.

Lemma bumps_app a b : bumps_of (a ++ b) = (bumps_of a + bumps_of b)%nat.
Proof. unfold bumps_of. by rewrite map_app, list_sum_app. Qed.

Lemma teardowns_bumps (f : session -> list instr) l : (forall s, bumps_of (f s) = 0%nat) -> bumps_of (flat_map f l) = 0%nat.
Proof. intros H. induction l as [|s l IH]; [done|]. cbn [flat_map]. by rewrite bumps_app, H, IH. Qed.

Definition local_tokens (more : list instr) (spawned : list (list instr)) (m : SessionManager) : list token :=
  tokens_of more ++ flat_map tokens_of spawned ++ map tok (kept m).

Definition local_bumps (more : list instr) (spawned : list (list instr)) : nat :=
  (bumps_of more + list_sum (map bumps_of spawned))%nat.

Definition exec_effect (i : instr) (m m' : SessionManager) more spawned : Prop :=
  effect m (instr_tokens i ++ map tok (kept m)) (is_bump i) m' (local_tokens more spawned m') (local_bumps more spawned).

Lemma kept_live m m' s l : values (sessions m) ≡ₚ s :: l -> values (sessions m') = l ->
  playbackSessions m' = playbackSessions m -> overwritten m' = overwritten m -> map tok (kept m) ≡ₚ tok s :: map tok (kept m').
Proof. intros H E1 E2 E3. unfold kept. by rewrite H, E1, E2, E3. Qed.

(** Taking one live session out of the map, to give its port back. *)
Lemma effect_remove_live i m m' more s k : sessions m !! k = Some s -> instr_tokens i = [] -> is_bump i = 0%nat ->
  sessions m' = delete k (sessions m) -> playbackSessions m' = playbackSessions m -> overwritten m' = overwritten m ->
  portManager m' = portManager m -> next_sid m' = next_sid m -> recycled (log m') = recycled (log m) ->
  tokens_of more = [tok s] -> bumps_of more = 0%nat -> exec_effect i m m' more [].
Proof.
  intros H Hi Hb E1 E2 E3 E4 E5 E6 Ht Hbm. unfold exec_effect, local_tokens, local_bumps. rewrite Hi, Hb, Ht, Hbm. simpl.
  apply eff_keep; [done| |done|done]. symmetry. apply (kept_live m m' s (values (delete k (sessions m)))); [|by rewrite E1|done|done].
  by apply values_delete.
Qed.

(** Instructions that change neither the tokens nor the pool. *)
Lemma effect_still i m m' more spawned : instr_tokens i = [] -> is_bump i = 0%nat -> kept m' = kept m ->
  portManager m' = portManager m -> next_sid m' = next_sid m -> recycled (log m') = recycled (log m) ->
  tokens_of more = [] -> flat_map tokens_of spawned = [] -> local_bumps more spawned = 0%nat ->
  exec_effect i m m' more spawned.
Proof.
  intros H1 H2 H3 H4 H5 H6 H7 H8 H9. unfold exec_effect, local_tokens. rewrite H1, H2, H3, H7, H8, H9.
  by apply eff_keep.
Qed.

(** Instructions that pass their token on. *)
Lemma effect_pass i m more spawned s : instr_tokens i = [tok s] -> is_bump i = 0%nat ->
  tokens_of more = [tok s] -> flat_map tokens_of spawned = [] -> local_bumps more spawned = 0%nat ->
  exec_effect i m m more spawned.
Proof. intros H1 H2 H7 H8 H9. unfold exec_effect, local_tokens. rewrite H1, H2, H7, H8, H9. by apply eff_keep. Qed.

Lemma effect_pull i m m' f keys l rest : pull keys (sessions m) = (l, rest) -> instr_tokens i = [] -> is_bump i = 0%nat ->
  m' = m <| sessions := rest |> -> (forall s, tokens_of (f s) = [tok s]) -> (forall s, bumps_of (f s) = 0%nat) ->
  exec_effect i m m' (flat_map f l) [].
Proof.
  intros H Hi Hb -> Hf Hg. unfold exec_effect, local_tokens, local_bumps.
  rewrite Hi, Hb, teardowns_tokens, teardowns_bumps by done. simpl. apply eff_keep; [done| |done|done].
  unfold kept. simpl. rewrite !map_app, <- (pull_values _ _ _ _ H), map_app. by rewrite <- !app_assoc.
Qed.

Lemma exec_effects o i m m' more spawned : exec o i m = Some (m', more, spawned) -> no_refetch i m = true ->
  exec_effect i m m' more spawned.
Proof.
  intros H C. destruct i as [rq|rq|ch|ch|dev| | |ch|ch|rq|rq|rq p|rq s|s|s old new|s|s|s|s told|s|s]; unfold_exec H.
  - destruct (sessions m !! rq_channel rq) as [old|] eqn:E; injection H as <- <- <-.
    + by apply (effect_remove_live _ _ _ _ old (rq_channel rq)).
    + by apply effect_still.
  - cbn [no_refetch] in C. apply bool_decide_eq_true in C. rewrite C in H. injection H as <- <- <-. by apply effect_still.
  - destruct (sessions m !! ch) as [s|] eqn:E; injection H as <- <- <-.
    + by apply (effect_remove_live _ _ _ _ s ch).
    + by apply effect_still.
  - destruct (playbackSessions m !! ch) as [s|] eqn:E; injection H as <- <- <-; [|by apply effect_still].
    unfold exec_effect, local_tokens, local_bumps. simpl. apply eff_keep; [done| |done|done].
    unfold kept. simpl. rewrite (values_delete _ _ _ E). cbn [app]. by rewrite <- Permutation_middle.
  - destruct o as [| |keys]; [done|done|]. destruct (exactly _ _ _); [|done].
    destruct (pull keys (sessions m)) as [l rest] eqn:E. injection H as <- <- <-.
    by apply (effect_pull _ _ _ (fun s => teardown s false true) keys l rest).
  - destruct o as [| |keys]; [done|done|].
    destruct (pull keys (sessions m)) as [l rest] eqn:E. injection H as <- <- <-.
    by apply (effect_pull _ _ _ (fun s => IBye s :: teardown s true true) keys l rest).
  - destruct o as [| |keys]; [done|done|]. destruct (stop_union _ _ _) as [all lost] eqn:U.
    destruct (exactly _ _ all) eqn:X; [|done]. destruct (pull keys all) as [l rest] eqn:E. injection H as <- <- <-.
    destruct (pull_all _ _ _ _ E X) as [_ P].
    unfold exec_effect, local_tokens, local_bumps.
    rewrite (teardowns_tokens (fun s => teardown s false true)), (teardowns_bumps (fun s => teardown s false true)) by done.
    simpl. apply eff_keep; [done| |done|done]. unfold kept at 1. simpl. rewrite P.
    pose proof (stop_union_values (sessions m) (playbackSessions m) (overwritten m)) as V. rewrite U in V. cbv zeta in V.
    cbn [fst snd] in V. unfold kept. rewrite <- V, !map_app. by change (values ∅) with (@nil session).
  - destruct (sessions m !! ch); injection H as <- <- <-; by apply effect_still.
  - destruct (sessions m !! ch); injection H as <- <- <-; by apply effect_still.
  - destruct (get_recycled (portManager m)) as [[p pm]|] eqn:E; injection H as <- <- <-.
    + by eapply eff_took.
    + by apply eff_missed.
  - destruct (get_bumped (portManager m)) as [[p pm]|] eqn:E; injection H as <- <- <-.
    + by apply (eff_bumped m _ 0 _ _ p pm).
    + by apply eff_exhausted.
  - injection H as <- <- <-. by apply (eff_named _ _ _ _ _ p (map tok (kept m))).
  - destruct (decide (rq_kind rq = Live)).
    + destruct (bool_decide _).
      * destruct o; injection H as <- <- <-; by apply (effect_pass _ _ _ _ s).
      * destruct (bool_decide _); [injection H as <- <- <-; by apply (effect_pass _ _ _ _ s)|].
        destruct o, (rq_multicast rq); injection H as <- <- <-; by apply (effect_pass _ _ _ _ s).
    + destruct o; injection H as <- <- <-; by apply (effect_pass _ _ _ _ s).
  - destruct (decide (skind s = Live)).
    + destruct (put _ _ _) as [ss l] eqn:E. injection H as <- <- <-.
      pose proof (put_values (channelID s) s (sessions m, overwritten m)) as V. rewrite E in V. cbn [fst snd] in V.
      apply eff_keep; [done| |done|done]. unfold local_tokens, kept. simpl. rewrite !map_app.
      rewrite (Permutation_app_comm (map tok (values (playbackSessions m)))), app_assoc, <- map_app, V. simpl.
      rewrite map_app, <- app_assoc. by rewrite (Permutation_app_comm (map tok (overwritten m))).
    + destruct (put _ _ _) as [ss l] eqn:E. injection H as <- <- <-.
      pose proof (put_values (channelID s) s (playbackSessions m, overwritten m)) as V. rewrite E in V. cbn [fst snd] in V.
      apply eff_keep; [done| |done|done]. unfold local_tokens, kept. simpl. rewrite V. cbn [app]. by rewrite <- Permutation_middle.
  - destruct (decide _); injection H as <- <- <-; by apply effect_still.
  - injection H as <- <- <-; by apply effect_still.
  - injection H as <- <- <-; by apply effect_still.
  - injection H as <- <- <-; by apply effect_still.
  - injection H as <- <- <-. by apply (eff_gave _ _ _ _ _ (sid s) (port s)).
  - destruct o.
    + destruct (decide _); injection H as <- <- <-; by apply effect_still.
    + destruct (sessions m !! channelID s) as [cur|] eqn:E; [destruct (decide (cur = s)) as [->|]|];
        injection H as <- <- <-; try by apply effect_still. by apply (effect_remove_live _ _ _ _ s (channelID s)).
    + destruct (sessions m !! channelID s) as [cur|] eqn:E; [destruct (decide (cur = s)) as [->|]|];
        injection H as <- <- <-; try by apply effect_still. by apply (effect_remove_live _ _ _ _ s (channelID s)).
  - destruct o; [destruct (decide _)|..]; injection H as <- <- <-; by apply effect_still.
Qed.

(** ** Lemmas: a step of the whole system *)

Lemma effect_frame m L b m' L' b' F f K K' : effect m L b m' L' b' -> K ≡ₚ L ++ F -> K' ≡ₚ L' ++ F ->
  effect m K (b + f) m' K' (b' + f).
Proof.
  intros E HK HK'. destruct E as [m L b m' L' E1 E2 E3 E4|m L b m' L' p pm E1 E2 E3 E4 E5|m L b L' E1 E2|
    m L b m' L' p pm E1 E2 E3 E4 E5|m L b L' E1 E2|m L b m' L' p R E1 E2 E3 E4 E5|m L b m' L' n p E1 E2 E3 E4].
  - apply eff_keep; [done| |done|done]. by rewrite HK, HK', E2.
  - apply (eff_took _ _ _ _ _ p pm); [done|done| |done|done]. by rewrite HK, HK', E3.
  - apply eff_missed; [done|]. by rewrite HK, HK', E2.
  - apply (eff_bumped _ _ _ _ _ p pm); [done|done| |done|done]. by rewrite HK, HK', E3.
  - apply eff_exhausted; [done|]. by rewrite HK, HK', E2.
  - apply (eff_named _ _ _ _ _ p (R ++ F)); [done| | |done|done]; [by rewrite HK, E2|by rewrite HK', E3].
  - apply (eff_gave _ _ _ _ _ n p); [done| |done|done]. by rewrite HK, HK', E2.
Qed.

Lemma call_tokens c : is_call c = true -> instr_tokens c = [] /\ is_bump c = 0%nat.
Proof. by destruct c. Qed.

Definition world_effect (w w' : world) : Prop :=
  effect (mgr w) (tokens w) (bumps w) (mgr w') (tokens w') (bumps w').

Lemma step_effect w w' : step no_refetch w w' -> world_effect w w'.
Proof.
  intros S. destruct S as [m ts c Hc|m t1 i rest t2 o m' more spawned C E].
  - destruct (call_tokens c Hc) as [Ht Hb]. unfold world_effect, tokens, bumps. cbn [mgr threads flat_map map].
    unfold tokens_of at 2, bumps_of at 2. cbn [flat_map map]. rewrite Ht, Hb. by apply eff_keep.
  - unfold world_effect, bumps. cbn [mgr threads].
    rewrite !map_app, !list_sum_app. cbn [map]. rewrite map_app. cbn [list_sum foldr]. rewrite list_sum_app, bumps_app.
    set (f := (list_sum (map bumps_of t1) + bumps_of rest + list_sum (map bumps_of t2))%nat).
    change (bumps_of (i :: rest)) with (is_bump i + bumps_of rest)%nat.
    assert (A : (list_sum (map bumps_of t1) + (is_bump i + bumps_of rest + list_sum (map bumps_of t2)) = is_bump i + f)%nat)
      by (unfold f; lia).
    assert (B : (list_sum (map bumps_of t1) + (bumps_of more + bumps_of rest +
      (list_sum (map bumps_of t2) + list_sum (map bumps_of spawned))) = local_bumps more spawned + f)%nat)
      by (unfold f, local_bumps; lia).
    unfold list_sum in A, B |- *. rewrite A, B.
    apply (effect_frame _ _ _ _ _ _ (flat_map tokens_of t1 ++ tokens_of rest ++ flat_map tokens_of t2) f _ _
             (exec_effects _ _ _ _ _ _ E C)); unfold tokens, local_tokens; cbn [mgr threads].
    + rewrite !flat_map_app. cbn [flat_map]. change (tokens_of (i :: rest)) with (instr_tokens i ++ tokens_of rest).
      solve_Permutation.
    + rewrite !flat_map_app. cbn [flat_map]. rewrite flat_map_app, tokens_app. solve_Permutation.
Qed.

(** ** The session manager is a client of the port pool that gives back what it holds *)

(** The pool's own world, seen from the manager's. *)
Definition refines (w : world) (c : PortManager.world) : Prop :=
  PortManager.pool c = portManager (mgr w) /\ held c ≡ₚ map snd (tokens w) /\ bumping c = bumps w.

Lemma effect_simulated m L b m' L' b' c : effect m L b m' L' b' ->
  PortManager.pool c = portManager m -> held c ≡ₚ map snd L -> bumping c = b ->
  exists c', rtc wstep c c' /\ PortManager.pool c' = portManager m' /\ held c' ≡ₚ map snd L' /\ bumping c' = b'.
Proof.
  intros E Hp Hh Hb. destruct c as [pm0 h b0]. cbn [PortManager.pool held bumping] in *. subst pm0 b0.
  destruct E as [m L b m' L' E1 E2 E3 E4|m L b m' L' p pm E1 E2 E3 E4 E5|m L b L' E1 E2|
    m L b m' L' p pm E1 E2 E3 E4 E5|m L b L' E1 E2|m L b m' L' p R E1 E2 E3 E4 E5|m L b m' L' n p E1 E2 E3 E4].
  - exists (mkWorld (portManager m) h b). split; [done|]. cbn. by rewrite E2.
  - exists (mkWorld pm (p :: h) b). split; [by apply rtc_once, take_recycled|]. cbn. by rewrite E3, Hh.
  - exists (mkWorld (portManager m) h (S b)). split; [by apply rtc_once, miss|]. cbn. by rewrite E2.
  - exists (mkWorld pm (p :: h) b). split; [by apply rtc_once, take_bumped|]. cbn. by rewrite E3, Hh.
  - exists (mkWorld (portManager m) h b). split; [by apply rtc_once, exhausted|]. cbn. by rewrite E2.
  - exists (mkWorld (portManager m) h b). split; [done|]. cbn. by rewrite Hh, E2, E3.
  - assert (Hin : In p h) by (apply (Permutation_in p (symmetry Hh)); rewrite E2; by left).
    apply in_split in Hin as (h1 & h2 & ->). exists (mkWorld (Recycle p (portManager m)) (h1 ++ h2) b).
    split; [by apply rtc_once, give_back|]. cbn. split; [done|]. split; [|done].
    apply (Permutation_cons_inv (a := p)). rewrite Permutation_middle, Hh, E2. done.
Qed.

Definition init_world (pm : PortManager) : world := mkSessWorld (NewSessionManager pm) [].

Lemma rtc_effect (P : world -> Prop) w w' : (forall a b, world_effect a b -> P a -> P b) ->
  rtc (step no_refetch) w w' -> P w -> P w'.
Proof. intros H. induction 1 as [|a b c S _ IH]; [done|]. intros Ha. by apply IH, (H a), Ha; apply step_effect. Qed.

Lemma simulated pm w : rtc (step no_refetch) (init_world pm) w ->
  exists c, rtc wstep (mkWorld pm [] 0) c /\ refines w c.
Proof.
  intros H. apply (rtc_effect (fun w => exists c, rtc wstep (mkWorld pm [] 0) c /\ refines w c) _ _) in H; [done| |].
  - intros a b E (c & Hc & R1 & R2 & R3). destruct (effect_simulated _ _ _ _ _ _ c E R1 R2 R3) as (c' & Hc' & R').
    exists c'. split; [by etrans|done].
  - exists (mkWorld pm [] 0). by split.
Qed.

(** A session's port is given back once, and not while the session is kept. *)
Definition names_ok (w : world) : Prop :=
  List.NoDup (omap fst (tokens w) ++ recycled (log (mgr w))) /\
  Forall (fun n => n < next_sid (mgr w))%nat (omap fst (tokens w) ++ recycled (log (mgr w))).

Lemma names_step a b : world_effect a b -> names_ok a -> names_ok b.
Proof.
  unfold world_effect, names_ok. generalize (tokens a), (tokens b), (bumps a), (bumps b).
  intros L L' n n' E [H1 H2].
  destruct E as [m L b' m' L' E1 E2 E3 E4|m L b' m' L' p pm E1 E2 E3 E4 E5|m L b' L' E1 E2|
    m L b' m' L' p pm E1 E2 E3 E4 E5|m L b' L' E1 E2|m L b' m' L' p R E1 E2 E3 E4 E5|m L b' m' L' k p E1 E2 E3 E4].
  - by rewrite E2, E3, E4.
  - rewrite E3, E4, E5. done.
  - by rewrite E2.
  - rewrite E3, E4, E5. done.
  - by rewrite E2.
  - rewrite E2 in H1, H2. cbn in H1, H2. rewrite E3, E4, E5. cbn. split.
    + constructor; [|done]. intros Hin. apply (proj1 (List.Forall_forall _ _) H2) in Hin. lia.
    + constructor; [lia|]. eapply list.Forall_impl; [exact H2|]. cbn. lia.
  - rewrite E2 in H1, H2. cbn in H1, H2. rewrite E3, E4. split.
    + apply (Permutation_NoDup (l := k :: omap fst L' ++ recycled (log m))); [apply Permutation_middle|done].
    + by rewrite <- Permutation_middle.
Qed.

Lemma names_reachable pm w : rtc (step no_refetch) (init_world pm) w -> names_ok w.
Proof. intros H. apply (rtc_effect names_ok _ _ names_step H). split; constructor. Qed.

(** ** Schedules, for examples *)

Inductive act := Call (c : instr) | Run (n : nat) (o : outcome).

Definition perform (ok : instr -> SessionManager -> bool) (a : act) (w : world) : option world :=
  match a with
  | Call c => if is_call c then Some (mkSessWorld (mgr w) ([c] :: threads w)) else None
  | Run n o => match threads w !! n with
               | Some (i :: _) => if ok i (mgr w) then run n o w else None
               | _ => None
               end
  end.

Definition play (ok : instr -> SessionManager -> bool) (acts : list act) (w : world) : option world :=
  fold_left (fun w a => w ← w; perform ok a w) acts (Some w).

Lemma perform_step ok a w w' : perform ok a w = Some w' -> step ok w w'.
Proof.
  destruct w as [m ts]. destruct a as [c|n o]; cbn [perform mgr threads].
  - destruct (is_call c) eqn:E; [|done]. intros [= <-]. by apply step_call.
  - unfold run. cbn [mgr threads]. destruct (ts !! n) as [[|i rest]|] eqn:E; [done| |done].
    destruct (ok i m) eqn:C; [|done]. destruct (exec o i m) as [[[m' more] spawned]|] eqn:X; [|done].
    cbn [mbind option_bind]. intros [= <-]. rewrite <- (take_drop_middle ts n (i :: rest) E) at 1. by apply (step_run _ m _ i rest _ o).
Qed.

Lemma play_rtc ok acts w w' : play ok acts w = Some w' -> rtc (step ok) w w'.
Proof.
  unfold play. assert (G : forall acts w0 w1, rtc (step ok) w0 w1 -> forall w2,
    fold_left (fun w a => w ← w; perform ok a w) acts (Some w1) = Some w2 -> rtc (step ok) w0 w2).
  { clear. induction acts as [|a acts IH]; intros w0 w1 H w2 E; cbn [fold_left] in E; [by injection E as <-|].
    cbn [mbind option_bind] in E. destruct (perform ok a w1) as [w1'|] eqn:P.
    - apply (IH w0 w1'); [|done]. eapply rtc_r; [exact H|by apply (perform_step _ a)].
    - exfalso. clear -E. induction acts as [|a acts IH]; [done|by apply IH]. }
  intros E. by apply (G acts w w).
Qed.

Definition cam (n : Z) : text := txt "3402000000132000000" ++ [0x30 + n].
Definition live (n : Z) : request := mkRequest (cam n) (txt "dev") Live MediaUDP false.
Definition fetch (n : Z) : request := mkRequest (cam n) (txt "dev") Playback MediaUDP false.

(** A call by itself, from its first instruction to its last. *)
Definition alone (c : instr) (n : nat) : list act := Call c :: repeat (Run 0 Ok) n.

Definition two_live : list act := alone (CInvite (live 1)) 7 ++ alone (CInvite (live 2)) 7.

Lemma two_live_plays : exists w, play no_refetch two_live (init_world (mkPortManager 30000 30003 [] 30000)) = Some w /\
  map port (values (sessions (mgr w))) = [30001; 30000].
Proof. eexists. split; [vm_compute; reflexivity|vm_compute; reflexivity]. Qed.

Lemma omap_tok l : omap fst (map tok l) = map sid l.
Proof. induction l as [|s l IH]; [done|]. cbn. by rewrite <- IH. Qed.

(** ** Theorems *)

(** C19: The session manager implements a client of the port pool that gives back
    only what it holds: whatever calls are made, and however they, the accept
    goroutines and the stall watchdog are interleaved, the manager's steps are
    steps of the pool's clients, the ports held there being those of the
    sessions stored, overwritten, or still in the hands of a call (for schedules
    in which no playback is fetched for a channel whose last fetch is still
    stored). *)
Theorem sessions_refine_pool pm w : rtc (step no_refetch) (init_world pm) w ->
  exists c, rtc wstep (mkWorld pm [] 0) c /\ refines w c.
Proof. apply simulated. Qed.

Lemma sessions_refine_pool_witness : exists w c,
  play no_refetch two_live (init_world (mkPortManager 30000 30003 [] 30000)) = Some w /\
  rtc wstep (mkWorld (mkPortManager 30000 30003 [] 30000) [] 0) c /\ refines w c.
Proof.
  destruct two_live_plays as (w & Hw & _). destruct (sessions_refine_pool _ _ (play_rtc _ _ _ _ Hw)) as (c & H).
  exists w, c. exact (conj Hw H).
Defined.

(** C21: No RTP port belongs to two sessions: under any interleaving of calls in which
    no recording is fetched while the channel still has a fetch (a second fetch leaves
    the torn-down one stored, so that its port is given back twice), the ports of the live and playback sessions are pairwise different, within the
    configured range and absent from the recycle channel; a session's port is
    given back at most once, and never while the session is stored. *)
Theorem session_ports_distinct lo hi pm w :
  0 <= lo -> hi < 65536 -> NewPortManager lo hi = Some pm -> rtc (step no_refetch) (init_world pm) w ->
  let stored := values (sessions (mgr w)) ++ values (playbackSessions (mgr w)) in
  List.NoDup (map port stored ++ recycle (portManager (mgr w))) /\
  Forall (fun s => lo <= port s <= hi) stored /\
  List.NoDup (recycled (log (mgr w))) /\
  Forall (fun s => ~ In (sid s) (recycled (log (mgr w)))) stored.
Proof.
  intros Hlo Hhi Hn H stored. destruct (simulated pm w H) as (c & Hc & R1 & R2 & R3).
  assert (Hse : start pm = lo /\ end_ pm = hi).
  { unfold NewPortManager in Hn. destruct (hi <? lo); [done|]. by injection Hn as <-. }
  destruct Hse as [<- <-]. pose proof (reachable_ok pm c Hlo Hhi Hn Hc) as (P1 & P2 & P3 & P4).
  destruct (wstep_bounds _ _ Hc) as [B1 B2]. cbn [PortManager.pool] in B1, B2. rewrite B1, B2, R1, R2 in *.
  assert (D : map snd (tokens w) ++ recycle (portManager (mgr w)) ≡ₚ
              (map snd (flat_map tokens_of (threads w)) ++ map port (overwritten (mgr w))) ++
              (map port stored ++ recycle (portManager (mgr w)))).
  { unfold tokens, kept, stored. rewrite !map_app, !map_map. cbn [tok snd]. solve_Permutation. }
  assert (Hnd : List.NoDup (map snd (tokens w) ++ recycle (portManager (mgr w)))).
  { eapply Permutation_NoDup; [symmetry; exact P4|apply handed_out_NoDup]. }
  destruct (names_reachable pm w H) as [N1 _].
  assert (D2 : omap fst (tokens w) ++ recycled (log (mgr w)) ≡ₚ
               (omap fst (flat_map tokens_of (threads w)) ++ map sid (overwritten (mgr w))) ++
               (map sid stored ++ recycled (log (mgr w)))).
  { unfold tokens, kept, stored. rewrite omap_app, omap_tok, !map_app. solve_Permutation. }
  apply (Permutation_NoDup D2), NoDup_app_remove_l in N1. apply (Permutation_NoDup D), NoDup_app_remove_l in Hnd.
  split; [exact Hnd|]. split; [|split].
  - apply List.Forall_forall. intros s Hs. assert (Hin : In (port s) (handed_out (portManager (mgr w)))).
    { apply (Permutation_in _ P4), (Permutation_in _ (symmetry D)), in_or_app. right. apply in_or_app. left. by apply in_map. }
    apply handed_out_range in Hin; lia.
  - by apply NoDup_app_remove_l in N1.
  - apply List.Forall_forall. intros s Hs Hin. apply NoDup_ListNoDup, list.NoDup_app in N1 as (_ & N & _).
    apply (N (sid s)); apply list_elem_of_In; [by apply in_map|done].
Qed.

Lemma session_ports_distinct_witness : exists w,
  play no_refetch two_live (init_world (mkPortManager 30000 30003 [] 30000)) = Some w /\
  List.NoDup (map port (values (sessions (mgr w)) ++ values (playbackSessions (mgr w))) ++ recycle (portManager (mgr w))).
Proof.
  destruct two_live_plays as (w & Hw & _). exists w. split; [exact Hw|].
  apply (session_ports_distinct 30000 30003 (mkPortManager 30000 30003 [] 30000) w);
    [lia|lia|done|exact (play_rtc _ _ _ _ Hw)].
Defined.

(** ** What a teardown does, and in which order *)

Definition byes (l : list event) : list nat :=
  omap (fun e => match e with EvBye s => Some s | _ => None end) l.

(** In a thread, a recycling that is to be announced follows the BYE. *)
Fixpoint told_ok (said : list nat) (t : list instr) : Prop :=
  match t with
  | [] => True
  | IBye s :: t' => told_ok (sid s :: said) t'
  | IRecycle s true :: t' => In (sid s) said /\ told_ok said t'
  | _ :: t' => told_ok said t'
  end.

(** The log's order: an announced recycling comes after the BYE, a connection
    is attached to no closed session. *)
Definition log_ok (l : list event) : Prop :=
  forall later e earlier, l = later ++ e :: earlier ->
    match e with
    | EvRecycled s true => In (EvBye s) earlier
    | EvAttached s => ~ In (EvClosed s) earlier
    | _ => True
    end.

Definition order_ok (w : world) : Prop :=
  log_ok (log (mgr w)) /\ (forall n, In (EvClosed n) (log (mgr w)) -> n ∈ closed (mgr w)) /\
  Forall (told_ok (byes (log (mgr w)))) (threads w).

Lemma told_mono said said' t : (forall n, In n said -> In n said') -> told_ok said t -> told_ok said' t.
Proof.
  revert said said'. induction t as [|i t IH]; intros said said' H Ht; [done|].
  destruct i as [| | | | | | | | | | | | | | | |s| |s told| |]; cbn [told_ok] in *; try (by apply (IH said)).
  - apply (IH (sid s :: said)); [|done]. intros n [->|Hn]; [by left|by right; apply H].
  - destruct told; [|by apply (IH said)]. destruct Ht as [H1 H2]. split; [by apply H|by apply (IH said)].
Qed.

(** Code that recycles only what it has announced itself. *)
Definition self_told (l : list instr) : Prop := forall said rest, told_ok said rest -> told_ok said (l ++ rest).

Lemma self_told_nil : self_told [].
Proof. by intros said rest H. Qed.

Lemma self_told_teardowns (f : session -> list instr) l : (forall s, self_told (f s)) -> self_told (flat_map f l).
Proof.
  intros H. induction l as [|s l IH]; [apply self_told_nil|]. intros said rest Hr. cbn [flat_map].
  rewrite <- app_assoc. by apply H, IH.
Qed.

Lemma self_told_bye s reset : self_told (IBye s :: teardown s true reset).
Proof.
  intros said rest H. unfold teardown. destruct reset; cbn [app told_ok];
    (split; [by left|]); apply (told_mono said); try done; by right.
Qed.

Lemma log_ok_cons e l : log_ok l ->
  match e with EvRecycled s true => In (EvBye s) l | EvAttached s => ~ In (EvClosed s) l | _ => True end ->
  log_ok (e :: l).
Proof. intros H He [|e' later] e0 earlier E; injection E as -> ->; [done|by apply (H later)]. Qed.

Lemma byes_In n l : In n (byes l) -> In (EvBye n) l.
Proof.
  unfold byes. induction l as [|e l IH]; [done|]. cbn. destruct e as [s|s|s|s t]; cbn; intros H; try (right; by apply IH).
  destruct H as [->|H]; [by left|right; by apply IH].
Qed.

(** What the log's order needs of an instruction and the rest of its thread. *)
Definition keeps_order (m m' : SessionManager) (more : list instr) (spawned : list (list instr)) (rest : list instr) : Prop :=
  log_ok (log m') /\ (forall n, In (EvClosed n) (log m') -> n ∈ closed m') /\
  Forall (told_ok (byes (log m'))) ((more ++ rest) :: spawned) /\ (forall n, In n (byes (log m)) -> In n (byes (log m'))).

Section OneInstruction.
Context (m : SessionManager) (rest : list instr).
Hypothesis Hlog : log_ok (log m).
Hypothesis Hclosed : forall n, In (EvClosed n) (log m) -> n ∈ closed m.

Lemma order_quiet m' more spawned : log m' = log m -> closed m' = closed m -> self_told more ->
  told_ok (byes (log m)) rest -> Forall (Forall (fun i => match i with IAccept _ => True | _ => False end)) spawned ->
  keeps_order m m' more spawned rest.
Proof.
  intros E1 E2 Hm Hr Hs. unfold keeps_order. rewrite E1, E2. split; [done|]. split; [done|]. split; [|done].
  constructor; [by apply Hm|]. eapply list.Forall_impl; [exact Hs|]. intros t Ht.
  induction Ht as [|i t Hi _ IH]; [done|]. by destruct i.
Qed.

(** One entry of the log, which closes the session if it says so. *)
Lemma order_logs e m' more : log m' = e :: log m ->
  closed m' = match e with EvClosed n => {[n]} ∪ closed m | _ => closed m end -> self_told more ->
  match e with EvRecycled s true => In (EvBye s) (log m) | EvAttached s => ~ In (EvClosed s) (log m) | _ => True end ->
  told_ok (byes (e :: log m)) rest -> keeps_order m m' more [] rest.
Proof.
  intros E1 E2 Hm He Hr. unfold keeps_order. rewrite E1, E2. split; [by apply log_ok_cons|]. split.
  - intros n [->|Hn]; [by apply elem_of_union_l, elem_of_singleton|]. apply Hclosed in Hn.
    by destruct e; try apply elem_of_union_r.
  - split; [by constructor; [apply Hm|]|]. intros n Hn. destruct e; cbn; try done. by right.
Qed.
End OneInstruction.

Ltac self_told_list :=
  intros ? ? ?; cbn [app teardown told_ok];
  repeat first [ done | split; [by left|] | eapply told_mono; [|eassumption]; intros ? ?; by right ].

Lemma exec_order o i m m' more spawned rest : exec o i m = Some (m', more, spawned) ->
  told_ok (byes (log m)) (i :: rest) -> log_ok (log m) -> (forall n, In (EvClosed n) (log m) -> n ∈ closed m) ->
  keeps_order m m' more spawned rest.
Proof.
  intros H T L C.
  destruct i as [rq|rq|ch|ch|dev| | |ch|ch|rq|rq|rq p|rq s|s|s old new|s|s|s|s told|s|s]; unfold_exec H; cbn [told_ok] in T.
  - destruct (sessions m !! rq_channel rq); injection H as <- <- <-; apply order_quiet; try done; self_told_list.
  - destruct (playbackSessions m !! rq_channel rq); injection H as <- <- <-; apply order_quiet; try done; self_told_list.
  - destruct (sessions m !! ch); injection H as <- <- <-; apply order_quiet; try done; self_told_list.
  - destruct (playbackSessions m !! ch); injection H as <- <- <-; apply order_quiet; try done; self_told_list.
  - destruct o; [done|done|]. destruct (exactly _ _ _); [|done]. destruct (pull _ _) as [l r]. injection H as <- <- <-.
    apply order_quiet; try done. apply self_told_teardowns. intros s. self_told_list.
  - destruct o; [done|done|]. destruct (pull _ _) as [l r]. injection H as <- <- <-.
    apply order_quiet; try done. apply self_told_teardowns. intros s. apply self_told_bye.
  - destruct o; [done|done|]. destruct (stop_union _ _ _) as [all lost]. destruct (exactly _ _ all); [|done].
    destruct (pull _ _) as [l r]. injection H as <- <- <-.
    apply order_quiet; try done. apply self_told_teardowns. intros s. self_told_list.
  - destruct (sessions m !! ch); injection H as <- <- <-; apply order_quiet; try done; self_told_list.
  - destruct (sessions m !! ch); injection H as <- <- <-; apply order_quiet; try done; self_told_list.
  - destruct (get_recycled _) as [[p pm]|]; injection H as <- <- <-; apply order_quiet; try done; self_told_list.
  - destruct (get_bumped _) as [[p pm]|]; injection H as <- <- <-; apply order_quiet; try done; self_told_list.
  - injection H as <- <- <-; apply order_quiet; try done; self_told_list.
  - destruct (decide (rq_kind rq = Live)); [destruct (bool_decide _); [|destruct (bool_decide _)]|];
      try destruct o; try destruct (rq_multicast rq); injection H as <- <- <-; apply order_quiet; try done;
      try self_told_list; by repeat constructor.
  - destruct (decide (skind s = Live)); destruct (put _ _ _) as [ss l]; injection H as <- <- <-;
      apply order_quiet; try done; self_told_list.
  - destruct (decide _); injection H as <- <- <-; apply order_quiet; try done; self_told_list.
  - injection H as <- <- <-; apply order_quiet; try done; self_told_list.
  - injection H as <- <- <-. by apply (order_logs m rest L C (EvBye (sid s))); [| |self_told_list| |].
  - injection H as <- <- <-. by apply (order_logs m rest L C (EvClosed (sid s))); [| |self_told_list| |].
  - injection H as <- <- <-. apply (order_logs m rest L C (EvRecycled (sid s) told)); [done|done|self_told_list| |].
    + destruct told; [|done]. by apply byes_In, T.
    + destruct told; [apply T|done].
  - assert (Hc : forall m1 more1, log m1 = EvClosed (sid s) :: log m -> closed m1 = {[sid s]} ∪ closed m -> self_told more1 ->
      keeps_order m m1 more1 [] rest).
    { intros m1 more1 E1 E2 E3. by apply (order_logs m rest L C (EvClosed (sid s))). }
    destruct o; [destruct (decide _) as [|Hn]; injection H as <- <- <-| |].
    + apply order_quiet; try done; self_told_list.
    + apply (order_logs m rest L C (EvAttached (sid s))); [done|done|self_told_list| |done]. by intros Hin%C.
    + destruct (sessions m !! channelID s) as [cur|]; [destruct (decide (cur = s))|];
        injection H as <- <- <-; apply Hc; try done; self_told_list.
    + destruct (sessions m !! channelID s) as [cur|]; [destruct (decide (cur = s))|];
        injection H as <- <- <-; apply Hc; try done; self_told_list.
  - destruct o; [destruct (decide _) as [|Hn]; injection H as <- <- <-| |].
    + apply order_quiet; try done; self_told_list.
    + apply (order_logs m rest L C (EvAttached (sid s))); [done|done|self_told_list| |done]. by intros Hin%C.
    + injection H as <- <- <-; apply order_quiet; try done; self_told_list.
    + injection H as <- <- <-; apply order_quiet; try done; self_told_list.
Qed.

Lemma order_step ok w w' : step ok w w' -> order_ok w -> order_ok w'.
Proof.
  intros S (L & C & T). destruct S as [m ts c Hc|m t1 i rest t2 o m' more spawned _ E]; cbn [mgr threads] in *.
  - split; [done|]. split; [done|]. constructor; [|done]. by destruct c.
  - apply Forall_app in T as [T1 T2]. apply list.Forall_cons in T2 as [T2 T3].
    destruct (exec_order _ _ _ _ _ _ rest E T2 L C) as (L' & C' & T' & M). split; [done|]. split; [done|].
    apply list.Forall_cons in T' as [Ta Tb]. cbn [mgr threads].
    assert (W : forall ts, Forall (told_ok (byes (log m))) ts -> Forall (told_ok (byes (log m'))) ts).
    { intros ts H. eapply list.Forall_impl; [exact H|]. intros t. by apply told_mono. }
    apply Forall_app. split; [by apply W|]. constructor; [done|]. apply Forall_app. split; [by apply W|done].
Qed.

(** C23: A session is torn down in the order the device relies on, under every
    schedule: when a call gives back the port of a session it took out of the
    maps by [Bye], [ByePlayback], a replacing [Invite], the stall watchdog or an
    accept that failed, the BYE has been sent before; and no media connection
    is ever attached to a session after its teardown began. *)
Theorem teardown_ordered pm w later e earlier :
  rtc (step any_schedule) (init_world pm) w -> log (mgr w) = later ++ e :: earlier ->
  match e with
  | EvRecycled s told => told = true -> In (EvBye s) earlier
  | EvAttached s => ~ In (EvClosed s) earlier
  | _ => True
  end.
Proof.
  intros H E. assert (G : order_ok w).
  { assert (I : order_ok (init_world pm)) by (split; [by intros [|? ?]|by split; [|constructor]]).
    revert I. clear E. induction H as [|a b c S _ IH]; [done|]. intros I. by apply IH, (order_step _ _ _ S). }
  destruct G as (L & _). specialize (L later e earlier E). destruct e as [s|s|s|s t]; try done. by intros ->.
Qed.

Lemma teardown_ordered_witness : exists w later,
  play any_schedule (alone (CInvite (live 1)) 7 ++ alone (CBye (cam 1)) 5) (init_world (mkPortManager 30000 30003 [] 30000)) = Some w /\
  log (mgr w) = later ++ EvRecycled 0 true :: [EvClosed 0; EvBye 0] /\ In (EvBye 0) [EvClosed 0; EvBye 0].
Proof.
  set (pm := mkPortManager 30000 30003 [] 30000).
  assert (H : exists w, play any_schedule (alone (CInvite (live 1)) 7 ++ alone (CBye (cam 1)) 5) (init_world pm) = Some w /\
    log (mgr w) = EvRecycled 0 true :: [EvClosed 0; EvBye 0]) by (eexists; split; vm_compute; reflexivity).
  destruct H as (w & Hw & Hl). exists w, []. split; [exact Hw|]. split; [exact Hl|].
  exact (teardown_ordered pm w [] (EvRecycled 0 true) _ (play_rtc _ _ _ _ Hw) Hl eq_refl).
Defined.

(** ** Every call comes to its end *)

(** A bound on the instructions still to run. *)
Definition weight_instr (i : instr) : nat :=
  match i with
  | CInvite _ => 12
  | CInviteFetch _ => 14
  | IGet _ => 11
  | IBump _ => 10
  | ISeq _ _ => 9
  | IOpen _ _ => 8
  | IInstall _ => 5
  | CMarkPlaying _ | CConnectActiveTCP _ => 2
  | _ => 1
  end.

Definition weight_thread (t : list instr) : nat := list_sum (map weight_instr t).

(** A stored session may still cost a teardown of four instructions. *)
Definition weight_stored (m : SessionManager) : nat := 4 * (size (sessions m) + size (playbackSessions m)).

Definition weight (w : world) : nat := list_sum (map weight_thread (threads w)) + weight_stored (mgr w).

Lemma size_values m : length (values m) = size m.
Proof. unfold values. by rewrite length_map, length_map_to_list. Qed.

Lemma weight_app a b : weight_thread (a ++ b) = (weight_thread a + weight_thread b)%nat.
Proof. unfold weight_thread. by rewrite map_app, list_sum_app. Qed.

Lemma weight_teardowns (f : session -> list instr) n l : (forall s, weight_thread (f s) = n) ->
  weight_thread (flat_map f l) = (n * length l)%nat.
Proof. intros H. induction l as [|s l IH]; [by rewrite Nat.mul_0_r|]. cbn [flat_map length]. rewrite weight_app, H, IH. lia. Qed.

Lemma size_pull keys m l m' : pull keys m = (l, m') -> (length l + size m' = size m)%nat.
Proof. intros H%pull_values%Permutation_length. by rewrite length_app, !size_values in H. Qed.

Lemma size_delete_in (m : gmap text session) k s : m !! k = Some s -> size m = S (size (delete k m)).
Proof. intros H. pose proof (Permutation_length (values_delete m k s H)) as L. by rewrite size_values in L; cbn in L; rewrite size_values in L. Qed.

Lemma size_put k s ml : (size (fst (put k s ml)) <= S (size (fst ml)))%nat.
Proof.
  unfold put. cbn [fst]. destruct (fst ml !! k) as [x|] eqn:E; [|by rewrite map_size_insert_None].
  rewrite map_size_insert_Some; [lia|by exists x].
Qed.

Lemma size_stop_union live playback lost :
  (size (fst (stop_union live playback lost)) <= size live + size playback)%nat.
Proof.
  unfold stop_union. rewrite <- (length_map_to_list playback). induction (map_to_list playback) as [|[k s] l IH]; [simpl; lia|].
  cbn [foldr length fst snd]. etrans; [apply size_put|]. lia.
Qed.

(** Every instruction makes the bound smaller. *)
Lemma exec_weight o i m m' more spawned : exec o i m = Some (m', more, spawned) ->
  (weight_thread more + list_sum (map weight_thread spawned) + weight_stored m' < weight_instr i + weight_stored m)%nat.
Proof.
  intros H. unfold weight_stored.
  destruct i as [rq|rq|ch|ch|dev| | |ch|ch|rq|rq|rq p|rq s|s|s old new|s|s|s|s told|s|s]; unfold_exec H.
  - destruct (sessions m !! rq_channel rq) as [s|] eqn:E; injection H as <- <- <-; simpl; [|lia].
    apply size_delete_in in E. lia.
  - destruct (playbackSessions m !! rq_channel rq) as [s|]; injection H as <- <- <-; simpl; lia.
  - destruct (sessions m !! ch) as [s|] eqn:E; injection H as <- <- <-; simpl; [|lia]. apply size_delete_in in E. lia.
  - destruct (playbackSessions m !! ch) as [s|] eqn:E; injection H as <- <- <-; simpl; [|lia]. apply size_delete_in in E. lia.
  - destruct o as [| |keys]; [done|done|]. destruct (exactly _ _ _); [|done]. destruct (pull _ _) as [l r] eqn:E. injection H as <- <- <-.
    rewrite (weight_teardowns _ 3) by done. apply size_pull in E. simpl. lia.
  - destruct o as [| |keys]; [done|done|]. destruct (pull _ _) as [l r] eqn:E. injection H as <- <- <-.
    rewrite (weight_teardowns _ 4) by done. apply size_pull in E. simpl. lia.
  - destruct o as [| |keys]; [done|done|]. pose proof (size_stop_union (sessions m) (playbackSessions m) (overwritten m)) as U.
    destruct (stop_union _ _ _) as [all lost]. cbn [fst] in U. destruct (exactly _ _ all); [|done].
    destruct (pull _ _) as [l r] eqn:E. injection H as <- <- <-.
    rewrite (weight_teardowns _ 3) by done. apply size_pull in E. simpl. rewrite map_size_empty. lia.
  - destruct (sessions m !! ch); injection H as <- <- <-; simpl; lia.
  - destruct (sessions m !! ch); injection H as <- <- <-; simpl; lia.
  - destruct (get_recycled _) as [[p pm]|]; injection H as <- <- <-; simpl; lia.
  - destruct (get_bumped _) as [[p pm]|]; injection H as <- <- <-; simpl; lia.
  - injection H as <- <- <-; simpl; lia.
  - destruct (decide (rq_kind rq = Live)); [destruct (bool_decide _); [|destruct (bool_decide _)]|];
      try destruct o; try destruct (rq_multicast rq); injection H as <- <- <-; simpl; lia.
  - destruct (decide (skind s = Live)).
    + pose proof (size_put (channelID s) s (sessions m, overwritten m)) as P.
      destruct (put _ _ _) as [ss l]. injection H as <- <- <-. simpl in *. lia.
    + pose proof (size_put (channelID s) s (playbackSessions m, overwritten m)) as P.
      destruct (put _ _ _) as [ss l]. injection H as <- <- <-. simpl in *. lia.
  - destruct (decide _); injection H as <- <- <-; simpl; lia.
  - injection H as <- <- <-; simpl; lia.
  - injection H as <- <- <-; simpl; lia.
  - injection H as <- <- <-; simpl; lia.
  - injection H as <- <- <-; simpl; lia.
  - destruct o; [destruct (decide _); injection H as <- <- <-; simpl; lia|..];
      (destruct (sessions m !! channelID s) as [cur|] eqn:E; [destruct (decide (cur = s))|];
       injection H as <- <- <-; simpl; try lia; apply size_delete_in in E; lia).
  - destruct o; [destruct (decide _)|..]; injection H as <- <- <-; simpl; lia.
Qed.

(** A step of a pending call: no new call is made. *)
Definition pending_step (w w' : world) : Prop := exists n o, run n o w = Some w'.

Lemma pending_weight w w' : pending_step w w' -> (weight w' < weight w)%nat.
Proof.
  intros (n & o & H). unfold run in H. destruct w as [m ts]. cbn [threads mgr] in H.
  destruct (ts !! n) as [[|i rest]|] eqn:E; [done| |done].
  destruct (exec o i m) as [[[m' more] spawned]|] eqn:X; [|done]. injection H as <-.
  pose proof (exec_weight _ _ _ _ _ _ X) as Hw. unfold weight. cbn [threads mgr].
  pose proof (take_drop_middle ts n (i :: rest) E) as Hts. revert Hts. clear E.
  generalize (take n ts), (drop (S n) ts). intros t1 t2 <-.
  rewrite !map_app, !list_sum_app. cbn [map list_sum foldr]. rewrite map_app.
  unfold list_sum in *. rewrite foldr_app.
  assert (A : forall l k, foldr Nat.add k l = (foldr Nat.add 0 l + k)%nat).
  { clear. induction l as [|x l IH]; intros k; cbn [foldr]; [done|]. rewrite IH. lia. }
  rewrite (A _ (foldr _ _ (map weight_thread spawned))), weight_app.
  change (weight_thread (i :: rest)) with (weight_instr i + weight_thread rest)%nat. lia.
Qed.

(** Every instruction has an outcome. *)
Lemma exec_total i m : exists o r, exec o i m = Some r.
Proof.
  assert (K : forall P (m : gmap text session), exactly (elements (dom (filter (fun ks => P (snd ks) = true) m))) P m = true).
  { intros P m0. unfold exactly. apply bool_decide_eq_true. apply list_to_set_elements_L. }
  destruct i as [rq|rq|ch|ch|dev| | |ch|ch|rq|rq|rq p|rq s|s|s old new|s|s|s|s told|s|s]; unfold_exec_goal.
  5:{ eexists (Order _). rewrite K. destruct (pull _ _). by eexists. }
  5:{ exists (Order []). by eexists. }
  5:{ destruct (stop_union _ _ _) as [all lost]. eexists (Order _). rewrite K. destruct (pull _ _). by eexists. }
  all: exists Ok; repeat case_match; by eexists.
Qed.

(** Every call of the session manager comes to its end under every schedule:
    pending calls, with the goroutines they start, run at most [weight]
    instructions however they are interleaved, and until all are finished one
    of them can run; with no calls left no thread has an instruction. *)
Theorem calls_terminate n w w' : nsteps pending_step n w w' ->
  (n <= weight w)%nat /\
  ((forall w'', ~ pending_step w' w'') <-> Forall (fun t => t = []) (threads w')).
Proof.
  intros H. split.
  - induction H as [w|n w w1 w2 S _ IH]; [lia|]. apply pending_weight in S. lia.
  - split.
    + intros N. apply List.Forall_forall. intros t Ht. destruct t as [|i rest]; [done|]. exfalso.
      apply list_elem_of_In, list_elem_of_lookup in Ht as [k Hk]. destruct (exec_total i (mgr w')) as (o & [[m' more] spawned] & X).
      eapply N. exists k, o. unfold run. rewrite Hk, X. reflexivity.
    + intros F w'' (k & o & R). unfold run in R. destruct (threads w' !! k) as [t|] eqn:E; [|done].
      apply list_elem_of_lookup_2, list_elem_of_In in E. apply (proj1 (List.Forall_forall _ _) F) in E. by subst t.
Qed.

(** Runs the first thread, for the witness. *)
Fixpoint run_first (n : nat) (w : world) : option world :=
  match n with O => Some w | S n' => w' ← run 0 Ok w; run_first n' w' end.

Lemma run_first_nsteps n w w' : run_first n w = Some w' -> nsteps pending_step n w w'.
Proof.
  revert w. induction n as [|n IH]; intros w H; cbn [run_first] in H; [injection H as ->; constructor|].
  destruct (run 0 Ok w) as [w1|] eqn:E; [|done]. eapply nsteps_l; [by exists 0%nat, Ok|by apply IH].
Qed.

Lemma calls_terminate_witness :
  let w := mkSessWorld (NewSessionManager (mkPortManager 30000 30003 [] 30000)) [[CInvite (live 1)]] in
  exists w', run_first 7 w = Some w' /\ weight w = 12%nat /\ (7 <= weight w)%nat /\ (forall w'', ~ pending_step w' w'').
Proof.
  intros w.
  assert (H : exists w', run_first 7 w = Some w' /\ threads w' = [[]]) by (eexists; split; vm_compute; reflexivity).
  destruct H as (w' & Hr & Ht). destruct (calls_terminate 7 w w' (run_first_nsteps _ _ _ Hr)) as [H1 H2].
  exists w'. split; [exact Hr|]. split; [vm_compute; reflexivity|]. split; [exact H1|].
  apply H2. rewrite Ht. constructor; [reflexivity|constructor].
Defined.

(** ** Ports in balance *)

(** Between calls no port is lost: once the pending calls have finished, the
    ports handed out so far are exactly those of the stored sessions, of the
    sessions a concurrent [Invite] overwrote, and of the recycle channel. *)
Theorem ports_balance pm lo hi w :
  0 <= lo -> hi < 65536 -> NewPortManager lo hi = Some pm -> rtc (step no_refetch) (init_world pm) w ->
  Forall (fun t => t = []) (threads w) ->
  map port (kept (mgr w)) ++ recycle (portManager (mgr w)) ≡ₚ handed_out (portManager (mgr w)) /\
  (sessions (mgr w) = ∅ -> playbackSessions (mgr w) = ∅ -> overwritten (mgr w) = [] ->
     recycle (portManager (mgr w)) ≡ₚ handed_out (portManager (mgr w))).
Proof.
  intros Hlo Hhi Hn H F. destruct (simulated pm w H) as (c & Hc & R1 & R2 & R3).
  assert (Hse : start pm = lo /\ end_ pm = hi).
  { unfold NewPortManager in Hn. destruct (hi <? lo); [done|]. by injection Hn as <-. }
  destruct Hse as [<- <-]. pose proof (reachable_ok pm c Hlo Hhi Hn Hc) as (P1 & P2 & P3 & P4).
  rewrite R1, R2 in P4.
  assert (T : flat_map tokens_of (threads w) = []) by (induction F as [|t ts -> _ IH]; [done|exact IH]).
  unfold tokens in P4. rewrite T in P4. cbn [app] in P4. rewrite map_map in P4. cbn [tok snd] in P4.
  split; [exact P4|]. intros E1 E2 E3. unfold kept in P4. by rewrite E1, E2, E3 in P4.
Qed.

Lemma ports_balance_witness : exists w,
  play no_refetch (two_live ++ alone (CBye (cam 2)) 5) (init_world (mkPortManager 30000 30003 [] 30000)) = Some w /\
  map port (kept (mgr w)) ++ recycle (portManager (mgr w)) ≡ₚ handed_out (portManager (mgr w)).
Proof.
  set (pm := mkPortManager 30000 30003 [] 30000).
  assert (H : exists w, play no_refetch (two_live ++ alone (CBye (cam 2)) 5) (init_world pm) = Some w /\
    threads w = [[]; []; []]) by (eexists; split; vm_compute; reflexivity).
  destruct H as (w & Hw & Ht). exists w. split; [exact Hw|].
  apply (ports_balance pm 30000 30003 w); [lia|lia|done|exact (play_rtc _ _ _ _ Hw)|].
  rewrite Ht. repeat constructor.
Defined.

(** ** Two faults *)

(** A fetch, a second one for the channel that cannot bind its socket, the BYE of
    the first, and two live sessions. *)
Definition refetch : list act :=
  alone (CInviteFetch (fetch 1)) 6 ++
  Call (CInviteFetch (fetch 1)) :: repeat (Run 0 Ok) 5 ++ [Run 0 Failed; Run 0 Ok] ++
  alone (CByePlayback (cam 1)) 4 ++ alone (CInvite (live 2)) 6 ++ alone (CInvite (live 3)) 6.

(** [inviteFetch] tears a channel's previous fetch down but leaves it stored:
    when the new fetch then fails, the next [ByePlayback] gives the same port
    back a second time, and two live sessions of different channels are put on
    one port. *)
Theorem refetch_shares_port : exists w s2 s3,
  play any_schedule refetch (init_world (mkPortManager 30000 30003 [] 30000)) = Some w /\
  Forall (fun t => t = []) (threads w) /\
  sessions (mgr w) !! cam 2 = Some s2 /\ sessions (mgr w) !! cam 3 = Some s3 /\
  sid s2 <> sid s3 /\ port s2 = port s3 /\ playbackSessions (mgr w) = ∅.
Proof.
  assert (C : match play any_schedule refetch (init_world (mkPortManager 30000 30003 [] 30000)) with
    | Some w => forallb (fun t => Nat.eqb (length t) 0) (threads w) &&
                match sessions (mgr w) !! cam 2, sessions (mgr w) !! cam 3 with
                | Some s2, Some s3 => negb (Nat.eqb (sid s2) (sid s3)) && (port s2 =? port s3) &&
                                      Nat.eqb (size (playbackSessions (mgr w))) 0
                | _, _ => false
                end
    | None => false
    end = true) by (vm_compute; reflexivity).
  destruct (play _ _ _) as [w|] eqn:E; [|discriminate C]. apply andb_true_iff in C as [C1 C2].
  destruct (sessions (mgr w) !! cam 2) as [s2|] eqn:E2; [|discriminate C2].
  destruct (sessions (mgr w) !! cam 3) as [s3|] eqn:E3; [|discriminate C2].
  rewrite !andb_true_iff, negb_true_iff, Nat.eqb_neq, Z.eqb_eq, Nat.eqb_eq, map_size_empty_iff in C2. destruct C2 as [[C2 C3] C4].
  exists w, s2, s3. split; [reflexivity|]. split; [|exact (conj E2 (conj E3 (conj C2 (conj C3 C4))))].
  apply List.Forall_forall. intros t Ht. apply (proj1 (forallb_forall _ _) C1) in Ht. by destruct t.
Qed.

(** Two concurrent [Invite]s of a channel: the first one's session is overwritten,
    with its receiver running and its port held. *)
Example concurrent_invites :
  match play no_refetch ([Call (CInvite (live 1)); Call (CInvite (live 1))] ++ concat (repeat [Run 0 Ok; Run 1 Ok] 7))
          (init_world (mkPortManager 30000 30003 [] 30000)) with
  | Some w => (map port (values (sessions (mgr w))), map port (overwritten (mgr w)))
  | None => ([], [])
  end = ([30001], [30000]).
Proof. vm_compute. reflexivity. Qed.

(** A playing channel whose re-[Invite] cannot bind its socket: the session is
    gone and the channel's status stays [ChannelPlaying]. *)
Example failed_reinvite_plays :
  match play no_refetch (alone (CInvite (live 1)) 7 ++ alone (CMarkPlaying (cam 1)) 2 ++
                         Call (CInvite (live 1)) :: repeat (Run 0 Ok) 6 ++ [Run 0 Failed; Run 0 Ok])
          (init_world (mkPortManager 30000 30003 [] 30000)) with
  | Some w => (size (sessions (mgr w)), status_of (mgr w) (cam 1), map (fun t => length t) (threads w))
  | None => (9%nat, ChannelIdle, [])
  end = (0%nat, ChannelPlaying, [0%nat; 0%nat; 0%nat]).
Proof. vm_compute. reflexivity. Qed.
