(* ===== verification/FrameHub.v ===== *)
(** The frame hub ([platform/framehub.go]): subscription, non-blocking fan-out
    with drop-on-full and the delivery goroutine of each consumer, as a step
    relation. Video and audio consumers have the same code, so the hub is
    written once, for frames of any type [F].

    Each step is one action under the hub's mutex or one channel operation, and
    steps of different goroutines interleave freely. Broadcasts do not overlap
    each other (the receiver calls the hub under its own mutex). Consumers are
    numbered in the order they subscribed; a name can be used again after
    [Unsubscribe], for a new consumer. *)

From S2P Require Import Prelude GoStrings.
Open Scope Z_scope.

Definition frameHubQueueSize : nat := 150.

Section hub.
Context {F : Type}.
Implicit Types (f : F).

(** A consumer: its channel, what its callback was called with, whether [done]
    is closed and the goroutine gone; the last three are what the theorems talk
    about: the frames offered to it, how many found the channel full, and how
    many broadcasts there had been when it subscribed. *)
Record consumer := mkConsumer {
  ch : list F;
  delivered : list F;
  done_closed : bool;
  exited : bool;
  offered : list F;
  lost : nat;
  since : nat;
}.

(** [consumers] maps names to consumers; [closing] are those between
    [Unsubscribe]'s unlock and its [close(c.done)]; [sending] is the broadcast
    in progress with the consumers still to be served; [log] is every frame
    broadcast so far. *)
Record FrameHub := mkFrameHub {
  consumers : gmap text nat;
  objs : list consumer;
  closing : list nat;
  sending : option (list nat * F);
  dropped : Z;
  log : list F;
}.

Definition NewFrameHub : FrameHub := mkFrameHub ∅ [] [] None 0 [].

Definition with_obj (h : nat) (c : consumer) (s : FrameHub) : FrameHub :=
  mkFrameHub (consumers s) (<[h := c]> (objs s)) (closing s) (sending s) (dropped s) (log s).

(** [Subscribe]; [None] is the error for a name in use. *)
Definition Subscribe (name : text) (s : FrameHub) : option FrameHub :=
  match consumers s !! name with
  | Some _ => None
  | None =>
      Some (mkFrameHub (<[name := length (objs s)]> (consumers s))
              (objs s ++ [mkConsumer [] [] false false [] 0 (length (log s))])
              (closing s) (sending s) (dropped s) (log s))
  end.

(** The part of [Unsubscribe] under the mutex. *)
Definition Unsubscribe (name : text) (s : FrameHub) : FrameHub :=
  match consumers s !! name with
  | Some h => mkFrameHub (delete name (consumers s)) (objs s) (h :: closing s) (sending s) (dropped s) (log s)
  | None => s
  end.

(** The snapshot [Broadcast] takes; [order] is the order the map is ranged in. *)
Definition start_broadcast (order : list nat) f (s : FrameHub) : FrameHub :=
  mkFrameHub (consumers s) (objs s) (closing s) (Some (order, f)) (dropped s) (log s ++ [f]).

(** The [select] with a default case for one consumer. *)
Definition offer (h : nat) (rest : list nat) f (c : consumer) (s : FrameHub) : FrameHub :=
  if Nat.ltb (length (ch c)) frameHubQueueSize then
    mkFrameHub (consumers s)
      (<[h := mkConsumer (ch c ++ [f]) (delivered c) (done_closed c) (exited c) (offered c ++ [f]) (lost c) (since c)]>
         (objs s)) (closing s) (Some (rest, f)) (dropped s) (log s)
  else
    mkFrameHub (consumers s)
      (<[h := mkConsumer (ch c) (delivered c) (done_closed c) (exited c) (offered c ++ [f]) (S (lost c)) (since c)]>
         (objs s)) (closing s) (Some (rest, f)) (dropped s + 1) (log s).

Inductive hstep : FrameHub -> FrameHub -> Prop :=
  | do_subscribe s name s' : Subscribe name s = Some s' -> hstep s s'
  | do_unsubscribe s name : hstep s (Unsubscribe name s)
  | do_close s h c l1 l2 :
      closing s = l1 ++ h :: l2 -> objs s !! h = Some c ->
      hstep s (with_obj h (mkConsumer (ch c) (delivered c) true (exited c) (offered c) (lost c) (since c))
                 (mkFrameHub (consumers s) (objs s) (l1 ++ l2) (sending s) (dropped s) (log s)))
  | do_broadcast s order f :
      sending s = None -> order ≡ₚ map snd (map_to_list (consumers s)) ->
      hstep s (start_broadcast order f s)
  | do_offer s h rest f c :
      sending s = Some (h :: rest, f) -> objs s !! h = Some c -> hstep s (offer h rest f c s)
  | do_return s f :
      sending s = Some ([], f) ->
      hstep s (mkFrameHub (consumers s) (objs s) (closing s) None (dropped s) (log s))
  | do_deliver s h c f q :
      objs s !! h = Some c -> exited c = false -> ch c = f :: q ->
      hstep s (with_obj h (mkConsumer q (delivered c ++ [f]) (done_closed c) (exited c) (offered c) (lost c) (since c)) s)
  | do_exit s h c :
      objs s !! h = Some c -> done_closed c = true ->
      hstep s (with_obj h (mkConsumer (ch c) (delivered c) (done_closed c) true (offered c) (lost c) (since c)) s).

(** ** Invariant *)

Definition consumer_ok (c : consumer) : Prop :=
  (length (ch c) <= frameHubQueueSize)%nat /\
  (delivered c ++ ch c) `sublist_of` offered c /\
  (length (offered c) = length (delivered c) + length (ch c) + lost c)%nat.

Definition pending (s : FrameHub) (h : nat) : Prop :=
  match sending s with Some (hs, _) => h ∈ hs | None => False end.

Definition subscribed (s : FrameHub) (h : nat) : Prop := exists name, consumers s !! name = Some h.

(** What a consumer has been offered of the broadcasts since it subscribed. *)
Definition offers_ok (s : FrameHub) (h : nat) (c : consumer) : Prop :=
  (since c <= length (log s))%nat /\
  offered c `prefix_of` drop (since c) (log s) /\
  (pending s h -> exists f hs, sending s = Some (hs, f) /\ offered c ++ [f] = drop (since c) (log s)) /\
  (subscribed s h -> ~ pending s h -> offered c = drop (since c) (log s)).

Definition total_lost (l : list consumer) : nat := list_sum (map lost l).

Record hub_ok (s : FrameHub) : Prop := mkHubOk {
  hub_consumers : forall h c, objs s !! h = Some c -> consumer_ok c /\ offers_ok s h c;
  hub_names : forall name h, consumers s !! name = Some h -> (h < length (objs s))%nat;
  hub_distinct : forall n1 n2 h, consumers s !! n1 = Some h -> consumers s !! n2 = Some h -> n1 = n2;
  hub_sending : forall hs f, sending s = Some (hs, f) ->
    NoDup hs /\ Forall (fun h => h < length (objs s))%nat hs;
  hub_closing : Forall (fun h => h < length (objs s))%nat (closing s);
  hub_dropped : dropped s = Z.of_nat (total_lost (objs s));
}.

Lemma total_lost_insert l h c c' : l !! h = Some c ->
  (total_lost (<[h := c']> l) + lost c = total_lost l + lost c')%nat.
Proof.
  revert h. induction l as [|x l IH]; intros h Hh; [done|]. destruct h as [|h].
  - injection Hh as ->. unfold total_lost. simpl. lia.
  - simpl in Hh. specialize (IH h Hh). unfold total_lost in *. simpl. lia.
Qed.

(** A step that changes one consumer in fields the hub's books do not mention. *)
Lemma update_obj_ok s s' h c c' :
  hub_ok s -> objs s !! h = Some c -> consumer_ok c' -> offered c' = offered c -> lost c' = lost c ->
  since c' = since c -> s' = mkFrameHub (consumers s) (<[h := c']> (objs s)) (closing s') (sending s) (dropped s) (log s) ->
  Forall (fun h => h < length (objs s))%nat (closing s') -> hub_ok s'.
Proof.
  intros [I1 I2 I3 I4 I5 I6] Hc Hok Ho Hl Hs -> Hcl. split; cbn [objs consumers sending closing dropped log] in *.
  - intros h' d. destruct (decide (h' = h)) as [->|Hne].
    + rewrite list_lookup_insert_eq by (by eapply lookup_lt_Some). intros [= <-]. split; [done|].
      destruct (I1 h c Hc) as [_ J]. unfold offers_ok in *. rewrite Ho, Hs. exact J.
    + rewrite list_lookup_insert_ne by done. apply I1.
  - intros name h' Hn. rewrite length_insert. by eapply I2.
  - done.
  - intros hs f Hf. rewrite length_insert. by apply (I4 hs f).
  - by rewrite length_insert.
  - pose proof (total_lost_insert (objs s) h c c' Hc). lia.
Qed.

Lemma hub_values s h : h ∈ map snd (map_to_list (consumers s)) <-> subscribed s h.
Proof.
  unfold subscribed. rewrite list_elem_of_In, in_map_iff. split.
  - intros ((n & k) & <- & Hk). exists n. by apply list_elem_of_In, elem_of_map_to_list in Hk.
  - intros (n & Hn). exists (n, h). split; [done|]. by apply list_elem_of_In, elem_of_map_to_list.
Qed.

Lemma hub_values_NoDup s : hub_ok s -> NoDup (map snd (map_to_list (consumers s))).
Proof.
  intros I. apply NoDup_ListNoDup, NoDup_map_NoDup_ForallPairs.
  - intros [n1 h1] [n2 h2] H1 H2 E. cbn in E. subst h2.
    apply list_elem_of_In, elem_of_map_to_list in H1, H2. f_equal. by apply (hub_distinct s I n1 n2 h1).
  - apply NoDup_ListNoDup, NoDup_map_to_list.
Qed.

Lemma subscribe_ok name s s' : Subscribe name s = Some s' -> hub_ok s -> hub_ok s'.
Proof.
  intros E I. unfold Subscribe in E. destruct (consumers s !! name) eqn:En; [done|]. injection E as <-.
  pose proof I as [I1 I2 I3 I4 I5 I6]. split; cbn [objs consumers sending closing dropped log].
  - intros h c Hc. apply lookup_app_Some in Hc as [Hc|[Hge Hc]].
    + destruct (I1 h c Hc) as [Hok (J1 & J2 & J3 & J4)]. split; [done|]. split_and!; try done.
      intros (n & Hn) Hp. apply J4; [|done]. exists n. cbn [consumers] in Hn.
      apply lookup_insert_Some in Hn as [[<- Hh]|[_ Hn]]; [|done].
      apply lookup_lt_Some in Hc. lia.
    + destruct (h - length (objs s))%nat eqn:Eh; [|done]. injection Hc as <-.
      assert (h = length (objs s)) as -> by lia. split.
      * split_and!; cbn; [unfold frameHubQueueSize; lia|constructor|lia].
      * unfold offers_ok. cbn. rewrite drop_ge by lia. split_and!; try done.
        intros Hp. unfold pending in Hp. cbn in Hp. destruct (sending s) as [[hs f]|] eqn:Es; [|done].
        destruct (I4 hs f eq_refl) as [_ Hf]. rewrite Forall_forall in Hf.
        apply list_elem_of_In in Hp. specialize (Hf _ Hp). lia.
  - intros n h Hn. rewrite length_app. simpl. apply lookup_insert_Some in Hn as [[_ <-]|[_ Hn]]; [lia|].
    specialize (I2 n h Hn). lia.
  - intros n1 n2 h H1 H2. apply lookup_insert_Some in H1 as [[<- <-]|[_ H1]], H2 as [[<- E2]|[_ H2]]; try done.
    + specialize (I2 _ _ H2). lia.
    + specialize (I2 _ _ H1). lia.
    + by apply (I3 n1 n2 h).
  - intros hs f Hf. destruct (I4 hs f Hf) as [? Hx]. split; [done|]. eapply list.Forall_impl; [exact Hx|].
    intros h Hh. cbn beta in Hh. rewrite length_app. simpl. lia.
  - eapply list.Forall_impl; [exact I5|]. intros h Hh. cbn beta in Hh. rewrite length_app. simpl. lia.
  - rewrite I6. unfold total_lost. rewrite map_app, list_sum_app. simpl. by rewrite Nat.add_0_r.
Qed.

Lemma unsubscribe_ok name s : hub_ok s -> hub_ok (Unsubscribe name s).
Proof.
  intros I. unfold Unsubscribe. destruct (consumers s !! name) as [h|] eqn:En; [|done].
  pose proof I as [I1 I2 I3 I4 I5 I6]. split; cbn [objs consumers sending closing dropped log]; try done.
  - intros h' c Hc. destruct (I1 h' c Hc) as [Hok (J1 & J2 & J3 & J4)]. split; [done|]. split_and!; try done.
    intros (n & Hn) Hp. apply J4; [|done]. exists n. cbn in Hn. by apply lookup_delete_Some in Hn as [_ ?].
  - intros n h' Hn. apply lookup_delete_Some in Hn as [_ Hn]. by eapply I2.
  - intros n1 n2 h' H1 H2. apply lookup_delete_Some in H1 as [_ H1], H2 as [_ H2]. by eapply I3.
  - constructor; [by eapply I2|done].
Qed.

Lemma broadcast_ok s order f :
  hub_ok s -> sending s = None -> order ≡ₚ map snd (map_to_list (consumers s)) ->
  hub_ok (start_broadcast order f s).
Proof.
  intros I Hs Ho. pose proof I as [I1 I2 I3 I4 I5 I6].
  assert (Hin : forall h, h ∈ order <-> subscribed s h) by (intros h; rewrite Ho; apply hub_values).
  split; cbn [start_broadcast objs consumers sending closing dropped log]; try done.
  - intros h c Hc. destruct (I1 h c Hc) as [Hok (J1 & J2 & J3 & J4)]. split; [done|].
    assert (Hnp : ~ pending s h) by (unfold pending; rewrite Hs; by intros []).
    unfold offers_ok. cbn [start_broadcast log sending consumers]. rewrite length_app, drop_app_le by done.
    split_and!.
    + simpl. lia.
    + etrans; [exact J2|]. by apply prefix_app_r.
    + intros Hp. exists f, order. split; [done|]. f_equal. apply J4; [by apply Hin|done].
    + intros Hsub Hn. destruct Hn. apply Hin. exact Hsub.
  - intros hs f' [= <- <-]. split.
    + rewrite Ho. by apply hub_values_NoDup.
    + apply list.Forall_forall. intros h Hh. apply Hin in Hh as (n & Hn). by eapply I2.
Qed.

Lemma offer_ok h rest f c s :
  hub_ok s -> sending s = Some (h :: rest, f) -> objs s !! h = Some c -> hub_ok (offer h rest f c s).
Proof.
  intros I Hs Hc. pose proof I as [I1 I2 I3 I4 I5 I6].
  destruct (I4 _ _ Hs) as [Hnd Hlt]. apply list.NoDup_cons in Hnd as [Hnin Hnd].
  apply list.Forall_cons in Hlt as [Hh Hlt].
  assert (G : forall c' d, offered c' = offered c ++ [f] -> since c' = since c -> consumer_ok c' ->
     (d = dropped s + Z.of_nat (lost c') - Z.of_nat (lost c)) ->
     hub_ok (mkFrameHub (consumers s) (<[h := c']> (objs s)) (closing s) (Some (rest, f)) d (log s))).
  { intros c' d Ho Hsi Hok Hd. split; cbn [objs consumers sending closing dropped log].
    - intros h' x. destruct (decide (h' = h)) as [->|Hne].
      + rewrite list_lookup_insert_eq by done. intros [= <-]. split; [done|].
        destruct (I1 h c Hc) as [_ (J1 & _ & J3 & _)].
        destruct J3 as (f0 & hs0 & E0 & J3); [unfold pending; rewrite Hs; by apply list_elem_of_here|].
        rewrite Hs in E0. injection E0 as <- <-.
        unfold offers_ok. cbn [log sending consumers]. rewrite Hsi, Ho, J3. split_and!; try done.
      + rewrite list_lookup_insert_ne by done. intros Hx. destruct (I1 h' x Hx) as [Hokx (J1 & J2 & J3 & J4)].
        split; [done|]. split_and!; try done.
        * intros Hp. cbn [sending]. destruct J3 as (f0 & hs0 & E0 & J3).
          { unfold pending in *. rewrite Hs. cbn [sending] in Hp. by apply list_elem_of_further. }
          rewrite Hs in E0. injection E0 as <- <-. by exists f, rest.
        * intros Hsub Hp. apply J4; [done|]. unfold pending in *. rewrite Hs. cbn [sending] in Hp.
          rewrite elem_of_cons. tauto.
    - intros n h' Hn. rewrite length_insert. by eapply I2.
    - done.
    - intros hs f' [= <- <-]. rewrite length_insert. by split.
    - by rewrite length_insert.
    - pose proof (total_lost_insert (objs s) h c c' Hc). lia. }
  destruct (I1 h c Hc) as [(K1 & K2 & K3) _]. unfold offer.
  destruct (Nat.ltb_spec (length (ch c)) frameHubQueueSize).
  - apply G; try done; [|cbn; lia]. split_and!; cbn.
    + rewrite length_app. simpl. lia.
    + rewrite app_assoc. by apply sublist_app.
    + rewrite !length_app. simpl. lia.
  - apply G; try done; [|cbn; lia]. split_and!; cbn; try done.
    + by apply sublist_inserts_r.
    + rewrite !length_app. simpl. lia.
Qed.

Lemma hstep_ok s s' : hstep s s' -> hub_ok s -> hub_ok s'.
Proof.
  intros S I. destruct S as [s name s' E|s name|s h c l1 l2 Hcl Hc|s order f Hs Ho|s h rest f c Hs Hc|s f Hs|
    s h c f q Hc Hx Hq|s h c Hc Hd].
  - by eapply subscribe_ok.
  - by apply unsubscribe_ok.
  - destruct (hub_consumers s I h c Hc) as [Hok _]. pose proof (hub_closing s I) as Hf. rewrite Hcl in Hf.
    eapply (update_obj_ok s _ h c (mkConsumer (ch c) (delivered c) true (exited c) (offered c) (lost c) (since c)));
      try done. cbn. apply Forall_app in Hf as [Hf1 Hf2].
    apply list.Forall_cons in Hf2 as [_ Hf2]. by apply Forall_app.
  - by apply broadcast_ok.
  - by apply offer_ok.
  - pose proof I as [I1 I2 I3 I4 I5 I6]. split; cbn [objs consumers sending closing dropped log]; try done.
    intros h c Hc. destruct (I1 h c Hc) as [Hok (J1 & J2 & J3 & J4)]. split; [done|]. split_and!; try done.
    intros Hsub _. apply J4; [done|]. unfold pending. rewrite Hs. by apply not_elem_of_nil.
  - destruct (hub_consumers s I h c Hc) as [(K1 & K2 & K3) _].
    eapply (update_obj_ok s _ h c (mkConsumer q (delivered c ++ [f]) (done_closed c) (exited c) (offered c) (lost c) (since c)));
      try done; [|by apply I].
    rewrite Hq in *. split_and!; cbn in *; [lia| |rewrite length_app; simpl; lia].
    by rewrite <- app_assoc.
  - destruct (hub_consumers s I h c Hc) as [Hok _]. 
    eapply (update_obj_ok s _ h c (mkConsumer (ch c) (delivered c) (done_closed c) true (offered c) (lost c) (since c)));
      try done. by apply I.
Qed.

Lemma hub_reachable s : rtc hstep NewFrameHub s -> hub_ok s.
Proof.
  assert (G : forall a b, rtc hstep a b -> hub_ok a -> hub_ok b).
  { induction 1 as [|a b c S _ IH]; [done|]. intros Ha. by apply IH, (hstep_ok a). }
  intros H. apply (G _ _ H). split; cbn; try done.
Qed.
End hub.

(** The rest of a broadcast, whatever the consumers do or do not do. *)
Lemma finish_broadcast {F} hs (f : F) s :
  hub_ok s -> sending s = Some (hs, f) ->
  exists s', rtc hstep s s' /\ sending s' = None /\ log s' = log s /\ length (objs s') = length (objs s) /\
    forall h c c', objs s !! h = Some c -> objs s' !! h = Some c' ->
      delivered c' = delivered c /\ exited c' = exited c /\ (h ∉ hs -> c' = c).
Proof.
  revert s. induction hs as [|h hs IH]; intros s I Hs.
  - eexists. split; [apply rtc_once, (do_return s f Hs)|]. split_and!; try done.
    intros h c c' H1 H2. cbn in H2. assert (c' = c) as -> by congruence. done.
  - destruct (hub_sending s I _ _ Hs) as [_ Hlt]. apply list.Forall_cons in Hlt as [Hh _].
    apply lookup_lt_is_Some in Hh as [c Hc].
    assert (S : hstep s (offer h hs f c s)) by (by apply do_offer).
    assert (Hs' : sending (offer h hs f c s) = Some (hs, f)) by (unfold offer; by case_match).
    destruct (IH _ (hstep_ok _ _ S I) Hs') as (s' & R & E1 & E2 & E3 & E4).
    exists s'. split; [by eapply rtc_l|]. split; [done|].
    assert (L : log (offer h hs f c s) = log s) by (unfold offer; by case_match).
    assert (O : exists c1, objs (offer h hs f c s) = <[h := c1]> (objs s) /\ delivered c1 = delivered c /\ exited c1 = exited c).
    { unfold offer. case_match; by eexists. }
    destruct O as (c1 & O & Od & Ox). rewrite O in E3, E4. rewrite length_insert in E3. split; [congruence|]. split; [done|].
    intros h' x x' Hx Hx'. destruct (decide (h' = h)) as [->|Hne].
    + assert (x = c) as -> by congruence.
      destruct (E4 h c1 x') as (D1 & D2 & _); [by apply list_lookup_insert_eq, (lookup_lt_Some _ _ _ Hc)|done|].
      split; [congruence|]. split; [congruence|]. intros Hn. destruct Hn. apply list_elem_of_here.
    + destruct (E4 h' x x') as (D1 & D2 & D3); [by rewrite list_lookup_insert_ne|done|].
      split_and!; try done. intros Hn. apply D3. intros Hin. apply Hn. by apply list_elem_of_further.
Qed.

(** Delivery. In every interleaving of broadcasts, subscriptions and delivery
    goroutines, what a consumer's callback has been called with, followed by
    what waits in its queue, is a subsequence, in order and without
    duplicates, of the frames broadcast since it subscribed; the queue never
    exceeds its size; between broadcasts the frames a current subscriber did not
    get are exactly the ones that found its own queue full; and the [Dropped]
    counter is the sum of those over all consumers. *)
Theorem hub_delivery {F} (s : FrameHub) h c :
  rtc hstep (NewFrameHub (F := F)) s -> objs s !! h = Some c ->
  (delivered c ++ ch c) `sublist_of` drop (since c) (log s) /\
  (length (ch c) <= frameHubQueueSize)%nat /\
  (subscribed s h -> sending s = None ->
     length (drop (since c) (log s)) = (length (delivered c) + length (ch c) + lost c)%nat) /\
  dropped s = Z.of_nat (total_lost (objs s)).
Proof.
  intros Hr Hc. pose proof (hub_reachable s Hr) as I.
  destruct (hub_consumers s I h c Hc) as [(K1 & K2 & K3) (J1 & J2 & J3 & J4)].
  split; [|split; [done|split; [|apply I]]].
  - etrans; [exact K2|]. destruct J2 as [k ->]. by apply sublist_inserts_r.
  - intros Hsub Hs. rewrite <- J4; [done|done|]. unfold pending. rewrite Hs. by intros [].
Qed.

Lemma hub_delivery_witness : exists (s : FrameHub (F := Z)) c,
  rtc hstep NewFrameHub s /\ objs s !! 0%nat = Some c /\ delivered c = [7] /\
  (delivered c ++ ch c) `sublist_of` drop (since c) (log s).
Proof.
  set (c1 := mkConsumer [] [] false false [] 0 0 : consumer (F := Z)).
  set (c2 := mkConsumer [7] [] false false [7] 0 0 : consumer (F := Z)).
  set (c3 := mkConsumer [] [7] false false [7] 0 0 : consumer (F := Z)).
  set (m := <[txt "rec" := 0%nat]> ∅ : gmap text nat).
  set (s := mkFrameHub m [c3] [] (Some ([], 7)) 0 [7]).
  assert (Hr : rtc hstep NewFrameHub s).
  { eapply rtc_l; [by apply (do_subscribe _ (txt "rec"))|].
    eapply rtc_l; [apply (do_broadcast _ [0%nat] 7); [done|by vm_compute]|].
    eapply rtc_l; [by apply (do_offer _ 0 [] 7 c1)|].
    eapply rtc_l; [by apply (do_deliver _ 0 c2 7 [])|]. apply rtc_refl. }
  exists s, c3. split; [exact Hr|]. split; [done|]. split; [done|].
  apply (hub_delivery s 0 c3 Hr). reflexivity.
Defined.

(** A slow consumer blocks nobody: from any reachable state in the middle of a
    broadcast, the broadcaster's own steps alone finish the call, without any
    delivery goroutine making progress, and consumers it does not serve are
    left exactly as they were. *)
Theorem broadcast_never_blocks {F} (s : FrameHub) hs (f : F) :
  rtc hstep NewFrameHub s -> sending s = Some (hs, f) ->
  exists s', rtc hstep s s' /\ sending s' = None /\ log s' = log s /\ length (objs s') = length (objs s) /\
    forall h c c', objs s !! h = Some c -> objs s' !! h = Some c' ->
      delivered c' = delivered c /\ exited c' = exited c /\ (h ∉ hs -> c' = c).
Proof. intros Hr Hs. apply (finish_broadcast hs f s); [by apply hub_reachable|done]. Qed.

Lemma broadcast_never_blocks_witness : exists s',
  rtc hstep (start_broadcast [0%nat] 7 (mkFrameHub (<[txt "rec" := 0%nat]> ∅)
    [mkConsumer [] [] false false [] 0 0] [] None 0 [])) s' /\ sending s' = None /\ log s' = [7].
Proof.
  destruct (broadcast_never_blocks (start_broadcast [0%nat] 7 (mkFrameHub (<[txt "rec" := 0%nat]> ∅)
    [mkConsumer [] [] false false [] 0 0] [] None 0 [])) [0%nat] 7) as (s' & H1 & H2 & H3 & _).
  - eapply rtc_l; [by apply (do_subscribe _ (txt "rec"))|].
    eapply rtc_l; [apply (do_broadcast _ [0%nat] 7); [done|by vm_compute]|]. apply rtc_refl.
  - reflexivity.
  - exists s'. split; [exact H1|]. by split.
Defined.

(** [Unsubscribe] does not stop deliveries at once: after it has returned
    (name removed, [done] closed) a frame that was already queued may still be
    handed to the callback, because the goroutine's [select] may pick either
    ready case. *)
Theorem delivery_after_unsubscribe {F} (f : F) : exists s s' c c',
  rtc hstep NewFrameHub s /\ consumers s = ∅ /\ closing s = [] /\
  objs s !! 0%nat = Some c /\ done_closed c = true /\ delivered c = [] /\
  hstep s s' /\ objs s' !! 0%nat = Some c' /\ delivered c' = [f].
Proof.
  set (c1 := mkConsumer [] [] false false [] 0 0 : consumer (F := F)).
  set (c2 := mkConsumer [f] [] false false [f] 0 0 : consumer (F := F)).
  set (c3 := mkConsumer [f] [] true false [f] 0 0 : consumer (F := F)).
  set (c4 := mkConsumer [] [f] true false [f] 0 0 : consumer (F := F)).
  exists (mkFrameHub ∅ [c3] [] (Some ([], f)) 0 [f]), (mkFrameHub ∅ [c4] [] (Some ([], f)) 0 [f]), c3, c4.
  split; [|split_and!; try done; by apply (do_deliver (mkFrameHub ∅ [c3] [] (Some ([], f)) 0 [f]) 0 c3 f [])].
  eapply rtc_l; [by apply (do_subscribe _ (txt "rec"))|].
  eapply rtc_l; [apply (do_broadcast _ [0%nat] f); [done|by vm_compute]|].
  eapply rtc_l; [by apply (do_offer _ 0 [] f c1)|].
  eapply rtc_l; [apply (do_unsubscribe _ (txt "rec"))|].
  eapply rtc_l; [by apply (do_close _ 0 c2 [] [])|]. apply rtc_refl.
Qed.
