(* ===== verification/Segment.v ===== *)
(** Recorded segments of the device ([device/segment.go]): the Annex-B parser,
    the grouping into access units, the timestamps of the sidecar and the reader.

    What the file system holds is an argument: the bytes of a segment and the
    lines of its sidecar, as [bufio.Scanner] gives them. [encoding/json] is a
    parameter. Durations are 64-bit nanoseconds; [None] is a slice panic. *)

From S2P Require Import Prelude GoStrings PesParse.
Open Scope Z_scope.

(** ** The Annex-B parser *)

Record NALU := mkNALU { Type_ : Z; Data : list Z; IsIDR : bool; IsSPS : bool; IsPPS : bool }.

(** [FindStartCodes] from offset [i] on; [zero] tells whether the byte in front is
    a zero. *)
Fixpoint FindStartCodes_at (i : nat) (zero : bool) (rest : list Z) : list nat :=
  match rest with
  | a :: ((b :: (c :: t3)) as t1) =>
      if (a =? 0) && (b =? 0) && (c =? 1)
      then (if zero then (i - 1)%nat else i) :: FindStartCodes_at (i + 3) false t3
      else FindStartCodes_at (i + 1) (a =? 0) t1
  | _ => []
  end.

Definition FindStartCodes (data : list Z) : list nat := FindStartCodes_at 0 false data.

(** The length of the start code at a position: [data[pos:pos+4]] is 0 0 0 1 or not. *)
Definition start_code_len (data : list Z) (pos : nat) : nat :=
  match take 4 (drop pos data) with
  | [a; b; c; d] => if (a =? 0) && (b =? 0) && (c =? 0) && (d =? 1) then 4%nat else 3%nat
  | _ => 3%nat
  end.

Fixpoint Parse_loop (data : list Z) (positions : list nat) : option (list NALU) :=
  match positions with
  | [] => Some []
  | pos :: ps =>
      let naluStart := (pos + start_code_len data pos)%nat in
      if Nat.leb (length data) naluStart then Some [] else
      let naluEnd := match ps with next :: _ => next | [] => length data end in
      naluData ← slice data naluStart naluEnd;
      rest ← Parse_loop data ps;
      match naluData with
      | [] => Some rest
      | b :: _ => let naluType := Z.land b 0x1F in
                  Some (mkNALU naluType naluData (naluType =? 5) (naluType =? 7) (naluType =? 8) :: rest)
      end
  end.

Definition Parse (data : list Z) : option (list NALU) :=
  match data with [] => Some [] | _ => Parse_loop data (FindStartCodes data) end.

(** ** Access units *)

Definition isVCL (n : NALU) : bool := (Type_ n =? 1) || (Type_ n =? 5).

Definition startsNewAU (cur : list NALU) (n : NALU) : bool := isVCL n && existsb isVCL cur.

(** One turn of the loop of [OpenSegment]; the last access unit is [cur], the
    ones before it are [done_]. *)
Fixpoint group_aus (done_ : list (list NALU)) (cur : list NALU) (nalus : list NALU) : list (list NALU) :=
  match nalus with
  | [] => done_ ++ [cur]
  | n :: rest => if startsNewAU cur n then group_aus (done_ ++ [cur]) [n] rest else group_aus done_ (cur ++ [n]) rest
  end.

Definition access_units (nalus : list NALU) : list (list NALU) :=
  match nalus with [] => [] | n :: rest => group_aus [] [n] rest end.

(** ** The sidecar and the reader *)

Definition millisecond : Z := 1000000.
Definition second : Z := 1000000000.
Definition nominalFPS : Z := 25.

Section Reader.

(** [json.Unmarshal] of one line: its [pts_ms], or an error. *)
Context (unmarshal : text -> option Z).

Definition loadSidecar (lines : option (list text)) : option (list Z) :=
  match lines with
  | None => None
  | Some ls =>
      let pts := flat_map (fun l => match TrimSpace l with
                                    | [] => []
                                    | line => match unmarshal line with Some ms => [s64 (ms * millisecond)] | None => [] end
                                    end) ls in
      match pts with [] => None | _ => Some pts end
  end.

Record SegmentReader := mkSegmentReader { aus : list (list NALU); pts : list Z; nominal : bool; idx : nat }.

(** [OpenSegment]: [data] is [None] when the file cannot be read. The outer
    option is a panic, the inner one the error. *)
Definition OpenSegment (data : option (list Z)) (sidecar : option (list text)) : option (option SegmentReader) :=
  match data with
  | None => Some None
  | Some data =>
      nalus ← Parse data;
      let p := loadSidecar sidecar in
      Some (Some (mkSegmentReader (access_units nalus) (default [] p) (match p with Some _ => false | None => true end) 0))
  end.

End Reader.

(** A frame that [Next] returns: NALUs, offset and keyframe flag. *)
Record frame := mkFrame { f_nalus : list (list Z); f_pts : Z; f_key : bool }.

Definition nominal_pts (i : nat) : Z := Z.quot (s64 (Z.of_nat i * second)) nominalFPS.

(** [None] is the end of the segment. *)
Definition Next (r : SegmentReader) : option (frame * SegmentReader) :=
  match aus r !! idx r with
  | None => None
  | Some au =>
      let offset := if nominal r then nominal_pts (idx r)
                    else match pts r !! idx r with Some t => t | None => nominal_pts (idx r) end in
      Some (mkFrame (map Data au) offset (existsb IsIDR au), mkSegmentReader (aus r) (pts r) (nominal r) (S (idx r)))
  end.

(** What repeated calls of [Next] return. *)
Fixpoint frames (fuel : nat) (r : SegmentReader) : list frame :=
  match fuel with
  | O => []
  | S n => match Next r with Some (f, r') => f :: frames n r' | None => [] end
  end.

Definition all_frames (r : SegmentReader) : list frame := frames (length (aus r)) r.

(** ** Lemmas: the two parsers *)

Lemma FindStartCodes_at_cons i zero a b c t3 :
  FindStartCodes_at i zero (a :: b :: c :: t3) =
  if (a =? 0) && (b =? 0) && (c =? 1) then (if zero then (i - 1)%nat else i) :: FindStartCodes_at (i + 3) false t3
  else FindStartCodes_at (i + 1) (a =? 0) (b :: c :: t3).
Proof. reflexivity. Qed.

Lemma FindStartCodes_agree n : forall i rest, (length rest <= n)%nat ->
  FindStartCodes_at i false rest = findStartCodes_at i rest /\
  (match rest with a :: b :: _ => (a =? 0) && (b =? 1) | _ => false end = false ->
   FindStartCodes_at (S i) true rest = findStartCodes_at i (0 :: rest)).
Proof.
  induction n as [|n IH]; intros i rest Hn; [by destruct rest; [|cbn in Hn; lia]|].
  destruct rest as [|a [|b [|c t3]]]; [done|done| |].
  - split; [done|]. cbn. destruct (a =? 0); cbn; [|done]. by destruct (b =? 1).
  - cbn [length] in Hn. rewrite !findStartCodes_at_cons3, !FindStartCodes_at_cons.
    destruct (IH (i + 1)%nat (b :: c :: t3) ltac:(cbn; lia)) as [I1 I2].
    destruct (IH i (b :: c :: t3) ltac:(cbn; lia)) as [_ I6].
    destruct (IH (S i + 1)%nat (b :: c :: t3) ltac:(cbn; lia)) as [I3 _].
    pose proof (IH (i + 3)%nat t3 ltac:(lia)) as [T1 _]. pose proof (IH (S i + 3)%nat t3 ltac:(lia)) as [T2 _].
    rewrite findStartCodes_at_cons3 in I6. rewrite findStartCodes_at_cons3 in I2.
    replace (i + 1)%nat with (S i) in * by lia. replace (S i + 1)%nat with (S (S i)) in * by lia. split.
    + destruct (Z.eqb_spec a 0) as [->|]; cbn [andb]; [|exact I1].
      destruct (b =? 0) eqn:Eb; cbn [andb] in *; [|by apply I6].
      destruct (c =? 1) eqn:Ec; [by rewrite T1|]. by apply I6.
    + intros Hab. destruct (Z.eqb_spec a 0) as [->|Ha]; cbn [andb] in *.
      * rewrite Hab. destruct (b =? 0) eqn:Eb; cbn [andb] in *.
        -- destruct (c =? 1) eqn:Ec; [replace (S i - 1)%nat with i by lia; rewrite T2; do 2 f_equal; lia|].
           by apply I2.
        -- by apply I2.
      * exact I3.
Qed.

Definition nalu_of (n : list Z) : list NALU :=
  match n with
  | [] => []
  | b :: _ => let t := Z.land b 0x1F in [mkNALU t n (t =? 5) (t =? 7) (t =? 8)]
  end.

Lemma Parse_loop_step pre long n suf ps :
  let data := pre ++ sc_bytes long ++ n ++ suf in
  nalu_end data ps = (length pre + length (sc_bytes long) + length n)%nat -> (n ++ suf = [] -> ps = []) ->
  Parse_loop data (length pre :: ps) = rest ← Parse_loop data ps; Some (nalu_of n ++ rest).
Proof.
  intros data Hend Hps. assert (Hsc : start_code_len data (length pre) = length (sc_bytes long)).
  { unfold start_code_len, data. rewrite drop_app_length. destruct long; [reflexivity|].
    destruct (n ++ suf); reflexivity. }
  assert (Hlen : length data = (length pre + length (sc_bytes long) + length n + length suf)%nat)
    by (unfold data; rewrite !length_app; lia).
  cbn [Parse_loop]. rewrite Hsc. fold (nalu_end data ps). rewrite Hend.
  destruct (Nat.leb_spec (length data) (length pre + length (sc_bytes long))) as [H|H].
  - assert (n ++ suf = []) as E by (destruct n; cbn in *; [destruct suf; cbn in *; [done|lia]|lia]).
    rewrite (Hps E). apply app_eq_nil in E as [-> ->]. reflexivity.
  - assert (Hs : slice data (length pre + length (sc_bytes long)) (length pre + length (sc_bytes long) + length n) = Some n).
    { rewrite <- length_app. unfold data. rewrite app_assoc. apply slice_app_mid. }
    rewrite Hs. cbn [mbind option_bind]. destruct (Parse_loop data ps) as [l|]; [|done]. by destruct n.
Qed.

Lemma loops_agree rest : forall pre, exists l, Parse_loop (pre ++ rest) (findStartCodes_at (length pre) rest) = Some l /\
  extractNALUs_loop (pre ++ rest) (findStartCodes_at (length pre) rest) = Some (map Data l).
Proof.
  induction rest as [rest IH] using (induction_ltof1 _ (@length Z)).
  unfold ltof in IH. intros pre.
  destruct (findStartCodes_at_cases (length pre) rest) as [->|(k & long & t & E1 & E2 & E3)].
  { by exists []. }
  rewrite E3. set (ps := findStartCodes_at _ t). set (p := pre ++ take k rest). set (pre' := p ++ sc_bytes long).
  assert (Hdata : pre ++ rest = pre' ++ t).
  { unfold pre', p. rewrite E1 at 1. by rewrite <- !app_assoc. }
  assert (Hp : length p = (length pre + k)%nat) by (unfold p; rewrite length_app, length_take; lia).
  assert (Hlp : length pre' = (length pre + k + length (sc_bytes long))%nat) by (unfold pre'; rewrite length_app; lia).
  assert (Hend : (length pre' <= nalu_end (pre ++ rest) ps <= length (pre ++ rest))%nat).
  { rewrite Hdata. pose proof (nalu_end_range pre' t (length pre')) as H.
    rewrite Nat.sub_diag, drop_0 in H. unfold ps. rewrite <- Hlp. apply H; [lia|]. rewrite length_app. lia. }
  set (e := nalu_end (pre ++ rest) ps) in *. rewrite Hdata in Hend. rewrite length_app in Hend.
  set (n := take (e - length pre') t). set (suf := drop (e - length pre') t).
  assert (Hd2 : pre ++ rest = p ++ sc_bytes long ++ n ++ suf).
  { unfold n, suf. rewrite take_drop, Hdata. unfold pre'. by rewrite <- !app_assoc. }
  assert (Hn : nalu_end (p ++ sc_bytes long ++ n ++ suf) ps = (length p + length (sc_bytes long) + length n)%nat).
  { rewrite <- Hd2. fold e. unfold n. rewrite length_take. lia. }
  destruct (IH t) with (pre := pre') as (l & L1 & L2).
  { rewrite E1, !length_app. destruct long; simpl; lia. }
  rewrite Hlp in L1, L2. fold ps in L1, L2. rewrite <- Hdata in L1, L2.
  exists (nalu_of n ++ l). rewrite Hd2, <- Hp. split.
  - rewrite Parse_loop_step; [|done|].
    + rewrite <- Hd2, L1. done.
    + intros E. unfold ps. unfold n, suf in E. rewrite take_drop in E. by rewrite E.
  - rewrite (extractNALUs_loop_step _ _ _ long n); [|by exists p, suf|done].
    rewrite <- Hd2, L2. cbn [mbind option_bind]. rewrite map_app. by destruct n.
Qed.

(** ** Lemmas: grouping *)

Definition slices (au : list NALU) : nat := length (List.filter isVCL au).

Lemma existsb_slices au : existsb isVCL au = negb (Nat.eqb (slices au) 0).
Proof.
  unfold slices. induction au as [|n au IH]; [done|]. cbn [existsb List.filter]. by destruct (isVCL n).
Qed.

Lemma group_aus_spec nalus : forall done_ cur,
  concat (group_aus done_ cur nalus) = concat done_ ++ cur ++ nalus /\
  (Forall (fun au => (slices au <= 1)%nat) done_ -> (slices cur <= 1)%nat ->
   Forall (fun au => (slices au <= 1)%nat) (group_aus done_ cur nalus)).
Proof.
  induction nalus as [|n nalus IH]; intros done_ cur; cbn [group_aus].
  - split; [by rewrite concat_app|]. intros H1 H2. apply Forall_app_2; [done|]. apply list.Forall_cons. split; [done|by apply list.Forall_nil].
  - unfold startsNewAU. destruct (isVCL n) eqn:V; [destruct (existsb isVCL cur) eqn:X|]; cbn [andb].
    + destruct (IH (done_ ++ [cur]) [n]) as [I1 I2]. split.
      * rewrite I1, concat_app. cbn [concat]. rewrite app_nil_r, <- app_assoc. done.
      * intros H1 H2. apply I2; [apply Forall_app_2; [done|apply list.Forall_cons; split; [done|by apply list.Forall_nil]]|]. unfold slices. cbn. by rewrite V.
    + destruct (IH done_ (cur ++ [n])) as [I1 I2]. split; [by rewrite I1, <- app_assoc|]. intros H1 H2. apply I2; [done|].
      rewrite existsb_slices, negb_false_iff, Nat.eqb_eq in X. unfold slices in *. rewrite List.filter_app, length_app, X. cbn. by rewrite V.
    + destruct (IH done_ (cur ++ [n])) as [I1 I2]. split; [by rewrite I1, <- app_assoc|]. intros H1 H2. apply I2; [done|].
      unfold slices in *. rewrite List.filter_app, length_app. cbn. rewrite V. cbn. lia.
Qed.

Lemma frames_nth fuel : forall r i, (i < fuel)%nat ->
  frames fuel r !! i = match aus r !! (idx r + i)%nat with
                       | Some au => Some (mkFrame (map Data au)
                           (if nominal r then nominal_pts (idx r + i)
                            else match pts r !! (idx r + i)%nat with Some t => t | None => nominal_pts (idx r + i) end)
                           (existsb IsIDR au))
                       | None => None
                       end.
Proof.
  induction fuel as [|fuel IH]; intros r i Hi; [lia|]. cbn [frames]. unfold Next at 1.
  destruct (aus r !! idx r) as [au|] eqn:E.
  - destruct i as [|i]; cbn [lookup list_lookup]; [by rewrite Nat.add_0_r, E|].
    change (frames fuel ?x !! i) with (frames fuel x !! i). rewrite IH by lia. cbn [aus pts nominal idx].
    by replace (S (idx r) + i)%nat with (idx r + S i)%nat by lia.
  - apply lookup_ge_None in E. rewrite (proj2 (lookup_ge_None (aus r) (idx r + i))) by lia. done.
Qed.

(** ** Theorems *)

(** The device's segment parser and the platform's demuxer read Annex-B alike:
    on any bytes at all neither panics and both give the same NAL units, in the
    same order. *)
Theorem parsers_agree data : exists l, Parse data = Some l /\ extractNALUs data "h264" = Some (map Data l).
Proof.
  unfold Parse, extractNALUs. rewrite bool_decide_eq_false_2 by done. destruct data as [|a data]; [by exists []|].
  unfold FindStartCodes, findStartCodes.
  rewrite (proj1 (FindStartCodes_agree _ 0 (a :: data) (le_n _))). apply (loops_agree (a :: data) []).
Qed.

(** Grouping loses nothing: the access units of a segment, put together, are
    its NAL units in order, and none holds more than one slice. *)
Theorem grouping_keeps_all nalus :
  concat (access_units nalus) = nalus /\ Forall (fun au => (slices au <= 1)%nat) (access_units nalus).
Proof.
  destruct nalus as [|n nalus]; [by split|]. destruct (group_aus_spec nalus [] [n]) as [H1 H2]. split; [exact H1|].
  apply H2; [by apply list.Forall_nil|]. unfold slices. cbn [List.filter]. destruct (isVCL n); cbn; lia.
Qed.

(** The parameter sets in front of the second IDR slice go to the access unit
    before it: the reader's second keyframe comes without them. *)
Example parameter_sets_misplaced :
  match Parse (concat (map (fun n => [0; 0; 0; 1] ++ n) [[0x67; 1]; [0x68; 2]; [0x65; 3]; [0x41; 4]; [0x67; 1]; [0x68; 2]; [0x65; 5]])) with
  | Some l => map (map Data) (access_units l) = [[[0x67; 1]; [0x68; 2]; [0x65; 3]]; [[0x41; 4]; [0x67; 1]; [0x68; 2]]; [[0x65; 5]]]
  | None => False
  end.
Proof. vm_compute. reflexivity. Qed.
