(* ===== verification/Playback.v ===== *)
(** Playback and download of recordings ([runPlayback], [device/playback.go]): the
    pacing state and its controls, the pass over the segments, seeking.

    The clock, the outcomes of the selects and the index are arguments: [clock k]
    is the [k]-th reading of the clock, and a select takes the next event. When no
    event is left the media context is cancelled. A speed is a float64; its
    arithmetic is a parameter. A wall time is in nanoseconds, a position in a
    recording in milliseconds since the epoch. *)

From stdpp Require Import sorting.
From S2P Require Import Prelude GoStrings GoText PesParse PsDemux PsStream PsRoundtrip.
From S2P Require Import AuSplit EsDemux Receiver ReceiverSpec RtpSend Pipeline.
From S2P Require Import DevicePs TcpMedia RtpPusher DevicePath Segment.
Open Scope Z_scope.

Import Pusher (RtpPusher, tcpConn, seqNum, payloadEncryptor, psBytesOut, pushed, push_err, pusher, SendFrame).

Record SegmentMeta := mkSegmentMeta { File : text; StartMS : Z; EndMS : Z }.

#[export] Instance start_le_dec : RelDecision (fun a b : SegmentMeta => StartMS a <= StartMS b).
Proof. intros a b. apply _. Defined.

(** [sort.Slice] by start; recordings that start together keep their order here,
    which [sort.Slice] leaves open. *)
Definition by_start (l : list SegmentMeta) : list SegmentMeta := merge_sort (fun a b => StartMS a <= StartMS b) l.

Section Playback.

(** The index, unless it has no storage root; what it opens; the sender of one
    access unit, which acts on [S] and tells whether it succeeded. *)
Context (Lookup : option (Z -> Z -> list SegmentMeta)) (open : text -> option SegmentReader).
Context {S : Type} (send : AccessUnit -> S -> option (bool * S)).
Context (clock : nat -> Z).

(** float64: a positive speed, equality, and the nanoseconds that a distance of
    milliseconds takes at a speed. *)
Context {F : Type} (positive : F -> bool) (same : F -> F -> bool) (pace : Z -> F -> Z).

(** [sessionType = Playback]; a download is not paced. *)
Context (paced : bool).

Record PlaybackControl := mkPlaybackControl {
  Value : text;
  StartTime : option Z;
  EndTime : option Z;
  Speed : option F;
}.

Inductive event := Control (c : PlaybackControl) | TimerFired | Cancelled.

Record state := mkState {
  baseWall : Z;
  basePts : Z;
  started : bool;
  paused : bool;
  speed : F;
  startMs : Z;
  endMs : Z;
  reads : nat;
  sink : S;
}.

#[export] Instance eta_state : Eta state := fun s =>
  mkState (baseWall s) (basePts s) (started s) (paused s) (speed s) (startMs s) (endMs s) (reads s) (sink s).

Definition set_sink (s : S) (st : state) : state := st <| sink := s |>.

(** [time.Now()] *)
Definition now (st : state) : Z * state := (clock (reads st), st <| reads := Datatypes.S (reads st) |>).

(** [baseWall = time.Now(); basePts = auAbs] *)
Definition anchor (auAbs : Z) (st : state) : state :=
  let (t, st) := now st in st <| baseWall := t |> <| basePts := auAbs |>.

(** The flag asks for a seek. *)
Definition applyControl (ctl : PlaybackControl) (auAbs : Z) (st : state) : bool * state :=
  let play := bool_decide (Value ctl = txt "PLAY") in
  let pause := bool_decide (Value ctl = txt "PAUSE") in
  if negb pause && negb play then (false, st) else
  let st := if pause then st <| paused := true |>
            else (if paused st then anchor auAbs st else st) <| paused := false |> in
  let st := match Speed ctl with
            | Some s => if positive s && negb (same s (speed st)) then anchor auAbs (st <| speed := s |>) else st
            | None => st
            end in
  (play && match StartTime ctl with Some _ => true | None => false end, st).

Inductive outcome := Ready | SeekTo (c : PlaybackControl) | Ended.

Fixpoint waitWhilePaused (auAbs : Z) (evs : list event) (st : state) : outcome * state * list event :=
  if negb (paused st) then (Ready, st, evs) else
  match evs with
  | Control c :: rest => let (seek, st') := applyControl c auAbs st in
                         if seek then (SeekTo c, st', rest) else waitWhilePaused auAbs rest st'
  | TimerFired :: rest => waitWhilePaused auAbs rest st
  | _ => (Ended, st, [])
  end.

(** [waitToSend], whose loop begins with [waitWhilePaused]. *)
Fixpoint waitToSend (auAbs : Z) (evs : list event) (st : state) : outcome * state * list event :=
  if paused st then
    match evs with
    | Control c :: rest => let (seek, st') := applyControl c auAbs st in
                           if seek then (SeekTo c, st', rest) else waitToSend auAbs rest st'
    | TimerFired :: rest => waitToSend auAbs rest st
    | _ => (Ended, st, [])
    end
  else if negb paced then (Ready, st, evs)
  else
    let wait := baseWall st + pace (s64 (auAbs - basePts st)) (speed st) in
    let (t, st) := now st in
    if wait - t <=? 0 then (Ready, st, evs) else
    match evs with
    | Control c :: rest => let (seek, st') := applyControl c auAbs st in
                           if seek then (SeekTo c, st', rest) else waitToSend auAbs rest st'
    | TimerFired :: rest => (Ready, st, rest)
    | _ => (Ended, st, [])
    end.

(** ** One pass *)

(** Out of frames; the pass is over; a seek; the context is done. *)
Inductive pass_end := Exhausted | Finished | Seeking (c : PlaybackControl) | Done.

(** [time.UnixMilli]; the zero time is [None]. *)
Definition UnixMilli (ms : Z) : option Z := if ms =? -62135596800000 then None else Some (s64 (ms * 1000000)).

Definition au_of (auAbs : Z) (f : frame) : AccessUnit := mkAccessUnit (f_nalus f) (f_key f) (UnixMilli auAbs).

Definition absolute (start : Z) (f : frame) : Z := s64 (start + Z.quot (f_pts f) 1000000).

(** The frames of one segment; [ff] while fast-forwarding to a keyframe. *)
Fixpoint run_frames (start : Z) (ff : bool) (fs : list frame) (evs : list event) (st : state) :
    option (pass_end * state * list event) :=
  match fs with
  | [] => Some (Exhausted, st, evs)
  | f :: rest =>
      let auAbs := absolute start f in
      let send_it st evs :=
        match send (au_of auAbs f) (sink st) with
        | None => None
        | Some (ok, s) => if ok then run_frames start false rest evs (set_sink s st)
                          else Some (Finished, set_sink s st, evs)
        end in
      let begin_ st := anchor auAbs st <| started := true |> in
      if ff then
        if endMs st <? auAbs then Some (Finished, st, evs)
        else if f_key f then send_it (begin_ st) evs
        else run_frames start true rest evs st
      else if auAbs <? startMs st then run_frames start false rest evs st
      else if endMs st <? auAbs then
        if negb (paused st) then Some (Finished, st, evs) else
        match waitWhilePaused auAbs evs st with
        | (Ended, st, evs) => Some (Done, st, evs)
        | (SeekTo c, st, evs) => Some (Seeking c, st, evs)
        | (Ready, st, evs) => run_frames start false rest evs st
        end
      else
        match waitToSend auAbs evs st with
        | (Ended, st, evs) => Some (Done, st, evs)
        | (SeekTo c, st, evs) => Some (Seeking c, st, evs)
        | (Ready, st, evs) =>
            if started st then send_it st evs
            else if f_key f then send_it (begin_ st) evs
            else run_frames start true rest evs st
        end
  end.

Fixpoint runPass (segments : list SegmentMeta) (evs : list event) (st : state) : option (pass_end * state * list event) :=
  match segments with
  | [] =>
      (* all segments exhausted *)
      match waitWhilePaused 0 evs st with
      | (Ended, st, evs) => Some (Done, st, evs)
      | (SeekTo c, st, evs) => Some (Seeking c, st, evs)
      | (Ready, st, evs) => Some (Finished, st, evs)
      end
  | seg :: rest =>
      match open (File seg) with
      | None => runPass rest evs st
      | Some reader =>
          match run_frames (StartMS seg) false (all_frames reader) evs st with
          | Some (Exhausted, st, evs) => runPass rest evs st
          | r => r
          end
      end
  end.

(** The outer loop: every seek takes an event, so that their number is fuel
    enough. The flag: the end is announced with an INFO. *)
Fixpoint run_loop (fuel : nat) (segments : list SegmentMeta) (evs : list event) (st : state) : option (bool * state) :=
  match runPass segments evs st with
  | Some (Seeking c, st, evs) =>
      let st := st <| startMs := default (startMs st) (StartTime c) |> <| endMs := default (endMs st) (EndTime c) |> in
      match Lookup with
      | None => Some (true, st)
      | Some lookup =>
          match lookup (startMs st) (endMs st) with
          | [] => Some (true, st)
          | segs => match fuel with
                    | O => None
                    | Datatypes.S n => run_loop n (by_start segs) evs (st <| started := false |> <| paused := false |>)
                    end
          end
      end
  | Some (Done, st, _) => Some (false, st)
  | Some (_, st, _) => Some (true, st)
  | None => None
  end.

(** The zero [time.Time], in nanoseconds since the epoch. *)
Definition zero_time : Z := -62135596800 * 1000000000.

Definition runPlayback (segments : list SegmentMeta) (startMs endMs : Z) (one : F) (s : S) (evs : list event) : option (bool * state) :=
  run_loop (length evs) (by_start segments) evs (mkState zero_time 0 false false one startMs endMs 0 s).

End Playback.

(** ** Lemmas: what a download selects *)

Section Download.

Context (Lookup : option (Z -> Z -> list SegmentMeta)) (open : text -> option SegmentReader).
Context {S : Type} (send : AccessUnit -> S -> option (bool * S)).
Context (clock : nat -> Z) {F : Type} (positive : F -> bool) (same : F -> F -> bool) (pace : Z -> F -> Z).

(** The frames of the recordings with their absolute times. *)
Definition seg_frames (seg : SegmentMeta) : list (Z * frame) :=
  match open (File seg) with
  | Some r => map (fun f => (absolute (StartMS seg) f, f)) (all_frames r)
  | None => []
  end.

Definition timeline (segs : list SegmentMeta) : list (Z * frame) := flat_map seg_frames segs.

Definition in_window (a b : Z) (p : Z * frame) : bool := (a <=? fst p) && (fst p <=? b).

(** From the first keyframe on. *)
Fixpoint from_key (l : list (Z * frame)) : list (Z * frame) :=
  match l with [] => [] | p :: rest => if f_key (snd p) then l else from_key rest end.

Definition units (l : list (Z * frame)) : list AccessUnit := map (fun p => au_of (fst p) (snd p)) l.

Fixpoint send_all (aus : list AccessUnit) (s : S) : option (bool * S) :=
  match aus with
  | [] => Some (true, s)
  | au :: rest => match send au s with
                  | None => None
                  | Some (ok, s1) => if ok then send_all rest s1 else Some (false, s1)
                  end
  end.

Definition ordered (l : list (Z * frame)) : Prop := StronglySorted (fun p q => fst p <= fst q) l.

(** What is left to send of the frames [l]. *)
Definition wanted (begun : bool) (a b : Z) (l : list (Z * frame)) : list (Z * frame) :=
  let r := List.filter (in_window a b) l in if begun then r else from_key r.

Lemma window_empty a b l : Forall (fun p : Z * frame => b < fst p) l -> List.filter (in_window a b) l = [].
Proof.
  induction 1 as [|p l Hp _ IH]; [done|]. cbn [List.filter]. unfold in_window at 1.
  by rewrite (proj2 (Z.leb_gt (fst p) b)), andb_false_r.
Qed.

Lemma window_beyond a b p l : ordered (p :: l) -> b < fst p -> List.filter (in_window a b) (p :: l) = [].
Proof.
  intros [_ H]%StronglySorted_inv Hp. apply window_empty. apply list.Forall_cons. split; [done|].
  eapply list.Forall_impl; [exact H|]. cbn. intros. lia.
Qed.

Lemma send_all_app a b s : send_all (a ++ b) s =
  match send_all a s with Some (true, s1) => send_all b s1 | r => r end.
Proof.
  revert s. induction a as [|au a IH]; intros s; [done|]. cbn [app send_all].
  destruct (send au s) as [[[] s1]|]; [apply IH|done|done].
Qed.

(** The state after sending, apart from the pacing. *)
Definition carried (st st' : @state S F) (begun : bool) (s : S) : Prop :=
  sink st' = s /\ startMs st' = startMs st /\ endMs st' = endMs st /\ paused st' = false /\ started st' = begun.

(** The access units [K] were sent, and then [fin]; or a send failed. *)
Definition ends_with (st : @state S F) (begun : bool) (K : list (Z * frame)) (evs : list (@event F)) (fin : pass_end)
    (r : option (@pass_end F * @state S F * list (@event F))) : Prop :=
  match send_all (units K) (sink st) with
  | None => r = None
  | Some (false, s) => exists st', r = Some (Finished, st', evs) /\ sink st' = s
  | Some (true, s) => exists st', carried st st' begun s /\ r = Some (fin, st', evs)
  end.

Lemma waitToSend_download auAbs evs (st : @state S F) : paused st = false ->
  waitToSend clock positive same pace false auAbs evs st = (Ready, st, evs).
Proof. intros H. destruct evs; cbn; by rewrite H. Qed.

Lemma ends_with_nil (st : @state S F) evs fin : paused st = false -> ends_with st (started st) [] evs fin (Some (fin, st, evs)).
Proof. intros H. by exists st. Qed.

(** One access unit more in front. *)
Lemma ends_with_cons (st st0 : @state S F) begun p K evs fin r :
  startMs st0 = startMs st -> endMs st0 = endMs st -> sink st0 = sink st ->
  (forall s, ends_with (set_sink s st0) begun K evs fin (r s)) ->
  ends_with st begun (p :: K) evs fin
    (match send (au_of (fst p) (snd p)) (sink st0) with
     | None => None
     | Some (ok, s) => if ok then r s else Some (Finished, set_sink s st0, evs)
     end).
Proof.
  intros H1 H2 H3 Hr. unfold ends_with in *. cbn [units map send_all]. rewrite H3.
  destruct (send _ (sink st)) as [[[] s]|]; [|by exists (set_sink s st0)|done].
  specialize (Hr s). change (sink (set_sink s st0)) with s in Hr. unfold units in Hr.
  destruct (send_all (map _ K) s) as [[[] s2]|]; [|exact Hr|exact Hr].
  destruct Hr as (st' & (C1 & C2 & C3 & C4 & C5) & E). exists st'. split; [|exact E].
  unfold carried. change (startMs (set_sink s st0)) with (startMs st0) in C2.
  change (endMs (set_sink s st0)) with (endMs st0) in C3. by rewrite C2, C3.
Qed.

Lemma window_cons a b p l : in_window a b p = true -> List.filter (in_window a b) (p :: l) = p :: List.filter (in_window a b) l.
Proof. intros H. cbn [List.filter]. by rewrite H. Qed.

Definition over (st : @state S F) (l : list (Z * frame)) : @pass_end F :=
  if existsb (fun p => (startMs st <=? fst p) && (endMs st <? fst p)) l then Finished else Exhausted.

Definition begun_after (st : @state S F) (l : list (Z * frame)) : bool :=
  started st || existsb (fun p => f_key (snd p)) (List.filter (in_window (startMs st) (endMs st)) l).

Lemma run_frames_download start fs : forall ff evs (st : @state S F), paused st = false -> (ff = true -> started st = false) ->
  let l := map (fun f => (absolute start f, f)) fs in
  ordered l -> (ff = true -> Forall (fun p => startMs st <= fst p) l) ->
  ends_with st (begun_after st l) (wanted (started st) (startMs st) (endMs st) l) evs (over st l)
    (run_frames send clock positive same pace false start ff fs evs st).
Proof.
  induction fs as [|f fs IH]; intros ff evs st Hp Hff l Ho Hs.
  { unfold wanted, begun_after, l. cbn. rewrite orb_false_r. destruct (started st) eqn:E; rewrite <- E; by apply (ends_with_nil st). }
  cbn zeta in IH. set (l' := map (fun f => (absolute start f, f)) fs) in *. change l with ((absolute start f, f) :: l') in *.
  clear l. set (t := absolute start f) in *.
  pose proof (StronglySorted_inv Ho) as [Ho' Hge].
  assert (Beyond : startMs st <= t -> endMs st < t -> ends_with st (begun_after st ((t, f) :: l')) (wanted (started st) (startMs st) (endMs st) ((t, f) :: l'))
            evs (over st ((t, f) :: l')) (Some (Finished, st, evs))).
  { intros H0 H. unfold wanted, begun_after, over. rewrite window_beyond by done. cbn [existsb fst from_key].
    rewrite (proj2 (Z.ltb_lt _ _)), (proj2 (Z.leb_le _ _)) by done. cbn [andb orb]. rewrite orb_false_r. destruct (started st) eqn:E; rewrite <- E; by apply ends_with_nil. }
  assert (In : startMs st <= t -> t <= endMs st -> in_window (startMs st) (endMs st) (t, f) = true).
  { intros. unfold in_window. cbn [fst]. by rewrite !(proj2 (Z.leb_le _ _)). }
  assert (Over : t <= endMs st -> over st ((t, f) :: l') = over st l').
  { intros H. unfold over. cbn [existsb fst]. by rewrite (proj2 (Z.ltb_ge _ _)), andb_false_r. }
  (* the frame is sent *)
  assert (Sent : forall st0, startMs st0 = startMs st -> endMs st0 = endMs st -> sink st0 = sink st -> paused st0 = false ->
    started st0 = true -> startMs st <= t -> t <= endMs st -> (started st = true \/ f_key f = true) ->
    ends_with st (begun_after st ((t, f) :: l')) (wanted (started st) (startMs st) (endMs st) ((t, f) :: l')) evs (over st ((t, f) :: l'))
      (match send (au_of t f) (sink st0) with
       | None => None
       | Some (ok, s) => if ok then run_frames send clock positive same pace false start false fs evs (set_sink s st0)
                         else Some (Finished, set_sink s st0, evs)
       end)).
  { intros st0 A1 A2 A3 A4 A5 H1 H2 H3. rewrite Over by done.
    assert (W : wanted (started st) (startMs st) (endMs st) ((t, f) :: l') = (t, f) :: List.filter (in_window (startMs st) (endMs st)) l').
    { unfold wanted. rewrite window_cons by auto. destruct H3 as [->|Hk]; [done|]. cbn [from_key snd]. rewrite Hk. by destruct (started st). }
    assert (B : begun_after st ((t, f) :: l') = true).
    { unfold begun_after. rewrite window_cons by auto. cbn [existsb snd]. destruct H3 as [E|E]; rewrite E; [done|]. by rewrite orb_true_r. }
    rewrite W, B. apply (ends_with_cons st st0 true (t, f)); try done. intros s.
    pose proof (IH false evs (set_sink s st0) A4 ltac:(done) Ho' ltac:(done)) as I.
    unfold begun_after, wanted, over in I. change (started (set_sink s st0)) with (started st0) in I.
    change (startMs (set_sink s st0)) with (startMs st0) in I. change (endMs (set_sink s st0)) with (endMs st0) in I.
    rewrite A5, A1, A2 in I. cbn [orb] in I. unfold over. exact I. }
  cbn [run_frames]. fold t. destruct ff.
  - apply list.Forall_cons in Hs as [Hst Hs]; [|done]. cbn [fst] in Hst.
    destruct (Z.ltb_spec (endMs st) t) as [He|He]; [by apply Beyond|].
    destruct (bool_dec (f_key f) true) as [Hk|Hk]; [rewrite Hk; apply Sent; auto|]. apply not_true_iff_false in Hk. rewrite Hk.
    pose proof (IH true evs st Hp Hff Ho' ltac:(done)) as I. unfold wanted, begun_after in *. rewrite Hff in * by done.
    rewrite window_cons, Over by auto. cbn [from_key existsb snd]. by rewrite Hk.
  - destruct (Z.ltb_spec t (startMs st)) as [Hlt|Hge2].
    + pose proof (IH false evs st Hp ltac:(done) Ho' ltac:(done)) as I.
      assert (E : List.filter (in_window (startMs st) (endMs st)) ((t, f) :: l') = List.filter (in_window (startMs st) (endMs st)) l').
      { cbn [List.filter]. unfold in_window at 1. cbn [fst]. by rewrite (proj2 (Z.leb_gt _ _)). }
      unfold wanted, begun_after, over in *. rewrite E. cbn [existsb fst]. by rewrite (proj2 (Z.leb_gt _ _)).
    + destruct (Z.ltb_spec (endMs st) t) as [He|He].
      * rewrite Hp. cbn [negb]. by apply Beyond.
      * rewrite waitToSend_download by done. destruct (bool_dec (started st) true) as [Hst|Hst].
        -- pose proof (Sent st ltac:(done) ltac:(done) ltac:(done) Hp Hst Hge2 He ltac:(by left)) as R. rewrite Hst in *. exact R.
        -- apply not_true_iff_false in Hst. destruct (bool_dec (f_key f) true) as [Hk|Hk].
           { rewrite Hst, Hk. pose proof (Sent (anchor clock t st <| started := true |>)) as R. rewrite Hst in R. apply R; auto. }
           apply not_true_iff_false in Hk. rewrite Hst, Hk.
           assert (Hs' : Forall (fun p => startMs st <= fst p) l').
           { eapply list.Forall_impl; [exact Hge|]. cbn. intros. lia. }
           pose proof (IH true evs st Hp ltac:(done) Ho' ltac:(done)) as I. unfold wanted, begun_after in *. rewrite Hst in *.
           rewrite window_cons, Over by auto. cbn [from_key existsb snd]. by rewrite Hk.
Qed.

Lemma from_key_app a b : from_key (a ++ b) = from_key a ++ (if existsb (fun p => f_key (snd p)) a then b else from_key b).
Proof. induction a as [|p a IH]; [done|]. cbn [app from_key existsb]. by destruct (f_key (snd p)). Qed.

Lemma wanted_app (st : @state S F) l1 l2 : wanted (started st) (startMs st) (endMs st) (l1 ++ l2) =
  wanted (started st) (startMs st) (endMs st) l1 ++ wanted (begun_after st l1) (startMs st) (endMs st) l2.
Proof.
  unfold wanted, begun_after. rewrite List.filter_app. destruct (started st); [done|]. cbn [orb]. rewrite from_key_app.
  by destruct (existsb _ _).
Qed.

Lemma ordered_app l1 l2 : ordered (l1 ++ l2) -> ordered l1 /\ ordered l2 /\ forall p q, In p l1 -> In q l2 -> fst p <= fst q.
Proof.
  induction l1 as [|p l1 IH]; cbn [app]; intros H; [split; [constructor|by split]|].
  apply StronglySorted_inv in H as [H Hall]. destruct (IH H) as (I1 & I2 & I3). apply list.Forall_app in Hall as [A1 A2].
  split; [by constructor|]. split; [done|]. intros x y [<-|Hx] Hy; [|by apply I3]. by apply (proj1 (List.Forall_forall _ _) A2).
Qed.



Lemma runPass_download segs : forall evs (st : @state S F), paused st = false -> ordered (timeline segs) ->
  match send_all (units (wanted (started st) (startMs st) (endMs st) (timeline segs))) (sink st) with
  | None => runPass open send clock positive same pace false segs evs st = None
  | Some (_, s) => exists st', runPass open send clock positive same pace false segs evs st = Some (Finished, st', evs) /\ sink st' = s
  end.
Proof.
  induction segs as [|seg segs IH]; intros evs st Hp Ho.
  - assert (K : wanted (started st) (startMs st) (endMs st) (timeline []) = []) by (unfold wanted; by destruct (started st)).
    rewrite K. exists st. split; [|done]. cbn [runPass]. by destruct evs; cbn; rewrite Hp.
  - unfold timeline in *. cbn [flat_map runPass] in *. unfold seg_frames at 1. unfold seg_frames at 1 in Ho.
    destruct (open (File seg)) as [r|]; [|by apply IH].
    apply ordered_app in Ho as (Ho1 & Ho2 & Hle).
    pose proof (run_frames_download (StartMS seg) (all_frames r) false evs st Hp ltac:(done) Ho1 ltac:(done)) as R.
    set (l1 := map _ (all_frames r)) in *. set (l2 := flat_map seg_frames segs) in *.
    rewrite wanted_app. unfold units in *. rewrite map_app, send_all_app. unfold ends_with, units in R.
    destruct (send_all (map _ (wanted _ _ _ l1)) (sink st)) as [[[] s]|].
    + destruct R as (st' & (C1 & C2 & C3 & C4 & C5) & ->). unfold over. destruct (existsb _ l1) eqn:X.
      * apply existsb_exists in X as (p & Hin & [_ Hp2]%andb_true_iff). apply Z.ltb_lt in Hp2.
        assert (E : wanted (begun_after st l1) (startMs st) (endMs st) l2 = []).
        { unfold wanted. rewrite window_empty; [by destruct (begun_after st l1)|]. apply List.Forall_forall. intros q Hq.
          specialize (Hle p q Hin Hq). lia. }
        rewrite E. by exists st'.
      * specialize (IH evs st' C4 Ho2). by rewrite C1, C2, C3, C5 in IH.
    + destruct R as (st' & -> & E). by exists st'.
    + by rewrite R.
Qed.

(** ** Theorems *)

(** A download sends what was asked for: of the recordings, in the order of
    their start, exactly the frames whose times lie in the requested range, from
    the first keyframe among them on, once and in order; only a send that fails
    ends it before. *)
Theorem download_selects segments a b one s :
  ordered (timeline (by_start segments)) ->
  match send_all (units (from_key (List.filter (in_window a b) (timeline (by_start segments))))) s with
  | None => runPlayback Lookup open send clock positive same pace false segments a b one s [] = None
  | Some (_, s') => exists st', runPlayback Lookup open send clock positive same pace false segments a b one s [] = Some (true, st') /\
      sink st' = s'
  end.
Proof.
  intros Ho. pose proof (runPass_download (by_start segments) [] (mkState zero_time 0 false false one a b 0 s) eq_refl Ho) as R.
  unfold wanted in R. cbn [started startMs endMs sink] in R. unfold runPlayback. cbn [length run_loop].
  destruct (send_all _ s) as [[ok s']|].
  - destruct R as (st' & -> & E). by exists st'.
  - by rewrite R.
Qed.

End Download.

(** ** The recordings on the wire *)

(** The body of the pass: multiplex the access unit, send it. *)
Definition push (write : list Z -> bool) (marshal marshalExt : Packet -> option (list Z)) (ssrc : Z) (au : AccessUnit)
    (s : list (list Z) * RtpPusher) : option (bool * (list (list Z) * RtpPusher)) :=
  psData ← MuxH264ToPS (NALUs au) (KeyFrame au) (TimestampAU au) (TimestampAU au);
  res ← SendFrame write marshal marshalExt psData (TimestampAU au) ssrc (snd s);
  Some (match push_err res with None => true | Some _ => false end, (fst s ++ pushed res, pusher res)).

Lemma send_all_packets write marshal marshalExt unmarshal aus ssrc :
  (forall d, write d = true) -> pion_roundtrip marshal unmarshal ->
  forall rp acc pkts, unsigned_device ssrc rp -> device_packets aus ssrc rp = Some pkts ->
  exists rp', send_all (push write marshal marshalExt ssrc) aus (acc, rp) =
    Some (true, (acc ++ map (fun q => push_wire rp (default [] (marshal q))) pkts, rp')).
Proof.
  intros Hw Hpion. induction aus as [|au aus IH]; intros rp acc pkts Hd Hp; cbn [device_packets send_all] in *.
  - injection Hp as <-. exists rp. by rewrite app_nil_r.
  - unfold push at 1. destruct (MuxH264ToPS _ _ _ _) as [ps|]; [|done]. cbn [mbind option_bind snd] in *.
    destruct (device_sends write marshal marshalExt unmarshal ps (TimestampAU au) ssrc rp Hw Hpion Hd)
      as (res & b & E1 & E2 & E3 & E4 & _). fold (rtp_ts au) in E3, E4. set (pk := burst _ _ _ _) in *.
    destruct (device_packets aus ssrc _) as [more|] eqn:Em; [|done]. cbn [mbind option_bind] in Hp. injection Hp as <-.
    rewrite E1. cbn [mbind option_bind fst]. rewrite E2, E3, E4. rewrite <- (device_packets_bytes _ _ _ b) in Em.
    destruct (IH _ (acc ++ map (fun q => push_wire rp (default [] (marshal q))) pk) more (pushed_unsigned _ b _ _ Hd) Em) as (rp' & ->).
    exists rp'. by rewrite map_app, app_assoc.
Qed.

(** C30: A download reaches the platform: the frames of the recordings in the
    requested range, from the first keyframe on, multiplexed and sent over UDP or
    TCP, plain or encrypted, come out at the callbacks of a fresh receiver, one by
    one, with their NAL units, times and keyframe flags. *)
Theorem download_delivers Lookup open clock {F} (positive : F -> bool) same pace segments a b one
    write marshal marshalExt unmarshal ssrc rp r au aus :
  (forall d, write d = true) -> pion_roundtrip marshal unmarshal ->
  sized marshal (payloadEncryptor rp) -> unsigned_device ssrc rp -> keyed (packetizer ssrc rp) r -> fresh r ->
  ordered (timeline open (by_start segments)) ->
  units (from_key (List.filter (in_window a b) (timeline open (by_start segments)))) = au :: aus ->
  Forall device_au (au :: aus) ->
  exists st' r', runPlayback Lookup open (push write marshal marshalExt ssrc) clock positive same pace false segments a b one ([], rp) []
      = Some (true, st') /\
    receive_stream unmarshal (tcpConn rp) (fst (sink st')) r = Some r' /\
    out r' = out r ++ concat (map (device_expected r) (au :: aus)) /\ jitterBuffer r' = ∅ /\ synced (demuxer r').
Proof.
  intros Hw Hpion Hsz Hd Hk Fr Ho Hsel Haus. pose proof Hd as (_ & _ & Hs).
  destruct (device_fresh_session ssrc au aus rp r Fr Hs Hk Haus) as (pkts & r' & E1 & E2 & E3 & E4 & E5).
  pose proof (download_selects Lookup open (push write marshal marshalExt ssrc) clock positive same pace segments a b one ([], rp) Ho) as D.
  rewrite Hsel in D. destruct (send_all_packets write marshal marshalExt unmarshal (au :: aus) ssrc Hw Hpion rp [] pkts Hd E1) as (rp' & X).
  rewrite X in D. destruct D as (st' & D1 & D2). exists st', r'. split; [exact D1|]. rewrite D2. cbn [fst app].
  split; [|done]. destruct (media_loop_packets write marshal marshalExt unmarshal (au :: aus) ssrc rp pkts Hw Hpion Hd E1) as (_ & _ & _ & F3).
  apply (receive_stream_packets marshal unmarshal rp pkts r r'); [done..| |done].
  intros _. split; [|apply Hsz]. eapply device_short; [exact Hd|exact Hsz|exact E1].
Qed.

(** ** Seeking *)

(** A seek keeps the old schedule: while playback is running and not paused,
    PLAY with a new start leaves both anchors of the pacing as they were, so that
    the first frame at the new position is held back until the clock reaches the
    wall time that its distance from the old anchor gives. *)
Theorem seek_keeps_schedule {S F} clock (positive : F -> bool) same pace (ctl : @PlaybackControl F) x auAbs (st : @state S F) t :
  Value ctl = txt "PLAY" -> StartTime ctl = Some x -> Speed ctl = None -> paused st = false ->
  let (seek, st1) := applyControl clock positive same ctl auAbs st in
  seek = true /\
  (clock (reads st) < baseWall st + pace (s64 (t - basePts st)) (speed st) ->
   fst (fst (waitToSend clock positive same pace true t []
     (mkState (baseWall st1) (basePts st1) false false (speed st1) x (endMs st1) (reads st1) (sink st1)))) = Ended).
Proof.
  intros Hv Hs Hsp Hp. unfold applyControl. rewrite Hv, Hs, Hsp, Hp.
  change (bool_decide (txt "PLAY" = txt "PLAY")) with true. change (bool_decide (txt "PLAY" = txt "PAUSE")) with false.
  cbv zeta. cbn [negb andb]. split; [done|]. intros H. unfold waitToSend. cbn [paused negb].
  unfold now. cbn [baseWall basePts speed reads update eta eta_state fst].
  rewrite (proj2 (Z.leb_gt _ _)) by lia. reflexivity.
Qed.

(** ** A concrete recording *)

(** Three frames at the nominal 25 per second, of which the window takes two. *)
Definition demo_file : list Z :=
  concat (map (fun n => [0; 0; 0; 1] ++ n) [[0x67; 0x42; 0x1F]; [0x68; 0xCE]; [0x65; 0x88; 7]; [0x41; 0x9A; 9]; [0x41; 0x9A; 10]]).
Definition demo_open (file : text) : option SegmentReader :=
  match OpenSegment (fun _ => None) (Some demo_file) None with Some r => r | None => None end.
Definition demo_segments : list SegmentMeta := [mkSegmentMeta (txt "a") 1785000000000 1785000060000].
(** The speed is a whole number here. *)
Definition demo_pace (ms speed : Z) : Z := Z.quot (ms * 1000000) speed.

Lemma demo_ordered : ordered (timeline demo_open (by_start demo_segments)).
Proof. vm_compute. repeat (constructor; try (vm_compute; congruence)). Qed.

Lemma demo_selected :
  units (from_key (List.filter (in_window 1785000000000 1785000000040) (timeline demo_open (by_start demo_segments)))) = demo_aus.
Proof. vm_compute. reflexivity. Qed.

Lemma download_selects_witness :
  exists st', runPlayback None demo_open (fun au s => Some (true, s ++ [au])) (fun _ => 0) (Z.ltb 0) Z.eqb demo_pace false
    demo_segments 1785000000000 1785000000040 1 [] [] = Some (true, st') /\ sink st' = demo_aus.
Proof.
  pose proof (download_selects None demo_open (fun au s => Some (true, s ++ [au])) (fun _ => 0) (Z.ltb 0) Z.eqb demo_pace
    demo_segments 1785000000000 1785000000040 1 [] demo_ordered) as H.
  rewrite demo_selected in H. exact H.
Defined.

Lemma download_delivers_witness :
  exists st' r', runPlayback None demo_open (push (fun _ => true) (fun q => Some (plain_bytes q)) (fun _ => None) 77)
      (fun _ => 0) (Z.ltb 0) Z.eqb demo_pace false demo_segments 1785000000000 1785000000040 1 ([], demo_pusher) [] = Some (true, st') /\
    receive_stream parse_rtp true (fst (sink st')) demo_receiver = Some r' /\
    out r' = concat (map (device_expected demo_receiver) demo_aus).
Proof.
  destruct (download_delivers None demo_open (fun _ => 0) (Z.ltb 0) Z.eqb demo_pace demo_segments 1785000000000 1785000000040 1
    (fun _ => true) (fun q => Some (plain_bytes q)) (fun _ => None) parse_rtp 77 demo_pusher demo_receiver
    (mkAccessUnit [[0x67; 0x42; 0x1F]; [0x68; 0xCE]; [0x65; 0x88; 7]] true (Some 1785000000000000000))
    [mkAccessUnit [[0x41; 0x9A; 9]] false (Some 1785000000040000000)]) as (st' & r' & H1 & H2 & H3 & _).
  - reflexivity.
  - exact pion_plain.
  - apply sized_plain. intros x s q. unfold xor_cryptor, len. by rewrite length_map.
  - by repeat split.
  - exact xor_cryptor_involutive.
  - exact demo_fresh.
  - exact demo_ordered.
  - exact demo_selected.
  - exact demo_aus_ok.
  - exists st', r'. split; [exact H1|]. split; [exact H2|exact H3].
Defined.

(** A minute into a recording of one frame a minute: the seek to its second frame
    is answered by silence for a minute, though the frame is there. *)
Lemma seek_keeps_schedule_witness :
  fst (fst (waitToSend (fun _ => 5) (Z.ltb 0) Z.eqb demo_pace true 60000 [] (mkState 0 0 false false 1 60000 90000 1 tt))) = Ended.
Proof.
  pose proof (seek_keeps_schedule (fun _ => 5) (Z.ltb 0) Z.eqb demo_pace (mkPlaybackControl (txt "PLAY") (Some 60000) None None) 60000 0
    (mkState 0 0 true false 1 0 90000 1 tt) 60000 eq_refl eq_refl eq_refl eq_refl) as H.
  destruct (applyControl _ _ _ _ _ _) as [seek st1] eqn:E. revert E. vm_compute. intros [= <- <-]. apply H. vm_compute. reflexivity.
Defined.
