(* ===== verification/Talkback.v ===== *)
(** Voice talk between a platform and a device ([device/talkback.go],
    [platform/sip/talk.go]): the offer and the answer, and the audio that both
    sides send as RTP over one socket, protected per GB35114 when negotiated.

    Sockets and pion are parameters: a datagram is a list of bytes, [unmarshal] and
    the two [marshal]s are pion's. *)

From S2P Require Import Prelude GoStrings GoText Sdp PsDemux Receiver RtpSend Pipeline.
Open Scope Z_scope.

(** ** The offer and the answer *)

Inductive AudioCodec := AudioPCMU | AudioPCMA.

#[export] Instance AudioCodec_eq_dec : EqDecision AudioCodec.
Proof. solve_decision. Defined.

Definition PayloadType_of (c : AudioCodec) : Z := match c with AudioPCMU => 0 | AudioPCMA => 8 end.

Definition Name (c : AudioCodec) : text := match c with AudioPCMA => txt "PCMA" | AudioPCMU => txt "PCMU" end.

(** [codec] is [None] where the source has [codecOK] false. *)
Record talkbackOffer := mkTalkbackOffer {
  codec : option AudioCodec;
  o_ssrc : Z;
  tcp : bool;
  connIP : text;
  o_mediaPort : Z;
  recvOnly : bool;
  sendOnly : bool;
}.

(** The variables of the loop of [parseTalkbackOffer]. *)
Record offer_vars := mkOfferVars {
  hasVideo : bool;
  hasAudio : bool;
  payloadTypes : list Z;
  v_mLineProto : text;
  rtpmaps : list text;
  v_ssrc : Z;
  v_connIP : text;
  v_mediaPort : Z;
  v_recvOnly : bool;
  v_sendOnly : bool;
}.

#[export] Instance eta_offer_vars : Eta offer_vars := fun v =>
  mkOfferVars (hasVideo v) (hasAudio v) (payloadTypes v) (v_mLineProto v) (rtpmaps v) (v_ssrc v) (v_connIP v) (v_mediaPort v)
    (v_recvOnly v) (v_sendOnly v).

Definition offer_line (raw : text) (v : offer_vars) : offer_vars :=
  let line := TrimSpace raw in
  if HasPrefix line (txt "m=video ") then v <| hasVideo := true |>
  else if HasPrefix line (txt "m=audio ") then
    let v1 := v <| hasAudio := true |> in
    match Fields line with
    | _ :: p :: proto :: pts =>
        let v2 := v1 <| v_mLineProto := proto |> in
        let v3 := match Atoi p with Some port => v2 <| v_mediaPort := port |> | None => v2 end in
        v3 <| payloadTypes := payloadTypes v3 ++ omap Atoi pts |>
    | _ => v1
    end
  else if HasPrefix line (txt "c=IN IP4 ") then
    match v_connIP v with
    | [] => v <| v_connIP := TrimSpace (TrimPrefix line (txt "c=IN IP4 ")) |>
    | _ => v
    end
  else if bool_decide (line = txt "a=recvonly") then v <| v_recvOnly := true |>
  else if bool_decide (line = txt "a=sendonly") then v <| v_sendOnly := true |>
  else if HasPrefix line (txt "a=rtpmap:") then v <| rtpmaps := rtpmaps v ++ [TrimPrefix line (txt "a=rtpmap:")] |>
  else if HasPrefix line (txt "y=") then
    match ParseUint32 (TrimPrefix line (txt "y=")) with Some n => v <| v_ssrc := n |> | None => v end
  else v.

Definition codec_of_pt (pt : Z) : option AudioCodec :=
  if pt =? 8 then Some AudioPCMA else if pt =? 0 then Some AudioPCMU else None.

Definition codec_of_rtpmap (rm : text) : option AudioCodec :=
  if HasPrefix rm (txt "8 PCMA") then Some AudioPCMA else if HasPrefix rm (txt "0 PCMU") then Some AudioPCMU else None.

(** The first element that names a codec. *)
Definition first_codec {A} (f : A -> option AudioCodec) (l : list A) : option AudioCodec := head (omap f l).

Definition parseTalkbackOffer (body : text) : option talkbackOffer :=
  let v := fold_left (fun v l => offer_line l v) (Split body LF) (mkOfferVars false false [] [] [] 0 [] 0 false false) in
  if hasVideo v || negb (hasAudio v) then None else
  let codec := match first_codec codec_of_pt (payloadTypes v) with
               | Some c => Some c
               | None => first_codec codec_of_rtpmap (rtpmaps v)
               end in
  Some (mkTalkbackOffer codec (v_ssrc v) (Contains (v_mLineProto v) (txt "TCP")) (v_connIP v) (v_mediaPort v) (v_recvOnly v) (v_sendOnly v)).

(** [direction] is empty or a whole line. *)
Definition buildTalkbackSDP (deviceIP : text) (mediaPort ssrc : Z) (codec : AudioCodec) (direction : text) : text :=
  let pt := Itoa (PayloadType_of codec) in
  lines_crlf [txt "v=0"; txt "o=- 0 0 IN IP4 " ++ deviceIP; txt "s=Play"; txt "c=IN IP4 " ++ deviceIP; txt "t=0 0";
              txt "m=audio " ++ Itoa mediaPort ++ txt " RTP/AVP " ++ pt; txt "a=rtpmap:" ++ pt ++ txt " " ++ Name codec ++ txt "/8000"]
  ++ direction ++ lines_crlf [txt "y=" ++ Itoa ssrc].

Definition talkRTPPayloadType : Z := 8.

(** The offer of [StartTalk]; [offerValue] is empty without media security. *)
Definition talk_sdp (serverID serverHost : text) (localPort : Z) (ssrcStr offerValue : text) : text :=
  lines_crlf [txt "v=0"; txt "o=" ++ serverID ++ txt " 0 0 IN IP4 " ++ serverHost; txt "s=Play"; txt "c=IN IP4 " ++ serverHost;
              txt "t=0 0"; txt "m=audio " ++ Itoa localPort ++ txt " RTP/AVP " ++ Itoa talkRTPPayloadType; txt "a=sendrecv";
              txt "y=" ++ ssrcStr]
  ++ match offerValue with [] => [] | _ => lines_crlf [txt "a=security:" ++ offerValue] end.

Fixpoint audio_lines (lines : list text) (host : text) (port : Z) : text * Z :=
  match lines with
  | [] => (host, port)
  | raw :: rest =>
      let line := TrimSpace raw in
      if HasPrefix line (txt "c=IN IP4 ") then audio_lines rest (TrimSpace (TrimPrefix line (txt "c=IN IP4"))) port
      else if HasPrefix line (txt "m=audio ")
      then audio_lines rest host (match Fields line !! 1%nat with Some f => default port (Atoi f) | None => port end)
      else audio_lines rest host port
  end.

(** [ParseIP] says whether [net.ParseIP] finds an address. *)
Definition sdpAudioAddress (ParseIP : text -> bool) (sdp : text) : option (text * Z) :=
  let (host, port) := audio_lines (splitCRLF sdp) [] 0 in
  if bool_decide (host = []) || (port <=? 0) || (65535 <? port) || negb (ParseIP host) then None else Some (host, u16 port).

Definition encoding_name (f : text) : text := match cut_at 0x2F f with Some (h, _) => h | None => f end.

Fixpoint audio_codec_lines (lines : list text) (inAudio : bool) : text :=
  match lines with
  | [] => []
  | raw :: rest =>
      let line := TrimSpace raw in
      if HasPrefix line (txt "m=") then audio_codec_lines rest (HasPrefix line (txt "m=audio "))
      else if inAudio && HasPrefix line (txt "a=rtpmap:") then
        match Fields (TrimPrefix line (txt "a=rtpmap:")) with
        | _ :: f :: _ =>
            let name := ToUpper (encoding_name f) in
            if bool_decide (name = txt "PCMA") then txt AudioCodecG711A
            else if bool_decide (name = txt "PCMU") then txt AudioCodecG711U
            else if bool_decide (name = txt "MPEG4-GENERIC") then txt AudioCodecAAC
            else audio_codec_lines rest inAudio
        | _ => audio_codec_lines rest inAudio
        end
      else audio_codec_lines rest inAudio
  end.

Definition sdpAudioCodec (sdp : text) : text := audio_codec_lines (splitCRLF sdp) false.

(** ** Audio from the device *)

(** A level B signer; [None] is its error. *)
Definition signer := list Z -> Z -> Z -> option (list Z).

Section Audio.

Context (marshal marshalExt : Packet -> option (list Z)) (unmarshal : list Z -> option Packet).

(** The bytes of an audio packet, its signature attached when there is one. *)
Definition audio_bytes (q : Packet) (sigDER : option (list Z)) : option (list Z) :=
  match sigDER with Some sig => marshalExt (q <| AUSig := sig |>) | None => marshal q end.

(** The variables of [runTalkbackSender]. *)
Record talk_sender := mkTalkSender { s_ssrc : Z; s_seq : Z; s_ts : Z }.

Definition new_sender (r1 r2 r3 : Z) : talk_sender := mkTalkSender r1 (u16 r2) r3.

(** One tick of the sender with what the source has queued: the datagram, if one
    leaves, and whether the loop goes on. *)
Definition sender_tick (write : list Z -> bool) (codec : AudioCodec) (c : option cryptor) (sign : option signer) (frame : option (list Z))
    (st : talk_sender) : option (list Z) * talk_sender * bool :=
  match frame with
  | None => (None, st, true)
  | Some frame =>
      if (len frame =? 0) || (2048 <? len frame) then (None, st, true) else
      match (match sign with
             | None => Some None
             | Some f => match f frame (s_ssrc st) (s_ts st) with Some sig => Some (Some sig) | None => None end
             end) with
      | None => (None, st, true)
      | Some sigDER =>
          let payload := match c with Some f => f frame (s_ssrc st) (s_seq st) | None => frame end in
          match audio_bytes (mkPacket (s_ssrc st) (s_seq st) (s_ts st) false (PayloadType_of codec) payload []) sigDER with
          | None => (None, st, true)
          | Some wire =>
              if negb (write wire) then (None, st, false) else
              (Some wire, mkTalkSender (s_ssrc st) (u16 (s_seq st + 1)) (u32 (s_ts st + u32 (len frame))), true)
          end
      end
  end.

Fixpoint runTalkbackSender (write : list Z -> bool) (codec : AudioCodec) (c : option cryptor) (sign : option signer)
    (ticks : list (option (list Z))) (st : talk_sender) : list (list Z) * talk_sender :=
  match ticks with
  | [] => ([], st)
  | f :: rest =>
      let '(d, st1, go) := sender_tick write codec c sign f st in
      let out := match d with Some l => [l] | None => [] end in
      if go then let (more, st2) := runTalkbackSender write codec c sign rest st1 in (out ++ more, st2) else (out, st1)
  end.

(** [OnAudio]: payload, SSRC and codec. *)
Definition on_audio := (list Z * Z * AudioCodec)%type.

(** What the receive loop does with one datagram; [ReadFromUDP] fills at most the
    2048 bytes of its buffer and drops the rest. *)
Definition receiver_step (sessionSSRC : Z) (codec : AudioCodec) (c : option cryptor) (verify : option verifier) (datagram : list Z) : option on_audio :=
  let read := take 2048 datagram in
  if len read <? 12 then None else
  match unmarshal read with
  | None => None
  | Some pkt =>
      let ssrc := if SSRC pkt =? 0 then sessionSSRC else SSRC pkt in
      let payload := match c with Some f => f (Payload pkt) ssrc (SequenceNumber pkt) | None => Payload pkt end in
      match verify with
      | Some v => match AUSig pkt with
                  | [] => None
                  | sig => if v payload ssrc (Timestamp pkt) sig then Some (payload, ssrc, codec) else None
                  end
      | None => Some (payload, ssrc, codec)
      end
  end.

(** The calls of the sink, until the socket closes. *)
Definition runTalkbackReceiver (sessionSSRC : Z) (codec : AudioCodec) (c : option cryptor) (verify : option verifier)
    (datagrams : list (list Z)) : list on_audio :=
  omap (receiver_step sessionSSRC codec c verify) datagrams.

(** ** Audio from the platform *)

Record talkSession := mkTalkSession {
  t_ssrc : Z;
  t_seq : Z;
  t_ts : Z;
  t_cryptor : option cryptor;
  t_signer : option signer;
  uplinkVerifier : option verifier;
  closed : bool;
  packets : Z;
  bytesSent : Z;
  uplinkPackets : Z;
  uplinkBytes : Z;
  uplinkSSRC : Z;
}.

#[export] Instance eta_talkSession : Eta talkSession := fun t =>
  mkTalkSession (t_ssrc t) (t_seq t) (t_ts t) (t_cryptor t) (t_signer t) (uplinkVerifier t) (closed t) (packets t) (bytesSent t)
    (uplinkPackets t) (uplinkBytes t) (uplinkSSRC t).

Definition new_talk (ssrc : Z) (c : option cryptor) (sign : option signer) (verify : option verifier) : talkSession :=
  mkTalkSession ssrc 0 0 c sign verify false 0 0 0 0 0.

Definition talkMaxFrame : Z := 8192.

(** [WriteTalkAudio] on the session of its channel: the datagram, if one leaves.
    The sequence number is taken before anything can fail. *)
Definition WriteTalkAudio (write : list Z -> bool) (alaw : list Z) (t : talkSession) : option (list Z) * talkSession :=
  if (len alaw =? 0) || (talkMaxFrame <? len alaw) || closed t then (None, t) else
  let seq := u16 (t_seq t + 1) in
  let t1 := t <| t_seq := seq |> in
  match (match t_signer t with
         | None => Some None
         | Some f => match f alaw (t_ssrc t) (t_ts t) with Some sig => Some (Some sig) | None => None end
         end) with
  | None => (None, t1)
  | Some sigDER =>
      let payload := match t_cryptor t with Some f => f alaw (t_ssrc t) seq | None => alaw end in
      match audio_bytes (mkPacket (t_ssrc t) seq (t_ts t) false talkRTPPayloadType payload []) sigDER with
      | None => (None, t1)
      | Some pkt =>
          let t2 := t1 <| t_ts := u32 (t_ts t + u32 (len alaw)) |> in
          if write pkt then (Some pkt, t2 <| packets := packets t + 1 |> <| bytesSent := bytesSent t + len alaw |>) else (None, t2)
      end
  end.

Fixpoint talk_frames (write : list Z -> bool) (frames : list (list Z)) (t : talkSession) : list (list Z) * talkSession :=
  match frames with
  | [] => ([], t)
  | f :: rest => let (d, t1) := WriteTalkAudio write f t in
                 let (more, t2) := talk_frames write rest t1 in
                 (match d with Some l => l :: more | None => more end, t2)
  end.

(** One datagram at [uplinkReadLoop]; the payload is handed to the callback.
    [true] is a call of [onVerifyFailed]. *)
Definition uplink_step (datagram : list Z) (t : talkSession) : option (list Z) * bool * talkSession :=
  match unmarshal (take 2048 datagram) with
  | None => (None, false, t)
  | Some pkt =>
      if negb (PayloadType pkt =? talkRTPPayloadType) || closed t then (None, false, t) else
      let payload := match t_cryptor t with Some f => f (Payload pkt) (SSRC pkt) (SequenceNumber pkt) | None => Payload pkt end in
      let refused := match uplinkVerifier t with
                     | Some v => match AUSig pkt with [] => true | sig => negb (v payload (SSRC pkt) (Timestamp pkt) sig) end
                     | None => false
                     end in
      if refused then (None, true, t) else
      (Some payload, false, t <| uplinkPackets := uplinkPackets t + 1 |> <| uplinkBytes := uplinkBytes t + len payload |> <| uplinkSSRC := SSRC pkt |>)
  end.

Fixpoint uplinkReadLoop (datagrams : list (list Z)) (t : talkSession) : list (list Z) * talkSession :=
  match datagrams with
  | [] => ([], t)
  | d :: rest => let '(p, _, t1) := uplink_step d t in
                 let (more, t2) := uplinkReadLoop rest t1 in
                 (match p with Some l => l :: more | None => more end, t2)
  end.

(** [StopTalk] on the session, and a BYE of the device, which leaves the key. *)
Definition StopTalk (t : talkSession) : talkSession := t <| closed := true |> <| t_cryptor := None |>.
Definition stopTalkOnBye (t : talkSession) : talkSession := t <| closed := true |>.

End Audio.

(** ** Lemmas: the offer *)

Lemma ParseUint32_range x n : ParseUint32 x = Some n -> 0 <= n < 2 ^ 32.
Proof.
  assert (R : forall s acc m, 0 <= acc -> digits_value acc s = Some m -> 0 <= m).
  { induction s as [|b s IH]; intros acc m Ha; cbn [digits_value]; [by intros [= <-]|].
    unfold is_digit. destruct (0x30 <=? b) eqn:E; [|done]. destruct (b <=? 0x39); [|done]. cbn [andb]. apply IH. lia. }
  unfold ParseUint32. destruct x as [|b x]; [done|]. destruct (digits_value 0 (b :: x)) as [m|] eqn:E; [|done]. cbn [mbind option_bind].
  destruct (m <? 2 ^ 32) eqn:L; [|done]. intros [= <-]. apply R in E; lia.
Qed.

(** A line the device has no rule for. *)
Definition no_offer_rule (s : text) : bool :=
  negb (HasPrefix s (txt "m=video ") || HasPrefix s (txt "m=audio ") || HasPrefix s (txt "c=IN IP4 ")
        || bool_decide (s = txt "a=recvonly") || bool_decide (s = txt "a=sendonly") || HasPrefix s (txt "a=rtpmap:") || HasPrefix s (txt "y=")).

Lemma offer_skip s v : line_ok s -> no_offer_rule s = true -> offer_line (s ++ [0x0D]) v = v.
Proof.
  intros H N. unfold offer_line. rewrite TrimSpace_line_cr by done. unfold no_offer_rule in N.
  rewrite negb_true_iff, !orb_false_iff in N. destruct N as ((((((-> & ->) & ->) & ->) & ->) & ->) & ->). done.
Qed.

Lemma offer_conn ip v : word ip -> v_connIP v = [] -> offer_line ((txt "c=IN IP4 " ++ ip) ++ [0x0D]) v = v <| v_connIP := ip |>.
Proof.
  intros H E. unfold offer_line. rewrite TrimSpace_line_cr by (by apply line_word).
  change (HasPrefix (txt "c=IN IP4 " ++ ip) (txt "m=video ")) with false. change (HasPrefix (txt "c=IN IP4 " ++ ip) (txt "m=audio ")) with false.
  rewrite HasPrefix_app, TrimPrefix_app, TrimSpace_id, E by apply H. done.
Qed.

Lemma Fields_audio port pt : word port -> word pt ->
  Fields (txt "m=audio " ++ port ++ txt " RTP/AVP " ++ pt) = [txt "m=audio"; port; txt "RTP/AVP"; pt].
Proof.
  intros Hp Ht. change (txt "m=audio " ++ port ++ txt " RTP/AVP " ++ pt)
    with (txt "m=audio" ++ 0x20 :: (port ++ 0x20 :: (txt "RTP/AVP" ++ 0x20 :: pt))).
  rewrite !Fields_cons, Fields_word; (done || by apply word_lit).
Qed.

Lemma audio_line_ok port c : 0 <= port < 65536 -> line_ok (txt "m=audio " ++ Itoa port ++ txt " RTP/AVP " ++ Itoa (PayloadType_of c)).
Proof. intros H. apply line_word_line; [done|apply Itoa_printable; lia| |]; destruct c; by repeat constructor || done. Qed.

Lemma offer_media port c v : 0 <= port < 65536 ->
  offer_line ((txt "m=audio " ++ Itoa port ++ txt " RTP/AVP " ++ Itoa (PayloadType_of c)) ++ [0x0D]) v =
  v <| hasAudio := true |> <| v_mLineProto := txt "RTP/AVP" |> <| v_mediaPort := port |> <| payloadTypes := payloadTypes v ++ [PayloadType_of c] |>.
Proof.
  intros H. unfold offer_line. rewrite TrimSpace_line_cr by (by apply audio_line_ok).
  change (HasPrefix (txt "m=audio " ++ Itoa port ++ txt " RTP/AVP " ++ Itoa (PayloadType_of c)) (txt "m=video ")) with false.
  rewrite HasPrefix_app, Fields_audio; [|apply Itoa_printable; lia|apply Itoa_printable; destruct c; simpl; lia].
  cbv zeta iota. rewrite Atoi_Itoa by lia. destruct v, c; done.
Qed.

Lemma offer_ssrc x n v : word x -> ParseUint32 x = Some n -> offer_line ((txt "y=" ++ x) ++ [0x0D]) v = v <| v_ssrc := n |>.
Proof.
  intros H E. unfold offer_line. rewrite TrimSpace_line_cr by (by apply line_word).
  change (HasPrefix (txt "y=" ++ x) (txt "m=video ")) with false. change (HasPrefix (txt "y=" ++ x) (txt "m=audio ")) with false.
  change (HasPrefix (txt "y=" ++ x) (txt "c=IN IP4 ")) with false. change (HasPrefix (txt "y=" ++ x) (txt "a=rtpmap:")) with false.
  rewrite !bool_decide_eq_false_2 by done. by rewrite HasPrefix_app, TrimPrefix_app, E.
Qed.

(** The loop over lines that end in CRLF. *)
Definition offer_lines (l : list text) (v : offer_vars) : offer_vars :=
  fold_left (fun v l => offer_line l v) (map (fun s => s ++ [0x0D]) l ++ [[]]) v.

Lemma offer_lines_cons s l v : offer_lines (s :: l) v = offer_lines l (offer_line (s ++ [0x0D]) v).
Proof. done. Qed.

Lemma offer_lines_security sec v : offer_ok sec -> offer_lines (security_line sec) v = v.
Proof.
  unfold offer_lines, security_line. intros [->|H]; [done|]. destruct sec as [|b sec]; [by destruct H|].
  cbn [map app fold_left]. rewrite (offer_skip (txt "a=security:" ++ b :: sec)) by ((by apply line_word) || reflexivity). done.
Qed.

(** The lines of the offer. *)
Definition talk_head (serverID host : text) (port : Z) : list text :=
  [txt "v=0"; txt "o=" ++ serverID ++ txt " 0 0 IN IP4 " ++ host; txt "s=Play"; txt "c=IN IP4 " ++ host; txt "t=0 0";
   txt "m=audio " ++ Itoa port ++ txt " RTP/AVP " ++ Itoa (PayloadType_of AudioPCMA); txt "a=sendrecv"].

Lemma talk_sdp_lines serverID host port x sec :
  talk_sdp serverID host port x sec = lines_crlf (talk_head serverID host port ++ (txt "y=" ++ x) :: security_line sec).
Proof.
  unfold talk_sdp, talk_head, security_line, lines_crlf. destruct sec; [by rewrite app_nil_r|by rewrite <- concat_app, <- map_app].
Qed.

Lemma origin_line_ok serverID host : word serverID -> word host -> line_ok (txt "o=" ++ serverID ++ txt " 0 0 IN IP4 " ++ host).
Proof.
  intros H1 H2. apply line_word_line; [done|done| |].
  - apply Forall_app. split; [by repeat constructor|by apply printable_visible, H2].
  - rewrite rev_app_distr. by apply starts_ok_app, starts_ok_rev_word.
Qed.

Lemma talk_lines_ok serverID host port : word serverID -> word host -> 0 < port < 65536 -> Forall line_ok (talk_head serverID host port).
Proof.
  intros H1 H2 Hp. unfold talk_head.
  repeat first [apply list.Forall_cons; split | apply list.Forall_nil; exact I];
  first [by apply line_lit | by apply origin_line_ok | by apply line_word | by apply audio_line_ok; lia].
Qed.

(** ** Lemmas: the answer *)

Lemma audio_skip s rest host port : line_ok s -> HasPrefix s (txt "c=IN IP4 ") = false -> HasPrefix s (txt "m=audio ") = false ->
  audio_lines (s :: rest) host port = audio_lines rest host port.
Proof. intros H E1 E2. cbn [audio_lines]. by rewrite TrimSpace_line, E1, E2. Qed.

Lemma audio_conn ip rest host port : word ip -> audio_lines ((txt "c=IN IP4 " ++ ip) :: rest) host port = audio_lines rest ip port.
Proof.
  intros H. cbn [audio_lines]. rewrite TrimSpace_line by (by apply line_word). rewrite HasPrefix_app.
  change (txt "c=IN IP4 " ++ ip) with (txt "c=IN IP4" ++ (txt " " ++ ip)). rewrite TrimPrefix_app.
  replace (TrimSpace (txt " " ++ ip)) with ip; [done|]. symmetry.
  pose proof (TrimSpace_pad (txt " ") ip []) as T. rewrite app_nil_r in T. destruct H. apply T; by repeat constructor.
Qed.

Lemma audio_media port c rest host p : 0 <= port < 65536 ->
  audio_lines ((txt "m=audio " ++ Itoa port ++ txt " RTP/AVP " ++ Itoa (PayloadType_of c)) :: rest) host p = audio_lines rest host port.
Proof.
  intros H. cbn [audio_lines]. rewrite TrimSpace_line by (by apply audio_line_ok).
  change (HasPrefix (txt "m=audio " ++ Itoa port ++ txt " RTP/AVP " ++ Itoa (PayloadType_of c)) (txt "c=IN IP4 ")) with false.
  rewrite HasPrefix_app, Fields_audio; [|apply Itoa_printable; lia|apply Itoa_printable; destruct c; simpl; lia].
  cbn [lookup list_lookup]. by rewrite Atoi_Itoa by lia.
Qed.

Definition answer_lines (ip : text) (port ssrc : Z) (c : AudioCodec) (direction : list text) : list text :=
  [txt "v=0"; txt "o=- 0 0 IN IP4 " ++ ip; txt "s=Play"; txt "c=IN IP4 " ++ ip; txt "t=0 0";
   txt "m=audio " ++ Itoa port ++ txt " RTP/AVP " ++ Itoa (PayloadType_of c);
   txt "a=rtpmap:" ++ Itoa (PayloadType_of c) ++ txt " " ++ Name c ++ txt "/8000"] ++ direction ++ [txt "y=" ++ Itoa ssrc].

Lemma buildTalkbackSDP_lines ip port ssrc c direction :
  buildTalkbackSDP ip port ssrc c (lines_crlf direction) = lines_crlf (answer_lines ip port ssrc c direction).
Proof. unfold buildTalkbackSDP, answer_lines, lines_crlf. cbv zeta. by rewrite <- !concat_app, <- !map_app. Qed.

Lemma answer_lines_ok ip port ssrc c direction : word ip -> 0 < port < 65536 -> 0 <= ssrc < 2 ^ 32 -> Forall line_ok direction ->
  Forall line_ok (answer_lines ip port ssrc c direction).
Proof.
  intros H Hp Hs Hd. unfold answer_lines.
  repeat first [apply Forall_app; split; [|apply Forall_app; split; [exact Hd|]] | apply list.Forall_cons; split | apply list.Forall_nil; exact I];
  first [by apply line_lit | by apply line_word | by apply audio_line_ok; lia | apply line_word; [done|apply Itoa_printable; lia] | idtac].
  destruct c; by apply line_lit.
Qed.

Lemma answer_read ParseIP ip port ssrc c direction : word ip -> ParseIP ip = true -> 0 < port < 65536 -> 0 <= ssrc < 2 ^ 32 ->
  Forall line_ok direction -> Forall (fun s => HasPrefix s (txt "c=IN IP4 ") = false /\ HasPrefix s (txt "m=audio ") = false) direction ->
  sdpAudioAddress ParseIP (buildTalkbackSDP ip port ssrc c (lines_crlf direction)) = Some (ip, port).
Proof.
  intros H HP Hp Hs Hd Hn. unfold sdpAudioAddress. rewrite buildTalkbackSDP_lines, splitCRLF_lines by (by apply answer_lines_ok).
  assert (R : forall h p, audio_lines (direction ++ [txt "y=" ++ Itoa ssrc]) h p = (h, p)).
  { intros h p. induction Hd as [|s d Hs1 _ IH].
    - cbn [app]. rewrite audio_skip; [done|by apply line_word; [|apply Itoa_printable; lia]|done|done].
    - apply list.Forall_cons in Hn as [[N1 N2] Hn]. cbn [app]. rewrite audio_skip by done. by apply IH. }
  unfold answer_lines. cbn [app].
  rewrite !(audio_skip _ (_ :: _ :: _ :: _ :: _)) by ((by apply line_lit) || (by apply line_word) || reflexivity).
  rewrite audio_conn by done. rewrite audio_skip by ((by apply line_lit) || reflexivity). rewrite audio_media by lia.
  rewrite audio_skip by (first [destruct c; by apply line_lit | reflexivity]). rewrite R, bool_decide_eq_false_2 by apply H.
  rewrite (proj2 (Z.leb_gt port 0)), (proj2 (Z.ltb_ge 65535 port)), HP by lia. cbn [orb negb]. by rewrite u16_small by lia.
Qed.

(** ** Theorem: the exchange of descriptions *)

(** C17: A talk is understood on both sides: from the offer of [StartTalk] the device
    takes the address and port of the platform, its SSRC, the A-law codec, UDP and
    both directions, and the security offer; and from the answer of the device the
    platform takes the address and port that the device listens at, whichever codec
    and direction it answers. *)
Theorem talk_understood serverID host port seq sec ParseIP ip dport c (send : bool) :
  word serverID -> digits serverID -> word host -> 0 < port < 65536 -> 0 <= seq -> offer_ok sec ->
  word ip -> ParseIP ip = true -> 0 < dport < 65536 ->
  exists n, ParseUint32 (Sdp.SSRC false serverID seq) = Some n /\
    parseTalkbackOffer (talk_sdp serverID host port (Sdp.SSRC false serverID seq) sec) =
      Some (mkTalkbackOffer (Some AudioPCMA) n false host port false false) /\
    SDPSecurityAttributeValue (talk_sdp serverID host port (Sdp.SSRC false serverID seq) sec) = sec /\
    sdpAudioAddress ParseIP (buildTalkbackSDP ip dport n c (if send then lines_crlf [txt "a=sendonly"] else [])) = Some (ip, dport).
Proof.
  intros H1 Hd H2 Hp Hq Hsec Hi HP Hdp. unfold Sdp.SSRC. change (txt "0") with [0x30 + 0].
  destruct (buildSSRC_spec 0 serverID seq ltac:(lia) Hd Hq) as (_ & _ & dg & _ & _ & E).
  pose proof (buildSSRC_word 0 serverID seq ltac:(lia) Hd Hq) as W. set (x := buildSSRC _ _ _) in *. clearbody x.
  pose proof (talk_lines_ok serverID host port H1 H2 Hp) as Hl.
  eexists. split; [exact E|]. split; [|split].
  - rewrite talk_sdp_lines. unfold parseTalkbackOffer. rewrite Split_lines.
    2:{ apply Forall_app. split; [done|]. constructor; [by apply line_word|by apply security_line_ok]. }
    change (fold_left _ _ ?v) with (offer_lines (talk_head serverID host port ++ (txt "y=" ++ x) :: security_line sec) v).
    unfold talk_head. cbn [app]. rewrite !offer_lines_cons, offer_lines_security by done.
    rewrite (offer_skip (txt "v=0")), (offer_skip (txt "o=" ++ _)), (offer_skip (txt "s=Play"))
      by ((by apply line_lit) || (by apply origin_line_ok) || reflexivity).
    rewrite offer_conn by done. rewrite (offer_skip (txt "t=0 0")) by ((by apply line_lit) || reflexivity). rewrite offer_media by lia.
    rewrite (offer_skip (txt "a=sendrecv")) by ((by apply line_lit) || reflexivity). by erewrite offer_ssrc by done.
  - rewrite talk_sdp_lines. change ((txt "y=" ++ x) :: security_line sec) with ([txt "y=" ++ x] ++ security_line sec). rewrite app_assoc.
    apply security_of_lines; [|done|done]. apply Forall_app. split; [done|]. constructor; [by apply line_word|constructor].
  - pose proof (ParseUint32_range x _ E) as R. destruct send.
    + apply answer_read; try done; by repeat constructor || (constructor; [by apply line_lit|constructor]).
    + change (@nil Z) with (lines_crlf []). apply answer_read; try done; constructor.
Qed.

(** ** Lemmas: the audio *)

(** What the program relies on in pion: packets round trip; the header takes 12
    bytes and a signature of RFC 8285's two-byte form at most 9 more than its own. *)
Record pion_laws (marshal marshalExt : Packet -> option (list Z)) (unmarshal : list Z -> option Packet) : Prop := {
  plain_law : forall q, in_range q -> AUSig q = [] ->
    exists l, marshal q = Some l /\ len l = 12 + len (Payload q) /\ unmarshal l = Some q;
  ext_law : forall q, in_range q -> 0 < len (AUSig q) <= 255 ->
    exists l, marshalExt q = Some l /\ 12 <= len l <= 21 + len (AUSig q) + len (Payload q) /\ unmarshal l = Some q;
}.

(** The media security of one direction: sender and receiver agree, both without or
    both with a cipher that keeps lengths, and SM2 signatures of at most 72 bytes. *)
Definition ciphers (c1 c2 : option cryptor) : Prop :=
  match c1, c2 with
  | None, None => True
  | Some f, Some g => forall x s q, g (f x s q) s q = x /\ len (f x s q) = len x
  | _, _ => False
  end.

Definition signatures (sign : option signer) (verify : option verifier) : Prop :=
  match sign, verify with
  | None, None => True
  | Some f, Some v => forall x s t, exists sig, f x s t = Some sig /\ 0 < len sig <= 72 /\ v x s t sig = true
  | _, _ => False
  end.

(** The audio that fits one read. *)
Definition fits (sign : option signer) (frame : list Z) : Prop := 0 < len frame <= match sign with None => 2036 | Some _ => 1955 end.

Section Delivery.

Context (marshal marshalExt : Packet -> option (list Z)) (unmarshal : list Z -> option Packet).
Context (pion : pion_laws marshal marshalExt unmarshal).

Lemma take_read l : len l <= 2048 -> take 2048 l = l.
Proof. unfold len. intros H. apply take_ge. lia. Qed.

(** One packet from the sender's bytes to the receiver's payload. *)
Lemma packet_read c1 c2 sign verify frame ssrc seq ts pt :
  ciphers c1 c2 -> signatures sign verify -> fits sign frame ->
  0 <= pt < 128 -> 0 <= seq < 65536 -> 0 <= ts < 4294967296 -> 0 <= ssrc < 4294967296 ->
  exists sigDER wire sig, match sign with None => sigDER = None /\ sig = [] | Some f => f frame ssrc ts = Some sig /\ sigDER = Some sig end /\
    let payload := match c1 with Some f => f frame ssrc seq | None => frame end in
    audio_bytes marshal marshalExt (mkPacket ssrc seq ts false pt payload []) sigDER = Some wire /\
    12 <= len wire <= 2048 /\ unmarshal wire = Some (mkPacket ssrc seq ts false pt payload sig) /\
    match c2 with Some g => g payload ssrc seq | None => payload end = frame /\
    match verify with Some v => sig <> [] /\ v frame ssrc ts sig = true | None => True end.
Proof.
  intros Hc Hs Hf Hp Hq Ht Hr.
  assert (C : exists payload, match c1 with Some f => f frame ssrc seq | None => frame end = payload /\ len payload = len frame /\
    match c2 with Some g => g payload ssrc seq | None => payload end = frame).
  { unfold ciphers in Hc. destruct c1 as [f|], c2 as [g|]; try done; [|by exists frame].
    destruct (Hc frame ssrc seq) as [H1 H2]. by exists (f frame ssrc seq). }
  destruct C as (payload & -> & L & D). unfold fits in Hf. unfold signatures in Hs.
  destruct sign as [f|], verify as [v|]; try done.
  - destruct (Hs frame ssrc ts) as (sig & E & Ls & V).
    destruct (ext_law _ _ _ pion (mkPacket ssrc seq ts false pt payload sig)) as (l & E1 & E2 & E3); [done|cbn [AUSig]; lia|].
    cbn [AUSig Payload] in E2. exists (Some sig), l, sig. split; [done|]. cbv zeta.
    change (audio_bytes marshal marshalExt (mkPacket ssrc seq ts false pt payload []) (Some sig)) with (marshalExt (mkPacket ssrc seq ts false pt payload sig)).
    split; [done|]. split; [lia|]. split; [done|]. split; [done|]. split; [|done]. intros ->. change (len []) with 0 in Ls. lia.
  - destruct (plain_law _ _ _ pion (mkPacket ssrc seq ts false pt payload [])) as (l & E1 & E2 & E3); [done|done|].
    cbn [Payload] in E2. exists None, l, []. split; [done|]. cbv zeta. split; [done|]. split; [lia|]. by split_and!.
Qed.

Lemma step_reads sessionSSRC codec (c : option cryptor) (verify : option verifier) wire q payload ssrc :
  12 <= len wire <= 2048 -> unmarshal wire = Some q -> ssrc = SSRC q -> ssrc <> 0 ->
  match c with Some g => g (Payload q) ssrc (SequenceNumber q) | None => Payload q end = payload ->
  match verify with Some v => AUSig q <> [] /\ v payload ssrc (Timestamp q) (AUSig q) = true | None => True end ->
  receiver_step unmarshal sessionSSRC codec c verify wire = Some (payload, ssrc, codec).
Proof.
  intros L E -> Hn P V. unfold receiver_step. rewrite take_read by lia. rewrite (proj2 (Z.ltb_ge _ _)) by lia.
  rewrite E, (proj2 (Z.eqb_neq _ _)) by done. cbv zeta iota. rewrite P. destruct verify as [v|]; [|done]. destruct V as [V1 V2].
  destruct (AUSig q); [done|]. by rewrite V2.
Qed.

Lemma u16_bounds x : 0 <= u16 x < 65536.
Proof. unfold u16. apply Z.mod_pos_bound. lia. Qed.

Lemma u32_bounds x : 0 <= u32 x < 4294967296.
Proof. unfold u32. apply Z.mod_pos_bound. lia. Qed.

(** A session the platform can write to. *)
Definition open_talk (t : talkSession) : Prop :=
  closed t = false /\ 0 < t_ssrc t < 4294967296 /\ 0 <= t_ts t < 4294967296.

Lemma downlink t c verify frames sessionSSRC : open_talk t -> ciphers (t_cryptor t) c -> signatures (t_signer t) verify ->
  Forall (fits (t_signer t)) frames ->
  runTalkbackReceiver unmarshal sessionSSRC AudioPCMA c verify (fst (talk_frames marshal marshalExt (fun _ => true) frames t)) =
    map (fun f => (f, t_ssrc t, AudioPCMA)) frames /\
  packets (snd (talk_frames marshal marshalExt (fun _ => true) frames t)) = packets t + Z.of_nat (length frames).
Proof.
  intros (O1 & O2 & O3) Hc Hs F. revert t O1 O2 O3 Hc Hs F. induction frames as [|f frames IH]; intros t O1 O2 O3 Hc Hs F.
  { split; [done|]. cbn [talk_frames snd]. cbn [length]. lia. }
  apply list.Forall_cons in F as [Hf F]. cbn [talk_frames].
  destruct (packet_read (t_cryptor t) c (t_signer t) verify f (t_ssrc t) (u16 (t_seq t + 1)) (t_ts t) talkRTPPayloadType Hc Hs Hf)
    as (sigDER & wire & sig & S & E1 & L & E2 & D & V); [done|apply u16_bounds|done|lia|].
  assert (W : exists t1, WriteTalkAudio marshal marshalExt (fun _ => true) f t = (Some wire, t1) /\ open_talk t1 /\
    t_ssrc t1 = t_ssrc t /\ t_cryptor t1 = t_cryptor t /\ t_signer t1 = t_signer t /\ packets t1 = packets t + 1).
  { unfold WriteTalkAudio. assert (Lf : 0 < len f <= 2036) by (unfold fits in Hf; destruct (t_signer t); lia).
    rewrite (proj2 (Z.eqb_neq _ _)), (proj2 (Z.ltb_ge talkMaxFrame _)), O1 by (unfold talkMaxFrame; lia). cbn [orb].
    replace (match t_signer t with None => Some None | Some g => match g f (t_ssrc t) (t_ts t) with Some s => Some (Some s) | None => None end end)
      with (Some sigDER).
    - cbv zeta in E1. rewrite E1. eexists. split; [reflexivity|]. split_and!; try done. split_and!; [done|apply O2|apply O2|..]; apply u32_bounds.
    - destruct (t_signer t); [by destruct S as [-> ->]|by destruct S as [-> _]]. }
  destruct W as (t1 & -> & (N1 & N2 & N3) & T1 & T2 & T3 & T4). rewrite <- T2 in Hc. rewrite <- T3 in Hs, F.
  destruct (IH t1 N1 N2 N3 Hc Hs F) as [IH1 IH2]. destruct (talk_frames _ _ _ frames t1) as [more t2]. cbn [fst snd] in *. split.
  - unfold runTalkbackReceiver in *. cbn [omap list_omap].
    rewrite (step_reads sessionSSRC AudioPCMA c verify wire _ f (t_ssrc t) L E2 eq_refl ltac:(cbn [SSRC]; lia) D V).
    cbn [map]. rewrite IH1, T1. done.
  - rewrite IH2, T4. cbn [length]. lia.
Qed.

Definition open_sender (st : talk_sender) : Prop := 0 <= s_ssrc st < 4294967296 /\ 0 <= s_seq st < 65536 /\ 0 <= s_ts st < 4294967296.

Lemma uplink t c sign frames st : closed t = false -> ciphers c (t_cryptor t) -> signatures sign (uplinkVerifier t) ->
  open_sender st -> Forall (fits sign) frames ->
  fst (uplinkReadLoop unmarshal (fst (runTalkbackSender marshal marshalExt (fun _ => true) AudioPCMA c sign (map Some frames) st)) t) = frames /\
  uplinkPackets (snd (uplinkReadLoop unmarshal (fst (runTalkbackSender marshal marshalExt (fun _ => true) AudioPCMA c sign (map Some frames) st)) t)) =
    uplinkPackets t + Z.of_nat (length frames).
Proof.
  revert t st. induction frames as [|f frames IH]; intros t st O Hc Hs (B1 & B2 & B3) F.
  { split; [done|]. cbn [map runTalkbackSender fst uplinkReadLoop snd]. cbn [length]. lia. }
  apply list.Forall_cons in F as [Hf F]. cbn [map runTalkbackSender].
  destruct (packet_read c (t_cryptor t) sign (uplinkVerifier t) f (s_ssrc st) (s_seq st) (s_ts st) (PayloadType_of AudioPCMA) Hc Hs Hf)
    as (sigDER & wire & sig & S & E1 & L & E2 & D & V); [done|done|done|done|].
  assert (W : exists st1, sender_tick marshal marshalExt (fun _ => true) AudioPCMA c sign (Some f) st = (Some wire, st1, true) /\ open_sender st1).
  { unfold sender_tick. assert (Lf : 0 < len f <= 2036) by (unfold fits in Hf; destruct sign; lia).
    rewrite (proj2 (Z.eqb_neq _ _)), (proj2 (Z.ltb_ge 2048 _)) by lia. cbn [orb].
    replace (match sign with None => Some None | Some g => match g f (s_ssrc st) (s_ts st) with Some s => Some (Some s) | None => None end end)
      with (Some sigDER).
    - cbv zeta in E1. rewrite E1. eexists. split; [reflexivity|]. split_and!; [apply B1|apply B1|..]; first [apply u16_bounds | apply u32_bounds].
    - destruct sign; [by destruct S as [-> ->]|by destruct S as [-> _]]. }
  destruct W as (st1 & -> & B).
  assert (U : exists t1, uplink_step unmarshal wire t = (Some f, false, t1) /\ closed t1 = false /\ t_cryptor t1 = t_cryptor t /\
    uplinkVerifier t1 = uplinkVerifier t /\ uplinkPackets t1 = uplinkPackets t + 1).
  { unfold uplink_step. rewrite take_read, E2, O by lia. cbn [PayloadType SSRC SequenceNumber Payload AUSig Timestamp].
    change (negb (PayloadType_of AudioPCMA =? talkRTPPayloadType)) with false. cbn [orb]. rewrite D.
    destruct (uplinkVerifier t) as [v|] eqn:Ev.
    - destruct V as [V1 V2]. destruct sig; [done|]. rewrite V2. eexists. split; [reflexivity|]. by split_and!.
    - eexists. split; [reflexivity|]. by split_and!. }
  destruct U as (t1 & U1 & U2 & U3 & U4 & U5). rewrite <- U3 in Hc. rewrite <- U4 in Hs.
  destruct (IH t1 st1 U2 Hc Hs B F) as [IH1 IH2].
  destruct (runTalkbackSender _ _ _ _ _ _ (map Some frames) st1) as [more st2]. cbn [fst app uplinkReadLoop] in *. rewrite U1.
  destruct (uplinkReadLoop _ more t1) as [ps t2]. cbn [fst snd] in *. rewrite IH1, IH2, U5. split; [done|]. cbn [length]. lia.
Qed.

End Delivery.

(** ** Theorems: the audio *)

(** C16: The audio of a talk arrives, in both directions over the one socket: every
    frame that fits the reader's buffer comes out at the device's sink, in order, with
    the SSRC of the talk and the A-law codec, and every frame of the device at the
    platform's callback, whether the session is plain or encrypted, signed or not;
    the counters agree. *)
Theorem talk_delivered marshal marshalExt unmarshal t c verify sign down up st sessionSSRC :
  pion_laws marshal marshalExt unmarshal -> open_talk t -> open_sender st ->
  ciphers (t_cryptor t) c -> ciphers c (t_cryptor t) -> signatures (t_signer t) verify -> signatures sign (uplinkVerifier t) ->
  Forall (fits (t_signer t)) down -> Forall (fits sign) up ->
  let (sent, t') := talk_frames marshal marshalExt (fun _ => true) down t in
  let (back, st') := runTalkbackSender marshal marshalExt (fun _ => true) AudioPCMA c sign (map Some up) st in
  let (heard, t'') := uplinkReadLoop unmarshal back t in
  runTalkbackReceiver unmarshal sessionSSRC AudioPCMA c verify sent = map (fun f => (f, t_ssrc t, AudioPCMA)) down /\
  heard = up /\ packets t' = packets t + Z.of_nat (length down) /\ uplinkPackets t'' = uplinkPackets t + Z.of_nat (length up).
Proof.
  intros P O B C1 C2 S1 S2 F1 F2.
  pose proof (downlink _ _ _ P t c verify down sessionSSRC O C1 S1 F1) as [D1 D2].
  pose proof (uplink _ _ _ P t c sign up st (proj1 O) C2 S2 B F2) as [U1 U2].
  destruct (talk_frames _ _ _ down t) as [sent t']. destruct (runTalkbackSender _ _ _ _ _ _ _ st) as [back st'].
  cbn [fst snd] in *. destruct (uplinkReadLoop unmarshal back t) as [heard t'']. cbn [fst snd] in *. by split_and!.
Qed.

(** Without media security a frame that is longer than 2036 bytes is not refused:
    the platform sends it whole, and counts it, up to 8192 bytes, but the device reads
    2048 bytes of the datagram and plays the first 2036 bytes of the frame. *)
Theorem long_frame_cut marshal unmarshal t sessionSSRC frame :
  (forall q, in_range q -> AUSig q = [] -> exists l, marshal q = Some l /\ len l = 12 + len (Payload q) /\
     forall n, (12 <= n)%nat -> unmarshal (take n l) = Some (q <| Payload := take (n - 12) (Payload q) |>)) ->
  open_talk t -> t_cryptor t = None -> t_signer t = None -> 2036 < len frame <= 8192 ->
  let (sent, t') := WriteTalkAudio marshal (fun _ => None) (fun _ => true) frame t in
  bytesSent t' = bytesSent t + len frame /\
  omap (receiver_step unmarshal sessionSSRC AudioPCMA None None) (option_list sent) = [(take 2036 frame, t_ssrc t, AudioPCMA)] /\
  take 2036 frame <> frame.
Proof.
  intros P (O1 & O2 & O3) C S L. unfold WriteTalkAudio. rewrite (proj2 (Z.eqb_neq _ _)), (proj2 (Z.ltb_ge talkMaxFrame _)), O1, C, S by (unfold talkMaxFrame; lia).
  cbn [orb]. destruct (P (mkPacket (t_ssrc t) (u16 (t_seq t + 1)) (t_ts t) false talkRTPPayloadType frame [])) as (l & E & Ll & R).
  { split; [done|]. split; [apply u16_bounds|]. split; [done|cbn [SSRC]; lia]. } { done. }
  cbn [audio_bytes]. rewrite E. split; [done|]. cbn [Payload] in Ll. split.
  - assert (T : 12 <= len (take 2048 l)) by (unfold len in *; rewrite length_take; lia).
    change (option_list (Some l)) with [l]. cbn [omap list_omap]. unfold receiver_step. cbv zeta. rewrite (proj2 (Z.ltb_ge _ _)) by lia. rewrite R by lia. cbv zeta. cbn [SSRC Payload AUSig update eta eta_Packet]. by rewrite (proj2 (Z.eqb_neq _ _)) by lia.
  - intros T. apply (f_equal length) in T. rewrite length_take in T. unfold len in L. lia.
Qed.

(** ** A talk *)

(** A codec for packets with and without a signature. *)
Definition sig_bytes (q : Packet) : list Z := 0x90 :: u8 (len (AUSig q)) :: AUSig q ++ plain_bytes q.

Definition parse_any (b : list Z) : option Packet :=
  match b with
  | 0x90 :: n :: rest => match parse_rtp (drop (Z.to_nat n) rest) with
                         | Some q => Some (q <| AUSig := take (Z.to_nat n) rest |>)
                         | None => None
                         end
  | _ => parse_rtp b
  end.

Lemma plain_size q : len (plain_bytes q) = 12 + len (Payload q).
Proof. unfold len, plain_bytes, put16, put32. rewrite !length_app. cbn [length]. lia. Qed.

Lemma demo_pion : pion_laws (fun q => Some (plain_bytes q)) (fun q => Some (sig_bytes q)) parse_any.
Proof.
  split; intros q (H1 & H2 & H3 & H4).
  - intros Hs. exists (plain_bytes q). split; [done|]. split; [apply plain_size|].
    change (parse_any (plain_bytes q)) with (parse_rtp (plain_bytes q)). by apply parse_rtp_plain.
  - intros Hs. exists (sig_bytes q). split; [done|].
    assert (E : len (sig_bytes q) = 2 + len (AUSig q) + (12 + len (Payload q))).
    { rewrite <- plain_size. unfold len, sig_bytes. cbn [length]. rewrite length_app. lia. }
    pose proof (plain_size q). split; [unfold len in *; lia|]. unfold sig_bytes, parse_any.
    rewrite (u8_small (len (AUSig q))) by (unfold is_byte; lia). unfold len. rewrite Nat2Z.id, drop_app_length, take_app_length.
    change (plain_bytes q) with (plain_bytes (q <| AUSig := [] |>)). rewrite parse_rtp_plain by done. by destruct q.
Qed.

Definition demo_sign : signer := fun x s t => Some (0x30 :: take 8 x).
Definition demo_verify : verifier := fun x s t sig => bool_decide (sig = 0x30 :: take 8 x).

Lemma talk_delivered_witness :
  runTalkbackReceiver parse_any 5 AudioPCMA (Some xor_cryptor) (Some demo_verify)
    (fst (talk_frames (fun q => Some (plain_bytes q)) (fun q => Some (sig_bytes q)) (fun _ => true) [[1; 2]; [3]]
      (new_talk 77 (Some xor_cryptor) (Some demo_sign) None))) = [([1; 2], 77, AudioPCMA); ([3], 77, AudioPCMA)].
Proof.
  assert (X : ciphers (Some xor_cryptor) (Some xor_cryptor)).
  { intros x s q. split; [apply xor_cryptor_involutive|]. unfold xor_cryptor, len. by rewrite length_map. }
  assert (S : signatures (Some demo_sign) (Some demo_verify)).
  { intros x s t. exists (0x30 :: take 8 x). split; [done|]. split; [|by apply bool_decide_eq_true_2].
    unfold len. cbn [length]. rewrite length_take. lia. }
  pose proof (talk_delivered _ _ _ (new_talk 77 (Some xor_cryptor) (Some demo_sign) None) (Some xor_cryptor) (Some demo_verify) None
    [[1; 2]; [3]] [[4]] (new_sender 9 65535 4294967295) 5 demo_pion) as T.
  destruct (talk_frames _ _ _ _ _) as [sent t']. destruct (runTalkbackSender _ _ _ _ _ _ _ _) as [back st'].
  destruct (uplinkReadLoop _ _ _) as [heard t'']. apply T; try done; by repeat constructor.
Defined.

Lemma long_frame_cut_witness :
  omap (receiver_step parse_rtp 5 AudioPCMA None None)
    (option_list (fst (WriteTalkAudio (fun q => Some (plain_bytes q)) (fun _ => None) (fun _ => true) (repeat 1 3000) (new_talk 77 None None None)))) =
  [(take 2036 (repeat 1 3000), 77, AudioPCMA)].
Proof.
  pose proof (long_frame_cut (fun q => Some (plain_bytes q)) parse_rtp (new_talk 77 None None None) 5 (repeat 1 3000)) as T.
  destruct (WriteTalkAudio _ _ _ _ _) as [sent t']. apply T; [|done|done|done|unfold len; rewrite repeat_length; lia].
  intros q (H1 & H2 & H3 & H4) Hs. exists (plain_bytes q). split; [done|]. split; [apply plain_size|]. intros n Hn.
  do 12 (destruct n as [|n]; [lia|]). replace (S (S (S (S (S (S (S (S (S (S (S (S n))))))))))) - 12)%nat with n by lia.
  change (take _ (plain_bytes q)) with (plain_bytes (q <| Payload := take n (Payload q) |>)).
  by apply parse_rtp_plain.
Defined.

Lemma talk_understood_witness : exists n,
  sdpAudioAddress (fun _ => true) (buildTalkbackSDP (txt "10.0.0.2") 40000 n AudioPCMU (lines_crlf [txt "a=sendonly"])) = Some (txt "10.0.0.2", 40000).
Proof.
  destruct (talk_understood (txt "34020000002000000001") (txt "10.0.0.1") 30000 7 (txt "GB35114-B") (fun _ => true) (txt "10.0.0.2") 40000
    AudioPCMU true) as (n & _ & _ & _ & E); [by apply word_lit|by repeat constructor|by apply word_lit|lia|lia|right; by apply word_lit|
    by apply word_lit|done|lia|].
  by exists n.
Defined.
