(* ===== verification/LiveOffers.v ===== *)
(** The live offers of the platform ([buildLiveSDP] of [platform/session.go]) as the device
    reads them: offers of video by [parseSDP], offers of audio alone by
    [parseTalkbackOffer], which the device asks first. *)

From S2P Require Import Prelude GoStrings GoText Sdp Talkback.
Open Scope Z_scope.

(** ** An offer of video is no talk *)

Lemma video_stays l v : hasVideo v = true -> hasVideo (fold_left (fun v l => offer_line l v) l v) = true.
Proof.
  revert v. induction l as [|s l IH]; intros v H; [done|]. apply IH. unfold offer_line.
  repeat match goal with
  | |- context [match ?x with _ => _ end] => destruct x
  | |- context [if ?x then _ else _] => destruct x
  end; by destruct v.
Qed.

Lemma video_not_talk ip port transport ssrc sec : word ip -> 0 < port < 65536 -> word ssrc -> offer_ok sec ->
  parseTalkbackOffer (buildLiveSDP ip port transport ssrc false sec) = None.
Proof.
  intros Hi Hp Hx Hs. rewrite buildLiveSDP_lines. unfold parseTalkbackOffer. rewrite Split_lines.
  2:{ apply Forall_app. split; [by apply live_lines_ok|]. constructor; [by apply line_word|by apply security_line_ok]. }
  assert (M : forall rest v, hasVideo (fold_left (fun v l => offer_line l v) ((fst (live_media transport port) ++ [0x0D]) :: rest) v) = true).
  { intros rest v. cbn [fold_left]. apply video_stays. unfold offer_line. rewrite TrimSpace_line_cr.
    - unfold live_media. destruct (offered_transport transport); cbn [fst]; rewrite HasPrefix_app; by destruct v.
    - pose proof (live_lines_ok ip port transport Hi Hp) as L. unfold live_head in L.
      rewrite List.Forall_forall in L. apply L. apply in_or_app. left. do 5 right. by left. }
  unfold live_head. rewrite !map_app, <- !app_assoc. cbn [map app].
  set (v0 := mkOfferVars _ _ _ _ _ _ _ _ _ _). clearbody v0.
  match goal with |- context [fold_left ?f (?a :: ?b :: ?c :: ?d :: ?e :: ?m :: ?rest) ?v] =>
    change (fold_left f (a :: b :: c :: d :: e :: m :: rest) v) with (fold_left f (m :: rest) (f (f (f (f (f v a) b) c) d) e)) end.
  by rewrite M.
Qed.

(** ** An offer of audio alone *)

(** The media and setup lines of a live audio offer. *)
Definition audio_media (transport : text) (port : Z) : text * list text :=
  let m port proto := txt "m=audio " ++ Itoa port ++ txt " " ++ proto ++ txt " 8" in
  match offered_transport transport with
  | mediaUDP => (m port (txt "RTP/AVP"), [])
  | mediaTCPConnect => (m port (txt "TCP/RTP/AVP"), [txt "a=setup:passive"; txt "a=connection:new"])
  | mediaTCPListen => (m 9 (txt "TCP/RTP/AVP"), [txt "a=setup:active"; txt "a=connection:new"])
  end.

Definition audio_head (ip transport : text) (port : Z) : list text :=
  [txt "v=0"; txt "o=- 0 0 IN IP4 " ++ ip; txt "s=Play"; txt "c=IN IP4 " ++ ip; txt "t=0 0";
   fst (audio_media transport port); txt "a=recvonly"; txt "a=rtpmap:8 PCMA/8000"] ++ snd (audio_media transport port).

Lemma audio_offer_lines ip port transport ssrc sec :
  buildLiveSDP ip port transport ssrc true sec = lines_crlf (audio_head ip transport port ++ (txt "y=" ++ ssrc) :: security_line sec).
Proof.
  unfold buildLiveSDP, audio_head, audio_media, offered_transport, security_line.
  destruct (bool_decide (transport = MediaTCPPassive)); [|destruct (bool_decide (transport = MediaTCPActive))]; cbv zeta; f_equal; by rewrite <- ?app_assoc.
Qed.

Lemma audio_media_line_ok port proto : 0 <= port < 65536 -> word proto -> line_ok (txt "m=audio " ++ Itoa port ++ txt " " ++ proto ++ txt " 8").
Proof.
  intros H Hp. apply line_word_line; [done|apply Itoa_printable; lia| |].
  - apply Forall_app. split; [by repeat constructor|]. apply Forall_app. split; [by apply printable_visible, Hp|by repeat constructor].
  - by rewrite !rev_app_distr, <- !app_assoc.
Qed.

Lemma audio_lines_ok ip port transport : word ip -> 0 < port < 65536 -> Forall line_ok (audio_head ip transport port).
Proof.
  intros Hi Hp. unfold audio_head, audio_media.
  repeat first [apply Forall_app; split | apply list.Forall_cons; split | apply list.Forall_nil; exact I];
  destruct (offered_transport transport); cbn [fst snd];
  repeat first [by apply line_lit | by apply line_word | by apply audio_media_line_ok; [lia|by apply word_lit] | constructor].
Qed.

Lemma offer_audio port proto v : 0 <= port < 65536 -> word proto ->
  offer_line ((txt "m=audio " ++ Itoa port ++ txt " " ++ proto ++ txt " 8") ++ [0x0D]) v =
  v <| hasAudio := true |> <| v_mLineProto := proto |> <| v_mediaPort := port |> <| payloadTypes := payloadTypes v ++ [8] |>.
Proof.
  intros H Hp. unfold offer_line. rewrite TrimSpace_line_cr by (by apply audio_media_line_ok).
  assert (HasPrefix (txt "m=audio " ++ Itoa port ++ txt " " ++ proto ++ txt " 8") (txt "m=video ") = false) as -> by done.
  rewrite HasPrefix_app. assert (F : Fields (txt "m=audio " ++ Itoa port ++ txt " " ++ proto ++ txt " 8") = [txt "m=audio"; Itoa port; proto; txt "8"]).
  { change (txt "m=audio " ++ Itoa port ++ txt " " ++ proto ++ txt " 8") with (txt "m=audio" ++ 0x20 :: (Itoa port ++ 0x20 :: (proto ++ 0x20 :: txt "8"))).
    rewrite !Fields_cons, Fields_word; (done || (by apply word_lit) || apply Itoa_printable; lia). }
  rewrite F. cbv zeta iota. rewrite Atoi_Itoa by lia. by destruct v.
Qed.

Lemma offer_recvonly v : offer_line (txt "a=recvonly" ++ [0x0D]) v = v <| v_recvOnly := true |>.
Proof. reflexivity. Qed.

Lemma offer_rtpmap v : offer_line (txt "a=rtpmap:8 PCMA/8000" ++ [0x0D]) v = v <| rtpmaps := rtpmaps v ++ [txt "8 PCMA/8000"] |>.
Proof. reflexivity. Qed.

Lemma audio_offer_read ip port transport x n sec : word ip -> 0 < port < 65536 -> word x -> ParseUint32 x = Some n -> offer_ok sec ->
  parseTalkbackOffer (buildLiveSDP ip port transport x true sec) =
  Some (mkTalkbackOffer (Some AudioPCMA) n (negb (bool_decide (offered_transport transport = mediaUDP))) ip (offered_port transport port) true false).
Proof.
  intros Hi Hp Hx Hn Hs. rewrite audio_offer_lines. unfold parseTalkbackOffer. rewrite Split_lines.
  2:{ apply Forall_app. split; [by apply audio_lines_ok|]. constructor; [by apply line_word|by apply security_line_ok]. }
  change (fold_left _ _ ?v) with (offer_lines (audio_head ip transport port ++ (txt "y=" ++ x) :: security_line sec) v).
  unfold audio_head, audio_media, offered_port, offered_transport.
  assert (W : word (txt "RTP/AVP") /\ word (txt "TCP/RTP/AVP")) by (split; by apply word_lit). destruct W as [W1 W2].
  assert (Skip : forall s v l, line_ok s -> no_offer_rule s = true -> offer_lines (s :: l) v = offer_lines l v) by (intros s v l L N; by rewrite offer_lines_cons, offer_skip).
  destruct (decide (transport = MediaTCPPassive)) as [->|N1]; [|destruct (decide (transport = MediaTCPActive)) as [->|N2]].
  1: rewrite !(bool_decide_eq_true_2 (MediaTCPPassive = MediaTCPPassive)) by done.
  2: rewrite !(bool_decide_eq_false_2 (MediaTCPActive = MediaTCPPassive)), !(bool_decide_eq_true_2 (MediaTCPActive = MediaTCPActive)) by done.
  3: rewrite !(bool_decide_eq_false_2 (transport = _)) by done.
  all: cbn [fst snd app]; rewrite !Skip by ((by apply line_lit) || (by apply line_word) || reflexivity);
    rewrite offer_lines_cons, offer_conn by done; rewrite Skip by ((by apply line_lit) || reflexivity);
    rewrite offer_lines_cons, offer_audio by (lia || done); rewrite offer_lines_cons, offer_recvonly, offer_lines_cons, offer_rtpmap;
    rewrite ?Skip by ((by apply line_lit) || reflexivity); rewrite offer_lines_cons, (offer_ssrc x n), offer_lines_security by done; reflexivity.
Qed.

(** ** The offers *)

(** C22: The live offer of the platform is understood by the device, for every media
    transport. An offer of video: the device takes it for no talk and gets the platform's
    address and port (the discard port when the device is to listen), the number of the
    SSRC, a [Play] session and the role the transport asks for (connect for tcp-passive,
    listen for tcp-active, UDP otherwise). An offer of audio alone (of a channel that has
    no picture) is taken for a talk in which the device only sends: A-law, with the same
    address, port and SSRC; the device sees that it is over TCP, which its talk handler
    refuses. Of both the device gets the security offer, and the platform finds its own
    SSRC in the offer it sent. *)
Theorem live_offer_understood ip port transport serverID seq (audioOnly : bool) sec :
  word ip -> 0 < port < 65536 -> digits serverID -> 0 <= seq -> offer_ok sec ->
  let offer := buildLiveSDP ip port transport (Sdp.SSRC false serverID seq) audioOnly sec in
  exists n, ParseUint32 (Sdp.SSRC false serverID seq) = Some n /\
    (if audioOnly then
       parseTalkbackOffer offer = Some (mkTalkbackOffer (Some AudioPCMA) n (negb (bool_decide (offered_transport transport = mediaUDP))) ip
                                          (offered_port transport port) true false)
     else
       parseTalkbackOffer offer = None /\
       parseSDP offer = inr (JoinHostPort ip (Itoa (offered_port transport port)), n, txt "Play", offered_transport transport)) /\
    SDPSecurityAttributeValue offer = sec /\ sdpSSRC offer = Sdp.SSRC false serverID seq.
Proof.
  intros Hi Hp Hs Hq Hsec offer. destruct (live_offer_read ip port transport serverID seq sec Hi Hp Hs Hq Hsec) as (n & E & P & S).
  assert (W : word (Sdp.SSRC false serverID seq)) by (unfold Sdp.SSRC; change (txt "0") with [0x30 + 0]; apply buildSSRC_word; [lia|done|done]).
  exists n. split; [done|]. unfold offer. destruct audioOnly.
  - split; [by apply audio_offer_read|]. rewrite audio_offer_lines. set (x := Sdp.SSRC _ _ _) in *. clearbody x.
    pose proof (audio_lines_ok ip port transport Hi Hp) as L. split.
    + change ((txt "y=" ++ x) :: security_line sec) with ([txt "y=" ++ x] ++ security_line sec). rewrite app_assoc.
      apply security_of_lines; [|by unfold audio_head, audio_media; destruct (offered_transport transport)|done].
      apply Forall_app. split; [done|]. constructor; [by apply line_word|constructor].
    + apply ssrc_of_lines; [|by unfold audio_head, audio_media; destruct (offered_transport transport)|apply W].
      apply Forall_app. split; [done|]. constructor; [by apply line_word|by apply security_line_ok].
  - split; [split; [by apply video_not_talk|exact P]|]. split; [done|]. rewrite buildLiveSDP_lines. set (x := Sdp.SSRC _ _ _) in *. clearbody x.
    apply ssrc_of_lines; [|by unfold live_head, live_media; destruct (offered_transport transport)|apply W].
    apply Forall_app. split; [by apply live_lines_ok|]. constructor; [by apply line_word|by apply security_line_ok].
Qed.

Lemma live_offer_understood_witness :
  let offer audioOnly := buildLiveSDP (txt "10.0.0.1") 30000 MediaTCPActive (Sdp.SSRC false (txt "34020000002000000001") 7) audioOnly (txt "GB35114-B") in
  exists n, ParseUint32 (Sdp.SSRC false (txt "34020000002000000001") 7) = Some n /\
    parseSDP (offer false) = inr (JoinHostPort (txt "10.0.0.1") (Itoa (offered_port MediaTCPActive 30000)), n, txt "Play", offered_transport MediaTCPActive) /\
    parseTalkbackOffer (offer true) = Some (mkTalkbackOffer (Some AudioPCMA) n true (txt "10.0.0.1") 9 true false).
Proof.
  assert (Hi : word (txt "10.0.0.1")) by (by apply word_lit). assert (Hd : digits (txt "34020000002000000001")) by (by repeat constructor).
  assert (Hs : offer_ok (txt "GB35114-B")) by (right; by apply word_lit).
  destruct (live_offer_understood (txt "10.0.0.1") 30000 MediaTCPActive (txt "34020000002000000001") 7 false (txt "GB35114-B")) as (n & E & [_ P] & _); [done|lia|done|lia|done|].
  destruct (live_offer_understood (txt "10.0.0.1") 30000 MediaTCPActive (txt "34020000002000000001") 7 true (txt "GB35114-B")) as (n' & E' & P' & _); [done|lia|done|lia|done|].
  rewrite E in E'. injection E' as <-. exists n. split; [exact E|]. split; [exact P|exact P'].
Defined.
