(* ===== verification/DeviceInvite.v ===== *)
(** The media dialogs of the device ([device/server.go], [device/talkback.go],
    [device/broadcast.go]): INVITE, BYE, CANCEL and INFO against the one media slot of
    the server, with the goroutines that they start.

    A handler is a program of instructions, each one access to the server under its
    lock together with what the handler does on its own before the next one; the
    receive loop runs one handler at a time, the goroutines and a voice broadcast run
    in between. Sockets, listeners, contexts and hub subscriptions are numbers that
    are drawn once; what the system and the host answer is the [env] of a request. *)

From S2P Require Import Prelude GoStrings GoText Sdp SipMsg PsDemux Receiver RtpSend RtpPusher Playback Talkback.
Open Scope Z_scope.

(** ** Data *)

(** The outcomes of one request. [e_answer], [e_signAU] and [e_open] are the
    authenticator's [MediaSecurityResponder], signer and [MediaSecurityReceiver]
    where it has them; [None] of a call is its error. *)
Record env := mkEnv {
  e_note : bool;
  e_resolves : text -> bool;
  e_listenTCP : option Z;
  e_listenUDP : option Z;
  e_localIP : text;
  e_scanIP : text;
  e_sent : bool;
  e_dial : bool;
  e_answer : option (text -> option (text * option cryptor));
  e_signAU : option AUSignerFunc;
  e_open : option (text -> option (option cryptor * option verifier));
  e_ParseIP : text -> bool;
  e_response : option SipMessage;
}.

Inductive peer := UDPPeer (ip : text) | TCPPeer (ip : text).

Record PlaybackIndex := mkPlaybackIndex { Lookup : Z -> Z -> list SegmentMeta; Root : text }.

Record mediaEndNotify := mkMediaEndNotify { end_peer : peer; end_msg : SipMessage }.

(** A media goroutine's own variables. *)
Record stream := mkStream {
  st_ctx : nat;
  st_conn : nat;
  st_tcp : option nat;
  st_dest : text;
  st_ssrc : Z;
  st_encrypt : option cryptor;
  st_sign : option AUSignerFunc;
}.

#[export] Instance eta_stream : Eta stream := fun p =>
  mkStream (st_ctx p) (st_conn p) (st_tcp p) (st_dest p) (st_ssrc p) (st_encrypt p) (st_sign p).

Inductive job :=
  | JLive
  | JPlayback (segments : list SegmentMeta) (root : text) (startMs endMs : Z) (sessionType : text) (ctl : nat) (endNotify : option mediaEndNotify).

Inductive goroutine :=
  | Accepting (ln : nat) (pending : option nat) (j : job) (p : stream)
  | Prepared (j : job) (p : stream)
  | Streaming (sub : nat) (p : stream)
  | PlayingBack (j : job) (p : stream)
  | Sending (ctx conn : nat) (host : text) (port : Z) (codec : AudioCodec) (c : option cryptor) (sign : option AUSignerFunc)
  | Receiving (ctx conn : nat) (ssrc : Z) (codec : AudioCodec) (c : option cryptor) (verify : option verifier)
  | Finished.

(** The media fields of [Server]. *)
Record server := mkServer {
  recordingIndex : option PlaybackIndex;
  audioSink : bool;
  audioSource : bool;
  upstreamLaw : AudioCodec;
  sub : option nat;
  remoteRTPAddr : option text;
  mediaConn : option nat;
  mediaTCPConn : option nat;
  mediaTCPListener : option nat;
  mediaCancel : option nat;
  talkCryptor : option cryptor;
  playbackCtl : option nat;
  inviteAnswerCache : gmap text text;
}.

#[export] Instance eta_server : Eta server := fun s =>
  mkServer (recordingIndex s) (audioSink s) (audioSource s) (upstreamLaw s) (sub s) (remoteRTPAddr s) (mediaConn s) (mediaTCPConn s)
    (mediaTCPListener s) (mediaCancel s) (talkCryptor s) (playbackCtl s) (inviteAnswerCache s).

(** The server, the resources of the process and what was sent. [live] are the
    contexts that are not cancelled, [subs] the subscribers of the hub. *)
Record world := mkWorld {
  srv : server;
  next : nat;
  open : gset nat;
  live : gset nat;
  subs : gset nat;
  tasks : list goroutine;
  outbox : list (peer * text);
  crashed : bool;
}.

#[export] Instance eta_world : Eta world := fun w =>
  mkWorld (srv w) (next w) (open w) (live w) (subs w) (tasks w) (outbox w) (crashed w).

(** A handler's remaining instructions. *)
Inductive prog :=
  | Ret
  | Act (f : world -> world * prog).

Definition on_srv (f : server -> server) (w : world) : world := w <| srv := f (srv w) |>.

(** A fresh socket, context or subscription. *)
Definition open_socket (w : world) : nat * world := (next w, w <| open := {[next w]} ∪ open w |> <| next := S (next w) |>).
Definition new_context (w : world) : nat * world := (next w, w <| live := {[next w]} ∪ live w |> <| next := S (next w) |>).
Definition Subscribe (w : world) : nat * world := (next w, w <| subs := {[next w]} ∪ subs w |> <| next := S (next w) |>).

Definition close (c : nat) (w : world) : world := w <| open := open w ∖ {[c]} |>.
Definition cancel (c : nat) (w : world) : world := w <| live := live w ∖ {[c]} |>.
Definition Unsubscribe (i : nat) (w : world) : world := w <| subs := subs w ∖ {[i]} |>.
Definition go (g : goroutine) (w : world) : world := w <| tasks := tasks w ++ [g] |>.

Definition with_opt {A} (o : option A) (f : A -> world -> world) (w : world) : world := match o with Some a => f a w | None => w end.

(** ** Handlers *)

Section Handlers.

Context (userAgent dialogTag : text) (DeviceID Transport : text) (LocalSIPPort : Z).

(** [sendSIP]. *)
Definition sendSIP (e : env) (msg : SipMessage) (to : peer) (w : world) : world :=
  if e_sent e then w <| outbox := outbox w ++ [(to, Serialize msg [])] |> else w.

Definition teardownMediaLocked (w : world) : world :=
  let s := srv w in
  on_srv (fun s => s <| talkCryptor := None |> <| mediaCancel := None |> <| sub := None |> <| mediaConn := None |> <| mediaTCPConn := None |>
                     <| mediaTCPListener := None |> <| playbackCtl := None |>)
    (with_opt (mediaTCPListener s) close (with_opt (mediaTCPConn s) close (with_opt (mediaConn s) close
      (with_opt (sub s) Unsubscribe (with_opt (mediaCancel s) cancel w))))).

Definition inviteCacheKey (msg : SipMessage) : text := CallID msg ++ txt " " ++ CSeq msg.

Definition cacheInviteAnswer (msg : SipMessage) (answer : text) (s : server) : server :=
  let cache := if Nat.ltb 4 (size (inviteAnswerCache s)) then ∅ else inviteAnswerCache s in
  s <| inviteAnswerCache := <[inviteCacheKey msg := answer]> cache |>.

(** [rejectInvite] and the 488 of [handleInvite]; [rejectInvite488] keeps the To header. *)
Definition rejectInvite (msg : SipMessage) : SipMessage :=
  empty_message <| StatusCode := 488 |> <| Via := Via msg |> <| From_ := From_ msg |> <| To_ := tagged dialogTag (To_ msg) |>
    <| CallID := CallID msg |> <| CSeq := CSeq msg |>.

Definition rejectInvite488 (msg : SipMessage) : SipMessage := (rejectInvite msg) <| To_ := To_ msg |>.

(** The media security of an offer: what the answer says about it, the encryptor and
    the signer. [None] refuses the offer. *)
Definition negotiate (e : env) (offer : text) : option (text * option cryptor * option AUSignerFunc) :=
  match offer with
  | [] => Some ([], None, None)
  | _ => match e_answer e with
         | None => None
         | Some answer => match answer offer with
                          | None => None
                          | Some ([], _) => Some ([], None, None)
                          | Some (value, encrypt) => Some (LF ++ txt "a=security:" ++ value, encrypt, e_signAU e)
                          end
         end
  end.

Definition is_play (sessionType : text) : bool := bool_decide (sessionType = txt "Play").

(** The completion INFO of a playback dialog. *)
Definition end_notify (e : env) (msg : SipMessage) (from : peer) (sessionType : text) : option mediaEndNotify :=
  let first := match cut_at 0x20 (CSeq msg) with Some (h, _) => h | None => CSeq msg end in
  let cseqNum := TrimSpace first in
  let cseqNum := match Atoi cseqNum with Some n => Itoa (s64 (n + 1)) | None => cseqNum end in
  let contact := txt "<sip:" ++ DeviceID ++ txt "@" ++ e_scanIP e ++ txt ":" ++ Itoa LocalSIPPort ++ txt ">" in
  let info := BuildMediaStatusInfo userAgent (RequestURI msg) (From_ msg) (To_ msg) (CallID msg) (cseqNum ++ txt " INFO") contact
                (bool_decide (sessionType = txt "Download")) in
  match from with
  | UDPPeer _ => if bool_decide (Transport = []) || bool_decide (Transport = txt "udp") then Some (mkMediaEndNotify from info) else None
  | TCPPeer _ => Some (mkMediaEndNotify from info)
  end.

(** The last part of [handleInvite]: the goroutine starts. *)
Definition start_media (e : env) (msg : SipMessage) (from : peer) (rtpDest : text) (ssrc : Z) (sessionType : text)
    (recording : list SegmentMeta * text * Z * Z) (conn : nat) (mediaTCP listener : option nat) (encrypt : option cryptor) (sign : option AUSignerFunc)
    (w : world) : world :=
  let (ctx, w1) := new_context w in
  let p := mkStream ctx conn mediaTCP rtpDest ssrc encrypt sign in
  let start j := match listener with Some ln => go (Accepting ln None j p) | None => go (Prepared j p) end in
  if is_play sessionType then start JLive (on_srv (fun s => s <| mediaCancel := Some ctx |>) w1)
  else let '(segments, root, startMs, endMs) := recording in
       let (ctl, w2) := (next w1, w1 <| next := S (next w1) |>) in
       start (JPlayback segments root startMs endMs sessionType ctl (end_notify e msg from sessionType))
         (on_srv (fun s => s <| mediaCancel := Some ctx |> <| remoteRTPAddr := Some rtpDest |> <| playbackCtl := Some ctl |>) w2).

(** From the 200 OK on. *)
Definition answer_invite (e : env) (msg : SipMessage) (from : peer) (rtpDest : text) (ssrc : Z) (sessionType : text) (transport : sdpMediaTransport)
    (recording : list SegmentMeta * text * Z * Z) (conn : nat) (listener : option nat) (deviceSDP : text) (encrypt : option cryptor)
    (sign : option AUSignerFunc) : prog :=
  Act (fun w =>
    let ok200 := Build200OK userAgent dialogTag msg (txt "application/sdp") deviceSDP in
    let w1 := sendSIP e ok200 from (on_srv (cacheInviteAnswer msg (Serialize ok200 [])) w) in
    if negb (e_sent e) then (w1, Ret) else
    let start tcp w := (start_media e msg from rtpDest ssrc sessionType recording conn tcp listener encrypt sign w, Ret) in
    (w1,
     match transport with
     | mediaTCPConnect =>
         Act (fun w =>
           if negb (e_dial e)
           then (with_opt (sub (srv w)) (fun i w => on_srv (fun s => s <| sub := None |>) (Unsubscribe i w)) w, Ret)
           else let (c, w1) := open_socket w in
                (on_srv (fun s => s <| mediaTCPConn := Some c |>) w1, Act (start (Some c))))
     | _ => Act (start None)
     end)).

(** From the media socket on. *)
Definition bind_media (e : env) (msg : SipMessage) (from : peer) (rtpDest : text) (ssrc : Z) (sessionType : text) (transport : sdpMediaTransport)
    (recording : list SegmentMeta * text * Z * Z) (listener : option (nat * Z)) : prog :=
  Act (fun w =>
    match e_listenUDP e with
    | None => (w, Ret)
    | Some localMediaPort =>
        let (conn, w1) := open_socket w in
        (on_srv (fun s => s <| mediaConn := Some conn |>) w1,
         let answerTransport := match transport with mediaUDP => txt "udp" | _ => txt "tcp" end in
         let '(answerPort, answerSetup) := match listener with Some (_, port) => (port, txt "passive") | None => (localMediaPort, txt "active") end in
         let deviceSDP := buildDeviceSDP DeviceID (e_localIP e) answerPort ssrc answerTransport sessionType answerSetup in
         match negotiate e (SDPSecurityAttributeValue (Body msg)) with
         | None => Act (fun w => (sendSIP e (rejectInvite msg) from w, Ret))
         | Some (security, encrypt, sign) =>
             let answer := answer_invite e msg from rtpDest ssrc sessionType transport recording conn (fst <$> listener) (deviceSDP ++ security) encrypt sign in
             if is_play sessionType
             then Act (fun w =>
                    let w1 := with_opt (sub (srv w)) Unsubscribe w in
                    let (i, w2) := Subscribe w1 in
                    (on_srv (fun s => s <| sub := Some i |> <| remoteRTPAddr := Some rtpDest |>) w2, answer))
             else answer
         end)
    end).

(** From the teardown of the previous session on. *)
Definition open_media (e : env) (msg : SipMessage) (from : peer) (rtpDest : text) (ssrc : Z) (sessionType : text) (transport : sdpMediaTransport)
    (recording : list SegmentMeta * text * Z * Z) : prog :=
  Act (fun w =>
    (teardownMediaLocked w,
     match transport with
     | mediaTCPListen =>
         Act (fun w =>
           match e_listenTCP e with
           | None => (w, Ret)
           | Some port =>
               let (ln, w1) := open_socket w in
               (on_srv (fun s => s <| mediaTCPListener := Some ln |>) w1,
                bind_media e msg from rtpDest ssrc sessionType transport recording (Some (ln, port)))
           end)
     | _ => bind_media e msg from rtpDest ssrc sessionType transport recording None
     end)).

(** An audio-only INVITE. *)
Definition handleTalkbackInvite (e : env) (msg : SipMessage) (offer : talkbackOffer) (from : peer) : prog :=
  Act (fun w =>
    let source := audioSource (srv w) in
    let refuse := (sendSIP e (rejectInvite488 msg) from w, Ret) in
    if negb (audioSink (srv w)) then refuse else
    match codec offer with
    | None => refuse
    | Some c =>
        if tcp offer then refuse else
        if recvOnly offer && negb source then refuse else
        match (match SDPSecurityAttributeValue (Body msg) with
               | [] => Some (None, None, None)
               | offerSec => match e_open e with
                             | None => None
                             | Some openMedia => match openMedia offerSec with
                                                 | None => None
                                                 | Some (decrypt, verify) => Some (decrypt, verify, e_signAU e)
                                                 end
                             end
               end) with
        | None => refuse
        | Some (talkCrypt, talkVerifier, talkSigner) =>
            (w, Act (fun w =>
              (on_srv (fun s => s <| talkCryptor := talkCrypt |>) (teardownMediaLocked w),
               match e_listenUDP e with
               | None => Ret
               | Some mediaPort =>
                   let direction := if recvOnly offer then lines_crlf [txt "a=sendonly"] else [] in
                   let sdp := buildTalkbackSDP (e_localIP e) mediaPort (o_ssrc offer) c direction in
                   if negb (e_sent e) then Ret else
                   Act (fun w =>
                     let (conn, w1) := open_socket (sendSIP e (Build200OK userAgent dialogTag msg (txt "application/sdp") sdp) from w) in
                     let (ctx, w2) := new_context w1 in
                     let w3 := on_srv (fun s => s <| mediaConn := Some conn |> <| mediaCancel := Some ctx |>) w2 in
                     let dst := if e_ParseIP e (connIP offer) then Some (connIP offer) else match from with UDPPeer ip => Some ip | TCPPeer _ => None end in
                     let w4 := if source && negb (sendOnly offer) then
                                 match dst with
                                 | Some host => if 0 <? o_mediaPort offer
                                                then go (Sending ctx conn host (o_mediaPort offer) c talkCrypt talkSigner)
                                                       (on_srv (fun s => s <| upstreamLaw := c |>) w3)
                                                else w3
                                 | None => w3
                                 end
                               else w3 in
                     (go (Receiving ctx conn (o_ssrc offer) c talkCrypt talkVerifier) w4, Ret))
               end)))
        end
    end).

Definition handleInvite (e : env) (msg : SipMessage) (from : peer) : prog :=
  match parseTalkbackOffer (Body msg) with
  | Some offer => handleTalkbackInvite e msg offer from
  | None =>
      match parseSDP (Body msg) with
      | inl _ => Ret
      | inr (mediaAddr, ssrc, sessionType, transport) =>
          if negb (e_resolves e mediaAddr) then Ret else
          if is_play sessionType then open_media e msg from mediaAddr ssrc sessionType transport ([], [], 0, 0) else
          Act (fun w =>
            let (startMs, endMs) := parseSDPTimeRange (Body msg) in
            let (segs, root) := match recordingIndex (srv w) with Some idx => (Lookup idx startMs endMs, Root idx) | None => ([], []) end in
            match segs with
            | [] => (sendSIP e (rejectInvite msg) from w, Ret)
            | _ => (w, open_media e msg from mediaAddr ssrc sessionType transport (segs, root, startMs, endMs))
            end)
      end
  end.

Definition ok_reply (e : env) (msg : SipMessage) (from : peer) (w : world) : world := sendSIP e (Build200OK userAgent dialogTag msg [] []) from w.

Definition handleBye (e : env) (msg : SipMessage) (from : peer) : prog :=
  Act (fun w => (ok_reply e msg from (on_srv (fun s => s <| remoteRTPAddr := None |>) (teardownMediaLocked w)), Ret)).

(** [replayInviteAnswer] in front of [handleInvite]. *)
Definition replayInviteAnswer (e : env) (msg : SipMessage) (from : peer) (otherwise : prog) : prog :=
  Act (fun w =>
    match inviteAnswerCache (srv w) !! inviteCacheKey msg with
    | Some cached => (if e_sent e then w <| outbox := outbox w ++ [(from, cached)] |> else w, Ret)
    | None => (w, otherwise)
    end).

(** The receive loop on a request over UDP; MESSAGE and SUBSCRIBE leave the media
    alone, and the controls of INFO are in Playback. *)
Definition dispatch (e : env) (msg : SipMessage) (from : peer) : prog :=
  if negb (e_note e) then Act (fun w => (sendSIP e (BuildStatusResponse userAgent dialogTag msg 403) from w, Ret))
  else if bool_decide (Method msg = txt "INVITE") then replayInviteAnswer e msg from (handleInvite e msg from)
  else if bool_decide (Method msg = txt "BYE") then handleBye e msg from
  else if existsb (fun m => bool_decide (Method msg = m)) [txt "CANCEL"; txt "INFO"; txt "NOTIFY"; txt "OPTIONS"]
       then Act (fun w => (ok_reply e msg from w, Ret))
  else Ret.

(** The session that a voice broadcast starts, on a goroutine of its own; its INVITE
    is [invite], the platform's response [e_response]. *)
Definition startBroadcastSession (e : env) (invite : SipMessage) (ack : SipMessage -> SipMessage) (ssrc : Z) (platformAddr : peer) : prog :=
  Act (fun w =>
    (teardownMediaLocked w,
     match e_listenUDP e with
     | None => Ret
     | Some _ =>
         if negb (e_sent e) then Ret else
         Act (fun w =>
           let (conn, w1) := open_socket (sendSIP e invite platformAddr w) in
           (w1,
            Act (fun w =>
              match e_response e with
              | Some resp =>
                  if negb (StatusCode resp =? 200) then (close conn w, Ret) else
                  let w1 := sendSIP e (ack resp) platformAddr w in
                  match (match SDPSecurityAttributeValue (Body resp) with
                         | [] => Some (None, None)
                         | answerSec => match e_open e with None => None | Some openMedia => openMedia answerSec end
                         end) with
                  | None => (close conn w1, Ret)
                  | Some (bcCryptor, bcVerifier) =>
                      let (ctx, w2) := new_context w1 in
                      (go (Receiving ctx conn ssrc AudioPCMA bcCryptor bcVerifier)
                         (on_srv (fun s => s <| mediaConn := Some conn |> <| mediaCancel := Some ctx |> <| talkCryptor := bcCryptor |>) w2), Ret)
                  end
              | None => (close conn w, Ret)
              end)))
     end)).

End Handlers.

(** ** Runs *)

(** The receive loop with the handler in progress, and the broadcasts. *)
Record system := mkSystem { state : world; hand : prog; broadcasts : list prog }.

#[export] Instance eta_system : Eta system := fun s => mkSystem (state s) (hand s) (broadcasts s).

Inductive label :=
  | Receive (e : env) (msg : SipMessage) (from : peer)
  | Instr
  | Broadcast (e : env) (invite : SipMessage) (ack : SipMessage -> SipMessage) (ssrc : Z) (platformAddr : peer)
  | BroadcastInstr (k : nat)
  | Dialled (i : nat)
  | Taken (i : nat)
  | AcceptFailed (i : nat)
  | Cancelled (i : nat)
  | Begin (i : nat)
  | Finish (i : nat).

Definition ctx_of (g : goroutine) : option nat :=
  match g with
  | Accepting _ _ _ p | Prepared _ p | Streaming _ p | PlayingBack _ p => Some (st_ctx p)
  | Sending ctx _ _ _ _ _ _ | Receiving ctx _ _ _ _ _ => Some ctx
  | Finished => None
  end.

Definition set_task (i : nat) (g : goroutine) (w : world) : world := w <| tasks := <[i := g]> (tasks w) |>.

(** A goroutine ends; its deferred [mediaCancel] runs. *)
Definition finish (i : nat) (p : stream) (w : world) : world := cancel (st_ctx p) (set_task i Finished w).

(** One step of goroutine [i]. [acceptTCP] accepts on a goroutine of its own and
    takes the connection from a channel. *)
Definition task_step (l : label) (w : world) : world :=
  match l with
  | Dialled i => match tasks w !! i with
                 | Some (Accepting ln None j p) =>
                     if bool_decide (ln ∈ open w) then let (c, w1) := open_socket w in set_task i (Accepting ln (Some c) j p) w1 else w
                 | _ => w
                 end
  | Taken i => match tasks w !! i with
               | Some (Accepting ln (Some c) j p) =>
                   set_task i (Prepared j (p <| st_tcp := Some c |>)) (on_srv (fun s => s <| mediaTCPConn := Some c |>) w)
               | _ => w
               end
  | AcceptFailed i => match tasks w !! i with
                      | Some (Accepting ln None j p) => if bool_decide (ln ∈ open w) then w else finish i p w
                      | _ => w
                      end
  | Cancelled i => match tasks w !! i with
                   | Some (Accepting ln _ j p) => if bool_decide (st_ctx p ∈ live w) then w else finish i p (close ln w)
                   | _ => w
                   end
  | Begin i => match tasks w !! i with
               | Some (Prepared JLive p) => match sub (srv w) with
                                            | Some s => set_task i (Streaming s p) w
                                            | None => w <| crashed := true |>
                                            end
               | Some (Prepared j p) => set_task i (PlayingBack j p) w
               | _ => w
               end
  | Finish i => match tasks w !! i with
                | Some (Streaming _ p) | Some (PlayingBack _ p) => finish i p w
                | Some (Receiving ctx _ _ _ _ _) => cancel ctx (set_task i Finished w)
                | Some (Sending _ _ _ _ _ _ _) => set_task i Finished w
                | _ => w
                end
  | _ => w
  end.

Section Runs.

Context (userAgent dialogTag : text) (DeviceID Transport : text) (LocalSIPPort : Z).

Definition instr (p : prog) (w : world) : world * prog := match p with Ret => (w, Ret) | Act f => f w end.

Definition step (l : label) (s : system) : system :=
  if crashed (state s) then s else
  match l with
  | Receive e msg from => match hand s with
                          | Ret => s <| hand := dispatch userAgent dialogTag DeviceID Transport LocalSIPPort e msg from |>
                          | _ => s
                          end
  | Instr => let (w, p) := instr (hand s) (state s) in s <| state := w |> <| hand := p |>
  | Broadcast e invite ack ssrc platformAddr => s <| broadcasts := broadcasts s ++ [startBroadcastSession e invite ack ssrc platformAddr] |>
  | BroadcastInstr k => match broadcasts s !! k with
                        | Some p => let (w, p') := instr p (state s) in s <| state := w |> <| broadcasts := <[k := p']> (broadcasts s) |>
                        | None => s
                        end
  | l => s <| state := task_step l (state s) |>
  end.

Definition run (ls : list label) (s : system) : system := fold_left (fun s l => step l s) ls s.

Definition start (srv0 : server) : system := mkSystem (mkWorld srv0 0 ∅ ∅ ∅ [] [] false) Ret [].

(** A server that has just been made. *)
Definition fresh_server (idx : option PlaybackIndex) (sink source : bool) : server :=
  mkServer idx sink source AudioPCMA None None None None None None None None ∅.

(** A request that is received and handled without interruption. *)
Definition handled (e : env) (msg : SipMessage) (from : peer) : list label := Receive e msg from :: repeat Instr 8.

End Runs.
