(* ===== verification/DeviceDialogs.v ===== *)
(** What the media dialogs of [DeviceInvite] promise. *)

From S2P Require Import Prelude GoStrings GoText Sdp SipMsg PsDemux Receiver RtpSend RtpPusher Playback Talkback DeviceInvite.
Open Scope Z_scope.

(** ** Lemmas: programs *)

(** Every instruction relates the worlds before and after it. *)
Inductive always (R : world -> world -> Prop) : prog -> Prop :=
  | always_Ret : always R Ret
  | always_Act f : (forall w, R w (fst (f w)) /\ always R (snd (f w))) -> always R (Act f).

(** [n] instructions in a row. *)
Fixpoint drive (n : nat) (w : world) (p : prog) : world * prog :=
  match n with O => (w, p) | S n' => let (w', p') := instr p w in drive n' w' p' end.

Lemma drive_ret n w : drive n w Ret = (w, Ret).
Proof. induction n as [|n IH]; [done|exact IH]. Qed.

Definition keeps_crashed (w w' : world) : Prop := crashed w' = crashed w.

Lemma crashed_opt {A} (o : option A) f w : (forall a w, crashed (f a w) = crashed w) -> crashed (with_opt o f w) = crashed w.
Proof. intros H. by destruct o; [apply H|]. Qed.

Lemma crashed_sent e msg to w : crashed (sendSIP e msg to w) = crashed w.
Proof. unfold sendSIP. by destruct (e_sent e). Qed.

Lemma crashed_teardown w : crashed (teardownMediaLocked w) = crashed w.
Proof.
  unfold teardownMediaLocked. cbn [on_srv crashed update eta eta_world].
  by rewrite !(crashed_opt _ close), (crashed_opt _ Unsubscribe), (crashed_opt _ cancel).
Qed.

Lemma crashed_start userAgent DeviceID Transport port e msg from dest ssrc st rec conn mtcp ln enc sign w :
  crashed (start_media userAgent DeviceID Transport port e msg from dest ssrc st rec conn mtcp ln enc sign w) = crashed w.
Proof. unfold start_media. destruct rec as [[[? ?] ?] ?], ln, (is_play st); done. Qed.

Create HintDb crash.
Lemma crashed_on_srv f w : crashed (on_srv f w) = crashed w.
Proof. done. Qed.

Lemma crashed_unsubscribed o w : crashed (with_opt o Unsubscribe w) = crashed w.
Proof. by apply crashed_opt. Qed.

#[local] Hint Rewrite crashed_sent crashed_teardown crashed_start crashed_unsubscribed crashed_on_srv : crash.

(** Walks through a program, case by case. *)
Ltac walk :=
  repeat match goal with
  | |- always _ Ret => apply always_Ret
  | |- always _ (Act _) => let w := fresh "w" in apply always_Act; intros w; cbv zeta
  | |- _ /\ _ => split
  | |- always _ (snd (_, _)) => cbn [snd]
  | |- _ => progress cbv beta iota zeta delta [open_socket new_context Subscribe]
  | |- context [match ?x with _ => _ end] => destruct x
  end.

(** Computes the fields of worlds and servers; anything else stays as it is. *)
Ltac fields :=
  cbn [on_srv update eta eta_world eta_server srv next open live subs tasks outbox crashed recordingIndex audioSink audioSource upstreamLaw
       sub remoteRTPAddr mediaConn mediaTCPConn mediaTCPListener mediaCancel talkCryptor playbackCtl inviteAnswerCache].

Section Dialogs.

Context (userAgent dialogTag : text) (DeviceID Transport : text) (LocalSIPPort : Z).

Notation run := (run userAgent dialogTag DeviceID Transport LocalSIPPort).
Notation step := (step userAgent dialogTag DeviceID Transport LocalSIPPort).
Notation dispatch := (dispatch userAgent dialogTag DeviceID Transport LocalSIPPort).

Notation handleInvite := (handleInvite userAgent dialogTag DeviceID Transport LocalSIPPort).

Ltac quiet := walk; unfold keeps_crashed; first [done | cbn -[sendSIP teardownMediaLocked start_media with_opt]; autorewrite with crash; first [done | by apply crashed_opt]].

Lemma answer_quiet e msg from dest ssrc st tr rec conn ln sdp enc sign :
  always keeps_crashed (answer_invite userAgent dialogTag DeviceID Transport LocalSIPPort e msg from dest ssrc st tr rec conn ln sdp enc sign).
Proof. unfold answer_invite. quiet. Qed.

Lemma bind_quiet e msg from dest ssrc st tr rec ln :
  always keeps_crashed (bind_media userAgent dialogTag DeviceID Transport LocalSIPPort e msg from dest ssrc st tr rec ln).
Proof.
  unfold bind_media. apply always_Act. intros w. destruct (e_listenUDP e) as [port|]; [|split; [done|apply always_Ret]].
  split; [done|]. cbn [open_socket snd]. destruct ln as [[ln lp]|]; destruct (negotiate e _) as [[[sec enc] sign]|].
  2, 4: quiet.
  all: destruct (is_play st); [|apply answer_quiet].
  all: apply always_Act; intros w1; split; [|apply answer_quiet]; unfold keeps_crashed; cbn -[with_opt]; by autorewrite with crash.
Qed.

Lemma open_quiet e msg from dest ssrc st tr rec :
  always keeps_crashed (open_media userAgent dialogTag DeviceID Transport LocalSIPPort e msg from dest ssrc st tr rec).
Proof.
  unfold open_media. apply always_Act. intros w. split; [unfold keeps_crashed; cbn [fst]; by autorewrite with crash|]. cbn [snd].
  destruct tr; [apply bind_quiet|apply bind_quiet|]. apply always_Act. intros w1.
  destruct (e_listenTCP e); (split; [done|]); [apply bind_quiet|apply always_Ret].
Qed.

Lemma dispatch_quiet e msg from : always keeps_crashed (dispatch e msg from).
Proof.
  unfold DeviceInvite.dispatch, replayInviteAnswer, handleBye, ok_reply.
  destruct (e_note e); cbn [negb]; [|quiet]. destruct (bool_decide (Method msg = txt "INVITE")).
  - apply always_Act. intros w. destruct (_ !! _); (split; [by destruct (e_sent e)|]); [apply always_Ret|]. cbn [snd].
    unfold DeviceInvite.handleInvite. destruct (parseTalkbackOffer (Body msg)) as [offer|].
    + unfold handleTalkbackInvite. quiet.
    + destruct (parseSDP (Body msg)) as [|[[[addr ssrc] st] tr]]; [apply always_Ret|]. destruct (e_resolves e addr); [|apply always_Ret]. cbn [negb].
      destruct (is_play st); [apply open_quiet|]. apply always_Act. intros w1. destruct (parseSDPTimeRange _) as [a b].
      destruct (recordingIndex _) as [idx|]; [|quiet]. destruct (Lookup idx a b); [quiet|]. split; [done|apply open_quiet].
  - quiet.
Qed.

(** *** Handlers run without interruption *)

Lemma run_instrs n : forall w p bs, crashed w = false -> always keeps_crashed p ->
  run (repeat Instr n) (mkSystem w p bs) = mkSystem (fst (drive n w p)) (snd (drive n w p)) bs.
Proof.
  induction n as [|n IH]; intros w p bs Hc Q; [done|]. cbn [repeat]. unfold DeviceInvite.run in *. cbn [fold_left drive].
  unfold DeviceInvite.step at 2. cbn [state hand]. rewrite Hc. destruct Q as [|f Q]; cbn [instr].
  - apply IH; [done|apply always_Ret].
  - destruct (Q w) as [K Q']. destruct (f w) as [w' p']. cbn [fst snd] in *. apply IH; [by rewrite K|done].
Qed.

Lemma run_app a b s : run (a ++ b) s = run b (run a s).
Proof. unfold DeviceInvite.run. by rewrite fold_left_app. Qed.

Lemma run_handled e msg from s : hand s = Ret -> crashed (state s) = false ->
  run (handled e msg from) s = mkSystem (fst (drive 8 (state s) (dispatch e msg from))) (snd (drive 8 (state s) (dispatch e msg from))) (broadcasts s).
Proof.
  intros Hh Hc. destruct s as [w h bs]. cbn [state hand broadcasts] in *. subst h. unfold handled.
  change (Receive e msg from :: repeat Instr 8) with ([Receive e msg from] ++ repeat Instr 8). rewrite run_app.
  unfold DeviceInvite.run at 2. cbn [fold_left]. unfold DeviceInvite.step at 1. cbn [state hand]. rewrite Hc.
  apply run_instrs; [done|apply dispatch_quiet].
Qed.

(** A live offer over UDP that the device can serve, and what the authenticator makes
    of its media security. *)
Record servable (e : env) (msg : SipMessage) (addr : text) (ssrc port : Z) (sec : text) (enc : option cryptor) (sign : option AUSignerFunc) : Prop := {
  sv_method : Method msg = txt "INVITE";
  sv_note : e_note e = true;
  sv_video : parseTalkbackOffer (Body msg) = None;
  sv_offer : parseSDP (Body msg) = inr (addr, ssrc, txt "Play", mediaUDP);
  sv_security : negotiate e (SDPSecurityAttributeValue (Body msg)) = Some (sec, enc, sign);
  sv_resolves : e_resolves e addr = true;
  sv_bound : e_listenUDP e = Some port;
  sv_sent : e_sent e = true;
}.

Definition live_ok (e : env) (msg : SipMessage) (port ssrc : Z) (sec : text) : SipMessage :=
  Build200OK userAgent dialogTag msg (txt "application/sdp")
    (buildDeviceSDP DeviceID (e_localIP e) port ssrc (txt "udp") (txt "Play") (txt "active") ++ sec).

Definition live_answer (e : env) (msg : SipMessage) (port ssrc : Z) (sec : text) : text := Serialize (live_ok e msg port ssrc sec) [].

(** The world once the INVITE is handled. *)
Definition with_live (msg : SipMessage) (from : peer) (addr : text) (ssrc : Z) (answer : text) (enc : option cryptor) (sign : option AUSignerFunc)
    (w0 : world) : world :=
  let n := next w0 in
  mkWorld ((cacheInviteAnswer msg answer ((srv w0) <| mediaConn := Some n |> <| sub := Some (S n) |> <| remoteRTPAddr := Some addr |>)) <| mediaCancel := Some (S (S n)) |>)
    (S (S (S n))) ({[n]} ∪ open w0) ({[S (S n)]} ∪ live w0) ({[S n]} ∪ subs w0)
    (tasks w0 ++ [Prepared JLive (mkStream (S (S n)) n None addr ssrc enc sign)]) (outbox w0 ++ [(from, answer)]) (crashed w0).

Lemma torn_down w : sub (srv (teardownMediaLocked w)) = None /\ mediaConn (srv (teardownMediaLocked w)) = None /\
  mediaTCPConn (srv (teardownMediaLocked w)) = None /\ mediaTCPListener (srv (teardownMediaLocked w)) = None /\
  mediaCancel (srv (teardownMediaLocked w)) = None.
Proof. done. Qed.

(** The part after the teardown. *)
Lemma live_bound e msg from addr ssrc port sec enc sign w0 : servable e msg addr ssrc port sec enc sign -> sub (srv w0) = None ->
  drive 6 w0 (bind_media userAgent dialogTag DeviceID Transport LocalSIPPort e msg from addr ssrc (txt "Play") mediaUDP ([], [], 0, 0) None) =
  (with_live msg from addr ssrc (live_answer e msg port ssrc sec) enc sign w0, Ret).
Proof.
  intros [M N V O P R B S] Z. unfold bind_media. cbn [drive instr]. rewrite B. cbn [open_socket]. rewrite P.
  unfold is_play. rewrite bool_decide_eq_true_2 by done. cbn [instr].
  destruct w0 as [s0 n0 o0 l0 u0 t0 b0 c0]. destruct s0. cbn in Z. subst.
  unfold answer_invite, sendSIP. rewrite S. cbn [negb].
  fields. cbn [with_opt instr Subscribe]. fields.
  unfold start_media, is_play. rewrite bool_decide_eq_true_2 by done. cbn [new_context fst snd fmap option_fmap option_map].
  unfold live_answer, live_ok. set (a := Serialize _ _). clearbody a. fields. cbn [go]. fields. reflexivity.
Qed.

Lemma live_handled e msg from addr ssrc port sec enc sign w : servable e msg addr ssrc port sec enc sign ->
  inviteAnswerCache (srv w) !! inviteCacheKey msg = None ->
  drive 8 w (dispatch e msg from) = (with_live msg from addr ssrc (live_answer e msg port ssrc sec) enc sign (teardownMediaLocked w), Ret).
Proof.
  intros S K. pose proof (live_bound e msg from addr ssrc port sec enc sign (teardownMediaLocked w) S (proj1 (torn_down w))) as L.
  destruct S as [M N V O P R B S]. unfold DeviceInvite.dispatch. rewrite N, M. cbn [negb]. rewrite bool_decide_eq_true_2 by done.
  unfold replayInviteAnswer. cbn [drive instr]. rewrite K. unfold DeviceInvite.handleInvite. rewrite V, O, R. cbn [negb].
  unfold open_media, is_play. rewrite bool_decide_eq_true_2 by done. cbn [instr]. exact L.
Qed.

Lemma bye_handled e bye from w : Method bye = txt "BYE" -> e_note e = true ->
  drive 8 w (dispatch e bye from) =
  (ok_reply userAgent dialogTag e bye from (on_srv (fun s => s <| remoteRTPAddr := None |>) (teardownMediaLocked w)), Ret).
Proof.
  intros M N. unfold DeviceInvite.dispatch. rewrite N, M. cbn [negb]. rewrite bool_decide_eq_false_2, bool_decide_eq_true_2 by done. done.
Qed.

Lemma run_one l s : run [l] s = step l s.
Proof. done. Qed.

(** The goroutine of a live session looks for its subscription. *)
Lemma begin_step s i p : crashed (state s) = false -> tasks (state s) !! i = Some (Prepared JLive p) ->
  crashed (state (step (Begin i) s)) = match sub (srv (state s)) with Some _ => false | None => true end.
Proof.
  intros C T. unfold DeviceInvite.step. rewrite C. cbn [state task_step update eta eta_system]. rewrite T.
  by destruct (sub (srv (state s))).
Qed.

Lemma teardown_tasks w : tasks (teardownMediaLocked w) = tasks w /\ outbox (teardownMediaLocked w) = outbox w.
Proof.
  unfold teardownMediaLocked, with_opt.
  by destruct (mediaCancel (srv w)), (sub (srv w)), (mediaConn (srv w)), (mediaTCPConn (srv w)), (mediaTCPListener (srv w)).
Qed.

Lemma ok_reply_keeps e msg from w : let w' := ok_reply userAgent dialogTag e msg from w in
  srv w' = srv w /\ tasks w' = tasks w /\ crashed w' = crashed w /\ open w' = open w /\ live w' = live w /\ subs w' = subs w.
Proof. unfold ok_reply, sendSIP. by destruct (e_sent e). Qed.

(** The session that an INVITE has set up. *)
Lemma with_live_facts msg from addr ssrc answer enc sign w : crashed w = false ->
  let w1 := with_live msg from addr ssrc answer enc sign (teardownMediaLocked w) in
  crashed w1 = false /\ (exists n, sub (srv w1) = Some n) /\ inviteAnswerCache (srv w1) !! inviteCacheKey msg = Some answer /\
  outbox w1 = outbox w ++ [(from, answer)] /\ (exists p, tasks w1 !! length (tasks w) = Some (Prepared JLive p) /\ st_dest p = addr /\ st_ssrc p = ssrc /\ st_encrypt p = enc /\ st_sign p = sign).
Proof.
  intros C. destruct (teardown_tasks w) as [T O]. pose proof (crashed_teardown w) as C'. rewrite C in C'.
  destruct (teardownMediaLocked w) as [s0 n0 o0 l0 u0 t0 b0 c0]. destruct s0. cbn [tasks outbox crashed] in *. subst. cbv zeta.
  unfold with_live, cacheInviteAnswer. fields. split; [done|]. split; [by eexists|]. split; [apply lookup_insert_eq|]. split; [done|].
  eexists. split; [by apply list_lookup_middle|done].
Qed.

(** What a live INVITE leads to. *)
Lemma live_run e msg from addr ssrc port sec enc sign s : servable e msg addr ssrc port sec enc sign ->
  hand s = Ret -> crashed (state s) = false -> inviteAnswerCache (srv (state s)) !! inviteCacheKey msg = None ->
  let w := state (run (handled e msg from) s) in
  outbox w = outbox (state s) ++ [(from, live_answer e msg port ssrc sec)] /\
  exists st, tasks w !! length (tasks (state s)) = Some (Prepared JLive st) /\ st_dest st = addr /\ st_ssrc st = ssrc /\
    st_encrypt st = enc /\ st_sign st = sign.
Proof.
  intros S Hh Hc K. cbv zeta. rewrite run_handled, (live_handled e msg from addr ssrc port sec enc sign) by done. cbn [fst state].
  destruct (with_live_facts msg from addr ssrc (live_answer e msg port ssrc sec) enc sign (state s) Hc) as (_ & _ & _ & O & T). by split.
Qed.

Lemma live_answer_ok e msg port ssrc sec : live_answer e msg port ssrc sec = Serialize (live_ok e msg port ssrc sec) [].
Proof. done. Qed.

Lemma live_ok_status e msg port ssrc sec : StatusCode (live_ok e msg port ssrc sec) = 200.
Proof. done. Qed.

(** What a BYE leaves. *)
Lemma bye_facts e bye from w : let w1 := ok_reply userAgent dialogTag e bye from (on_srv (fun s => s <| remoteRTPAddr := None |>) (teardownMediaLocked w)) in
  crashed w1 = crashed w /\ sub (srv w1) = None /\ tasks w1 = tasks w /\ open w1 = open (teardownMediaLocked w) /\
  live w1 = live (teardownMediaLocked w) /\ subs w1 = subs (teardownMediaLocked w).
Proof.
  cbv zeta. destruct (ok_reply_keeps e bye from (on_srv (fun s => s <| remoteRTPAddr := None |>) (teardownMediaLocked w)))
    as (-> & -> & -> & -> & -> & ->). pose proof (crashed_teardown w). pose proof (proj1 (teardown_tasks w)). pose proof (proj1 (torn_down w)).
  destruct (teardownMediaLocked w) as [s0 n0 o0 l0 u0 t0 b0 c0]. destruct s0. by split_and!.
Qed.

(** ** Theorem: the BYE that comes early *)

(** C15: A BYE that is handled before the goroutine of a live session has looked up
    its subscription crashes the device: the goroutine dereferences the nil that the
    teardown left. In the other order nothing happens. *)
Theorem early_bye_crashes e e' msg bye from from' addr ssrc port sec enc sign s :
  servable e msg addr ssrc port sec enc sign -> Method bye = txt "BYE" -> e_note e' = true ->
  hand s = Ret -> crashed (state s) = false -> inviteAnswerCache (srv (state s)) !! inviteCacheKey msg = None ->
  let i := length (tasks (state s)) in
  crashed (state (run (handled e msg from ++ handled e' bye from' ++ [Begin i]) s)) = true /\
  crashed (state (run (handled e msg from ++ [Begin i] ++ handled e' bye from') s)) = false.
Proof.
  intros S M N Hh Hc K i. rewrite !run_app, (run_handled e msg from s), (live_handled e msg from addr ssrc port sec enc sign) by done. cbn [fst snd].
  destruct (with_live_facts msg from addr ssrc (live_answer e msg port ssrc sec) enc sign (state s) Hc) as (C1 & (n & S1) & _ & _ & (p & T1 & _)).
  set (w1 := with_live _ _ _ _ _ _ _ _) in *. clearbody w1. split.
  - rewrite run_handled, bye_handled by done. cbn [fst snd state broadcasts]. rewrite run_one.
    destruct (bye_facts e' bye from' w1) as (B1 & B2 & B3 & _). set (w2 := ok_reply _ _ _ _ _ _) in *. clearbody w2.
    erewrite begin_step; cbn [state]; [by rewrite B2|by rewrite B1|by rewrite B3].
  - rewrite run_one. pose proof (begin_step (mkSystem w1 Ret (broadcasts s)) i p C1 T1) as C2. cbn [state] in C2. rewrite S1 in C2.
    assert (H2 : hand (step (Begin i) (mkSystem w1 Ret (broadcasts s))) = Ret) by (unfold DeviceInvite.step; cbn [state]; by rewrite C1).
    set (s2 := step _ _) in *. clearbody s2. rewrite run_handled, bye_handled by done. cbn [state fst].
    by rewrite (proj1 (bye_facts e' bye from' (state s2))).
Qed.

(** ** Theorem: retransmissions *)

(** C14: Over UDP a live INVITE that is received again, with the same Call-ID and
    CSeq, is answered with the very bytes of the first answer, whatever sockets,
    streams and keys the system would give now; if the authenticator refuses the note
    of the second copy the answer is a 403, and if the socket cannot be written there is
    none. In every case nothing else changes: no second socket, subscription, key or
    goroutine. *)
Theorem retransmission_harmless e e' msg from from' addr ssrc port sec enc sign s :
  servable e msg addr ssrc port sec enc sign ->
  hand s = Ret -> crashed (state s) = false -> inviteAnswerCache (srv (state s)) !! inviteCacheKey msg = None ->
  let s1 := run (handled e msg from) s in
  outbox (state s1) = outbox (state s) ++ [(from, live_answer e msg port ssrc sec)] /\
  run (handled e' msg from') s1 = mkSystem ((state s1) <| outbox := outbox (state s1) ++
    (if negb (e_sent e') then [] else if e_note e' then [(from', live_answer e msg port ssrc sec)]
     else [(from', Serialize (BuildStatusResponse userAgent dialogTag msg 403) [])]) |>) Ret (broadcasts s).
Proof.
  intros S Hh Hc K s1. unfold s1. rewrite run_handled, (live_handled e msg from addr ssrc port sec enc sign) by done. cbn [fst snd state].
  destruct (with_live_facts msg from addr ssrc (live_answer e msg port ssrc sec) enc sign (state s) Hc) as (C1 & _ & K1 & O1 & _).
  set (w1 := with_live _ _ _ _ _ _ _ _) in *. split; [done|].
  clearbody w1. destruct S as [M N V O P R B T]. rewrite run_handled by done. cbn [state broadcasts].
  assert (Id : w1 = w1 <| outbox := outbox w1 ++ [] |>) by (destruct w1; cbn; by rewrite app_nil_r).
  unfold DeviceInvite.dispatch. rewrite M. destruct (e_note e') eqn:N'; cbn [negb].
  - rewrite bool_decide_eq_true_2 by done. unfold replayInviteAnswer. cbn [drive instr]. rewrite K1.
    destruct (e_sent e') eqn:T'; cbn [negb]; [done|]. by rewrite <- Id.
  - cbn [drive instr]. unfold sendSIP. destruct (e_sent e') eqn:T'; cbn [negb]; [done|]. by rewrite <- Id.
Qed.

End Dialogs.

(** ** A device *)

Definition offer_env : env :=
  mkEnv true (fun _ => true) None (Some 50000) (txt "10.0.0.7") (txt "10.0.0.7") true true None None None (fun _ => true) None.

Definition offer_message : SipMessage :=
  empty_message <| Method := txt "INVITE" |> <| CallID := txt "a" |> <| CSeq := txt "1 INVITE" |>
    <| Body := buildLiveSDP (txt "10.0.0.1") 30000 MediaUDP (Sdp.SSRC false (txt "34020000002000000001") 7) false [] |>.

Definition bye_message : SipMessage := empty_message <| Method := txt "BYE" |> <| CallID := txt "a" |> <| CSeq := txt "2 BYE" |>.

Lemma offer_servable : servable offer_env offer_message (txt "10.0.0.1:30000") 200000007 50000 [] None None.
Proof. split; vm_compute; reflexivity. Qed.

Lemma early_bye_crashes_witness : crashed (state (run (txt "ua") (txt "t1") (txt "34020000001320000001") (txt "udp") 5060
  (handled offer_env offer_message (UDPPeer []) ++ handled offer_env bye_message (UDPPeer []) ++ [Begin 0]) (start (fresh_server None false false)))) = true.
Proof.
  exact (proj1 (early_bye_crashes (txt "ua") (txt "t1") (txt "34020000001320000001") (txt "udp") 5060 offer_env offer_env offer_message bye_message
    (UDPPeer []) (UDPPeer []) _ _ _ _ _ _ (start (fresh_server None false false)) offer_servable eq_refl eq_refl eq_refl eq_refl eq_refl)).
Defined.

Lemma retransmission_harmless_witness : outbox (state (run (txt "ua") (txt "t1") (txt "34020000001320000001") (txt "udp") 5060
  (handled offer_env offer_message (UDPPeer []) ++ handled offer_env offer_message (TCPPeer [])) (start (fresh_server None false false)))) =
  [(UDPPeer [], live_answer (txt "ua") (txt "t1") (txt "34020000001320000001") offer_env offer_message 50000 200000007 []);
   (TCPPeer [], live_answer (txt "ua") (txt "t1") (txt "34020000001320000001") offer_env offer_message 50000 200000007 [])].
Proof.
  destruct (retransmission_harmless (txt "ua") (txt "t1") (txt "34020000001320000001") (txt "udp") 5060 offer_env offer_env offer_message
    (UDPPeer []) (TCPPeer []) _ _ _ _ _ _ (start (fresh_server None false false)) offer_servable eq_refl eq_refl eq_refl) as [E1 E2].
  rewrite run_app, E2. cbn [state outbox update eta eta_world]. rewrite E1. done.
Defined.
