(* ===== verification/DialogRuns.v ===== *)
(** The one media slot of the device in every interleaving of its receive loop with
    the media goroutines ([DeviceInvite]). *)

From S2P Require Import Prelude GoStrings GoText Sdp SipMsg PsDemux Receiver RtpSend RtpPusher Playback Talkback DeviceInvite DeviceDialogs.
Open Scope Z_scope.

(** ** The invariant *)

(** A connection that [acceptTCP] has accepted and not handed over yet. *)
Definition in_hand (w : world) (x : nat) : Prop := exists i ln j p, tasks w !! i = Some (Accepting ln (Some x) j p).

Definition held (s : server) (x : nat) : Prop := mediaConn s = Some x \/ mediaTCPConn s = Some x \/ mediaTCPListener s = Some x.

(** Everything that is open belongs to the session in the slot. *)
Record owned (w : world) : Prop := {
  ow_open : forall x, x ∈ open w -> held (srv w) x \/ in_hand w x;
  ow_live : forall c, c ∈ live w -> mediaCancel (srv w) = Some c;
  ow_subs : forall i, i ∈ subs w -> sub (srv w) = Some i;
}.

(** The invariant adds what the goroutines that still accept know. *)
Record good (w : world) : Prop := {
  g_owned : owned w;
  g_ctx : forall i ln c j p, tasks w !! i = Some (Accepting ln c j p) ->
    (st_ctx p < next w)%nat /\ (st_ctx p ∈ live w -> mediaTCPConn (srv w) = None);
  g_unique : forall i k ln c j p ln' c' j' p', tasks w !! i = Some (Accepting ln c j p) ->
    tasks w !! k = Some (Accepting ln' c' j' p') -> st_ctx p = st_ctx p' -> i = k;
}.

(** What a handler knows of the slot between two of its instructions. *)
Inductive stage := Anywhere | Slot (conn tcpConn listener : option nat).

Definition holds (st : stage) (s : server) : Prop :=
  match st with
  | Anywhere => True
  | Slot conn tcpConn listener => mediaConn s = conn /\ mediaTCPConn s = tcpConn /\ mediaTCPListener s = listener /\ mediaCancel s = None
  end.

(** A program keeps the invariant, whatever happens between its instructions. *)
Inductive careful : stage -> prog -> Prop :=
  | careful_Ret st : careful st Ret
  | careful_Act st f : (forall w, good w -> holds st (srv w) ->
      good (fst (f w)) /\ exists st', holds st' (srv (fst (f w))) /\ careful st' (snd (f w))) -> careful st (Act f).

(** ** Lemmas: the slot *)

Definition same_slot (s s' : server) : Prop :=
  mediaConn s' = mediaConn s /\ mediaTCPConn s' = mediaTCPConn s /\ mediaTCPListener s' = mediaTCPListener s /\
  mediaCancel s' = mediaCancel s /\ sub s' = sub s.

(** Only other fields change. *)
Lemma good_same w w' : good w -> same_slot (srv w) (srv w') -> open w' = open w -> live w' = live w -> subs w' = subs w ->
  tasks w' = tasks w -> next w' = next w -> good w'.
Proof.
  intros [[G1 G2 G3] G4 G5] (E1 & E2 & E3 & E4 & E5) EO EL ES ET EN. split; [split|..]; unfold held, in_hand.
  - intros x. rewrite EO, E1, E2, E3, ET. apply G1.
  - intros c. rewrite EL, E4. apply G2.
  - intros i. rewrite ES, E5. apply G3.
  - intros i ln c j p. rewrite ET, EN, EL, E2. apply G4.
  - rewrite ET. apply G5.
Qed.

Lemma sent_same e msg to w : let w' := sendSIP e msg to w in
  srv w' = srv w /\ open w' = open w /\ live w' = live w /\ subs w' = subs w /\ tasks w' = tasks w /\ next w' = next w.
Proof. unfold sendSIP. by destruct (e_sent e). Qed.

Lemma good_sent e msg to w : good w -> good (sendSIP e msg to w).
Proof. intros G. destruct (sent_same e msg to w) as (E1 & E2 & E3 & E4 & E5 & E6). apply (good_same w); rewrite ?E1; done. Qed.

Lemma holds_sent e msg to w st : holds st (srv w) -> holds st (srv (sendSIP e msg to w)).
Proof. by rewrite (proj1 (sent_same e msg to w)). Qed.

Lemma elem_without (o : option nat) (X : gset nat) x :
  x ∈ match o with Some a => X ∖ {[a]} | None => X end <-> x ∈ X /\ o <> Some x.
Proof. destruct o as [a|]; [rewrite elem_of_difference, elem_of_singleton|]; intuition congruence. Qed.

Lemma opt_open o w : open (with_opt o close w) = match o with Some a => open w ∖ {[a]} | None => open w end.
Proof. by destruct o. Qed.

Lemma opt_other o w : live (with_opt o close w) = live w /\ subs (with_opt o close w) = subs w /\ tasks (with_opt o close w) = tasks w /\
  next (with_opt o close w) = next w /\ srv (with_opt o close w) = srv w.
Proof. by destruct o. Qed.

Lemma teardown_open w x : x ∈ open (teardownMediaLocked w) <-> x ∈ open w /\ ~ held (srv w) x.
Proof.
  unfold teardownMediaLocked. cbn [on_srv open update eta eta_world]. rewrite !opt_open, !elem_without.
  replace (open (with_opt (sub (srv w)) Unsubscribe (with_opt (mediaCancel (srv w)) cancel w))) with (open w)
    by (by destruct (sub (srv w)), (mediaCancel (srv w))). unfold held. tauto.
Qed.

Lemma teardown_rest w : let w' := teardownMediaLocked w in
  (forall c, c ∈ live w' <-> c ∈ live w /\ mediaCancel (srv w) <> Some c) /\
  (forall i, i ∈ subs w' <-> i ∈ subs w /\ sub (srv w) <> Some i) /\ tasks w' = tasks w /\ next w' = next w.
Proof.
  cbv zeta. unfold teardownMediaLocked. cbn [on_srv live subs tasks next update eta eta_world].
  repeat match goal with |- context [with_opt ?o close ?w'] => destruct (opt_other o w') as (-> & -> & -> & -> & _) end.
  split; [|split; [|by destruct (sub (srv w)), (mediaCancel (srv w))]].
  - intros c. rewrite <- elem_without. by destruct (sub (srv w)), (mediaCancel (srv w)).
  - intros i. rewrite <- elem_without. by destruct (sub (srv w)), (mediaCancel (srv w)).
Qed.

Lemma teardown_spec w : let w' := teardownMediaLocked w in
  (forall x, x ∈ open w' <-> x ∈ open w /\ ~ held (srv w) x) /\
  (forall c, c ∈ live w' <-> c ∈ live w /\ mediaCancel (srv w) <> Some c) /\
  (forall i, i ∈ subs w' <-> i ∈ subs w /\ sub (srv w) <> Some i) /\
  tasks w' = tasks w /\ next w' = next w /\ holds (Slot None None None) (srv w') /\ sub (srv w') = None.
Proof.
  destruct (teardown_rest w) as (R1 & R2 & R3 & R4). split_and!; try done. apply teardown_open.
Qed.

Lemma good_teardown w : good w -> good (teardownMediaLocked w).
Proof.
  intros [[G1 G2 G3] G4 G5]. destruct (teardown_spec w) as (T1 & T2 & T3 & T4 & T5 & (T6 & T7 & T8 & T9) & T10).
  split; [split|..]; unfold held, in_hand.
  - intros x [Hx Hn]%T1. rewrite T4. right. by destruct (G1 x Hx).
  - intros c [Hc Hn]%T2. by apply G2 in Hc.
  - intros i [Hi Hn]%T3. by apply G3 in Hi.
  - intros i ln c j p. rewrite T4, T5, T7. intros E. split; [by eapply G4|done].
  - rewrite T4. apply G5.
Qed.

(** A socket is opened and put into an empty place of the slot. *)
Lemma good_open w place : good w -> (forall c, c ∈ live w -> False) ->
  (forall s, sub (place (Some (next w)) s) = sub s /\ mediaCancel (place (Some (next w)) s) = mediaCancel s) ->
  (forall x, held (srv w) x -> held (place (Some (next w)) (srv w)) x) -> held (place (Some (next w)) (srv w)) (next w) ->
  good (on_srv (place (Some (next w))) (snd (open_socket w))).
Proof.
  intros [[G1 G2 G3] G4 G5] L P1 P2 P3. cbn [open_socket snd]. split; [split|..]; cbn [on_srv srv open live subs tasks next update eta eta_world].
  - intros x [->%elem_of_singleton|Hx]%elem_of_union; [by left|]. destruct (G1 x Hx) as [Hh|Hh]; [left; by apply P2|by right].
  - intros c Hc. by destruct (L c).
  - intros i Hi. rewrite (proj1 (P1 _)). by apply G3.
  - intros i ln c j p E. split; [pose proof (proj1 (G4 i ln c j p E)); lia|]. intros Hl. by destruct (L _ Hl).
  - exact G5.
Qed.

Lemma idle_live w c t l : good w -> holds (Slot c t l) (srv w) -> forall x, x ∈ live w -> False.
Proof. intros [[_ G2 _] _ _] (_ & _ & _ & E) x Hx. apply G2 in Hx. congruence. Qed.

(** A goroutine that accepts nothing is added. *)
Lemma good_go g w : good w -> (forall ln c j p, g <> Accepting ln c j p) -> good (go g w).
Proof.
  intros [[G1 G2 G3] G4 G5] N.
  assert (L : forall i ln c j p, (tasks w ++ [g]) !! i = Some (Accepting ln c j p) -> tasks w !! i = Some (Accepting ln c j p)).
  { intros i ln c j p [E|[_ E]]%lookup_app_Some; [done|]. apply list_lookup_singleton_Some in E as [_ E]. by destruct (N ln c j p). }
  split; [split|..]; cbn [go srv open live subs tasks next update eta eta_world].
  - intros x Hx. destruct (G1 x Hx) as [Hh|(i & ln & j & p & E)]; [by left|]. right. exists i, ln, j, p. cbn. by apply lookup_app_l_Some.
  - exact G2.
  - exact G3.
  - intros i ln c j p E%L. by eapply G4.
  - intros i k ln c j p ln' c' j' p' E%L E'%L. by eapply G5.
Qed.

(** A context is drawn for the session in the slot. *)
Lemma good_context w (extra : nat) (f : server -> server) : good w -> (forall c, c ∈ live w -> False) ->
  (forall s, mediaConn (f s) = mediaConn s /\ mediaTCPConn (f s) = mediaTCPConn s /\ mediaTCPListener (f s) = mediaTCPListener s /\
             sub (f s) = sub s /\ mediaCancel (f s) = Some (next w)) ->
  let w' := on_srv f (w <| live := {[next w]} ∪ live w |> <| next := (S (next w) + extra)%nat |>) in
  good w' /\ forall ln j p, st_ctx p = next w -> mediaTCPConn (srv w) = None -> good (go (Accepting ln None j p) w').
Proof.
  intros G L F. destruct G as [[G1 G2 G3] G4 G5]. destruct (F (srv w)) as (F1 & F2 & F3 & F4 & F5). cbv zeta.
  assert (O : forall w', srv w' = f (srv w) -> open w' = open w -> live w' = {[next w]} ∪ live w -> subs w' = subs w ->
    (forall x, in_hand w x -> in_hand w' x) -> owned w').
  { intros w' E1 E2 E3 E4 E5. split; unfold held; rewrite ?E1, ?E2, ?E3, ?E4, ?F1, ?F2, ?F3, ?F4, ?F5.
    - intros x Hx. destruct (G1 x Hx); [by left|right; by apply E5].
    - intros c [->%elem_of_singleton|Hc]%elem_of_union; [done|by destruct (L c)].
    - exact G3. }
  assert (C : forall i ln c j p, tasks w !! i = Some (Accepting ln c j p) -> st_ctx p ∈ {[next w]} ∪ live w -> False).
  { intros i ln c j p E [X%elem_of_singleton|X]%elem_of_union; [|by apply (L (st_ctx p))]. pose proof (proj1 (G4 i ln c j p E)). lia. }
  split; [|intros ln0 j0 p0 E0 M0].
  - split; [by apply O| |exact G5]. cbn [on_srv srv live tasks next update eta eta_world]. intros i ln c j p E.
    split; [pose proof (proj1 (G4 i ln c j p E)); lia|]. intros X. by destruct (C i ln c j p E).
  - split; [apply O; try done|..]; cbn [go on_srv srv live tasks next update eta eta_world].
    + intros x (i & ln & j & p & E). exists i, ln, j, p. by apply lookup_app_l_Some.
    + intros i ln c j p [E|[_ E]]%lookup_app_Some.
      * split; [pose proof (proj1 (G4 i ln c j p E)); lia|]. intros X. by destruct (C i ln c j p E).
      * apply list_lookup_singleton_Some in E as [_ [= <- <- <- <-]]. rewrite E0, F2. split; [lia|]. intros _. exact M0.
    + intros i k ln c j p ln' c' j' p' [E|[Hi E]]%lookup_app_Some [E'|[Hk E']]%lookup_app_Some X; [by eapply G5|..].
      * apply list_lookup_singleton_Some in E' as [_ [= <- <- <- <-]]. pose proof (proj1 (G4 i ln c j p E)). lia.
      * apply list_lookup_singleton_Some in E as [_ [= <- <- <- <-]]. pose proof (proj1 (G4 k ln' c' j' p' E')). lia.
      * apply list_lookup_singleton_Some in E as [E _], E' as [E' _]. lia.
Qed.

(** The subscription of the slot is replaced. *)
Definition resubscribed (dest : text) (w : world) : world :=
  let w1 := with_opt (sub (srv w)) Unsubscribe w in
  on_srv (fun s => s <| sub := Some (next w1) |> <| remoteRTPAddr := Some dest |>) (snd (Subscribe w1)).

Lemma good_subscribe dest w : good w -> good (resubscribed dest w).
Proof.
  intros [[O1 O2 O3] O4 O5].
  assert (E : forall i, i ∈ subs (with_opt (sub (srv w)) Unsubscribe w) -> False).
  { intros i. destruct (sub (srv w)) as [s|] eqn:E; cbn [with_opt Unsubscribe subs update eta eta_world].
    - intros [Hi Hn]%elem_of_difference. apply O3 in Hi. rewrite elem_of_singleton in Hn. congruence.
    - intros Hi. apply O3 in Hi. done. }
  assert (N : next (with_opt (sub (srv w)) Unsubscribe w) = next w) by by destruct (sub (srv w)).
  split; [split|..]; unfold resubscribed; rewrite ?N.
  - destruct (sub (srv w)); exact O1.
  - destruct (sub (srv w)); exact O2.
  - cbn [on_srv Subscribe snd subs srv sub update eta eta_world eta_server]. intros i [->%elem_of_singleton|Hi]%elem_of_union; [by rewrite N|by destruct (E i)].
  - assert (R : forall i ln c j p, tasks w !! i = Some (Accepting ln c j p) -> (st_ctx p < S (next w))%nat /\ (st_ctx p ∈ live w -> mediaTCPConn (srv w) = None)).
    { intros i ln c j p X. destruct (O4 i ln c j p X) as [X1 X2]. split; [lia|exact X2]. }
    destruct (sub (srv w)); exact R.
  - destruct (sub (srv w)); exact O5.
Qed.

Section Careful.

Context (userAgent dialogTag : text) (DeviceID Transport : text) (LocalSIPPort : Z).

Lemma good_start e msg from dest ssrc st rec conn mtcp ln enc sign w c t l :
  good w -> holds (Slot c t l) (srv w) -> (ln <> None -> t = None) ->
  good (start_media userAgent DeviceID Transport LocalSIPPort e msg from dest ssrc st rec conn mtcp ln enc sign w).
Proof.
  intros G Ho Hl. pose proof (idle_live w c t l G Ho) as L. destruct Ho as (H1 & H2 & H3 & H4). unfold start_media. cbn [new_context].
  destruct rec as [[[segs root] a] b]. destruct (is_play st).
  - destruct (good_context w 0 (fun s => s <| mediaCancel := Some (next w) |>) G L) as [G1 G2]; [by intros []|].
    rewrite Nat.add_0_r in *. destruct ln as [ln|]; [|by apply good_go]. apply G2; [done|]. rewrite H2. by apply Hl.
  - destruct (good_context w 1 (fun s => s <| mediaCancel := Some (next w) |> <| remoteRTPAddr := Some dest |> <| playbackCtl := Some (S (next w)) |>) G L)
      as [G1 G2]; [by intros []|].
    rewrite Nat.add_1_r in *. destruct ln as [ln|]; [|by apply good_go]. apply G2; [done|]. rewrite H2. by apply Hl.
Qed.

Lemma answer_careful e msg from dest ssrc st tr rec conn c t ln sdp enc sign :
  (tr = mediaTCPConnect -> ln = None) -> t = None ->
  careful (Slot c t ln) (answer_invite userAgent dialogTag DeviceID Transport LocalSIPPort e msg from dest ssrc st tr rec conn ln sdp enc sign).
Proof.
  intros Htr Ht. unfold answer_invite. apply careful_Act. intros w G Ho. cbv zeta.
  set (w1 := on_srv _ w). assert (G1 : good w1) by (apply (good_same w); by try done).
  assert (H1 : holds (Slot c t ln) (srv w1)) by exact Ho. clearbody w1.
  assert (S : forall mtcp t', (ln <> None -> t' = None) -> careful (Slot c t' ln) (Act (fun w =>
    (start_media userAgent DeviceID Transport LocalSIPPort e msg from dest ssrc st rec conn mtcp ln enc sign w, Ret)))).
  { intros mtcp t' T. apply careful_Act. intros w' G' H'. split; [by eapply good_start|]. exists Anywhere. split; [done|apply careful_Ret]. }
  destruct (e_sent e); cbn [negb fst snd]; (split; [by apply good_sent|]); [|exists Anywhere; by split; [|apply careful_Ret]].
  exists (Slot c t ln). split; [by apply holds_sent|]. destruct tr; [apply S; by intros|..|apply S; by intros].
  apply careful_Act. intros w2 G2 H2. destruct (e_dial e); cbn [negb].
  - cbn [open_socket fst snd]. split.
    + apply (good_open w2 (fun o s => s <| mediaTCPConn := o |>)); [done|by eapply idle_live|done| |by right; left].
      intros x [X|[X|X]]; [by left| |by right; right]. destruct H2 as (_ & E & _). congruence.
    + exists (Slot c (Some (next w2)) ln). split; [|apply S; by rewrite Htr by done]. destruct H2 as (? & ? & ? & ?). by split_and!.
  - cbn [fst snd]. split; [|exists Anywhere; by split; [|apply careful_Ret]].
    destruct (sub (srv w2)) as [i|] eqn:E; [|done]. destruct G2 as [[O1 O2 O3] O4 O5]. split; [split|..]; [exact O1|exact O2| |exact O4|exact O5].
    cbn. intros k [Hk Hn]%elem_of_difference. apply O3 in Hk. set_solver.
Qed.

Lemma bind_careful e msg from dest ssrc st tr rec ln : (tr = mediaTCPConnect -> ln = None) ->
  careful (Slot None None (fst <$> ln)) (bind_media userAgent dialogTag DeviceID Transport LocalSIPPort e msg from dest ssrc st tr rec ln).
Proof.
  intros Htr. unfold bind_media. apply careful_Act. intros w G Ho.
  destruct (e_listenUDP e) as [port|]; [|split; [done|]; exists Anywhere; by split; [|apply careful_Ret]].
  cbn [open_socket fst snd]. split.
  { apply (good_open w (fun o s => s <| mediaConn := o |>)); [done|by eapply idle_live|done| |by left].
    intros x [X|[X|X]]; [|by right; left|by right; right]. destruct Ho as (E & _). congruence. }
  exists (Slot (Some (next w)) None (fst <$> ln)). split; [destruct Ho as (? & ? & ? & ?); by split_and!|].
  assert (A : forall sdp enc sign, careful (Slot (Some (next w)) None (fst <$> ln))
    (answer_invite userAgent dialogTag DeviceID Transport LocalSIPPort e msg from dest ssrc st tr rec (next w) (fst <$> ln) sdp enc sign)).
  { intros sdp enc sign. apply answer_careful; [|done]. intros E. by rewrite (Htr E). }
  destruct ln as [[ln lp]|]; cbn [fmap option_fmap option_map fst] in *; (destruct (negotiate e _) as [[[sec enc] sign]|];
    [|apply careful_Act; intros w1 G1 H1; split; [by apply good_sent|]; exists Anywhere; by split; [|apply careful_Ret]]);
  (destruct (is_play st); [|apply A]);
  apply careful_Act; intros w1 G1 H1; (split; [by apply (good_subscribe dest)|]); cbn [fst snd Subscribe];
  (eexists; split; [|apply A]; destruct (sub (srv w1)); exact H1).
Qed.

Lemma open_careful e msg from dest ssrc st tr rec :
  careful Anywhere (open_media userAgent dialogTag DeviceID Transport LocalSIPPort e msg from dest ssrc st tr rec).
Proof.
  unfold open_media. apply careful_Act. intros w G _. cbn [fst snd]. split; [by apply good_teardown|].
  destruct (teardown_spec w) as (_ & _ & _ & _ & _ & T & _). exists (Slot None None None). split; [exact T|].
  assert (B : tr <> mediaTCPListen -> careful (Slot None None None) (bind_media userAgent dialogTag DeviceID Transport LocalSIPPort e msg from dest ssrc st tr rec None)).
  { intros _. by apply (bind_careful e msg from dest ssrc st tr rec None). }
  destruct tr; [by apply B|by apply B|]. apply careful_Act. intros w1 G1 H1.
  destruct (e_listenTCP e) as [port|]; [|split; [done|]; exists Anywhere; by split; [|apply careful_Ret]].
  cbn [open_socket fst snd]. split.
  - apply (good_open w1 (fun o s => s <| mediaTCPListener := o |>)); [done|by eapply idle_live|done| |by right; right].
    intros x [X|[X|X]]; [by left|by right; left|]. destruct H1 as (_ & _ & E & _). congruence.
  - exists (Slot None None (Some (next w1))). split; [destruct H1 as (? & ? & ? & ?); by split_and!|].
    by apply (bind_careful e msg from dest ssrc st mediaTCPListen rec (Some (next w1, port))).
Qed.

(** An instruction that only sends. *)
Lemma send_careful st e m from : careful st (Act (fun w => (sendSIP e m from w, Ret))).
Proof. apply careful_Act. intros w G _. split; [by apply good_sent|]. exists Anywhere. by split; [|apply careful_Ret]. Qed.

Lemma sent_done (w : world) e m from : good w ->
  good (fst (sendSIP e m from w, Ret)) /\ exists st', holds st' (srv (fst (sendSIP e m from w, Ret))) /\ careful st' (snd (sendSIP e m from w, Ret)).
Proof. intros G. split; [by apply good_sent|]. exists Anywhere. by split; [|apply careful_Ret]. Qed.

(** Fields outside the slot change. *)
Lemma good_aside f w st : (forall s, same_slot s (f s)) -> good w -> holds st (srv w) -> good (on_srv f w) /\ holds st (srv (on_srv f w)).
Proof.
  intros F G Ho. split; [by apply (good_same w)|]. destruct st as [|c t l]; [done|]. destruct (F (srv w)) as (E1 & E2 & E3 & E4 & _).
  cbn [holds on_srv srv update eta eta_world]. by rewrite E1, E2, E3, E4.
Qed.

Lemma talk_careful e msg offer from : careful Anywhere (handleTalkbackInvite userAgent dialogTag e msg offer from).
Proof.
  unfold handleTalkbackInvite. apply careful_Act. intros w G _. cbv zeta.
  destruct (audioSink (srv w)); cbn [negb]; [|by apply sent_done].
  destruct (codec offer) as [c|]; [|by apply sent_done]. destruct (tcp offer); [by apply sent_done|].
  destruct (recvOnly offer && negb (audioSource (srv w))); [by apply sent_done|].
  set (sec := match SDPSecurityAttributeValue _ with [] => _ | _ => _ end). destruct sec as [[[crypt verify] sign]|]; [|by apply sent_done].
  split; [done|]. exists Anywhere. split; [done|]. cbn [snd]. apply careful_Act. intros w1 G1 _. cbn [fst snd].
  destruct (teardown_spec w1) as (_ & _ & _ & _ & _ & T & _).
  destruct (good_aside (fun s => s <| talkCryptor := crypt |>) _ _ ltac:(by intros []) (good_teardown w1 G1) T) as [G1' T'].
  split; [exact G1'|]. exists (Slot None None None). split; [exact T'|]. destruct (e_listenUDP e) as [port|]; [|apply careful_Ret].
  destruct (e_sent e); cbn [negb]; [|apply careful_Ret]. apply careful_Act. intros w2 G2 H2.
  set (m := Build200OK _ _ _ _ _). pose proof (good_sent e m from w2 G2) as G3.
  assert (H3 : holds (Slot None None None) (srv (sendSIP e m from w2))) by by apply holds_sent.
  set (w3 := sendSIP e m from w2) in *. clearbody w3. cbn [open_socket new_context fst snd].
  split; [|exists Anywhere; by split; [|apply careful_Ret]].
  assert (G4 : good (on_srv (fun s => s <| mediaConn := Some (next w3) |>) (snd (open_socket w3)))).
  { apply (good_open w3 (fun o s => s <| mediaConn := o |>)); [done|by eapply idle_live|done| |by left].
    intros x [X|[X|X]]; [|by right; left|by right; right]. destruct H3 as (E & _). congruence. }
  destruct (good_context _ 0 (fun s => s <| mediaCancel := Some (S (next w3)) |>) G4) as [G5 _]; [exact (idle_live w3 _ _ _ G3 H3)|by intros []|].
  rewrite Nat.add_0_r in G5.
  assert (K : forall w', good w' -> good (go (Receiving (S (next w3)) (next w3) (o_ssrc offer) c crypt verify) w')) by (intros w' G'; by apply good_go).
  destruct (audioSource (srv w) && negb (sendOnly offer)); [|by apply K].
  destruct (if e_ParseIP e (connIP offer) then Some (connIP offer) else _) as [host|]; [|by apply K].
  destruct (0 <? o_mediaPort offer); [|by apply K]. apply K, good_go; [|by intros].
  by eapply good_same; [exact G5|..].
Qed.

Lemma dispatch_careful e msg from : careful Anywhere (dispatch userAgent dialogTag DeviceID Transport LocalSIPPort e msg from).
Proof.
  unfold dispatch. destruct (e_note e); cbn [negb]; [|apply send_careful]. destruct (bool_decide (Method msg = txt "INVITE")).
  - unfold replayInviteAnswer. apply careful_Act. intros w G _. destruct (_ !! _) as [cached|].
    + split; [|exists Anywhere; by split; [|apply careful_Ret]]. destruct (e_sent e); [|done]. by apply (good_same w).
    + split; [done|]. exists Anywhere. split; [done|]. cbn [snd]. unfold handleInvite. destruct (parseTalkbackOffer (Body msg)); [apply talk_careful|].
      destruct (parseSDP (Body msg)) as [|[[[addr ssrc] st] tr]]; [apply careful_Ret|]. destruct (e_resolves e addr); cbn [negb]; [|apply careful_Ret].
      destruct (is_play st); [apply open_careful|]. apply careful_Act. intros w1 G1 _. destruct (parseSDPTimeRange _) as [a b].
      destruct (recordingIndex _) as [idx|]; [|by apply sent_done]. destruct (Lookup idx a b); [by apply sent_done|].
      split; [done|]. exists Anywhere. split; [done|apply open_careful].
  - destruct (bool_decide (Method msg = txt "BYE")).
    + unfold handleBye, ok_reply. apply careful_Act. intros w G _. apply sent_done.
      by apply (good_aside (fun s => s <| remoteRTPAddr := None |>) _ Anywhere), I; [intros []|apply good_teardown].
    + destruct (existsb _ _); [apply send_careful|apply careful_Ret].
Qed.

End Careful.

(** ** Lemmas: the goroutines *)

(** Resources are only given back. *)
Lemma good_shrink w w' : good w -> srv w' = srv w -> open w' ⊆ open w -> live w' ⊆ live w -> subs w' ⊆ subs w -> tasks w' = tasks w ->
  next w' = next w -> good w'.
Proof.
  intros [[G1 G2 G3] G4 G5] ES EO EL EU ET EN. split; [split|..]; unfold in_hand; rewrite ?ES, ?ET, ?EN.
  - intros x Hx. apply G1. by apply EO.
  - intros c Hc. apply G2. by apply EL.
  - intros i Hi. apply G3. by apply EU.
  - intros i ln c j p E. destruct (G4 i ln c j p E) as [X1 X2]. split; [done|]. intros X. by apply X2, EL.
  - exact G5.
Qed.

(** A goroutine that accepts nothing goes on. *)
Lemma good_retask i g g' w : good w -> tasks w !! i = Some g -> (forall ln x j p, g <> Accepting ln (Some x) j p) ->
  (forall ln c j p, g' <> Accepting ln c j p) -> good (set_task i g' w).
Proof.
  intros [[G1 G2 G3] G4 G5] T N N'.
  assert (L : forall k ln c j p, <[i := g']> (tasks w) !! k = Some (Accepting ln c j p) -> tasks w !! k = Some (Accepting ln c j p)).
  { intros k ln c j p [(-> & E & _)|[_ E]]%list_lookup_insert_Some; [by destruct (N' ln c j p)|done]. }
  split; [split|..]; cbn [set_task srv open live subs tasks next update eta eta_world]; [|done|done| |].
  - intros x Hx. destruct (G1 x Hx) as [Hh|(k & ln & j & p & E)]; [by left|]. right. exists k, ln, j, p.
    cbn. rewrite list_lookup_insert_ne; [done|]. intros <-. rewrite T in E. injection E as ->. by destruct (N ln x j p).
  - intros k ln c j p E%L. by eapply G4.
  - intros k m ln c j p ln' c' j' p' E%L E'%L. by eapply G5.
Qed.

Lemma good_finish i g p w : good w -> tasks w !! i = Some g -> (forall ln x j p, g <> Accepting ln (Some x) j p) -> good (finish i p w).
Proof.
  intros G T N. apply (good_shrink (set_task i Finished w)); try done; [by apply (good_retask i g)|].
  intros c. cbn. rewrite elem_of_difference. tauto.
Qed.

(** The run leaves no accepted connection behind: it is taken while its session is
    alive, and no wait is given up while one is in hand; and no broadcast starts. *)
Definition calm_label (w : world) (l : label) : bool :=
  match l with
  | Taken i => match tasks w !! i with Some (Accepting _ _ _ p) => bool_decide (st_ctx p ∈ live w) | _ => true end
  | Cancelled i => match tasks w !! i with Some (Accepting _ (Some _) _ _) => false | _ => true end
  | Broadcast _ _ _ _ _ => false
  | _ => true
  end.

Lemma dialled_good w i ln j p : good w -> tasks w !! i = Some (Accepting ln None j p) ->
  good (set_task i (Accepting ln (Some (next w)) j p) (snd (open_socket w))).
Proof.
  intros [[G1 G2 G3] G4 G5] T. set (g' := Accepting ln (Some (next w)) j p).
  assert (L : forall k ln0 c0 j0 p0, <[i := g']> (tasks w) !! k = Some (Accepting ln0 c0 j0 p0) -> exists c1, tasks w !! k = Some (Accepting ln0 c1 j0 p0)).
  { intros k ln0 c0 j0 p0 [(-> & E & _)|[_ E]]%list_lookup_insert_Some; [|by eexists]. injection E as <- <- <- <-. by eexists. }
  split; [split|..]; cbn [set_task open_socket snd srv open live subs tasks next update eta eta_world].
  - intros x [->%elem_of_singleton|Hx]%elem_of_union.
    + right. exists i, ln, j, p. cbn. apply list_lookup_insert_eq. by eapply lookup_lt_Some.
    + destruct (G1 x Hx) as [Hh|(k & ln0 & j0 & p0 & E)]; [by left|]. right. exists k, ln0, j0, p0. cbn.
      rewrite list_lookup_insert_ne; [done|]. intros <-. congruence.
  - exact G2.
  - exact G3.
  - intros k ln0 c0 j0 p0 E. destruct (L _ _ _ _ _ E) as [c1 E1]. destruct (G4 _ _ _ _ _ E1). split; [lia|done].
  - intros k m ln0 c0 j0 p0 ln' c' j' p' E E' X. destruct (L _ _ _ _ _ E) as [c1 E1], (L _ _ _ _ _ E') as [c2 E2]. by eapply G5.
Qed.

Lemma taken_good w i ln c j p : good w -> tasks w !! i = Some (Accepting ln (Some c) j p) -> st_ctx p ∈ live w ->
  good (set_task i (Prepared j (p <| st_tcp := Some c |>)) (on_srv (fun s => s <| mediaTCPConn := Some c |>) w)).
Proof.
  intros [[G1 G2 G3] G4 G5] T Hl. pose proof (proj2 (G4 _ _ _ _ _ T) Hl) as Hn. pose proof (G2 _ Hl) as Hc.
  set (g' := Prepared j _).
  assert (L : forall k ln0 c0 j0 p0, <[i := g']> (tasks w) !! k = Some (Accepting ln0 c0 j0 p0) -> k <> i /\ tasks w !! k = Some (Accepting ln0 c0 j0 p0)).
  { intros k ln0 c0 j0 p0 [(-> & E & _)|[N E]]%list_lookup_insert_Some; [done|]. by split. }
  split; [split|..]; cbn [set_task on_srv srv open live subs tasks next update eta eta_world].
  - intros x Hx. destruct (G1 x Hx) as [[X|[X|X]]|(k & ln0 & j0 & p0 & E)]; [by left; left|congruence|by left; right; right|].
    destruct (decide (k = i)) as [->|Ne]; [left; right; left; cbn; congruence|]. right. exists k, ln0, j0, p0. cbn. by rewrite list_lookup_insert_ne.
  - exact G2.
  - exact G3.
  - intros k ln0 c0 j0 p0 [Ne E]%L. split; [by eapply G4|]. intros Hk%G2. destruct Ne. eapply G5; [exact E|exact T|congruence].
  - intros k m ln0 c0 j0 p0 ln' c' j' p' [_ E]%L [_ E']%L. by eapply G5.
Qed.

Lemma task_good l w : good w -> calm_label w l = true ->
  good (task_step l w) /\ forall st, holds st (srv w) -> holds st (srv (task_step l w)).
Proof.
  intros G C. destruct l as [? ? ?| |? ? ? ? ?|?|i|i|i|i|i|i]; try done; cbn [task_step calm_label] in *;
    (destruct (tasks w !! i) as [g|] eqn:T; [|done]); destruct g as [ln [c|] j p|j p|s p|j p|x1 x2 x3 x4 x5 x6 x7|y1 y2 y3 y4 y5 y6|]; try done.
  - destruct (bool_decide (ln ∈ open w)); [|done]. split; [by apply dialled_good|done].
  - apply bool_decide_eq_true in C. split; [by eapply taken_good|]. intros [|c0 t0 l0]; [done|]. intros Ho.
    by destruct (idle_live w c0 t0 l0 G Ho (st_ctx p)).
  - destruct (bool_decide (ln ∈ open w)); [done|]. split; [eapply good_finish; [done|exact T|by intros]|done].
  - destruct (bool_decide (st_ctx p ∈ live w)); [done|]. split; [|done].
    eapply good_finish; [|exact T|by intros]. apply (good_shrink w); try done. intros x. cbn. rewrite elem_of_difference. tauto.
  - destruct j as [|segs root a b sty ctl en].
    + destruct (sub (srv w)); (split; [|done]); [eapply good_retask; [done|exact T|by intros|by intros]|]. by apply (good_shrink w).
    + split; [eapply good_retask; [done|exact T|by intros|by intros]|done].
  - split; [eapply good_finish; [done|exact T|by intros]|done].
  - split; [eapply good_finish; [done|exact T|by intros]|done].
  - split; [eapply good_retask; [done|exact T|by intros|by intros]|done].
  - split; [|done]. apply (good_shrink (set_task i Finished w)); try done; [eapply good_retask; [done|exact T|by intros|by intros]|].
    intros c. cbn. rewrite elem_of_difference. tauto.
Qed.

(** ** Runs *)

Section Run.

Context (userAgent dialogTag : text) (DeviceID Transport : text) (LocalSIPPort : Z).

Fixpoint calm (ls : list label) (s : system) : bool :=
  match ls with
  | [] => true
  | l :: rest => calm_label (state s) l && calm rest (step userAgent dialogTag DeviceID Transport LocalSIPPort l s)
  end.

Definition sound (s : system) : Prop :=
  good (state s) /\ broadcasts s = [] /\ exists st, holds st (srv (state s)) /\ careful st (hand s).

Lemma step_sound l s : sound s -> calm_label (state s) l = true -> sound (step userAgent dialogTag DeviceID Transport LocalSIPPort l s).
Proof.
  intros (G & B & st & Ho & C) L. unfold step. destruct (crashed (state s)); [split; [done|]; split; [done|by exists st]|].
  destruct l as [e msg from| |? ? ? ? ?|k|i|i|i|i|i|i].
  - destruct (hand s) eqn:Eh; [|split; [done|]; split; [done|exists st; by rewrite Eh]].
    split; [done|]. split; [done|]. exists Anywhere. split; [done|apply dispatch_careful].
  - destruct C as [st|st f C]; cbn [instr].
    + split; [done|]. split; [done|]. exists st. split; [done|apply careful_Ret].
    + destruct (C (state s) G Ho) as (G' & st' & Ho' & C'). destruct (f (state s)) as [w p].
      split; [done|]. split; [done|]. by exists st'.
  - done.
  - rewrite B, lookup_nil. split; [done|]. split; [done|by exists st].
  - destruct (task_good (Dialled i) (state s) G L) as [G' H']. split; [done|]. split; [done|]. exists st. split; [by apply H'|done].
  - destruct (task_good (Taken i) (state s) G L) as [G' H']. split; [done|]. split; [done|]. exists st. split; [by apply H'|done].
  - destruct (task_good (AcceptFailed i) (state s) G L) as [G' H']. split; [done|]. split; [done|]. exists st. split; [by apply H'|done].
  - destruct (task_good (Cancelled i) (state s) G L) as [G' H']. split; [done|]. split; [done|]. exists st. split; [by apply H'|done].
  - destruct (task_good (Begin i) (state s) G L) as [G' H']. split; [done|]. split; [done|]. exists st. split; [by apply H'|done].
  - destruct (task_good (Finish i) (state s) G L) as [G' H']. split; [done|]. split; [done|]. exists st. split; [by apply H'|done].
Qed.

Lemma run_sound ls : forall s, sound s -> calm ls s = true -> sound (run userAgent dialogTag DeviceID Transport LocalSIPPort ls s).
Proof.
  induction ls as [|l ls IH]; intros s S C; [done|]. cbn [calm] in C. apply andb_true_iff in C as [C1 C2]. apply IH; [by apply step_sound|done].
Qed.

Lemma start_sound idx sink source : sound (start (fresh_server idx sink source)).
Proof. split; [|split; [done|exists Anywhere; split; [done|apply careful_Ret]]]. split; [split|..]; done. Qed.

(** C13: In every calm interleaving of requests with media goroutines there is one
    media session at most: every socket and listener that is open belongs to the slot
    of the server or was accepted and is about to be taken, the one context that is
    alive and the one subscription at the hub are those of the slot. A BYE gives all
    of it back: afterwards nothing is alive, nothing subscribed, nothing open but a
    connection in the hands of [acceptTCP]. *)
Theorem one_media_session ls idx sink source :
  calm ls (start (fresh_server idx sink source)) = true ->
  let s := run userAgent dialogTag DeviceID Transport LocalSIPPort ls (start (fresh_server idx sink source)) in
  owned (state s) /\
  forall e bye from, hand s = Ret -> crashed (state s) = false -> Method bye = txt "BYE" -> e_note e = true ->
    let w' := state (run userAgent dialogTag DeviceID Transport LocalSIPPort (handled e bye from) s) in
    (forall x, x ∈ open w' -> in_hand w' x) /\ live w' ≡ ∅ /\ subs w' ≡ ∅.
Proof.
  intros C s. destruct (run_sound ls _ (start_sound idx sink source) C) as (G & _). fold s in G. split; [apply G|].
  intros e bye from Hh Hc M N. rewrite run_handled, bye_handled by done. cbn [state fst].
  destruct (bye_facts userAgent dialogTag e bye from (state s)) as (_ & _ & B3 & B4 & B5 & B6).
  destruct (teardown_spec (state s)) as (T1 & T2 & T3 & T4 & _). destruct G as [[G1 G2 G3] _ _].
  set (w' := ok_reply _ _ _ _ _ _) in *. clearbody w'. unfold in_hand. rewrite B3, B4, B5, B6. split; [|split].
  - intros x [Hx Hn]%T1. by destruct (G1 x Hx).
  - intros c. rewrite T2. split; [intros [Hc' Hn]|done]. by apply G2 in Hc'.
  - intros i. rewrite T3. split; [intros [Hi Hn]|done]. by apply G3 in Hi.
Qed.

End Run.

(** ** Runs of a device *)

Definition demo_env : env :=
  mkEnv true (fun _ => true) (Some 50001) (Some 50000) (txt "10.0.0.7") (txt "10.0.0.7") true true None None None (fun _ => true)
    (Some (empty_message <| StatusCode := 200 |>)).

Definition demo_request (method id sdp : text) : SipMessage :=
  empty_message <| Method := method |> <| CallID := id |> <| CSeq := txt "1 " ++ method |> <| Body := sdp |>.

Definition live_sdp (transport : text) : text := buildLiveSDP (txt "10.0.0.1") 30000 transport (Sdp.SSRC false (txt "34020000002000000001") 7) false [].
Definition audio_sdp : text := talk_sdp (txt "34020000002000000001") (txt "10.0.0.1") 30002 (Sdp.SSRC false (txt "34020000002000000001") 6001) [].

Definition demo_peer : peer := UDPPeer (txt "10.0.0.1").
Definition invite (transport : text) : list label := handled demo_env (demo_request (txt "INVITE") (txt "a") (live_sdp transport)) demo_peer.
Definition bye : list label := handled demo_env (demo_request (txt "BYE") (txt "a") []) demo_peer.
Definition demo_run (ls : list label) : world :=
  state (run (txt "ua") (txt "t1") (txt "34020000001320000001") (txt "udp") 5060 ls (start (fresh_server None true true))).

Lemma one_media_session_witness : owned (demo_run (invite MediaTCPActive ++ [Dialled 0; Taken 0; Begin 0] ++ bye ++ invite MediaUDP)).
Proof. apply (one_media_session (txt "ua") (txt "t1") (txt "34020000001320000001") (txt "udp") 5060). vm_compute. reflexivity. Defined.

(** A connection that is accepted just before the BYE: [acceptTCP] may notice the
    cancellation first, and nobody closes the connection; or take the connection, and
    the goroutine then crashes the device. *)
Example late_accept_leaks :
  let w := demo_run (invite MediaTCPActive ++ [Dialled 0] ++ bye ++ [Cancelled 0]) in
  (elements (open w), tasks w) = ([4%nat], [Finished]) /\ crashed w = false.
Proof. vm_compute. by split. Qed.

Example late_accept_crashes : crashed (demo_run (invite MediaTCPActive ++ [Dialled 0] ++ bye ++ [Taken 0; Begin 0])) = true.
Proof. vm_compute. reflexivity. Qed.

(** The answer to an audio INVITE is not cached: its retransmission tears the session
    down and starts another one on a new port. *)
Definition audio_invite : list label := handled demo_env (demo_request (txt "INVITE") (txt "b") audio_sdp) demo_peer.

Example talk_restarted_by_retransmission :
  let w1 := demo_run audio_invite in
  let w2 := demo_run (audio_invite ++ audio_invite) in
  (mediaConn (srv w1), length (tasks w1)) = (Some 0%nat, 2%nat) /\ (mediaConn (srv w2), length (tasks w2)) = (Some 2%nat, 4%nat).
Proof. vm_compute. by split. Qed.

(** A voice broadcast that waits for its answer while an INVITE is served takes the
    slot over without a teardown: the video goes on after the BYE. *)
Definition demo_broadcast : label := Broadcast demo_env (demo_request (txt "INVITE") (txt "c") []) (fun _ => empty_message) 1 demo_peer.

Example broadcast_orphans_video :
  let w := demo_run ([demo_broadcast; BroadcastInstr 0; BroadcastInstr 0] ++ invite MediaUDP ++ [Begin 0; BroadcastInstr 0] ++ bye) in
  match tasks w with
  | [Streaming _ p; Receiving _ _ _ _ _ _] => bool_decide (st_ctx p ∈ live w) && bool_decide (st_conn p ∈ open w)
  | _ => false
  end = true.
Proof. vm_compute. reflexivity. Qed.

(** After a BYE a late copy of the INVITE is answered with the 200 OK of the session
    that is gone. *)
Example answered_after_bye :
  let w := demo_run (invite MediaUDP ++ [Begin 0] ++ bye ++ invite MediaUDP) in
  length (outbox w) = 3%nat /\ outbox w !! 2%nat = outbox w !! 0%nat /\ elements (live w) = [].
Proof. vm_compute. by split_and!. Qed.
