(* ===== verification/SecDialogs.v ===== *)
(** A live call under GB35114 level C: the offer of [platform/sip], the device's
    [handleInvite] with its [Authenticator], and the platform's [ArmMediaSecurity]
    on the body of the 200 OK. *)

From S2P Require Import Prelude GoStrings GoText SipMsg PsDemux Receiver RtpSend RtpPusher Playback Talkback LiveOffers DeviceInvite DeviceDialogs.
From S2P Require Import GoBase64 GoCrypto Digest SecHeaders Security Sdp SecAuth.
Open Scope Z_scope.

Section Wiring.

Context `{Gmsm}.

(** [PacketCryptor.Encrypt] and [Decrypt] as the media code calls them. *)
Definition cryptor_of (c : PacketCryptor) : cryptor := fun payload ssrc seq => Crypt (Some c) payload ssrc seq.

(** The [Authenticator] as the server's [MediaSecurityResponder]. *)
Definition device_answer (reader : option (list Z)) (a : Authenticator) (offer : text) : option (text * option cryptor) :=
  match AnswerMediaSecurity reader offer a with
  | inl _ => None
  | inr (value, c) => Some (value, cryptor_of <$> c)
  end.

(** The signer that it hands out; the outer option is a crash. *)
Definition device_sign (opts : Options) (e : Z) : AUSignerFunc := fun au ssrc timestamp => Some (DeviceSignAU opts e au ssrc timestamp).

End Wiring.

(** ** Lemmas: the device's answer *)

(** The lines of [buildDeviceSDP] over UDP. *)
Definition device_lines (deviceID localIP : text) (port ssrc : Z) (name : text) : list text :=
  [txt "v=0"; txt "o=" ++ deviceID ++ txt " 0 0 IN IP4 " ++ localIP; txt "s=" ++ name; txt "c=IN IP4 " ++ localIP; txt "t=0 0";
   txt "m=video " ++ Itoa port ++ txt " RTP/AVP 96"; txt "a=sendonly"; txt "a=rtpmap:96 PS/90000"; txt "y=" ++ Itoa ssrc].

Lemma Join_snoc l s sep : l <> [] -> Join l sep ++ sep ++ s = Join (l ++ [s]) sep.
Proof.
  induction l as [|a [|b l] IH]; intros H; [done|done|].
  change (Join (a :: b :: l) sep) with (a ++ sep ++ Join (b :: l) sep). cbn [app].
  change (Join (a :: b :: l ++ [s]) sep) with (a ++ sep ++ Join ((b :: l) ++ [s]) sep).
  by rewrite <- IH, <- !app_assoc.
Qed.

Lemma trim_cr_line s : line_ok s -> rev (drop_while (fun b => b =? 0x0D) (rev s)) = s.
Proof.
  intros (_ & _ & H). destruct (rev s) as [|b t] eqn:E; [by destruct s using rev_ind; [|rewrite rev_app_distr in E]|]. cbn [drop_while].
  unfold starts_ok, printable in H. rewrite andb_true_iff, !Z.leb_le in H. rewrite (proj2 (Z.eqb_neq b 0x0D)) by lia.
  rewrite <- E. apply rev_involutive.
Qed.

Lemma lines_answer l : Forall line_ok l -> forallb no_security l = true -> answer_lines l.
Proof.
  intros H N. rewrite forallb_forall in N. apply List.Forall_forall. intros s Hs.
  pose proof (proj1 (List.Forall_forall _ _) H s Hs) as L. split; [by apply visible_no; [apply L|]|].
  rewrite trim_cr_line by done. by apply N.
Qed.

Lemma device_lines_ok deviceID localIP port ssrc name : word deviceID -> word localIP -> word name -> 0 <= port < 65536 -> 0 <= ssrc < 2 ^ 32 ->
  answer_lines (device_lines deviceID localIP port ssrc name).
Proof.
  intros Hd Hl Hn Hp Hs. apply lines_answer; [|done]. unfold device_lines.
  repeat first [apply list.Forall_cons; split | apply list.Forall_nil; exact I];
  first [by apply line_lit | by apply origin_line_ok | by apply line_word | apply line_word; [done|apply Itoa_printable; lia]
        | apply line_word_line; [done|apply Itoa_printable; lia|by repeat constructor|done]].
Qed.

(** ** The call *)

Section Call.

Context `{GmsmLaws}.
Context (opts : Options) (cfg : PlatformConfig) (userAgent dialogTag DeviceID Transport : text) (LocalSIPPort : Z).

Notation run := (run userAgent dialogTag DeviceID Transport LocalSIPPort).

(** The device and the platform have run the handshake, and the platform knows the
    device's certificate. *)
Record keyed (a : Authenticator) (p : gmap text platformSession) (vkek : list Z) : Prop := {
  kd_key : good_key vkek;
  kd_device : a_vkek a = Some vkek;
  kd_version : 0 <= vkekVersion a < 2 ^ 63;
  kd_session : exists s cert, p !! o_DeviceID opts = Some s /\ vkekForVersionLocked s (vkekVersion a) = Some vkek /\
    resolveCert cfg (o_DeviceID opts) s = Some cert /\ CertKey cert = Some (Public (id_PrivateKey (Device opts)));
}.

(** The device's surroundings let the call through; the authenticator is wired in. *)
Record reachable_device (e : env) (a : Authenticator) (vek : list Z) (rnd port : Z) (addr : text) : Prop := {
  rd_note : e_note e = true;
  rd_resolves : e_resolves e addr = true;
  rd_bound : e_listenUDP e = Some port;
  rd_port : 0 <= port < 65536;
  rd_ip : word (e_localIP e);
  rd_sent : e_sent e = true;
  rd_answer : e_answer e = Some (device_answer (Some vek) a);
  rd_sign : e_signAU e = Some (device_sign opts rnd);
}.

Lemma answer_nonempty reader offer a value c : AnswerMediaSecurity reader offer a = inr (value, Some c) -> value <> [].
Proof.
  unfold AnswerMediaSecurity. destruct (ParseSDPSecurity offer); [|done]. destruct (negb _); [done|]. destruct (negb _); [done|].
  destruct (a_vkek a) as [vkek|]; [|done]. destruct (GenerateVEK reader) as [vek|]; [|done].
  destruct (SealVEK vkek vek), (NewPacketCryptor vek); try done. intros [= <- _]. unfold SDPSecurityAnswer. by destruct (_ && _).
Qed.

Lemma secured_negotiation e a p vek vkek rnd port addr l : keyed a p vkek -> drawn 16 vek -> reachable_device e a vek rnd port addr -> answer_lines l ->
  exists value encrypt decrypt,
    negotiate e (SDPSecurityOffer LevelC) = Some (LF ++ txt "a=security:" ++ value, Some (cryptor_of encrypt), Some (device_sign opts rnd)) /\
    ArmMediaSecurity (o_DeviceID opts) (Join (l ++ [txt "a=security:" ++ value]) LF) p = inr (Some decrypt, true) /\
    (forall payload ssrc seq, cryptor_of decrypt (cryptor_of encrypt payload ssrc seq) ssrc seq = payload) /\
    forall au ssrc timestamp, exists sig, device_sign opts rnd au ssrc timestamp = Some (Some sig) /\
      VerifyAUSignature cfg (o_DeviceID opts) au ssrc timestamp sig p = true.
Proof.
  intros [Kk Kd Kv (s & cert & Hs & Hv & Hr & Hc)] Dv [_ _ _ _ _ _ Ra Rs] Hl.
  destruct (media_keys_agree opts cfg vek vkek l a s p cert Dv Kk Kd Kv Hs Hv Hr Hc Hl) as (value & encrypt & decrypt & EA & EP & ED & ES).
  exists value, encrypt, decrypt. split; [|split; [done|split; [done|]]].
  - unfold negotiate. cbn [SDPSecurityOffer]. rewrite Ra, Rs. unfold device_answer.
    change (txt "GB35114-C") with (SDPSecurityOffer LevelC) in *. rewrite EA.
    pose proof (answer_nonempty _ _ _ _ _ EA). by destruct value.
  - intros au ssrc timestamp. destruct (ES rnd au ssrc timestamp) as (sig & E1 & E2). exists sig. unfold device_sign. by rewrite E1.
Qed.

(** The offer of the platform for a level C session. *)
Definition offer_body (ip : text) (rport : Z) (serverID : text) (seq : Z) : text :=
  buildLiveSDP ip rport MediaUDP (SSRC false serverID seq) false (MediaSDPOffer cfg).

Lemma offer_served e a p vek vkek rnd port msg ip rport serverID seq : keyed a p vkek -> drawn 16 vek -> p_Level cfg = LevelC ->
  word ip -> 0 < rport < 65536 -> digits serverID -> 0 <= seq -> reachable_device e a vek rnd port (JoinHostPort ip (Itoa rport)) ->
  Method msg = txt "INVITE" -> Body msg = offer_body ip rport serverID seq -> word DeviceID ->
  exists ssrc value encrypt decrypt, ParseUint32 (SSRC false serverID seq) = Some ssrc /\
    servable e msg (JoinHostPort ip (Itoa rport)) ssrc port (LF ++ txt "a=security:" ++ value) (Some (cryptor_of encrypt)) (Some (device_sign opts rnd)) /\
    ArmMediaSecurity (o_DeviceID opts) (Body (live_ok userAgent dialogTag DeviceID e msg port ssrc (LF ++ txt "a=security:" ++ value))) p =
      inr (Some decrypt, true) /\
    (forall payload ssrc seq, cryptor_of decrypt (cryptor_of encrypt payload ssrc seq) ssrc seq = payload) /\
    forall au ssrc timestamp, exists sig, device_sign opts rnd au ssrc timestamp = Some (Some sig) /\
      VerifyAUSignature cfg (o_DeviceID opts) au ssrc timestamp sig p = true.
Proof.
  intros K Dv L Hi Hp Hs Hq R M B W. assert (O : MediaSDPOffer cfg = SDPSecurityOffer LevelC) by (unfold MediaSDPOffer; by rewrite L).
  unfold offer_body in B. rewrite O in B.
  assert (Hsec : offer_ok (SDPSecurityOffer LevelC)) by (right; by apply word_lit).
  destruct (live_offer_read ip rport MediaUDP serverID seq _ Hi Hp Hs Hq Hsec) as (n & E & P & S).
  destruct (secured_negotiation e a p vek vkek rnd port _ (device_lines DeviceID (e_localIP e) port n (txt "Play")) K Dv R) as (value & encrypt & decrypt & N & A & D & V).
  { apply device_lines_ok; [done|apply (rd_ip _ _ _ _ _ _ R)|by apply word_lit|apply (rd_port _ _ _ _ _ _ R)|by eapply ParseUint32_range]. }
  exists n, value, encrypt, decrypt. split; [done|]. split; [|split; [|by split]].
  - destruct R. split; try done; rewrite B; [|exact P|by rewrite S].
    apply video_not_talk; [done|done| |done]. unfold SSRC. change (txt "0") with [0x30 + 0]. apply buildSSRC_word; [lia|done|done].
  - rewrite <- A. unfold live_ok. cbn [Body Build200OK update eta SipMsg.eta_SipMessage]. f_equal. unfold buildDeviceSDP.
    rewrite bool_decide_eq_false_2 by done. by apply Join_snoc.
Qed.

(** ** Theorem: a level C call *)

(** C12: A live call at level C, from the platform's offer to the keys: once device
    and platform have run the handshake, the INVITE is answered with a 200 OK, the
    goroutine that it starts streams to the platform's address under the offered
    SSRC, and the decryptor that the platform arms from the body of that very 200 OK
    undoes what the goroutine encrypts, packet by packet, and the platform accepts
    every signature that the goroutine makes. *)
Theorem secured_call e a p vek vkek rnd port msg from ip rport serverID seq s : keyed a p vkek -> drawn 16 vek -> p_Level cfg = LevelC ->
  word ip -> 0 < rport < 65536 -> digits serverID -> 0 <= seq -> reachable_device e a vek rnd port (JoinHostPort ip (Itoa rport)) ->
  Method msg = txt "INVITE" -> Body msg = offer_body ip rport serverID seq -> word DeviceID ->
  hand s = Ret -> crashed (state s) = false -> inviteAnswerCache (srv (state s)) !! inviteCacheKey msg = None ->
  let w := state (run (handled e msg from) s) in
  exists ok st encrypt decrypt, outbox w = outbox (state s) ++ [(from, Serialize ok [])] /\ StatusCode ok = 200 /\
    tasks w !! length (tasks (state s)) = Some (Prepared JLive st) /\ st_dest st = JoinHostPort ip (Itoa rport) /\
    ParseUint32 (SSRC false serverID seq) = Some (st_ssrc st) /\ st_encrypt st = Some encrypt /\
    ArmMediaSecurity (o_DeviceID opts) (Body ok) p = inr (Some decrypt, true) /\
    (forall payload ssrc seq, cryptor_of decrypt (encrypt payload ssrc seq) ssrc seq = payload) /\
    exists sign, st_sign st = Some sign /\ forall au ssrc timestamp, exists sig, sign au ssrc timestamp = Some (Some sig) /\
      VerifyAUSignature cfg (o_DeviceID opts) au ssrc timestamp sig p = true.
Proof.
  intros K Dv L Hi Hp Hs Hq R M B W Hh Hc Ca.
  destruct (offer_served e a p vek vkek rnd port msg ip rport serverID seq K Dv L Hi Hp Hs Hq R M B W) as (n & value & enc & dec & E & S & A & D & V).
  destruct (live_run userAgent dialogTag DeviceID Transport LocalSIPPort e msg from _ _ _ _ _ _ s S Hh Hc Ca) as (O & st & T & F1 & F2 & F3 & F4).
  rewrite live_answer_ok in O. pose proof (live_ok_status userAgent dialogTag DeviceID e msg port n (LF ++ txt "a=security:" ++ value)) as C.
  eexists _, st, (cryptor_of enc), dec. split; [exact O|]. split; [exact C|]. split; [exact T|]. split; [exact F1|]. split; [by rewrite F2|].
  split; [exact F3|]. split; [exact A|]. split; [exact D|]. by exists (device_sign opts rnd).
Qed.

End Call.

(** ** A device and a platform *)

Definition secured_env : env :=
  mkEnv true (fun _ => true) None (Some 50000) (txt "10.0.0.7") (txt "10.0.0.7") true true
    (Some (device_answer (Some (sixteen 4)) demo_keyed)) (Some (device_sign demo_opts 0)) None (fun _ => true) None.

Definition secured_message : SipMessage :=
  empty_message <| Method := txt "INVITE" |> <| CallID := txt "a" |> <| CSeq := txt "1 INVITE" |>
    <| Body := offer_body demo_cfg (txt "10.0.0.1") 30000 demo_server_id 7 |>.

Lemma demo_kd : keyed demo_opts demo_cfg demo_keyed {[ demo_device_id := demo_session ]} (sixteen 3).
Proof.
  split; [by apply sixteen_drawn|done|vm_compute; split; congruence|].
  exists demo_session, 7. split; [apply lookup_singleton_eq|]. split; [done|]. split; [vm_compute; reflexivity|done].
Qed.

Lemma demo_reachable addr : reachable_device demo_opts secured_env demo_keyed (sixteen 4) 0 50000 addr.
Proof. split; try done. by apply word_lit. Qed.

Lemma secured_call_witness : exists ok st encrypt decrypt,
  tasks (state (run (txt "ua") (txt "t1") demo_device_id (txt "udp") 5060 (handled secured_env secured_message (UDPPeer []))
    (start (fresh_server None false false)))) !! 0%nat = Some (Prepared JLive st) /\
  st_encrypt st = Some encrypt /\
  ArmMediaSecurity demo_device_id (Body ok) {[ demo_device_id := demo_session ]} = inr (Some decrypt, true) /\
  (forall payload ssrc seq, cryptor_of decrypt (encrypt payload ssrc seq) ssrc seq = payload).
Proof.
  destruct (secured_call demo_opts demo_cfg (txt "ua") (txt "t1") demo_device_id (txt "udp") 5060 secured_env demo_keyed
    {[ demo_device_id := demo_session ]} (sixteen 4) (sixteen 3) 0 50000 secured_message (UDPPeer []) (txt "10.0.0.1") 30000 demo_server_id 7
    (start (fresh_server None false false)) demo_kd (sixteen_drawn 4 ltac:(done)) eq_refl ltac:(by apply word_lit) ltac:(lia)
    ltac:(by repeat constructor) ltac:(lia) (demo_reachable _) eq_refl eq_refl ltac:(by apply word_lit) eq_refl eq_refl eq_refl)
    as (ok & st & enc & dec & _ & _ & T & _ & _ & F & A & D & _).
  exists ok, st, enc, dec. split; [exact T|]. split; [exact F|]. split; [exact A|exact D].
Defined.
