(* ===== verification/Xml.v ===== *)
(** The parts of Go's [unicode/utf8] and [encoding/xml] that MANSCDP documents go
    through: escaping, the printing of elements, and the strict decoder up to the tree
    of the root element.

    The decoder is that of [xml.Unmarshal]: entities, CDATA, comments, processing
    instructions and directives included, name spaces reduced to the local name. What
    follows the root element is not read, and the depth of nesting at which the decoder
    gives up (10000) is not modelled. Which characters beyond ASCII may stand in a
    name is a parameter, and so are the decimal form of a float64 and its reading; a
    float64 is its bits. *)

From S2P Require Import Prelude GoStrings GoText.
Open Scope Z_scope.

Class GoXml := {
  wide_first : Z -> bool;
  wide_second : Z -> bool;
  FormatFloat : Z -> text;
  ParseFloat : text -> option Z;
}.

(** ** UTF-8 *)

(** A rune with its bytes, or a byte that belongs to none. *)
Inductive rune := Rune (v : Z) (bytes : text) | Bad (b : Z).

Definition between (lo hi b : Z) : bool := (lo <=? b) && (b <=? hi).
Definition cont (b : Z) : bool := between 0x80 0xBF b.

Definition two (a b : Z) : bool := between 0xC2 0xDF a && cont b.
Definition three (a b c : Z) : bool :=
  cont c && (if a =? 0xE0 then between 0xA0 0xBF b else if a =? 0xED then between 0x80 0x9F b else between 0xE1 0xEF a && cont b).
Definition four (a b c d : Z) : bool :=
  cont c && cont d && (if a =? 0xF0 then between 0x90 0xBF b else if a =? 0xF4 then between 0x80 0x8F b else between 0xF1 0xF3 a && cont b).

(** The runes of a string, as [range] and [DecodeRune] read them. *)
Fixpoint rune_split (s : text) : list rune :=
  match s with
  | [] => []
  | a :: r =>
      if a <? 0x80 then Rune a [a] :: rune_split r else
      match r with
      | b :: r1 =>
          if two a b then Rune ((a - 0xC0) * 64 + (b - 0x80)) [a; b] :: rune_split r1 else
          match r1 with
          | c :: r2 =>
              if three a b c then Rune ((a - 0xE0) * 4096 + (b - 0x80) * 64 + (c - 0x80)) [a; b; c] :: rune_split r2 else
              match r2 with
              | d :: r3 =>
                  if four a b c d
                  then Rune ((a - 0xF0) * 262144 + (b - 0x80) * 4096 + (c - 0x80) * 64 + (d - 0x80)) [a; b; c; d] :: rune_split r3
                  else Bad a :: rune_split r
              | [] => Bad a :: rune_split r
              end
          | [] => Bad a :: rune_split r
          end
      | [] => [Bad a]
      end
  end.

Definition utf8_Valid (s : text) : bool := forallb (fun r => match r with Rune _ _ => true | Bad _ => false end) (rune_split s).

Definition replacement : text := [0xEF; 0xBF; 0xBD].

(** [string(rune(n))] for [n] up to [MaxRune]. *)
Definition encode_rune (n : Z) : text :=
  if n <? 0x80 then [n]
  else if n <? 0x800 then [0xC0 + n / 64; 0x80 + n mod 64]
  else if between 0xD800 0xDFFF n then replacement
  else if n <? 0x10000 then [0xE0 + n / 4096; 0x80 + n / 64 mod 64; 0x80 + n mod 64]
  else [0xF0 + n / 262144; 0x80 + n / 4096 mod 64; 0x80 + n / 64 mod 64; 0x80 + n mod 64].

(** ** Escaping and printing *)

Definition isInCharacterRange (r : Z) : bool :=
  (r =? 0x09) || (r =? 0x0A) || (r =? 0x0D) || between 0x20 0xD7FF r || between 0xE000 0xFFFD r || between 0x10000 0x10FFFF r.

Definition esc_rune (r : rune) : text :=
  match r with
  | Bad _ => replacement
  | Rune v bytes =>
      if v =? 0x22 then txt "&#34;" else if v =? 0x27 then txt "&#39;" else if v =? 0x26 then txt "&amp;"
      else if v =? 0x3C then txt "&lt;" else if v =? 0x3E then txt "&gt;" else if v =? 0x09 then txt "&#x9;"
      else if v =? 0x0A then txt "&#xA;" else if v =? 0x0D then txt "&#xD;"
      else if isInCharacterRange v then bytes else replacement
  end.

Definition EscapeText (s : text) : text := concat (map esc_rune (rune_split s)).

(** Elements without name spaces. *)
Inductive node :=
  | Elem (name : text) (attrs : list (text * text)) (children : list node)
  | Chars (data : text).

Definition print_attr (a : text * text) : text := txt " " ++ fst a ++ [0x3D; 0x22] ++ EscapeText (snd a) ++ [0x22].

Fixpoint print (n : node) : text :=
  match n with
  | Chars s => EscapeText s
  | Elem name attrs children =>
      txt "<" ++ name ++ concat (map print_attr attrs) ++ txt ">" ++ concat (map print children) ++ txt "</" ++ name ++ txt ">"
  end.

(** ** The decoder *)

Definition check_rune (r : rune) : bool := match r with Rune v _ => isInCharacterRange v | Bad _ => false end.

(** No disallowed character, and valid UTF-8. *)
Definition check_text (s : text) : bool := forallb check_rune (rune_split s).

Fixpoint span (p : Z -> bool) (s : text) : text * text :=
  match s with
  | b :: r => if p b then let (a, t) := span p r in (b :: a, t) else ([], s)
  | [] => ([], [])
  end.

Definition letter (b : Z) : bool := between 0x41 0x5A b || between 0x61 0x7A b.
Definition isNameByte (b : Z) : bool := letter b || is_digit b || (b =? 0x5F) || (b =? 0x3A) || (b =? 0x2E) || (b =? 0x2D).
Definition in_name (b : Z) : bool := (0x80 <=? b) || isNameByte b.

Section Decoder.

Context `{GoXml}.

Definition name_first (c : Z) : bool := if c <? 0x80 then letter c || (c =? 0x5F) || (c =? 0x3A) else wide_first c.
Definition name_second (c : Z) : bool := if c <? 0x80 then is_digit c || (c =? 0x2E) || (c =? 0x2D) else wide_second c.

Definition isName (s : text) : bool :=
  match rune_split s with
  | Rune v _ :: rest => name_first v && forallb (fun r => match r with Rune v _ => name_first v || name_second v | Bad _ => false end) rest
  | _ => false
  end.

(** [d.name]; the end of the input is an error. *)
Definition read_name (s : text) : option (text * text) :=
  match span in_name s with
  | ([], _) | (_, []) => None
  | (n, rest) => if isName n then Some (n, rest) else None
  end.

Definition count (c : Z) (s : text) : nat := length (List.filter (Z.eqb c) s).

(** [d.nsname]: the space and the local name. *)
Definition nsname (s : text) : option (text * text * text) :=
  match read_name s with
  | None => None
  | Some (n, rest) =>
      if Nat.ltb 1 (count 0x3A n) then None else
      match cut_at 0x3A n with
      | Some (sp, local) => if bool_decide (sp = []) || bool_decide (local = []) then Some ([], n, rest) else Some (sp, local, rest)
      | None => Some ([], n, rest)
      end
  end.

Definition xml_space (b : Z) : bool := (b =? 0x20) || (b =? 0x0D) || (b =? 0x0A) || (b =? 0x09).
Definition skip_space (s : text) : text := snd (span xml_space s).

(** The value of digits in a base. *)
Definition digit_of (base b : Z) : option Z :=
  if is_digit b then Some (b - 0x30)
  else if (base =? 16) && between 0x61 0x66 b then Some (b - 0x57)
  else if (base =? 16) && between 0x41 0x46 b then Some (b - 0x37)
  else None.

Definition base_value (base : Z) (ds : text) : Z := fold_left (fun n b => n * base + default 0 (digit_of base b)) ds 0.

(** A character entity behind its ampersand: its text and the rest. *)
Definition entity (s : text) : option (text * text) :=
  match s with
  | 0x23 :: r =>
      let (base, r) := match r with 0x78 :: r' => (16, r') | _ => (10, r) end in
      match span (fun b => bool_decide (is_Some (digit_of base b))) r with
      | ([], _) => None
      | (ds, 0x3B :: rest) => let n := base_value base ds in if n <=? 0x10FFFF then Some (encode_rune n, rest) else None
      | _ => None
      end
  | _ =>
      match span in_name s with
      | (n, 0x3B :: rest) =>
          if bool_decide (n = txt "lt") then Some ([0x3C], rest)
          else if bool_decide (n = txt "gt") then Some ([0x3E], rest)
          else if bool_decide (n = txt "amp") then Some ([0x26], rest)
          else if bool_decide (n = txt "apos") then Some ([0x27], rest)
          else if bool_decide (n = txt "quot") then Some ([0x22], rest)
          else None
      | _ => None
      end
  end.

(** The loop of [d.text]; [acc] is the buffer, reversed. *)
Fixpoint text_loop (fuel : nat) (quote : option Z) (cdata : bool) (b0 b1 : Z) (acc s : text) : option (text * text) :=
  match fuel with
  | O => None
  | S f =>
      match s with
      | [] => if cdata then None else Some (rev acc, [])
      | b :: r =>
          if bool_decide (quote = None) && (b0 =? 0x5D) && (b1 =? 0x5D) && (b =? 0x3E)
          then (if cdata then Some (rev (drop 2 acc), r) else None)
          else if (b =? 0x3C) && negb cdata then (if bool_decide (quote = None) then Some (rev acc, s) else None)
          else if bool_decide (quote = Some b) then Some (rev acc, r)
          else if (b =? 0x26) && negb cdata then
            match entity r with
            | Some (t, r') => text_loop f quote cdata 0 0 (rev t ++ acc) r'
            | None => None
            end
          else if b =? 0x0D then text_loop f quote cdata b1 b (0x0A :: acc) r
          else if (b1 =? 0x0D) && (b =? 0x0A) then text_loop f quote cdata b1 b acc r
          else text_loop f quote cdata b1 b (b :: acc) r
      end
  end.

Definition read_text (quote : option Z) (cdata : bool) (s : text) : option (text * text) :=
  match text_loop (S (length s)) quote cdata 0 0 [] s with
  | Some (data, rest) => if check_text data then Some (data, rest) else None
  | None => None
  end.

(** The attributes of a start element and whether it is empty. *)
Fixpoint attr_loop (fuel : nat) (s : text) : option (list (text * text) * bool * text) :=
  match fuel with
  | O => None
  | S f =>
      let s1 := skip_space s in
      if HasPrefix s1 (txt "/") then (if HasPrefix s1 (txt "/>") then Some ([], true, drop 2 s1) else None)
      else if HasPrefix s1 (txt ">") then Some ([], false, drop 1 s1)
      else match nsname s1 with
           | None => None
           | Some (_, local, r) =>
               let r1 := skip_space r in
               if negb (HasPrefix r1 (txt "=")) then None else
               match skip_space (drop 1 r1) with
               | q :: r2 =>
                   if (q =? 0x22) || (q =? 0x27) then
                     match read_text (Some q) false r2 with
                     | Some (v, r3) => match attr_loop f r3 with
                                       | Some (attrs, empty, r4) => Some ((local, v) :: attrs, empty, r4)
                                       | None => None
                                       end
                     | None => None
                     end
                   else None
               | [] => None
               end
           end
  end.

(** [procInst]: a pseudo attribute of an XML declaration. *)
Fixpoint procInst_go (fuel : nat) (param s : text) : text :=
  match fuel with
  | O => []
  | S f =>
      match match Split s (param ++ txt "=") with [_] => None | h :: _ => Some (drop (length h + length param + 1) s) | [] => None end with
      | None | Some [] => []
      | Some (c :: r) => if (c =? 0x27) || (c =? 0x22)
                         then match cut_at c r with Some (v, _) => v | None => [] end
                         else procInst_go f param r
      end
  end.

Definition procInst (param s : text) : text := procInst_go (S (length s)) param s.

(** Up to and behind [?>]. *)
Fixpoint find_pi (s : text) : option (text * text) :=
  match s with
  | 0x3F :: 0x3E :: r => Some ([], r)
  | b :: r => match find_pi r with Some (d, t) => Some (b :: d, t) | None => None end
  | [] => None
  end.

(** A processing instruction behind its [<?]. *)
Definition read_pi (s : text) : option text :=
  match read_name s with
  | None => None
  | Some (target, r) =>
      match find_pi (skip_space r) with
      | None => None
      | Some (content, rest) =>
          if bool_decide (target = txt "xml") then
            let ver := procInst (txt "version") content in
            let enc := procInst (txt "encoding") content in
            if negb (bool_decide (ver = []) || bool_decide (ver = txt "1.0")) then None
            else if negb (bool_decide (enc = []) || bool_decide (ToLower enc = txt "utf-8")) then None
            else Some rest
          else Some rest
      end
  end.

(** A comment behind [<!--]. *)
Fixpoint read_comment (b0 b1 : Z) (s : text) : option text :=
  match s with
  | [] => None
  | b :: r => if (b0 =? 0x2D) && (b1 =? 0x2D) then (if b =? 0x3E then Some r else None) else read_comment b1 b r
  end.

(** Within a directive: plain, behind a [<] and part of [!--], in a comment. *)
Inductive directive_state := DText | DOpen (i : nat) | DComment (b0 b1 : Z).

(** A directive behind [<!] and one byte; [inquote] is 0 outside quotes. *)
Fixpoint read_directive (inquote depth : Z) (st : directive_state) (s : text) : option text :=
  match s with
  | [] => None
  | b :: r =>
      let handle depth :=
        if b =? inquote then read_directive 0 depth DText r
        else if negb (inquote =? 0) then read_directive inquote depth DText r
        else if (b =? 0x27) || (b =? 0x22) then read_directive b depth DText r
        else if b =? 0x3E then read_directive inquote (depth - 1) DText r
        else if b =? 0x3C then read_directive inquote depth (DOpen 0) r
        else read_directive inquote depth DText r in
      match st with
      | DText => if (inquote =? 0) && (b =? 0x3E) && (depth =? 0) then Some r else handle depth
      | DOpen i => if bool_decide (txt "!--" !! i = Some b)
                   then read_directive inquote depth (if Nat.eqb i 2 then DComment 0 0 else DOpen (S i)) r
                   else handle (depth + 1)
      | DComment b0 b1 => if (b0 =? 0x2D) && (b1 =? 0x2D) && (b =? 0x3E) then read_directive inquote depth DText r
                          else read_directive inquote depth (DComment b1 b) r
      end
  end.

(** What stands behind [<!]: a comment, CDATA, or a directive; the data and the rest. *)
Definition read_bang (s : text) : option (text * text) :=
  if HasPrefix s (txt "-") then
    if HasPrefix s (txt "--") then match read_comment 0 0 (drop 2 s) with Some rest => Some ([], rest) | None => None end else None
  else if HasPrefix s (txt "[") then (if HasPrefix s (txt "[CDATA[") then read_text None true (drop 7 s) else None)
  else match s with
       | _ :: r => match read_directive 0 0 DText r with Some rest => Some ([], rest) | None => None end
       | [] => None
       end.

Definition chars (s : text) : list node := match s with [] => [] | _ => [Chars s] end.

(** A start element behind its [<]: space, name, attributes, whether it is empty. *)
Definition read_start (s : text) : option (text * text * list (text * text) * bool * text) :=
  match nsname s with
  | None => None
  | Some (sp, local, r) => match attr_loop (S (length r)) r with
                           | Some (attrs, empty, rest) => Some (sp, local, attrs, empty, rest)
                           | None => None
                           end
  end.

(** Everything up to an end tag: the nodes, the name of the tag and the rest. *)
Fixpoint content (fuel : nat) (s : text) : option (list node * (text * text) * text) :=
  match fuel with
  | O => None
  | S f =>
      let more nodes rest := match content f rest with Some (l, e, t) => Some (nodes ++ l, e, t) | None => None end in
      match s with
      | [] => None
      | _ =>
          if HasPrefix s (txt "</") then
            match nsname (drop 2 s) with
            | Some (sp, local, r) => let r1 := skip_space r in if HasPrefix r1 (txt ">") then Some ([], (sp, local), drop 1 r1) else None
            | None => None
            end
          else if HasPrefix s (txt "<?") then match read_pi (drop 2 s) with Some rest => more [] rest | None => None end
          else if HasPrefix s (txt "<!") then match read_bang (drop 2 s) with Some (data, rest) => more (chars data) rest | None => None end
          else if HasPrefix s (txt "<") then
            match read_start (drop 1 s) with
            | Some (_, local, attrs, true, rest) => more [Elem local attrs []] rest
            | Some (sp, local, attrs, false, rest) =>
                match content f rest with
                | Some (children, e, rest') => if bool_decide (e = (sp, local)) then more [Elem local attrs children] rest' else None
                | None => None
                end
            | None => None
            end
          else match read_text None false s with Some (data, rest) => more (chars data) rest | None => None end
      end
  end.

(** The root element. *)
Fixpoint root_loop (fuel : nat) (s : text) : option node :=
  match fuel with
  | O => None
  | S f =>
      match s with
      | [] => None
      | _ =>
          if HasPrefix s (txt "</") then None
          else if HasPrefix s (txt "<?") then match read_pi (drop 2 s) with Some rest => root_loop f rest | None => None end
          else if HasPrefix s (txt "<!") then match read_bang (drop 2 s) with Some (_, rest) => root_loop f rest | None => None end
          else if HasPrefix s (txt "<") then
            match read_start (drop 1 s) with
            | Some (_, local, attrs, true, _) => Some (Elem local attrs [])
            | Some (sp, local, attrs, false, rest) =>
                match content (S (length rest)) rest with
                | Some (children, e, _) => if bool_decide (e = (sp, local)) then Some (Elem local attrs children) else None
                | None => None
                end
            | None => None
            end
          else match read_text None false s with Some (_, rest) => root_loop f rest | None => None end
      end
  end.

Definition root (s : text) : option node := root_loop (S (length s)) s.

End Decoder.

(** ** Lemmas: runes *)

(** A rune as [rune_split] makes it. *)
Definition proper (r : rune) : Prop :=
  match r with
  | Rune v bytes => (0 <= v < 0x80 /\ bytes = [v]) \/ (0x80 <= v /\ bytes <> [] /\ Forall (fun b => 0x80 <= b) bytes)
  | Bad _ => True
  end.

Definition rune_bytes (r : rune) : text := match r with Rune _ bytes => bytes | Bad b => [b] end.

Lemma between_spec lo hi b : between lo hi b = true <-> lo <= b <= hi.
Proof. unfold between. rewrite andb_true_iff, !Z.leb_le. done. Qed.

Lemma rune_split_spec s : bytes_ok s -> Forall proper (rune_split s) /\ concat (map rune_bytes (rune_split s)) = s.
Proof.
  enough (H : forall n s, (length s <= n)%nat -> bytes_ok s -> Forall proper (rune_split s) /\ concat (map rune_bytes (rune_split s)) = s)
    by (by apply (H (length s))).
  clear s. induction n as [|n IH]; intros s Hn Hs; [destruct s; [done|simpl in Hn; lia]|].
  destruct s as [|a r]; [done|]. apply list.Forall_cons in Hs as [Ha Hr]. cbn [rune_split length] in *.
  pose proof (IH r ltac:(lia) Hr) as [I1 I2].
  destruct (Z.ltb_spec a 0x80) as [La|La].
  { split; [constructor; [left; unfold is_byte in Ha; split; [lia|done]|done]|cbn [map concat rune_bytes app]; by rewrite I2]. }
  assert (B1 : Forall proper (Bad a :: rune_split r) /\ concat (map rune_bytes (Bad a :: rune_split r)) = a :: r).
  { split; [by constructor|]. cbn [map concat rune_bytes app]. by rewrite I2. }
  destruct r as [|b r1]; [done|]. apply list.Forall_cons in Hr as [Hb Hr1].
  destruct (two a b) eqn:E2.
  { destruct (IH r1 ltac:(simpl in Hn; lia) Hr1) as [J1 J2]. unfold two, cont in E2. rewrite andb_true_iff, !between_spec in E2.
    split; [constructor; [right; split; [lia|split; [done|repeat constructor; lia]]|done]|cbn [map concat rune_bytes app]; by rewrite J2]. }
  destruct r1 as [|c r2]; [done|]. apply list.Forall_cons in Hr1 as [Hc Hr2].
  destruct (three a b c) eqn:E3.
  { destruct (IH r2 ltac:(simpl in Hn; lia) Hr2) as [J1 J2].
    unfold three, cont in E3. rewrite andb_true_iff, between_spec in E3. destruct E3 as [E3 E4].
    assert (A : 0xE0 <= a <= 0xEF /\ 0x80 <= b <= 0xBF /\ (a = 0xE0 -> 0xA0 <= b)).
    { destruct (Z.eqb_spec a 0xE0); [rewrite between_spec in E4; lia|]. destruct (Z.eqb_spec a 0xED); [rewrite between_spec in E4; lia|].
      rewrite andb_true_iff, !between_spec in E4. lia. }
    split; [constructor; [right; split; [destruct (Z.eq_dec a 0xE0); lia|split; [done|repeat constructor; lia]]|done]|cbn [map concat rune_bytes app]; by rewrite J2]. }
  destruct r2 as [|d r3]; [done|]. apply list.Forall_cons in Hr2 as [Hd Hr3].
  destruct (four a b c d) eqn:E5; [|done].
  destruct (IH r3 ltac:(simpl in Hn; lia) Hr3) as [J1 J2].
  unfold four, cont in E5. rewrite !andb_true_iff, !between_spec in E5. destruct E5 as [[E5 E6] E7].
  assert (A : 0xF0 <= a <= 0xF4 /\ 0x80 <= b <= 0xBF /\ (a = 0xF0 -> 0x90 <= b)).
  { destruct (Z.eqb_spec a 0xF0); [rewrite between_spec in E7; lia|]. destruct (Z.eqb_spec a 0xF4); [rewrite between_spec in E7; lia|].
    rewrite andb_true_iff, !between_spec in E7. lia. }
  split; [constructor; [right; split; [destruct (Z.eq_dec a 0xF0); lia|split; [done|repeat constructor; lia]]|done]|cbn [map concat rune_bytes app]; by rewrite J2].
Qed.

Lemma rune_split_ascii s : Forall (fun b => 0 <= b < 0x80) s -> rune_split s = map (fun b => Rune b [b]) s.
Proof. induction 1 as [|b s Hb _ IH]; [done|]. cbn [rune_split map]. rewrite (proj2 (Z.ltb_lt _ _)) by lia. by rewrite IH. Qed.

(** ** Lemmas: reading what was escaped *)

Section Roundtrip.

Context `{GoXml}.

(** The loop between two bytes of a text without carriage returns. *)
Definition neutral (q : option Z) : Prop := q = None \/ q = Some 0x22.

Lemma text_loop_byte f q b0 b1 acc b s : neutral q -> b <> 0x3C -> b <> 0x3E -> b <> 0x26 -> b <> 0x22 -> b <> 0x0D -> b1 <> 0x0D ->
  text_loop (S f) q false b0 b1 acc (b :: s) = text_loop f q false b1 b (b :: acc) s.
Proof.
  intros Q H1 H2 H3 H4 H5 H6. cbn [text_loop]. rewrite (proj2 (Z.eqb_neq b 0x3E)), (proj2 (Z.eqb_neq b 0x3C)), (proj2 (Z.eqb_neq b 0x26)),
    (proj2 (Z.eqb_neq b 0x0D)), (proj2 (Z.eqb_neq b1 0x0D)), andb_false_r by done. cbn [andb].
  rewrite bool_decide_eq_false_2; [done|]. destruct Q as [->| ->]; congruence.
Qed.

Lemma text_loop_bytes bs : forall f q b0 b1 acc s, neutral q -> Forall (fun b => 0x80 <= b) bs -> b1 <> 0x0D ->
  exists b0' b1', b1' <> 0x0D /\
    text_loop (length bs + f) q false b0 b1 acc (bs ++ s) = text_loop f q false b0' b1' (rev bs ++ acc) s.
Proof.
  induction bs as [|b bs IH]; intros f q b0 b1 acc s Q Hb Hc; [by exists b0, b1|]. apply list.Forall_cons in Hb as [Hb Hbs]. cbn [length Nat.add app].
  rewrite text_loop_byte by (done || lia). destruct (IH f q b1 b (b :: acc) s Q Hbs ltac:(lia)) as (b0' & b1' & N & ->).
  exists b0', b1'. split; [done|]. cbn [rev]. by rewrite <- app_assoc.
Qed.

Lemma text_loop_entity f q b0 b1 acc e t s : neutral q -> entity (e ++ s) = Some (t, s) ->
  text_loop (S f) q false b0 b1 acc (0x26 :: e ++ s) = text_loop f q false 0 0 (rev t ++ acc) s.
Proof.
  intros Q E. cbn [text_loop]. rewrite andb_false_r. change (0x26 =? 0x3C) with false. change (0x26 =? 0x26) with true. cbn [andb negb].
  rewrite bool_decide_eq_false_2 by (destruct Q as [->| ->]; congruence). by rewrite E.
Qed.

(** One escaped rune is read back. *)
Lemma text_loop_rune r f q b0 b1 acc s : neutral q -> proper r -> check_rune r = true -> b1 <> 0x0D -> exists f' b0' b1',
  (length (rune_bytes r) <= length (esc_rune r))%nat /\ (f <= f')%nat /\ b1' <> 0x0D /\
  text_loop (length (esc_rune r) + f) q false b0 b1 acc (esc_rune r ++ s) = text_loop f' q false b0' b1' (rev (rune_bytes r) ++ acc) s.
Proof.
  intros Q P C N. destruct r as [v bytes|b]; [|done]. cbn [check_rune proper rune_bytes] in *. unfold esc_rune. rewrite C.
  assert (Sp : forall w e t, w = 0x26 :: e -> bytes = t -> (length t <= length w)%nat -> (forall s, entity (e ++ s) = Some (t, s)) -> exists f' b0' b1',
    (length bytes <= length w)%nat /\ (f <= f')%nat /\ b1' <> 0x0D /\
    text_loop (length w + f) q false b0 b1 acc (w ++ s) = text_loop f' q false b0' b1' (rev bytes ++ acc) s).
  { intros w e t -> -> L E. cbn [length Nat.add app]. rewrite (text_loop_entity _ q b0 b1 acc e t s Q (E s)).
    exists (length e + f)%nat, 0, 0. split; [done|]. split; [lia|]. by split. }
  destruct P as [[Hv Hb]|(Hv & _ & Hb)].
  - repeat match goal with |- context [v =? ?c] =>
      let E := fresh "Ev" in destruct (Z.eqb_spec v c) as [E|E]; [rewrite E in Hb; eapply Sp; [reflexivity|exact Hb|simpl; lia|intros s'; reflexivity]|] end.
    subst bytes. exists f, b1, v. split; [simpl; lia|]. split; [lia|]. split; [lia|]. cbn [length Nat.add app rev]. by apply text_loop_byte.
  - rewrite !(proj2 (Z.eqb_neq v _)) by lia.
    destruct (text_loop_bytes bytes f q b0 b1 acc s Q Hb N) as (b0' & b1' & N' & ->). exists f, b0', b1'. by split_and!.
Qed.

Lemma text_loop_runes l : forall f q b0 b1 acc s, neutral q -> Forall proper l -> forallb check_rune l = true -> b1 <> 0x0D -> exists f' b0' b1',
  (f <= f')%nat /\ b1' <> 0x0D /\
  text_loop (length (concat (map esc_rune l)) + f) q false b0 b1 acc (concat (map esc_rune l) ++ s) =
  text_loop f' q false b0' b1' (rev (concat (map rune_bytes l)) ++ acc) s.
Proof.
  induction l as [|r l IH]; intros f q b0 b1 acc s Q P C N; [by exists f, b0, b1|].
  apply list.Forall_cons in P as [P Pl]. cbn [forallb] in C. apply andb_true_iff in C as [C Cl]. cbn [map concat].
  rewrite length_app, <- Nat.add_assoc, <- app_assoc.
  destruct (text_loop_rune r (length (concat (map esc_rune l)) + f) q b0 b1 acc (concat (map esc_rune l) ++ s) Q P C N) as (f1 & b0' & b1' & _ & L & N' & ->).
  replace f1 with (length (concat (map esc_rune l)) + (f1 - length (concat (map esc_rune l))))%nat by lia.
  destruct (IH (f1 - length (concat (map esc_rune l)))%nat q b0' b1' (rev (rune_bytes r) ++ acc) s Q Pl Cl N') as (f2 & c0 & c1 & L2 & N2 & ->).
  exists f2, c0, c1. split; [lia|]. split; [done|]. by rewrite rev_app_distr, <- app_assoc.
Qed.

(** Text that survives: bytes that are UTF-8 of allowed characters. *)
Definition xml_text (s : text) : Prop := bytes_ok s /\ check_text s = true.

Lemma read_escaped q stop s rest : xml_text s -> (q = None /\ stop = 0x3C) \/ (q = Some 0x22 /\ stop = 0x22) ->
  read_text q false (EscapeText s ++ stop :: rest) = Some (s, if q then rest else stop :: rest).
Proof.
  intros [B C] Q. unfold read_text, EscapeText. rewrite length_app. cbn [length].
  destruct (rune_split_spec s B) as [P E].
  assert (Qn : neutral q) by (destruct Q as [[-> _]|[-> _]]; [by left|by right]).
  replace (S (length (concat (map esc_rune (rune_split s))) + S (length rest)))
    with (length (concat (map esc_rune (rune_split s))) + S (S (length rest)))%nat by lia.
  destruct (text_loop_runes (rune_split s) (S (S (length rest))) q 0 0 [] (stop :: rest) Qn P C ltac:(done)) as (f' & b0 & b1 & L & N & ->).
  destruct f' as [|f']; [lia|]. rewrite E, app_nil_r. cbn [text_loop].
  destruct Q as [[-> ->]|[-> ->]]; rewrite andb_false_r; cbn [andb negb]; rewrite rev_involutive.
  - change (0x3C =? 0x3C) with true. cbn. by rewrite C.
  - change (0x22 =? 0x3C) with false. cbn [andb]. rewrite bool_decide_eq_true_2 by done. by rewrite C.
Qed.

(** ** Lemmas: reading what was printed *)

(** The names in use: a letter, then letters, digits and underscores. *)
Definition xml_name (n : text) : bool :=
  match n with b :: _ => letter b | [] => false end && forallb (fun b => letter b || is_digit b || (b =? 0x5F)) n.

Lemma span_until p a c r : Forall (fun b => p b = true) a -> p c = false -> span p (a ++ c :: r) = (a, c :: r).
Proof. intros Ha Hc. induction Ha as [|b a Hb _ IH]; cbn [app span]; [by rewrite Hc|]. by rewrite Hb, IH. Qed.

Lemma name_byte b : letter b || is_digit b || (b =? 0x5F) = true -> 0 <= b < 0x80 /\ in_name b = true /\ b <> 0x3A /\
  xml_space b = false /\ (name_first b || name_second b) = true.
Proof.
  unfold in_name, isNameByte, xml_space, name_first, name_second, letter, is_digit, between. intros E.
  assert (R : 0 <= b < 0x80) by lia. rewrite (proj2 (Z.ltb_lt b 0x80)) by lia. repeat split; lia.
Qed.

Lemma xml_name_spec n : xml_name n = true -> exists b r, n = b :: r /\ letter b = true /\ Forall (fun b => letter b || is_digit b || (b =? 0x5F) = true) n.
Proof.
  unfold xml_name. rewrite andb_true_iff, forallb_forall. intros [H1 H2]. destruct n as [|b r]; [done|]. exists b, r. split; [done|]. split; [done|].
  by apply List.Forall_forall.
Qed.

Lemma read_xml_name n c rest : xml_name n = true -> in_name c = false -> read_name (n ++ c :: rest) = Some (n, c :: rest).
Proof.
  intros Hn Hc. destruct (xml_name_spec n Hn) as (b & r & E & Hb & F). unfold read_name.
  rewrite span_until by (done || (eapply list.Forall_impl; [exact F|]; intros x Hx; by apply name_byte)).
  assert (I : isName n = true).
  { unfold isName. rewrite rune_split_ascii by (eapply list.Forall_impl; [exact F|]; intros x Hx; by apply name_byte).
    rewrite E in *. apply list.Forall_cons in F as [_ F]. cbn [map]. apply andb_true_iff. split.
    - unfold name_first, letter, between in *. destruct (b <? 0x80) eqn:L; lia.
    - rewrite forallb_forall. intros x Hx. apply in_map_iff in Hx as (y & <- & Hy). apply (name_byte y). by apply (proj1 (List.Forall_forall _ _) F). }
  rewrite I. by rewrite E.
Qed.

Lemma nsname_plain n c rest : xml_name n = true -> in_name c = false -> nsname (n ++ c :: rest) = Some ([], n, c :: rest).
Proof.
  intros Hn Hc. destruct (xml_name_spec n Hn) as (b & r & E & Hb & F). unfold nsname. rewrite read_xml_name by done.
  assert (N : Forall (fun x => x <> 0x3A) n) by (eapply list.Forall_impl; [exact F|]; intros x Hx; by apply name_byte).
  assert (C : count 0x3A n = O).
  { unfold count. clear -N. induction N as [|x l Hx _ IH]; [done|]. cbn [List.filter]. rewrite (proj2 (Z.eqb_neq 0x3A x)) by congruence. exact IH. }
  rewrite C. cbn [Nat.ltb Nat.leb]. by rewrite cut_at_none.
Qed.

Lemma skip_space_id c s : xml_space c = false -> skip_space (c :: s) = c :: s.
Proof. intros H1. unfold skip_space. cbn [span]. by rewrite H1. Qed.

Lemma skip_space_blank s b r : s = b :: r -> xml_space b = false -> skip_space (0x20 :: s) = s.
Proof. intros -> Hb. unfold skip_space. cbn [span]. change (xml_space 0x20) with true. by rewrite Hb. Qed.

Definition attr_ok (a : text * text) : Prop := xml_name (fst a) = true /\ xml_text (snd a).

Lemma xml_name_head n s : xml_name n = true -> exists b r, n ++ s = b :: r /\ letter b = true /\ xml_space b = false.
Proof.
  intros Hn. destruct (xml_name_spec n Hn) as (b & r & -> & Hb & F). exists b, (r ++ s). split; [done|]. split; [done|].
  apply list.Forall_cons in F as [F _]. by apply name_byte.
Qed.

Lemma HasPrefix_letter b s c p : letter b = true -> letter c = false -> HasPrefix (b :: s) (c :: p) = false.
Proof. intros Hb Hc. apply HasPrefix_head. congruence. Qed.

Lemma attr_loop_printed attrs : forall f rest, (length attrs < f)%nat -> Forall attr_ok attrs ->
  attr_loop f (concat (map print_attr attrs) ++ txt ">" ++ rest) = Some (attrs, false, rest).
Proof.
  induction attrs as [|[n v] attrs IH]; intros f rest Hf Ha.
  - destruct f; [simpl in Hf; lia|]. change (concat (map print_attr []) ++ txt ">" ++ rest) with (0x3E :: rest). cbn [attr_loop].
    rewrite skip_space_id by done. change (HasPrefix (0x3E :: rest) (txt "/")) with false. by rewrite (HasPrefix_app (txt ">") rest : HasPrefix (0x3E :: rest) (txt ">") = true).
  - apply list.Forall_cons in Ha as [[Hn Hv] Ha]. cbn [fst snd] in *. destruct f as [|f]; [simpl in Hf; lia|]. cbn [map concat].
    set (tl := concat (map print_attr attrs) ++ txt ">" ++ rest).
    assert (E : (print_attr (n, v) ++ concat (map print_attr attrs)) ++ txt ">" ++ rest = 0x20 :: n ++ 0x3D :: 0x22 :: EscapeText v ++ 0x22 :: tl).
    { unfold print_attr, tl. cbn [fst snd]. change (txt " ") with [0x20]. by rewrite <- !app_assoc. }
    rewrite E. cbn [attr_loop].
    destruct (xml_name_head n (0x3D :: 0x22 :: EscapeText v ++ 0x22 :: tl) Hn) as (b & r & En & Lb & Sb).
    rewrite (skip_space_blank _ b r En Sb), (nsname_plain n 0x3D) by done. rewrite En.
    change (txt "/") with [0x2F]. change (txt ">") with [0x3E]. rewrite !HasPrefix_letter by done. cbv iota.
    rewrite skip_space_id by done.
    rewrite (HasPrefix_app (txt "=") (0x22 :: EscapeText v ++ 0x22 :: tl) : HasPrefix (0x3D :: _) (txt "=") = true). cbn [negb drop].
    rewrite skip_space_id by done. change ((0x22 =? 0x22) || (0x22 =? 0x27)) with true. cbv iota.
    rewrite (read_escaped (Some 0x22) 0x22 v tl Hv) by by right. cbn [snd]. unfold tl. rewrite IH by (done || simpl in Hf; lia). done.
Qed.

Lemma read_start_printed n attrs rest : xml_name n = true -> Forall attr_ok attrs ->
  read_start (n ++ concat (map print_attr attrs) ++ txt ">" ++ rest) = Some ([], n, attrs, false, rest).
Proof.
  intros Hn Ha. unfold read_start.
  assert (E : exists c r, concat (map print_attr attrs) ++ txt ">" ++ rest = c :: r /\ in_name c = false).
  { destruct attrs as [|a attrs]; [by exists 0x3E, rest|]. by eexists 0x20, _. }
  destruct E as (c & r & E & Hc). rewrite E, nsname_plain by done. rewrite <- E, attr_loop_printed; [done| |done].
  rewrite length_app, length_app. assert (L : (length attrs <= length (concat (map print_attr attrs)))%nat).
  { clear. induction attrs as [|a l IH]; [done|]. cbn [map concat length]. rewrite length_app. unfold print_attr at 1. rewrite !length_app. simpl. lia. }
  simpl. lia.
Qed.

(** Trees that survive: names and texts as above, no empty and no adjacent texts. *)
Inductive clean_node : node -> Prop :=
  | clean_Elem n attrs cs : xml_name n = true -> Forall attr_ok attrs -> clean_nodes cs -> clean_node (Elem n attrs cs)
with clean_nodes : list node -> Prop :=
  | clean_nil : clean_nodes []
  | clean_chars s : xml_text s -> s <> [] -> clean_nodes [Chars s]
  | clean_cons n attrs cs l : clean_node (Elem n attrs cs) -> clean_nodes l -> clean_nodes (Elem n attrs cs :: l).

Fixpoint node_size (n : node) : nat :=
  match n with Chars _ => 1%nat | Elem _ _ cs => S (S (list_sum (map node_size cs))) end.

Definition nodes_size (l : list node) : nat := list_sum (map node_size l).

Lemma end_tag_read f n rest : xml_name n = true -> content (S f) (txt "</" ++ n ++ txt ">" ++ rest) = Some ([], ([], n), rest).
Proof.
  intros Hn. change (txt "</" ++ n ++ txt ">" ++ rest) with (0x3C :: 0x2F :: (n ++ 0x3E :: rest)). cbn [content].
  rewrite (HasPrefix_app (txt "</") (n ++ 0x3E :: rest) : HasPrefix (0x3C :: 0x2F :: _) (txt "</") = true). cbn [drop]. rewrite drop_0.
  rewrite nsname_plain by done. rewrite skip_space_id by done. by rewrite (HasPrefix_app (txt ">") rest : HasPrefix (0x3E :: rest) (txt ">") = true).
Qed.

Scheme clean_node_mut := Induction for clean_node Sort Prop
  with clean_nodes_mut := Induction for clean_nodes Sort Prop.

(** The nodes of a clean tree are read back, up to the end tag behind them. *)
Lemma content_printed cs : clean_nodes cs -> forall f m rest, xml_name m = true -> (nodes_size cs < f)%nat ->
  content f (concat (map print cs) ++ txt "</" ++ m ++ txt ">" ++ rest) = Some (cs, ([], m), rest).
Proof.
  apply (clean_nodes_mut
    (fun n _ => forall f l m rest, xml_name m = true -> (node_size n + nodes_size l < f)%nat -> clean_nodes l ->
       (forall f rest, (nodes_size l < f)%nat -> content f (concat (map print l) ++ txt "</" ++ m ++ txt ">" ++ rest) = Some (l, ([], m), rest)) ->
       content f (print n ++ concat (map print l) ++ txt "</" ++ m ++ txt ">" ++ rest) = Some (n :: l, ([], m), rest))
    (fun cs _ => forall f m rest, xml_name m = true -> (nodes_size cs < f)%nat ->
       content f (concat (map print cs) ++ txt "</" ++ m ++ txt ">" ++ rest) = Some (cs, ([], m), rest))).
  - intros n attrs cs0 Hn Ha _ IH f l m rest Hm Hf Hl IHl. destruct f as [|f]; [lia|]. cbn [node_size] in Hf. fold (nodes_size cs0) in Hf.
    set (tl := concat (map print l) ++ txt "</" ++ m ++ txt ">" ++ rest) in *.
    assert (E : print (Elem n attrs cs0) ++ tl =
      0x3C :: (n ++ concat (map print_attr attrs) ++ txt ">" ++ (concat (map print cs0) ++ txt "</" ++ n ++ txt ">" ++ tl))).
    { cbn [print]. change (txt "<") with [0x3C]. by rewrite <- !app_assoc. }
    rewrite E. set (body := concat (map print cs0) ++ txt "</" ++ n ++ txt ">" ++ tl) in *. cbn [content].
    destruct (xml_name_head n (concat (map print_attr attrs) ++ txt ">" ++ body) Hn) as (b & r & En & Lb & _).
    assert (P : forall c, letter c = false -> HasPrefix (0x3C :: n ++ concat (map print_attr attrs) ++ txt ">" ++ body) [0x3C; c] = false).
    { intros c Hc. rewrite En. cbn [HasPrefix]. by rewrite (proj2 (Z.eqb_neq c b)) by congruence. }
    change (txt "</") with [0x3C; 0x2F]. change (txt "<?") with [0x3C; 0x3F]. change (txt "<!") with [0x3C; 0x21]. rewrite !P by done.
    rewrite (HasPrefix_app (txt "<") (n ++ concat (map print_attr attrs) ++ txt ">" ++ body) : HasPrefix (0x3C :: _) (txt "<") = true). cbn [drop]. cbv iota. rewrite drop_0.
    rewrite read_start_printed by done. unfold body. rewrite IH by (done || lia). rewrite bool_decide_eq_true_2 by done.
    unfold tl. rewrite IHl by lia. done.
  - intros f m rest Hm Hf. destruct f as [|f]; [simpl in Hf; lia|]. by apply end_tag_read.
  - intros s Hs Hne f m rest Hm Hf. unfold nodes_size in Hf. destruct f as [|f]; [simpl in Hf; lia|]. cbn [map concat print]. rewrite app_nil_r.
    change (txt "</" ++ m ++ txt ">" ++ rest) with (0x3C :: (txt "/" ++ m ++ txt ">" ++ rest)).
    assert (R := read_escaped None 0x3C s (txt "/" ++ m ++ txt ">" ++ rest) Hs (or_introl (conj eq_refl eq_refl))). cbn [snd] in R.
    assert (P : forall t p, HasPrefix (EscapeText s ++ t) (0x3C :: p) = false /\ EscapeText s ++ t <> []).
    { intros t p. destruct Hs as [B C]. unfold EscapeText. destruct (rune_split_spec s B) as [Pr Es]. unfold check_text in C.
      destruct (rune_split s) as [|r0 rs]; [by subst s|]. cbn [forallb] in C. apply andb_true_iff in C as [C _]. apply list.Forall_cons in Pr as [Pr _].
      cbn [map concat]. destruct r0 as [v bs|]; [|done]. cbn [check_rune] in C. unfold esc_rune. rewrite C. clear Es Hne.
      repeat match goal with |- context [v =? ?c] => let E := fresh "E" in destruct (Z.eqb_spec v c) as [E|E]; [by split|] end.
      destruct Pr as [[Pv ->]|(Pv & Pn & Pb)]; [split; [apply HasPrefix_head; congruence|done]|].
      destruct bs as [|b1 bs]; [done|]. apply list.Forall_cons in Pb as [Pb _]. split; [apply HasPrefix_head; lia|done]. }
    cbn [content]. set (X := txt "/" ++ m ++ txt ">" ++ rest) in *.
    destruct (EscapeText s ++ 0x3C :: X) as [|b t] eqn:E; [by destruct (P (0x3C :: X) [])|].
    assert (P' : forall p, HasPrefix (b :: t) (0x3C :: p) = false) by (intros p; rewrite <- E; apply P).
    change (txt "</") with [0x3C; 0x2F]. change (txt "<?") with [0x3C; 0x3F]. change (txt "<!") with [0x3C; 0x21]. change (txt "<") with [0x3C].
    rewrite !P', R. destruct f as [|f]; [simpl in Hf; lia|]. pose proof (end_tag_read f m rest Hm) as T. change (txt "</" ++ m ++ txt ">" ++ rest) with (0x3C :: X) in T.
    rewrite T. by destruct s.
  - intros n attrs cs0 l Hn IHn Hl IHl f m rest Hm Hf. cbn [map concat]. rewrite <- app_assoc. apply IHn; [done|simpl in *; unfold nodes_size in *; simpl in *; lia|done|].
    intros f' rest' Hf'. by apply IHl.
Qed.

Lemma escaped_nonempty s : xml_text s -> s <> [] -> (1 <= length (EscapeText s))%nat.
Proof.
  intros [B C] N. unfold EscapeText. destruct (rune_split_spec s B) as [Pr Es]. unfold check_text in C.
  destruct (rune_split s) as [|r0 rs]; [by subst s|]. cbn [forallb] in C. apply andb_true_iff in C as [C _]. apply list.Forall_cons in Pr as [Pr _].
  cbn [map concat]. rewrite length_app. enough (1 <= length (esc_rune r0))%nat by lia. destruct r0 as [v bs|]; [|done]. cbn [check_rune] in C.
  unfold esc_rune. rewrite C. repeat match goal with |- context [v =? ?c] => destruct (v =? c); [simpl; lia|] end.
  destruct Pr as [[_ ->]|(_ & Pn & _)]; [simpl; lia|]. destruct bs; [done|simpl; lia].
Qed.

Lemma printed_size cs : clean_nodes cs -> (nodes_size cs <= length (concat (map print cs)))%nat.
Proof.
  apply (clean_nodes_mut (fun n _ => (node_size n <= length (print n))%nat) (fun cs _ => (nodes_size cs <= length (concat (map print cs)))%nat)).
  - intros n attrs cs0 _ _ _ IH. cbn [node_size print]. fold (nodes_size cs0). rewrite !length_app. simpl. lia.
  - unfold nodes_size. simpl. lia.
  - intros s Hs Hne. pose proof (escaped_nonempty s Hs Hne). unfold nodes_size. simpl. rewrite app_nil_r. lia.
  - intros n attrs cs0 l _ IHn _ IHl. cbn [map concat]. rewrite length_app.
    assert (E : nodes_size (Elem n attrs cs0 :: l) = (node_size (Elem n attrs cs0) + nodes_size l)%nat) by reflexivity. rewrite E. lia.
Qed.

(** A document that was printed is read back; what follows it is not looked at. *)
Lemma root_printed n attrs cs rest : clean_node (Elem n attrs cs) -> root (print (Elem n attrs cs) ++ rest) = Some (Elem n attrs cs).
Proof.
  intros C. inversion C as [? ? ? Hn Ha Hc]; subst. unfold root.
  assert (E : print (Elem n attrs cs) ++ rest =
    0x3C :: (n ++ concat (map print_attr attrs) ++ txt ">" ++ (concat (map print cs) ++ txt "</" ++ n ++ txt ">" ++ rest))).
  { cbn [print]. change (txt "<") with [0x3C]. rewrite <- !app_assoc. reflexivity. }
  rewrite E. set (body := concat (map print cs) ++ txt "</" ++ n ++ txt ">" ++ rest). cbn [root_loop].
  destruct (xml_name_head n (concat (map print_attr attrs) ++ txt ">" ++ body) Hn) as (b & r & En & Lb & _).
  assert (P : forall c, letter c = false -> HasPrefix (0x3C :: n ++ concat (map print_attr attrs) ++ txt ">" ++ body) [0x3C; c] = false).
  { intros c Hc'. rewrite En. cbn [HasPrefix]. by rewrite (proj2 (Z.eqb_neq c b)) by congruence. }
  change (txt "</") with [0x3C; 0x2F]. change (txt "<?") with [0x3C; 0x3F]. change (txt "<!") with [0x3C; 0x21]. rewrite !P by done.
  rewrite (HasPrefix_app (txt "<") (n ++ concat (map print_attr attrs) ++ txt ">" ++ body) : HasPrefix (0x3C :: _) (txt "<") = true).
  cbn [drop]. cbv iota. rewrite drop_0, read_start_printed by done. unfold body. rewrite content_printed; [|done|done|].
  - by rewrite bool_decide_eq_true_2.
  - rewrite length_app. pose proof (printed_size cs Hc). lia.
Qed.

End Roundtrip.

(** ** Lemmas: what is printed is UTF-8 *)

Lemma utf8_cons_rune v bs l : forallb (fun r => match r with Rune _ _ => true | Bad _ => false end) (Rune v bs :: l) =
  forallb (fun r => match r with Rune _ _ => true | Bad _ => false end) l.
Proof. done. Qed.

Lemma rune_split_app a b : utf8_Valid a = true -> rune_split (a ++ b) = rune_split a ++ rune_split b.
Proof.
  enough (H : forall n a, (length a <= n)%nat -> utf8_Valid a = true -> rune_split (a ++ b) = rune_split a ++ rune_split b) by (by apply (H (length a))).
  clear a. induction n as [|n IH]; intros a Hn V; [destruct a; [done|simpl in Hn; lia]|]. destruct a as [|x r]; [done|].
  unfold utf8_Valid in *. cbn [rune_split app length] in *. destruct (x <? 0x80) eqn:Ex; [cbn [app]; rewrite IH; [done|lia|exact V]|].
  destruct r as [|y r]; [done|]. cbn [app]. destruct (two x y) eqn:E2; [cbn [app]; rewrite IH; [done|simpl in Hn; lia|exact V]|].
  destruct r as [|z r]; [done|]. cbn [app]. destruct (three x y z) eqn:E3; [cbn [app]; rewrite IH; [done|simpl in Hn; lia|exact V]|].
  destruct r as [|w r]; [done|]. cbn [app]. destruct (four x y z w) eqn:E4; [cbn [app]; rewrite IH; [done|simpl in Hn; lia|exact V]|done].
Qed.

Lemma utf8_app a b : utf8_Valid a = true -> utf8_Valid b = true -> utf8_Valid (a ++ b) = true.
Proof. intros A B. pose proof (rune_split_app a b A) as E. unfold utf8_Valid in *. rewrite E, forallb_app. by rewrite A, B. Qed.

Lemma utf8_ascii s : Forall (fun b => 0 <= b < 0x80) s -> utf8_Valid s = true.
Proof. intros A. unfold utf8_Valid. rewrite rune_split_ascii by done. rewrite forallb_forall. by intros r (b & <- & _)%in_map_iff. Qed.

Lemma utf8_concat {A} (f : A -> text) l : Forall (fun x => utf8_Valid (f x) = true) l -> utf8_Valid (concat (map f l)) = true.
Proof. induction 1 as [|x l Hx _ IH]; [done|]. cbn [map concat]. by apply utf8_app. Qed.

(** A rune's bytes are that rune. *)
Lemma rune_split_utf8 s : Forall (fun r => match r with Rune _ bs => utf8_Valid bs = true | Bad _ => True end) (rune_split s).
Proof.
  enough (H : forall n s, (length s <= n)%nat -> Forall (fun r => match r with Rune _ bs => utf8_Valid bs = true | Bad _ => True end) (rune_split s))
    by (by apply (H (length s))).
  clear s. induction n as [|n IH]; intros s Hn; [destruct s; [constructor|simpl in Hn; lia]|]. destruct s as [|x r]; [constructor|].
  cbn [rune_split length] in *. destruct (x <? 0x80) eqn:Ex; [constructor; [unfold utf8_Valid; cbn [rune_split]; by rewrite Ex|apply IH; lia]|].
  assert (I : Forall (fun r => match r with Rune _ bs => utf8_Valid bs = true | Bad _ => True end) (Bad x :: rune_split r)) by (constructor; [done|apply IH; lia]).
  destruct r as [|y r]; [by constructor|].
  destruct (two x y) eqn:E2; [constructor; [unfold utf8_Valid; cbn [rune_split]; by rewrite Ex, E2|apply IH; simpl in Hn; lia]|].
  destruct r as [|z r]; [done|].
  destruct (three x y z) eqn:E3; [constructor; [unfold utf8_Valid; cbn [rune_split]; by rewrite Ex, E2, E3|apply IH; simpl in Hn; lia]|].
  destruct r as [|w r]; [done|].
  destruct (four x y z w) eqn:E4; [constructor; [unfold utf8_Valid; cbn [rune_split]; by rewrite Ex, E2, E3, E4|apply IH; simpl in Hn; lia]|done].
Qed.

Lemma escaped_utf8 s : utf8_Valid (EscapeText s) = true.
Proof.
  apply utf8_concat. eapply list.Forall_impl; [apply rune_split_utf8|]. intros [v bs|b] P; [|done]. unfold esc_rune.
  repeat match goal with |- utf8_Valid (if ?c then _ else _) = true => destruct c; [first [reflexivity|exact P]|] end. reflexivity.
Qed.

Lemma xml_name_utf8 n : xml_name n = true -> utf8_Valid n = true.
Proof.
  intros N. destruct (xml_name_spec n N) as (_ & _ & _ & _ & F). apply utf8_ascii. eapply list.Forall_impl; [exact F|].
  intros b E. cbn beta in E. unfold letter, is_digit, between in E. lia.
Qed.

Lemma printed_utf8 n : clean_node n -> utf8_Valid (print n) = true.
Proof.
  apply (clean_node_mut (fun n _ => utf8_Valid (print n) = true) (fun cs _ => utf8_Valid (concat (map print cs)) = true)).
  - intros nm attrs cs N A _ IH. cbn [print]. repeat apply utf8_app; try done; try by apply xml_name_utf8.
    apply utf8_concat. eapply list.Forall_impl; [exact A|]. intros a [An _]. unfold print_attr. repeat apply utf8_app; try done; [by apply xml_name_utf8|apply escaped_utf8].
  - done.
  - intros s _ _. cbn [map concat print]. rewrite app_nil_r. apply escaped_utf8.
  - intros nm attrs cs l _ H1 _ H2. cbn [map concat]. by apply utf8_app.
Qed.
