(* ===== verification/XmlStruct.v ===== *)
(** Go structs as [encoding/xml] sees them: types with their field tags, values, and
    [Marshal] and [Unmarshal] between values and trees of elements.

    A type is described the way reflection reads it, one entry per field with the parts
    of its [xml] tag; a value lists the fields in order. An [XMLName] field is the tag
    of the type and is not kept in values. *)

From S2P Require Import Prelude GoStrings GoText Xml.
Open Scope Z_scope.

(** ** Types and values *)

Record field := Field {
  f_go : string;               (* the Go name *)
  f_name : text;               (* the element or attribute *)
  f_attr : bool;
  f_parent : option text;      (* [a] of a tag [a>b] *)
  f_omitempty : bool;
}.

Inductive ty :=
  | TString
  | TInt                       (* 64 bits *)
  | TUint (bits : Z)
  | TFloat64
  | TPointer (t : ty)
  | TSlice (t : ty)
  | TStruct (xmlname : option text) (fields : list (field * ty)).

Inductive val :=
  | VString (s : text)
  | VInt (n : Z)
  | VFloat (bits : Z)
  | VNil
  | VRef (v : val)
  | VList (l : list val)
  | VStruct (fields : list val).

Definition elem (go name : string) (t : ty) : field * ty := (Field go (txt name) false None false, t).
Definition elem_omitempty (go name : string) (t : ty) : field * ty := (Field go (txt name) false None true, t).
Definition elem_in (go parent name : string) (t : ty) : field * ty := (Field go (txt name) false (Some (txt parent)) false, t).
Definition attr (go name : string) (t : ty) : field * ty := (Field go (txt name) true None false, t).
Definition attr_omitempty (go name : string) (t : ty) : field * ty := (Field go (txt name) true None true, t).
Definition struct_named (name : string) (fields : list (field * ty)) : ty := TStruct (Some (txt name)) fields.
Definition struct (fields : list (field * ty)) : ty := TStruct None fields.

Fixpoint zero (t : ty) : val :=
  match t with
  | TString => VString []
  | TInt | TUint _ => VInt 0
  | TFloat64 => VFloat 0
  | TPointer _ => VNil
  | TSlice _ => VList []
  | TStruct _ fs => VStruct (map (fun f => zero (snd f)) fs)
  end.

Definition fields_of (t : ty) : list (field * ty) := match t with TStruct _ fs => fs | _ => [] end.
Definition values_of (v : val) : list val := match v with VStruct vs => vs | _ => [] end.

(** A field by its Go name. *)
Fixpoint get_in (fs : list (field * ty)) (vs : list val) (go : string) : val :=
  match fs, vs with
  | (f, _) :: fs', v :: vs' => if String.eqb (f_go f) go then v else get_in fs' vs' go
  | _, _ => VNil
  end.

Fixpoint set_in (fs : list (field * ty)) (vs : list val) (go : string) (x : val) : list val :=
  match fs, vs with
  | (f, _) :: fs', v :: vs' => if String.eqb (f_go f) go then x :: vs' else v :: set_in fs' vs' go x
  | _, _ => vs
  end.

Definition get (t : ty) (go : string) (v : val) : val := get_in (fields_of t) (values_of v) go.
Definition set (t : ty) (go : string) (x v : val) : val := VStruct (set_in (fields_of t) (values_of v) go x).

Definition get_string (t : ty) (go : string) (v : val) : text := match get t go v with VString s => s | _ => [] end.
Definition get_int (t : ty) (go : string) (v : val) : Z := match get t go v with VInt n => n | _ => 0 end.
Definition get_list (t : ty) (go : string) (v : val) : list val := match get t go v with VList l => l | _ => [] end.

(** [T{Go: x, ...}] *)
Definition literal (t : ty) (xs : list (string * val)) : val := fold_left (fun v x => set t (fst x) (snd x) v) xs (zero t).

(** ** Marshal *)

(** [isEmptyValue]: a zero number includes the negative zero. *)
Definition isEmptyValue (v : val) : bool :=
  match v with
  | VString s => bool_decide (s = [])
  | VInt n => n =? 0
  | VFloat b => (b =? 0) || (b =? 2 ^ 63)
  | VNil => true
  | VRef _ => false
  | VList l => bool_decide (length l = 0%nat)
  | VStruct _ => false
  end.

Section Coding.

Context `{GoXml}.

(** [marshalSimple] *)
Definition simple (v : val) : text :=
  match v with VString s => s | VInt n => Itoa n | VFloat b => FormatFloat b | _ => [] end.

(** The attribute of a field; its type is a scalar or a pointer to one. *)
Definition marshal_attr (f : field) (v : val) : list (text * text) :=
  if f_omitempty f && isEmptyValue v then [] else
  match v with
  | VNil => []
  | VRef v' => [(f_name f, simple v')]
  | _ => [(f_name f, simple v)]
  end.

Definition wrap (f : field) (v : val) (nodes : list node) : list node :=
  match f_parent f, v with
  | None, _ => nodes
  | Some _, VNil => nodes
  | Some p, _ => [Elem p [] nodes]
  end.

Section Fields.

Variable m : ty -> bool -> text -> val -> list node.

(** [marshalStruct]; no two fields have the same parent. *)
Fixpoint marshal_children (fs : list (field * ty)) (vs : list val) : list node :=
  match fs, vs with
  | (f, t) :: fs', v :: vs' =>
      (if f_attr f then [] else wrap f v (m t (f_omitempty f) (f_name f) v)) ++ marshal_children fs' vs'
  | _, _ => []
  end.

Fixpoint marshal_attrs (fs : list (field * ty)) (vs : list val) : list (text * text) :=
  match fs, vs with
  | (f, _) :: fs', v :: vs' => (if f_attr f then marshal_attr f v else []) ++ marshal_attrs fs' vs'
  | _, _ => []
  end.

End Fields.

(** [marshalValue] of a field that is written as [name]. *)
Fixpoint marshal (t : ty) (omit : bool) (name : text) (v : val) : list node :=
  if omit && isEmptyValue v then [] else
  match t, v with
  | TPointer t', VRef v' => marshal t' false name v'
  | TPointer _, _ => []
  | TSlice t', VList l => concat (map (marshal t' omit name) l)
  | TSlice _, _ => []
  | TStruct xn fs, _ => [Elem (default name xn) (marshal_attrs fs (values_of v)) (marshal_children marshal fs (values_of v))]
  | _, _ => [Elem name [] (chars (simple v))]
  end.

(** [xml.Marshal] of a struct with an [XMLName] tag. *)
Definition Marshal (t : ty) (v : val) : text := concat (map print (marshal t false [] v)).

(** ** Unmarshal *)

Fixpoint foldM {A B} (f : A -> B -> option A) (l : list B) (a : A) : option A :=
  match l with
  | [] => Some a
  | b :: l' => match f a b with Some a' => foldM f l' a' | None => None end
  end.

(** [strconv.ParseUint(s, 10, bits)] *)
Definition ParseUint (bits : Z) (s : text) : option Z :=
  match s with
  | [] => None
  | _ => n ← digits_value 0 s; if n <? 2 ^ bits then Some n else None
  end.

Fixpoint copyValue (t : ty) (src : text) : option val :=
  match t with
  | TString => Some (VString src)
  | TInt => match src with [] => Some (VInt 0) | _ => VInt <$> Atoi (TrimSpace src) end
  | TUint bits => match src with [] => Some (VInt 0) | _ => VInt <$> ParseUint bits (TrimSpace src) end
  | TFloat64 => match src with [] => Some (VFloat 0) | _ => VFloat <$> ParseFloat (TrimSpace src) end
  | TPointer t' => VRef <$> copyValue t' src
  | _ => None
  end.

Definition chardata (children : list node) : text := concat (map (fun n => match n with Chars s => s | Elem _ _ _ => [] end) children).

Definition is_elem (n : node) : bool := match n with Elem _ _ _ => true | Chars _ => false end.
Definition elems (children : list node) : list node := List.filter is_elem children.
Definition named (p : text) (n : node) : bool := match n with Elem name _ _ => bool_decide (name = p) | Chars _ => false end.
Definition children_of (n : node) : list node := match n with Elem _ _ cs => cs | Chars _ => [] end.

Fixpoint assign_attr (fs : list (field * ty)) (vs : list val) (a : text * text) : option (list val) :=
  match fs, vs with
  | (f, t) :: fs', v :: vs' =>
      if f_attr f && bool_decide (f_name f = fst a)
      then x ← copyValue t (snd a); vs'' ← assign_attr fs' vs' a; Some (x :: vs'')
      else vs'' ← assign_attr fs' vs' a; Some (v :: vs'')
  | _, _ => Some vs
  end.

Section Assign.

Variable u : ty -> val -> node -> option val.

(** [unmarshalPath] below a parent. *)
Fixpoint assign_below (p : text) (fs : list (field * ty)) (vs : list val) (n : node) : option (list val) :=
  match fs, vs with
  | (f, t) :: fs', v :: vs' =>
      if negb (f_attr f) && bool_decide (f_parent f = Some p) && named (f_name f) n
      then x ← u t v n; Some (x :: vs')
      else vs'' ← assign_below p fs' vs' n; Some (v :: vs'')
  | _, _ => Some vs
  end.

(** [unmarshalPath]: the first field named so, or with such a parent; an element that
    belongs to none is skipped. *)
Fixpoint assign (fs : list (field * ty)) (vs : list val) (n : node) : option (list val) :=
  match fs, vs with
  | (f, t) :: fs', v :: vs' =>
      match f_attr f, f_parent f with
      | false, None => if named (f_name f) n then x ← u t v n; Some (x :: vs') else vs'' ← assign fs' vs' n; Some (v :: vs'')
      | false, Some p =>
          if named p n then foldM (assign_below p fs) (elems (children_of n)) vs
          else vs'' ← assign fs' vs' n; Some (v :: vs'')
      | true, _ => vs'' ← assign fs' vs' n; Some (v :: vs'')
      end
  | _, _ => Some vs
  end.

End Assign.

Definition name_fits (xn : option text) (name : text) : bool := match xn with Some x => bool_decide (x = name) | None => true end.

(** [d.unmarshal] of an element into a variable that holds [old]. *)
Fixpoint unmarshal (t : ty) (old : val) (n : node) : option val :=
  match n with
  | Chars _ => None
  | Elem name attrs children =>
      match t with
      | TPointer t' => VRef <$> unmarshal t' (match old with VRef v => v | _ => zero t' end) n
      | TSlice t' => v ← unmarshal t' (zero t') n; Some (VList (match old with VList l => l | _ => [] end ++ [v]))
      | TStruct xn fs =>
          if negb (name_fits xn name) then None else
          vs ← foldM (assign_attr fs) attrs (values_of old);
          vs' ← foldM (assign unmarshal fs) (elems children) vs;
          Some (VStruct vs')
      | _ => copyValue t (chardata children)
      end
  end.

(** [xml.Unmarshal] into a fresh variable. *)
Definition Unmarshal (t : ty) (data : text) : option val := n ← root data; unmarshal t (zero t) n.

End Coding.

(** ** Types that can be read back *)

Definition scalar (t : ty) : bool := match t with TString | TInt | TUint _ | TFloat64 => true | _ => false end.
Definition flat (t : ty) : bool := match t with TPointer _ | TSlice _ => false | _ => true end.
Definition inner (t : ty) : ty := match t with TPointer t' | TSlice t' => t' | _ => t end.
Definition is_slice (t : ty) : bool := match t with TSlice _ => true | _ => false end.
Definition label (t : ty) : option text := match t with TStruct xn _ => xn | _ => None end.

(** What a field occupies in its element. *)
Definition key (f : field) : text := default (f_name f) (f_parent f).

(** Valid names; pointers and slices of scalars and structs; the name of a struct is
    that of its field; attributes are scalar; wrapped fields are slices. *)
Definition field_ok (f : field) (t : ty) : bool :=
  xml_name (f_name f) && xml_name (key f) && flat (inner t) && name_fits (label (inner t)) (f_name f) &&
  (if f_attr f then scalar (inner t) && negb (is_slice t) && bool_decide (f_parent f = None) else true) &&
  (if is_slice t then negb (f_omitempty f) else bool_decide (f_parent f = None)).

Fixpoint distinct (l : list text) : bool := match l with [] => true | a :: l' => negb (bool_decide (a ∈ l')) && distinct l' end.

Definition elem_keys (fs : list (field * ty)) : list text := map (fun f => key (fst f)) (List.filter (fun f => negb (f_attr (fst f))) fs).
Definition attr_names (fs : list (field * ty)) : list text := map (fun f => f_name (fst f)) (List.filter (fun f => f_attr (fst f)) fs).

Fixpoint schema_ok (t : ty) : bool :=
  match t with
  | TPointer t' | TSlice t' => schema_ok t'
  | TUint bits => (bits =? 32) || (bits =? 64)
  | TStruct xn fs =>
      match xn with Some x => xml_name x | None => true end && distinct (elem_keys fs) && distinct (attr_names fs) &&
      forallb (fun f => field_ok (fst f) (snd f) && schema_ok (snd f)) fs
  | _ => true
  end.

(** The numbers [strconv] prints so that they parse again: every finite one. *)
Class FloatLaws `{GoXml} := {
  float_ok : Z -> Prop;
  FormatFloat_word : forall b, float_ok b -> word (FormatFloat b);
  ParseFloat_FormatFloat : forall b, float_ok b -> ParseFloat (FormatFloat b) = Some b;
}.

Section Good.

Context `{FloatLaws}.

(** Values of a type that print: valid text, numbers in range, no negative zero where
    a zero is left out. *)
Fixpoint goods (g : ty -> val -> Prop) (fs : list (field * ty)) (vs : list val) : Prop :=
  match fs, vs with
  | [], [] => True
  | (f, t) :: fs', v :: vs' => g t v /\ (f_omitempty f && isEmptyValue v = true -> v = zero t) /\ goods g fs' vs'
  | _, _ => False
  end.

Fixpoint good (t : ty) (v : val) : Prop :=
  match t, v with
  | TString, VString s => xml_text s
  | TInt, VInt n => - 2 ^ 63 <= n < 2 ^ 63
  | TUint bits, VInt n => 0 <= n < 2 ^ bits
  | TFloat64, VFloat b => float_ok b
  | TPointer _, VNil => True
  | TPointer t', VRef v' => good t' v'
  | TSlice t', VList l => Forall (good t') l
  | TStruct _ fs, VStruct vs => goods good fs vs
  | _, _ => False
  end.

(** ** Lemmas *)

Lemma ty_induction (P : ty -> Prop) :
  (forall t, scalar t = true -> P t) -> (forall t, P t -> P (TPointer t)) -> (forall t, P t -> P (TSlice t)) ->
  (forall xn fs, Forall (fun f => P (snd f)) fs -> P (TStruct xn fs)) -> forall t, P t.
Proof.
  intros Hs Hp Hl Ht. fix IH 1. intros [| |bits| |t|t|xn fs]; [by apply Hs..| | |].
  - apply Hp, IH.
  - apply Hl, IH.
  - apply Ht. induction fs as [|[f t] fs IHfs]; constructor; [apply IH|apply IHfs].
Qed.

Lemma distinct_spec l : distinct l = true -> NoDup l.
Proof.
  induction l as [|a l IH]; [constructor|]. cbn [distinct]. rewrite andb_true_iff, negb_true_iff, bool_decide_eq_false. intros [N D].
  constructor; [done|by apply IH].
Qed.

Lemma foldM_app {A B} (f : A -> B -> option A) l1 l2 a : foldM f (l1 ++ l2) a = match foldM f l1 a with Some a' => foldM f l2 a' | None => None end.
Proof. revert a. induction l1 as [|b l1 IH]; intros a; [done|]. cbn [app foldM]. by destruct (f a b). Qed.

(** A step that works on a part of the state. *)
Lemma foldM_lift {A A' B} (f : A -> B -> option A) (g : A' -> B -> option A') (h : A -> A') l a :
  (forall a b, b ∈ l -> g (h a) b = h <$> f a b) -> foldM g l (h a) = h <$> foldM f l a.
Proof.
  revert a. induction l as [|b l IH]; intros a Hs; [done|]. cbn [foldM]. rewrite Hs by set_solver. destruct (f a b) as [a'|]; [|done].
  cbn [fmap option_fmap option_map]. apply IH. intros a1 b1 H1. apply Hs. set_solver.
Qed.

Lemma foldM_id {A B} (f : A -> B -> option A) l a : (forall a b, b ∈ l -> f a b = Some a) -> foldM f l a = Some a.
Proof. intros Hs. induction l as [|b l IH]; [done|]. cbn [foldM]. rewrite Hs by set_solver. apply IH. intros. apply Hs. set_solver. Qed.

(** *** Scalars *)

Lemma check_ascii s : Forall (fun b => printable b = true) s -> xml_text s.
Proof.
  intros P. split; [eapply list.Forall_impl; [exact P|]; unfold printable, is_byte; intros b E; lia|].
  unfold check_text. rewrite rune_split_ascii by (eapply list.Forall_impl; [exact P|]; unfold printable; intros b E; lia).
  rewrite forallb_forall. intros r Hr. apply in_map_iff in Hr as (b & <- & Hb). apply (proj1 (List.Forall_forall _ _) P) in Hb.
  cbn [check_rune]. unfold printable in Hb. unfold isInCharacterRange, between. lia.
Qed.

Lemma word_trim w : word w -> TrimSpace w = w.
Proof. intros [_ W]. by apply TrimSpace_id. Qed.

Lemma uint_range bits n : (bits =? 32) || (bits =? 64) = true -> 0 <= n < 2 ^ bits -> 0 <= n < 10 ^ 20.
Proof. intros B R. assert (E : bits = 32 \/ bits = 64) by lia. destruct E as [-> | ->]; lia. Qed.

Lemma simple_read t v : scalar t = true -> schema_ok t = true -> good t v -> copyValue t (simple v) = Some v /\ xml_text (simple v).
Proof.
  destruct t as [| |bits| |t|t|xn fs]; try done; destruct v as [s|n|b| |v|l|vs]; try done; cbn [good simple copyValue schema_ok]; intros _ O G.
  - pose proof (Itoa_printable n G) as [N W]. split; [|by apply check_ascii]. destruct (Itoa n) eqn:E; [done|]. rewrite <- E, word_trim by (by rewrite E).
    by rewrite Atoi_Itoa.
  - pose proof (uint_range bits n O G) as R. destruct (dec_spec n R) as (D1 & D2 & D3 & _). rewrite Itoa_nonneg by lia.
    pose proof (digits_word _ D1 D2) as W. split; [|apply check_ascii, W]. rewrite word_trim by done. unfold ParseUint.
    destruct (dec n) eqn:E; [done|]. rewrite D3. cbn [mbind option_bind]. by rewrite (proj2 (Z.ltb_lt _ _)) by lia.
  - pose proof (FormatFloat_word b G) as W. split; [|apply check_ascii, W]. rewrite word_trim by done. rewrite ParseFloat_FormatFloat by done.
    destruct W as [N _]. by destruct (FormatFloat b).
Qed.

Lemma chardata_chars s : chardata (chars s) = s.
Proof. destruct s as [|b s]; [done|]. unfold chars, chardata. cbn [map concat]. by rewrite app_nil_r. Qed.

Lemma marshal_scalar t omit name v : scalar t = true ->
  marshal t omit name v = if omit && isEmptyValue v then [] else [Elem name [] (chars (simple v))].
Proof. by destruct t. Qed.

Lemma unmarshal_scalar t old name attrs cs : scalar t = true -> unmarshal t old (Elem name attrs cs) = copyValue t (chardata cs).
Proof. by destruct t. Qed.

(** *** Structs: a node is passed on by the fields it does not belong to *)

Lemma assign_skip u f t fs v vs n : (f_attr f = false -> named (key f) n = false) ->
  assign u ((f, t) :: fs) (v :: vs) n = cons v <$> assign u fs vs n.
Proof.
  intros Hn. cbn [assign]. unfold key in Hn. destruct (f_attr f); [by destruct (assign u fs vs n)|].
  specialize (Hn eq_refl). destruct (f_parent f); cbn [default] in Hn; unfold id in Hn; rewrite Hn; by destruct (assign u fs vs n).
Qed.

Lemma assign_here u f t fs v vs n : f_attr f = false -> f_parent f = None -> named (f_name f) n = true ->
  assign u ((f, t) :: fs) (v :: vs) n = (fun x => x :: vs) <$> u t v n.
Proof. intros A P N. cbn [assign]. by rewrite A, P, N. Qed.

Lemma assign_parent u f t fs v vs p cs : f_attr f = false -> f_parent f = Some p ->
  Forall (fun n => is_elem n = true /\ named (f_name f) n = true) cs ->
  assign u ((f, t) :: fs) (v :: vs) (Elem p [] cs) = (fun x => x :: vs) <$> foldM (u t) cs v.
Proof.
  intros A P F. cbn [assign]. rewrite A, P. cbn [named]. rewrite bool_decide_eq_true_2 by done. cbn [children_of].
  replace (elems cs) with cs.
  2:{ clear -F. unfold elems. induction F as [|n cs [E _] _ IH]; [done|]. cbn [List.filter]. by rewrite E, <- IH. }
  apply (foldM_lift (u t) (assign_below u p ((f, t) :: fs)) (fun x => x :: vs)). intros x n Hn.
  rewrite list.Forall_forall in F. destruct (F n) as [_ N]; [done|]. cbn [assign_below]. rewrite A, P, N, bool_decide_eq_true_2 by done. done.
Qed.

(** What the elements of the fields are named. *)
Lemma elem_keys_cons f t fs : elem_keys ((f, t) :: fs) = (if f_attr f then [] else [key f]) ++ elem_keys fs.
Proof. unfold elem_keys. cbn [List.filter fst]. by destruct (f_attr f). Qed.

Lemma attr_names_cons f t fs : attr_names ((f, t) :: fs) = (if f_attr f then [f_name f] else []) ++ attr_names fs.
Proof. unfold attr_names. cbn [List.filter fst]. by destruct (f_attr f). Qed.

Definition node_name (n : node) : text := match n with Elem name _ _ => name | Chars _ => [] end.

Lemma named_spec p n : is_elem n = true -> named p n = bool_decide (node_name n = p).
Proof. by destruct n. Qed.

(** What marshal makes of a field. *)
Definition prints (u : ty -> val -> node -> option val) (t : ty) (v : val) (name : text) (ns : list node) : Prop :=
  Forall (fun n => is_elem n = true /\ node_name n = name) ns /\ foldM (u t) ns (zero t) = Some v.

(** Before the children are read: the attributes are there. *)
Fixpoint with_attrs (fs : list (field * ty)) (vs : list val) : list val :=
  match fs, vs with
  | (f, t) :: fs', v :: vs' => (if f_attr f then v else zero t) :: with_attrs fs' vs'
  | _, _ => []
  end.

Definition prints_all (u : ty -> val -> node -> option val) (m : ty -> bool -> text -> val -> list node) : list (field * ty) -> list val -> Prop :=
  Forall2 (fun f v => f_attr (fst f) = false ->
    prints u (snd f) v (f_name (fst f)) (m (snd f) (f_omitempty (fst f)) (f_name (fst f)) v) /\ (f_parent (fst f) <> None -> v <> VNil)).

Lemma wrap_parent f v p ns : f_parent f = Some p -> v <> VNil -> wrap f v ns = [Elem p [] ns].
Proof. intros P V. unfold wrap. rewrite P. by destruct v. Qed.

Lemma wrap_none f v ns : f_parent f = None -> wrap f v ns = ns.
Proof. intros P. unfold wrap. by rewrite P. Qed.

Lemma children_named m u fs vs : prints_all u m fs vs ->
  Forall (fun n => is_elem n = true /\ node_name n ∈ elem_keys fs) (marshal_children m fs vs).
Proof.
  induction 1 as [|[f t] v fs vs Hf _ IH]; [constructor|]. cbn [fst snd] in Hf.
  cbn [marshal_children]. rewrite elem_keys_cons. apply Forall_app. split.
  - destruct (f_attr f) eqn:A; [constructor|]. destruct (Hf eq_refl) as [[F _] V]. unfold key. destruct (f_parent f) as [p|] eqn:P.
    + rewrite (wrap_parent f v p) by (done || by apply V). constructor; [|constructor]. split; [done|]. cbn. set_solver.
    + rewrite wrap_none by done. eapply list.Forall_impl; [exact F|]. intros n [E ->]. split; [done|]. cbn. set_solver.
  - eapply list.Forall_impl; [exact IH|]. intros n [E N]. split; [done|]. set_solver.
Qed.

Lemma children_read m u fs vs : prints_all u m fs vs -> NoDup (elem_keys fs) ->
  foldM (assign u fs) (marshal_children m fs vs) (with_attrs fs vs) = Some vs.
Proof.
  induction 1 as [|[f t] v fs vs Hf Hfs IH]; [done|]. cbn [fst snd] in Hf. intros D. cbn [marshal_children with_attrs].
  rewrite elem_keys_cons in D. apply list.NoDup_app in D as (_ & D1 & D2). rewrite foldM_app.
  assert (E : foldM (assign u ((f, t) :: fs)) (if f_attr f then [] else wrap f v (m t (f_omitempty f) (f_name f) v))
    ((if f_attr f then v else zero t) :: with_attrs fs vs) = Some (v :: with_attrs fs vs)).
  { destruct (f_attr f) eqn:A; [done|]. destruct (Hf eq_refl) as [[F R] V]. destruct (f_parent f) as [p|] eqn:P.
    - rewrite (wrap_parent f v p) by (done || by apply V). cbn [foldM]. rewrite (assign_parent u f t fs _ _ p); [by rewrite R|done|done|].
      eapply list.Forall_impl; [exact F|]. intros n [En Nn]. split; [done|]. by rewrite named_spec, Nn, bool_decide_eq_true_2.
    - rewrite wrap_none by done. rewrite (foldM_lift (u t) _ (fun x => x :: with_attrs fs vs)); [by rewrite R|]. intros x n Hn.
      rewrite list.Forall_forall in F. destruct (F n Hn) as [En Nn]. apply assign_here; [done|done|]. by rewrite named_spec, Nn, bool_decide_eq_true_2. }
  rewrite E, (foldM_lift (assign u fs) _ (cons v)); [by rewrite IH|]. intros x n Hn. apply assign_skip. intros A.
  pose proof (children_named m u fs vs Hfs) as C. rewrite list.Forall_forall in C. destruct (C n Hn) as [En Nn].
  rewrite named_spec by done. apply bool_decide_eq_false_2. intros K. rewrite K in Nn. apply (D1 (key f)); [|done]. rewrite A. set_solver.
Qed.

(** The same for attributes. *)
Definition prints_attrs : list (field * ty) -> list val -> Prop :=
  Forall2 (fun f v => f_attr (fst f) = true ->
    match marshal_attr (fst f) v with
    | [] => v = zero (snd f)
    | [(n, x)] => n = f_name (fst f) /\ copyValue (snd f) x = Some v
    | _ => False
    end).

Lemma assign_attr_none fs vs a : fst a ∉ attr_names fs -> length fs = length vs -> assign_attr fs vs a = Some vs.
Proof.
  revert vs. induction fs as [|[f t] fs IH]; intros vs N L; [by destruct vs|]. destruct vs as [|v vs]; [done|]. injection L as L.
  rewrite attr_names_cons in N. cbn [assign_attr]. rewrite (IH vs) by (done || set_solver). destruct (f_attr f); [|done].
  rewrite bool_decide_eq_false_2 by (intros E; apply N; rewrite E; set_solver). done.
Qed.

Lemma attrs_named fs vs : prints_attrs fs vs -> Forall (fun a => fst a ∈ attr_names fs) (marshal_attrs fs vs).
Proof.
  induction 1 as [|[f t] v fs vs Hf _ IH]; [constructor|]. cbn [fst snd] in Hf. cbn [marshal_attrs]. rewrite attr_names_cons. apply Forall_app. split.
  - destruct (f_attr f); [|constructor]. specialize (Hf eq_refl). destruct (marshal_attr f v) as [|[n x] [|]]; [constructor| |done].
    destruct Hf as [-> _]. constructor; [|constructor]. set_solver.
  - eapply list.Forall_impl; [exact IH|]. intros a Ha. set_solver.
Qed.

Lemma with_attrs_length fs vs : length fs = length vs -> length (with_attrs fs vs) = length fs.
Proof. revert vs. induction fs as [|[f t] fs IH]; intros [|v vs] L; try done. injection L as L. cbn [with_attrs length]. by rewrite IH. Qed.

Lemma attrs_read fs vs : prints_attrs fs vs -> NoDup (attr_names fs) ->
  foldM (assign_attr fs) (marshal_attrs fs vs) (map (fun f => zero (snd f)) fs) = Some (with_attrs fs vs).
Proof.
  induction 1 as [|[f t] v fs vs Hf Hfs IH]; [done|]. cbn [fst snd] in Hf. intros D. cbn [marshal_attrs with_attrs map snd].
  rewrite attr_names_cons in D. apply list.NoDup_app in D as (_ & D1 & D2). rewrite foldM_app.
  assert (E : foldM (assign_attr ((f, t) :: fs)) (if f_attr f then marshal_attr f v else []) (zero t :: map (fun f => zero (snd f)) fs) =
    Some ((if f_attr f then v else zero t) :: map (fun f => zero (snd f)) fs)).
  { destruct (f_attr f) eqn:A; [|done]. specialize (Hf eq_refl). destruct (marshal_attr f v) as [|[n x] [|]]; [by rewrite Hf| |done].
    destruct Hf as [-> R]. cbn [foldM assign_attr fst snd]. rewrite A, bool_decide_eq_true_2 by done. cbn [andb]. rewrite R. cbn [mbind option_bind].
    rewrite assign_attr_none; [done| |by rewrite length_map]. cbn [fst]. apply D1. set_solver. }
  rewrite E, (foldM_lift (assign_attr fs) _ (cons (if f_attr f then v else zero t))); [by rewrite IH|]. intros x a Ha.
  pose proof (attrs_named fs vs Hfs) as C. rewrite list.Forall_forall in C. specialize (C a Ha). cbn [assign_attr].
  destruct (f_attr f) eqn:A; cbn [andb]; [|by destruct (assign_attr fs x a)].
  rewrite bool_decide_eq_false_2; [by destruct (assign_attr fs x a)|]. intros K. apply (D1 (f_name f)); [set_solver|]. by rewrite K.
Qed.

(** *** What is printed is read back *)

Definition elements (ns : list node) : Prop := Forall (fun n => is_elem n = true /\ clean_node n) ns.

Lemma elements_clean ns : elements ns -> clean_nodes ns.
Proof. induction 1 as [|[name attrs cs|s] ns [E C] _ IH]; [constructor|by constructor|done]. Qed.

Lemma chars_clean s : xml_text s -> clean_nodes (chars s).
Proof. intros X. destruct s as [|b s]; [constructor|]. by constructor. Qed.

Lemma flat_one t name v : flat t = true -> exists n, marshal t false name v = [n].
Proof. destruct t; try done; intros _; by eexists. Qed.

Lemma elems_all ns : Forall (fun n => is_elem n = true) ns -> elems ns = ns.
Proof. unfold elems. induction 1 as [|n ns E _ IH]; [done|]. cbn [List.filter]. by rewrite E, IH. Qed.

(** A field of a type, as the induction gives it. *)
Definition field_prints (t : ty) : Prop := schema_ok t = true -> flat (inner t) = true ->
  forall v omit name, good t v -> name_fits (label (inner t)) name = true -> xml_name name = true ->
    (omit && isEmptyValue v = true -> v = zero t) -> (is_slice t = true -> omit = false) ->
    prints unmarshal t v name (marshal t omit name v) /\ elements (marshal t omit name v).

Lemma scalar_prints t : scalar t = true -> field_prints t.
Proof.
  intros S O _ v omit name G _ N Z _. rewrite marshal_scalar by done. destruct (omit && isEmptyValue v).
  { rewrite (Z eq_refl). split; [split; [constructor|done]|constructor]. }
  destruct (simple_read t v S O G) as [R X]. split; [split|].
  - by constructor.
  - cbn [foldM]. by rewrite unmarshal_scalar, chardata_chars, R.
  - constructor; [|constructor]. split; [done|]. constructor; [done|constructor|by apply chars_clean].
Qed.

Lemma pointer_prints t : field_prints t -> field_prints (TPointer t).
Proof.
  intros IH O F v omit name G L N Z _. destruct v as [| | | |v| |]; try done.
  - assert (E : marshal (TPointer t) omit name VNil = []) by (cbn [marshal]; by destruct (omit && _)). rewrite E. split; [split; [constructor|done]|constructor].
  - assert (E : marshal (TPointer t) omit name (VRef v) = marshal t false name v) by (cbn [marshal]; by rewrite andb_false_r). rewrite E.
    cbn [inner] in F, L. assert (Fi : inner t = t) by (by destruct t). cbn [schema_ok good] in O, G.
    destruct (IH O ltac:(by rewrite Fi) v false name G ltac:(by rewrite Fi) N ltac:(done) ltac:(done)) as [[P1 P2] P3]. split; [split|]; [done| |done].
    destruct (flat_one t name v F) as [n En]. rewrite En in *. apply list.Forall_cons in P1 as [[P1 _] _]. destruct n as [nm attrs cs|]; [|done].
    cbn [foldM] in *. cbn [zero]. destruct (unmarshal t (zero t) (Elem nm attrs cs)) as [v1|] eqn:U; [|done]. injection P2 as ->. cbn [unmarshal].
    change (match nm, attrs, cs with _, _, _ => unmarshal t (zero t) (Elem nm attrs cs) end) with (unmarshal t (zero t) (Elem nm attrs cs)). by rewrite U.
Qed.

Lemma slice_prints t : field_prints t -> field_prints (TSlice t).
Proof.
  intros IH O F v omit name G L N _ S. rewrite (S eq_refl). destruct v as [| | | | |l|]; try done. cbn [good inner schema_ok] in *.
  assert (Fi : inner t = t) by (by destruct t).
  assert (E : marshal (TSlice t) false name (VList l) = concat (map (marshal t false name) l)) by done. rewrite E. clear E S.
  assert (K : Forall (fun n => is_elem n = true /\ node_name n = name) (concat (map (marshal t false name) l)) /\
    (forall acc, foldM (unmarshal (TSlice t)) (concat (map (marshal t false name) l)) (VList acc) = Some (VList (acc ++ l))) /\
    elements (concat (map (marshal t false name) l))).
  { induction G as [|v l Gv _ [I1 [I2 I3]]]; [split; [constructor|]; split; [intros acc; by rewrite app_nil_r|constructor]|].
    destruct (IH O ltac:(by rewrite Fi) v false name Gv ltac:(by rewrite Fi) N ltac:(done) ltac:(by destruct t)) as [[P1 P2] P3]. cbn [map concat].
    split; [by apply Forall_app|]. split; [|by apply Forall_app]. intros acc. rewrite foldM_app.
    destruct (flat_one t name v F) as [n En]. rewrite En in *. apply list.Forall_cons in P1 as [[P1 _] _]. destruct n as [nm attrs cs|]; [|done].
    cbn [foldM] in *. destruct (unmarshal t (zero t) (Elem nm attrs cs)) as [v1|] eqn:U; [|done]. injection P2 as ->. cbn [unmarshal]. rewrite U.
    cbn [mbind option_bind]. by rewrite I2, <- app_assoc. }
  destruct K as (K1 & K2 & K3). split; [split; [done|apply K2]|done].
Qed.

Lemma goods_length g fs vs : goods g fs vs -> length fs = length vs.
Proof. revert vs. induction fs as [|[f t] fs IH]; intros [|v vs] G; try done. destruct G as (_ & _ & G). cbn [length]. f_equal. by apply IH. Qed.

Lemma struct_fields fs vs : Forall (fun f => field_prints (snd f)) fs -> forallb (fun f => field_ok (fst f) (snd f) && schema_ok (snd f)) fs = true ->
  goods good fs vs ->
  prints_all unmarshal marshal fs vs /\ prints_attrs fs vs /\ elements (marshal_children marshal fs vs) /\ Forall attr_ok (marshal_attrs fs vs).
Proof.
  intros F. revert vs. induction F as [|[f t] fs Hf _ IH]; intros [|v vs] O G; try done.
  { split; [constructor|]. split; [constructor|]. split; constructor. }
  cbn [forallb fst snd] in O. apply andb_true_iff in O as [O Os]. apply andb_true_iff in O as [K O]. destruct G as (G & Z & Gs).
  destruct (IH vs Os Gs) as (I1 & I2 & I3 & I4). unfold field_ok in K. rewrite !andb_true_iff in K. destruct K as [[[[[K1 K2] K3] K4] K5] K6].
  cbn [snd] in Hf. cbn [marshal_children marshal_attrs].
  assert (P : prints unmarshal t v (f_name f) (marshal t (f_omitempty f) (f_name f) v) /\ elements (marshal t (f_omitempty f) (f_name f) v)).
  { apply Hf; [done..|]. intros S. rewrite S in K6. by apply negb_true_iff in K6. }
  destruct P as [P1 P2]. assert (V : f_parent f <> None -> v <> VNil).
  { intros N ->. destruct (is_slice t) eqn:S; [by destruct t|]. by apply bool_decide_eq_true in K6. }
  assert (A : f_attr f = true -> match marshal_attr f v with [] => v = zero t | [(n, x)] => n = f_name f /\ copyValue t x = Some v /\ xml_text x | _ => False end).
  { intros A. rewrite A in K5. rewrite !andb_true_iff in K5. destruct K5 as [[K5 K7] _]. unfold marshal_attr.
    destruct (f_omitempty f && isEmptyValue v); [by apply Z|]. destruct (scalar t) eqn:S.
    - destruct (simple_read t v S O G) as [R X]. destruct v; try done; by destruct t.
    - destruct t as [| | | |t|t|]; try done. destruct v as [| | | |v| |]; try done. split; [done|]. cbn [schema_ok good copyValue inner] in *.
      destruct (simple_read t v K5 O G) as [R X]. by rewrite R. }
  split; [|split; [|split]].
  - constructor; [|done]. intros _. split; [exact P1|exact V].
  - constructor; [|done]. cbn [fst snd]. intros B. specialize (A B). destruct (marshal_attr f v) as [|[n x] [|]]; [done| |done]. by destruct A as (? & ? & _).
  - apply Forall_app. split; [|done]. destruct (f_attr f); [constructor|]. destruct (f_parent f) as [p|] eqn:E.
    + rewrite (wrap_parent f v p) by (done || by apply V). constructor; [|constructor]. split; [done|].
      constructor; [unfold key in K2; by rewrite E in K2|constructor|by apply elements_clean].
    + by rewrite wrap_none.
  - apply Forall_app. split; [|done]. destruct (f_attr f); [|constructor]. specialize (A eq_refl).
    destruct (marshal_attr f v) as [|[n x] [|]]; [constructor| |done]. destruct A as (-> & _ & X). constructor; [|constructor]. by split.
Qed.

Lemma struct_prints xn fs : Forall (fun f => field_prints (snd f)) fs -> field_prints (TStruct xn fs).
Proof.
  intros F O _ v omit name G L N _ _. destruct v as [| | | | | |vs]; try done. cbn [good] in G. cbn [schema_ok] in O. rewrite !andb_true_iff in O.
  destruct O as [[[O1 O2] O3] O4]. apply distinct_spec in O2, O3. destruct (struct_fields fs vs F O4 G) as (P1 & P2 & P3 & P4).
  assert (M : marshal (TStruct xn fs) omit name (VStruct vs) = [Elem name (marshal_attrs fs vs) (marshal_children marshal fs vs)]).
  { cbn [marshal isEmptyValue values_of]. rewrite andb_false_r. cbn [inner label] in L. destruct xn as [x|]; [|done]. cbn [name_fits] in L.
    apply bool_decide_eq_true in L as ->. done. }
  rewrite M. split; [split|].
  - constructor; [done|constructor].
  - cbn [foldM unmarshal inner label] in *. rewrite L. cbn [negb]. cbn [zero values_of]. rewrite attrs_read by done. cbn [mbind option_bind].
    rewrite elems_all by (eapply list.Forall_impl; [exact P3|]; by intros n [? _]). by rewrite children_read.
  - constructor; [|constructor]. split; [done|]. constructor; [done|done|by apply elements_clean].
Qed.

Lemma marshal_prints t : field_prints t.
Proof. induction t using ty_induction; [by apply scalar_prints|by apply pointer_prints|by apply slice_prints|by apply struct_prints]. Qed.

(** [xml.Unmarshal] into the type of a struct gives the value [xml.Marshal] printed. *)
Lemma tree_read x fs v : schema_ok (TStruct (Some x) fs) = true -> good (TStruct (Some x) fs) v ->
  exists attrs cs, marshal (TStruct (Some x) fs) false [] v = [Elem x attrs cs] /\ clean_node (Elem x attrs cs) /\
    unmarshal (TStruct (Some x) fs) (zero (TStruct (Some x) fs)) (Elem x attrs cs) = Some v.
Proof.
  intros O G. pose proof O as O'. cbn [schema_ok] in O'. rewrite !andb_true_iff in O'. destruct O' as [[[N _] _] _].
  destruct (marshal_prints _ O eq_refl v false x G ltac:(cbn; by rewrite bool_decide_eq_true_2) N ltac:(done) ltac:(done)) as [[P1 P2] P3].
  assert (M : marshal (TStruct (Some x) fs) false [] v = marshal (TStruct (Some x) fs) false x v) by done. rewrite M.
  destruct (flat_one (TStruct (Some x) fs) x v eq_refl) as [n En]. rewrite En in *. apply list.Forall_cons in P1 as [[E1 E2] _].
  apply list.Forall_cons in P3 as [[_ C] _]. destruct n as [nm attrs cs|]; [|done]. cbn [node_name] in E2. subst nm. exists attrs, cs.
  split; [done|]. split; [done|]. cbn [foldM] in P2. by destruct (unmarshal _ _ _).
Qed.

Lemma Unmarshal_Marshal x fs v rest : schema_ok (TStruct (Some x) fs) = true -> good (TStruct (Some x) fs) v ->
  Unmarshal (TStruct (Some x) fs) (Marshal (TStruct (Some x) fs) v ++ rest) = Some v.
Proof.
  intros O G. destruct (tree_read x fs v O G) as (attrs & cs & E & C & U). unfold Unmarshal, Marshal. rewrite E. cbn [map concat].
  rewrite app_nil_r, root_printed by done. exact U.
Qed.

End Good.

(** ** Reading by name

    In a type whose names are distinct every field is read from the elements and
    attributes that are named so, whatever stands between them. *)

Section ByName.

Context `{GoXml}.

Definition the (p : text) (ns : list node) : list node := List.filter (named p) ns.
Definition the_attr (p : text) (attrs : list (text * text)) : list (text * text) := List.filter (fun a => bool_decide (p = fst a)) attrs.

Definition read_elem (u : ty -> val -> node -> option val) (f : field) (t : ty) (cs : list node) (v : val) : option val :=
  if f_attr f then Some v else
  match f_parent f with
  | None => foldM (u t) (the (f_name f) cs) v
  | Some p => foldM (fun v n => foldM (u t) (the (f_name f) (elems (children_of n))) v) (the p cs) v
  end.

Fixpoint read_elems (u : ty -> val -> node -> option val) (fs : list (field * ty)) (vs : list val) (cs : list node) : option (list val) :=
  match fs, vs with
  | (f, t) :: fs', v :: vs' => x ← read_elem u f t cs v; r ← read_elems u fs' vs' cs; Some (x :: r)
  | _, _ => Some vs
  end.

Definition read_attr (f : field) (t : ty) (attrs : list (text * text)) (v : val) : option val :=
  if f_attr f then foldM (fun _ a => copyValue t (snd a)) (the_attr (f_name f) attrs) v else Some v.

Fixpoint read_attrs (fs : list (field * ty)) (vs : list val) (attrs : list (text * text)) : option (list val) :=
  match fs, vs with
  | (f, t) :: fs', v :: vs' => x ← read_attr f t attrs v; r ← read_attrs fs' vs' attrs; Some (x :: r)
  | _, _ => Some vs
  end.

Lemma read_elems_nil u fs vs : read_elems u fs vs [] = Some vs.
Proof.
  revert vs. induction fs as [|[f t] fs IH]; intros [|v vs]; try done. cbn [read_elems]. rewrite IH. unfold read_elem.
  destruct (f_attr f); [done|]. by destruct (f_parent f).
Qed.

Lemma read_attrs_nil fs vs : read_attrs fs vs [] = Some vs.
Proof.
  revert vs. induction fs as [|[f t] fs IH]; intros [|v vs]; try done. cbn [read_attrs]. rewrite IH. unfold read_attr.
  by destruct (f_attr f).
Qed.

(** A node that belongs to no field changes none. *)
Lemma read_elem_other u f t n cs v : (f_attr f = false -> named (key f) n = false) -> read_elem u f t (n :: cs) v = read_elem u f t cs v.
Proof.
  intros N. unfold read_elem, key in *. destruct (f_attr f); [done|]. specialize (N eq_refl). unfold the. destruct (f_parent f) as [p|]; cbn [default] in N; unfold id in N;
    cbn [List.filter]; by rewrite N.
Qed.

Lemma read_elems_other u fs vs n cs : Forall (fun f => f_attr (fst f) = false -> named (key (fst f)) n = false) fs ->
  read_elems u fs vs (n :: cs) = read_elems u fs vs cs.
Proof.
  intros F. revert vs. induction F as [|[f t] fs N _ IH]; intros [|v vs]; try done. cbn [read_elems]. rewrite IH.
  by rewrite read_elem_other.
Qed.

Lemma below_other u p fs vs n : Forall (fun f => f_attr (fst f) = false -> key (fst f) <> p) fs -> assign_below u p fs vs n = Some vs.
Proof.
  intros F. revert vs. induction F as [|[f t] fs N _ IH]; intros [|v vs]; try done. cbn [assign_below fst] in *. rewrite IH.
  destruct (f_attr f); [done|]. cbn [negb andb]. rewrite bool_decide_eq_false_2; [done|]. intros E. apply (N eq_refl). unfold key. by rewrite E.
Qed.

Lemma keys_differ f t fs : NoDup (elem_keys ((f, t) :: fs)) -> f_attr f = false -> Forall (fun g => f_attr (fst g) = false -> key (fst g) <> key f) fs.
Proof.
  rewrite elem_keys_cons. intros D A. rewrite A in D. apply list.NoDup_cons in D as [D _]. apply list.Forall_forall. intros [g u] Hg B E. apply D.
  unfold elem_keys. apply list_elem_of_In, in_map_iff. exists (g, u). split; [done|]. apply filter_In. split; [by apply list_elem_of_In|]. cbn [fst] in *. by rewrite B.
Qed.

Lemma assign_step u fs vs n cs : NoDup (elem_keys fs) -> is_elem n = true ->
  read_elems u fs vs (n :: cs) = vs' ← assign u fs vs n; read_elems u fs vs' cs.
Proof.
  intros D E. revert vs. induction fs as [|[f t] fs IH]; intros [|v vs]; try done.
  assert (D' : NoDup (elem_keys fs)) by (rewrite elem_keys_cons in D; by apply list.NoDup_app in D as (_ & _ & D)). specialize (IH D').
  destruct (f_attr f) eqn:A.
  { cbn [assign read_elems]. rewrite A, IH. unfold read_elem. rewrite A. cbn [mbind option_bind]. destruct (assign u fs vs n) as [vs'|]; [|done].
    cbn [mbind option_bind read_elems]. by unfold read_elem; rewrite ?A. }
  destruct (named (key f) n) eqn:N.
  - assert (O : Forall (fun g => f_attr (fst g) = false -> named (key (fst g)) n = false) fs).
    { eapply list.Forall_impl; [by apply (keys_differ f t)|]. intros g G B. rewrite named_spec in * by done. apply bool_decide_eq_true in N.
      apply bool_decide_eq_false. intros K. apply (G B). congruence. }
    cbn [read_elems]. rewrite (read_elems_other u fs vs n cs O). unfold key in N. cbn [assign]. rewrite A. unfold read_elem at 1. rewrite A.
    destruct (f_parent f) as [p|] eqn:P; cbn [default] in N; unfold id in N; unfold the; cbn [List.filter]; rewrite N; cbn [foldM].
    + assert (B : foldM (assign_below u p ((f, t) :: fs)) (elems (children_of n)) (v :: vs) =
        (fun x => x :: vs) <$> foldM (u t) (List.filter (named (f_name f)) (elems (children_of n))) v).
      { assert (K : Forall (fun g => f_attr (fst g) = false -> key (fst g) <> p) fs).
        { pose proof (keys_differ f t fs D A) as K. unfold key in K at 2. by rewrite P in K. }
        assert (S : forall w m, assign_below u p ((f, t) :: fs) (w :: vs) m = if named (f_name f) m then (fun x => x :: vs) <$> u t w m else Some (w :: vs)).
        { intros w m. cbn [assign_below]. rewrite A, P, bool_decide_eq_true_2, below_other by done. by destruct (named (f_name f) m). }
        generalize v. induction (elems (children_of n)) as [|m l IHl]; intros w; [done|]. cbn [foldM List.filter]. rewrite S.
        destruct (named (f_name f) m); [|apply IHl]. cbn [foldM]. destruct (u t w m); [apply IHl|done]. }
      rewrite B. destruct (foldM (u t) (List.filter (named (f_name f)) (elems (children_of n))) v) as [x|]; [|done].
      cbn [fmap option_fmap option_map mbind option_bind read_elems]. unfold read_elem. by rewrite A, P.
    + destruct (u t v n) as [x|]; [|done]. cbn [mbind option_bind read_elems]. unfold read_elem. by rewrite A, P.
  - rewrite assign_skip by done. cbn [read_elems]. rewrite read_elem_other by done. rewrite IH.
    destruct (assign u fs vs n) as [vs'|]; cbn [fmap option_fmap option_map mbind option_bind read_elems]; [done|]. by destruct (read_elem u f t cs v).
Qed.

Lemma assign_all u fs cs vs : NoDup (elem_keys fs) -> foldM (assign u fs) (elems cs) vs = read_elems u fs vs (elems cs).
Proof.
  intros D. assert (E : Forall (fun n => is_elem n = true) (elems cs)).
  { apply List.Forall_forall. intros n Hn. by apply filter_In in Hn as [_ ?]. }
  revert vs. induction E as [|n l E _ IH]; intros vs; [by rewrite read_elems_nil|]. cbn [foldM]. rewrite assign_step by done.
  destruct (assign u fs vs n) as [vs'|]; [apply IH|done].
Qed.

Lemma assign_attr_step fs vs a attrs : NoDup (attr_names fs) ->
  read_attrs fs vs (a :: attrs) = vs' ← assign_attr fs vs a; read_attrs fs vs' attrs.
Proof.
  revert vs. induction fs as [|[f t] fs IH]; intros [|v vs] D; try done.
  assert (D' : NoDup (attr_names fs)) by (rewrite attr_names_cons in D; by apply list.NoDup_app in D as (_ & _ & D)).
  cbn [assign_attr read_attrs]. rewrite (IH vs D'). unfold read_attr at 1, the_attr. destruct (f_attr f) eqn:A; cbn [andb].
  - cbn [List.filter]. destruct (decide (f_name f = fst a)) as [E|E].
    + rewrite !bool_decide_eq_true_2 by done. cbn [foldM]. destruct (copyValue t (snd a)) as [x|]; [|done]. cbn [mbind option_bind].
      destruct (assign_attr fs vs a) as [vs'|]; cbn [mbind option_bind read_attrs]; unfold read_attr, the_attr; rewrite ?A; [done|].
      by destruct (foldM _ _ x).
    + rewrite !bool_decide_eq_false_2 by done. destruct (assign_attr fs vs a) as [vs'|]; cbn [mbind option_bind read_attrs]; unfold read_attr, the_attr; rewrite ?A; [done|].
      by destruct (foldM _ _ v).
  - cbn [mbind option_bind]. destruct (assign_attr fs vs a) as [vs'|]; cbn [mbind option_bind read_attrs]; [|done]. unfold read_attr. by rewrite A.
Qed.

Lemma assign_attr_all fs attrs vs : NoDup (attr_names fs) -> foldM (assign_attr fs) attrs vs = read_attrs fs vs attrs.
Proof.
  intros D. revert vs. induction attrs as [|a attrs IH]; intros vs; [by rewrite read_attrs_nil|]. cbn [foldM]. rewrite assign_attr_step by done.
  destruct (assign_attr fs vs a) as [vs'|]; [apply IH|done].
Qed.

Lemma unmarshal_by_name xn fs old name attrs cs : distinct (elem_keys fs) = true -> distinct (attr_names fs) = true ->
  unmarshal (TStruct xn fs) old (Elem name attrs cs) =
    if name_fits xn name then vs ← read_attrs fs (values_of old) attrs; VStruct <$> read_elems unmarshal fs vs (elems cs) else None.
Proof.
  intros D1 D2. apply distinct_spec in D1, D2. cbn [unmarshal]. destruct (name_fits xn name); [|done]. cbn [negb].
  rewrite assign_attr_all by done. destruct (read_attrs fs (values_of old) attrs) as [vs|]; [|done]. cbn [mbind option_bind].
  rewrite assign_all by done. by destruct (read_elems unmarshal fs vs (elems cs)).
Qed.

End ByName.

(** *** One type read as another *)

Section Cross.

Context `{FloatLaws}.

(** What a type prints under a name. *)
Fixpoint pick (p : text) (fs : list (field * ty)) (vs : list val) : list node :=
  match fs, vs with
  | (f, t) :: fs', v :: vs' =>
      if negb (f_attr f) && bool_decide (key f = p) then wrap f v (marshal t (f_omitempty f) (f_name f) v) else pick p fs' vs'
  | _, _ => []
  end.

Fixpoint pick_attr (p : text) (fs : list (field * ty)) (vs : list val) : list (text * text) :=
  match fs, vs with
  | (f, _) :: fs', v :: vs' => if f_attr f && bool_decide (f_name f = p) then marshal_attr f v else pick_attr p fs' vs'
  | _, _ => []
  end.

Lemma filter_all {A} (p : A -> bool) l : Forall (fun x => p x = true) l -> List.filter p l = l.
Proof. induction 1 as [|x l E _ IH]; [done|]. cbn [List.filter]. by rewrite E, IH. Qed.

Lemma filter_none {A} (p : A -> bool) l : Forall (fun x => p x = false) l -> List.filter p l = [].
Proof. induction 1 as [|x l E _ IH]; [done|]. cbn [List.filter]. by rewrite E, IH. Qed.

Lemma the_children u p fs vs : prints_all u marshal fs vs -> NoDup (elem_keys fs) -> the p (marshal_children marshal fs vs) = pick p fs vs.
Proof.
  induction 1 as [|[f t] v fs vs Hf Hfs IH]; [done|]. cbn [fst snd] in Hf. intros D. cbn [marshal_children pick].
  rewrite elem_keys_cons in D. apply list.NoDup_app in D as (_ & D1 & D2). unfold the. rewrite List.filter_app. fold (the p (marshal_children marshal fs vs)).
  destruct (f_attr f) eqn:A; cbn [negb andb]; [by apply IH|]. destruct (Hf eq_refl) as [[F _] V].
  assert (W : Forall (fun n => is_elem n = true /\ node_name n = key f) (wrap f v (marshal t (f_omitempty f) (f_name f) v))).
  { unfold key. destruct (f_parent f) as [q|] eqn:P; [rewrite (wrap_parent f v q) by (done || by apply V)|rewrite wrap_none by done; exact F].
    constructor; [done|constructor]. }
  destruct (decide (key f = p)) as [E|E].
  - rewrite bool_decide_eq_true_2, filter_all by (done || (eapply list.Forall_impl; [exact W|]; intros n [En Nn]; rewrite named_spec by done; apply bool_decide_eq_true_2; congruence)).
    unfold the. rewrite filter_none; [by rewrite app_nil_r|]. eapply list.Forall_impl; [by apply (children_named marshal u fs vs)|].
    intros n [En Nn]. rewrite named_spec by done. apply bool_decide_eq_false_2. intros K. apply (D1 (key f)); [set_solver|]. rewrite E, <- K. done.
  - rewrite bool_decide_eq_false_2, filter_none by (done || (eapply list.Forall_impl; [exact W|]; intros n [En Nn]; rewrite named_spec by done; apply bool_decide_eq_false_2; congruence)).
    by apply IH.
Qed.

Lemma the_attrs p fs vs : prints_attrs fs vs -> NoDup (attr_names fs) -> the_attr p (marshal_attrs fs vs) = pick_attr p fs vs.
Proof.
  induction 1 as [|[f t] v fs vs Hf Hfs IH]; [done|]. cbn [fst snd] in Hf. intros D. cbn [marshal_attrs pick_attr].
  rewrite attr_names_cons in D. apply list.NoDup_app in D as (_ & D1 & D2). unfold the_attr. rewrite List.filter_app. fold (the_attr p (marshal_attrs fs vs)).
  destruct (f_attr f) eqn:A; cbn [andb]; [|by apply IH]. specialize (Hf eq_refl).
  assert (W : Forall (fun a => fst a = f_name f) (marshal_attr f v)).
  { destruct (marshal_attr f v) as [|[n x] [|]]; [constructor| |done]. constructor; [by destruct Hf|constructor]. }
  destruct (decide (f_name f = p)) as [E|E].
  - rewrite bool_decide_eq_true_2, filter_all by (done || (eapply list.Forall_impl; [exact W|]; intros a Ea; apply bool_decide_eq_true_2; congruence)).
    unfold the_attr. rewrite filter_none; [by rewrite app_nil_r|]. eapply list.Forall_impl; [by apply (attrs_named fs vs)|].
    intros a Na. apply bool_decide_eq_false_2. intros K. cbn beta in Na. apply (D1 (f_name f)); [set_solver|]. by rewrite E, K.
  - rewrite bool_decide_eq_false_2, filter_none by (done || (eapply list.Forall_impl; [exact W|]; intros a Ea; apply bool_decide_eq_false_2; congruence)).
    by apply IH.
Qed.

(** The fields of one type from what another prints. *)
Definition cross_elem (fsA : list (field * ty)) (vsA : list val) (f : field) (t : ty) (v : val) : option val :=
  if f_attr f then Some v else
  match f_parent f with
  | None => foldM (unmarshal t) (pick (f_name f) fsA vsA) v
  | Some p => foldM (fun v n => foldM (unmarshal t) (the (f_name f) (elems (children_of n))) v) (pick p fsA vsA) v
  end.

Definition cross_attr (fsA : list (field * ty)) (vsA : list val) (f : field) (t : ty) (v : val) : option val :=
  if f_attr f then foldM (fun _ a => copyValue t (snd a)) (pick_attr (f_name f) fsA vsA) v else Some v.

Fixpoint cross (fsA : list (field * ty)) (vsA : list val) (fs : list (field * ty)) : option (list val) :=
  match fs with
  | [] => Some []
  | (f, t) :: fs' => x ← cross_attr fsA vsA f t (zero t); y ← cross_elem fsA vsA f t x; r ← cross fsA vsA fs'; Some (y :: r)
  end.

Lemma cross_read x fsA vsA xn fsB name : schema_ok (TStruct x fsA) = true -> good (TStruct x fsA) (VStruct vsA) ->
  distinct (elem_keys fsB) = true -> distinct (attr_names fsB) = true -> name_fits xn name = true ->
  unmarshal (TStruct xn fsB) (zero (TStruct xn fsB)) (Elem name (marshal_attrs fsA vsA) (marshal_children marshal fsA vsA)) =
  VStruct <$> cross fsA vsA fsB.
Proof.
  intros O G D1 D2 N. rewrite unmarshal_by_name, N by done. cbn [zero values_of good] in *. cbn [schema_ok] in O. rewrite !andb_true_iff in O.
  destruct O as [[[_ O1] O2] O3]. apply distinct_spec in O1, O2. destruct (struct_fields fsA vsA) as (P & PA & E & _); [|done|done|].
  { apply list.Forall_forall. intros f _. apply marshal_prints. }
  rewrite elems_all by (eapply list.Forall_impl; [exact E|]; by intros n [? _]).
  assert (R1 : forall f t v, read_attr f t (marshal_attrs fsA vsA) v = cross_attr fsA vsA f t v).
  { intros f t v. unfold read_attr, cross_attr. destruct (f_attr f); [|done]. by rewrite the_attrs. }
  assert (R2 : forall f t v, read_elem unmarshal f t (marshal_children marshal fsA vsA) v = cross_elem fsA vsA f t v).
  { intros f t v. unfold read_elem, cross_elem. destruct (f_attr f); [done|]. destruct (f_parent f); by rewrite (the_children unmarshal). }
  clear -R1 R2. assert (K : forall fs, (vs ← read_attrs fs (map (fun f => zero (snd f)) fs) (marshal_attrs fsA vsA);
    read_elems unmarshal fs vs (marshal_children marshal fsA vsA)) = cross fsA vsA fs).
  { induction fs as [|[f t] fs IH]; [done|]. cbn [map read_attrs cross snd]. rewrite R1, <- IH. destruct (cross_attr fsA vsA f t (zero t)) as [y|]; [|done].
    cbn [mbind option_bind]. destruct (read_attrs fs _ _) as [r|]; cbn [mbind option_bind read_elems]; rewrite ?R2; [done|].
    by destruct (cross_elem fsA vsA f t y). }
  rewrite <- K. by destruct (read_attrs fsB _ _).
Qed.

(** *** The fields two types share *)

Fixpoint find_elem (p : text) (fs : list (field * ty)) (vs : list val) : option (field * ty * val) :=
  match fs, vs with
  | (f, t) :: fs', v :: vs' => if negb (f_attr f) && bool_decide (key f = p) then Some (f, t, v) else find_elem p fs' vs'
  | _, _ => None
  end.

Fixpoint find_attr (p : text) (fs : list (field * ty)) (vs : list val) : option (field * ty * val) :=
  match fs, vs with
  | (f, t) :: fs', v :: vs' => if f_attr f && bool_decide (f_name f = p) then Some (f, t, v) else find_attr p fs' vs'
  | _, _ => None
  end.

(** The value of a field in the other type: as it is, or what a pointer points to. *)
Definition converted (found : option (field * ty * val)) (t : ty) : val :=
  match found with
  | Some (_, TPointer _, VNil) => zero t
  | Some (_, TPointer t', VRef v) => match t with TPointer _ => VRef v | _ => v end
  | Some (_, _, v) => v
  | None => zero t
  end.

Definition convert (A B : ty) (v : val) : val :=
  VStruct (map (fun g => converted ((if f_attr (fst g) then find_attr else find_elem) (f_name (fst g)) (fields_of A) (values_of v)) (snd g)) (fields_of B)).

(** Types that can be converted: a shared field has the type or a pointer to it, and
    nothing is wrapped. *)
Fixpoint ty_of (attr : bool) (p : text) (fs : list (field * ty)) : option (option text * ty) :=
  match fs with
  | (f, t) :: fs' => if Bool.eqb (f_attr f) attr && bool_decide ((if attr then f_name f else key f) = p) then Some (f_parent f, t) else ty_of attr p fs'
  | [] => None
  end.

Definition compatible (fsA : list (field * ty)) (g : field * ty) : Prop :=
  f_parent (fst g) = None /\
  match ty_of (f_attr (fst g)) (f_name (fst g)) fsA with
  | Some (parent, t) => parent = None /\ (t = snd g \/ (t = TPointer (snd g) /\ flat (snd g) = true))
  | None => True
  end.

Lemma pick_find p fs vs : pick p fs vs = match find_elem p fs vs with Some (f, t, v) => wrap f v (marshal t (f_omitempty f) (f_name f) v) | None => [] end.
Proof. revert vs. induction fs as [|[f t] fs IH]; intros [|v vs]; try done. cbn [pick find_elem]. by destruct (negb (f_attr f) && bool_decide (key f = p)). Qed.

Lemma pick_attr_find p fs vs : pick_attr p fs vs = match find_attr p fs vs with Some (f, t, v) => marshal_attr f v | None => [] end.
Proof. revert vs. induction fs as [|[f t] fs IH]; intros [|v vs]; try done. cbn [pick_attr find_attr]. by destruct (f_attr f && bool_decide (f_name f = p)). Qed.

(** A field that was found is one of the type, with a good value. *)
Lemma found_good (attr : bool) p fs vs : goods good fs vs -> forallb (fun f => field_ok (fst f) (snd f) && schema_ok (snd f)) fs = true ->
  match (if attr then find_attr else find_elem) p fs vs with
  | Some (f, t, v) => ty_of attr p fs = Some (f_parent f, t) /\ f_attr f = attr /\ (if attr then f_name f else key f) = p /\
      good t v /\ (f_omitempty f && isEmptyValue v = true -> v = zero t) /\ field_ok f t = true /\ schema_ok t = true
  | None => ty_of attr p fs = None
  end.
Proof.
  revert vs. induction fs as [|[f t] fs IH]; intros [|v vs] G O; try (by destruct attr). destruct G as (Gv & Z & G).
  cbn [forallb fst snd] in O. apply andb_true_iff in O as [O Os]. apply andb_true_iff in O as [K O]. specialize (IH vs G Os).
  destruct attr; cbn [find_attr find_elem ty_of]; destruct (f_attr f) eqn:A; cbn [negb andb Bool.eqb]; try exact IH;
    (case_bool_decide; [by split_and!|exact IH]).
Qed.

Lemma convert_field fsA vsA g : goods good fsA vsA -> forallb (fun f => field_ok (fst f) (snd f) && schema_ok (snd f)) fsA = true ->
  compatible fsA g -> (x ← cross_attr fsA vsA (fst g) (snd g) (zero (snd g)); cross_elem fsA vsA (fst g) (snd g) x) =
    Some (converted ((if f_attr (fst g) then find_attr else find_elem) (f_name (fst g)) fsA vsA) (snd g)).
Proof.
  intros G O [P C]. pose proof (found_good (f_attr (fst g)) (f_name (fst g)) fsA vsA G O) as F. destruct g as [g t]. cbn [fst snd] in *.
  unfold cross_attr, cross_elem. rewrite pick_find, pick_attr_find, P.
  destruct (f_attr g) eqn:A.
  - destruct (find_attr (f_name g) fsA vsA) as [[[f tA] v]|]; [|by rewrite F in C]. destruct F as (T & Af & N & Gv & Z & K & S). rewrite T in C.
    destruct C as [Pf C]. assert (X : match marshal_attr f v with [] => v = zero tA | [(n, x)] => n = f_name f /\ copyValue tA x = Some v | _ => False end).
    { destruct (struct_fields [(f, tA)] [v]) as (_ & PA & _); [|cbn [forallb fst snd]; by rewrite K, S|by split|].
      { constructor; [apply marshal_prints|constructor]. }
      inversion PA as [|? ? ? ? X _]; subst. by apply X. }
    destruct (marshal_attr f v) as [|[n x] [|]] eqn:M; [| |done]; cbn [foldM mbind option_bind converted].
    + subst v. destruct C as [-> |[-> _]]; [by destruct t|done].
    + destruct X as [_ X]. cbn [snd]. destruct C as [-> |[-> Fl]].
      * rewrite X. destruct t; try done. by destruct v.
      * cbn [copyValue] in X. destruct (copyValue t x) as [w|]; [|done]. injection X as <-. by destruct t.
  - destruct (find_elem (f_name g) fsA vsA) as [[[f tA] v]|]; [|by rewrite F in C]. destruct F as (T & Af & N & Gv & Z & K & S). rewrite T in C.
    destruct C as [Pf C]. cbn [mbind option_bind]. rewrite wrap_none by done. unfold field_ok in K. rewrite !andb_true_iff in K.
    destruct K as [[[[[K1 K2] K3] K4] _] K6].
    destruct (marshal_prints tA S K3 v (f_omitempty f) (f_name f) Gv K4 K1 Z) as [[_ R] _].
    { intros L. rewrite L in K6. by apply negb_true_iff in K6. }
    cbn [converted]. destruct C as [-> |[-> Fl]].
    + rewrite R. destruct t; try done. by destruct v.
    + destruct v as [| | | |v| |]; try done.
      * cbn [marshal]. by destruct (f_omitempty f && isEmptyValue VNil).
      * cbn [marshal isEmptyValue inner schema_ok good] in *. rewrite andb_false_r in *.
        assert (Fi : inner t = t) by (by destruct t). assert (Sl : is_slice t = true -> false = false) by done.
        destruct (marshal_prints t S ltac:(by rewrite Fi) v false (f_name f) Gv ltac:(by rewrite Fi) K1 ltac:(done) Sl) as [[_ R'] _].
        rewrite R'. by destruct t.
Qed.

(** Another type reads what it shares with the one that was printed. *)
Lemma convert_read x fsA v xn fsB name : schema_ok (TStruct x fsA) = true -> good (TStruct x fsA) v ->
  distinct (elem_keys fsB) = true -> distinct (attr_names fsB) = true -> name_fits xn name = true -> Forall (compatible fsA) fsB ->
  unmarshal (TStruct xn fsB) (zero (TStruct xn fsB)) (Elem name (marshal_attrs fsA (values_of v)) (marshal_children marshal fsA (values_of v))) =
  Some (convert (TStruct x fsA) (TStruct xn fsB) v).
Proof.
  intros O G D1 D2 N C. destruct v as [| | | | | |vs]; try done. cbn [values_of]. rewrite (cross_read x) by done. cbn [schema_ok good] in O, G.
  rewrite !andb_true_iff in O. destruct O as [_ O]. unfold convert. cbn [fields_of values_of]. f_equal.
  assert (K : forall fs, Forall (compatible fsA) fs -> cross fsA vs fs = Some (map (fun g => converted ((if f_attr (fst g) then find_attr else find_elem) (f_name (fst g)) fsA vs) (snd g)) fs)).
  { induction 1 as [|[g t] fs Cg _ IH]; [done|]. cbn [cross map fst snd]. rewrite IH. pose proof (convert_field fsA vs (g, t) G O Cg) as F. cbn [fst snd] in F.
    destruct (cross_attr fsA vs g t (zero t)); [|done]. cbn [mbind option_bind] in *. by rewrite F. }
  by rewrite K.
Qed.

Lemma unmarshal_slice t l name attrs cs :
  unmarshal (TSlice t) (VList l) (Elem name attrs cs) = v ← unmarshal t (zero t) (Elem name attrs cs); Some (VList (l ++ [v])).
Proof. done. Qed.

Lemma unmarshal_pointer t name attrs cs : unmarshal (TPointer t) VNil (Elem name attrs cs) = VRef <$> unmarshal t (zero t) (Elem name attrs cs).
Proof. done. Qed.

(** The conversion field by field, for types that are not compatible as a whole. *)
Lemma cross_nil fsA vsA : cross fsA vsA [] = Some [].
Proof. done. Qed.

Lemma cross_cons fsA vsA f t fs y r : (x ← cross_attr fsA vsA f t (zero t); cross_elem fsA vsA f t x) = Some y -> cross fsA vsA fs = Some r ->
  cross fsA vsA ((f, t) :: fs) = Some (y :: r).
Proof. intros E R. cbn [cross]. destruct (cross_attr fsA vsA f t (zero t)); [|done]. cbn [mbind option_bind] in *. by rewrite E, R. Qed.

Lemma cross_same x fsA vsA f t y : schema_ok (TStruct x fsA) = true -> good (TStruct x fsA) (VStruct vsA) -> compatible fsA (f, t) ->
  converted ((if f_attr f then find_attr else find_elem) (f_name f) fsA vsA) t = y ->
  (x ← cross_attr fsA vsA f t (zero t); cross_elem fsA vsA f t x) = Some y.
Proof.
  intros O G C <-. cbn [schema_ok] in O. rewrite !andb_true_iff in O. destruct O as [_ O]. by apply (convert_field fsA vsA (f, t)).
Qed.

Lemma copy_int n : 0 <= n < 2 ^ 63 -> copyValue TInt (Itoa n) = Some (VInt n).
Proof. intros R. by destruct (simple_read TInt (VInt n) eq_refl eq_refl) as [E _]; [cbn [good]; lia|]. Qed.

(** A list of structs of one type, read as a list of another. *)
Lemma slice_converted x fsA xn fsB name items acc : schema_ok (TStruct x fsA) = true -> Forall (good (TStruct x fsA)) items ->
  default name x = name -> distinct (elem_keys fsB) = true -> distinct (attr_names fsB) = true -> name_fits xn name = true -> Forall (compatible fsA) fsB ->
  foldM (unmarshal (TSlice (TStruct xn fsB))) (concat (map (marshal (TStruct x fsA) false name) items)) (VList acc) =
  Some (VList (acc ++ map (convert (TStruct x fsA) (TStruct xn fsB)) items)).
Proof.
  intros O G Nm D1 D2 N C. revert acc. induction G as [|v items Gv _ IH]; intros acc; [by rewrite app_nil_r|]. cbn [map concat]. rewrite foldM_app.
  assert (M : marshal (TStruct x fsA) false name v = [Elem name (marshal_attrs fsA (values_of v)) (marshal_children marshal fsA (values_of v))]).
  { cbn [marshal andb]. by rewrite Nm. }
  rewrite M. cbn [foldM]. rewrite unmarshal_slice, (convert_read x) by done. cbn [mbind option_bind]. rewrite IH. by rewrite <- app_assoc.
Qed.

End Cross.

(** The conversions of the development are decided by evaluation. *)
Ltac solve_compatible := repeat first
  [ apply List.Forall_nil
  | apply List.Forall_cons;
    [split; [reflexivity|vm_compute; first [exact I|split; [reflexivity|first [left; reflexivity|right; split; reflexivity]]]]|] ].
