(* ===== verification/ManscdpTypes.v ===== *)
(** The documents of MANSCDP (manscdp/types.go, manscdp/gb2022.go): the command names,
    the messages and their parts as [encoding/xml] sees them, the constructors of the
    device's reports and the merging of attribute-form headers. *)

From S2P Require Import Prelude GoStrings GoText Xml XmlStruct.
Open Scope Z_scope.
#[local] Open Scope string_scope.

(** ** Commands *)

Definition CmdCatalog : text := txt "Catalog".
Definition CmdKeepalive : text := txt "Keepalive".
Definition CmdDeviceInfo : text := txt "DeviceInfo".
Definition CmdDeviceStatus : text := txt "DeviceStatus".
Definition CmdRecordInfo : text := txt "RecordInfo".
Definition CmdDeviceControl : text := txt "DeviceControl".
Definition CmdDeviceConfig : text := txt "DeviceConfig".
Definition CmdUploadSnapShotFinished : text := txt "UploadSnapShotFinished".
Definition CmdDeviceUpgradeResult : text := txt "DeviceUpgradeResult".
Definition CmdAlarm : text := txt "Alarm".
Definition CmdTimeSync : text := txt "TimeSync".
Definition CmdBroadcast : text := txt "Broadcast".
Definition CmdMobilePosition : text := txt "MobilePosition".
Definition CmdHomePositionQuery : text := txt "HomePositionQuery".
Definition CmdCruiseTrackListQuery : text := txt "CruiseTrackListQuery".
Definition CmdCruiseTrackQuery : text := txt "CruiseTrackQuery".
Definition CmdPTZPosition : text := txt "PTZPosition".
Definition CmdSDCardStatus : text := txt "SDCardStatus".

(** ** Messages and their parts *)

Definition Item : ty := struct_named "Item" [
    elem "DeviceID" "DeviceID" TString; elem "Name" "Name" TString; elem "ParentID" "ParentID" TString;
    elem "Parental" "Parental" TInt; elem "Status" "Status" TString; elem "Manufacturer" "Manufacturer" TString;
    elem "Model" "Model" TString; elem "Owner" "Owner" TString; elem "CivilCode" "CivilCode" TString;
    elem "Address" "Address" TString; elem "SafetyWay" "SafetyWay" TInt; elem "RegisterWay" "RegisterWay" TInt;
    elem "CertNum" "CertNum" TString; elem "Certifiable" "Certifiable" TInt; elem "ErrCode" "ErrCode" TInt;
    elem "EndTime" "EndTime" TString; elem "Secrecy" "Secrecy" TInt; elem "PTZType" "PTZType" TInt;
    elem_omitempty "PhotoelectricImagingType" "PhotoelectricImagingType" TInt].

Definition Catalog : ty := struct_named "Response" [
    elem "CmdType" "CmdType" TString; elem "SN" "SN" TInt; elem "DeviceID" "DeviceID" TString; elem "SumNum" "SumNum" TInt;
    elem_in "Item" "DeviceList" "Item" (TSlice Item); attr_omitempty "CmdTypeAttr" "CmdType" TString;
    attr_omitempty "SNAttr" "SN" TInt].

Definition Keepalive : ty := struct_named "Notify" [
    elem "CmdType" "CmdType" TString; elem "SN" "SN" TInt; elem "DeviceID" "DeviceID" TString; elem "Status" "Status" TString;
    attr_omitempty "CmdTypeAttr" "CmdType" TString; attr_omitempty "SNAttr" "SN" TInt].

Definition DeviceInfo : ty := struct_named "Response" [
    elem "CmdType" "CmdType" TString; elem "SN" "SN" TInt; elem "DeviceID" "DeviceID" TString;
    elem "DeviceName" "DeviceName" TString; elem "Manufacturer" "Manufacturer" TString; elem "Model" "Model" TString;
    elem "Firmware" "Firmware" TString; elem "Channel" "Channel" TInt; elem "Result" "Result" TString].

Definition DeviceStatus : ty := struct_named "Response" [
    elem "CmdType" "CmdType" TString; elem "SN" "SN" TInt; elem "DeviceID" "DeviceID" TString; elem "Status" "Status" TString;
    elem "Time" "Time" TString; attr_omitempty "CmdTypeAttr" "CmdType" TString; attr_omitempty "SNAttr" "SN" TInt].

Definition RecordItem : ty := struct_named "Item" [
    elem "DeviceID" "DeviceID" TString; elem "Name" "Name" TString; elem "FilePath" "FilePath" TString;
    elem "Address" "Address" TString; elem "StartTime" "StartTime" TString; elem "EndTime" "EndTime" TString;
    elem "Secrecy" "Secrecy" TInt; elem "Type" "Type" TString; elem "RecorderID" "RecorderID" TString].

Definition RecordInfo : ty := struct_named "Response" [
    elem "CmdType" "CmdType" TString; elem "SN" "SN" TInt; elem "DeviceID" "DeviceID" TString; elem "Name" "Name" TString;
    elem "SumNum" "SumNum" TInt; elem_in "RecordList" "RecordList" "Item" (TSlice RecordItem);
    attr_omitempty "CmdTypeAttr" "CmdType" TString; attr_omitempty "SNAttr" "SN" TInt].

Definition HomePositionCmd : ty := struct [
    elem "Enabled" "Enabled" (TUint 32); elem_omitempty "ResetTime" "ResetTime" (TPointer (TUint 32));
    elem_omitempty "PresetIndex" "PresetIndex" (TPointer (TUint 32))].

Definition DragZoomCmd : ty := struct [
    elem "Length" "Length" (TPointer TInt); elem "Width" "Width" (TPointer TInt); elem "MidPointX" "MidPointX" (TPointer TInt);
    elem "MidPointY" "MidPointY" (TPointer TInt); elem "LengthX" "LengthX" (TPointer TInt);
    elem "LengthY" "LengthY" (TPointer TInt)].

Definition DeviceUpgradeCmd : ty := struct [
    elem "Firmware" "Firmware" TString; elem "FileURL" "FileURL" TString; elem "Manufacturer" "Manufacturer" TString;
    elem "SessionID" "SessionID" TString].

Definition PTZPreciseCmd : ty := struct [
    elem_omitempty "Pan" "Pan" (TPointer TFloat64); elem_omitempty "Tilt" "Tilt" (TPointer TFloat64);
    elem_omitempty "Zoom" "Zoom" (TPointer TFloat64)].

Definition DeviceControl : ty := struct_named "Control" [
    elem "CmdType" "CmdType" TString; elem "SN" "SN" TInt; elem "DeviceID" "DeviceID" TString;
    elem_omitempty "PTZCmd" "PTZCmd" TString; elem_omitempty "IFrameCmd" "IFrameCmd" TString;
    elem_omitempty "HomePosition" "HomePosition" (TPointer HomePositionCmd);
    elem_omitempty "DragZoomIn" "DragZoomIn" (TPointer DragZoomCmd);
    elem_omitempty "DragZoomOut" "DragZoomOut" (TPointer DragZoomCmd); elem_omitempty "TeleBoot" "TeleBoot" TString;
    elem_omitempty "RecordCmd" "RecordCmd" TString; elem_omitempty "GuardCmd" "GuardCmd" TString;
    elem_omitempty "AlarmCmd" "AlarmCmd" TString; elem_omitempty "FormatSDCard" "FormatSDCard" (TPointer TInt);
    elem_omitempty "DeviceUpgrade" "DeviceUpgrade" (TPointer DeviceUpgradeCmd);
    elem_omitempty "PTZPreciseCtrl" "PTZPreciseCtrl" (TPointer PTZPreciseCmd); attr_omitempty "CmdTypeAttr" "CmdType" TString;
    attr_omitempty "SNAttr" "SN" TInt].

Definition DeviceUpgradeResult : ty := struct_named "Notify" [
    elem "CmdType" "CmdType" TString; elem "SN" "SN" TInt; elem "DeviceID" "DeviceID" TString;
    elem "SessionID" "SessionID" TString; elem "UpgradeResult" "UpgradeResult" TString; elem "Firmware" "Firmware" TString;
    elem_omitempty "UpgradeFailedReason" "UpgradeFailedReason" TString].

Definition SnapShotCmd : ty := struct [
    elem "SnapNum" "SnapNum" TInt; elem_omitempty "Interval" "Interval" TInt; elem "UploadURL" "UploadURL" TString;
    elem "SessionID" "SessionID" TString].

Definition UploadSnapShotFinished : ty := struct_named "Notify" [
    elem "CmdType" "CmdType" TString; elem "SN" "SN" TInt; elem "DeviceID" "DeviceID" TString;
    elem "SessionID" "SessionID" TString; elem_in "SnapShotList" "SnapShotList" "SnapShotFileID" (TSlice TString)].

Definition Alarm : ty := struct_named "Notify" [
    elem "CmdType" "CmdType" TString; elem "SN" "SN" TInt; elem "DeviceID" "DeviceID" TString;
    elem "AlarmPriority" "AlarmPriority" TString; elem "AlarmMethod" "AlarmMethod" TString; elem "AlarmTime" "AlarmTime" TString;
    elem "AlarmDescription" "AlarmDescription" TString; elem "AlarmType" "AlarmType" TString;
    attr_omitempty "CmdTypeAttr" "CmdType" TString; attr_omitempty "SNAttr" "SN" TInt].

Definition Broadcast : ty := struct_named "Notify" [
    elem "CmdType" "CmdType" TString; elem "SN" "SN" TInt; elem "SourceID" "SourceID" TString; elem "TargetID" "TargetID" TString;
    attr_omitempty "CmdTypeAttr" "CmdType" TString; attr_omitempty "SNAttr" "SN" TInt].

Definition BroadcastResponse : ty := struct_named "Response" [
    attr "CmdType" "CmdType" TString; attr "SN" "SN" TInt; elem "DeviceID" "DeviceID" TString; elem "Result" "Result" TString].

Definition RecordInfoQuery : ty := struct_named "Query" [
    elem "CmdType" "CmdType" TString; elem "SN" "SN" TInt; elem "DeviceID" "DeviceID" TString;
    elem "StartTime" "StartTime" TString; elem "EndTime" "EndTime" TString; elem "Type" "Type" TString].

Definition CatalogQuery : ty := struct_named "Query" [
    elem "CmdType" "CmdType" TString; elem "SN" "SN" TInt; elem "DeviceID" "DeviceID" TString].

Definition CatalogNotify : ty := struct_named "Notify" [
    elem "CmdType" "CmdType" TString; elem "SN" "SN" TInt; elem "DeviceID" "DeviceID" TString; elem "SumNum" "SumNum" TInt;
    elem_in "Item" "DeviceList" "Item" (TSlice Item); attr_omitempty "CmdTypeAttr" "CmdType" TString;
    attr_omitempty "SNAttr" "SN" TInt].

Definition TimeSyncQuery : ty := struct_named "Query" [
    elem "CmdType" "CmdType" TString; elem "SN" "SN" TInt; elem "DeviceID" "DeviceID" TString].

Definition TimeSyncResponse : ty := struct_named "Response" [
    elem "CmdType" "CmdType" TString; elem "SN" "SN" TInt; elem "DeviceID" "DeviceID" TString; elem "Time" "Time" TString].

Definition MobilePosition : ty := struct_named "Notify" [
    elem "CmdType" "CmdType" TString; elem "SN" "SN" TInt; elem "DeviceID" "DeviceID" TString; elem "Time" "Time" TString;
    elem "Longitude" "Longitude" TString; elem "Latitude" "Latitude" TString; elem "Speed" "Speed" TString;
    elem "Direction" "Direction" TString; elem "Altitude" "Altitude" TString; attr_omitempty "CmdTypeAttr" "CmdType" TString;
    attr_omitempty "SNAttr" "SN" TInt].

Definition Subscribe : ty := struct_named "SUBSCRIBE" [
    elem "CmdType" "CmdType" TString; elem "SN" "SN" TInt; elem "DeviceID" "DeviceID" TString;
    elem_omitempty "StartTime" "StartTime" TString; elem_omitempty "EndTime" "EndTime" TString;
    elem_omitempty "Interval" "Interval" TInt].

Definition BasicParamCmd : ty := struct [
    elem_omitempty "Name" "Name" TString; elem_omitempty "Expiration" "Expiration" (TPointer (TUint 64));
    elem_omitempty "HeartBeatInterval" "HeartBeatInterval" (TPointer (TUint 64));
    elem_omitempty "HeartBeatCount" "HeartBeatCount" (TPointer (TUint 32))].

Definition AlarmReportCmd : ty := struct [
    elem "MotionDetection" "MotionDetection" (TUint 32); elem "FieldDetection" "FieldDetection" (TUint 32)].

Definition VideoParamItem : ty := struct [
    elem "StreamNumber" "StreamNumber" TInt; elem "VideoFormat" "VideoFormat" TString; elem "Resolution" "Resolution" TString;
    elem "FrameRate" "FrameRate" TString; elem "BitRateType" "BitRateType" TString;
    elem_omitempty "VideoBitRate" "VideoBitRate" TString].

Definition VideoParamAttributeCmd : ty := struct [
    attr_omitempty "Num" "Num" TInt; elem "Items" "Item" (TSlice VideoParamItem)].

Definition RecordTimeSegment : ty := struct [
    elem "StartHour" "StartHour" TInt; elem "StartMin" "StartMin" TInt; elem "StartSec" "StartSec" TInt;
    elem "StopHour" "StopHour" TInt; elem "StopMin" "StopMin" TInt; elem "StopSec" "StopSec" TInt].

Definition RecordSchedule : ty := struct [
    elem "WeekDayNum" "WeekDayNum" TInt; elem "TimeSegmentSumNum" "TimeSegmentSumNum" TInt;
    elem "TimeSegments" "TimeSegment" (TSlice RecordTimeSegment)].

Definition VideoRecordPlanCmd : ty := struct [
    elem "RecordEnable" "RecordEnable" TInt; elem "ScheduleSumNum" "RecordScheduleSumNum" TInt;
    elem "Schedules" "RecordSchedule" (TSlice RecordSchedule); elem "StreamNumber" "StreamNumber" TInt].

Definition VideoAlarmRecordCmd : ty := struct [
    elem "RecordEnable" "RecordEnable" TInt; elem_omitempty "RecordTime" "RecordTime" (TPointer TInt);
    elem_omitempty "PreRecordTime" "PreRecordTime" (TPointer TInt); elem "StreamNumber" "StreamNumber" TInt].

Definition PictureMaskRegion : ty := struct [
    elem "Seq" "Seq" TInt; elem "Point" "Point" TString].

Definition pictureMaskRegionList : ty := struct [
    attr_omitempty "Num" "Num" (TPointer TInt); elem "Items" "Item" (TSlice PictureMaskRegion)].

Definition PictureMaskCmd : ty := struct [
    elem "On" "On" TInt; elem "SumNum" "SumNum" TInt; elem_omitempty "RegionList" "RegionList" (TPointer pictureMaskRegionList)].

Definition OSDItem : ty := struct [
    elem "Text" "Text" TString; elem "X" "X" TInt; elem "Y" "Y" TInt].

Definition OSDConfigCmd : ty := struct [
    elem "Length" "Length" TInt; elem "Width" "Width" TInt; elem "TimeX" "TimeX" TInt; elem "TimeY" "TimeY" TInt;
    elem_omitempty "TimeEnable" "TimeEnable" (TPointer TInt); elem_omitempty "TimeType" "TimeType" (TPointer TInt);
    elem_omitempty "TextEnable" "TextEnable" (TPointer TInt); elem "SumNum" "SumNum" TInt; elem "Items" "Item" (TSlice OSDItem)].

Definition DeviceConfig : ty := struct_named "Control" [
    elem "CmdType" "CmdType" TString; elem "SN" "SN" TInt; elem "DeviceID" "DeviceID" TString;
    elem_omitempty "BasicParam" "BasicParam" (TPointer BasicParamCmd);
    elem_omitempty "FrameMirror" "FrameMirror" (TPointer (TUint 32));
    elem_omitempty "AlarmReport" "AlarmReport" (TPointer AlarmReportCmd);
    elem_omitempty "SnapShotConfig" "SnapShotConfig" (TPointer SnapShotCmd);
    elem_omitempty "VideoParamAttribute" "VideoParamAttribute" (TPointer VideoParamAttributeCmd);
    elem_omitempty "VideoRecordPlan" "VideoRecordPlan" (TPointer VideoRecordPlanCmd);
    elem_omitempty "VideoAlarmRecord" "VideoAlarmRecord" (TPointer VideoAlarmRecordCmd);
    elem_omitempty "PictureMask" "PictureMask" (TPointer PictureMaskCmd);
    elem_omitempty "OSDConfig" "OSDConfig" (TPointer OSDConfigCmd)].

Definition HomePositionQuery : ty := struct_named "Query" [
    elem "CmdType" "CmdType" TString; elem "SN" "SN" TInt; elem "DeviceID" "DeviceID" TString;
    attr_omitempty "CmdTypeAttr" "CmdType" TString; attr_omitempty "SNAttr" "SN" TInt].

Definition HomePositionInfo : ty := struct [
    elem "Enabled" "Enabled" TInt; elem_omitempty "ResetTime" "ResetTime" TInt; elem_omitempty "PresetIndex" "PresetIndex" TInt].

Definition HomePositionResponse : ty := struct_named "Response" [
    elem "CmdType" "CmdType" TString; elem "SN" "SN" TInt; elem "DeviceID" "DeviceID" TString;
    elem_omitempty "HomePosition" "HomePosition" (TPointer HomePositionInfo); attr_omitempty "CmdTypeAttr" "CmdType" TString;
    attr_omitempty "SNAttr" "SN" TInt].

Definition CruiseTrackListQuery : ty := struct_named "Query" [
    elem "CmdType" "CmdType" TString; elem "SN" "SN" TInt; elem "DeviceID" "DeviceID" TString;
    attr_omitempty "CmdTypeAttr" "CmdType" TString; attr_omitempty "SNAttr" "SN" TInt].

Definition CruiseTrackInfo : ty := struct [
    elem "Number" "Number" TInt; elem_omitempty "Name" "Name" TString].

Definition CruiseTrackList : ty := struct [
    elem "CruiseTrack" "CruiseTrack" (TSlice CruiseTrackInfo); attr_omitempty "Num" "Num" TInt].

Definition CruiseTrackListResponse : ty := struct_named "Response" [
    elem "CmdType" "CmdType" TString; elem "SN" "SN" TInt; elem "DeviceID" "DeviceID" TString; elem "SumNum" "SumNum" TInt;
    elem_omitempty "CruiseTrackList" "CruiseTrackList" (TPointer CruiseTrackList); attr_omitempty "CmdTypeAttr" "CmdType" TString;
    attr_omitempty "SNAttr" "SN" TInt].

Definition CruiseTrackQuery : ty := struct_named "Query" [
    elem "CmdType" "CmdType" TString; elem "SN" "SN" TInt; elem "DeviceID" "DeviceID" TString; elem "Number" "Number" TInt;
    attr_omitempty "CmdTypeAttr" "CmdType" TString; attr_omitempty "SNAttr" "SN" TInt].

Definition CruisePoint : ty := struct [
    elem "PresetIndex" "PresetIndex" TInt; elem "StayTime" "StayTime" TInt; elem "Speed" "Speed" TInt].

Definition CruisePointList : ty := struct [
    elem "CruisePoint" "CruisePoint" (TSlice CruisePoint); attr_omitempty "Num" "Num" TInt].

Definition CruiseTrackResponse : ty := struct_named "Response" [
    elem "CmdType" "CmdType" TString; elem "SN" "SN" TInt; elem "DeviceID" "DeviceID" TString; elem "Number" "Number" TInt;
    elem_omitempty "Name" "Name" TString; elem "SumNum" "SumNum" TInt;
    elem_omitempty "CruisePointList" "CruisePointList" (TPointer CruisePointList); attr_omitempty "CmdTypeAttr" "CmdType" TString;
    attr_omitempty "SNAttr" "SN" TInt].

Definition PTZPositionQuery : ty := struct_named "Query" [
    elem "CmdType" "CmdType" TString; elem "SN" "SN" TInt; elem "DeviceID" "DeviceID" TString;
    attr_omitempty "CmdTypeAttr" "CmdType" TString; attr_omitempty "SNAttr" "SN" TInt].

Definition PTZPositionResponse : ty := struct_named "Response" [
    elem "CmdType" "CmdType" TString; elem "SN" "SN" TInt; elem "DeviceID" "DeviceID" TString;
    elem_omitempty "Pan" "Pan" TFloat64; elem_omitempty "Tilt" "Tilt" TFloat64; elem_omitempty "Zoom" "Zoom" TFloat64;
    elem_omitempty "HorizontalFieldAngle" "HorizontalFieldAngle" TFloat64;
    elem_omitempty "VerticalFieldAngle" "VerticalFieldAngle" TFloat64;
    elem_omitempty "MaxViewDistance" "MaxViewDistance" TFloat64; attr_omitempty "CmdTypeAttr" "CmdType" TString;
    attr_omitempty "SNAttr" "SN" TInt].

Definition SDCardStatusQuery : ty := struct_named "Query" [
    elem "CmdType" "CmdType" TString; elem "SN" "SN" TInt; elem "DeviceID" "DeviceID" TString;
    attr_omitempty "CmdTypeAttr" "CmdType" TString; attr_omitempty "SNAttr" "SN" TInt].

Definition SDCardItem : ty := struct [
    elem "ID" "ID" TInt; elem "HddName" "HddName" TString; elem "Status" "Status" TString;
    elem_omitempty "FormatProgress" "FormatProgress" TInt; elem "Capacity" "Capacity" TInt; elem "FreeSpace" "FreeSpace" TInt].

Definition SDCardStatusInfo : ty := struct [
    elem "Item" "Item" (TSlice SDCardItem); attr_omitempty "Num" "Num" TInt].

Definition SDCardStatusResponse : ty := struct_named "Response" [
    elem "CmdType" "CmdType" TString; elem "SN" "SN" TInt; elem "DeviceID" "DeviceID" TString; elem "SumNum" "SumNum" TInt;
    elem_omitempty "SDCardStatusInfo" "SDCardStatusInfo" (TPointer SDCardStatusInfo);
    attr_omitempty "CmdTypeAttr" "CmdType" TString; attr_omitempty "SNAttr" "SN" TInt].

(** ** Reports of the device *)

Definition BuildDeviceUpgradeResult (sn : Z) (deviceID sessionID : text) (ok : bool) (firmware failedReason : text) : val :=
  literal DeviceUpgradeResult [
    ("CmdType", VString CmdDeviceUpgradeResult); ("SN", VInt sn); ("DeviceID", VString deviceID); ("SessionID", VString sessionID);
    ("UpgradeResult", VString (if ok then txt "OK" else txt "ERROR")); ("Firmware", VString firmware);
    ("UpgradeFailedReason", VString failedReason)].

Definition BuildUploadSnapShotFinished (sn : Z) (deviceID sessionID : text) (fileIDs : list text) : val :=
  literal UploadSnapShotFinished [
    ("CmdType", VString CmdUploadSnapShotFinished); ("SN", VInt sn); ("DeviceID", VString deviceID); ("SessionID", VString sessionID);
    ("SnapShotList", VList (map VString fileIDs))].

Definition BroadcastResultOK : text := txt "OK".
Definition BroadcastResultERROR : text := txt "ERROR".

Definition BuildBroadcastResponse (sn : Z) (deviceID : text) (ok : bool) : val :=
  literal BroadcastResponse [
    ("CmdType", VString CmdBroadcast); ("SN", VInt sn); ("DeviceID", VString deviceID);
    ("Result", VString (if ok then BroadcastResultOK else BroadcastResultERROR))].

(** ** Headers in attributes *)

(** [normalize], which the messages with the aliases have. *)
Definition has_aliases (t : ty) : bool := existsb (fun f => String.eqb (f_go (fst f)) "CmdTypeAttr") (fields_of t).

Definition normalize (t : ty) (m : val) : val :=
  let m := if bool_decide (get_string t "CmdType" m = []) then set t "CmdType" (get t "CmdTypeAttr" m) m else m in
  if (get_int t "SN" m =? 0)%Z then set t "SN" (get t "SNAttr" m) m else m.
