(* ===== verification/ManscdpCodec.v ===== *)
(** The codec of MANSCDP documents (manscdp/codec.go, manscdp/charset.go): the header,
    the choice of a message by command and root element, the aliases, and character
    sets other than UTF-8, whose decoders are parameters. *)

From S2P Require Import Prelude GoStrings GoText Xml XmlStruct ManscdpTypes.
Open Scope Z_scope.

(** The decoders of golang.org/x/text. *)
Class Charsets := {
  GB18030 : text -> option text;
  GBK : text -> option text;
}.

(** ** Messages that can be decoded *)

Inductive message :=
  | AsCatalogNotify | AsCatalogQuery | AsCatalog | AsTimeSyncResponse | AsTimeSyncQuery | AsMobilePosition
  | AsRecordInfoQuery | AsRecordInfo | AsHomePositionQuery | AsHomePositionResponse | AsCruiseTrackListQuery
  | AsCruiseTrackListResponse | AsCruiseTrackQuery | AsCruiseTrackResponse | AsPTZPositionQuery | AsPTZPositionResponse
  | AsSDCardStatusQuery | AsSDCardStatusResponse | AsBroadcastResponse | AsUploadSnapShotFinished | AsDeviceUpgradeResult
  | AsKeepalive | AsDeviceInfo | AsDeviceStatus | AsDeviceControl | AsDeviceConfig | AsAlarm | AsBroadcast.

#[export] Instance message_eq_dec : EqDecision message.
Proof. solve_decision. Defined.

Definition schema (m : message) : ty :=
  match m with
  | AsCatalogNotify => CatalogNotify | AsCatalogQuery => CatalogQuery | AsCatalog => Catalog
  | AsTimeSyncResponse => TimeSyncResponse | AsTimeSyncQuery => TimeSyncQuery | AsMobilePosition => MobilePosition
  | AsRecordInfoQuery => RecordInfoQuery | AsRecordInfo => RecordInfo
  | AsHomePositionQuery => HomePositionQuery | AsHomePositionResponse => HomePositionResponse
  | AsCruiseTrackListQuery => CruiseTrackListQuery | AsCruiseTrackListResponse => CruiseTrackListResponse
  | AsCruiseTrackQuery => CruiseTrackQuery | AsCruiseTrackResponse => CruiseTrackResponse
  | AsPTZPositionQuery => PTZPositionQuery | AsPTZPositionResponse => PTZPositionResponse
  | AsSDCardStatusQuery => SDCardStatusQuery | AsSDCardStatusResponse => SDCardStatusResponse
  | AsBroadcastResponse => BroadcastResponse | AsUploadSnapShotFinished => UploadSnapShotFinished
  | AsDeviceUpgradeResult => DeviceUpgradeResult | AsKeepalive => Keepalive | AsDeviceInfo => DeviceInfo
  | AsDeviceStatus => DeviceStatus | AsDeviceControl => DeviceControl | AsDeviceConfig => DeviceConfig
  | AsAlarm => Alarm | AsBroadcast => Broadcast
  end.

(** The choice in [decodeOnce], in its order. *)
Definition decode_as (ct root : text) : option message :=
  let cmd c := bool_decide (ct = c) in
  let under r := bool_decide (root = txt r) in
  if cmd CmdCatalog && under "Notify" then Some AsCatalogNotify
  else if cmd CmdCatalog && under "Query" then Some AsCatalogQuery
  else if cmd CmdTimeSync && under "Response" then Some AsTimeSyncResponse
  else if cmd CmdTimeSync then Some AsTimeSyncQuery
  else if cmd CmdMobilePosition then Some AsMobilePosition
  else if cmd CmdRecordInfo && under "Query" then Some AsRecordInfoQuery
  else if cmd CmdHomePositionQuery && under "Query" then Some AsHomePositionQuery
  else if cmd CmdHomePositionQuery then Some AsHomePositionResponse
  else if cmd CmdCruiseTrackListQuery && under "Query" then Some AsCruiseTrackListQuery
  else if cmd CmdCruiseTrackListQuery then Some AsCruiseTrackListResponse
  else if cmd CmdCruiseTrackQuery && under "Query" then Some AsCruiseTrackQuery
  else if cmd CmdCruiseTrackQuery then Some AsCruiseTrackResponse
  else if cmd CmdPTZPosition && under "Query" then Some AsPTZPositionQuery
  else if cmd CmdPTZPosition then Some AsPTZPositionResponse
  else if cmd CmdSDCardStatus && under "Query" then Some AsSDCardStatusQuery
  else if cmd CmdSDCardStatus then Some AsSDCardStatusResponse
  else if cmd CmdBroadcast && under "Response" then Some AsBroadcastResponse
  else if cmd CmdCatalog then Some AsCatalog
  else if cmd CmdUploadSnapShotFinished then Some AsUploadSnapShotFinished
  else if cmd CmdDeviceUpgradeResult then Some AsDeviceUpgradeResult
  else if cmd CmdKeepalive then Some AsKeepalive
  else if cmd CmdDeviceInfo then Some AsDeviceInfo
  else if cmd CmdDeviceStatus then Some AsDeviceStatus
  else if cmd CmdRecordInfo then Some AsRecordInfo
  else if cmd CmdDeviceControl then Some AsDeviceControl
  else if cmd CmdDeviceConfig then Some AsDeviceConfig
  else if cmd CmdAlarm then Some AsAlarm
  else if cmd CmdBroadcast then Some AsBroadcast
  else None.

(** ** The prolog *)

Definition xml_decl : text := txt "<?xml version=" ++ [0x22] ++ txt "1.0" ++ [0x22] ++ txt " encoding=" ++ [0x22] ++ txt "GB2312" ++ [0x22] ++ txt "?>".
Definition xmlHeader : text := xml_decl ++ LF.

(** What follows the first [?>]. *)
Fixpoint after_pi (s : text) : option text :=
  if HasPrefix s (txt "?>") then Some (drop 2 s) else match s with [] => None | _ :: r => after_pi r end.

Definition stripXMLDecl (data : text) : text :=
  let trimmed := drop_while xml_space data in
  if negb (HasPrefix trimmed (txt "<?xml")) then data else
  match after_pi trimmed with Some rest => rest | None => data end.

Section Codec.

Context `{GoXml} `{Charsets}.

Definition Encode (t : ty) (v : val) : text := xmlHeader ++ Marshal t v.

Definition first_valid (outs : list (option text)) : option text :=
  fold_right (fun o rest => match o with Some out => if utf8_Valid out then Some out else rest | None => rest end) None outs.

Definition CharsetDecode (data : text) : option text :=
  if utf8_Valid data then Some data else first_valid [GB18030 data; GBK data].

Definition UTF8Body (data : text) : option text := stripXMLDecl <$> CharsetDecode data.

(** The command as an element or an attribute. *)
Definition probe : ty := struct [elem "CmdType" "CmdType" TString; attr "CmdTypeAttr" "CmdType" TString].

(** The unmarshalled message with its aliases merged. *)
Definition unmarshalAs (m : message) (body : text) : option val :=
  v ← Unmarshal (schema m) body; Some (if has_aliases (schema m) then normalize (schema m) v else v).

Definition decodeOnce (data : text) : option (text * message * val) :=
  let body := stripXMLDecl data in
  n ← root body;
  p ← unmarshal probe (zero probe) n;
  let ct := get_string probe "CmdType" p in
  let ct := if bool_decide (ct = []) then get_string probe "CmdTypeAttr" p else ct in
  if bool_decide (ct = []) then None else
  m ← decode_as ct (node_name n);
  v ← unmarshalAs m body;
  Some (ct, m, v).

Definition Decode (data : text) : option (text * message * val) :=
  match (if utf8_Valid data then decodeOnce data else None) with
  | Some r => Some r
  | None => converted ← CharsetDecode data; decodeOnce converted
  end.

End Codec.

(** ** Lemmas *)

Section Lemmas.

Context `{FloatLaws} `{Charsets}.

(** The last element and the last attribute of a name. *)
Definition last_elem (p : text) (cs : list node) (a : text) : text :=
  fold_left (fun a n => if named p n then chardata (children_of n) else a) cs a.
Definition last_attr (p : text) (attrs : list (text * text)) (a : text) : text :=
  fold_left (fun a x => if bool_decide (fst x = p) then snd x else a) attrs a.

Lemma probe_attrs attrs a b :
  foldM (assign_attr (fields_of probe)) attrs [VString a; VString b] = Some [VString a; VString (last_attr (txt "CmdType") attrs b)].
Proof.
  revert b. induction attrs as [|[n x] attrs IH]; intros b; [done|]. cbn [foldM fields_of probe struct].
  unfold last_attr. cbn [fold_left fst snd]. fold (last_attr (txt "CmdType") attrs (if bool_decide (n = txt "CmdType") then x else b)).
  cbn [assign_attr elem attr f_attr f_name andb fst snd copyValue].
  destruct (decide (n = txt "CmdType")) as [E|E].
  - rewrite !bool_decide_eq_true_2 by congruence. cbn [mbind option_bind]. apply IH.
  - rewrite !bool_decide_eq_false_2 by congruence. cbn [mbind option_bind]. apply IH.
Qed.

Lemma probe_children cs a b :
  foldM (assign unmarshal (fields_of probe)) (elems cs) [VString a; VString b] = Some [VString (last_elem (txt "CmdType") cs a); VString b].
Proof.
  revert a. induction cs as [|n cs IH]; intros a; [done|]. unfold last_elem. cbn [fold_left].
  fold (last_elem (txt "CmdType") cs (if named (txt "CmdType") n then chardata (children_of n) else a)).
  unfold elems. cbn [List.filter]. fold (elems cs). destruct n as [nm attrs ch|s]; [|apply IH]. cbn [is_elem foldM fields_of probe struct].
  cbn [assign elem attr f_attr f_name f_parent]. destruct (named (txt "CmdType") (Elem nm attrs ch)).
  - cbn [unmarshal copyValue mbind option_bind children_of]. apply IH.
  - cbn [mbind option_bind]. apply IH.
Qed.

Lemma probe_reads x attrs cs : unmarshal probe (zero probe) (Elem x attrs cs) =
  Some (VStruct [VString (last_elem (txt "CmdType") cs []); VString (last_attr (txt "CmdType") attrs [])]).
Proof.
  cbn [unmarshal probe struct name_fits negb zero map snd values_of elem attr]. change [VString []; VString []] with (map (fun f => zero (snd f)) (fields_of probe)).
  pose proof (probe_attrs attrs [] []) as A. cbn [fields_of probe struct elem attr map snd zero] in *. rewrite A. cbn [mbind option_bind].
  pose proof (probe_children cs [] (last_attr (txt "CmdType") attrs [])) as C. cbn [fields_of probe struct elem attr] in C. by rewrite C.
Qed.

Lemma last_elem_none p cs a : Forall (fun n => named p n = false) cs -> last_elem p cs a = a.
Proof. intros F. unfold last_elem. induction F as [|n cs E _ IH]; [done|]. cbn [fold_left]. by rewrite E. Qed.

Lemma last_elem_other p x fs v a : schema_ok (TStruct x fs) = true -> good (TStruct x fs) v -> bool_decide (p ∈ elem_keys fs) = false ->
  last_elem p (marshal_children marshal fs (values_of v)) a = a.
Proof.
  intros O G N. apply bool_decide_eq_false in N. destruct v as [| | | | | |vs]; try done. cbn [schema_ok good values_of] in *. rewrite !andb_true_iff in O.
  destruct O as [_ O]. apply last_elem_none. destruct (struct_fields fs vs) as (P & _); [|done|done|].
  { apply list.Forall_forall. intros f _. apply marshal_prints. }
  eapply list.Forall_impl; [apply (children_named _ _ _ _ P)|]. intros m [En Nn]. rewrite named_spec by done. apply bool_decide_eq_false_2.
  intros K. by rewrite K in Nn.
Qed.

(** *** The prolog *)

Lemma strip_header s : stripXMLDecl (xmlHeader ++ s) = LF ++ s.
Proof. done. Qed.

Lemma strip_plain b s : b <> 0x3F -> stripXMLDecl (0x3C :: b :: s) = 0x3C :: b :: s.
Proof.
  intros N. unfold stripXMLDecl. cbn [drop_while]. change (xml_space 0x3C) with false. cbv iota.
  change (txt "<?xml") with [0x3C; 0x3F; 0x78; 0x6D; 0x6C]. cbn [HasPrefix]. change (0x3C =? 0x3C) with true. cbn [andb].
  by rewrite (proj2 (Z.eqb_neq 0x3F b)) by congruence.
Qed.

Lemma root_loop_lf f r : root_loop (S f) (0x0A :: 0x3C :: r) = root_loop f (0x3C :: r).
Proof. done. Qed.

Lemma root_after_lf n : clean_node n -> is_elem n = true -> root (LF ++ print n) = Some n.
Proof.
  intros C E. destruct n as [nm attrs cs|]; [|done]. pose proof (root_printed nm attrs cs [] C) as R. rewrite app_nil_r in R.
  cbn [print] in *. change (txt "<") with [0x3C] in *. cbn [app] in *. unfold root in *. cbn [LF app length] in *.
  by rewrite root_loop_lf.
Qed.

(** A printed message: its tree, its text, and what the decoder makes of it. *)
Lemma marshalled x fs v : schema_ok (TStruct (Some x) fs) = true -> good (TStruct (Some x) fs) v -> exists attrs cs,
  attrs = marshal_attrs fs (values_of v) /\ cs = marshal_children marshal fs (values_of v) /\
  Marshal (TStruct (Some x) fs) v = print (Elem x attrs cs) /\ clean_node (Elem x attrs cs) /\
  unmarshal (TStruct (Some x) fs) (zero (TStruct (Some x) fs)) (Elem x attrs cs) = Some v.
Proof.
  intros O G. destruct (tree_read x fs v O G) as (attrs & cs & E & C & U). exists attrs, cs.
  assert (I : marshal (TStruct (Some x) fs) false [] v = [Elem x (marshal_attrs fs (values_of v)) (marshal_children marshal fs (values_of v))]).
  { destruct v; done. }
  rewrite I in E. injection E as <- <-. split_and!; try done. unfold Marshal. rewrite I. cbn [map concat]. by rewrite app_nil_r.
Qed.

Lemma encode_utf8 x fs v : schema_ok (TStruct (Some x) fs) = true -> good (TStruct (Some x) fs) v -> utf8_Valid (Encode (TStruct (Some x) fs) v) = true.
Proof.
  intros O G. destruct (marshalled x fs v O G) as (attrs & cs & _ & _ & E & C & _). unfold Encode. rewrite E.
  apply utf8_app; [done|]. by apply printed_utf8.
Qed.

(** The command of a message whose first field is its element. *)
Lemma command_elem x fs v : let t := TStruct (Some x) (elem "CmdType" "CmdType" TString :: fs) in
  schema_ok t = true -> good t v -> last_elem (txt "CmdType") (marshal_children marshal (fields_of t) (values_of v)) [] = get_string t "CmdType" v.
Proof.
  intros t O G. subst t. destruct v as [| | | | | |vs]; try done. destruct vs as [|w vs]; [done|]. cbn [good goods] in G. destruct G as (G & _ & Gs).
  destruct w as [s| | | | | |]; try done. cbn [fields_of values_of marshal_children elem f_attr f_omitempty f_name].
  rewrite wrap_none by done. cbn [marshal andb app simple]. unfold last_elem. cbn [fold_left named]. rewrite bool_decide_eq_true_2 by done.
  cbn [children_of]. rewrite chardata_chars. cbn [schema_ok] in O. rewrite !andb_true_iff in O. destruct O as [[[_ D] _] F].
  apply distinct_spec in D. unfold elem in D. rewrite elem_keys_cons in D. cbn [f_attr key f_parent f_name default] in D. apply list.NoDup_app in D as (_ & D & _).
  cbn [forallb] in F. apply andb_true_iff in F as [_ F].
  destruct (struct_fields fs vs) as (P & _); [|done|done|].
  { apply list.Forall_forall. intros f _. apply marshal_prints. }
  pose proof (children_named marshal unmarshal fs vs P) as C.
  fold (last_elem (txt "CmdType") (marshal_children marshal fs vs) s). rewrite last_elem_none; [done|].
  eapply list.Forall_impl; [exact C|]. intros n [En Nn]. rewrite named_spec by done. apply bool_decide_eq_false_2. intros K. rewrite K in Nn.
  apply (D (txt "CmdType")); [|done]. unfold id. set_solver.
Qed.

Lemma schema_good m : schema_ok (schema m) = true.
Proof. by destruct m. Qed.

Definition root_of (m : message) : text := default [] (label (schema m)).

Lemma schema_shape m : (exists x fs, schema m = TStruct (Some x) (elem "CmdType" "CmdType" TString :: fs)) \/ m = AsBroadcastResponse.
Proof. destruct m; try (by right); left; by eexists _, _. Qed.

Lemma decode_as_nil r : decode_as [] r = None.
Proof. done. Qed.

(** What [probe] finds in a printed message. *)
Lemma probe_message m v : good (schema m) v -> exists attrs cs p,
  Marshal (schema m) v = print (Elem (root_of m) attrs cs) /\ clean_node (Elem (root_of m) attrs cs) /\
  unmarshal (schema m) (zero (schema m)) (Elem (root_of m) attrs cs) = Some v /\
  unmarshal probe (zero probe) (Elem (root_of m) attrs cs) = Some p /\
  (get_string (schema m) "CmdType" v <> [] ->
    (if bool_decide (get_string probe "CmdType" p = []) then get_string probe "CmdTypeAttr" p else get_string probe "CmdType" p) = get_string (schema m) "CmdType" v).
Proof.
  intros G. pose proof (schema_good m) as O. assert (exists x fs, schema m = TStruct (Some x) fs /\ x = root_of m) as (x & fs & E & R).
  { unfold root_of. destruct m; by eexists _, _. }
  rewrite E in *. destruct (marshalled x fs v O G) as (attrs & cs & A & C & M & Cl & U). exists attrs, cs. rewrite <- R.
  eexists. split; [done|]. split; [done|]. split; [done|]. split; [apply probe_reads|]. intros N.
  destruct (schema_shape m) as [(x' & fs' & E')| ->].
  - rewrite E in E'. injection E' as <- ->. pose proof (command_elem x fs' v O G) as K. cbn [fields_of] in K. rewrite <- C in K.
    rewrite K. change (get_string probe "CmdType" _) with (get_string (TStruct (Some x) (elem "CmdType" "CmdType" TString :: fs')) "CmdType" v).
    by rewrite bool_decide_eq_false_2.
  - injection E as <- <-. destruct v as [| | | | | |vs]; try done. destruct vs as [|c [|sn [|d [|r [|]]]]]; try (by destruct G as (? & ? & ?)); cbn in G; try tauto.
    destruct c as [c| | | | | |]; try tauto. destruct sn as [|sn| | | | |]; try tauto. destruct d as [d| | | | | |]; try tauto. destruct r as [r| | | | | |]; try tauto.
    subst attrs cs. reflexivity.
Qed.

(** What a decoder hands out for a value. *)
Definition merged (m : message) (v : val) : val := if has_aliases (schema m) then normalize (schema m) v else v.

(** The command of a tree: its last [CmdType] element, or else its attribute. *)
Definition tree_command (attrs : list (text * text)) (cs : list node) : text :=
  let e := last_elem (txt "CmdType") cs [] in if bool_decide (e = []) then last_attr (txt "CmdType") attrs [] else e.

Lemma probe_command x attrs cs p : unmarshal probe (zero probe) (Elem x attrs cs) = Some p ->
  (if bool_decide (get_string probe "CmdType" p = []) then get_string probe "CmdTypeAttr" p else get_string probe "CmdType" p) = tree_command attrs cs.
Proof. rewrite probe_reads. intros [= <-]. done. Qed.

Lemma decode_found data x attrs cs m v : utf8_Valid data = true -> root (stripXMLDecl data) = Some (Elem x attrs cs) ->
  decode_as (tree_command attrs cs) x = Some m -> unmarshal (schema m) (zero (schema m)) (Elem x attrs cs) = Some v ->
  Decode data = Some (tree_command attrs cs, m, merged m v).
Proof.
  intros V R D U. assert (N : tree_command attrs cs <> []) by (intros E; by rewrite E in D).
  unfold Decode, decodeOnce. rewrite V, R. cbn [mbind option_bind]. destruct (unmarshal probe (zero probe) (Elem x attrs cs)) as [p|] eqn:P.
  - cbn [mbind option_bind]. rewrite (probe_command x attrs cs p P), bool_decide_eq_false_2 by done. cbn [node_name]. rewrite D. cbn [mbind option_bind].
    unfold unmarshalAs, Unmarshal. rewrite R. cbn [mbind option_bind]. by rewrite U.
  - by rewrite probe_reads in P.
Qed.

(** A document is decoded when its text leads to the tree of the message. *)
Lemma decode_tree m v data : good (schema m) v -> decode_as (get_string (schema m) "CmdType" v) (root_of m) = Some m ->
  utf8_Valid data = true -> (forall n, Marshal (schema m) v = print n -> clean_node n -> is_elem n = true -> root (stripXMLDecl data) = Some n) ->
  Decode data = Some (get_string (schema m) "CmdType" v, m, merged m v).
Proof.
  intros G D V R. destruct (probe_message m v G) as (attrs & cs & p & M & C & U & P & K). specialize (R _ M C eq_refl).
  rewrite (probe_command _ _ _ _ P) in K. rewrite <- K in * by (intros E; by rewrite E in D). by apply (decode_found data (root_of m)).
Qed.

Lemma decode_encoded m v : good (schema m) v -> decode_as (get_string (schema m) "CmdType" v) (root_of m) = Some m ->
  Decode (Encode (schema m) v) = Some (get_string (schema m) "CmdType" v, m, merged m v).
Proof.
  intros G D. apply decode_tree; [done..| |].
  - pose proof (schema_good m) as O. assert (exists x fs, schema m = TStruct (Some x) fs) as (x & fs & E) by (destruct m; by eexists _, _).
    rewrite E in *. by apply encode_utf8.
  - intros n M C E. unfold Encode. rewrite strip_header, M. by apply root_after_lf.
Qed.

(** The messages without the header, as the device sends them. *)
Lemma strip_printed n : clean_node n -> is_elem n = true -> stripXMLDecl (print n) = print n.
Proof.
  intros C E. destruct n as [nm attrs cs|]; [|done]. inversion C as [? ? ? Hn _ _]; subst. destruct (xml_name_spec nm Hn) as (b & r & -> & Hb & _).
  cbn [print]. change (txt "<") with [0x3C]. cbn [app]. apply strip_plain. intros ->. by vm_compute in Hb.
Qed.

Lemma decode_marshalled m v : good (schema m) v -> decode_as (get_string (schema m) "CmdType" v) (root_of m) = Some m ->
  Decode (Marshal (schema m) v) = Some (get_string (schema m) "CmdType" v, m, merged m v).
Proof.
  intros G D. destruct (probe_message m v G) as (attrs & cs & p & M & C & _). apply decode_tree; [done..| |].
  - rewrite M. by apply printed_utf8.
  - intros n M' C' E. rewrite M', strip_printed by done. destruct n as [nm at' ch|]; [|done].
    pose proof (root_printed nm at' ch [] C') as R. by rewrite app_nil_r in R.
Qed.

(** Nothing is merged into a message that has its command and its number. *)

Lemma normalize_id t v : get_string t "CmdType" v <> [] -> get_int t "SN" v <> 0 -> normalize t v = v.
Proof.
  intros C S. unfold normalize. rewrite bool_decide_eq_false_2 by done. by rewrite (proj2 (Z.eqb_neq _ _)).
Qed.

(** The command of every kind of message. *)
Definition command_of (m : message) : text :=
  match m with
  | AsCatalogNotify | AsCatalogQuery | AsCatalog => CmdCatalog
  | AsTimeSyncResponse | AsTimeSyncQuery => CmdTimeSync
  | AsMobilePosition => CmdMobilePosition
  | AsRecordInfoQuery | AsRecordInfo => CmdRecordInfo
  | AsHomePositionQuery | AsHomePositionResponse => CmdHomePositionQuery
  | AsCruiseTrackListQuery | AsCruiseTrackListResponse => CmdCruiseTrackListQuery
  | AsCruiseTrackQuery | AsCruiseTrackResponse => CmdCruiseTrackQuery
  | AsPTZPositionQuery | AsPTZPositionResponse => CmdPTZPosition
  | AsSDCardStatusQuery | AsSDCardStatusResponse => CmdSDCardStatus
  | AsBroadcastResponse | AsBroadcast => CmdBroadcast
  | AsUploadSnapShotFinished => CmdUploadSnapShotFinished
  | AsDeviceUpgradeResult => CmdDeviceUpgradeResult
  | AsKeepalive => CmdKeepalive | AsDeviceInfo => CmdDeviceInfo | AsDeviceStatus => CmdDeviceStatus
  | AsDeviceControl => CmdDeviceControl | AsDeviceConfig => CmdDeviceConfig | AsAlarm => CmdAlarm
  end.

Lemma decode_command m : decode_as (command_of m) (root_of m) = Some m.
Proof. by destruct m. Qed.

(** The only kind of message under a root that a command leads to. *)
Lemma decode_as_command ct r m : decode_as ct r = Some m -> ct = command_of m.
Proof.
  unfold decode_as. intros E.
  repeat match type of E with
  | (if ?b then _ else _) = _ =>
      destruct b eqn:B; [injection E as <-; try (apply andb_true_iff in B as [B _]); by apply bool_decide_eq_true in B|clear B]
  end.
  discriminate E.
Qed.

Lemma decodeOnce_command data ct m v : decodeOnce data = Some (ct, m, v) -> ct = command_of m.
Proof.
  unfold decodeOnce. destruct (root _) as [n|]; [|done]. cbn [mbind option_bind]. destruct (unmarshal probe _ _) as [p|]; [|done]. cbn [mbind option_bind].
  set (c := if bool_decide _ then get_string probe "CmdTypeAttr" p else _). destruct (bool_decide (c = [])); [done|]. destruct (decode_as c _) as [m'|] eqn:D; [|done]. cbn [mbind option_bind].
  destruct (unmarshalAs _ _); [|done]. intros [= <- <- <-]. by apply decode_as_command in D.
Qed.

Lemma Decode_command data ct m v : Decode data = Some (ct, m, v) -> ct = command_of m.
Proof.
  unfold Decode. destruct (if utf8_Valid data then decodeOnce data else None) as [r|] eqn:E.
  - intros [= ->]. destruct (utf8_Valid data); [|done]. by apply decodeOnce_command in E.
  - destruct (CharsetDecode data); [|done]. apply decodeOnce_command.
Qed.

(** C6: Whatever message one side encodes, the other side decodes: for every kind of
    message and every value of it that can be printed (text of valid characters, numbers in
    the range of their types) under its command, the document with the prolog and the bare
    one decode to that command and that very value, with one exception: in a kind of
    message that may carry its number as an attribute of the root too, a number 0 comes
    back as the number of that attribute. A document that decodes at all carries the
    command of the kind it decodes to. *)
Theorem message_roundtrip m v : good (schema m) v -> get_string (schema m) "CmdType" v = command_of m ->
  let back := if has_aliases (schema m) && (get_int (schema m) "SN" v =? 0)
              then set (schema m) "SN" (get (schema m) "SNAttr" v) v else v in
  Decode (Encode (schema m) v) = Some (command_of m, m, back) /\ Decode (Marshal (schema m) v) = Some (command_of m, m, back) /\
  forall data ct m' v', Decode data = Some (ct, m', v') -> ct = command_of m'.
Proof.
  intros G C back. assert (D : decode_as (get_string (schema m) "CmdType" v) (root_of m) = Some m) by (rewrite C; apply decode_command).
  assert (M : merged m v = back).
  { unfold merged, back. destruct (has_aliases (schema m)); [|done]. unfold normalize.
    rewrite (bool_decide_eq_false_2 (get_string (schema m) "CmdType" v = [])) by (rewrite C; by destruct m). done. }
  pose proof (decode_encoded m v G D) as E1. pose proof (decode_marshalled m v G D) as E2. rewrite C, M in E1, E2.
  split; [done|]. split; [done|]. intros data ct m' v' E. by apply (Decode_command data ct m' v').
Qed.

End Lemmas.

(** ** Concrete instances, where a theorem is applied *)

Definition demo_xml : GoXml := {| wide_first := fun _ => false; wide_second := fun _ => false;
  FormatFloat := fun _ => txt "0"; ParseFloat := fun s => if bool_decide (s = txt "0") then Some 0 else None |}.

Definition demo_floats : @FloatLaws demo_xml.
Proof.
  refine (@Build_FloatLaws demo_xml (fun b => b = 0) _ _); intros b ->; [|reflexivity]. vm_compute. repeat constructor; discriminate.
Defined.

Definition demo_charsets : Charsets := {| GB18030 := Some; GBK := Some |}.

Definition demo_keepalive : val := VStruct [VString (txt "Keepalive"); VInt 7; VString (txt "3402"); VString (txt "O<K"); VString []; VInt 0].

Lemma message_roundtrip_witness :
  @Decode demo_xml demo_charsets (@Encode demo_xml Keepalive demo_keepalive) = Some (CmdKeepalive, AsKeepalive, demo_keepalive).
Proof.
  refine (proj1 (@message_roundtrip demo_xml demo_floats demo_charsets AsKeepalive demo_keepalive _ eq_refl)).
  vm_compute. repeat split; try discriminate; repeat constructor; try discriminate.
Defined.
