(* ===== verification/DeviceManscdp.v ===== *)
(** The MANSCDP side of the device (device/manscdp.go, device/infoquery.go): its own
    message types, the parsers that take both forms of a header, the builders of every
    answer and the dispatch of an inbound MESSAGE.

    A channel of the catalog is a value of the type [ChannelItem]. The host's answers
    (recordings, the provider of the information queries, whether it records) are
    arguments, and so is local time: [time.ParseInLocation] and [Format] in the zone of
    the device are parameters. *)

From S2P Require Import Prelude GoStrings GoText Xml XmlStruct.
From S2P Require ManscdpTypes Playback.
From S2P Require Import ManscdpCodec SipMsg.
Import Playback (SegmentMeta, File, StartMS, EndMS, PlaybackControl, mkPlaybackControl).
#[local] Open Scope string_scope.
#[local] Open Scope list_scope.
Open Scope Z_scope.

(** Local time: seconds since the epoch's milliseconds from text and back. *)
Class LocalTime := {
  ParseLocal : text -> option Z;
  FormatLocal : Z -> text;
}.

(** ** Message types *)

Definition Query : ty := struct_named "Query" [
    attr "CmdType" "CmdType" TString; attr "SN" "SN" TString; elem "DeviceID" "DeviceID" TString;
    elem "StartTime" "StartTime" TString; elem "EndTime" "EndTime" TString; elem "Type" "Type" TString;
    elem "StreamType" "StreamType" TString; elem "Number" "Number" TString; elem "ConfigType" "ConfigType" TString].

Definition QueryElem : ty := struct_named "Query" [
    elem "CmdType" "CmdType" TString; elem "SN" "SN" TString; elem "DeviceID" "DeviceID" TString;
    elem "StartTime" "StartTime" TString; elem "EndTime" "EndTime" TString; elem "Type" "Type" TString;
    elem "StreamType" "StreamType" TString; elem "Number" "Number" TString; elem "ConfigType" "ConfigType" TString].

Definition ChannelItem : ty := struct [
    elem "DeviceID" "DeviceID" TString; elem "Name" "Name" TString; elem "Manufacturer" "Manufacturer" TString;
    elem "Model" "Model" TString; elem "Owner" "Owner" TString; elem "CivilCode" "CivilCode" TString;
    elem "Address" "Address" TString; elem "Parental" "Parental" TInt; elem "ParentID" "ParentID" TString;
    elem "SafetyWay" "SafetyWay" TInt; elem "RegisterWay" "RegisterWay" TInt; elem "Secrecy" "Secrecy" TInt;
    elem "Status" "Status" TString; elem "IPAddress" "IPAddress" TString; elem "Port" "Port" TInt;
    elem "Longitude" "Longitude" TFloat64; elem "Latitude" "Latitude" TFloat64;
    elem_omitempty "PTZType" "PTZType" (TPointer TInt);
    elem_omitempty "PhotoelectricImagingType" "PhotoelectricImagingType" TInt].

Definition DeviceList : ty := struct_named "DeviceList" [attr "Num" "Num" TInt; elem "Item" "Item" (TSlice ChannelItem)].

Definition DeviceItem : ty := struct [
    elem "DeviceID" "DeviceID" TString; elem "Name" "DeviceName" TString; elem "Manufacturer" "Manufacturer" TString;
    elem "Model" "Model" TString; elem "Firmware" "Firmware" TString].

Definition Response : ty := struct_named "Response" [
    attr "CmdType" "CmdType" TString; attr "SN" "SN" TString; elem "DeviceID" "DeviceID" TString;
    elem_omitempty "SumNum" "SumNum" (TPointer TInt); elem_omitempty "DeviceList" "DeviceList" (TPointer DeviceList);
    elem_omitempty "Device" "Device" (TPointer DeviceItem)].

Definition Notify : ty := struct_named "Notify" [
    attr "CmdType" "CmdType" TString; attr "SN" "SN" TString; elem "DeviceID" "DeviceID" TString;
    elem_omitempty "Status" "Status" TString].

Definition NotifyElem : ty := struct_named "Notify" [
    elem "CmdType" "CmdType" TString; elem "SN" "SN" TString; elem "DeviceID" "DeviceID" TString;
    elem_omitempty "Status" "Status" TString].

Definition gb2022QueryResponse : ty := struct_named "Response" [
    attr "CmdType" "CmdType" TString; attr "SN" "SN" TString; elem "DeviceID" "DeviceID" TString;
    elem_omitempty "SumNum" "SumNum" (TPointer TInt); elem_omitempty "Number" "Number" (TPointer TInt)].

Definition presetItemXML : ty := struct [elem "PresetID" "PresetID" TString; elem "PresetName" "PresetName" TString].

Definition PresetList : ty := struct [elem "Items" "Item" (TSlice presetItemXML); attr "Num" "Num" TInt].

Definition presetListResponse : ty := struct_named "Response" [
    attr "CmdType" "CmdType" TString; attr "SN" "SN" TString; elem "DeviceID" "DeviceID" TString;
    elem "SumNum" "SumNum" TInt; elem "PresetList" "PresetList" PresetList].

Definition deviceInfoResponseBody : ty := struct_named "Response" [
    attr "CmdType" "CmdType" TString; attr "SN" "SN" TString; elem "DeviceID" "DeviceID" TString; elem "Result" "Result" TString;
    elem "DeviceName" "DeviceName" TString; elem "Manufacturer" "Manufacturer" TString; elem "Model" "Model" TString;
    elem "Firmware" "Firmware" TString].

Definition RecordItem : ty := struct [
    elem "DeviceID" "DeviceID" TString; elem "Name" "Name" TString; elem "FilePath" "FilePath" TString;
    elem "Address" "Address" TString; elem "StartTime" "StartTime" TString; elem "EndTime" "EndTime" TString;
    elem "Secrecy" "Secrecy" TString; elem "Type" "Type" TString].

Definition RecordList : ty := struct [attr "Num" "Num" TInt; elem "Item" "Item" (TSlice RecordItem)].

Definition RecordInfoResponse : ty := struct_named "Response" [
    attr "CmdType" "CmdType" TString; attr "SN" "SN" TString; elem "DeviceID" "DeviceID" TString; elem "Name" "Name" TString;
    elem "SumNum" "SumNum" (TPointer TInt); elem "RecordList" "RecordList" RecordList].

Definition ControlInfo : ty := struct [
    elem "ControlValue" "ControlValue" TString; elem "StartTime" "StartTime" TString; elem "EndTime" "EndTime" TString;
    elem "Speed" "Speed" TString; elem "Scale" "Scale" TString].

Definition ControlElem : ty := struct_named "Control" [
    elem "CmdType" "CmdType" TString; elem "SN" "SN" TString; elem "DeviceID" "DeviceID" TString; elem "Info" "Info" ControlInfo].

(** *** Answers to the information queries *)

Definition HomePositionBlock : ty := struct [
    elem "Enabled" "Enabled" TInt; elem_omitempty "ResetTime" "ResetTime" TInt; elem_omitempty "PresetIndex" "PresetIndex" TInt].

Definition homePositionResponse : ty := struct_named "Response" [
    attr "CmdType" "CmdType" TString; attr "SN" "SN" TString; elem "DeviceID" "DeviceID" TString;
    elem "HomePosition" "HomePosition" (TPointer HomePositionBlock)].

Definition TrackEntry : ty := struct [elem "Number" "Number" TInt; elem_omitempty "Name" "Name" TString].

Definition cruiseTrackListResponse : ty := struct_named "Response" [
    attr "CmdType" "CmdType" TString; attr "SN" "SN" TString; elem "DeviceID" "DeviceID" TString; elem "SumNum" "SumNum" TInt;
    elem "Tracks" "CruiseTrackList" (TPointer (struct [elem "Track" "CruiseTrack" (TSlice TrackEntry)]))].

Definition PointEntry : ty := struct [
    elem "PresetIndex" "PresetIndex" TInt; elem "StayTimeSecs" "StayTime" TInt; elem "Speed" "Speed" TInt].

Definition cruiseTrackResponse : ty := struct_named "Response" [
    attr "CmdType" "CmdType" TString; attr "SN" "SN" TString; elem "DeviceID" "DeviceID" TString; elem "Number" "Number" TInt;
    elem_omitempty "Name" "Name" TString; elem "SumNum" "SumNum" TInt;
    elem "Points" "CruisePointList" (TPointer (struct [elem "Point" "CruisePoint" (TSlice PointEntry)]))].

Definition ptzPositionResponse : ty := struct_named "Response" [
    attr "CmdType" "CmdType" TString; attr "SN" "SN" TString; elem "DeviceID" "DeviceID" TString;
    elem_omitempty "Pan" "Pan" (TPointer TFloat64); elem_omitempty "Tilt" "Tilt" (TPointer TFloat64);
    elem_omitempty "Zoom" "Zoom" (TPointer TFloat64); elem_omitempty "HorizontalFieldAngle" "HorizontalFieldAngle" (TPointer TFloat64);
    elem_omitempty "VerticalFieldAngle" "VerticalFieldAngle" (TPointer TFloat64);
    elem_omitempty "MaxViewDistance" "MaxViewDistance" (TPointer TFloat64)].

Definition CardEntry : ty := struct [
    elem "ID" "ID" TInt; elem "HddName" "HddName" TString; elem "Status" "Status" TString;
    elem_omitempty "FormatProgress" "FormatProgress" TInt; elem "CapacityMB" "Capacity" TInt; elem "FreeSpaceMB" "FreeSpace" TInt].

Definition sdCardStatusResponse : ty := struct_named "Response" [
    attr "CmdType" "CmdType" TString; attr "SN" "SN" TString; elem "DeviceID" "DeviceID" TString; elem "SumNum" "SumNum" TInt;
    elem "Info" "SDCardStatusInfo" (TPointer (struct [elem "Item" "Item" (TSlice CardEntry)]))].

(** ** What the host supplies *)

Record HomePositionInfo := mkHomePosition { hp_Enabled : Z; hp_ResetTimeSec : Z; hp_PresetIndex : Z }.
Record CruiseTrackInfo := mkCruiseTrack { ct_Number : Z; ct_Name : text }.
Record CruisePointInfo := mkCruisePoint { cp_PresetIndex : Z; cp_StayTimeSecs : Z; cp_Speed : Z }.
Record CruiseTrackDetail := mkCruiseTrackDetail { cd_Number : Z; cd_Name : text; cd_Points : list CruisePointInfo }.

(** The measurements are bits of a float64. *)
Record PtzPositionInfo := mkPtzPosition {
  Pan : option Z; Tilt : option Z; Zoom : option Z;
  HorizontalFieldAngle : option Z; VerticalFieldAngle : option Z; MaxViewDistance : option Z;
}.
Record SdCardInfo := mkSdCard {
  sd_ID : Z; sd_HddName : text; sd_Status : text; sd_FormatProgress : Z; sd_CapacityMB : Z; sd_FreeSpaceMB : Z;
}.

(** [None] is a nil answer. *)
Record InfoQueryProvider := mkInfoQueryProvider {
  HomePosition : option HomePositionInfo;
  CruiseTrackList : option (list CruiseTrackInfo);
  CruiseTrack : Z -> option CruiseTrackDetail;
  PtzPosition : option PtzPositionInfo;
  SdCardStatus : option (list SdCardInfo);
}.

Record DeviceContext := mkDeviceContext {
  dc_DeviceID : text; dc_ChannelID : text; dc_Name : text; dc_Manufacturer : text; dc_Model : text; dc_Firmware : text;
  dc_LocalIP : text; dc_LocalPort : Z;
  ExtraChannels : list val;
  InfoQueries : option InfoQueryProvider;
  dc_PTZType : option Z;
  dc_PhotoelectricImagingType : Z;
  OnBroadcast : bool;
}.

(** ** Parsing *)

Section Parsing.

Context `{GoXml} `{Charsets} `{LocalTime}.

(** What the two parsers hand out: the fields of the request. *)
Definition same_fields (from to : ty) (names : list string) (v : val) : val :=
  literal to (map (fun n => (n, get from n v)) names).

Definition has_command (t : ty) (o : option val) : option val :=
  v ← o; if bool_decide (get_string t "CmdType" v = []) then None else Some v.

Definition query_fields : list string := ["CmdType"; "SN"; "DeviceID"; "StartTime"; "EndTime"; "Type"; "StreamType"; "Number"; "ConfigType"].

Definition parseQueryDual (body : text) : option val :=
  data ← UTF8Body body;
  match has_command Query (Unmarshal Query data) with
  | Some query => Some query
  | None => same_fields QueryElem Query query_fields <$> has_command QueryElem (Unmarshal QueryElem data)
  end.

Definition parseNotifyDual (body : text) : option val :=
  data ← UTF8Body body;
  match has_command Notify (Unmarshal Notify data) with
  | Some notify => Some notify
  | None => same_fields NotifyElem Notify ["CmdType"; "SN"; "DeviceID"; "Status"] <$> has_command NotifyElem (Unmarshal NotifyElem data)
  end.

Definition parseGBTime (s : text) : option Z :=
  let s := TrimSpace s in if Nat.ltb (length s) 19 then None else ParseLocal (take 19 s).

Definition formatGBTime (ms : Z) : text := FormatLocal ms.

(** Greater than zero: the bits of a positive number or infinity. *)
Definition float_positive (b : Z) : bool := (0 <? b) && (b <=? 0x7FF0000000000000).

Fixpoint first_speed (raws : list text) : option Z :=
  match raws with
  | [] => None
  | raw :: rest =>
      if bool_decide (raw = []) then first_speed rest else
      match ParseFloat (TrimSpace raw) with
      | Some v => if float_positive v then Some v else first_speed rest
      | None => first_speed rest
      end
  end.

Definition parsePlaybackControl (body : text) : option (PlaybackControl (F := Z)) :=
  data ← UTF8Body body;
  ctl ← Unmarshal ControlElem data;
  if negb (bool_decide (get_string ControlElem "CmdType" ctl = txt "PlaybackControl")) then None else
  let info := get ControlElem "Info" ctl in
  let field n := get_string ControlInfo n info in
  Some (mkPlaybackControl (field "ControlValue") (parseGBTime (field "StartTime")) (parseGBTime (field "EndTime"))
          (first_speed [field "Speed"; field "Scale"])).

End Parsing.

(** ** The channels of the catalog *)

Definition pointer (o : option Z) : val := match o with Some n => VRef (VInt n) | None => VNil end.

Definition default_channel (dev : DeviceContext) (c : val) : val :=
  let c := if bool_decide (get_string ChannelItem "ParentID" c = []) then set ChannelItem "ParentID" (VString (dc_DeviceID dev)) c else c in
  if bool_decide (get_string ChannelItem "Status" c = []) then set ChannelItem "Status" (VString (txt "ON")) c else c.

Definition dispatchExtraChannels (dev : DeviceContext) : list val := map (default_channel dev) (ExtraChannels dev).

Definition buildChannel (dev : DeviceContext) : val :=
  literal ChannelItem [
    ("DeviceID", VString (dc_ChannelID dev)); ("Name", VString (dc_ChannelID dev)); ("Status", VString (txt "ON"));
    ("PTZType", pointer (dc_PTZType dev)); ("PhotoelectricImagingType", VInt (dc_PhotoelectricImagingType dev));
    ("Manufacturer", VString (dc_Manufacturer dev)); ("Model", VString (dc_Model dev)); ("Owner", VString (dc_DeviceID dev));
    ("ParentID", VString (dc_DeviceID dev)); ("Secrecy", VInt 0); ("RegisterWay", VInt 1); ("IPAddress", VString (dc_LocalIP dev));
    ("Port", VInt (dc_LocalPort dev))].

(** ** Builders *)

Section Builders.

Context `{GoXml} `{LocalTime} (userAgent : text).

Definition mans_message (body : text) : SipMessage :=
  empty_message <| Method := txt "MESSAGE" |> <| ContentType := txt "Application/MANSCDP+xml" |> <| UserAgent := userAgent |> <| Body := body |>.

Definition header_fields (cmdType : string) (sn deviceID : text) : list (string * val) :=
  [("CmdType", VString (txt cmdType)); ("SN", VString sn); ("DeviceID", VString deviceID)].

Definition catalog_page (sn deviceID : text) (items : list val) (sumNum : Z) : val :=
  literal Response (header_fields "Catalog" sn deviceID ++ [
    ("SumNum", VRef (VInt sumNum));
    ("DeviceList", VRef (literal DeviceList [("Num", VInt (Z.of_nat (length items))); ("Item", VList items)]))]).

Definition BuildCatalogResponseMessagePaged (sn deviceID : text) (items : list val) (sumNum : Z) : SipMessage :=
  mans_message (Marshal Response (catalog_page sn deviceID items sumNum)).

Definition BuildCatalogResponseMessage (sn deviceID : text) (items : list val) : SipMessage :=
  BuildCatalogResponseMessagePaged sn deviceID items (Z.of_nat (length items)).

Definition BuildDeviceInfoResponseMessage (sn deviceID : text) (info : val) : SipMessage :=
  mans_message (Marshal deviceInfoResponseBody (literal deviceInfoResponseBody (header_fields "DeviceInfo" sn deviceID ++ [
    ("Result", VString (txt "OK")); ("DeviceName", get DeviceItem "Name" info); ("Manufacturer", get DeviceItem "Manufacturer" info);
    ("Model", get DeviceItem "Model" info); ("Firmware", get DeviceItem "Firmware" info)]))).

Definition BuildKeepaliveMessage (sn deviceID status : text) : SipMessage :=
  let status := if bool_decide (status = []) then txt "OK" else status in
  mans_message (Marshal Notify (literal Notify (header_fields "Keepalive" sn deviceID ++ [("Status", VString status)]))).

Definition BuildDeviceUpgradeResultMessage (sn : Z) (deviceID sessionID : text) (ok : bool) (firmware failedReason : text) : SipMessage :=
  mans_message (Marshal ManscdpTypes.DeviceUpgradeResult (ManscdpTypes.BuildDeviceUpgradeResult sn deviceID sessionID ok firmware failedReason)).

Definition BuildUploadSnapShotFinishedMessage (sn : Z) (deviceID sessionID : text) (fileIDs : list text) : SipMessage :=
  mans_message (Marshal ManscdpTypes.UploadSnapShotFinished (ManscdpTypes.BuildUploadSnapShotFinished sn deviceID sessionID fileIDs)).

Definition BuildBroadcastResponseMessage (sn : Z) (deviceID : text) (ok : bool) : SipMessage :=
  mans_message (Marshal ManscdpTypes.BroadcastResponse (ManscdpTypes.BuildBroadcastResponse sn deviceID ok)).

Definition record_page (sn deviceID : text) (items : list val) (sumNum : Z) : val :=
  literal RecordInfoResponse (header_fields "RecordInfo" sn deviceID ++ [
    ("Name", VString (txt "RecordInfo")); ("SumNum", VRef (VInt sumNum));
    ("RecordList", literal RecordList [("Num", VInt (Z.of_nat (length items))); ("Item", VList items)])]).

Definition BuildRecordInfoResponseMessagePaged (sn deviceID : text) (items : list val) (sumNum : Z) : SipMessage :=
  mans_message (Marshal RecordInfoResponse (record_page sn deviceID items sumNum)).

Definition BuildRecordInfoResponseMessage (sn deviceID : text) (items : list val) : SipMessage :=
  BuildRecordInfoResponseMessagePaged sn deviceID items (Z.of_nat (length items)).

Definition BuildPresetListResponseMessage (sn deviceID : text) (presets : list (text * text)) : SipMessage :=
  let n := VInt (Z.of_nat (length presets)) in
  let items := map (fun p => literal presetItemXML [("PresetID", VString (fst p)); ("PresetName", VString (snd p))]) presets in
  mans_message (Marshal presetListResponse (literal presetListResponse (header_fields "PresetQuery" sn deviceID ++ [
    ("SumNum", n); ("PresetList", literal PresetList [("Items", VList items); ("Num", n)])]))).

Definition BuildGB2022QueryResponseMessage (cmdType sn deviceID number : text) : SipMessage :=
  let cmd c := bool_decide (cmdType = txt c) in
  let resp := [("CmdType", VString cmdType); ("SN", VString sn); ("DeviceID", VString deviceID)] in
  let resp := if cmd "CruiseTrackListQuery" || cmd "CruiseTrackQuery" || cmd "SDCardStatus" then resp ++ [("SumNum", VRef (VInt 0))] else resp in
  let resp := if cmd "CruiseTrackQuery" && negb (bool_decide (number = []))
              then match Atoi number with Some n => resp ++ [("Number", VRef (VInt n))] | None => resp end else resp in
  mans_message (Marshal gb2022QueryResponse (literal gb2022QueryResponse resp)).

(** *** String templates, where nothing is escaped *)

Definition quoted (s : text) : text := [0x22] ++ s ++ [0x22].

Definition BuildDeviceStatusResponseMessage (recording : bool) (now sn deviceID : text) : SipMessage :=
  mans_message (txt "<Response CmdType=" ++ quoted (txt "DeviceStatus") ++ txt " SN=" ++ quoted sn ++ txt "><DeviceID>" ++ deviceID
    ++ txt "</DeviceID><Result>OK</Result><Online>ONLINE</Online><Status>OK</Status><Encode>ON</Encode><Record>"
    ++ (if recording then txt "ON" else txt "OFF") ++ txt "</Record><DeviceTime>" ++ now ++ txt "</DeviceTime></Response>").

Definition result_body (cmdType sn deviceID result : text) : text :=
  txt "<Response CmdType=" ++ quoted cmdType ++ txt " SN=" ++ quoted sn ++ txt "><DeviceID>" ++ deviceID
    ++ txt "</DeviceID><Result>" ++ result ++ txt "</Result></Response>".

Definition BuildControlRejectResponseMessage (cmdType sn deviceID : text) : SipMessage :=
  mans_message (result_body cmdType sn deviceID (txt "ERROR")).

Definition BuildDeviceConfigResponseMessage (sn deviceID : text) (ok : bool) : SipMessage :=
  mans_message (result_body (txt "DeviceConfig") sn deviceID (if ok then txt "OK" else txt "ERROR")).

Record BasicParamCfg := mkBasicParam { bp_Name : text; bp_Expiration : option Z; bp_HeartbeatInterval : option Z; bp_HeartbeatCount : option Z }.

Definition element (name : string) (content : text) : text := txt "<" ++ txt name ++ txt ">" ++ content ++ txt "</" ++ txt name ++ txt ">".
Definition number_element (name : string) (o : option Z) : text := match o with Some n => element name (Itoa n) | None => [] end.
Definition text_element (name : string) (s : text) : text := match s with [] => [] | _ => element name s end.

Definition basic_block (b : BasicParamCfg) : text :=
  element "BasicParam" (text_element "Name" (bp_Name b) ++ number_element "Expiration" (bp_Expiration b)
    ++ number_element "HeartBeatInterval" (bp_HeartbeatInterval b) ++ number_element "HeartBeatCount" (bp_HeartbeatCount b)).

(** [VideoParamOptCfg]: download speeds and resolutions. *)
Definition video_block (v : text * text) : text :=
  if bool_decide (fst v = []) && bool_decide (snd v = []) then [] else
  element "VideoParamOpt" (text_element "DownloadSpeed" (fst v) ++ text_element "Resolution" (snd v)).

Definition BuildConfigDownloadResponseMessage (sn deviceID : text) (basic : option BasicParamCfg) (videoParamOpt : option (text * text)) : SipMessage :=
  mans_message (txt "<Response CmdType=" ++ quoted (txt "ConfigDownload") ++ txt " SN=" ++ quoted sn ++ txt "><DeviceID>" ++ deviceID
    ++ txt "</DeviceID><Result>OK</Result>" ++ default [] (basic_block <$> basic) ++ default [] (video_block <$> videoParamOpt) ++ txt "</Response>").

(** *** The provider's answers *)

Definition float_pointer (o : option Z) : val := match o with Some b => VRef (VFloat b) | None => VNil end.

Definition home_block (i : HomePositionInfo) : val :=
  literal HomePositionBlock [
    ("Enabled", VInt (hp_Enabled i)); ("ResetTime", VInt (if 0 <? hp_ResetTimeSec i then hp_ResetTimeSec i else 0));
    ("PresetIndex", VInt (if 0 <=? hp_PresetIndex i then hp_PresetIndex i else 0))].

Definition some_block {A} (o : option A) (f : A -> list (string * val)) : list (string * val) := match o with Some a => f a | None => [] end.

Definition BuildInfoQueryResponseMessage (cmdType sn deviceID : text) (number : Z) (p : InfoQueryProvider) : SipMessage :=
  let cmd c := bool_decide (cmdType = txt c) in
  let head := [("CmdType", VString cmdType); ("SN", VString sn); ("DeviceID", VString deviceID)] in
  let marshalInfo t xs := mans_message (Marshal t (literal t (head ++ xs))) in
  if cmd "HomePositionQuery" then
    marshalInfo homePositionResponse (some_block (HomePosition p) (fun i => [("HomePosition", VRef (home_block i))]))
  else if cmd "CruiseTrackListQuery" then
    marshalInfo cruiseTrackListResponse (some_block (CruiseTrackList p) (fun l => [
      ("SumNum", VInt (Z.of_nat (length l)));
      ("Tracks", VRef (VStruct [VList (map (fun t => literal TrackEntry [("Number", VInt (ct_Number t)); ("Name", VString (ct_Name t))]) l)]))]))
  else if cmd "CruiseTrackQuery" then
    marshalInfo cruiseTrackResponse (("Number", VInt number) :: some_block (CruiseTrack p number) (fun d => [
      ("Name", VString (cd_Name d)); ("SumNum", VInt (Z.of_nat (length (cd_Points d))));
      ("Points", VRef (VStruct [VList (map (fun q => literal PointEntry [
         ("PresetIndex", VInt (cp_PresetIndex q)); ("StayTimeSecs", VInt (cp_StayTimeSecs q)); ("Speed", VInt (cp_Speed q))]) (cd_Points d))]))]))
  else if cmd "PTZPosition" then
    marshalInfo ptzPositionResponse (some_block (PtzPosition p) (fun q => [
      ("Pan", float_pointer (Pan q)); ("Tilt", float_pointer (Tilt q)); ("Zoom", float_pointer (Zoom q));
      ("HorizontalFieldAngle", float_pointer (HorizontalFieldAngle q)); ("VerticalFieldAngle", float_pointer (VerticalFieldAngle q));
      ("MaxViewDistance", float_pointer (MaxViewDistance q))]))
  else if cmd "SDCardStatus" then
    marshalInfo sdCardStatusResponse (some_block (SdCardStatus p) (fun cards => let cards := take 8 cards in [
      ("SumNum", VInt (Z.of_nat (length cards)));
      ("Info", VRef (VStruct [VList (map (fun c => literal CardEntry [
         ("ID", VInt (sd_ID c)); ("HddName", VString (sd_HddName c)); ("Status", VString (sd_Status c));
         ("FormatProgress", VInt (sd_FormatProgress c)); ("CapacityMB", VInt (sd_CapacityMB c)); ("FreeSpaceMB", VInt (sd_FreeSpaceMB c))]) cards)]))]))
  else empty_message.

End Builders.

(** ** Dispatch *)

(** [filepath.Base] with [/] as the separator. *)
Definition is_slash (b : Z) : bool := b =? 0x2F.
Fixpoint until_slash (s : text) : text := match s with b :: r => if is_slash b then [] else b :: until_slash r | [] => [] end.
Definition Base (path : text) : text :=
  match path with
  | [] => txt "."
  | _ => match until_slash (drop_while is_slash (rev path)) with [] => txt "/" | b => rev b end
  end.

(** [responsePageItems] *)
Definition responsePageItems : nat := 10.

(** The slices [l[start:min(start+10, len(l))]] of the loop over [start]. *)
Fixpoint pages_go {A} (fuel : nat) (l : list A) : list (list A) :=
  match fuel, l with
  | _, [] | O, _ => []
  | S f, _ => take responsePageItems l :: pages_go f (drop responsePageItems l)
  end.
Definition pages {A} (l : list A) : list (list A) := pages_go (length l) l.

(** What [DispatchInboundMessage] returns, and the call of [OnBroadcast]. *)
Record dispatched := mkDispatched { d_ok200 : SipMessage; d_pages : list SipMessage; d_broadcast : option (text * text) }.

Section Dispatch.

Context `{GoXml} `{Charsets} `{LocalTime} (userAgent dialogTag : text).

(** The channels of the device: its own entry, then the extra ones. *)
Definition catalog_channels (dev : DeviceContext) : list val := buildChannel dev :: dispatchExtraChannels dev.

Definition record_item (deviceID : text) (seg : SegmentMeta) : val :=
  literal RecordItem [
    ("DeviceID", VString deviceID); ("Name", VString (Base (File seg))); ("FilePath", VString (File seg)); ("Address", VString deviceID);
    ("StartTime", VString (formatGBTime (StartMS seg))); ("EndTime", VString (formatGBTime (EndMS seg)));
    ("Secrecy", VString (txt "0")); ("Type", VString (txt "time"))].

Definition record_items (idx : option (Z -> Z -> list SegmentMeta)) (query : val) : list val :=
  match idx with
  | None => []
  | Some lookup =>
      match parseGBTime (get_string Query "StartTime" query), parseGBTime (get_string Query "EndTime" query) with
      | Some startMs, Some endMs => if startMs <=? endMs then map (record_item (get_string Query "DeviceID" query)) (lookup startMs endMs) else []
      | _, _ => []
      end
  end.

(** The answers to a query by its command. *)
Definition answer_query (recording : bool) (now : text) (dev : DeviceContext) (idx : option (Z -> Z -> list SegmentMeta)) (query : val) : list SipMessage :=
  let cmdType := get_string Query "CmdType" query in
  let sn := get_string Query "SN" query in
  let deviceID := get_string Query "DeviceID" query in
  let number := get_string Query "Number" query in
  let cmd c := bool_decide (cmdType = txt c) in
  if cmd "Catalog" then
    let channels := catalog_channels dev in
    map (fun page => BuildCatalogResponseMessagePaged userAgent sn deviceID page (Z.of_nat (length channels))) (pages channels)
  else if cmd "DeviceInfo" then
    [BuildDeviceInfoResponseMessage userAgent sn deviceID (literal DeviceItem [
       ("DeviceID", VString (dc_DeviceID dev)); ("Name", VString (dc_Name dev)); ("Manufacturer", VString (dc_Manufacturer dev));
       ("Model", VString (dc_Model dev)); ("Firmware", VString (dc_Firmware dev))])]
  else if cmd "RecordInfo" then
    let items := record_items idx query in
    match items with
    | [] => [BuildRecordInfoResponseMessagePaged userAgent sn deviceID [] 0]
    | _ => map (fun page => BuildRecordInfoResponseMessagePaged userAgent sn deviceID page (Z.of_nat (length items))) (pages items)
    end
  else if cmd "DeviceStatus" then [BuildDeviceStatusResponseMessage userAgent recording now sn deviceID]
  else if cmd "DeviceControl" || cmd "Broadcast" || cmd "DeviceConfig" || cmd "HomePosition" then
    [BuildControlRejectResponseMessage userAgent cmdType sn deviceID]
  else if cmd "PresetQuery" then [BuildPresetListResponseMessage userAgent sn deviceID []]
  else if cmd "HomePositionQuery" || cmd "CruiseTrackListQuery" || cmd "CruiseTrackQuery" || cmd "PTZPosition" || cmd "SDCardStatus" then
    match InfoQueries dev with
    | Some p => [BuildInfoQueryResponseMessage userAgent cmdType sn deviceID (default 0 (Atoi number)) p]
    | None => [BuildGB2022QueryResponseMessage userAgent cmdType sn deviceID number]
    end
  else [].

Definition DispatchInboundMessage (recording : bool) (now : text) (msg : SipMessage) (dev : DeviceContext)
    (idx : option (Z -> Z -> list SegmentMeta)) : dispatched :=
  let ok200 := Build200OK userAgent dialogTag msg [] [] in
  if bool_decide (Body msg = []) then mkDispatched empty_message [] None else
  match Decode (Body msg) with
  | Some (ct, m, v) =>
      if bool_decide (ct = ManscdpTypes.CmdBroadcast) then
        mkDispatched ok200 []
          (if bool_decide (m = AsBroadcast) && OnBroadcast dev
           then Some (get_string ManscdpTypes.Broadcast "SourceID" v, get_string ManscdpTypes.Broadcast "TargetID" v) else None)
      else mkDispatched ok200 (match parseQueryDual (Body msg) with Some query => answer_query recording now dev idx query | None => [] end) None
  | None => mkDispatched ok200 (match parseQueryDual (Body msg) with Some query => answer_query recording now dev idx query | None => [] end) None
  end.

End Dispatch.
