(* ===== verification/PlatformMessage.v ===== *)
(** The platform's inbound documents (platform/sip/server.go, subscribe.go and
    playback.go): MESSAGE and NOTIFY handlers, the merging of catalogs into the
    registry, the rings of alarms and positions, and the record queries with their
    paged answers.

    The database, the enroller and the session manager are the host's or another
    component's: what is asked of them is an effect, in order, and what the enroller
    answers is an argument. [None] of a handler is a panic: a type assertion that does
    not hold. A goroutine that a handler starts is an effect too. *)

From S2P Require Import Prelude GoStrings GoText Xml XmlStruct.
From S2P Require ManscdpTypes.
From S2P Require Import ManscdpCodec DeviceMgr.
From S2P Require RegisterAuth.
Import RegisterAuth (hostOfAddr).
#[local] Open Scope string_scope.
#[local] Open Scope list_scope.
Open Scope Z_scope.

(** ** State *)

Record GB28181AlarmEvent := mkAlarmEvent {
  al_CameraID : text; al_DeviceID : text; al_ChannelID : text; AlarmPriority : text; AlarmMethod : text; AlarmType : text;
  AlarmTime : text; AlarmDescription : text; al_ReceivedAt : Z;
}.

Record GBPosition := mkPosition {
  po_DeviceID : text; po_Time : text; Longitude : text; Latitude : text; Speed : text; Direction : text; Altitude : text;
  UpdatedAt : Z;
}.

Record pendingRecordQuery := mkPendingRecordQuery { q_sumNum : Z; q_items : list val; q_done : bool }.

Record gbSubscription := mkSubscription { su_deviceID : text; su_subject : text; su_expires : Z; refreshAt : Z }.

(** [recordQueries] maps a key to a query, which two keys share. *)
Record state := mkState {
  deviceMgr : DeviceManager;
  alarmRing : gmap text (list GB28181AlarmEvent);
  posRing : gmap text (list GBPosition);
  recordQueries : gmap text nat;
  queries : gmap nat pendingRecordQuery;
  subscriptions : gmap text gbSubscription;
}.

#[export] Instance eta_state : Eta state := fun s =>
  mkState (deviceMgr s) (alarmRing s) (posRing s) (recordQueries s) (queries s) (subscriptions s).

Inductive effect :=
  | Respond (status : Z) (reason : text)
  | ByeDevice (id : text)
  | CameraBye (dev ch : text)
  | DbMarkOffline (id : text)
  | DbUpsertDevice (id name manufacturer model : text)
  | DbUpsertChannel (dev id name : text) (parental : Z) (status cameraID : text)
  | DbDeleteChannel (id : text)
  | EnsureCamera (dev ch name host : text)
  | ArchiveCamera (dev ch : text)
  | UpdateDeviceMeta (dev manufacturer model : text)
  | AutoInvite (dev : text)
  | ProbeSubChannels (dev : text)
  | PublishAlarm (e : GB28181AlarmEvent)
  | PublishSnapshot (dev session : text) (files : list text)
  | TriggerLinkage (owner ch : text)
  | SendMessage (dev : text) (body : text).

(** A request as the handlers use it: the user of its From header, if there is one. *)
Record request := mkRequest { rq_from : option text; rq_body : text }.

Definition maxAlarmsPerDevice : nat := 200.
Definition maxPositionsPerDevice : nat := 100.

Definition ChannelIdle : Z := 0.
Definition ChannelInviting : Z := 1.
Definition ChannelPlaying : Z := 2.

Definition channelStatusString (status : Z) : text :=
  if status =? ChannelInviting then txt "inviting" else if status =? ChannelPlaying then txt "playing" else txt "idle".

(** The configuration the handlers read: whether there are a database, an event bus
    and a catalog of cameras, and which note check is configured. *)
Record host := mkHost {
  db : bool;
  bus : bool;
  enroller : option (text -> text -> option text);
  verifyNote : option (request -> bool);
}.

(** ** Catalogs *)

Section Handlers.

Context `{GoXml} `{Charsets} (h : host).

Definition cameraOf (dev ch : text) : text := match enroller h with Some f => default [] (f dev ch) | None => [] end.
Definition when (b : bool) (e : list effect) : list effect := if b then e else [].
Definition has_enroller : bool := match enroller h with Some _ => true | None => false end.

Definition item_text (name : string) (it : val) : text := get_string ManscdpTypes.Item name it.
Definition item_int (name : string) (it : val) : Z := get_int ManscdpTypes.Item name it.
Definition item_id (it : val) : text := item_text "DeviceID" it.
Definition is_group (it : val) : bool := item_int "Parental" it =? 1.

(** A channel that is neither a group nor the device itself. *)
Definition other_real (deviceID : text) (items : list val) : bool :=
  existsb (fun it => negb (is_group it) && negb (bool_decide (item_id it = deviceID))) items.

Definition device_srcHost (deviceID : text) (m : DeviceManager) : text :=
  match devices m !! deviceID with Some d => hostOfAddr (NetAddr d) | None => [] end.

(** One turn of the loop of [mergeCatalogChannels]. *)
Definition merge_item (deviceID srcHost : text) (selfIsPlatformID : bool) (m : DeviceManager) (it : val) : DeviceManager * list effect :=
  if selfIsPlatformID && bool_decide (item_id it = deviceID) then (m, []) else
  if is_group it then (m, []) else
  let status := match FindChannel deviceID (item_id it) m with Some ch => ch_Status ch | None => ChannelIdle end in
  let ch := mkChannel [] (item_id it) (item_text "Name" it) (item_int "Parental" it) status (item_int "PTZType" it)
              (item_int "PhotoelectricImagingType" it) false 0 false in
  let cameraID := cameraOf deviceID (item_id it) in
  (RegisterChannel deviceID ch m,
   when (db h) [DbUpsertChannel deviceID (item_id it) (item_text "Name" it) (item_int "Parental" it) (channelStatusString status) cameraID]
   ++ when (bool_decide (cameraID = []) && has_enroller) [EnsureCamera deviceID (item_id it) (item_text "Name" it) srcHost]).

Fixpoint merge_items (deviceID srcHost : text) (selfIsPlatformID : bool) (items : list val) (m : DeviceManager) : DeviceManager * list effect :=
  match items with
  | [] => (m, [])
  | it :: rest =>
      let (m1, e1) := merge_item deviceID srcHost selfIsPlatformID m it in
      let (m2, e2) := merge_items deviceID srcHost selfIsPlatformID rest m1 in (m2, e1 ++ e2)
  end.

Definition retireDeviceSelfChannel (deviceID : text) (items : list val) (m : DeviceManager) : DeviceManager * list effect :=
  if negb (other_real deviceID items) then (m, []) else
  match FindChannel deviceID deviceID m with
  | None => (m, [])
  | Some ch =>
      if negb (ch_Status ch =? ChannelIdle) then (m, []) else
      (UnregisterChannel deviceID deviceID m, when (db h) [DbDeleteChannel deviceID] ++ when has_enroller [ArchiveCamera deviceID deviceID])
  end.

(** The first manufacturer and model among the channels. *)
Fixpoint first_text (name : string) (items : list val) : text :=
  match items with
  | [] => []
  | it :: rest => if is_group it || bool_decide (item_text name it = []) then first_text name rest else item_text name it
  end.

Definition mergeCatalogChannels (deviceID : text) (items : list val) (st : state) : state * list effect :=
  let m := deviceMgr st in
  let (m1, e1) := merge_items deviceID (device_srcHost deviceID m) (other_real deviceID items) items m in
  let (m2, e2) := retireDeviceSelfChannel deviceID items m1 in
  let mfr := first_text "Manufacturer" items in
  let mdl := first_text "Model" items in
  (st <| deviceMgr := m2 |>,
   e1 ++ e2 ++ [AutoInvite deviceID; ProbeSubChannels deviceID]
   ++ when ((negb (bool_decide (mfr = [])) || negb (bool_decide (mdl = []))) && has_enroller) [UpdateDeviceMeta deviceID mfr mdl]).

(** ** Alarms and positions *)

Definition ring_put {A} (n : nat) (id : text) (x : A) (r : gmap text (list A)) : gmap text (list A) :=
  <[id := take n (x :: default [] (r !! id))]> r.

Definition deviceOfChannel (channelID : text) (m : DeviceManager) : text :=
  match List.find (fun d => bool_decide (is_Some (FindChannel (dev_ID d) channelID m))) (AllDevices m) with
  | Some d => dev_ID d
  | None => []
  end.

Definition handleAlarm (now : Z) (a : val) (st : state) : state * list effect :=
  let field n := get_string ManscdpTypes.Alarm n a in
  let owner := deviceOfChannel (field "DeviceID") (deviceMgr st) in
  let owner := if bool_decide (owner = []) then field "DeviceID" else owner in
  let evt := mkAlarmEvent (cameraOf owner (field "DeviceID")) (field "DeviceID") (field "DeviceID") (field "AlarmPriority") (field "AlarmMethod")
               (field "AlarmType") (field "AlarmTime") (field "AlarmDescription") now in
  (st <| alarmRing := ring_put maxAlarmsPerDevice owner evt (alarmRing st) |>,
   when (bus h) [PublishAlarm evt] ++ [TriggerLinkage owner (field "DeviceID")]).

Definition GB28181Alarms (deviceID : text) (st : state) : list GB28181AlarmEvent := default [] (alarmRing st !! deviceID).

Definition handleMobilePosition (now : Z) (p : val) (st : state) : state :=
  let field n := get_string ManscdpTypes.MobilePosition n p in
  let pos := mkPosition (field "DeviceID") (field "Time") (field "Longitude") (field "Latitude") (field "Speed") (field "Direction")
               (field "Altitude") now in
  st <| posRing := ring_put maxPositionsPerDevice (field "DeviceID") pos (posRing st) |>.

Definition GB28181Positions (deviceID : text) (st : state) : list GBPosition := default [] (posRing st !! deviceID).

(** ** Record queries *)

Definition recordKey (deviceID : text) (sn : Z) : text := deviceID ++ txt "|" ++ Itoa sn.

(** [QueryChannelRecords] up to its wait: the fresh query [q] under both keys and the
    document for the device. *)
Definition record_query (sn : Z) (channelID start end_ : text) : val :=
  literal ManscdpTypes.RecordInfoQuery [
    ("CmdType", VString ManscdpTypes.CmdRecordInfo); ("SN", VInt sn); ("DeviceID", VString channelID);
    ("StartTime", VString start); ("EndTime", VString end_); ("Type", VString (txt "all"))].

Definition start_query (q : nat) (sn : Z) (deviceID channelID start end_ : text) (st : state) : option (state * list effect) :=
  match devices (deviceMgr st) !! deviceID with
  | Some d =>
      if Status d =? DeviceOnline then
        Some (st <| queries := <[q := mkPendingRecordQuery 0 [] false]> (queries st) |>
                 <| recordQueries := <[recordKey channelID sn := q]> (<[recordKey deviceID sn := q]> (recordQueries st)) |>,
              [SendMessage deviceID (Encode ManscdpTypes.RecordInfoQuery (record_query sn channelID start end_))])
      else None
  | None => None
  end.

(** Behind the wait: what was collected; the keys are gone. *)
Definition end_query (q : nat) (sn : Z) (deviceID channelID : text) (st : state) : state * list val :=
  (st <| recordQueries := delete (recordKey channelID sn) (delete (recordKey deviceID sn) (recordQueries st)) |>,
   match queries st !! q with Some p => q_items p | None => [] end).

Definition feed (resp : val) (p : pendingRecordQuery) : pendingRecordQuery :=
  let sum := get_int ManscdpTypes.RecordInfo "SumNum" resp in
  let sumNum := if q_sumNum p <? sum then sum else q_sumNum p in
  let items := q_items p ++ get_list ManscdpTypes.RecordInfo "RecordList" resp in
  mkPendingRecordQuery sumNum items (q_done p || ((0 <? sumNum) && (sumNum <=? Z.of_nat (length items)))).

Definition feedRecordQuery (deviceID : text) (resp : val) (st : state) : state :=
  match recordQueries st !! recordKey deviceID (get_int ManscdpTypes.RecordInfo "SN" resp) with
  | None => st
  | Some q => match queries st !! q with Some p => st <| queries := <[q := feed resp p]> (queries st) |> | None => st end
  end.

(** ** Devices going down *)

Definition unsubscribeDevice (deviceID : text) (st : state) : state :=
  st <| subscriptions := filter (fun kv => su_deviceID (snd kv) <> deviceID) (subscriptions st) |>.

Definition teardownDevice (deviceID : text) (st : state) : state * list effect :=
  (unsubscribeDevice deviceID st, ByeDevice deviceID :: map (fun ch => CameraBye deviceID (ch_ID ch)) (Channels deviceID (deviceMgr st))).

(** ** The handlers *)

Definition OK : effect := Respond 200 (txt "OK").

Definition time_sync (devID : text) (sn : Z) (now_text : text) : text :=
  Encode ManscdpTypes.TimeSyncResponse (literal ManscdpTypes.TimeSyncResponse [
    ("CmdType", VString ManscdpTypes.CmdTimeSync); ("SN", VInt sn); ("DeviceID", VString devID); ("Time", VString now_text)]).

(** A keepalive. *)
Definition on_keepalive (now : Z) (fromUser : text) (p : val) (st : state) : state * list effect :=
  let id := get_string ManscdpTypes.Keepalive "DeviceID" p in
  let status := get_string ManscdpTypes.Keepalive "Status" p in
  if negb (bool_decide (fromUser = [])) && negb (bool_decide (fromUser = id)) then (st, [Respond 403 (txt "Keepalive sender mismatch")])
  else match devices (deviceMgr st) !! id with
       | None => (st, [Respond 403 (txt "Device not registered")])
       | Some _ =>
           if negb (bool_decide (status = [])) && negb (bool_decide (status = txt "OK")) then
             let (st1, e) := teardownDevice id st in
             (st1 <| deviceMgr := MarkOffline id (deviceMgr st1) |>, e ++ when (db h) [DbMarkOffline id] ++ [OK])
           else (st <| deviceMgr := Touch now id (deviceMgr st) |>, when (db h) [DbUpsertDevice id [] [] []] ++ [OK])
       end.

Definition nonempty (s old : text) : text := if bool_decide (s = []) then old else s.

Definition on_device_info (p : val) (st : state) : state * list effect :=
  let field n := get_string ManscdpTypes.DeviceInfo n p in
  let id := field "DeviceID" in
  let m := deviceMgr st in
  let m := match devices m !! id with
           | Some d => put id (d <| dev_Name := nonempty (field "DeviceName") (dev_Name d) |>
                                 <| Manufacturer := nonempty (field "Manufacturer") (Manufacturer d) |>
                                 <| Model := nonempty (field "Model") (Model d) |>) m
           | None => m
           end in
  (st <| deviceMgr := m |>,
   when (db h) [DbUpsertDevice id (field "DeviceName") (field "Manufacturer") (field "Model")]
   ++ when (has_enroller && (negb (bool_decide (field "Manufacturer" = [])) || negb (bool_decide (field "Model" = []))))
        [UpdateDeviceMeta id (field "Manufacturer") (field "Model")]
   ++ [OK]).

(** The text and the value of one clock reading. *)
Definition handleMessage (now : Z) (now_text : text) (req : request) (st : state) : option (state * list effect) :=
  if match verifyNote h with Some ok => negb (ok req) | None => false end then Some (st, [Respond 403 (txt "Note verification failed")]) else
  if bool_decide (rq_body req = []) then Some (st, [Respond 400 (txt "Empty body")]) else
  match Decode (rq_body req) with
  | None => Some (st, [Respond 400 (txt "Invalid MANSCDP body")])
  | Some (ct, m, p) =>
      let fromUser := default [] (rq_from req) in
      let is_cmd c := bool_decide (ct = c) in
      let answer r := Some (fst r, snd r ++ [OK]) in
      if is_cmd ManscdpTypes.CmdBroadcast then Some (st, [OK])
      else if is_cmd ManscdpTypes.CmdKeepalive then
        (if bool_decide (m = AsKeepalive) then Some (on_keepalive now fromUser p st) else None)
      else if is_cmd ManscdpTypes.CmdCatalog then
        match m with
        | AsCatalogNotify =>
            answer (mergeCatalogChannels (get_string ManscdpTypes.CatalogNotify "DeviceID" p) (get_list ManscdpTypes.CatalogNotify "Item" p) st)
        | AsCatalog => answer (mergeCatalogChannels (get_string ManscdpTypes.Catalog "DeviceID" p) (get_list ManscdpTypes.Catalog "Item" p) st)
        | _ => Some (st, [OK])
        end
      else if is_cmd ManscdpTypes.CmdRecordInfo then
        (if bool_decide (m = AsRecordInfo) then Some (feedRecordQuery (get_string ManscdpTypes.RecordInfo "DeviceID" p) p st, [OK]) else None)
      else if is_cmd ManscdpTypes.CmdDeviceInfo then
        (if bool_decide (m = AsDeviceInfo) then Some (on_device_info p st) else None)
      else if is_cmd ManscdpTypes.CmdDeviceStatus then (if bool_decide (m = AsDeviceStatus) then Some (st, [OK]) else None)
      else if is_cmd ManscdpTypes.CmdAlarm then (if bool_decide (m = AsAlarm) then answer (handleAlarm now p st) else None)
      else if is_cmd ManscdpTypes.CmdUploadSnapShotFinished then
        (if bool_decide (m = AsUploadSnapShotFinished) then
           let field n := get_string ManscdpTypes.UploadSnapShotFinished n p in
           Some (st, when (bus h) [PublishSnapshot (field "DeviceID") (field "SessionID")
                       (map (fun v => match v with VString s => s | _ => [] end) (get_list ManscdpTypes.UploadSnapShotFinished "SnapShotList" p))] ++ [OK])
         else None)
      else if is_cmd ManscdpTypes.CmdTimeSync then
        (if bool_decide (m = AsTimeSyncQuery) then
           let devID := get_string ManscdpTypes.TimeSyncQuery "DeviceID" p in
           Some (st, [SendMessage devID (time_sync devID (get_int ManscdpTypes.TimeSyncQuery "SN" p) now_text); OK])
         else None)
      else Some (st, [OK])
  end.

Definition handleNotify (now : Z) (req : request) (st : state) : option (state * list effect) :=
  if bool_decide (rq_body req = []) then Some (st, [Respond 400 (txt "Empty body")]) else
  match Decode (rq_body req) with
  | None => Some (st, [Respond 400 (txt "Invalid MANSCDP body")])
  | Some (ct, m, p) =>
      let is_cmd c := bool_decide (ct = c) in
      let answer r := Some (fst r, snd r ++ [OK]) in
      if is_cmd ManscdpTypes.CmdCatalog then
        (if bool_decide (m = AsCatalogNotify) then
           answer (mergeCatalogChannels (get_string ManscdpTypes.CatalogNotify "DeviceID" p) (get_list ManscdpTypes.CatalogNotify "Item" p) st)
         else None)
      else if is_cmd ManscdpTypes.CmdAlarm then (if bool_decide (m = AsAlarm) then answer (handleAlarm now p st) else None)
      else if is_cmd ManscdpTypes.CmdMobilePosition then
        (if bool_decide (m = AsMobilePosition) then Some (handleMobilePosition now p st, [OK]) else None)
      else Some (st, [OK])
  end.

(** ** Queries of the platform *)

(** The templates of [requestCatalog] and [queryDeviceDetails]; [%s] does not escape. *)
Definition query_body (cmd : string) (sn : Z) (deviceID : text) : text :=
  txt "<Query><CmdType>" ++ txt cmd ++ txt "</CmdType><SN>" ++ Itoa sn ++ txt "</SN><DeviceID>" ++ deviceID ++ txt "</DeviceID></Query>".

Definition requestCatalog (nano : Z) (deviceID : text) (st : state) : option effect :=
  match devices (deviceMgr st) !! deviceID with
  | Some d => if Status d =? DeviceOnline then Some (SendMessage deviceID (query_body "Catalog" (nano mod 100000) deviceID)) else None
  | None => None
  end.

Definition queryDeviceDetails (nano1 nano2 : Z) (deviceID : text) : list effect :=
  [SendMessage deviceID (query_body "DeviceInfo" (nano1 mod 100000) deviceID);
   SendMessage deviceID (query_body "DeviceStatus" (nano2 mod 100000) deviceID)].


(** ** Answers *)

Definition responses (es : list effect) : list Z := omap (fun e => match e with Respond s _ => Some s | _ => None end) es.

Lemma responses_app a b : responses (a ++ b) = responses a ++ responses b.
Proof. apply omap_app. Qed.

Lemma when_silent b es : responses es = [] -> responses (when b es) = [].
Proof. by destruct b. Qed.

Lemma merge_items_silent deviceID src self items m : responses (snd (merge_items deviceID src self items m)) = [].
Proof.
  revert m. induction items as [|it items IH]; intros m; [done|]. cbn [merge_items].
  assert (I : responses (snd (merge_item deviceID src self m it)) = []).
  { unfold merge_item. destruct (self && _); [done|]. destruct (is_group it); [done|]. cbn [snd]. by rewrite responses_app, !when_silent. }
  destruct (merge_item _ _ _ _ _) as [m1 e1]. specialize (IH m1). destruct (merge_items _ _ _ _ _) as [m2 e2]. cbn [snd] in *.
  by rewrite responses_app, I, IH.
Qed.

Lemma merge_silent deviceID items st : responses (snd (mergeCatalogChannels deviceID items st)) = [].
Proof.
  unfold mergeCatalogChannels. pose proof (merge_items_silent deviceID (device_srcHost deviceID (deviceMgr st)) (other_real deviceID items) items (deviceMgr st)) as M.
  destruct (merge_items _ _ _ _ _) as [m1 e1]. assert (R : responses (snd (retireDeviceSelfChannel deviceID items m1)) = []).
  { unfold retireDeviceSelfChannel. destruct (negb _); [done|]. destruct (FindChannel _ _ _); [|done]. destruct (negb _); [done|].
    cbn [snd]. by rewrite responses_app, !when_silent. }
  destruct (retireDeviceSelfChannel _ _ _) as [m2 e2]. cbn [snd] in *. by rewrite !responses_app, M, R, when_silent.
Qed.

Lemma teardown_silent deviceID st : responses (snd (teardownDevice deviceID st)) = [].
Proof. unfold teardownDevice. cbn [snd]. cbn. induction (Channels _ _); done. Qed.

Lemma alarm_silent now a st : responses (snd (handleAlarm now a st)) = [].
Proof. unfold handleAlarm. cbn [snd]. by rewrite responses_app, when_silent. Qed.

Lemma keepalive_answered now from p st : length (responses (snd (on_keepalive now from p st))) = 1%nat.
Proof.
  unfold on_keepalive. destruct (negb _ && negb _); [done|]. destruct (devices _ !! _); [|done].
  destruct (negb _ && negb _); cbn [snd].
  - pose proof (teardown_silent (get_string ManscdpTypes.Keepalive "DeviceID" p) st) as T. destruct (teardownDevice _ st) as [st1 e]. cbn [snd] in *. by rewrite !responses_app, T, when_silent.
  - by rewrite responses_app, when_silent.
Qed.

Lemma device_info_answered p st : responses (snd (on_device_info p st)) = [200].
Proof. unfold on_device_info. cbn [snd]. by rewrite !responses_app, !when_silent. Qed.

(** A document that makes a handler panic: the message is of another kind than the one
    that is asserted. *)
Definition unexpected_message (m : message) : bool := bool_decide (m = AsRecordInfoQuery) || bool_decide (m = AsTimeSyncResponse).
Definition unexpected_notify (m : message) : bool := bool_decide (m = AsCatalog) || bool_decide (m = AsCatalogQuery).

Definition note_ok (req : request) : bool := match verifyNote h with Some ok => ok req | None => true end.

Definition answered (r : option (state * list effect)) : Prop := exists st' es, r = Some (st', es) /\ length (responses es) = 1%nat.

Lemma then_ok r : responses (snd r) = [] -> answered (Some (fst r : state, snd r ++ [OK])).
Proof. intros E. eexists _, _. split; [done|]. by rewrite responses_app, E. Qed.

Lemma message_outcome now nt req st ct m p : note_ok req = true -> rq_body req <> [] -> Decode (rq_body req) = Some (ct, m, p) ->
  if unexpected_message m then handleMessage now nt req st = None else answered (handleMessage now nt req st).
Proof.
  intros V N D. pose proof (Decode_command _ _ _ _ D) as ->. unfold handleMessage, note_ok in *.
  assert (E : (match verifyNote h with Some ok => negb (ok req) | None => false end) = false) by (by destruct (verifyNote h); [rewrite V|]).
  rewrite E, bool_decide_eq_false_2, D by done. pose proof (keepalive_answered now (default [] (rq_from req)) p st) as Ka.
  pose proof (device_info_answered p st) as Di.
  destruct m; try exact eq_refl; try (by eexists _, _); try (by apply then_ok, merge_silent); try (by apply then_ok, alarm_silent).
  - eexists _, _. split; [reflexivity|]. cbn [responses]. rewrite responses_app, when_silent; done.
  - exists (fst (on_keepalive now (default [] (rq_from req)) p st)), (snd (on_keepalive now (default [] (rq_from req)) p st)).
    split; [by destruct (on_keepalive _ _ _ _)|done].
  - exists (fst (on_device_info p st)), (snd (on_device_info p st)). split; [by destruct (on_device_info _ _)|by rewrite Di].
Qed.

Lemma notify_outcome now req st ct m p : rq_body req <> [] -> Decode (rq_body req) = Some (ct, m, p) ->
  if unexpected_notify m then handleNotify now req st = None else answered (handleNotify now req st).
Proof.
  intros N D. pose proof (Decode_command _ _ _ _ D) as ->. unfold handleNotify. rewrite bool_decide_eq_false_2, D by done.
  destruct m; try exact eq_refl; try (by eexists _, _); try (by apply then_ok, merge_silent); by apply then_ok, alarm_silent.
Qed.

(** A body that decodes to one of the messages in question. *)
Definition carries (bad : message -> bool) (req : request) : Prop :=
  rq_body req <> [] /\ exists ct m v, Decode (rq_body req) = Some (ct, m, v) /\ bad m = true.

Lemma outcome_cases (r : option (state * list effect)) (bad : Prop) : (r = None /\ bad) \/ (answered r /\ ~ bad) ->
  (r = None <-> bad) /\ forall st' es, r = Some (st', es) -> length (responses es) = 1%nat.
Proof.
  intros [[-> B]|[(s & e & -> & L) B]]; (split; [done|]); [done|]. by intros st' es [= <- <-].
Qed.

Lemma message_cases now nt req st :
  (handleMessage now nt req st = None /\ note_ok req = true /\ carries unexpected_message req) \/
  (answered (handleMessage now nt req st) /\ ~ (note_ok req = true /\ carries unexpected_message req)).
Proof.
  destruct (note_ok req) eqn:V.
  2: { right. split; [|by intros []]. unfold handleMessage, note_ok in *. destruct (verifyNote h); [|done]. rewrite V. by eexists _, _. }
  destruct (decide (rq_body req = [])) as [N|N].
  { right. split; [|by intros (_ & ? & _)]. unfold handleMessage, note_ok in *. destruct (verifyNote h); rewrite ?V; rewrite (bool_decide_eq_true_2 _ N); by eexists _, _. }
  destruct (Decode (rq_body req)) as [[[ct m] p]|] eqn:D.
  - pose proof (message_outcome now nt req st ct m p V N D) as O. destruct (unexpected_message m) eqn:U.
    + left. split; [done|]. split; [done|]. split; [done|]. by exists ct, m, p.
    + right. split; [done|]. intros (_ & _ & ct' & m' & v' & D' & U'). congruence.
  - right. split; [|by intros (_ & _ & ct' & m' & v' & D' & _); congruence]. unfold handleMessage, note_ok in *.
    destruct (verifyNote h); rewrite ?V; rewrite (bool_decide_eq_false_2 _ N), D; by eexists _, _.
Qed.

Lemma notify_cases now req st :
  (handleNotify now req st = None /\ carries unexpected_notify req) \/ (answered (handleNotify now req st) /\ ~ carries unexpected_notify req).
Proof.
  destruct (decide (rq_body req = [])) as [N|N].
  { right. split; [|by intros (? & _)]. unfold handleNotify. rewrite (bool_decide_eq_true_2 _ N). by eexists _, _. }
  destruct (Decode (rq_body req)) as [[[ct m] p]|] eqn:D.
  - pose proof (notify_outcome now req st ct m p N D) as O. destruct (unexpected_notify m) eqn:U.
    + left. split; [done|]. split; [done|]. by exists ct, m, p.
    + right. split; [done|]. intros (_ & ct' & m' & v' & D' & U'). congruence.
  - right. split; [|by intros (_ & ct' & m' & v' & D' & _); congruence]. unfold handleNotify.
    rewrite (bool_decide_eq_false_2 _ N), D; by eexists _, _.
Qed.

End Handlers.

(** C7: A MESSAGE makes the platform panic exactly when it passes the note check and its
    body decodes to a record query (a RecordInfo under a Query root) or to the answer of a
    time synchronisation, which are asserted to be of another type; every other MESSAGE,
    whatever its bytes, is answered exactly once. A NOTIFY panics exactly for a catalog
    under a Response or Query root, and is answered once otherwise. Any peer can send such
    bodies: the encoding of every printable message of those kinds is one. *)
Theorem message_panics `{FloatLaws} `{Charsets} (h : host) now nt req st m v :
  good (schema m) v -> get_string (schema m) "CmdType" v = command_of m -> rq_body req = Encode (schema m) v ->
  (forall req, (handleMessage h now nt req st = None <-> note_ok h req = true /\ carries unexpected_message req) /\
     forall st' es, handleMessage h now nt req st = Some (st', es) -> length (responses es) = 1%nat) /\
  (forall req, (handleNotify h now req st = None <-> carries unexpected_notify req) /\
     forall st' es, handleNotify h now req st = Some (st', es) -> length (responses es) = 1%nat) /\
  (carries unexpected_message req <-> m = AsRecordInfoQuery \/ m = AsTimeSyncResponse) /\
  (carries unexpected_notify req <-> m = AsCatalog \/ m = AsCatalogQuery).
Proof.
  intros G C B. split; [intros; apply outcome_cases, message_cases|]. split; [intros; apply outcome_cases, notify_cases|].
  assert (D : Decode (rq_body req) = Some (command_of m, m, merged m v)).
  { rewrite B, <- C. apply decode_encoded; [done|]. rewrite C. apply decode_command. }
  assert (K : forall bad, carries bad req <-> bad m = true).
  { intros bad. split; [intros (_ & ct & m' & v' & D' & U); congruence|]. intros U. split; [intros E; by rewrite E in D|]. by eexists _, _, _. }
  rewrite !K. unfold unexpected_message, unexpected_notify. by rewrite !orb_true_iff, !bool_decide_eq_true.
Qed.

Definition demo_time : val := VStruct [VString (txt "TimeSync"); VInt 3; VString (txt "3402"); VString (txt "2024-01-01T00:00:00")].

Lemma message_panics_witness :
  @handleMessage demo_xml demo_charsets (mkHost true true None None) 0 [] (mkRequest None (@Encode demo_xml ManscdpTypes.TimeSyncResponse demo_time))
    (mkState (NewDeviceManager 60) ∅ ∅ ∅ ∅ ∅) = None.
Proof.
  destruct (@message_panics demo_xml demo_floats demo_charsets (mkHost true true None None) 0 []
    (mkRequest None (@Encode demo_xml ManscdpTypes.TimeSyncResponse demo_time)) (mkState (NewDeviceManager 60) ∅ ∅ ∅ ∅ ∅) AsTimeSyncResponse demo_time) as (M & _ & C & _).
  - vm_compute. repeat split; try discriminate; repeat constructor; discriminate.
  - reflexivity.
  - reflexivity.
  - apply M. split; [reflexivity|]. apply C. by right.
Defined.
