(* ===== verification/CatalogExchange.v ===== *)
(** The catalog between the platform and a device: the platform's query, the device's
    pages and what the platform's registry holds when they have arrived. *)

From S2P Require Import Prelude GoStrings GoText Xml XmlStruct ManscdpCodec DeviceManscdp SipMsg DeviceMgr PlatformMessage.
From S2P Require ManscdpTypes.
#[local] Open Scope string_scope.
#[local] Open Scope list_scope.
Open Scope Z_scope.

Section Exchange.

Context `{FloatLaws} `{Charsets} `{LocalTime}.

(** ** The query *)

(** IDs are letters and digits: nothing in them is escaped. *)
Definition plain (s : text) : Prop := Forall (fun b => letter b || is_digit b = true) s.

Lemma plain_xml s : plain s -> xml_text s.
Proof. intros P. apply check_ascii. eapply list.Forall_impl; [exact P|]. unfold letter, between, is_digit, printable. intros b E. cbn beta in E. lia. Qed.

Lemma plain_escaped s : plain s -> EscapeText s = s.
Proof.
  intros P. unfold EscapeText. rewrite rune_split_ascii by (eapply list.Forall_impl; [exact P|]; unfold letter, between, is_digit; intros b E; cbn beta in E; lia).
  rewrite map_map. induction P as [|b s Hb _ IH]; [done|]. cbn [map concat esc_rune]. unfold letter, between, is_digit in Hb.
  rewrite !(proj2 (Z.eqb_neq b _)) by lia. unfold isInCharacterRange, between.
  assert (E : (b =? 9) || (b =? 10) || (b =? 13) || (32 <=? b) && (b <=? 55295) || (57344 <=? b) && (b <=? 65533) || (65536 <=? b) && (b <=? 1114111) = true) by lia.
  rewrite E. cbn [app]. f_equal. exact IH.
Qed.

Lemma digits_plain s : digits s -> plain s.
Proof. intros D. eapply list.Forall_impl; [exact D|]. intros b E. cbn beta in E. by rewrite E, orb_true_r. Qed.

Lemma Itoa_plain n : 0 <= n < 2 ^ 63 -> digits (Itoa n) /\ Itoa n <> [].
Proof. intros R. rewrite Itoa_nonneg by lia. destruct (dec_spec n) as (D1 & D2 & _); [lia|]. done. Qed.

(** The template as the text of a struct whose number is text. *)
Definition QueryText : ty := struct_named "Query" [
    elem "CmdType" "CmdType" TString; elem "SN" "SN" TString; elem "DeviceID" "DeviceID" TString].

Definition query_text (cmd : string) (sn : Z) (deviceID : text) : val := VStruct [VString (txt cmd); VString (Itoa sn); VString deviceID].

Lemma print_text name s : print (Elem name [] (chars s)) = txt "<" ++ name ++ txt ">" ++ EscapeText s ++ txt "</" ++ name ++ txt ">".
Proof. unfold chars. destruct s as [|b s]; [done|]. cbn [print map concat]. by rewrite app_nil_r. Qed.

Lemma query_printed cmd sn deviceID : plain (txt cmd) -> 0 <= sn < 2 ^ 63 -> plain deviceID ->
  query_body cmd sn deviceID = Marshal QueryText (query_text cmd sn deviceID) /\
  query_body cmd sn deviceID = Marshal ManscdpTypes.CatalogQuery (VStruct [VString (txt cmd); VInt sn; VString deviceID]).
Proof.
  intros C R P. assert (E : forall t v, marshal t false [] v = [Elem (txt "Query") [] [Elem (txt "CmdType") [] (chars (txt cmd)); Elem (txt "SN") [] (chars (Itoa sn)); Elem (txt "DeviceID") [] (chars deviceID)]] ->
    query_body cmd sn deviceID = Marshal t v).
  { intros t v Em. unfold Marshal. rewrite Em. cbn [map concat]. rewrite app_nil_r. cbn [print]. cbn [map concat]. rewrite !print_text.
    rewrite !plain_escaped by (done || by apply digits_plain, Itoa_plain). unfold query_body. rewrite <- !app_assoc. done. }
  split; by apply E.
Qed.

(** What the device reads of a query that was printed from a struct: both forms of its
    types take the fields they share with it. *)
Lemma query_dual fs v data body attrs cs : schema_ok (TStruct (Some (txt "Query")) fs) = true -> good (TStruct (Some (txt "Query")) fs) v ->
  attrs = marshal_attrs fs (values_of v) -> cs = marshal_children marshal fs (values_of v) ->
  UTF8Body data = Some body -> root body = Some (Elem (txt "Query") attrs cs) ->
  Forall (compatible fs) (fields_of Query) -> Forall (compatible fs) (fields_of QueryElem) ->
  let T := TStruct (Some (txt "Query")) fs in
  get_string Query "CmdType" (convert T Query v) = [] -> get_string QueryElem "CmdType" (convert T QueryElem v) <> [] ->
  parseQueryDual data = Some (same_fields QueryElem Query query_fields (convert T QueryElem v)).
Proof.
  intros O G A C B R K1 K2 T N1 N2. unfold parseQueryDual. rewrite B. cbn [mbind option_bind].
  assert (U : forall xn fsB, distinct (elem_keys fsB) = true -> distinct (attr_names fsB) = true -> name_fits xn (txt "Query") = true ->
    Forall (compatible fs) fsB -> Unmarshal (TStruct xn fsB) body = Some (convert T (TStruct xn fsB) v)).
  { intros xn fsB D1 D2 F K. unfold Unmarshal. rewrite R. cbn [mbind option_bind]. rewrite A, C. by apply (convert_read (Some (txt "Query"))). }
  assert (Uq : Unmarshal Query body = Some (convert T Query v)) by (apply U; done).
  assert (Ue : Unmarshal QueryElem body = Some (convert T QueryElem v)) by (apply U; done).
  rewrite Uq, Ue. unfold has_command. cbn [mbind option_bind]. rewrite bool_decide_eq_true_2 by done. by rewrite bool_decide_eq_false_2.
Qed.

(** The body of a message without a prolog, and of one with it. *)
Lemma body_printed n : clean_node n -> is_elem n = true -> UTF8Body (print n) = Some (print n) /\ root (print n) = Some n.
Proof.
  intros C E. unfold UTF8Body, CharsetDecode. rewrite printed_utf8 by done. cbn [fmap option_fmap option_map]. rewrite strip_printed by done.
  split; [done|]. destruct n as [nm at' ch|]; [|done]. pose proof (root_printed nm at' ch [] C) as R. by rewrite app_nil_r in R.
Qed.

Lemma body_encoded t v n : Marshal t v = print n -> clean_node n -> is_elem n = true -> utf8_Valid (Encode t v) = true ->
  UTF8Body (Encode t v) = Some (LF ++ print n) /\ root (LF ++ print n) = Some n.
Proof.
  intros M C E V. unfold UTF8Body, CharsetDecode. rewrite V. cbn [fmap option_fmap option_map]. unfold Encode. rewrite strip_header, M.
  split; [done|]. by apply root_after_lf.
Qed.

Lemma query_read cmd sn deviceID : plain (txt cmd) -> txt cmd <> [] -> 0 <= sn < 2 ^ 63 -> plain deviceID ->
  exists query, parseQueryDual (query_body cmd sn deviceID) = Some query /\
    get_string Query "CmdType" query = txt cmd /\ get_string Query "SN" query = Itoa sn /\ get_string Query "DeviceID" query = deviceID.
Proof.
  intros C N R P. destruct (query_printed cmd sn deviceID C R P) as [E _]. rewrite E. set (v := query_text cmd sn deviceID).
  assert (G : good QueryText v).
  { cbn. split_and!; try done; by apply plain_xml; try apply digits_plain, Itoa_plain. }
  destruct (marshalled (txt "Query") (fields_of QueryText) v eq_refl G) as (attrs & cs & A & Cs & M & Cl & _).
  change (TStruct (Some (txt "Query")) (fields_of QueryText)) with QueryText in *. rewrite M. destruct (body_printed _ Cl eq_refl) as [B Rt].
  pose proof (query_dual (fields_of QueryText) v _ _ attrs cs eq_refl G A Cs B Rt) as Q.
  eexists. split; [apply Q; [solve_compatible|solve_compatible|done|done]|]. done.
Qed.

(** ** A page *)

Definition item_of (c : val) : val := convert ChannelItem ManscdpTypes.Item c.

Lemma items_read items acc : Forall (good ChannelItem) items ->
  foldM (unmarshal (TSlice ManscdpTypes.Item)) (concat (map (marshal ChannelItem false (txt "Item")) items)) (VList acc) =
  Some (VList (acc ++ map item_of items)).
Proof. intros G. apply (slice_converted None); [done|exact G|done..|solve_compatible]. Qed.

Lemma items_named items : Forall (good ChannelItem) items ->
  the (txt "Item") (elems (concat (map (marshal ChannelItem false (txt "Item")) items))) = concat (map (marshal ChannelItem false (txt "Item")) items).
Proof.
  induction 1 as [|v items G _ IH]; [done|]. destruct v as [| | | | | |vs]; try done.
  assert (M : exists attrs cs, marshal ChannelItem false (txt "Item") (VStruct vs) = [Elem (txt "Item") attrs cs]) by (by eexists _, _).
  destruct M as (attrs & cs & M). cbn [map concat]. rewrite M. unfold the, elems in *. cbn [app List.filter is_elem named].
  rewrite bool_decide_eq_true_2 by done. f_equal. exact IH.
Qed.

Lemma page_value sn deviceID items n : catalog_page sn deviceID items n =
  VStruct [VString (txt "Catalog"); VString sn; VString deviceID; VRef (VInt n);
           VRef (VStruct [VInt (Z.of_nat (length items)); VList items]); VNil].
Proof. reflexivity. Qed.

Lemma page_good sn deviceID items n : xml_text sn -> xml_text deviceID -> Forall (good ChannelItem) items ->
  Z.of_nat (length items) < 2 ^ 63 -> 0 <= n < 2 ^ 63 -> good Response (catalog_page sn deviceID items n).
Proof. intros S D G L R. rewrite page_value. cbn. split_and!; try done; try lia. by apply plain_xml; repeat constructor. Qed.

(** What the platform's decoder makes of a page. *)
Definition catalog_of (sn : Z) (deviceID : text) (items : list val) (n : Z) : val :=
  VStruct [VString (txt "Catalog"); VInt sn; VString deviceID; VInt n; VList (map item_of items); VString (txt "Catalog"); VInt sn].

Lemma page_decoded sn deviceID items n : 0 <= sn < 2 ^ 63 -> xml_text deviceID -> Forall (good ChannelItem) items ->
  Z.of_nat (length items) < 2 ^ 63 -> 0 <= n < 2 ^ 63 ->
  Decode (Marshal Response (catalog_page (Itoa sn) deviceID items n)) =
    Some (ManscdpTypes.CmdCatalog, AsCatalog, catalog_of sn deviceID items n).
Proof.
  intros S D G L R. pose proof (Itoa_plain sn S) as [Dg Ne].
  pose proof (page_good (Itoa sn) deviceID items n (plain_xml _ (digits_plain _ Dg)) D G L R) as Gp. set (v := catalog_page (Itoa sn) deviceID items n) in *.
  destruct (marshalled (txt "Response") (fields_of Response) v eq_refl Gp) as (attrs & cs & A & Cs & M & Cl & _).
  change (TStruct (Some (txt "Response")) (fields_of Response)) with Response in *.
  assert (Rt : root (stripXMLDecl (Marshal Response v)) = Some (Elem (txt "Response") attrs cs)).
  { rewrite M, strip_printed by done. pose proof (root_printed _ _ _ [] Cl) as Rt. by rewrite app_nil_r in Rt. }
  assert (Tc : tree_command attrs cs = txt "Catalog").
  { unfold tree_command. rewrite Cs, (last_elem_other _ (Some (txt "Response"))) by done. rewrite A. unfold v. rewrite page_value. reflexivity. }
  pose proof (cross_read (Some (txt "Response")) (fields_of Response) (values_of v) (Some (txt "Response")) (fields_of ManscdpTypes.Catalog) (txt "Response")
    eq_refl Gp eq_refl eq_refl eq_refl) as X. rewrite <- A, <- Cs in X.
  assert (Y : cross (fields_of Response) (values_of v) (fields_of ManscdpTypes.Catalog) =
    Some [VString []; VInt 0; VString deviceID; VInt n; VList (map item_of items); VString (txt "Catalog"); VInt sn]).
  { unfold v in *. rewrite page_value in *. cbn [values_of] in *.
    repeat (apply cross_cons; [first [eapply (cross_same (Some (txt "Response"))); [reflexivity|exact Gp|split; [reflexivity|vm_compute; first [exact I|split; [reflexivity|first [left; reflexivity|right; split; reflexivity]]]]|reflexivity]|idtac]|]); [| |apply cross_nil].
    - unfold cross_attr, cross_elem. cbn [f_attr f_parent f_name elem_in mbind option_bind].
      change (pick (txt "DeviceList") _ _) with [Elem (txt "DeviceList") [(txt "Num", Itoa (Z.of_nat (length items)))] (concat (map (marshal ChannelItem false (txt "Item")) items) ++ [])].
      cbn [foldM children_of]. rewrite app_nil_r.
      rewrite items_named by done. change (zero (TSlice ManscdpTypes.Item)) with (VList []). rewrite items_read by done. done.
    - unfold cross_attr, cross_elem. cbn [f_attr f_parent f_name attr mbind option_bind].
      change (pick_attr (txt "SN") _ _) with [(txt "SN", Itoa sn)]. cbn [foldM snd]. by rewrite copy_int. }
  rewrite Y in X.
  pose proof (decode_found (Marshal Response v) (txt "Response") attrs cs AsCatalog) as Df. rewrite Tc in Df.
  etransitivity; [apply (Df (VStruct [VString []; VInt 0; VString deviceID; VInt n; VList (map item_of items); VString (txt "Catalog"); VInt sn]))|].
  - by rewrite M, (printed_utf8 _ Cl).
  - exact Rt.
  - done.
  - exact X.
  - unfold merged, catalog_of. reflexivity.
Qed.

(** ** The registry behind the pages *)

Definition cid (c : val) : text := get_string ChannelItem "DeviceID" c.

(** What the registry holds for a reported channel: its data, and the status it had. *)
Definition entry (deviceID : text) (it : val) (old : option Channel) : Channel :=
  let tc := ChannelTypeCode (item_id it) in
  mkChannel deviceID (item_id it) (item_text "Name" it) (item_int "Parental" it)
    (match old with Some ch => ch_Status ch | None => ChannelIdle end) (item_int "PTZType" it)
    (item_int "PhotoelectricImagingType" it) false tc (tc =? ChannelTypeAudioInput).

Definition known (deviceID : text) (m : DeviceManager) : Prop := is_Some (devices m !! deviceID).

Lemma merge_item_known h deviceID src self m it dev : known dev m -> known dev (fst (merge_item h deviceID src self m it)).
Proof.
  intros K. unfold merge_item. destruct (self && _); [done|]. destruct (is_group it); [done|]. cbn [fst].
  unfold RegisterChannel. destruct (devices m !! deviceID); [|done]. unfold known, put. cbn.
  destruct (decide (dev = deviceID)) as [-> |]; [by rewrite lookup_insert_eq|by rewrite lookup_insert_ne].
Qed.

Lemma merge_item_find h deviceID src self m it dev x : known deviceID m -> (self = true -> x <> deviceID) ->
  FindChannel dev x (fst (merge_item h deviceID src self m it)) =
  if bool_decide (dev = deviceID) && bool_decide (x = item_id it) && negb (is_group it)
  then Some (entry deviceID it (FindChannel dev x m)) else FindChannel dev x m.
Proof.
  intros [d Hd] S. unfold merge_item. destruct (self && bool_decide (item_id it = deviceID)) eqn:E.
  { cbn [fst]. apply andb_true_iff in E as [-> E]. apply bool_decide_eq_true in E. rewrite (bool_decide_eq_false_2 (x = _)); [by rewrite andb_false_r|].
    rewrite E. auto. }
  destruct (is_group it); cbn [fst negb]; [by rewrite andb_false_r|]. rewrite andb_true_r. unfold RegisterChannel. rewrite Hd.
  unfold FindChannel, put. cbn. destruct (decide (dev = deviceID)) as [-> |N].
  - rewrite lookup_insert_eq, bool_decide_eq_true_2 by done. cbn. rewrite Hd. cbn. destruct (decide (x = item_id it)) as [-> |N].
    + rewrite lookup_insert_eq, bool_decide_eq_true_2 by done. done.
    + rewrite lookup_insert_ne, bool_decide_eq_false_2 by done. done.
  - rewrite lookup_insert_ne, bool_decide_eq_false_2 by done. done.
Qed.

(** The last report of a channel is the one that stays. *)
Fixpoint reported (deviceID x : text) (items : list val) (old : option Channel) : option Channel :=
  match items with
  | [] => old
  | it :: rest => reported deviceID x rest (if bool_decide (x = item_id it) && negb (is_group it) then Some (entry deviceID it old) else old)
  end.

Lemma reported_app deviceID x a b old : reported deviceID x (a ++ b) old = reported deviceID x b (reported deviceID x a old).
Proof. revert old. induction a as [|it a IH]; intros old; [done|]. cbn. apply IH. Qed.

Lemma reported_groups deviceID x items old : (forall it, In it items -> item_id it = x -> is_group it = true) -> reported deviceID x items old = old.
Proof.
  induction items as [|it items IH]; [done|]. cbn. intros N. case_bool_decide as E; cbn.
  - rewrite (N it) by auto. cbn. apply IH. auto.
  - apply IH. auto.
Qed.

Lemma reported_none deviceID x items old : ~ In x (map item_id items) -> reported deviceID x items old = old.
Proof. intros N. apply reported_groups. intros it I <-. exfalso. by apply N, in_map. Qed.

Lemma reported_once deviceID x items it old : NoDup (map item_id items) -> In it items -> is_group it = false -> x = item_id it ->
  reported deviceID x items old = Some (entry deviceID it old).
Proof.
  intros N I G ->. induction items as [|i items IH]; [done|]. cbn in *. apply list.NoDup_cons in N as [N1 N2]. destruct I as [-> |I].
  - rewrite bool_decide_eq_true_2, G by done. cbn. apply reported_none. by rewrite <- list_elem_of_In.
  - rewrite bool_decide_eq_false_2; [by apply IH|]. intros E. apply N1. rewrite list_elem_of_In, <- E. by apply in_map.
Qed.

Lemma merge_items_find h deviceID src self items m : known deviceID m ->
  known deviceID (fst (merge_items h deviceID src self items m)) /\
  forall dev x, (self = true -> x <> deviceID) -> FindChannel dev x (fst (merge_items h deviceID src self items m)) =
    if bool_decide (dev = deviceID) then reported deviceID x items (FindChannel dev x m) else FindChannel dev x m.
Proof.
  revert m. induction items as [|it items IH]; intros m K; cbn [merge_items].
  { split; [done|]. intros dev x _. cbn. by case_bool_decide. }
  pose proof (merge_item_known h deviceID src self m it deviceID K) as K1.
  pose proof (fun dev x => merge_item_find h deviceID src self m it dev x K) as F. destruct (merge_item h deviceID src self m it) as [m1 e1].
  cbn [fst] in *. destruct (IH m1 K1) as [K2 F2]. destruct (merge_items h deviceID src self items m1) as [m2 e2]. cbn [fst] in *.
  split; [done|]. intros dev x S. rewrite F2, F by done. cbn. by destruct (bool_decide (dev = deviceID)).
Qed.

Lemma retire_find h deviceID items m dev x : known deviceID m -> x <> deviceID ->
  known deviceID (fst (retireDeviceSelfChannel h deviceID items m)) /\
  FindChannel dev x (fst (retireDeviceSelfChannel h deviceID items m)) = FindChannel dev x m.
Proof.
  intros K N. unfold retireDeviceSelfChannel. destruct (negb _); [done|]. destruct (FindChannel deviceID deviceID m); [|done].
  destruct (negb _); [done|]. cbn [fst]. destruct K as [d Hd]. unfold UnregisterChannel, FindChannel, known, put. rewrite Hd. cbn.
  split; [by rewrite lookup_insert_eq|]. destruct (decide (dev = deviceID)) as [-> |].
  - rewrite lookup_insert_eq, Hd. cbn. by rewrite lookup_delete_ne.
  - by rewrite lookup_insert_ne.
Qed.

Lemma mergeCatalogChannels_find h deviceID items st : known deviceID (deviceMgr st) ->
  known deviceID (deviceMgr (fst (mergeCatalogChannels h deviceID items st))) /\
  forall dev x, x <> deviceID -> FindChannel dev x (deviceMgr (fst (mergeCatalogChannels h deviceID items st))) =
    if bool_decide (dev = deviceID) then reported deviceID x items (FindChannel dev x (deviceMgr st)) else FindChannel dev x (deviceMgr st).
Proof.
  intros K. unfold mergeCatalogChannels.
  destruct (merge_items_find h deviceID (device_srcHost deviceID (deviceMgr st)) (other_real deviceID items) items _ K) as [K1 F1].
  destruct (merge_items _ _ _ _ _ _) as [m1 e1]. cbn [fst] in *.
  pose proof (fun dev x => retire_find h deviceID items m1 dev x K1) as R. destruct (retireDeviceSelfChannel _ _ _ _) as [m2 e2]. cbn [fst] in *.
  split; [|intros dev x N; cbn; rewrite (proj2 (R dev x N)), F1 by done; done].
  assert (N : deviceID ++ [0] <> deviceID) by (intros E; apply (f_equal length) in E; rewrite length_app in E; cbn in E; lia).
  by destruct (R [] _ N).
Qed.

(** ** Pages *)

Lemma pages_spec {A} (l : list A) : concat (pages l) = l /\ Forall (fun p => (0 < length p <= responsePageItems)%nat) (pages l).
Proof.
  unfold pages. enough (K : forall n (l : list A), (length l <= n)%nat -> concat (pages_go n l) = l /\
    Forall (fun p => (0 < length p <= responsePageItems)%nat) (pages_go n l)) by (by apply K).
  clear l. induction n as [|n IH]; intros [|x l] L; cbn [length] in L; try (split; [done|constructor]; fail); [lia|].
  cbn [pages_go concat]. destruct (IH (drop responsePageItems (x :: l))) as [C F]; [rewrite length_drop; cbn; lia|].
  split; [by rewrite C, take_drop|]. constructor; [|done]. rewrite length_take. cbn [length]. unfold responsePageItems. lia.
Qed.

(** Documents of one peer, one after the other; [None] once a handler panicked. *)
Fixpoint deliver (h : host) (now : Z) (now_text : text) (from : option text) (bodies : list text) (st : state) : option (state * list effect) :=
  match bodies with
  | [] => Some (st, [])
  | b :: rest =>
      '(st1, e1) ← handleMessage h now now_text (mkRequest from b) st;
      '(st2, e2) ← deliver h now now_text from rest st1; Some (st2, e1 ++ e2)
  end.

Definition page_body (sn : Z) (deviceID : text) (n : Z) (items : list val) : text := Marshal Response (catalog_page (Itoa sn) deviceID items n).

Lemma page_handled h now now_text from sn deviceID n items st : verifyNote h = None -> 0 <= sn < 2 ^ 63 -> xml_text deviceID ->
  Forall (good ChannelItem) items -> Z.of_nat (length items) < 2 ^ 63 -> 0 <= n < 2 ^ 63 ->
  handleMessage h now now_text (mkRequest from (page_body sn deviceID n items)) st =
    let r := mergeCatalogChannels h deviceID (map item_of items) st in Some (fst r, snd r ++ [OK]).
Proof.
  intros V S D G L R. unfold handleMessage. rewrite V. cbn [rq_body]. pose proof (page_decoded sn deviceID items n S D G L R) as P. fold (page_body sn deviceID n items) in P.
  rewrite bool_decide_eq_false_2; [|intros E; rewrite E in P; discriminate P].
  rewrite P. reflexivity.
Qed.

(** No answer but 200 among the effects. *)
Definition accepted (e : effect) : Prop := match e with Respond s _ => s = 200 | _ => True end.

Lemma when_accepted b es : Forall accepted es -> Forall accepted (when b es).
Proof. by destruct b; [|constructor]. Qed.

Lemma merge_accepted h deviceID items st : Forall accepted (snd (mergeCatalogChannels h deviceID items st)).
Proof.
  assert (M : forall src self items m, Forall accepted (snd (merge_items h deviceID src self items m))).
  { intros src self l. induction l as [|it l IH]; intros m; [constructor|]. cbn [merge_items].
    assert (I : Forall accepted (snd (merge_item h deviceID src self m it))).
    { unfold merge_item. destruct (self && _); [constructor|]. destruct (is_group it); [constructor|].
      cbn [snd]. apply Forall_app; split; apply when_accepted; by repeat constructor. }
    destruct (merge_item _ _ _ _ _ _) as [m1 e1]. specialize (IH m1). destruct (merge_items _ _ _ _ _ _) as [m2 e2]. by apply Forall_app. }
  unfold mergeCatalogChannels. specialize (M (device_srcHost deviceID (deviceMgr st)) (other_real deviceID items) items (deviceMgr st)).
  destruct (merge_items _ _ _ _ _ _) as [m1 e1].
  assert (R : Forall accepted (snd (retireDeviceSelfChannel h deviceID items m1))).
  { unfold retireDeviceSelfChannel. destruct (negb _); [constructor|]. destruct (FindChannel _ _ _); [|constructor]. destruct (negb _); [constructor|].
    cbn [snd]. apply Forall_app; split; apply when_accepted; by repeat constructor. }
  destruct (retireDeviceSelfChannel _ _ _ _) as [m2 e2]. cbn [snd]. repeat (apply Forall_app; split); try done; [by repeat constructor|].
  apply when_accepted. by repeat constructor.
Qed.

Lemma pages_delivered h now now_text from sn deviceID n pgs st : verifyNote h = None -> 0 <= sn < 2 ^ 63 -> xml_text deviceID ->
  Forall (Forall (good ChannelItem)) pgs -> Forall (fun p => Z.of_nat (length p) < 2 ^ 63) pgs -> 0 <= n < 2 ^ 63 -> known deviceID (deviceMgr st) ->
  exists st' es, deliver h now now_text from (map (page_body sn deviceID n) pgs) st = Some (st', es) /\
    Forall accepted es /\
    (forall dev x, x <> deviceID -> FindChannel dev x (deviceMgr st') =
      if bool_decide (dev = deviceID) then reported deviceID x (map item_of (concat pgs)) (FindChannel dev x (deviceMgr st)) else FindChannel dev x (deviceMgr st)).
Proof.
  intros V S D G L R. revert st. induction pgs as [|p pgs IH]; intros st K.
  { exists st, []. split; [done|]. split; [constructor|]. intros dev x _. cbn. by case_bool_decide. }
  apply list.Forall_cons in G as [Gp G]. apply list.Forall_cons in L as [Lp L]. cbn [map deliver]. rewrite page_handled by done. cbn [mbind option_bind].
  destruct (mergeCatalogChannels_find h deviceID (map item_of p) st K) as [K1 F1].
  destruct (IH G L _ K1) as (st' & es & E & Es & F). cbn zeta. rewrite E. eexists _, _. split; [done|].
  split; [|intros dev x N; cbn [concat]; rewrite F, F1, map_app, reported_app by done; by destruct (bool_decide (dev = deviceID))].
  apply Forall_app. split; [|done]. apply Forall_app. split; [apply merge_accepted|by constructor].
Qed.

(** ** The device's answer *)

Lemma catalog_answer ua tag recording now msg dev idx sn deviceID : 0 <= sn < 2 ^ 63 -> plain deviceID ->
  Body msg = query_body "Catalog" sn deviceID ->
  let r := DispatchInboundMessage ua tag recording now msg dev idx in
  d_ok200 r = Build200OK ua tag msg [] [] /\ d_broadcast r = None /\
  map Body (d_pages r) = map (page_body sn deviceID (Z.of_nat (length (catalog_channels dev)))) (pages (catalog_channels dev)).
Proof.
  intros S D B. assert (P : plain (txt "Catalog")) by (repeat constructor).
  destruct (query_read "Catalog" sn deviceID P ltac:(done) S D) as (query & Q & Q1 & Q2 & Q3).
  destruct (query_printed "Catalog" sn deviceID P S D) as [_ E].
  assert (Dc : Decode (Body msg) = Some (txt "Catalog", AsCatalogQuery, VStruct [VString (txt "Catalog"); VInt sn; VString deviceID])).
  { rewrite B, E. change ManscdpTypes.CatalogQuery with (schema AsCatalogQuery). rewrite decode_marshalled; [done| |done].
    cbn. split_and!; try done; try lia; by apply plain_xml. }
  unfold DispatchInboundMessage. rewrite (bool_decide_eq_false_2 (Body msg = [])), Dc by (rewrite B; done).
  rewrite bool_decide_eq_false_2 by done. cbn zeta. rewrite B, Q. cbn [d_ok200 d_pages d_broadcast]. split; [done|]. split; [done|].
  unfold answer_query. rewrite Q1, Q2, Q3. rewrite bool_decide_eq_true_2 by done. rewrite map_map. apply map_ext. intros page. done.
Qed.

(** What a channel of the device becomes in the registry. *)
Definition announced (deviceID : text) (c : val) (old : option Channel) : Channel :=
  let tc := ChannelTypeCode (cid c) in
  mkChannel deviceID (cid c) (get_string ChannelItem "Name" c) (get_int ChannelItem "Parental" c)
    (match old with Some ch => ch_Status ch | None => ChannelIdle end)
    (match get ChannelItem "PTZType" c with VRef (VInt n) => n | _ => 0 end)
    (get_int ChannelItem "PhotoelectricImagingType" c) false tc (tc =? ChannelTypeAudioInput).

Lemma item_announced c : good ChannelItem c ->
  item_id (item_of c) = cid c /\ is_group (item_of c) = (get_int ChannelItem "Parental" c =? 1) /\
  forall deviceID old, entry deviceID (item_of c) old = announced deviceID c old.
Proof.
  intros G. destruct c as [| | | | | |vs]; try done.
  pose proof (goods_length _ _ _ G) as L. pose proof (found_good false (txt "PTZType") _ vs G eq_refl) as F.
  do 19 (destruct vs as [|? vs]; [discriminate L|]). destruct vs; [|discriminate L]. destruct F as (_ & _ & _ & P & _). clear -P.
  split; [done|]. split; [done|]. intros deviceID old. unfold entry, announced. f_equal. cbn in P.
  by destruct v16 as [| | | |[]| |].
Qed.

Lemma requested nano deviceID st d : devices (deviceMgr st) !! deviceID = Some d -> Status d = DeviceOnline ->
  requestCatalog nano deviceID st = Some (SendMessage deviceID (query_body "Catalog" (nano mod 100000) deviceID)).
Proof. intros E O. unfold requestCatalog. by rewrite E, O. Qed.

(** C3: The catalog from end to end. The query that the platform sends to an online device
    is understood by the device, which acknowledges it and answers with one document per
    page, the pages of at most ten channels being together all it has (its own and the extra
    ones); in whatever order the documents arrive, the platform accepts every one of them
    without a panic, and behind the last one its registry holds every channel of the device
    that is not a group (Parental 1), with the name, kind and camera types the device gave
    and the status the platform had for it. Groups are left out: an ID under which only
    groups are listed, or nothing, is as it was, and so is every other device. The ID of the
    device itself is set apart: the platform keeps a channel of that ID only for a device
    that has no other, and the theorem does not describe it. *)
Theorem catalog_exchanged h ua tag recording now nt msg dev idx nano from st deviceID d :
  verifyNote h = None -> plain deviceID -> devices (deviceMgr st) !! deviceID = Some d -> Status d = DeviceOnline ->
  let all := catalog_channels dev in
  Forall (good ChannelItem) all -> NoDup (map cid all) -> Z.of_nat (length all) < 2 ^ 63 ->
  exists body, requestCatalog nano deviceID st = Some (SendMessage deviceID body) /\ (Body msg = body ->
    let r := DispatchInboundMessage ua tag recording now msg dev idx in
    d_ok200 r = Build200OK ua tag msg [] [] /\
    exists pgs, concat pgs = all /\ Forall (fun p => (length p <= 10)%nat) pgs /\
    map Body (d_pages r) = map (page_body (nano mod 100000) deviceID (Z.of_nat (length all))) pgs /\
    forall arrived, Permutation arrived (map Body (d_pages r)) ->
    exists st' es, deliver h 0 nt from arrived st = Some (st', es) /\ Forall accepted es /\
      (forall c, In c all -> get_int ChannelItem "Parental" c <> 1 -> cid c <> deviceID ->
        FindChannel deviceID (cid c) (deviceMgr st') = Some (announced deviceID c (FindChannel deviceID (cid c) (deviceMgr st)))) /\
      (forall x, (forall c, In c all -> cid c = x -> get_int ChannelItem "Parental" c = 1) -> x <> deviceID -> FindChannel deviceID x (deviceMgr st') = FindChannel deviceID x (deviceMgr st)) /\
      (forall dev' x, dev' <> deviceID -> x <> deviceID -> FindChannel dev' x (deviceMgr st') = FindChannel dev' x (deviceMgr st))).
Proof.
  intros V P Hd O all G N L. eexists. split; [by apply (requested nano deviceID st d)|]. intros B.
  assert (S : 0 <= nano mod 100000 < 2 ^ 63) by (pose proof (Z.mod_pos_bound nano 100000); lia). set (sn := nano mod 100000) in *.
  destruct (catalog_answer ua tag recording now msg dev idx sn deviceID S P B) as (R1 & _ & R3). fold all in R3. intros r. fold r in R1, R3.
  destruct (pages_spec all) as [Cc Cl]. split; [exact R1|]. exists (pages all). split; [done|].
  split; [eapply list.Forall_impl; [exact Cl|]; unfold responsePageItems; cbn; lia|]. split; [exact R3|].
  intros arrived A. rewrite R3 in A. apply Permutation_map_inv in A as (pgs & -> & A).
  assert (Pc : Permutation (concat pgs) all) by (rewrite <- Cc, A; done).
  assert (Gp : Forall (Forall (good ChannelItem)) pgs).
  { rewrite <- A. apply list.Forall_forall. intros p Hp. apply list.Forall_forall. intros c Hc. rewrite list.Forall_forall in G. apply G.
    rewrite <- Cc, list_elem_of_In. apply in_concat. exists p. by rewrite <- !list_elem_of_In. }
  destruct (pages_delivered h 0 nt from sn deviceID (Z.of_nat (length all)) pgs st) as (st' & es & E & Es & F); [done|done|by apply plain_xml|done| |lia|by eexists|].
  { rewrite <- A. eapply list.Forall_impl; [exact Cl|]. intros p Lp. unfold responsePageItems in Lp. cbn beta in Lp. lia. }
  exists st', es. split; [exact E|]. split; [done|].
  assert (Ids : map item_id (map item_of (concat pgs)) = map cid (concat pgs)).
  { rewrite map_map. apply map_ext_in. intros c Hc. apply item_announced. rewrite list.Forall_forall in G. apply G. by rewrite <- Pc, list_elem_of_In. }
  split; [|split].
  - intros c Hc Hg Hn. destruct (item_announced c) as (I1 & I2 & I3); [rewrite list.Forall_forall in G; apply G; by rewrite list_elem_of_In|].
    rewrite F, bool_decide_eq_true_2, <- I3 by done. apply reported_once; [by rewrite Ids, Pc|apply in_map; by rewrite Pc|by rewrite I2; apply Z.eqb_neq|done].
  - intros x Hx Hn. rewrite F, bool_decide_eq_true_2 by done. apply reported_groups. intros it Hi <-.
    apply in_map_iff in Hi as (c & <- & Hc). destruct (item_announced c) as (I1 & I2 & I3).
    { rewrite list.Forall_forall in G. apply G. by rewrite <- Pc, list_elem_of_In. }
    rewrite I2. apply Z.eqb_eq, (Hx c); [by rewrite <- Pc|by symmetry].
  - intros dev' x Hd' Hx. by rewrite F, bool_decide_eq_false_2.
Qed.

End Exchange.

(** A device with eleven channels, and the registry of a platform that knows it. *)
Definition demo_local : LocalTime := {| ParseLocal := fun _ => None; FormatLocal := fun _ => [] |}.
Definition demo_extra (n : Z) : val :=
  literal ChannelItem [("DeviceID", VString (txt "13" ++ Itoa n)); ("Name", VString (txt "Hall <" ++ Itoa n ++ txt ">")); ("PTZType", VRef (VInt 1))].
Definition demo_context : DeviceContext :=
  mkDeviceContext (txt "3402") (txt "1310") (txt "NVR") (txt "maker") (txt "model") (txt "fw") (txt "10.0.0.9") 5060
    (map demo_extra [11; 12; 13; 14; 15; 16; 17; 18; 19; 20]) None (Some 2) 0 false.
Definition demo_online : Device := mkDevice (txt "3402") [] [] [] [] [] DeviceOnline ∅ 0.
Definition demo_host : host := mkHost true true None None.
Definition demo_state : state := mkState (mkDeviceManager {[txt "3402" := demo_online]} 180 30) ∅ ∅ ∅ ∅ ∅.
Definition demo_query : SipMessage := empty_message <| Body := query_body "Catalog" 42 (txt "3402") |>.

Lemma catalog_exchanged_witness :
  exists es st', @deliver demo_xml demo_charsets demo_host 0 [] None
      (map Body (d_pages (@DispatchInboundMessage demo_xml demo_charsets demo_local [] [] false [] demo_query demo_context None)))
      demo_state = Some (st', es) /\ Forall accepted es /\
    ch_Name <$> FindChannel (txt "3402") (txt "1317") (deviceMgr st') = Some (txt "Hall <17>").
Proof.
  destruct (@catalog_exchanged demo_xml demo_floats demo_charsets demo_local demo_host [] [] false [] [] demo_query demo_context None 42 None
    demo_state (txt "3402") demo_online) as (body & B & K).
  1-4: first [reflexivity | repeat constructor].
  - repeat (apply List.Forall_cons; [vm_compute; repeat split; try discriminate; repeat constructor; try discriminate|]). apply List.Forall_nil.
  - apply (bool_decide_unpack _). vm_compute. exact I.
  - reflexivity.
  - injection B as <-. destruct (K eq_refl) as (_ & pgs & _ & _ & _ & D). destruct (D _ (Permutation_refl _)) as (st' & es & E & Es & F & _).
    exists es, st'. split; [exact E|]. split; [exact Es|]. specialize (F (default_channel demo_context (demo_extra 17))).
    change (cid _) with (txt "1317") in F. rewrite F; [reflexivity|vm_compute; tauto|discriminate|discriminate].
Defined.
