(* ===== verification/RecordExchange.v ===== *)
(** The recordings of a channel between the platform and a device: the platform's query,
    the device's pages from its recording index, and the collection behind the query. *)

From S2P Require Import Prelude GoStrings GoText Xml XmlStruct ManscdpCodec DeviceManscdp SipMsg DeviceMgr PlatformMessage CatalogExchange.
From S2P Require ManscdpTypes Playback.
Import Playback (SegmentMeta, File, StartMS, EndMS).
#[local] Open Scope string_scope.
#[local] Open Scope list_scope.
Open Scope Z_scope.

Section Records.

Context `{FloatLaws} `{Charsets} `{LocalTime}.

(** ** The query *)

Definition RecordText : ty := struct_named "Query" [
    elem "CmdType" "CmdType" TString; elem "SN" "SN" TString; elem "DeviceID" "DeviceID" TString;
    elem "StartTime" "StartTime" TString; elem "EndTime" "EndTime" TString; elem "Type" "Type" TString].

Definition record_text (sn : Z) (channelID start end_ : text) : val :=
  VStruct [VString (txt "RecordInfo"); VString (Itoa sn); VString channelID; VString start; VString end_; VString (txt "all")].

Definition record_body (sn : Z) (channelID start end_ : text) : text := Encode ManscdpTypes.RecordInfoQuery (record_query sn channelID start end_).

Lemma record_query_good sn channelID start end_ : 0 <= sn < 2 ^ 63 -> xml_text channelID -> xml_text start -> xml_text end_ ->
  good RecordText (record_text sn channelID start end_) /\ good (schema AsRecordInfoQuery) (record_query sn channelID start end_).
Proof.
  intros R C S E. assert (P : forall c, plain (txt c) -> xml_text (txt c)) by (intros; by apply plain_xml).
  assert (N : xml_text (Itoa sn)) by (by apply plain_xml, digits_plain, Itoa_plain).
  split; cbn -[txt]; split_and!; try done; try lia; apply P; repeat constructor.
Qed.

Lemma record_query_read sn channelID start end_ : 0 <= sn < 2 ^ 63 -> xml_text channelID -> xml_text start -> xml_text end_ ->
  exists query, parseQueryDual (record_body sn channelID start end_) = Some query /\
    get_string Query "CmdType" query = txt "RecordInfo" /\ get_string Query "SN" query = Itoa sn /\ get_string Query "DeviceID" query = channelID /\
    get_string Query "StartTime" query = start /\ get_string Query "EndTime" query = end_.
Proof.
  intros R C S E. destruct (record_query_good sn channelID start end_ R C S E) as [G _]. set (v := record_text sn channelID start end_) in *.
  destruct (marshalled (txt "Query") (fields_of RecordText) v eq_refl G) as (attrs & cs & A & Cs & M & Cl & _).
  change (TStruct (Some (txt "Query")) (fields_of RecordText)) with RecordText in *.
  assert (M' : Marshal ManscdpTypes.RecordInfoQuery (record_query sn channelID start end_) = Marshal RecordText v) by done.
  pose proof (encode_utf8 (txt "Query") (fields_of RecordText) v eq_refl G) as V.
  destruct (body_encoded RecordText v _ M Cl eq_refl V) as [B Rt]. unfold record_body, Encode in *. rewrite M'.
  pose proof (query_dual (fields_of RecordText) v _ _ attrs cs eq_refl G A Cs B Rt) as Q.
  eexists. split; [apply Q; [solve_compatible|solve_compatible|done|done]|]. done.
Qed.

(** ** A page *)

(** A recording in the platform's list. *)
Definition listed (deviceID : text) (seg : SegmentMeta) : val :=
  VStruct [VString deviceID; VString (Base (File seg)); VString (File seg); VString deviceID; VString (formatGBTime (StartMS seg));
           VString (formatGBTime (EndMS seg)); VInt 0; VString (txt "time"); VString []].

Lemma record_item_read deviceID seg : good RecordItem (record_item deviceID seg) ->
  exists attrs cs, marshal RecordItem false (txt "Item") (record_item deviceID seg) = [Elem (txt "Item") attrs cs] /\
    unmarshal ManscdpTypes.RecordItem (zero ManscdpTypes.RecordItem) (Elem (txt "Item") attrs cs) = Some (listed deviceID seg).
Proof.
  intros G. set (v := record_item deviceID seg) in *. eexists _, _. split; [reflexivity|].
  change (TStruct (Some (txt "Item")) (fields_of ManscdpTypes.RecordItem)) with ManscdpTypes.RecordItem.
  pose proof (cross_read None (fields_of RecordItem) (values_of v) (Some (txt "Item")) (fields_of ManscdpTypes.RecordItem) (txt "Item") eq_refl G eq_refl eq_refl eq_refl) as X.
  etransitivity; [exact X|].
  assert (Y : cross (fields_of RecordItem) (values_of v) (fields_of ManscdpTypes.RecordItem) = Some (values_of (listed deviceID seg))).
  { repeat (apply cross_cons; [first [eapply (cross_same None); [reflexivity|exact G|split; [reflexivity|vm_compute; first [exact I|split; [reflexivity|left; reflexivity]]]|reflexivity]|idtac]|]); [|apply cross_nil].
    reflexivity. }
  by rewrite Y.
Qed.

Lemma records_read deviceID segs acc : Forall (fun g => good RecordItem (record_item deviceID g)) segs ->
  foldM (unmarshal (TSlice ManscdpTypes.RecordItem))
    (the (txt "Item") (elems (concat (map (marshal RecordItem false (txt "Item")) (map (record_item deviceID) segs))))) (VList acc) =
  Some (VList (acc ++ map (listed deviceID) segs)).
Proof.
  intros G. revert acc. induction G as [|g segs Hg _ IH]; intros acc; [cbn; by rewrite app_nil_r|].
  destruct (record_item_read deviceID g Hg) as (attrs & cs & M & U). cbn [map concat]. rewrite M. unfold the, elems in *.
  cbn [app List.filter is_elem named]. rewrite bool_decide_eq_true_2 by done. cbn [foldM]. rewrite unmarshal_slice, U. cbn [mbind option_bind].
  rewrite IH, <- app_assoc. done.
Qed.

Definition records_page (sn : Z) (deviceID : text) (n : Z) (segs : list SegmentMeta) : val :=
  record_page (Itoa sn) deviceID (map (record_item deviceID) segs) n.
Definition records_body (sn : Z) (deviceID : text) (n : Z) (segs : list SegmentMeta) : text := Marshal RecordInfoResponse (records_page sn deviceID n segs).

(** What the platform's decoder makes of it. *)
Definition records_of (sn : Z) (deviceID : text) (n : Z) (segs : list SegmentMeta) : val :=
  VStruct [VString (txt "RecordInfo"); VInt sn; VString deviceID; VString (txt "RecordInfo"); VInt n; VList (map (listed deviceID) segs);
           VString (txt "RecordInfo"); VInt sn].

Lemma records_value sn deviceID n segs : records_page sn deviceID n segs =
  VStruct [VString (txt "RecordInfo"); VString (Itoa sn); VString deviceID; VString (txt "RecordInfo"); VRef (VInt n);
           VStruct [VInt (Z.of_nat (length (map (record_item deviceID) segs))); VList (map (record_item deviceID) segs)]].
Proof. reflexivity. Qed.

Lemma records_good sn deviceID n segs : 0 <= sn < 2 ^ 63 -> xml_text deviceID -> Forall (fun g => good RecordItem (record_item deviceID g)) segs ->
  Z.of_nat (length segs) < 2 ^ 63 -> 0 <= n < 2 ^ 63 -> good RecordInfoResponse (records_page sn deviceID n segs).
Proof.
  intros S D G L R. assert (N : xml_text (Itoa sn)) by (by apply plain_xml, digits_plain, Itoa_plain). rewrite records_value.
  cbn -[txt length RecordItem]; rewrite length_map; split_and!; try done; try lia; try (apply plain_xml; repeat constructor). by apply List.Forall_map.
Qed.

Lemma records_decoded sn deviceID n segs : 0 <= sn < 2 ^ 63 -> xml_text deviceID -> Forall (fun g => good RecordItem (record_item deviceID g)) segs ->
  Z.of_nat (length segs) < 2 ^ 63 -> 0 <= n < 2 ^ 63 ->
  Decode (records_body sn deviceID n segs) = Some (ManscdpTypes.CmdRecordInfo, AsRecordInfo, records_of sn deviceID n segs).
Proof.
  intros S D G L R. pose proof (records_good sn deviceID n segs S D G L R) as Gp. unfold records_body. set (v := records_page sn deviceID n segs) in *.
  destruct (marshalled (txt "Response") (fields_of RecordInfoResponse) v eq_refl Gp) as (attrs & cs & A & Cs & M & Cl & _).
  change (TStruct (Some (txt "Response")) (fields_of RecordInfoResponse)) with RecordInfoResponse in *.
  assert (Tc : tree_command attrs cs = txt "RecordInfo").
  { unfold tree_command. rewrite Cs, (last_elem_other _ (Some (txt "Response"))) by done. rewrite A. unfold v. rewrite records_value. reflexivity. }
  pose proof (cross_read (Some (txt "Response")) (fields_of RecordInfoResponse) (values_of v) (Some (txt "Response")) (fields_of ManscdpTypes.RecordInfo) (txt "Response")
    eq_refl Gp eq_refl eq_refl eq_refl) as X. rewrite <- A, <- Cs in X.
  assert (Y : cross (fields_of RecordInfoResponse) (values_of v) (fields_of ManscdpTypes.RecordInfo) =
    Some [VString []; VInt 0; VString deviceID; VString (txt "RecordInfo"); VInt n; VList (map (listed deviceID) segs); VString (txt "RecordInfo"); VInt sn]).
  { unfold v in *. rewrite records_value in *. cbn [values_of] in *.
    repeat (apply cross_cons; [first [eapply (cross_same (Some (txt "Response"))); [reflexivity|exact Gp|split; [reflexivity|vm_compute; first [exact I|split; [reflexivity|first [left; reflexivity|right; split; reflexivity]]]]|reflexivity]|idtac]|]); [| |apply cross_nil].
    - unfold cross_attr, cross_elem. cbn [f_attr f_parent f_name elem_in mbind option_bind].
      change (pick (txt "RecordList") _ _) with [Elem (txt "RecordList") [(txt "Num", Itoa (Z.of_nat (length (map (record_item deviceID) segs))))] (concat (map (marshal RecordItem false (txt "Item")) (map (record_item deviceID) segs)) ++ [])].
      cbn [foldM children_of]. rewrite app_nil_r. change (zero (TSlice ManscdpTypes.RecordItem)) with (VList []). rewrite records_read by done. done.
    - unfold cross_attr, cross_elem. cbn [f_attr f_parent f_name attr mbind option_bind].
      change (pick_attr (txt "SN") _ _) with [(txt "SN", Itoa sn)]. cbn [foldM snd]. by rewrite copy_int. }
  rewrite Y in X. destruct (body_printed _ Cl eq_refl) as [_ Rt].
  pose proof (decode_found (Marshal RecordInfoResponse v) (txt "Response") attrs cs AsRecordInfo) as Df. rewrite Tc in Df.
  etransitivity; [apply (Df (VStruct [VString []; VInt 0; VString deviceID; VString (txt "RecordInfo"); VInt n; VList (map (listed deviceID) segs); VString (txt "RecordInfo"); VInt sn]))|].
  - by rewrite M, (printed_utf8 _ Cl).
  - by rewrite M, strip_printed.
  - done.
  - exact X.
  - reflexivity.
Qed.

(** ** The device's pages *)

Lemma pages_go_map {A B} (f : A -> B) n l : pages_go n (map f l) = map (map f) (pages_go n l).
Proof.
  revert l. induction n as [|n IH]; intros [|x l]; [done..|]. cbn [pages_go map]. rewrite <- IH.
  change (f x :: map f l) with (map f (x :: l)). by rewrite firstn_map, skipn_map.
Qed.

(** An empty list is one page, too. *)
Definition record_pages (segs : list SegmentMeta) : list (list SegmentMeta) := match segs with [] => [[]] | _ => pages segs end.

Lemma record_pages_spec segs : concat (record_pages segs) = segs /\ Forall (fun p => (length p <= responsePageItems)%nat) (record_pages segs) /\
  (segs <> [] -> Forall (fun p => p <> []) (record_pages segs)).
Proof.
  destruct (pages_spec segs) as [C F]. destruct segs as [|g segs]; [split; [done|]; split; [repeat constructor; cbn; unfold responsePageItems; lia|done]|].
  split; [done|]. split; [|intros _]; (eapply list.Forall_impl; [exact F|]); intros p L; cbn beta in L; [lia|]. intros ->. cbn in L. lia.
Qed.

Lemma record_answer ua tag recording now msg dev lookup sn channelID start end_ a b : 0 <= sn < 2 ^ 63 -> xml_text channelID -> xml_text start -> xml_text end_ ->
  parseGBTime start = Some a -> parseGBTime end_ = Some b -> a <= b -> Body msg = record_body sn channelID start end_ ->
  let r := DispatchInboundMessage ua tag recording now msg dev (Some lookup) in
  d_ok200 r = Build200OK ua tag msg [] [] /\
  map Body (d_pages r) = map (records_body sn channelID (Z.of_nat (length (lookup a b)))) (record_pages (lookup a b)).
Proof.
  intros S Cx Sx Ex Pa Pb L B. destruct (record_query_read sn channelID start end_ S Cx Sx Ex) as (query & Q & Q1 & Q2 & Q3 & Q4 & Q5).
  destruct (record_query_good sn channelID start end_ S Cx Sx Ex) as [_ G].
  assert (Dc : Decode (Body msg) = Some (txt "RecordInfo", AsRecordInfoQuery, merged AsRecordInfoQuery (record_query sn channelID start end_))).
  { rewrite B. unfold record_body. change ManscdpTypes.RecordInfoQuery with (schema AsRecordInfoQuery). by rewrite decode_encoded. }
  unfold DispatchInboundMessage. rewrite (bool_decide_eq_false_2 (Body msg = [])), Dc by (rewrite B; done).
  rewrite bool_decide_eq_false_2 by done. cbn zeta. rewrite B, Q. cbn [d_ok200 d_pages]. split; [done|].
  unfold answer_query. rewrite Q1, Q2, Q3. unfold record_items. rewrite Q4, Q5, Q3, Pa, Pb, (proj2 (Z.leb_le a b) L).
  rewrite !bool_decide_eq_false_2 by done. rewrite bool_decide_eq_true_2 by done. cbn [andb orb].
  destruct (lookup a b) as [|g segs]; [done|]. cbn [map record_pages]. rewrite map_map. cbn [length]. rewrite length_map.
  change (record_item channelID g :: map (record_item channelID) segs) with (map (record_item channelID) (g :: segs)).
  unfold pages. rewrite length_map, pages_go_map, map_map. apply map_ext. intros page. done.
Qed.

(** ** The collection *)

(** A page as the query takes it: what its document announces, and its recordings. *)
Definition feed_page (n : Z) (p : pendingRecordQuery) (page : list val) : pendingRecordQuery :=
  let sumNum := if q_sumNum p <? n then n else q_sumNum p in
  let items := q_items p ++ page in
  mkPendingRecordQuery sumNum items (q_done p || ((0 <? sumNum) && (sumNum <=? Z.of_nat (length items)))).

(** What the query holds after some of the pages: it is done once as many recordings as
    the device announced have come. *)
Lemma feed_pages_spec n pgs : 0 <= n ->
  fold_left (feed_page n) pgs (mkPendingRecordQuery 0 [] false) =
  mkPendingRecordQuery (match pgs with [] => 0 | _ => n end) (concat pgs) ((0 <? n) && (n <=? Z.of_nat (length (concat pgs)))).
Proof.
  intros R. induction pgs as [|p pgs IH] using rev_ind.
  { cbn [fold_left concat length Z.of_nat]. f_equal. symmetry. apply andb_false_iff. rewrite Z.ltb_ge, Z.leb_gt. lia. }
  rewrite fold_left_app, IH. cbn [fold_left]. unfold feed_page. cbn [q_sumNum q_items q_done].
  assert (E : (if (match pgs with [] => 0 | _ => n end) <? n then n else match pgs with [] => 0 | _ => n end) = n).
  { destruct pgs; [|by rewrite Z.ltb_irrefl]. destruct (Z.ltb_spec 0 n); lia. }
  rewrite E, concat_app. cbn [concat]. rewrite app_nil_r. f_equal; [by destruct pgs|].
  rewrite !length_app. destruct (Z.ltb_spec 0 n); [|done]. cbn [andb].
  destruct (Z.leb_spec n (Z.of_nat (length (concat pgs)))), (Z.leb_spec n (Z.of_nat (length (concat pgs) + length p))); done || lia.
Qed.

(** A document that decodes to a page of the query. *)
Definition is_page (sn : Z) (channelID : text) (n : Z) (page : list val) (body : text) : Prop :=
  exists v, Decode body = Some (ManscdpTypes.CmdRecordInfo, AsRecordInfo, v) /\ get_string ManscdpTypes.RecordInfo "DeviceID" v = channelID /\
    get_int ManscdpTypes.RecordInfo "SN" v = sn /\ get_int ManscdpTypes.RecordInfo "SumNum" v = n /\ get_list ManscdpTypes.RecordInfo "RecordList" v = page.

Lemma page_fed h now nt from sn channelID n page body st q p : verifyNote h = None -> is_page sn channelID n page body ->
  recordQueries st !! recordKey channelID sn = Some q -> queries st !! q = Some p ->
  handleMessage h now nt (mkRequest from body) st = Some (st <| queries := <[q := feed_page n p page]> (queries st) |>, [OK]).
Proof.
  intros V (v & Dc & E1 & E2 & E3 & E4) K P. unfold handleMessage. rewrite V. cbn [rq_body].
  rewrite bool_decide_eq_false_2; [|intros E; rewrite E in Dc; discriminate Dc]. rewrite Dc.
  rewrite (bool_decide_eq_false_2 (ManscdpTypes.CmdRecordInfo = ManscdpTypes.CmdBroadcast)) by done. rewrite (bool_decide_eq_false_2 (ManscdpTypes.CmdRecordInfo = ManscdpTypes.CmdKeepalive)) by done.
  rewrite (bool_decide_eq_false_2 (ManscdpTypes.CmdRecordInfo = ManscdpTypes.CmdCatalog)) by done. rewrite !bool_decide_eq_true_2 by done.
  unfold feedRecordQuery. rewrite E1, E2, K, P. unfold feed. by rewrite E3, E4.
Qed.

Lemma pages_fed {A} (page_of : A -> list val) (doc : A -> text) h now nt from sn channelID n pgs st q p : verifyNote h = None ->
  Forall (fun x => is_page sn channelID n (page_of x) (doc x)) pgs ->
  recordQueries st !! recordKey channelID sn = Some q -> queries st !! q = Some p ->
  exists st' es, deliver h now nt from (map doc pgs) st = Some (st', es) /\ Forall accepted es /\
    queries st' !! q = Some (fold_left (feed_page n) (map page_of pgs) p).
Proof.
  intros V F. revert st p. induction F as [|x pgs Hx F IH]; intros st p K P; [by exists st, []; split; [|split; [constructor|]]|].
  cbn [map deliver]. rewrite (page_fed h now nt from sn channelID n (page_of x) (doc x) st q p) by done. cbn [mbind option_bind].
  destruct (IH (st <| queries := <[q := feed_page n p (page_of x)]> (queries st) |>) (feed_page n p (page_of x))) as (st' & es & E & Es & R).
  { done. } { cbn. by rewrite lookup_insert_eq. }
  rewrite E. eexists _, _. split; [done|]. split; [by constructor|done].
Qed.

Lemma concat_short {A} (pgs : list (list A)) p k : Forall (fun p => p <> []) pgs -> (k < length pgs)%nat -> pgs !! k = Some p ->
  (length (concat (take k pgs)) < length (concat pgs))%nat.
Proof.
  intros N L E. rewrite <- (take_drop k pgs) at 2. rewrite concat_app, length_app, (drop_S pgs p k E). cbn [concat]. rewrite length_app.
  assert (p <> []) by (rewrite list.Forall_forall in N; apply N; by eapply list_elem_of_lookup_2). destruct p; [done|]. cbn [length]. lia.
Qed.

(** All pages of an answer in any order: the query is done with the last one and not
    before, unless there is nothing to find, and holds what the pages hold. *)
Lemma collected {A} (page_of : A -> list val) (doc : A -> text) h nt from sn deviceID channelID pgs (all : list val) st q : verifyNote h = None ->
  concat (map page_of pgs) = all -> (all <> [] -> Forall (fun x => page_of x <> []) pgs) ->
  Forall (fun x => is_page sn channelID (Z.of_nat (length all)) (page_of x) (doc x)) pgs ->
  recordQueries st !! recordKey channelID sn = Some q -> queries st !! q = Some (mkPendingRecordQuery 0 [] false) ->
  forall arrived, Permutation arrived (map doc pgs) ->
  (exists st2 es, deliver h 0 nt from arrived st = Some (st2, es) /\ Forall accepted es /\
    q_done <$> queries st2 !! q = Some (negb (bool_decide (all = []))) /\ Permutation (snd (end_query q sn deviceID channelID st2)) all) /\
  forall k, (k < length arrived)%nat -> exists st2 es, deliver h 0 nt from (take k arrived) st = Some (st2, es) /\ q_done <$> queries st2 !! q = Some false.
Proof.
  intros V Cc Cn G Kq Pq arrived Ar. apply Permutation_map_inv in Ar as (ps & -> & Ar). set (n := Z.of_nat (length all)) in *.
  assert (Pc : Permutation (concat (map page_of ps)) all) by (rewrite <- Cc, Ar; done).
  assert (Gp : Forall (fun x => is_page sn channelID n (page_of x) (doc x)) ps) by (by rewrite <- Ar).
  split.
  - destruct (pages_fed page_of doc h 0 nt from sn channelID n ps st q _ V Gp Kq Pq) as (st2 & es & E & Es & F). exists st2, es. split; [done|]. split; [done|].
    rewrite feed_pages_spec in F by lia. unfold end_query. cbn [snd]. rewrite F. split.
    + cbn. f_equal. rewrite Pc. fold n. destruct all as [|g l]; [done|]. rewrite bool_decide_eq_false_2 by done. unfold n. cbn [length negb].
      apply andb_true_iff. rewrite Z.ltb_lt, Z.leb_le. lia.
    + cbn [q_items]. by rewrite Pc.
  - intros k Hk. rewrite length_map in Hk. rewrite firstn_map.
    assert (Gk : Forall (fun x => is_page sn channelID n (page_of x) (doc x)) (take k ps)).
    { rewrite <- (take_drop k ps) in Gp. by apply Forall_app in Gp as [Gp _]. }
    destruct (pages_fed page_of doc h 0 nt from sn channelID n (take k ps) st q _ V Gk Kq Pq) as (st2 & es & E & _ & F).
    exists st2, es. split; [done|]. rewrite F, feed_pages_spec by lia. cbn. f_equal. apply andb_false_iff. rewrite Z.ltb_ge, Z.leb_gt.
    destruct (decide (all = [])) as [Z|N]; [left; unfold n; rewrite Z; done|right]. specialize (Cn N). rewrite Ar in Cn.
    destruct (lookup_lt_is_Some_2 ps k Hk) as [p Hp]. pose proof (concat_short (map page_of ps) (page_of p) k) as Sh. unfold n.
    rewrite length_map, list_lookup_fmap, Hp, firstn_map, Pc in Sh. specialize (Sh ltac:(by apply List.Forall_map) Hk eq_refl). lia.
Qed.

(** C4: A query for recordings from end to end. The query that the platform sends to an
    online device is understood by the device, which looks up the requested time range in
    its index and answers with one document per page, the pages of at most ten recordings
    being together what the index returned; in whatever order the documents arrive, the platform accepts them without a panic. The query is answered as long as the
    device has a recording: it completes with the last page and with no page before it, and
    what it then holds is exactly what the index returned, each recording once and with its
    file and its times. Without a recording the device's empty page does not complete it,
    and the platform waits until its timeout. *)
Theorem records_exchanged h ua tag recording now nt msg dev lookup from st q sn deviceID channelID start end_ a b d :
  verifyNote h = None -> devices (deviceMgr st) !! deviceID = Some d -> Status d = DeviceOnline -> 0 <= sn < 2 ^ 63 ->
  xml_text channelID -> xml_text start -> xml_text end_ -> parseGBTime start = Some a -> parseGBTime end_ = Some b -> a <= b ->
  let segs := lookup a b in
  Forall (fun g => good RecordItem (record_item channelID g)) segs -> Z.of_nat (length segs) < 2 ^ 63 ->
  exists st1 body, start_query q sn deviceID channelID start end_ st = Some (st1, [SendMessage deviceID body]) /\ (Body msg = body ->
    let r := DispatchInboundMessage ua tag recording now msg dev (Some lookup) in
    d_ok200 r = Build200OK ua tag msg [] [] /\
    (exists pgs, concat pgs = segs /\ Forall (fun p => (length p <= 10)%nat) pgs /\
      map Body (d_pages r) = map (records_body sn channelID (Z.of_nat (length segs))) pgs) /\
    forall arrived, Permutation arrived (map Body (d_pages r)) ->
    (exists st2 es, deliver h 0 nt from arrived st1 = Some (st2, es) /\ Forall accepted es /\
      q_done <$> queries st2 !! q = Some (negb (bool_decide (segs = []))) /\
      Permutation (snd (end_query q sn deviceID channelID st2)) (map (listed channelID) segs)) /\
    forall k, (k < length arrived)%nat ->
      exists st2 es, deliver h 0 nt from (take k arrived) st1 = Some (st2, es) /\ q_done <$> queries st2 !! q = Some false).
Proof.
  intros V Hd O S Cx Sx Ex Pa Pb L segs G Ln. unfold start_query. rewrite Hd, (proj2 (Z.eqb_eq _ _) O). eexists _, _. split; [reflexivity|].
  set (st1 := _ <| recordQueries := _ |>). intros B. destruct (record_answer ua tag recording now msg dev lookup sn channelID start end_ a b S Cx Sx Ex Pa Pb L B) as (R1 & R2).
  fold segs in R1, R2. set (n := Z.of_nat (length segs)) in *. split; [exact R1|]. rewrite R2. destruct (record_pages_spec segs) as (Cc & Cl & Cn).
  split; [by exists (record_pages segs)|].
  assert (Ln' : Z.of_nat (length (map (listed channelID) segs)) = n) by (by rewrite length_map).
  assert (Ee : bool_decide (segs = []) = bool_decide (map (listed channelID) segs = [])) by (by destruct segs). rewrite Ee.
  apply (collected (map (listed channelID))); [done| | | |by apply lookup_insert_eq|by apply lookup_insert_eq].
  - by rewrite <- concat_map, Cc.
  - intros N. apply list.Forall_forall. intros p Hp E. apply map_eq_nil in E. assert (Ns : segs <> []) by (by intros ->).
    specialize (Cn Ns). rewrite list.Forall_forall in Cn. by apply (Cn p Hp).
  - rewrite Ln'. apply list.Forall_forall. intros p Hp. rewrite list.Forall_forall in Cl. exists (records_of sn channelID n p). split; [|done].
    apply records_decoded; [done|done| |pose proof (Cl p Hp) as Lp; unfold responsePageItems in Lp; lia|lia].
    apply list.Forall_forall. intros c Hc. rewrite list.Forall_forall in G. apply G. rewrite <- Cc, list_elem_of_In. apply in_concat. exists p. by rewrite <- !list_elem_of_In.
Qed.

End Records.

Definition demo_segment (n : Z) : SegmentMeta := Playback.mkSegmentMeta (txt "/rec/" ++ Itoa n ++ txt ".mp4") (n * 1000) (n * 1000 + 500).
Definition demo_clock : LocalTime := {| ParseLocal := fun s => Atoi (drop 17 s); FormatLocal := fun ms => txt "2024-01-01T00:00:" ++ Itoa (ms / 1000) |}.
Definition demo_index (a b : Z) : list SegmentMeta := map demo_segment [10; 11; 12; 13; 14; 15; 16; 17; 18; 19; 20; 21].
Definition demo_record_query : SipMessage :=
  empty_message <| Body := @record_body demo_xml 7 (txt "1310") (txt "2024-01-01T00:00:10") (txt "2024-01-01T00:00:30") |>.

Lemma records_exchanged_witness :
  exists st1 st2 es, @start_query demo_xml 0 7 (txt "3402") (txt "1310") (txt "2024-01-01T00:00:10") (txt "2024-01-01T00:00:30") demo_state =
      Some (st1, [SendMessage (txt "3402") (Body demo_record_query)]) /\
    @deliver demo_xml demo_charsets demo_host 0 [] None
      (map Body (d_pages (@DispatchInboundMessage demo_xml demo_charsets demo_clock [] [] false [] demo_record_query demo_context (Some demo_index)))) st1 = Some (st2, es) /\
    Permutation (snd (end_query 0 7 (txt "3402") (txt "1310") st2)) (map (@listed demo_clock (txt "1310")) (demo_index 10 30)).
Proof.
  destruct (@records_exchanged demo_xml demo_floats demo_charsets demo_clock demo_host [] [] false [] [] demo_record_query demo_context demo_index None
    demo_state 0 7 (txt "3402") (txt "1310") (txt "2024-01-01T00:00:10") (txt "2024-01-01T00:00:30") 10 30 demo_online) as (st1 & body & Sq & K).
  1-3: reflexivity.
  1: split; [discriminate|reflexivity].
  1-3: split; [vm_compute; repeat constructor; discriminate|reflexivity].
  1-3: first [reflexivity|discriminate].
  - repeat (apply List.Forall_cons; [vm_compute; repeat split; try discriminate; repeat constructor; try discriminate|]). apply List.Forall_nil.
  - reflexivity.
  - pose proof (f_equal (fun o => match o with Some (_, [SendMessage _ b]) => b | _ => [] end) Sq) as Eb.
    change (Body demo_record_query = body) in Eb. subst body. destruct (K eq_refl) as (_ & _ & D). destruct (D _ (Permutation_refl _)) as [(st2 & es & E & _ & _ & P) _].
    exists st1, st2, es. split; [exact Sq|]. split; [exact E|exact P].
Defined.
