(* ===== verification/Templates.v ===== *)
(** Documents that the code writes line by line with [fmt.Sprintf]: they are read like the
    same elements without the line ends. *)

From S2P Require Import Prelude GoStrings GoText Xml XmlStruct.
From S2P Require Import ManscdpCodec.
#[local] Open Scope string_scope.
#[local] Open Scope list_scope.
Open Scope Z_scope.

Section Templates.

Context `{FloatLaws} `{Charsets}.

(** The elements of a line each, and the tree that is read. *)
Definition lined (sep name : text) (cs : list node) : text :=
  txt "<" ++ name ++ txt ">" ++ sep ++ concat (map (fun n => print n ++ sep) cs) ++ txt "</" ++ name ++ txt ">".

Definition spaced (cs : list node) : list node := Chars LF :: concat (map (fun n => [n; Chars LF]) cs).

(** A line end in front of a tag. *)
Definition line_end (sep : text) : Prop := sep = LF \/ sep = CRLF.

Lemma content_line_end sep f r : line_end sep ->
  content (S f) (sep ++ 0x3C :: r) = match content f (0x3C :: r) with Some (l, e, t) => Some (Chars LF :: l, e, t) | None => None end.
Proof. by intros [-> | ->]. Qed.

Lemma nodes_size_cons n l : nodes_size (n :: l) = (node_size n + nodes_size l)%nat.
Proof. done. Qed.

(** One element in front of what can be read. *)
Lemma content_elem name attrs cs f tail l e t : clean_node (Elem name attrs cs) -> (nodes_size cs < f)%nat -> content f tail = Some (l, e, t) ->
  content (S f) (print (Elem name attrs cs) ++ tail) = Some (Elem name attrs cs :: l, e, t).
Proof.
  intros C Hf R. inversion C as [? ? ? Hn Ha Hc]; subst.
  assert (E : print (Elem name attrs cs) ++ tail =
    0x3C :: (name ++ concat (map print_attr attrs) ++ txt ">" ++ (concat (map print cs) ++ txt "</" ++ name ++ txt ">" ++ tail))).
  { cbn [print]. change (txt "<") with [0x3C]. by rewrite <- !app_assoc. }
  rewrite E. set (body := concat (map print cs) ++ txt "</" ++ name ++ txt ">" ++ tail) in *. cbn [content].
  destruct (xml_name_head name (concat (map print_attr attrs) ++ txt ">" ++ body) Hn) as (b & r & En & Lb & _).
  assert (P : forall c, letter c = false -> HasPrefix (0x3C :: name ++ concat (map print_attr attrs) ++ txt ">" ++ body) [0x3C; c] = false).
  { intros c Hc'. rewrite En. cbn [HasPrefix]. by rewrite (proj2 (Z.eqb_neq c b)) by congruence. }
  change (txt "</") with [0x3C; 0x2F]. change (txt "<?") with [0x3C; 0x3F]. change (txt "<!") with [0x3C; 0x21]. rewrite !P by done.
  rewrite (HasPrefix_app (txt "<") (name ++ concat (map print_attr attrs) ++ txt ">" ++ body) : HasPrefix (0x3C :: _) (txt "<") = true). cbn [drop]. cbv iota. rewrite drop_0.
  rewrite read_start_printed by done. unfold body. rewrite content_printed by done. rewrite bool_decide_eq_true_2 by done. by rewrite R.
Qed.

Lemma print_head n : is_elem n = true -> exists r, print n = 0x3C :: r.
Proof. destruct n as [name attrs cs|]; [|done]. intros _. by eexists. Qed.

Lemma lines_read sep cs m rest : line_end sep -> elements cs -> xml_name m = true -> forall f, (2 * nodes_size cs + 2 * length cs + 2 <= f)%nat ->
  content f (sep ++ concat (map (fun n => print n ++ sep) cs) ++ txt "</" ++ m ++ txt ">" ++ rest) = Some (spaced cs, ([], m), rest).
Proof.
  intros S E M. induction E as [|n cs [En Cn] _ IH]; intros f Hf; unfold spaced; cbn [map concat app length] in *.
  - destruct f as [|[|f]]; try lia. change (txt "</" ++ m ++ txt ">" ++ rest) with (0x3C :: (txt "/" ++ m ++ txt ">" ++ rest)).
    rewrite content_line_end by done. change (0x3C :: (txt "/" ++ m ++ txt ">" ++ rest)) with (txt "</" ++ m ++ txt ">" ++ rest).
    by rewrite end_tag_read.
  - rewrite nodes_size_cons in Hf. destruct f as [|[|f]]; try lia. rewrite <- !app_assoc.
    set (tail := sep ++ concat (map (fun n => print n ++ sep) cs) ++ txt "</" ++ m ++ txt ">" ++ rest) in *.
    destruct n as [name attrs ch|]; [|done]. destruct (print_head (Elem name attrs ch) eq_refl) as [r Er].
    assert (Eq : sep ++ print (Elem name attrs ch) ++ tail = sep ++ 0x3C :: (r ++ tail)) by (by rewrite Er).
    rewrite Eq, content_line_end by done. change (0x3C :: r ++ tail) with ((0x3C :: r) ++ tail). rewrite <- Er. cbn [node_size] in Hf. fold (nodes_size ch) in Hf.
    rewrite (content_elem name attrs ch f tail (spaced cs) ([], m) rest); [done|done|lia|]. unfold tail. apply IH. lia.
Qed.

(** Every node needs two bytes and more. *)
Lemma printed_length n : clean_node n -> (2 * node_size n + 2 <= length (print n))%nat.
Proof.
  apply (clean_node_mut (fun n _ => 2 * node_size n + 2 <= length (print n))%nat (fun cs _ => 2 * nodes_size cs <= length (concat (map print cs)) + 1)%nat).
  - intros name attrs cs Hn _ _ IH. destruct (xml_name_spec name Hn) as (b & r & -> & _). cbn [node_size print]. fold (nodes_size cs). rewrite !length_app. cbn [length]. simpl. lia.
  - unfold nodes_size. simpl. lia.
  - intros s Hs Hne. pose proof (escaped_nonempty s Hs Hne). cbn [map concat print]. rewrite app_nil_r. unfold nodes_size. simpl. lia.
  - intros name attrs cs l _ IHn _ IHl. cbn [map concat]. rewrite length_app, nodes_size_cons. lia.
Qed.

Lemma lined_size sep cs : line_end sep -> elements cs -> (2 * nodes_size cs + 2 * length cs <= length (concat (map (fun n => print n ++ sep) cs)))%nat.
Proof.
  intros S. induction 1 as [|n cs [En Cn] _ IH]; [done|]. cbn [map concat length]. rewrite !length_app, nodes_size_cons.
  pose proof (printed_length n Cn). lia.
Qed.

Lemma root_lined sep m cs : line_end sep -> elements cs -> xml_name m = true -> root (sep ++ lined sep m cs) = Some (Elem m [] (spaced cs)).
Proof.
  intros S E M. set (body := sep ++ concat (map (fun n => print n ++ sep) cs) ++ txt "</" ++ m ++ txt ">" ++ []).
  assert (El : lined sep m cs = 0x3C :: (m ++ concat (map print_attr []) ++ txt ">" ++ body)).
  { unfold lined, body. rewrite app_nil_r. change (txt "<") with [0x3C]. reflexivity. }
  assert (R : forall f, root_loop (Datatypes.S f) (lined sep m cs) = Some (Elem m [] (spaced cs))).
  { intros f. rewrite El. cbn [root_loop]. destruct (xml_name_head m (concat (map print_attr []) ++ txt ">" ++ body) M) as (b & r & En & Lb & _).
    assert (P : forall c, letter c = false -> HasPrefix (0x3C :: m ++ concat (map print_attr []) ++ txt ">" ++ body) [0x3C; c] = false).
    { intros c Hc'. rewrite En. cbn [HasPrefix]. by rewrite (proj2 (Z.eqb_neq c b)) by congruence. }
    change (txt "</") with [0x3C; 0x2F]. change (txt "<?") with [0x3C; 0x3F]. change (txt "<!") with [0x3C; 0x21]. rewrite !P by done.
    rewrite (HasPrefix_app (txt "<") (m ++ concat (map print_attr []) ++ txt ">" ++ body) : HasPrefix (0x3C :: _) (txt "<") = true).
    cbn [drop]. cbv iota. rewrite drop_0, read_start_printed by (done || constructor). unfold body. rewrite lines_read; [by rewrite bool_decide_eq_true_2|done..|].
    pose proof (lined_size sep cs S E). rewrite !length_app. cbn. lia. }
  unfold root. rewrite El in *. destruct S as [-> | ->]; cbn [app LF CRLF length]; apply R.
Qed.

(** ** Decoding *)

Lemma elems_spaced cs : elements cs -> elems (spaced cs) = cs.
Proof.
  unfold spaced, elems. cbn [List.filter is_elem]. induction 1 as [|n cs [En _] _ IH]; [done|]. cbn [map concat app List.filter is_elem].
  rewrite En. by f_equal.
Qed.

Lemma elems_idem cs : elems (elems cs) = elems cs.
Proof. apply elems_all. unfold elems. apply List.Forall_forall. by intros n [_ E]%filter_In. Qed.

Lemma unmarshal_elems xn fs old name attrs cs : unmarshal (TStruct xn fs) old (Elem name attrs cs) = unmarshal (TStruct xn fs) old (Elem name attrs (elems cs)).
Proof. cbn [unmarshal]. by rewrite elems_idem. Qed.

Lemma last_elem_elems p cs a : last_elem p (elems cs) a = last_elem p cs a.
Proof.
  unfold last_elem, elems. revert a. induction cs as [|[name attrs ch|s] cs IH]; intros a; [done|apply IH|]. cbn [List.filter is_elem fold_left named]. apply IH.
Qed.

Lemma spaced_utf8 sep m cs : line_end sep -> elements cs -> xml_name m = true -> utf8_Valid (sep ++ lined sep m cs) = true.
Proof.
  intros S E M. assert (Us : utf8_Valid sep = true) by (by destruct S as [-> | ->]). unfold lined. repeat apply utf8_app; try done; try by apply xml_name_utf8.
  apply utf8_concat. eapply list.Forall_impl; [exact E|]. intros n [_ C]. apply utf8_app; [by apply printed_utf8|done].
Qed.

Lemma children_elements x fs v : schema_ok (TStruct x fs) = true -> good (TStruct x fs) v -> elements (marshal_children marshal fs (values_of v)).
Proof.
  intros O G. destruct v as [| | | | | |vs]; try done. cbn [schema_ok] in O. rewrite !andb_true_iff in O. destruct O as [_ O].
  apply (struct_fields fs vs); [|done|done]. apply list.Forall_forall. intros f _. apply marshal_prints.
Qed.

Lemma strip_decl sep b : line_end sep -> stripXMLDecl (xml_decl ++ sep ++ b) = sep ++ b.
Proof. by intros [-> | ->]. Qed.

Lemma body_lined sep m cs : line_end sep -> elements cs -> xml_name m = true ->
  UTF8Body (xml_decl ++ sep ++ lined sep m cs) = Some (sep ++ lined sep m cs) /\ root (sep ++ lined sep m cs) = Some (Elem m [] (spaced cs)).
Proof.
  intros S E M. split; [|by apply root_lined]. unfold UTF8Body, CharsetDecode.
  rewrite utf8_app by (done || by apply spaced_utf8). cbn [fmap option_fmap option_map]. by rewrite strip_decl.
Qed.

(** A message that is written line by line decodes to the value its elements print. *)
Lemma decode_lined sep m x fs v : line_end sep -> schema m = TStruct (Some x) fs -> m <> AsBroadcastResponse -> good (schema m) v ->
  marshal_attrs fs (values_of v) = [] -> get_string (schema m) "CmdType" v = command_of m ->
  Decode (xml_decl ++ sep ++ lined sep x (marshal_children marshal fs (values_of v))) = Some (command_of m, m, merged m v).
Proof.
  intros S T N G A C. pose proof (schema_good m) as O. rewrite T in *. destruct (marshalled x fs v O G) as (attrs & cs & Ea & Ec & M & Cl & U).
  rewrite A in Ea. subst attrs. rewrite <- Ec. inversion Cl as [? ? ? Hn _ _]; subst n attrs cs0.
  assert (El : elements cs) by (rewrite Ec; by apply (children_elements (Some x))).
  assert (Tc : tree_command [] (spaced cs) = command_of m).
  { destruct (schema_shape m) as [(x' & fs' & E')|]; [|done]. rewrite T in E'. injection E' as <- ->.
    pose proof (command_elem x fs' v O G) as K. cbn [fields_of] in K. rewrite <- Ec in K.
    unfold tree_command. rewrite <- (last_elem_elems _ (spaced cs)), elems_spaced by done. rewrite K.
    assert (Nc : command_of m <> []) by (by destruct m).
    by rewrite C, bool_decide_eq_false_2. }
  assert (D : decode_as (tree_command [] (spaced cs)) x = Some m).
  { rewrite Tc. pose proof (decode_command m) as D. unfold root_of in D. by rewrite T in D. }
  rewrite <- Tc. apply (decode_found _ x); [|rewrite strip_decl by done; by apply root_lined|exact D|].
  - apply utf8_app; [done|]. by apply spaced_utf8.
  - rewrite T, unmarshal_elems, elems_spaced by done. exact U.
Qed.

End Templates.
