(* ===== verification/PlatformControl.v ===== *)
(** The controls a platform sends besides PTZ (platform/control.go) and its catalog
    controller (platform/catalog.go): the channel is looked up, its device must be online,
    and one numbered document goes to the device.

    The controller and its guard are those of the PTZ commands. A sequence number is used
    up even when the element is refused. *)

From S2P Require Import Prelude GoStrings GoText Xml XmlStruct.
From S2P Require ManscdpTypes.
From S2P Require Import ManscdpCodec Ptz DeviceMgr PtzControl.
#[local] Open Scope string_scope.
#[local] Open Scope list_scope.
Open Scope Z_scope.

Definition RecordCmdStart : string := "Record".
Definition RecordCmdStop : string := "StopRecord".
Definition GuardCmdSet : string := "SetGuard".
Definition GuardCmdReset : string := "ResetGuard".

Section Controls.

Context `{GoXml} (SendMessage : text -> text -> bool).

Definition control (sn : Z) (id : text) (xs : list (string * val)) : val :=
  literal ManscdpTypes.DeviceControl ([("CmdType", VString ManscdpTypes.CmdDeviceControl); ("SN", VInt sn); ("DeviceID", VString id)] ++ xs).

(** The number, then the document for the channel, then the message; [None] is a refusal
    by the value. *)
Definition send_numbered (channelID : text) (document : Z -> text -> option (ty * val)) (c : PTZController) : option ptz_error * PTZController :=
  guarded false channelID c (fun ch =>
    let sn := s64 (seq c + 1) in
    let c1 := c <| seq := sn |> in
    match document sn (ch_ID ch) with
    | None => (Some ErrBuild, c1)
    | Some (t, v) =>
        let body := Encode t v in
        (if SendMessage (ch_DeviceID ch) body then None else Some ErrSend, c1 <| sent := sent c ++ [(ch_DeviceID ch, body)] |>)
    end).

(** The fields of a control by its element. *)
Definition element_field (element value : text) : option (list (string * val)) :=
  let elem n := bool_decide (element = txt n) in
  if elem "RecordCmd" then Some [("RecordCmd", VString value)]
  else if elem "GuardCmd" then Some [("GuardCmd", VString value)]
  else if elem "AlarmCmd" then Some [("AlarmCmd", VString value)]
  else if elem "TeleBoot" then Some [("TeleBoot", VString value)]
  else if elem "IFrameCmd" then (if bool_decide (value = txt "Send") then Some [("IFrameCmd", VString value)] else None)
  else if elem "FormatSDCard" then
    match Atoi value with
    | Some card => if card <? 0 then None else Some [("FormatSDCard", VRef (VInt card))]
    | None => None
    end
  else None.

Definition SendDeviceControl (channelID element value : text) : PTZController -> option ptz_error * PTZController :=
  send_numbered channelID (fun sn id => xs ← element_field element value; Some (ManscdpTypes.DeviceControl, control sn id xs)).

Definition uint_pointer (o : option Z) : val := match o with Some n => VRef (VInt n) | None => VNil end.

Definition home_position (enabled : bool) (resetSecs presetIdx : option Z) : val :=
  literal ManscdpTypes.HomePositionCmd [("ResetTime", uint_pointer resetSecs); ("PresetIndex", uint_pointer presetIdx); ("Enabled", VInt (Z.b2z enabled))].

Definition SetHomePosition (channelID : text) (enabled : bool) (resetSecs presetIdx : option Z) : PTZController -> option ptz_error * PTZController :=
  send_numbered channelID (fun sn id =>
    Some (ManscdpTypes.DeviceControl, control sn id [("HomePosition", VRef (home_position enabled resetSecs presetIdx))])).

Definition SendSnapShotCmd (channelID : text) (cmd : val) : PTZController -> option ptz_error * PTZController :=
  send_numbered channelID (fun sn id =>
    Some (ManscdpTypes.DeviceConfig, literal ManscdpTypes.DeviceConfig [("CmdType", VString ManscdpTypes.CmdDeviceConfig); ("SN", VInt sn);
      ("DeviceID", VString id); ("SnapShotConfig", VRef cmd)])).

Definition SendDeviceUpgradeCmd (channelID : text) (cmd : val) : PTZController -> option ptz_error * PTZController :=
  send_numbered channelID (fun sn id => Some (ManscdpTypes.DeviceControl, control sn id [("DeviceUpgrade", VRef cmd)])).

Definition SendFormatSDCardCmd (channelID : text) (card : Z) : PTZController -> option ptz_error * PTZController :=
  SendDeviceControl channelID (txt "FormatSDCard") (Itoa card).

Definition SendPTZPreciseCmd (channelID : text) (p : val) : PTZController -> option ptz_error * PTZController :=
  send_numbered channelID (fun sn id => Some (ManscdpTypes.DeviceControl, control sn id [("PTZPreciseCtrl", VRef p)])).

Definition StartManualRecord (channelID : text) : PTZController -> option ptz_error * PTZController :=
  SendDeviceControl channelID (txt "RecordCmd") (txt RecordCmdStart).

Definition StopManualRecord (channelID : text) : PTZController -> option ptz_error * PTZController :=
  SendDeviceControl channelID (txt "RecordCmd") (txt RecordCmdStop).

Definition SendIFrameCmd (channelID : text) : PTZController -> option ptz_error * PTZController :=
  SendDeviceControl channelID (txt "IFrameCmd") (txt "Send").

End Controls.

(** [CatalogController]: a sequence of its own, the device by its ID. *)
Record CatalogController := mkCatalogController { cc_devices : DeviceManager; cc_seq : Z; cc_sent : list (text * text) }.

Definition catalog_query (sn : Z) (deviceID : text) : text :=
  txt "<Query><CmdType>Catalog</CmdType><SN>" ++ Itoa sn ++ txt "</SN><DeviceID>" ++ deviceID ++ txt "</DeviceID></Query>".

Definition RequestCatalog (SendMessage : text -> text -> bool) (deviceID : text) (c : CatalogController) : option ptz_error * CatalogController :=
  match devices (cc_devices c) !! deviceID with
  | Some dev =>
      if negb (Status dev =? DeviceOnline) then (Some ErrDeviceOffline, c) else
      let sn := s64 (cc_seq c + 1) in
      let body := catalog_query sn deviceID in
      (if SendMessage deviceID body then None else Some ErrSend, mkCatalogController (cc_devices c) sn (cc_sent c ++ [(deviceID, body)]))
  | None => (Some ErrDeviceOffline, c)
  end.
