(* ===== verification/DeviceCommands.v ===== *)
(** The MESSAGE handler of the device (device/server.go, control.go, config.go,
    snapshot.go, upgrade.go, broadcast.go): the sub-commands of DeviceControl and
    DeviceConfig with the host's callbacks, the configuration download, snapshots,
    upgrades and broadcasts, and the answers.

    The host installs callbacks or not; a call of one is an output with its arguments. A
    goroutine that the handler starts is an output too, and what it sends in the end is a
    function of the host's outcome. Sending is an output in order; the context that can
    stop the pacing of pages is not modelled. *)

From S2P Require Import Prelude GoStrings GoText Xml XmlStruct.
From S2P Require ManscdpTypes Digest DeviceRegister.
From S2P Require Import ManscdpCodec DeviceManscdp SipMsg Ptz.
Import DeviceRegister (device_config, DeviceID, SIPDomain, LocalSIPPort, Transport, RegisterIntervalSecs, HeartbeatIntervalSecs, HeartbeatTimeoutCount).
Import Digest (hex16).
From S2P Require Playback.
#[local] Open Scope string_scope.
#[local] Open Scope list_scope.
Open Scope Z_scope.

(** ** Callbacks *)

Record DragZoom := mkDragZoom {
  ZoomIn : bool; dz_Length : Z; dz_Width : Z; MidPointX : Z; MidPointY : Z; LengthX : Z; LengthY : Z;
}.

Inductive call :=
  | OnForceIFrame | OnRecordCmd (start : bool) | OnGuardCmd (arm : bool) | OnResetAlarm | OnTeleBoot
  | OnPTZCmd (cmd : PtzCommand)
  | OnHomePosition (enabled : Z) (resetTime presetIndex : option Z)
  | OnDragZoom (cmd : DragZoom)
  | OnFormatSDCard (card : Z)
  | OnPTZPrecise (p : val)
  | OnBasicParam (p : BasicParamCfg)
  | OnFrameMirror (mode : Z)
  | OnAlarmReport (motionDetection fieldDetection : Z)
  | OnVideoParamAttribute (p : val) | OnVideoRecordPlan (p : val) | OnVideoAlarmRecord (p : val)
  | OnPictureMask (m : val) | OnOSDConfig (o : val).

(** Which callbacks are installed. *)
Record ControlCallbacks := mkControlCallbacks {
  has_ForceIFrame : bool; has_RecordCmd : bool; has_GuardCmd : bool; has_ResetAlarm : bool; has_TeleBoot : bool; has_PTZCmd : bool;
  has_HomePosition : bool; has_DragZoom : bool; has_FormatSDCard : bool; has_PTZPrecise : bool;
}.

Record ConfigCallbacks := mkConfigCallbacks {
  has_BasicParam : bool; has_FrameMirror : bool; has_AlarmReport : bool; has_VideoParamAttribute : bool; has_VideoRecordPlan : bool;
  has_VideoAlarmRecord : bool; has_PictureMask : bool; has_OSDConfig : bool;
}.

Definition only {A} (b : bool) (a : A) : option A := if b then Some a else None.

(** What a pointer points to. *)
Definition deref (v : val) : option val := match v with VRef x => Some x | _ => None end.
Definition deref_int (v : val) : option Z := match v with VRef (VInt n) => Some n | _ => None end.

Definition decodeDragZoom (cmd : option val) (zoomIn : bool) : option DragZoom :=
  c ← cmd;
  let field n := deref_int (get ManscdpTypes.DragZoomCmd n c) in
  match field "Length", field "Width", field "MidPointX", field "MidPointY", field "LengthX", field "LengthY" with
  | Some l, Some w, Some mx, Some my, Some lx, Some ly => Some (mkDragZoom zoomIn l w mx my lx ly)
  | _, _, _, _, _, _ => None
  end.

(** [ControlCallbacks.callbackFor]; the first case that fits decides. *)
Definition controlCallback (c : ControlCallbacks) (dc : val) : option call :=
  let field n := get_string ManscdpTypes.DeviceControl n dc in
  let part n := deref (get ManscdpTypes.DeviceControl n dc) in
  let says n s := bool_decide (field n = txt s) in
  if says "IFrameCmd" "Send" then only (has_ForceIFrame c) OnForceIFrame
  else if says "RecordCmd" "Record" then only (has_RecordCmd c) (OnRecordCmd true)
  else if says "RecordCmd" "StopRecord" then only (has_RecordCmd c) (OnRecordCmd false)
  else if says "GuardCmd" "SetGuard" then only (has_GuardCmd c) (OnGuardCmd true)
  else if says "GuardCmd" "ResetGuard" then only (has_GuardCmd c) (OnGuardCmd false)
  else if says "AlarmCmd" "ResetAlarm" then only (has_ResetAlarm c) OnResetAlarm
  else if says "TeleBoot" "Boot" then only (has_TeleBoot c) OnTeleBoot
  else if negb (bool_decide (field "PTZCmd" = [])) then only (has_PTZCmd c) (OnPTZCmd (DecodePTZCommand (field "PTZCmd")))
  else match part "HomePosition" with
  | Some hp => only (has_HomePosition c) (OnHomePosition (get_int ManscdpTypes.HomePositionCmd "Enabled" hp)
                 (deref_int (get ManscdpTypes.HomePositionCmd "ResetTime" hp)) (deref_int (get ManscdpTypes.HomePositionCmd "PresetIndex" hp)))
  | None => match part "DragZoomIn" with
  | Some z => if has_DragZoom c then OnDragZoom <$> decodeDragZoom (Some z) true else None
  | None => match part "DragZoomOut" with
  | Some z => if has_DragZoom c then OnDragZoom <$> decodeDragZoom (Some z) false else None
  | None => match part "FormatSDCard" with
  | Some card => only (has_FormatSDCard c) (OnFormatSDCard (match card with VInt n => n | _ => 0 end))
  | None => match part "PTZPreciseCtrl" with
  | Some p => only (has_PTZPrecise c) (OnPTZPrecise p)
  | None => None
  end end end end end.

Definition basic_param (bp : val) : BasicParamCfg :=
  mkBasicParam (get_string ManscdpTypes.BasicParamCmd "Name" bp) (deref_int (get ManscdpTypes.BasicParamCmd "Expiration" bp))
    (deref_int (get ManscdpTypes.BasicParamCmd "HeartBeatInterval" bp)) (deref_int (get ManscdpTypes.BasicParamCmd "HeartBeatCount" bp)).

(** [ConfigCallbacks.callbackFor] *)
Definition configCallback (c : ConfigCallbacks) (dc : val) : option call :=
  let part n := deref (get ManscdpTypes.DeviceConfig n dc) in
  match part "BasicParam" with
  | Some bp => only (has_BasicParam c) (OnBasicParam (basic_param bp))
  | None => match part "FrameMirror" with
  | Some mode => only (has_FrameMirror c) (OnFrameMirror (match mode with VInt n => n | _ => 0 end))
  | None => match part "AlarmReport" with
  | Some ar => only (has_AlarmReport c) (OnAlarmReport (get_int ManscdpTypes.AlarmReportCmd "MotionDetection" ar) (get_int ManscdpTypes.AlarmReportCmd "FieldDetection" ar))
  | None => match part "VideoParamAttribute" with
  | Some p => only (has_VideoParamAttribute c) (OnVideoParamAttribute p)
  | None => match part "VideoRecordPlan" with
  | Some p => only (has_VideoRecordPlan c) (OnVideoRecordPlan p)
  | None => match part "VideoAlarmRecord" with
  | Some p => only (has_VideoAlarmRecord c) (OnVideoAlarmRecord p)
  | None => match part "PictureMask" with
  | Some m => only (has_PictureMask c) (OnPictureMask m)
  | None => match part "OSDConfig" with
  | Some o => only (has_OSDConfig c) (OnOSDConfig o)
  | None => None
  end end end end end end end end.

Definition config_parts : list string :=
  ["BasicParam"; "FrameMirror"; "AlarmReport"; "SnapShotConfig"; "VideoParamAttribute"; "VideoRecordPlan"; "VideoAlarmRecord"; "PictureMask"; "OSDConfig"].

(** ** The server *)

(** The configuration and what the host has installed. *)
Record command_host := mkCommandHost {
  cfg : device_config;
  VideoParamOptDownloadSpeed : text;
  VideoParamOptResolution : text;
  devCtx : DeviceContext;
  recordingIndex : option (Z -> Z -> list Playback.SegmentMeta);
  recordActive : bool;
  controlCbs : ControlCallbacks;
  configCbs : ConfigCallbacks;
  snapshotExecutor : bool;
  deviceUpgrader : bool;
}.

(** What the handler does, in order. A call of [OnBroadcast] comes from the dispatch. *)
Inductive output :=
  | Reply (m : SipMessage)
  | SendResponse (m : SipMessage)
  | Invoke (c : call)
  | BroadcastNotified (source target : text)
  | GoBroadcast (b : val)
  | GoSnapshot (config : val)
  | GoUpgrade (control : val).

Definition asyncExchangeTransportOK (transport : text) : bool :=
  bool_decide (transport = []) || bool_decide (transport = txt "udp") || bool_decide (transport = txt "tcp-out") || bool_decide (transport = txt "tls").

Section Commands.

Context `{GoXml} `{Charsets} `{LocalTime} (userAgent dialogTag : text) (h : command_host).

(** The body as a message of the kind, which its command must announce. *)
Definition decoded_as (ct : text) (m : message) (body : text) : option val :=
  match Decode body with
  | Some (ct', m', v) => if bool_decide (ct' = ct) && bool_decide (m' = m) then Some v else None
  | None => None
  end.

Definition decodeBroadcast (body : text) : option val := decoded_as ManscdpTypes.CmdBroadcast AsBroadcast body.
Definition parseControlSub (body : text) : option val := decoded_as ManscdpTypes.CmdDeviceControl AsDeviceControl body.

Definition parseUpgradeControl (body : text) : option val :=
  dc ← decoded_as ManscdpTypes.CmdDeviceControl AsDeviceControl body;
  if bool_decide (is_Some (deref (get ManscdpTypes.DeviceControl "DeviceUpgrade" dc))) then Some dc else None.

Definition parseSnapshotConfig (body : text) : option val :=
  dc ← decoded_as ManscdpTypes.CmdDeviceConfig AsDeviceConfig body;
  if bool_decide (is_Some (deref (get ManscdpTypes.DeviceConfig "SnapShotConfig" dc))) then Some dc else None.

Definition parseDeviceConfigSub (body : text) : option val :=
  dc ← decoded_as ManscdpTypes.CmdDeviceConfig AsDeviceConfig body;
  if existsb (fun n => bool_decide (is_Some (deref (get ManscdpTypes.DeviceConfig n dc)))) config_parts then Some dc else None.

(** The blocks that a configuration download asks for, one request after the other. *)
Definition download_block (found : option BasicParamCfg * option (text * text)) (t : text) : option BasicParamCfg * option (text * text) :=
  let t := TrimSpace t in
  if bool_decide (t = txt "BasicParam") then
    (Some (mkBasicParam (dc_Name (devCtx h)) (Some (RegisterIntervalSecs (cfg h))) (Some (HeartbeatIntervalSecs (cfg h))) (Some (HeartbeatTimeoutCount (cfg h)))), snd found)
  else if bool_decide (t = txt "VideoParamOpt") then
    (if negb (bool_decide (VideoParamOptDownloadSpeed h = [])) || negb (bool_decide (VideoParamOptResolution h = []))
     then (fst found, Some (VideoParamOptDownloadSpeed h, VideoParamOptResolution h)) else found)
  else found.

Definition config_download (q : val) : SipMessage :=
  let '(basic, opt) := fold_left download_block (Split (get_string Query "ConfigType" q) (txt "/")) (None, None) in
  BuildConfigDownloadResponseMessage userAgent (get_string Query "SN" q) (get_string Query "DeviceID" q) basic opt.

Definition control_sn (dc : val) : text := Itoa (get_int ManscdpTypes.DeviceControl "SN" dc).
Definition control_id (dc : val) : text := get_string ManscdpTypes.DeviceControl "DeviceID" dc.
Definition config_sn (dc : val) : text := Itoa (get_int ManscdpTypes.DeviceConfig "SN" dc).
Definition config_id (dc : val) : text := get_string ManscdpTypes.DeviceConfig "DeviceID" dc.

Definition control_reject (dc : val) : output := SendResponse (BuildControlRejectResponseMessage userAgent (txt "DeviceControl") (control_sn dc) (control_id dc)).
Definition config_result (dc : val) (ok : bool) : output := SendResponse (BuildDeviceConfigResponseMessage userAgent (config_sn dc) (config_id dc) ok).

(** Behind the acknowledgement: the first parser that takes the body. *)
Definition commands (body : text) (pages : list SipMessage) : list output :=
  match parseSnapshotConfig body with
  | Some dc => if snapshotExecutor h && asyncExchangeTransportOK (Transport (cfg h)) then [config_result dc true; GoSnapshot dc] else [config_result dc false]
  | None =>
  match parseUpgradeControl body with
  | Some dc => if deviceUpgrader h && asyncExchangeTransportOK (Transport (cfg h)) then [GoUpgrade dc] else [control_reject dc]
  | None =>
  match parseControlSub body with
  | Some dc => match controlCallback (controlCbs h) dc with Some c => [Invoke c] | None => [control_reject dc] end
  | None =>
  match parseDeviceConfigSub body with
  | Some dc => match configCallback (configCbs h) dc with Some c => [Invoke c; config_result dc true] | None => [config_result dc false] end
  | None => map SendResponse pages
  end end end end.

(** The dispatch and what follows it. *)
Definition dispatch_outputs (now : text) (msg : SipMessage) : list output :=
  let r := DispatchInboundMessage userAgent dialogTag (recordActive h) now msg (devCtx h) (recordingIndex h) in
  match d_broadcast r with Some (s, t) => [BroadcastNotified s t] | None => [] end
  ++ [Reply (d_ok200 r)]
  ++ match decodeBroadcast (Body msg) with Some b => [GoBroadcast b] | None => [] end
  ++ commands (Body msg) (d_pages r).

(** [handleMessage] *)
Definition handleMessage (now : text) (msg : SipMessage) : list output :=
  match parseQueryDual (Body msg) with
  | Some q =>
      if bool_decide (get_string Query "CmdType" q = txt "ConfigDownload")
      then [Reply (Build200OK userAgent dialogTag msg [] []); SendResponse (config_download q)]
      else dispatch_outputs now msg
  | None => dispatch_outputs now msg
  end.

(** ** Messages of the device *)

Definition uri_of (user host : text) : text := txt "sip:" ++ user ++ txt "@" ++ host.
Definition angled (s : text) : text := txt "<" ++ s ++ txt ">".

(** [sendResponseMessage]: the routing headers of an answer at a time. *)
Definition response_message (localIP : text) (unix nano : Z) (resp : SipMessage) : SipMessage :=
  let c := cfg h in
  let domain := SIPDomain c in
  resp <| RequestURI := uri_of domain domain |> <| From_ := angled (uri_of (DeviceID c) domain) |> <| To_ := angled (uri_of domain domain) |>
       <| CallID := Itoa unix ++ txt "-resp@" ++ DeviceID c |>
       <| Via := txt "SIP/2.0/UDP " ++ localIP ++ txt ":" ++ Itoa (LocalSIPPort c) ++ txt ";rport;branch=z9hG4bK" ++ hex16 nano |>
       <| MaxForwards := txt "70" |> <| CSeq := txt "2 MESSAGE" |>.

(** The routing headers of the notifications behind an exchange. *)
Definition exchange_message (what : string) (localIP : text) (nano1 nano2 : Z) (notify : SipMessage) : SipMessage :=
  let c := cfg h in
  let domain := SIPDomain c in
  notify <| RequestURI := uri_of domain domain |> <| From_ := angled (uri_of (DeviceID c) domain) |> <| To_ := angled (uri_of domain domain) |>
         <| CallID := txt what ++ txt "-" ++ Itoa nano1 ++ txt "@" ++ localIP |> <| CSeq := txt "1 MESSAGE" |>
         <| Via := txt "SIP/2.0/UDP " ++ localIP ++ txt ":" ++ Itoa (LocalSIPPort c) ++ txt ";branch=z9hG4bK" ++ hex16 nano2 |>.

(** [runSnapshotExchange] behind the executor, whose error leaves no file. *)
Definition snapshot_notify (localIP : text) (nano1 nano2 : Z) (config : val) (executed : option (list text)) : SipMessage :=
  let cmd := default VNil (deref (get ManscdpTypes.DeviceConfig "SnapShotConfig" config)) in
  exchange_message "snapshot" localIP nano1 nano2
    (BuildUploadSnapShotFinishedMessage userAgent (get_int ManscdpTypes.DeviceConfig "SN" config) (DeviceID (cfg h))
       (get_string ManscdpTypes.SnapShotCmd "SessionID" cmd) (default [] executed)).

(** [DeviceUpgradeOutcome], and whether there was an error besides. *)
Record DeviceUpgradeOutcome := mkUpgradeOutcome { Success : bool; Firmware : text; FailedReason : text }.

(** [runUpgradeExchange] behind the upgrader. *)
Definition upgrade_notify (localIP : text) (nano1 nano2 : Z) (control : val) (outcome : DeviceUpgradeOutcome) (error : bool) : SipMessage :=
  let cmd := default VNil (deref (get ManscdpTypes.DeviceControl "DeviceUpgrade" control)) in
  let outcome := if error then mkUpgradeOutcome false (Firmware outcome) (txt "99") else outcome in
  exchange_message "upgrade" localIP nano1 nano2
    (BuildDeviceUpgradeResultMessage userAgent (get_int ManscdpTypes.DeviceControl "SN" control) (DeviceID (cfg h))
       (get_string ManscdpTypes.DeviceUpgradeCmd "SessionID" cmd) (Success outcome) (Firmware outcome) (FailedReason outcome)).

(** The acknowledgement of [followBroadcast]. *)
Definition broadcast_ack (platformAddress : text) (nano1 nano2 : Z) (notify : val) (sink : bool) : SipMessage :=
  let c := cfg h in
  let domain := SIPDomain c in
  (BuildBroadcastResponseMessage userAgent (get_int ManscdpTypes.Broadcast "SN" notify) (DeviceID c) sink)
    <| RequestURI := uri_of domain domain |> <| From_ := angled (uri_of (DeviceID c) domain) |> <| To_ := angled (uri_of domain domain) |>
    <| CallID := txt "bresp" ++ Itoa nano1 ++ txt "@" ++ DeviceID c |> <| CSeq := txt "1 MESSAGE" |>
    <| Via := txt "SIP/2.0/UDP " ++ platformAddress ++ txt ":" ++ Itoa (LocalSIPPort c) ++ txt ";branch=z9hG4bKbc" ++ hex16 nano2 |>
    <| Contact := angled (uri_of (DeviceID c) platformAddress ++ txt ":" ++ Itoa (LocalSIPPort c)) |>.

(** [handleInfo]: the control for the playback that runs, if there is room in its channel
    of [capacity]; the acknowledgement goes out in any case. *)
Definition handleInfo (capacity : nat) (msg : SipMessage) (playbackCtl : option (list (Playback.PlaybackControl (F := Z)))) :
    option (list (Playback.PlaybackControl (F := Z))) * list output :=
  (match parsePlaybackControl (Body msg), playbackCtl with
   | Some ctl, Some queue => Some (if Nat.ltb (length queue) capacity then queue ++ [ctl] else queue)
   | _, _ => playbackCtl
   end, [Reply (Build200OK userAgent dialogTag msg [] [])]).

End Commands.
