(* ===== verification/CommandExchange.v ===== *)
(** Controls from the platform to the device: what the controllers send is executed by the
    callbacks of the device's host. *)

From S2P Require Import Prelude GoStrings GoText Xml XmlStruct ManscdpCodec DeviceManscdp SipMsg Ptz DeviceMgr PtzControl.
From S2P Require Import Templates PlatformControl DeviceCommands CatalogExchange.
From S2P Require ManscdpTypes DeviceRegister.
#[local] Open Scope string_scope.
#[local] Open Scope list_scope.
Open Scope Z_scope.

Section Exchange.

Context `{FloatLaws} `{Charsets} `{LocalTime} (SendMessage : text -> text -> bool).

(** ** Commands *)

Inductive command :=
  | Control (element value : text)
  | HomePosition (enabled : bool) (resetSecs presetIdx : option Z)
  | Snapshot (cmd : val)
  | Upgrade (cmd : val)
  | Precise (p : val)
  | Move (q : ptz_request).

Definition issue (channelID : text) (cmd : command) : PTZController -> option ptz_error * PTZController :=
  match cmd with
  | Control element value => SendDeviceControl SendMessage channelID element value
  | HomePosition enabled r p => SetHomePosition SendMessage channelID enabled r p
  | Snapshot cmd => SendSnapShotCmd SendMessage channelID cmd
  | Upgrade cmd => SendDeviceUpgradeCmd SendMessage channelID cmd
  | Precise p => SendPTZPreciseCmd SendMessage channelID p
  | Move q => send_request SendMessage channelID q
  end.

(** Values that print. *)
Definition command_ok (cmd : command) : Prop :=
  match cmd with
  | Control _ value => xml_text value
  | HomePosition _ r p => good (TPointer (TUint 32)) (uint_pointer r) /\ good (TPointer (TUint 32)) (uint_pointer p)
  | Snapshot cmd => good ManscdpTypes.SnapShotCmd cmd
  | Upgrade cmd => good ManscdpTypes.DeviceUpgradeCmd cmd
  | Precise p => good ManscdpTypes.PTZPreciseCmd p
  | Move q => request_ok q
  end.

(** ** What the device does *)

(** The callback that a control element asks for. *)
Definition asked (element value : text) : option call :=
  let is_ e v := bool_decide (element = txt e) && bool_decide (value = txt v) in
  if is_ "RecordCmd" "Record" then Some (OnRecordCmd true)
  else if is_ "RecordCmd" "StopRecord" then Some (OnRecordCmd false)
  else if is_ "GuardCmd" "SetGuard" then Some (OnGuardCmd true)
  else if is_ "GuardCmd" "ResetGuard" then Some (OnGuardCmd false)
  else if is_ "AlarmCmd" "ResetAlarm" then Some OnResetAlarm
  else if is_ "TeleBoot" "Boot" then Some OnTeleBoot
  else if is_ "IFrameCmd" "Send" then Some OnForceIFrame
  else if bool_decide (element = txt "FormatSDCard") then OnFormatSDCard <$> Atoi value
  else None.

Definition installed (c : ControlCallbacks) (k : call) : bool :=
  match k with
  | OnForceIFrame => has_ForceIFrame c | OnRecordCmd _ => has_RecordCmd c | OnGuardCmd _ => has_GuardCmd c
  | OnResetAlarm => has_ResetAlarm c | OnTeleBoot => has_TeleBoot c | OnPTZCmd _ => has_PTZCmd c
  | OnHomePosition _ _ _ => has_HomePosition c | OnDragZoom _ => has_DragZoom c | OnFormatSDCard _ => has_FormatSDCard c
  | OnPTZPrecise _ => has_PTZPrecise c | _ => false
  end.

Section Device.

Context (userAgent dialogTag : text) (h : command_host).

Definition rejected (sn : Z) (id : text) : list output :=
  [SendResponse (BuildControlRejectResponseMessage userAgent (txt "DeviceControl") (Itoa sn) id)].

Definition called (k : option call) (sn : Z) (id : text) : list output :=
  match k with
  | Some k => if installed (controlCbs h) k then [Invoke k] else rejected sn id
  | None => rejected sn id
  end.

Definition exchange_possible (b : bool) : bool := b && asyncExchangeTransportOK (DeviceRegister.Transport (cfg h)).

Definition performed (cmd : command) (sn : Z) (id : text) (outs : list output) : Prop :=
  match cmd with
  | Control element value => outs = called (asked element value) sn id
  | HomePosition enabled r p => outs = called (Some (OnHomePosition (Z.b2z enabled) r p)) sn id
  | Precise p => outs = called (Some (OnPTZPrecise p)) sn id
  | Move q => exists k, understood (effective q) k /\ outs = called (Some (OnPTZCmd k)) sn id
  | Upgrade cmd =>
      if exchange_possible (deviceUpgrader h)
      then exists dc, outs = [GoUpgrade dc] /\ get ManscdpTypes.DeviceControl "DeviceUpgrade" dc = VRef cmd /\ get_int ManscdpTypes.DeviceControl "SN" dc = sn
      else outs = rejected sn id
  | Snapshot cmd =>
      if exchange_possible (snapshotExecutor h)
      then exists dc, outs = [SendResponse (BuildDeviceConfigResponseMessage userAgent (Itoa sn) id true); GoSnapshot dc] /\
             get ManscdpTypes.DeviceConfig "SnapShotConfig" dc = VRef cmd /\ get_int ManscdpTypes.DeviceConfig "SN" dc = sn
      else outs = [SendResponse (BuildDeviceConfigResponseMessage userAgent (Itoa sn) id false)]
  end.

(** *** A document under another root than Query *)

Lemma no_query data body x attrs cs : UTF8Body data = Some body -> root body = Some (Elem x attrs cs) -> x <> txt "Query" -> parseQueryDual data = None.
Proof.
  intros B R N. unfold parseQueryDual. rewrite B. cbn [mbind option_bind]. unfold Unmarshal. rewrite R. cbn [mbind option_bind].
  assert (F : name_fits (Some (txt "Query")) x = false) by (by apply bool_decide_eq_false_2).
  assert (U : forall fs v, unmarshal (TStruct (Some (txt "Query")) fs) v (Elem x attrs cs) = None) by (intros fs v; cbn [unmarshal]; by rewrite F).
  assert (U1 : unmarshal Query (zero Query) (Elem x attrs cs) = None) by apply U.
  assert (U2 : unmarshal QueryElem (zero QueryElem) (Elem x attrs cs) = None) by apply U. by rewrite U1, U2.
Qed.

Lemma handled now msg m v : m = AsDeviceControl \/ m = AsDeviceConfig -> Decode (Body msg) = Some (command_of m, m, v) ->
  parseQueryDual (Body msg) = None ->
  handleMessage userAgent dialogTag h now msg = Reply (Build200OK userAgent dialogTag msg [] []) :: commands userAgent h (Body msg) [].
Proof.
  intros M D Q. unfold handleMessage. rewrite Q. unfold dispatch_outputs, DispatchInboundMessage. rewrite Q, D.
  assert (Ne : Body msg <> []) by (intros E; rewrite E in D; discriminate D). rewrite bool_decide_eq_false_2 by done.
  unfold decodeBroadcast, decoded_as. rewrite D. by destruct M as [-> | ->].
Qed.

(** *** The commands of a control document *)

Lemma control_handled now msg v : Decode (Body msg) = Some (ManscdpTypes.CmdDeviceControl, AsDeviceControl, v) -> parseQueryDual (Body msg) = None ->
  handleMessage userAgent dialogTag h now msg = Reply (Build200OK userAgent dialogTag msg [] []) ::
    match deref (get ManscdpTypes.DeviceControl "DeviceUpgrade" v) with
    | Some _ => if exchange_possible (deviceUpgrader h) then [GoUpgrade v] else [control_reject userAgent v]
    | None => match controlCallback (controlCbs h) v with Some c => [Invoke c] | None => [control_reject userAgent v] end
    end.
Proof.
  intros D Q. rewrite (handled now msg AsDeviceControl v) by (done || by left). f_equal. unfold commands, parseSnapshotConfig, parseUpgradeControl, parseControlSub, decoded_as.
  rewrite D. rewrite (bool_decide_eq_false_2 (ManscdpTypes.CmdDeviceControl = ManscdpTypes.CmdDeviceConfig)) by done. cbn [andb mbind option_bind].
  rewrite !bool_decide_eq_true_2 by done. cbn [andb mbind option_bind].
  destruct (deref (get ManscdpTypes.DeviceControl "DeviceUpgrade" v)) as [u|].
  - rewrite bool_decide_eq_true_2 by done. done.
  - rewrite bool_decide_eq_false_2 by (by intros []). done.
Qed.

Lemma config_handled now msg v x : Decode (Body msg) = Some (ManscdpTypes.CmdDeviceConfig, AsDeviceConfig, v) -> parseQueryDual (Body msg) = None ->
  deref (get ManscdpTypes.DeviceConfig "SnapShotConfig" v) = Some x ->
  handleMessage userAgent dialogTag h now msg = Reply (Build200OK userAgent dialogTag msg [] []) ::
    if exchange_possible (snapshotExecutor h) then [config_result userAgent v true; GoSnapshot v] else [config_result userAgent v false].
Proof.
  intros D Q X. rewrite (handled now msg AsDeviceConfig v) by (done || by right). f_equal. unfold commands, parseSnapshotConfig, decoded_as.
  rewrite D, !bool_decide_eq_true_2 by done. cbn [andb mbind option_bind]. rewrite X, bool_decide_eq_true_2 by done. done.
Qed.

Lemma encoded m v : m = AsDeviceControl \/ m = AsDeviceConfig -> good (schema m) v -> get_string (schema m) "CmdType" v = command_of m ->
  merged m v = v -> Decode (Encode (schema m) v) = Some (command_of m, m, v) /\ parseQueryDual (Encode (schema m) v) = None.
Proof.
  intros M G C Mg. split.
  - rewrite decode_encoded, C, Mg; [done|done|]. rewrite C. apply decode_command.
  - assert (E : exists fs, schema m = TStruct (Some (txt "Control")) fs) by (destruct M as [-> | ->]; by eexists).
    destruct E as [fs E]. pose proof (schema_good m) as O. rewrite E in *. destruct (marshalled (txt "Control") fs v O G) as (attrs & cs & _ & _ & Mr & Cl & _).
    destruct (body_encoded (TStruct (Some (txt "Control")) fs) v _ Mr Cl eq_refl (encode_utf8 (txt "Control") fs v O G)) as [B R]. by apply (no_query _ _ _ _ _ B R).
Qed.

End Device.

(** ** The documents *)

Lemma control_merged sn id xs : set ManscdpTypes.DeviceControl "SN" (VInt 0) (control 0 id xs) = control 0 id xs ->
  get ManscdpTypes.DeviceControl "SNAttr" (control sn id xs) = VInt 0 -> get_int ManscdpTypes.DeviceControl "SN" (control sn id xs) = sn ->
  get_string ManscdpTypes.DeviceControl "CmdType" (control sn id xs) = ManscdpTypes.CmdDeviceControl ->
  merged AsDeviceControl (control sn id xs) = control sn id xs.
Proof.
  intros S A N C. unfold merged. change (ManscdpTypes.has_aliases (schema AsDeviceControl)) with true. cbv iota. change (schema AsDeviceControl) with ManscdpTypes.DeviceControl.
  destruct (Z.eq_dec sn 0) as [-> |Nz]; [|apply normalize_id; [by rewrite C|by rewrite N]].
  unfold ManscdpTypes.normalize. rewrite C, bool_decide_eq_false_2 by done. rewrite N. cbn [Z.eqb]. rewrite A. exact S.
Qed.

(** What is sent, and how the device takes it. *)
Definition obeyed (cmd : command) (sn : Z) (id body : text) : Prop :=
  forall ua tag h now msg, Body msg = body -> exists outs,
    handleMessage ua tag h now msg = Reply (Build200OK ua tag msg [] []) :: outs /\ performed ua h cmd sn id outs.

Lemma control_obeyed cmd sn id v : good ManscdpTypes.DeviceControl v -> get_string ManscdpTypes.DeviceControl "CmdType" v = ManscdpTypes.CmdDeviceControl ->
  merged AsDeviceControl v = v ->
  (forall ua h, performed ua h cmd sn id
    match deref (get ManscdpTypes.DeviceControl "DeviceUpgrade" v) with
    | Some _ => if exchange_possible h (deviceUpgrader h) then [GoUpgrade v] else [control_reject ua v]
    | None => match controlCallback (controlCbs h) v with Some c => [Invoke c] | None => [control_reject ua v] end
    end) -> obeyed cmd sn id (Encode ManscdpTypes.DeviceControl v).
Proof.
  intros G C M P ua tag h now msg B. destruct (encoded AsDeviceControl v (or_introl eq_refl) G C M) as [D Q].
  change (schema AsDeviceControl) with ManscdpTypes.DeviceControl in *. rewrite <- B in D, Q. eexists. split; [by apply control_handled|apply P].
Qed.

Lemma called_only (k : call) (b : bool) ua h sn id v : installed (controlCbs h) k = b -> control_sn v = Itoa sn -> control_id v = id ->
  match only b k with Some c => [Invoke c] | None => [control_reject ua v] end = called ua h (Some k) sn id.
Proof. intros <- S I. unfold called, only. destruct (installed _ k); [done|]. unfold control_reject, rejected. by rewrite S, I. Qed.

(** The fields of a concrete document. *)
Ltac read_fields :=
  repeat match goal with
  | |- context [get_string ManscdpTypes.DeviceControl ?n ?v] =>
      let t := constr:(get_string ManscdpTypes.DeviceControl n v) in let r := eval lazy -[txt] in t in change t with r
  | |- context [get ManscdpTypes.DeviceControl ?n ?v] =>
      let t := constr:(get ManscdpTypes.DeviceControl n v) in let r := eval lazy -[txt] in t in change t with r
  end.

Lemma xml_nil : xml_text [].
Proof. by split; [constructor|]. Qed.

Ltac print_ok := cbn -[txt]; split_and!; try done; try lia; try apply xml_nil; try (intros ?%bool_decide_eq_true; congruence).

Ltac decide_texts :=
  repeat match goal with
  | |- context [bool_decide ?P] => first [rewrite (bool_decide_eq_true_2 P) by done | rewrite (bool_decide_eq_false_2 P) by done]
  end; cbn [andb orb negb].

(** What remains is whether the callback is installed. *)
Ltac by_callback :=
  unfold only, called; repeat case_bool_decide; cbn [installed]; try done;
  match goal with |- context [if ?b then _ else _] => destruct b end; done.

Ltac obey := apply control_obeyed; [print_ok|done|by apply control_merged|];
  intros ua h; unfold performed, asked, controlCallback; read_fields; cbn [deref]; decide_texts.

Lemma Atoi_range s n : Atoi s = Some n -> - 2 ^ 63 <= n < 2 ^ 63.
Proof.
  unfold Atoi. destruct (match s with [] => _ | _ => _ end) as [neg [|d ds]]; [done|]. destruct (digits_value 0 (d :: ds)) as [m|]; [|done].
  cbn [mbind option_bind]. destruct (_ && _) eqn:E; [|done]. intros [= <-]. apply andb_true_iff in E as [E1 E2]. lia.
Qed.

Lemma element_obeyed element value sn id xs : - 2 ^ 63 <= sn < 2 ^ 63 -> xml_text id -> xml_text value -> element_field element value = Some xs ->
  obeyed (Control element value) sn id (Encode ManscdpTypes.DeviceControl (control sn id xs)).
Proof.
  intros S I V E. assert (P : xml_text (txt "DeviceControl")) by (apply plain_xml; repeat constructor).
  unfold element_field in E. destruct (bool_decide_reflect (element = txt "RecordCmd")) as [-> |N1].
  { injection E as <-. obey. by_callback. }
  destruct (bool_decide_reflect (element = txt "GuardCmd")) as [-> |N2]; [injection E as <-; obey; by_callback|].
  destruct (bool_decide_reflect (element = txt "AlarmCmd")) as [-> |N3]; [injection E as <-; obey; by_callback|].
  destruct (bool_decide_reflect (element = txt "TeleBoot")) as [-> |N4]; [injection E as <-; obey; by_callback|].
  destruct (bool_decide_reflect (element = txt "IFrameCmd")) as [-> |N5].
  { case_bool_decide as Vs; [|done]. injection E as <-. subst value. obey. by_callback. }
  destruct (bool_decide_reflect (element = txt "FormatSDCard")) as [-> |N6]; [|done].
  destruct (Atoi value) as [card|] eqn:A; [|done]. destruct (Z.ltb_spec card 0); [done|]. injection E as <-. 
  pose proof (Atoi_range value card A).
  obey. rewrite A. cbn [fmap option_fmap option_map]. by_callback.
Qed.

Lemma home_obeyed enabled r p sn id : - 2 ^ 63 <= sn < 2 ^ 63 -> xml_text id -> good (TPointer (TUint 32)) (uint_pointer r) -> good (TPointer (TUint 32)) (uint_pointer p) ->
  obeyed (HomePosition enabled r p) sn id (Encode ManscdpTypes.DeviceControl (control sn id [("HomePosition", VRef (home_position enabled r p))])).
Proof.
  intros S I R Q. assert (P : xml_text (txt "DeviceControl")) by (apply plain_xml; repeat constructor).
  destruct enabled, r, p; cbn in R, Q; obey; by_callback.
Qed.

Lemma precise_obeyed p sn id : - 2 ^ 63 <= sn < 2 ^ 63 -> xml_text id -> good ManscdpTypes.PTZPreciseCmd p ->
  obeyed (Precise p) sn id (Encode ManscdpTypes.DeviceControl (control sn id [("PTZPreciseCtrl", VRef p)])).
Proof.
  intros S I G. assert (P : xml_text (txt "DeviceControl")) by (apply plain_xml; repeat constructor).
  apply control_obeyed; [|done|by apply control_merged|].
  - cbn -[txt ManscdpTypes.PTZPreciseCmd]. split_and!; try done; try lia; apply xml_nil.
  - intros ua h. unfold performed, asked, controlCallback. read_fields. cbn [deref]. decide_texts. by_callback.
Qed.

Lemma upgrade_obeyed cmd sn id : - 2 ^ 63 <= sn < 2 ^ 63 -> xml_text id -> good ManscdpTypes.DeviceUpgradeCmd cmd ->
  obeyed (Upgrade cmd) sn id (Encode ManscdpTypes.DeviceControl (control sn id [("DeviceUpgrade", VRef cmd)])).
Proof.
  intros S I G. assert (P : xml_text (txt "DeviceControl")) by (apply plain_xml; repeat constructor).
  apply control_obeyed; [|done|by apply control_merged|].
  - cbn -[txt ManscdpTypes.DeviceUpgradeCmd]. split_and!; try done; try lia; apply xml_nil.
  - intros ua h. unfold performed. read_fields. cbn [deref]. destruct (exchange_possible h (deviceUpgrader h)); [|done].
    eexists. split; [done|]. done.
Qed.

Lemma snapshot_obeyed cmd sn id : - 2 ^ 63 <= sn < 2 ^ 63 -> xml_text id -> good ManscdpTypes.SnapShotCmd cmd ->
  obeyed (Snapshot cmd) sn id (Encode ManscdpTypes.DeviceConfig (literal ManscdpTypes.DeviceConfig [("CmdType", VString ManscdpTypes.CmdDeviceConfig);
    ("SN", VInt sn); ("DeviceID", VString id); ("SnapShotConfig", VRef cmd)])).
Proof.
  intros S I G. assert (P : xml_text (txt "DeviceConfig")) by (apply plain_xml; repeat constructor).
  set (v := literal _ _). intros ua tag h now msg B.
  assert (Gv : good (schema AsDeviceConfig) v).
  { cbn -[txt ManscdpTypes.SnapShotCmd]. split_and!; try done; try lia; apply xml_nil. }
  destruct (encoded AsDeviceConfig v (or_intror eq_refl) Gv eq_refl eq_refl) as [D Q].
  change (schema AsDeviceConfig) with ManscdpTypes.DeviceConfig in *. rewrite <- B in D, Q. eexists.
  split; [by apply (config_handled ua tag h now msg v cmd)|]. unfold performed. destruct (exchange_possible h (snapshotExecutor h)); [|done].
  eexists. split; [done|]. done.
Qed.

Lemma Itoa_escaped n : - 2 ^ 63 <= n < 2 ^ 63 -> EscapeText (Itoa n) = Itoa n.
Proof.
  intros R. unfold Itoa. destruct (Z.ltb_spec n 0) as [L|L].
  - destruct (dec_spec (- n)) as (D & _); [lia|]. change (0x2D :: dec (- n)) with ([0x2D] ++ dec (- n)). unfold EscapeText.
    change (rune_split ([0x2D] ++ dec (- n))) with (Rune 0x2D [0x2D] :: rune_split (dec (- n))). cbn [map concat]. f_equal.
    apply (plain_escaped (dec (- n))). by apply digits_plain.
  - destruct (dec_spec n) as (D & _); [lia|]. by apply plain_escaped, digits_plain.
Qed.

(** *** PTZ, whose document is a template *)

Lemma hex_plain l : bytes_ok l -> plain (ptzCmdString l).
Proof.
  unfold ptzCmdString. induction 1 as [|b l Hb _ IH]; [constructor|]. cbn [hex_encode ToUpper map].
  assert (C : forallb (fun x => letter x || is_digit x) [upper (hex_digit (Z.shiftr b 4)); upper (hex_digit (Z.land b 0x0F))] = true).
  { revert b Hb. apply forall_byte. vm_compute. reflexivity. }
  cbn [forallb] in C. rewrite !andb_true_iff in C. destruct C as (C1 & C2 & _). constructor; [done|]. by constructor.
Qed.

Lemma ptz_document sn id cmd : - 2 ^ 63 <= sn < 2 ^ 63 -> plain id -> plain (ptzCmdString cmd) -> ptzCmdString cmd <> [] ->
  ptz_body sn id cmd = xml_decl ++ LF ++ lined LF (txt "Control") (marshal_children marshal (fields_of ManscdpTypes.DeviceControl)
    (values_of (control sn id [("PTZCmd", VString (ptzCmdString cmd))]))).
Proof.
  intros S I C N. set (hex := ptzCmdString cmd) in *.
  assert (M : marshal_children marshal (fields_of ManscdpTypes.DeviceControl) (values_of (control sn id [("PTZCmd", VString hex)])) =
    [Elem (txt "CmdType") [] (chars (txt "DeviceControl")); Elem (txt "SN") [] (chars (Itoa sn)); Elem (txt "DeviceID") [] (chars id); Elem (txt "PTZCmd") [] (chars hex)]).
  { destruct hex; [done|]. reflexivity. }
  rewrite M. unfold lined. cbn [map concat]. rewrite !print_text.
  assert (D : EscapeText (txt "DeviceControl") = txt "DeviceControl") by (apply plain_escaped; repeat constructor).
  assert (Is : EscapeText (Itoa sn) = Itoa sn) by (by apply Itoa_escaped).
  rewrite D, Is, !plain_escaped by done. unfold ptz_body, body_head, body_tail. fold hex. unfold xml_decl. rewrite <- !app_assoc. reflexivity.
Qed.

Lemma ptz_decoded sn id cmd : bytes_ok cmd -> cmd <> [] -> - 2 ^ 63 <= sn < 2 ^ 63 -> plain id ->
  Decode (ptz_body sn id cmd) = Some (ManscdpTypes.CmdDeviceControl, AsDeviceControl, control sn id [("PTZCmd", VString (ptzCmdString cmd))]) /\
  parseQueryDual (ptz_body sn id cmd) = None.
Proof.
  intros Cb Nc S I. pose proof (hex_plain cmd Cb) as Hp. assert (Hn : ptzCmdString cmd <> []) by (by destruct cmd).
  rewrite ptz_document by done. set (hex := ptzCmdString cmd) in *. set (v := control sn id [("PTZCmd", VString hex)]).
  assert (P : xml_text (txt "DeviceControl")) by (apply plain_xml; repeat constructor). pose proof (plain_xml _ I) as Ix. pose proof (plain_xml _ Hp) as Hx.
  assert (G : good (schema AsDeviceControl) v) by print_ok.
  assert (Mg : merged AsDeviceControl v = v) by (by apply control_merged).
  assert (A : marshal_attrs (fields_of ManscdpTypes.DeviceControl) (values_of v) = []) by done.
  pose proof (decode_lined LF AsDeviceControl (txt "Control") (fields_of ManscdpTypes.DeviceControl) v (or_introl eq_refl) eq_refl ltac:(done) G A eq_refl) as D.
  rewrite Mg in D. destruct (body_lined LF (txt "Control") (marshal_children marshal (fields_of ManscdpTypes.DeviceControl) (values_of v)) (or_introl eq_refl)) as [Bd Rt];
    [by apply (children_elements (Some (txt "Control")))|done|].
  split; [exact D|]. exact (no_query _ _ _ _ _ Bd Rt ltac:(done)).
Qed.

Lemma built_bytes q cmd : request_ok q -> build q = Some cmd -> bytes_ok cmd /\ cmd <> [].
Proof.
  intros R B. destruct (build_frame _ cmd R B) as (code & c4 & c5 & c6 & -> & Hb & _). split; [|done].
  apply bytes_ok_app. split; [done|]. constructor; [apply checksum_byte|constructor].
Qed.

Lemma ptz_obeyed q cmd sn id : request_ok (effective q) -> build (effective q) = Some cmd -> - 2 ^ 63 <= sn < 2 ^ 63 -> plain id ->
  obeyed (Move q) sn id (ptz_body sn id cmd).
Proof.
  intros R B S I. destruct (built_bytes _ cmd R B) as [Cb Nc].
  destruct (decode_built (effective q) cmd [] [] R B ltac:(constructor) ltac:(constructor)) as (U & _). rewrite app_nil_r in U. cbn [app] in U.
  destruct (ptz_decoded sn id cmd Cb Nc S I) as [D Q]. assert (Hn : ptzCmdString cmd <> []) by (by destruct cmd).
  set (hex := ptzCmdString cmd) in *. set (v := control sn id [("PTZCmd", VString hex)]) in *.
  intros ua tag h now msg Bm. rewrite <- Bm in D, Q.
  eexists. split; [by apply (control_handled ua tag h now msg v)|]. exists (DecodePTZCommand hex). split; [done|].
  unfold v, controlCallback. read_fields. cbn [deref]. decide_texts. by_callback.
Qed.

(** ** From the call to the callback *)

(** Nothing left the controller, or one document of the channel did. *)
Definition delivered (channelID : text) (cmd : command) (r : option ptz_error * PTZController) (c : PTZController) : Prop :=
  (sent (snd r) = sent c /\ fst r <> None) \/
  exists ch dev body, locateChannel channelID c = Some (ch, dev) /\ Status dev = DeviceOnline /\
    sent (snd r) = sent c ++ [(ch_DeviceID ch, body)] /\ obeyed cmd (s64 (seq c + 1)) (ch_ID ch) body.

Lemma s64_range x : - 2 ^ 63 <= s64 x < 2 ^ 63.
Proof. unfold s64. pose proof (Z.mod_pos_bound (x + 2 ^ 63) (2 ^ 64)). lia. Qed.

Lemma numbered_delivered channelID cmd document c :
  (forall ch dev t v, locateChannel channelID c = Some (ch, dev) -> document (s64 (seq c + 1)) (ch_ID ch) = Some (t, v) ->
     obeyed cmd (s64 (seq c + 1)) (ch_ID ch) (Encode t v)) ->
  delivered channelID cmd (send_numbered SendMessage channelID document c) c.
Proof.
  intros O. unfold send_numbered, guarded, delivered. destruct (locateChannel channelID c) as [[ch dev]|] eqn:L; [|by left].
  destruct (Z.eqb_spec (Status dev) DeviceOnline) as [On|]; [|by left]. cbn [negb andb].
  destruct (document (s64 (seq c + 1)) (ch_ID ch)) as [[t v]|] eqn:E; [|by left].
  right. exists ch, dev, (Encode t v). split; [done|]. split; [done|]. split; [done|]. by eapply O.
Qed.

(** C5: What a platform commands is what the device's host executes. Whatever control is
    issued for a channel (recording, guard, alarm reset, reboot, key frame, card format,
    home position, precise or ordinary PTZ, snapshot, upgrade): either the controller
    refuses it and nothing is sent, or the channel's device is online and gets one document
    of the channel. A device that gets it acknowledges it with a 200 and then does exactly
    what was asked: it calls the one callback of the command with the very parameters if
    the host has installed it, and otherwise answers with a rejection that carries the
    number and the channel. A snapshot or an upgrade is started when the host has an
    executor and the device speaks over UDP or over a connection it opened itself
    (tcp-out, tls), and is rejected over the listening transports; the comments at the
    installation of both executors, which allow UDP only, are out of date. *)
Theorem commands_executed channelID cmd c : command_ok cmd ->
  (forall ch dev, locateChannel channelID c = Some (ch, dev) -> plain (ch_ID ch)) ->
  delivered channelID cmd (issue channelID cmd c) c.
Proof.
  intros V P. pose proof (s64_range (seq c + 1)) as S.
  assert (X : forall ch dev, locateChannel channelID c = Some (ch, dev) -> xml_text (ch_ID ch)) by (intros ch dev L; eapply plain_xml, P, L).
  destruct cmd as [element value|enabled r p|cmd|cmd|p|q]; cbn [issue command_ok] in *.
  - apply numbered_delivered. intros ch dev t v L E. destruct (element_field element value) as [xs|] eqn:F; [|done]. injection E as <- <-.
    apply element_obeyed; [done|by eapply X|done..].
  - apply numbered_delivered. intros ch dev t v L [= <- <-]. apply home_obeyed; [done|by eapply X|tauto..].
  - apply numbered_delivered. intros ch dev t v L [= <- <-]. apply snapshot_obeyed; [done|by eapply X|done..].
  - apply numbered_delivered. intros ch dev t v L [= <- <-]. apply upgrade_obeyed; [done|by eapply X|done..].
  - apply numbered_delivered. intros ch dev t v L [= <- <-]. apply precise_obeyed; [done|by eapply X|done..].
  - pose proof (send_request_cases SendMessage channelID q c) as R. cbv zeta in R. destruct (send_request SendMessage channelID q c) as [err c'].
    cbn [fst snd] in R. destruct R as [(e & [= -> ->] & _)|(ch & dev & cmd & L & On & _ & B & Sq & _ & St & _)]; [by left|].
    right. exists ch, dev, (ptz_body (PtzControl.seq c') (ch_ID ch) cmd). split; [done|]. split; [done|]. split; [done|]. rewrite Sq.
    apply ptz_obeyed; [|done|done|by eapply P]. destruct (effective_cases q) as [-> |(g & v & _ & ->)]; [done|by split].
Qed.

End Exchange.

Definition demo_command_host : command_host :=
  mkCommandHost DeviceRegister.demo_config [] [] demo_context None false
    (mkControlCallbacks true true true true true true true true true true) (mkConfigCallbacks true true true true true true true true) true true.
Definition demo_controller : PTZController :=
  NewPTZController (RegisterChannel (txt "3402") (demo_channel (txt "1310")) (Register 5 (demo_device (txt "3402")) (NewDeviceManager 0))).

Lemma commands_executed_witness :
  exists body, sent (snd (@issue demo_xml (fun _ _ => true) (txt "1310") (Control (txt "RecordCmd") (txt "Record")) demo_controller)) = [(txt "3402", body)] /\
    forall msg, Body msg = body ->
      @handleMessage demo_xml demo_charsets demo_local [] [] demo_command_host [] msg = [Reply (Build200OK [] [] msg [] []); Invoke (OnRecordCmd true)].
Proof.
  destruct (@commands_executed demo_xml demo_floats demo_charsets demo_local (fun _ _ => true) (txt "1310") (Control (txt "RecordCmd") (txt "Record")) demo_controller)
    as [[_ N]|(ch & dev & body & L & _ & S & O)].
  - split; [vm_compute; repeat constructor; discriminate|reflexivity].
  - intros ch dev L. vm_compute in L. injection L as <- _. repeat constructor.
  - by vm_compute in N.
  - exists body. vm_compute in L. injection L as <- _. split; [exact S|]. intros msg B.
    destruct (O [] [] demo_command_host [] msg B) as (outs & E & P). rewrite E. f_equal. exact P.
Defined.
