(* ===== verification/Cascade.v ===== *)
(** The cascade ([platform/cascade]): the platform as a lower-level platform of others.
    Its configuration and upper platforms ([seam.go], [service.go]), the aggregated
    catalog with its persisted channel IDs ([catalog.go]), the answers to queries and the
    forwarding of controls ([service.go], [records.go]) and the subscriptions to the
    catalog ([notify.go]).

    The database is the class [Store], the recordings and channels it holds are the
    host's. A handler yields what it sends and starts, in order; a goroutine that it
    starts is an effect of its own. [Panics] is a run-time panic. *)

From S2P Require Import Prelude GoStrings GoText Xml XmlStruct.
From S2P Require ManscdpTypes.
From S2P Require Import ManscdpCodec DeviceManscdp.
From S2P Require Digest.
Import Digest(span).
#[local] Open Scope string_scope.
#[local] Open Scope list_scope.
Open Scope Z_scope.

(** ** Data *)

Record CameraInfo := mkCameraInfo {
  cam_ID : text; cam_Name : text; Brand : text; cam_Model : text; Encoding : text; SubStream : bool;
  OriginDeviceID : text; CascadeHidden : bool; PhotoelectricImagingType : Z;
}.

(** A request as gosip hands it out: the user and the value of its From, the value and
    the user of its To, the typed headers the handlers look for, and any header by its
    name. *)
Record request := mkRequest {
  rq_Method : text; rq_from : option (text * text); rq_to : option (text * text); rq_CallID : option text;
  rq_Event : option text; rq_Expires : option (Z + text); rq_header : text -> text; rq_body : text;
}.

(** What an upper's authenticator offers besides the registration: the check of an
    incoming Note, if it implements that (method, From, To, Call-ID, Date, Note, body). *)
Record RegisterAuthenticator := mkAuthenticator {
  VerifyIncomingNote : option (text -> text -> text -> text -> text -> text -> text -> bool);
}.

Record Upstream := mkUpstream {
  ServerDomain : text; ServerAddr : text; LocalDeviceID : text; Realm : text; Password : text;
  HeartbeatInterval : text; RegisterExpires : Z; up_authenticator : option RegisterAuthenticator;
}.

#[export] Instance eta_Upstream : Eta Upstream := fun u =>
  mkUpstream (ServerDomain u) (ServerAddr u) (LocalDeviceID u) (Realm u) (Password u) (HeartbeatInterval u) (RegisterExpires u) (up_authenticator u).

(** [Legacy] holds the seven fields of the single form. *)
Record Config := mkConfig {
  Legacy : Upstream;
  Upstreams : list Upstream;
  DeviceName : text; Manufacturer : text; Model : text; UserAgent : text;
  CatalogDefaultManufacturer : text; CatalogDefaultModel : text;
}.

Definition EffectiveUserAgent (c : Config) : text :=
  if bool_decide (UserAgent c = []) then txt "gb28181-go/cascade" else UserAgent c.
Definition CatalogManufacturer (c : Config) : text :=
  if bool_decide (CatalogDefaultManufacturer c = []) then txt "Unknown" else CatalogDefaultManufacturer c.
Definition CatalogModel (c : Config) : text :=
  if bool_decide (CatalogDefaultModel c = []) then txt "Unknown" else CatalogDefaultModel c.

Definition orDefault (v def : text) : text := if bool_decide (v = []) then def else v.

Record CascadeChannel := mkCascadeChannel { CameraID : text; GBChannelID : text; cc_Name : text; cc_UpdatedAt : Z }.

(** Times are milliseconds. *)
Record Recording := mkRecording { rec_CameraID : text; FilePath : text; Format : text; StartedAt : Z; EndedAt : Z }.

Record RecordingFilter := mkRecordingFilter {
  rf_CameraID : text; rf_StartTime : Z; rf_EndTime : Z; rf_Limit : Z; SortBy : text; SortOrder : text;
}.

(** [None] is an error; a failed upsert answers [false]. *)
Class Store (D : Type) := {
  ListCascadeChannels : D -> option (list CascadeChannel);
  UpsertCascadeChannel : CascadeChannel -> D -> bool * D;
  ListRecordings : RecordingFilter -> D -> option (list Recording);
}.

(** ** Upper platforms *)

Record upper := mkUpper { up : Upstream; online : bool; regTS : option Z }.

#[export] Instance eta_upper : Eta upper := fun u => mkUpper (up u) (online u) (regTS u).

(** Unset fields come from the single form. *)
Definition inherit (base u : Upstream) : Upstream :=
  u <| LocalDeviceID := orDefault (LocalDeviceID u) (LocalDeviceID base) |>
    <| Realm := orDefault (Realm u) (Realm base) |>
    <| Password := orDefault (Password u) (Password base) |>
    <| HeartbeatInterval := orDefault (HeartbeatInterval u) (HeartbeatInterval base) |>
    <| RegisterExpires := if RegisterExpires u =? 0 then RegisterExpires base else RegisterExpires u |>.

Definition has_addr (u : Upstream) : bool := negb (bool_decide (ServerAddr u = [])).

Definition buildUppers (cfg : Config) : list upper :=
  map (fun u => mkUpper u false None)
    ((if has_addr (Legacy cfg) then [(Legacy cfg) <| up_authenticator := None |>] else [])
     ++ map (inherit (Legacy cfg)) (List.filter has_addr (Upstreams cfg))).

Definition setOnline (now : Z) (i : nat) (v : bool) (us : list upper) : list upper :=
  alter (fun u => u <| online := v |> <| regTS := if v then Some now else regTS u |>) i us.

Definition Online (us : list upper) : bool := existsb online us.

(** The loop keeps the oldest registration of an upper that is online; [None] is the
    zero time. *)
Definition older (acc : option Z) (u : upper) : option Z :=
  if online u then match acc, regTS u with Some o, Some t => if t <? o then Some t else Some o | Some o, None => Some o | None, t => t end else acc.

Definition RegistrationSince (now : Z) (us : list upper) : option Z :=
  o ← fold_left older us None; Some (now - o).

(** The only upper, or the one that the From of the request names, or the first. *)
Definition upperOf (us : list upper) (req : request) : option Upstream :=
  match us with
  | [] => None
  | [u] => Some (up u)
  | u :: _ =>
      match rq_from req with
      | Some (user, _) =>
          match List.find (fun u => bool_decide (ServerDomain (up u) = user)) us with Some v => Some (up v) | None => Some (up u) end
      | None => Some (up u)
      end
  end.

Definition allowSecuredRequest (us : list upper) (req : request) : bool :=
  match u ← upperOf us req; a ← up_authenticator u; VerifyIncomingNote a with
  | None => true
  | Some verify =>
      let note := rq_header req (txt "Note") in
      if bool_decide (note = []) then true else
      verify (rq_Method req) (default [] (snd <$> rq_from req)) (default [] (snd <$> rq_to req)) (rq_header req (txt "Call-ID"))
        (rq_header req (txt "Date")) note (rq_body req)
  end.

(** ** State and effects *)

Record catalogSub := mkCatalogSub { sub_upper : option Upstream; sub_callID : text; fromUser : text; toUser : text; sub_expires : Z }.

Record Service {D : Type} := mkService {
  uppers : list upper;
  store : option D;
  sn : Z;
  subs : gmap text catalogSub;
}.
Arguments Service : clear implicits.
Arguments mkService {D} _ _ _ _.

#[export] Instance eta_Service {D} : Eta (Service D) := fun s => mkService (uppers s) (store s) (sn s) (subs s).

Inductive effect :=
  | Respond (code : Z) (reason : text) (expires : option Z)
  | Message (u : Upstream) (body : text)
  | Notify (sub : catalogSub) (body : text)
  | GoRecordInfo (u : option Upstream) (q : val)
  | GoDeviceControl (dc : val)
  | GoCatalogNotify (sub : catalogSub)
  | ForwardPTZ (cameraID direction : text) (speed : Z).

Inductive outcome (A : Type) := Panics | Fails | Returns (a : A).
Arguments Panics {A}.
Arguments Fails {A}.
Arguments Returns {A} _.

Definition then_ {A B} (f : A -> outcome B) (o : outcome A) : outcome B :=
  match o with Panics => Panics | Fails => Fails | Returns a => f a end.

(** ** The catalog *)

Section Cascade.

Context {D : Type} `{Store D} (cfg : Config) (Cameras : list CameraInfo).

(** A catalog under construction: the IDs that were stored, the last serial, the items. *)
Record catalog_run := mkRun { alloc : gmap text text; maxSerial : Z; items : list val }.

(** One row of the store; an ID shorter than a serial makes the slice expression panic. *)
Definition alloc_row (r : catalog_run) (row : CascadeChannel) : option catalog_run :=
  let id := GBChannelID row in
  if (length id <? 7)%nat then None else
  let n := match Atoi (drop (length id - 7) id) with Some ser => if maxSerial r <? ser then ser else maxSerial r | None => maxSerial r end in
  Some (mkRun (<[CameraID row := id]> (alloc r)) n (items r)).

Definition no_run : catalog_run := mkRun ∅ 0 [].

Definition catalog_start (db : option D) : outcome catalog_run :=
  match db with
  | None => Returns no_run
  | Some d => match ListCascadeChannels d with
              | None => Fails
              | Some rows => match foldM alloc_row rows no_run with Some r => Returns r | None => Panics end
              end
  end.

(** [%-10s] counts characters; the slice counts bytes. *)
Definition pad_right (n : nat) (s : text) : text := s ++ repeat 0x20 (n - length (rune_split s)).

Definition prefix : text :=
  let p := LocalDeviceID (Legacy cfg) in
  let p := if (length p <? 10)%nat then take 10 (pad_right 10 p) else p in
  take 10 p ++ txt "132".

Definition channel_id (serial : Z) : text := prefix ++ pad0 7 serial.

Definition loop_origin (u : option Upstream) (cam : CameraInfo) : bool :=
  match u with
  | Some u => negb (bool_decide (OriginDeviceID cam = [])) && bool_decide (OriginDeviceID cam = ServerDomain u)
  | None => false
  end.

Definition visible (u : option Upstream) (cam : CameraInfo) : bool := negb (CascadeHidden cam) && negb (loop_origin u cam).

Definition catalog_item (chID : text) (cam : CameraInfo) : val :=
  literal ManscdpTypes.Item [
    ("DeviceID", VString chID); ("Name", VString (cam_Name cam)); ("Parental", VInt 0); ("Status", VString (txt "ON"));
    ("Manufacturer", VString (orDefault (Brand cam) (CatalogManufacturer cfg))); ("Model", VString (orDefault (cam_Model cam) (CatalogModel cfg)));
    ("RegisterWay", VInt 1); ("PTZType", VInt 3); ("PhotoelectricImagingType", VInt (PhotoelectricImagingType cam))].

(** One turn of the loop: a camera without an ID gets the next serial, which is stored if
    there is a store; a failure to store it is only logged. *)
Definition catalog_cam (u : option Upstream) (now : Z) (cam : CameraInfo) (r : catalog_run) (db : option D) : catalog_run * option D :=
  if negb (visible u cam) then (r, db) else
  match alloc r !! cam_ID cam with
  | Some chID => (mkRun (alloc r) (maxSerial r) (items r ++ [catalog_item chID cam]), db)
  | None =>
      let n := maxSerial r + 1 in
      let chID := channel_id n in
      (mkRun (alloc r) n (items r ++ [catalog_item chID cam]),
       match db with Some d => Some (snd (UpsertCascadeChannel (mkCascadeChannel (cam_ID cam) chID (cam_Name cam) now) d)) | None => None end)
  end.

Fixpoint catalog_loop (u : option Upstream) (now : Z) (cams : list CameraInfo) (r : catalog_run) (db : option D) : catalog_run * option D :=
  match cams with
  | [] => (r, db)
  | cam :: rest => let (r1, db1) := catalog_cam u now cam r db in catalog_loop u now rest r1 db1
  end.

Definition catalogItemsFor (u : option Upstream) (now : Z) (db : option D) : outcome (list val * option D) :=
  then_ (fun r => let (r1, db1) := catalog_loop u now Cameras r db in Returns (items r1, db1)) (catalog_start db).

Definition catalogItems (now : Z) (db : option D) : outcome (list val * option D) := catalogItemsFor None now db.

(** The first row with the ID. *)
Definition cameraOfChannel (channelID : text) (db : option D) : option text :=
  d ← db; rows ← ListCascadeChannels d;
  CameraID <$> List.find (fun r => bool_decide (GBChannelID r = channelID)) rows.

Definition cameraInfo (cameraID : text) : option CameraInfo := List.find (fun c => bool_decide (cam_ID c = cameraID)) Cameras.

(** ** Answers *)

Context `{GoXml} `{Charsets} `{LocalTime}.

Definition answerCatalog (u : Upstream) (snr now : Z) (db : option D) : outcome (list effect * option D) :=
  match catalogItemsFor (Some u) now db with
  | Panics => Panics
  | Fails => Returns ([], db)
  | Returns (its, db1) =>
      Returns ([Message u (Encode ManscdpTypes.Catalog (literal ManscdpTypes.Catalog [
        ("CmdType", VString ManscdpTypes.CmdCatalog); ("SN", VInt snr); ("DeviceID", VString (LocalDeviceID u));
        ("SumNum", VInt (Z.of_nat (length its))); ("Item", VList its)]))], db1)
  end.

Definition answerDeviceInfo (u : Upstream) (snr : Z) : list effect :=
  [Message u (Encode ManscdpTypes.DeviceInfo (literal ManscdpTypes.DeviceInfo [
    ("CmdType", VString ManscdpTypes.CmdDeviceInfo); ("SN", VInt snr); ("DeviceID", VString (LocalDeviceID u));
    ("DeviceName", VString (orDefault (DeviceName cfg) (txt "GB28181 Platform")));
    ("Manufacturer", VString (orDefault (Manufacturer cfg) (txt "Unknown")));
    ("Model", VString (orDefault (Model cfg) (txt "Unknown")))]))].

(** The body of [sendKeepalive], with the next number. *)
Definition sendKeepalive (u : Upstream) (s : Service D) : list effect * Service D :=
  let n := s64 (sn s + 1) in
  ([Message u (Encode ManscdpTypes.Keepalive (literal ManscdpTypes.Keepalive [
    ("CmdType", VString ManscdpTypes.CmdKeepalive); ("SN", VInt n); ("DeviceID", VString (LocalDeviceID u)); ("Status", VString (txt "OK"))]))],
   s <| sn := n |>).

(** A type assertion that ends in a panic for a nil upper is not modelled: [Start] refuses
    a configuration without uppers. *)
Definition onMessage (now : Z) (req : request) (s : Service D) : outcome (list effect * Service D) :=
  match Decode (rq_body req) with
  | None => Returns ([Respond 400 (txt "Bad MANSCDP") None], s)
  | Some (cmd, m, p) =>
      let ok := Respond 200 (txt "OK") None in
      let u := upperOf (uppers s) req in
      let is_cmd c := bool_decide (cmd = c) in
      if is_cmd ManscdpTypes.CmdCatalog then
        (if bool_decide (m = AsCatalogQuery) && (0 <? get_int ManscdpTypes.CatalogQuery "SN" p) then
           match u with
           | None => Panics
           | Some u => then_ (fun r => Returns (ok :: fst r, s <| store := snd r |>)) (answerCatalog u (get_int ManscdpTypes.CatalogQuery "SN" p) now (store s))
           end
         else Returns ([ok], s))
      else if is_cmd ManscdpTypes.CmdDeviceInfo then
        (if bool_decide (m = AsDeviceInfo) && (0 <? get_int ManscdpTypes.DeviceInfo "SN" p) then
           match u with None => Panics | Some u => Returns (ok :: answerDeviceInfo u (get_int ManscdpTypes.DeviceInfo "SN" p), s) end
         else Returns ([ok], s))
      else if is_cmd ManscdpTypes.CmdRecordInfo then
        (if bool_decide (m = AsRecordInfoQuery) && (0 <? get_int ManscdpTypes.RecordInfoQuery "SN" p)
         then Returns ([ok; GoRecordInfo u p], s) else Returns ([ok], s))
      else if is_cmd ManscdpTypes.CmdDeviceControl then
        (if bool_decide (m = AsDeviceControl) then Returns ([ok; GoDeviceControl p], s) else Returns ([ok], s))
      else Returns ([ok], s)
  end.

(** [securedRequest] around a handler. *)
Definition securedRequest (next : request -> Service D -> outcome (list effect * Service D)) (req : request) (s : Service D) :
    outcome (list effect * Service D) :=
  if allowSecuredRequest (uppers s) req then next req s else Returns ([Respond 403 (txt "Note verification failed") None], s).

(** ** Recordings *)

Definition recordPageSize : nat := 40.
Definition max_window : Z := 31 * 24 * 3600 * 1000.

Definition record_item (channelID name : text) (rec : Recording) : val :=
  literal ManscdpTypes.RecordItem [
    ("DeviceID", VString channelID); ("Name", VString name); ("StartTime", VString (FormatLocal (StartedAt rec)));
    ("EndTime", VString (FormatLocal (EndedAt rec))); ("Secrecy", VInt 0); ("Type", VString (txt "time"))].

Definition record_info (snr : Z) (channelID name : text) (sum : Z) (page : list val) : val :=
  literal ManscdpTypes.RecordInfo [
    ("CmdType", VString ManscdpTypes.CmdRecordInfo); ("SN", VInt snr); ("DeviceID", VString channelID); ("Name", VString name);
    ("SumNum", VInt sum); ("RecordList", VList page)].

(** The loop [for off := 0; off < len(items) || off == 0; off += recordPageSize]; the
    number of items is fuel enough. *)
Fixpoint record_pages (fuel : nat) (its : list val) : list (list val) :=
  match fuel, its with
  | S f, _ :: _ => take recordPageSize its :: record_pages f (drop recordPageSize its)
  | _, _ => []
  end.

Definition paged (its : list val) : list (list val) := match its with [] => [[]] | _ => record_pages (length its) its end.

(** The pages go out until one is not answered with success. *)
Fixpoint until_refused (accepted : text -> bool) (u : Upstream) (bodies : list text) : list effect :=
  match bodies with [] => [] | b :: rest => Message u b :: if accepted b then until_refused accepted u rest else [] end.

Definition record_range (q : val) : option (Z * Z) :=
  start ← ParseLocal (get_string ManscdpTypes.RecordInfoQuery "StartTime" q);
  end_ ← ParseLocal (get_string ManscdpTypes.RecordInfoQuery "EndTime" q);
  if end_ <=? start then None else
  Some (start, if max_window <? end_ - start then start + max_window else end_).

Definition answerRecordInfo (accepted : text -> bool) (u : Upstream) (q : val) (db : option D) : list effect :=
  let channelID := get_string ManscdpTypes.RecordInfoQuery "DeviceID" q in
  match cameraOfChannel channelID db, record_range q with
  | Some cameraID, Some (start, end_) =>
      match d ← db; ListRecordings (mkRecordingFilter cameraID start end_ 2000 (txt "started_at") (txt "asc")) d with
      | None => []
      | Some recs =>
          let name := match cameraInfo cameraID with Some cam => orDefault (cam_Name cam) channelID | None => channelID end in
          let its := map (record_item channelID name) recs in
          let body page := Encode ManscdpTypes.RecordInfo
            (record_info (get_int ManscdpTypes.RecordInfoQuery "SN" q) channelID name (Z.of_nat (length its)) page) in
          until_refused accepted u (map body (paged its))
      end
  | _, _ => []
  end.

End Cascade.

(** ** Controls *)

(** The instruction of a hex PTZ command, with its speeds: [None] if it is none. *)
Definition ptz_raw (hexCmd : text) : option (list Z) :=
  raw ← hex_decode (TrimSpace hexCmd);
  match raw with 0xA5 :: _ :: _ :: _ :: _ => Some raw | _ => None end.

Definition lensCmdKind (hexCmd : text) : text :=
  match ptz_raw hexCmd with
  | Some (_ :: _ :: _ :: code :: _) =>
      if Z.land code 0xF0 =? 0x40 then txt "FI lens" else if (code =? 0x8C) || (code =? 0x8D) then txt "aux switch" else []
  | _ => []
  end.

Definition TrimSuffix (s suffix : text) : text := rev (TrimPrefix (rev s) (rev suffix)).

(** Direction and speed; [None] is an error. *)
Definition decodePTZCmd (hexCmd : text) : option (text * Z) :=
  match ptz_raw hexCmd with
  | Some (_ :: _ :: _ :: bits :: speeds) =>
      let speed := fold_left (fun m b => if m <? b then b else m) (take 3 speeds) 0 in
      let bit n := negb (Z.land bits n =? 0) in
      if bits =? 0x00 then Some (txt "stop", 0)
      else if bits =? 0x10 then Some (txt "zoom-in", speed)
      else if bits =? 0x20 then Some (txt "zoom-out", speed)
      else if Z.land bits 0x0F =? 0 then None
      else
        let dir := TrimSuffix ((if bit 0x08 then txt "up-" else if bit 0x04 then txt "down-" else [])
                               ++ (if bit 0x02 then txt "left" else if bit 0x01 then txt "right" else [])) (txt "-") in
        if bool_decide (dir = []) then None else Some (dir, speed)
  | _ => None
  end.

(** [ptzForward]: whether a forwarder is set. *)
Definition forwardDeviceControl {D} `{Store D} (ptzForward : bool) (dc : val) (db : option D) : list effect :=
  let ptz := get_string ManscdpTypes.DeviceControl "PTZCmd" dc in
  if bool_decide (ptz = []) then [] else
  match cameraOfChannel (get_string ManscdpTypes.DeviceControl "DeviceID" dc) db with
  | None => []
  | Some cameraID =>
      if negb (bool_decide (lensCmdKind ptz = [])) then [] else
      match decodePTZCmd ptz with
      | None => []
      | Some (direction, speed) => if ptzForward then [ForwardPTZ cameraID direction speed] else []
      end
  end.

(** ** Subscriptions *)

Definition notifyScanInterval : Z := 10 * 1000000000.

(** The value of an Expires header, typed or not; a value that is no positive number
    leaves the default. *)
Definition subscription_expires (h : option (Z + text)) : Z :=
  match h with
  | Some (inl n) => if 0 <? n then n else 3600
  | Some (inr s) =>
      let v := TrimSpace s in
      if bool_decide (v = []) then 3600 else match Atoi v with Some n => if 0 <? n then n else 3600 | None => 3600 end
  | None => 3600
  end.

Definition onSubscribe {D} (now : Z) (req : request) (s : Service D) : outcome (list effect * Service D) :=
  let event := match rq_Event req with Some e => TrimSpace e | None => [] end in
  let expires := subscription_expires (rq_Expires req) in
  if negb (Contains (ToLower event) (txt "catalog")) then Returns ([Respond 200 (txt "OK") (Some 0)], s) else
  let sub := mkCatalogSub (upperOf (uppers s) req) (default [] (rq_CallID req)) (default [] (fst <$> rq_from req)) (default [] (fst <$> rq_to req))
               (now + expires * 1000000000) in
  match sub_upper sub with
  | None => Panics
  | Some _ => Returns ([Respond 200 (txt "OK") (Some (u32 expires)); GoCatalogNotify sub], s <| subs := <[sub_callID sub := sub]> (subs s) |>)
  end.

(** [sort.Strings]; the sorted list is unique. *)
Fixpoint insert_sorted (x : text) (l : list text) : list text :=
  match l with [] => [x] | y :: r => if text_ltb y x then y :: insert_sorted x r else x :: l end.

Definition cameraFingerprint (cams : list CameraInfo) : text :=
  Join (fold_right insert_sorted [] (map (fun c => cam_ID c ++ txt "/" ++ cam_Name c) cams)) [0].

(** One scan of [catalogNotifyLoop], from the fingerprint of the last one. *)
Definition notify_scan {D} (now : Z) (cams : list CameraInfo) (last : text) (s : Service D) : list effect * text * Service D :=
  let cur := cameraFingerprint cams in
  if bool_decide (cur = last) then ([], last, s) else
  let live := filter (fun kv => now <= sub_expires (snd kv)) (subs s) in
  (map (fun kv => GoCatalogNotify (snd kv)) (map_to_list live), cur, s <| subs := live |>).

Definition catalogNotifyBody : ty := struct_named "Notify" [
    elem "CmdType" "CmdType" TString; elem "SN" "SN" TInt; elem "DeviceID" "DeviceID" TString; elem "SumNum" "SumNum" TInt;
    elem_in "Items" "DeviceList" "Item" (TSlice ManscdpTypes.Item)].

(** [xml.Header] *)
Definition xml_Header : text :=
  txt "<?xml version=" ++ [0x22] ++ txt "1.0" ++ [0x22] ++ txt " encoding=" ++ [0x22] ++ txt "UTF-8" ++ [0x22] ++ txt "?>" ++ LF.

Definition notify_body `{GoXml} (snr : Z) (deviceID : text) (its : list val) : text :=
  xml_Header ++ Marshal catalogNotifyBody (literal catalogNotifyBody [
    ("CmdType", VString (txt "Catalog")); ("SN", VInt snr); ("DeviceID", VString deviceID);
    ("SumNum", VInt (Z.of_nat (length its))); ("Items", VList its)]).

(** The header around the body: the users of the subscription and its Call-ID, both of
    which the subscription carries. *)
Definition sendCatalogNotify {D} `{Store D} `{GoXml} (cfg : Config) (Cameras : list CameraInfo) (now : Z) (sub : catalogSub) (s : Service D) :
    outcome (list effect * Service D) :=
  match catalogItemsFor cfg Cameras (sub_upper sub) now (store s) with
  | Panics => Panics
  | Fails => Returns ([], s)
  | Returns (its, db1) =>
      match sub_upper sub with
      | None => Panics
      | Some u =>
          let n := s64 (sn s + 1) in
          Returns ([Notify sub (notify_body n (LocalDeviceID u) its)], s <| store := db1 |> <| sn := n |>)
      end
  end.
