(* ===== verification/CascadeChannels.v ===== *)
(** The channel IDs of the cascade: what the store holds is a one-to-one assignment of
    20-character IDs to cameras, a catalog extends it and never changes it, and two
    catalogs that are built at once can break it. *)

From S2P Require Import Prelude GoStrings GoText Xml XmlStruct.
From S2P Require ManscdpTypes.
From S2P Require Import Cascade.
#[local] Open Scope string_scope.
#[local] Open Scope list_scope.
Open Scope Z_scope.

(** ** Stores *)

(** What a store is for: a channel that was saved is listed, once for its camera, and the
    others stay; a failed save changes nothing. *)
Class StoreLaws (D : Type) `{Store D} := {
  store_upsert : forall ch (d : D) rows, ListCascadeChannels d = Some rows ->
    exists rows', ListCascadeChannels (snd (UpsertCascadeChannel ch d)) = Some rows' /\
      if fst (UpsertCascadeChannel ch d) then Permutation rows' (ch :: List.filter (fun r => negb (bool_decide (CameraID r = CameraID ch))) rows)
      else rows' = rows;
}.

(** ** Serials *)

Definition serial_ok (n : Z) : Prop := 0 <= n < 10 ^ 7.

Lemma pad0_seven n : serial_ok n -> digits (pad0 7 n) /\ length (pad0 7 n) = 7%nat /\ Atoi (pad0 7 n) = Some n.
Proof.
  intros R. destruct (pad0_spec 7 n R ltac:(lia)) as (D & L & V). split; [done|]. split; [done|].
  unfold serial_ok in R. apply Atoi_digits; [done|by intros E; rewrite E in L|done|lia|lia].
Qed.

Lemma pad0_seven_inj n m : serial_ok n -> serial_ok m -> pad0 7 n = pad0 7 m -> n = m.
Proof. intros N M E. destruct (pad0_seven n N) as (_ & _ & A), (pad0_seven m M) as (_ & _ & B). congruence. Qed.

Section Channels.

Context {D : Type} `{StoreLaws D} (cfg : Config).

Lemma channel_id_inj n m : serial_ok n -> serial_ok m -> channel_id cfg n = channel_id cfg m -> n = m.
Proof. intros N M E. apply app_inv_head in E. by apply pad0_seven_inj. Qed.

Lemma channel_id_serial n : serial_ok n -> (7 <= length (channel_id cfg n))%nat /\
  Atoi (drop (length (channel_id cfg n) - 7) (channel_id cfg n)) = Some n.
Proof.
  intros N. destruct (pad0_seven n N) as (_ & L & A). unfold channel_id. rewrite length_app, L. split; [lia|].
  replace (length (prefix cfg) + 7 - 7)%nat with (length (prefix cfg)) by lia. by rewrite drop_app_length.
Qed.

Lemma channel_id_length n : (10 <= length (LocalDeviceID (Legacy cfg)))%nat -> serial_ok n -> length (channel_id cfg n) = 20%nat.
Proof.
  intros L N. destruct (pad0_seven n N) as (_ & P & _). unfold channel_id, prefix. rewrite (proj2 (Nat.ltb_ge _ _) L).
  rewrite !length_app, length_take, P. change (length (txt "132")) with 3%nat. lia.
Qed.

(** ** Assignments *)

(** Rows that the cascade wrote: IDs of its form, one per camera, one camera per ID. *)
Record assigned (top : Z) (rows : list CascadeChannel) : Prop := {
  as_cameras : NoDup (map CameraID rows);
  as_ids : NoDup (map GBChannelID rows);
  as_form : Forall (fun r => exists n, 0 <= n <= top /\ GBChannelID r = channel_id cfg n) rows;
}.

Lemma assigned_weaken a b rows : a <= b -> assigned a rows -> assigned b rows.
Proof.
  intros L [A B C]. split; [done|done|]. eapply list.Forall_impl; [exact C|]. intros r (n & R & E). exists n. split; [lia|done].
Qed.

Lemma assigned_perm top a b : Permutation a b -> assigned top a -> assigned top b.
Proof. intros P [A B C]. split; by rewrite <- P. Qed.

(** What a catalog knows of the rows. *)
Definition knows (r : catalog_run) (rows : list CascadeChannel) : Prop :=
  (forall cam id, alloc r !! cam = Some id <-> exists row, In row rows /\ CameraID row = cam /\ GBChannelID row = id).

Lemma rows_read top rows : assigned top rows -> top < 10 ^ 7 ->
  forall r, NoDup (map CameraID rows) -> (forall row, In row rows -> alloc r !! CameraID row = None) -> 0 <= maxSerial r ->
  exists r', foldM alloc_row rows r = Some r' /\ items r' = items r /\ maxSerial r <= maxSerial r' <= Z.max (maxSerial r) top /\
    (forall row n, In row rows -> serial_ok n -> GBChannelID row = channel_id cfg n -> n <= maxSerial r') /\
    (forall cam id, alloc r' !! cam = Some id <-> alloc r !! cam = Some id \/ exists row, In row rows /\ CameraID row = cam /\ GBChannelID row = id).
Proof.
  intros [_ _ F] T. induction F as [|row rows (n & Rn & En) _ IH]; intros r N A M.
  - exists r. split; [done|]. split; [done|]. split; [lia|]. split; [done|]. intros cam id. split; [by left|]. by intros [?|(? & [] & _)].
  - cbn [map] in N. apply list.NoDup_cons in N as [N1 N2]. assert (S : serial_ok n) by (split; lia).
    destruct (channel_id_serial n S) as [L At]. cbn [foldM]. unfold alloc_row at 1. rewrite En, (proj2 (Nat.ltb_ge _ _) L), At. cbn zeta.
    set (r1 := mkRun _ _ _). destruct (IH r1) as (r' & E1 & E2 & E3 & E4 & E5).
    + done.
    + intros row' I. cbn. rewrite lookup_insert_ne; [apply A; by right|]. intros E. apply N1. rewrite list_elem_of_In, E. by apply in_map.
    + cbn. destruct (Z.ltb_spec (maxSerial r) n); lia.
    + cbn [maxSerial r1] in E3. rewrite E1. exists r'. split; [done|]. split; [done|].
      split; [destruct (Z.ltb_spec (maxSerial r) n); lia|]. split.
      * intros row' m [<- |I] Sm Em; [|by eapply E4]. rewrite En in Em. apply channel_id_inj in Em; [|done..]. subst m.
        destruct (Z.ltb_spec (maxSerial r) n); lia.
      * intros cam id. rewrite E5. cbn [alloc r1]. destruct (decide (cam = CameraID row)) as [-> |Nc].
        -- rewrite lookup_insert_eq. split.
           ++ intros [[= <-]|(row' & I & Ec & Ei)]; right; [exists row; split; [by left|done]|exists row'; split; [by right|done]].
           ++ intros [E|(row' & [<- |I] & Ec & Ei)]; [rewrite A in E by (by left); done|left; by rewrite <- Ei, En|right; by exists row'].
        -- rewrite lookup_insert_ne by done. split; (intros [E|(row' & I & Ec & Ei)]; [by left|right]).
           ++ exists row'. split; [by right|done].
           ++ destruct I as [<- |I]; [done|]. by exists row'.
Qed.

Lemma catalog_started top d rows : ListCascadeChannels d = Some rows -> assigned top rows -> 0 <= top < 10 ^ 7 ->
  exists r, catalog_start (Some d) = Returns r /\ items r = [] /\ 0 <= maxSerial r <= top /\ assigned (maxSerial r) rows /\ knows r rows.
Proof.
  intros L A T. unfold catalog_start. rewrite L. destruct (rows_read top rows A ltac:(lia) no_run (as_cameras _ _ A)) as (r & E1 & E2 & E3 & E4 & E5).
  - intros row _. apply lookup_empty.
  - done.
  - cbn [maxSerial no_run] in E3. rewrite E1. exists r. split; [done|]. split; [done|]. split; [lia|]. split.
    + destruct A as [A1 A2 A3]. split; [done|done|]. rewrite list.Forall_forall in *. intros row I. destruct (A3 row I) as (n & Rn & En).
      exists n. split; [|done]. split; [lia|]. apply (E4 row); [by rewrite <- list_elem_of_In|split; lia|done].
    + intros cam id. rewrite E5. cbn. rewrite lookup_empty. split; [by intros [?|?]|by right].
Qed.

(** ** One camera, and all of them *)

Context (u : option Upstream) (now : Z) (saves : forall ch (d : D), fst (UpsertCascadeChannel ch d) = true).

Lemma filter_others {A} (p : A -> bool) l : (forall x, In x l -> p x = true) -> List.filter p l = l.
Proof. induction l as [|x l IH]; [done|]. intros K. cbn. rewrite K by (by left). f_equal. apply IH. intros y I. apply K. by right. Qed.

(** The state of the loop: the rows are assigned up to the last serial, and the IDs of the
    cameras to come are the stored ones. *)
Definition running (r : catalog_run) (d : D) (cams : list CameraInfo) (rows : list CascadeChannel) : Prop :=
  ListCascadeChannels d = Some rows /\ assigned (maxSerial r) rows /\ 0 <= maxSerial r /\
  forall cam, In cam cams -> forall id, alloc r !! cam_ID cam = Some id <-> exists row, In row rows /\ CameraID row = cam_ID cam /\ GBChannelID row = id.

Definition holds (rows : list CascadeChannel) (cam : CameraInfo) (id : text) : Prop :=
  exists row, In row rows /\ CameraID row = cam_ID cam /\ GBChannelID row = id.

Lemma cam_done r d cam cams rows : running r d (cam :: cams) rows -> NoDup (map cam_ID (cam :: cams)) -> maxSerial r + 1 < 10 ^ 7 ->
  let (r1, db1) := catalog_cam cfg u now cam r (Some d) in
  exists d1 rows1, db1 = Some d1 /\ running r1 d1 cams rows1 /\ maxSerial r <= maxSerial r1 <= maxSerial r + 1 /\ (forall row, In row rows -> In row rows1) /\
    if visible u cam then exists id, items r1 = items r ++ [catalog_item cfg id cam] /\ holds rows1 cam id else items r1 = items r /\ d1 = d.
Proof.
  intros (L & A & P & K) N T. cbn [map] in N. apply list.NoDup_cons in N as [N1 N2]. unfold catalog_cam. destruct (visible u cam); cbn [negb].
  2:{ exists d, rows. split; [done|]. split; [split; [done|split; [done|split; [done|]]]|split; [lia|done]]. intros c I. apply K. by right. }
  destruct (alloc r !! cam_ID cam) as [id|] eqn:E.
  { apply K in E; [|by left]. exists d, rows. split; [done|]. split; [|split; [cbn; lia|split; [done|by exists id]]].
    split; [done|]. split; [done|]. split; [done|]. intros c I. apply K. by right. }
  set (n := maxSerial r + 1) in *. set (ch := mkCascadeChannel (cam_ID cam) (channel_id cfg n) (cam_Name cam) now).
  destruct (store_upsert ch d rows L) as (rows1 & L1 & P1). rewrite saves in P1.
  assert (Fresh : forall row, In row rows -> CameraID row <> cam_ID cam).
  { intros row I Ec. assert (Ex : alloc r !! cam_ID cam = Some (GBChannelID row)) by (apply K; [by left|by exists row]). congruence. }
  assert (Fi : List.filter (fun r => negb (bool_decide (CameraID r = CameraID ch))) rows = rows).
  { apply filter_others. intros row I. by rewrite bool_decide_eq_false_2 by (by apply Fresh). }
  rewrite Fi in P1. clear Fi. exists (snd (UpsertCascadeChannel ch d)), rows1. split; [done|].
  assert (I1 : forall row, In row rows1 <-> row = ch \/ In row rows).
  { intros row. rewrite P1. cbn. split; (intros [E1|E1]; [by left|by right]). }
  split; [|split; [cbn; lia|split; [intros row I; apply I1; by right|]]].
  - split; [done|]. split; [|split; [cbn; lia|]].
    + cbn [maxSerial]. eapply assigned_perm; [symmetry; exact P1|]. destruct A as [A1 A2 A3]. split; cbn [map].
      * apply list.NoDup_cons. split; [|done]. rewrite list_elem_of_In, in_map_iff. intros (row & Ec & I). by apply (Fresh row).
      * apply list.NoDup_cons. split; [|done]. rewrite list_elem_of_In, in_map_iff. intros (row & Ec & I). rewrite list.Forall_forall in A3.
        destruct (A3 row) as (m & Rm & Em); [by rewrite list_elem_of_In|]. cbn in Ec. rewrite Em in Ec. apply channel_id_inj in Ec; [lia|split; lia..].
      * constructor; [exists n; split; [lia|done]|]. eapply list.Forall_impl; [exact A3|]. intros row (m & Rm & Em). exists m. split; [lia|done].
    + intros c I id. cbn [alloc]. rewrite K by (by right). assert (Nc : cam_ID c <> cam_ID cam).
      { intros Ec. apply N1. rewrite list_elem_of_In, <- Ec. by apply in_map. }
      split; intros (row & Ir & Ec & Ei); exists row; (split; [|done]); [apply I1; by right|]. apply I1 in Ir as [-> |Ir]; [by cbn in Ec|done].
  - exists (channel_id cfg n). split; [done|]. exists ch. split; [apply I1; by left|done].
Qed.

(** The items of a catalog, and the rows behind it. *)
Lemma loop_done cams : forall r d rows, running r d cams rows -> NoDup (map cam_ID cams) -> maxSerial r + Z.of_nat (length cams) < 10 ^ 7 ->
  let (r1, db1) := catalog_loop cfg u now cams r (Some d) in
  exists d1 rows1 ids, db1 = Some d1 /\ ListCascadeChannels d1 = Some rows1 /\ assigned (maxSerial r1) rows1 /\
    0 <= maxSerial r1 <= maxSerial r + Z.of_nat (length cams) /\ (forall row, In row rows -> In row rows1) /\
    items r1 = items r ++ zip_with (catalog_item cfg) ids (List.filter (visible u) cams) /\
    Forall2 (holds rows1) (List.filter (visible u) cams) ids.
Proof.
  induction cams as [|cam cams IH]; intros r d rows R N T.
  { destruct R as (L & A & P & _). exists d, rows, []. cbn. split_and!; try done; try lia; by rewrite app_nil_r. }
  cbn [catalog_loop length] in *. pose proof (cam_done r d cam cams rows R N ltac:(lia)) as Cd. destruct (catalog_cam cfg u now cam r (Some d)) as [r1 db1].
  destruct Cd as (d1 & rows1 & -> & R1 & M1 & S1 & It). cbn [map] in N. apply list.NoDup_cons in N as [_ N2].
  specialize (IH r1 d1 rows1 R1 N2 ltac:(lia)). destruct (catalog_loop cfg u now cams r1 (Some d1)) as [r2 db2].
  destruct IH as (d2 & rows2 & ids & -> & L2 & A2 & M2 & S2 & I2 & F2). cbn [List.filter]. destruct (visible u cam).
  - destruct It as (id & It & row & Ir & Ec & Ei). exists d2, rows2, (id :: ids). split_and!; try done; try lia; auto.
    + rewrite I2, It, <- app_assoc. done.
    + constructor; [|done]. exists row. auto.
  - destruct It as [It _]. exists d2, rows2, ids. split_and!; try done; try lia; auto. by rewrite I2, It.
Qed.

(** The channels of a catalog, and what becomes of the store. *)
Lemma catalog_built Cameras top d rows : ListCascadeChannels d = Some rows -> assigned top rows -> 0 <= top -> NoDup (map cam_ID Cameras) ->
  top + Z.of_nat (length Cameras) < 10 ^ 7 ->
  exists d1 rows1 ids, catalogItemsFor cfg Cameras u now (Some d) = Returns (zip_with (catalog_item cfg) ids (List.filter (visible u) Cameras), Some d1) /\
    ListCascadeChannels d1 = Some rows1 /\ assigned (top + Z.of_nat (length Cameras)) rows1 /\ (forall row, In row rows -> In row rows1) /\
    Forall2 (holds rows1) (List.filter (visible u) Cameras) ids.
Proof.
  intros L A P N T. destruct (catalog_started top d rows L A ltac:(lia)) as (r & S & I & M & A1 & K). unfold catalogItemsFor. rewrite S. cbn [then_].
  pose proof (loop_done Cameras r d rows) as Q. destruct (catalog_loop cfg u now Cameras r (Some d)) as [r1 db1].
  destruct Q as (d1 & rows1 & ids & -> & L1 & A2 & M1 & S1 & I1 & F1); [|done|lia|].
  - split; [done|]. split; [done|]. split; [lia|]. intros cam _ id. apply K.
  - exists d1, rows1, ids. rewrite I1, I. split; [done|]. split; [done|]. split; [eapply assigned_weaken; [|exact A2]; lia|done].
Qed.

(** An ID that is held leads back to its camera. *)
Lemma held_camera top d rows cam id : ListCascadeChannels d = Some rows -> assigned top rows ->
  cameraOfChannel id (Some d) = Some cam <-> exists row, In row rows /\ CameraID row = cam /\ GBChannelID row = id.
Proof.
  intros L A. unfold cameraOfChannel. cbn [mbind option_bind]. rewrite L. cbn [mbind option_bind].
  destruct (List.find _ rows) as [row|] eqn:F; cbn.
  - apply find_some in F as [I E]. apply bool_decide_eq_true in E. split.
    + intros [= <-]. by exists row.
    + intros (row' & I' & <- & E'). f_equal. f_equal. pose proof (as_ids _ _ A) as Nd. apply NoDup_ListNoDup in Nd.
      rewrite <- E' in E. clear -Nd I I' E. induction rows as [|x rows IH]; [done|]. cbn [map] in Nd. apply NoDup_cons_iff in Nd as [N1 N2].
      destruct I as [-> |I], I' as [-> |I']; [done|destruct N1; rewrite E; by apply in_map|destruct N1; rewrite <- E; by apply in_map|by apply IH].
  - split; [done|]. intros (row & I & _ & E). pose proof (find_none _ _ F row I) as B. apply bool_decide_eq_false in B. done.
Qed.

End Channels.

(** ** A store *)

(** Rows in the order of their saves, and recordings by camera and time range. *)
Definition list_store : Type := list CascadeChannel * list Recording.

#[export] Instance list_store_ops : Store list_store := {
  ListCascadeChannels d := Some (fst d);
  UpsertCascadeChannel ch d := (true, (ch :: List.filter (fun r => negb (bool_decide (CameraID r = CameraID ch))) (fst d), snd d));
  ListRecordings f d := Some (List.filter (fun r => bool_decide (rec_CameraID r = rf_CameraID f) && (StartedAt r <? rf_EndTime f) && (rf_StartTime f <? EndedAt r)) (snd d));
}.

#[export] Instance list_store_laws : StoreLaws list_store.
Proof. split. intros ch [rows recs] rows0 [= <-]. eexists. split; [reflexivity|]. cbn. done. Qed.

(** ** Two catalogs at once *)

(** Handlers run on goroutines of their own, and nothing locks the store between its
    listing and the saves: a catalog under construction is a task that moves in turns. *)
Inductive task := Listing | Looping (r : catalog_run) (cams : list CameraInfo) | Built (its : list val) | Failed.

Section Turns.

Context {D : Type} `{Store D} (cfg : Config) (Cameras : list CameraInfo) (now : Z).

Definition turn (u : option Upstream) (t : task) (d : D) : task * D :=
  match t with
  | Listing => (match catalog_start (Some d) with Returns r => Looping r Cameras | _ => Failed end, d)
  | Looping r (cam :: cams) => let (r1, db1) := catalog_cam cfg u now cam r (Some d) in (Looping r1 cams, default d db1)
  | Looping r [] => (Built (items r), d)
  | t => (t, d)
  end.

(** Two tasks, for one upper each, in the order of a schedule. *)
Fixpoint turns (ua ub : option Upstream) (schedule : list bool) (a b : task) (d : D) : task * task * D :=
  match schedule with
  | [] => (a, b, d)
  | true :: rest => let (a1, d1) := turn ua a d in turns ua ub rest a1 b d1
  | false :: rest => let (b1, d1) := turn ub b d in turns ua ub rest a b1 d1
  end.

Lemma cam_stored u cam r d : exists d1, snd (catalog_cam cfg u now cam r (Some d)) = Some d1.
Proof. unfold catalog_cam. destruct (negb _); [by eexists|]. destruct (alloc r !! cam_ID cam); by eexists. Qed.

(** A task that is alone does what [catalogItemsFor] does. *)
Lemma alone u b cams : forall r d, exists d1, snd (catalog_loop cfg u now cams r (Some d)) = Some d1 /\
  turns u None (repeat true (S (length cams))) (Looping r cams) b d = (Built (items (fst (catalog_loop cfg u now cams r (Some d)))), b, d1).
Proof.
  induction cams as [|cam cams IH]; intros r d; [by exists d|]. cbn [catalog_loop length]. change (S (S (length cams))) with (1 + S (length cams))%nat.
  cbn [repeat Nat.add turns turn]. destruct (cam_stored u cam r d) as [d1 E]. destruct (catalog_cam cfg u now cam r (Some d)) as [r1 db1].
  cbn [snd] in E. subst db1. exact (IH r1 d1).
Qed.

End Turns.

(** Two cameras; the first one came from the first upper. *)
Definition demo_camera (id : string) (origin : text) : CameraInfo := mkCameraInfo (txt id) (txt id) [] [] [] false origin false 0.
Definition demo_upstream (id : text) : Upstream := mkUpstream id (txt "10.0.0.1:5060") (txt "34020000002000000001") [] (txt "pw") [] 0 None.
Definition demo_cameras : list CameraInfo := [demo_camera "gate" (txt "3401"); demo_camera "hall" []].
Definition demo_cascade : Config := mkConfig (demo_upstream (txt "3401")) [demo_upstream (txt "3402")] [] [] [] [] [] [].

(** Both uppers ask for the catalog at once: the first one is told that an ID is the hall,
    the second one that it is the gate. The store keeps it for both. *)
Example catalogs_collide :
  let r := turns demo_cascade demo_cameras 0 (Some (demo_upstream (txt "3401"))) (Some (demo_upstream (txt "3402")))
             [true; false; true; true; true; false; false; false] Listing Listing (([], []) : list_store) in
  let id := channel_id demo_cascade 1 in
  let told := map (fun it => (get_string ManscdpTypes.Item "DeviceID" it, get_string ManscdpTypes.Item "Name" it)) in
  match fst r with
  | (Built a, Built b) => told a = [(id, txt "hall")] /\ told b = [(id, txt "gate"); (channel_id demo_cascade 2, txt "hall")]
  | _ => False
  end.
Proof. vm_compute. done. Qed.
