(* ===== verification/CascadeExchange.v ===== *)
(** The cascade and an upper platform of this repository: catalog, subscription,
    recordings and controls from one end to the other. *)

From S2P Require Import Prelude GoStrings GoText Xml XmlStruct ManscdpCodec DeviceManscdp Ptz DeviceMgr PtzControl PlatformMessage.
From S2P Require Import Templates PlatformControl CatalogExchange RecordExchange CommandExchange.
From S2P Require Import Cascade CascadeChannels.
From S2P Require ManscdpTypes.
#[local] Open Scope string_scope.
#[local] Open Scope list_scope.
Open Scope Z_scope.

Section Exchange.

Context `{FloatLaws} `{Charsets} `{LocalTime} {D : Type} `{StoreLaws D} (cfg : Config).

(** ** Items *)

(** A camera whose texts and numbers print. *)
Definition camera_ok (cam : CameraInfo) : Prop :=
  xml_text (cam_Name cam) /\ xml_text (Brand cam) /\ xml_text (cam_Model cam) /\ - 2 ^ 63 <= PhotoelectricImagingType cam < 2 ^ 63.

Record config_ok : Prop := {
  id_length : (10 <= length (LocalDeviceID (Legacy cfg)))%nat;
  id_plain : plain (LocalDeviceID (Legacy cfg));
  manufacturer_ok : xml_text (CatalogManufacturer cfg);
  model_ok : xml_text (CatalogModel cfg);
}.

Lemma orDefault_ok v d : xml_text v -> xml_text d -> xml_text (orDefault v d).
Proof. unfold orDefault. by case_bool_decide. Qed.

Lemma channel_id_plain n : config_ok -> serial_ok n -> plain (channel_id cfg n).
Proof.
  intros C N. destruct (pad0_seven n N) as (Dg & _). unfold channel_id, prefix. rewrite (proj2 (Nat.ltb_ge _ _) (id_length C)).
  apply Forall_app_2; [apply Forall_app_2; [|by repeat constructor]|by apply digits_plain].
  pose proof (id_plain C) as P. unfold plain in P. rewrite <- (take_drop 10) in P. by apply Forall_app in P as [P _].
Qed.

Lemma item_good id cam : config_ok -> camera_ok cam -> xml_text id -> good ManscdpTypes.Item (catalog_item cfg id cam).
Proof.
  intros [_ _ M1 M2] (N & B & M & P) I. pose proof (orDefault_ok _ _ B M1). pose proof (orDefault_ok _ _ M M2).
  cbn -[txt orDefault]. split_and!; try done; try lia; try apply xml_nil; try (apply plain_xml; by repeat constructor).
  intros E. apply Z.eqb_eq in E. by rewrite E.
Qed.

(** What a camera becomes in the registry of the upper platform. *)
Definition camera_channel (deviceID id : text) (cam : CameraInfo) (old : option Channel) : Channel :=
  let tc := ChannelTypeCode id in
  mkChannel deviceID id (cam_Name cam) 0 (match old with Some ch => ch_Status ch | None => ChannelIdle end) 3 (PhotoelectricImagingType cam) false tc
    (tc =? ChannelTypeAudioInput).

Lemma item_entry deviceID id cam old : entry deviceID (catalog_item cfg id cam) old = camera_channel deviceID id cam old.
Proof. reflexivity. Qed.

(** ** The items of a catalog in the registry *)

Lemma zip_ids ids cams : length ids = length cams -> map item_id (zip_with (catalog_item cfg) ids cams) = ids.
Proof. revert cams. induction ids as [|id ids IH]; intros [|cam cams] L; try done. cbn [zip_with map]. f_equal. apply IH. cbn in L. lia. Qed.

Lemma zip_in id cam ids cams : length ids = length cams -> In (id, cam) (combine ids cams) -> In (catalog_item cfg id cam) (zip_with (catalog_item cfg) ids cams).
Proof. revert cams. induction ids as [|i ids IH]; intros [|c cams] L I; try done. cbn in *. destruct I as [[= -> ->]|I]; [by left|right]. apply IH; [lia|done]. Qed.

Lemma held_distinct top rows cams ids : assigned cfg top rows -> NoDup (map cam_ID cams) -> Forall2 (holds rows) cams ids -> NoDup ids.
Proof.
  intros A N F. induction F as [|cam id cams ids (row & I & Ec & Ei) F IH]; [constructor|]. cbn [map] in N. apply list.NoDup_cons in N as [N1 N2].
  constructor; [|by apply IH]. intros E. apply N1. apply list_elem_of_In in E. clear -A F I Ec Ei E.
  induction F as [|c i cams ids (row' & I' & Ec' & Ei') F IH]; [done|]. cbn [map]. destruct E as [-> |E]; [|right; by apply IH].
  rewrite <- Ec. replace (CameraID row) with (cam_ID c); [by left|]. rewrite <- Ec'. pose proof (as_ids _ _ _ A) as Nd. apply NoDup_ListNoDup in Nd.
  rewrite <- Ei' in Ei. clear -Nd I I' Ei. induction rows as [|x rows IH]; [done|]. cbn [map] in Nd. apply NoDup_cons_iff in Nd as [N1 N2].
  destruct I as [-> |I], I' as [-> |I']; [done|destruct N1; rewrite Ei; by apply in_map|destruct N1; rewrite <- Ei; by apply in_map|by apply IH].
Qed.

(** What an upper's registry holds behind a catalog of the cascade. *)
Definition catalog_seen (u : Upstream) (Cameras : list CameraInfo) (db : option D) (before after : DeviceManager) : Prop :=
  let dev := LocalDeviceID u in
  (forall cam, In cam Cameras -> visible (Some u) cam = true -> exists id, length id = 20%nat /\
     cameraOfChannel id db = Some (cam_ID cam) /\ FindChannel dev id after = Some (camera_channel dev id cam (FindChannel dev id before))) /\
  (forall id, id <> dev -> (forall cam, In cam Cameras -> visible (Some u) cam = true -> cameraOfChannel id db <> Some (cam_ID cam)) ->
     FindChannel dev id after = FindChannel dev id before) /\
  (forall other id, other <> dev -> id <> dev -> FindChannel other id after = FindChannel other id before).

Lemma items_seen h u Cameras top d rows ids st : config_ok -> ListCascadeChannels d = Some rows -> assigned cfg top rows -> 0 <= top < 10 ^ 7 ->
  NoDup (map cam_ID Cameras) -> Forall2 (holds rows) (List.filter (visible (Some u)) Cameras) ids ->
  (forall n, serial_ok n -> channel_id cfg n <> LocalDeviceID u) -> known (LocalDeviceID u) (deviceMgr st) ->
  let its := zip_with (catalog_item cfg) ids (List.filter (visible (Some u)) Cameras) in
  catalog_seen u Cameras (Some d) (deviceMgr st) (deviceMgr (fst (mergeCatalogChannels h (LocalDeviceID u) its st))).
Proof.
  intros C L A T N F Ne K its. destruct (mergeCatalogChannels_find h (LocalDeviceID u) its st K) as [_ M].
  assert (Nf : NoDup (map cam_ID (List.filter (visible (Some u)) Cameras))).
  { clear -N. induction Cameras as [|c cams IH]; [done|]. cbn [map List.filter] in *. apply list.NoDup_cons in N as [N1 N2].
    destruct (visible _ c); [|by apply IH]. cbn [map]. constructor; [|by apply IH]. intros E. apply N1. rewrite list_elem_of_In, in_map_iff in *.
    destruct E as (x & E & I). exists x. split; [done|]. by apply filter_In in I as [I _]. }
  pose proof (held_distinct top rows _ ids A Nf F) as Nd. pose proof (list.Forall2_length _ _ _ F) as Len.
  assert (Own : forall id, In id ids -> length id = 20%nat /\ id <> LocalDeviceID u).
  { intros id I. assert (Q : exists cam, holds rows cam id).
    { clear -F I. induction F as [|c i cams ids Hh _ IH]; [done|]. destruct I as [-> |I]; [by exists c|by apply IH]. }
    destruct Q as (cam & row & Ir & _ & <-). pose proof (as_form _ _ _ A) as Fm. rewrite list.Forall_forall in Fm.
    destruct (Fm row) as (n & Rn & ->); [by rewrite list_elem_of_In|]. assert (S : serial_ok n) by (split; lia).
    split; [by apply channel_id_length; [apply C|]|by apply Ne]. }
  split; [|split].
  - intros cam I V. assert (Iv : In cam (List.filter (visible (Some u)) Cameras)) by (by apply filter_In).
    assert (Q : exists id, In (id, cam) (combine ids (List.filter (visible (Some u)) Cameras)) /\ holds rows cam id).
    { clear -F Iv. induction F as [|c i cams ids Hh _ IH]; [done|]. destruct Iv as [-> |Iv]; [exists i; split; [by left|done]|].
      destruct (IH Iv) as (id & I & Hi). exists id. split; [by right|done]. }
    destruct Q as (id & Ic & Hh). destruct (Own id) as [L20 Nid]; [by eapply in_combine_l|]. exists id. split; [done|].
    split; [rewrite (held_camera cfg top d rows) by done; exact Hh|].
    rewrite M, bool_decide_eq_true_2 by done. rewrite (reported_once _ _ its (catalog_item cfg id cam)); [by rewrite item_entry| | |done|done].
    + unfold its. by rewrite zip_ids.
    + by apply zip_in.
  - intros id Nid Nv. rewrite M, bool_decide_eq_true_2 by done. apply reported_none. unfold its. rewrite zip_ids by done. intros I.
    assert (Q : exists cam, In cam (List.filter (visible (Some u)) Cameras) /\ holds rows cam id).
    { clear -F I. induction F as [|c i cams ids Hh _ IH]; [done|]. destruct I as [-> |I]; [exists c; split; [by left|done]|].
      destruct (IH I) as (cam & Ic & Hi). exists cam. split; [by right|done]. }
    destruct Q as (cam & Ic & Hh). apply filter_In in Ic as [Ic V]. apply (Nv cam Ic V). by rewrite (held_camera cfg top d rows).
  - intros other id No Nid. by rewrite M, bool_decide_eq_false_2.
Qed.

(** ** Documents *)

Definition catalog_document (snr : Z) (deviceID : text) (its : list val) : val :=
  VStruct [VString (txt "Catalog"); VInt snr; VString deviceID; VInt (Z.of_nat (length its)); VList its; VString []; VInt 0].

Lemma document_good m snr deviceID its : m = AsCatalog \/ m = AsCatalogNotify -> - 2 ^ 63 <= snr < 2 ^ 63 -> xml_text deviceID ->
  Forall (good ManscdpTypes.Item) its -> Z.of_nat (length its) < 2 ^ 63 -> good (schema m) (catalog_document snr deviceID its).
Proof.
  intros M S I G L. assert (P : xml_text (txt "Catalog")) by (apply plain_xml; by repeat constructor).
  destruct M as [-> | ->]; cbn -[txt ManscdpTypes.Item]; split_and!; try done; try lia; apply xml_nil.
Qed.

Lemma document_merged m snr deviceID its : m = AsCatalog \/ m = AsCatalogNotify -> snr <> 0 ->
  merged m (catalog_document snr deviceID its) = catalog_document snr deviceID its.
Proof. intros M S. unfold merged. destruct M as [-> | ->]; cbn [schema ManscdpTypes.has_aliases]; by apply normalize_id. Qed.

Lemma catalog_handled h now nt from snr deviceID its st : verifyNote h = None -> 0 < snr < 2 ^ 63 -> xml_text deviceID ->
  Forall (good ManscdpTypes.Item) its -> Z.of_nat (length its) < 2 ^ 63 ->
  let r := mergeCatalogChannels h deviceID its st in
  handleMessage h now nt (PlatformMessage.mkRequest from (Encode ManscdpTypes.Catalog (catalog_document snr deviceID its))) st = Some (fst r, snd r ++ [OK]).
Proof.
  intros V S I G L r. pose proof (document_good AsCatalog snr deviceID its (or_introl eq_refl) ltac:(lia) I G L) as Gd.
  pose proof (decode_encoded AsCatalog _ Gd eq_refl) as Dc. rewrite document_merged in Dc by (lia || by left).
  change (schema AsCatalog) with ManscdpTypes.Catalog in Dc. unfold handleMessage. rewrite V. cbn [PlatformMessage.rq_body].
  rewrite bool_decide_eq_false_2 by (intros E; rewrite E in Dc; discriminate Dc). rewrite Dc. reflexivity.
Qed.

(** The prolog of [encoding/xml] is cut like the other one. *)
Lemma header_cut s : stripXMLDecl (xml_Header ++ s) = LF ++ s.
Proof. reflexivity. Qed.

Lemma notify_handled h now from snr deviceID its st : 0 < snr < 2 ^ 63 -> xml_text deviceID ->
  Forall (good ManscdpTypes.Item) its -> Z.of_nat (length its) < 2 ^ 63 ->
  let r := mergeCatalogChannels h deviceID its st in
  handleNotify h now (PlatformMessage.mkRequest from (notify_body snr deviceID its)) st = Some (fst r, snd r ++ [OK]).
Proof.
  intros S I G L r. set (v := catalog_document snr deviceID its).
  pose proof (document_good AsCatalogNotify snr deviceID its (or_intror eq_refl) ltac:(lia) I G L) as Gd. fold v in Gd.
  assert (B : notify_body snr deviceID its = xml_Header ++ Marshal (schema AsCatalogNotify) v) by reflexivity.
  assert (Dc : Decode (notify_body snr deviceID its) = Some (txt "Catalog", AsCatalogNotify, v)).
  { rewrite B. pose proof (decode_tree AsCatalogNotify v (xml_Header ++ Marshal (schema AsCatalogNotify) v) Gd eq_refl) as Dt.
    assert (Mg : merged AsCatalogNotify v = v) by (apply document_merged; [by right|lia]). rewrite Mg in Dt. apply Dt.
    - destruct (probe_message AsCatalogNotify v Gd) as (attrs & cs & p & M & Cl & _). rewrite M.
      exact (printed_utf8 _ Cl).
    - intros n M Cl E. rewrite header_cut, M. by apply root_after_lf. }
  unfold handleNotify. cbn [PlatformMessage.rq_body]. rewrite bool_decide_eq_false_2 by (intros E; rewrite E in Dc; discriminate Dc). rewrite Dc. reflexivity.
Qed.

(** ** The answer of the cascade *)

Definition all_saved : Prop := forall ch (d : D), fst (UpsertCascadeChannel ch d) = true.

(** The cameras that the cascade has, and the store they are assigned in. *)
Record cascade_ok (Cameras : list CameraInfo) (d : D) (top : Z) : Prop := {
  cam_config : config_ok;
  cam_distinct : NoDup (map cam_ID Cameras);
  cam_print : Forall camera_ok Cameras;
  cam_saved : all_saved;
  cam_rows : exists rows, ListCascadeChannels d = Some rows /\ assigned cfg top rows;
  cam_serials : 0 <= top /\ top + Z.of_nat (length Cameras) < 10 ^ 7;
}.

(** The channel IDs of before are those of after. *)
Definition keeps (db db' : option D) : Prop := forall id cam, cameraOfChannel id db = Some cam -> cameraOfChannel id db' = Some cam.

Lemma catalog_for Cameras d top u now : cascade_ok Cameras d top -> exists d' rows ids,
  let its := zip_with (catalog_item cfg) ids (List.filter (visible u) Cameras) in
  catalogItemsFor cfg Cameras u now (Some d) = Returns (its, Some d') /\
  ListCascadeChannels d' = Some rows /\ assigned cfg (top + Z.of_nat (length Cameras)) rows /\ keeps (Some d) (Some d') /\
  Forall2 (holds rows) (List.filter (visible u) Cameras) ids /\ Forall (good ManscdpTypes.Item) its /\ Z.of_nat (length its) < 2 ^ 63.
Proof.
  intros [C N P Sv (rows0 & L0 & A0) [T1 T2]]. destruct (catalog_built cfg u now Sv Cameras top d rows0 L0 A0 T1 N T2) as (d' & rows & ids & E & L & A & Sub & F).
  exists d', rows, ids. cbn zeta. split; [done|]. split; [done|]. split; [done|]. split; [|split; [done|split]].
  - intros id cam. rewrite (held_camera cfg top d rows0), (held_camera cfg _ d' rows) by done. intros (row & I & Ec). exists row. split; [by apply Sub|done].
  - assert (Pf : Forall camera_ok (List.filter (visible u) Cameras)).
    { apply List.Forall_forall. intros c I. apply filter_In in I as [I _]. rewrite list.Forall_forall in P. apply P. by rewrite list_elem_of_In. }
    clear -F Pf C A T1 T2 H0. induction F as [|cam id cams ids (row & I & _ & <-) F IH]; [constructor|]. apply list.Forall_cons in Pf as [Pc Pf].
    constructor; [|by apply IH]. apply item_good; [done|done|]. pose proof (as_form _ _ _ A) as Fm. rewrite list.Forall_forall in Fm.
    destruct (Fm row) as (n & Rn & ->); [by rewrite list_elem_of_In|]. apply plain_xml, channel_id_plain; [done|]. split; lia.
  - rewrite length_zip_with. pose proof (list.Forall2_length _ _ _ F) as Le. pose proof (filter_length_le (visible u) Cameras). lia.
Qed.

Lemma query_decoded snr deviceID : 0 <= snr < 2 ^ 63 -> plain deviceID ->
  Decode (query_body "Catalog" snr deviceID) = Some (txt "Catalog", AsCatalogQuery, VStruct [VString (txt "Catalog"); VInt snr; VString deviceID]).
Proof.
  intros S P. assert (C : plain (txt "Catalog")) by (by repeat constructor). destruct (query_printed "Catalog" snr deviceID C S P) as [_ ->].
  change ManscdpTypes.CatalogQuery with (schema AsCatalogQuery). rewrite decode_marshalled; [done| |done].
  cbn -[txt]. split_and!; try done; try lia; by apply plain_xml.
Qed.

(** ** The catalog from end to end *)

Lemma catalog_value snr deviceID its : literal ManscdpTypes.Catalog [
    ("CmdType", VString ManscdpTypes.CmdCatalog); ("SN", VInt snr); ("DeviceID", VString deviceID);
    ("SumNum", VInt (Z.of_nat (length its))); ("Item", VList its)] = catalog_document snr deviceID its.
Proof. reflexivity. Qed.

Lemma cascade_next Cameras db top db' rows : cascade_ok Cameras db top -> ListCascadeChannels db' = Some rows ->
  assigned cfg (top + Z.of_nat (length Cameras)) rows -> top + 2 * Z.of_nat (length Cameras) < 10 ^ 7 -> cascade_ok Cameras db' (top + Z.of_nat (length Cameras)).
Proof. intros [C N P Sv _ [T1 T2]] L A T. split; [done|done|done|done|by exists rows|lia]. Qed.

(** C36: The catalog of the cascade from end to end. The query of an upper platform is
    answered with one document, which the upper platform accepts; behind it its registry
    has, under a 20-character ID, every camera that the cascade shows to this upper, with
    its name and types and the status it had, and no other channel and no other device
    changes: a hidden camera and one that came from this very upper stay out. The ID leads
    the cascade back to that camera, no two cameras share one, and an ID that a camera had
    before it keeps. The same holds of the document that a subscription gets. *)
Theorem cascade_catalog h now nt nano from st d Cameras u req s db top :
  verifyNote h = None -> plain (LocalDeviceID u) -> devices (deviceMgr st) !! LocalDeviceID u = Some d -> Status d = DeviceOnline ->
  0 < nano mod 100000 -> upperOf (uppers s) req = Some u -> store s = Some db -> cascade_ok Cameras db top -> 0 <= Cascade.sn s < 2 ^ 63 - 1 ->
  (forall n, serial_ok n -> channel_id cfg n <> LocalDeviceID u) ->
  let arrives (s' : Service D) (st' : state) (es : list PlatformMessage.effect) :=
    keeps (store s) (store s') /\ (exists db', store s' = Some db' /\ (top + 2 * Z.of_nat (length Cameras) < 10 ^ 7 -> cascade_ok Cameras db' (top + Z.of_nat (length Cameras)))) /\
    Forall accepted es /\ catalog_seen u Cameras (store s') (deviceMgr st) (deviceMgr st') in
  exists body, requestCatalog nano (LocalDeviceID u) st = Some (SendMessage (LocalDeviceID u) body) /\
  (rq_body req = body -> exists doc s', onMessage cfg Cameras now req s = Returns ([Cascade.Respond 200 (txt "OK") None; Message u doc], s') /\
    exists st' es, handleMessage h 0 nt (PlatformMessage.mkRequest from doc) st = Some (st', es) /\ arrives s' st' es) /\
  (forall sub, sub_upper sub = Some u -> exists doc s', sendCatalogNotify cfg Cameras now sub s = Returns ([Notify sub doc], s') /\
    exists st' es, handleNotify h 0 (PlatformMessage.mkRequest from doc) st = Some (st', es) /\ arrives s' st' es).
Proof.
  intros V P Hd On Nz U Sd Ok Sn Ne arrives. eexists. split; [by apply (requested nano _ st d)|].
  assert (Rn : 0 < nano mod 100000 < 2 ^ 63) by (pose proof (Z.mod_pos_bound nano 100000); lia). set (snr := nano mod 100000) in *.
  destruct (catalog_for Cameras db top (Some u) now Ok) as (db' & rows & ids & E & L & A & K & F & G & Len). set (its := zip_with _ _ _) in *.
  destruct (cam_serials _ _ _ Ok) as [T1 T2]. assert (Kn : known (LocalDeviceID u) (deviceMgr st)) by (by eexists).
  pose proof (items_seen h u Cameras _ db' rows ids st (cam_config _ _ _ Ok) L A ltac:(lia) (cam_distinct _ _ _ Ok) F Ne Kn) as Seen. fold its in Seen.
  set (r := mergeCatalogChannels h (LocalDeviceID u) its st) in *.
  assert (Arr : forall s', store s' = Some db' -> arrives s' (fst r) (snd r ++ [OK])).
  { intros s' Es. unfold arrives. rewrite Es, Sd. split; [done|]. split; [exists db'; split; [done|]; by apply (cascade_next Cameras db top db' rows)|].
    split; [|done]. apply Forall_app. split; [apply merge_accepted|by constructor]. }
  split.
  - intros B. set (doc := Encode ManscdpTypes.Catalog (catalog_document snr (LocalDeviceID u) its)). exists doc, (s <| store := Some db' |>). split.
    + unfold onMessage. rewrite B, query_decoded by (lia || done). rewrite (bool_decide_eq_true_2 (txt "Catalog" = _)) by done.
      change (get_int ManscdpTypes.CatalogQuery "SN" _) with snr. rewrite bool_decide_eq_true_2, (proj2 (Z.ltb_lt 0 snr)) by (done || lia).
      cbn [andb]. rewrite U, Sd. unfold answerCatalog. rewrite E. reflexivity.
    + exists (fst r), (snd r ++ [OK]). split; [|by apply Arr]. apply catalog_handled; [done|lia|by apply plain_xml|done|done].
  - intros sub Su. set (n := s64 (Cascade.sn s + 1)). assert (En : n = Cascade.sn s + 1) by (unfold n; rewrite s64_small; lia).
    exists (notify_body n (LocalDeviceID u) its), (s <| store := Some db' |> <| Cascade.sn := n |>). split.
    + unfold sendCatalogNotify. rewrite Su, Sd, E. reflexivity.
    + exists (fst r), (snd r ++ [OK]). split; [|by apply Arr]. apply notify_handled; [lia|by apply plain_xml|done|done].
Qed.

(** ** Recordings *)

Lemma record_pages_concat n its : (length its <= n)%nat -> concat (record_pages n its) = its /\
  Forall (fun p => (0 < length p <= recordPageSize)%nat) (record_pages n its).
Proof.
  revert its. induction n as [|n IH]; intros [|x its] L; cbn [length] in L; try (split; [done|constructor]; fail); [lia|].
  cbn [record_pages concat]. destruct (IH (drop recordPageSize (x :: its))) as [C F]; [rewrite length_drop; cbn; lia|].
  split; [by rewrite C, take_drop|]. constructor; [|done]. rewrite length_take. cbn [length]. unfold recordPageSize. lia.
Qed.

Lemma paged_spec its : concat (paged its) = its /\ Forall (fun p => (length p <= recordPageSize)%nat) (paged its) /\ (its <> [] -> Forall (fun p => p <> []) (paged its)).
Proof.
  destruct its as [|x its]; [split; [done|split; [constructor; [cbn; lia|constructor]|done]]|].
  destruct (record_pages_concat (length (x :: its)) (x :: its) ltac:(lia)) as [C F]. split; [done|].
  split; [|intros _]; (eapply list.Forall_impl; [exact F|]); intros p L; cbn beta in L; [lia|]. intros ->. cbn in L. lia.
Qed.

Lemma all_accepted u bodies : until_refused (fun _ => true) u bodies = map (Message u) bodies.
Proof. induction bodies as [|b bodies IH]; [done|]. cbn. by rewrite IH. Qed.

(** Only an unanswered page keeps the later ones back. *)
Lemma some_accepted accepts u bodies : exists k, until_refused accepts u bodies = map (Message u) (take k bodies).
Proof.
  induction bodies as [|b bodies [k IH]]; [by exists 0%nat|]. cbn. destruct (accepts b); [exists (S k); cbn; by rewrite IH|by exists 1%nat].
Qed.

Lemma record_page_read snr channelID name n page : 0 < snr < 2 ^ 63 -> xml_text channelID -> xml_text name -> 0 <= n < 2 ^ 63 ->
  Forall (good ManscdpTypes.RecordItem) page ->
  is_page snr channelID n page (Encode ManscdpTypes.RecordInfo (record_info snr channelID name n page)).
Proof.
  intros S C N R G. set (v := record_info snr channelID name n page). exists v. split; [|done].
  assert (Gd : good (schema AsRecordInfo) v).
  { assert (P : xml_text (txt "RecordInfo")) by (apply plain_xml; by repeat constructor).
    cbn -[txt ManscdpTypes.RecordItem]. split_and!; try done; try lia; apply xml_nil. }
  pose proof (decode_encoded AsRecordInfo v Gd eq_refl) as Dc.
  assert (Mg : merged AsRecordInfo v = v).
  { unfold merged. cbn [schema ManscdpTypes.has_aliases]. apply normalize_id; [done|]. change (snr <> 0). lia. }
  rewrite Mg in Dc. exact Dc.
Qed.

(** The name of the recordings of a channel. *)
Definition channel_name (Cameras : list CameraInfo) (cameraID channelID : text) : text :=
  match cameraInfo Cameras cameraID with Some cam => orDefault (cam_Name cam) channelID | None => channelID end.

(** C37: Recordings of a camera of the cascade from end to end. The query of an upper
    platform for a channel of the cascade is acknowledged and looked up, for the camera
    behind the channel and the range that was asked for, cut to 31 days; the answer is
    one document per page, the pages of at most forty being together what the store
    listed. In whatever order the documents arrive, the platform's query is done
    with the last of them and not before, and holds what the store listed, each recording
    once; a range without a recording leaves it undone until its timeout. *)
Theorem cascade_records h nt from st q snr d Cameras u req now s db channelID cameraID start end_ a b recs :
  verifyNote h = None -> devices (deviceMgr st) !! LocalDeviceID u = Some d -> Status d = DeviceOnline -> 0 < snr < 2 ^ 63 ->
  xml_text channelID -> xml_text start -> xml_text end_ -> upperOf (uppers s) req = Some u ->
  store s = Some db -> cameraOfChannel channelID (Some db) = Some cameraID -> ParseLocal start = Some a -> ParseLocal end_ = Some b -> a < b ->
  ListRecordings (mkRecordingFilter cameraID a (if max_window <? b - a then a + max_window else b) 2000 (txt "started_at") (txt "asc")) db = Some recs ->
  let name := channel_name Cameras cameraID channelID in
  let its := map (record_item channelID name) recs in
  xml_text name -> Forall (good ManscdpTypes.RecordItem) its -> Z.of_nat (length its) < 2 ^ 63 ->
  exists st1 body, start_query q snr (LocalDeviceID u) channelID start end_ st = Some (st1, [SendMessage (LocalDeviceID u) body]) /\ (rq_body req = body ->
    exists query docs, onMessage cfg Cameras now req s = Returns ([Cascade.Respond 200 (txt "OK") None; GoRecordInfo (Some u) query], s) /\
      answerRecordInfo Cameras (fun _ => true) u query (store s) = map (Message u) docs /\
      (exists pgs, concat pgs = its /\ Forall (fun p => (length p <= 40)%nat) pgs /\
        docs = map (fun p => Encode ManscdpTypes.RecordInfo (record_info snr channelID name (Z.of_nat (length its)) p)) pgs) /\
      forall arrived, Permutation arrived docs ->
      (exists st2 es, deliver h 0 nt from arrived st1 = Some (st2, es) /\ Forall accepted es /\
        q_done <$> queries st2 !! q = Some (negb (bool_decide (its = []))) /\ Permutation (snd (end_query q snr (LocalDeviceID u) channelID st2)) its) /\
      forall k, (k < length arrived)%nat ->
        exists st2 es, deliver h 0 nt from (take k arrived) st1 = Some (st2, es) /\ q_done <$> queries st2 !! q = Some false).
Proof.
  intros V Hd On Sn Cx Sx Ex U Sd Ch Pa Pb Ab Lr name its Nx G Ln. unfold start_query. rewrite Hd, (proj2 (Z.eqb_eq _ _) On). eexists _, _. split; [reflexivity|].
  set (st1 := _ <| recordQueries := _ |>). intros B.
  destruct (record_query_good snr channelID start end_ ltac:(lia) Cx Sx Ex) as [_ Gq]. set (v := record_query snr channelID start end_) in *.
  assert (Dc : Decode (rq_body req) = Some (txt "RecordInfo", AsRecordInfoQuery, v)).
  { rewrite B. change ManscdpTypes.RecordInfoQuery with (schema AsRecordInfoQuery). by rewrite decode_encoded. }
  set (doc := fun page => Encode ManscdpTypes.RecordInfo (record_info snr channelID name (Z.of_nat (length its)) page)).
  exists v, (map doc (paged its)). destruct (paged_spec its) as (Cc & Cl & Cn). split; [|split; [|split; [by exists (paged its)|]]].
  - unfold onMessage. rewrite Dc, U. rewrite (bool_decide_eq_false_2 (txt "RecordInfo" = ManscdpTypes.CmdCatalog)) by done.
    rewrite (bool_decide_eq_false_2 (txt "RecordInfo" = ManscdpTypes.CmdDeviceInfo)) by done. rewrite !bool_decide_eq_true_2 by done.
    change (get_int ManscdpTypes.RecordInfoQuery "SN" v) with snr. by rewrite (proj2 (Z.ltb_lt 0 snr)) by lia.
  - unfold answerRecordInfo, record_range. change (get_string ManscdpTypes.RecordInfoQuery "DeviceID" v) with channelID.
    change (get_string ManscdpTypes.RecordInfoQuery "StartTime" v) with start. change (get_string ManscdpTypes.RecordInfoQuery "EndTime" v) with end_.
    rewrite Sd, Ch, Pa, Pb. cbn [mbind option_bind]. rewrite (proj2 (Z.leb_gt b a)) by lia. rewrite Lr. by rewrite all_accepted.
  - apply (collected (fun p => p) doc); [done|by rewrite map_id|done| |by apply lookup_insert_eq|by apply lookup_insert_eq].
    apply list.Forall_forall. intros p Hp. apply record_page_read; [done|done|done|lia|].
    apply list.Forall_forall. intros it Hi. rewrite list.Forall_forall in G. apply G. rewrite <- Cc, list_elem_of_In. apply in_concat.
    exists p. by rewrite <- !list_elem_of_In.
Qed.

(** ** Controls *)

(** What the cascade makes of an instruction. Moves are what they were meant to be and the
    lens and the switches are left alone; presets and cruises, which are no directions,
    are read as directions all the same: the low bits of their codes name one. *)
Definition forwarded (q : ptz_request) : option (text * Z) :=
  match q with
  | ReqMove d s => Some (txt d, if bool_decide (d = DirStop) then 0 else s)
  | ReqPreset a p => Some (if bool_decide (a = "set"%string) then txt DirRight else txt DirLeft, p)
  | ReqCruise a g v =>
      Some (if bool_decide (a = "add-point"%string) then txt DirDown else if bool_decide (a = "del-point"%string) then txt DirDownRight
            else if bool_decide (a = "start"%string) then txt DirUp else txt DirDownLeft, Z.max g v)
  | ReqLens _ _ | ReqAux _ _ => None
  end.

(** The largest speed of an instruction. *)
Lemma top_speed a b c : 0 <= a -> 0 <= b -> 0 <= c -> fold_left (fun m b => if m <? b then b else m) [a; b; c] 0 = Z.max a (Z.max b c).
Proof. intros A B C. cbn [fold_left]. destruct (Z.ltb_spec 0 a), (Z.ltb_spec a b), (Z.ltb_spec 0 b); try lia; repeat (match goal with |- context [?x <? ?y] => destruct (Z.ltb_spec x y) end); lia. Qed.

Definition decoded_as_move (q : ptz_request) (cmd : list Z) : Prop :=
  match forwarded q with
  | Some r => lensCmdKind (ptzCmdString cmd) = [] /\ decodePTZCmd (ptzCmdString cmd) = Some r
  | None => lensCmdKind (ptzCmdString cmd) <> []
  end.

(** Both readers on a frame: they look at the code and at the largest speed. *)
Definition lens_of (code : Z) : text :=
  if Z.land code 0xF0 =? 0x40 then txt "FI lens" else if (code =? 0x8C) || (code =? 0x8D) then txt "aux switch" else [].

Definition direction_of (code speed : Z) : option (text * Z) :=
  let bit n := negb (Z.land code n =? 0) in
  if code =? 0x00 then Some (txt "stop", 0) else if code =? 0x10 then Some (txt "zoom-in", speed) else if code =? 0x20 then Some (txt "zoom-out", speed)
  else if Z.land code 0x0F =? 0 then None
  else let dir := TrimSuffix ((if bit 0x08 then txt "up-" else if bit 0x04 then txt "down-" else [])
                              ++ (if bit 0x02 then txt "left" else if bit 0x01 then txt "right" else [])) (txt "-") in
       if bool_decide (dir = []) then None else Some (dir, speed).

Lemma frame_read code a b c : is_byte code -> is_byte a -> is_byte b -> is_byte c ->
  let hex := ptzCmdString (finishPTZCommand [0xA5; 0x0F; 0x01; code; a; b; c]) in
  lensCmdKind hex = lens_of code /\ decodePTZCmd hex = direction_of code (Z.max a (Z.max b c)).
Proof.
  intros Bk Ba Bb Bc hex. set (cmd := finishPTZCommand _) in *.
  assert (B : bytes_ok cmd) by (apply bytes_ok_app; split; [|constructor; [apply checksum_byte|constructor]]; do 7 (constructor; [first [assumption|unfold is_byte; lia]|]); constructor).
  assert (R : ptz_raw hex = Some cmd).
  { unfold ptz_raw, hex. rewrite TrimSpace_id by (by apply printable_hex). unfold ptzCmdString. by rewrite hex_decode_upper. }
  unfold lensCmdKind, decodePTZCmd. rewrite R. unfold is_byte in *. split; [done|]. unfold cmd, finishPTZCommand. cbn [app take].
  rewrite top_speed by lia. done.
Qed.

(** Tests on the words of a request, which are constants. *)
Ltac decide_words :=
  repeat match goal with |- context [bool_decide ?P] => let r := eval vm_compute in (bool_decide P) in
    match r with true => change (bool_decide P) with true | false => change (bool_decide P) with false end end; cbn [orb andb].

Ltac by_code := try match goal with on : bool |- _ => destruct on end; split; vm_compute; first [discriminate|reflexivity].

Ltac read_frame :=
  decide_words; match goal with |- context [finishPTZCommand [_; _; _; ?code; ?x; ?y; ?z]] =>
    let F1 := fresh "F" in let F2 := fresh "F" in
    destruct (frame_read code x y z) as [F1 F2];
      [by_code|cbn; unfold is_byte in *; lia..|
       rewrite ?F1, ?F2]
  end.

Lemma request_read q cmd : request_ok q -> build q = Some cmd ->
  match forwarded q with
  | Some r => lensCmdKind (ptzCmdString cmd) = [] /\ decodePTZCmd (ptzCmdString cmd) = Some r
  | None => lensCmdKind (ptzCmdString cmd) <> []
  end.
Proof.
  destruct q as [d s|a p|a g v|a s|n on]; cbn [build request_ok forwarded]; intros Hok Hb.
  - unfold BuildPTZCommand in Hb. destruct (ptzCommandCodes !! d) as [bits|] eqn:E; [|done]. cbn [mbind option_bind] in Hb. injection Hb as <-.
    apply elem_of_list_to_map_2, list_elem_of_In in E. cbn [In] in E. unfold is_byte in Hok.
    repeat match type of E with _ \/ _ => destruct E as [E|E] end; [..|done]; injection E as <- <-; read_frame; (split; [done|]; cbn; repeat f_equal; lia).
  - unfold BuildPTZPresetCommand in Hb. destruct (p =? 0); [done|]. unfold preset_code in Hb. unfold is_byte in Hok.
    repeat match type of Hb with context [bool_decide (a = ?x)] => destruct (bool_decide_reflect (a = x)) as [-> |?] end; try done;
      injection Hb as <-; read_frame; (split; [done|]; cbn; repeat f_equal; lia).
  - unfold BuildPTZCruiseCommand in Hb. destruct (g =? 0); [done|]. unfold cruise_code in Hb. destruct Hok as [Hg Hv].
    repeat match type of Hb with context [bool_decide (a = ?x)] => destruct (bool_decide_reflect (a = x)) as [-> |?] end; try done;
      injection Hb as <-; read_frame; (unfold is_byte in *; split; [done|]; cbn; repeat f_equal; lia).
  - unfold BuildFICommand in Hb. destruct (fiActionBits !! a) as [bits|] eqn:E; [|done]. cbn [mbind option_bind] in Hb. injection Hb as <-.
    apply elem_of_list_to_map_2, list_elem_of_In in E. cbn [In] in E.
    repeat match type of E with _ \/ _ => destruct E as [E|E] end; [..|done]; injection E as <- <-; read_frame; done.
  - unfold BuildAuxSwitchCommand in Hb. destruct (n =? 0); [done|]. injection Hb as <-. read_frame. by destruct on.
Qed.

(** C38: Controls of an upper platform. What its controller sends for a channel of the
    cascade is acknowledged and handed to the forwarder of the camera behind the channel: a
    move in any of the eleven directions is the same direction at the same speed, the lens
    and the switches are left alone, and an unknown channel moves nothing. A preset or a
    cruise, which the code does not mean to forward, moves the camera, in the direction
    that the low bits of its code name and at the speed of its number. *)
Theorem cascade_ptz SendMessage Cameras channelID q (c : PTZController) : request_ok (effective q) ->
  (forall ch dev, locateChannel channelID c = Some (ch, dev) -> plain (ch_ID ch)) ->
  let r := send_request SendMessage channelID q c in
  (sent (snd r) = sent c /\ fst r <> None) \/
  exists ch dev body, locateChannel channelID c = Some (ch, dev) /\ Status dev = DeviceOnline /\ sent (snd r) = sent c ++ [(ch_DeviceID ch, body)] /\
    forall now req s, rq_body req = body -> exists dc,
      onMessage cfg Cameras now req s = Returns ([Cascade.Respond 200 (txt "OK") None; GoDeviceControl dc], s) /\
      forwardDeviceControl true dc (store s) =
        match cameraOfChannel (ch_ID ch) (store s), forwarded (effective q) with
        | Some cameraID, Some (direction, speed) => [ForwardPTZ cameraID direction speed]
        | _, _ => []
        end.
Proof.
  intros R P r. pose proof (send_request_cases SendMessage channelID q c) as S. cbv zeta in S. fold r in S. destruct r as [err c'].
  cbn [fst snd] in *. destruct S as [(e & [= -> ->] & _)|(ch & dev & cmd & L & On & _ & B & Sq & _ & St & _)]; [by left|].
  right. exists ch, dev, (ptz_body (PtzControl.seq c') (ch_ID ch) cmd). split; [done|]. split; [done|]. split; [done|]. intros now req s Eb.
  destruct (built_bytes _ cmd R B) as [Cb Nc]. destruct (ptz_decoded (PtzControl.seq c') (ch_ID ch) cmd Cb Nc) as [Dc _]; [rewrite Sq; apply s64_range|by eapply P|].
  set (dc := control _ _ _) in *. exists dc. rewrite <- Eb in Dc. split.
  - unfold onMessage. rewrite Dc. rewrite (bool_decide_eq_false_2 (ManscdpTypes.CmdDeviceControl = ManscdpTypes.CmdCatalog)) by done.
    rewrite (bool_decide_eq_false_2 (ManscdpTypes.CmdDeviceControl = ManscdpTypes.CmdDeviceInfo)) by done.
    rewrite (bool_decide_eq_false_2 (ManscdpTypes.CmdDeviceControl = ManscdpTypes.CmdRecordInfo)) by done. by rewrite !bool_decide_eq_true_2.
  - unfold forwardDeviceControl. change (get_string ManscdpTypes.DeviceControl "PTZCmd" dc) with (ptzCmdString cmd).
    change (get_string ManscdpTypes.DeviceControl "DeviceID" dc) with (ch_ID ch). rewrite bool_decide_eq_false_2 by (by destruct cmd).
    pose proof (request_read _ cmd R B) as F. destruct (cameraOfChannel (ch_ID ch) (store s)) as [cam|]; [|done].
    destruct (forwarded (effective q)) as [[dir speed]|].
    + destruct F as [F1 F2]. rewrite F1, F2. by rewrite bool_decide_eq_true_2.
    + by rewrite bool_decide_eq_false_2.
Qed.

(** ** Queries for the device *)

(** The queries that follow a registration: the answers' types have a Response root, so
    that a query under its own root does not decode. *)
Theorem details_refused Cameras now req s cmd snr deviceID : In cmd ["DeviceInfo"; "DeviceStatus"]%string -> 0 <= snr < 2 ^ 63 -> plain deviceID ->
  rq_body req = query_body cmd snr deviceID ->
  onMessage cfg Cameras now req s = Returns ([Cascade.Respond 400 (txt "Bad MANSCDP") None], s).
Proof.
  intros I R P B. assert (C : plain (txt cmd)) by (destruct I as [<- |[<- |[]]]; by repeat constructor).
  assert (N : Decode (rq_body req) = None); [|by unfold onMessage; rewrite N].
  rewrite B. destruct (query_printed cmd snr deviceID C R P) as [_ E]. set (v := VStruct [VString (txt cmd); VInt snr; VString deviceID]) in *.
  assert (G : good ManscdpTypes.CatalogQuery v) by (cbn -[txt]; split_and!; try done; try lia; by apply plain_xml).
  destruct (marshalled (txt "Query") (fields_of ManscdpTypes.CatalogQuery) v eq_refl G) as (attrs & cs & A & Cs & M & Cl & _).
  change (TStruct (Some (txt "Query")) (fields_of ManscdpTypes.CatalogQuery)) with ManscdpTypes.CatalogQuery in M.
  assert (Rt : root (stripXMLDecl (Marshal ManscdpTypes.CatalogQuery v)) = Some (Elem (txt "Query") attrs cs)).
  { rewrite M, strip_printed by done. pose proof (root_printed _ _ _ [] Cl) as Rt. by rewrite app_nil_r in Rt. }
  assert (Vd : utf8_Valid (Marshal ManscdpTypes.CatalogQuery v) = true) by (by rewrite M; apply printed_utf8).
  assert (Tc : tree_command attrs cs = txt cmd) by (rewrite A, Cs; by destruct I as [<- |[<- |[]]]).
  assert (Once : decodeOnce (Marshal ManscdpTypes.CatalogQuery v) = None).
  { unfold decodeOnce. rewrite Rt. cbn [mbind option_bind]. destruct (unmarshal probe (zero probe) (Elem (txt "Query") attrs cs)) as [p|] eqn:Pr; [|done].
    cbn [mbind option_bind]. rewrite (probe_command _ attrs cs p Pr), Tc. rewrite bool_decide_eq_false_2 by (by destruct I as [<- |[<- |[]]]).
    cbn [node_name]. assert (Da : exists m, decode_as (txt cmd) (txt "Query") = Some m /\ label (schema m) = Some (txt "Response")).
    { destruct I as [<- |[<- |[]]]; by eexists. }
    destruct Da as (m & -> & Lb). cbn [mbind option_bind]. unfold unmarshalAs, Unmarshal. rewrite Rt. cbn [mbind option_bind].
    destruct (schema m) as [| | | | | |xn fs]; try done. cbn [label] in Lb. subst xn. cbn [unmarshal name_fits]. by rewrite bool_decide_eq_false_2. }
  rewrite E. unfold Decode, CharsetDecode. rewrite Vd, Once. cbn [mbind option_bind]. done.
Qed.

End Exchange.

(** ** A cascade with two cameras *)

Definition demo_id : text := txt "34020000002000000001".
Definition demo_upper : Upstream := demo_upstream (txt "3401").
Definition demo_service : Service list_store :=
  mkService (buildUppers demo_cascade) (Some ([mkCascadeChannel (txt "hall") (channel_id demo_cascade 7) (txt "hall") 0], [])) 0 ∅.
Definition demo_registry : state := mkState (mkDeviceManager {[demo_id := mkDevice demo_id [] [] [] [] [] DeviceOnline ∅ 0]} 180 30) ∅ ∅ ∅ ∅ ∅.
Definition demo_cascade_request (body : text) : Cascade.request :=
  Cascade.mkRequest (txt "MESSAGE") (Some (txt "3401", txt "<sip:3401@a>")) None None None None (fun _ => []) body.

Lemma demo_config_ok : @config_ok demo_cascade.
Proof. split; [vm_compute; lia|repeat constructor|apply plain_xml; repeat constructor..]. Qed.

Lemma demo_saved : @all_saved list_store _.
Proof. by intros ch [rows recs]. Qed.

Lemma demo_cascade_ok : cascade_ok demo_cascade demo_cameras ([mkCascadeChannel (txt "hall") (channel_id demo_cascade 7) (txt "hall") 0], []) 7.
Proof.
  split.
  - exact demo_config_ok.
  - apply (bool_decide_unpack _). vm_compute. exact I.
  - repeat (apply List.Forall_cons; [split; [apply plain_xml; by repeat constructor|split; [apply xml_nil|split; [apply xml_nil|done]]]|]). apply List.Forall_nil.
  - exact demo_saved.
  - eexists. split; [reflexivity|]. split; [apply (bool_decide_unpack _); vm_compute; exact I..|].
    apply List.Forall_cons; [|apply List.Forall_nil]. exists 7. split; [lia|done].
  - cbn. lia.
Qed.

Lemma demo_no_channel n : serial_ok n -> channel_id demo_cascade n <> demo_id.
Proof. intros N E. apply (f_equal (take 13)) in E. unfold channel_id in E. change 13%nat with (length (prefix demo_cascade)) in E. rewrite take_app_length in E. discriminate E. Qed.

Lemma cascade_catalog_witness :
  let req := demo_cascade_request (query_body "Catalog" 42 demo_id) in
  exists doc s' st' es,
    onMessage (D := list_store) (H0 := demo_xml) (H1 := demo_charsets) demo_cascade demo_cameras 5 req demo_service = Returns ([Cascade.Respond 200 (txt "OK") None; Message demo_upper doc], s') /\
    @handleMessage demo_xml demo_charsets demo_host 0 [] (PlatformMessage.mkRequest None doc) demo_registry = Some (st', es) /\
    ch_Name <$> FindChannel demo_id (channel_id demo_cascade 7) (deviceMgr st') = Some (txt "hall") /\
    FindChannel demo_id (channel_id demo_cascade 8) (deviceMgr st') = None.
Proof.
  destruct (@cascade_catalog demo_xml demo_floats demo_charsets list_store _ _ demo_cascade demo_host 5 [] 42 None demo_registry
    (mkDevice demo_id [] [] [] [] [] DeviceOnline ∅ 0) demo_cameras demo_upper (demo_cascade_request (query_body "Catalog" 42 demo_id)) demo_service
    ([mkCascadeChannel (txt "hall") (channel_id demo_cascade 7) (txt "hall") 0], []) 7) as (body & B & K & _).
  1-4: first [reflexivity|repeat constructor].
  - reflexivity.
  - reflexivity.
  - reflexivity.
  - exact demo_cascade_ok.
  - vm_compute. split; [discriminate|reflexivity].
  - exact demo_no_channel.
  - injection B as <-. destruct (K eq_refl) as (doc & s' & E & st' & es & Hd & Kp & (db' & Es & _) & _ & S1 & S2 & _).
    exists doc, s', st', es. split; [exact E|]. split; [exact Hd|]. change (LocalDeviceID demo_upper) with demo_id in S1, S2.
    pose proof E as E'. vm_compute in E'. injection E' as _ <-.
    split.
    + destruct (S1 (demo_camera "hall" [])) as (id & _ & Ci & F); [right; by left|reflexivity|].
      assert (id = channel_id demo_cascade 7) as ->; [|rewrite F; reflexivity].
      revert Ci. cbn. case_bool_decide as C; [intros _; symmetry; exact C|discriminate].
    + rewrite S2; [reflexivity|discriminate|]. intros cam [<- |[<- |[]]] Vs; [discriminate Vs|vm_compute; discriminate].
Defined.

Definition demo_recording (n : Z) : Recording := mkRecording (txt "hall") (txt "/rec/" ++ Itoa n) (txt "h264") (n * 1000) (n * 1000 + 500).
Definition demo_recorded : list_store := ([mkCascadeChannel (txt "hall") (channel_id demo_cascade 7) (txt "hall") 0], map demo_recording [10; 11; 12]).
Definition demo_seconds : LocalTime := {| ParseLocal := fun s => n ← Atoi (drop 17 s); Some (n * 1000); FormatLocal := fun ms => txt "2024-01-01T00:00:" ++ Itoa (ms / 1000) |}.
Definition demo_range (n : string) : text := txt "2024-01-01T00:00:" ++ txt n.

Lemma cascade_records_witness :
  exists st1 query docs st2 es,
    @start_query demo_xml 0 9 demo_id (channel_id demo_cascade 7) (demo_range "10") (demo_range "30") demo_registry = Some (st1, [SendMessage demo_id (@record_body demo_xml 9 (channel_id demo_cascade 7) (demo_range "10") (demo_range "30"))]) /\
    @answerRecordInfo _ _ demo_cameras demo_xml demo_seconds (fun _ => true) demo_upper query (Some demo_recorded) = map (Message demo_upper) docs /\
    @deliver demo_xml demo_charsets demo_host 0 [] None docs st1 = Some (st2, es) /\ q_done <$> queries st2 !! 0%nat = Some true /\
    length (snd (end_query 0 9 demo_id (channel_id demo_cascade 7) st2)) = 3%nat.
Proof.
  destruct (@cascade_records demo_xml demo_floats demo_charsets demo_seconds list_store _ demo_cascade demo_host [] None demo_registry 0 9
    (mkDevice demo_id [] [] [] [] [] DeviceOnline ∅ 0) demo_cameras demo_upper
    (demo_cascade_request (@record_body demo_xml 9 (channel_id demo_cascade 7) (demo_range "10") (demo_range "30"))) 0 (demo_service <| store := Some demo_recorded |>) demo_recorded
    (channel_id demo_cascade 7) (txt "hall") (demo_range "10") (demo_range "30") 10000 30000 (map demo_recording [10; 11; 12])) as (st1 & body & Sq & K).
  1-3: reflexivity.
  1: split; reflexivity.
  1-3: split; [vm_compute; repeat constructor; discriminate|reflexivity].
  1-7: reflexivity.
  - apply plain_xml. repeat constructor.
  - repeat (apply List.Forall_cons; [vm_compute; repeat split; try discriminate; repeat constructor; try discriminate|]). apply List.Forall_nil.
  - reflexivity.
  - pose proof (f_equal (fun o => match o with Some (_, [SendMessage _ b]) => b | _ => [] end) Sq) as Eb.
    change (@record_body demo_xml 9 (channel_id demo_cascade 7) (demo_range "10") (demo_range "30") = body) in Eb. subst body.
    destruct (K eq_refl) as (query & docs & _ & An & _ & F). destruct (F _ (Permutation_refl _)) as [(st2 & es & E & _ & Dn & P) _].
    exists st1, query, docs, st2, es. split; [exact Sq|]. split; [exact An|]. split; [exact E|]. split; [exact Dn|].
    apply Permutation_length in P. exact P.
Defined.

Definition demo_cascade_controller : PTZController :=
  NewPTZController (RegisterChannel demo_id (mkChannel [] (channel_id demo_cascade 7) [] 0 0 3 0 false 0 false) (Register 5 (mkDevice demo_id [] [] [] [] [] DeviceOnline ∅ 0) (NewDeviceManager 0))).

(** A preset that the upper platform calls moves the camera. *)
Lemma cascade_ptz_witness :
  exists body dc, sent (snd (send_request (fun _ _ => true) (channel_id demo_cascade 7) (ReqPreset "call" 3) demo_cascade_controller)) = [(demo_id, body)] /\
    onMessage (H0 := demo_xml) (H1 := demo_charsets) demo_cascade demo_cameras 0 (demo_cascade_request body) demo_service = Returns ([Cascade.Respond 200 (txt "OK") None; GoDeviceControl dc], demo_service) /\
    forwardDeviceControl true dc (store demo_service) = [ForwardPTZ (txt "hall") (txt "left") 3].
Proof.
  destruct (@cascade_ptz demo_xml demo_floats demo_charsets list_store _ demo_cascade (fun _ _ => true) demo_cameras (channel_id demo_cascade 7) (ReqPreset "call" 3)
    demo_cascade_controller) as [[Eq _]|(ch & dev & body & L & _ & Sn & K)].
  - vm_compute. split; [discriminate|reflexivity].
  - intros ch dev L. vm_compute in L. injection L as <- _. repeat constructor.
  - vm_compute in Eq. discriminate Eq.
  - vm_compute in L. injection L as <- _. destruct (K 0 (demo_cascade_request body) demo_service eq_refl) as (dc & M & F).
    exists body, dc. split; [exact Sn|]. split; [exact M|]. rewrite F. reflexivity.
Defined.

Lemma details_refused_witness :
  onMessage (H0 := demo_xml) (H1 := demo_charsets) demo_cascade demo_cameras 0 (demo_cascade_request (query_body "DeviceInfo" 42 demo_id)) demo_service =
    Returns ([Cascade.Respond 400 (txt "Bad MANSCDP") None], demo_service).
Proof.
  apply (@details_refused demo_xml demo_floats demo_charsets list_store _ demo_cascade demo_cameras 0 _ demo_service "DeviceInfo" 42 demo_id).
  - by left.
  - lia.
  - repeat constructor.
  - reflexivity.
Defined.
