(* ===== verification/CascadeMedia.v ===== *)
(** Live forwarding of the cascade ([platform/cascade/media.go]): the offer of an upper
    platform, the callbacks that turn the frames of a hub into packets, the INVITE with
    its table of sessions, and a session from its goroutine to its close, step by step. *)

From S2P Require Import Prelude GoStrings GoText NalUtil PsMux Receiver RtpSend.
From S2P Require Import Cascade.
From S2P Require SipMsg Sdp.
Import Mux(Muxer, SetVideoCodec, SetAudioCodec).
Import SipMsg (EqualFold).
Import Sdp (SDPSecurityAttributeValue).
#[local] Open Scope string_scope.
#[local] Open Scope list_scope.
Open Scope Z_scope.

(** ** The offer *)

Record inviteSDP := mkInviteSDP {
  sd_host : text; sd_port : Z; sd_tcp : bool; sd_ssrc : Z; sd_name : text; sd_t0 : Z; sd_t1 : Z; sd_hasT : bool; rawT0 : text; rawT1 : text;
}.

#[export] Instance eta_inviteSDP : Eta inviteSDP := fun s =>
  mkInviteSDP (sd_host s) (sd_port s) (sd_tcp s) (sd_ssrc s) (sd_name s) (sd_t0 s) (sd_t1 s) (sd_hasT s) (rawT0 s) (rawT1 s).

Definition ntpEpochDelta : Z := 2208988800.

Definition sdpToUnix (v : Z) : Z := if 3000000000 <=? v then v - ntpEpochDelta else v.

(** The value that [ParseUint] and [Atoi] return next to their error, which the code
    drops: the bound once a number passes it, 0 at a byte that is no digit. *)
Fixpoint uint_value (bound acc : Z) (s : text) : Z :=
  match s with
  | [] => acc
  | b :: r => if is_digit b then let n := acc * 10 + (b - 0x30) in if bound <? n then bound else uint_value bound n r else 0
  end.

Definition int_value (s : text) : Z :=
  match s with
  | [] => 0
  | b :: r => if b =? 0x2D then Z.max (- uint_value (2 ^ 64 - 1) 0 r) (- 2 ^ 63)
              else Z.min (uint_value (2 ^ 64 - 1) 0 (if b =? 0x2B then r else s)) (2 ^ 63 - 1)
  end.

Definition invite_line (sd : inviteSDP) (raw : text) : inviteSDP :=
  let line := TrimSpace raw in
  if HasPrefix line (txt "c=IN IP4 ") then sd <| sd_host := TrimSpace (TrimPrefix line (txt "c=IN IP4")) |>
  else if HasPrefix line (txt "m=video ") then
    let fields := Fields line in
    let sd := match fields !! 2%nat with Some f => if bool_decide (f = txt "TCP/RTP/AVP") then sd <| sd_tcp := true |> else sd | None => sd end in
    match fields !! 1%nat with Some f => sd <| sd_port := int_value f |> | None => sd end
  else if HasPrefix line (txt "y=") then sd <| sd_ssrc := uint_value (2 ^ 32 - 1) 0 (TrimPrefix line (txt "y=")) |>
  else if HasPrefix line (txt "s=") then sd <| sd_name := TrimSpace (TrimPrefix line (txt "s=")) |>
  else if HasPrefix line (txt "t=") then
    match Fields (TrimPrefix line (txt "t=")) with
    | f0 :: f1 :: _ =>
        let sd := sd <| rawT0 := f0 |> <| rawT1 := f1 |> in
        match Atoi f0, Atoi f1 with
        | Some v0, Some v1 => if (0 <? v0) && (0 <? v1) then sd <| sd_t0 := sdpToUnix v0 |> <| sd_t1 := sdpToUnix v1 |> <| sd_hasT := true |> else sd
        | _, _ => sd
        end
    | _ => sd
    end
  else sd.

Definition sdpFromInvite (body : text) : option inviteSDP :=
  let sd := fold_left invite_line (Split body CRLF) (mkInviteSDP [] 0 false 0 [] 0 0 false [] []) in
  if bool_decide (sd_host sd = []) || (sd_port sd <=? 0) then None else Some sd.

Definition abs64 (v : Z) : Z := if v <? 0 then s64 (- v) else v.

Definition bareCallID (callID : text) : text := TrimSpace (TrimPrefix callID (txt "Call-ID:")).

(** The user of the From and of the To of a request. *)
Definition reqIDs (req : request) : text * text := (default [] (fst <$> rq_from req), default [] (fst <$> rq_to req)).

(** ** Frames *)

(** [None] is an index out of range. *)
Definition auIsIDR (au : list (list Z)) (codec : string) : bool :=
  let is_ c := bool_decide (codec = c) in
  existsb (fun nalu =>
    match nalu with
    | [] => false
    | b :: _ =>
        if negb (Z.land b 0x80 =? 0) then false else
        ((is_ "h264" || is_ "") && (let t := Z.land b 0x1F in (t =? 5) || (t =? 7)))
        || ((is_ "h265" || is_ "") && (let t := Z.land (Z.shiftr b 1) 0x3F in (t =? 19) || (t =? 20) || (t =? 32) || (t =? 33)))
    end) au.

Definition sniffCodec (firstNALU : list Z) : string :=
  match firstNALU with b :: _ => if (b =? 0x40) || (b =? 0x42) then "h265" else "h264" | [] => "h264" end.

(** What the callbacks of a session share. *)
Record forward := mkForward {
  codecHint : string;
  mux : Muxer;
  rtp : RTPPacketizer;
  audioPending : list (Z * list Z);
  psStarted : bool;
  fw_closed : bool;
}.

#[export] Instance eta_forward : Eta forward := fun f =>
  mkForward (codecHint f) (mux f) (rtp f) (audioPending f) (psStarted f) (fw_closed f).

(** The NAL units in Annex-B framing. *)
Definition annexB_of (au : list (list Z)) : list Z := concat (map (fun nalu => [0; 0; 0; 1] ++ nalu) au).

(** A text as the name of a codec. *)
Definition codec_name (t : text) : string := String.string_of_list_ascii (map (fun b => Ascii.ascii_of_N (Z.to_N b)) t).

Lemma codec_name_txt s : codec_name (txt s) = s.
Proof.
  unfold codec_name, txt. rewrite map_map. etrans; [|apply String.string_of_list_ascii_of_string]. f_equal.
  induction (String.list_ascii_of_string s) as [|a l IH]; [done|]. cbn [map]. by rewrite N2Z.id, Ascii.ascii_N_embedding, IH.
Qed.

(** The multiplexer and the packetizer that the INVITE sets up; [security] is what the
    negotiation arms. *)
Definition newForward (hint : text) (tcp : bool) (ssrc initialSeq : Z) (security : option cryptor * option (list Z -> Z -> Z -> option (list Z))) : forward :=
  let p := if tcp then NewRTPPacketizerTCP ssrc initialSeq else NewRTPPacketizer ssrc initialSeq in
  mkForward (codec_name hint) (if bool_decide (hint = []) then Mux.New else Mux.SetVideoCodec (codec_name hint) Mux.New)
    (SetSecurity (fst security) (snd security) p) [] false false.

Section Callbacks.

Context (write : list Z -> bool) (marshal : Packet -> option (list Z)).

(** The datagrams that were written, and the forward behind a send; a send that failed
    tears the session down. *)
Definition sent_burst (ps : list Z) (pts : Z) (f : forward) : option (list (list Z) * forward) :=
  res ← Send write marshal ps pts (rtp f);
  Some (written res, f <| rtp := after res |> <| fw_closed := fw_closed f || match send_err res with Some _ => true | None => false end |>).

Definition append_audio (ps : list Z) (frames : list (Z * list Z)) (m : Muxer) : list Z :=
  fold_left (fun ps a => Mux.AppendAudioPES ps (snd a) (fst a) m) frames ps.

Definition on_video (pts : Z) (au : list (list Z)) (f : forward) : option (list (list Z) * forward) :=
  match au with
  | [] => Some ([], f)
  | first :: _ =>
      if fw_closed f then Some ([], f) else
      let f := if bool_decide (codecHint f = "") then f <| codecHint := sniffCodec first |> <| mux := Mux.SetVideoCodec (sniffCodec first) (mux f) |> else f in
      '(ps, m) ← Mux.WriteAU (annexB_of au) pts (negb (psStarted f) || auIsIDR au (codecHint f)) (mux f);
      sent_burst (append_audio ps (audioPending f) m) pts (f <| audioPending := [] |> <| psStarted := true |> <| mux := m |>)
  end.

Definition on_audio (pts : Z) (codec : string) (data : list Z) (f : forward) : option (list (list Z) * forward) :=
  if fw_closed f || bool_decide (data = []) then Some ([], f) else
  if negb (bool_decide (codec = "g711a") || bool_decide (codec = "g711u")) then Some ([], f) else
  let f := f <| mux := Mux.SetAudioCodec codec (mux f) |> <| audioPending := audioPending f ++ [(pts, data)] |> in
  if (9 <? length (audioPending f))%nat then
    sent_burst (append_audio (Mux.WriteAudio [] pts (mux f)) (audioPending f) (mux f)) pts (f <| audioPending := [] |>)
  else Some ([], f).

(** What a hub hands to a session, in order. *)
Inductive hub_frame := Video (pts : Z) (au : list (list Z)) | Audio (pts : Z) (codec : string) (data : list Z).

Fixpoint forward_frames (frames : list hub_frame) (f : forward) : option (list (list Z) * forward) :=
  match frames with
  | [] => Some ([], f)
  | fr :: rest =>
      '(w1, f1) ← match fr with Video pts au => on_video pts au f | Audio pts codec data => on_audio pts codec data f end;
      '(w2, f2) ← forward_frames rest f1; Some (w1 ++ w2, f2)
  end.

End Callbacks.

(** ** INVITE *)

(** A live forward as the INVITE sets it up, and a playback as far as the table is
    concerned: which pump it is, and its window. *)
Record mediaSession := mkMediaSession {
  ms_id : nat; ms_callID : text; ms_channel : text; ms_camera : text; ms_upper : option Upstream; ms_tcp : bool; ms_host : text; ms_port : Z; ms_ssrc : Z;
  ms_hint : text; wantSub : bool; withAudio : bool; holdsMain : bool; secured : bool; ms_sdpBody : text;
}.

Record playbackSession := mkPlaybackSession {
  ps_id : nat; ps_callID : text; ps_channel : text; ps_camera : text; ps_upper : option Upstream; ps_start : Z; ps_end : Z; ps_download : bool;
  ps_host : text; ps_port : Z; ps_ssrc : Z; ps_secured : bool; ps_sdpBody : text;
}.

(** [objects] numbers the sessions that were ever made. *)
Record media_state := mkMediaState {
  sessions : gmap text mediaSession;
  playbacks : gmap text playbackSession;
  objects : nat;
}.

#[export] Instance eta_media_state : Eta media_state := fun s => mkMediaState (sessions s) (playbacks s) (objects s).

(** What the host and the network answer during a request. *)
Record media_env := mkMediaEnv {
  Hub : text -> bool;
  EnsureHubActive : option (text -> bool);
  subAcq : bool;
  dialTCP : text -> Z -> bool;
  listenUDP : bool;
  localHostPort : option Upstream -> text * Z;
  AnswerMediaSecurity : Upstream -> option (text -> option text);
  RoutePathAnnounce : text;
}.

Inductive media_effect :=
  | Answer (code : Z) (reason body : text) (route : option text)
  | ActivateHub (camera : text)
  | OpenConn (tcp : bool)
  | GoTeardown (ms : mediaSession)
  | GoRun (ms : mediaSession)
  | CloseForward (ms : mediaSession)
  | FinishPlayback (ps : playbackSession) (bye : bool)
  | GoPump (ps : playbackSession).

Definition reply (code : Z) (reason body : text) : media_effect := Answer code reason body None.

Definition RoutePathHeader (announce : text) : option text := if bool_decide (announce = []) then None else Some announce.

Definition live_lines (host : text) (port ssrc : Z) (tcp : bool) : list text :=
  [txt "v=0"; txt "o=- 0 0 IN IP4 " ++ host; txt "s=Play"; txt "c=IN IP4 " ++ host; txt "t=0 0";
   txt "m=video " ++ Itoa port ++ (if tcp then txt " TCP/RTP/AVP 96" else txt " RTP/AVP 96"); txt "a=sendonly"]
  ++ (if tcp then [txt "a=setup:active"; txt "a=connection:new"] else [])
  ++ [txt "a=rtpmap:96 PS/90000"; txt "y=" ++ Itoa ssrc].

(** The negotiation of media security: nothing to negotiate, refused, or the attribute of
    the answer. *)
Inductive negotiation := Plain | Refused | Secured (value : text).

Definition negotiate (e : media_env) (u : option Upstream) (body : text) : negotiation :=
  match u with
  | Some up =>
      match up_authenticator up with
      | None => Plain
      | Some _ =>
          let offer := SDPSecurityAttributeValue body in
          if bool_decide (offer = []) then Plain else
          match AnswerMediaSecurity e up with
          | None => Refused
          | Some respond => match respond offer with None => Refused | Some v => if bool_decide (v = []) then Plain else Secured v end
          end
      end
  | None => Plain
  end.

Definition security_line (n : negotiation) : text := match n with Secured v => txt "a=security:" ++ v ++ CRLF | _ => [] end.

Section Invite.

Context {D : Type} `{Store D} (cfg : Config) (Cameras : list CameraInfo) (e : media_env) (db : option D) (us : list upper).

Definition origin_of_upper (cam : CameraInfo) (req : request) : bool := loop_origin (upperOf us req) cam.

(** The table entries of other dialogs on the channel go, each on a goroutine. *)
Definition superseded (callID channelID : text) (s : media_state) : list mediaSession :=
  map snd (map_to_list (filter (fun kv => fst kv <> callID /\ ms_channel (snd kv) = channelID) (sessions s))).

Definition supersede (callID channelID : text) (s : media_state) : media_state :=
  s <| sessions := filter (fun kv => ~ (fst kv <> callID /\ ms_channel (snd kv) = channelID)) (sessions s) |>.

(** From the hub on: the transport, the answer, the table. *)
Definition accept_invite (callID channelID cameraID : text) (sd : inviteSDP) (activated : bool) (req : request) (s : media_state) : list media_effect * media_state :=
  let gone := map GoTeardown (superseded callID channelID s) in
  let s1 := supersede callID channelID s in
  if negb (if sd_tcp sd then dialTCP e (sd_host sd) (sd_port sd) else listenUDP e) then (gone ++ [reply 500 (txt "Internal Error") []], s1) else
  let u := upperOf us req in
  let nego := negotiate e u (rq_body req) in
  let cam := cameraInfo Cameras cameraID in
  let sub := match cam with Some c => SubStream c && subAcq e | None => false end in
  let hint := if sub then [] else match cam with Some c => Encoding c | None => [] end in
  let sdp := lines_crlf (live_lines (fst (localHostPort e u)) (snd (localHostPort e u)) (sd_ssrc sd) (sd_tcp sd)) ++ security_line nego in
  match nego with
  | Refused => (gone ++ [OpenConn (sd_tcp sd); reply 488 (txt "Not Acceptable Here") []], s1)
  | _ =>
      let ms := mkMediaSession (objects s1) callID channelID cameraID u (sd_tcp sd) (sd_host sd) (sd_port sd) (sd_ssrc sd) hint sub
                  (Contains (rq_body req) (txt "m=audio")) activated (match nego with Secured _ => true | _ => false end) sdp in
      (gone ++ [OpenConn (sd_tcp sd); Answer 200 (txt "OK") sdp (RoutePathHeader (RoutePathAnnounce e)); GoRun ms],
       s1 <| sessions := <[callID := ms]> (sessions s1) |> <| objects := S (objects s1) |>)
  end.

Definition forward_invite (callID channelID : text) (sd : inviteSDP) (req : request) (s : media_state) : list media_effect * media_state :=
  match cameraOfChannel channelID db with
  | None => ([reply 404 (txt "Unknown Channel") []], s)
  | Some cameraID =>
      let refuse := match cameraInfo Cameras cameraID with Some cam => CascadeHidden cam || origin_of_upper cam req | None => false end in
      if refuse then ([reply 404 (txt "Unknown Channel") []], s) else
      if Hub e cameraID then accept_invite callID channelID cameraID sd false req s else
      match EnsureHubActive e with
      | None => ([reply 500 (txt "Stream Unavailable") []], s)
      | Some activate =>
          if activate cameraID then
            let (es, s1) := accept_invite callID channelID cameraID sd true req s in (ActivateHub cameraID :: es, s1)
          else ([reply 500 (txt "Stream Unavailable") []], s)
      end
  end.

(** ** Playback INVITEs *)

Definition pbMaxWindow : Z := 24 * 3600.

(** Recordings that can be played: of the two formats, from two hours before the window
    (seconds) on. [None] is an error of the store; a nil store panics, for which the
    channel lookup leaves no way. *)
Definition playbackRecordings (cameraID : text) (start end_ : Z) : option (list Recording) :=
  d ← db;
  recs ← ListRecordings (mkRecordingFilter cameraID ((start - 7200) * 1000) (end_ * 1000) 2000 (txt "started_at") (txt "asc")) d;
  Some (List.filter (fun r => bool_decide (Format r = txt "h264") || bool_decide (Format r = txt "h265")) recs).

Definition playback_lines (host name t0 t1 : text) (port ssrc : Z) : list text :=
  [txt "v=0"; txt "o=- 0 0 IN IP4 " ++ host; txt "s=" ++ name; txt "c=IN IP4 " ++ host; txt "t=" ++ t0 ++ txt " " ++ t1;
   txt "m=video " ++ Itoa port ++ txt " RTP/AVP 96"; txt "a=sendonly"; txt "a=rtpmap:96 PS/90000"; txt "y=" ++ Itoa ssrc].

Definition onPlaybackInvite (callID channelID : text) (sd : inviteSDP) (req : request) (s : media_state) : list media_effect * media_state :=
  match cameraOfChannel channelID db with
  | None => ([reply 404 (txt "Unknown Channel") []], s)
  | Some cameraID =>
      if negb (sd_hasT sd) then ([reply 400 (txt "Playback without time range") []], s) else
      let start := sd_t0 sd in
      if sd_t1 sd <=? start then ([reply 400 (txt "Bad time range") []], s) else
      let end_ := if pbMaxWindow <? sd_t1 sd - start then start + pbMaxWindow else sd_t1 sd in
      if match playbackRecordings cameraID start end_ with Some [] => true | _ => false end then ([reply 404 (txt "No Records") []], s) else
      if negb (listenUDP e) then ([reply 500 (txt "Internal Error") []], s) else
      let name := if EqualFold (sd_name sd) (txt "Download") then txt "Download" else txt "Playback" in
      let u := upperOf us req in
      let nego := negotiate e u (rq_body req) in
      let sdp := lines_crlf (playback_lines (fst (localHostPort e u)) name (rawT0 sd) (rawT1 sd) (snd (localHostPort e u)) (sd_ssrc sd)) ++ security_line nego in
      match nego with
      | Refused => ([OpenConn false; reply 488 (txt "Not Acceptable Here") []], s)
      | _ =>
          let ps := mkPlaybackSession (objects s) callID channelID cameraID u start end_ (bool_decide (name = txt "Download")) (sd_host sd) (sd_port sd)
                      (sd_ssrc sd) (match nego with Secured _ => true | _ => false end) sdp in
          ([OpenConn false; reply 200 (txt "OK") sdp; GoPump ps], s <| playbacks := <[callID := ps]> (playbacks s) |> <| objects := S (objects s) |>)
      end
  end.

(** [finish] from another goroutine than the pump's; it is once only per session. *)
Definition finished (ps : playbackSession) (s : media_state) : media_state := s <| playbacks := delete (ps_callID ps) (playbacks s) |>.

Definition onInvite (req : request) (s : media_state) : list media_effect * media_state :=
  let callID := default [] (rq_CallID req) in
  let channelID := snd (reqIDs req) in
  match sdpFromInvite (rq_body req) with
  | None => ([reply 400 (txt "Bad SDP") []], s)
  | Some sd =>
      if EqualFold (sd_name sd) (txt "Playback") || EqualFold (sd_name sd) (txt "Download") then onPlaybackInvite callID channelID sd req s else
      match sessions s !! callID with
      | Some ms => ([reply 200 (txt "OK") (ms_sdpBody ms)], s)
      | None =>
          match playbacks s !! callID with
          | Some ps =>
              if sd_hasT sd && (abs64 (sd_t0 sd - ps_start ps) <? 2) && (abs64 (sd_t1 sd - ps_end ps) <? 2)
              then ([reply 200 (txt "OK") (ps_sdpBody ps)], s)
              else let (es, s1) := forward_invite callID channelID sd req (s <| playbacks := delete callID (playbacks s) |>) in
                   (FinishPlayback ps true :: es, s1)
          | None => forward_invite callID channelID sd req s
          end
      end
  end.

Definition onBye (req : request) (s : media_state) : list media_effect * media_state :=
  let callID := default [] (rq_CallID req) in
  ([reply 200 (txt "OK") []]
   ++ match sessions s !! callID with Some ms => [CloseForward ms] | None => [] end
   ++ match playbacks s !! callID with Some ps => [FinishPlayback ps false] | None => [] end,
   s <| sessions := delete callID (sessions s) |> <| playbacks := delete callID (playbacks s) |>).

(** What a teardown takes out of the table. *)
Definition torn_down (ms : mediaSession) (s : media_state) : media_state := s <| sessions := delete (ms_callID ms) (sessions s) |>.

(** [Stop] empties both tables. *)
Definition stop_all (s : media_state) : list media_effect * media_state :=
  (map (fun kv => CloseForward (snd kv)) (map_to_list (sessions s)) ++ map (fun kv => FinishPlayback (snd kv) false) (map_to_list (playbacks s)),
   s <| sessions := ∅ |> <| playbacks := ∅ |>).

Definition ForwardCount (s : media_state) : nat := (size (sessions s) + size (playbacks s))%nat.

End Invite.
