(* ===== verification/CascadeForward.v ===== *)
(** The frames of a hub at the hub of an upper platform: a live forward of the cascade
    ([platform/cascade/media.go]) against the media receiver of the next platform, over
    any number of platforms. *)

From S2P Require Import Prelude GoStrings NalUtil PsDemux PesParse AuSplit PsRoundtrip Receiver ReceiverSpec RtpSend Pipeline.
From S2P Require Import CascadeMedia.
From S2P Require PsMux.
Import PsMux.Mux(Muxer, videoType, psmDirty).
#[local] Open Scope string_scope.
#[local] Open Scope list_scope.
Open Scope Z_scope.

(** ** One forward *)








Section Forward.

Context (write : list Z -> bool) (marshal : Packet -> option (list Z)) (unmarshal : list Z -> option Packet).
Context (writes : forall d, write d = true) (parses : parses_plain unmarshal) (pion : pion_roundtrip marshal unmarshal).





(** ** A forward from its first frame on *)





(** ** From hub to hub *)













End Forward.

(** ** Two platforms above a platform *)





