(* ===== verification/CascadeSession.v ===== *)
(** A live forward of the cascade from its goroutine to its close
    ([mediaSession.run], [teardown], [close] of [platform/cascade/media.go]), step by
    step.

    Each step is one load or store of [closed], one section under [ms.mu] or one call to
    the host; the steps of the goroutine, of every goroutine that closes the session (the
    handler of a BYE, [Stop], a failed send, the supersede) and of the rest of the process
    interleave freely. *)

From S2P Require Import Prelude GoStrings.
Open Scope Z_scope.

(** ** State *)

(** What has to be given back. A hub is the main one or that of the sub-stream
    ([true]). *)
Inductive debt := UnsubscribeAudio (sub : bool) | UnsubscribeVideo (sub : bool) | ReleaseSub | ReleaseMain.

#[export] Instance debt_eq_dec : EqDecision debt.
Proof. solve_decision. Defined.

(** Where the goroutine [run] is. *)
Inductive run_pc :=
  | RStart | RAcquire | RGot | RSwap | RReleaseSub | RCheck | RSubscribe | RRecord | RUndo | RAudio | RRecordA | RUndoA | RTeardown | RDone.

(** Where a call of [close] is: about to store [closed], about to lock, giving back, and
    closing the connection. *)
Inductive closing := CStore | CLock | CRelease (todo : list debt) | CConn | CClosed.

#[export] Instance run_pc_eq_dec : EqDecision run_pc.
Proof. solve_decision. Defined.

#[export] Instance closing_eq_dec : EqDecision closing.
Proof. solve_decision. Defined.

(** The session and what the process holds for it: the names in the registries of the two
    hubs, the references (acquired less released) and the connection. [local_hub] is the
    variable of [run]. *)
Record world := mkWorld {
  closed : bool; ms_hub : bool; releaseSub : bool; releaseMain : bool; audioSubID : bool; subID : bool;
  pc : run_pc; local_hub : bool; closers : list closing;
  videoNames : gset (bool * text); audioNames : gset (bool * text); subRefs : Z; mainRefs : Z; connOpen : bool;
}.

#[export] Instance eta_world : Eta world := fun w =>
  mkWorld (closed w) (ms_hub w) (releaseSub w) (releaseMain w) (audioSubID w) (subID w) (pc w) (local_hub w) (closers w)
    (videoNames w) (audioNames w) (subRefs w) (mainRefs w) (connOpen w).

Section Session.

(** The identifiers of the subscriptions, unique per dialog, and what the INVITE asked for. *)
Context (name : text) (wantSub withAudio activated : bool).

Definition audio_name : text := name ++ txt "-audio".

(** ** The goroutine *)

(** [answer] is that of [AcquireSubHub]. *)
Definition run_step (answer : bool) (w : world) : option world :=
  match pc w with
  | RStart => Some (w <| pc := if wantSub && negb (closed w) then RAcquire else RCheck |>)
  | RAcquire => Some (if answer then w <| subRefs := subRefs w + 1 |> <| pc := RGot |> else w <| pc := RCheck |>)
  | RGot => Some (w <| pc := if closed w then RReleaseSub else RSwap |>)
  | RSwap =>
      Some (if closed w then w <| pc := RReleaseSub |>
            else w <| local_hub := true |> <| ms_hub := true |> <| releaseSub := true |> <| pc := RCheck |>)
  | RReleaseSub => Some (w <| subRefs := subRefs w - 1 |> <| pc := RDone |>)
  | RCheck => Some (w <| pc := if closed w then RDone else RSubscribe |>)
  | RSubscribe =>
      Some (if bool_decide ((local_hub w, name) ∈ videoNames w) then w <| pc := RTeardown |>
            else w <| videoNames := {[(local_hub w, name)]} ∪ videoNames w |> <| pc := RRecord |>)
  | RRecord =>
      Some (if closed w then w <| pc := RUndo |> else w <| subID := true |> <| pc := if withAudio then RAudio else RDone |>)
  | RUndo => Some (w <| videoNames := videoNames w ∖ {[(local_hub w, name)]} |> <| pc := RDone |>)
  | RAudio =>
      Some (if bool_decide ((local_hub w, audio_name) ∈ audioNames w) then w <| pc := RDone |>
            else w <| audioNames := {[(local_hub w, audio_name)]} ∪ audioNames w |> <| pc := RRecordA |>)
  | RRecordA => Some (if closed w then w <| pc := RUndoA |> else w <| audioSubID := true |> <| pc := RDone |>)
  | RUndoA => Some (w <| audioNames := audioNames w ∖ {[(local_hub w, audio_name)]} |> <| pc := RDone |>)
  | RTeardown => Some (if closed w then w <| pc := RDone |> else w <| closed := true |> <| closers := closers w ++ [CLock] |> <| pc := RDone |>)
  | RDone => None
  end.

(** ** Closing *)

(** What the section under the lock takes over. *)
Definition taken (w : world) : list debt :=
  (if audioSubID w then [UnsubscribeAudio (ms_hub w)] else []) ++ (if subID w then [UnsubscribeVideo (ms_hub w)] else [])
  ++ (if releaseSub w then [ReleaseSub] else []) ++ (if releaseMain w then [ReleaseMain] else []).

Definition give_back (d : debt) (w : world) : world :=
  match d with
  | UnsubscribeAudio t => w <| audioNames := audioNames w ∖ {[(t, audio_name)]} |>
  | UnsubscribeVideo t => w <| videoNames := videoNames w ∖ {[(t, name)]} |>
  | ReleaseSub => w <| subRefs := subRefs w - 1 |>
  | ReleaseMain => w <| mainRefs := mainRefs w - 1 |>
  end.

Definition close_step (c : closing) (w : world) : option (closing * world) :=
  match c with
  | CStore => Some (CLock, w <| closed := true |>)
  | CLock => Some (CRelease (taken w), w <| releaseSub := false |> <| releaseMain := false |> <| audioSubID := false |> <| subID := false |>)
  | CRelease (d :: todo) => Some (CRelease todo, give_back d w)
  | CRelease [] => Some (CConn, w)
  | CConn => Some (CClosed, w <| connOpen := false |>)
  | CClosed => None
  end.

(** ** Steps *)

Inductive thread_step : world -> world -> Prop :=
  | step_run answer w w' : run_step answer w = Some w' -> thread_step w w'
  | step_close w l1 c l2 c' w' : closers w = l1 ++ c :: l2 -> close_step c w = Some (c', w') -> thread_step w (w' <| closers := l1 ++ c' :: l2 |>).

Inductive step : world -> world -> Prop :=
  | step_thread w w' : thread_step w w' -> step w w'
  (** A BYE, [Stop]. *)
  | step_enter w : step w (w <| closers := closers w ++ [CStore] |>)
  (** [teardown], which only the first closes. *)
  | step_teardown w : closed w = false -> step w (w <| closed := true |> <| closers := closers w ++ [CLock] |>)
  (** Other sessions, under names of their own. *)
  | step_others w v a :
      (forall t, (t, name) ∈ v <-> (t, name) ∈ videoNames w) -> (forall t, (t, audio_name) ∈ a <-> (t, audio_name) ∈ audioNames w) ->
      step w (w <| videoNames := v |> <| audioNames := a |>).

(** As the INVITE leaves it. *)
Definition invited (v a : gset (bool * text)) : world :=
  mkWorld false false false activated false false RStart false [] v a 0 (if activated then 1 else 0) true.

Definition starts (w : world) : Prop :=
  exists v a, (forall t, (t, name) ∉ v) /\ (forall t, (t, audio_name) ∉ a) /\ w = invited v a.

Definition reaches (w : world) : Prop := exists w0, starts w0 /\ rtc step w0 w.

(** ** Books: what is held is what somebody gives back *)

Definition held (d : debt) (w : world) : Z :=
  match d with
  | UnsubscribeAudio t => if bool_decide ((t, audio_name) ∈ audioNames w) then 1 else 0
  | UnsubscribeVideo t => if bool_decide ((t, name) ∈ videoNames w) then 1 else 0
  | ReleaseSub => subRefs w
  | ReleaseMain => mainRefs w
  end.

Definition count (d : debt) (l : list debt) : Z := Z.of_nat (length (List.filter (fun x => bool_decide (x = d)) l)).

Definition run_owes (w : world) : list debt :=
  match pc w with
  | RGot | RSwap | RReleaseSub => [ReleaseSub]
  | RRecord | RUndo => [UnsubscribeVideo (local_hub w)]
  | RRecordA | RUndoA => [UnsubscribeAudio (local_hub w)]
  | _ => []
  end.

Definition closer_owes (c : closing) : list debt := match c with CRelease todo => todo | _ => [] end.

Definition owed (w : world) : list debt := run_owes w ++ taken w ++ concat (map closer_owes (closers w)).

Definition past_store (c : closing) : bool := match c with CStore => false | _ => true end.
Definition past_lock (c : closing) : bool := match c with CStore | CLock => false | _ => true end.

(** Which subscriptions the goroutine can have recorded by now. *)
Definition before_video (p : run_pc) : bool :=
  match p with RAudio | RRecordA | RUndoA | RDone => false | _ => true end.
Definition before_audio (p : run_pc) : bool := match p with RDone => false | _ => true end.
Definition before_swap (p : run_pc) : bool := match p with RStart | RAcquire | RGot | RSwap => true | _ => false end.
Definition saw_closed (p : run_pc) : bool := match p with RReleaseSub | RUndo | RUndoA => true | _ => false end.

Record books (w : world) : Prop := mkBooks {
  bk_debts : forall d, held d w = count d (owed w);
  bk_hub : local_hub w = ms_hub w;
  bk_video : before_video (pc w) = true -> subID w = false;
  bk_audio : before_audio (pc w) = true -> audioSubID w = false;
  bk_swap : before_swap (pc w) = true -> releaseSub w = false;
  bk_saw : saw_closed (pc w) = true -> closed w = true;
  bk_live : before_video (pc w) = false -> closed w = true \/ subID w = true;
  bk_store : Exists (fun c => past_store c = true) (closers w) -> closed w = true;
  bk_closed : closed w = true -> closers w <> [];
  bk_lock : Exists (fun c => past_lock c = true) (closers w) -> taken w = [];
  bk_conn : CClosed ∈ closers w -> connOpen w = false;
  bk_open : closers w = [] -> connOpen w = true /\ releaseMain w = activated;
}.

#[local] Arguments count : simpl never.

Lemma count_app d a b : count d (a ++ b) = count d a + count d b.
Proof. unfold count. rewrite filter_app, length_app. lia. Qed.

Lemma count_cons d x l : count d (x :: l) = (if bool_decide (x = d) then 1 else 0) + count d l.
Proof. unfold count. cbn [List.filter]. case_bool_decide; cbn [length]; lia. Qed.

Lemma count_nonneg d l : 0 <= count d l.
Proof. unfold count. lia. Qed.

Lemma books_invited v a : (forall t, (t, name) ∉ v) -> (forall t, (t, audio_name) ∉ a) -> books (invited v a).
Proof.
  intros V A. split; try done.
  - intros [t|t| |]; cbn; rewrite ?bool_decide_eq_false_2 by done; destruct activated; reflexivity.
  - intros F. by apply Exists_nil in F.
  - intros F. by apply Exists_nil in F.
  - intros F. by apply not_elem_of_nil in F.
Qed.

(** *** The goroutine keeps them *)

Lemma count_one d x : count d [x] = if bool_decide (x = d) then 1 else 0.
Proof. rewrite count_cons. change (count d []) with 0. lia. Qed.

Lemma held_insert_video (t t' : bool) (v : gset (bool * text)) : (t, name) ∉ v ->
  (if bool_decide ((t', name) ∈ {[(t, name)]} ∪ v) then 1 else 0) = (if bool_decide ((t', name) ∈ v) then 1 else 0) + count (UnsubscribeVideo t') [UnsubscribeVideo t].
Proof. intros N. rewrite count_one. destruct (decide (t = t')) as [-> |]; repeat case_bool_decide; set_solver. Qed.

Lemma held_insert_audio (t t' : bool) (v : gset (bool * text)) : (t, audio_name) ∉ v ->
  (if bool_decide ((t', audio_name) ∈ {[(t, audio_name)]} ∪ v) then 1 else 0) =
  (if bool_decide ((t', audio_name) ∈ v) then 1 else 0) + count (UnsubscribeAudio t') [UnsubscribeAudio t].
Proof. intros N. rewrite count_one. destruct (decide (t = t')) as [-> |]; repeat case_bool_decide; set_solver. Qed.

(** Giving back what is owed strikes the debt out. *)
Lemma held_given d x w rest : 0 <= rest -> held d w = count d [x] + rest -> held d (give_back x w) = rest.
Proof.
  intros R E. rewrite count_one in E. destruct x as [t|t| |], d as [t'|t'| |]; cbn in *; revert E; repeat case_bool_decide; simplify_eq; intros; first [lia|set_solver].
Qed.

(** The debts of a world part by part. *)
Definition part (b : bool) (d x : debt) : Z := if b then count d [x] else 0.

Lemma count_part (b : bool) d x : count d (if b then [x] else []) = part b d x.
Proof. by destruct b. Qed.

Lemma count_owed d w : count d (owed w) =
  count d (run_owes w) + (part (audioSubID w) d (UnsubscribeAudio (ms_hub w)) + part (subID w) d (UnsubscribeVideo (ms_hub w))
  + part (releaseSub w) d ReleaseSub + part (releaseMain w) d ReleaseMain) + count d (concat (map closer_owes (closers w))).
Proof. unfold owed, taken. rewrite !count_app, !count_part. lia. Qed.

Lemma part_nonneg b d x : 0 <= part b d x.
Proof. destruct b; [apply count_nonneg|done]. Qed.

Lemma debts_kept answer w w' d : books w -> run_step answer w = Some w' -> held d w' = count d (owed w').
Proof.
  intros [B Bh Bv Ba Bs Bw _ _ _ _ _ _] E. specialize (B d). revert E. rewrite count_owed in *. unfold run_step, run_owes in *.
  destruct w as [cl mh rs rm au su p lh cs v a sr mr co]. cbn in Bh, Bv, Ba, Bs, Bw, B |- *. subst lh. revert B.
  pose proof (count_nonneg d (concat (map closer_owes cs))) as HC. pose proof (part_nonneg rm d ReleaseMain) as HM. pose proof (part_nonneg rs d ReleaseSub) as HS.
  pose proof (part_nonneg su d (UnsubscribeVideo mh)) as HV. pose proof (part_nonneg au d (UnsubscribeAudio mh)) as HA.
  set (C := count d (concat (map closer_owes cs))) in *.
  destruct p; cbn in Bv, Ba, Bs, Bw; intros B E; cbn in B; change (count d []) with 0 in B; try discriminate E; injection E as <-.
  - by destruct (wantSub && negb cl).
  - destruct answer; [|done]. cbn. fold C. rewrite count_one. destruct d; cbn in B |- *; repeat case_bool_decide; simplify_eq; lia.
  - by destruct cl.
  - destruct cl; [exact B|]. rewrite Bs, Bv, Ba in * by done. cbn in B |- *. fold C. change (count d []) with 0. destruct d; cbn in B |- *; lia.
  - cbn. fold C. change (count d []) with 0. rewrite Z.add_0_l. rewrite <- Z.add_assoc in B. refine (held_given d ReleaseSub _ _ _ B); lia.
  - by destruct cl.
  - case_bool_decide as I; [exact B|]. rewrite Bv, Ba in * by done. cbn in B |- *. fold C.
    assert (E : held d (mkWorld cl mh rs rm false false RRecord mh cs ({[(mh, name)]} ∪ v) a sr mr co) =
      held d (mkWorld cl mh rs rm false false RSubscribe mh cs v a sr mr co) + count d [UnsubscribeVideo mh]); [|lia].
    destruct d as [t|t| |]; cbn; rewrite ?held_insert_video by done; rewrite ?count_one; repeat case_bool_decide; simplify_eq; lia.
  - destruct cl; [exact B|]. rewrite Bv, Ba in * by done. cbn in B |- *. fold C. destruct withAudio; cbn; change (count d []) with 0; destruct d; cbn in B |- *; lia.
  - cbn. fold C. change (count d []) with 0. rewrite Z.add_0_l. rewrite <- Z.add_assoc in B. refine (held_given d (UnsubscribeVideo mh) _ _ _ B); lia.
  - case_bool_decide as I; [exact B|]. rewrite Ba in * by done. cbn in B |- *. fold C.
    assert (E : held d (mkWorld cl mh rs rm false su RRecordA mh cs v ({[(mh, audio_name)]} ∪ a) sr mr co) =
      held d (mkWorld cl mh rs rm false su RAudio mh cs v a sr mr co) + count d [UnsubscribeAudio mh]); [|lia].
    destruct d as [t|t| |]; cbn; rewrite ?held_insert_audio by done; rewrite ?count_one; repeat case_bool_decide; simplify_eq; lia.
  - destruct cl; [exact B|]. rewrite Ba in * by done. cbn in B |- *. fold C. change (count d []) with 0. destruct d; cbn in B |- *; lia.
  - cbn. fold C. change (count d []) with 0. rewrite Z.add_0_l. rewrite <- Z.add_assoc in B. refine (held_given d (UnsubscribeAudio mh) _ _ _ B); lia.
  - destruct cl; [exact B|]. cbn. rewrite map_app, concat_app, app_nil_r. exact B.
Qed.

Lemma past_lock_store cs : Exists (fun c => past_lock c = true) cs -> Exists (fun c => past_store c = true) cs.
Proof. intros E. eapply list.Exists_impl; [exact E|by intros []]. Qed.

Lemma exists_snoc (P : closing -> Prop) cs c : ~ P c -> Exists P (cs ++ [c]) -> Exists P cs.
Proof. intros N E. apply Exists_app in E as [E|E]; [done|]. apply Exists_cons in E as [E|E]; [done|by apply Exists_nil in E]. Qed.

Lemma closed_not_snoc cs c : CClosed <> c -> CClosed ∈ cs ++ [c] -> CClosed ∈ cs.
Proof. intros N E. apply elem_of_app in E as [E|E]; [done|]. by apply list_elem_of_singleton in E. Qed.

Lemma run_books answer w w' : books w -> run_step answer w = Some w' -> books w'.
Proof.
  intros B E. pose proof (fun d => debts_kept answer w w' d B E) as D. destruct B as [_ Bh Bv Ba Bs Bw Bl Bst Bc Bk Bo Be].
  assert (Lk : closed w = false -> Exists (fun c => past_lock c = true) (closers w) -> False).
  { intros C X. rewrite Bst in C; [done|]. by apply past_lock_store. }
  unfold run_step in E. destruct (pc w) eqn:P; try discriminate E;
    repeat (match type of E with context [if ?b then _ else _] => destruct b eqn:? end); injection E as <-; (split; [exact D|..]); clear D; cbn -[taken] in *.
  all: rewrite ?P in *; try done; try assumption; try (by auto); try (intros X; try apply Bst in X; congruence); try (intros X; exfalso; by eauto).
  - intros _. destruct (Bl eq_refl); [done|by right].
  - intros _ X. by destruct (closers w).
  - intros X. apply Bk. by apply exists_snoc in X.
  - intros X. apply Bo. by apply closed_not_snoc in X.
  - intros X. by destruct (closers w).
Qed.

(** *** So does every close *)

(** A call that has stored or is about to store [closed]. *)
Definition entering (c : closing) (cl : bool) (w : world) : Prop := (c = CStore /\ cl = closed w) \/ (c = CLock /\ cl = true).

Lemma entered_books c cl w : entering c cl w -> books w -> books (w <| closed := cl |> <| closers := closers w ++ [c] |>).
Proof.
  intros En [B Bh Bv Ba Bs Bw Bl Bst Bc Bk Bo Be].
  assert (O : closer_owes c = [] /\ past_lock c = false /\ CClosed <> c) by (by destruct En as [[-> ->]|[-> ->]]). destruct O as (O1 & O2 & O3).
  assert (M : closed w = true -> cl = true) by (by destruct En as [[-> ->]|[-> ->]]).
  split; cbn -[taken]; try done.
  - intros d. specialize (B d). rewrite count_owed in *. cbn -[taken]. rewrite map_app, concat_app. cbn [map concat]. rewrite O1, !app_nil_r. destruct d; exact B.
  - auto.
  - intros X. destruct (Bl X); [left; auto|by right].
  - intros X. destruct En as [[-> ->]|[-> ->]]; [|done]. apply Bst. apply exists_snoc in X; [exact X|done].
  - intros _ X. by destruct (closers w).
  - intros X. apply Bk. apply exists_snoc in X; [exact X|congruence].
  - intros X. apply Bo. by apply closed_not_snoc in X.
  - intros X. by destruct (closers w).
Qed.

Lemma count_mid d l1 c l2 : count d (concat (map closer_owes (l1 ++ c :: l2))) =
  count d (closer_owes c) + count d (concat (map closer_owes (l1 ++ l2))).
Proof. rewrite !map_app, !concat_app. cbn [map concat]. rewrite !count_app. lia. Qed.

Lemma exists_mid (P : closing -> Prop) l1 c l2 : Exists P (l1 ++ c :: l2) <-> P c \/ Exists P (l1 ++ l2).
Proof. rewrite !Exists_app, Exists_cons. tauto. Qed.

Lemma elem_mid (x : closing) l1 c l2 : x ∈ l1 ++ c :: l2 <-> x = c \/ x ∈ l1 ++ l2.
Proof. rewrite !elem_of_app, elem_of_cons. tauto. Qed.

(** The debts of a close and those of the rest. *)
Lemma debts_mid w l1 c l2 d : closers w = l1 ++ c :: l2 ->
  count d (owed w) = count d (run_owes w) + (part (audioSubID w) d (UnsubscribeAudio (ms_hub w)) + part (subID w) d (UnsubscribeVideo (ms_hub w))
    + part (releaseSub w) d ReleaseSub + part (releaseMain w) d ReleaseMain) + (count d (closer_owes c) + count d (concat (map closer_owes (l1 ++ l2)))).
Proof. intros E. rewrite count_owed, E, count_mid. done. Qed.

Lemma run_owes_eq w w' : pc w' = pc w -> local_hub w' = local_hub w -> run_owes w' = run_owes w.
Proof. unfold run_owes. by intros -> ->. Qed.

Lemma close_debts l1 c l2 c' w w' d : books w -> closers w = l1 ++ c :: l2 -> close_step c w = Some (c', w') ->
  held d (w' <| closers := l1 ++ c' :: l2 |>) = count d (owed (w' <| closers := l1 ++ c' :: l2 |>)).
Proof.
  intros [B _ _ _ _ _ _ _ _ _ _ _] Ec E. specialize (B d). rewrite (debts_mid _ l1 c l2 d Ec) in B. rewrite (debts_mid _ l1 c' l2 d) by done.
  pose proof (count_nonneg d (run_owes w)). pose proof (part_nonneg (releaseMain w) d ReleaseMain). pose proof (part_nonneg (releaseSub w) d ReleaseSub).
  pose proof (part_nonneg (subID w) d (UnsubscribeVideo (ms_hub w))). pose proof (part_nonneg (audioSubID w) d (UnsubscribeAudio (ms_hub w))).
  set (C := count d (concat (map closer_owes (l1 ++ l2)))) in *. pose proof (count_nonneg d (concat (map closer_owes (l1 ++ l2)))) as HC. fold C in HC.
  unfold close_step in E. destruct c as [| |[|d0 todo]| |]; try discriminate E; injection E as <- <-; cbn -[taken] in *; change (count d []) with 0 in *.
  - destruct d; exact B.
  - rewrite (run_owes_eq w) by done. unfold taken. rewrite !count_app, !count_part. destruct d; cbn -[run_owes] in *; lia.
  - destruct d; exact B.
  - pose proof (count_nonneg d todo). rewrite count_cons in B.
    assert (E : held d (give_back d0 w) = count d (run_owes w) + (part (audioSubID w) d (UnsubscribeAudio (ms_hub w)) + part (subID w) d (UnsubscribeVideo (ms_hub w))
      + part (releaseSub w) d ReleaseSub + part (releaseMain w) d ReleaseMain) + (count d todo + C)).
    { apply held_given; [lia|]. rewrite B, count_one. lia. }
    destruct d0; destruct d; exact E.
  - destruct d; exact B.
Qed.

Lemma close_books l1 c l2 c' w w' : books w -> closers w = l1 ++ c :: l2 -> close_step c w = Some (c', w') -> books (w' <| closers := l1 ++ c' :: l2 |>).
Proof.
  intros B Ec E. pose proof (fun d => close_debts l1 c l2 c' w w' d B Ec E) as D. destruct B as [_ Bh Bv Ba Bs Bw Bl Bst Bc Bk Bo Be].
  assert (Ne : forall (c0 : closing), l1 ++ c0 :: l2 <> []) by (by destruct l1).
  rewrite Ec in *. rewrite exists_mid in Bst, Bk. rewrite elem_mid in Bo.
  unfold close_step in E. destruct c as [| |[|d0 todo]| |]; try discriminate E; injection E as <- <-; (split; [exact D|..]); clear D; try destruct d0; cbn -[taken] in *.
  all: rewrite ?exists_mid, ?elem_mid; try done; try (intros X; exfalso; by apply (Ne _ X)); try (by naive_solver).
Qed.

Lemma others_books w v a : (forall t, (t, name) ∈ v <-> (t, name) ∈ videoNames w) -> (forall t, (t, audio_name) ∈ a <-> (t, audio_name) ∈ audioNames w) ->
  books w -> books (w <| videoNames := v |> <| audioNames := a |>).
Proof.
  intros V A [B Bh Bv Ba Bs Bw Bl Bst Bc Bk Bo Be]. split; try done. intros d. specialize (B d). rewrite count_owed in *.
  rewrite (run_owes_eq w) by done. destruct d as [t|t| |]; try exact B; cbn in B |- *; rewrite <- B;
    [rewrite (bool_decide_ext _ _ (A t))|rewrite (bool_decide_ext _ _ (V t))]; done.
Qed.

Lemma step_books w w' : step w w' -> books w -> books w'.
Proof.
  intros S B. destruct S as [w w' [answer w1 w2 E|w1 l1 c l2 c' w2 Ec E]|w|w C|w v a V A].
  - by eapply run_books.
  - by eapply close_books.
  - exact (entered_books CStore (closed w) w (or_introl (conj eq_refl eq_refl)) B).
  - exact (entered_books CLock true w (or_intror (conj eq_refl eq_refl)) B).
  - by apply others_books.
Qed.

Lemma reaches_books w : reaches w -> books w.
Proof.
  intros (w0 & (v & a & V & A & E) & R). assert (B : books w0) by (rewrite E; by apply books_invited). clear E.
  induction R as [|x y z S R IH]; [done|]. apply IH. by apply (step_books x).
Qed.

(** ** Every goroutine ends *)

Definition pc_rank (p : run_pc) : nat :=
  match p with
  | RDone => 0 | RUndo | RUndoA | RReleaseSub => 1 | RRecordA => 2 | RAudio => 3 | RRecord => 4 | RTeardown => 10
  | RSubscribe => 11 | RCheck => 12 | RSwap => 13 | RGot => 14 | RAcquire => 15 | RStart => 16
  end.

Definition close_rank (c : closing) : nat :=
  match c with CClosed => 0 | CConn => 1 | CRelease todo => 2 + length todo | CLock => 8 | CStore => 9 end.

(** The steps that are left at most. *)
Definition work (w : world) : nat := pc_rank (pc w) + list_sum (map close_rank (closers w)).

Lemma taken_length w : (length (taken w) <= 4)%nat.
Proof. unfold taken. rewrite !length_app. repeat case_match; cbn; lia. Qed.

Lemma work_mid w l1 c l2 : closers w = l1 ++ c :: l2 -> (work w = close_rank c + (pc_rank (pc w) + list_sum (map close_rank (l1 ++ l2))))%nat.
Proof. intros E. unfold work. rewrite E, !map_app, !list_sum_app. cbn [map]. change (list_sum (close_rank c :: map close_rank l2)) with (close_rank c + list_sum (map close_rank l2))%nat. lia. Qed.

Lemma thread_step_work w w' : thread_step w w' -> (work w' < work w)%nat.
Proof.
  intros [answer w1 w2 E|w1 l1 c l2 c' w2 Ec E].
  - unfold run_step in E. unfold work. destruct (pc w1) eqn:P; try discriminate E;
      repeat (match type of E with context [if ?b then _ else _] => destruct b eqn:? end); injection E as <-; cbn;
      cbn -[list_sum map]; rewrite ?map_app, ?list_sum_app; try change (list_sum (map close_rank [CLock])) with 8%nat; unfold list_sum in *; lia.
  - rewrite (work_mid w1 l1 c l2), (work_mid _ l1 c' l2) by done. pose proof (taken_length w1).
    unfold close_step in E. destruct c as [| |[|d todo]| |]; try discriminate E; injection E as <- <-; cbn -[taken]; try lia. destruct d; cbn; lia.
Qed.

(** Nothing is left to do. *)
Definition quiet (w : world) : Prop := pc w = RDone /\ Forall (fun c => c = CClosed) (closers w).

Lemma quiet_or_step w : quiet w \/ exists w', thread_step w w'.
Proof.
  destruct (decide (pc w = RDone)) as [P|P].
  - destruct (decide (Exists (fun c => c <> CClosed) (closers w))) as [X|X].
    + right. apply Exists_exists in X as (c & I & Hc). apply in_split in I as (l1 & l2 & E).
      destruct (close_step c w) as [[c' w']|] eqn:S; [|by destruct c as [| |[|]| |]]. eexists. by eapply step_close.
    + left. split; [done|]. apply Forall_Exists_neg in X. eapply List.Forall_impl; [|exact X]. intros c Hc. cbn in Hc. by destruct (decide (c = CClosed)).
  - right. destruct (run_step false w) as [w'|] eqn:S; [by exists w'; eapply step_run|]. unfold run_step in S. by destruct (pc w).
Qed.

Lemma quiet_owes_nothing w : books w -> quiet w -> closers w <> [] -> owed w = [] /\ connOpen w = false /\ closed w = true.
Proof.
  intros [_ _ _ _ _ _ _ Bst _ Bk Bo _] [P F] Ne. destruct (closers w) as [|c cs] eqn:E; [done|]. pose proof F as F'. apply list.Forall_cons in F' as [-> _].
  split; [|split; [apply Bo; by left|apply Bst; by left]]. unfold owed, run_owes. rewrite P, E, Bk by (by left). cbn [app].
  clear -F. induction F as [|x l -> F IH]; [done|exact IH].
Qed.

(** Each reference is taken once. *)
Definition before_acquire (p : run_pc) : bool := match p with RStart | RAcquire => true | _ => false end.

Definition refs_ok (w : world) : Prop := subRefs w <= (if before_acquire (pc w) then 0 else 1) /\ mainRefs w <= 1.

Lemma step_refs w w' : step w w' -> refs_ok w -> refs_ok w'.
Proof.
  unfold refs_ok. intros S [R1 R2]. destruct S as [w w' [answer w1 w2 E|w1 l1 c l2 c' w2 Ec E]|w|w C|w v a V A]; try done.
  - unfold run_step in E. destruct (pc w1) eqn:P; try discriminate E;
      repeat (match type of E with context [if ?b then _ else _] => destruct b eqn:? end); injection E as <-; cbn in *; lia.
  - unfold close_step in E. destruct c as [| |[|d todo]| |]; try discriminate E; injection E as <- <-; try done. destruct d; cbn; lia.
Qed.

Lemma reaches_refs w : reaches w -> refs_ok w.
Proof.
  intros (w0 & (v & a & _ & _ & E) & R). assert (B : refs_ok w0) by (rewrite E; split; cbn; [lia|destruct activated; lia]). clear E.
  induction R as [|x y z S R IH]; [done|]. apply IH. by apply (step_refs x).
Qed.

(** *** Schedules *)

Inductive move := Run (answer : bool) | Close (i : nat) | Bye.

Definition play_move (m : move) (w : world) : option world :=
  match m with
  | Run answer => run_step answer w
  | Close i => c ← closers w !! i; '(c', w') ← close_step c w; Some (w' <| closers := <[i := c']> (closers w) |>)
  | Bye => Some (w <| closers := closers w ++ [CStore] |>)
  end.

Fixpoint play (ms : list move) (w : world) : option world :=
  match ms with [] => Some w | m :: rest => w' ← play_move m w; play rest w' end.

Lemma play_move_step m w w' : play_move m w = Some w' -> step w w'.
Proof.
  destruct m as [answer|i|]; cbn; intros E.
  - by apply step_thread, (step_run answer).
  - destruct (closers w !! i) as [c|] eqn:L; [|done]. cbn in E. destruct (close_step c w) as [[c' w1]|] eqn:S; [|done]. injection E as <-. apply step_thread.
    rewrite insert_take_drop by (by apply lookup_lt_Some in L). eapply step_close; [symmetry; by apply take_drop_middle|exact S].
  - injection E as <-. apply step_enter.
Qed.

Lemma play_steps ms w w' : play ms w = Some w' -> rtc step w w'.
Proof.
  revert w. induction ms as [|m ms IH]; intros w E; cbn [play] in E; [by injection E as ->|].
  destruct (play_move m w) as [w1|] eqn:S; [|done]. eapply rtc_l; [by eapply play_move_step|]. by apply IH.
Qed.

(** C40: A forward gives back exactly what it took, whatever interleaves. For every order of
    the steps of [run], of any number of calls that close the session (BYE, [Stop], a
    failed send, a superseding INVITE) and of the rest of the process: no reference is ever
    released twice; every goroutine can go on until it has ended and ends after a bounded
    number of steps; once all have ended and somebody has closed, no subscription and no
    reference is left and the connection is closed. A session that nobody closes stays
    subscribed to its hub with its connection open. *)
Theorem forward_closed w : reaches w ->
  (forall d, 0 <= held d w <= 1) /\
  (quiet w \/ exists w', thread_step w w') /\ (forall w', thread_step w w' -> (work w' < work w)%nat) /\
  (quiet w -> closers w <> [] -> (forall d, held d w = 0) /\ connOpen w = false) /\
  (quiet w -> closers w = [] -> held (UnsubscribeVideo (ms_hub w)) w = 1 /\ held ReleaseMain w = (if activated then 1 else 0) /\ connOpen w = true).
Proof.
  intros R. pose proof (reaches_books w R) as B. split; [|split; [apply quiet_or_step|split; [apply thread_step_work|split]]].
  - intros d. split; [rewrite (bk_debts w B); apply count_nonneg|]. destruct (reaches_refs w R) as [R1 R2].
    destruct d as [t|t| |]; cbn; [by case_bool_decide|by case_bool_decide|destruct (before_acquire _); lia|lia].
  - intros Q Ne. destruct (quiet_owes_nothing w B Q Ne) as (O & C & _). split; [|done]. intros d. rewrite (bk_debts w B), O. done.
  - intros [P F] E. destruct (bk_open w B E) as [O M]. split; [|split; [|done]]; rewrite (bk_debts w B), count_owed; unfold run_owes; rewrite P, E; cbn -[part].
    + destruct (bk_live w B) as [C| ->]; [by rewrite P|destruct (bk_closed w B C E)|].
      unfold part. rewrite !count_one. repeat case_bool_decide; simplify_eq; by repeat case_match.
    + unfold part. rewrite !count_one, M. repeat case_bool_decide; simplify_eq; by repeat case_match.
Qed.

End Session.

(** ** A BYE between the two subscriptions *)

Definition demo_schedule : list move :=
  [Run true; Run true; Run true; Run true; Run true; Run true; Run true; Bye; Close 0; Run true; Close 0; Close 0; Run true; Close 0; Close 0; Close 0; Close 0; Run true].

Lemma forward_closed_witness : exists w,
  reaches (txt "cascade-1") true true true w /\ quiet w /\ closers w = [CClosed] /\
  (forall d, held (txt "cascade-1") d w = 0) /\ connOpen w = false.
Proof.
  destruct (play (txt "cascade-1") true true demo_schedule (invited true ∅ ∅)) as [w|] eqn:E; [|vm_compute in E; discriminate E].
  assert (R : reaches (txt "cascade-1") true true true w).
  { exists (invited true ∅ ∅). split; [exists ∅, ∅; split; [intros t; apply not_elem_of_empty|split; [intros t; apply not_elem_of_empty|reflexivity]]|]. exact (play_steps _ _ _ _ _ _ E). }
  assert (Q : pc w = RDone /\ closers w = [CClosed]) by (vm_compute in E; injection E as <-; split; reflexivity).
  destruct Q as [Q1 Q2]. assert (Qw : quiet w) by (split; [exact Q1|rewrite Q2; repeat constructor]).
  exists w. split; [exact R|]. split; [exact Qw|]. split; [exact Q2|].
  destruct (forward_closed (txt "cascade-1") true true true w R) as (_ & _ & _ & F & _). apply F; [exact Qw|]. rewrite Q2. discriminate.
Defined.
