(* ===== verification/CascadeOffers.v ===== *)
(** The offers of a platform ([platform/session.go]) as the cascade below it reads them
    ([sdpFromInvite] of [platform/cascade/media.go]). *)

From S2P Require Import Prelude GoStrings GoText Sdp.
From S2P Require SipMsg.
From S2P Require Import CascadeMedia.
#[local] Open Scope string_scope.
#[local] Open Scope list_scope.
Open Scope Z_scope.

(** ** Numbers *)

Lemma digits_value_grows s acc n : 0 <= acc -> digits_value acc s = Some n -> acc <= n.
Proof.
  revert acc. induction s as [|b s IH]; intros acc A E; cbn [digits_value] in E; [injection E; lia|].
  destruct (is_digit b) eqn:D; [|done]. unfold is_digit in D. apply andb_true_iff in D as [D1 D2]. apply Z.leb_le in D1, D2. apply IH in E; lia.
Qed.

Lemma uint_value_digits bound s acc n : 0 <= acc -> digits_value acc s = Some n -> n <= bound -> uint_value bound acc s = n.
Proof.
  revert acc. induction s as [|b s IH]; intros acc A E L; cbn [digits_value uint_value] in *; [by injection E|].
  destruct (is_digit b) eqn:D; [|done]. unfold is_digit in D. apply andb_true_iff in D as [D1 D2]. apply Z.leb_le in D1, D2.
  pose proof (digits_value_grows s (acc * 10 + (b - 48)) n ltac:(lia) E). cbv zeta. rewrite (proj2 (Z.ltb_ge _ _)) by lia. apply IH; [lia|done|done].
Qed.

Lemma uint_value_ParseUint32 s n : ParseUint32 s = Some n -> uint_value (2 ^ 32 - 1) 0 s = n.
Proof.
  unfold ParseUint32. destruct s as [|b s]; [done|]. destruct (digits_value 0 (b :: s)) as [v|] eqn:E; [|done]. cbn [mbind option_bind].
  destruct (Z.ltb_spec v (2 ^ 32)); [|done]. intros [= <-]. apply uint_value_digits; [lia|done|lia].
Qed.

Lemma int_value_Itoa n : 0 <= n < 2 ^ 63 -> int_value (Itoa n) = n.
Proof.
  intros R. rewrite Itoa_nonneg by lia. destruct (dec_spec n) as (D1 & D2 & D3 & _); [lia|].
  assert (E : uint_value (2 ^ 64 - 1) 0 (dec n) = n) by (apply uint_value_digits; [lia|done|lia]).
  unfold int_value. destruct (dec n) as [|b s] eqn:Ed; [done|]. apply list.Forall_cons in D1 as [B _]. unfold is_digit in B. apply andb_true_iff in B as [B1 B2].
  apply Z.leb_le in B1, B2. rewrite !(proj2 (Z.eqb_neq b _)) by lia. rewrite E. lia.
Qed.

(** ** Lines *)

Lemma Split_crlf l : Forall line_ok l -> Split (lines_crlf l) CRLF = l ++ [[]].
Proof.
  unfold lines_crlf. induction 1 as [|s l Hs _ IH]; [done|]. cbn [map concat]. rewrite <- app_assoc.
  rewrite (Split_cons 0x0D [0x0A]); [change [0x0D; 0x0A] with CRLF; by rewrite IH|]. by apply visible_no; [apply Hs|].
Qed.

(** A line that [sdpFromInvite] has no rule for. *)
Definition unread (s : text) : bool :=
  negb (HasPrefix s (txt "c=IN IP4 ") || HasPrefix s (txt "m=video ") || HasPrefix s (txt "y=") || HasPrefix s (txt "s=") || HasPrefix s (txt "t=")).

Lemma line_unread s sd : line_ok s -> unread s = true -> invite_line sd s = sd.
Proof.
  intros H N. unfold invite_line. rewrite TrimSpace_line by done. unfold unread in N. rewrite negb_true_iff, !orb_false_iff in N.
  by destruct N as ((((-> & ->) & ->) & ->) & ->).
Qed.

Lemma line_conn ip sd : word ip -> invite_line sd (txt "c=IN IP4 " ++ ip) = sd <| sd_host := ip |>.
Proof.
  intros H. unfold invite_line. rewrite TrimSpace_line, HasPrefix_app by (by apply line_word). f_equal.
  change (txt "c=IN IP4 " ++ ip) with (txt "c=IN IP4" ++ 0x20 :: ip). rewrite TrimPrefix_app.
  pose proof (TrimSpace_ends [0x20] ip []) as T. rewrite app_nil_r in T.
  apply T; [by repeat constructor|constructor|by apply SipMsg.starts_ok_word|by apply starts_ok_rev_word].
Qed.

Lemma line_media port proto pt sd : 0 <= port < 2 ^ 63 -> word proto -> word pt ->
  invite_line sd (txt "m=video " ++ Itoa port ++ txt " " ++ proto ++ txt " " ++ pt) =
  (if bool_decide (proto = txt "TCP/RTP/AVP") then sd <| sd_tcp := true |> else sd) <| sd_port := port |>.
Proof.
  intros Hp Hw Hq. assert (Wp : word (Itoa port)) by (apply Itoa_printable; lia). unfold invite_line. rewrite TrimSpace_line.
  2:{ apply line_word_line; [done|done| |].
      - apply Forall_app. split; [by repeat constructor|]. apply Forall_app. split; [by apply printable_visible, Hw|].
        apply Forall_app. split; [by repeat constructor|by apply printable_visible, Hq].
      - rewrite !rev_app_distr. do 2 apply starts_ok_app. by apply starts_ok_app, starts_ok_rev_word. }
  assert (HasPrefix (txt "m=video " ++ Itoa port ++ txt " " ++ proto ++ txt " " ++ pt) (txt "c=IN IP4 ") = false) as -> by done.
  rewrite HasPrefix_app. change (txt " " ++ proto ++ txt " " ++ pt) with (0x20 :: (proto ++ 0x20 :: pt)).
  rewrite Fields_media, Fields_cons, Fields_word by done. cbn [lookup list_lookup]. rewrite int_value_Itoa by done. by case_bool_decide.
Qed.

(** The rules of other lines do not apply. *)
Ltac other_prefixes :=
  repeat match goal with |- context [HasPrefix (txt ?a ++ ?x) (txt ?b)] =>
    let H := fresh in assert (H : HasPrefix (txt a ++ x) (txt b) = false) by reflexivity; rewrite H; clear H end.

Lemma line_ssrc x n sd : word x -> ParseUint32 x = Some n -> invite_line sd (txt "y=" ++ x) = sd <| sd_ssrc := n |>.
Proof.
  intros H E. unfold invite_line. rewrite TrimSpace_line by (by apply line_word). other_prefixes.
  by rewrite HasPrefix_app, TrimPrefix_app, (uint_value_ParseUint32 x n).
Qed.

Lemma line_name x sd : word x -> invite_line sd (txt "s=" ++ x) = sd <| sd_name := x |>.
Proof.
  intros H. unfold invite_line. rewrite TrimSpace_line by (by apply line_word). other_prefixes.
  by rewrite HasPrefix_app, TrimPrefix_app, TrimSpace_id by apply H.
Qed.

(** The times of a fetch, in seconds since 1900. *)
Lemma line_times a b sd : 3000000000 <= a < 2 ^ 62 -> 3000000000 <= b < 2 ^ 62 ->
  invite_line sd (txt "t=" ++ Itoa a ++ txt " " ++ Itoa b) =
  sd <| rawT0 := Itoa a |> <| rawT1 := Itoa b |> <| sd_t0 := a - ntpEpochDelta |> <| sd_t1 := b - ntpEpochDelta |> <| sd_hasT := true |>.
Proof.
  intros Ha Hb. unfold invite_line. rewrite TrimSpace_line by (apply time_line_ok; lia). other_prefixes.
  rewrite HasPrefix_app, TrimPrefix_app. change (txt " " ++ Itoa b) with (0x20 :: Itoa b).
  rewrite Fields_cons, Fields_word by (apply Itoa_printable; lia). rewrite !Atoi_Itoa by lia. cbv zeta.
  rewrite !(proj2 (Z.ltb_lt 0 _)) by lia. cbn [andb]. unfold sdpToUnix. by rewrite !(proj2 (Z.leb_le 3000000000 _)) by lia.
Qed.

Lemma line_live_times sd : invite_line sd (txt "t=0 0") = sd <| rawT0 := txt "0" |> <| rawT1 := txt "0" |>.
Proof. reflexivity. Qed.

Lemma security_unread sec sd : offer_ok sec -> fold_left invite_line (Sdp.security_line sec ++ [[]]) sd = sd.
Proof.
  intros H. assert (E : invite_line sd [] = sd) by done. destruct sec as [|b sec]; [exact E|]. destruct H as [|H]; [done|]. cbn [Sdp.security_line app fold_left].
  rewrite (line_unread (txt "a=security:" ++ b :: sec)); [exact E|by apply line_word|done].
Qed.

(** ** Offers *)

Ltac read_lines :=
  cbn [app fold_left];
  repeat first
    [ rewrite line_conn by done
    | rewrite line_media by (lia || done)
    | rewrite line_name by done
    | rewrite line_live_times
    | rewrite line_times by lia
    | rewrite line_unread by (reflexivity || assumption || (by apply line_lit) || (by apply line_word)) ].

(** Whether the offer is for a stream over TCP. *)
Definition offered_tcp (transport : text) : bool := bool_decide (transport = MediaTCPPassive) || bool_decide (transport = MediaTCPActive).

Lemma read_live_head ip transport port : word ip -> 0 < port < 65536 -> forall sd, sd_tcp sd = false ->
  fold_left invite_line (live_head ip transport port) sd =
  sd <| sd_name := txt "Play" |> <| sd_host := ip |> <| rawT0 := txt "0" |> <| rawT1 := txt "0" |> <| sd_tcp := offered_tcp transport |> <| sd_port := offered_port transport port |>.
Proof.
  intros Hi Hp sd Ht. unfold live_head, live_media, offered_port, offered_transport, offered_tcp.
  assert (W : word (txt "RTP/AVP") /\ word (txt "TCP/RTP/AVP") /\ word (txt "96") /\ word (txt "Play")) by (repeat split; (done || by repeat constructor)).
  destruct W as (W1 & W2 & W3 & W4). change (txt "s=Play") with (txt "s=" ++ txt "Play").
  assert (L : line_ok (txt "a=setup:passive") /\ line_ok (txt "a=setup:active") /\ line_ok (txt "a=connection:new") /\ line_ok (txt "a=recvonly")
    /\ line_ok (txt "a=rtpmap:96 PS/90000") /\ line_ok (txt "v=0") /\ line_ok (txt "o=- 0 0 IN IP4 " ++ ip)) by (repeat split; (by apply line_lit) || (by apply line_word)).
  destruct L as (L1 & L2 & L3 & L4 & L5 & L6 & L7).
  destruct (decide (transport = MediaTCPPassive)) as [->|Hn1]; [|destruct (decide (transport = MediaTCPActive)) as [->|Hn2]].
  - rewrite !(bool_decide_eq_true_2 (MediaTCPPassive = MediaTCPPassive)) by done. cbn [fst snd]. read_lines. by destruct sd.
  - rewrite (bool_decide_eq_false_2 (MediaTCPActive = MediaTCPPassive)), !(bool_decide_eq_true_2 (MediaTCPActive = MediaTCPActive)) by done.
    cbn [fst snd]. read_lines. by destruct sd.
  - rewrite !bool_decide_eq_false_2 by done. cbn [fst snd]. read_lines. destruct sd. cbn in Ht. by subst.
Qed.

Lemma offer_lines_read l x n sec sd sd' : Forall line_ok l -> word x -> offer_ok sec -> ParseUint32 x = Some n ->
  fold_left invite_line l sd = sd' ->
  fold_left invite_line (Split (lines_crlf (l ++ (txt "y=" ++ x) :: Sdp.security_line sec)) CRLF) sd = sd' <| sd_ssrc := n |>.
Proof.
  intros Hl Hx Hs Hn <-. rewrite Split_crlf.
  2:{ apply Forall_app. split; [done|]. constructor; [by apply line_word|by apply security_line_ok]. }
  rewrite <- app_assoc, fold_left_app. cbn [app fold_left]. by rewrite (line_ssrc x n), security_unread.
Qed.

Lemma read_fetch_head ip name start end_ port : word ip -> word name -> 0 < port < 65536 ->
  791011200 <= start < 2 ^ 61 -> 791011200 <= end_ < 2 ^ 61 -> forall sd,
  fold_left invite_line (fetch_head ip name start end_ port) sd =
  sd <| sd_name := name |> <| sd_host := ip |> <| rawT0 := Itoa (start + ntpOffset) |> <| rawT1 := Itoa (end_ + ntpOffset) |>
     <| sd_t0 := start |> <| sd_t1 := end_ |> <| sd_hasT := true |> <| sd_port := port |>.
Proof.
  intros Hi Hn Hp Ha Hb sd. unfold fetch_head.
  assert (W : word (txt "RTP/AVP") /\ word (txt "96")) by (repeat split; (done || by repeat constructor)). destruct W as [W1 W2].
  assert (L : line_ok (txt "a=recvonly") /\ line_ok (txt "a=rtpmap:96 PS/90000") /\ line_ok (txt "v=0") /\ line_ok (txt "o=- 0 0 IN IP4 " ++ ip))
    by (repeat split; (by apply line_lit) || (by apply line_word)). destruct L as (L4 & L5 & L6 & L7).
  cbn [app fold_left]. rewrite (line_unread (txt "v=0")), (line_unread (txt "o=- 0 0 IN IP4 " ++ ip)), line_name, line_conn by done.
  rewrite line_times by (unfold ntpOffset; lia). rewrite line_media by (lia || done).
  rewrite (line_unread (txt "a=recvonly")), (line_unread (txt "a=rtpmap:96 PS/90000")) by done.
  rewrite bool_decide_eq_false_2 by done. unfold ntpOffset, ntpEpochDelta. by rewrite !Z.add_simpl_r.
Qed.

(** What a platform offers, the cascade below it reads. From a live offer it gets the
    platform's address and port, the number of the SSRC and no time range; a TCP offer it
    will dial, and it does so for both roles: the [setup] attribute is not looked at, so
    that the platform that means to connect itself offers the discard port 9 and is dialled
    there. From a playback or download offer it gets, besides, the kind and the range in
    Unix seconds (from January 1995 on, as [sdpToUnix] takes smaller numbers for Unix
    seconds already). *)
Theorem cascade_offers ip port serverID seq sec :
  word ip -> 0 < port < 65536 -> digits serverID -> 0 <= seq -> offer_ok sec ->
  (forall transport, exists n, ParseUint32 (SSRC false serverID seq) = Some n /\
     sdpFromInvite (buildLiveSDP ip port transport (SSRC false serverID seq) false sec) =
     Some (mkInviteSDP ip (offered_port transport port) (offered_tcp transport) n (txt "Play") 0 0 false (txt "0") (txt "0"))) /\
  (forall (download : bool) start end_, 791011200 <= start < 2 ^ 61 -> 791011200 <= end_ < 2 ^ 61 ->
     let name := if download then txt "Download" else txt "Playback" in
     let ssrc := if download then SSRCDownload serverID seq else SSRC true serverID seq in
     exists n, ParseUint32 ssrc = Some n /\
     sdpFromInvite (buildFetchSDP ip name start end_ port ssrc sec) =
     Some (mkInviteSDP ip port false n name start end_ true (Itoa (start + ntpOffset)) (Itoa (end_ + ntpOffset)))).
Proof.
  intros Hi Hp Hs Hq Hsec. assert (Hip : ip <> []) by apply Hi. split.
  - intros transport. rewrite buildLiveSDP_lines. unfold SSRC. change (txt "0") with [0x30 + 0] at 1 2.
    destruct (buildSSRC_spec 0 serverID seq ltac:(lia) Hs Hq) as (_ & _ & d & _ & _ & E). pose proof (buildSSRC_word 0 serverID seq ltac:(lia) Hs Hq) as W.
    set (x := buildSSRC _ _ _) in *. eexists. split; [exact E|]. unfold sdpFromInvite.
    rewrite (offer_lines_read _ x _ sec _ _ (live_lines_ok ip port transport Hi Hp) W Hsec E (read_live_head ip transport port Hi Hp (mkInviteSDP [] 0 false 0 [] 0 0 false [] []) eq_refl)).
    cbn. rewrite bool_decide_eq_false_2 by done. unfold offered_port.
    rewrite (proj2 (Z.leb_gt _ 0)) by (case_bool_decide; lia). reflexivity.
  - intros download start end_ Ha Hb name ssrc. rewrite buildFetchSDP_lines. assert (Wn : word name) by (by unfold name; destruct download; apply word_lit).
    assert (Ek : ssrc = buildSSRC [0x30 + (if download then 2 else 1)] serverID seq) by (by unfold ssrc; destruct download).
    destruct (buildSSRC_spec (if download then 2 else 1) serverID seq ltac:(by destruct download) Hs Hq) as (_ & _ & d & _ & _ & E).
    pose proof (buildSSRC_word (if download then 2 else 1) serverID seq ltac:(by destruct download) Hs Hq) as W. rewrite <- Ek in E, W.
    eexists. split; [exact E|]. unfold sdpFromInvite.
    rewrite (offer_lines_read _ ssrc _ sec _ _ (fetch_lines_ok ip name start end_ port Hi Wn Hp ltac:(lia) ltac:(lia)) W Hsec E (read_fetch_head ip name start end_ port Hi Wn Hp Ha Hb _)).
    cbn. rewrite bool_decide_eq_false_2 by done. by rewrite (proj2 (Z.leb_gt port 0)) by lia.
Qed.

Lemma cascade_offers_witness : exists n,
  sdpFromInvite (buildLiveSDP (txt "10.0.0.1") 30000 MediaTCPActive (SSRC false (txt "34020000002000000001") 7) false (txt "GB35114-B")) =
  Some (mkInviteSDP (txt "10.0.0.1") 9 true n (txt "Play") 0 0 false (txt "0") (txt "0")).
Proof.
  destruct (cascade_offers (txt "10.0.0.1") 30000 (txt "34020000002000000001") 7 (txt "GB35114-B")) as [L _];
    [by apply word_lit|lia|by repeat constructor|lia|right; by apply word_lit|].
  destruct (L MediaTCPActive) as (n & _ & E). exists n. exact E.
Defined.
