(* ===== verification/CascadeDialogs.v ===== *)
(** The dialogs of the cascade with its upper platforms: the tables of live forwards and of
    playbacks over any sequence of INVITEs, BYEs and teardowns
    ([platform/cascade/media.go]). *)

From S2P Require Import Prelude GoStrings GoText.
From S2P Require Import Sdp Cascade CascadeChannels CascadeMedia.
From S2P Require SipMsg.
#[local] Open Scope string_scope.
#[local] Open Scope list_scope.
Open Scope Z_scope.

(** ** Steps *)

Definition no_dialogs : media_state := mkMediaState ∅ ∅ 0.

Section Dialogs.

Context {D : Type} `{Store D}.

(** What changes the tables: the handlers, one at a time, a teardown of a session that was
    ever made, a pump that ends, and [Stop]. *)
Inductive dialog_step : media_state -> media_state -> Prop :=
  | step_invite Cameras e (db : option D) us req s : dialog_step s (snd (onInvite Cameras e db us req s))
  | step_bye req s : dialog_step s (snd (onBye req s))
  | step_torn_down ms s : dialog_step s (torn_down ms s)
  | step_finished ps s : dialog_step s (finished ps s)
  | step_stop s : dialog_step s (snd (stop_all s)).

Definition dialogs (s : media_state) : Prop := rtc dialog_step no_dialogs s.

(** Every entry is its dialog's, and no two forwards serve one channel. *)
Record tables_ok (s : media_state) : Prop := mkTablesOk {
  tk_calls : forall id ms, sessions s !! id = Some ms -> ms_callID ms = id;
  tk_channels : forall id id' ms ms', sessions s !! id = Some ms -> sessions s !! id' = Some ms' -> ms_channel ms = ms_channel ms' -> id = id';
  tk_playbacks : forall id ps, playbacks s !! id = Some ps -> ps_callID ps = id;
}.

(** ** One step *)

Lemma tables_fewer s s' : sessions s' ⊆ sessions s -> playbacks s' ⊆ playbacks s -> tables_ok s -> tables_ok s'.
Proof.
  intros S P [C N K]. split.
  - intros id ms E. apply C. by eapply lookup_weaken.
  - intros id id' ms ms' E E'. apply N; by eapply lookup_weaken.
  - intros id ps E. apply K. by eapply lookup_weaken.
Qed.

Lemma superseded_lookup callID channelID s id : sessions (supersede callID channelID s) !! id =
  ms ← sessions s !! id; if bool_decide (id <> callID /\ ms_channel ms = channelID) then None else Some ms.
Proof.
  unfold supersede. cbn. destruct (sessions s !! id) as [ms|] eqn:E; cbn.
  - case_bool_decide as B.
    + apply map_lookup_filter_None. right. intros x Ex N. by rewrite E in Ex; injection Ex as <-.
    + apply map_lookup_filter_Some. by split.
  - apply map_lookup_filter_None. by left.
Qed.

Lemma superseded_in callID channelID s ms : In ms (superseded callID channelID s) <-> exists id, sessions s !! id = Some ms /\ id <> callID /\ ms_channel ms = channelID.
Proof.
  unfold superseded. rewrite in_map_iff. split.
  - intros ([id x] & <- & I). rewrite <- list_elem_of_In in I. apply elem_of_map_to_list, map_lookup_filter_Some in I as [E [N C]]. by exists id.
  - intros (id & E & N & C). exists (id, ms). split; [done|]. rewrite <- list_elem_of_In. by apply elem_of_map_to_list, map_lookup_filter_Some.
Qed.

Definition is_answer (ef : media_effect) : bool := match ef with Answer _ _ _ _ => true | _ => false end.

(** What an INVITE on a channel can do to the forwards, whatever comes of it. *)
Record invited_on (callID channelID : text) (s : media_state) (es : list media_effect) (s' : media_state) : Prop := mkInvitedOn {
  (** Other channels are left alone. *)
  iv_others : forall id ms, sessions s !! id = Some ms -> ms_channel ms <> channelID -> sessions s' !! id = Some ms;
  (** What left the table is torn down, and nothing else is. *)
  iv_gone : forall id ms, sessions s !! id = Some ms -> sessions s' !! id = Some ms \/ GoTeardown ms ∈ es;
  iv_torn : forall ms, GoTeardown ms ∈ es -> exists id, id <> callID /\ sessions s !! id = Some ms /\ sessions s' !! id = None /\ ms_channel ms = channelID;
  (** What is started is in the table, alone on its channel, and nothing else came in. *)
  iv_started : forall ms, GoRun ms ∈ es -> ms_callID ms = callID /\ ms_channel ms = channelID /\ sessions s' !! callID = Some ms;
  iv_new : forall id ms, sessions s' !! id = Some ms -> sessions s !! id = Some ms \/ (id = callID /\ GoRun ms ∈ es);
  (** The request is answered once, and a forward runs only behind a 200. *)
  iv_answer : exists code reason body route, List.filter is_answer es = [Answer code reason body route] /\
    (code <> 200 -> forall ms, GoRun ms ∉ es);
  iv_alone : forall ms, GoRun ms ∈ es -> forall id x, sessions s' !! id = Some x -> ms_channel x = channelID -> id = callID;
}.

(** Effects that touch no forward. *)
Definition aside (ef : media_effect) : bool := match ef with GoTeardown _ | GoRun _ | CloseForward _ => false | _ => true end.

Lemma aside_no es ef : forallb aside es = true -> aside ef = false -> ef ∉ es.
Proof. intros F N I. rewrite forallb_forall in F. rewrite F in N; [done|]. by rewrite <- list_elem_of_In. Qed.

Lemma invited_aside callID channelID s s' es code reason body : sessions s' = sessions s -> forallb aside es = true ->
  List.filter is_answer es = [reply code reason body] -> invited_on callID channelID s es s'.
Proof.
  intros S F A. split; rewrite ?S.
  - done.
  - by left.
  - intros ms I. by apply aside_no in I.
  - intros ms I. by apply aside_no in I.
  - by left.
  - exists code, reason, body, None. split; [exact A|]. intros _ ms. by apply aside_no.
  - intros ms I. by apply aside_no in I.
Qed.

Lemma tables_invited callID channelID s es s' : invited_on callID channelID s es s' ->
  (forall id ps, playbacks s' !! id = Some ps -> ps_callID ps = id) -> tables_ok s -> tables_ok s'.
Proof.
  intros I P [C N K]. split; [| |done].
  - intros id ms E. destruct (iv_new _ _ _ _ _ I id ms E) as [E'|[-> R]]; [by apply C|]. by apply (iv_started _ _ _ _ _ I).
  - assert (O : forall ms id x, GoRun ms ∈ es -> sessions s' !! callID = Some ms -> sessions s' !! id = Some x -> ms_channel ms = ms_channel x -> callID = id).
    { intros ms id x R E Ex Cx. symmetry. destruct (iv_started _ _ _ _ _ I ms R) as (_ & Ch & _). eapply (iv_alone _ _ _ _ _ I ms R); [exact Ex|congruence]. }
    intros id id' ms ms' E E' Ec. destruct (iv_new _ _ _ _ _ I id ms E) as [Eo|[-> R]]; [|by eapply O]. destruct (iv_new _ _ _ _ _ I id' ms' E') as [Eo'|[-> R]]; [|].
    + by eapply N.
    + symmetry. by eapply O.
Qed.

Lemma torn_none (l : list mediaSession) ef : In ef (map GoTeardown l) -> exists ms, ef = GoTeardown ms /\ In ms l.
Proof. rewrite in_map_iff. intros (ms & <- & I). by exists ms. Qed.

(** After the supersede: refused, or a new forward. *)
Lemma invited_refused callID channelID s rest code reason body : forallb aside rest = true -> List.filter is_answer rest = [reply code reason body] ->
  invited_on callID channelID s (map GoTeardown (superseded callID channelID s) ++ rest) (supersede callID channelID s).
Proof.
  intros F A. split.
  - intros id ms E N. rewrite superseded_lookup, E. cbn. rewrite bool_decide_eq_false_2; [done|]. by intros [_ X].
  - intros id ms E. rewrite superseded_lookup, E. cbn. case_bool_decide as B; [right|by left]. apply elem_of_app. left.
    apply list_elem_of_In, in_map, superseded_in. exists id. tauto.
  - intros ms I. apply elem_of_app in I as [I|I]; [|by apply aside_no in I]. apply list_elem_of_In, torn_none in I as (x & [= <-] & I).
    apply superseded_in in I as (id & E & N & C). exists id. split; [done|]. split; [done|]. split; [|done]. rewrite superseded_lookup, E. cbn. by rewrite bool_decide_eq_true_2.
  - intros ms I. apply elem_of_app in I as [I|I]; [|by apply aside_no in I]. apply list_elem_of_In, torn_none in I as (x & E & _). discriminate E.
  - intros id ms E. left. rewrite superseded_lookup in E. destruct (sessions s !! id) as [x|]; [|done]. cbn in E. by case_bool_decide; simplify_eq.
  - exists code, reason, body, None. split.
    + rewrite filter_app, A. assert (List.filter is_answer (map GoTeardown (superseded callID channelID s)) = []) as ->; [|done]. generalize (superseded callID channelID s) as l. induction l as [|x l IH]; [done|exact IH].
    + intros _ ms I. apply elem_of_app in I as [I|I]; [|by apply aside_no in I]. apply list_elem_of_In, torn_none in I as (x & E & _). discriminate E.
  - intros ms I. apply elem_of_app in I as [I|I]; [|by apply aside_no in I]. apply list_elem_of_In, torn_none in I as (x & E & _). discriminate E.
Qed.

Lemma invited_accepted callID channelID s s' tcp sdp route ms : sessions s !! callID = None -> ms_callID ms = callID -> ms_channel ms = channelID ->
  sessions s' = <[callID := ms]> (sessions (supersede callID channelID s)) ->
  invited_on callID channelID s (map GoTeardown (superseded callID channelID s) ++ [OpenConn tcp; Answer 200 (txt "OK") sdp route; GoRun ms]) s'.
Proof.
  intros L Ec Eh S. destruct (invited_refused callID channelID s [OpenConn tcp; reply 200 [] []] 200 [] [] eq_refl eq_refl) as [I1 I2 I3 _ I5 _ I7].
  assert (Sup : forall id x, sessions (supersede callID channelID s) !! id = Some x -> id <> callID /\ ms_channel x <> channelID).
  { intros id x E. rewrite superseded_lookup in E. destruct (sessions s !! id) as [y|] eqn:Ly; [|done]. cbn in E. case_bool_decide as B; [done|]. injection E as ->.
    assert (Nc : id <> callID) by (intros ->; congruence). split; [done|]. intros C. by apply B. }
  assert (Run : forall x, GoRun x ∈ map GoTeardown (superseded callID channelID s) ++ [OpenConn tcp; Answer 200 (txt "OK") sdp route; GoRun ms] -> x = ms).
  { intros x I. apply elem_of_app in I as [I|I]; [apply list_elem_of_In, torn_none in I as (y & E & _); discriminate E|].
    rewrite !elem_of_cons in I. destruct I as [I|[I|[I|I]]]; [done|done|by injection I|by apply not_elem_of_nil in I]. }
  split; rewrite ?S.
  - intros id x E N. rewrite lookup_insert_ne by (intros <-; congruence). by apply I1.
  - intros id x E. rewrite lookup_insert_ne by (intros <-; congruence). destruct (I2 id x E) as [|I]; [by left|right].
    apply elem_of_app in I as [I|I]; [apply elem_of_app; by left|]. rewrite !elem_of_cons in I. destruct I as [I|[I|I]]; [done|done|by apply not_elem_of_nil in I].
  - intros x I. destruct (I3 x) as (id & Hi & E & Gone & C).
    { apply elem_of_app in I as [I|I]; [apply elem_of_app; by left|]. rewrite !elem_of_cons in I. destruct I as [I|[I|[I|I]]]; try done. by apply not_elem_of_nil in I. }
    exists id. by rewrite lookup_insert_ne.
  - intros x I. apply Run in I as ->. by rewrite lookup_insert_eq.
  - intros id x E. destruct (decide (id = callID)) as [->|Nc].
    + rewrite lookup_insert_eq in E. injection E as <-. right. split; [done|]. apply elem_of_app. right. by do 2 right; left.
    + rewrite lookup_insert_ne in E by done. destruct (I5 id x E) as [|[-> _]]; [by left|done].
  - exists 200, (txt "OK"), sdp, route. split; [|done]. rewrite filter_app. generalize (superseded callID channelID s) as l. induction l as [|y l IH]; [done|exact IH].
  - intros _ _ id x E C. destruct (decide (id = callID)) as [|N1]; [done|]. rewrite lookup_insert_ne in E by done. by apply Sup in E as [_ X].
Qed.

(** ** The handler *)

Lemma invited_before callID channelID s s1 ef es s' : sessions s1 = sessions s -> aside ef = true -> is_answer ef = false ->
  invited_on callID channelID s1 es s' -> invited_on callID channelID s (ef :: es) s'.
Proof.
  intros S A N [I1 I2 I3 I4 I5 (code & reason & body & route & I6 & I6') I7]. rewrite S in *.
  assert (In' : forall x, aside x = false -> x ∈ ef :: es -> x ∈ es) by (intros x X I; apply elem_of_cons in I as [->|I]; [congruence|done]).
  split.
  - done.
  - intros id ms E. destruct (I2 id ms E); [by left|right; by right].
  - intros ms I. apply I3, In'; done.
  - intros ms I. apply I4, In'; done.
  - intros id ms E. destruct (I5 id ms E) as [|[-> I]]; [by left|right; split; [done|by right]].
  - exists code, reason, body, route. cbn [List.filter]. rewrite N. split; [done|]. intros X ms I. apply (I6' X ms), In'; done.
  - intros ms I. apply (I7 ms), In'; done.
Qed.

Lemma accept_on Cameras e us callID channelID cameraID sd act req s : sessions s !! callID = None ->
  invited_on callID channelID s (fst (accept_invite Cameras e us callID channelID cameraID sd act req s)) (snd (accept_invite Cameras e us callID channelID cameraID sd act req s)).
Proof.
  intros L. unfold accept_invite. destruct (negb _); [by apply (invited_refused _ _ _ _ 500 (txt "Internal Error") [])|].
  destruct (negotiate _ _ _) as [| |v]; cbn [fst snd]; [|by apply (invited_refused _ _ _ _ 488 (txt "Not Acceptable Here") [])|]; by apply invited_accepted.
Qed.

Lemma forward_on Cameras e (db : option D) us callID channelID sd req s : sessions s !! callID = None ->
  invited_on callID channelID s (fst (forward_invite Cameras e db us callID channelID sd req s)) (snd (forward_invite Cameras e db us callID channelID sd req s)).
Proof.
  intros L. unfold forward_invite. destruct (cameraOfChannel channelID db) as [cameraID|]; [|by eapply invited_aside].
  destruct (match cameraInfo Cameras cameraID with Some _ => _ | None => _ end); [by eapply invited_aside|]. destruct (Hub e cameraID); [by apply accept_on|].
  destruct (EnsureHubActive e) as [activate|]; [|by eapply invited_aside]. destruct (activate cameraID); [|by eapply invited_aside].
  pose proof (accept_on Cameras e us callID channelID cameraID sd true req s L) as A. destruct (accept_invite _ _ _ _ _ _ _ _ _ _) as [es s1]. cbn [fst snd] in *.
  by apply (invited_before _ _ s s).
Qed.

Lemma playback_on e (db : option D) us callID channelID sd req s :
  invited_on callID channelID s (fst (onPlaybackInvite e db us callID channelID sd req s)) (snd (onPlaybackInvite e db us callID channelID sd req s)).
Proof.
  unfold onPlaybackInvite. destruct (cameraOfChannel channelID db) as [cameraID|]; [|by eapply invited_aside].
  destruct (negb (sd_hasT sd)); [by eapply invited_aside|]. destruct (sd_t1 sd <=? sd_t0 sd); [by eapply invited_aside|].
  destruct (match playbackRecordings _ _ _ _ with Some [] => true | _ => false end); [by eapply invited_aside|]. destruct (negb (listenUDP e)); [by eapply invited_aside|].
  destruct (negotiate _ _ _); cbn [fst snd]; by eapply invited_aside.
Qed.

Lemma invite_on Cameras e (db : option D) us req s :
  invited_on (default [] (rq_CallID req)) (snd (reqIDs req)) s (fst (onInvite Cameras e db us req s)) (snd (onInvite Cameras e db us req s)).
Proof.
  unfold onInvite. set (callID := default [] (rq_CallID req)). set (channelID := snd (reqIDs req)). destruct (sdpFromInvite (rq_body req)) as [sd|]; [|by eapply invited_aside].
  destruct (SipMsg.EqualFold _ _ || SipMsg.EqualFold _ _); [apply playback_on|]. destruct (sessions s !! callID) as [ms|] eqn:L; [by eapply invited_aside|].
  destruct (playbacks s !! callID) as [ps|]; [|by apply forward_on]. destruct (sd_hasT sd && _ && _); [by eapply invited_aside|].
  match goal with |- context [let (_, _) := ?x in _] => destruct x as [es s1] eqn:Q end.
  assert (F : invited_on callID channelID (s <| playbacks := delete callID (playbacks s) |>) (fst (es, s1)) (snd (es, s1))) by (rewrite <- Q; by apply forward_on).
  by eapply invited_before; [|done|done|exact F].
Qed.

(** ** Every sequence *)

Definition keyed (s : media_state) : Prop := forall id ps, playbacks s !! id = Some ps -> ps_callID ps = id.

Lemma keyed_insert s s' id ps : keyed s -> ps_callID ps = id -> playbacks s' = <[id := ps]> (playbacks s) -> keyed s'.
Proof. intros K E P i x L. rewrite P in L. destruct (decide (i = id)) as [->|N]; [rewrite lookup_insert_eq in L; by injection L as <-|rewrite lookup_insert_ne in L by done; by apply K]. Qed.

Lemma keyed_delete s id : keyed s -> keyed (s <| playbacks := delete id (playbacks s) |>).
Proof. intros K i x L. cbn in L. apply lookup_delete_Some in L as [_ L]. by apply K. Qed.

Lemma forward_keyed Cameras e (db : option D) us callID channelID sd req s : keyed s -> keyed (snd (forward_invite Cameras e db us callID channelID sd req s)).
Proof.
  intros K. unfold forward_invite. destruct (cameraOfChannel channelID db) as [cameraID|]; [|done].
  assert (A : forall act, keyed (snd (accept_invite Cameras e us callID channelID cameraID sd act req s))).
  { intros act. unfold accept_invite. destruct (negb _); [exact K|]. destruct (negotiate _ _ _); exact K. }
  destruct (match cameraInfo Cameras cameraID with Some _ => _ | None => _ end); [done|]. destruct (Hub e cameraID); [apply A|].
  destruct (EnsureHubActive e) as [activate|]; [|done]. destruct (activate cameraID); [|done].
  specialize (A true). destruct (accept_invite _ _ _ _ _ _ _ _ _ _) as [es s1]. exact A.
Qed.

Lemma invite_keyed Cameras e (db : option D) us req s : keyed s -> keyed (snd (onInvite Cameras e db us req s)).
Proof.
  intros K. unfold onInvite. destruct (sdpFromInvite (rq_body req)) as [sd|]; [|done]. destruct (SipMsg.EqualFold _ _ || SipMsg.EqualFold _ _).
  - unfold onPlaybackInvite. destruct (cameraOfChannel _ db) as [cameraID|]; [|done]. destruct (negb (sd_hasT sd)); [done|]. destruct (sd_t1 sd <=? sd_t0 sd); [done|].
    destruct (match playbackRecordings _ _ _ _ with Some [] => true | _ => false end); [done|]. destruct (negb (listenUDP e)); [done|].
    destruct (negotiate _ _ _); try done; (eapply (keyed_insert s _ _ _ K); [|reflexivity]; reflexivity).
  - destruct (sessions s !! _); [done|]. destruct (playbacks s !! _) as [ps|]; [|by apply forward_keyed]. destruct (sd_hasT sd && _ && _); [done|].
    match goal with |- context [let (_, _) := ?x in _] => destruct x as [es s1] eqn:Q end. change s1 with (snd (es, s1)). rewrite <- Q. by apply forward_keyed, keyed_delete.
Qed.

Lemma step_tables s s' : dialog_step s s' -> tables_ok s -> tables_ok s'.
Proof.
  intros S T. destruct S as [Cameras e db us req s|req s|ms s|ps s|s].
  - eapply tables_invited; [apply invite_on| |exact T]. apply invite_keyed. exact (tk_playbacks s T).
  - eapply tables_fewer; [| |exact T]; apply delete_subseteq.
  - eapply tables_fewer; [| |exact T]; [apply delete_subseteq|done].
  - eapply tables_fewer; [| |exact T]; [done|apply delete_subseteq].
  - eapply tables_fewer; [| |exact T]; apply map_empty_subseteq.
Qed.

Lemma dialogs_tables s : dialogs s -> tables_ok s.
Proof.
  intros R. assert (T : tables_ok no_dialogs) by (split; intros *; cbn; rewrite lookup_empty; discriminate). unfold dialogs in R.
  induction R as [|x y z S R IH]; [done|]. apply IH. by apply (step_tables x).
Qed.

(** Over any sequence of INVITEs, BYEs, teardowns and stops no two live forwards serve
    one channel. An INVITE is answered exactly once and touches no other channel; what
    leaves the table is torn down and what is torn down has left it; a forward runs only
    behind a 200 and is then the only one of its channel. A repeated INVITE of a live
    dialog gets the answer of the first and starts nothing; a BYE closes what the table
    holds of its dialog, which is then gone from both tables. *)
Theorem live_dialogs s : dialogs s ->
  tables_ok s /\
  (forall Cameras e (db : option D) us req,
     invited_on (default [] (rq_CallID req)) (snd (reqIDs req)) s (fst (onInvite Cameras e db us req s)) (snd (onInvite Cameras e db us req s))) /\
  (forall Cameras e (db : option D) us req sd ms, sessions s !! default [] (rq_CallID req) = Some ms -> sdpFromInvite (rq_body req) = Some sd ->
     SipMsg.EqualFold (sd_name sd) (txt "Playback") = false -> SipMsg.EqualFold (sd_name sd) (txt "Download") = false ->
     onInvite Cameras e db us req s = ([reply 200 (txt "OK") (ms_sdpBody ms)], s)) /\
  (forall req, let id := default [] (rq_CallID req) in let (es, s') := onBye req s in
     (forall ms, CloseForward ms ∈ es <-> sessions s !! id = Some ms) /\ (forall ps, FinishPlayback ps false ∈ es <-> playbacks s !! id = Some ps) /\
     sessions s' = delete id (sessions s) /\ playbacks s' = delete id (playbacks s)).
Proof.
  intros R. split; [by apply dialogs_tables|]. split; [intros; apply invite_on|]. split.
  - intros Cameras e db us req sd ms L Sd N1 N2. unfold onInvite. by rewrite Sd, N1, N2, L.
  - intros req id. unfold onBye. fold id. split; [|split; [|done]].
    + intros ms. destruct (sessions s !! id) as [x|], (playbacks s !! id) as [y|]; cbn; set_solver.
    + intros ps. destruct (sessions s !! id) as [x|], (playbacks s !! id) as [y|]; cbn; set_solver.
Qed.

Lemma playback_accepted e (db : option D) us callID channelID sd req s ps : GoPump ps ∈ fst (onPlaybackInvite e db us callID channelID sd req s) ->
  exists sdp, onPlaybackInvite e db us callID channelID sd req s =
    ([OpenConn false; reply 200 (txt "OK") sdp; GoPump ps], s <| playbacks := <[callID := ps]> (playbacks s) |> <| objects := S (objects s) |>) /\
    ps_id ps = objects s /\ ps_callID ps = callID.
Proof.
  assert (No : forall code reason body x, GoPump ps ∈ fst ([reply code reason body], x : media_state) -> False) by (intros *; cbn; by rewrite list_elem_of_singleton).
  unfold onPlaybackInvite. destruct (cameraOfChannel channelID db) as [cameraID|]; [|intros I; by apply No in I].
  destruct (negb (sd_hasT sd)); [intros I; by apply No in I|]. destruct (sd_t1 sd <=? sd_t0 sd); [intros I; by apply No in I|].
  destruct (match playbackRecordings _ _ _ _ with Some [] => true | _ => false end); [intros I; by apply No in I|]. destruct (negb (listenUDP e)); [intros I; by apply No in I|].
  destruct (negotiate _ _ _); cbn [fst]; rewrite !elem_of_cons; intros I; destruct I as [I|[I|I]]; try discriminate I; try (by apply not_elem_of_nil in I);
    destruct I as [I|I]; try (by apply not_elem_of_nil in I); injection I as ->; eexists; split; reflexivity || (split; reflexivity).
Qed.

(** A playback whose INVITE is repeated runs twice and one of the two cannot be stopped.
    The check that is to answer a repeated INVITE of a playback sits behind the branch
    that takes every playback INVITE, so that the second one starts another pump under the
    same Call-ID and ends no pump. When the first pump ends it takes the entry of the
    second out of the table, and the BYE that follows closes nothing. *)
Theorem playback_orphaned Cameras e (db : option D) us req s sd first second :
  sdpFromInvite (rq_body req) = Some sd -> SipMsg.EqualFold (sd_name sd) (txt "Playback") || SipMsg.EqualFold (sd_name sd) (txt "Download") = true ->
  playbacks s !! default [] (rq_CallID req) = Some first -> ps_callID first = default [] (rq_CallID req) ->
  let (es, s1) := onInvite Cameras e db us req s in
  GoPump second ∈ es ->
  (forall ps b, FinishPlayback ps b ∉ es) /\ playbacks s1 !! default [] (rq_CallID req) = Some second /\ ps_id second = objects s /\
  forall bye, rq_CallID bye = rq_CallID req -> forall ps b, FinishPlayback ps b ∉ fst (onBye bye (finished first s1)).
Proof.
  intros Sd Pb L Ec. unfold onInvite. rewrite Sd, Pb. set (id := default [] (rq_CallID req)) in *.
  destruct (onPlaybackInvite e db us id (snd (reqIDs req)) sd req s) as [es s1] eqn:Q. intros I.
  destruct (playback_accepted e db us id (snd (reqIDs req)) sd req s second) as (sdp & E & Ei & Ec2); [by rewrite Q|]. rewrite Q in E. injection E as -> ->.
  split; [intros ps b F; rewrite !elem_of_cons in F; destruct F as [F|[F|[F|F]]]; try discriminate F; by apply not_elem_of_nil in F|].
  split; [apply lookup_insert_eq|]. split; [exact Ei|]. intros bye Eb ps b F. unfold onBye, finished in F. cbn in F. rewrite Eb, Ec in F. fold id in F. rewrite lookup_delete_eq in F.
  destruct (sessions s !! id) as [ms|]; cbn in F; rewrite !elem_of_cons in F; destruct F as [F|F]; try discriminate F; [destruct F as [F|F]; [discriminate F|]|]; by apply not_elem_of_nil in F.
Qed.

End Dialogs.

(** ** A channel with two upper dialogs, one after the other *)

Definition demo_network : media_env :=
  mkMediaEnv (fun _ => true) None false (fun _ _ => false) true (fun _ => (txt "10.0.0.2", 5061)) (fun _ => None) [].

Definition demo_channel : text := channel_id demo_cascade 7.
Definition demo_rows : option list_store := Some ([mkCascadeChannel (txt "hall") demo_channel (txt "hall") 0], [mkRecording (txt "hall") (txt "/rec/1") (txt "h264") 1700000000000 1700000600000]).

Definition demo_invite (callID : string) (body : text) : request :=
  mkRequest (txt "INVITE") (Some (txt "3401", [])) (Some (demo_channel, [])) (Some (txt callID)) None None (fun _ => []) body.

Definition demo_offer (transport : text) : text := buildLiveSDP (txt "10.0.0.1") 30000 transport (txt "0200000001") false [].
Definition demo_fetch : text := buildFetchSDP (txt "10.0.0.1") (txt "Playback") 1700000000 1700000300 30002 (txt "1200000001") [].

Definition demo_handle (callID : string) (body : text) : media_state -> list media_effect * media_state :=
  onInvite demo_cameras demo_network demo_rows (buildUppers demo_cascade) (demo_invite callID body).

Definition demo_first : media_state := snd (demo_handle "call-1" (demo_offer MediaUDP) no_dialogs).

(** An INVITE that is refused (its TCP dial fails) has taken the channel's forward down all
    the same. *)
Example refused_but_superseded :
  exists ms, sessions demo_first !! txt "call-1" = Some ms /\
  demo_handle "call-2" (demo_offer MediaTCPPassive) demo_first = ([GoTeardown ms; reply 500 (txt "Internal Error") []], mkMediaState ∅ ∅ 1).
Proof. eexists. split; vm_compute; reflexivity. Qed.

Lemma demo_handled callID body s : dialogs s -> dialogs (snd (demo_handle callID body s)).
Proof. intros R. eapply rtc_r; [exact R|apply step_invite]. Qed.

Lemma live_dialogs_witness : let s := snd (demo_handle "call-2" (demo_offer MediaUDP) demo_first) in
  tables_ok s /\ map_to_list (ms_channel <$> sessions s) = [(txt "call-2", demo_channel)].
Proof.
  intros s. split; [|vm_compute; reflexivity].
  refine (proj1 (live_dialogs s _)). apply demo_handled, demo_handled, rtc_refl.
Defined.

(** A playback, and its INVITE again. *)
Definition demo_fetching : request := demo_invite "call-3" demo_fetch.
Definition demo_dialog : text := default [] (rq_CallID demo_fetching).
#[local] Notation demo_fetched s := (onInvite demo_cameras demo_network demo_rows (buildUppers demo_cascade) demo_fetching s).

Definition demo_playing (s : media_state) : Prop :=
  (exists first, playbacks s !! demo_dialog = Some first /\ ps_callID first = demo_dialog /\ ps_id first = 0%nat) /\ objects s = 1%nat /\
  exists x y second l, fst (demo_fetched s) = x :: y :: GoPump second :: l.

Lemma demo_plays : demo_playing (snd (demo_fetched no_dialogs)).
Proof. vm_compute. split; [eexists; repeat split|]. split; [reflexivity|]. do 4 eexists. reflexivity. Qed.

Lemma demo_fetch_read : exists sd, sdpFromInvite (rq_body demo_fetching) = Some sd /\
  SipMsg.EqualFold (sd_name sd) (txt "Playback") || SipMsg.EqualFold (sd_name sd) (txt "Download") = true.
Proof. vm_compute. eexists. split; reflexivity. Qed.

Lemma playback_orphaned_witness : exists s first second, playbacks s !! demo_dialog = Some first /\
    playbacks (snd (demo_fetched s)) !! demo_dialog = Some second /\ ps_id first = 0%nat /\ ps_id second = 1%nat.
Proof.
  destruct demo_plays as ((first & L & Lc & Li) & O & x & y & second & l & Q). revert L O Q. generalize (snd (demo_fetched no_dialogs)) as s. intros s L O Q.
  exists s. destruct demo_fetch_read as (sd & Sd & Nm).
  pose proof (playback_orphaned demo_cameras demo_network demo_rows (buildUppers demo_cascade) demo_fetching s sd first second Sd Nm L Lc) as P.
  destruct (onInvite _ _ _ _ _ s) as [es s1]. cbn [fst snd] in Q |- *.
  destruct P as (_ & P1 & P2 & _); [rewrite Q; do 2 right; left|].
  exists first, second. split; [exact L|]. split; [exact P1|]. split; [exact Li|]. by rewrite P2.
Defined.
